(* ===== verification/_CoqProject ===== *)
-Q . S2P
Prelude.v
Monad.v
StreamParser.v
LinkParser.v
LinkDb.v
ConfigDb.v
HalowRx.v
Halow.v
HalowWatchdog.v
Lwrb.v
AckWire.v
AckPeer.v
AckState.v
AckRate.v
AckConfig.v
AckTx.v
AckRx.v
AckTick.v
AckInv.v
AckQuiet.v
AckSafe.v
AckSafeTx.v
AckSafeRx.v
AckSafeTick.v
AckGovern.v
AckRelease.v
AckOps.v
AckProps.v
AckDeadline.v
PkgHandler.v
PkgProps.v
Dhcpd.v
Chload.v
Lbt.v
GainPilot.v
Net.v
TcpServer.v
Flash.v
Littlefs.v
OtaCodec.v
Ota.v
UartSlip.v
Http.v
Nearby.v
NetLog.v
Utils.v
Cca.v
Statistics.v
Tftp.v
Telemetry.v
Node.v
ConfigApi.v
