(* ===== verification/Prelude.v ===== *)
(** * RNode-HaLow firmware: a verification development

    The program under [src/] is the firmware of an 802.11ah ("HaLow") radio
    that carries Reticulum packets between a TCP client and the air.  Its own
    code is [src/src] and [src/inc]; the rest of the repository (SDK, lwIP,
    FlashDB, littlefs, cJSON, crypto) is third-party.  This library models
    the own code file by file and proves what makes it correct.

    ** How the parts fit

    TCP bytes -> [StreamParser] (HDLC framing, back-pressure) -> [PkgHandler]
    (parse with [LinkParser], register in [LinkDb], clamp the MTU, choose a
    destination) -> [Ack*] (bundling, windows, retransmission, rate control)
    -> [Halow] (rate fit, MCS10 fragmentation, TX budget) -> LMAC.  Frames
    from the air take the way back: [HalowRx] (reassembly) -> [Ack*] (ACKs,
    duplicates) -> [PkgHandler] (take bundles apart, register) ->
    [StreamParser] (escape) -> TCP.  [ConfigDb] stores the settings of all
    parts, [HalowWatchdog] watches the transmitter, and [Dhcpd] leases
    addresses to the clients of the network side.

    ** Files and the code they model

    - [Prelude]: machine integers ([u8] .. [u64], [i8] .. [i32]), record
      update, buffers with checked accesses ([rd], [wr]), tactics.
    - [Monad]: stateful C as a state monad whose [None] is undefined
      behaviour, with the total-correctness predicate [wp].
    - [StreamParser]: [rns/stream_parser.c].  [LinkParser]: [rns/link_parser.c]
      and [rns/link_utils.c]; SHA-256 is a parameter.  [LinkDb]:
      [rns/link_db.c] (table and hash chains).  [ConfigDb]: [configdb.c] over
      the class [Kvdb] of the key-value store.
    - [HalowRx], [Halow], [HalowWatchdog]: [halow.c]; the LMAC is a parameter.
    - [AckWire], [AckPeer], [AckState], [AckRate], [AckConfig], [AckTx],
      [AckRx], [AckTick]: [halow_ack.c], formats first, then the tables and
      primitives ([ack_state] is the module's statics), rate control,
      settings, transmit path, receive path, periodic work.
    - [AckInv], [AckQuiet], [AckSafe], [AckSafeTx], [AckSafeRx],
      [AckSafeTick]: the invariant of the reliability layer and its
      preservation by every operation.  [AckOps], [AckProps]: all operations
      under every interleaving.  [AckGovern]: the rate governor;
      [AckRelease]: what an ACK frees; [AckDeadline]: lifetimes.
    - [PkgHandler], [PkgProps]: [halow_pkg_handler.c] and its properties.
    - [Dhcpd]: [dhcpd_core.c].
    - [Lwrb]: the byte ring [sdk/lib/lwrb/lwrb.c] that the firmware queues
      through.  [Chload]: [halow_chload.c].  [Lbt]: [halow_lbt.c].
      [GainPilot]: [halow_gain_pilot.c].  [Net]: [net_ip.c], [net_dhcpd.c].
    - [TcpServer]: [tcp_server.c] and the decoder glue of [main.c]; lwIP is the
      class [TcpEnv], the allocator's heap a finite map.
    - [Flash]: [ports/fal_norflash_port.c], [sdk/hal/spi_nor.c], the accesses of
      [fal_partition.c] and the block device of [ports/littlefs_port.c] over
      the laws of a NOR chip.  [Littlefs]: mounting and formatting of
      [ports/littlefs_port.c]; the library is the class [Littlefs], a program
      of accesses to the block device for each request.
    - [OtaCodec], [Ota]: CRC-32 and base64; [ota/ota.c], [ota/ota_lfs.c] and
      [config_page/config_api_ota.c], on top of [Flash] and [Littlefs].
    - [UartSlip]: [uart_slip.c], with the receive-interrupt enable of
      [driver/uart/hguart.c].
    - [Http]: [config_page/config_page.c] and [config_page/config_api_dispatch.c];
      connection, files, JSON and the handlers are classes.
    - [Nearby]: [nearby_detect.c].  [NetLog]: [net_log.c].  [Utils]: [utils.c].
      [Cca]: [halow_cca.c].  [Statistics]: [statistics.c].  [Tftp]:
      [tftp_server.c].  [Telemetry]: [telemetry.c]; lwIP is the class [MqttEnv].
    - [Node]: [mac_generator.c], and the radio receive handler, the TCP hand-over,
      the boot counter and the boot button of [main.c].
    - [ConfigApi]: the settings POST handlers and the choice of listed links
      of [config_page/config_api_calls.c].

    ** What is shown

    - Safety: no operation of the modelled parts reads or writes outside a
      buffer, loops for ever, or breaks its tables, for any bytes from TCP,
      the radio or the network and any stored settings.
    - Integrity end to end: frames are decoded exactly once under every
      schedule of refusals; everything the reliability layer transmits was
      submitted to it or is an acknowledgement; a received bundle reaches the
      client as its packets, less those that memory or the ring refused; a
      fragmented message arrives as sent.
    - Acknowledgement: the receive window is exact, an ACK frees exactly the
      frames that arrived (none 32 to 63 positions late), the service leaves
      no frame that has outlived its slot.
    - Refinement: the link table implements a finite map; the fast path of
      the decoder is the slow one.
    - Network side: the server's queues and sockets, the web server's routes
      and files, the SLIP ring, the log queue, and the telemetry sender with
      its time-outs; a firmware upload is confirmed exactly if the flash holds
      contents of the announced CRC.
    - Settings: what loading and sanitizing guarantee, and that a POST of the
      network settings leaves a DHCP server only where it may run.
    - Rate control, TX budget, settings and leases stay within their bounds
      and contracts.
    - Errors: the defects the model exposes are stated as theorems or
      evaluated examples next to the definitions they concern.  Where one of
      them limits a property, the doc comment of the property names it.

    ** Concurrency, time and fuel

    The reliability layer's tasks share one mutex, and release it around each
    transmission.  [AckState.ack_unlock] applies an arbitrary transformation
    [others] of the state at that point; the theorems quantify over every
    [others] that keeps the invariant, and [AckOps] instantiates it with runs
    of the layer's own operations, nested to any depth.  The four operations
    that take no mutex run at the same points only.  The SLIP task and its
    interrupt, and the log task and its senders, are step relations with one
    step per access to shared data; the callbacks of the telemetry sender
    arrive as the environment chooses wherever it waits or looks.
    Clocks are values of the environment, read where the code reads them.

    Arithmetic that C leaves undefined is a fault ([None]) where the code can
    be shown to avoid it, and otherwise a parameter the theorems quantify over
    ([shl_oob] for over-long shifts, [int_oob] for signed overflow).  The rows
    of the web interface that a build option adds depend on [HttpBuild].

    Loops over tables are structural.  The remaining loops take fuel: the
    decoder one unit per input byte, a hash chain the 256 values of its index
    type, the DHCP options one unit per byte.  Each theorem about such
    a loop proves that a result is returned, so the fuel suffices.

    Floating-point is IEEE arithmetic on [SpecFloat] where the code computes
    with it ([Lbt], [Statistics], [ConfigApi]).  Hardware registers, radio
    timing, logging and memory layout are not modelled; allocation failure is,
    where the code tests it.

    ** Not modelled

    The GET handlers of the web interface and the JSON text of telemetry print
    values into a cJSON tree; [device.c], [indication.c], [halow_debug.c] and
    [test.c] drive pins, print tables and send test frames; the start-up
    sequence of [main.c] sets clocks and calls each part's initialisation.
    The vendored cJSON and the SDK (lwIP, littlefs, FlashDB, the LMAC, crypto,
    drivers) are third-party: what the code relies on of them is a class or a
    parameter with named laws.  Interrupt latency and task stacks are outside the model. *)

From stdpp Require Export base numbers list gmap.
From Stdlib Require Export ZArith Lia.

#[global] Open Scope Z_scope.

(** ** Machine integers

    A C integer is a [Z]; the conversion functions are the truncations the
    compiler inserts when a value is stored in, or cast to, a narrower type. *)

Definition u8  (x : Z) : Z := x mod 2 ^ 8.
Definition u16 (x : Z) : Z := x mod 2 ^ 16.
Definition u32 (x : Z) : Z := x mod 2 ^ 32.
Definition u64 (x : Z) : Z := x mod 2 ^ 64.
Definition i8  (x : Z) : Z := (x + 2 ^ 7) mod 2 ^ 8 - 2 ^ 7.
Definition i16 (x : Z) : Z := (x + 2 ^ 15) mod 2 ^ 16 - 2 ^ 15.
Definition i32 (x : Z) : Z := (x + 2 ^ 31) mod 2 ^ 32 - 2 ^ 31.

(** Ranges of the unsigned types, as decidable predicates. *)
Definition is_u8  (x : Z) : Prop := 0 <= x < 2 ^ 8.
Definition is_u16 (x : Z) : Prop := 0 <= x < 2 ^ 16.
Definition is_u32 (x : Z) : Prop := 0 <= x < 2 ^ 32.
Definition is_u64 (x : Z) : Prop := 0 <= x < 2 ^ 64.

#[export] Instance is_u8_dec x : Decision (is_u8 x).
Proof. unfold is_u8. apply _. Defined.
#[export] Instance is_u16_dec x : Decision (is_u16 x).
Proof. unfold is_u16. apply _. Defined.
#[export] Instance is_u32_dec x : Decision (is_u32 x).
Proof. unfold is_u32. apply _. Defined.

(** A buffer of bytes. *)
Definition is_bytes (l : list Z) : Prop := Forall is_u8 l.

#[export] Instance is_bytes_dec l : Decision (is_bytes l).
Proof. unfold is_bytes. apply _. Defined.

(** Closed decidable facts, by evaluation. *)
Ltac by_eval :=
  refine (bool_decide_eq_true_1 _ _); vm_compute; reflexivity.

Ltac unfold_words :=
  unfold u8, u16, u32, u64, i8, i16, i32, is_u8, is_u16, is_u32, is_u64 in *.

(** Linear arithmetic over wrapped integers. *)
Ltac word_lia :=
  unfold_words;
  change (2 ^ 7) with 128 in *; change (2 ^ 8) with 256 in *;
  change (2 ^ 15) with 32768 in *; change (2 ^ 16) with 65536 in *;
  change (2 ^ 31) with 2147483648 in *; change (2 ^ 32) with 4294967296 in *;
  change (2 ^ 64) with 18446744073709551616 in *;
  Z.to_euclidean_division_equations; lia.

Lemma u8_range x : is_u8 (u8 x).
Proof. word_lia. Qed.
Lemma u16_range x : is_u16 (u16 x).
Proof. word_lia. Qed.
Lemma u32_range x : is_u32 (u32 x).
Proof. word_lia. Qed.
Lemma u64_range x : is_u64 (u64 x).
Proof. word_lia. Qed.
Lemma u8_small x : is_u8 x -> u8 x = x.
Proof. word_lia. Qed.
Lemma u16_small x : is_u16 x -> u16 x = x.
Proof. word_lia. Qed.
Lemma u32_small x : is_u32 x -> u32 x = x.
Proof. word_lia. Qed.
Lemma u64_small x : is_u64 x -> u64 x = x.
Proof. word_lia. Qed.

Create HintDb words.
Create Rewrite HintDb words.
#[export] Hint Resolve u8_range u16_range u32_range u64_range : words.
#[export] Hint Rewrite u8_small u16_small u32_small u64_small using word_lia : words.

(** ** Record update

    [r <| f := v |>] is the C assignment [r.f = v]; [r <| f ::= g |>] is a
    read-modify-write of one field. A record opts in with an [Eta] instance
    that lists its projections. *)

Class Eta (R : Type) := eta : R -> R.
Class Setter {R T : Type} (p : R -> T) := set : (T -> T) -> R -> R.
Arguments set {R T} p {_} _ _ : simpl never.

Ltac solve_setter p :=
  let f := fresh "f" in
  let r := fresh "r" in
  intros f r;
  let e := eval hnf in (eta r) in
  let e' := eval pattern (p r) in e in
  match e' with ?g _ => exact (g (f (p r))) end.

#[export] Hint Extern 0 (Setter ?p) => solve_setter p : typeclass_instances.

#[warnings="-postfix-notation-not-level-1"]
Notation "r <| f ::= g |>" := (set f g r)
  (at level 14, left associativity, format "r  <| f  ::=  g |>").
#[warnings="-postfix-notation-not-level-1"]
Notation "r <| f := v |>" := (set f (fun _ => v) r)
  (at level 14, left associativity, format "r  <| f  :=  v |>").
#[warnings="-postfix-notation-not-level-1"]
Notation "r <| f1 ; f2 ::= g |>" := (set f1 (set f2 g) r)
  (at level 14, left associativity, format "r  <| f1 ;  f2  ::=  g |>").
#[warnings="-postfix-notation-not-level-1"]
Notation "r <| f1 ; f2 := v |>" := (set f1 (set f2 (fun _ => v)) r)
  (at level 14, left associativity, format "r  <| f1 ;  f2  :=  v |>").

(** [rsimpl] evaluates every projection of an updated record, with an
    equation over a generic record, so that conversion and unification never
    compare two chains of updates. *)
Ltac subst_term_goal E x y :=
  pattern x;
  lazymatch goal with |- ?G x => refine (@eq_ind_r _ y G _ x E) end;
  cbv beta.
Ltac subst_term_hyp E x y H :=
  pattern x in H;
  lazymatch type of H with ?G x =>
    let H' := fresh in
    pose proof (@eq_ind _ x G H y E) as H'; cbv beta in H'; clear H; rename H' into H
  end.
Ltac rsimpl_goal :=
  match goal with
  | |- context [?p (@set ?R ?T ?q ?i ?f ?r)] =>
      first
        [ constr_eq p q;
          let E := fresh in assert (E : forall g z, p (@set R T q i g z) = g (p z)) by (intros; reflexivity);
          let y := eval cbv beta in (f (p r)) in
          subst_term_goal (E f r) (p (@set R T q i f r)) y; clear E
        | let E := fresh in assert (E : forall g z, p (@set R T q i g z) = p z) by (intros; reflexivity);
          subst_term_goal (E f r) (p (@set R T q i f r)) (p r); clear E
        | change (p (@set R T q i f r)) with (p r)
        | change (p (@set R T q i f r)) with (f (p r)); cbv beta ]
  end.
Ltac rsimpl_hyp :=
  match goal with
  | H : context [?p (@set ?R ?T ?q ?i ?f ?r)] |- _ =>
      first
        [ constr_eq p q;
          let E := fresh in assert (E : forall g z, p (@set R T q i g z) = g (p z)) by (intros; reflexivity);
          let y := eval cbv beta in (f (p r)) in
          subst_term_hyp (E f r) (p (@set R T q i f r)) y H; clear E
        | let E := fresh in assert (E : forall g z, p (@set R T q i g z) = p z) by (intros; reflexivity);
          subst_term_hyp (E f r) (p (@set R T q i f r)) (p r) H; clear E
        | change (p (@set R T q i f r)) with (p r) in H
        | change (p (@set R T q i f r)) with (f (p r)) in H; cbv beta in H ]
  end.
Ltac rsimpl := repeat rsimpl_goal; repeat rsimpl_hyp.

(** ** Bit fields as arithmetic *)

Lemma lor_add a b : Z.land a b = 0 -> Z.lor a b = a + b.
Proof. intros H. by rewrite Z.add_nocarry_lxor, Z.lxor_lor. Qed.

Lemma land_shiftl_small a b n : 0 <= n -> 0 <= a < 2 ^ n -> Z.land a (Z.shiftl b n) = 0.
Proof.
  intros Hn Ha. apply Z.bits_inj'. intros k Hk.
  rewrite Z.land_spec, Z.shiftl_spec, Z.bits_0 by done.
  destruct (decide (k < n)) as [Hkn|Hkn].
  - by rewrite (Z.testbit_neg_r b) by lia; rewrite andb_false_r.
  - rewrite <-(Z.mod_small a (2 ^ n)) by done. by rewrite Z.mod_pow2_bits_high by lia.
Qed.

(** [hi << n | lo] with a low part that fits. *)
Lemma lor_shiftl_add a b n :
  0 <= n -> 0 <= a < 2 ^ n -> Z.lor a (Z.shiftl b n) = a + b * 2 ^ n.
Proof.
  intros Hn Ha. rewrite lor_add by by apply land_shiftl_small. by rewrite Z.shiftl_mul_pow2.
Qed.

Lemma land_low x n : 0 <= n -> Z.land x (2 ^ n - 1) = x mod 2 ^ n.
Proof. intros Hn. rewrite <-Z.land_ones by done. by rewrite Z.ones_equiv, <-Z.sub_1_r. Qed.

Lemma land_0xFF x : Z.land x 255 = x mod 256.
Proof. exact (land_low x 8 ltac:(lia)). Qed.
Lemma land_0xFFFF x : Z.land x 65535 = x mod 65536.
Proof. exact (land_low x 16 ltac:(lia)). Qed.

Lemma shiftr_div x n : 0 <= n -> Z.shiftr x n = x / 2 ^ n.
Proof. apply Z.shiftr_div_pow2. Qed.

(** ** Buffers indexed by C integers

    [rd]/[wr] are [buf[i]] and [buf[i] = v]; [None] is an access outside the
    buffer (undefined behaviour in C), which the theorems exclude. *)

Definition rd {A} (l : list A) (i : Z) : option A :=
  if decide (0 <= i) then l !! Z.to_nat i else None.

Definition wr {A} (l : list A) (i : Z) (v : A) : option (list A) :=
  if decide (0 <= i < Z.of_nat (length l)) then Some (<[Z.to_nat i := v]> l) else None.

(** [memcpy(dst, &l[i], n)] *)
Definition rd_n {A} (l : list A) (i n : Z) : option (list A) :=
  if decide (0 <= i /\ 0 <= n /\ i + n <= Z.of_nat (length l))
  then Some (take (Z.to_nat n) (drop (Z.to_nat i) l)) else None.

(** [memcpy(&l[i], v, length v)] *)
Definition wr_n {A} (l : list A) (i : Z) (v : list A) : option (list A) :=
  if decide (0 <= i /\ i + Z.of_nat (length v) <= Z.of_nat (length l))
  then Some (take (Z.to_nat i) l ++ v ++ drop (Z.to_nat i + length v) l) else None.

Lemma rd_Some {A} (l : list A) i x :
  rd l i = Some x <-> 0 <= i /\ l !! Z.to_nat i = Some x.
Proof. unfold rd. case_decide; naive_solver. Qed.

Lemma rd_in_bounds {A} (l : list A) i :
  0 <= i < Z.of_nat (length l) -> exists x, rd l i = Some x /\ l !! Z.to_nat i = Some x.
Proof.
  intros Hi. destruct (lookup_lt_is_Some_2 l (Z.to_nat i)) as [x Hx]; [lia|].
  exists x. split; [|done]. apply rd_Some. split; [lia|done].
Qed.

Lemma wr_in_bounds {A} (l : list A) i v :
  0 <= i < Z.of_nat (length l) -> wr l i v = Some (<[Z.to_nat i := v]> l).
Proof. intros H. unfold wr. by rewrite decide_True. Qed.

Lemma rd_n_in_bounds {A} (l : list A) i n :
  0 <= i -> 0 <= n -> i + n <= Z.of_nat (length l) ->
  rd_n l i n = Some (take (Z.to_nat n) (drop (Z.to_nat i) l)).
Proof. intros. unfold rd_n. by rewrite decide_True. Qed.

Lemma wr_n_in_bounds {A} (l : list A) i v :
  0 <= i -> i + Z.of_nat (length v) <= Z.of_nat (length l) ->
  wr_n l i v = Some (take (Z.to_nat i) l ++ v ++ drop (Z.to_nat i + length v) l).
Proof. intros. unfold wr_n. by rewrite decide_True. Qed.

Lemma wr_n_length {A} (l : list A) i v l' :
  wr_n l i v = Some l' -> length l' = length l.
Proof.
  unfold wr_n. case_decide; intros [= <-]. rewrite !length_app, length_take, length_drop. lia.
Qed.

Lemma wr_n_app {A} (l r : list A) i v :
  0 <= i -> i + Z.of_nat (length v) <= Z.of_nat (length l) ->
  wr_n (l ++ r) i v = (fun l' => l' ++ r) <$> wr_n l i v.
Proof.
  intros Hi Hl. rewrite !wr_n_in_bounds by (rewrite ?length_app; lia). cbn. f_equal.
  rewrite take_app_le, drop_app_le by lia. by rewrite <-!app_assoc.
Qed.

Lemma wr_app {A} (l r : list A) i v :
  0 <= i < Z.of_nat (length l) -> wr (l ++ r) i v = (fun l' => l' ++ r) <$> wr l i v.
Proof.
  intros Hi. rewrite !wr_in_bounds by (rewrite ?length_app; lia). cbn. f_equal.
  by rewrite insert_app_l by lia.
Qed.

Lemma wr_length {A} (l : list A) i v l' : wr l i v = Some l' -> length l' = length l.
Proof. unfold wr. case_decide; [|done]. intros [= <-]. by rewrite length_insert. Qed.

Lemma is_bytes_lookup l i x : is_bytes l -> l !! i = Some x -> is_u8 x.
Proof. intros Hl Hi. eapply Forall_lookup_1; eauto. Qed.

(** Case analysis on the next step of an option-valued program. *)
Ltac option_step :=
  match goal with
  | |- context [@mbind option _ _ _ _ ?o] => destruct o eqn:?; cbn [mbind option_bind]
  end.

(** Case analysis on a boolean comparison of the goal. *)
Ltac no_test a := lazymatch a with context [if _ then _ else _] => fail | _ => idtac end.
Ltac z_case :=
  match goal with
  | |- context [?a <? ?b] => no_test a; no_test b; destruct (Z.ltb_spec a b)
  | |- context [?a <=? ?b] => no_test a; no_test b; destruct (Z.leb_spec a b)
  | |- context [?a =? ?b] => no_test a; no_test b; destruct (Z.eqb_spec a b)
  end.

(** Boolean comparisons among the hypotheses, as propositions. *)
Ltac bools_to_props :=
  repeat match goal with
  | H : (_ <=? _) = true |- _ => apply Z.leb_le in H
  | H : (_ <=? _) = false |- _ => apply Z.leb_gt in H
  | H : (_ <? _) = true |- _ => apply Z.ltb_lt in H
  | H : (_ <? _) = false |- _ => apply Z.ltb_ge in H
  | H : (_ =? _) = true |- _ => apply Z.eqb_eq in H
  | H : (_ =? _) = false |- _ => apply Z.eqb_neq in H
  | H : negb _ = true |- _ => apply negb_true_iff in H
  | H : negb _ = false |- _ => apply negb_false_iff in H
  | H : _ && _ = true |- _ => apply andb_true_iff in H as [? ?]
  | H : _ || _ = false |- _ => apply orb_false_iff in H as [? ?]
  end.
