(* ===== verification/Monad.v ===== *)
(** * Stateful C code: a state monad with faults

    [M S A] is a C statement sequence over the state [S] that yields an [A];
    [None] is undefined behaviour (an access outside a buffer, exhausted
    fuel).  [wp m Q s] says that [m] started in [s] does not fault and ends
    with a result and state satisfying [Q]: a total-correctness statement. *)

From S2P Require Import Prelude.

Definition M (S A : Type) : Type := S -> option (A * S).

#[export] Instance M_ret S : MRet (M S) := fun A a s => Some (a, s).
#[export] Instance M_bind S : MBind (M S) := fun A B k m s =>
  match m s with Some (a, s') => k a s' | None => None end.
#[export] Instance M_fmap S : FMap (M S) := fun A B f m s =>
  match m s with Some (a, s') => Some (f a, s') | None => None end.

Definition gets {S A} (f : S -> A) : M S A := fun s => Some (f s, s).
Definition modify {S} (f : S -> S) : M S unit := fun s => Some (tt, f s).
Definition lift {S A} (o : option A) : M S A := fun s =>
  match o with Some a => Some (a, s) | None => None end.
Definition when {S} (b : bool) (m : M S unit) : M S unit :=
  if b then m else mret tt.

(** [for x in l: body x] *)
Fixpoint mfor {S A} (l : list A) (body : A -> M S unit) : M S unit :=
  match l with
  | [] => mret tt
  | a :: l => body a;; mfor l body
  end.

(** A loop with an early exit: [body] returns [Some r] to [return r]. *)
Fixpoint mfind {S A R} (l : list A) (body : A -> M S (option R)) : M S (option R) :=
  match l with
  | [] => mret None
  | a :: l => r ← body a;
              match r with Some r => mret (Some r) | None => mfind l body end
  end.

Definition wp {S A} (m : M S A) (Q : A -> S -> Prop) (s : S) : Prop :=
  match m s with Some (a, s') => Q a s' | None => False end.

Section Wp.
Context {S : Type}.
Implicit Types s : S.

Lemma wp_elim {A} (m : M S A) Q s :
  wp m Q s -> exists a s', m s = Some (a, s') /\ Q a s'.
Proof. unfold wp. destruct (m s) as [[a s']|]; [eauto|done]. Qed.

Lemma wp_eq {A} (m : M S A) Q s a s' : wp m Q s -> m s = Some (a, s') -> Q a s'.
Proof. unfold wp. intros H E. by rewrite E in H. Qed.

Lemma wp_mono {A} (m : M S A) (Q Q' : A -> S -> Prop) s :
  wp m Q s -> (forall a s', Q a s' -> Q' a s') -> wp m Q' s.
Proof. unfold wp. destruct (m s) as [[a s']|]; eauto. Qed.

Lemma wp_bind {A B} (m : M S A) (k : A -> M S B) Q s :
  wp m (fun a s' => wp (k a) Q s') s -> wp (m ≫= k) Q s.
Proof. unfold wp, mbind, M_bind. by destruct (m s) as [[a s']|]. Qed.

Lemma wp_ret {A} (a : A) (Q : A -> S -> Prop) s : Q a s -> wp (mret a) Q s.
Proof. done. Qed.

Lemma wp_gets {A} (f : S -> A) (Q : A -> S -> Prop) s : Q (f s) s -> wp (gets f) Q s.
Proof. done. Qed.

Lemma wp_modify (f : S -> S) (Q : unit -> S -> Prop) s : Q tt (f s) -> wp (modify f) Q s.
Proof. done. Qed.

Lemma wp_lift {A} (o : option A) (a : A) (Q : A -> S -> Prop) s :
  o = Some a -> Q a s -> wp (lift o) Q s.
Proof. by intros ->. Qed.

Lemma wp_when b (m : M S unit) (Q : unit -> S -> Prop) s :
  (b = true -> wp m Q s) -> (b = false -> Q tt s) -> wp (when b m) Q s.
Proof. destruct b; cbn; [|intros _ H; apply wp_ret]; eauto. Qed.

Lemma wp_mfor {A} (l : list A) (body : A -> M S unit) (I : S -> Prop) (Q : unit -> S -> Prop) s :
  I s -> (forall a s', a ∈ l -> I s' -> wp (body a) (fun _ => I) s') ->
  (forall s', I s' -> Q tt s') -> wp (mfor l body) Q s.
Proof.
  revert s. induction l as [|a l IH]; intros s Hs Hb HQ; cbn [mfor].
  - by apply wp_ret, HQ.
  - apply wp_bind. eapply wp_mono; [apply Hb; [constructor|done]|].
    cbn. intros _ s' Hs'. apply IH; [done| |done]. intros. apply Hb; [by constructor|done].
Qed.

(** A loop over consecutive indices, with an invariant that counts them. *)
Lemma wp_mfor_seq (n m : nat) (body : nat -> M S unit) (I : nat -> S -> Prop) (Q : unit -> S -> Prop) s :
  I m s -> (forall i s', (m <= i < m + n)%nat -> I i s' -> wp (body i) (fun _ => I (Datatypes.S i)) s') ->
  (forall s', I (m + n)%nat s' -> Q tt s') -> wp (mfor (List.seq m n) body) Q s.
Proof.
  revert m s. induction n as [|n IH]; intros m s Hs Hb HQ; cbn [List.seq mfor].
  - apply wp_ret, HQ. by rewrite Nat.add_0_r.
  - apply wp_bind. eapply wp_mono; [apply Hb; [lia|done]|]. cbv beta. intros _ s' Hs'.
    apply IH; [done| |intros s2 H2; apply HQ; by rewrite <-Nat.add_succ_comm]. intros. apply Hb; [lia|done].
Qed.

Lemma wp_mfind {A R} (l : list A) (body : A -> M S (option R)) (I : S -> Prop)
    (Q : option R -> S -> Prop) s :
  I s ->
  (forall a s', a ∈ l -> I s' -> wp (body a) (fun r s'' =>
     match r with Some r => Q (Some r) s'' | None => I s'' end) s') ->
  (forall s', I s' -> Q None s') -> wp (mfind l body) Q s.
Proof.
  revert s. induction l as [|a l IH]; intros s Hs Hb HQ; cbn [mfind].
  - by apply wp_ret, HQ.
  - apply wp_bind. eapply wp_mono; [apply Hb; [constructor|done]|].
    cbn. intros [r|] s' Hs'; [done|]. apply IH; [done| |done]. intros. apply Hb; [by constructor|done].
Qed.
End Wp.

(** One step of symbolic execution; stops at calls and loops. *)
Ltac wp_step :=
  lazymatch goal with
  | |- wp (_ ≫= _) _ _ => apply wp_bind
  | |- wp (mret _) _ _ => apply wp_ret
  | |- wp (gets _) _ _ => apply wp_gets
  | |- wp (modify _) _ _ => apply wp_modify
  | |- wp (when _ _) _ _ => apply wp_when; intros ?
  | |- wp (match ?x with _ => _ end) _ _ => destruct x eqn:?
  end; cbv beta.
Ltac wp_steps := repeat (wp_step; cbv zeta).
