(* ===== verification/StreamParser.v ===== *)
(** * The HDLC-style stream codec of [src/rns/stream_parser.c]

    [rns_stream_decoder_process] turns TCP bytes into Reticulum frames and
    stops, without losing a byte, when the radio path answers
    [HALOW_ACK_TX_THROTTLE]; [rns_stream_escape_size],
    [rns_stream_escape_write] and [rns_stream_encode_frame] are the inverse
    direction.  The bytes [frame_buffer[0 .. frame_len)] are the list
    [frame]: nothing ever reads the buffer beyond [frame_len]. *)

From S2P Require Import Prelude.

Definition RNS_STREAM_FLAG : Z := 0x7E.
Definition RNS_STREAM_ESC : Z := 0x7D.
Definition RNS_STREAM_ESC_MASK : Z := 0x20.
(** [sys_config.h] overrides the default of [rns/defines.h]. *)
Definition RNS_STREAM_MAX_FRAME_SIZE : Z := 1024 * 2.
Definition HALOW_ACK_TX_THROTTLE : Z := -7.

Inductive rns_stream_state :=
  | RNS_STREAM_STATE_WAIT_FRAME_START
  | RNS_STREAM_STATE_READ_FRAME
  | RNS_STREAM_STATE_READ_ESCAPED_BYTE.

#[export] Instance rns_stream_state_eq_dec : EqDecision rns_stream_state.
Proof. solve_decision. Defined.

Record decoder := mkDecoder {
  state : rns_stream_state;
  held : bool;
  frame : list Z;   (** [frame_buffer[0 .. frame_len)] *)
}.
#[export] Instance eta_decoder : Eta decoder :=
  fun r => mkDecoder (state r) (held r) (frame r).

Definition frame_len (d : decoder) : Z := Z.of_nat (length (frame d)).

Definition is_plain (b : Z) : bool :=
  negb ((b =? RNS_STREAM_FLAG) || (b =? RNS_STREAM_ESC)).

(** [rns_stream_decoder_init] (the callback is a parameter of the section
    below) and [rns_stream_decoder_reset]. *)
Definition rns_stream_decoder_init : decoder :=
  mkDecoder RNS_STREAM_STATE_WAIT_FRAME_START false [].

Definition rns_stream_decoder_reset (d : decoder) : decoder :=
  d <| state := RNS_STREAM_STATE_WAIT_FRAME_START |> <| frame := [] |>
    <| held := false |>.

Definition resync (d : decoder) : decoder :=
  d <| state := RNS_STREAM_STATE_WAIT_FRAME_START |> <| frame := [] |>.

Definition start_frame (d : decoder) : decoder :=
  d <| state := RNS_STREAM_STATE_READ_FRAME |> <| frame := [] |>.

(** The inner [while( src < end )] of the fast path: copies a run of plain
    bytes.  [None] is the overflow branch, which leaves [src] on the byte
    that did not fit. *)
Fixpoint fast_copy (src : list Z) (fr : list Z) : list Z * option (list Z) :=
  match src with
  | [] => ([], Some fr)
  | b :: src' =>
      if negb (is_plain b) then (src, Some fr)
      else if RNS_STREAM_MAX_FRAME_SIZE <=? Z.of_nat (length fr) then (src, None)
      else fast_copy src' (fr ++ [b])
  end.

Section Process.
(** The [on_frame] callback and the state [W] of the rest of the firmware
    it runs in.  It receives the frame buffer by reference: the second
    component of its result is what it leaves there (the link-request path
    rewrites the MTU field in place). *)
Context {W : Type}.
Variable on_frame : option (list Z -> W -> Z * list Z * W).

Definition rns_stream_emit_frame (d : decoder) (w : W) : Z * decoder * W :=
  match on_frame with
  | None => (0, d, w)
  | Some cb =>
      if frame_len d =? 0 then (0, d, w)
      else let '(r, fr, w') := cb (frame d) w in (r, d <| frame := fr |>, w')
  end.

Definition rns_stream_decoder_retry_held (d : decoder) (w : W) : Z * decoder * W :=
  if negb (held d) then (0, d, w)
  else
    let '(r, d, w) := rns_stream_emit_frame d w in
    if r =? HALOW_ACK_TX_THROTTLE then (r, d, w)
    else (r, start_frame (d <| held := false |>), w).

(** What the code after the fast path does with one byte.  [inr] is the
    [return r] on THROTTLE. *)
Definition generic_byte (byte : Z) (d : decoder) (w : W)
  : (decoder * W) + (Z * decoder * W) :=
  if byte =? RNS_STREAM_FLAG then
    if bool_decide (state d <> RNS_STREAM_STATE_WAIT_FRAME_START) && (0 <? frame_len d) then
      let '(r, d, w) := rns_stream_emit_frame d w in
      if r =? HALOW_ACK_TX_THROTTLE then inr (r, d <| held := true |>, w)
      else inl (start_frame d, w)
    else inl (start_frame d, w)
  else match state d with
  | RNS_STREAM_STATE_WAIT_FRAME_START => inl (d, w)
  | st =>
      if bool_decide (st <> RNS_STREAM_STATE_READ_ESCAPED_BYTE) && (byte =? RNS_STREAM_ESC)
      then inl (d <| state := RNS_STREAM_STATE_READ_ESCAPED_BYTE |>, w)
      else
        let byte := if decide (st = RNS_STREAM_STATE_READ_ESCAPED_BYTE)
                    then u8 (Z.lxor byte RNS_STREAM_ESC_MASK) else byte in
        let d := d <| state := RNS_STREAM_STATE_READ_FRAME |> in
        if RNS_STREAM_MAX_FRAME_SIZE <=? frame_len d then inl (resync d, w)
        else inl (d <| frame ::= fun fr => fr ++ [byte] |>, w)
  end.

(** The [for( i = 0; i < data_len; i++ )] loop.  The index [i] is kept as
    the unread tail [src = data[i .. data_len)]; the loop returns the tail
    that [*consumed] leaves to the caller.  [fuel] bounds the iterations:
    [length src] is enough ([process_loop_total]). *)
Fixpoint process_loop (fuel : nat) (d : decoder) (src : list Z) (w : W)
  : option (Z * list Z * decoder * W) :=
  match src with
  | [] => Some (0, [], d, w)
  | byte :: _ =>
    match fuel with
    | O => None
    | S fuel =>
      let '(src, d) :=
        if bool_decide (state d = RNS_STREAM_STATE_READ_FRAME) && is_plain byte then
          let '(src', r) := fast_copy src (frame d) in
          (src', match r with Some fr => d <| frame := fr |> | None => resync d end)
        else (src, d) in
      match src with
      | [] => Some (0, [], d, w)
      | byte :: tl =>
        match generic_byte byte d w with
        | inl (d, w) => process_loop fuel d tl w
        | inr (r, d, w) => Some (r, tl, d, w)
        end
      end
    end
  end.

(** [rns_stream_decoder_process] with [data_len = length data]: the return
    value, [*consumed], and the new state. *)
Definition rns_stream_decoder_process (d : decoder) (data : list Z) (w : W)
  : option (Z * Z * decoder * W) :=
  if decide (data = []) then Some (0, 0, d, w)
  else
    let '(r, d, w) :=
      if held d then
        let '(r, d, w) := rns_stream_emit_frame d w in
        if r =? HALOW_ACK_TX_THROTTLE then (r, d, w)
        else (0, start_frame (d <| held := false |>), w)
      else (0, d, w) in
    if r =? HALOW_ACK_TX_THROTTLE then Some (r, 0, d, w)
    else
      '(r, rest, d, w) ← process_loop (length data) d data w;
      Some (r, Z.of_nat (length data) - Z.of_nat (length rest), d, w).
End Process.

(** ** Encoder *)

Definition needs_escape (b : Z) : bool :=
  (b =? RNS_STREAM_FLAG) || (b =? RNS_STREAM_ESC).

(** [rns_stream_escape_size]: [n] starts at [payload_len] and counts one
    more for every special byte, in 32 bits. *)
Definition rns_stream_escape_size (payload : list Z) : Z :=
  fold_left (fun n b => if needs_escape b then u32 (n + 1) else n)
            payload (u32 (Z.of_nat (length payload))).

(** [rns_stream_escape_write]: the bytes [dst[0], dst[1], ...] in the order
    of the stores [dst[o++] = ...]. *)
Fixpoint rns_stream_escape_write (payload : list Z) : list Z :=
  match payload with
  | [] => []
  | b :: payload' =>
      if needs_escape b
      then RNS_STREAM_ESC :: u8 (Z.lxor b RNS_STREAM_ESC_MASK)
           :: rns_stream_escape_write payload'
      else b :: rns_stream_escape_write payload'
  end.

(** [rns_stream_encode_frame]: [dst = None] is the NULL buffer; otherwise
    [dst] is the buffer of [dst_cap] bytes, updated in place.  A store past
    the end of [dst] would be an out-of-bounds write: [None]. *)
Definition store_at (dst : list Z) (ofs : nat) (bs : list Z) : option (list Z) :=
  if decide (ofs + length bs <= length dst)%nat
  then Some (take ofs dst ++ bs ++ drop (ofs + length bs) dst)
  else None.

Definition rns_stream_encode_frame (dst : option (list Z)) (dst_cap : Z) (payload : list Z)
  : option (Z * option (list Z)) :=
  let esc := rns_stream_escape_size payload in
  let n := u32 (esc + 2) in
  match dst with
  | None => Some (n, None)
  | Some buf =>
      if dst_cap <? n then Some (n, dst)
      else
        buf ← store_at buf 0 [RNS_STREAM_FLAG];
        buf ← store_at buf 1 (rns_stream_escape_write payload);
        buf ← store_at buf (Z.to_nat (n - 1)) [RNS_STREAM_FLAG];
        Some (n, Some buf)
  end.

(** [rns_stream_encode_alloc]: [malloc] is a parameter that says whether an
    allocation of a given size succeeds (the new bytes are unspecified, here
    given by [junk]). *)
Definition rns_stream_encode_alloc (malloc : Z -> bool) (junk : Z)
    (payload : option (list Z)) (out_ok : bool) : option (Z * option (list Z)) :=
  match payload with
  | None => Some (-1, None)
  | Some p =>
      if negb out_ok || (length p =? 0)%nat then Some (-1, None)
      else
        let n := u32 (rns_stream_escape_size p + 2) in
        if negb (malloc n) then Some (-2, None)
        else
          let buf := replicate (Z.to_nat n) junk in
          buf ← store_at buf 0 [RNS_STREAM_FLAG];
          buf ← store_at buf 1 (rns_stream_escape_write p);
          buf ← store_at buf (Z.to_nat (n - 1)) [RNS_STREAM_FLAG];
          Some (0, Some buf)
  end.

(** The bytes of one frame on the wire. *)
Definition encode (payload : list Z) : list Z :=
  [RNS_STREAM_FLAG] ++ rns_stream_escape_write payload ++ [RNS_STREAM_FLAG].
Arguments encode : simpl never.

(** ** Specification: one byte at a time, and exactly-once delivery *)

(** The decoder without the fast path: [generic_byte] folded over the input. *)
Fixpoint feed {W} (cb : option (list Z -> W -> Z * list Z * W))
    (d : decoder) (src : list Z) (w : W) : Z * list Z * decoder * W :=
  match src with
  | [] => (0, [], d, w)
  | b :: tl =>
      match generic_byte cb b d w with
      | inl (d, w) => feed cb d tl w
      | inr (r, d, w) => (r, tl, d, w)
      end
  end.

(** A callback that always takes the frame, and one that refuses according
    to a schedule (the head [true] means: answer THROTTLE now). *)
Definition accept_cb (fr : list Z) (log : list (list Z)) : Z * list Z * list (list Z) :=
  (0, fr, log ++ [fr]).

Definition sched_cb (fr : list Z) (w : list bool * list (list Z))
  : Z * list Z * (list bool * list (list Z)) :=
  match w.1 with
  | true :: s => (HALOW_ACK_TX_THROTTLE, fr, (s, w.2))
  | false :: s => (0, fr, (s, w.2 ++ [fr]))
  | [] => (0, fr, ([], w.2 ++ [fr]))
  end.

(** The contract of the caller: after a THROTTLE, feed the unconsumed tail
    again; when nothing is left, retry the held frame. *)
Fixpoint pump {W} (cb : option (list Z -> W -> Z * list Z * W)) (fuel : nat)
    (d : decoder) (data : list Z) (w : W) : option (decoder * W) :=
  match fuel with
  | O => None
  | S fuel =>
      if decide (data = []) then
        let '(r, d, w) := rns_stream_decoder_retry_held cb d w in
        if r =? HALOW_ACK_TX_THROTTLE then pump cb fuel d [] w else Some (d, w)
      else
        '(r, consumed, d, w) ← rns_stream_decoder_process cb d data w;
        if r =? HALOW_ACK_TX_THROTTLE
        then pump cb fuel d (drop (Z.to_nat consumed) data) w
        else Some (d, w)
  end.

(** ** Fast path *)

Lemma is_plain_not_flag b : is_plain b = true -> (b =? RNS_STREAM_FLAG) = false.
Proof. unfold is_plain. intros H. by destruct (b =? RNS_STREAM_FLAG). Qed.

Lemma is_plain_not_esc b : is_plain b = true -> (b =? RNS_STREAM_ESC) = false.
Proof.
  unfold is_plain. intros H.
  destruct (b =? RNS_STREAM_FLAG), (b =? RNS_STREAM_ESC); done.
Qed.

Section FastPath.
Context {W : Type}.
Variable cb : option (list Z -> W -> Z * list Z * W).

(** A plain byte inside a frame is appended, or resynchronises. *)
Lemma generic_byte_plain b d w :
  is_plain b = true -> state d = RNS_STREAM_STATE_READ_FRAME ->
  generic_byte cb b d w =
    inl (if RNS_STREAM_MAX_FRAME_SIZE <=? frame_len d then resync d
         else d <| frame ::= fun fr => fr ++ [b] |>, w).
Proof.
  intros Hb Hs. unfold generic_byte.
  rewrite (is_plain_not_flag _ Hb), (is_plain_not_esc _ Hb), Hs.
  rewrite andb_false_r. rewrite decide_False by done.
  destruct d as [st hd fr]; cbn in Hs; subst st.
  unfold frame_len, resync, set; cbn. by case_match.
Qed.

Lemma generic_byte_wait b d w :
  is_plain b = true -> state d = RNS_STREAM_STATE_WAIT_FRAME_START ->
  generic_byte cb b d w = inl (d, w).
Proof.
  intros Hb Hs. unfold generic_byte. by rewrite (is_plain_not_flag _ Hb), Hs.
Qed.

(** What the fast path leaves is what the byte-wise decoder reaches after
    the bytes it copied; on overflow the offending byte is the head of the
    remaining input and is then skipped in the WAIT state. *)
Lemma fast_copy_feed src d w :
  state d = RNS_STREAM_STATE_READ_FRAME ->
  feed cb d src w =
    let '(src', r) := fast_copy src (frame d) in
    feed cb (match r with Some fr => d <| frame := fr |> | None => resync d end) src' w.
Proof.
  revert d. induction src as [|b src IH]; intros d Hs; [by destruct d|].
  cbn [fast_copy]. destruct (is_plain b) eqn:Hb; cbn [negb].
  - cbn [feed]. rewrite (generic_byte_plain _ _ _ Hb Hs).
    unfold frame_len. case_match.
    + cbn [feed]. by rewrite generic_byte_wait.
    + by rewrite IH.
  - by destruct d.
Qed.

Lemma fast_copy_length src fr : (length (fast_copy src fr).1 <= length src)%nat.
Proof.
  revert fr. induction src as [|b src IH]; intros fr; cbn; [lia|].
  destruct (negb _); cbn; [lia|]. destruct (_ <=? _); cbn; [lia|].
  specialize (IH (fr ++ [b])). lia.
Qed.

Lemma process_loop_feed fuel d src w :
  (length src <= fuel)%nat ->
  process_loop cb fuel d src w = Some (feed cb d src w).
Proof.
  revert d src w. induction fuel as [|fuel IH]; intros d src w Hf.
  { destruct src; cbn in *; [done|lia]. }
  destruct src as [|b src]; [done|]. cbn [process_loop].
  destruct (bool_decide _ && is_plain b) eqn:Hfast.
  - apply andb_true_iff in Hfast as [Hs%bool_decide_eq_true Hb].
    rewrite (fast_copy_feed (b :: src)) by done.
    assert (length (fast_copy (b :: src) (frame d)).1 <= length (b :: src))%nat
      by apply fast_copy_length.
    destruct (fast_copy (b :: src) (frame d)) as [src' r]; cbn in *.
    destruct src' as [|b' tl]; [by destruct r|].
    cbn [feed]. destruct (generic_byte _ _ _ _) as [[d' w']|[[r' d'] w']]; [|done].
    apply IH. cbn in *. lia.
  - cbn [feed]. destruct (generic_byte _ _ _ _) as [[d' w']|[[r' d'] w']]; [|done].
    apply IH. cbn in *. lia.
Qed.
End FastPath.

(** ** Exactly-once delivery under back-pressure *)

Definition acc_feed (d : decoder) (src : list Z) (log : list (list Z))
  : decoder * list (list Z) :=
  let '(_, _, d, log) := feed (Some accept_cb) d src log in (d, log).

Lemma set_frame_id d : d <| frame := frame d |> = d.
Proof. by destruct d. Qed.

Arguments acc_feed : simpl never.

(** A complete frame waits in the buffer. *)
Definition frame_ready (d : decoder) : Prop :=
  held d = false /\ state d <> RNS_STREAM_STATE_WAIT_FRAME_START /\ frame d <> [].

Lemma frame_len_pos d : frame d <> [] <-> 0 < frame_len d.
Proof. unfold frame_len. destruct (frame d); cbn; [done|]. split; [lia|done]. Qed.

(** One byte under the schedule: the same step as the accepting callback, or
    a refusal that leaves the complete frame in the buffer. *)
Lemma generic_byte_sched b d s log :
  held d = false ->
  exists d' log', generic_byte (Some accept_cb) b d log = inl (d', log') /\ held d' = false /\
    ((exists s', (length s' <= length s)%nat /\
       generic_byte (Some sched_cb) b d (s, log) = inl (d', (s', log'))) \/
     (exists s', s = true :: s' /\ frame_ready d /\ d' = start_frame d /\
       log' = log ++ [frame d] /\
       generic_byte (Some sched_cb) b d (s, log) =
         inr (HALOW_ACK_TX_THROTTLE, d <| held := true |>, (s', log)))).
Proof.
  intros Hh. unfold generic_byte. destruct (b =? RNS_STREAM_FLAG).
  - destruct (bool_decide _ && _) eqn:Hc; [|by eauto 10].
    apply andb_true_iff in Hc as [Hst%bool_decide_eq_true Hl%Z.ltb_lt].
    unfold rns_stream_emit_frame. rewrite (proj2 (Z.eqb_neq _ 0)) by lia.
    cbn. rewrite set_frame_id. eexists _, _. split; [done|]. split; [done|].
    unfold sched_cb. destruct s as [|[] s]; cbn; rewrite ?set_frame_id.
    + left. exists []. done.
    + right. exists s. apply frame_len_pos in Hl. by repeat split.
    + left. exists s. split; [lia|done].
  - destruct (state d) eqn:Hst; [by eauto 10| |].
    all: repeat case_match; eexists _, _; (split; [done|]); (split; [by destruct d|]); eauto.
Qed.

Lemma feed_sched src d s log :
  held d = false ->
  (exists s' d' log', (length s' <= length s)%nat /\ held d' = false /\
     acc_feed d src log = (d', log') /\
     feed (Some sched_cb) d src (s, log) = (0, [], d', (s', log'))) \/
  (exists s' d1 log1 tl, (length s' < length s)%nat /\ frame_ready d1 /\
     (length tl < length src)%nat /\ tl = drop (length src - length tl) src /\
     feed (Some sched_cb) d src (s, log) =
       (HALOW_ACK_TX_THROTTLE, tl, d1 <| held := true |>, (s', log1)) /\
     acc_feed d src log = acc_feed (start_frame d1) tl (log1 ++ [frame d1])).
Proof.
  revert d s log. induction src as [|b src IH]; intros d s log Hh.
  { left. by exists s, d, log. }
  unfold acc_feed in *. cbn [feed].
  destruct (generic_byte_sched b d s log Hh)
    as (d1 & log1 & -> & Hh1 & [(s1 & Hs1 & ->)|(s1 & -> & Hr & -> & -> & ->)]).
  - destruct (IH d1 s1 log1 Hh1)
      as [(s' & d' & log' & ? & ? & ? & ?)|(s' & d2 & log2 & tl & ? & ? & ? & Htl & ? & ?)];
      [left|right].
    + exists s', d', log'. repeat split; try done. lia.
    + exists s', d2, log2, tl. split_and!; try done; cbn [length]; [lia..|].
      rewrite Nat.sub_succ_l by lia. exact Htl.
  - right. exists s1, d, log, src. split_and!; cbn [length]; try (done || lia).
    by rewrite Nat.sub_succ_l, Nat.sub_diag by lia.
Qed.

(** Resuming: the held frame goes out first, then the rest of the input. *)
Lemma process_not_held {W} (cb : option (list Z -> W -> Z * list Z * W)) d data w :
  data <> [] -> held d = false ->
  rns_stream_decoder_process cb d data w =
    let '(r, rest, d', w') := feed cb d data w in
    Some (r, Z.of_nat (length data) - Z.of_nat (length rest), d', w').
Proof.
  intros Hd Hh. unfold rns_stream_decoder_process. rewrite decide_False by done.
  rewrite Hh. cbn. rewrite process_loop_feed by done. cbn.
  by destruct (feed _ _ _ _) as [[[??]?]?].
Qed.

Lemma emit_held_sched d s log :
  frame_ready d ->
  rns_stream_emit_frame (Some sched_cb) (d <| held := true |>) (s, log) =
    match s with
    | true :: s' => (HALOW_ACK_TX_THROTTLE, d <| held := true |>, (s', log))
    | _ :: s' => (0, d <| held := true |>, (s', log ++ [frame d]))
    | [] => (0, d <| held := true |>, ([], log ++ [frame d]))
    end.
Proof.
  intros (Hh & Hs & Hf). unfold rns_stream_emit_frame.
  apply frame_len_pos in Hf. unfold frame_len in *. rsimpl.
  rewrite (proj2 (Z.eqb_neq _ 0)) by lia.
  destruct d; destruct s as [|[] s]; done.
Qed.

Lemma start_frame_held d : held d = false ->
  start_frame (d <| held := true |> <| held := false |>) = start_frame d.
Proof. destruct d; cbn; by intros ->. Qed.

(** After a pass that may stop on THROTTLE, the rest of the pump. *)
Lemma pump_after_feed n d data s log :
  (forall n', (n' < n)%nat -> forall d data s log, (length s <= n')%nat -> frame_ready d ->
    exists d' s' log', acc_feed (start_frame d) data (log ++ [frame d]) = (d', log') /\
      pump (Some sched_cb) (S n') (d <| held := true |>) data (s, log) = Some (d', (s', log'))) ->
  (length s <= n)%nat -> held d = false ->
  exists d' s' log', acc_feed d data log = (d', log') /\
    (let '(r, rest, d', w') := feed (Some sched_cb) d data (s, log) in
     if r =? HALOW_ACK_TX_THROTTLE
     then pump (Some sched_cb) n d'
            (drop (Z.to_nat (Z.of_nat (length data) - Z.of_nat (length rest))) data) w'
     else Some (d', w')) = Some (d', (s', log')).
Proof.
  intros IH Hn Hh.
  destruct (feed_sched data d s log Hh)
    as [(s' & d' & log' & ? & ? & ? & ->)|(s' & d1 & log1 & tl & ? & Hr & ? & Htl & -> & ->)].
  { by exists d', s', log'. }
  rewrite Z.eqb_refl. rewrite <-Nat2Z.inj_sub, Nat2Z.id by lia. rewrite <-Htl.
  destruct n as [|n]; [lia|]. apply (IH n); [lia|lia|done].
Qed.

Lemma pump_sched_held n d data s log :
  (length s <= n)%nat -> frame_ready d ->
  exists d' s' log', acc_feed (start_frame d) data (log ++ [frame d]) = (d', log') /\
    pump (Some sched_cb) (S n) (d <| held := true |>) data (s, log) = Some (d', (s', log')).
Proof.
  revert d data s log. induction n as [n IH] using lt_wf_ind. intros d data s log Hn Hr.
  assert (Hsf : forall s', (length s' <= length s)%nat -> exists d' s'' log',
    acc_feed (start_frame d) data (log ++ [frame d]) = (d', log') /\
    (let '(r, rest, d', w') := feed (Some sched_cb) (start_frame d) data (s', log ++ [frame d]) in
     if r =? HALOW_ACK_TX_THROTTLE
     then pump (Some sched_cb) n d'
            (drop (Z.to_nat (Z.of_nat (length data) - Z.of_nat (length rest))) data) w'
     else Some (d', w')) = Some (d', (s'', log'))).
  { intros s' Hs'. apply pump_after_feed; [done|lia|]. destruct Hr as [Hh _]. by destruct d. }
  assert (Hthr : forall s', s = true :: s' -> exists d' s'' log',
    acc_feed (start_frame d) data (log ++ [frame d]) = (d', log') /\
    pump (Some sched_cb) n (d <| held := true |>) data (s', log) = Some (d', (s'', log'))).
  { intros s' ->. cbn in Hn. destruct n as [|n]; [lia|]. apply IH; [lia|lia|done]. }
  cbn [pump]. destruct (decide (data = [])) as [->|Hd].
  - unfold rns_stream_decoder_retry_held. rsimpl. cbn [negb].
    rewrite emit_held_sched by done.
    destruct s as [|[] s]; [|by apply Hthr|]; rewrite start_frame_held by apply Hr;
      cbn; unfold acc_feed; cbn; by eauto.
  - unfold rns_stream_decoder_process. rewrite decide_False by done. rsimpl.
    rewrite emit_held_sched by done.
    destruct s as [|[] s]; [|by apply Hthr|]; rewrite start_frame_held by apply Hr; cbn -[pump feed].
    all: rewrite process_loop_feed by done; cbn -[pump feed].
    + destruct (Hsf []) as (d' & s' & log' & Ha & Hf); [done|]. exists d', s', log'.
      split; [done|]. by destruct (feed _ _ _ _) as [[[??]?]?].
    + destruct (Hsf s) as (d' & s' & log' & Ha & Hf); [cbn; lia|]. exists d', s', log'.
      split; [done|]. by destruct (feed _ _ _ _) as [[[??]?]?].
Qed.

Lemma pump_sched n d data s log :
  (length s <= n)%nat -> held d = false ->
  exists d' s' log', acc_feed d data log = (d', log') /\
    pump (Some sched_cb) (S n) d data (s, log) = Some (d', (s', log')).
Proof.
  intros Hn Hh. cbn [pump]. destruct (decide (data = [])) as [->|Hd].
  { unfold rns_stream_decoder_retry_held. rewrite Hh. cbn. unfold acc_feed. cbn. eauto. }
  rewrite process_not_held by done.
  destruct (pump_after_feed n d data s log) as (d' & s' & log' & Ha & Hf); [|done..|].
  { intros n' _. apply pump_sched_held. }
  exists d', s', log'. split; [done|]. by destruct (feed _ _ _ _) as [[[??]?]?].
Qed.

(** ** Escaping *)

Fixpoint delta_escape (p : list Z) : nat :=
  match p with
  | [] => 0
  | b :: p => (if needs_escape b then S (delta_escape p) else delta_escape p)%nat
  end.

Lemma escape_write_length p :
  length (rns_stream_escape_write p) = (length p + delta_escape p)%nat.
Proof. induction p as [|b p IH]; [done|]. cbn. case_match; cbn; lia. Qed.

Lemma delta_escape_le p : (delta_escape p <= length p)%nat.
Proof. induction p as [|b p IH]; [done|]. cbn. case_match; lia. Qed.

(** The size scan agrees with what the write pass stores. *)
Lemma escape_size_length p :
  Z.of_nat (length p) < 2 ^ 31 ->
  rns_stream_escape_size p = Z.of_nat (length (rns_stream_escape_write p)).
Proof.
  intros Hp. rewrite escape_write_length.
  assert (H : forall q n, 0 <= n -> n + Z.of_nat (length q) < 2 ^ 32 ->
    fold_left (fun n b => if needs_escape b then u32 (n + 1) else n) q n
      = n + Z.of_nat (delta_escape q)).
  { intros q. induction q as [|b q IH]; intros n Hn Hq; cbn -[Z.add]; [lia|].
    cbn [length] in Hq. destruct (needs_escape b).
    - rewrite u32_small by word_lia. rewrite IH by lia. lia.
    - apply IH; lia. }
  unfold rns_stream_escape_size. rewrite u32_small by word_lia. rewrite H; lia.
Qed.

Lemma escape_size_bound p :
  Z.of_nat (length p) < 2 ^ 31 ->
  rns_stream_escape_size p <= 2 * Z.of_nat (length p).
Proof.
  intros Hp. rewrite escape_size_length, escape_write_length by done.
  pose proof (delta_escape_le p). lia.
Qed.

Lemma encode_length p :
  length (encode p) = (length (rns_stream_escape_write p) + 2)%nat.
Proof. unfold encode. rewrite !length_app. cbn. lia. Qed.

Lemma store_at_fits buf ofs bs :
  (ofs + length bs <= length buf)%nat ->
  store_at buf ofs bs = Some (take ofs buf ++ bs ++ drop (ofs + length bs) buf).
Proof. intros H. unfold store_at. by rewrite decide_True. Qed.

Lemma store_frame x b y (buf : list Z) :
  (S (S (length b)) <= length buf)%nat ->
  (buf1 ← store_at buf 0 [x]; buf2 ← store_at buf1 1 b; store_at buf2 (S (length b)) [y])
  = Some ([x] ++ b ++ [y] ++ drop (S (S (length b))) buf).
Proof.
  intros Hl. destruct buf as [|z buf]; [cbn in Hl; lia|]. cbn in Hl.
  rewrite store_at_fits by (cbn; lia). cbn [take drop length app mbind option_bind Nat.add].
  rewrite drop_0, store_at_fits by (cbn; lia).
  cbn [take drop length app mbind option_bind Nat.add].
  rewrite take_0, app_nil_l, store_at_fits
    by (rewrite app_comm_cons, length_app; cbn; rewrite length_drop; lia).
  cbn [take drop length app mbind option_bind Nat.add]. rewrite take_app_length.
  do 3 f_equal. cbn. f_equal.
  rewrite Nat.add_1_r, drop_app_ge by lia. rewrite drop_drop. f_equal. lia.
Qed.

(** ** Decoding what the encoder wrote *)

(** The accepting callback never stops the decoder. *)
Lemma generic_byte_acc b d log :
  exists d' log', generic_byte (Some accept_cb) b d log = inl (d', log').
Proof.
  unfold generic_byte, rns_stream_emit_frame, accept_cb.
  repeat case_match; simplify_eq/=; eauto.
Qed.

Lemma acc_feed_cons b src d log :
  acc_feed d (b :: src) log =
    match generic_byte (Some accept_cb) b d log with
    | inl (d', log') => acc_feed d' src log'
    | inr (_, d', log') => (d', log')
    end.
Proof. unfold acc_feed. cbn. by destruct (generic_byte_acc b d log) as (? & ? & ->). Qed.

Lemma acc_feed_app d a b log :
  acc_feed d (a ++ b) log = let '(d', log') := acc_feed d a log in acc_feed d' b log'.
Proof.
  revert d log. induction a as [|x a IH]; intros d log; [done|].
  rewrite <-app_comm_cons, !acc_feed_cons.
  destruct (generic_byte_acc x d log) as (? & ? & ->). apply IH.
Qed.

Lemma unescape_roundtrip b : needs_escape b = true ->
  u8 (Z.lxor (u8 (Z.lxor b RNS_STREAM_ESC_MASK)) RNS_STREAM_ESC_MASK) = b /\
  (u8 (Z.lxor b RNS_STREAM_ESC_MASK) =? RNS_STREAM_FLAG) = false.
Proof.
  unfold needs_escape. intros [->%Z.eqb_eq| ->%Z.eqb_eq]%orb_prop; by vm_compute.
Qed.

Lemma acc_feed_escape p fr h log :
  Z.of_nat (length fr + length p) <= RNS_STREAM_MAX_FRAME_SIZE ->
  acc_feed (mkDecoder RNS_STREAM_STATE_READ_FRAME h fr) (rns_stream_escape_write p) log =
    (mkDecoder RNS_STREAM_STATE_READ_FRAME h (fr ++ p), log).
Proof.
  revert fr. induction p as [|b p IH]; intros fr Hl; [by rewrite app_nil_r|].
  cbn [length] in Hl.
  assert (Hroom : (RNS_STREAM_MAX_FRAME_SIZE <=? Z.of_nat (length fr)) = false) by lia.
  cbn [rns_stream_escape_write]. destruct (needs_escape b) eqn:Hb.
  - destruct (unescape_roundtrip b Hb) as [Hx Hf].
    rewrite acc_feed_cons. cbn. rewrite bool_decide_true by done. cbn.
    rewrite acc_feed_cons. unfold generic_byte. rewrite Hf. unfold set, frame_len. cbn.
    rewrite bool_decide_false by (intros []; done). cbn.
    rewrite decide_True by done. rewrite Hroom, Hx. cbn. rewrite IH by (rewrite length_app; cbn; lia).
    by rewrite <-app_assoc.
  - assert (Hp : is_plain b = true) by (unfold is_plain, needs_escape in *; by rewrite Hb).
    rewrite acc_feed_cons, generic_byte_plain by done. unfold frame_len. cbn [frame].
    rewrite Hroom. unfold set. cbn. rewrite IH by (rewrite length_app; cbn; lia).
    by rewrite <-app_assoc.
Qed.

(** Decoder states between frames. *)
Definition idle (d : decoder) : Prop := held d = false /\ frame d = [].

Lemma acc_feed_flag d log :
  acc_feed d [RNS_STREAM_FLAG] log =
    if bool_decide (state d <> RNS_STREAM_STATE_WAIT_FRAME_START) && (0 <? frame_len d)
    then (start_frame d, log ++ [frame d]) else (start_frame d, log).
Proof.
  rewrite acc_feed_cons. unfold generic_byte. cbn.
  destruct (bool_decide _ && _) eqn:Hc; [|done].
  apply andb_true_iff in Hc as [_ Hl%Z.ltb_lt].
  unfold rns_stream_emit_frame. rewrite (proj2 (Z.eqb_neq _ 0)) by lia.
  cbn. by rewrite set_frame_id.
Qed.

Lemma acc_feed_encode d p log :
  idle d -> p <> [] -> Z.of_nat (length p) <= RNS_STREAM_MAX_FRAME_SIZE ->
  acc_feed d (encode p) log =
    (mkDecoder RNS_STREAM_STATE_READ_FRAME false [], log ++ [p]).
Proof.
  destruct d as [st h fr]. intros [Hh Hf] Hp Hl. cbn in Hh, Hf. subst. unfold encode.
  rewrite acc_feed_app, acc_feed_flag. unfold frame_len. cbn. rewrite andb_false_r.
  unfold start_frame, set. cbn. rewrite acc_feed_app, acc_feed_escape by done.
  rewrite acc_feed_flag. unfold frame_len. cbn. rewrite (proj2 (Z.ltb_lt _ _)); [done|].
  destruct p; [done|]. cbn. lia.
Qed.

Definition valid_payload (p : list Z) : Prop :=
  p <> [] /\ Z.of_nat (length p) <= RNS_STREAM_MAX_FRAME_SIZE.

Lemma acc_feed_encode_all ps d log :
  Forall valid_payload ps -> idle d ->
  exists d', idle d' /\ acc_feed d (concat (encode <$> ps)) log = (d', log ++ ps).
Proof.
  intros Hps. revert d log. induction Hps as [|p ps [Hp Hl] _ IH]; intros d log Hd; cbn.
  { exists d. by rewrite app_nil_r. }
  rewrite acc_feed_app, acc_feed_encode by done.
  destruct (IH (mkDecoder RNS_STREAM_STATE_READ_FRAME false []) (log ++ [p])) as (d' & ? & ->);
    [done|]. exists d'. by rewrite <-app_assoc.
Qed.

(** ** Frame bound *)

Definition frame_ok (d : decoder) : Prop := frame_len d <= RNS_STREAM_MAX_FRAME_SIZE.

Section FrameBound.
Context {W : Type} (cb : option (list Z -> W -> Z * list Z * W)).
(** The callback gets a pointer and a length: it cannot change the length. *)
Hypothesis cb_length : forall f fr w, cb = Some f -> length (f fr w).1.2 = length fr.

Lemma emit_frame_len d w :
  let '(_, d', _) := rns_stream_emit_frame cb d w in
  frame_len d' = frame_len d /\ state d' = state d /\ held d' = held d.
Proof.
  unfold rns_stream_emit_frame. destruct cb as [f|] eqn:Hcb; [|done].
  destruct (frame_len d =? 0); [done|].
  pose proof (cb_length f (frame d) w eq_refl) as Hl.
  destruct (f (frame d) w) as [[r fr] w']. cbn in Hl. unfold frame_len. rsimpl. by rewrite Hl.
Qed.

Lemma generic_byte_frame_ok b d w :
  frame_ok d ->
  match generic_byte cb b d w with
  | inl (d', _) => frame_ok d'
  | inr (_, d', _) => frame_ok d'
  end.
Proof.
  intros Hd. unfold generic_byte. pose proof (emit_frame_len d w) as He.
  destruct (rns_stream_emit_frame cb d w) as [[r d1] w1].
  unfold frame_ok, frame_len, start_frame, resync, RNS_STREAM_MAX_FRAME_SIZE in *.
  repeat case_match; simplify_eq; rsimpl; rewrite ?length_app; cbn; lia.
Qed.

Lemma feed_rest src d w :
  let '(_, rest, _, _) := feed cb d src w in (length rest <= length src)%nat.
Proof.
  revert d w. induction src as [|b src IH]; intros d w; cbn; [lia|].
  destruct (generic_byte cb b d w) as [[d1 w1]|[[r d1] w1]]; [|lia].
  specialize (IH d1 w1). destruct (feed cb d1 src w1) as [[[??]?]?]. lia.
Qed.

Lemma feed_frame_ok src d w :
  frame_ok d -> let '(_, _, d', _) := feed cb d src w in frame_ok d'.
Proof.
  revert d w. induction src as [|b src IH]; intros d w Hd; [done|]. cbn.
  pose proof (generic_byte_frame_ok b d w Hd) as Hb.
  destruct (generic_byte cb b d w) as [[d1 w1]|[[r d1] w1]]; [by apply IH|done].
Qed.

(** A call returns, takes at most the bytes it was given, and keeps the
    frame inside the 2048-byte buffer. *)
Lemma process_total d data w :
  frame_ok d ->
  exists r c d' w', rns_stream_decoder_process cb d data w = Some (r, c, d', w') /\
    0 <= c <= Z.of_nat (length data) /\ frame_ok d'.
Proof.
  intros Hd. unfold rns_stream_decoder_process. case_decide.
  { eexists _, _, _, _. split; [done|]. split; [lia|done]. }
  assert (Hgo : forall d w, frame_ok d -> exists r c d' w',
    ('(r, rest, d, w) ← process_loop cb (length data) d data w;
     Some (r, Z.of_nat (length data) - Z.of_nat (length rest), d, w)) = Some (r, c, d', w') /\
    0 <= c <= Z.of_nat (length data) /\ frame_ok d').
  { clear d w Hd. intros d w Hd. rewrite process_loop_feed by done. cbn.
    pose proof (feed_frame_ok data d w Hd) as Hf. pose proof (feed_rest data d w) as Hr.
    destruct (feed cb d data w) as [[[r rest] d'] w'].
    eexists _, _, _, _. split; [done|]. split; [lia|done]. }
  destruct (held d); [|by apply Hgo].
  pose proof (emit_frame_len d w) as He.
  destruct (rns_stream_emit_frame cb d w) as [[r d1] w1]. destruct He as [He _].
  destruct (r =? HALOW_ACK_TX_THROTTLE) eqn:Hr.
  - rewrite Hr. eexists _, _, _, _. split; [done|]. split; [lia|]. unfold frame_ok in *. lia.
  - apply Hgo. done.
Qed.
End FrameBound.

(** ** Properties *)

(** C12: TCP-to-radio framing is exactly-once and in order.  Whatever
    sequence [s] of THROTTLE refusals the transmit path answers, feeding the
    encoding of the frames [ps] and re-feeding the unconsumed tail after each
    refusal hands every frame to the radio once, unchanged and in order, in at
    most [length s + 1] calls. *)
Theorem stream_exactly_once (s : list bool) (ps : list (list Z)) :
  Forall valid_payload ps ->
  exists d s', pump (Some sched_cb) (S (length s)) rns_stream_decoder_init
                 (concat (encode <$> ps)) (s, []) = Some (d, (s', ps)).
Proof.
  intros Hps.
  destruct (pump_sched (length s) rns_stream_decoder_init (concat (encode <$> ps)) s [])
    as (d & s' & log & Ha & Hp); [done..|].
  destruct (acc_feed_encode_all ps rns_stream_decoder_init [] Hps) as (d' & _ & Ha'); [done|].
  rewrite Ha in Ha'. simplify_eq. eauto.
Qed.

Lemma stream_exactly_once_witness :
  exists d s', pump (Some sched_cb) 4 rns_stream_decoder_init
    (concat (encode <$> [[1; 0x7E; 2]; [0x7D]])) ([true; false; true], [])
    = Some (d, (s', [[1; 0x7E; 2]; [0x7D]])).
Proof.
  apply (stream_exactly_once [true; false; true] [[1; 0x7E; 2]; [0x7D]]).
  repeat constructor; vm_compute; congruence.
Defined.

(** C25: the fast path is an optimisation only: the block-copying loop equals
    the byte-at-a-time decoder on every input, state and callback, overflow
    resynchronisation and THROTTLE stops included. *)
Theorem stream_fast_path_equiv {W} (cb : option (list Z -> W -> Z * list Z * W))
    (d : decoder) (data : list Z) (w : W) :
  process_loop cb (length data) d data w = Some (feed cb d data w).
Proof. by apply process_loop_feed. Qed.

(** [rns_stream_encode_frame] never stores outside the caller's buffer:
    it returns the exact wire length; a buffer that is too small is left
    untouched, and one that is large enough holds FLAG, the escaped payload,
    FLAG, followed by the bytes that were already there. *)
Theorem stream_encode_frame_spec (buf p : list Z) :
  Z.of_nat (length p) < 2 ^ 16 ->
  rns_stream_encode_frame (Some buf) (Z.of_nat (length buf)) p =
    Some (Z.of_nat (length (encode p)),
          Some (if decide (length (encode p) <= length buf)%nat
                then encode p ++ drop (length (encode p)) buf else buf)).
Proof.
  intros Hp. unfold rns_stream_encode_frame.
  pose proof (delta_escape_le p). pose proof (escape_write_length p).
  rewrite escape_size_length, encode_length by lia. rewrite u32_small by word_lia.
  replace (Z.of_nat (length (rns_stream_escape_write p)) + 2)
    with (Z.of_nat (length (rns_stream_escape_write p) + 2)) by lia.
  case_decide as Hfit.
  - rewrite (proj2 (Z.ltb_ge _ _)) by lia.
    replace (Z.to_nat _) with (S (length (rns_stream_escape_write p))) by lia.
    pose proof (store_frame RNS_STREAM_FLAG (rns_stream_escape_write p) RNS_STREAM_FLAG buf
                  ltac:(lia)) as Hs.
    destruct (store_at buf 0 _) as [b1|]; [|done]. cbn in Hs |- *.
    destruct (store_at b1 1 _) as [b2|]; [|done]. cbn in Hs |- *. rewrite Hs. cbn.
    do 3 f_equal. unfold encode. rewrite <-!app_assoc. do 4 f_equal. lia.
  - by rewrite (proj2 (Z.ltb_lt _ _)) by lia.
Qed.

Lemma stream_encode_frame_spec_witness :
  rns_stream_encode_frame (Some (replicate 9 0)) 9 [5; 0x7E; 6] =
    Some (6, Some [0x7E; 5; 0x7D; 0x5E; 6; 0x7E; 0; 0; 0]).
Proof.
  pose proof (stream_encode_frame_spec (replicate 9 0) [5; 0x7E; 6] ltac:(vm_compute; congruence)) as H.
  vm_compute in H. exact H.
Defined.

(** Every call of the decoder returns, reports a number of consumed
    bytes within the input, and keeps the frame inside the 2048-byte
    [frame_buffer], for any callback that cannot change the frame length. *)
Theorem stream_process_safe {W} (cb : option (list Z -> W -> Z * list Z * W)) d data w :
  (forall f fr w, cb = Some f -> length (f fr w).1.2 = length fr) ->
  frame_ok d ->
  exists r c d' w', rns_stream_decoder_process cb d data w = Some (r, c, d', w') /\
    0 <= c <= Z.of_nat (length data) /\ frame_ok d'.
Proof. intros. by apply process_total. Qed.

Lemma stream_process_safe_witness :
  exists r c d' w', rns_stream_decoder_process (Some accept_cb) rns_stream_decoder_init
      (0x7E :: replicate 2049 1) [] = Some (r, c, d', w') /\ 0 <= c <= 2050 /\ frame_ok d'.
Proof.
  apply (stream_process_safe (Some accept_cb) rns_stream_decoder_init (0x7E :: replicate 2049 1) []).
  - intros f fr w [= <-]. reflexivity.
  - vm_compute. congruence.
Defined.
