(* ===== verification/LinkParser.v ===== *)
(** * Reticulum packet parser: [src/rns/link_parser.c] and [src/rns/link_utils.c]

    [rns_link_parser_parse] extracts the header fields and the link
    identifier of a packet; [rns_link_utils_clamp_mtu] rewrites the MTU a
    link request announces.  SHA-256 ([lib/crypto/sha256.h]) is a parameter. *)

From S2P Require Import Prelude.

Definition RNS_TRUNCATED_HASH_LEN : Z := 16.
Definition RNS_LINK_ID_LEN : Z := RNS_TRUNCATED_HASH_LEN.
Definition RNS_LINKREQUEST_CORE_LEN : Z := 64.
Definition RNS_HEADER_TYPE1_SIZE : Z := 2 + RNS_TRUNCATED_HASH_LEN + 1.
Definition RNS_HEADER_TYPE2_SIZE : Z :=
  2 + RNS_TRUNCATED_HASH_LEN + RNS_TRUNCATED_HASH_LEN + 1.

Inductive rns_ret :=
  | RNS_RET_OK | RNS_RET_NULLPTR | RNS_RET_PACKET_TOO_SHORT
  | RNS_RET_INVALID_HEADER_TYPE | RNS_RET_INVALID_HEADER2_SIZE
  | RNS_RET_INVALID_HASH_BODY | RNS_RET_NO_LINK_ID | RNS_RET_NO_SLOT
  | RNS_RET_NO_MEMORY | RNS_RET_INVALID_PACKET_TYPE | RNS_RET_NOT_MODIFIED.

Inductive rns_packet_type :=
  | RNS_PACKET_TYPE_DATA | RNS_PACKET_TYPE_ANNOUNCE
  | RNS_PACKET_TYPE_LINKREQUEST | RNS_PACKET_TYPE_PROOF.

Inductive rns_destination_type :=
  | RNS_DESTINATION_TYPE_SINGLE | RNS_DESTINATION_TYPE_GROUP
  | RNS_DESTINATION_TYPE_PLAIN | RNS_DESTINATION_TYPE_LINK.

Inductive rns_header_type := RNS_HEADER_TYPE_1 | RNS_HEADER_TYPE_2.

#[export] Instance rns_ret_eq_dec : EqDecision rns_ret.
Proof. solve_decision. Defined.
#[export] Instance rns_packet_type_eq_dec : EqDecision rns_packet_type.
Proof. solve_decision. Defined.
#[export] Instance rns_destination_type_eq_dec : EqDecision rns_destination_type.
Proof. solve_decision. Defined.

(** The casts of a 2-bit field to the enum types. *)
Definition packet_type_of (z : Z) : rns_packet_type :=
  match z with
  | 0 => RNS_PACKET_TYPE_DATA | 1 => RNS_PACKET_TYPE_ANNOUNCE
  | 2 => RNS_PACKET_TYPE_LINKREQUEST | _ => RNS_PACKET_TYPE_PROOF
  end.
Definition destination_type_of (z : Z) : rns_destination_type :=
  match z with
  | 0 => RNS_DESTINATION_TYPE_SINGLE | 1 => RNS_DESTINATION_TYPE_GROUP
  | 2 => RNS_DESTINATION_TYPE_PLAIN | _ => RNS_DESTINATION_TYPE_LINK
  end.
Definition header_type_of (z : Z) : rns_header_type :=
  match z with 0 => RNS_HEADER_TYPE_1 | _ => RNS_HEADER_TYPE_2 end.

(** The context byte is stored as received ([rns_context_t] is a cast). *)
Definition RNS_CONTEXT_LINKCLOSE : Z := 0xFC.
Definition RNS_CONTEXT_LINKPROOF : Z := 0xFD.
Definition RNS_CONTEXT_LRPROOF : Z := 0xFF.

Record packet_info := mkInfo {
  hops : Z;
  destination_type : rns_destination_type;
  packet_type : rns_packet_type;
  context : Z;
  payload_len : Z;
  destination : list Z;
  link_id : list Z;
  valid : bool;
}.
#[export] Instance eta_packet_info : Eta packet_info :=
  fun r => mkInfo (hops r) (destination_type r) (packet_type r) (context r)
                  (payload_len r) (destination r) (link_id r) (valid r).

(** The zeroed structure [memset] leaves. *)
Definition zero_info : packet_info :=
  mkInfo 0 RNS_DESTINATION_TYPE_SINGLE RNS_PACKET_TYPE_DATA 0 0
         (replicate 16 0) (replicate 16 0) false.

Definition header_type_field (flags : Z) : rns_header_type :=
  header_type_of (Z.land (Z.shiftr flags 6) 1).
Definition packet_type_field (flags : Z) : rns_packet_type :=
  packet_type_of (Z.land flags 3).
Definition destination_type_field (flags : Z) : rns_destination_type :=
  destination_type_of (Z.land (Z.shiftr flags 2) 3).

Section Parser.
Variable sha256 : list Z -> list Z.

(** [inl] carries the error code, [inr] the 16 bytes of [out_link_id];
    [None] is an access outside the packet. *)
Definition rns_link_parser_calc_link_id (packet : list Z) : option (rns_ret + list Z) :=
  let packet_len := Z.of_nat (length packet) in
  if packet_len <? RNS_HEADER_TYPE1_SIZE then Some (inl RNS_RET_PACKET_TOO_SHORT)
  else
    flags ← rd packet 0;
    let finish (payload_offset hash_body_offset : Z) :=
      let payload_len := packet_len - payload_offset in
      let hash_body_len := packet_len - hash_body_offset in
      let hash_body_len :=
        if bool_decide (packet_type_field flags = RNS_PACKET_TYPE_LINKREQUEST)
           && (RNS_LINKREQUEST_CORE_LEN <? payload_len)
        then hash_body_len - (payload_len - RNS_LINKREQUEST_CORE_LEN)
        else hash_body_len in
      let first := u8 (Z.land flags 0x0F) in
      body ← rd_n packet hash_body_offset hash_body_len;
      let digest := sha256 (first :: body) in
      id ← rd_n digest 0 RNS_LINK_ID_LEN;
      Some (inr id) in
    match header_type_field flags with
    | RNS_HEADER_TYPE_1 => finish RNS_HEADER_TYPE1_SIZE 2
    | RNS_HEADER_TYPE_2 =>
        if packet_len <? RNS_HEADER_TYPE2_SIZE then Some (inl RNS_RET_INVALID_HEADER2_SIZE)
        else finish RNS_HEADER_TYPE2_SIZE (2 + RNS_TRUNCATED_HASH_LEN)
    end.

(** The part of [rns_link_parser_parse] after the header-type branches. *)
Definition parse_tail (packet : list Z) (payload_offset : Z) (out : packet_info)
  : option (rns_ret * packet_info) :=
  let out := out <| payload_len := u16 (Z.of_nat (length packet) - payload_offset) |> in
  if decide (destination_type out = RNS_DESTINATION_TYPE_LINK) then
    Some (RNS_RET_OK, out <| link_id := destination out |> <| valid := true |>)
  else
    let set_valid out :=
      out <| valid := bool_decide (destination_type out = RNS_DESTINATION_TYPE_LINK)
                      || bool_decide (packet_type out = RNS_PACKET_TYPE_LINKREQUEST) |> in
    if decide (packet_type out = RNS_PACKET_TYPE_LINKREQUEST) then
      r ← rns_link_parser_calc_link_id packet;
      match r with
      | inl rc => Some (rc, out)
      | inr id => Some (RNS_RET_OK, set_valid (out <| link_id := id |>))
      end
    else Some (RNS_RET_OK, set_valid out).

(** [packet = None] and [out = None] are NULL pointers; the second component
    of the result is what the call leaves in [*out]. *)
Definition rns_link_parser_parse (packet : option (list Z)) (out : option packet_info)
  : option (rns_ret * option packet_info) :=
  match packet, out with
  | Some packet, Some out0 =>
      let packet_len := Z.of_nat (length packet) in
      if packet_len <? RNS_HEADER_TYPE1_SIZE then Some (RNS_RET_PACKET_TOO_SHORT, out)
      else
        flags ← rd packet 0;
        hops_byte ← rd packet 1;
        let out := zero_info <| hops := hops_byte |>
                     <| destination_type := destination_type_field flags |>
                     <| packet_type := packet_type_field flags |> in
        res ←
          match header_type_field flags with
          | RNS_HEADER_TYPE_1 =>
              dst ← rd_n packet 2 RNS_TRUNCATED_HASH_LEN;
              ctx ← rd packet (2 + RNS_TRUNCATED_HASH_LEN);
              parse_tail packet RNS_HEADER_TYPE1_SIZE
                (out <| destination := dst |> <| context := ctx |>)
          | RNS_HEADER_TYPE_2 =>
              if packet_len <? RNS_HEADER_TYPE2_SIZE
              then Some (RNS_RET_INVALID_HEADER2_SIZE, out)
              else
                dst ← rd_n packet (2 + RNS_TRUNCATED_HASH_LEN) RNS_TRUNCATED_HASH_LEN;
                ctx ← rd packet (2 + RNS_TRUNCATED_HASH_LEN + RNS_TRUNCATED_HASH_LEN);
                parse_tail packet RNS_HEADER_TYPE2_SIZE
                  (out <| destination := dst |> <| context := ctx |>)
          end;
        Some (res.1, Some res.2)
  | _, _ => Some (RNS_RET_NULLPTR, out)
  end.
End Parser.

(** ** [src/rns/link_utils.c] *)

(** [size_t] arithmetic is 32 bits wide on this target. *)
Definition link_payload_offset (packet_len : Z) (pkt : packet_info) : Z :=
  u32 (packet_len - payload_len pkt).

Definition link_request_get_mtu (packet : list Z) (packet_len : Z) (pkt : packet_info)
  : option Z :=
  let off := u32 (link_payload_offset packet_len pkt + 64) in
  b0 ← rd packet off;
  b1 ← rd packet (off + 1);
  b2 ← rd packet (off + 2);
  let signalling := Z.lor (Z.lor (Z.shiftl b0 16) (Z.shiftl b1 8)) (Z.shiftl b2 0) in
  Some (Z.land signalling 0x1FFFFF).

Definition link_request_get_mode (packet : list Z) (packet_len : Z) (pkt : packet_info)
  : option Z :=
  let off := u32 (link_payload_offset packet_len pkt + 64) in
  b0 ← rd packet off;
  Some (u8 (Z.land (Z.shiftr b0 5) 0x07)).

Definition link_request_set_signalling (packet : list Z) (packet_len : Z)
    (pkt : packet_info) (mode mtu : Z) : option (list Z) :=
  let off := u32 (link_payload_offset packet_len pkt + 64) in
  let signalling := Z.lor (Z.land mtu 0x1FFFFF) (u32 (Z.shiftl (Z.land mode 0x07) 21)) in
  packet ← wr packet off (u8 (Z.land (Z.shiftr signalling 16) 0xFF));
  packet ← wr packet (off + 1) (u8 (Z.land (Z.shiftr signalling 8) 0xFF));
  wr packet (off + 2) (u8 (Z.land (Z.shiftr signalling 0) 0xFF)).

(** Returns the code, the packet (rewritten in place) and [*original_mtu]. *)
Definition rns_link_utils_clamp_mtu (packet : option (list Z)) (packet_len : Z)
    (pkt : option packet_info) (mtu_limit : Z) : option (rns_ret * option (list Z) * Z) :=
  match packet, pkt with
  | Some p, Some pkt =>
      if decide (packet_type pkt <> RNS_PACKET_TYPE_LINKREQUEST)
      then Some (RNS_RET_INVALID_PACKET_TYPE, packet, 0)
      else if payload_len pkt <? 67 then Some (RNS_RET_PACKET_TOO_SHORT, packet, 0)
      else
        mtu ← link_request_get_mtu p packet_len pkt;
        if mtu <=? mtu_limit then Some (RNS_RET_NOT_MODIFIED, packet, mtu)
        else
          mode ← link_request_get_mode p packet_len pkt;
          p' ← link_request_set_signalling p packet_len pkt mode mtu_limit;
          Some (RNS_RET_OK, Some p', mtu)
  | _, _ => Some (RNS_RET_NULLPTR, packet, 0)
  end.

(** [*mtu] starts at 0. *)
Definition rns_link_utils_get_mtu (packet : option (list Z)) (packet_len : Z)
    (pkt : option packet_info) : option (rns_ret * Z) :=
  match packet, pkt with
  | Some p, Some pkt =>
      if decide (packet_type pkt <> RNS_PACKET_TYPE_LINKREQUEST)
      then Some (RNS_RET_INVALID_PACKET_TYPE, 0)
      else if payload_len pkt <? 67 then Some (RNS_RET_PACKET_TOO_SHORT, 0)
      else
        mtu ← link_request_get_mtu p packet_len pkt;
        Some (RNS_RET_OK, mtu)
  | _, _ => Some (RNS_RET_NULLPTR, 0)
  end.

(** ** Closed form of the link identifier *)

Definition hdr_size (flags : Z) : Z :=
  match header_type_field flags with
  | RNS_HEADER_TYPE_1 => RNS_HEADER_TYPE1_SIZE
  | RNS_HEADER_TYPE_2 => RNS_HEADER_TYPE2_SIZE
  end.

Definition hash_off (flags : Z) : Z :=
  match header_type_field flags with
  | RNS_HEADER_TYPE_1 => 2
  | RNS_HEADER_TYPE_2 => 2 + RNS_TRUNCATED_HASH_LEN
  end.

(** How many bytes after [hash_off] are hashed: at most the 64 core bytes of
    a link request's payload. *)
Definition hash_len (flags len : Z) : Z :=
  if bool_decide (packet_type_field flags = RNS_PACKET_TYPE_LINKREQUEST)
  then Z.min (len - hash_off flags) (hdr_size flags + 64 - hash_off flags)
  else len - hash_off flags.

Lemma hdr_consts flags :
  (hdr_size flags = 19 /\ hash_off flags = 2) \/ (hdr_size flags = 35 /\ hash_off flags = 18).
Proof. unfold hdr_size, hash_off. destruct (header_type_field flags); [left|right]; done. Qed.

Section ParserFacts.
Variable sha256 : list Z -> list Z.
Hypothesis sha256_length : forall m, length (sha256 m) = 32%nat.

Definition link_id_of (p : list Z) (flags : Z) : list Z :=
  take 16 (sha256 (u8 (Z.land flags 0x0F)
    :: take (Z.to_nat (hash_len flags (Z.of_nat (length p)))) (drop (Z.to_nat (hash_off flags)) p))).

Lemma calc_link_id_spec p flags :
  rd p 0 = Some flags -> hdr_size flags <= Z.of_nat (length p) ->
  rns_link_parser_calc_link_id sha256 p = Some (inr (link_id_of p flags)).
Proof.
  intros Hf Hl. unfold rns_link_parser_calc_link_id, link_id_of, hash_len, hdr_size, hash_off in *.
  rewrite Hf. unfold RNS_HEADER_TYPE1_SIZE, RNS_HEADER_TYPE2_SIZE, RNS_TRUNCATED_HASH_LEN,
    RNS_LINKREQUEST_CORE_LEN, RNS_LINK_ID_LEN in *.
  cbn [mbind option_bind].
  destruct (header_type_field flags), (bool_decide _); cbn [mbind option_bind andb].
  all: repeat (z_case; try lia).
  all: (rewrite rd_n_in_bounds by lia); cbn [mbind option_bind].
  all: rewrite rd_n_in_bounds by (rewrite ?sha256_length; unfold RNS_TRUNCATED_HASH_LEN; lia).
  all: cbn [mbind option_bind]; change (Z.to_nat 0) with 0%nat; rewrite drop_0.
  all: repeat (lia || f_equal).
Qed.

Lemma link_id_length p flags : length (link_id_of p flags) = 16%nat.
Proof. unfold link_id_of. rewrite length_take, sha256_length. lia. Qed.

(** The fields [rns_link_parser_parse] reports for a packet long enough. *)
Definition info_of (p : list Z) (flags hops_byte : Z) : packet_info :=
  let d := destination_type_field flags in
  let t := packet_type_field flags in
  let dst := take 16 (drop (Z.to_nat (hash_off flags)) p) in
  mkInfo hops_byte d t
    (nth (Z.to_nat (hdr_size flags - 1)) p 0)
    (u16 (Z.of_nat (length p) - hdr_size flags)) dst
    (if decide (d = RNS_DESTINATION_TYPE_LINK) then dst
     else if decide (t = RNS_PACKET_TYPE_LINKREQUEST) then link_id_of p flags
     else replicate 16 0)
    (bool_decide (d = RNS_DESTINATION_TYPE_LINK)
     || bool_decide (t = RNS_PACKET_TYPE_LINKREQUEST)).

Lemma parse_tail_spec p flags out :
  rd p 0 = Some flags -> hdr_size flags <= Z.of_nat (length p) ->
  destination_type out = destination_type_field flags ->
  packet_type out = packet_type_field flags ->
  link_id out = replicate 16 0 -> valid out = false ->
  parse_tail sha256 p (hdr_size flags) out = Some (RNS_RET_OK,
    mkInfo (hops out) (destination_type_field flags) (packet_type_field flags) (context out)
      (u16 (Z.of_nat (length p) - hdr_size flags)) (destination out)
      (if decide (destination_type_field flags = RNS_DESTINATION_TYPE_LINK) then destination out
       else if decide (packet_type_field flags = RNS_PACKET_TYPE_LINKREQUEST) then link_id_of p flags
       else replicate 16 0)
      (bool_decide (destination_type_field flags = RNS_DESTINATION_TYPE_LINK)
       || bool_decide (packet_type_field flags = RNS_PACKET_TYPE_LINKREQUEST))).
Proof.
  intros Hf Hl Hd Ht Hi Hv. destruct out; cbn in Hd, Ht, Hi, Hv; subst.
  unfold parse_tail, set; cbn.
  case_decide as Hlink; [by rewrite bool_decide_true by done|].
  case_decide as Hreq; [|done].
  erewrite calc_link_id_spec by done. done.
Qed.

(** Every branch of the parser, for every packet. *)
Lemma parse_spec p out0 :
  rns_link_parser_parse sha256 (Some p) (Some out0) =
    if Z.of_nat (length p) <? 19 then Some (RNS_RET_PACKET_TOO_SHORT, Some out0)
    else
      flags ← rd p 0; hops_byte ← rd p 1;
      if Z.of_nat (length p) <? hdr_size flags then
        Some (RNS_RET_INVALID_HEADER2_SIZE, Some (zero_info <| hops := hops_byte |>
          <| destination_type := destination_type_field flags |>
          <| packet_type := packet_type_field flags |>))
      else Some (RNS_RET_OK, Some (info_of p flags hops_byte)).
Proof.
  unfold rns_link_parser_parse. change RNS_HEADER_TYPE1_SIZE with 19.
  destruct (Z.ltb_spec (Z.of_nat (length p)) 19) as [|Hl]; [done|].
  destruct (rd_in_bounds p 0) as (flags & Hf & _); [lia|].
  destruct (rd_in_bounds p 1) as (h & Hh & _); [lia|].
  rewrite Hf, Hh. cbn [mbind option_bind].
  assert (Hnth : forall i, 0 <= i < Z.of_nat (length p) -> rd p i = Some (nth (Z.to_nat i) p 0)).
  { intros i Hi. destruct (rd_in_bounds p i) as (x & -> & Hx); [done|].
    by rewrite (nth_lookup_Some _ _ 0 x). }
  pose proof (parse_tail_spec p flags) as Htail.
  unfold hdr_size, hash_off, info_of in *. unfold hdr_size, hash_off.
  destruct (header_type_field flags); unfold RNS_HEADER_TYPE1_SIZE, RNS_HEADER_TYPE2_SIZE,
    RNS_TRUNCATED_HASH_LEN in *.
  - rewrite rd_n_in_bounds, Hnth by lia. cbn [mbind option_bind].
    erewrite Htail by (done || lia). cbn [mbind option_bind fst snd].
    rewrite (proj2 (Z.ltb_ge _ _)) by lia. done.
  - destruct (Z.ltb_spec (Z.of_nat (length p)) 35) as [Hs|Hs].
    + cbn [mbind option_bind]. by rewrite (proj2 (Z.ltb_lt _ _)) by lia.
    + rewrite rd_n_in_bounds, Hnth by lia. cbn [mbind option_bind].
      erewrite Htail by (done || lia). cbn [mbind option_bind fst snd].
      by rewrite (proj2 (Z.ltb_ge _ _)) by lia.
Qed.
End ParserFacts.

(** ** MTU field *)

Definition sig3 (b0 b1 b2 : Z) : Z := b0 * 65536 + b1 * 256 + b2.

Lemma get_sig b0 b1 b2 :
  is_u8 b0 -> is_u8 b1 -> is_u8 b2 ->
  Z.land (Z.lor (Z.lor (Z.shiftl b0 16) (Z.shiftl b1 8)) (Z.shiftl b2 0)) 0x1FFFFF
    = sig3 b0 b1 b2 mod 2 ^ 21.
Proof.
  intros H0 H1 H2. change 0x1FFFFF with (2 ^ 21 - 1). rewrite land_low by lia. f_equal.
  rewrite Z.shiftl_0_r, Z.lor_comm, (Z.lor_comm (Z.shiftl b0 16)).
  rewrite (Z.shiftl_mul_pow2 b1) by lia.
  rewrite (lor_shiftl_add (b1 * 2 ^ 8)) by word_lia.
  replace (b1 * 2 ^ 8 + b0 * 2 ^ 16) with (Z.shiftl (b1 + b0 * 256) 8)
    by (rewrite Z.shiftl_mul_pow2 by lia; lia).
  rewrite lor_shiftl_add by word_lia. unfold sig3. lia.
Qed.

Lemma set_sig mode mtu :
  0 <= mode < 8 -> 0 <= mtu < 2 ^ 21 ->
  Z.lor (Z.land mtu 0x1FFFFF) (u32 (Z.shiftl (Z.land mode 0x07) 21)) = mtu + mode * 2 ^ 21.
Proof.
  intros Hm Hl. change 0x1FFFFF with (2 ^ 21 - 1). change 0x07 with (2 ^ 3 - 1).
  rewrite !land_low by lia. rewrite !Z.mod_small by lia.
  rewrite u32_small by (rewrite Z.shiftl_mul_pow2 by lia; word_lia).
  by apply lor_shiftl_add.
Qed.

Lemma sig_bytes s :
  0 <= s < 2 ^ 24 ->
  sig3 (u8 (Z.land (Z.shiftr s 16) 0xFF)) (u8 (Z.land (Z.shiftr s 8) 0xFF))
       (u8 (Z.land (Z.shiftr s 0) 0xFF)) = s.
Proof.
  intros Hs. rewrite !land_0xFF, !shiftr_div by lia. unfold sig3, u8.
  change (2 ^ 0) with 1. rewrite !Zmod_mod. word_lia.
Qed.

Section Mtu.
Variables (p : list Z) (pkt : packet_info).
Hypothesis Hp : is_bytes p.
Hypothesis Hlen : Z.of_nat (length p) < 2 ^ 16.
Hypothesis Hpl : 67 <= payload_len pkt <= Z.of_nat (length p).

Let len := Z.of_nat (length p).
Let off := len - payload_len pkt + 64.

Lemma mtu_offset (q : list Z) : length q = length p ->
  u32 (link_payload_offset (Z.of_nat (length q)) pkt + 64) = off /\
  0 <= off /\ off + 3 <= Z.of_nat (length q).
Proof. intros Hq. unfold link_payload_offset, off, len in *. rewrite Hq. word_lia. Qed.

(** The three signalling bytes of a packet of this length. *)
Lemma sig_lookup (q : list Z) : is_bytes q -> length q = length p ->
  exists b0 b1 b2, rd q off = Some b0 /\ rd q (off + 1) = Some b1 /\ rd q (off + 2) = Some b2 /\
    is_u8 b0 /\ is_u8 b1 /\ is_u8 b2.
Proof.
  intros Hq Hl. destruct (mtu_offset q Hl) as (_ & ? & ?).
  destruct (rd_in_bounds q off) as (b0 & ? & ?); [lia|].
  destruct (rd_in_bounds q (off + 1)) as (b1 & ? & ?); [lia|].
  destruct (rd_in_bounds q (off + 2)) as (b2 & ? & ?); [lia|].
  exists b0, b1, b2. split_and!; try done; by eapply is_bytes_lookup.
Qed.

Lemma get_mtu_sig (q : list Z) b0 b1 b2 :
  length q = length p ->
  rd q off = Some b0 -> rd q (off + 1) = Some b1 -> rd q (off + 2) = Some b2 ->
  is_u8 b0 -> is_u8 b1 -> is_u8 b2 ->
  link_request_get_mtu q (Z.of_nat (length q)) pkt = Some (sig3 b0 b1 b2 mod 2 ^ 21) /\
  link_request_get_mode q (Z.of_nat (length q)) pkt = Some (sig3 b0 b1 b2 / 2 ^ 21).
Proof.
  intros Hl R0 R1 R2 H0 H1 H2. unfold link_request_get_mtu, link_request_get_mode.
  destruct (mtu_offset q Hl) as (-> & _). rewrite R0, R1, R2. cbn [mbind option_bind].
  rewrite get_sig by done. split; [done|]. f_equal.
  change 7 with (2 ^ 3 - 1). rewrite land_low, shiftr_div by lia. unfold sig3. word_lia.
Qed.

Lemma set_signalling_spec mode mtu :
  0 <= mode < 8 -> 0 <= mtu < 2 ^ 21 ->
  exists q, link_request_set_signalling p len pkt mode mtu = Some q /\
    length q = length p /\ is_bytes q /\
    link_request_get_mtu q len pkt = Some mtu /\
    link_request_get_mode q len pkt = Some mode /\
    forall i, (Z.of_nat i < off \/ off + 3 <= Z.of_nat i) -> q !! i = p !! i.
Proof.
  intros Hm Hl. destruct (mtu_offset p eq_refl) as (Ho & Hoff & Hend).
  unfold link_request_set_signalling, len. rewrite Ho, set_sig by done.
  set (s := mtu + mode * 2 ^ 21). assert (Hs : 0 <= s < 2 ^ 24) by lia.
  pose proof (sig_bytes s Hs) as Hsig.
  set (c0 := u8 _) in *; set (c1 := u8 (Z.land (Z.shiftr s 8) 255)) in *;
    set (c2 := u8 (Z.land (Z.shiftr s 0) 255)) in *.
  assert (C0 : is_u8 c0) by apply u8_range. assert (C1 : is_u8 c1) by apply u8_range.
  assert (C2 : is_u8 c2) by apply u8_range.
  rewrite wr_in_bounds by lia. cbn [mbind option_bind].
  rewrite wr_in_bounds by (rewrite length_insert; lia). cbn [mbind option_bind].
  rewrite wr_in_bounds by (rewrite !length_insert; lia).
  eexists. split; [done|]. set (q := <[_:=c2]> _).
  assert (Hq : length q = length p) by (unfold q; by rewrite !length_insert).
  assert (R0 : rd q off = Some c0).
  { apply rd_Some. split; [lia|]. unfold q.
    rewrite !list_lookup_insert_ne by lia. apply list_lookup_insert_eq. lia. }
  assert (R1 : rd q (off + 1) = Some c1).
  { apply rd_Some. split; [lia|]. unfold q.
    rewrite !list_lookup_insert_ne by lia. apply list_lookup_insert_eq.
    rewrite length_insert. lia. }
  assert (R2 : rd q (off + 2) = Some c2).
  { apply rd_Some. split; [lia|]. apply list_lookup_insert_eq. rewrite !length_insert. lia. }
  destruct (get_mtu_sig q c0 c1 c2) as [Hg Hmo]; try done.
  rewrite Hq in Hg, Hmo. rewrite Hsig in Hg, Hmo. split_and!; [done| | | |].
  - unfold q. repeat apply Forall_insert; done.
  - rewrite Hg. f_equal. unfold s. rewrite Z.mod_add by lia. by apply Z.mod_small.
  - rewrite Hmo. f_equal. unfold s. rewrite Z.div_add by lia. rewrite Z.div_small; lia.
  - intros i Hi. unfold q. by rewrite !list_lookup_insert_ne by lia.
Qed.

Lemma clamp_spec limit :
  packet_type pkt = RNS_PACKET_TYPE_LINKREQUEST -> 0 <= limit < 2 ^ 21 ->
  exists m mode,
    link_request_get_mtu p len pkt = Some m /\ 0 <= m < 2 ^ 21 /\
    link_request_get_mode p len pkt = Some mode /\
    (m <= limit -> rns_link_utils_clamp_mtu (Some p) len (Some pkt) limit
                     = Some (RNS_RET_NOT_MODIFIED, Some p, m)) /\
    (limit < m -> exists q,
       rns_link_utils_clamp_mtu (Some p) len (Some pkt) limit = Some (RNS_RET_OK, Some q, m) /\
       length q = length p /\ is_bytes q /\
       link_request_get_mtu q len pkt = Some limit /\
       link_request_get_mode q len pkt = Some mode /\
       forall i, (Z.of_nat i < off \/ off + 3 <= Z.of_nat i) -> q !! i = p !! i).
Proof.
  intros Ht Hlim. destruct (sig_lookup p Hp eq_refl) as (b0 & b1 & b2 & R0 & R1 & R2 & ? & ? & ?).
  destruct (get_mtu_sig p b0 b1 b2) as [Hg Hmo]; try done. fold len in Hg, Hmo.
  exists (sig3 b0 b1 b2 mod 2 ^ 21), (sig3 b0 b1 b2 / 2 ^ 21).
  assert (Hm : 0 <= sig3 b0 b1 b2 / 2 ^ 21 < 8) by (unfold sig3; word_lia).
  split_and!; [done|by apply Z.mod_pos_bound; lia..|done| |].
  all: intros Hle; unfold rns_link_utils_clamp_mtu;
    rewrite decide_False by (rewrite Ht; intros []; done);
    rewrite (proj2 (Z.ltb_ge _ _)) by lia; rewrite Hg; cbn [mbind option_bind].
  - by rewrite (proj2 (Z.leb_le _ _)) by lia.
  - rewrite (proj2 (Z.leb_gt _ _)) by lia. rewrite Hmo. cbn [mbind option_bind].
    destruct (set_signalling_spec _ limit Hm Hlim) as (q & -> & ?). by exists q.
Qed.
End Mtu.

(** ** Properties *)

(** A concrete 32-byte digest, to evaluate the parser on examples. *)
Definition sum_digest (m : list Z) : list Z :=
  replicate 31 (u8 (foldr Z.add 0 m)) ++ [u8 (Z.of_nat (length m))].

Lemma sum_digest_length m : length (sum_digest m) = 32%nat.
Proof. reflexivity. Qed.

(** The parser never reads outside the packet, for any packet of any
    length and content, and its three outcomes are decided by the length
    alone: too short for a type-1 header (nothing written), a type-2 packet
    shorter than its header, or success with exactly the fields of
    [info_of]. *)
Theorem link_parse_total (sha256 : list Z -> list Z) (p : list Z) (o : packet_info) :
  (forall m, length (sha256 m) = 32%nat) ->
  exists r info, rns_link_parser_parse sha256 (Some p) (Some o) = Some (r, Some info) /\
  ((Z.of_nat (length p) < 19 /\ r = RNS_RET_PACKET_TOO_SHORT /\ info = o) \/
   exists flags h, p !! 0%nat = Some flags /\ p !! 1%nat = Some h /\
     ((19 <= Z.of_nat (length p) < hdr_size flags /\ r = RNS_RET_INVALID_HEADER2_SIZE) \/
      (hdr_size flags <= Z.of_nat (length p) /\ r = RNS_RET_OK /\
       info = info_of sha256 p flags h))).
Proof.
  intros Hsha. rewrite parse_spec by done. z_case; [by eauto 10|].
  destruct (rd_in_bounds p 0) as (flags & -> & ?); [lia|].
  destruct (rd_in_bounds p 1) as (h & -> & ?); [lia|]. cbn [mbind option_bind].
  z_case; eexists _, _; (split; [done|]); right; exists flags, h; naive_solver lia.
Qed.

Lemma link_parse_total_witness :
  exists r info, rns_link_parser_parse sum_digest (Some (0x0F :: replicate 30 7)) (Some zero_info)
      = Some (r, Some info) /\
  ((Z.of_nat (length (0x0F :: replicate 30 7)) < 19 /\ r = RNS_RET_PACKET_TOO_SHORT /\ info = zero_info) \/
   exists flags h, (0x0F :: replicate 30 7) !! 0%nat = Some flags /\ (0x0F :: replicate 30 7) !! 1%nat = Some h /\
     ((19 <= Z.of_nat (length (0x0F :: replicate 30 7)) < hdr_size flags /\ r = RNS_RET_INVALID_HEADER2_SIZE) \/
      (hdr_size flags <= Z.of_nat (length (0x0F :: replicate 30 7)) /\ r = RNS_RET_OK /\
       info = info_of sum_digest (0x0F :: replicate 30 7) flags h))).
Proof. exact (link_parse_total sum_digest (0x0F :: replicate 30 7) zero_info sum_digest_length). Defined.

(** [rns_link_utils_clamp_mtu] on a link request whose signalling bytes
    are inside the packet: it reads the announced 21-bit MTU [m]; [m <= limit]
    leaves the packet alone; otherwise the three signalling bytes, and only
    they, are rewritten so that the announced MTU is [limit] and the mode
    bits are kept.  No access is outside the packet. *)
Theorem clamp_mtu_spec (p : list Z) (pkt : packet_info) (limit : Z) :
  is_bytes p -> Z.of_nat (length p) < 2 ^ 16 ->
  67 <= payload_len pkt <= Z.of_nat (length p) ->
  packet_type pkt = RNS_PACKET_TYPE_LINKREQUEST -> 0 <= limit < 2 ^ 21 ->
  exists m mode,
    link_request_get_mtu p (Z.of_nat (length p)) pkt = Some m /\ 0 <= m < 2 ^ 21 /\
    link_request_get_mode p (Z.of_nat (length p)) pkt = Some mode /\
    (m <= limit -> rns_link_utils_clamp_mtu (Some p) (Z.of_nat (length p)) (Some pkt) limit
                     = Some (RNS_RET_NOT_MODIFIED, Some p, m)) /\
    (limit < m -> exists q,
       rns_link_utils_clamp_mtu (Some p) (Z.of_nat (length p)) (Some pkt) limit
         = Some (RNS_RET_OK, Some q, m) /\
       length q = length p /\ is_bytes q /\
       link_request_get_mtu q (Z.of_nat (length p)) pkt = Some limit /\
       link_request_get_mode q (Z.of_nat (length p)) pkt = Some mode /\
       forall i, (Z.of_nat i < Z.of_nat (length p) - payload_len pkt + 64 \/
                  Z.of_nat (length p) - payload_len pkt + 64 + 3 <= Z.of_nat i) ->
         q !! i = p !! i).
Proof. intros. by apply clamp_spec. Qed.

Definition ex_request : list Z := 0x02 :: replicate 82 9 ++ [0x3F; 0xFF; 0xFF].
Definition ex_request_info : packet_info :=
  zero_info <| packet_type := RNS_PACKET_TYPE_LINKREQUEST |> <| payload_len := 67 |>.

Lemma ex_request_bytes : is_bytes ex_request.
Proof. by_eval. Qed.

Lemma clamp_mtu_spec_witness :
  exists m mode,
    link_request_get_mtu ex_request 86 ex_request_info = Some m /\ 0 <= m < 2 ^ 21 /\
    link_request_get_mode ex_request 86 ex_request_info = Some mode /\
    (m <= 500 -> rns_link_utils_clamp_mtu (Some ex_request) 86 (Some ex_request_info) 500
                     = Some (RNS_RET_NOT_MODIFIED, Some ex_request, m)) /\
    (500 < m -> exists q,
       rns_link_utils_clamp_mtu (Some ex_request) 86 (Some ex_request_info) 500
         = Some (RNS_RET_OK, Some q, m) /\
       length q = 86%nat /\ is_bytes q /\
       link_request_get_mtu q 86 ex_request_info = Some 500 /\
       link_request_get_mode q 86 ex_request_info = Some mode /\
       forall i, (Z.of_nat i < 86 - 67 + 64 \/ 86 - 67 + 64 + 3 <= Z.of_nat i) ->
         q !! i = ex_request !! i).
Proof.
  apply (clamp_mtu_spec ex_request ex_request_info 500 ex_request_bytes);
    [by vm_compute|split; vm_compute; congruence|reflexivity|split; [lia|reflexivity]].
Defined.

(** The clamp rewrites nothing the parser looks at. *)
Lemma link_id_of_ext sha256 p q flags :
  packet_type_field flags = RNS_PACKET_TYPE_LINKREQUEST ->
  length q = length p ->
  (forall i, Z.of_nat i < hdr_size flags + 64 -> q !! i = p !! i) ->
  link_id_of sha256 q flags = link_id_of sha256 p flags.
Proof.
  intros Ht Hl Hsame. unfold link_id_of. rewrite Hl. do 3 f_equal.
  unfold hash_len. rewrite bool_decide_true by done.
  set (n := Z.to_nat _).
  assert (Hn : Z.of_nat n + hash_off flags <= hdr_size flags + 64).
  { destruct (hdr_consts flags) as [[Hh Ho]|[Hh Ho]]; rewrite Hh, Ho in *; lia. }
  assert (0 <= hash_off flags) by (destruct (hdr_consts flags) as [[_ ->]|[_ ->]]; lia).
  apply list_eq. intros i. destruct (decide (i < n)%nat) as [Hi|Hi].
  - rewrite !lookup_take_lt by lia. rewrite !lookup_drop. apply Hsame. lia.
  - by rewrite !lookup_take_ge by lia.
Qed.

Lemma info_of_ext sha256 p q flags h :
  packet_type_field flags = RNS_PACKET_TYPE_LINKREQUEST ->
  length q = length p -> hdr_size flags <= Z.of_nat (length p) ->
  (forall i, Z.of_nat i < hdr_size flags + 64 -> q !! i = p !! i) ->
  info_of sha256 q flags h = info_of sha256 p flags h.
Proof.
  intros Ht Hl Hhdr Hsame. unfold info_of.
  assert (Hctx : nth (Z.to_nat (hdr_size flags - 1)) q 0 = nth (Z.to_nat (hdr_size flags - 1)) p 0).
  { rewrite !nth_lookup, Hsame; [done|].
    destruct (hdr_consts flags) as [[-> _]|[-> _]]; lia. }
  assert (Hdst : take 16 (drop (Z.to_nat (hash_off flags)) q)
               = take 16 (drop (Z.to_nat (hash_off flags)) p)).
  { apply list_eq. intros i. destruct (decide (i < 16)%nat) as [Hi|Hi].
    - rewrite !lookup_take_lt by lia. rewrite !lookup_drop. apply Hsame.
      destruct (hdr_consts flags) as [[-> ->]|[-> ->]]; lia.
    - by rewrite !lookup_take_ge by lia. }
  rewrite Hctx, Hdst, Hl. by erewrite link_id_of_ext.
Qed.

(** Clamping the MTU of a parsed packet changes nothing the parser
    reports - in particular not the link identifier, so the node that clamps
    and the peer that receives the clamped packet file the link under the
    same key. *)
Theorem clamp_preserves_parse (sha256 : list Z -> list Z) (p q : list Z) o info limit r m :
  (forall x, length (sha256 x) = 32%nat) ->
  is_bytes p -> Z.of_nat (length p) < 2 ^ 16 -> 0 <= limit < 2 ^ 21 ->
  rns_link_parser_parse sha256 (Some p) (Some o) = Some (RNS_RET_OK, Some info) ->
  rns_link_utils_clamp_mtu (Some p) (Z.of_nat (length p)) (Some info) limit = Some (r, Some q, m) ->
  length q = length p /\
  rns_link_parser_parse sha256 (Some q) (Some o) = Some (RNS_RET_OK, Some info).
Proof.
  intros Hsha Hb Hlen Hlim Hparse Hclamp.
  assert (q = p \/ (packet_type info = RNS_PACKET_TYPE_LINKREQUEST /\ 67 <= payload_len info))
    as [->|[Ht Hpl]].
  { unfold rns_link_utils_clamp_mtu in Hclamp. case_decide as Ht; [by simplify_eq; left|].
    destruct (Z.ltb_spec (payload_len info) 67); [by simplify_eq; left|].
    right. split; [|lia]. destruct (packet_type info); tauto. }
  { done. }
  rewrite parse_spec in Hparse |- * by done.
  destruct (Z.ltb_spec (Z.of_nat (length p)) 19); [done|].
  destruct (rd_in_bounds p 0) as (flags & Hf & Hf0); [lia|].
  destruct (rd_in_bounds p 1) as (h & Hh & Hh0); [lia|].
  rewrite Hf, Hh in Hparse. cbn [mbind option_bind] in Hparse.
  destruct (Z.ltb_spec (Z.of_nat (length p)) (hdr_size flags)) as [|Hhdr]; [done|].
  simplify_eq. cbn [packet_type payload_len info_of] in Ht, Hpl.
  assert (Hu : u16 (Z.of_nat (length p) - hdr_size flags) = Z.of_nat (length p) - hdr_size flags).
  { destruct (hdr_consts flags) as [[Hc _]|[Hc _]]; rewrite Hc in *; word_lia. }
  rewrite Hu in Hpl.
  destruct (clamp_spec p (info_of sha256 p flags h) Hb Hlen) with (limit := limit)
    as (m' & mode & _ & _ & _ & Hle & Hgt); [|done..|].
  { cbn [payload_len info_of]. rewrite Hu. destruct (hdr_consts flags) as [[Hc _]|[Hc _]]; lia. }
  cbn [payload_len info_of] in Hle, Hgt. rewrite Hu in Hgt.
  destruct (decide (m' <= limit)) as [Hm|Hm].
  { rewrite Hle in Hclamp by done. simplify_eq. split; [done|].
    rewrite (proj2 (Z.ltb_ge _ _)) by lia. rewrite Hf, Hh. cbn [mbind option_bind].
    by rewrite (proj2 (Z.ltb_ge _ _)) by lia. }
  destruct Hgt as (q' & Hq & Hlq & _ & _ & _ & Hsame); [lia|].
  rewrite Hq in Hclamp. simplify_eq. split; [done|].
  assert (Hs : forall i, Z.of_nat i < hdr_size flags + 64 -> q !! i = p !! i).
  { intros i Hi. apply Hsame. lia. }
  assert (Hrd : forall k, 0 <= k <= 1 -> rd q k = rd p k).
  { intros k Hk. unfold rd. rewrite !decide_True by lia. apply Hs.
    destruct (hdr_consts flags) as [[-> _]|[-> _]]; lia. }
  rewrite Hlq, !Hrd, Hf, Hh by lia. cbn [mbind option_bind].
  rewrite !(proj2 (Z.ltb_ge _ _)) by lia. by erewrite info_of_ext.
Qed.

(** The link identifier does not depend on how the packet travelled: a
    type-1 packet and the same packet carried with a type-2 header (a
    transport identifier inserted after the hop count, any hop counts, any
    upper flag bits) have the same identifier. *)
Theorem link_id_transport_invariant (sha256 : list Z -> list Z) f1 h1 f2 h2 (tid body : list Z) :
  (forall x, length (sha256 x) = 32%nat) ->
  length tid = 16%nat -> (17 <= length body)%nat ->
  header_type_field f1 = RNS_HEADER_TYPE_1 -> header_type_field f2 = RNS_HEADER_TYPE_2 ->
  Z.land f1 0x0F = Z.land f2 0x0F ->
  exists id, rns_link_parser_calc_link_id sha256 (f1 :: h1 :: body) = Some (inr id) /\
             rns_link_parser_calc_link_id sha256 (f2 :: h2 :: tid ++ body) = Some (inr id).
Proof.
  intros Hsha Htid Hbody H1 H2 Hlow.
  assert (Ht : packet_type_field f1 = packet_type_field f2).
  { unfold packet_type_field. f_equal. change 3 with (Z.land 0x0F 3).
    by rewrite !Z.land_assoc, Hlow. }
  rewrite (calc_link_id_spec sha256 Hsha (f1 :: h1 :: body) f1 eq_refl),
    (calc_link_id_spec sha256 Hsha (f2 :: h2 :: tid ++ body) f2 eq_refl);
    [|unfold hdr_size; rewrite ?H1, ?H2; cbn; rewrite ?length_app; unfold
      RNS_HEADER_TYPE1_SIZE, RNS_HEADER_TYPE2_SIZE, RNS_TRUNCATED_HASH_LEN; lia..].
  eexists. split; [done|]. do 2 f_equal. unfold link_id_of, hash_len, hash_off, hdr_size.
  rewrite H1, H2, Ht, Hlow. unfold RNS_HEADER_TYPE1_SIZE, RNS_HEADER_TYPE2_SIZE,
    RNS_TRUNCATED_HASH_LEN. do 3 f_equal.
  change (Z.to_nat 2) with 2%nat. change (Z.to_nat (2 + 16)) with (S (S 16)). cbn [drop].
  rewrite <-Htid, drop_app_length. f_equal. cbn [length]. rewrite length_app, Htid.
  destruct (bool_decide _); lia.
Qed.

Definition ex_parsed : packet_info := info_of sum_digest ex_request 2 9.
Definition ex_clamped : list Z := 0x02 :: replicate 82 9 ++ [0x20; 0x01; 0xF4].

Lemma clamp_preserves_parse_witness :
  length ex_clamped = length ex_request /\
  rns_link_parser_parse sum_digest (Some ex_clamped) (Some zero_info)
    = Some (RNS_RET_OK, Some ex_parsed).
Proof.
  apply (clamp_preserves_parse sum_digest ex_request ex_clamped zero_info ex_parsed 500
           RNS_RET_OK 0x1FFFFF sum_digest_length ex_request_bytes);
    [by vm_compute|split; [lia|reflexivity]|vm_compute; reflexivity|vm_compute; reflexivity].
Defined.

Lemma link_id_transport_invariant_witness :
  exists id, rns_link_parser_calc_link_id sum_digest (0x02 :: 0 :: replicate 90 5) = Some (inr id) /\
    rns_link_parser_calc_link_id sum_digest (0x52 :: 3 :: replicate 16 1 ++ replicate 90 5)
      = Some (inr id).
Proof.
  apply (link_id_transport_invariant sum_digest 0x02 0 0x52 3 (replicate 16 1) (replicate 90 5)
           sum_digest_length); vm_compute; (reflexivity || lia).
Defined.

(** C27: the identity of a link survives everything the nodes on its way do to
    the request.  The identifier is the same for a type-1 packet and for the
    same packet carried with a type-2 header (transport identifier inserted,
    any hop counts, any upper flag bits); and when a node clamps the announced
    MTU, the parser reports the same header fields and the same identifier
    for the clamped packet, whatever the limit. *)
Theorem link_identity_preserved (sha256 : list Z -> list Z) :
  (forall x, length (sha256 x) = 32%nat) ->
  (forall f1 h1 f2 h2 tid body, length tid = 16%nat -> (17 <= length body)%nat ->
     header_type_field f1 = RNS_HEADER_TYPE_1 -> header_type_field f2 = RNS_HEADER_TYPE_2 ->
     Z.land f1 0x0F = Z.land f2 0x0F ->
     exists id, rns_link_parser_calc_link_id sha256 (f1 :: h1 :: body) = Some (inr id) /\
                rns_link_parser_calc_link_id sha256 (f2 :: h2 :: tid ++ body) = Some (inr id)) /\
  (forall p q o info limit r m, is_bytes p -> Z.of_nat (length p) < 2 ^ 16 -> 0 <= limit < 2 ^ 21 ->
     rns_link_parser_parse sha256 (Some p) (Some o) = Some (RNS_RET_OK, Some info) ->
     rns_link_utils_clamp_mtu (Some p) (Z.of_nat (length p)) (Some info) limit = Some (r, Some q, m) ->
     length q = length p /\
     rns_link_parser_parse sha256 (Some q) (Some o) = Some (RNS_RET_OK, Some info)).
Proof.
  intros Hsha. split.
  - intros. by eapply link_id_transport_invariant.
  - intros. by eapply clamp_preserves_parse.
Qed.

Lemma link_identity_preserved_witness :
  (exists id, rns_link_parser_calc_link_id sum_digest (0x02 :: 0 :: replicate 90 5) = Some (inr id) /\
    rns_link_parser_calc_link_id sum_digest (0x52 :: 3 :: replicate 16 1 ++ replicate 90 5) = Some (inr id)) /\
  length ex_clamped = length ex_request /\
  rns_link_parser_parse sum_digest (Some ex_clamped) (Some zero_info) = Some (RNS_RET_OK, Some ex_parsed).
Proof.
  destruct (link_identity_preserved sum_digest sum_digest_length) as [Hid Hclamp]. split.
  - apply (Hid 0x02 0 0x52 3 (replicate 16 1) (replicate 90 5)); vm_compute; (reflexivity || lia).
  - apply (Hclamp ex_request ex_clamped zero_info ex_parsed 500 RNS_RET_OK 0x1FFFFF ex_request_bytes);
      [by vm_compute|split; [lia|reflexivity]|vm_compute; reflexivity|vm_compute; reflexivity].
Defined.
