(* ===== verification/LinkDb.v ===== *)
(** * The link table: [src/rns/link_db.c]

    A fixed table of 255 slots, indexed by a 510-bucket hash whose collision
    chains are threaded through the slots ([hash_next], [0xFF] ends a
    chain).  The abstract specification is a finite map from link identifiers
    to link records; every operation refines its map counterpart. *)

From S2P Require Import Prelude LinkParser.

Definition RNS_DB_MAX_LINK_COUNT : Z := 255.
Definition RNS_DB_HASH_SIZE : Z := RNS_DB_MAX_LINK_COUNT * 2.
Definition RNS_DB_INDEX_NONE : Z := 0xFF.
Definition RNS_LINK_MAC_UNKNOWN_BYTE : Z := 0xFF.
Definition RNS_LINK_TIMEOUT_S : Z := 900.

Inductive rns_packet_direction := RNS_PACKET_DIRECTION_RX | RNS_PACKET_DIRECTION_TX.
#[export] Instance rns_packet_direction_eq_dec : EqDecision rns_packet_direction.
Proof. solve_decision. Defined.

Inductive rns_link_state :=
  | RNS_LINK_STATE_CLOSED | RNS_LINK_STATE_REQUEST_SENT
  | RNS_LINK_STATE_PROOF_RECEIVED | RNS_LINK_STATE_OPEN.
#[export] Instance rns_link_state_eq_dec : EqDecision rns_link_state.
Proof. solve_decision. Defined.

Record link := mkLink {
  id : list Z;
  link_destination : list Z;
  firstseen_timestamp_s : Z;
  lastrx_timestamp_s : Z;
  lasttx_timestamp_s : Z;
  rx_bytes : Z;
  tx_bytes : Z;
  rx_packets : Z;
  tx_packets : Z;
  link_hops : Z;
  link_state : rns_link_state;
  remote_mac : list Z;
  effective_mtu : Z;
  hash_next : Z;
}.
#[export] Instance eta_link : Eta link := fun r =>
  mkLink (id r) (link_destination r) (firstseen_timestamp_s r) (lastrx_timestamp_s r)
    (lasttx_timestamp_s r) (rx_bytes r) (tx_bytes r) (rx_packets r) (tx_packets r)
    (link_hops r) (link_state r) (remote_mac r) (effective_mtu r) (hash_next r).

Record link_db := mkDb {
  links : list (option link);
  buckets : list Z;
  links_count : Z;
}.
#[export] Instance eta_link_db : Eta link_db :=
  fun r => mkDb (links r) (buckets r) (links_count r).

(** The static initialiser of [g_link_db]. *)
Definition g_link_db_init : link_db :=
  mkDb (replicate 255 None) (replicate 510 RNS_DB_INDEX_NONE) 0.

(** FNV-1a over the 16 bytes of the identifier, reduced to a bucket. *)
Definition rns_link_db_hash_id (i : list Z) : Z :=
  u16 (fold_left (fun h b => u32 (u32 (Z.lxor h b) * 16777619)) i 2166136261
       mod RNS_DB_HASH_SIZE).

(** The chain walk of [rns_link_db_find_index_by_id]; [None] is a read
    outside a table, or no end of chain within [fuel] steps. *)
Fixpoint find_walk (fuel : nat) (db : link_db) (key : list Z) (index : Z) : option Z :=
  if index =? RNS_DB_INDEX_NONE then Some (-1)
  else match fuel with
  | O => None
  | S fuel =>
      slot ← rd (links db) index;
      match slot with
      | None => Some (-1)
      | Some l => if decide (id l = key) then Some index
                  else find_walk fuel db key (hash_next l)
      end
  end.

Definition rns_link_db_find_index_by_id (db : link_db) (key : list Z) : option Z :=
  index ← rd (buckets db) (rns_link_db_hash_id key);
  find_walk 256 db key index.

(** The scan for the first NULL slot. *)
Fixpoint first_free (slots : list (option link)) (i : Z) : Z :=
  match slots with
  | [] => -1
  | None :: _ => i
  | Some _ :: slots => first_free slots (i + 1)
  end.

Definition rns_link_db_find_free_slot (db : link_db) : Z :=
  if RNS_DB_MAX_LINK_COUNT <=? links_count db then -1 else first_free (links db) 0.

(** The unlinking loop of [rns_link_db_remove_index]. *)
Fixpoint unlink_walk (fuel : nat) (slots : list (option link)) (index next cur : Z)
  : option (list (option link)) :=
  if cur =? RNS_DB_INDEX_NONE then Some slots
  else match fuel with
  | O => None
  | S fuel =>
      slot ← rd slots cur;
      match slot with
      | None => Some slots
      | Some l => if hash_next l =? index then wr slots cur (Some (l <| hash_next := next |>))
                  else unlink_walk fuel slots index next (hash_next l)
      end
  end.

Definition rns_link_db_remove_index (db : link_db) (index : Z) : option link_db :=
  slot ← rd (links db) index;
  match slot with
  | None => Some db
  | Some l =>
      let bucket_idx := rns_link_db_hash_id (id l) in
      cur ← rd (buckets db) bucket_idx;
      db ← (if cur =? index then
              b ← wr (buckets db) bucket_idx (hash_next l);
              Some (db <| buckets := b |>)
            else
              s ← unlink_walk 256 (links db) index (hash_next l) cur;
              Some (db <| links := s |>));
      s ← wr (links db) index None;
      Some (db <| links := s |>
               <| links_count ::= fun c => if 0 <? c then u8 (c - 1) else c |>)
  end.

Definition rns_link_mac_is_unknown (mac : list Z) : bool :=
  forallb (fun b => b =? RNS_LINK_MAC_UNKNOWN_BYTE) mac.

(** The state machine of a link. *)
Definition next_link_state (st : rns_link_state) (pkg : packet_info)
    (direction : rns_packet_direction) : rns_link_state :=
  if decide (st <> RNS_LINK_STATE_OPEN) then
    if decide (packet_type pkg = RNS_PACKET_TYPE_LINKREQUEST) then
      if decide (direction = RNS_PACKET_DIRECTION_TX /\ st = RNS_LINK_STATE_CLOSED)
      then RNS_LINK_STATE_REQUEST_SENT else st
    else if decide (packet_type pkg = RNS_PACKET_TYPE_PROOF \/
                    context pkg = RNS_CONTEXT_LINKPROOF \/ context pkg = RNS_CONTEXT_LRPROOF)
    then RNS_LINK_STATE_PROOF_RECEIVED
    else if decide (destination_type pkg = RNS_DESTINATION_TYPE_LINK)
    then RNS_LINK_STATE_OPEN else st
  else st.

(** The record a new identifier starts from. *)
Definition new_link (pkg : packet_info) (direction : rns_packet_direction) (now_s : Z) : link :=
  mkLink (link_id pkg) (destination pkg) now_s
    (if decide (direction = RNS_PACKET_DIRECTION_RX) then now_s else 0)
    (if decide (direction = RNS_PACKET_DIRECTION_TX) then now_s else 0)
    0 0 0 0 (hops pkg) RNS_LINK_STATE_CLOSED
    (replicate 6 RNS_LINK_MAC_UNKNOWN_BYTE) 0 0.

(** The field updates every registered packet makes. *)
Definition touch_link (pkg : packet_info) (direction : rns_packet_direction)
    (mac : option (list Z)) (mtu : Z) (update_mtu unicast_to_me : bool) (now_s : Z)
    (l : link) : link :=
  let l := l <| link_hops := hops pkg |> in
  let l :=
    if decide (direction = RNS_PACKET_DIRECTION_RX) then
      l <| lastrx_timestamp_s := now_s |> <| rx_packets ::= fun n => u32 (n + 1) |>
        <| rx_bytes ::= fun n => u32 (n + payload_len pkg) |>
    else
      l <| lasttx_timestamp_s := now_s |> <| tx_packets ::= fun n => u32 (n + 1) |>
        <| tx_bytes ::= fun n => u32 (n + payload_len pkg) |> in
  let l :=
    match mac with
    | Some m => if unicast_to_me || rns_link_mac_is_unknown (remote_mac l)
                then l <| remote_mac := m |> else l
    | None => l
    end in
  let l := if update_mtu && negb (effective_mtu l =? mtu)
           then l <| effective_mtu := mtu |> else l in
  l <| link_state := next_link_state (link_state l) pkg direction |>.

Section Register.
(** Whether the next [malloc] succeeds. *)
Variable malloc_ok : bool.

Definition rns_link_db_package_register (db : link_db) (pkg : option packet_info)
    (direction : rns_packet_direction) (mac : option (list Z)) (mtu : Z)
    (update_mtu unicast_to_me : bool) (now_s : Z) : option (rns_ret * link_db) :=
  match pkg with
  | None => Some (RNS_RET_NULLPTR, db)
  | Some pkg =>
    index ← rns_link_db_find_index_by_id db (link_id pkg);
    if context pkg =? RNS_CONTEXT_LINKCLOSE then
      db ← (if 0 <=? index then rns_link_db_remove_index db (u8 index) else Some db);
      Some (RNS_RET_OK, db)
    else
      let touch := touch_link pkg direction mac mtu update_mtu unicast_to_me now_s in
      if 0 <=? index then
        slot ← rd (links db) index;
        match slot with
        | None => Some (RNS_RET_NO_SLOT, db)
        | Some l =>
            s ← wr (links db) index (Some (touch l));
            Some (RNS_RET_OK, db <| links := s |>)
        end
      else
        let slot := rns_link_db_find_free_slot db in
        if slot <? 0 then Some (RNS_RET_NO_SLOT, db)
        else if negb malloc_ok then Some (RNS_RET_NO_MEMORY, db)
        else
          let bucket_idx := rns_link_db_hash_id (link_id pkg) in
          head ← rd (buckets db) bucket_idx;
          let l := new_link pkg direction now_s <| hash_next := head |> in
          s ← wr (links db) slot (Some (touch l));
          b ← wr (buckets db) bucket_idx (u8 slot);
          Some (RNS_RET_OK, db <| links := s |> <| buckets := b |>
                               <| links_count ::= fun c => u8 (c + 1) |>)
  end.
End Register.

(** [rns_link_db_sweep_expired] *)
Definition last_activity_s (l : link) : Z :=
  let a := 0 in
  let a := if a <? lastrx_timestamp_s l then lastrx_timestamp_s l else a in
  if a <? lasttx_timestamp_s l then lasttx_timestamp_s l else a.

Definition expired (now_s : Z) (l : link) : bool :=
  (0 <? last_activity_s l) && (RNS_LINK_TIMEOUT_S <? i32 (now_s - last_activity_s l)).

Fixpoint sweep_loop (n : nat) (i : Z) (now_s : Z) (db : link_db) (removed : Z)
  : option (link_db * Z) :=
  match n with
  | O => Some (db, removed)
  | S n =>
      slot ← rd (links db) i;
      match slot with
      | None => sweep_loop n (i + 1) now_s db removed
      | Some l =>
          if expired now_s l then
            db ← rns_link_db_remove_index db (u8 i);
            sweep_loop n (i + 1) now_s db (u32 (removed + 1))
          else sweep_loop n (i + 1) now_s db removed
      end
  end.

Definition rns_link_db_sweep_expired (db : link_db) (now_s : Z) : option (link_db * Z) :=
  sweep_loop (Z.to_nat RNS_DB_MAX_LINK_COUNT) 0 now_s db 0.

(** [rns_link_db_link_count_get] and the two snapshot readers. *)
Definition rns_link_db_link_count_get (db : link_db) : Z := links_count db.

Fixpoint snapshot_scan (slots : list (option link)) (index pos : Z) : option link :=
  match slots with
  | [] => None
  | None :: slots => snapshot_scan slots index pos
  | Some l :: slots => if pos =? index then Some l else snapshot_scan slots index (u32 (pos + 1))
  end.

Definition rns_link_db_link_snapshot_by_index (db : link_db) (index : Z) : option link :=
  snapshot_scan (links db) index 0.

Definition rns_link_db_link_snapshot_by_id (db : link_db) (key : list Z) : option (option link) :=
  index ← rns_link_db_find_index_by_id db key;
  if 0 <=? index then rd (links db) index else Some None.

(** ** Representation invariant *)

(** [is_chain slots head c]: following [hash_next] from [head] visits exactly
    the slots [c] and then reaches the end marker. *)
Fixpoint is_chain (slots : list (option link)) (head : Z) (c : list Z) : Prop :=
  match c with
  | [] => head = RNS_DB_INDEX_NONE
  | i :: c => head = i /\ 0 <= i < 255 /\
              exists l, slots !! Z.to_nat i = Some (Some l) /\ is_chain slots (hash_next l) c
  end.

(** The chain of bucket [b]: its entries are the occupied slots hashing to [b]. *)
Definition bucket_ok (slots : list (option link)) (b head : Z) : Prop :=
  exists c, is_chain slots head c /\ NoDup c /\
    forall i, 0 <= i < 255 ->
      (i ∈ c <-> exists l, slots !! Z.to_nat i = Some (Some l) /\ rns_link_db_hash_id (id l) = b).

Definition occupied (slots : list (option link)) : list link := omap (fun s => s) slots.

Record wf (db : link_db) : Prop := {
  wf_links : length (links db) = 255%nat;
  wf_buckets : length (buckets db) = 510%nat;
  wf_chains : forall b h, 0 <= b < 510 -> buckets db !! Z.to_nat b = Some h -> bucket_ok (links db) b h;
  wf_unique : forall i j li lj, links db !! i = Some (Some li) -> links db !! j = Some (Some lj) ->
              id li = id lj -> i = j;
  wf_count : links_count db = Z.of_nat (length (occupied (links db)));
}.

(** The contents of the table: a finite map from link identifiers to records
    (the chain pointer erased). *)
Definition erase (l : link) : link := l <| hash_next := 0 |>.
Definition contents (db : link_db) : gmap (list Z) link :=
  list_to_map ((fun l => (id l, erase l)) <$> occupied (links db)).

Lemma hash_range k : 0 <= rns_link_db_hash_id k < 510.
Proof.
  unfold rns_link_db_hash_id. change RNS_DB_HASH_SIZE with 510.
  set (x := fold_left _ _ _). pose proof (Z.mod_pos_bound x 510 ltac:(lia)).
  rewrite u16_small by word_lia. done.
Qed.

Lemma elem_of_occupied slots l :
  l ∈ occupied slots <-> exists i, slots !! i = Some (Some l).
Proof.
  unfold occupied. rewrite list_elem_of_omap. split.
  - intros (x & Hx & ->). by apply list_elem_of_lookup in Hx.
  - intros [i Hi]. exists (Some l). split; [|done]. by eapply list_elem_of_lookup_2.
Qed.

Lemma occupied_NoDup_ids slots :
  (forall i j li lj, slots !! i = Some (Some li) -> slots !! j = Some (Some lj) ->
     id li = id lj -> i = j) ->
  NoDup (id <$> occupied slots).
Proof.
  induction slots as [|[l|] slots IH]; intros Hu.
  - constructor.
  - change (NoDup (id l :: (id <$> occupied slots))). constructor.
    + intros (l' & Heq & (i & Hi)%elem_of_occupied)%list_elem_of_fmap.
      by specialize (Hu O (S i) l l' eq_refl Hi Heq).
    + apply IH. intros i j li lj Hi Hj He. by specialize (Hu (S i) (S j) li lj Hi Hj He) as [=].
  - apply IH. intros i j li lj Hi Hj He. by specialize (Hu (S i) (S j) li lj Hi Hj He) as [=].
Qed.

Lemma contents_lookup db key l :
  wf db -> contents db !! key = Some l <->
  exists i l0, links db !! i = Some (Some l0) /\ id l0 = key /\ erase l0 = l.
Proof.
  intros Hwf. unfold contents. rewrite <-elem_of_list_to_map.
  2:{ rewrite <-list_fmap_compose. apply (occupied_NoDup_ids _ (wf_unique _ Hwf)). }
  rewrite list_elem_of_fmap. setoid_rewrite elem_of_occupied.
  split.
  - intros (l0 & [= -> ->] & [i Hi]). eauto.
  - intros (i & l0 & Hi & <- & <-). eauto.
Qed.

Lemma contents_None db key :
  wf db -> contents db !! key = None <->
  forall i l0, links db !! i = Some (Some l0) -> id l0 <> key.
Proof.
  intros Hwf. rewrite eq_None_not_Some. split.
  - intros H i l0 Hi Hk. apply H. exists (erase l0). rewrite contents_lookup; eauto.
  - intros H [l Hl]. apply contents_lookup in Hl as (i & l0 & Hi & Hk & _); [|done]. by eapply H.
Qed.

Lemma contents_size db : wf db -> Z.of_nat (size (contents db)) = links_count db.
Proof.
  intros Hwf. rewrite (wf_count _ Hwf). unfold contents. rewrite map_size_list_to_map.
  - by rewrite length_fmap.
  - rewrite <-list_fmap_compose. apply (occupied_NoDup_ids _ (wf_unique _ Hwf)).
Qed.

Lemma occupied_le slots : (length (occupied slots) <= length slots)%nat.
Proof.
  induction slots as [|[l|] s IH]; [done|..].
  - change (occupied (Some l :: s)) with (l :: occupied s). cbn. lia.
  - change (occupied (None :: s)) with (occupied s). cbn. lia.
Qed.

(** ** Chains *)

Lemma chain_slots slots h c i :
  is_chain slots h c -> i ∈ c -> 0 <= i < 255 /\ exists l, slots !! Z.to_nat i = Some (Some l).
Proof.
  revert h. induction c as [|j c IH]; intros h Hc Hi; [by apply not_elem_of_nil in Hi|].
  destruct Hc as (-> & Hj & l & Hl & Hc). apply elem_of_cons in Hi as [->|Hi]; eauto.
Qed.

Lemma chain_length slots h c : is_chain slots h c -> NoDup c -> (length c <= 255)%nat.
Proof.
  intros Hc Hnd. change 255%nat with (length (seqZ 0 255)).
  apply submseteq_length, NoDup_submseteq; [done|].
  intros i Hi. apply (chain_slots _ _ _ i Hc) in Hi as [Hi _]. apply elem_of_seqZ. lia.
Qed.

(** Updating a slot outside a chain, or keeping its link, keeps the chain. *)
Lemma chain_frame slots h c j v :
  is_chain slots h c -> (forall i, i ∈ c -> Z.to_nat i <> j) -> is_chain (<[j:=v]> slots) h c.
Proof.
  revert h. induction c as [|i c IH]; intros h Hc Hj; [done|].
  destruct Hc as (-> & Hi & l & Hl & Hc). split; [done|]. split; [done|].
  exists l. rewrite list_lookup_insert_ne; [|by apply not_eq_sym, Hj; constructor].
  split; [done|]. apply IH; [done|]. intros. apply Hj. by constructor.
Qed.

Lemma chain_touch slots h c j l l' :
  is_chain slots h c -> slots !! j = Some (Some l) -> hash_next l' = hash_next l ->
  is_chain (<[j:=Some l']> slots) h c.
Proof.
  intros Hc Hj Hn. revert h Hc. induction c as [|i c IH]; intros h Hc; [done|].
  destruct Hc as (-> & Hi & li & Hl & Hc). split; [done|]. split; [done|].
  destruct (decide (Z.to_nat i = j)) as [<-|Hne].
  - exists l'. rewrite list_lookup_insert_eq by (by eapply lookup_lt_Some).
    split; [done|]. rewrite Hn. simplify_eq. by apply IH.
  - exists li. rewrite list_lookup_insert_ne by done. eauto.
Qed.

(** The lookup walk of the source ends within its chain and finds the key. *)
Lemma find_walk_spec db key c : forall fuel h,
  is_chain (links db) h c -> (length c <= fuel)%nat ->
  exists r, find_walk fuel db key h = Some r /\
    ((r = -1 /\ forall i l, i ∈ c -> links db !! Z.to_nat i = Some (Some l) -> id l <> key) \/
     (r ∈ c /\ exists l, links db !! Z.to_nat r = Some (Some l) /\ id l = key)).
Proof.
  induction c as [|i c IH]; intros fuel h Hc Hf; cbn in Hc.
  - subst. exists (-1). destruct fuel; (split; [done|left; split; [done|]]; intros i l Hi;
      by apply not_elem_of_nil in Hi).
  - destruct Hc as (-> & Hi & l & Hl & Hc). destruct fuel as [|fuel]; cbn in Hf; [lia|].
    cbn [find_walk]. unfold RNS_DB_INDEX_NONE. destruct (Z.eqb_spec i 0xFF); [lia|].
    replace (rd (links db) i) with (Some (Some l)) by (symmetry; apply rd_Some; split; [lia|done]).
    cbn [mbind option_bind]. case_decide as Hk.
    + exists i. split; [done|]. right. split; [constructor|]. eauto.
    + destruct (IH fuel (hash_next l) Hc ltac:(lia)) as (r & Hr & Hcase).
      exists r. split; [done|]. destruct Hcase as [[-> Hno]|[Hin Hfound]].
      * left. split; [done|]. intros j l' Hj Hl'. apply elem_of_cons in Hj as [->|Hj]; [|eauto].
        by simplify_eq.
      * right. split; [by constructor|done].
Qed.

(** The bucket of a key, by the invariant. *)
Lemma wf_bucket db b : wf db -> 0 <= b < 510 ->
  exists h, rd (buckets db) b = Some h /\ bucket_ok (links db) b h.
Proof.
  intros Hwf Hb. destruct (rd_in_bounds (buckets db) b) as (h & Hh & Hh').
  { rewrite (wf_buckets _ Hwf). lia. }
  exists h. split; [done|]. by apply (wf_chains _ Hwf).
Qed.

(** The lookup is the search of the contents. *)
Lemma find_index_spec db key : wf db ->
  exists r, rns_link_db_find_index_by_id db key = Some r /\
    ((r = -1 /\ contents db !! key = None) \/
     (0 <= r < 255 /\ exists l, links db !! Z.to_nat r = Some (Some l) /\ id l = key /\
                                contents db !! key = Some (erase l))).
Proof.
  intros Hwf. pose proof (hash_range key) as Hr.
  destruct (wf_bucket db _ Hwf Hr) as (h & Hh & c & Hc & Hnd & Hin).
  unfold rns_link_db_find_index_by_id. rewrite Hh. cbn [mbind option_bind].
  destruct (find_walk_spec db key c 256 h Hc) as (r & Hw & Hcase).
  { pose proof (chain_length _ _ _ Hc Hnd). lia. }
  exists r. split; [done|]. destruct Hcase as [[-> Hno]|(Hrc & l & Hl & Hk)].
  - left. split; [done|]. apply contents_None; [done|]. intros i l Hi Hk.
    assert (i < 255)%nat by (rewrite <-(wf_links _ Hwf); by eapply lookup_lt_Some).
    apply (Hno (Z.of_nat i) l); [|by rewrite Nat2Z.id|done].
    apply Hin; [lia|]. exists l. rewrite Nat2Z.id. by rewrite Hk.
  - right. destruct (chain_slots _ _ _ _ Hc Hrc) as [Hb _]. split; [done|]. exists l.
    split_and!; [done..|]. apply contents_lookup; eauto.
Qed.

(** ** Slot updates *)

Definition filled (o : option link) : nat := match o with Some _ => 1%nat | None => 0%nat end.

Lemma occupied_cons o slots :
  length (occupied (o :: slots)) = (filled o + length (occupied slots))%nat.
Proof. by destruct o. Qed.

Lemma occupied_insert slots i o v :
  slots !! i = Some o ->
  (length (occupied (<[i:=v]> slots)) + filled o = length (occupied slots) + filled v)%nat.
Proof.
  revert i. induction slots as [|s slots IH]; intros i Hi; [done|].
  destruct i as [|i]; cbn in Hi.
  - injection Hi as ->. change (<[0%nat:=v]> (o :: slots)) with (v :: slots).
    rewrite !occupied_cons. lia.
  - change (<[S i:=v]> (s :: slots)) with (s :: <[i:=v]> slots).
    rewrite !occupied_cons. specialize (IH i Hi). lia.
Qed.

(** Two tables that differ, up to chain pointers, only at slot [i]. *)
Definition agree_off (i : nat) (s s' : list (option link)) : Prop :=
  forall j, j <> i -> (fmap erase) <$> (s' !! j) = (fmap erase) <$> (s !! j).

Lemma agree_off_slot i s s' j l' :
  agree_off i s s' -> j <> i -> s' !! j = Some (Some l') ->
  exists l, s !! j = Some (Some l) /\ id l' = id l /\ erase l' = erase l.
Proof.
  intros Ha Hj Hl. specialize (Ha j Hj). rewrite Hl in Ha.
  destruct (s !! j) as [[l|]|]; cbn in Ha; try done.
  assert (erase l' = erase l) as He by congruence.
  exists l. split; [done|]. split; [|done]. exact (f_equal id He).
Qed.

Lemma agree_off_sym i s s' : agree_off i s s' -> agree_off i s' s.
Proof. intros H j Hj. by rewrite H. Qed.

Lemma agree_off_insert i s v : agree_off i s (<[i:=v]> s).
Proof. intros j Hj. by rewrite list_lookup_insert_ne. Qed.

Lemma agree_off_relink i s k l n :
  s !! k = Some (Some l) -> agree_off i s (<[k:=Some (l <| hash_next := n |>)]> s).
Proof.
  intros Hk j Hj. destruct (decide (k = j)) as [<-|Hne].
  - rewrite list_lookup_insert_eq by (by eapply lookup_lt_Some). by rewrite Hk.
  - by rewrite list_lookup_insert_ne.
Qed.

Lemma agree_off_trans i s1 s2 s3 : agree_off i s1 s2 -> agree_off i s2 s3 -> agree_off i s1 s3.
Proof. intros H1 H2 j Hj. by rewrite H2, H1. Qed.

(** The key of slot [i] before and after is [k], and [k] is nowhere else. *)
Record slot_change (i : nat) (k : list Z) (o : option link) (s s' : list (option link)) : Prop := {
  sc_agree : agree_off i s s';
  sc_new : s' !! i = Some o;
  sc_new_key : forall l, o = Some l -> id l = k;
  sc_only : forall j l, s !! j = Some (Some l) -> id l = k -> j = i;
  sc_old_key : forall l, s !! i = Some (Some l) -> id l = k;
}.

Lemma slot_change_unique i k o s s' :
  slot_change i k o s s' ->
  (forall a b la lb, s !! a = Some (Some la) -> s !! b = Some (Some lb) -> id la = id lb -> a = b) ->
  (forall a b la lb, s' !! a = Some (Some la) -> s' !! b = Some (Some lb) -> id la = id lb -> a = b).
Proof.
  intros [Ha Hn Hnk Ho _] Hu.
  assert (Hone : forall b la lb, s' !! i = Some (Some la) -> s' !! b = Some (Some lb) ->
            id la = id lb -> b = i).
  { intros b la lb Hi Hb He. destruct (decide (b = i)) as [|Hne]; [done|].
    destruct (agree_off_slot _ _ _ _ _ Ha Hne Hb) as (l & Hl & Hid & _).
    apply (Ho _ _ Hl). rewrite <-Hid, <-He. apply Hnk. congruence. }
  intros a b la lb Hla Hlb He.
  destruct (decide (a = i)) as [->|Hai]; [symmetry; by eapply Hone|].
  destruct (decide (b = i)) as [->|Hbi]; [by eapply Hone|].
  destruct (agree_off_slot _ _ _ _ _ Ha Hai Hla) as (l1 & Hl1 & Hid1 & _).
  destruct (agree_off_slot _ _ _ _ _ Ha Hbi Hlb) as (l2 & Hl2 & Hid2 & _).
  eapply Hu; eauto. congruence.
Qed.

Lemma slot_change_contents db db' i k o :
  wf db -> wf db' -> slot_change i k o (links db) (links db') ->
  contents db' = partial_alter (fun _ => erase <$> o) k (contents db).
Proof.
  intros Hwf Hwf' [Ha Hn Hnk Ho Hok]. apply map_eq. intros key. apply option_eq. intros x.
  rewrite contents_lookup by done. destruct (decide (key = k)) as [->|Hne].
  - rewrite lookup_partial_alter_eq, fmap_Some. split.
    + intros (j & l & Hj & Hid & <-). destruct (decide (j = i)) as [->|Hji].
      * exists l. split; [congruence|done].
      * destruct (agree_off_slot _ _ _ _ _ Ha Hji Hj) as (l0 & Hl0 & Hid0 & _).
        destruct Hji. apply (Ho _ _ Hl0). congruence.
    + intros (l & -> & ->). exists i, l. auto.
  - rewrite lookup_partial_alter_ne, contents_lookup by done. split.
    + intros (j & l & Hj & <- & <-). destruct (decide (j = i)) as [->|Hji].
      * destruct Hne. apply Hnk. congruence.
      * destruct (agree_off_slot _ _ _ _ _ Ha Hji Hj) as (l0 & Hl0 & Hid0 & He). eauto.
    + intros (j & l & Hj & <- & <-). destruct (decide (j = i)) as [->|Hji].
      * destruct Hne. by apply Hok.
      * apply agree_off_sym in Ha.
        destruct (agree_off_slot _ _ _ _ _ Ha Hji Hj) as (l0 & Hl0 & Hid0 & He). eauto.
Qed.

(** ** Unlinking *)

Lemma chain_suffix slots i l post : forall pre h,
  is_chain slots h (pre ++ i :: post) -> slots !! Z.to_nat i = Some (Some l) ->
  is_chain slots (hash_next l) post.
Proof.
  induction pre as [|p pre IH]; intros h Hc Hi.
  - destruct Hc as (-> & _ & l' & Hl' & Hc). by simplify_eq.
  - destruct Hc as (_ & _ & l' & _ & Hc). by eapply IH.
Qed.

Lemma unlink_walk_spec slots i l post : forall pre fuel cur,
  slots !! Z.to_nat i = Some (Some l) ->
  is_chain slots cur (pre ++ i :: post) -> NoDup (pre ++ i :: post) -> pre <> [] ->
  (length pre <= fuel)%nat ->
  exists k lk, k ∈ pre /\ slots !! Z.to_nat k = Some (Some lk) /\
    unlink_walk fuel slots i (hash_next l) cur
      = Some (<[Z.to_nat k := Some (lk <| hash_next := hash_next l |>)]> slots) /\
    is_chain (<[Z.to_nat k := Some (lk <| hash_next := hash_next l |>)]> slots) cur (pre ++ post).
Proof.
  induction pre as [|p pre IH]; intros fuel cur Hi Hc Hnd Hne Hf; [done|].
  pose proof (chain_suffix _ _ _ _ _ _ Hc Hi) as Hpost.
  pose proof Hc as Hcc. destruct Hc as (-> & Hp & lp & Hlp & Hc).
  destruct fuel as [|fuel]; [cbn in Hf; lia|]. cbn [unlink_walk].
  unfold RNS_DB_INDEX_NONE. destruct (Z.eqb_spec p 0xFF); [lia|].
  replace (rd slots p) with (Some (Some lp)) by (symmetry; apply rd_Some; split; [lia|done]).
  cbn [mbind option_bind]. apply NoDup_cons in Hnd as [Hpn Hnd].
  assert (Hbnd : forall j, j ∈ pre ++ i :: post -> 0 <= j < 255)
    by (intros j Hj; by apply (chain_slots _ _ _ _ Hc) in Hj as [? _]).
  destruct pre as [|p' pre].
  - destruct Hc as (Hpi & Hi' & _). rewrite Hpi, Z.eqb_refl. exists p, lp.
    assert (Hlen : 0 <= p < Z.of_nat (length slots)).
    { apply lookup_lt_Some in Hlp. lia. }
    rewrite wr_in_bounds by done. split_and!; [constructor|done|done|].
    split; [done|]. split; [done|]. exists (lp <| hash_next := hash_next l |>).
    rewrite list_lookup_insert_eq by lia. split; [done|]. rsimpl.
    apply chain_frame; [done|]. intros j Hj. cbn in Hbnd. 
    assert (0 <= j < 255) by (apply Hbnd; by constructor).
    enough (j <> p) by lia. intros ->. apply Hpn. by constructor.
  - pose proof Hc as (Hpi & Hp' & _). rewrite Hpi. destruct (Z.eqb_spec p' i) as [->|Hp'i].
    { apply NoDup_cons in Hnd as [Hnd _]. destruct Hnd. apply elem_of_app. right. constructor. }
    destruct (IH fuel p' Hi) as (k & lk & Hk & Hlk & Hw & Hch); [by rewrite Hpi in Hc|done|done|cbn in *; lia|].
    exists k, lk. split_and!; [by constructor|done|done|].
    split; [done|]. split; [done|]. exists lp. rewrite list_lookup_insert_ne.
    + split; [done|]. by rewrite Hpi.
    + assert (0 <= k < 255) by (apply Hbnd, elem_of_app; by left).
      enough (k <> p) by lia. intros ->. apply Hpn. change (p ∈ (p' :: pre) ++ i :: post). apply elem_of_app. by left.
Qed.

(** ** Preservation of the invariant *)

(** A bucket of the changed table, from what it was before the change. *)
Lemma bucket_ok_change i k o s s' b h c :
  0 <= i < 255 -> slot_change (Z.to_nat i) k o s s' -> is_chain s' h c -> NoDup c ->
  (forall j, 0 <= j < 255 -> j <> i ->
     (j ∈ c <-> exists l, s !! Z.to_nat j = Some (Some l) /\ rns_link_db_hash_id (id l) = b)) ->
  (i ∈ c <-> exists l, o = Some l /\ rns_link_db_hash_id (id l) = b) ->
  bucket_ok s' b h.
Proof.
  intros Hi Hsc Hc Hnd Hoff Hon. exists c. split; [done|]. split; [done|].
  intros j Hj. destruct (decide (j = i)) as [->|Hne].
  - rewrite Hon, (sc_new _ _ _ _ _ Hsc).
    split; intros (x & Hx & Hh); exists x; split; congruence.
  - assert (Z.to_nat j <> Z.to_nat i) by lia. rewrite Hoff by done.
    pose proof (sc_agree _ _ _ _ _ Hsc) as Ha. split; intros (l & Hl & Hh).
    + apply agree_off_sym in Ha.
      destruct (agree_off_slot _ _ _ _ _ Ha ltac:(done) Hl) as (l' & Hl' & Hid & _).
      exists l'. by rewrite <-Hid.
    + destruct (agree_off_slot _ _ _ _ _ Ha ltac:(done) Hl) as (l' & Hl' & Hid & _).
      exists l'. by rewrite <-Hid.
Qed.

(** A chain of another bucket does not meet the changed slots. *)
Lemma other_bucket s i l b h c :
  s !! Z.to_nat i = Some (Some l) -> 0 <= i < 255 -> rns_link_db_hash_id (id l) <> b ->
  is_chain s h c ->
  (forall j, 0 <= j < 255 -> (j ∈ c <-> exists l, s !! Z.to_nat j = Some (Some l) /\ rns_link_db_hash_id (id l) = b)) ->
  i ∉ c /\ forall j, j ∈ c -> Z.to_nat j <> Z.to_nat i.
Proof.
  intros Hl Hi Hb Hc Hin. assert (i ∉ c) as Hn.
  { intros (l' & Hl' & Hh)%Hin; [|done]. congruence. }
  split; [done|]. intros j Hj He. apply Hn. destruct (chain_slots _ _ _ _ Hc Hj) as [? _].
  by replace i with j by lia.
Qed.

(** The state of the links table and bucket head after the unlinking step. *)
Lemma unlink_step db index l :
  wf db -> 0 <= index < 255 -> links db !! Z.to_nat index = Some (Some l) ->
  exists db1 c head, (cur ← rd (buckets db) (rns_link_db_hash_id (id l));
     (if cur =? index then
        b ← wr (buckets db) (rns_link_db_hash_id (id l)) (hash_next l);
        Some (db <| buckets := b |>)
      else
        s ← unlink_walk 256 (links db) index (hash_next l) cur;
        Some (db <| links := s |>))) = Some db1 /\
    links_count db1 = links_count db /\ length (occupied (links db1)) = length (occupied (links db)) /\
    length (links db1) = 255%nat /\ length (buckets db1) = 510%nat /\
    links db1 !! Z.to_nat index = Some (Some l) /\ agree_off (Z.to_nat index) (links db) (links db1) /\
    (* the bucket of the removed link *)
    buckets db1 !! Z.to_nat (rns_link_db_hash_id (id l)) = Some head /\
    is_chain (links db1) head c /\ NoDup c /\ index ∉ c /\
    (forall j, 0 <= j < 255 -> j <> index -> (j ∈ c <-> exists l', links db !! Z.to_nat j = Some (Some l')
        /\ rns_link_db_hash_id (id l') = rns_link_db_hash_id (id l))) /\
    (* every other bucket *)
    (forall b h, b <> rns_link_db_hash_id (id l) -> 0 <= b < 510 ->
       buckets db1 !! Z.to_nat b = Some h -> buckets db !! Z.to_nat b = Some h) /\
    (forall b h c', b <> rns_link_db_hash_id (id l) -> is_chain (links db) h c' ->
       (forall j, 0 <= j < 255 -> (j ∈ c' <-> exists l, links db !! Z.to_nat j = Some (Some l) /\ rns_link_db_hash_id (id l) = b)) ->
       is_chain (links db1) h c').
Proof.
  intros Hwf Hi Hl. set (B := rns_link_db_hash_id (id l)) in *.
  pose proof (hash_range (id l) : 0 <= B < 510) as HB.
  destruct (wf_bucket db B Hwf HB) as (cur & Hcur & c & Hc & Hnd & Hin). rewrite Hcur.
  cbn [mbind option_bind]. apply rd_Some in Hcur as [_ Hcur].
  assert (index ∈ c) as Hic by (apply Hin; eauto).
  apply list_elem_of_split in Hic as (pre & post & ->).
  assert (Hnd2 : NoDup (pre ++ post) /\ index ∉ pre ++ post).
  { rewrite NoDup_app in Hnd. destruct Hnd as (H1 & H2 & H3). apply NoDup_cons in H3 as [H3 H4].
    rewrite NoDup_app, not_elem_of_app. split_and!; try done.
    - intros x Hx Hx'. apply (H2 x Hx). by constructor.
    - intros Hx. apply (H2 _ Hx). constructor. }
  assert (Hmem : forall j, j <> index -> (j ∈ pre ++ post <-> j ∈ pre ++ index :: post)).
  { intros j Hj. rewrite !elem_of_app, elem_of_cons. tauto. }
  destruct pre as [|p pre].
  - destruct Hc as (-> & _ & l' & Hl' & Hc). rewrite Z.eqb_refl. simplify_eq.
    rewrite wr_in_bounds by (rewrite (wf_buckets _ Hwf); lia). cbn [mbind option_bind].
    eexists _, post, (hash_next l). split; [done|]. rsimpl.
    rewrite length_insert, list_lookup_insert_eq by (rewrite (wf_buckets _ Hwf); lia).
    split_and!; try apply Hwf; try done; try (by apply Hnd2).
    + intros j Hj Hne. rewrite <-Hin by done. by apply Hmem.
    + intros b h Hb Hb' Hh. rewrite list_lookup_insert_ne in Hh by lia. done.
  - pose proof Hc as (-> & Hp & _ & _). destruct (Z.eqb_spec p index) as [->|Hpi].
    { destruct Hnd2 as [_ Hx]. destruct Hx. constructor. }
    destruct (unlink_walk_spec (links db) index l post (p :: pre) 256 p Hl Hc Hnd)
      as (k & lk & Hk & Hlk & -> & Hch); [done| |].
    { pose proof (chain_length _ _ _ Hc Hnd) as Hlen. rewrite length_app in Hlen. lia. }
    destruct Hnd2 as [Hnd2 Hni].
    assert (0 <= k < 255) as Hkr.
    { apply (chain_slots _ _ _ k Hc). apply elem_of_app. by left. }
    assert (k <> index) by (intros ->; apply Hni, elem_of_app; by left).
    assert (rns_link_db_hash_id (id lk) = B) as HkB.
    { destruct (proj1 (Hin k Hkr)) as (lk' & ? & ?); [apply elem_of_app; by left|]. by simplify_eq. }
    cbn [mbind option_bind]. eexists _, ((p :: pre) ++ post), p. split; [done|]. rsimpl.
    rewrite length_insert, list_lookup_insert_ne by lia.
    split_and!; try apply Hwf; try done.
    + pose proof (occupied_insert _ _ _ (Some (lk <| hash_next := hash_next l |>)) Hlk). cbn in *; lia.
    + by apply agree_off_relink.
    + intros j Hj Hne. rewrite <-Hin by done. by apply Hmem.
    + intros b h c' Hb Hc' Hin'. apply chain_frame; [done|].
      eapply (other_bucket _ k lk b h); eauto. congruence.
Qed.

(** [rns_link_db_remove_index] on an occupied slot. *)
Lemma remove_index_spec db index l :
  wf db -> 0 <= index < 255 -> links db !! Z.to_nat index = Some (Some l) ->
  exists db', rns_link_db_remove_index db index = Some db' /\ wf db' /\
    slot_change (Z.to_nat index) (id l) None (links db) (links db') /\
    contents db' = delete (id l) (contents db) /\ links_count db' = links_count db - 1.
Proof.
  intros Hwf Hi Hl.
  destruct (unlink_step db index l Hwf Hi Hl) as (db1 & c & head & Hstep & Hcnt & Hocc & Hlen & Hblen &
    Hl1 & Hag & Hhd & Hch & Hnd & Hni & Hmem & Hbk & Hoth).
  unfold rns_link_db_remove_index.
  replace (rd (links db) index) with (Some (Some l)) by (symmetry; apply rd_Some; split; [lia|done]).
  cbn [mbind option_bind] in Hstep |- *.
  destruct (rd (buckets db) _) as [cur|]; [|done]. cbn [mbind option_bind] in Hstep |- *.
  rewrite Hstep. cbn [mbind option_bind]. rewrite wr_in_bounds by lia. cbn [mbind option_bind].
  pose proof (occupied_insert _ _ _ None Hl1) as Ho. cbn [filled] in Ho.
  pose proof (wf_count _ Hwf) as Hc0. pose proof (occupied_le (links db)) as Hle.
  rewrite (wf_links _ Hwf) in Hle.
  assert (Hsc : slot_change (Z.to_nat index) (id l) None (links db)
                  (<[Z.to_nat index := None]> (links db1))).
  { split.
    - intros j Hj. rewrite list_lookup_insert_ne by done. by apply Hag.
    - apply list_lookup_insert_eq. lia.
    - done.
    - intros j l' Hl' Hid. by apply (wf_unique _ Hwf _ _ l' l).
    - intros. by simplify_eq. }
  eexists. split; [done|].
  assert (0 <? links_count db1 = true) as Hpos by (apply Z.ltb_lt; lia).
  assert (Hwf' : wf (db1 <| links := <[Z.to_nat index := None]> (links db1) |>
                  <| links_count ::= fun c => if 0 <? c then u8 (c - 1) else c |>)).
  { split; rsimpl.
    - by rewrite length_insert.
    - done.
    - intros b h Hb Hh. destruct (decide (b = rns_link_db_hash_id (id l))) as [->|Hne].
      + simplify_eq. eapply (bucket_ok_change index _ _ _ _ _ _ c Hi Hsc); try done.
        * apply chain_frame; [done|]. intros j Hj.
          destruct (chain_slots _ _ _ _ Hch Hj) as [Hjr _]. enough (j <> index) by lia. congruence.
        * split; [done|by intros (? & ? & ?)].
      + pose proof (Hbk b h Hne Hb Hh) as Hh0.
        destruct (wf_chains _ Hwf b h Hb Hh0) as (c' & Hc' & Hnd' & Hin').
        destruct (other_bucket _ _ _ _ _ _ Hl Hi ltac:(eauto) Hc' Hin') as [Hn' Hne'].
        eapply (bucket_ok_change index _ _ _ _ _ _ c' Hi Hsc); try done.
        * apply chain_frame; [|done]. by apply (Hoth b).
        * intros. by apply Hin'.
        * split; [done|by intros (? & ? & ?)].
    - apply (slot_change_unique _ _ _ _ _ Hsc). apply Hwf.
    - rewrite Hpos. word_lia. }
  split_and!; [done|done| |rsimpl; rewrite Hpos; word_lia].
  apply (slot_change_contents _ _ _ _ _ Hwf Hwf' Hsc).
Qed.

(** Storing a link with the same key and chain pointer. *)
Lemma touch_slot_spec db index l l' :
  wf db -> 0 <= index < 255 -> links db !! Z.to_nat index = Some (Some l) ->
  id l' = id l -> hash_next l' = hash_next l ->
  let db' := db <| links := <[Z.to_nat index := Some l']> (links db) |> in
  wf db' /\ contents db' = <[id l := erase l']> (contents db).
Proof.
  intros Hwf Hi Hl Hid Hnx db'. subst db'.
  assert (Hlt : (Z.to_nat index < length (links db))%nat) by by eapply lookup_lt_Some.
  assert (Hsc : slot_change (Z.to_nat index) (id l) (Some l') (links db)
                  (<[Z.to_nat index := Some l']> (links db))).
  { split.
    - apply agree_off_insert.
    - by apply list_lookup_insert_eq.
    - by intros ? [= <-].
    - intros j l'' Hl'' He. by apply (wf_unique _ Hwf _ _ l'' l).
    - intros. by simplify_eq. }
  assert (Hwf' : wf (db <| links := <[Z.to_nat index := Some l']> (links db) |>)).
  { split; rsimpl.
    - rewrite length_insert. apply Hwf.
    - apply Hwf.
    - intros b h Hb Hh. destruct (wf_chains _ Hwf b h Hb Hh) as (c & Hc & Hnd & Hin).
      eapply (bucket_ok_change index _ _ _ _ _ _ c Hi Hsc); try done.
      + by apply (chain_touch _ _ _ _ l).
      + intros. by apply Hin.
      + rewrite Hin by done. rewrite Hl. split; intros (x & Hx & Hh').
        * exists l'. rewrite Hid. by simplify_eq.
        * exists l. rewrite <-Hid. by simplify_eq.
    - apply (slot_change_unique _ _ _ _ _ Hsc). apply Hwf.
    - rewrite (wf_count _ Hwf). pose proof (occupied_insert _ _ _ (Some l') Hl). cbn in *; lia. }
  split; [done|]. apply (slot_change_contents _ _ _ _ _ Hwf Hwf' Hsc).
Qed.

(** Storing a link with a new key in a free slot, at the head of its bucket. *)
Lemma fill_slot_spec db slot l head :
  wf db -> 0 <= slot < 255 -> links db !! Z.to_nat slot = Some None ->
  contents db !! id l = None ->
  buckets db !! Z.to_nat (rns_link_db_hash_id (id l)) = Some head -> hash_next l = head ->
  let db' := db <| links := <[Z.to_nat slot := Some l]> (links db) |>
                <| buckets := <[Z.to_nat (rns_link_db_hash_id (id l)) := u8 slot]> (buckets db) |>
                <| links_count ::= fun c => u8 (c + 1) |> in
  wf db' /\ contents db' = <[id l := erase l]> (contents db).
Proof.
  intros Hwf Hi Hl Hfresh Hhead Hnx db'.
  pose proof (hash_range (id l)) as HB. set (B := rns_link_db_hash_id (id l)) in *.
  assert (Hlt : (Z.to_nat slot < length (links db))%nat) by by eapply lookup_lt_Some.
  assert (Hsc : slot_change (Z.to_nat slot) (id l) (Some l) (links db)
                  (<[Z.to_nat slot := Some l]> (links db))).
  { split.
    - apply agree_off_insert.
    - by apply list_lookup_insert_eq.
    - by intros ? [= <-].
    - intros j l' Hl' He. by destruct (proj1 (contents_None _ _ Hwf) Hfresh j l').
    - intros. by simplify_eq. }
  assert (Hnotin : forall h c, is_chain (links db) h c -> forall j, j ∈ c -> j <> slot).
  { intros h c Hc j Hj ->. destruct (chain_slots _ _ _ _ Hc Hj) as (_ & x & Hx). by simplify_eq. }
  assert (Hframe : forall h c, is_chain (links db) h c ->
                     is_chain (<[Z.to_nat slot := Some l]> (links db)) h c).
  { intros h c Hc. apply chain_frame; [done|]. intros j Hj.
    pose proof (Hnotin _ _ Hc j Hj). destruct (chain_slots _ _ _ _ Hc Hj). lia. }
  assert (Hwf' : wf db').
  { subst db'. split; rsimpl.
    - rewrite length_insert. apply Hwf.
    - rewrite length_insert. apply Hwf.
    - intros b h Hb Hh. rewrite u8_small in Hh by word_lia.
      destruct (decide (b = B)) as [->|Hne].
      + rewrite list_lookup_insert_eq in Hh by (rewrite (wf_buckets _ Hwf); lia). simplify_eq.
        destruct (wf_chains _ Hwf B _ Hb Hhead) as (c & Hc & Hnd & Hin).
        eapply (bucket_ok_change h _ _ _ _ _ _ (h :: c) Hi Hsc); try done.
        * split; [done|]. split; [done|]. exists l.
          rewrite list_lookup_insert_eq by done. split; [done|]. by apply Hframe.
        * constructor; [|done]. intros Hx. by apply (Hnotin _ _ Hc _ Hx).
        * intros j Hj Hne. rewrite elem_of_cons, Hin by done. tauto.
        * split; [intros _; by exists l|intros _; constructor].
      + rewrite list_lookup_insert_ne in Hh by lia.
        destruct (wf_chains _ Hwf b _ Hb Hh) as (c & Hc & Hnd & Hin).
        eapply (bucket_ok_change slot _ _ _ _ _ _ c Hi Hsc); try done; [by apply Hframe|..].
        * intros. by apply Hin.
        * split; [intros Hx; by destruct (Hnotin _ _ Hc _ Hx)|intros (x & [= <-] & Hx)]. by destruct Hne.
    - apply (slot_change_unique _ _ _ _ _ Hsc). apply Hwf.
    - pose proof (occupied_insert _ _ _ (Some l) Hl) as Ho. cbn [filled] in Ho.
      pose proof (occupied_le (<[Z.to_nat slot:=Some l]> (links db))) as Hle.
      rewrite length_insert, (wf_links _ Hwf) in Hle. rewrite (wf_count _ Hwf). word_lia. }
  split; [done|]. apply (slot_change_contents _ _ _ _ _ Hwf Hwf' Hsc).
Qed.

(** ** The operations refine a finite map *)

(** The map-level specification of [rns_link_db_package_register]. *)
Definition register_spec (malloc_ok : bool) (m : gmap (list Z) link) (pkg : packet_info)
    (direction : rns_packet_direction) (mac : option (list Z)) (mtu : Z)
    (update_mtu unicast_to_me : bool) (now_s : Z) : rns_ret * gmap (list Z) link :=
  let touch := touch_link pkg direction mac mtu update_mtu unicast_to_me now_s in
  if context pkg =? RNS_CONTEXT_LINKCLOSE then (RNS_RET_OK, delete (link_id pkg) m)
  else match m !! link_id pkg with
  | Some l => (RNS_RET_OK, <[link_id pkg := touch l]> m)
  | None =>
      if RNS_DB_MAX_LINK_COUNT <=? Z.of_nat (size m) then (RNS_RET_NO_SLOT, m)
      else if negb malloc_ok then (RNS_RET_NO_MEMORY, m)
      else (RNS_RET_OK, <[link_id pkg := touch (new_link pkg direction now_s)]> m)
  end.

Section Touch.
Context (pkg : packet_info) (direction : rns_packet_direction) (mac : option (list Z)).
Context (mtu : Z) (update_mtu unicast_to_me : bool) (now_s : Z).
#[local] Abbreviation touch := (touch_link pkg direction mac mtu update_mtu unicast_to_me now_s).

Ltac touch_cases :=
  intros; unfold touch_link; repeat (case_match || case_decide); reflexivity.

Lemma touch_id l : id (touch l) = id l.
Proof. touch_cases. Qed.
Lemma touch_hash_next l : hash_next (touch l) = hash_next l.
Proof. touch_cases. Qed.
Lemma touch_set_next l n : touch (l <| hash_next := n |>) = touch l <| hash_next := n |>.
Proof.
  unfold touch_link.
  destruct (decide (direction = RNS_PACKET_DIRECTION_RX)), mac as [m|]; cbv zeta; rsimpl;
    try destruct (unicast_to_me || rns_link_mac_is_unknown _); rsimpl;
    destruct (update_mtu && _); reflexivity.
Qed.
Lemma erase_touch l : erase (touch l) = touch (erase l).
Proof. unfold erase. by rewrite touch_set_next. Qed.
Lemma touch_mac_known l :
  unicast_to_me = false -> rns_link_mac_is_unknown (remote_mac l) = false ->
  remote_mac (touch l) = remote_mac l.
Proof.
  intros -> Hk. unfold touch_link. destruct (decide (direction = RNS_PACKET_DIRECTION_RX));
  destruct mac; rsimpl; rewrite ?Hk; cbn [orb]; rsimpl; case_match; rsimpl; done.
Qed.
Lemma touch_state l :
  link_state (touch l) = next_link_state (link_state l) pkg direction.
Proof. unfold touch_link. repeat (case_match || case_decide); reflexivity. Qed.
End Touch.

Lemma first_free_spec slots k :
  (first_free slots k = -1 /\ length (occupied slots) = length slots) \/
  (exists i, first_free slots k = k + Z.of_nat i /\ slots !! i = Some None).
Proof.
  revert k. induction slots as [|[l|] slots IH]; intros k; cbn [first_free].
  - by left.
  - rewrite occupied_cons. destruct (IH (k + 1)) as [[-> Hl]|(i & -> & Hi)].
    + left. cbn. lia.
    + right. exists (S i). split; [lia|done].
  - right. exists 0%nat. split; [lia|done].
Qed.

(** The free-slot search fails exactly when the table is full. *)
Lemma find_free_slot_spec db : wf db ->
  (rns_link_db_find_free_slot db = -1 /\ links_count db = RNS_DB_MAX_LINK_COUNT) \/
  (exists i, rns_link_db_find_free_slot db = i /\ 0 <= i < 255 /\
     links db !! Z.to_nat i = Some None /\ links_count db < RNS_DB_MAX_LINK_COUNT).
Proof.
  intros Hwf. pose proof (occupied_le (links db)) as Hle. rewrite (wf_links _ Hwf) in Hle.
  unfold rns_link_db_find_free_slot, RNS_DB_MAX_LINK_COUNT.
  pose proof (wf_count _ Hwf) as Hc. z_case.
  - left. split; [done|lia].
  - destruct (first_free_spec (links db) 0) as [[_ He]|(i & -> & Hi)].
    + rewrite (wf_links _ Hwf) in He. lia.
    + right. eexists. split; [done|]. pose proof (lookup_lt_Some _ _ _ Hi) as Hlt.
      rewrite (wf_links _ Hwf) in Hlt. split; [lia|].
      replace (Z.to_nat (0 + Z.of_nat i)) with i by lia. split; [done|lia].
Qed.

Lemma register_refines malloc_ok db pkg direction mac mtu update_mtu unicast_to_me now_s :
  wf db ->
  exists rc db', rns_link_db_package_register malloc_ok db (Some pkg) direction mac mtu
                   update_mtu unicast_to_me now_s = Some (rc, db') /\ wf db' /\
    register_spec malloc_ok (contents db) pkg direction mac mtu update_mtu unicast_to_me now_s
      = (rc, contents db').
Proof.
  intros Hwf. unfold rns_link_db_package_register, register_spec. cbv zeta.
  destruct (find_index_spec db (link_id pkg) Hwf) as (r & -> & Hcase). cbn [mbind option_bind].
  set (touch := touch_link pkg direction mac mtu update_mtu unicast_to_me now_s).
  destruct Hcase as [[-> Hno]|(Hr & l & Hl & Hk & Hm)].
  - rewrite Hno. change (0 <=? -1) with false. cbv iota.
    destruct (context pkg =? RNS_CONTEXT_LINKCLOSE); cbn [mbind option_bind].
    { do 2 eexists. split_and!; [done|done|]. by rewrite delete_id. }
    rewrite contents_size by done.
    destruct (find_free_slot_spec db Hwf) as [[-> ->]|(i & -> & Hi & Hs & Hlt)].
    { do 2 eexists. by split_and!. }
    rewrite (proj2 (Z.ltb_ge i 0)) by lia. rewrite (proj2 (Z.leb_gt _ _)) by done.
    destruct malloc_ok; cbn [negb]; [|do 2 eexists; by split_and!].
    pose proof (hash_range (link_id pkg)) as HB.
    destruct (rd_in_bounds (buckets db) (rns_link_db_hash_id (link_id pkg))) as (h & -> & Hh).
    { rewrite (wf_buckets _ Hwf). lia. }
    cbn [mbind option_bind].
    rewrite (wr_in_bounds (links db)) by (rewrite (wf_links _ Hwf); lia). cbn [mbind option_bind].
    rewrite (wr_in_bounds (buckets db)) by (rewrite (wf_buckets _ Hwf); lia). cbn [mbind option_bind].
    do 2 eexists. split; [done|].
    destruct (fill_slot_spec db i (touch (new_link pkg direction now_s <| hash_next := h |>)) h)
      as [Hwf' Hc]; subst touch; rewrite ?touch_id; try done.
    { rewrite touch_hash_next. done. }
    rewrite ?touch_id in Hwf', Hc. change (id (new_link pkg direction now_s <| hash_next := h |>)) with (link_id pkg) in Hwf', Hc. split; [done|]. rewrite Hc, erase_touch. done.
  - rewrite Hm. rewrite (proj2 (Z.leb_le 0 r)) by lia. rewrite u8_small by word_lia.
    destruct (context pkg =? RNS_CONTEXT_LINKCLOSE); cbn [mbind option_bind].
    { destruct (remove_index_spec db r l Hwf Hr Hl) as (db' & -> & Hwf' & _ & Hc & _).
      cbn [mbind option_bind]. do 2 eexists. split_and!; [done|done|]. by rewrite Hc, Hk. }
    replace (rd (links db) r) with (Some (Some l)) by (symmetry; apply rd_Some; split; [lia|done]).
    cbn [mbind option_bind]. rewrite wr_in_bounds by (rewrite (wf_links _ Hwf); lia).
    cbn [mbind option_bind]. do 2 eexists. split; [done|].
    destruct (touch_slot_spec db r l (touch l) Hwf Hr Hl) as [Hwf' Hc]; subst touch;
      rewrite ?touch_id, ?touch_hash_next; try done.
    split; [done|]. by rewrite Hc, Hk, erase_touch.
Qed.

(** ** Sweeping and enumeration *)

#[local] Abbreviation alive now_s := (fun kv : list Z * link => expired now_s kv.2 = false).

Lemma sweep_loop_spec now_s n : forall i db removed,
  wf db -> 0 <= i -> i + Z.of_nat n = 255 -> 0 <= removed -> removed + links_count db < 2 ^ 32 ->
  (forall j l, (j < Z.to_nat i)%nat -> links db !! j = Some (Some l) -> expired now_s l = false) ->
  exists db', sweep_loop n i now_s db removed
              = Some (db', removed + (links_count db - links_count db')) /\ wf db' /\
    contents db' = filter (alive now_s) (contents db).
Proof.
  induction n as [|n IH]; intros i db removed Hwf Hi Hn Hr Hb Hdone; cbn [sweep_loop].
  - exists db. split; [f_equal; f_equal; lia|]. split; [done|]. symmetry. apply map_filter_id.
    intros k l (j & l0 & Hj & <- & <-)%contents_lookup; [|done].
    apply (Hdone j l0); [|done]. apply lookup_lt_Some in Hj. rewrite (wf_links _ Hwf) in Hj. lia.
  - destruct (rd_in_bounds (links db) i) as (s & -> & Hs); [rewrite (wf_links _ Hwf); lia|].
    cbn [mbind option_bind].
    assert (Hskip : (forall l, s = Some l -> expired now_s l = false) ->
      forall j l, (j < Z.to_nat (i + 1))%nat -> links db !! j = Some (Some l) ->
        expired now_s l = false).
    { intros Hsk j l Hj Hl. destruct (decide (j = Z.to_nat i)) as [->|Hne].
      - apply Hsk. congruence.
      - apply (Hdone j); [lia|done]. }
    destruct s as [l|]; [destruct (expired now_s l) eqn:He|];
      [|apply IH; [done|lia..|apply Hskip; intros; congruence]
       |apply IH; [done|lia..|by apply Hskip]].
    assert (0 <= i < 255) as Hir by lia.
    destruct (remove_index_spec db i l Hwf Hir Hs) as (db1 & Hrm & Hwf1 & Hsc & Hc & Hcnt).
    rewrite u8_small by word_lia. rewrite Hrm. cbn [mbind option_bind].
    rewrite u32_small by (pose proof (wf_count _ Hwf1); word_lia).
    destruct (IH (i + 1) db1 (removed + 1)) as (db' & -> & Hwf' & Hc'); [done|lia..| |].
    { intros j l' Hj Hl'. destruct (decide (j = Z.to_nat i)) as [->|Hne].
      - rewrite (sc_new _ _ _ _ _ Hsc) in Hl'. done.
      - destruct (agree_off_slot _ _ _ _ _ (sc_agree _ _ _ _ _ Hsc) Hne Hl') as (l0 & Hl0 & _ & Hee).
        assert (expired now_s (erase l') = expired now_s (erase l0)) as Hx by by rewrite Hee.
        change (expired now_s l' = expired now_s l0) in Hx. rewrite Hx. apply (Hdone j); [lia|done]. }
    exists db'. split; [f_equal; f_equal; lia|]. split; [done|].
    rewrite Hc', Hc, map_filter_delete. apply delete_id, map_lookup_filter_None. right.
    intros x Hx. assert (contents db !! id l = Some (erase l)) as Hx' by (apply contents_lookup; eauto).
    simplify_eq. cbn. change (expired now_s (erase l)) with (expired now_s l). by rewrite He.
Qed.

Lemma sweep_refines db now_s : wf db ->
  exists db', rns_link_db_sweep_expired db now_s = Some (db', links_count db - links_count db') /\
    wf db' /\ contents db' = filter (alive now_s) (contents db).
Proof.
  intros Hwf. unfold rns_link_db_sweep_expired.
  pose proof (occupied_le (links db)) as Hle. rewrite (wf_links _ Hwf) in Hle.
  pose proof (wf_count _ Hwf).
  destruct (sweep_loop_spec now_s (Z.to_nat RNS_DB_MAX_LINK_COUNT) 0 db 0) as (db' & -> & H1);
    [done|done|done|done|lia|lia|].
  exists db'. split; [f_equal; f_equal; lia|done].
Qed.

Lemma snapshot_scan_spec slots index : forall pos,
  0 <= pos -> pos + Z.of_nat (length slots) < 2 ^ 32 -> pos <= index ->
  snapshot_scan slots index pos = occupied slots !! Z.to_nat (index - pos).
Proof.
  induction slots as [|[l|] slots IH]; intros pos Hp Hl Hi; cbn [snapshot_scan length] in *.
  - done.
  - change (occupied (Some l :: slots)) with (l :: occupied slots).
    destruct (Z.eqb_spec pos index) as [->|Hne].
    + by rewrite Z.sub_diag.
    + rewrite u32_small by word_lia. rewrite IH by lia.
      replace (Z.to_nat (index - pos)) with (S (Z.to_nat (index - (pos + 1)))) by lia. done.
  - change (occupied (None :: slots)) with (occupied slots). apply IH; lia.
Qed.

Lemma wf_init : wf g_link_db_init.
Proof.
  split.
  - done.
  - done.
  - intros b h Hb Hh. cbn [g_link_db_init buckets] in Hh. apply lookup_replicate in Hh as [-> _].
    exists []. split_and!; [done|constructor|]. intros i Hi. split; [by intros ?%not_elem_of_nil|].
    intros (l & Hl & _). cbn [g_link_db_init links] in Hl. by apply lookup_replicate in Hl as [? _].
  - intros i j li lj Hi. cbn [g_link_db_init links] in Hi. by apply lookup_replicate in Hi as [? _].
  - reflexivity.
Qed.

(** ** Traces of operations *)

Inductive db_op :=
  | OpRegister (malloc_ok : bool) (pkg : packet_info) (direction : rns_packet_direction)
      (mac : option (list Z)) (mtu : Z) (update_mtu unicast_to_me : bool) (now_s : Z)
  | OpSweep (now_s : Z).

(** One mutex-protected operation on the table: the return code and the new table. *)
Definition db_step (db : link_db) (op : db_op) : option (rns_ret * link_db) :=
  match op with
  | OpRegister ok pkg dir mac mtu um uni now =>
      rns_link_db_package_register ok db (Some pkg) dir mac mtu um uni now
  | OpSweep now => r ← rns_link_db_sweep_expired db now; Some (RNS_RET_OK, r.1)
  end.

Fixpoint db_run (db : link_db) (ops : list db_op) : option (list rns_ret * link_db) :=
  match ops with
  | [] => Some ([], db)
  | op :: ops =>
      r ← db_step db op; rs ← db_run r.2 ops; Some (r.1 :: rs.1, rs.2)
  end.

(** The same trace on the finite map. *)
Definition map_step (m : gmap (list Z) link) (op : db_op) : rns_ret * gmap (list Z) link :=
  match op with
  | OpRegister ok pkg dir mac mtu um uni now => register_spec ok m pkg dir mac mtu um uni now
  | OpSweep now => (RNS_RET_OK, filter (alive now) m)
  end.

Fixpoint map_run (m : gmap (list Z) link) (ops : list db_op) : list rns_ret * gmap (list Z) link :=
  match ops with
  | [] => ([], m)
  | op :: ops => let r := map_step m op in let rs := map_run r.2 ops in (r.1 :: rs.1, rs.2)
  end.

Lemma step_refines db op : wf db ->
  exists rc db', db_step db op = Some (rc, db') /\ wf db' /\ map_step (contents db) op = (rc, contents db').
Proof.
  intros Hwf. destruct op as [ok pkg dir mac mtu um uni now|now]; cbn [db_step map_step].
  - by apply register_refines.
  - destruct (sweep_refines db now Hwf) as (db' & -> & Hwf' & Hc). cbn [mbind option_bind].
    do 2 eexists. split_and!; [done|done|]. cbn [fst]. by rewrite Hc.
Qed.

Lemma run_refines ops : forall db, wf db ->
  exists rcs db', db_run db ops = Some (rcs, db') /\ wf db' /\ map_run (contents db) ops = (rcs, contents db').
Proof.
  induction ops as [|op ops IH]; intros db Hwf; cbn [db_run map_run].
  - by exists [], db.
  - destruct (step_refines db op Hwf) as (rc & db1 & -> & Hwf1 & ->). cbn [mbind option_bind fst snd].
    destruct (IH db1 Hwf1) as (rcs & db' & -> & Hwf' & He). cbn [mbind option_bind fst snd].
    rewrite He. eauto.
Qed.

(** C26: Starting from the empty table, every sequence of packet registrations
    (with any malloc outcomes) and expiry sweeps runs without an out-of-bounds
    access or an endless chain walk, returns the same codes as the finite-map
    specification, and leaves exactly the map's contents in the table. *)
Theorem link_db_trace_refines ops :
  exists rcs db', db_run g_link_db_init ops = Some (rcs, db') /\ wf db' /\
    map_run ∅ ops = (rcs, contents db').
Proof. apply (run_refines ops g_link_db_init wf_init). Qed.

(** A link request sent and its first data packet received. *)
Definition demo_request : packet_info :=
  mkInfo 1 RNS_DESTINATION_TYPE_SINGLE RNS_PACKET_TYPE_LINKREQUEST 0 64
         (replicate 16 7) (replicate 16 9) true.
Definition demo_data : packet_info :=
  mkInfo 1 RNS_DESTINATION_TYPE_LINK RNS_PACKET_TYPE_DATA 0 32
         (replicate 16 9) (replicate 16 9) true.
Definition demo_ops : list db_op :=
  [OpRegister true demo_request RNS_PACKET_DIRECTION_TX None 500 true false 10;
   OpRegister true demo_data RNS_PACKET_DIRECTION_RX (Some [2;0;0;0;0;1]) 0 false true 11].
Definition demo_ops' : list db_op :=
  [OpRegister true demo_data RNS_PACKET_DIRECTION_RX (Some [2;0;0;0;0;2]) 0 false false 12].

Lemma demo_db : exists rcs db, db_run g_link_db_init demo_ops = Some (rcs, db) /\ wf db.
Proof. destruct (run_refines demo_ops _ wf_init) as (rcs & db & H1 & H2 & _). eauto. Qed.

Lemma snapshot_by_id_spec db key : wf db ->
  exists o, rns_link_db_link_snapshot_by_id db key = Some o /\ erase <$> o = contents db !! key.
Proof.
  intros Hwf. unfold rns_link_db_link_snapshot_by_id.
  destruct (find_index_spec db key Hwf) as (r & -> & [[-> Hn]|(Hr & l & Hl & Hk & Hm)]); cbn [mbind option_bind].
  - exists None. split; [done|]. by rewrite Hn.
  - exists (Some l). rewrite (proj2 (Z.leb_le 0 r)) by lia. rewrite Hm. split; [|done].
    apply rd_Some. split; [lia|done].
Qed.

(** In a well-formed table, a snapshot by identifier returns exactly the
    record stored for it; the snapshots by index [0, 1, ...] list every stored
    link once and end at [links_count]. *)
Theorem link_db_snapshots db :
  wf db ->
  (forall key, exists o, rns_link_db_link_snapshot_by_id db key = Some o /\
     erase <$> o = contents db !! key) /\
  exists ls, (forall index, 0 <= index -> rns_link_db_link_snapshot_by_index db index
                                            = ls !! Z.to_nat index) /\
    Z.of_nat (length ls) = rns_link_db_link_count_get db /\
    map_to_list (contents db) ≡ₚ (fun l => (id l, erase l)) <$> ls.
Proof.
  intros Hwf. split.
  - intros key. by apply snapshot_by_id_spec.
  - exists (occupied (links db)). split_and!.
    + intros index Hi. unfold rns_link_db_link_snapshot_by_index.
      rewrite snapshot_scan_spec; [f_equal; lia|done|rewrite (wf_links _ Hwf); done|done].
    + symmetry. apply Hwf.
    + unfold contents. apply map_to_list_to_map. rewrite <-list_fmap_compose.
      apply (occupied_NoDup_ids _ (wf_unique _ Hwf)).
Qed.

Lemma link_db_snapshots_witness :
  exists rcs db, db_run g_link_db_init demo_ops = Some (rcs, db) /\
    exists ls, (forall index, 0 <= index -> rns_link_db_link_snapshot_by_index db index
                                              = ls !! Z.to_nat index) /\
      Z.of_nat (length ls) = rns_link_db_link_count_get db /\
      map_to_list (contents db) ≡ₚ (fun l => (id l, erase l)) <$> ls.
Proof.
  destruct demo_db as (rcs & db & Hr & Hwf). exists rcs, db. split; [done|].
  exact (proj2 (link_db_snapshots db Hwf)).
Defined.

(** Order of the link states. *)
Definition state_rank (s : rns_link_state) : Z :=
  match s with
  | RNS_LINK_STATE_CLOSED => 0 | RNS_LINK_STATE_REQUEST_SENT => 1
  | RNS_LINK_STATE_PROOF_RECEIVED => 2 | RNS_LINK_STATE_OPEN => 3
  end.

Lemma next_link_state_rank s pkg dir : state_rank s <= state_rank (next_link_state s pkg dir).
Proof.
  unfold next_link_state. repeat case_decide; destruct s; cbn; try lia; naive_solver.
Qed.

Definition never_for_us (op : db_op) : Prop :=
  match op with OpRegister _ _ _ _ _ _ uni _ => uni = false | OpSweep _ => True end.
Definition never_removes (key : list Z) (op : db_op) : Prop :=
  match op with
  | OpRegister _ pkg _ _ _ _ _ _ => context pkg <> RNS_CONTEXT_LINKCLOSE \/ link_id pkg <> key
  | OpSweep _ => False
  end.

(** What a trace without removals leaves of a link. *)
Lemma map_run_link key ops : forall m l,
  m !! key = Some l -> Forall (never_removes key) ops ->
  exists l', (map_run m ops).2 !! key = Some l' /\ state_rank (link_state l) <= state_rank (link_state l') /\
    (Forall never_for_us ops -> rns_link_mac_is_unknown (remote_mac l) = false ->
     remote_mac l' = remote_mac l).
Proof.
  induction ops as [|op ops IH]; intros m l Hl Hops; cbn [map_run snd]; [exists l; by split_and!|].
  apply Forall_cons in Hops as [Hop Hops].
  assert (exists l1, (map_step m op).2 !! key = Some l1 /\
    state_rank (link_state l) <= state_rank (link_state l1) /\
    (never_for_us op -> rns_link_mac_is_unknown (remote_mac l) = false ->
     remote_mac l1 = remote_mac l)) as (l1 & Hl1 & Hr1 & Hm1).
  { destruct op as [ok pkg dir mac mtu um uni now|now]; [|done].
    cbn [map_step never_removes never_for_us] in *. unfold register_spec.
    destruct (Z.eqb_spec (context pkg) RNS_CONTEXT_LINKCLOSE) as [Hc|Hc].
    { exists l. cbn [snd]. rewrite lookup_delete_ne by tauto. done. }
    destruct (decide (link_id pkg = key)) as [<-|Hne].
    - rewrite Hl. cbn [snd]. rewrite lookup_insert_eq. eexists. split; [done|]. split.
      + rewrite touch_state. apply next_link_state_rank.
      + intros -> Hk. by apply touch_mac_known.
    - exists l. split; [|done].
      destruct (m !! link_id pkg); [|case_match; [done|]; destruct ok; [|done]]; cbn [negb snd];
        by rewrite lookup_insert_ne. }
  destruct (IH _ l1 Hl1 Hops) as (l' & Hl' & Hr' & Hm'). exists l'. split; [done|]. split; [lia|].
  intros [Hf Hfs]%Forall_cons Hk. rewrite Hm', Hm1; [done..|]. by rewrite Hm1.
Qed.

(** As long as a link is neither closed nor swept, its state never moves
    backwards (an OPEN link stays OPEN), and a learned remote MAC address is
    never replaced by frames that were not addressed to this node. *)
Theorem link_db_link_stable ops ops' rcs db key o :
  db_run g_link_db_init ops = Some (rcs, db) ->
  rns_link_db_link_snapshot_by_id db key = Some (Some o) ->
  Forall (never_removes key) ops' ->
  exists rcs' db' o', db_run db ops' = Some (rcs', db') /\
    rns_link_db_link_snapshot_by_id db' key = Some (Some o') /\
    state_rank (link_state o) <= state_rank (link_state o') /\
    (Forall never_for_us ops' -> rns_link_mac_is_unknown (remote_mac o) = false ->
     remote_mac o' = remote_mac o).
Proof.
  intros Hrun Ho Hops. destruct (run_refines ops _ wf_init) as (rcs0 & db0 & Hr0 & Hwf & _).
  rewrite Hrun in Hr0. injection Hr0 as <- <-.
  assert (Hsnap : forall d o, wf d -> rns_link_db_link_snapshot_by_id d key = Some o ->
            erase <$> o = contents d !! key).
  { intros d o1 Hd. unfold rns_link_db_link_snapshot_by_id.
    destruct (find_index_spec d key Hd) as (r & -> & [[-> Hn]|(Hr & l & Hl & Hk & Hm)]);
      cbn [mbind option_bind].
    - intros [= <-]. by rewrite Hn.
    - rewrite (proj2 (Z.leb_le 0 r)) by lia. intros [_ Hx]%rd_Some. rewrite Hm. by simplify_eq. }
  destruct (run_refines ops' db Hwf) as (rcs' & db' & Hrun' & Hwf' & Hm).
  pose proof (Hsnap _ _ Hwf Ho) as Hin. symmetry in Hin.
  destruct (map_run_link key ops' _ _ Hin Hops) as (l' & Hl' & Hrk & Hmac).
  rewrite Hm in Hl'. cbn [snd] in Hl'.
  destruct (find_index_spec db' key Hwf') as (r & Hfi & [[-> Hn]|(Hr & l2 & Hl2 & Hk & Hm2)]); [congruence|].
  assert (Some (erase l2) = Some l') as [= <-] by congruence.
  exists rcs', db', l2. split; [done|]. split; [|by split].
  unfold rns_link_db_link_snapshot_by_id. rewrite Hfi. cbn [mbind option_bind].
  rewrite (proj2 (Z.leb_le 0 r)) by lia. apply rd_Some. split; [lia|done].
Qed.

(** The link the demonstration trace leaves in the table. *)
Definition demo_state : link_db :=
  match db_run g_link_db_init demo_ops with Some (_, db) => db | None => g_link_db_init end.
Definition demo_link : link :=
  mkLink (replicate 16 9) (replicate 16 7) 10 11 10 32 64 1 1 1 RNS_LINK_STATE_OPEN
         [2;0;0;0;0;1] 500 255.

Lemma link_db_link_stable_witness :
  exists rcs' db' o', db_run demo_state demo_ops' = Some (rcs', db') /\
    rns_link_db_link_snapshot_by_id db' (replicate 16 9) = Some (Some o') /\
    state_rank (link_state demo_link) <= state_rank (link_state o') /\
    (Forall never_for_us demo_ops' -> rns_link_mac_is_unknown (remote_mac demo_link) = false ->
     remote_mac o' = remote_mac demo_link).
Proof.
  apply (link_db_link_stable demo_ops demo_ops' [RNS_RET_OK; RNS_RET_OK]).
  - vm_compute. reflexivity.
  - vm_compute. reflexivity.
  - repeat constructor. discriminate.
Defined.
