(* ===== verification/ConfigDb.v ===== *)
(** * Persistent settings: [src/configdb.c]

    Typed accessors over the FlashDB key-value store.  FlashDB itself is
    third-party: it is the class [Kvdb] of its two entry points, and
    [KvdbLaws] states the documented behaviour the accessors rely on. *)

From S2P Require Import Prelude.
From stdpp Require Import strings.

#[local] Open Scope Z_scope.

(** [fdb_kv_set_blob db key blob] returns 0 on success; [fdb_kv_get_blob]
    copies at most [size] bytes and returns how many ([length] of the result). *)
Class Kvdb (D : Type) := {
  fdb_kv_set_blob : string -> list Z -> D -> Z * D;
  fdb_kv_get_blob : string -> Z -> D -> list Z;
}.

Class KvdbLaws (D : Type) `{Kvdb D} := {
  (** reading back what was written, with the size it was written with *)
  kv_get_set_same key bytes (d : D) :
    (fdb_kv_set_blob key bytes d).1 = 0 ->
    fdb_kv_get_blob key (Z.of_nat (length bytes)) (fdb_kv_set_blob key bytes d).2 = bytes;
  (** a write does not touch the other keys *)
  kv_get_set_other key key' bytes size (d : D) : key <> key' ->
    fdb_kv_get_blob key' size (fdb_kv_set_blob key bytes d).2 = fdb_kv_get_blob key' size d;
}.

(** An [int32_t] in memory (little endian). *)
Definition le32 (v : Z) : list Z :=
  let w := u32 v in
  [Z.land w 0xFF; Z.land (Z.shiftr w 8) 0xFF; Z.land (Z.shiftr w 16) 0xFF; Z.land (Z.shiftr w 24) 0xFF].
Definition of_le32 (b : list Z) : Z :=
  match b with
  | [b0; b1; b2; b3] => i32 (b0 + 2 ^ 8 * b1 + 2 ^ 16 * b2 + 2 ^ 24 * b3)
  | _ => 0
  end.

Definition clamp_i16 (v : Z) : Z :=
  if v <? -32768 then -32768 else if 32767 <? v then 32767 else i16 v.
Definition clamp_i8 (v : Z) : Z :=
  if v <? -128 then -128 else if 127 <? v then 127 else i8 v.

Section Accessors.
Context {D : Type} `{Kvdb D}.

(** A getter returns the code and the new value of the pointed-to variable. *)
Definition configdb_get_i32 (key : string) (paramp : option Z) (d : D) : Z * option Z :=
  match paramp with
  | None => (-1, None)
  | Some cur =>
      let rd := fdb_kv_get_blob key 4 d in
      if negb (Z.of_nat (length rd) =? 4) then (-2, Some cur) else (0, Some (of_le32 rd))
  end.

Definition configdb_set_i32 (key : string) (paramp : option Z) (d : D) : Z * D :=
  match paramp with
  | None => (-1, d)
  | Some v =>
      let '(res, current_param) := configdb_get_i32 key (Some 0) d in
      if (res =? 0) && bool_decide (current_param = Some v) then (0, d)
      else
        let '(res, d) := fdb_kv_set_blob key (le32 v) d in
        if negb (res =? 0) then (-3, d) else (0, d)
  end.

Definition configdb_get_set_i32 (key : string) (v : Z) (d : D) : Z * Z * D :=
  let v := match (configdb_get_i32 key (Some v) d).2 with Some v => v | None => v end in
  let '(rc, d) := configdb_set_i32 key (Some v) d in (rc, v, d).

(** [clamped_get], [clamped_get_set]: the bodies the 16- and 8-bit accessors share. *)
Definition clamped_get (clamp : Z -> Z) (key : string) (cur : Z) (d : D) : Z * Z :=
  let '(rc, tmp) := configdb_get_i32 key (Some 0) d in
  if negb (rc =? 0) then (rc, cur)
  else (0, clamp (match tmp with Some t => t | None => 0 end)).

Definition clamped_get_set (clamp : Z -> Z) (key : string) (paramp : option Z) (d : D)
  : Z * option Z * D :=
  match paramp with
  | None => (-1, None, d)
  | Some v =>
      let tmp := match (configdb_get_i32 key (Some v) d).2 with Some t => t | None => v end in
      let tmp := clamp tmp in
      let '(rc, d) := configdb_set_i32 key (Some tmp) d in (rc, Some tmp, d)
  end.

Definition configdb_get_i16 := clamped_get clamp_i16.
Definition configdb_get_i8 := clamped_get clamp_i8.
Definition configdb_set_i16 (key : string) (paramp : option Z) (d : D) : Z * D :=
  match paramp with None => (-1, d) | Some v => configdb_set_i32 key (Some v) d end.
Definition configdb_set_i8 (key : string) (paramp : option Z) (d : D) : Z * D :=
  match paramp with None => (-1, d) | Some v => configdb_set_i32 key (Some v) d end.
Definition configdb_get_set_i16 := clamped_get_set clamp_i16.
Definition configdb_get_set_i8 := clamped_get_set clamp_i8.

(** Blobs: [buf] is the caller's buffer, [key] may be NULL. *)
Definition configdb_get_blob (key : option string) (buf : option (list Z)) (d : D)
  : Z * option (list Z) :=
  match key, buf with
  | Some key, Some buf =>
      let size := Z.of_nat (length buf) in
      if size =? 0 then (-1, Some buf)
      else
        let rd := fdb_kv_get_blob key size d in
        let buf := rd ++ drop (length rd) buf in
        if negb (Z.of_nat (length rd) =? size) then (-3, Some buf) else (0, Some buf)
  | _, _ => (-1, buf)
  end.

(** [tmp_ok]: whether the scratch [os_malloc] succeeds; without it the
    unchanged-value check is skipped. *)
Definition configdb_set_blob (tmp_ok : bool) (key : option string) (buf : option (list Z)) (d : D)
  : Z * D :=
  match key, buf with
  | Some key, Some buf =>
      let size := Z.of_nat (length buf) in
      if size =? 0 then (-1, d)
      else
        let '(rc, tmp) := configdb_get_blob (Some key) (Some (replicate (length buf) 0)) d in
        if tmp_ok && (rc =? 0) && bool_decide (tmp = Some buf) then (0, d)
        else
          let '(res, d) := fdb_kv_set_blob key buf d in
          if negb (res =? 0) then (-3, d) else (0, d)
  | _, _ => (-1, d)
  end.

Definition configdb_get_set_blob (tmp_ok : bool) (key : option string) (buf : option (list Z)) (d : D)
  : Z * option (list Z) * D :=
  let buf := (configdb_get_blob key buf d).2 in
  let '(rc, d) := configdb_set_blob tmp_ok key buf d in (rc, buf, d).
(** [configdb_get_i8] on a [uint8_t] field cast to [int8_t]. *)
Definition get_u8 (key : string) (d : D) (v : Z) : Z := u8 (configdb_get_i8 key (i8 v) d).2.
Definition get_u16 (key : string) (d : D) (v : Z) : Z := u16 (configdb_get_i16 key (i16 v) d).2.
End Accessors.

(** ** Encoding lemmas *)

Definition is_i32 (v : Z) : Prop := - 2 ^ 31 <= v < 2 ^ 31.
#[export] Instance is_i32_dec v : Decision (is_i32 v).
Proof. unfold is_i32. apply _. Defined.

Lemma le32_length v : length (le32 v) = 4%nat.
Proof. done. Qed.

Lemma of_le32_le32 v : is_i32 v -> of_le32 (le32 v) = v.
Proof.
  intros Hv. unfold of_le32, le32. rewrite !land_0xFF, !shiftr_div by lia.
  unfold is_i32 in Hv. pose proof (u32_range v) as Hr. set (w := u32 v) in *.
  replace (w mod 256 + 2 ^ 8 * ((w / 2 ^ 8) mod 256) + 2 ^ 16 * ((w / 2 ^ 16) mod 256)
           + 2 ^ 24 * ((w / 2 ^ 24) mod 256)) with w.
  - subst w. word_lia.
  - change (2 ^ 24) with 16777216. word_lia.
Qed.
Lemma of_le32_u32 v : is_u32 v -> u32 (of_le32 (le32 v)) = v.
Proof.
  intros Hv. assert (E : le32 v = le32 (i32 v)).
  { unfold le32. replace (u32 (i32 v)) with (u32 v); [done|]. word_lia. }
  rewrite E, of_le32_le32; [|unfold is_i32]; word_lia.
Qed.

Lemma clamp_i16_small v : -32768 <= v < 32768 -> clamp_i16 v = v.
Proof. intros Hv. unfold clamp_i16. repeat z_case; word_lia. Qed.
Lemma clamp_i8_small v : -128 <= v < 128 -> clamp_i8 v = v.
Proof. intros Hv. unfold clamp_i8. repeat z_case; word_lia. Qed.

(** ** The accessors *)

Section Laws.
Context {D : Type} `{KvdbLaws D}.

Definition stored_i32 (key : string) (d : D) : option Z :=
  let b := fdb_kv_get_blob key 4 d in
  if Z.of_nat (length b) =? 4 then Some (of_le32 b) else None.

Lemma get_i32_stored key cur (d : D) :
  configdb_get_i32 key (Some cur) d =
  match stored_i32 key d with Some v => (0, Some v) | None => (-2, Some cur) end.
Proof. unfold configdb_get_i32, stored_i32. by destruct (_ =? 4). Qed.

Lemma write_i32_spec key v (d : D) rc d' :
  is_i32 v ->
  (let '(res, d) := fdb_kv_set_blob key (le32 v) d in
   if negb (res =? 0) then (-3, d) else (0, d)) = (rc, d') ->
  (rc = 0 -> stored_i32 key d' = Some v) /\
  (forall key', key' <> key -> stored_i32 key' d' = stored_i32 key' d).
Proof.
  intros Hv. destruct (fdb_kv_set_blob key (le32 v) d) as [res d2] eqn:Hs.
  pose proof (kv_get_set_same key (le32 v) d) as Hsame.
  pose proof (fun k' => kv_get_set_other key k' (le32 v) 4 d) as Hoth.
  rewrite Hs in Hsame, Hoth. cbn [fst snd] in *. rewrite le32_length in Hsame.
  intros Hrc. split.
  - intros ->. destruct (Z.eqb_spec res 0) as [->|Hr]; [|done]. injection Hrc as <-.
    unfold stored_i32. change 4 with (Z.of_nat 4). rewrite Hsame by done. cbv zeta.
    rewrite le32_length, Z.eqb_refl. by rewrite of_le32_le32.
  - intros k' Hk. unfold stored_i32. destruct (negb (res =? 0)); injection Hrc as _ <-; by rewrite Hoth.
Qed.

Lemma set_i32_spec key v (d : D) rc d' :
  is_i32 v -> configdb_set_i32 key (Some v) d = (rc, d') ->
  (rc = 0 -> stored_i32 key d' = Some v) /\
  (forall key', key' <> key -> stored_i32 key' d' = stored_i32 key' d) /\
  (stored_i32 key d = Some v -> rc = 0 /\ d' = d).
Proof.
  intros Hv. unfold configdb_set_i32. rewrite get_i32_stored.
  destruct (stored_i32 key d) as [c|] eqn:Hc.
  - case_bool_decide as Heq.
    + rewrite andb_true_r. change (0 =? 0) with true. cbv iota. intros [= <- <-].
      injection Heq as ->. by split_and!.
    + rewrite andb_false_r. intros Hw. destruct (write_i32_spec _ _ _ _ _ Hv Hw).
      split_and!; [done|done|]. by intros [= ->].
  - change (-2 =? 0) with false. cbn [andb]. intros Hw.
    by destruct (write_i32_spec _ _ _ _ _ Hv Hw).
Qed.

(** Reading back through the 8- and 16-bit accessors. *)
Lemma get_i8_stored key cur (d : D) v : stored_i32 key d = Some v ->
  configdb_get_i8 key cur d = (0, clamp_i8 v).
Proof. intros Hs. unfold configdb_get_i8, clamped_get. by rewrite get_i32_stored, Hs. Qed.
Lemma get_i16_stored key cur (d : D) v : stored_i32 key d = Some v ->
  configdb_get_i16 key cur d = (0, clamp_i16 v).
Proof. intros Hs. unfold configdb_get_i16, clamped_get. by rewrite get_i32_stored, Hs. Qed.

End Laws.

(** The callers store unsigned bytes and half-words through the signed
    accessors, with a pointer cast. *)
Lemma i8_cast_range x : -128 <= i8 x < 128.
Proof. word_lia. Qed.
Lemma i16_cast_range x : -32768 <= i16 x < 32768.
Proof. word_lia. Qed.
Lemma u8_i8 x : is_u8 x -> u8 (i8 x) = x.
Proof. word_lia. Qed.
Lemma u16_i16 x : is_u16 x -> u16 (i16 x) = x.
Proof. word_lia. Qed.

Section Unsigned.
Context {D : Type} `{KvdbLaws D}.

Lemma get_u8_stored key v cur (d : D) : is_u8 v -> stored_i32 key d = Some (i8 v) -> get_u8 key d cur = v.
Proof.
  intros Hv Hs. unfold get_u8. rewrite (get_i8_stored _ _ _ _ Hs). cbn.
  rewrite clamp_i8_small by apply i8_cast_range. by apply u8_i8.
Qed.
Lemma get_u16_stored key v cur (d : D) : is_u16 v -> stored_i32 key d = Some (i16 v) -> get_u16 key d cur = v.
Proof.
  intros Hv Hs. unfold get_u16. rewrite (get_i16_stored _ _ _ _ Hs). cbn.
  rewrite clamp_i16_small by apply i16_cast_range. by apply u16_i16.
Qed.
Lemma get_u8_range key (d : D) v : is_u8 (get_u8 key d v).
Proof. apply u8_range. Qed.
Lemma get_u16_range key (d : D) v : is_u16 (get_u16 key d v).
Proof. apply u16_range. Qed.
End Unsigned.

(** ** Sequences of writes *)

Section Writes.
Context {D : Type} `{KvdbLaws D}.
(** The flash accepts every write. *)
Hypothesis writes_succeed : forall key bytes (d : D), (fdb_kv_set_blob key bytes d).1 = 0.

Lemma set_succeeds key v (d : D) : is_i32 v ->
  stored_i32 key (configdb_set_i32 key (Some v) d).2 = Some v /\
  (forall key', key' <> key -> stored_i32 key' (configdb_set_i32 key (Some v) d).2 = stored_i32 key' d) /\
  (stored_i32 key d = Some v -> (configdb_set_i32 key (Some v) d).2 = d).
Proof using All.
  intros Hv. destruct (configdb_set_i32 key (Some v) d) as [rc d'] eqn:Hs.
  destruct (set_i32_spec _ _ _ _ _ Hv Hs) as (Hg & Ho & Hsame). cbn [snd].
  split_and!; [|done|by intros Hst; apply Hsame]. apply Hg.
  unfold configdb_set_i32 in Hs. destruct (configdb_get_i32 key (Some 0) d) as [r0 cur].
  pose proof (writes_succeed key (le32 v) d) as Hw.
  destruct (_ && _); [congruence|]. destruct (fdb_kv_set_blob key (le32 v) d) as [res d2].
  cbn [fst] in Hw. subst. cbn in Hs. congruence.
Qed.

Definition write_all (l : list (string * Z)) (d : D) : D :=
  fold_left (fun d kv => (configdb_set_i32 kv.1 (Some kv.2) d).2) l d.

Lemma write_all_stored l : forall d, NoDup l.*1 -> Forall (fun kv => is_i32 kv.2) l ->
  (forall k v, (k, v) ∈ l -> stored_i32 k (write_all l d) = Some v) /\
  (forall k, k ∉ l.*1 -> stored_i32 k (write_all l d) = stored_i32 k d).
Proof using All.
  induction l as [|[k v] l IH]; intros d Hnd Hv.
  { split; [intros k v Hin; by apply elem_of_nil in Hin|done]. }
  cbn in Hnd. apply NoDup_cons in Hnd as [Hk Hnd]. apply Forall_cons in Hv as [Hv Hl].
  destruct (set_succeeds k v d Hv) as (S & O & _). cbn [write_all fold_left fst snd].
  destruct (IH (configdb_set_i32 k (Some v) d).2 Hnd Hl) as [IHin IHout]. split.
  - intros k' v' Hin. apply elem_of_cons in Hin as [[= -> ->]|Hin]; [|by apply IHin].
    unfold write_all in IHout. by rewrite IHout.
  - intros k' Hk'. cbn in Hk'. rewrite elem_of_cons in Hk'. unfold write_all in IHout.
    rewrite IHout by tauto. apply O. tauto.
Qed.

(** Writing what is stored leaves the flash alone. *)
Lemma write_all_again l d : Forall (fun kv => is_i32 kv.2) l ->
  (forall k v, (k, v) ∈ l -> stored_i32 k d = Some v) -> write_all l d = d.
Proof using All.
  induction l as [|[k v] l IH]; intros Hv Hst; [done|].
  apply Forall_cons in Hv as [Hv Hl]. cbn [write_all fold_left fst snd].
  destruct (set_succeeds k v d Hv) as (_ & _ & Hsame).
  rewrite Hsame by (apply Hst; left). apply IH; [done|]. intros. apply Hst. by right.
Qed.
End Writes.

(** A concrete store: a finite map. *)
#[export] Instance gmap_kvdb : Kvdb (gmap string (list Z)) := {
  fdb_kv_set_blob key bytes d := (0, <[key := bytes]> d);
  fdb_kv_get_blob key size d := take (Z.to_nat size) (default [] (d !! key));
}.
#[export] Instance gmap_kvdb_laws : KvdbLaws (gmap string (list Z)).
Proof.
  split.
  - intros key bytes d _. cbn. by rewrite lookup_insert_eq, Nat2Z.id, firstn_all.
  - intros key key' bytes size d Hk. cbn. by rewrite lookup_insert_ne.
Qed.

(** Every 8-, 16- or 32-bit setting is a reliable register: if the setter
    reports success the getter returns that value (also for unsigned values
    stored through the signed accessors, as the callers do), no other key
    changes, and writing the value already stored does not write the flash. *)
Theorem configdb_register {D} `{KvdbLaws D} (key : string) (x32 x16 x8 : Z) (d : D) :
  is_i32 x32 -> is_u16 x16 -> is_u8 x8 ->
  (forall rc d', configdb_set_i32 key (Some x32) d = (rc, d') ->
     (rc = 0 -> forall cur, configdb_get_i32 key (Some cur) d' = (0, Some x32)) /\
     (forall key' cur, key' <> key -> configdb_get_i32 key' (Some cur) d' = configdb_get_i32 key' (Some cur) d) /\
     (configdb_get_i32 key (Some 0) d = (0, Some x32) -> rc = 0 /\ d' = d)) /\
  (forall d', configdb_set_i16 key (Some (i16 x16)) d = (0, d') ->
     forall cur, (configdb_get_i16 key cur d').1 = 0 /\ u16 (configdb_get_i16 key cur d').2 = x16) /\
  (forall d', configdb_set_i8 key (Some (i8 x8)) d = (0, d') ->
     forall cur, (configdb_get_i8 key cur d').1 = 0 /\ u8 (configdb_get_i8 key cur d').2 = x8).
Proof.
  intros H32 H16 H8. pose proof (i16_cast_range x16). pose proof (i8_cast_range x8). split_and!.
  - intros rc d' Hset. destruct (set_i32_spec _ _ _ _ _ H32 Hset) as (Hg & Ho & Hsame). split_and!.
    + intros Hrc cur. by rewrite get_i32_stored, Hg.
    + intros key' cur Hk. by rewrite !get_i32_stored, Ho.
    + rewrite get_i32_stored. intros Hst. apply Hsame. destruct (stored_i32 key d); [|done]. congruence.
  - intros d' Hset cur. unfold configdb_set_i16 in Hset.
    apply set_i32_spec in Hset as (Hg & _ & _); [|unfold is_i32; lia].
    rewrite (get_i16_stored _ _ _ _ (Hg eq_refl)), clamp_i16_small by done.
    split; [done|]. by apply u16_i16.
  - intros d' Hset cur. unfold configdb_set_i8 in Hset.
    apply set_i32_spec in Hset as (Hg & _ & _); [|unfold is_i32; lia].
    rewrite (get_i8_stored _ _ _ _ (Hg eq_refl)), clamp_i8_small by done.
    split; [done|]. by apply u8_i8.
Qed.

Lemma configdb_register_witness :
  exists d', configdb_set_i16 "net.port" (Some (i16 50000)) (∅ : gmap string (list Z)) = (0, d') /\
    u16 (configdb_get_i16 "net.port" 0 d').2 = 50000.
Proof.
  destruct (configdb_register "net.port" 7 50000 200 (∅ : gmap string (list Z)))
    as (_ & H16 & _); [by_eval|by_eval|by_eval|].
  destruct (configdb_set_i16 "net.port" (Some (i16 50000)) ∅) as [rc d'] eqn:Hs.
  assert (rc = 0) as -> by (vm_compute in Hs; congruence).
  exists d'. split; [done|]. apply (H16 d' eq_refl 0).
Defined.
