(* ===== verification/HalowRx.v ===== *)
(** * Receive path of the radio: the MCS10 reassembly of [src/halow.c]

    [halow_lmac_rx] filters data frames; frames received at MCS10 go through
    the fragment reassembly buffer.  The callback [g_rx_cb] is modelled by
    the list of payloads it has been called with. *)

From S2P Require Import Prelude Monad.

Definition HALOW_FRAG_HDR_SIZE : Z := 2.
Definition HALOW_FRAG_MAX_PAYLOAD : Z := 300.
Definition HALOW_FRAG_TIMEOUT_MS : Z := 1000.
Definition HALOW_FRAG_MAX_TOTAL : Z := 8.
Definition IEEE80211_HDR_SIZE : Z := 24.
Definition WLAN_FTYPE_DATA : Z := 0x0008.

Record frag_reassembly := mkReasm {
  active : bool;
  uuid : Z;
  total : Z;
  received : Z;
  last_tick : Z;
  part_len : list Z;
  buf : list Z;
}.
#[export] Instance eta_frag : Eta frag_reassembly := fun r =>
  mkReasm (active r) (uuid r) (total r) (received r) (last_tick r) (part_len r) (buf r).

Record rx_state := mkRx {
  frag_reasm : frag_reassembly;
  rx_frag_drop : Z;
  (** calls of [g_rx_cb], oldest first: header and payload *)
  delivered : list (list Z * list Z);
}.
#[export] Instance eta_rx : Eta rx_state := fun r =>
  mkRx (frag_reasm r) (rx_frag_drop r) (delivered r).

(** The zero-initialised static state. *)
Definition rx_init : rx_state :=
  mkRx (mkReasm false 0 0 0 0 (replicate 8 0) (replicate 2400 0)) 0 [].

Definition count_drop : M rx_state unit := modify (fun s => s <| rx_frag_drop ::= fun n => u32 (n + 1) |>).
Definition g_rx_cb (hdr payload : list Z) : M rx_state unit :=
  modify (fun s => s <| delivered ::= fun d => d ++ [(hdr, payload)] |>).

Definition frag_reasm_reset (uuid' total' : Z) : M rx_state unit :=
  modify (fun s => s <| frag_reasm ::= fun r =>
    r <| active := false |> <| uuid := uuid' |> <| total := total' |> <| received := 0 |>
      <| part_len := replicate 8 0 |> <| active := true |> |>).

Definition sum_Z (l : list Z) : Z := foldr Z.add 0 l.

Definition frag_reasm_store (seq : Z) (fdata : list Z) : M rx_state unit :=
  let flen := Z.of_nat (length fdata) in
  r ← gets frag_reasm;
  let malformed := (total r <=? seq) || (flen <=? 0) || (HALOW_FRAG_MAX_PAYLOAD <? flen) in
  if malformed then count_drop
  else
    p ← lift (rd (part_len r) seq);
    if negb (p =? 0) then mret tt
    else
      parts ← lift (rd_n (part_len r) 0 seq);
      let off := u32 (sum_Z parts) in
      if u32 (off + flen) <=? Z.of_nat (length (buf r)) then
        b ← lift (wr_n (buf r) off fdata);
        pl ← lift (wr (part_len r) seq (u16 flen));
        modify (fun s => s <| frag_reasm ::= fun r =>
          r <| buf := b |> <| part_len := pl |> <| received ::= fun n => u8 (n + 1) |> |>)
      else count_drop.

Definition frag_reasm_complete : M rx_state bool :=
  gets (fun s => received (frag_reasm s) =? total (frag_reasm s)).

Definition frag_reasm_length : M rx_state Z :=
  r ← gets frag_reasm;
  parts ← lift (rd_n (part_len r) 0 (total r));
  mret (u32 (sum_Z parts)).

(** [now] is [get_time_ms()] truncated to 32 bits. *)
Definition halow_lmac_rx_mcs10 (now : Z) (hdr payload : list Z) : M rx_state unit :=
  let payload_len := Z.of_nat (length payload) in
  if payload_len <? HALOW_FRAG_HDR_SIZE then g_rx_cb hdr payload
  else
    b0 ← lift (rd payload 0);
    let total' := Z.shiftr b0 4 in
    if total' =? 0 then g_rx_cb hdr payload
    else if HALOW_FRAG_MAX_TOTAL <? total' then count_drop
    else
      let seq := Z.land b0 0x0F in
      uuid' ← lift (rd payload 1);
      let fdata := drop (Z.to_nat HALOW_FRAG_HDR_SIZE) payload in
      if total' =? 1 then g_rx_cb hdr fdata
      else
        r ← gets frag_reasm;
        when (active r && (HALOW_FRAG_TIMEOUT_MS <? u32 (now - last_tick r)))
          (count_drop;; modify (fun s => s <| frag_reasm; active := false |>));;
        r ← gets frag_reasm;
        when (negb (active r) || negb (uuid r =? uuid')) (frag_reasm_reset uuid' total');;
        frag_reasm_store seq fdata;;
        modify (fun s => s <| frag_reasm; last_tick := now |>);;
        complete ← frag_reasm_complete;
        when complete (
          len ← frag_reasm_length;
          r ← gets frag_reasm;
          bytes ← lift (rd_n (buf r) 0 len);
          g_rx_cb hdr bytes;;
          modify (fun s => s <| frag_reasm; active := false |>)).

(** [halow_lmac_rx]: [mcs] is [info->mcs], [have_cb] whether a callback is set. *)
Definition halow_lmac_rx (have_cb : bool) (now mcs : Z) (data : option (list Z)) : M rx_state Z :=
  match data with
  | None => mret (-1)
  | Some data =>
      if Z.of_nat (length data) <? IEEE80211_HDR_SIZE then mret (-1)
      else
        fc0 ← lift (rd data 0);
        fc1 ← lift (rd data 1);
        let frame_control := fc0 + 256 * fc1 in
        if negb (Z.land frame_control 0x000C =? WLAN_FTYPE_DATA) then mret (-1)
        else
          let hdr := take 24 data in
          let payload := drop 24 data in
          if (Z.of_nat (length payload) <=? 0) || negb have_cb then mret 0
          else if mcs =? 10 then halow_lmac_rx_mcs10 now hdr payload;; mret 0
          else g_rx_cb hdr payload;; mret 0
  end.

(** ** The reassembly never leaves its buffers *)

Record reasm_wf (r : frag_reassembly) : Prop := {
  rw_parts : length (part_len r) = 8%nat;
  rw_buf : length (buf r) = 2400%nat;
  rw_total : 0 <= total r <= 8;
  rw_received : is_u8 (received r);
  rw_len : Forall (fun n => 0 <= n <= 300) (part_len r);
}.

Lemma sum_parts_bound l k : Forall (fun n => 0 <= n <= 300) l ->
  0 <= sum_Z (take k l) <= 300 * Z.of_nat (Nat.min k (length l)).
Proof.
  unfold sum_Z. revert k.
  induction l as [|a l IH]; intros [|k] H; cbn [foldr take length Nat.min]; [lia..|].
  apply Forall_cons in H as [Ha Hl]. specialize (IH k Hl). lia.
Qed.

(** Everything the callback received is bounded by the buffer or by the frame. *)
Definition deliveries_ok (maxlen : Z) (s : rx_state) : Prop :=
  Forall (fun d => Z.of_nat (length d.2) <= maxlen) (delivered s).

Lemma store_wf seq fdata s :
  0 <= seq -> reasm_wf (frag_reasm s) ->
  wp (frag_reasm_store seq fdata) (fun _ s' => reasm_wf (frag_reasm s') /\ delivered s' = delivered s) s.
Proof.
  intros Hseq [Hp Hb Ht Hr Hl]. unfold frag_reasm_store. wp_steps; rsimpl; [done..|].
  apply orb_false_iff in Heqb as [[H1 H2]%orb_false_iff H3].
  apply Z.leb_gt in H1, H2. apply Z.ltb_ge in H3.
  destruct (rd_in_bounds (part_len (frag_reasm s)) seq) as (p & Hp1 & Hp2); [lia|].
  eapply wp_lift; [done|]. wp_steps; [done|].
  eapply wp_lift; [apply rd_n_in_bounds; lia|].
  change (Z.to_nat 0) with 0%nat. rewrite drop_0.
  pose proof (sum_parts_bound (part_len (frag_reasm s)) (Z.to_nat seq) Hl) as Hs.
  rewrite (u32_small (sum_Z _)) by word_lia. wp_steps; [|done].
  rewrite u32_small in Heqb0 by (unfold HALOW_FRAG_MAX_PAYLOAD in *; word_lia).
  apply Z.leb_le in Heqb0.
  destruct (wr_n (buf (frag_reasm s)) _ fdata) as [b|] eqn:Hw.
  2:{ rewrite wr_n_in_bounds in Hw by lia. done. }
  eapply wp_lift; [done|]. wp_steps.
  eapply wp_lift; [apply wr_in_bounds; lia|]. wp_steps. rsimpl.
  split; [|done]. split; rsimpl.
  - by rewrite length_insert.
  - by rewrite (wr_n_length _ _ _ _ Hw).
  - done.
  - auto with words.
  - apply Forall_insert; [done|]. unfold HALOW_FRAG_MAX_PAYLOAD in *. word_lia.
Qed.

Lemma shiftr4_range b : is_u8 b -> 0 <= Z.shiftr b 4 < 16 /\ 0 <= Z.land b 15 < 16.
Proof.
  intros Hb. rewrite shiftr_div by lia. change 15 with (2 ^ 4 - 1). rewrite land_low by lia. word_lia.
Qed.

Lemma rx_mcs10_wf now hdr payload s m :
  is_bytes payload -> Z.of_nat (length payload) <= m -> 2400 <= m ->
  reasm_wf (frag_reasm s) -> deliveries_ok m s ->
  wp (halow_lmac_rx_mcs10 now hdr payload)
     (fun _ s' => reasm_wf (frag_reasm s') /\ deliveries_ok m s') s.
Proof.
  intros Hbytes Hlen Hm Hwf Hd. unfold halow_lmac_rx_mcs10, g_rx_cb, count_drop, deliveries_ok in *.
  assert (Hdel : forall p s, Z.of_nat (length p) <= m ->
    Forall (fun d => Z.of_nat (length d.2) <= m) (delivered s) ->
    Forall (fun d => Z.of_nat (length d.2) <= m) (delivered s ++ [(hdr, p)])).
  { intros p s0 Hp Hs0. apply Forall_app. split; [done|]. by constructor. }
  destruct (Z.ltb_spec (Z.of_nat (length payload)) HALOW_FRAG_HDR_SIZE) as [|Hge].
  { wp_steps; rsimpl; auto. }
  unfold HALOW_FRAG_HDR_SIZE in *.
  destruct (rd_in_bounds payload 0) as (b0 & Hb0 & Hb0'); [lia|].
  destruct (rd_in_bounds payload 1) as (b1 & Hb1 & Hb1'); [lia|].
  pose proof (shiftr4_range b0 (is_bytes_lookup _ _ _ Hbytes Hb0')) as [Ht Hs].
  wp_step. eapply wp_lift; [done|]. wp_step; [wp_steps; rsimpl; auto|].
  destruct (HALOW_FRAG_MAX_TOTAL <? Z.shiftr b0 4) eqn:Ht8; [wp_steps; rsimpl; auto|].
  apply Z.ltb_ge in Ht8. unfold HALOW_FRAG_MAX_TOTAL in *.
  wp_step. eapply wp_lift; [done|]. cbv zeta.
  wp_step; [wp_steps; rsimpl; split; [done|]; apply Hdel; [rewrite length_drop; lia|done]|].
  assert (Hreset : forall s0, reasm_wf (frag_reasm s0) ->
    reasm_wf (frag_reasm (s0 <| frag_reasm ::= fun r =>
      r <| active := false |> <| uuid := b1 |> <| total := Z.shiftr b0 4 |> <| received := 0 |>
        <| part_len := replicate 8 0 |> <| active := true |> |>))).
  { intros s0 [? ? ? ? ?]. split; rsimpl; try done; try lia. repeat constructor; lia. }
  assert (Htail : forall s0, reasm_wf (frag_reasm s0) -> deliveries_ok m s0 ->
    wp (frag_reasm_store (Z.land b0 15) (drop 2 payload)) (fun _ s0 => wp (
        modify (fun s => s <| frag_reasm; last_tick := now |>);;
        complete ← frag_reasm_complete;
        when complete (
          len ← frag_reasm_length;
          r ← gets frag_reasm;
          bytes ← lift (rd_n (buf r) 0 len);
          g_rx_cb hdr bytes;;
          modify (fun s => s <| frag_reasm; active := false |>)))
      (fun _ s' => reasm_wf (frag_reasm s') /\ deliveries_ok m s') s0) s0).
  { intros s0 Hw0 Hd0. eapply wp_mono; [apply store_wf; [lia|done]|].
    cbv beta. intros _ s1 [Hw1 Hd1]. unfold frag_reasm_complete, frag_reasm_length.
    assert (Hd1' : deliveries_ok m s1) by (unfold deliveries_ok; by rewrite Hd1).
    destruct Hw1 as [Hp Hb Ht1 Hr Hl]. wp_steps; rsimpl; [|split; [split; rsimpl; done|done]].
    eapply wp_lift; [apply rd_n_in_bounds; lia|]. wp_steps; rsimpl.
    change (Z.to_nat 0) with 0%nat. rewrite drop_0.
    pose proof (sum_parts_bound (part_len (frag_reasm s1)) (Z.to_nat (total (frag_reasm s1))) Hl) as Hsum.
    rewrite u32_small by word_lia.
    eapply wp_lift; [apply rd_n_in_bounds; lia|]. unfold g_rx_cb. wp_steps; rsimpl.
    split; [split; rsimpl; done|]. unfold deliveries_ok. rsimpl. apply Hdel; [|done].
    rewrite length_take. lia. }
  unfold frag_reasm_reset. wp_steps; rsimpl; apply Htail; rsimpl; try done; try apply Hreset; try done;
    destruct Hwf; split; rsimpl; done.
Qed.

(** ** In-order reassembly *)

(** The header of fragment [i] of [n] (built by [halow_tx_mcs10_frag]). *)
Definition frag_byte0 (n i : Z) : Z := u8 (Z.lor (Z.shiftl n 4) i).

Lemma frag_byte0_fields n i : 0 <= n < 16 -> 0 <= i < 16 ->
  Z.shiftr (frag_byte0 n i) 4 = n /\ Z.land (frag_byte0 n i) 15 = i /\ is_u8 (frag_byte0 n i).
Proof.
  intros Hn Hi. unfold frag_byte0. rewrite Z.lor_comm, lor_shiftl_add by lia.
  change (2 ^ 4) with 16. rewrite u8_small by word_lia. rewrite shiftr_div by lia.
  change 15 with (2 ^ 4 - 1). rewrite land_low by lia. split_and!; word_lia.
Qed.

Definition chunk_ok (c : list Z) : Prop := 0 < Z.of_nat (length c) <= 300.
Definition lens (cs : list (list Z)) : list Z := (fun c => Z.of_nat (length c)) <$> cs.

(** The reassembly buffer holds the fragments [done] of a message of [n]. *)
Record holds (u n : Z) (done : list (list Z)) (r : frag_reassembly) : Prop := {
  ho_active : active r = true;
  ho_uuid : uuid r = u;
  ho_total : total r = n;
  ho_received : received r = Z.of_nat (length done);
  ho_parts : part_len r = lens done ++ replicate (8 - length done) 0;
  ho_buf : length (buf r) = 2400%nat;
  ho_data : take (length (concat done)) (buf r) = concat done;
}.

Lemma sum_lens done : sum_Z (lens done) = Z.of_nat (length (concat done)).
Proof.
  unfold sum_Z, lens. induction done as [|c done IH]; [done|].
  cbn [fmap list_fmap foldr concat]. rewrite IH, length_app. lia.
Qed.

Lemma concat_length_bound done : Forall chunk_ok done ->
  Z.of_nat (length (concat done)) <= 300 * Z.of_nat (length done).
Proof.
  induction 1 as [|c done [Hc1 Hc2] _ IH]; [done|]. cbn [concat length]. rewrite length_app. lia.
Qed.

Lemma store_next u n done chunk s :
  holds u n done (frag_reasm s) -> Forall chunk_ok done -> chunk_ok chunk ->
  Z.of_nat (length done) < n <= 8 ->
  wp (frag_reasm_store (Z.of_nat (length done)) chunk)
     (fun _ s' => holds u n (done ++ [chunk]) (frag_reasm s') /\ delivered s' = delivered s) s.
Proof.
  intros [Ha Hu Ht Hr Hp Hb Hd] Hdone Hc Hn. unfold frag_reasm_store.
  pose proof (concat_length_bound done Hdone) as Hlen. destruct Hc as [Hc1 Hc2].
  assert (Hll : length (lens done) = length done) by (unfold lens; by rewrite length_fmap).
  assert (Hpl : length (part_len (frag_reasm s)) = 8%nat)
    by (rewrite Hp, length_app, length_replicate; lia).
  wp_step. wp_step. cbv zeta. rewrite (proj2 (Z.leb_gt (total _) _)) by lia.
  rewrite (proj2 (Z.leb_gt _ 0)) by lia.
  unfold HALOW_FRAG_MAX_PAYLOAD. rewrite (proj2 (Z.ltb_ge 300 _)) by lia. cbn [orb].
  wp_step. eapply (wp_lift _ 0).
  { apply rd_Some. split; [lia|]. rewrite Hp, lookup_app_r by lia. apply lookup_replicate. lia. }
  change (negb (0 =? 0)) with false. cbv iota. wp_step.
  eapply wp_lift; [apply rd_n_in_bounds; lia|]. cbv zeta.
  change (Z.to_nat 0) with 0%nat. rewrite drop_0, Nat2Z.id, Hp, take_app_length' by lia.
  rewrite sum_lens. rewrite !u32_small by word_lia. rewrite (proj2 (Z.leb_le _ _)) by lia.
  wp_step. eapply wp_lift; [apply wr_n_in_bounds; lia|]. rewrite Nat2Z.id.
  wp_step. eapply wp_lift; [apply wr_in_bounds; rewrite length_app, length_replicate; lia|].
  rewrite Nat2Z.id. wp_step. rsimpl. split; [|done]. split; rsimpl; try done.
  - rewrite Hr, length_app. cbn [length]. word_lia.
  - rewrite u16_small by word_lia. unfold lens. rewrite fmap_app.
    change ((fun c => Z.of_nat (length c)) <$> done) with (lens done).
    replace (length done) with (length (lens done) + 0)%nat at 1 by lia.
    rewrite insert_app_r. replace (8 - length done)%nat with (S (8 - length (done ++ [chunk]))).
    2:{ rewrite length_app. cbn [length]. lia. }
    cbn [replicate]. rewrite <-app_assoc. done.
  - rewrite !length_app, length_take, length_drop. lia.
  - rewrite concat_app. cbn [concat]. rewrite app_nil_r, Hd, app_assoc, take_app_length'; [done|].
    by rewrite !length_app.
Qed.

(** Payload of fragment [i] of [n] with identifier [u]. *)
Definition frag_payload (u n i : Z) (chunk : list Z) : list Z := frag_byte0 n i :: u :: chunk.

(** The reassembly will start afresh on a fragment of [u] arriving at [now]. *)
Definition fresh_for (u now : Z) (r : frag_reassembly) : Prop :=
  active r = false \/ uuid r <> u \/ HALOW_FRAG_TIMEOUT_MS < u32 (now - last_tick r).

Lemma rx_fragment u n done chunk now hdr s :
  2 <= n <= 8 -> Z.of_nat (length done) < n -> Forall chunk_ok done -> chunk_ok chunk ->
  length (buf (frag_reasm s)) = 2400%nat ->
  (done = [] /\ fresh_for u now (frag_reasm s) \/
   holds u n done (frag_reasm s) /\ u32 (now - last_tick (frag_reasm s)) <= HALOW_FRAG_TIMEOUT_MS) ->
  wp (halow_lmac_rx_mcs10 now hdr (frag_payload u n (Z.of_nat (length done)) chunk))
     (fun _ s' =>
        length (buf (frag_reasm s')) = 2400%nat /\
        if decide (Z.of_nat (length done) + 1 = n)
        then delivered s' = delivered s ++ [(hdr, concat (done ++ [chunk]))] /\
             active (frag_reasm s') = false
        else delivered s' = delivered s /\ holds u n (done ++ [chunk]) (frag_reasm s') /\
             last_tick (frag_reasm s') = now) s.
Proof.
  intros Hn Hlt Hdone Hc Hbuf Hcase. unfold halow_lmac_rx_mcs10, frag_payload, HALOW_FRAG_HDR_SIZE.
  destruct (frag_byte0_fields n (Z.of_nat (length done))) as (Hsh & Hla & _); [lia|lia|].
  rewrite (proj2 (Z.ltb_ge _ 2)) by (cbn [length]; lia).
  wp_step. eapply wp_lift; [reflexivity|]. cbv zeta. rewrite Hsh.
  rewrite (proj2 (Z.eqb_neq n 0)) by lia. unfold HALOW_FRAG_MAX_TOTAL.
  rewrite (proj2 (Z.ltb_ge 8 n)) by lia. wp_step. eapply wp_lift; [reflexivity|].
  rewrite (proj2 (Z.eqb_neq n 1)) by lia. change (Z.to_nat 2) with 2%nat. cbn [drop].
  assert (Htail : forall s0, holds u n done (frag_reasm s0) -> delivered s0 = delivered s ->
    wp (frag_reasm_store (Z.land (frag_byte0 n (Z.of_nat (length done))) 15) chunk) (fun _ s0 => wp (
        modify (fun s => s <| frag_reasm; last_tick := now |>);;
        complete ← frag_reasm_complete;
        when complete (
          len ← frag_reasm_length;
          r ← gets frag_reasm;
          bytes ← lift (rd_n (buf r) 0 len);
          g_rx_cb hdr bytes;;
          modify (fun s => s <| frag_reasm; active := false |>)))
      (fun _ s' => length (buf (frag_reasm s')) = 2400%nat /\
        if decide (Z.of_nat (length done) + 1 = n)
        then delivered s' = delivered s ++ [(hdr, concat (done ++ [chunk]))] /\
             active (frag_reasm s') = false
        else delivered s' = delivered s /\ holds u n (done ++ [chunk]) (frag_reasm s') /\
             last_tick (frag_reasm s') = now) s0) s0).
  { intros s0 Hh Hd. rewrite Hla. eapply wp_mono; [apply (store_next u n); [done|done|done|lia]|].
    cbv beta. intros _ s1 [Hh1 Hd1]. destruct Hh1 as [Ha Hu Ht Hr Hp Hb Hdat] eqn:Hh1e. clear Hh1e.
    unfold frag_reasm_complete, frag_reasm_length. wp_step. wp_step. wp_step. wp_step. rsimpl.
    rewrite Hr, Ht, length_app. change (length [chunk]) with 1%nat.
    case_decide as Hlast.
    - rewrite (proj2 (Z.eqb_eq _ n)) by lia. cbn [when]. wp_step. wp_step. wp_step. wp_step. rsimpl.
      assert (Hpl : length (part_len (frag_reasm s1)) = 8%nat).
      { rewrite Hp, length_app, length_replicate. unfold lens. rewrite length_fmap, length_app. cbn [length]. lia. }
      eapply wp_lift; [apply rd_n_in_bounds; lia|]. wp_step. wp_step. wp_step. rsimpl.
      change (Z.to_nat 0) with 0%nat. rewrite !drop_0, Hp, Ht.
      rewrite take_app_length' by (unfold lens; rewrite length_fmap, length_app; cbn [length]; lia).
      rewrite sum_lens. assert (Forall chunk_ok (done ++ [chunk])) as Hall by (apply Forall_app; split; [done|by constructor]).
      pose proof (concat_length_bound _ Hall) as Hcb. rewrite length_app in Hcb. cbn [length] in Hcb.
      rewrite u32_small by word_lia. wp_step.
      eapply wp_lift; [apply rd_n_in_bounds; rewrite ?Hb; lia|].
      change (Z.to_nat 0) with 0%nat. rewrite !drop_0, Nat2Z.id, Hdat. unfold g_rx_cb. wp_steps. rsimpl.
      split; [done|]. by rewrite Hd1, Hd.
    - rewrite (proj2 (Z.eqb_neq _ n)) by lia. cbn [when]. apply wp_ret. rsimpl.
      split; [done|]. split_and!; [by rewrite Hd1| |done]. by split; rsimpl. }
  wp_step. wp_step.
  destruct Hcase as [[-> Hfresh]|[Hh Htick]].
  - unfold frag_reasm_reset, count_drop.
    assert (Hstart : forall s0, length (buf (frag_reasm s0)) = 2400%nat -> holds u n []
      (frag_reasm (s0 <| frag_reasm ::= fun r =>
        r <| active := false |> <| uuid := u |> <| total := n |> <| received := 0 |>
          <| part_len := replicate 8 0 |> <| active := true |> |>))) by (intros; split; rsimpl; done).
    assert (Hcond : forall b, b = (active (frag_reasm s) && (HALOW_FRAG_TIMEOUT_MS <? u32 (now - last_tick (frag_reasm s)))) ->
       b = true \/ (negb (active (frag_reasm s)) || negb (uuid (frag_reasm s) =? u)) = true).
    { intros b ->. destruct Hfresh as [->|[Hu|Ht]]; [by right|right|].
      - rewrite (proj2 (Z.eqb_neq _ _) Hu). apply orb_true_r.
      - rewrite (proj2 (Z.ltb_lt _ _) Ht). destruct (active (frag_reasm s)); auto. }
    destruct (active (frag_reasm s) && _) eqn:Hb; cbn [when]; specialize (Hcond _ eq_refl).
    + wp_step. wp_step. wp_step. wp_step. wp_step. wp_step. wp_step. rsimpl. cbn [negb orb].
      cbn [when]. wp_step. wp_step. apply Htail; rsimpl; [apply Hstart; rsimpl|]; done.
    + destruct Hcond as [|Hcond]; [done|]. wp_step. wp_step. wp_step. wp_step. rewrite Hcond.
      cbn [when]. wp_step. wp_step. wp_step. apply Htail; rsimpl; [apply Hstart|]; done.
  - pose proof Hh as [Ha Hu _ _ _ _ _].
    rewrite Ha, (proj2 (Z.ltb_ge _ _) Htick). cbn [andb when]. wp_step. wp_step. wp_step. wp_step.
    rewrite Ha, Hu, Z.eqb_refl. cbn [negb orb when]. wp_step. wp_step. wp_step. by apply Htail.
Qed.

(** ** Runs of the receive path *)

(** Frames as the LMAC hands them over: arrival time, MCS and bytes. *)
Definition rx_run (frames : list (Z * Z * list Z)) : M rx_state unit :=
  mfor frames (fun f => halow_lmac_rx true f.1.1 f.1.2 (Some f.2);; mret tt).

(** A data frame header of 24 bytes. *)
Definition data_header (hdr : list Z) : Prop :=
  length hdr = 24%nat /\ exists fc0 fc1 rest, hdr = fc0 :: fc1 :: rest /\
    Z.land (fc0 + 256 * fc1) 0x000C = WLAN_FTYPE_DATA.

Lemma rx_data_frame hdr payload now (Q : unit -> rx_state -> Prop) s :
  data_header hdr -> payload <> [] ->
  wp (halow_lmac_rx_mcs10 now hdr payload) Q s ->
  wp (halow_lmac_rx true now 10 (Some (hdr ++ payload));; mret tt) Q s.
Proof.
  intros (Hl & fc0 & fc1 & rest & Hh & Hfc) Hp Hwp. wp_step. unfold halow_lmac_rx, IEEE80211_HDR_SIZE.
  rewrite (proj2 (Z.ltb_ge _ 24)) by (rewrite length_app; lia).
  wp_step. eapply (wp_lift _ fc0); [by rewrite Hh|]. wp_step. eapply (wp_lift _ fc1); [by rewrite Hh|].
  cbv zeta. rewrite Hfc. change (negb (WLAN_FTYPE_DATA =? WLAN_FTYPE_DATA)) with false. cbv iota.
  rewrite take_app_length', drop_app_length' by done.
  rewrite (proj2 (Z.leb_gt _ 0)) by (destruct payload; [done|cbn; lia]). cbn [negb orb].
  change (10 =? 10) with true. cbv iota. wp_step. eapply wp_mono; [exact Hwp|].
  cbv beta. intros [] s' HQ. by wp_steps.
Qed.

(** The frames of a message sent as fragments [done ++ rest], from [rest] on. *)
Fixpoint message_frames (hdr : nat -> list Z) (u n : Z) (t : nat -> Z) (i : nat) (cs : list (list Z))
  : list (Z * Z * list Z) :=
  match cs with
  | [] => []
  | c :: cs => (t i, 10, hdr i ++ frag_payload u n (Z.of_nat i) c) :: message_frames hdr u n t (S i) cs
  end.

Lemma reassemble_from hdr u n t rest : forall sent s,
  (forall i, data_header (hdr i)) -> 2 <= n <= 8 -> n = Z.of_nat (length sent + length rest) -> rest <> [] ->
  Forall chunk_ok sent -> Forall chunk_ok rest ->
  (forall i, Z.of_nat (S i) < n -> u32 (t (S i) - t i) <= HALOW_FRAG_TIMEOUT_MS) ->
  length (buf (frag_reasm s)) = 2400%nat ->
  (sent = [] /\ fresh_for u (t 0%nat) (frag_reasm s) \/
   sent <> [] /\ holds u n sent (frag_reasm s) /\ last_tick (frag_reasm s) = t (pred (length sent))) ->
  wp (rx_run (message_frames hdr u n t (length sent) rest))
     (fun _ s' => delivered s' = delivered s ++ [(hdr (Z.to_nat n - 1)%nat, concat (sent ++ rest))] /\
                  active (frag_reasm s') = false /\ length (buf (frag_reasm s')) = 2400%nat) s.
Proof.
  induction rest as [|c rest IH]; intros sent s Hh Hn Hlen Hne Hdone Hrest Ht Hbuf Hcase; [done|].
  apply Forall_cons in Hrest as [Hc Hrest]. cbn [message_frames]. unfold rx_run. cbn [mfor fst snd].
  cbn [length] in Hlen. wp_step. apply rx_data_frame; [apply Hh|done|].
  eapply wp_mono; [apply rx_fragment; try done; try lia|].
  { destruct Hcase as [[-> Hf]|(Hd & Hho & Htk)]; [by left|right]. split; [done|]. rewrite Htk.
    destruct sent as [|d sent]; [done|]. cbn [length pred] in *. apply Ht. lia. }
  cbv beta. intros _ s1 [Hbuf1 Hs1]. destruct rest as [|c2 rest].
  - rewrite decide_True in Hs1 by (cbn [length] in Hlen; lia). destruct Hs1 as [Hd1 Ha1].
    cbn [message_frames mfor]. apply wp_ret.
    replace (Z.to_nat n - 1)%nat with (length sent) by (cbn [length] in Hlen; lia). done.
  - rewrite decide_False in Hs1 by (cbn [length] in Hlen; lia). destruct Hs1 as (Hd1 & Hh1 & Ht1).
    replace (S (length sent)) with (length (sent ++ [c])) by (rewrite length_app; cbn; lia).
    eapply wp_mono; [apply (IH (sent ++ [c])); try done|].
    + rewrite length_app. cbn [length] in *. lia.
    + apply Forall_app. split; [done|by constructor].
    + right. rewrite length_app. split; [by destruct sent|]. split; [done|].
      rewrite Ht1. f_equal. cbn. lia.
    + cbv beta. intros _ s2 (Hd2 & Ha2 & Hb2). rewrite Hd2, Hd1, <-app_assoc. done.
Qed.

Lemma halow_lmac_rx_wf have_cb now mcs data m s :
  is_bytes data -> Z.of_nat (length data) <= m -> 2400 <= m ->
  reasm_wf (frag_reasm s) -> deliveries_ok m s ->
  wp (halow_lmac_rx have_cb now mcs (Some data))
     (fun _ s' => reasm_wf (frag_reasm s') /\ deliveries_ok m s') s.
Proof.
  intros Hb Hl Hm Hwf Hd. unfold halow_lmac_rx.
  destruct (Z.ltb_spec (Z.of_nat (length data)) IEEE80211_HDR_SIZE) as [|Hge]; [by wp_steps|].
  unfold IEEE80211_HDR_SIZE in *.
  destruct (rd_in_bounds data 0) as (b0 & Hb0 & _); [lia|].
  destruct (rd_in_bounds data 1) as (b1 & Hb1 & _); [lia|].
  wp_step. eapply wp_lift; [done|]. wp_step. eapply wp_lift; [done|]. cbv zeta.
  wp_step; [by wp_steps|]. wp_step; [by wp_steps|]. wp_step.
  - wp_step. eapply wp_mono; [apply (rx_mcs10_wf _ _ _ _ m); try done|by intros; wp_steps].
    + by apply Forall_drop.
    + rewrite length_drop. lia.
  - wp_step. unfold g_rx_cb. wp_steps. rsimpl. split; [done|]. unfold deliveries_ok. rsimpl.
    apply Forall_app. split; [done|]. constructor; [|done]. cbn [snd]. rewrite length_drop. lia.
Qed.

Lemma rx_init_wf : reasm_wf (frag_reasm rx_init).
Proof.
  split; cbn [rx_init frag_reasm part_len buf total received];
    [done|done|lia|by_eval|apply Forall_replicate; lia].
Qed.

(** Whatever frames arrive, the receive path never reads or writes outside
    the frame or the reassembly buffer, and everything handed to the callback
    fits the larger of the frame and the 2400-byte buffer. *)
Theorem frag_rx_safe frames m :
  Forall (fun f => is_bytes f.2 /\ Z.of_nat (length f.2) <= m) frames -> 2400 <= m ->
  exists s, rx_run frames rx_init = Some (tt, s) /\ reasm_wf (frag_reasm s) /\
    Forall (fun d => Z.of_nat (length d.2) <= m) (delivered s).
Proof.
  intros Hf Hm.
  assert (wp (rx_run frames) (fun _ s => reasm_wf (frag_reasm s) /\ deliveries_ok m s) rx_init) as Hwp.
  { apply (wp_mfor _ _ (fun s => reasm_wf (frag_reasm s) /\ deliveries_ok m s)); [|intros f s Hin [Hwf Hd]|done].
    { split; [apply rx_init_wf|constructor]. }
    pose proof (proj1 (Forall_forall _ _) Hf _ Hin) as [Hb Hl].
    wp_step. eapply wp_mono; [by apply (halow_lmac_rx_wf _ _ _ _ m)|]. cbv beta. intros. by wp_steps. }
  apply wp_elim in Hwp as ([] & s & Hr & Hwf & Hd). eauto.
Qed.

Definition demo_hdr : list Z := 8 :: replicate 23 0.

Lemma frag_rx_safe_witness :
  exists s, rx_run [(0, 10, demo_hdr ++ [0x31; 5; 1; 2]); (1, 10, demo_hdr ++ [0x3F; 5])] rx_init
      = Some (tt, s) /\ reasm_wf (frag_reasm s) /\
    Forall (fun d => Z.of_nat (length d.2) <= 2400) (delivered s).
Proof. apply frag_rx_safe; [repeat constructor; by_eval|lia]. Defined.

(** Fragments that overtake each other are stored over one another: the
    completed message is not the one that was sent. *)
Lemma frag_out_of_order_corrupts :
  let msg := [[1;1;1]; [2;2;2]] in
  let frames := message_frames (fun _ => demo_hdr) 7 2 (fun _ => 0) 0 msg in
  exists s d, rx_run (reverse frames) rx_init = Some (tt, s) /\ delivered s = [(demo_hdr, d)] /\
              d <> concat msg.
Proof. vm_compute. do 2 eexists. split_and!; [reflexivity|reflexivity|discriminate]. Qed.
