(* ===== verification/Halow.v ===== *)
(** * Radio front end: transmission, configuration and TX budget of [src/halow.c]

    Frames are handed to the LMAC (third-party, a parameter) against a byte
    budget that TX completions refund.  The receive side is in [HalowRx]. *)

From S2P Require Import Prelude Monad HalowRx ConfigDb.
From stdpp Require Import strings.

#[local] Open Scope Z_scope.

Definition TX_BUFFER_SIZE : Z := 1460 * 20.
Definition HALOW_MCS10_MAX_MSDU : Z := 500.
Definition HALOW_MCS_DEFAULT : Z := 0xFF.
Definition HALOW_TX_BLOCK_ITERS : nat := 100.

Definition halow_max_msdu : list (list Z) :=
  [ [ 700; 1450; 2200; 3000; 4500; 6050; 6800; 7600];
    [1600; 3200; 4900; 6500; 8192; 8192; 8192; 8192];
    [3400; 6800; 8192; 8192; 8192; 8192; 8192; 8192];
    [7400; 8192; 8192; 8192; 8192; 8192; 8192; 8192] ].

Definition halow_bw_index (bw : Z) : Z :=
  if 8 <=? bw then 3 else if 4 <=? bw then 2 else if 2 <=? bw then 1 else 0.

(** ** Configuration *)

Record halow_config := mkHalowConfig {
  central_freq : Z;
  bandwidth : Z;
  mcs : Z;
  rf_power : Z;
  rf_super_power : Z;
}.
#[export] Instance eta_halow_config : Eta halow_config := fun r =>
  mkHalowConfig (central_freq r) (bandwidth r) (mcs r) (rf_power r) (rf_super_power r).

Definition halow_config_set_default : halow_config := mkHalowConfig 8645 1 0 14 0.

(** One conditional assignment of the source per line. *)
Definition halow_cfg_sanitize (cfg : halow_config) : halow_config :=
  cfg <| rf_power ::= fun v => if v <? 1 then 1 else v |>
      <| rf_power ::= fun v => if 20 <? v then 20 else v |>
      <| rf_super_power ::= fun v => if negb (v =? 0) && negb (v =? 1) then 0 else v |>
      <| mcs ::= fun v => if (7 <? v) && negb (v =? 10) then 0 else v |>
      <| central_freq ::= fun v => if v <? 7300 then 7300 else v |>
      <| central_freq ::= fun v => if 10800 <? v then 10800 else v |>
      <| bandwidth ::= fun v => if negb (v =? 1) && negb (v =? 2) && negb (v =? 4) && negb (v =? 8)
                                then 1 else v |>.

Section Config.
Context {D : Type} `{Kvdb D}.

(** The database part of [halow_config_save], after [halow_config_apply]. *)
Definition halow_config_save (cfg : halow_config) (d : D) : D :=
  let d := (configdb_set_i8 "cfg.halow.band" (Some (i8 (bandwidth cfg))) d).2 in
  let d := (configdb_set_i8 "cfg.halow.spwr" (Some (i8 (rf_super_power cfg))) d).2 in
  let d := (configdb_set_i8 "cfg.halow.pwr" (Some (i8 (rf_power cfg))) d).2 in
  let d := (configdb_set_i8 "cfg.halow.mcs" (Some (i8 (mcs cfg))) d).2 in
  (configdb_set_i16 "cfg.halow.freq" (Some (i16 (central_freq cfg))) d).2.

Definition halow_config_load (cfg : halow_config) (d : D) : halow_config :=
  cfg <| bandwidth ::= fun v => u8 (configdb_get_i8 "cfg.halow.band" (i8 v) d).2 |>
      <| rf_super_power ::= fun v => u8 (configdb_get_i8 "cfg.halow.spwr" (i8 v) d).2 |>
      <| rf_power ::= fun v => u8 (configdb_get_i8 "cfg.halow.pwr" (i8 v) d).2 |>
      <| mcs ::= fun v => u8 (configdb_get_i8 "cfg.halow.mcs" (i8 v) d).2 |>
      <| central_freq ::= fun v => u16 (configdb_get_i16 "cfg.halow.freq" (i16 v) d).2 |>.

(** The settings part of [halow_init]: what is loaded, cleaned and saved back. *)
Definition halow_init_config (d : D) : halow_config * D :=
  let cfg := halow_cfg_sanitize (halow_config_load halow_config_set_default d) in
  (cfg, halow_config_save cfg d).
End Config.

(** What [halow_config_apply] programs into the modem. *)
Inductive modem_setting :=
  | SetFreq (freq : Z) | SetMcs (mcs : Z) | SetBandwidth (bw : Z)
  | SetTxPower (dbm : Z) | SetSuperPower (on : Z) | ReconfigBarrier.

Definition halow_config_apply (ready : bool) (cfg : halow_config) : list modem_setting :=
  if negb ready then []
  else
    let halow_cfg := halow_cfg_sanitize cfg in
    [ReconfigBarrier; SetFreq (central_freq halow_cfg); SetMcs (mcs halow_cfg);
     SetBandwidth (bandwidth halow_cfg); SetTxPower (rf_power halow_cfg);
     SetSuperPower (rf_super_power halow_cfg)].

(** ** Transmission *)

(** A frame handed to the LMAC: 802.11 header, MSDU, rate and traffic id. *)
Record frame := mkFrame {
  f_hdr : list Z;
  f_payload : list Z;
  f_mcs : Z;
  f_tid : Z;
}.
Definition skb_len (f : frame) : Z := Z.of_nat (length (f_hdr f)) + Z.of_nat (length (f_payload f)).

(** The environment of the transmit path: memory, the LMAC queue, the
    semaphore that TX completions raise, and the configuration store.
    [W] is its state. *)
Class RadioEnv (W : Type) := {
  (** [alloc_tx_skb(need)] returned a buffer *)
  alloc_tx_skb : Z -> W -> bool * W;
  (** [lmac_fast_tx] or [lmac_tx]: 0 when the LMAC took the frame *)
  lmac_tx : frame -> W -> Z * W;
  (** [os_sema_down] with a timeout: its result, and the queued frames (by
      position) that completed while the caller slept *)
  os_sema_down : W -> Z * list nat * W;
  (** [mac_generator_get] *)
  mac_generator_get : W -> list Z * W;
  (** MCS and bandwidth of [halow_config_load] *)
  load_mcs_bw : W -> Z * Z;
}.

Record tx_state (W : Type) := mkTx {
  g_tx_vacated_bytes : Z;
  g_tx_complete_seq : Z;
  g_seq : Z;
  frag_tx_uuid : Z;
  g_tx_may_block : bool;
  cfg_cache_mcs : Z;
  cfg_cache_bw : Z;
  cfg_cache_ok : bool;
  tx_drop_alloc : Z;
  tx_drop_budget : Z;
  tx_drop_lmac : Z;
  tx_mcs_bump : Z;
  tx_drop_oversize : Z;
  (** [halow_lbt_set_tx_as_active] / [..._deactive] *)
  lbt_tx_active : bool;
  (** frames the LMAC holds *)
  lmac_queue : list frame;
  (** every frame the LMAC accepted, oldest first *)
  aired : list frame;
  world : W;
}.
Arguments mkTx {_}.
Arguments g_tx_vacated_bytes {_}. Arguments g_tx_complete_seq {_}. Arguments g_seq {_}.
Arguments frag_tx_uuid {_}. Arguments g_tx_may_block {_}. Arguments cfg_cache_mcs {_}.
Arguments cfg_cache_bw {_}. Arguments cfg_cache_ok {_}. Arguments tx_drop_alloc {_}.
Arguments tx_drop_budget {_}. Arguments tx_drop_lmac {_}. Arguments tx_mcs_bump {_}.
Arguments tx_drop_oversize {_}. Arguments lbt_tx_active {_}. Arguments lmac_queue {_}.
Arguments aired {_}. Arguments world {_}.
#[export] Instance eta_tx W : Eta (tx_state W) := fun r =>
  mkTx (g_tx_vacated_bytes r) (g_tx_complete_seq r) (g_seq r) (frag_tx_uuid r)
    (g_tx_may_block r) (cfg_cache_mcs r) (cfg_cache_bw r) (cfg_cache_ok r) (tx_drop_alloc r)
    (tx_drop_budget r) (tx_drop_lmac r) (tx_mcs_bump r) (tx_drop_oversize r) (lbt_tx_active r)
    (lmac_queue r) (aired r) (world r).

Definition incr32 (n : Z) : Z := u32 (n + 1).

Section Tx.
Context {W : Type} `{RadioEnv W}.
#[local] Abbreviation st := (tx_state W).

(** A call into the environment. *)
Definition ext {A} (f : W -> A * W) : M st A := fun s =>
  let '(a, w) := f (world s) in Some (a, s <| world := w |>).

Definition refund_bytes (len : Z) : M st unit :=
  modify (fun s => s <| g_tx_vacated_bytes ::= fun v => u32 (v + len) |>);;
  v ← gets g_tx_vacated_bytes;
  when (TX_BUFFER_SIZE <=? v)
    (modify (fun s => s <| g_tx_vacated_bytes := TX_BUFFER_SIZE |> <| lbt_tx_active := false |>)).

Definition halow_tx_skb_budget_refund (len : Z) : M st unit := refund_bytes len.

Definition tx_budget_take (len : Z) : M st bool :=
  v ← gets g_tx_vacated_bytes;
  if len <=? v then modify (fun s => s <| g_tx_vacated_bytes := u32 (v - len) |>);; mret true
  else mret false.

(** [skb] is the position of the frame in the LMAC queue; [None] is NULL. *)
Definition halow_tx_skb_complete (skb : option nat) : M st unit :=
  q ← gets lmac_queue;
  match skb ≫= (q !!.) with
  | None => mret tt
  | Some f =>
      modify (fun s => s <| g_tx_complete_seq ::= incr32 |>);;
      refund_bytes (skb_len f);;
      modify (fun s => s <| lmac_queue ::= fun q =>
        match skb with Some i => delete i q | None => q end |>)
  end.

Definition sema_down : M st Z :=
  r ← ext (fun w => os_sema_down w);
  mfor r.2 (fun i => halow_tx_skb_complete (Some i));;
  mret r.1.

(** [tx_budget_wait]: the bounded wait of the data path. *)
Fixpoint wait_loop (n : nat) (len : Z) : M st bool :=
  match n with
  | O => mret false
  | S n =>
      r ← sema_down;
      if r =? 0 then
        ok ← tx_budget_take len;
        if ok : bool then mret true else wait_loop n len
      else wait_loop n len
  end.

Definition tx_budget_wait (len : Z) : M st bool :=
  may ← gets g_tx_may_block;
  if negb may then mret false else wait_loop HALOW_TX_BLOCK_ITERS len.

Definition le16 (v : Z) : list Z := [Z.land v 0xFF; Z.land (Z.shiftr v 8) 0xFF].
Definition mac_bcast : list Z := replicate 6 0xFF.

(** [struct ieee80211_hdr] as the bytes on the air. *)
Definition ieee80211_hdr (frame_control : Z) (addr1 addr2 addr3 : list Z) (seq_ctrl : Z) : list Z :=
  le16 frame_control ++ le16 0 ++ addr1 ++ addr2 ++ addr3 ++ le16 seq_ctrl.

Definition halow_send_frame (payload destination_mac : list Z) (mcs tid : Z) : M st Z :=
  addr2 ← ext (fun w => mac_generator_get w);
  modify (fun s => s <| g_seq ::= fun n => u16 (n + 1) |>);;
  seq ← gets g_seq;
  let hdr := ieee80211_hdr WLAN_FTYPE_DATA mac_bcast addr2 destination_mac
               (u16 (Z.shiftl (Z.land seq 0x0fff) 4)) in
  let skb := mkFrame hdr payload mcs (Z.land tid 7) in
  ok ← ext (fun w => alloc_tx_skb (skb_len skb) w);
  if negb ok then
    modify (fun s => s <| tx_drop_alloc ::= incr32 |>);; mret (-5)
  else
    got ← (ok ← tx_budget_take (skb_len skb);
           if ok : bool then mret true else tx_budget_wait (skb_len skb));
    if negb got then
      modify (fun s => s <| tx_drop_budget ::= incr32 |>);; mret (-6)
    else
      res ← ext (fun w => lmac_tx skb w);
      if negb (res =? 0) then
        halow_tx_skb_budget_refund (skb_len skb);;
        modify (fun s => s <| tx_drop_lmac ::= incr32 |>);;
        mret res
      else
        modify (fun s => s <| lmac_queue ::= fun q => q ++ [skb] |>
                           <| aired ::= fun a => a ++ [skb] |>);;
        modify (fun s => s <| lbt_tx_active := true |>);;
        mret 0.

(** The fragmenting loop: fragments [i, i+1, ..., n-1] of [data] from [off]. *)
Fixpoint frag_loop (k : nat) (i n off : Z) (uuid : Z) (data destination_mac : list Z) (mcs tid : Z)
  : M st Z :=
  match k with
  | O => mret 0
  | S k =>
      let len := Z.of_nat (length data) in
      let chunk := len - off in
      let chunk := if HALOW_FRAG_MAX_PAYLOAD <? chunk then HALOW_FRAG_MAX_PAYLOAD else chunk in
      bytes ← lift (rd_n data off chunk);
      res ← halow_send_frame (frag_payload uuid n i bytes) destination_mac mcs tid;
      if negb (res =? 0) then mret res
      else frag_loop k (u8 (i + 1)) n (off + chunk) uuid data destination_mac mcs tid
  end.

Definition halow_tx_mcs10_frag (data destination_mac : list Z) (mcs tid : Z) : M st Z :=
  let len := Z.of_nat (length data) in
  if HALOW_FRAG_MAX_PAYLOAD * HALOW_FRAG_MAX_TOTAL <? len then
    modify (fun s => s <| tx_drop_alloc ::= incr32 |>);; mret (-4)
  else
    modify (fun s => s <| frag_tx_uuid ::= fun u => u8 (u + 1) |>);;
    uuid ← gets frag_tx_uuid;
    if len <=? HALOW_FRAG_MAX_PAYLOAD then
      halow_send_frame (frag_payload uuid 1 0 data) destination_mac mcs tid
    else
      let n := u8 ((len + HALOW_FRAG_MAX_PAYLOAD - 1) / HALOW_FRAG_MAX_PAYLOAD) in
      frag_loop (Z.to_nat n) 0 n 0 uuid data destination_mac mcs tid.

Definition halow_cfg_mcs_bw_refresh : M st unit :=
  c ← gets (fun s => load_mcs_bw (world s));
  modify (fun s => s <| cfg_cache_mcs := c.1 |> <| cfg_cache_bw := c.2 |> <| cfg_cache_ok := true |>).

Definition halow_cfg_mcs_bw_cached : M st (Z * Z) :=
  ok ← gets cfg_cache_ok;
  when (negb ok) halow_cfg_mcs_bw_refresh;;
  gets (fun s => (cfg_cache_mcs s, cfg_cache_bw s)).

Definition max_msdu (bw_idx mcs : Z) : option Z := row ← rd halow_max_msdu bw_idx; rd row mcs.

(** The loop over the faster rates. *)
Fixpoint fit_loop (k : nat) (bw_idx m len : Z) : M st Z :=
  match k with
  | O => mret HALOW_MCS_DEFAULT
  | S k =>
      if m <=? 7 then
        cap ← lift (max_msdu bw_idx m);
        if u32 (len + 32) <=? cap then
          modify (fun s => s <| tx_mcs_bump ::= incr32 |>);; mret m
        else fit_loop k bw_idx (u8 (m + 1)) len
      else mret HALOW_MCS_DEFAULT
  end.

Definition mcs_fit_len (mcs len : Z) : M st Z :=
  cfg ← halow_cfg_mcs_bw_cached;
  let bw_idx := halow_bw_index cfg.2 in
  cap ← lift (max_msdu bw_idx mcs);
  if u32 (len + 32) <=? cap then mret mcs
  else fit_loop 8 bw_idx (u8 (mcs + 1)) len.

(** [data = None] is NULL, [ready] is [g_ops != NULL]. *)
Definition halow_tx_p (ready : bool) (data : option (list Z)) (destination_mac : list Z)
    (mcs tid : Z) : M st Z :=
  if negb ready then mret (-1)
  else match data with
  | None => mret (-2)
  | Some data =>
      let len := Z.of_nat (length data) in
      if len =? 0 then mret (-3)
      else if TX_BUFFER_SIZE <? len then mret (-4)
      else
        mcs ← (if (mcs =? HALOW_MCS_DEFAULT) || ((7 <? mcs) && negb (mcs =? 10))
               then c ← halow_cfg_mcs_bw_cached; mret c.1 else mret mcs);
        if mcs =? 10 then halow_tx_mcs10_frag data destination_mac mcs tid
        else
          mcs ← mcs_fit_len mcs len;
          if mcs =? HALOW_MCS_DEFAULT then
            modify (fun s => s <| tx_drop_oversize ::= incr32 |>);; mret (-4)
          else halow_send_frame data destination_mac mcs tid
  end.

Definition halow_tx (ready : bool) (data : option (list Z)) (destination_mac : list Z) (mcs : Z)
  : M st Z := halow_tx_p ready data destination_mac mcs 0.

Definition halow_cfg_mcs_get_cached : M st Z := c ← halow_cfg_mcs_bw_cached; mret c.1.

Definition halow_get_mtu (mcs : Z) : M st Z :=
  c ← halow_cfg_mcs_bw_cached;
  if mcs =? 10 then mret HALOW_MCS10_MAX_MSDU
  else lift (max_msdu (halow_bw_index c.2) mcs).

Definition halow_get_tx_vacancy : M st Z := gets g_tx_vacated_bytes.
Definition halow_tx_may_block_set (ok : bool) : M st unit :=
  modify (fun s => s <| g_tx_may_block := ok |>).
End Tx.

(** ** The TX byte budget *)

Definition queued_bytes (q : list frame) : Z := foldr (fun f n => skb_len f + n) 0 q.

Lemma skb_len_nonneg f : 0 <= skb_len f.
Proof. unfold skb_len. lia. Qed.
Lemma queued_cons f q : queued_bytes (f :: q) = skb_len f + queued_bytes q.
Proof. done. Qed.
Lemma queued_nonneg q : 0 <= queued_bytes q.
Proof. induction q as [|f q IH]; [done|]. rewrite queued_cons. pose proof (skb_len_nonneg f). lia. Qed.
Lemma queued_app q f : queued_bytes (q ++ [f]) = queued_bytes q + skb_len f.
Proof.
  induction q as [|g q IH]; cbn [app]; rewrite ?queued_cons; [change (queued_bytes []) with 0|]; lia.
Qed.
Lemma queued_delete q i f : q !! i = Some f -> queued_bytes (delete i q) + skb_len f = queued_bytes q.
Proof.
  revert i. induction q as [|g q IH]; intros [|i] Hi; [done|done|..].
  - injection Hi as ->. change (delete 0%nat (f :: q)) with q. rewrite queued_cons. lia.
  - change (delete (S i) (g :: q)) with (g :: delete i q). rewrite !queued_cons. specialize (IH i Hi). lia.
Qed.

Section TxProofs.
Context {W : Type} `{RadioEnv W}.
#[local] Abbreviation st := (tx_state W).

(** [owed] bytes are taken from the budget for a frame not yet queued. *)
Definition budget_is (owed : Z) (s : st) : Prop :=
  0 <= owed /\ 0 <= g_tx_vacated_bytes s /\
  g_tx_vacated_bytes s + queued_bytes (lmac_queue s) + owed = TX_BUFFER_SIZE.
Definition budget_ok (s : st) : Prop := budget_is 0 s.

(** The transmit path's bookkeeping that a call leaves alone. *)
Definition same_rest (s s' : st) : Prop :=
  aired s' = aired s /\ frag_tx_uuid s' = frag_tx_uuid s /\ cfg_cache_mcs s' = cfg_cache_mcs s /\
  cfg_cache_bw s' = cfg_cache_bw s /\ cfg_cache_ok s' = cfg_cache_ok s.

Lemma same_rest_refl s : same_rest s s.
Proof. done. Qed.
Lemma same_rest_trans s1 s2 s3 : same_rest s1 s2 -> same_rest s2 s3 -> same_rest s1 s3.
Proof. unfold same_rest. intros (? & ? & ? & ? & ?) (? & ? & ? & ? & ?). split_and!; congruence. Qed.

Ltac budget := unfold budget_is, TX_BUFFER_SIZE in *; rsimpl;
  repeat match goal with |- context [queued_bytes ?q] =>
    lazymatch goal with _ : 0 <= queued_bytes q |- _ => fail
    | _ => pose proof (queued_nonneg q) end end.

Lemma refund_spec len owed s :
  budget_is (owed + len) s -> 0 <= len -> 0 <= owed ->
  wp (refund_bytes len) (fun _ s' => budget_is owed s' /\ lmac_queue s' = lmac_queue s /\ same_rest s s') s.
Proof.
  intros Hb Hl Ho. unfold refund_bytes.
  pose proof (queued_nonneg (lmac_queue s)) as Hq.
  assert (u32 (g_tx_vacated_bytes s + len) = g_tx_vacated_bytes s + len) as Hu.
  { apply u32_small. unfold budget_is, TX_BUFFER_SIZE in Hb. word_lia. }
  wp_steps; rsimpl; rewrite Hu in *; (split; [|done]).
  - bools_to_props. budget. lia.
  - budget. lia.
Qed.

Lemma take_spec len owed s :
  budget_is owed s -> 0 <= len ->
  wp (tx_budget_take len) (fun ok s' => budget_is (if ok then owed + len else owed) s' /\
        lmac_queue s' = lmac_queue s /\ same_rest s s') s.
Proof.
  intros Hb Hl. unfold tx_budget_take. wp_steps; rsimpl; [|done]. split; [|done].
  bools_to_props. pose proof (queued_nonneg (lmac_queue s)) as Hq.
  unfold budget_is, TX_BUFFER_SIZE in *. rsimpl. rewrite u32_small by word_lia. lia.
Qed.

Lemma complete_spec i owed s :
  budget_is owed s ->
  wp (halow_tx_skb_complete i) (fun _ s' => budget_is owed s' /\ same_rest s s') s.
Proof.
  intros Hb. unfold halow_tx_skb_complete. wp_step. wp_step.
  destruct i as [i|]; cbn [mbind option_bind]; [|by apply wp_ret].
  destruct (lmac_queue s !! i) as [f|] eqn:Hf; [|by apply wp_ret].
  pose proof (queued_delete _ _ _ Hf) as Hd. pose proof (skb_len_nonneg f) as Hn.
  set (s1 := s <| g_tx_complete_seq ::= incr32 |> <| lmac_queue ::= delete i |>).
  assert (budget_is (owed + skb_len f) s1) as Hb1 by (subst s1; budget; lia).
  wp_step. wp_step. wp_step.
  pose proof (refund_spec (skb_len f) owed s1 Hb1 Hn ltac:(apply Hb)) as Hr.
  unfold refund_bytes in Hr |- *. unfold wp in Hr |- *.
  cbn [mbind M_bind modify gets when] in Hr |- *. subst s1. rsimpl.
  revert Hr. unfold mbind, M_bind, gets, modify. rsimpl.
  set (v := u32 (g_tx_vacated_bytes s + skb_len f)).
  destruct (TX_BUFFER_SIZE <=? v); cbn [when]; unfold modify, mret, M_ret; rsimpl; intros (Hr & _ & Hs); split;
    solve [exact Hr | exact Hs].
Qed.

Lemma sema_down_spec owed s :
  budget_is owed s -> wp sema_down (fun _ s' => budget_is owed s' /\ same_rest s s') s.
Proof.
  intros Hb. unfold sema_down. wp_step. unfold ext, wp at 1. destruct (os_sema_down _) as [[r l] w].
  wp_step. apply (wp_mfor _ _ (fun s' => budget_is owed s' /\ same_rest s s')).
  - done.
  - intros i s' _ [Hb' Hs']. eapply wp_mono; [by apply complete_spec|]. cbv beta.
    intros _ s2 [Hb2 Hs2]. split; [done|]. by eapply same_rest_trans.
  - intros s' Hs'. by apply wp_ret.
Qed.

Lemma wait_loop_spec n len : forall owed s,
  budget_is owed s -> 0 <= len ->
  wp (wait_loop n len) (fun ok s' => budget_is (if ok then owed + len else owed) s' /\ same_rest s s') s.
Proof.
  induction n as [|n IH]; intros owed s Hb Hl; cbn [wait_loop]; [by apply wp_ret|].
  assert (Hgo : forall s1, budget_is owed s1 -> same_rest s s1 ->
    wp (wait_loop n len) (fun ok s' => budget_is (if ok then owed + len else owed) s' /\ same_rest s s') s1).
  { intros s1 Hb1 Hs1. eapply wp_mono; [by apply (IH owed)|]. cbv beta. intros ok s2 [Hb2 Hs2].
    split; [done|]. by eapply same_rest_trans. }
  wp_step. eapply wp_mono; [by apply sema_down_spec|]. cbv beta. intros r s1 [Hb1 Hs1].
  wp_step; [|by apply Hgo]. wp_step. eapply wp_mono; [by apply take_spec|]. cbv beta.
  intros [] s2 (Hb2 & _ & Hs2).
  - apply wp_ret. split; [done|]. by eapply same_rest_trans.
  - apply Hgo; [done|]. by eapply same_rest_trans.
Qed.

Lemma obtain_budget_spec len s :
  budget_ok s -> 0 <= len ->
  wp (ok ← tx_budget_take len; if ok : bool then mret true else tx_budget_wait len)
     (fun ok s' => budget_is (if ok then len else 0) s' /\ same_rest s s') s.
Proof.
  intros Hb Hl. wp_step. eapply wp_mono; [by apply take_spec|]. cbv beta.
  intros [] s1 (Hb1 & _ & Hs1); [apply wp_ret; by split|].
  unfold tx_budget_wait. wp_step. wp_step. wp_step; [apply wp_ret; by split|].
  eapply wp_mono; [by apply wait_loop_spec|]. cbv beta. intros ok s2 [Hb2 Hs2]. split.
  - by destruct ok.
  - by eapply same_rest_trans.
Qed.

(** A frame as [halow_send_frame] builds it. *)
Definition frame_for (payload dest : list Z) (mcs tid : Z) (f : frame) : Prop :=
  f_payload f = payload /\ f_mcs f = mcs /\ f_tid f = Z.land tid 7 /\
  exists addr2 seq, f_hdr f = ieee80211_hdr WLAN_FTYPE_DATA mac_bcast addr2 dest seq /\
    exists w, addr2 = (mac_generator_get w).1.

(** The configuration cache is untouched and the budget balanced. *)
Definition cfg_same (s s' : st) : Prop :=
  cfg_cache_mcs s' = cfg_cache_mcs s /\ cfg_cache_bw s' = cfg_cache_bw s /\
  cfg_cache_ok s' = cfg_cache_ok s.

(** Sending one MSDU: accepted by the LMAC and accounted, or not at all. *)
Lemma send_frame_spec payload dest mcs tid s :
  budget_ok s ->
  wp (halow_send_frame payload dest mcs tid)
     (fun r s' => budget_ok s' /\ cfg_same s s' /\ frag_tx_uuid s' = frag_tx_uuid s /\
        (r = 0 /\ (exists f, aired s' = aired s ++ [f] /\ frame_for payload dest mcs tid f) \/
         r <> 0 /\ aired s' = aired s)) s.
Proof.
  intros Hb. unfold halow_send_frame. wp_step. unfold ext, wp at 1.
  destruct (mac_generator_get (world s)) as [addr2 w] eqn:Hmac. wp_step. wp_step. wp_step. wp_step.
  rsimpl. cbv zeta. set (hdr := ieee80211_hdr _ _ _ _ _).
  set (f := mkFrame hdr payload mcs (Z.land tid 7)).
  wp_step. unfold ext, wp at 1. rsimpl. destruct (alloc_tx_skb (skb_len f) w) as [ok w2].
  set (s2 := s <| world := w |> <| g_seq ::= _ |> <| world := w2 |>).
  assert (Hs2 : budget_ok s2 /\ same_rest s s2) by (subst s2; split; done).
  destruct Hs2 as [Hb2 Hr2]. clearbody s2. pose proof (skb_len_nonneg f) as Hlen.
  wp_step; [wp_steps; split; [done|]; split; [apply Hr2|]; split; [apply Hr2|]; right;
            split; [done|]; rsimpl; apply Hr2|].
  wp_step. eapply wp_mono; [by apply obtain_budget_spec|]. cbv beta. intros got s3 [Hb3 Hr3].
  assert (Hr : same_rest s s3) by by eapply same_rest_trans. clear Hr2 Hr3 Hb2 s2.
  destruct got; cbn [negb].
  2:{ wp_steps; split; [done|]; split; [apply Hr|]; split; [apply Hr|]; right.
      split; [done|]; rsimpl; apply Hr. }
  wp_step. unfold ext, wp at 1. destruct (lmac_tx f (world s3)) as [res w3].
  destruct Hr as (Ha & Hu & Hc1 & Hc2 & Hc3). wp_step.
  - wp_step. unfold halow_tx_skb_budget_refund.
    eapply wp_mono; [by apply (refund_spec (skb_len f) 0)|]. cbv beta.
    intros _ s4 (Hb4 & _ & (Ha4 & Hu4 & Hc4 & Hc5 & Hc6)). rsimpl. wp_steps; rsimpl.
    split; [done|]. unfold cfg_same. rsimpl. split_and!; try congruence. right.
    split; [by bools_to_props|]. rsimpl. congruence.
  - wp_steps. split; [|split; [|split]]; rsimpl.
    + unfold budget_ok, budget_is in *. rsimpl. rewrite queued_app. lia.
    + done.
    + done.
    + left. split; [done|]. exists f. rsimpl. rewrite Ha. split; [done|].
      split_and!; try done. exists addr2. eexists. split; [done|]. exists (world s). by rewrite Hmac.
Qed.

Definition mcs_valid (m : Z) : Prop := 0 <= m <= 7 \/ m = 10.

(** The configured rate and bandwidth as the transmit path sees them. *)
Definition eff_cfg (s : st) : Z * Z :=
  if cfg_cache_ok s then (cfg_cache_mcs s, cfg_cache_bw s) else load_mcs_bw (world s).

Lemma cached_spec s :
  wp halow_cfg_mcs_bw_cached (fun c s' => c = eff_cfg s /\ eff_cfg s' = eff_cfg s /\
    (forall owed, budget_is owed s -> budget_is owed s') /\ aired s' = aired s /\
    frag_tx_uuid s' = frag_tx_uuid s) s.
Proof.
  unfold halow_cfg_mcs_bw_cached, halow_cfg_mcs_bw_refresh, eff_cfg.
  destruct (cfg_cache_ok s) eqn:Hok; wp_steps; rewrite ?Hok in *; try done; rsimpl.
  destruct (load_mcs_bw (world s)). done.
Qed.

(** An MSDU of [len] bytes fits the rate [m] at bandwidth [bw]. *)
Definition fits (bw m len : Z) : Prop := exists cap, max_msdu (halow_bw_index bw) m = Some cap /\ len + 32 <= cap.

Lemma bw_index_range bw : 0 <= halow_bw_index bw < 4.
Proof. unfold halow_bw_index. repeat z_case; lia. Qed.

Lemma max_msdu_some bw m : 0 <= m <= 7 -> exists cap, max_msdu (halow_bw_index bw) m = Some cap.
Proof.
  intros Hm. pose proof (bw_index_range bw) as Hb. unfold max_msdu.
  destruct (rd_in_bounds halow_max_msdu (halow_bw_index bw)) as (row & Hrow & Hlk); [cbn; lia|].
  rewrite Hrow. cbn [mbind option_bind].
  assert (length row = 8%nat) as Hl.
  { eapply (Forall_lookup_1 (fun r => length r = 8%nat)); [|exact Hlk]. repeat constructor. }
  destruct (rd_in_bounds row m) as (cap & Hc & _); [lia|]. eauto.
Qed.

Lemma fit_loop_spec k bw len : forall m s,
  0 <= m -> m + Z.of_nat k >= 8 -> m <= 8 -> 0 <= len <= TX_BUFFER_SIZE ->
  wp (fit_loop k (halow_bw_index bw) m len)
     (fun r s' => (r = HALOW_MCS_DEFAULT /\ (forall j, m <= j <= 7 -> ~ fits bw j len) \/
                   m <= r <= 7 /\ fits bw r len /\ (forall j, m <= j < r -> ~ fits bw j len)) /\
        (forall owed, budget_is owed s -> budget_is owed s') /\ eff_cfg s' = eff_cfg s /\
        aired s' = aired s) s.
Proof.
  unfold TX_BUFFER_SIZE. induction k as [|k IH]; intros m s Hm Hk H8 Hl; cbn [fit_loop].
  { apply wp_ret. split; [|done]. left. split; [done|]. lia. }
  wp_step. 2:{ apply wp_ret. split; [|done]. left. split; [done|]. bools_to_props. lia. }
  bools_to_props. destruct (max_msdu_some bw m) as [cap Hcap]; [lia|].
  wp_step. eapply wp_lift; [exact Hcap|]. rewrite u32_small by word_lia. wp_step; bools_to_props.
  - wp_steps. split; [|done]. right. split; [lia|]. split; [by exists cap|]. lia.
  - rewrite u8_small by word_lia. eapply wp_mono; [apply IH; lia|]. cbv beta.
    assert (Hno : ~ fits bw m len) by (intros (c & Hc & Hle); rewrite Hcap in Hc; simplify_eq; lia).
    intros r s' (Hr & Hrest). split; [|done]. destruct Hr as [[-> Hf]|(Hr & Hf & Hmin)].
    + left. split; [done|]. intros j Hj. destruct (decide (j = m)) as [->|]; [done|apply Hf; lia].
    + right. split; [lia|]. split; [done|]. intros j Hj.
      destruct (decide (j = m)) as [->|]; [done|apply Hmin; lia].
Qed.

(** The chosen rate is the slowest one from [m] up that carries the MSDU. *)
Lemma mcs_fit_len_spec m len s :
  0 <= m <= 7 -> 0 <= len <= TX_BUFFER_SIZE ->
  wp (mcs_fit_len m len)
     (fun r s' => (r = HALOW_MCS_DEFAULT /\ (forall j, m <= j <= 7 -> ~ fits (eff_cfg s).2 j len) \/
                   m <= r <= 7 /\ fits (eff_cfg s).2 r len /\
                   (forall j, m <= j < r -> ~ fits (eff_cfg s).2 j len)) /\
        (forall owed, budget_is owed s -> budget_is owed s') /\ eff_cfg s' = eff_cfg s /\
        aired s' = aired s) s.
Proof.
  intros Hm Hl. unfold mcs_fit_len. wp_step. eapply wp_mono; [apply cached_spec|]. cbv beta.
  intros c s1 (-> & He & Hb & Ha & _). cbv zeta. destruct (max_msdu_some (eff_cfg s).2 m Hm) as [cap Hcap].
  wp_step. eapply wp_lift; [exact Hcap|]. rewrite u32_small by (unfold TX_BUFFER_SIZE in *; word_lia).
  wp_step; bools_to_props.
  - apply wp_ret. split; [|done]. right. split; [lia|]. split; [by exists cap|]. lia.
  - rewrite u8_small by word_lia. eapply wp_mono; [apply fit_loop_spec; lia|]. cbv beta.
    assert (Hno : ~ fits (eff_cfg s).2 m len) by (intros (c & Hc & Hle); rewrite Hcap in Hc; simplify_eq; lia).
    intros r s' (Hr & Hb' & He' & Ha'). split; [|split_and!; [by eauto|congruence|congruence]].
    destruct Hr as [[-> Hf]|(Hr & Hf & Hmin)].
    + left. split; [done|]. intros j Hj. destruct (decide (j = m)) as [->|]; [done|apply Hf; lia].
    + right. split; [lia|]. split; [done|]. intros j Hj.
      destruct (decide (j = m)) as [->|]; [done|apply Hmin; lia].
Qed.

(** ** Fragmentation *)

(** The pieces of [data] from [off] on, 300 bytes each. *)
Fixpoint chunks (k : nat) (off : nat) (data : list Z) : list (list Z) :=
  match k with
  | O => []
  | S k => take 300 (drop off data) :: chunks k (off + 300) data
  end.
Fixpoint frag_msgs (n uuid i : Z) (cs : list (list Z)) : list (list Z) :=
  match cs with
  | [] => []
  | c :: cs => frag_payload uuid n i c :: frag_msgs n uuid (i + 1) cs
  end.

(** Frames carrying the payloads [ps], in order. *)
Definition carries (dest : list Z) (mcs tid : Z) (fs : list frame) (ps : list (list Z)) : Prop :=
  Forall2 (fun f p => frame_for p dest mcs tid f) fs ps.

Lemma frag_loop_spec k n uuid data dest mcs tid : forall i off s,
  budget_ok s -> 0 <= i -> i + Z.of_nat k <= 8 -> Z.of_nat off + 300 * (Z.of_nat k - 1) <= Z.of_nat (length data) ->
  wp (frag_loop k i n (Z.of_nat off) uuid data dest mcs tid)
     (fun r s' => budget_ok s' /\ cfg_same s s' /\ frag_tx_uuid s' = frag_tx_uuid s /\
        exists fs j, aired s' = aired s ++ fs /\
          carries dest mcs tid fs (take j (frag_msgs n uuid i (chunks k off data))) /\
          (r = 0 -> j = k)) s.
Proof.
  induction k as [|k IH]; intros i off s Hb Hi H8 Hoff; cbn [frag_loop chunks frag_msgs].
  { apply wp_ret. split_and!; try done. exists [], 0%nat. rewrite app_nil_r. split_and!; [done|constructor|done]. }
  cbv zeta. set (chunk := if _ <? _ then _ else _).
  assert (Hc : 0 <= chunk <= 300 /\ Z.of_nat off + chunk <= Z.of_nat (length data) /\
               take (Z.to_nat chunk) (drop off data) = take 300 (drop off data) /\
               (k <> 0%nat -> chunk = 300)).
  { subst chunk. unfold HALOW_FRAG_MAX_PAYLOAD. z_case; (split; [lia|]); (split; [lia|]).
    - split; [done|lia].
    - split; [|lia]. rewrite (firstn_all2 (n := 300)), firstn_all2; [done|rewrite length_drop; lia..]. }
  destruct Hc as (Hc1 & Hc2 & Hc3 & Hc4).
  wp_step. eapply wp_lift; [apply rd_n_in_bounds; lia|]. rewrite Nat2Z.id, Hc3.
  wp_step. eapply wp_mono; [by apply send_frame_spec|]. cbv beta.
  intros r s1 (Hb1 & Hc & Hu & [[-> (f & Ha & Hf)]|[Hr Ha]]).
  - change (negb (0 =? 0)) with false. cbv iota. destruct k as [|k'].
    { cbn [frag_loop]. apply wp_ret. split_and!; try done. exists [f], 1%nat. split; [done|].
      split; [|done]. by constructor. }
    rewrite (Hc4 ltac:(done)). rewrite u8_small by word_lia.
    replace (Z.of_nat off + 300) with (Z.of_nat (off + 300)) by lia.
    eapply wp_mono; [apply IH; [done|lia|lia|lia]|]. cbv beta.
    intros r s2 (Hb2 & Hc' & Hu' & fs & j & Ha2 & Hfs & Hj). unfold cfg_same in *.
    split; [done|]. split; [destruct Hc as (? & ? & ?), Hc' as (? & ? & ?); split_and!; congruence|].
    split; [congruence|].
    exists (f :: fs), (S j). split; [rewrite Ha2, Ha, <-app_assoc; done|].
    split; [by constructor|]. intros ->. by rewrite Hj.
  - rewrite (proj2 (Z.eqb_neq r 0) Hr). cbn [negb]. apply wp_ret. split_and!; try done.
    exists [], 0%nat. rewrite app_nil_r. split; [done|]. split; [constructor|done].
Qed.

(** The payloads [halow_tx_mcs10_frag] puts on the air for [data]. *)
Definition frag_payloads (uuid : Z) (data : list Z) : list (list Z) :=
  let len := Z.of_nat (length data) in
  if len <=? 300 then [frag_payload uuid 1 0 data]
  else let n := (len + 299) / 300 in frag_msgs n uuid 0 (chunks (Z.to_nat n) 0 data).

Lemma tx_mcs10_spec data dest mcs tid s :
  budget_ok s -> 0 < Z.of_nat (length data) ->
  wp (halow_tx_mcs10_frag data dest mcs tid)
     (fun r s' => budget_ok s' /\ cfg_same s s' /\
        exists fs j, aired s' = aired s ++ fs /\
          carries dest mcs tid fs (take j (frag_payloads (u8 (frag_tx_uuid s + 1)) data)) /\
          (r = 0 -> fs <> [] /\ Z.of_nat (length data) <= 2400 /\
                    carries dest mcs tid fs (frag_payloads (u8 (frag_tx_uuid s + 1)) data))) s.
Proof.
  intros Hb Hlen. unfold halow_tx_mcs10_frag, HALOW_FRAG_MAX_TOTAL. cbv zeta.
  unfold frag_payloads. cbv zeta. change HALOW_FRAG_MAX_PAYLOAD with 300. set (uuid := u8 (frag_tx_uuid s + 1)).
  wp_step.
  { wp_steps. split_and!; try done. exists [], 0%nat. rsimpl. rewrite app_nil_r. split; [done|].
    split; [constructor|done]. }
  bools_to_props. set (s0 := s <| frag_tx_uuid ::= fun u => u8 (u + 1) |>).
  assert (Hb0 : budget_ok s0) by done. wp_step. wp_step. wp_step. wp_step. rsimpl.
  wp_step; bools_to_props.
  - eapply wp_mono; [by apply send_frame_spec|]. cbv beta.
    intros r s1 (Hb1 & Hc & Hu & [[-> (f & Ha & Hf)]|[Hr Ha]]); split_and!; try done.
    + exists [f], 1%nat. assert (carries dest mcs tid [f] [frag_payload uuid 1 0 data]) by by constructor.
      split_and!; try done.
    + exists [], 0%nat. rewrite app_nil_r. split; [done|]. split; [constructor|done].
  - replace (Z.of_nat (length data) + 300 - 1) with (Z.of_nat (length data) + 299) by lia.
    set (n := (Z.of_nat (length data) + 299) / 300).
    assert (Hn : 2 <= n <= 8 /\ 300 * (n - 1) < Z.of_nat (length data) <= 300 * n).
    { subst n. Z.to_euclidean_division_equations; lia. }
    rewrite u8_small by word_lia.
    eapply wp_mono; [apply (frag_loop_spec (Z.to_nat n) n uuid data dest mcs tid 0 0); [done|lia|lia|lia]|].
    cbv beta. intros r s2 (Hb2 & Hc & Hu & fs & j & Ha & Hfs & Hj). split_and!; try done.
    exists fs, j. split_and!; try done. intros Hr. specialize (Hj Hr). subst j.
    assert (Htk : take (Z.to_nat n) (frag_msgs n uuid 0 (chunks (Z.to_nat n) 0 data))
                  = frag_msgs n uuid 0 (chunks (Z.to_nat n) 0 data)).
    { apply firstn_all2. clear. generalize 0%nat as off, 0 as i. induction (Z.to_nat n) as [|k IH];
        intros off i; cbn; [lia|]. specialize (IH (off + 300)%nat (i + 1)). lia. }
    rewrite Htk in Hfs. split_and!; [|lia|done]. intros ->.
    apply Forall2_length in Hfs. destruct (Z.to_nat n) eqn:E; [lia|]. cbn in Hfs. done.
Qed.

(** ** The public send operation *)

(** What [halow_tx_p] may do with a request that passed its guards. [m] is the
    effective rate, [bw] the configured bandwidth. *)
Definition tx_outcome (data dest : list Z) (m bw tid : Z) (s : st) (r : Z) (s' : st) : Prop :=
  if m =? 10 then
    (* fragments: an initial segment of the message, all of it on success *)
    exists fs j, aired s' = aired s ++ fs /\
      carries dest 10 tid fs (take j (frag_payloads (u8 (frag_tx_uuid s + 1)) data)) /\
      (r = 0 -> carries dest 10 tid fs (frag_payloads (u8 (frag_tx_uuid s + 1)) data))
  else
    let len := Z.of_nat (length data) in
    (* one frame at the slowest sufficient rate, or nothing *)
    (r = 0 /\ exists f, aired s' = aired s ++ [f] /\ frame_for data dest (f_mcs f) tid f /\
       m <= f_mcs f <= 7 /\ fits bw (f_mcs f) len /\ (forall j, m <= j < f_mcs f -> ~ fits bw j len)) \/
    (r <> 0 /\ aired s' = aired s /\ ((forall j, m <= j <= 7 -> ~ fits bw j len) -> r = -4)).

Definition effective_mcs (mcs : Z) (s : st) : Z :=
  if (mcs =? HALOW_MCS_DEFAULT) || ((7 <? mcs) && negb (mcs =? 10)) then (eff_cfg s).1 else mcs.

Definition cfg_valid (s : st) : Prop := cfg_cache_ok s = true -> mcs_valid (cfg_cache_mcs s).
Definition tx_inv (s : st) : Prop := budget_ok s /\ cfg_valid s.

Lemma cfg_valid_eff s : mcs_valid (eff_cfg s).1 -> cfg_valid s.
Proof. unfold eff_cfg, cfg_valid. by destruct (cfg_cache_ok s). Qed.
Lemma cfg_valid_same s s' : cfg_same s s' -> cfg_valid s -> cfg_valid s'.
Proof. unfold cfg_valid. by intros (-> & _ & ->). Qed.
Lemma eff_cfg_valid s : (forall w, mcs_valid (load_mcs_bw w).1) -> tx_inv s -> mcs_valid (eff_cfg s).1.
Proof. intros Hl [_ Hc]. unfold eff_cfg. destruct (cfg_cache_ok s) eqn:E; [by apply Hc|apply Hl]. Qed.

Lemma halow_tx_p_ready data dest m tid s :
  budget_ok s -> mcs_valid (eff_cfg s).1 -> 0 <= m < 256 ->
  0 < Z.of_nat (length data) <= TX_BUFFER_SIZE ->
  wp (halow_tx_p true (Some data) dest m tid)
     (fun r s' => tx_inv s' /\
        tx_outcome data dest (effective_mcs m s) (eff_cfg s).2 tid s r s') s.
Proof.
  intros Hb Hcfg Hm Hlen. unfold halow_tx_p. cbn [negb]. cbv zeta.
  rewrite (proj2 (Z.eqb_neq _ 0)) by lia. rewrite (proj2 (Z.ltb_ge TX_BUFFER_SIZE _)) by lia.
  wp_step.
  assert (Hmcs : wp (if (m =? HALOW_MCS_DEFAULT) || ((7 <? m) && negb (m =? 10))
                     then c ← halow_cfg_mcs_bw_cached; mret c.1 else mret m)
    (fun r s' => r = effective_mcs m s /\ mcs_valid r /\ budget_ok s' /\ eff_cfg s' = eff_cfg s /\
        aired s' = aired s /\ frag_tx_uuid s' = frag_tx_uuid s) s).
  { unfold effective_mcs. destruct (_ || _) eqn:Hd.
    - wp_step. eapply wp_mono; [apply cached_spec|]. cbv beta. intros c s1 (-> & He & Hbb & Ha & Hu).
      apply wp_ret. split_and!; try done. by apply Hbb.
    - apply wp_ret. split_and!; try done. unfold mcs_valid, HALOW_MCS_DEFAULT in *.
      apply orb_false_iff in Hd as [Hd1 [Hd2|Hd2]%andb_false_iff]; bools_to_props; lia. }
  eapply wp_mono; [exact Hmcs|]. cbv beta. intros m' s1 (-> & Hv & Hb1 & He1 & Ha1 & Hu1).
  clear Hmcs. assert (Hc1 : cfg_valid s1) by (apply (cfg_valid_eff s1); by rewrite He1). unfold tx_outcome. set (m' := effective_mcs m s) in *. destruct (Z.eqb_spec m' 10) as [E|E].
  - rewrite E. eapply wp_mono; [apply tx_mcs10_spec; [done|lia]|]. cbv beta.
    intros r s2 (Hb2 & Hsame & fs & j & Ha2 & Hc & Hr).
    split; [split; [done|by apply (cfg_valid_same s1)]|]. exists fs, j.
    rewrite Hu1 in *. split_and!; [congruence|done|]. intros Hr0. by apply Hr.
  - assert (0 <= m' <= 7) as Hm' by (unfold mcs_valid in Hv; lia). wp_step.
    eapply wp_mono; [apply mcs_fit_len_spec; [done|lia]|]. cbv beta. rewrite He1.
    intros r s2 (Hr & Hb2 & He2 & Ha2).
    assert (Hc2 : cfg_valid s2) by (apply (cfg_valid_eff s2); by rewrite He2).
    wp_step; bools_to_props.
    + wp_steps. split; [split; rsimpl; [by apply Hb2|done]|]. right. split; [done|]. split; [rsimpl; congruence|done].
    + destruct Hr as [[? _]|(Hr & Hf & Hmin)]; [done|].
      eapply wp_mono; [by apply send_frame_spec, Hb2|]. cbv beta.
      intros r' s3 (Hb3 & Hsame & _ & [[-> (f & Ha & Hff)]|[Hr' Ha]]);
        (split; [split; [done|by apply (cfg_valid_same s2)]|]).
      * left. split; [done|]. exists f. destruct Hff as (Hp & Hfm & Ht & Hh). rewrite Hfm.
        split_and!; try done; [congruence|lia|lia].
      * right. split; [done|]. split; [congruence|]. intros Hno. destruct (Hno r); [lia|done].
Qed.

(** Operations on the transmit path, in any order. *)
Inductive tx_op :=
  | OpTx (ready : bool) (data : option (list Z)) (dest : list Z) (mcs tid : Z)
  | OpComplete (skb : option nat)
  | OpRefresh
  | OpMayBlock (ok : bool).

Definition tx_step (op : tx_op) : M st unit :=
  match op with
  | OpTx ready data dest mcs tid => halow_tx_p ready data dest mcs tid;; mret tt
  | OpComplete skb => halow_tx_skb_complete skb
  | OpRefresh => halow_cfg_mcs_bw_refresh
  | OpMayBlock ok => halow_tx_may_block_set ok
  end.

Definition op_ok (op : tx_op) : Prop :=
  match op with OpTx _ _ _ mcs _ => is_u8 mcs | _ => True end.


Lemma tx_step_inv op s :
  (forall w, mcs_valid (load_mcs_bw w).1) -> op_ok op -> tx_inv s -> wp (tx_step op) (fun _ => tx_inv) s.
Proof.
  intros Hl Hop Hinv. pose proof Hinv as [Hb Hc].
  destruct op as [ready data dest m tid|skb| |ok]; cbn [tx_step op_ok] in *.
  - wp_step. assert (Hret : forall r, wp (mret r) (fun _ : Z => tx_inv) s) by (intros; by apply wp_ret).
    apply (wp_mono _ (fun _ => tx_inv)); [|by intros; apply wp_ret].
    unfold halow_tx_p. destruct ready; cbn [negb]; [|done]. destruct data as [data|]; [|done].
    cbv zeta. destruct (Z.eqb_spec (Z.of_nat (length data)) 0); [done|].
    destruct (Z.ltb_spec TX_BUFFER_SIZE (Z.of_nat (length data))) as [|Hle]; [done|].
    pose proof (halow_tx_p_ready data dest m tid s Hb (eff_cfg_valid s Hl Hinv) Hop ltac:(lia)) as Hw.
    unfold halow_tx_p in Hw. cbn [negb] in Hw. cbv zeta in Hw.
    rewrite (proj2 (Z.eqb_neq _ 0)) in Hw by done. rewrite (proj2 (Z.ltb_ge TX_BUFFER_SIZE _)) in Hw by lia.
    eapply wp_mono; [exact Hw|]. by intros r s' [? _].
  - eapply wp_mono; [by apply (complete_spec skb 0)|]. intros _ s' [Hb' (_ & _ & Hm & _ & Ho)].
    split; [done|]. unfold cfg_valid. by rewrite Hm, Ho.
  - unfold halow_cfg_mcs_bw_refresh. wp_steps. split; [done|]. intros _. rsimpl. apply Hl.
  - by apply wp_modify.
Qed.

(** C29: The TX byte budget is exact: after any sequence of sends (with any
    allocation, LMAC and semaphore outcomes), completions, refreshes and mode
    changes, the free bytes plus the bytes of the frames the LMAC still holds
    are [TX_BUFFER_SIZE]; no call reads outside a table. *)
Theorem tx_budget_exact ops s :
  (forall w, mcs_valid (load_mcs_bw w).1) -> Forall op_ok ops -> tx_inv s ->
  exists s', mfor ops tx_step s = Some (tt, s') /\ tx_inv s'.
Proof.
  intros Hl Hops Hs.
  assert (wp (mfor ops tx_step) (fun _ => tx_inv) s) as Hwp.
  { apply (wp_mfor _ _ tx_inv); [done| |done]. intros op s' Hin Hs'.
    apply tx_step_inv; [done| |done]. by eapply Forall_forall in Hops. }
  apply wp_elim in Hwp as ([] & s' & ? & ?). eauto.
Qed.

(** A send either hands the LMAC exactly the caller's bytes for the
    caller's destination (as one frame at the slowest configured-or-faster rate
    that fits, or as the complete fragment sequence at MCS10) and returns 0, or
    returns an error; only an interrupted MCS10 message leaves frames behind. *)
Theorem halow_tx_p_outcome (ready : bool) (data : option (list Z)) (dest : list Z) (m tid : Z) s :
  (forall w, mcs_valid (load_mcs_bw w).1) -> tx_inv s -> is_u8 m ->
  exists r s', halow_tx_p ready data dest m tid s = Some (r, s') /\ tx_inv s' /\
    if negb ready then r = -1 /\ s' = s
    else match data with
    | None => r = -2 /\ s' = s
    | Some [] => r = -3 /\ s' = s
    | Some d => if TX_BUFFER_SIZE <? Z.of_nat (length d) then r = -4 /\ s' = s
                else tx_outcome d dest (effective_mcs m s) (eff_cfg s).2 tid s r s'
    end.
Proof.
  intros Hl Hinv Hm. destruct ready; [|by exists (-1), s].
  destruct data as [[|b d]|]; [by exists (-3), s| |by exists (-2), s].
  cbn [negb]. destruct (Z.ltb_spec TX_BUFFER_SIZE (Z.of_nat (length (b :: d)))) as [Hlt|Hle].
  - unfold halow_tx_p. cbn [negb]. cbv zeta. rewrite (proj2 (Z.eqb_neq _ 0)) by (cbn [length]; lia).
    rewrite (proj2 (Z.ltb_lt _ _) Hlt). do 2 eexists. split_and!; [done|done|done|done].
  - pose proof (halow_tx_p_ready (b :: d) dest m tid s (proj1 Hinv) (eff_cfg_valid s Hl Hinv) Hm) as Hw.
    destruct (wp_elim _ _ _ (Hw ltac:(cbn [length] in *; lia))) as (r & s' & Hr & Hi & Ho). eauto.
Qed.

(** ** From the transmitter to the receiver *)

(** Frames as a receiver in range gets them, at the times [t i, t (i+1), ...]. *)
Fixpoint on_air (t : nat -> Z) (i : nat) (fs : list frame) : list (Z * Z * list Z) :=
  match fs with
  | [] => []
  | f :: fs => (t i, 10, f_hdr f ++ f_payload f) :: on_air t (S i) fs
  end.

Lemma frame_header_ok payload dest mcs tid f :
  (forall w, length (mac_generator_get w).1 = 6%nat) -> length dest = 6%nat ->
  frame_for payload dest mcs tid f -> data_header (f_hdr f).
Proof.
  intros Hmac Hd (_ & _ & _ & addr2 & seq & -> & w & ->). unfold ieee80211_hdr. split.
  - rewrite !length_app, Hmac, Hd. done.
  - do 3 eexists. split; [reflexivity|]. vm_compute. reflexivity.
Qed.

Lemma on_air_message dest mcs tid n u t hdr cs : forall fs i,
  carries dest mcs tid fs (frag_msgs n u (Z.of_nat i) cs) ->
  (forall k f, fs !! k = Some f -> hdr (i + k)%nat = f_hdr f) ->
  on_air t i fs = message_frames hdr u n t i cs.
Proof.
  induction cs as [|c cs IH]; intros fs i Hc Hh; cbn [frag_msgs message_frames] in *.
  - apply Forall2_nil_inv_r in Hc as ->. done.
  - apply Forall2_cons_inv_r in Hc as (f & fs' & Hf & Hc & ->). cbn [on_air].
    replace (Z.of_nat i + 1) with (Z.of_nat (S i)) in Hc by lia. f_equal.
    + rewrite <-(Hh 0%nat f eq_refl), Nat.add_0_r. by destruct Hf as (-> & _).
    + apply IH; [done|]. intros k f' Hk. rewrite <-(Hh (S k) f' Hk). f_equal. lia.
Qed.

Lemma chunks_spec k data : forall off,
  Z.of_nat off + 300 * (Z.of_nat k - 1) < Z.of_nat (length data) <= Z.of_nat off + 300 * Z.of_nat k ->
  concat (chunks k off data) = drop off data /\ Forall chunk_ok (chunks k off data) /\
  length (chunks k off data) = k.
Proof.
  induction k as [|k IH]; intros off Hk; cbn [chunks concat length].
  - rewrite (drop_ge data) by lia. split_and!; [done|constructor|done].
  - destruct k as [|k'].
    + cbn [chunks concat length]. rewrite app_nil_r, firstn_all2 by (rewrite length_drop; lia).
      split_and!; [done| |done]. constructor; [|done]. unfold chunk_ok. rewrite length_drop. lia.
    + destruct (IH (off + 300)%nat ltac:(lia)) as (Hc & Hf & Hl). rewrite Hc, Hl. split_and!; [| |done].
      * rewrite <-(take_drop 300 (drop off data)) at 2. f_equal. by rewrite drop_drop.
      * constructor; [|done]. unfold chunk_ok. rewrite length_take, length_drop. lia.
Qed.

End TxProofs.

(** A quiet radio: every request succeeds; the configuration is MCS3, 1 MHz. *)
#[export] Instance demo_env : RadioEnv unit := {
  alloc_tx_skb _ w := (true, w);
  lmac_tx _ w := (0, w);
  os_sema_down w := (0, [0%nat], w);
  mac_generator_get w := ([2;0;0;0;0;1], w);
  load_mcs_bw _ := (3, 1);
}.
(** The zero-initialised statics. *)
Definition tx_init {W} (w : W) : tx_state W :=
  mkTx TX_BUFFER_SIZE 0 0 0 false 0 0 false 0 0 0 0 0 false [] [] w.
Definition demo_dest : list Z := [2;0;0;0;0;9].
Definition demo_msg : list Z := replicate 700 5.

Lemma tx_init_inv {W} (w : W) : tx_inv (tx_init w).
Proof. split; [split; [done|]; done|done]. Qed.

Lemma demo_mcs_valid : forall w : unit, mcs_valid (load_mcs_bw w).1.
Proof. intros w. left. cbn. lia. Qed.

Lemma tx_budget_exact_witness :
  exists s', mfor [OpTx true (Some demo_msg) demo_dest 10 0; OpComplete (Some 1%nat)] tx_step (tx_init tt)
             = Some (tt, s') /\ tx_inv s'.
Proof.
  apply tx_budget_exact; [exact demo_mcs_valid|repeat constructor; by_eval|exact (tx_init_inv tt)].
Defined.

Lemma halow_tx_p_outcome_witness :
  exists r s', halow_tx_p true (Some demo_msg) demo_dest 0 0 (tx_init tt) = Some (r, s') /\ tx_inv s' /\
    tx_outcome demo_msg demo_dest 0 1 0 (tx_init tt) r s'.
Proof.
  exact (halow_tx_p_outcome true (Some demo_msg) demo_dest 0 0 (tx_init tt) demo_mcs_valid
           (tx_init_inv tt) ltac:(by_eval)).
Defined.

(** The state after the demonstration message. *)
Definition demo_sent : tx_state unit :=
  match halow_tx_mcs10_frag demo_msg demo_dest 10 0 (tx_init tt) with
  | Some (_, s) => s | None => tx_init tt end.


(** ** Radio settings *)

Definition cfg_in_range (c : halow_config) : Prop :=
  1 <= rf_power c <= 20 /\ (rf_super_power c = 0 \/ rf_super_power c = 1) /\ mcs_valid (mcs c) /\
  7300 <= central_freq c <= 10800 /\
  (bandwidth c = 1 \/ bandwidth c = 2 \/ bandwidth c = 4 \/ bandwidth c = 8).
Definition cfg_typed (c : halow_config) : Prop :=
  is_u16 (central_freq c) /\ is_u8 (bandwidth c) /\ is_u8 (mcs c) /\ is_u8 (rf_power c) /\
  is_u8 (rf_super_power c).

Lemma sanitize_in_range c : cfg_typed c -> cfg_in_range (halow_cfg_sanitize c).
Proof.
  intros (H1 & H2 & H3 & H4 & H5). unfold cfg_in_range, mcs_valid, halow_cfg_sanitize. rsimpl.
  split_and!; repeat z_case; cbn [andb orb negb]; word_lia.
Qed.

Lemma sanitize_id c : cfg_in_range c -> halow_cfg_sanitize c = c.
Proof.
  intros (H1 & H2 & H3 & H4 & H5). unfold halow_cfg_sanitize, set, mcs_valid in *.
  destruct c as [f b m p sp]. cbn [central_freq bandwidth mcs rf_power rf_super_power] in *.
  f_equal; repeat z_case; cbn [andb orb negb]; lia.
Qed.

Section SaveLoad.
Context {D : Type} `{KvdbLaws D}.
(** The flash accepts every write. *)
Hypothesis writes_succeed : forall key bytes (d : D), (fdb_kv_set_blob key bytes d).1 = 0.

(** The five keys after a save. *)
Lemma save_stored c (d : D) :
  let d' := halow_config_save c d in
  stored_i32 "cfg.halow.band" d' = Some (i8 (bandwidth c)) /\
  stored_i32 "cfg.halow.spwr" d' = Some (i8 (rf_super_power c)) /\
  stored_i32 "cfg.halow.pwr" d' = Some (i8 (rf_power c)) /\
  stored_i32 "cfg.halow.mcs" d' = Some (i8 (mcs c)) /\
  stored_i32 "cfg.halow.freq" d' = Some (i16 (central_freq c)).
Proof.
  assert (H8 : forall x, is_i32 (i8 x)) by (intros x; pose proof (i8_cast_range x); unfold is_i32; lia).
  assert (H16 : forall x, is_i32 (i16 x)) by (intros x; pose proof (i16_cast_range x); unfold is_i32; lia).
  unfold halow_config_save, configdb_set_i8, configdb_set_i16. cbv zeta.
  set (d1 := (configdb_set_i32 "cfg.halow.band" _ d).2).
  set (d2 := (configdb_set_i32 "cfg.halow.spwr" _ d1).2).
  set (d3 := (configdb_set_i32 "cfg.halow.pwr" _ d2).2).
  set (d4 := (configdb_set_i32 "cfg.halow.mcs" _ d3).2).
  destruct (set_succeeds writes_succeed "cfg.halow.band" _ d (H8 (bandwidth c))) as (S1 & _).
  destruct (set_succeeds writes_succeed "cfg.halow.spwr" _ d1 (H8 (rf_super_power c))) as (S2 & O2 & _).
  destruct (set_succeeds writes_succeed "cfg.halow.pwr" _ d2 (H8 (rf_power c))) as (S3 & O3 & _).
  destruct (set_succeeds writes_succeed "cfg.halow.mcs" _ d3 (H8 (mcs c))) as (S4 & O4 & _).
  destruct (set_succeeds writes_succeed "cfg.halow.freq" _ d4 (H16 (central_freq c))) as (S5 & O5 & _).
  split_and!; repeat first [done | rewrite O5 by done | rewrite O4 by done | rewrite O3 by done
                           | rewrite O2 by done].
Qed.

Lemma load_saved c c0 (d : D) : cfg_typed c -> halow_config_load c0 (halow_config_save c d) = c.
Proof.
  intros (T1 & T2 & T3 & T4 & T5). destruct (save_stored c d) as (S1 & S2 & S3 & S4 & S5).
  unfold halow_config_load, set. destruct c as [f b m p sp], c0 as [f0 b0 m0 p0 sp0].
  cbn [central_freq bandwidth mcs rf_power rf_super_power eta eta_halow_config] in *.
  rewrite (get_i8_stored _ _ _ _ S1), (get_i8_stored _ _ _ _ S2), (get_i8_stored _ _ _ _ S3),
    (get_i8_stored _ _ _ _ S4), (get_i16_stored _ _ _ _ S5). cbn [snd].
  rewrite !clamp_i8_small by apply i8_cast_range. rewrite clamp_i16_small by apply i16_cast_range.
  by rewrite !u8_i8, u16_i16 by done.
Qed.

(** Saving what is stored writes nothing. *)
Lemma save_again c (d : D) : halow_config_save c (halow_config_save c d) = halow_config_save c d.
Proof.
  assert (H8 : forall x, is_i32 (i8 x)) by (intros x; pose proof (i8_cast_range x); unfold is_i32; lia).
  assert (H16 : forall x, is_i32 (i16 x)) by (intros x; pose proof (i16_cast_range x); unfold is_i32; lia).
  destruct (save_stored c d) as (S1 & S2 & S3 & S4 & S5). set (d' := halow_config_save c d) in *.
  clearbody d'. unfold halow_config_save, configdb_set_i8, configdb_set_i16. cbv zeta.
  rewrite (proj2 (proj2 (set_succeeds writes_succeed _ _ d' (H8 (bandwidth c)))) S1).
  rewrite (proj2 (proj2 (set_succeeds writes_succeed _ _ d' (H8 (rf_super_power c)))) S2).
  rewrite (proj2 (proj2 (set_succeeds writes_succeed _ _ d' (H8 (rf_power c)))) S3).
  rewrite (proj2 (proj2 (set_succeeds writes_succeed _ _ d' (H8 (mcs c)))) S4).
  by rewrite (proj2 (proj2 (set_succeeds writes_succeed _ _ d' (H16 (central_freq c)))) S5).
Qed.

Lemma load_typed c (d : D) : cfg_typed (halow_config_load c d).
Proof. unfold cfg_typed, halow_config_load. rsimpl. split_and!; auto with words. Qed.
End SaveLoad.

Lemma in_range_typed c : cfg_in_range c -> cfg_typed c.
Proof. unfold cfg_in_range, cfg_typed, mcs_valid. word_lia. Qed.

(** Whatever the flash holds, start-up ends with in-range radio settings
    that are also what is stored; the modem is programmed with them, and the
    next start-up loads the same settings without writing the flash. *)
Theorem halow_boot_settings {D} `{KvdbLaws D} (d : D) :
  (forall key bytes (d : D), (fdb_kv_set_blob key bytes d).1 = 0) ->
  exists cfg d', halow_init_config d = (cfg, d') /\ cfg_in_range cfg /\
    (forall c0, halow_config_load c0 d' = cfg) /\ halow_init_config d' = (cfg, d') /\
    halow_config_apply true cfg =
      [ReconfigBarrier; SetFreq (central_freq cfg); SetMcs (mcs cfg); SetBandwidth (bandwidth cfg);
       SetTxPower (rf_power cfg); SetSuperPower (rf_super_power cfg)].
Proof.
  intros Hw. unfold halow_init_config. set (cfg := halow_cfg_sanitize _).
  assert (Hr : cfg_in_range cfg) by apply sanitize_in_range, load_typed.
  pose proof (in_range_typed _ Hr) as Ht. exists cfg, (halow_config_save cfg d).
  split; [done|]. split; [done|]. split; [intros; by apply load_saved|].
  rewrite load_saved by done. unfold halow_config_apply. cbn [negb]. cbv zeta.
  rewrite !sanitize_id by done. by rewrite save_again.
Qed.

Lemma halow_boot_settings_witness :
  let d := <["cfg.halow.mcs" := le32 9]> (∅ : gmap string (list Z)) in
  exists cfg d', halow_init_config d = (cfg, d') /\ cfg_in_range cfg /\
    (forall c0, halow_config_load c0 d' = cfg) /\ halow_init_config d' = (cfg, d') /\
    halow_config_apply true cfg =
      [ReconfigBarrier; SetFreq (central_freq cfg); SetMcs (mcs cfg); SetBandwidth (bandwidth cfg);
       SetTxPower (rf_power cfg); SetSuperPower (rf_super_power cfg)].
Proof. intros d. apply (halow_boot_settings d). intros key bytes d0. reflexivity. Defined.
