(* ===== verification/HalowWatchdog.v ===== *)
(** * The transmit watchdogs of [src/halow.c]

    [halow_tx_vacancy_watchdog] runs three checks on every tick: a fast
    back-off timeout that aborts a frozen transmit machine, a hard-wedge check
    that purges the LMAC queues and in the end reboots, and a budget-leak
    check.  Their [static] variables are the fields of [wd]. *)

From S2P Require Import Prelude.

Definition TX_BUFFER_SIZE : Z := 1460 * 20.
Definition HALOW_TX_BO_TMO_MS : Z := 500.
Definition HALOW_TX_BO_TMO_GAP_MS : Z := 1000.
Definition HALOW_TX_WEDGE_TMO_MS : Z := 5000.
Definition HALOW_TX_WEDGE_CONTEND_MS : Z := 15000.
Definition HALOW_TX_WEDGE_REBOOT_MS : Z := 30000.
Definition HALOW_TX_WEDGE_STRIKES : Z := 3.
Definition HALOW_TX_LEAK_TMO_MS : Z := 500.

(** What a tick reads from the modem and the rest of the firmware. *)
Record tick := mkTick {
  now : Z;
  bo_frame_type : Z;
  tx_end_count : Z;
  lmac_ac_pd_count : Z;
  g_tx_complete_seq : Z;
  (** [lhw_tx_gate_blocked() && lhw_rf_gates_off()] *)
  gates_blocked : bool;
  (** [lhw_abort_armed_tx()] *)
  abort_armed_tx : bool;
  (** depths of the four AC queues and their selected counts *)
  ac_queues : list (Z * Z);
  (** [ota_wota_active() || ota_fw_active()] *)
  ota_active : bool;
}.

Inductive wd_action :=
  | AbortTx | WedgeSnapshot | RequestPurge | DeviceReboot | LbtDeactive | SemaUp.

#[export] Instance wd_action_eq_dec : EqDecision wd_action.
Proof. solve_decision. Defined.

Record wd := mkWd {
  bo_stuck_since : Z;
  bo_last_abort : Z;
  bo_last_end_cnt : Z;
  bo_last_acpd : Z;
  wedge_since : Z;
  wedge_purge_jiff : Z;
  wedge_last_seq : Z;
  wedge_last_acpd : Z;
  dead_strikes : Z;
  leak_since : Z;
  g_tx_vacated_bytes : Z;
}.
#[export] Instance eta_wd : Eta wd := fun r =>
  mkWd (bo_stuck_since r) (bo_last_abort r) (bo_last_end_cnt r) (bo_last_acpd r) (wedge_since r)
    (wedge_purge_jiff r) (wedge_last_seq r) (wedge_last_acpd r) (dead_strikes r) (leak_since r)
    (g_tx_vacated_bytes r).

(** One jiffy is one millisecond ([OS_HZ] is 1000). *)
Definition OS_MS_PERIOD_TICK : Z := 1.
Definition os_msecs_to_jiffies (ms : Z) : Z := ms / OS_MS_PERIOD_TICK.
Definition os_jiffies_to_msecs (j : Z) : Z := j * OS_MS_PERIOD_TICK.

Definition tx_work_pending (e : tick) (w : wd) : bool :=
  (g_tx_vacated_bytes w <? TX_BUFFER_SIZE) ||
  existsb (fun q => negb (q.1 =? 0) || negb (q.2 =? 0)) (ac_queues e).

Definition tx_watchdog_bo_timeout (e : tick) (w : wd) : wd * list wd_action :=
  let w :=
    if bo_frame_type e =? 0 then w <| bo_stuck_since := 0 |>
    else if negb (tx_end_count e =? bo_last_end_cnt w) || negb (lmac_ac_pd_count e =? bo_last_acpd w)
    then w <| bo_stuck_since := now e |>
    else if bo_stuck_since w =? 0 then w <| bo_stuck_since := now e |> else w in
  let w := w <| bo_last_end_cnt := tx_end_count e |> <| bo_last_acpd := lmac_ac_pd_count e |> in
  let w := if negb (bo_frame_type e =? 0) && gates_blocked e && (bo_stuck_since w =? 0)
           then w <| bo_stuck_since := now e |> else w in
  if (bo_stuck_since w =? 0) ||
     (u64 (now e - bo_stuck_since w) <? os_msecs_to_jiffies HALOW_TX_BO_TMO_MS) ||
     (negb (bo_last_abort w =? 0) &&
      (u64 (now e - bo_last_abort w) <? os_msecs_to_jiffies HALOW_TX_BO_TMO_GAP_MS))
  then (w, [])
  else
    let w := if abort_armed_tx e then w <| bo_last_abort := now e |> else w in
    (w <| bo_stuck_since := 0 |>, [AbortTx]).

Definition tx_watchdog_hard_wedge (e : tick) (w : wd) : wd * list wd_action :=
  if negb (tx_work_pending e w) then
    (w <| wedge_since := 0 |> <| wedge_purge_jiff := 0 |> <| dead_strikes := 0 |>, [])
  else if negb (g_tx_complete_seq e =? wedge_last_seq w) then
    (w <| wedge_since := 0 |> <| wedge_purge_jiff := 0 |> <| wedge_last_seq := g_tx_complete_seq e |>
       <| wedge_last_acpd := lmac_ac_pd_count e |>, [])
  else
    let w := if wedge_since w =? 0 then w <| wedge_since := now e |> else w in
    let stuck_ms := u64 (os_jiffies_to_msecs (u64 (now e - wedge_since w))) in
    let acpd_moved := negb (lmac_ac_pd_count e =? wedge_last_acpd w) in
    let wedge_thresh_ms := if acpd_moved then HALOW_TX_WEDGE_CONTEND_MS else HALOW_TX_WEDGE_TMO_MS in
    let purge_due := (wedge_thresh_ms <=? stuck_ms) &&
      ((wedge_purge_jiff w =? 0) ||
       (os_msecs_to_jiffies wedge_thresh_ms <=? u64 (now e - wedge_purge_jiff w))) in
    if negb purge_due then
      (w, if (HALOW_TX_WEDGE_REBOOT_MS <=? stuck_ms) && (HALOW_TX_WEDGE_STRIKES <=? dead_strikes w)
             && negb (ota_active e)
          then [DeviceReboot] else [])
    else
      let w := w <| wedge_purge_jiff := now e |> <| wedge_last_acpd := lmac_ac_pd_count e |>
                 <| dead_strikes ::= fun n => if acpd_moved then 0 else u32 (n + 1) |> in
      (w, [WedgeSnapshot; RequestPurge] ++
          if (HALOW_TX_WEDGE_STRIKES <=? dead_strikes w) && (HALOW_TX_WEDGE_REBOOT_MS <=? stuck_ms)
             && ota_active e
          then [RequestPurge] else []).

Definition tx_watchdog_budget_leak (e : tick) (w : wd) : wd * list wd_action :=
  if tx_work_pending e w then (w <| leak_since := 0 |>, [])
  else if leak_since w =? 0 then (w <| leak_since := now e |>, [])
  else if u64 (now e - leak_since w) <? os_msecs_to_jiffies HALOW_TX_LEAK_TMO_MS then (w, [])
  else (w <| leak_since := 0 |> <| g_tx_vacated_bytes := TX_BUFFER_SIZE |>, [LbtDeactive; SemaUp]).

Definition halow_tx_vacancy_watchdog (e : tick) (w : wd) : wd * list wd_action :=
  let '(w, a1) := tx_watchdog_bo_timeout e w in
  let '(w, a2) := tx_watchdog_hard_wedge e w in
  let '(w, a3) := tx_watchdog_budget_leak e w in
  (w, a1 ++ a2 ++ a3).

(** The zero-initialised statics. *)
Definition wd_init : wd := mkWd 0 0 0 0 0 0 0 0 0 0 TX_BUFFER_SIZE.

(** ** Histories *)

(** One tick of a history: what was read, the free budget, what was done. *)
Record event := mkEvent { ev_tick : tick; ev_budget : Z; ev_actions : list wd_action }.

(** Histories (newest event first) with the watchdog state they end in; the
    transmit path moves the budget freely between ticks. *)
Inductive reach : list event -> wd -> Prop :=
  | reach_init : reach [] wd_init
  | reach_tick h w e budget w' acts :
      reach h w ->
      halow_tx_vacancy_watchdog e (w <| g_tx_vacated_bytes := budget |>) = (w', acts) ->
      reach (mkEvent e budget acts :: h) w'.

(** The radio owes work and has completed nothing since [seq]. *)
Definition stuck_at (seq : Z) (ev : event) : Prop :=
  ((ev_budget ev <? TX_BUFFER_SIZE) ||
   existsb (fun q => negb (q.1 =? 0) || negb (q.2 =? 0)) (ac_queues (ev_tick ev))) = true /\
  g_tx_complete_seq (ev_tick ev) = seq.

(** The newest events of [h] form a stuck period that began at [since]. *)
Definition stuck_since (seq since : Z) (h : list event) : Prop :=
  exists h1 first h2, h = h1 ++ first :: h2 /\ now (ev_tick first) = since /\
    Forall (stuck_at seq) (h1 ++ [first]).

Definition purges (h : list event) : Z :=
  Z.of_nat (length (filter (fun ev => RequestPurge ∈ ev_actions ev) h)).
(** The state a hard-wedge check leaves alone. *)
Record same_wedge (w w' : wd) : Prop := {
  sw_since : wedge_since w' = wedge_since w;
  sw_seq : wedge_last_seq w' = wedge_last_seq w;
  sw_strikes : dead_strikes w' = dead_strikes w;
  sw_budget : g_tx_vacated_bytes w' = g_tx_vacated_bytes w;
}.

Lemma bo_timeout_frame e w w' acts :
  tx_watchdog_bo_timeout e w = (w', acts) ->
  same_wedge w w' /\ RequestPurge ∉ acts /\ DeviceReboot ∉ acts.
Proof.
  unfold tx_watchdog_bo_timeout.
  set (w1 := if bo_frame_type e =? 0 then _ else _).
  assert (same_wedge w w1) as H1 by (subst w1; repeat case_match; done).
  clearbody w1. cbv zeta.
  set (w2 := w1 <| bo_last_end_cnt := _ |> <| bo_last_acpd := _ |>).
  assert (same_wedge w w2) as H2 by (destruct H1; by split). clearbody w2.
  set (w3 := if _ && (bo_stuck_since w2 =? 0) then _ else _).
  assert (same_wedge w w3) as H3 by (subst w3; destruct H2; case_match; by split). clearbody w3.
  destruct H3 as [H4 H5 H6 H7].
  case_match; intros [= <- <-]; [split; [by split|]; set_solver|].
  split; [destruct (abort_armed_tx e); by split|]. set_solver.
Qed.

(** The leak check runs only when nothing is pending, so it has nothing to heal. *)
Lemma budget_leak_frame e w w' acts :
  tx_watchdog_budget_leak e w = (w', acts) ->
  wedge_since w' = wedge_since w /\ wedge_last_seq w' = wedge_last_seq w /\
  dead_strikes w' = dead_strikes w /\ RequestPurge ∉ acts /\ DeviceReboot ∉ acts /\
  (g_tx_vacated_bytes w <= TX_BUFFER_SIZE -> g_tx_vacated_bytes w' = g_tx_vacated_bytes w).
Proof.
  unfold tx_watchdog_budget_leak, tx_work_pending.
  destruct (Z.ltb_spec (g_tx_vacated_bytes w) TX_BUFFER_SIZE) as [|Hge]; cbn [orb].
  { intros [= <- <-]. split_and!; try done; set_solver. }
  repeat case_match; intros [= <- <-]; rsimpl; split_and!; try done; try set_solver; lia.
Qed.

(** What the hard-wedge check of one tick establishes. *)
Lemma hard_wedge_cases e w w' acts :
  tx_watchdog_hard_wedge e w = (w', acts) ->
  let pending := tx_work_pending e w in
  let same_seq := g_tx_complete_seq e =? wedge_last_seq w in
  let since := if wedge_since w =? 0 then now e else wedge_since w in
  g_tx_vacated_bytes w' = g_tx_vacated_bytes w /\
  if pending && same_seq then
    wedge_since w' = since /\ wedge_last_seq w' = wedge_last_seq w /\
    (RequestPurge ∈ acts -> HALOW_TX_WEDGE_TMO_MS <= u64 (now e - since)) /\
    (dead_strikes w' <> dead_strikes w -> dead_strikes w' = 0 \/
       dead_strikes w' = u32 (dead_strikes w + 1) /\ RequestPurge ∈ acts) /\
    (DeviceReboot ∈ acts -> HALOW_TX_WEDGE_REBOOT_MS <= u64 (now e - since) /\
       HALOW_TX_WEDGE_STRIKES <= dead_strikes w /\ ota_active e = false)
  else
    wedge_since w' = 0 /\ acts = [] /\ (dead_strikes w' = 0 \/ dead_strikes w' = dead_strikes w).
Proof.
  intros Hrun pending same_seq since. unfold tx_watchdog_hard_wedge in Hrun.
  fold pending same_seq in Hrun.
  destruct pending; cbn [negb andb] in *; [|injection Hrun as <- <-; rsimpl; auto].
  destruct same_seq; cbn [negb] in Hrun; [|injection Hrun as <- <-; rsimpl; auto].
  revert Hrun. set (w1 := if wedge_since w =? 0 then _ else _).
  assert (Hw1 : wedge_since w1 = since /\ wedge_last_seq w1 = wedge_last_seq w /\
                dead_strikes w1 = dead_strikes w /\ g_tx_vacated_bytes w1 = g_tx_vacated_bytes w /\
                wedge_last_acpd w1 = wedge_last_acpd w).
  { subst w1 since. destruct (wedge_since w =? 0); by split_and!. }
  destruct Hw1 as (E1 & E2 & E3 & E4 & E5). clearbody w1 since. rewrite E1. cbv zeta.
  unfold os_jiffies_to_msecs, OS_MS_PERIOD_TICK. rewrite Z.mul_1_r.
  rewrite (u64_small (u64 _)) by auto with words. rsimpl. rewrite E3.
  set (thr := if negb _ then HALOW_TX_WEDGE_CONTEND_MS else HALOW_TX_WEDGE_TMO_MS).
  assert (Hthr : HALOW_TX_WEDGE_TMO_MS <= thr) by (subst thr; destruct (_ =? wedge_last_acpd w1); cbn; unfold HALOW_TX_WEDGE_TMO_MS, HALOW_TX_WEDGE_CONTEND_MS; lia). clearbody thr.
  destruct (Z.leb_spec thr (u64 (now e - since))) as [Hd|Hd]; cbn [andb].
  2:{ cbn [negb]. destruct (_ && _ && _) eqn:Hr; intros [= <- <-]; split_and!; try done;
      try (intros Hx; exfalso; set_solver). intros _. bools_to_props.
      destruct (ota_active e); [done|]. auto. }
  destruct (_ || _); cbn [negb].
  - destruct (negb (lmac_ac_pd_count e =? wedge_last_acpd w1)); intros [= <- <-]; rsimpl;
      (split; [done|]); split_and!; try done; try (intros; lia); try (intros _; left; done);
      try (intros _; right; rewrite E3; split; [done|set_solver]);
      intros Hx; exfalso; try destruct (_ && _ && _); set_solver.
  - destruct (_ && _ && _) eqn:Hr; intros [= <- <-]; split_and!; try done;
      try (intros Hx; exfalso; set_solver). intros _. bools_to_props.
    destruct (ota_active e); [done|]. auto.
Qed.

(** ** What a purge or a reboot means *)

Definition wd_inv (h : list event) (w : wd) : Prop :=
  (wedge_since w <> 0 -> stuck_since (wedge_last_seq w) (wedge_since w) h) /\
  0 <= dead_strikes w <= purges h.

Lemma stuck_since_start ev h :
  stuck_at (g_tx_complete_seq (ev_tick ev)) ev ->
  stuck_since (g_tx_complete_seq (ev_tick ev)) (now (ev_tick ev)) (ev :: h).
Proof. intros Hs. exists [], ev, h. split_and!; [done|done|by constructor]. Qed.

Lemma stuck_since_extend seq since ev h :
  stuck_at seq ev -> stuck_since seq since h -> stuck_since seq since (ev :: h).
Proof.
  intros Hs (h1 & first & h2 & -> & Hn & Hf). exists (ev :: h1), first, h2.
  split_and!; [done|done|by constructor].
Qed.

Lemma purges_cons ev h :
  purges (ev :: h) = purges h + (if decide (RequestPurge ∈ ev_actions ev) then 1 else 0).
Proof. unfold purges. rewrite filter_cons. case_decide; cbn [length]; lia. Qed.

Lemma tick_facts h w e budget w' acts :
  wd_inv h w -> halow_tx_vacancy_watchdog e (w <| g_tx_vacated_bytes := budget |>) = (w', acts) ->
  let ev := mkEvent e budget acts in
  wd_inv (ev :: h) w' /\
  (RequestPurge ∈ acts -> exists since, stuck_since (g_tx_complete_seq e) since (ev :: h) /\
     HALOW_TX_WEDGE_TMO_MS <= u64 (now e - since)) /\
  (DeviceReboot ∈ acts -> exists since, stuck_since (g_tx_complete_seq e) since (ev :: h) /\
     HALOW_TX_WEDGE_REBOOT_MS <= u64 (now e - since) /\
     HALOW_TX_WEDGE_STRIKES <= purges h /\ ota_active e = false).
Proof.
  intros [Hinv Hstr]. unfold halow_tx_vacancy_watchdog.
  destruct (tx_watchdog_bo_timeout _ _) as [w1 a1] eqn:E1.
  destruct (tx_watchdog_hard_wedge _ _) as [w2 a2] eqn:E2.
  destruct (tx_watchdog_budget_leak _ _) as [w3 a3] eqn:E3. intros [= <- <-].
  destruct (bo_timeout_frame _ _ _ _ E1) as ([S1 S2 S3 S4] & P1 & R1). rsimpl.
  destruct (budget_leak_frame _ _ _ _ E3) as (L1 & L2 & L3 & P3 & R3 & _).
  destruct (hard_wedge_cases _ _ _ _ E2) as (_ & Hc). cbv zeta in Hc |- *.
  assert (HP : RequestPurge ∈ a1 ++ a2 ++ a3 <-> RequestPurge ∈ a2) by set_solver.
  assert (HR : DeviceReboot ∈ a1 ++ a2 ++ a3 <-> DeviceReboot ∈ a2) by set_solver.
  unfold wd_inv. rewrite purges_cons. cbn [ev_actions]. rewrite L1, L2, L3. clear R1 R3 E3 L1 L2 L3.
  assert (Hdec : (if decide (RequestPurge ∈ a1 ++ a2 ++ a3) then 1 else 0) =
                 (if decide (RequestPurge ∈ a2) then 1 else 0)) by (repeat case_decide; tauto).
  rewrite Hdec, HP, HR. clear Hdec HP HR. set (ev := mkEvent e budget (a1 ++ a2 ++ a3)).
  rewrite S1, S2, S3 in Hc.
  destruct (tx_work_pending e w1 && (g_tx_complete_seq e =? wedge_last_seq w)) eqn:Hp.
  - apply andb_true_iff in Hp as [Hp Hseq]. apply Z.eqb_eq in Hseq. destruct Hc as (Hs & Hq & Hpurge & Hd & Hreb).
    assert (Hstuck : stuck_at (g_tx_complete_seq (ev_tick ev)) ev).
    { split; [|done]. cbn [ev ev_budget ev_tick]. unfold tx_work_pending in *. by rewrite S4 in *. }
    assert (Hsince : stuck_since (g_tx_complete_seq e) (wedge_since w2) (ev :: h)).
    { rewrite Hs. destruct (Z.eqb_spec (wedge_since w) 0) as [|Hne]; [by apply (stuck_since_start ev)|].
      apply stuck_since_extend; [done|]. rewrite Hseq. by apply Hinv. }
    split_and!.
    + intros _. rewrite Hq, <-Hseq. done.
    + destruct (decide (dead_strikes w2 = dead_strikes w)) as [->|Hne]; [lia|].
      destruct (Hd Hne) as [->|[-> _]]; word_lia.
    + case_decide as Hdp; destruct (decide (dead_strikes w2 = dead_strikes w)) as [->|Hne]; try lia;
        destruct (Hd Hne) as [->|[-> ?]]; try lia; try done.
      pose proof (Z.mod_le (dead_strikes w + 1) (2 ^ 32)). unfold u32. lia.
    + intros Hx. exists (wedge_since w2). split; [done|]. rewrite Hs. by apply Hpurge.
    + intros Hx. exists (wedge_since w2). destruct (Hreb Hx) as (? & ? & ?).
      split; [done|]. rewrite Hs. split_and!; [done|lia|done].
  - destruct Hc as (Hs & -> & Hd). split_and!; try (intros Hx; by apply elem_of_nil in Hx).
    + by rewrite Hs.
    + destruct Hd as [->| ->]; lia.
    + case_decide as Hx; [by apply elem_of_nil in Hx|]. destruct Hd as [->| ->]; lia.
Qed.

Lemma reach_inv h w : reach h w -> wd_inv h w.
Proof.
  induction 1 as [|h w e budget w' acts _ IH Hrun]; [split; [done|]; split; done|].
  by destruct (tick_facts _ _ _ _ _ _ IH Hrun) as [? _].
Qed.

(** The transmit watchdog purges the LMAC queues only after at least 5 s,
    and reboots the device only after at least 30 s and three earlier purges
    and never during an OTA update, of uninterrupted ticks at which work was
    pending and no frame had completed. *)
Theorem watchdog_acts_only_when_stuck h w ev :
  reach (ev :: h) w ->
  (RequestPurge ∈ ev_actions ev -> exists since,
     stuck_since (g_tx_complete_seq (ev_tick ev)) since (ev :: h) /\
     HALOW_TX_WEDGE_TMO_MS <= u64 (now (ev_tick ev) - since)) /\
  (DeviceReboot ∈ ev_actions ev -> exists since,
     stuck_since (g_tx_complete_seq (ev_tick ev)) since (ev :: h) /\
     HALOW_TX_WEDGE_REBOOT_MS <= u64 (now (ev_tick ev) - since) /\
     HALOW_TX_WEDGE_STRIKES <= purges h /\ ota_active (ev_tick ev) = false).
Proof.
  intros Hr. inversion Hr as [|h0 w0 e budget w' acts Hr0 Hrun]; subst.
  destruct (tick_facts _ _ _ _ _ _ (reach_inv _ _ Hr0) Hrun) as (_ & Hp & Hb). by split.
Qed.

(** Running a list of ticks. *)
Fixpoint wd_run (ticks : list (tick * Z)) (h : list event) (w : wd) : list event * wd :=
  match ticks with
  | [] => (h, w)
  | (e, budget) :: ticks =>
      let '(w', acts) := halow_tx_vacancy_watchdog e (w <| g_tx_vacated_bytes := budget |>) in
      wd_run ticks (mkEvent e budget acts :: h) w'
  end.

Lemma wd_run_reach ticks : forall h w, reach h w -> reach (wd_run ticks h w).1 (wd_run ticks h w).2.
Proof.
  induction ticks as [|[e b] ticks IH]; intros h w Hr; cbn [wd_run]; [done|].
  destruct (halow_tx_vacancy_watchdog _ _) as [w' acts] eqn:E. apply IH. by eapply reach_tick.
Qed.

(** A transmitter that never completes its one frame. *)
Definition dead_tick (t : Z) : tick * Z := (mkTick t 0 0 0 0 false true [(1, 0); (0, 0); (0, 0); (0, 0)] false, 100).
Definition dead_run : list event * wd :=
  wd_run (map dead_tick [1; 5001; 10001; 15001; 20001; 25001; 30001; 30002]) [] wd_init.

Lemma watchdog_acts_only_when_stuck_witness :
  exists ev h, dead_run.1 = ev :: h /\ ev_actions ev = [DeviceReboot] /\ exists since,
     stuck_since 0 since (ev :: h) /\ 30000 <= u64 (now (ev_tick ev) - since) /\ 3 <= purges h.
Proof.
  destruct dead_run.1 as [|ev h] eqn:E; [exfalso; vm_compute in E; discriminate|].
  assert (Hr : reach (ev :: h) dead_run.2) by (rewrite <-E; apply wd_run_reach, reach_init).
  exists ev, h. split; [done|].
  assert (Ha : ev_actions ev = [DeviceReboot] /\ g_tx_complete_seq (ev_tick ev) = 0)
    by (vm_compute in E; injection E as <- <-; done).
  destruct Ha as [Ha Hs]. split; [done|].
  destruct (proj2 (watchdog_acts_only_when_stuck h _ ev Hr)) as (since & H1 & H2 & H3 & _).
  - rewrite Ha. constructor.
  - exists since. rewrite Hs in H1. split; [exact H1|split; [exact H2|exact H3]].
Defined.

(** The budget-leak check never changes the free budget: it only runs when
    nothing is pending, which already requires the budget to be full, so a
    leaked byte is never given back (it reads as pending work for ever). *)
Theorem budget_leak_never_heals e w :
  g_tx_vacated_bytes w <= TX_BUFFER_SIZE ->
  g_tx_vacated_bytes (halow_tx_vacancy_watchdog e w).1 = g_tx_vacated_bytes w /\
  (g_tx_vacated_bytes w < TX_BUFFER_SIZE -> tx_work_pending e w = true).
Proof.
  intros Hle. split.
  - unfold halow_tx_vacancy_watchdog.
    destruct (tx_watchdog_bo_timeout _ _) as [w1 a1] eqn:E1.
    destruct (tx_watchdog_hard_wedge _ _) as [w2 a2] eqn:E2.
    destruct (tx_watchdog_budget_leak _ _) as [w3 a3] eqn:E3. cbn [fst].
    destruct (bo_timeout_frame _ _ _ _ E1) as ([_ _ _ S] & _).
    destruct (hard_wedge_cases _ _ _ _ E2) as (B & _).
    destruct (budget_leak_frame _ _ _ _ E3) as (_ & _ & _ & _ & _ & L). rewrite L; lia.
  - intros Hlt. unfold tx_work_pending. by rewrite (proj2 (Z.ltb_lt _ _) Hlt).
Qed.

Lemma budget_leak_never_heals_witness :
  let e := mkTick 90000 0 0 0 0 false true [(0, 0); (0, 0); (0, 0); (0, 0)] false in
  let w := wd_init <| g_tx_vacated_bytes := 100 |> <| leak_since := 1 |> in
  g_tx_vacated_bytes (halow_tx_vacancy_watchdog e w).1 = 100 /\
  (100 < TX_BUFFER_SIZE -> tx_work_pending e w = true).
Proof. intros e w. apply (budget_leak_never_heals e w). vm_compute. discriminate. Defined.
