(* ===== verification/Lwrb.v ===== *)
(** * Byte ring: [sdk/lib/lwrb/lwrb.c]

    The ring the firmware's own parts queue through: the noise history
    ([Lbt]), the frames for the TCP client ([TcpServer]) and the log messages.
    [rb_list] is the abstract queue; each operation is shown against it. *)

From S2P Require Import Prelude.

(** ** The byte ring *)

Record lwrb := mk_lwrb { rb_buff : list Z; rb_w : Z; rb_r : Z }.
#[export] Instance eta_lwrb : Eta lwrb := fun b => mk_lwrb (rb_buff b) (rb_w b) (rb_r b).

Definition rb_size (b : lwrb) : Z := Z.of_nat (length (rb_buff b)).

Definition lwrb_init (data : list Z) : lwrb := mk_lwrb data 0 0.

(** Free space is one less than the unused part: a full ring keeps a gap. *)
Definition lwrb_get_free (b : lwrb) : Z :=
  (if rb_r b <=? rb_w b then rb_size b - (rb_w b - rb_r b) else rb_r b - rb_w b) - 1.
Definition lwrb_get_full (b : lwrb) : Z :=
  if rb_r b <=? rb_w b then rb_w b - rb_r b else rb_size b - (rb_r b - rb_w b).

(** [lwrb_write] and [lwrb_read] of one byte. *)
Definition lwrb_write1 (b : lwrb) (v : Z) : option lwrb :=
  if lwrb_get_free b =? 0 then Some b
  else
    d ← wr (rb_buff b) (rb_w b) v;
    Some (b <| rb_buff := d |> <| rb_w ::= fun w => if rb_size b <=? w + 1 then 0 else w + 1 |>).
Definition lwrb_read1 (b : lwrb) : lwrb :=
  if lwrb_get_full b =? 0 then b
  else b <| rb_r ::= fun r => if rb_size b <=? r + 1 then 0 else r + 1 |>.

(** [lwrb_peek(b, 0, _, n)]: the bytes copied, in two segments. *)
Definition lwrb_peek (b : lwrb) (n : Z) : option (list Z) :=
  let btp := Z.min (lwrb_get_full b) n in
  if btp =? 0 then Some []
  else
    let tocopy := Z.min (rb_size b - rb_r b) btp in
    x ← rd_n (rb_buff b) (rb_r b) tocopy;
    y ← rd_n (rb_buff b) 0 (btp - tocopy);
    Some (x ++ y).

(** [lwrb_write] of [data]: the number of bytes written, and the ring. *)
Definition lwrb_write (b : lwrb) (data : list Z) : option (Z * lwrb) :=
  let free := lwrb_get_free b in
  if (Z.of_nat (length data) =? 0) || (free =? 0) then Some (0, b)
  else
    let btw := Z.min free (Z.of_nat (length data)) in
    let tocopy := Z.min (rb_size b - rb_w b) btw in
    buff ← wr_n (rb_buff b) (rb_w b) (take (Z.to_nat tocopy) data);
    let w := rb_w b + tocopy in
    let rest := btw - tocopy in
    buff ← (if 0 <? rest then wr_n buff 0 (take (Z.to_nat rest) (drop (Z.to_nat tocopy) data)) else Some buff);
    let w := if 0 <? rest then rest else w in
    Some (tocopy + rest, b <| rb_buff := buff |> <| rb_w := if rb_size b <=? w then 0 else w |>).

(** [lwrb_read] of at most [n] bytes: the bytes, and the ring. *)
Definition lwrb_read (b : lwrb) (n : Z) : option (list Z * lwrb) :=
  let full := lwrb_get_full b in
  if (n =? 0) || (full =? 0) then Some ([], b)
  else
    let btr := Z.min full n in
    let tocopy := Z.min (rb_size b - rb_r b) btr in
    x ← rd_n (rb_buff b) (rb_r b) tocopy;
    let r := rb_r b + tocopy in
    let rest := btr - tocopy in
    y ← rd_n (rb_buff b) 0 rest;
    let r := if 0 <? rest then rest else r in
    Some (x ++ y, b <| rb_r := if rb_size b <=? r then 0 else r |>).

(** Its two halves: after [lwrb_get_full], [btr] bytes are copied and the new
    read index computed; then the index is stored. *)
Definition lwrb_read_r (size r btr : Z) : Z :=
  let tocopy := Z.min (size - r) btr in
  let rest := btr - tocopy in
  let r := if 0 <? rest then rest else r + tocopy in
  if size <=? r then 0 else r.
Definition lwrb_read_copy (b : lwrb) (btr : Z) : option (list Z * Z) :=
  let tocopy := Z.min (rb_size b - rb_r b) btr in
  x ← rd_n (rb_buff b) (rb_r b) tocopy;
  y ← rd_n (rb_buff b) 0 (btr - tocopy);
  Some (x ++ y, lwrb_read_r (rb_size b) (rb_r b) btr).

Definition lwrb_reset (b : lwrb) : lwrb := b <| rb_w := 0 |> <| rb_r := 0 |>.

(** ** Proofs: the byte ring *)

Definition ring_ok (b : lwrb) : Prop := 0 <= rb_r b < rb_size b /\ 0 <= rb_w b < rb_size b.

Lemma lwrb_read_halves b n : lwrb_read b n =
  if (n =? 0) || (lwrb_get_full b =? 0) then Some ([], b)
  else '(d, r) ← lwrb_read_copy b (Z.min (lwrb_get_full b) n); Some (d, b <| rb_r := r |>).
Proof.
  unfold lwrb_read, lwrb_read_copy, lwrb_read_r. destruct (_ || _); [done|]. cbv zeta.
  destruct (rd_n (rb_buff b) (rb_r b) _); [|done]. cbn [mbind option_bind].
  destruct (rd_n (rb_buff b) 0 _); [|done]. cbn [mbind option_bind]. done.
Qed.
Lemma write_keeps_r b d n b' : lwrb_write b d = Some (n, b') -> rb_r b' = rb_r b.
Proof.
  unfold lwrb_write. destruct (_ || _); [intros E; injection E as _ E; by rewrite <-E|]. cbv zeta. destruct (wr_n (rb_buff b) _ _); [|done]. cbn [mbind option_bind].
  destruct (if 0 <? _ then wr_n _ _ _ else _); [|done]. cbn [mbind option_bind]. intros E. injection E as _ E. by rewrite <-E.
Qed.

(** The stored bytes, oldest first. *)
Definition rb_list (b : lwrb) : list Z :=
  let r := Z.to_nat (rb_r b) in
  let w := Z.to_nat (rb_w b) in
  if rb_r b <=? rb_w b then drop r (take w (rb_buff b)) else drop r (rb_buff b) ++ take w (rb_buff b).

Lemma rb_list_length b : ring_ok b -> Z.of_nat (length (rb_list b)) = lwrb_get_full b.
Proof.
  unfold ring_ok, rb_list, lwrb_get_full, rb_size. intros [Hr Hw]. cbv zeta.
  z_case; rewrite ?length_app, ?length_drop, ?length_take; lia.
Qed.

Lemma get_free_full b : lwrb_get_free b = rb_size b - 1 - lwrb_get_full b.
Proof. unfold lwrb_get_free, lwrb_get_full. z_case; lia. Qed.

Lemma take_S_insert {A} (l : list A) w v : (w < length l)%nat -> take (S w) (<[w := v]> l) = take w l ++ [v].
Proof.
  intros Hw. rewrite insert_take_drop by done. change (v :: drop (S w) l) with ([v] ++ drop (S w) l).
  rewrite app_assoc. apply take_app_length'. rewrite length_app, length_take. cbn. lia.
Qed.

Lemma write1_spec b v : ring_ok b -> lwrb_get_free b <> 0 ->
  exists b', lwrb_write1 b v = Some b' /\ ring_ok b' /\ rb_size b' = rb_size b /\ rb_list b' = rb_list b ++ [v].
Proof.
  intros [Hr Hw] Hf. unfold lwrb_write1. rewrite (proj2 (Z.eqb_neq _ _) Hf).
  rewrite wr_in_bounds by exact Hw. cbn [mbind option_bind]. eexists. split; [done|].
  unfold lwrb_get_free in Hf. destruct b as [l w r]. unfold ring_ok, rb_size, rb_list in *. rsimpl.
  cbn [rb_buff rb_w rb_r] in *. rewrite length_insert.
  destruct (Z.leb_spec r w) as [Hrw|Hrw]; destruct (Z.leb_spec (Z.of_nat (length l)) (w + 1)) as [He|He].
  - split; [lia|]. split; [done|]. rewrite (proj2 (Z.leb_gt r 0)) by lia.
    change (Z.to_nat 0) with 0%nat. rewrite take_0, app_nil_r.
    rewrite <-(drop_app_le (take (Z.to_nat w) l)) by (rewrite length_take; lia).
    rewrite <-take_S_insert by lia. f_equal. symmetry. apply take_ge. rewrite length_insert. lia.
  - split; [lia|]. split; [done|]. rewrite (proj2 (Z.leb_le r (w + 1))) by lia.
    replace (Z.to_nat (w + 1)) with (S (Z.to_nat w)) by lia. rewrite take_S_insert by lia.
    apply drop_app_le. rewrite length_take. lia.
  - lia.
  - split; [lia|]. split; [done|]. rewrite (proj2 (Z.leb_gt r (w + 1))) by lia.
    replace (Z.to_nat (w + 1)) with (S (Z.to_nat w)) by lia. rewrite take_S_insert by lia.
    rewrite drop_insert_lt by lia. by rewrite app_assoc.
Qed.

Lemma read1_spec b : ring_ok b -> lwrb_get_full b <> 0 ->
  ring_ok (lwrb_read1 b) /\ rb_size (lwrb_read1 b) = rb_size b /\ rb_list (lwrb_read1 b) = tail (rb_list b).
Proof.
  intros [Hr Hw] Hf. unfold lwrb_read1. rewrite (proj2 (Z.eqb_neq _ _) Hf).
  unfold lwrb_get_full in Hf. destruct b as [l w r]. unfold ring_ok, rb_size, rb_list in *. rsimpl.
  cbn [rb_buff rb_w rb_r] in *.
  assert (Ht : forall (x : list Z) k, tail (drop k x) = drop (S k) x).
  { intros x k. revert x. induction k as [|k IH]; intros [|a x]; try done. cbn. rewrite IH. by destruct x. }
  destruct (Z.leb_spec r w) as [Hrw|Hrw]; destruct (Z.leb_spec (Z.of_nat (length l)) (r + 1)) as [He|He].
  - lia.
  - split; [lia|]. split; [done|]. rewrite (proj2 (Z.leb_le (r + 1) w)) by lia.
    rewrite Ht. f_equal. lia.
  - split; [lia|]. split; [done|]. rewrite (proj2 (Z.leb_le 0 w)) by lia. cbn [Z.to_nat drop].
    destruct (drop (Z.to_nat r) l) as [|a x] eqn:E.
    + apply (f_equal length) in E. rewrite length_drop in E. cbn in E. lia.
    + assert (x = []) as ->; [|done]. apply (f_equal length) in E. rewrite length_drop in E. cbn in E.
      destruct x; [done|cbn in E; lia].
  - split; [lia|]. split; [done|].
    replace (Z.to_nat (r + 1)) with (S (Z.to_nat r)) by lia.
    destruct (drop (Z.to_nat r) l) as [|a x] eqn:E.
    { apply (f_equal length) in E. rewrite length_drop in E. cbn in E. lia. }
    pose proof (Ht l (Z.to_nat r)) as Ht'. rewrite E in Ht'. cbn in Ht'. cbn [app tail].
    rewrite (proj2 (Z.leb_gt (r + 1) w)) by lia.
    by rewrite <-Ht'.
Qed.

(** The last [k] elements. *)
Definition lastn {A} (k : nat) (l : list A) : list A := drop (length l - k) l.

Lemma lastn_all {A} k (l : list A) : (length l <= k)%nat -> lastn k l = l.
Proof. intros H. unfold lastn. by replace (length l - k)%nat with 0%nat by lia. Qed.

Lemma lastn_length {A} k (l : list A) : length (lastn k l) = Nat.min k (length l).
Proof. unfold lastn. rewrite length_drop. lia. Qed.

Lemma lastn_snoc {A} k (l : list A) v : lastn k (lastn k l ++ [v]) = lastn k (l ++ [v]).
Proof.
  unfold lastn. rewrite !length_app, length_drop. cbn [length].
  destruct (decide (length l <= k)%nat) as [Hk|Hk].
  - replace (length l - k)%nat with 0%nat by lia. rewrite drop_0. f_equal. lia.
  - rewrite <-(drop_app_le l [v]) by lia. rewrite drop_drop. f_equal. lia.
Qed.

Lemma ring_push b v : ring_ok b ->
  exists b', lwrb_write1 (if lwrb_get_free b =? 0 then lwrb_read1 b else b) v = Some b' /\
    ring_ok b' /\ rb_size b' = rb_size b /\ rb_list b' = lastn (Z.to_nat (rb_size b - 1)) (rb_list b ++ [v]).
Proof.
  intros Hb. pose proof (rb_list_length b Hb) as Hlen. pose proof (get_free_full b) as Hff.
  destruct (Z.eqb_spec (lwrb_get_free b) 0) as [Hz|Hz].
  - destruct (Z.eq_dec (lwrb_get_full b) 0) as [H0|H0].
    + assert (Hr : lwrb_read1 b = b) by (unfold lwrb_read1; by rewrite H0).
      rewrite Hr. exists b. unfold lwrb_write1. rewrite Hz. split; [done|]. split; [done|]. split; [done|].
      replace (rb_size b - 1) with 0 by lia. destruct (rb_list b); [done|cbn in Hlen; lia].
    + destruct (read1_spec b Hb H0) as (Hb1 & Hs1 & Hl1).
      destruct (write1_spec (lwrb_read1 b) v Hb1) as (b' & E & Hb' & Hs & Hl).
      { rewrite get_free_full, Hs1, <-rb_list_length, Hl1 by done.
        destruct (rb_list b); cbn in *; lia. }
      exists b'. rewrite E, Hl, Hl1, Hs. split; [done|]. split; [done|]. split; [done|].
      unfold lastn. rewrite length_app. cbn [length].
      replace (length (rb_list b) + 1 - Z.to_nat (rb_size b - 1))%nat with 1%nat by lia.
      destruct (rb_list b); [cbn in Hlen; lia|done].
  - destruct (write1_spec b v Hb Hz) as (b' & E & Hb' & Hs & Hl). exists b'. rewrite E, Hl.
    split; [done|]. split; [done|]. split; [done|]. symmetry. apply lastn_all.
    assert (0 <= lwrb_get_free b); [|rewrite length_app; cbn; lia].
    unfold lwrb_get_free, ring_ok in *. z_case; lia.
Qed.

Lemma peek_spec b n : ring_ok b -> lwrb_get_full b <= n -> lwrb_peek b n = Some (rb_list b).
Proof.
  intros Hb Hn. pose proof (rb_list_length b Hb) as Hlen. unfold lwrb_peek.
  rewrite Z.min_l by done. destruct (Z.eqb_spec (lwrb_get_full b) 0) as [H0|H0].
  { destruct (rb_list b); [done|cbn in Hlen; lia]. }
  destruct Hb as [Hr Hw]. unfold lwrb_get_full, rb_list, rb_size in *.
  destruct b as [l w r]. cbn [rb_buff rb_w rb_r] in *.
  destruct (Z.leb_spec r w).
  - rewrite Z.min_r by lia. rewrite !rd_n_in_bounds by lia. cbn [mbind option_bind]. f_equal.
    rewrite Z.sub_diag. cbn [Z.to_nat take]. rewrite app_nil_r, skipn_firstn_comm. f_equal. lia.
  - rewrite Z.min_l by lia. rewrite !rd_n_in_bounds by lia. cbn [mbind option_bind]. f_equal. f_equal.
    + apply take_ge. rewrite length_drop. lia.
    + change (Z.to_nat 0) with 0%nat. rewrite drop_0. f_equal. lia.
Qed.

(** The ring cut at its two pointers. *)
Lemma ring_cut b : ring_ok b ->
  (exists P T, rb_buff b = P ++ rb_list b ++ T /\ rb_r b = Z.of_nat (length P) /\
     rb_w b = Z.of_nat (length P + length (rb_list b)) /\ T <> []) \/
  (exists Q G R, rb_buff b = Q ++ G ++ R /\ rb_list b = R ++ Q /\ rb_w b = Z.of_nat (length Q) /\
     rb_r b = Z.of_nat (length Q + length G) /\ G <> [] /\ R <> []).
Proof.
  destruct b as [l w r]. unfold ring_ok, rb_size, rb_list. cbn [rb_buff rb_w rb_r]. intros [Hr Hw].
  destruct (Z.leb_spec r w).
  - left. exists (take (Z.to_nat r) l), (drop (Z.to_nat w) l).
    rewrite !length_take, length_drop, length_take. split; [|split; [lia|split; [lia|]]].
    + rewrite <-(take_drop (Z.to_nat w) l) at 1. rewrite app_assoc. f_equal.
      rewrite <-(take_drop (Z.to_nat r) (take (Z.to_nat w) l)) at 1. f_equal. rewrite take_take. f_equal. lia.
    + intros E%(f_equal length). rewrite length_drop in E. cbn in E. lia.
  - right. exists (take (Z.to_nat w) l), (drop (Z.to_nat w) (take (Z.to_nat r) l)), (drop (Z.to_nat r) l).
    rewrite !length_take, length_drop, length_take. split; [|split; [done|split; [lia|split; [lia|split]]]].
    + rewrite app_assoc. rewrite <-(take_drop (Z.to_nat r) l) at 1. f_equal.
      rewrite <-(take_drop (Z.to_nat w) (take (Z.to_nat r) l)) at 1. f_equal. rewrite take_take. f_equal. lia.
    + intros E%(f_equal length). rewrite length_drop, length_take in E. cbn in E. lia.
    + intros E%(f_equal length). rewrite length_drop in E. cbn in E. lia.
Qed.

Lemma wr_n_mid {A} (X Y Z v : list A) i : i = Z.of_nat (length X) -> length v = length Y ->
  wr_n (X ++ Y ++ Z) i v = Some (X ++ v ++ Z).
Proof.
  intros -> Hv. rewrite wr_n_in_bounds by (rewrite ?length_app; lia). rewrite Nat2Z.id, take_app_length. do 3 f_equal.
  rewrite Hv, app_assoc, <-length_app. apply drop_app_length.
Qed.

Lemma rd_n_mid {A} (X Y Z : list A) i n : i = Z.of_nat (length X) -> n = Z.of_nat (length Y) ->
  rd_n (X ++ Y ++ Z) i n = Some Y.
Proof.
  intros -> ->. rewrite rd_n_in_bounds by (rewrite ?length_app; lia). rewrite !Nat2Z.id, drop_app_length. by rewrite take_app_length.
Qed.

Lemma rb_list_straight (P S T : list Z) :
  rb_list (mk_lwrb (P ++ S ++ T) (Z.of_nat (length P + length S)) (Z.of_nat (length P))) = S.
Proof.
  unfold rb_list. cbn [rb_buff rb_w rb_r]. rewrite (proj2 (Z.leb_le _ _)) by lia. rewrite !Nat2Z.id, app_assoc.
  rewrite take_app_length' by (by rewrite length_app). apply drop_app_length.
Qed.

Lemma rb_list_wrapped (Q G R : list Z) : G <> [] ->
  rb_list (mk_lwrb (Q ++ G ++ R) (Z.of_nat (length Q)) (Z.of_nat (length Q + length G))) = R ++ Q.
Proof.
  intros HG. destruct G as [|g G]; [done|]. unfold rb_list. cbn [rb_buff rb_w rb_r length].
  rewrite (proj2 (Z.leb_gt _ _)) by lia. rewrite !Nat2Z.id, take_app_length, app_assoc.
  rewrite drop_app_length'; [done|]. rewrite length_app. cbn. lia.
Qed.

(** The two stores of a write, with the guards taken. *)
Lemma write_unfold b data : ring_ok b -> (0 < length data)%nat -> Z.of_nat (length data) <= lwrb_get_free b ->
  lwrb_write b data =
    (let n := Z.of_nat (length data) in
     let tocopy := Z.min (rb_size b - rb_w b) n in
     buff ← wr_n (rb_buff b) (rb_w b) (take (Z.to_nat tocopy) data);
     buff ← (if 0 <? n - tocopy then wr_n buff 0 (drop (Z.to_nat tocopy) data) else Some buff);
     let w := if 0 <? n - tocopy then n - tocopy else rb_w b + tocopy in
     Some (n, mk_lwrb buff (if rb_size b <=? w then 0 else w) (rb_r b))).
Proof.
  intros [Hr Hw] Hd Hfit. unfold lwrb_write.
  rewrite (proj2 (Z.eqb_neq (Z.of_nat (length data)) 0)), (proj2 (Z.eqb_neq (lwrb_get_free b) 0)) by lia. cbn [orb].
  rewrite (Z.min_r (lwrb_get_free b)) by done. cbv zeta. set (c := Z.min (rb_size b - rb_w b) _).
  rewrite (take_ge (drop _ data)) by (rewrite length_drop; lia).
  destruct (wr_n _ _ _) as [x|]; [|done]. cbn [mbind option_bind]. match goal with |- context [mbind _ ?o] => destruct o as [y|]; [|done] end.
  cbn [mbind option_bind]. replace (c + (Z.of_nat (length data) - c)) with (Z.of_nat (length data)) by lia. by destruct b.
Qed.

(** A write that fits appends its bytes to the queue. *)
Lemma write_spec b data : ring_ok b -> Z.of_nat (length data) <= lwrb_get_free b ->
  exists b', lwrb_write b data = Some (Z.of_nat (length data), b') /\ ring_ok b' /\ rb_size b' = rb_size b /\
    rb_list b' = rb_list b ++ data.
Proof.
  intros Hb Hfit. destruct (decide (length data = 0)%nat) as [Hd|Hd].
  { destruct data; [|done]. exists b. by rewrite app_nil_r. }
  rewrite write_unfold by (done || lia). cbv zeta. pose proof (rb_list_length b Hb) as Hlen.
  pose proof (get_free_full b) as Hff. assert (Hsz : rb_size b = Z.of_nat (length (rb_buff b))) by done.
  destruct (ring_cut b Hb) as [(P & T & El & Er & Ew & HT)|(Q & G & R & El & Es & Ew & Er & HG & HR)].
  - assert (HTl : (0 < length T)%nat) by (destruct T; [done|cbn; lia]). set (S := rb_list b) in *. clearbody S.
    rewrite El, !length_app in Hsz. rewrite Hsz, El, Ew, Er.
    destruct (decide (length data <= length T)%nat) as [Hk|Hk].
    + rewrite Z.min_r by lia. rewrite Nat2Z.id, firstn_all, Z.sub_diag. cbn [Z.ltb Z.compare].
      rewrite <-(take_drop (length data) T), (app_assoc P).
      rewrite wr_n_mid by (rewrite ?length_app, ?length_take; lia). cbn [mbind option_bind]. eexists. split; [reflexivity|].
      set (T2 := drop (length data) T). assert (HT2 : length T2 = (length T - length data)%nat) by apply length_drop.
      unfold ring_ok, rb_size. cbn [rb_buff rb_w rb_r]. rewrite !length_app, length_take. clearbody T2.
      z_case; (split; [lia|]); (split; [lia|]).
      * assert (T2 = []) as -> by (destruct T2; [done|cbn [length] in *; lia]). rewrite app_nil_r, <-app_assoc.
        rewrite <-(app_nil_r (S ++ data)) at 2. apply (rb_list_wrapped [] P (S ++ data)). destruct P; [|done]. cbn [length] in *. lia.
      * rewrite <-app_assoc, (app_assoc S). replace (Z.of_nat (length P + length S) + Z.of_nat (length data))
          with (Z.of_nat (length P + length (S ++ data))) by (rewrite length_app; lia). apply rb_list_straight.
    + rewrite Z.min_l by lia. rewrite (proj2 (Z.ltb_lt _ _)) by lia.
      set (t := Z.to_nat _). assert (Ht : t = length T) by lia. clearbody t. subst t.
      replace (P ++ S ++ T) with ((P ++ S) ++ T ++ []) by (by rewrite app_nil_r, app_assoc).
      rewrite wr_n_mid by (rewrite ?length_take, ?length_app; lia). cbn [mbind option_bind].
      set (v1 := take (length T) data). set (v2 := drop (length T) data).
      assert (Hv : data = v1 ++ v2) by (symmetry; apply take_drop).
      assert (Hv1 : length v1 = length T) by (unfold v1; rewrite length_take; lia).
      assert (Hv2 : length v2 = (length data - length T)%nat) by apply length_drop.
      rewrite <-(take_drop (length v2) P). set (P1 := take (length v2) P). set (P2 := drop (length v2) P).
      assert (HP1 : length P1 = length v2) by (unfold P1; rewrite length_take; lia).
      assert (HP2 : length P2 = (length P - length v2)%nat) by apply length_drop. clearbody v1 v2 P1 P2. subst data.
      rewrite <-!app_assoc, app_nil_r. change (P1 ++ P2 ++ S ++ v1) with ([] ++ P1 ++ P2 ++ S ++ v1).
      rewrite wr_n_mid by done. cbn [mbind option_bind]. eexists. split; [reflexivity|].
      unfold ring_ok, rb_size. cbn [rb_buff rb_w rb_r app]. rewrite !length_app in *. cbn [length].
      rewrite (proj2 (Z.leb_gt _ _)) by lia. split; [lia|]. split; [lia|].
      replace (Z.of_nat (length v1 + length v2) - _) with (Z.of_nat (length v2)) by lia.
      transitivity ((S ++ v1) ++ v2); [|by rewrite app_assoc].
      rewrite <-(rb_list_wrapped v2 P2 (S ++ v1)) by (destruct P2; [cbn [length] in *; lia|done]).
      rewrite HP1. f_equal; lia.
  - assert (HRl : (0 < length R)%nat) by (destruct R; [done|cbn; lia]).
    assert (Hn : (length data < length G)%nat) by (rewrite Es, length_app in Hlen; rewrite El, !length_app in Hsz; lia).
    rewrite El, !length_app in Hsz. rewrite Hsz, El, Ew, Er, Es.
    rewrite Z.min_r by lia. rewrite Nat2Z.id, firstn_all, Z.sub_diag. cbn [Z.ltb Z.compare].
    rewrite <-(take_drop (length data) G). set (G2 := drop (length data) G).
    assert (HG2 : length G2 = (length G - length data)%nat) by apply length_drop.
    rewrite <-app_assoc, wr_n_mid by (rewrite ?length_take; lia). cbn [mbind option_bind]. eexists. split; [reflexivity|].
    unfold ring_ok, rb_size. cbn [rb_buff rb_w rb_r]. rewrite !length_app, length_take. clearbody G2.
    rewrite (proj2 (Z.leb_gt _ _)) by lia. split; [lia|]. split; [lia|].
    transitivity (R ++ (Q ++ data)); [|by rewrite app_assoc].
    rewrite <-(rb_list_wrapped (Q ++ data) G2 R) by (destruct G2; [cbn [length] in *; lia|done]).
    rewrite <-app_assoc, length_app. f_equal. f_equal; lia.
Qed.

Lemma rd_n_part {A} (l X Y Z : list A) i n : l = X ++ Y ++ Z -> i = Z.of_nat (length X) -> n = Z.of_nat (length Y) ->
  rd_n l i n = Some Y.
Proof. intros ->. apply rd_n_mid. Qed.

(** The updated ring as a record. *)
Ltac set_as_record :=
  match goal with |- context [?b <| rb_r := ?x |>] =>
    change (b <| rb_r := x |>) with (mk_lwrb (rb_buff b) (rb_w b) x) end.

(** A read takes the first bytes of the queue. *)
Lemma read_spec b n : ring_ok b -> 0 <= n ->
  exists b', lwrb_read b n = Some (take (Z.to_nat n) (rb_list b), b') /\ ring_ok b' /\ rb_size b' = rb_size b /\
    rb_list b' = drop (Z.to_nat n) (rb_list b).
Proof.
  intros Hb Hn. unfold lwrb_read. pose proof (rb_list_length b Hb) as Hlen.
  destruct (Z.eqb_spec n 0) as [->|Hn0]; [by exists b|]. cbn [orb].
  destruct (Z.eqb_spec (lwrb_get_full b) 0) as [Hf|Hf].
  { exists b. destruct (rb_list b); [|cbn in Hlen; lia]. by rewrite take_nil, drop_nil. }
  assert (Hsz : rb_size b = Z.of_nat (length (rb_buff b))) by done. cbv zeta.
  set (m := Z.min (lwrb_get_full b) n).
  rewrite <-(take_drop (Z.to_nat n) (rb_list b)) in Hlen.
  rewrite length_app in Hlen.
  assert (Hm : m = Z.of_nat (length (take (Z.to_nat n) (rb_list b)))) by (rewrite length_take; rewrite length_take, length_drop in Hlen; lia).
  destruct (ring_cut b Hb) as [(P & T & El & Er & Ew & HT)|(Q & G & R & El & Es & Ew & Er & HG & HR)].
  - rewrite <-(take_drop (Z.to_nat n) (rb_list b)) in El, Ew. rewrite !length_app in Ew.
    rewrite El, !length_app in Hsz. set (S1 := take _ (rb_list b)) in *. set (S2 := drop _ (rb_list b)) in *. clearbody S1 S2 m.
    assert (HTl : (0 < length T)%nat) by (destruct T; [done|cbn; lia]).
    set_as_record. subst m. rewrite Hsz, El, Er, Ew, Z.min_r by lia.
    rewrite <-!app_assoc, (rd_n_mid P S1 _ (Z.of_nat (length P)) (Z.of_nat (length S1))) by done. cbn [mbind option_bind].
    rewrite Z.sub_diag, rd_n_in_bounds by lia. cbn [mbind option_bind]. change (Z.to_nat 0) with 0%nat. rewrite take_0.
    cbn [Z.ltb Z.compare]. rewrite app_nil_r, (proj2 (Z.leb_gt _ _)) by lia. eexists. split; [reflexivity|].
    unfold ring_ok, rb_size. cbn [rb_buff rb_w rb_r]. rewrite !length_app. split; [lia|]. split; [lia|].
    etransitivity; [|apply (rb_list_straight (P ++ S1) S2 T)]. rewrite length_app, <-!app_assoc. f_equal. f_equal; lia.
  - assert (HRl : (0 < length R)%nat) by (destruct R; [done|cbn; lia]).
    assert (HGl : (0 < length G)%nat) by (destruct G; [done|cbn; lia]).
    rewrite Es in *. rewrite El, !length_app in Hsz. rewrite length_take, length_app in Hm.
    rewrite length_take, length_drop, length_app in Hlen. clearbody m.
    set_as_record. rewrite Hsz, El, Er, Ew. destruct (decide (m < Z.of_nat (length R))) as [Hk|Hk].
    + rewrite Z.min_r by lia. rewrite take_app_le, drop_app_le by lia.
      replace (Q ++ G ++ R) with ((Q ++ G) ++ take (Z.to_nat n) R ++ drop (Z.to_nat n) R) by (by rewrite take_drop, <-app_assoc).
      assert (HR1 : length (take (Z.to_nat n) R) = Z.to_nat m) by (rewrite length_take; lia).
      assert (HRs : length R = (length (take (Z.to_nat n) R) + length (drop (Z.to_nat n) R))%nat) by (rewrite <-length_app, take_drop; done).
      assert (HRd : length (drop (Z.to_nat n) R) = (length R - Z.to_nat n)%nat) by apply length_drop.
      set (R1 := take _ R) in *. set (R2 := drop _ R) in *. clearbody R1 R2.
      rewrite (rd_n_mid (Q ++ G) R1 _ (Z.of_nat (length Q + length G)) m) by (rewrite ?length_app; lia). cbn [mbind option_bind].
      rewrite Z.sub_diag, rd_n_in_bounds by lia. cbn [mbind option_bind]. change (Z.to_nat 0) with 0%nat. rewrite take_0.
      cbn [Z.ltb Z.compare]. rewrite app_nil_r, (proj2 (Z.leb_gt _ _)) by lia. eexists. split; [reflexivity|].
      unfold ring_ok, rb_size. cbn [rb_buff rb_w rb_r]. rewrite !length_app. split; [lia|]. split; [lia|].
      etransitivity; [|apply (rb_list_wrapped Q (G ++ R1) R2); by destruct G]. rewrite length_app, <-!app_assoc. f_equal. f_equal; lia.
    + rewrite Z.min_l by lia. set (v := m - _). assert (Hv : v = m - Z.of_nat (length R)) by lia. clearbody v.
      rewrite take_app, drop_app, take_ge, drop_ge by lia. cbn [app].
      set (k := (Z.to_nat n - length R)%nat).
      assert (Hq : length Q = (length (take k Q) + length (drop k Q))%nat) by (rewrite <-length_app, take_drop; done).
      assert (Hq1 : length (take k Q) = Z.to_nat v) by (rewrite length_take; lia).
      rewrite (rd_n_part _ (Q ++ G) R [] (Z.of_nat (length Q + length G))) by (rewrite ?app_nil_r, ?length_app, <-?app_assoc; done || lia).
      rewrite (rd_n_part _ [] (take k Q) (drop k Q ++ G ++ R) 0) by (cbn [app length]; rewrite ?app_assoc, ?take_drop; done || lia).
      cbn [mbind option_bind]. replace (Q ++ G ++ R) with (take k Q ++ drop k Q ++ G ++ R) by (by rewrite app_assoc, take_drop).
      eexists. split; [reflexivity|]. set (Q1 := take k Q) in *. set (Q2 := drop k Q) in *. clearbody Q1 Q2 k. cbn [app].
      unfold ring_ok, rb_size. cbn [rb_buff rb_w rb_r]. rewrite !length_app. destruct (Z.ltb_spec 0 v) as [Hv0|Hv0].
      * rewrite (proj2 (Z.leb_gt _ _)) by lia. split; [lia|]. split; [lia|].
        etransitivity; [|apply (rb_list_straight Q1 Q2 (G ++ R))]. f_equal. f_equal; lia.
      * rewrite (proj2 (Z.leb_le _ _)) by lia. split; [lia|]. split; [lia|].
        assert (Q1 = []) as -> by (destruct Q1; [done|cbn [length] in *; lia]).
        etransitivity; [|apply (rb_list_straight [] Q2 (G ++ R))]. cbn [app length] in *. f_equal. f_equal; lia.
Qed.

Lemma init_spec data : data <> [] ->
  ring_ok (lwrb_init data) /\ rb_size (lwrb_init data) = Z.of_nat (length data) /\ rb_list (lwrb_init data) = [].
Proof.
  intros Hd. unfold ring_ok, rb_size, rb_list. cbn [lwrb_init rb_buff rb_w rb_r]. destruct data; [done|]. cbn [length].
  split; [lia|]. split; [done|]. reflexivity.
Qed.

Lemma reset_spec b : ring_ok b ->
  ring_ok (lwrb_reset b) /\ rb_size (lwrb_reset b) = rb_size b /\ rb_list (lwrb_reset b) = [].
Proof.
  destruct b as [l w r]. unfold ring_ok, rb_size, rb_list, lwrb_reset. rsimpl. cbn [rb_buff rb_w rb_r]. intros [Hr Hw].
  split; [lia|]. split; [done|]. reflexivity.
Qed.
