(* ===== verification/AckWire.v ===== *)
(** * Wire formats of the reliability layer: [src/halow_ack.c]

    Frame classifiers, the FNV-1a hash, the fid-list and bitmap ACK frames,
    the bundle envelope, and the bundle walks of [src/halow_ack.c] and
    [src/halow_pkg_handler.c].  Everything here is a pure function of bytes. *)

From S2P Require Import Prelude.

Definition HALOW_ACK_MAGIC0 : Z := 0xA5.
Definition HALOW_ACK_MAGIC1 : Z := 0x5A.
Definition HALOW_ACK_ACK_FIDS_MAX : Z := 16.
Definition HALOW_ACK_ACK_LEN_MIN : Z := 5.
Definition HALOW_ACK_ACK_LEN_MAX : Z := 3 + 2 * HALOW_ACK_ACK_FIDS_MAX.
Definition HALOW_ENV_VER : Z := 1.
Definition HALOW_ENV_TYPE_BUNDLE : Z := 0.
Definition HALOW_ENV_TYPE_ACK : Z := 1.
Definition HALOW_ENV_BUNDLE_HDR : Z := 6.
Definition HALOW_ENV_ACK_LEN : Z := 14.
Definition HALOW_ACK_SEQ_WINDOW : Z := 64.
Definition HALOW_ACK_AGG_MAX_SUB : Z := 8.

(** Byte [i] of a frame whose length has been checked. *)
Definition byte (d : list Z) (i : Z) : Z := default 0 (rd d i).
Definition blen (d : list Z) : Z := Z.of_nat (length d).

Definition mac_eq (a b : list Z) : bool := foldr Z.lor 0 (zip_with Z.lxor a b) =? 0.
Definition is_broadcast (m : list Z) : bool := foldr Z.land 0xFF m =? 0xFF.

Definition fnv1a (p : list Z) : Z :=
  fold_left (fun h b => u32 (u32 (Z.lxor h b) * 16777619)) p 2166136261.

Definition halow_env_ver (d : list Z) : Z := u8 (Z.shiftr (byte d 2) 4).
Definition halow_env_type (d : list Z) : Z := u8 (Z.land (byte d 2) 0x0F).

Definition is_ack_frame (d : list Z) : bool :=
  (HALOW_ACK_ACK_LEN_MIN <=? blen d) && (blen d <=? HALOW_ACK_ACK_LEN_MAX) &&
  (Z.land (u32 (blen d - 3)) 1 =? 0) &&
  (byte d 0 =? HALOW_ACK_MAGIC0) && (byte d 1 =? HALOW_ACK_MAGIC1) && (0x80 <=? byte d 2).

Definition is_env_frame (d : list Z) : bool :=
  (3 <=? blen d) && (byte d 0 =? HALOW_ACK_MAGIC0) && (byte d 1 =? HALOW_ACK_MAGIC1) &&
  (byte d 2 <? 0x80).

Definition halow_ack_is_internal_frame (d : list Z) : bool :=
  is_ack_frame d || (is_env_frame d && (halow_env_type d =? HALOW_ENV_TYPE_ACK)).

(** Little-endian 16-bit fields. *)
Definition le16 (v : Z) : list Z := [u8 (Z.land v 0xFF); u8 (Z.land (Z.shiftr v 8) 0xFF)].
Definition rd16 (d : list Z) (i : Z) : Z := u16 (Z.lor (byte d i) (Z.shiftl (byte d (i + 1)) 8)).

(** ** ACK frames *)

(** The frame [send_env_ack] builds. *)
Definition env_ack_frame (evm base bm : Z) : list Z :=
  [HALOW_ACK_MAGIC0; HALOW_ACK_MAGIC1; u8 (Z.lor (Z.shiftl HALOW_ENV_VER 4) HALOW_ENV_TYPE_ACK); u8 evm]
  ++ le16 base ++ map (fun b => u8 (Z.land (Z.shiftr bm (8 * b)) 0xFF)) (seqZ 0 8).

(** What [rx_env_ack_locked] reads back: EVM, base sequence number, bitmap. *)
Definition env_ack_evm (d : list Z) : Z := i8 (byte d 3).
Definition env_ack_base (d : list Z) : Z := rd16 d 4.
Definition env_ack_bitmap (d : list Z) : Z :=
  fold_left (fun bm b => Z.lor bm (Z.shiftl (byte d (6 + b)) (8 * b))) (seqZ 0 8) 0.

(** The frame [send_fid_ack] builds from its first [nfids] identifiers. *)
Definition fid_ack_frame (evm : Z) (fids : list Z) : list Z :=
  [HALOW_ACK_MAGIC0; HALOW_ACK_MAGIC1; if negb (evm =? 0) then u8 evm else 0x80]
  ++ concat (map le16 fids).

(** The identifiers [rx_ack] reads. *)
Definition fid_ack_fids (d : list Z) : list Z :=
  let nfids := (blen d - 3) / 2 in
  let nfids := if HALOW_ACK_ACK_FIDS_MAX <? nfids then HALOW_ACK_ACK_FIDS_MAX else nfids in
  map (fun k => rd16 d (3 + 2 * k)) (seqZ 0 nfids).

(** ** Bundles *)

(** The loop of [env_bundle_walk_ok] and [bundle_walk_valid]: [None] when a
    subframe runs past the end, otherwise the offset reached. *)
Fixpoint bundle_walk (d : list Z) (nsub : nat) (off : Z) : option Z :=
  match nsub with
  | O => Some off
  | S nsub =>
      if blen d <? off + 2 then None
      else
        let sl := rd16 d off in
        if blen d <? off + 2 + sl then None
        else bundle_walk d nsub (off + 2 + sl)
  end.

Definition env_bundle_walk_ok (d : list Z) : bool :=
  match bundle_walk d (Z.to_nat (byte d 5)) HALOW_ENV_BUNDLE_HDR with
  | Some off => off =? blen d
  | None => false
  end.

Definition bundle_walk_valid (d : list Z) (hdr_len nsub : Z) : bool :=
  match bundle_walk d (Z.to_nat nsub) hdr_len with
  | Some off => off =? blen d
  | None => false
  end.

(** The subframes [bundle_split_deliver] cuts out. *)
Fixpoint bundle_split (d : list Z) (nsub : nat) (o : Z) : option (list (list Z)) :=
  match nsub with
  | O => Some []
  | S nsub =>
      let slen := rd16 d o in
      sub ← rd_n d (o + 2) slen;
      rest ← bundle_split d nsub (o + 2 + slen);
      Some (sub :: rest)
  end.

Definition is_env_bundle (d : list Z) : bool :=
  (HALOW_ENV_BUNDLE_HDR + 2 <=? blen d) && (byte d 0 =? HALOW_ACK_MAGIC0) &&
  (byte d 1 =? HALOW_ACK_MAGIC1) && (halow_env_type d =? HALOW_ENV_TYPE_BUNDLE) &&
  (halow_env_ver d =? HALOW_ENV_VER).

(** The six header bytes [agg_flush_locked] writes. *)
Definition bundle_header (seq nsub : Z) : list Z :=
  [HALOW_ACK_MAGIC0; HALOW_ACK_MAGIC1; u8 (Z.lor (Z.shiftl HALOW_ENV_VER 4) HALOW_ENV_TYPE_BUNDLE)]
  ++ le16 seq ++ [nsub].

(** The staged body: length-prefixed subframes. *)
Definition bundle_body (subs : list (list Z)) : list Z :=
  concat (map (fun s => le16 (blen s) ++ s) subs).
Definition bundle_frame (seq : Z) (subs : list (list Z)) : list Z :=
  bundle_header seq (Z.of_nat (length subs)) ++ bundle_body subs.

(** [ewma_i8]: 16-bit signed arithmetic, division truncating towards zero. *)
Definition ewma_i8 (cur sample w : Z) : Z := i8 (Z.quot (cur * (w - 1) + sample) w).

(** ** Bytes and fields *)

Lemma byte_app_l d e i : 0 <= i < blen d -> byte (d ++ e) i = byte d i.
Proof.
  intros Hi. unfold byte, rd, blen in *. rewrite !decide_True by lia.
  by rewrite lookup_app_l by lia.
Qed.
Lemma byte_app_r d e i : blen d <= i -> byte (d ++ e) i = byte e (i - blen d).
Proof.
  intros Hi. unfold byte, rd, blen in *. rewrite !decide_True by lia.
  rewrite lookup_app_r by lia. do 2 f_equal. lia.
Qed.
Lemma blen_app d e : blen (d ++ e) = blen d + blen e.
Proof. unfold blen. rewrite length_app. lia. Qed.
Lemma blen_nonneg d : 0 <= blen d.
Proof. unfold blen. lia. Qed.

Lemma is_u8_byte d i : is_bytes d -> is_u8 (byte d i).
Proof.
  intros Hd. unfold byte. destruct (rd d i) as [x|] eqn:E; cbn; [|by_eval].
  apply rd_Some in E as [_ E]. by eapply is_bytes_lookup.
Qed.

Lemma le16_rd16 v : is_u16 v ->
  u16 (Z.lor (u8 (Z.land v 0xFF)) (Z.shiftl (u8 (Z.land (Z.shiftr v 8) 0xFF)) 8)) = v.
Proof.
  intros Hv. rewrite !land_0xFF, shiftr_div by lia. rewrite !(u8_small (_ mod 256)) by word_lia.
  rewrite lor_shiftl_add by (try lia; word_lia). word_lia.
Qed.

Lemma le16_bytes v : is_bytes (le16 v).
Proof. apply Forall_cons; split; [auto with words|]. apply Forall_singleton. auto with words. Qed.
Lemma le16_length v : length (le16 v) = 2%nat.
Proof. done. Qed.

(** A 16-bit field in the middle of a frame. *)
Lemma rd16_le16 pre v post :
  is_u16 v -> rd16 (pre ++ le16 v ++ post) (blen pre) = v.
Proof.
  intros Hv. unfold rd16.
  rewrite (byte_app_r pre _ (blen pre)), (byte_app_r pre _ (blen pre + 1)) by lia.
  rewrite Z.sub_diag. replace (blen pre + 1 - blen pre) with 1 by lia.
  rewrite !byte_app_l by (unfold blen; rewrite le16_length; lia). by apply le16_rd16.
Qed.

Lemma mac_eq_spec a b : length a = length b -> Forall (Z.le 0) a -> Forall (Z.le 0) b ->
  mac_eq a b = true <-> a = b.
Proof.
  unfold mac_eq. rewrite Z.eqb_eq. revert b. induction a as [|x a IH]; intros [|y b] Hl Ha Hb;
    cbn in Hl |- *; try done.
  apply Forall_cons in Ha as [Hx Ha]. apply Forall_cons in Hb as [Hy Hb].
  rewrite Z.lor_eq_0_iff, IH by (done || lia). rewrite Z.lxor_eq_0_iff. naive_solver.
Qed.

(** ** ACK frames round-trip *)

Lemma env_ack_fields evm base bm :
  -128 <= evm < 128 -> is_u16 base ->
  env_ack_evm (env_ack_frame evm base bm) = evm /\ env_ack_base (env_ack_frame evm base bm) = base /\
  blen (env_ack_frame evm base bm) = HALOW_ENV_ACK_LEN /\
  is_env_frame (env_ack_frame evm base bm) = true /\
  halow_env_ver (env_ack_frame evm base bm) = HALOW_ENV_VER /\
  halow_env_type (env_ack_frame evm base bm) = HALOW_ENV_TYPE_ACK.
Proof.
  intros He Hb. split_and!; try reflexivity.
  - unfold env_ack_evm, env_ack_frame, byte, rd. rewrite decide_True by lia. change (i8 (u8 evm) = evm). word_lia.
  - unfold env_ack_base. change (env_ack_frame evm base bm) with
      ([HALOW_ACK_MAGIC0; HALOW_ACK_MAGIC1; u8 (Z.lor (Z.shiftl HALOW_ENV_VER 4) HALOW_ENV_TYPE_ACK); u8 evm]
       ++ le16 base ++ map (fun b => u8 (Z.land (Z.shiftr bm (8 * b)) 0xFF)) (seqZ 0 8)).
    by apply (rd16_le16 [_; _; _; _]).
Qed.

Lemma byte_of_word x k n : 0 <= k -> 0 <= n < 8 -> Z.testbit (u8 (Z.land (Z.shiftr x k) 0xFF)) n = Z.testbit x (k + n).
Proof.
  intros Hk Hn. rewrite land_0xFF. rewrite u8_small by word_lia.
  change 256 with (2 ^ 8). rewrite Z.mod_pow2_bits_low by lia. rewrite Z.shiftr_spec by lia. f_equal. lia.
Qed.

(** Reading the eight bitmap bytes back gives the bitmap. *)
Lemma env_ack_bitmap_frame evm base bm : is_u64 bm ->
  env_ack_bitmap (env_ack_frame evm base bm) = bm.
Proof.
  intros Hbm. unfold env_ack_bitmap.
  assert (Hby : forall b, 0 <= b < 8 ->
    byte (env_ack_frame evm base bm) (6 + b) = u8 (Z.land (Z.shiftr bm (8 * b)) 0xFF)).
  { intros b Hb. unfold env_ack_frame. rewrite byte_app_r by (unfold blen; cbn; lia).
    rewrite byte_app_r by (unfold blen; rewrite le16_length; cbn; lia).
    unfold blen. rewrite le16_length. cbn [length]. replace (6 + b - Z.of_nat 4 - Z.of_nat 2) with b by lia.
    assert (b = 0 \/ b = 1 \/ b = 2 \/ b = 3 \/ b = 4 \/ b = 5 \/ b = 6 \/ b = 7) as Hc by lia.
    repeat destruct Hc as [->|Hc]; try subst b; reflexivity. }
  change (seqZ 0 8) with [0;1;2;3;4;5;6;7]. cbn [fold_left].
  rewrite !Hby by lia. apply Z.bits_inj'. intros n Hn.
  rewrite Z.lor_0_l, !Z.lor_spec, !Z.shiftl_spec by lia.
  destruct (decide (n < 64)) as [Hlt|Hge].
  - set (q := n / 8). assert (Hq : 8 * q <= n < 8 * q + 8 /\ 0 <= q < 8) by (subst q; Z.to_euclidean_division_equations; lia).
    assert (Hhit : forall b, 0 <= b < 8 ->
      Z.testbit (u8 (Z.land (Z.shiftr bm (8 * b)) 255)) (n - 8 * b) = (b =? q) && Z.testbit bm n).
    { intros b Hb. destruct (Z.eqb_spec b q) as [->|Hne].
      - rewrite byte_of_word by lia. cbn [andb]. f_equal. lia.
      - cbn [andb]. destruct (decide (n - 8 * b < 0)); [by apply Z.testbit_neg_r|].
        rewrite <-(Z.mod_small (u8 _) (2 ^ 8)) by (apply u8_range). apply Z.mod_pow2_bits_high. lia. }
    rewrite !Hhit by lia.
    assert (q = 0 \/ q = 1 \/ q = 2 \/ q = 3 \/ q = 4 \/ q = 5 \/ q = 6 \/ q = 7) as Hc by lia.
    clearbody q. repeat destruct Hc as [->|Hc]; try subst q; cbn [Z.eqb Pos.eqb andb];
      destruct (Z.testbit bm n); reflexivity.
  - assert (Hz : Z.testbit bm n = false).
    { rewrite <-(Z.mod_small bm (2 ^ 64)) by exact Hbm. apply Z.mod_pow2_bits_high. lia. }
    assert (Hmiss : forall b, 0 <= b < 8 ->
      Z.testbit (u8 (Z.land (Z.shiftr bm (8 * b)) 255)) (n - 8 * b) = false).
    { intros b Hb. rewrite <-(Z.mod_small (u8 _) (2 ^ 8)) by (apply u8_range). apply Z.mod_pow2_bits_high. lia. }
    by rewrite !Hmiss, Hz by lia.
Qed.

Lemma fid_frame_length evm fids : blen (fid_ack_frame evm fids) = 3 + 2 * blen fids.
Proof.
  unfold fid_ack_frame. rewrite blen_app. change (blen [_; _; _]) with 3.
  induction fids as [|f fids IH]; [done|]. cbn [map concat]. rewrite blen_app.
  unfold blen in *. rewrite le16_length. cbn [length]. lia.
Qed.

Lemma fids_read pre fids : Forall is_u16 fids ->
  forall tl, map (fun k => rd16 (pre ++ concat (map le16 fids) ++ tl) (blen pre + 2 * k)) (seqZ 0 (blen fids)) = fids.
Proof.
  revert pre. induction fids as [|f fids IH]; intros pre Hf tl; [done|].
  apply Forall_cons in Hf as [Hf Hfs]. unfold blen at 2. cbn [length].
  replace (Z.of_nat (S (length fids))) with (Z.succ (blen fids)) by (unfold blen; lia).
  rewrite (seqZ_cons 0) by (unfold blen; lia). cbn [map concat]. f_equal.
  - rewrite Z.mul_0_r, Z.add_0_r, <-app_assoc. by apply rd16_le16.
  - replace (Z.pred (Z.succ (blen fids))) with (blen fids) by lia.
    rewrite <-(IH (pre ++ le16 f) Hfs tl) at 2. rewrite <-(Z.add_1_r 0), <-(fmap_add_seqZ 1 0).
    rewrite map_map. apply map_ext. intros k. rewrite <-!app_assoc, blen_app. f_equal.
    change (blen (le16 f)) with 2. lia.
Qed.

Lemma fid_ack_classified evm fids :
  -128 <= evm <= 0 -> 1 <= blen fids <= 16 -> is_ack_frame (fid_ack_frame evm fids) = true.
Proof.
  intros He Hf. unfold is_ack_frame. rewrite fid_frame_length.
  unfold HALOW_ACK_ACK_LEN_MIN, HALOW_ACK_ACK_LEN_MAX, HALOW_ACK_ACK_FIDS_MAX.
  rewrite (proj2 (Z.leb_le 5 _)), (proj2 (Z.leb_le _ (3 + 2 * 16))) by lia.
  replace (Z.land (u32 (3 + 2 * blen fids - 3)) 1) with 0.
  2:{ rewrite (land_low _ 1 ltac:(lia)). word_lia. }
  change (byte (fid_ack_frame evm fids) 0) with HALOW_ACK_MAGIC0.
  change (byte (fid_ack_frame evm fids) 1) with HALOW_ACK_MAGIC1.
  change (byte (fid_ack_frame evm fids) 2) with (if negb (evm =? 0) then u8 evm else 0x80).
  rewrite !Z.eqb_refl. cbn [andb]. apply Z.leb_le.
  destruct (Z.eqb_spec evm 0); cbn [negb]; [lia|]. word_lia.
Qed.

Lemma fid_ack_fids_frame evm fids :
  Forall is_u16 fids -> 1 <= blen fids <= 16 -> fid_ack_fids (fid_ack_frame evm fids) = fids.
Proof.
  intros Hf Hl. unfold fid_ack_fids. rewrite fid_frame_length.
  replace ((3 + 2 * blen fids - 3) / 2) with (blen fids) by (Z.to_euclidean_division_equations; lia).
  unfold HALOW_ACK_ACK_FIDS_MAX. rewrite (proj2 (Z.ltb_ge 16 _)) by lia. cbv zeta.
  pose proof (fids_read [HALOW_ACK_MAGIC0; HALOW_ACK_MAGIC1; if negb (evm =? 0) then u8 evm else 0x80]
    fids Hf []) as Hr. rewrite app_nil_r in Hr. exact Hr.
Qed.

(** ** Bundles round-trip *)

Lemma body_cons s subs : bundle_body (s :: subs) = le16 (blen s) ++ s ++ bundle_body subs.
Proof. unfold bundle_body. cbn [map concat]. by rewrite <-app_assoc. Qed.

Definition subs_ok (subs : list (list Z)) : Prop := Forall (fun s => blen s < 65536) subs.

(** Walking and splitting an encoded body. *)
Lemma walk_body subs : forall pre tl, subs_ok subs ->
  bundle_walk (pre ++ bundle_body subs ++ tl) (length subs) (blen pre)
    = Some (blen pre + blen (bundle_body subs)) /\
  bundle_split (pre ++ bundle_body subs ++ tl) (length subs) (blen pre) = Some subs.
Proof.
  induction subs as [|s subs IH]; intros pre tl Hs.
  { cbn [bundle_walk bundle_split length]. change (blen (bundle_body [])) with 0. by rewrite Z.add_0_r. }
  apply Forall_cons in Hs as [Hs Hss]. cbn [bundle_walk bundle_split length]. rewrite body_cons.
  set (d := pre ++ (le16 (blen s) ++ s ++ bundle_body subs) ++ tl).
  assert (Hd : d = (pre ++ le16 (blen s) ++ s) ++ bundle_body subs ++ tl) by (subst d; by rewrite <-!app_assoc).
  assert (Hr : rd16 d (blen pre) = blen s).
  { subst d. rewrite <-app_assoc. apply rd16_le16. split; [apply blen_nonneg|exact Hs]. }
  assert (Hp : blen (pre ++ le16 (blen s) ++ s) = blen pre + 2 + blen s)
    by (rewrite !blen_app; change (blen (le16 (blen s))) with 2; lia).
  assert (Hb : blen d = blen pre + 2 + blen s + blen (bundle_body subs ++ tl)) by (rewrite Hd, blen_app; lia).
  pose proof (blen_nonneg (bundle_body subs ++ tl)). pose proof (blen_nonneg s). pose proof (blen_nonneg pre).
  rewrite Hr. rewrite (proj2 (Z.ltb_ge _ (blen pre + 2))) by lia.
  rewrite (proj2 (Z.ltb_ge _ (blen pre + 2 + blen s))) by lia.
  destruct (IH (pre ++ le16 (blen s) ++ s) tl Hss) as [Hw Hsp]. rewrite Hp, <-Hd in Hw, Hsp.
  rewrite Hw. split.
  - f_equal. rewrite !blen_app. change (blen (le16 (blen s))) with 2. lia.
  - rewrite rd_n_in_bounds by (unfold blen in *; lia). cbn [mbind option_bind]. rewrite Hsp. cbn [mbind option_bind].
    do 2 f_equal. rewrite Hd, <-app_assoc. rewrite drop_app_ge by (unfold blen; lia).
    replace (Z.to_nat (blen pre + 2) - length pre)%nat with 2%nat by (unfold blen; lia).
    change (drop 2 ((le16 (blen s) ++ s) ++ bundle_body subs ++ tl)) with (s ++ bundle_body subs ++ tl).
    apply take_app_length'. unfold blen. lia.
Qed.

Lemma le16_of_bytes b0 b1 : is_u8 b0 -> is_u8 b1 -> le16 (u16 (Z.lor b0 (Z.shiftl b1 8))) = [b0; b1].
Proof.
  intros H0 H1. rewrite lor_shiftl_add by (try lia; word_lia). unfold le16.
  rewrite !land_0xFF, shiftr_div by lia. f_equal; [|f_equal]; word_lia.
Qed.

(** A walk that succeeds has seen an encoded body. *)
Lemma walk_inv nsub : forall pre rest off',
  is_bytes rest -> bundle_walk (pre ++ rest) nsub (blen pre) = Some off' ->
  exists subs tl, length subs = nsub /\ subs_ok subs /\ rest = bundle_body subs ++ tl /\
    off' = blen pre + blen (bundle_body subs).
Proof.
  induction nsub as [|nsub IH]; intros pre rest off' Hb; cbn [bundle_walk].
  { intros [= <-]. exists [], rest. split_and!; [done|constructor|done|]. change (blen (bundle_body [])) with 0. lia. }
  pose proof (blen_nonneg rest) as Hnn. rewrite blen_app.
  destruct (Z.ltb_spec (blen pre + blen rest) (blen pre + 2)) as [|Hge]; [done|].
  destruct rest as [|b0 [|b1 rest]]; [unfold blen in Hge; cbn in Hge; lia..|].
  apply Forall_cons in Hb as [Hb0 Hb]. apply Forall_cons in Hb as [Hb1 Hb].
  set (sl := rd16 (pre ++ b0 :: b1 :: rest) (blen pre)).
  assert (Hsl : le16 sl = [b0; b1] /\ 0 <= sl < 65536).
  { subst sl. unfold rd16. rewrite (byte_app_r pre _ (blen pre)), (byte_app_r pre _ (blen pre + 1)) by lia.
    rewrite Z.sub_diag. replace (blen pre + 1 - blen pre) with 1 by lia.
    change (byte (b0 :: b1 :: rest) 0) with b0. change (byte (b0 :: b1 :: rest) 1) with b1.
    split; [by apply le16_of_bytes|apply u16_range]. }
  destruct Hsl as [Hle Hr]. clearbody sl.
  destruct (Z.ltb_spec (blen pre + blen (b0 :: b1 :: rest)) (blen pre + 2 + sl)) as [|Hfit]; [done|].
  assert (Hrest : sl <= blen rest) by (unfold blen in *; cbn [length] in *; lia).
  set (s := take (Z.to_nat sl) rest). set (rest' := drop (Z.to_nat sl) rest).
  assert (Hs : blen s = sl) by (subst s; unfold blen in *; rewrite length_take; lia).
  assert (Hsplit : b0 :: b1 :: rest = le16 sl ++ s ++ rest').
  { rewrite Hle. subst s rest'. cbn [app]. by rewrite take_drop. }
  replace (pre ++ b0 :: b1 :: rest) with ((pre ++ le16 sl ++ s) ++ rest') by (rewrite Hsplit, <-!app_assoc; done).
  replace (blen pre + 2 + sl) with (blen (pre ++ le16 sl ++ s))
    by (rewrite !blen_app, Hs; change (blen (le16 sl)) with 2; lia).
  intros Hw. apply IH in Hw as (subs & tl & Hl & Hok & Hr' & ->); [|by apply Forall_drop].
  exists (s :: subs), tl. split_and!.
  - cbn. lia.
  - constructor; [lia|done].
  - rewrite body_cons, Hs, <-!app_assoc, <-Hr'. exact Hsplit.
  - rewrite body_cons, !blen_app, Hs. change (blen (le16 sl)) with 2. lia.
Qed.

(** A bundle accepted by the receive filter is exactly an encoded list. *)
Lemma bundle_ok_inv d :
  is_bytes d -> 6 <= blen d -> env_bundle_walk_ok d = true ->
  exists subs, length subs = Z.to_nat (byte d 5) /\ subs_ok subs /\ d = take 6 d ++ bundle_body subs.
Proof.
  intros Hb Hl. unfold env_bundle_walk_ok.
  destruct (bundle_walk d _ _) as [off|] eqn:Hw; [|done]. intros Ho%Z.eqb_eq.
  rewrite <-(take_drop 6 d) in Hw at 1.
  assert (H6 : HALOW_ENV_BUNDLE_HDR = blen (take 6 d))
    by (unfold HALOW_ENV_BUNDLE_HDR, blen in *; rewrite length_take; lia).
  rewrite H6 in Hw. apply walk_inv in Hw as (subs & tl & Hn & Hok & Hd & ->); [|by apply Forall_drop].
  exists subs. split; [done|]. split; [done|].
  assert (Htl : blen tl = 0).
  { assert (blen d = blen (take 6 d) + blen (drop 6 d)) as Hsum by by rewrite <-blen_app, take_drop.
    rewrite Hd, blen_app in Hsum. pose proof (blen_nonneg tl). lia. }
  destruct tl; [|unfold blen in Htl; cbn in Htl; lia]. rewrite app_nil_r in Hd. rewrite <-Hd. by rewrite take_drop.
Qed.

(** An accepted bundle splits into its subframes. *)
Lemma bundle_split_ok d : is_bytes d -> HALOW_ENV_BUNDLE_HDR <= blen d -> env_bundle_walk_ok d = true ->
  exists subs, length subs = Z.to_nat (byte d 5) /\ subs_ok subs /\ d = take 6 d ++ bundle_body subs /\
    bundle_split d (Z.to_nat (byte d 5)) HALOW_ENV_BUNDLE_HDR = Some subs.
Proof.
  intros Hb Hl Hok. destruct (bundle_ok_inv d Hb Hl Hok) as (subs & Hn & Hs & Hd). exists subs.
  split_and!; [done..|]. destruct (walk_body subs (take 6 d) [] Hs) as [_ Hsp].
  assert (H6 : HALOW_ENV_BUNDLE_HDR = blen (take 6 d))
    by (unfold HALOW_ENV_BUNDLE_HDR, blen in *; rewrite length_take; lia).
  rewrite app_nil_r, <-Hd, <-H6, Hn in Hsp. exact Hsp.
Qed.

(** C9: A bundle is accepted by the receiver's walk exactly when it is an
    encoded list of subframes, and then the split delivers that list, every
    subframe inside the frame. *)
Theorem bundle_roundtrip d :
  is_bytes d -> HALOW_ENV_BUNDLE_HDR <= blen d ->
  (env_bundle_walk_ok d = true <->
   exists subs, length subs = Z.to_nat (byte d 5) /\ subs_ok subs /\ d = take 6 d ++ bundle_body subs /\
     bundle_split d (Z.to_nat (byte d 5)) HALOW_ENV_BUNDLE_HDR = Some subs) /\
  bundle_walk_valid d HALOW_ENV_BUNDLE_HDR (byte d 5) = env_bundle_walk_ok d.
Proof.
  intros Hb Hl. split; [|done].
  assert (H6 : HALOW_ENV_BUNDLE_HDR = blen (take 6 d))
    by (unfold HALOW_ENV_BUNDLE_HDR, blen in *; rewrite length_take; lia).
  split.
  - intros Hok. by apply bundle_split_ok.
  - intros (subs & Hn & Hs & Hd & _). unfold env_bundle_walk_ok.
    destruct (walk_body subs (take 6 d) [] Hs) as [Hw _]. rewrite app_nil_r, <-Hd, <-H6, Hn in Hw.
    rewrite Hw, Z.eqb_eq. rewrite Hd at 1. rewrite blen_app, <-H6. done.
Qed.

Lemma bundle_roundtrip_witness :
  let d := bundle_frame 0x1234 [[1;2;3]; [4]] in
  (env_bundle_walk_ok d = true <->
   exists subs, length subs = Z.to_nat (byte d 5) /\ subs_ok subs /\ d = take 6 d ++ bundle_body subs /\
     bundle_split d (Z.to_nat (byte d 5)) HALOW_ENV_BUNDLE_HDR = Some subs) /\
  bundle_walk_valid d HALOW_ENV_BUNDLE_HDR (byte d 5) = env_bundle_walk_ok d.
Proof. intros d. apply (bundle_roundtrip d); [by_eval|vm_compute; discriminate]. Defined.

(** What a receiver sees of the frame a sender built. *)
Lemma bundle_frame_spec seq subs :
  is_u16 seq -> subs_ok subs -> (0 < length subs)%nat -> (Z.of_nat (length subs) < 256) ->
  is_env_frame (bundle_frame seq subs) = true /\ is_env_bundle (bundle_frame seq subs) = true /\
  rd16 (bundle_frame seq subs) 3 = seq /\ byte (bundle_frame seq subs) 5 = Z.of_nat (length subs) /\
  env_bundle_walk_ok (bundle_frame seq subs) = true /\
  bundle_split (bundle_frame seq subs) (length subs) HALOW_ENV_BUNDLE_HDR = Some subs.
Proof.
  intros Hs Hok Hne Hn. set (n := Z.of_nat (length subs)).
  assert (Hb6 : forall s n, blen (bundle_header s n) = 6) by reflexivity.
  assert (H5 : byte (bundle_frame seq subs) 5 = n) by reflexivity.
  assert (Hlen : 8 <= blen (bundle_frame seq subs)).
  { unfold bundle_frame. rewrite blen_app, Hb6. destruct subs as [|s subs]; [cbn in Hne; lia|].
    rewrite body_cons, !blen_app. change (blen (le16 (blen s))) with 2.
    pose proof (blen_nonneg s). pose proof (blen_nonneg (bundle_body subs)). lia. }
  destruct (walk_body subs (bundle_header seq n) [] Hok) as [Hw Hsp].
  rewrite app_nil_r, Hb6 in Hw, Hsp. change (bundle_header seq n ++ bundle_body subs) with (bundle_frame seq subs) in Hw, Hsp.
  split_and!; try done.
  - unfold is_env_frame. rewrite (proj2 (Z.leb_le 3 _)) by lia. reflexivity.
  - unfold is_env_bundle, HALOW_ENV_BUNDLE_HDR. rewrite (proj2 (Z.leb_le _ _)) by lia. reflexivity.
  - apply (rd16_le16 [_; _; _]). done.
  - unfold env_bundle_walk_ok. rewrite H5. replace (Z.to_nat n) with (length subs) by lia. unfold HALOW_ENV_BUNDLE_HDR. rewrite Hw.
    rewrite Z.eqb_eq. unfold bundle_frame. by rewrite blen_app, Hb6.
Qed.

(** Both ACK formats survive the air: a receiver classifies the frame as
    the sender meant it and reads back the EVM, the base sequence number and
    all 64 bitmap bits, or exactly the list of frame identifiers. *)
Theorem ack_frames_roundtrip evm base bm fids :
  -128 <= evm <= 0 -> is_u16 base -> is_u64 bm -> Forall is_u16 fids -> 1 <= blen fids <= 16 ->
  (let d := env_ack_frame evm base bm in
   is_env_frame d = true /\ is_ack_frame d = false /\ halow_ack_is_internal_frame d = true /\
   blen d = HALOW_ENV_ACK_LEN /\ env_ack_evm d = evm /\ env_ack_base d = base /\ env_ack_bitmap d = bm) /\
  (let d := fid_ack_frame evm fids in
   is_ack_frame d = true /\ is_env_frame d = false /\ halow_ack_is_internal_frame d = true /\
   fid_ack_fids d = fids /\ i8 (byte d 2) = (if evm =? 0 then -128 else evm)).
Proof.
  intros He Hb Hbm Hf Hl. split; cbv zeta.
  - destruct (env_ack_fields evm base bm) as (H1 & H2 & H3 & H4 & H5 & H6); [lia|done|].
    split_and!; try done. by apply env_ack_bitmap_frame.
  - pose proof (fid_ack_classified evm fids He Hl) as Ha.
    assert (H2 : byte (fid_ack_frame evm fids) 2 = if negb (evm =? 0) then u8 evm else 0x80) by reflexivity.
    split_and!; [done| | |by apply fid_ack_fids_frame|].
    + unfold is_env_frame. rewrite H2. apply andb_false_iff. right. apply Z.ltb_ge.
      destruct (Z.eqb_spec evm 0); cbn [negb]; [lia|]. word_lia.
    + unfold halow_ack_is_internal_frame. by rewrite Ha.
    + rewrite H2. destruct (Z.eqb_spec evm 0) as [->|]; cbn [negb]; [done|]. word_lia.
Qed.

Lemma ack_frames_roundtrip_witness :
  (let d := env_ack_frame (-20) 0xFFF0 (2 ^ 63 + 5) in
   is_env_frame d = true /\ is_ack_frame d = false /\ halow_ack_is_internal_frame d = true /\
   blen d = HALOW_ENV_ACK_LEN /\ env_ack_evm d = -20 /\ env_ack_base d = 0xFFF0 /\
   env_ack_bitmap d = 2 ^ 63 + 5) /\
  (let d := fid_ack_frame (-20) [7; 0xBEEF] in
   is_ack_frame d = true /\ is_env_frame d = false /\ halow_ack_is_internal_frame d = true /\
   fid_ack_fids d = [7; 0xBEEF] /\ i8 (byte d 2) = -20).
Proof.
  apply (ack_frames_roundtrip (-20) 0xFFF0 (2 ^ 63 + 5) [7; 0xBEEF]); [lia|by_eval|by_eval|by_eval|by_eval].
Defined.
