(* ===== verification/AckPeer.v ===== *)
(** * Per-peer receive state of the reliability layer: [src/halow_ack.c]

    The peer record, the duplicate filter of plain frames, and the 64-entry
    window of received bundle sequence numbers from which bitmap ACKs are
    cut.  The window is related to the set of sequence numbers received. *)

From S2P Require Import Prelude AckWire.

Definition ACK_DEDUP_WIN : Z := HALOW_ACK_ACK_FIDS_MAX.

Record ack_peer := mkPeer {
  in_use : bool;
  mac : list Z;
  cur_retries : Z;
  tx_mcs : Z;
  evm_ewma : Z;
  evm_ewma_slow : Z;
  loss_q8 : Z;
  tx : Z;
  acked : Z;
  dropped : Z;
  tx_bytes : Z;
  retransmitted : Z;
  last_tx_s : Z;
  last_ack_jiff : Z;
  acks_since_step : Z;
  next_step_allowed : Z;
  last_seen : Z;
  dedup : list Z;
  dedup_idx : Z;
  rx_since_ack : Z;
  ack_due : bool;
  ack_due_jiff : Z;
  last_rx_evm : Z;
  agg_idx : Z;
  agg_len : Z;
  agg_nsub : Z;
  agg_first_jiff : Z;
  tx_seq : Z;
  rx_seq_last : Z;
  rx_seq_win : Z;
  rx_seq_seen : bool;
  created_jiff : Z;
  failed_top : Z;
  last_collapse_jiff : Z;
}.
#[export] Instance eta_peer : Eta ack_peer := fun r =>
  mkPeer (in_use r) (mac r) (cur_retries r) (tx_mcs r) (evm_ewma r) (evm_ewma_slow r) (loss_q8 r)
    (tx r) (acked r) (dropped r) (tx_bytes r) (retransmitted r) (last_tx_s r) (last_ack_jiff r)
    (acks_since_step r) (next_step_allowed r) (last_seen r) (dedup r) (dedup_idx r) (rx_since_ack r)
    (ack_due r) (ack_due_jiff r) (last_rx_evm r) (agg_idx r) (agg_len r) (agg_nsub r)
    (agg_first_jiff r) (tx_seq r) (rx_seq_last r) (rx_seq_win r) (rx_seq_seen r) (created_jiff r)
    (failed_top r) (last_collapse_jiff r).

(** [memset(p, 0, sizeof *p)] *)
Definition peer_zero : ack_peer :=
  mkPeer false (replicate 6 0) 0 0 0 0 0 0 0 0 0 0 0 0 0 0 0 (replicate 16 0) 0 0 false 0 0 0 0 0 0
         0 0 0 false 0 0 0.

(** ** Duplicate filter of plain frames *)

Definition dedup_seen (p : ack_peer) (hash : Z) : bool := existsb (fun h => h =? hash) (dedup p).

Definition dedup_remember (p : ack_peer) (hash : Z) : option ack_peer :=
  d ← wr (dedup p) (dedup_idx p) hash;
  Some (p <| dedup := d |> <| dedup_idx := u8 ((dedup_idx p + 1) mod ACK_DEDUP_WIN) |>).

(** [build_fids_locked]: the newest [want] hashes, newest first, as 16-bit
    identifiers; [0] is sent as [0xFFFF]. *)
Definition build_fids_locked (ack_fids : Z) (p : ack_peer) : option (list Z) :=
  let want := if HALOW_ACK_ACK_FIDS_MAX <? ack_fids then HALOW_ACK_ACK_FIDS_MAX else ack_fids in
  mapM (fun i =>
    h ← rd (dedup p) ((dedup_idx p + ACK_DEDUP_WIN - 1 - i) mod ACK_DEDUP_WIN);
    let fid := u16 (Z.land h 0xFFFF) in
    Some (if fid =? 0 then 0xFFFF else fid)) (seqZ 0 want).

(** ** The window of received sequence numbers *)

Section Window.
(** What the CPU computes for [1u << n] when [n] is 32 or more (undefined in
    C; the value is some 32-bit word). *)
Variable shl_oob : Z -> Z.

(** [1u << back] *)
Definition shl32_1 (back : Z) : Z := if back <? 32 then u32 (Z.shiftl 1 back) else u32 (shl_oob back).

Definition peer_rx_seq (p : ack_peer) (seq : Z) : ack_peer :=
  if negb (rx_seq_seen p) then
    p <| rx_seq_seen := true |> <| rx_seq_last := seq |> <| rx_seq_win := 1 |>
  else
    let fwd := u16 (seq - rx_seq_last p) in
    if fwd =? 0 then p
    else if fwd <? HALOW_ACK_SEQ_WINDOW then
      p <| rx_seq_win ::= fun w => Z.lor (u64 (Z.shiftl w fwd)) 1 |> <| rx_seq_last := seq |>
    else
      let back := u16 (rx_seq_last p - seq) in
      if back <? HALOW_ACK_SEQ_WINDOW then
        p <| rx_seq_win ::= fun w => Z.lor w (shl32_1 back) |>
      else
        p <| rx_seq_last := seq |> <| rx_seq_win := 1 |>.

(** The retransmission test of [rx_env]. *)
Definition seq_already_delivered (p : ack_peer) (seq : Z) : bool :=
  rx_seq_seen p &&
  (let back := u16 (rx_seq_last p - seq) in
   (back <? HALOW_ACK_SEQ_WINDOW) && Z.testbit (rx_seq_win p) back).

(** The bit-reversing loop of [env_ack_capture_locked]. *)
Definition ack_bitmap (win : Z) : Z :=
  fold_left (fun bm i =>
    if Z.testbit win (HALOW_ACK_SEQ_WINDOW - 1 - i) then Z.lor bm (Z.shiftl 1 i) else bm)
    (seqZ 0 64) 0.

(** [env_ack_capture_locked]: base and bitmap, or [None] before any bundle. *)
Definition env_ack_capture_locked (p : ack_peer) : option (Z * Z) :=
  if negb (rx_seq_seen p) then None
  else
    let base := u16 (rx_seq_last p - (HALOW_ACK_SEQ_WINDOW - 1)) in
    Some (base, ack_bitmap (rx_seq_win p)).

(** ** The set of received sequence numbers *)

(** The window unrolled over the integers: the newest position and the
    positions received since the last re-synchronisation. *)
Record received := mkReceived { newest : Z; got : gset Z }.

Definition receive (r : received) (seq : Z) : received :=
  let fwd := u16 (seq - newest r) in
  let back := u16 (newest r - seq) in
  if fwd <? HALOW_ACK_SEQ_WINDOW then mkReceived (newest r + fwd) ({[ newest r + fwd ]} ∪ got r)
  else if back <? HALOW_ACK_SEQ_WINDOW then mkReceived (newest r) ({[ newest r - back ]} ∪ got r)
  else mkReceived seq {[ seq ]}.

(** [seq] is not an arrival 32 to 63 positions behind the newest one. *)
Definition not_very_late (r : received) (seq : Z) : Prop :=
  u16 (newest r - seq) < 32 \/ HALOW_ACK_SEQ_WINDOW <= u16 (newest r - seq).

(** The peer's window is the set [r] cut to 64 positions. *)
Record tracks (p : ack_peer) (r : received) : Prop := {
  tr_seen : rx_seq_seen p = true;
  tr_last : rx_seq_last p = u16 (newest r);
  tr_win : is_u64 (rx_seq_win p);
  tr_bits : forall k, 0 <= k < 64 -> Z.testbit (rx_seq_win p) k = true <-> newest r - k ∈ got r;
  tr_newest : newest r ∈ got r;
  tr_max : forall x, x ∈ got r -> x <= newest r;
}.

Lemma u64_testbit w k : 0 <= k -> Z.testbit (u64 w) k = if k <? 64 then Z.testbit w k else false.
Proof.
  intros Hk. unfold u64. destruct (Z.ltb_spec k 64).
  - apply Z.mod_pow2_bits_low. lia.
  - apply Z.mod_pow2_bits_high. lia.
Qed.

Lemma is_u64_testbit w : 0 <= w -> (forall k, 64 <= k -> Z.testbit w k = false) -> is_u64 w.
Proof.
  intros Hw Hk. assert (w = u64 w) as ->; [|apply u64_range].
  apply Z.bits_inj'. intros n Hn. rewrite u64_testbit by done.
  destruct (Z.ltb_spec n 64); [done|by rewrite Hk].
Qed.

Lemma u64_high w k : is_u64 w -> 64 <= k -> Z.testbit w k = false.
Proof. intros Hw Hk. rewrite <-(u64_small w) by done. rewrite u64_testbit by lia. by rewrite (proj2 (Z.ltb_ge k 64)). Qed.

Lemma lor_u64 a b : is_u64 a -> is_u64 b -> is_u64 (Z.lor a b).
Proof.
  intros Ha Hb. apply is_u64_testbit.
  - apply Z.lor_nonneg. unfold is_u64 in *. lia.
  - intros k Hk. by rewrite Z.lor_spec, !u64_high.
Qed.

Lemma testbit_pow2 back k : 0 <= back -> 0 <= k -> Z.testbit (Z.shiftl 1 back) k = (k =? back).
Proof.
  intros Hb Hk. rewrite Z.shiftl_1_l, Z.pow2_bits_eqb by done. apply Z.eqb_sym.
Qed.

Lemma shl32_1_small back : 0 <= back < 32 -> shl32_1 back = Z.shiftl 1 back /\ is_u64 (Z.shiftl 1 back).
Proof.
  intros Hb. unfold shl32_1. rewrite (proj2 (Z.ltb_lt back 32)) by lia. rewrite Z.shiftl_1_l.
  assert (2 ^ back <= 2 ^ 31) by (apply Z.pow_le_mono_r; lia).
  assert (0 < 2 ^ back) by (apply Z.pow_pos_nonneg; lia). split; [apply u32_small|]; word_lia.
Qed.

(** A window holding only its newest entry. *)
Lemma restart_tracks p seq : is_u16 seq ->
  rx_seq_seen p = true -> rx_seq_last p = seq -> rx_seq_win p = 1 ->
  tracks p (mkReceived seq {[ seq ]}).
Proof.
  intros Hs Hseen Hlast Hwin. split; cbn [newest got]; rewrite ?Hwin.
  - done.
  - by rewrite u16_small.
  - by_eval.
  - intros k Hk. rewrite elem_of_singleton. split.
    + intros Hb. destruct (decide (k = 0)) as [->|]; [lia|].
      change 1 with (Z.shiftl 1 0) in Hb. rewrite testbit_pow2 in Hb by lia. lia.
    + intros He. by replace k with 0 by lia.
  - set_solver.
  - intros x Hx%elem_of_singleton. lia.
Qed.

(** The first arrival starts the window. *)
Lemma peer_rx_seq_first p seq : is_u16 seq -> rx_seq_seen p = false ->
  tracks (peer_rx_seq p seq) (mkReceived seq {[ seq ]}).
Proof. intros Hs Hseen. unfold peer_rx_seq. rewrite Hseen. by apply restart_tracks. Qed.

(** Every further arrival that is not very late keeps window and set in step. *)
Lemma peer_rx_seq_tracks p r seq : is_u16 seq -> tracks p r -> not_very_late r seq ->
  tracks (peer_rx_seq p seq) (receive r seq).
Proof.
  intros Hs [Hseen Hlast Hwin Hbits Hnew Hmax] Hlate. unfold peer_rx_seq, receive, HALOW_ACK_SEQ_WINDOW.
  rewrite Hseen. cbn [negb]. cbv zeta. rewrite Hlast.
  assert (Hf : u16 (seq - u16 (newest r)) = u16 (seq - newest r)) by word_lia.
  assert (Hbk : u16 (u16 (newest r) - seq) = u16 (newest r - seq)) by word_lia. rewrite Hf, Hbk.
  pose proof (u16_range (seq - newest r)) as Hfr. pose proof (u16_range (newest r - seq)) as Hbr.
  unfold is_u16 in Hfr, Hbr.
  destruct (Z.eqb_spec (u16 (seq - newest r)) 0) as [H0|H0].
  { rewrite H0. change (0 <? 64) with true. cbv iota. rewrite Z.add_0_r.
    replace ({[newest r]} ∪ got r) with (got r) by set_solver. by split. }
  destruct (Z.ltb_spec (u16 (seq - newest r)) 64) as [Hlt|Hge].
  - set (fwd := u16 (seq - newest r)) in *. split; rsimpl; cbn [newest got]; try done.
    + subst fwd. word_lia.
    + apply lor_u64; [auto with words|by_eval].
    + intros k Hk. rewrite Z.lor_spec, u64_testbit by lia. rewrite (proj2 (Z.ltb_lt k 64)) by lia.
      rewrite elem_of_union, elem_of_singleton. destruct (decide (k = 0)) as [->|Hk0].
      { rewrite orb_true_r. split; [intros _; left; lia|done]. }
      change 1 with (Z.shiftl 1 0). rewrite testbit_pow2 by lia. rewrite (proj2 (Z.eqb_neq k 0)) by done.
      rewrite orb_false_r, Z.shiftl_spec by lia. destruct (decide (k < fwd)).
      * rewrite Z.testbit_neg_r by lia. split; [done|]. intros [?|Hin]; [lia|].
        apply Hmax in Hin. lia.
      * rewrite Hbits by lia. replace (newest r - (k - fwd)) with (newest r + fwd - k) by lia.
        split; [by right|]. intros [?|]; [lia|done].
    + set_solver.
    + intros x [->%elem_of_singleton|Hx]%elem_of_union; [lia|]. apply Hmax in Hx. word_lia.
  - destruct (Z.ltb_spec (u16 (newest r - seq)) 64) as [Hb|Hb].
    + set (back := u16 (newest r - seq)) in *.
      destruct (shl32_1_small back) as [-> Hu]; [unfold not_very_late, HALOW_ACK_SEQ_WINDOW in Hlate; word_lia|].
      split; rsimpl; cbn [newest got]; try done.
      * by apply lor_u64.
      * intros k Hk. rewrite Z.lor_spec, testbit_pow2 by word_lia.
        rewrite elem_of_union, elem_of_singleton, orb_true_iff, Hbits, Z.eqb_eq by done.
        split; [intros [?|]; [by right|left; lia]|intros [?|]; [right; lia|by left]].
      * set_solver.
      * intros x [->%elem_of_singleton|Hx]%elem_of_union; [word_lia|]. by apply Hmax.
    + by apply restart_tracks.
Qed.

(** The ACK bitmap lists the window oldest first. *)
Lemma ack_bitmap_bits w i : 0 <= i < 64 -> Z.testbit (ack_bitmap w) i = Z.testbit w (63 - i).
Proof.
  intros Hi. unfold ack_bitmap, HALOW_ACK_SEQ_WINDOW.
  assert (Hgen : forall d n acc, (n + d = 64)%nat ->
    (forall j, Z.of_nat n <= j -> Z.testbit acc j = false) -> forall j, 0 <= j ->
    Z.testbit (fold_left (fun bm i => if Z.testbit w (64 - 1 - i) then Z.lor bm (Z.shiftl 1 i) else bm)
                 (seqZ (Z.of_nat n) (Z.of_nat d)) acc) j
    = if j <? Z.of_nat n then Z.testbit acc j else if j <? 64 then Z.testbit w (63 - j) else false).
  { induction d as [|d IH]; intros n acc Hn Hacc j Hj.
    - change (seqZ (Z.of_nat n) (Z.of_nat 0)) with (@nil Z). cbn [fold_left].
      destruct (Z.ltb_spec j (Z.of_nat n)); [done|]. rewrite (proj2 (Z.ltb_ge j 64)) by lia. apply Hacc. lia.
    - rewrite seqZ_cons by lia. cbn [fold_left].
      replace (Z.succ (Z.of_nat n)) with (Z.of_nat (S n)) by lia.
      replace (Z.pred (Z.of_nat (S d))) with (Z.of_nat d) by lia.
      replace (64 - 1 - Z.of_nat n) with (63 - Z.of_nat n) by lia.
      rewrite IH; [|lia| |done].
      + destruct (Z.ltb_spec j (Z.of_nat (S n))) as [H1|H1], (Z.ltb_spec j (Z.of_nat n)) as [H2|H2]; try lia; try done.
        * destruct (Z.testbit w (63 - Z.of_nat n)); [|done].
          rewrite Z.lor_spec, testbit_pow2 by lia. rewrite (proj2 (Z.eqb_neq j _)) by lia. apply orb_false_r.
        * assert (j = Z.of_nat n) as -> by lia. rewrite (proj2 (Z.ltb_lt _ 64)) by lia.
          destruct (Z.testbit w (63 - Z.of_nat n)).
          -- rewrite Z.lor_spec, testbit_pow2, Z.eqb_refl by lia. apply orb_true_r.
          -- apply Hacc. lia.
      + intros k Hk. destruct (Z.testbit w (63 - Z.of_nat n)); [|apply Hacc; lia].
        rewrite Z.lor_spec, testbit_pow2, Hacc by lia. apply Z.eqb_neq. lia. }
  specialize (Hgen 64%nat 0%nat 0 eq_refl ltac:(intros; apply Z.bits_0) i ltac:(lia)).
  rewrite (proj2 (Z.ltb_ge i (Z.of_nat 0))), (proj2 (Z.ltb_lt i 64)) in Hgen by lia. exact Hgen.
Qed.

(** The sender's test on an ACK: bit [seq - base] of the bitmap. *)
Definition ack_covers (base bm seq : Z) : bool :=
  let diff := u16 (seq - base) in (diff <? HALOW_ACK_SEQ_WINDOW) && Z.testbit bm diff.

(** An ACK covers exactly the received positions among the newest 64. *)
Lemma ack_covers_tracks p r x :
  tracks p r -> newest r - 64 < x <= newest r ->
  exists base bm, env_ack_capture_locked p = Some (base, bm) /\ is_u16 base /\
    (ack_covers base bm (u16 x) = true <-> x ∈ got r).
Proof.
  intros [Hseen Hlast Hwin Hbits Hnew Hmax] Hx. unfold env_ack_capture_locked. rewrite Hseen. cbn [negb].
  do 2 eexists. split; [reflexivity|]. split; [apply u16_range|].
  unfold ack_covers, HALOW_ACK_SEQ_WINDOW. rewrite Hlast.
  replace (u16 (u16 x - u16 (u16 (newest r) - (64 - 1)))) with (x - (newest r - 63)) by word_lia.
  rewrite (proj2 (Z.ltb_lt _ 64)) by lia. cbn [andb]. rewrite ack_bitmap_bits by lia.
  rewrite Hbits by lia. replace (newest r - (63 - (x - (newest r - 63)))) with x by lia. done.
Qed.

(** The receiver's duplicate test is membership as well. *)
Lemma seq_already_delivered_tracks p r x :
  tracks p r -> newest r - 64 < x <= newest r ->
  seq_already_delivered p (u16 x) = true <-> x ∈ got r.
Proof.
  intros [Hseen Hlast Hwin Hbits Hnew Hmax] Hx. unfold seq_already_delivered, HALOW_ACK_SEQ_WINDOW.
  rewrite Hseen, Hlast. cbn [andb].
  replace (u16 (u16 (newest r) - u16 x)) with (newest r - x) by word_lia.
  rewrite (proj2 (Z.ltb_lt _ 64)) by lia. cbn [andb]. rewrite Hbits by lia.
  by replace (newest r - (newest r - x)) with x by lia.
Qed.

(** A whole stream of arrivals. *)
Fixpoint rx_stream (p : ack_peer) (seqs : list Z) : ack_peer :=
  match seqs with [] => p | s :: seqs => rx_stream (peer_rx_seq p s) seqs end.
Fixpoint receive_all (r : received) (seqs : list Z) : received :=
  match seqs with [] => r | s :: seqs => receive_all (receive r s) seqs end.
Fixpoint none_very_late (r : received) (seqs : list Z) : Prop :=
  match seqs with [] => True | s :: seqs => not_very_late r s /\ none_very_late (receive r s) seqs end.

Lemma rx_stream_tracks seqs : forall p r,
  Forall is_u16 seqs -> tracks p r -> none_very_late r seqs ->
  tracks (rx_stream p seqs) (receive_all r seqs).
Proof.
  induction seqs as [|s seqs IH]; intros p r Hs Ht Hl; [done|].
  apply Forall_cons in Hs as [Hs Hss]. destruct Hl as [Hl Hls].
  apply IH; [done| |done]. by apply peer_rx_seq_tracks.
Qed.


(** A bundle that arrives 32 to 63 positions late is never marked: on any
    CPU the 32-bit shift cannot set its bit, so the ACK that follows does not
    cover it and the sender keeps retransmitting a bundle that was delivered. *)
Theorem very_late_arrival_unmarked p seq back :
  rx_seq_seen p = true -> is_u16 (rx_seq_last p) -> 32 <= back < 64 ->
  seq = u16 (rx_seq_last p - back) -> Z.testbit (rx_seq_win p) back = false ->
  exists base bm, env_ack_capture_locked (peer_rx_seq p seq) = Some (base, bm) /\
    ack_covers base bm seq = false /\ seq_already_delivered (peer_rx_seq p seq) seq = false.
Proof.
  intros Hseen Hlast Hb Hseq Hbit.
  assert (Hfwd : u16 (seq - rx_seq_last p) = 65536 - back) by (subst seq; word_lia).
  assert (Hback : u16 (rx_seq_last p - seq) = back) by (subst seq; word_lia).
  assert (Hp : peer_rx_seq p seq = p <| rx_seq_win ::= fun w => Z.lor w (shl32_1 back) |>).
  { unfold peer_rx_seq, HALOW_ACK_SEQ_WINDOW. rewrite Hseen. cbn [negb]. cbv zeta.
    rewrite Hfwd, Hback. rewrite (proj2 (Z.eqb_neq _ 0)), (proj2 (Z.ltb_ge _ 64)), (proj2 (Z.ltb_lt back 64)) by lia.
    done. }
  assert (Hshl : Z.testbit (shl32_1 back) back = false).
  { unfold shl32_1. rewrite (proj2 (Z.ltb_ge back 32)) by lia.
    apply Z.mod_pow2_bits_high. lia. }
  rewrite Hp. unfold env_ack_capture_locked, seq_already_delivered, HALOW_ACK_SEQ_WINDOW. rsimpl.
  rewrite Hseen, Hback. cbn [negb andb]. do 2 eexists. split; [reflexivity|].
  rewrite (proj2 (Z.ltb_lt back 64)) by lia. cbn [andb].
  assert (Hno : Z.testbit (Z.lor (rx_seq_win p) (shl32_1 back)) back = false)
    by (rewrite Z.lor_spec, Hbit, Hshl; done).
  split; [|done]. unfold ack_covers, HALOW_ACK_SEQ_WINDOW. rsimpl.
  replace (u16 (seq - u16 (rx_seq_last p - (64 - 1)))) with (63 - back) by (subst seq; word_lia).
  rewrite ack_bitmap_bits by lia. replace (63 - (63 - back)) with back by lia. by rewrite Hno, andb_false_r.
Qed.
End Window.

Definition demo_peer : ack_peer := peer_zero <| in_use := true |>.


Lemma very_late_arrival_unmarked_witness :
  let p := rx_stream (fun _ => 0) demo_peer [100; 140] in
  exists base bm, env_ack_capture_locked (peer_rx_seq (fun _ => 0) p 101) = Some (base, bm) /\
    ack_covers base bm 101 = false /\ seq_already_delivered (peer_rx_seq (fun _ => 0) p 101) 101 = false.
Proof.
  intros p. apply (very_late_arrival_unmarked (fun _ => 0) p 101 39).
  - reflexivity.
  - by_eval.
  - lia.
  - reflexivity.
  - reflexivity.
Defined.
