(* ===== verification/AckState.v ===== *)
(** * State and primitives of the reliability layer: [src/halow_ack.c]

    The module's statics as one record, the environment it runs in, frame
    buffers, the congestion window, peers and the rate adaptation.  Pointers
    into [g_bufs] and [g_peers] are indices; following a pointer to a freed
    buffer is a fault.  [ack_unlock] lets other tasks run: they are an
    arbitrary transformation of the state, constrained only by the theorems. *)

From S2P Require Import Prelude Monad AckWire AckPeer.

Definition ACK_BUF_N : nat := 16.
Definition ACK_MAX_PEERS : nat := 16.
Definition HALOW_ACK_AGG_PAYLOAD_MAX : Z := 4000.
Definition ACK_WIRE_MAX : Z := HALOW_ACK_AGG_PAYLOAD_MAX + 6 + 2 * HALOW_ACK_AGG_MAX_SUB.
Definition ACK_AGG_RESERVE : Z := 6.
Definition ACK_TX_VACANCY_LOW : Z := 8000.
Definition ACK_SLOT_LIFE_MAX_MS : Z := 6000.
Definition ACK_AGG_MAX_HOLD_MS : Z := 1000.
Definition ACK_BACKOFF_SHIFT_MAX : Z := 3.
Definition RA_MAX_MCS : Z := 7.
Definition RA_EWMA_W : Z := 8.
Definition RA_GRACE_MS : Z := 2000.
Definition RA_PROBE_COOLDOWN_MS : Z := 10000.
Definition RA_RETRANS_STEP_Q8 : Z := 8.
Definition HALOW_ACK_RA_STALE_MS : Z := 60000.
Definition HALOW_ACK_RA_COOLDOWN_MS : Z := 500.
Definition HALOW_ACK_RA_STEP_GAP_MS : Z := 1000.
Definition HALOW_ACK_BC_REPEAT_MAX : Z := 3.
Definition HALOW_ACK_SLOTS_MAX : Z := 16.
Definition HALOW_ACK_TX_THROTTLE : Z := -7.
Definition HALOW_ACK_ACK_MCS_MAX : Z := 6.
Definition HALOW_MCS_DEFAULT : Z := 0xFF.
(** [sizeof(ack_buf_t)]: the header of a frame node on the 32-bit target. *)
Definition sizeof_ack_buf : Z := 28.

(** ** Data *)

Inductive ack_buf_state := ACK_BUF_STAGING | ACK_BUF_INFLIGHT | ACK_BUF_SENDING.
#[export] Instance ack_buf_state_eq_dec : EqDecision ack_buf_state.
Proof. solve_decision. Defined.

Record ack_buf := mkBuf {
  state : ack_buf_state;
  retries_used : Z;
  ofs : Z;
  idx : nat;
  len : Z;
  cap : Z;
  fid : Z;
  seq : Z;
  dest_mac : list Z;
  born_jiff : Z;
  tx_jiff : Z;
  data : list Z;
}.
#[export] Instance eta_buf : Eta ack_buf := fun r =>
  mkBuf (state r) (retries_used r) (ofs r) (idx r) (len r) (cap r) (fid r) (seq r) (dest_mac r)
    (born_jiff r) (tx_jiff r) (data r).

Record ack_config := mkAckConfig {
  max_retries : Z;
  timeout_ms : Z;
  rate_adapt : Z;
  ra_loss_up : Z;
  ra_loss_down : Z;
  window : Z;
  ack_fids : Z;
  agg : Z;
  agg_bytes : Z;
  ack_hold_ms : Z;
  bc_repeat : Z;
}.
#[export] Instance eta_ack_config : Eta ack_config := fun r =>
  mkAckConfig (max_retries r) (timeout_ms r) (rate_adapt r) (ra_loss_up r) (ra_loss_down r)
    (window r) (ack_fids r) (agg r) (agg_bytes r) (ack_hold_ms r) (bc_repeat r).

(** The fields of [halow_ack_stats_t]. *)
Inductive stat :=
  | tx_frames | s_acked | s_retransmitted | s_dropped | acks_sent | acks_tx_fail | acks_rx_dup
  | acks_rx_frames | drop_deadline | drop_exhaust | drop_throttle | env_tx_bundles
  | env_rx_bundles | env_tx_acks | env_rx_acks | rx_env_unk | ack_mcs_last | ack_rtt_hits
  | ack_rtt_sum_ms | ack_rtt_ewma_ms | noack_hits | last_evm | ra_ack_calls | ra_upshifts
  | ra_downshifts | ra_blocked_loss | ra_blocked_gap | ra_blocked_max | ra_blk_probe
  | bc_repeats | heap_fail | dbg_path_bc | dbg_path_plain | dbg_path_bundle | dbg_path_plainl.
#[export] Instance stat_eq_dec : EqDecision stat.
Proof. solve_decision. Defined.

(** What the module calls outside itself. *)
Class AckEnv (W : Type) := {
  (** [os_jiffies()]; time may pass at every reading *)
  os_jiffies : W -> Z * W;
  os_msecs_to_jiffies : Z -> Z;
  (** [time(NULL)] *)
  time_s : W -> Z;
  (** whether [os_malloc(n)] succeeds *)
  os_malloc : Z -> W -> bool * W;
  (** [halow_tx_p(data, len, dest, mcs, tid)] *)
  halow_tx_p : list Z -> list Z -> Z -> Z -> W -> Z * W;
  halow_get_tx_vacancy : W -> Z;
  (** the MCS of [halow_config_load] *)
  halow_config_mcs : W -> Z;
  (** [statistics_radio_register_tx_package] *)
  statistics_radio_register_tx_package : Z -> W -> W;
  halow_tx_vacancy_watchdog : W -> W;
}.

Record ack_state (W : Type) := mkAck {
  g_ack_cfg : ack_config;
  g_ack_stats : stat -> Z;
  dbg_last_dest : list Z;
  g_bufs : list (option ack_buf);
  g_window : Z;
  g_cwnd : Z;
  g_peers : list ack_peer;
  g_used_n : Z;
  g_inflight_n : Z;
  g_peers_n : Z;
  g_heap_bytes : Z;
  g_last_data_tx_jiff : Z;
  g_ack_hold_j : Z;
  g_stale_j : Z;
  g_quiet_j : Z;
  g_busy_j : Z;
  g_step_gap_j : Z;
  g_dflt_ttl_j : Z;
  g_ra_up_q8 : Z;
  g_ra_down_q8 : Z;
  g_dflt_mcs_cache : Z;
  g_dflt_mcs_jiff : Z;
  (** how often the current task holds [g_ack_mutex] *)
  ack_held : Z;
  world : W;
}.
Arguments mkAck {_}. Arguments g_ack_cfg {_}. Arguments g_ack_stats {_}. Arguments dbg_last_dest {_}.
Arguments g_bufs {_}. Arguments g_window {_}. Arguments g_cwnd {_}. Arguments g_peers {_}.
Arguments g_used_n {_}. Arguments g_inflight_n {_}. Arguments g_peers_n {_}. Arguments g_heap_bytes {_}.
Arguments g_last_data_tx_jiff {_}. Arguments g_ack_hold_j {_}. Arguments g_stale_j {_}.
Arguments g_quiet_j {_}. Arguments g_busy_j {_}. Arguments g_step_gap_j {_}. Arguments g_dflt_ttl_j {_}.
Arguments g_ra_up_q8 {_}. Arguments g_ra_down_q8 {_}. Arguments g_dflt_mcs_cache {_}.
Arguments g_dflt_mcs_jiff {_}. Arguments ack_held {_}. Arguments world {_}.
#[export] Instance eta_ack W : Eta (ack_state W) := fun r =>
  mkAck (g_ack_cfg r) (g_ack_stats r) (dbg_last_dest r) (g_bufs r) (g_window r) (g_cwnd r) (g_peers r)
    (g_used_n r) (g_inflight_n r) (g_peers_n r) (g_heap_bytes r) (g_last_data_tx_jiff r)
    (g_ack_hold_j r) (g_stale_j r) (g_quiet_j r) (g_busy_j r) (g_step_gap_j r) (g_dflt_ttl_j r)
    (g_ra_up_q8 r) (g_ra_down_q8 r) (g_dflt_mcs_cache r) (g_dflt_mcs_jiff r) (ack_held r) (world r).

Section Ack.
Context {W : Type} `{AckEnv W}.
#[local] Abbreviation st := (ack_state W).

(** What other tasks do to the module while its mutex is free; the argument
    is the frame this task is transmitting meanwhile, if any. *)
Variable others : option nat -> st -> st.

Definition ext {A} (f : W -> A * W) : M st A := fun s =>
  let '(a, w) := f (world s) in Some (a, s <| world := w |>).
Definition now_j : M st Z := j ← ext (fun w => os_jiffies w); mret (u32 j).
Definition ms_j (ms : Z) : Z := u32 (os_msecs_to_jiffies ms).
Definition stat_set (k : stat) (f : Z -> Z) : M st unit :=
  modify (fun s => s <| g_ack_stats ::= fun m k' => if decide (k' = k) then f (m k') else m k' |>).
Definition bump (k : stat) : M st unit := stat_set k (fun n => u32 (n + 1)).

Definition ack_lock : M st unit := modify (fun s => s <| ack_held ::= fun n => n + 1 |>).
Definition ack_unlock (mine : option nat) : M st unit :=
  modify (fun s => s <| ack_held ::= fun n => n - 1 |>);; modify (others mine).

(** Pointers into the two tables. *)
Definition buf_get (i : nat) : M st ack_buf := o ← gets (fun s => g_bufs s !! i); lift (mjoin o).
Definition buf_slot (i : nat) : M st (option ack_buf) := o ← gets (fun s => g_bufs s !! i); lift o.
Definition buf_upd (i : nat) (f : ack_buf -> ack_buf) : M st unit :=
  b ← buf_get i;
  modify (fun s => s <| g_bufs ::= fun l => <[i := Some (f b)]> l |>).
Definition peer_at (i : nat) : M st ack_peer := o ← gets (fun s => g_peers s !! i); lift o.
Definition peer_upd (i : nat) (f : ack_peer -> ack_peer) : M st unit :=
  p ← peer_at i;
  modify (fun s => s <| g_peers ::= fun l => <[i := f p]> l |>).

Definition indices (n : nat) : list nat := List.seq 0 n.

(** ** Frame buffers *)

Definition buf_alloc_sz (cap : Z) : Z := u32 (sizeof_ack_buf + cap).

(** A fresh node: [malloc] leaves [fid], [tx_jiff] and [data] indeterminate
    (zero here); the code writes them before it reads them. *)
Definition fresh_buf (st0 : ack_buf_state) (i : nat) (cap : Z) (mac : list Z) (born : Z) : ack_buf :=
  mkBuf st0 0 0 i 0 cap 0 0xFFFF mac born 0 (replicate (Z.to_nat cap) 0).

(** The first free slot takes the node. *)
Definition buf_alloc (st0 : ack_buf_state) (mac : list Z) (cap : Z) : M st (option nat) :=
  bufs ← gets g_bufs;
  match list_find (fun o => o = None) bufs with
  | None => mret None
  | Some (i, _) =>
      ok ← ext (fun w => os_malloc (buf_alloc_sz cap) w);
      if negb ok then bump heap_fail;; mret None
      else
        born ← now_j;
        modify (fun s => s
          <| g_bufs ::= fun l => <[i := Some (fresh_buf st0 i cap mac born)]> l |>
          <| g_used_n ::= fun n => u8 (n + 1) |>
          <| g_heap_bytes ::= fun n => u32 (n + buf_alloc_sz cap) |>);;
        when (bool_decide (st0 = ACK_BUF_INFLIGHT))
          (modify (fun s => s <| g_inflight_n ::= fun n => u8 (n + 1) |>));;
        mret (Some i)
  end.

Definition buf_release (i : nat) : M st unit :=
  b ← buf_get i;
  when (negb (bool_decide (state b = ACK_BUF_STAGING)))
    (modify (fun s => s <| g_inflight_n ::= fun n => u8 (n - 1) |>));;
  modify (fun s => s <| g_heap_bytes ::= fun n => u32 (n - buf_alloc_sz (cap b)) |>
                     <| g_bufs ::= fun l => <[idx b := None]> l |>
                     <| g_used_n ::= fun n => u8 (n - 1) |>).

Definition eff_window (s : st) : Z := if g_cwnd s <? g_window s then g_cwnd s else g_window s.

Definition buf_claim_inflight (mac : list Z) (wire_len : Z) : M st (option nat) :=
  full ← gets (fun s => eff_window s <=? g_inflight_n s);
  if full : bool then mret None else buf_alloc ACK_BUF_INFLIGHT mac wire_len.

Definition cwnd_on_clean_clear : M st unit :=
  modify (fun s => s <| g_cwnd ::= fun c => if c <? g_window s then u8 (c + 1) else c |>).

Definition cwnd_on_retrans_timeout : M st unit :=
  modify (fun s =>
    let floor_w := if 2 <=? window (g_ack_cfg s) then 2 else 1 in
    s <| g_cwnd ::= fun c =>
      if floor_w <? c then
        let c := u8 (u16 c * 3 / 4) in if c <? floor_w then floor_w else c
      else c |>).

Definition halow_ack_cwnd_set (v : Z) : M st unit :=
  modify (fun s => s <| g_cwnd := if g_window s <? v then g_window s else v |>).

Definition buf_match (mac : list Z) (fid0 : Z) : M st (option nat) :=
  bufs ← gets g_bufs;
  mret (fst <$> list_find (fun o => match o with
    | Some b => bool_decide (state b = ACK_BUF_INFLIGHT) && (fid b =? fid0) && mac_eq (dest_mac b) mac
    | None => false end = true) bufs).

Definition buf_for_peer (bufs : list (option ack_buf)) (mac : list Z) : bool :=
  existsb (fun o => match o with Some b => mac_eq (dest_mac b) mac | None => false end) bufs.

(** [halow_tx] is [halow_tx_p] with tid 0. *)
Definition halow_tx (payload dest : list Z) (mcs : Z) : M st Z :=
  ext (fun w => halow_tx_p payload dest mcs 0 w).

(** [buf_tx_send]: the buffer is marked under the mutex, sent without it, and
    put back in flight. *)
Definition buf_tx_mark (i : nat) : M st unit :=
  b ← buf_get i;
  when (bool_decide (state b = ACK_BUF_STAGING))
    (modify (fun s => s <| g_inflight_n ::= fun n => u8 (n + 1) |>));;
  buf_upd i (fun b => b <| state := ACK_BUF_SENDING |>).
Definition buf_tx_air (i : nat) (pmcs : Z) : M st unit :=
  ack_unlock (Some i);;
  b ← buf_get i;
  bytes ← lift (rd_n (data b) (ofs b) (len b));
  halow_tx bytes (dest_mac b) pmcs;;
  now ← now_j;
  modify (fun s => s <| g_last_data_tx_jiff := now |>);;
  modify (others (Some i));;
  ack_lock;;
  b ← buf_get i;
  when (bool_decide (state b = ACK_BUF_SENDING))
    (buf_upd i (fun b => b <| state := ACK_BUF_INFLIGHT |>)).
Definition buf_tx_send (i : nat) (pmcs : Z) : M st unit := buf_tx_mark i;; buf_tx_air i pmcs.

(** ** Default MCS *)

Definition dflt_mcs_refresh : M st unit :=
  now ← now_j;
  fresh ← gets (fun s => negb (g_dflt_mcs_cache s =? 0xFF) && (u32 (now - g_dflt_mcs_jiff s) <? g_dflt_ttl_j s));
  if fresh : bool then mret tt
  else modify (fun s => s <| g_dflt_mcs_cache := halow_config_mcs (world s) |> <| g_dflt_mcs_jiff := now |>).

Definition dflt_mcs (s : st) : Z := if negb (g_dflt_mcs_cache s =? 0xFF) then g_dflt_mcs_cache s else 7.

(** ** Peers *)

Definition peer_find (mac0 : list Z) (s : st) : option nat :=
  fst <$> list_find (fun p => (in_use p && mac_eq (mac p) mac0) = true) (g_peers s).

Definition peer_init_mcs : M st Z :=
  ra ← gets (fun s => rate_adapt (g_ack_cfg s));
  if ra =? 0 then mret HALOW_MCS_DEFAULT
  else dflt_mcs_refresh;; gets dflt_mcs.

Definition peer_is_stale (p : ack_peer) : M st bool :=
  if last_ack_jiff p =? 0 then mret false
  else now ← now_j; gets (fun s => g_stale_j s <? u32 (now - last_ack_jiff p)).

(** The loop of [peer_evict_pick]: a free entry, else the one heard longest
    ago among those with no frame in the buffers. *)
Fixpoint evict_loop (bufs : list (option ack_buf)) (peers : list ack_peer) (i : nat)
    (oldest : Z) (victim : option nat) : option nat :=
  match peers with
  | [] => victim
  | c :: peers =>
      if negb (in_use c) then Some i
      else if buf_for_peer bufs (mac c) then evict_loop bufs peers (S i) oldest victim
      else if last_seen c <? oldest then evict_loop bufs peers (S i) (last_seen c) (Some i)
      else evict_loop bufs peers (S i) oldest victim
  end.
Definition peer_evict_pick (s : st) : option nat :=
  evict_loop (g_bufs s) (g_peers s) 0 (2 ^ 32 - 1) None.

Definition peer_create (mac0 : list Z) (init_mcs : Z) : M st (option nat) :=
  victim ← gets peer_evict_pick;
  match victim with
  | None => mret None
  | Some i =>
      p ← peer_at i;
      when (negb (in_use p)) (modify (fun s => s <| g_peers_n ::= fun n => u8 (n + 1) |>));;
      retries ← gets (fun s => max_retries (g_ack_cfg s));
      created ← now_j;
      seen ← now_j;
      peer_upd i (fun _ => peer_zero <| in_use := true |> <| mac := mac0 |>
        <| cur_retries := retries |> <| tx_mcs := init_mcs |> <| created_jiff := created |>
        <| last_seen := seen |>);;
      mret (Some i)
  end.

Definition peer_get (mac0 : list Z) : M st (option nat) :=
  found ← gets (peer_find mac0);
  init_mcs ← peer_init_mcs;
  match found with
  | Some i =>
      p ← peer_at i;
      ra ← gets (fun s => rate_adapt (g_ack_cfg s));
      stale ← (if negb (ra =? 0) && negb (tx_mcs p =? HALOW_MCS_DEFAULT) then peer_is_stale p else mret false);
      when stale (peer_upd i (fun p => p <| tx_mcs := init_mcs |> <| loss_q8 := 0 |>
        <| acks_since_step := 0 |> <| next_step_allowed := 0 |> <| rx_seq_seen := false |>
        <| rx_seq_win := 0 |> <| failed_top := 0 |> <| last_collapse_jiff := 0 |>));;
      now ← now_j;
      peer_upd i (fun p => p <| last_seen := now |>);;
      mret (Some i)
  | None => peer_create mac0 init_mcs
  end.
End Ack.
