(* ===== verification/AckRate.v ===== *)
(** * Rate adaptation, sizing and timing of the reliability layer: [src/halow_ack.c]

    The per-peer MCS controller fed by ACKs, retransmissions and drops, the
    bundle size each MCS allows, the lifetime of a frame and the round-trip
    estimate that paces the first retransmission. *)

From S2P Require Import Prelude Monad AckWire AckPeer AckState.

(** ** Sizing *)

Definition max_payload_mcs (mcs : Z) : Z :=
  match mcs with
  | 0 => 700 | 1 => 1450 | 2 => 2200 | 3 => 3000 | 4 => 4500 | 5 => 6050 | 6 => 6800 | 7 => 7600
  | 10 => 500
  | _ => 700
  end.

Section Rate.
Context {W : Type} `{AckEnv W}.
#[local] Abbreviation st := (ack_state W).

Definition eff_agg_bytes (pmcs : Z) (s : st) : Z :=
  let cap := agg_bytes (g_ack_cfg s) in
  let eff_mcs := if pmcs =? HALOW_MCS_DEFAULT then dflt_mcs s else pmcs in
  let mcs_cap := max_payload_mcs eff_mcs in
  if mcs_cap <? cap then mcs_cap else cap.

(** The loop of [slot_life_ms] over the retries [i], [i+1], ... *)
Fixpoint slot_life_loop (n : nat) (i tmo life : Z) : Z :=
  match n with
  | O => life
  | S n =>
      let life := u32 (life + u32 (Z.shiftl tmo (if i <? 3 then i else 3))) in
      if ACK_SLOT_LIFE_MAX_MS <=? life then ACK_SLOT_LIFE_MAX_MS
      else slot_life_loop n (i + 1) tmo life
  end.

Definition slot_life_ms (s : st) : Z :=
  let tmo := timeout_ms (g_ack_cfg s) in
  let first_cap := u32 (tmo * 4) in
  let rtt2 := u32 (g_ack_stats s ack_rtt_ewma_ms * 2) in
  let first_cap := if first_cap <? rtt2 then rtt2 else first_cap in
  slot_life_loop (Z.to_nat (max_retries (g_ack_cfg s))) 0 tmo (u32 (150 + first_cap)).

(** ** Rate adaptation *)

Definition ra_floor (s : st) : Z := dflt_mcs s.

(** Make every frame in flight to the peer due now. *)
Definition ra_kick_inflight (p : ack_peer) : M st unit :=
  now ← now_j;
  tmo ← gets (fun s => timeout_ms (g_ack_cfg s));
  let due := u32 (now - ms_j tmo - 1) in
  mfor (indices ACK_BUF_N) (fun i =>
    o ← buf_slot i;
    match o with
    | Some b => when (bool_decide (state b = ACK_BUF_INFLIGHT) && mac_eq (dest_mac b) (mac p))
                  (buf_upd i (fun b => b <| tx_jiff := due |>))
    | None => mret tt
    end).

Definition ra_note_collapse (k : nat) : M st unit :=
  now ← now_j;
  p ← peer_at k;
  let same_episode := negb (last_collapse_jiff p =? 0) &&
                      (u32 (now - last_collapse_jiff p) <? ms_j RA_PROBE_COOLDOWN_MS) in
  let abandoned := u8 (tx_mcs p + 1) in
  when (negb same_episode || (failed_top p <? abandoned)) (peer_upd k (fun p => p <| failed_top := abandoned |>));;
  peer_upd k (fun p => p <| last_collapse_jiff := now |>);;
  p ← peer_at k;
  ra_kick_inflight p.

(** [ra_probe_capped]: the ceiling after the collapse memory. *)
Definition ra_probe_capped (k : nat) (ceil : Z) : M st Z :=
  p ← peer_at k;
  if (failed_top p =? 0) || (last_collapse_jiff p =? 0) then mret ceil
  else
    now ← now_j;
    if ms_j RA_PROBE_COOLDOWN_MS <=? u32 (now - last_collapse_jiff p) then mret ceil
    else
      let cap := u8 (failed_top p - 1) in
      if cap <? ceil then bump ra_blk_probe;; mret cap else mret ceil.

(** The downshift block shared by [ra_on_ack] and [ra_on_drop]. *)
Definition ra_downshift (k : nat) : M st unit :=
  floor_d ← gets ra_floor;
  p ← peer_at k;
  if negb (floor_d <? tx_mcs p) then mret tt
  else
    now ← now_j;
    if now <? next_step_allowed p then mret tt
    else
      peer_upd k (fun p => p <| tx_mcs ::= fun m => u8 (m - 1) |>);;
      now ← now_j;
      gap ← gets g_step_gap_j;
      peer_upd k (fun p => p <| next_step_allowed := u32 (now + gap) |>);;
      bump ra_downshifts;;
      ra_note_collapse k.

Definition loss_decay (l : Z) : Z := u16 (Z.shiftr (u32 (l * (RA_EWMA_W - 1))) 3).

(** The climb of [ra_on_ack]. *)
Definition ra_climb (k : nat) : M st unit :=
  ceil_mcs ← ra_probe_capped k RA_MAX_MCS;
  p ← peer_at k;
  up ← gets g_ra_up_q8;
  down ← gets g_ra_down_q8;
  let ready := if ceil_mcs <=? u8 (tx_mcs p + 1) then loss_q8 p <=? up else loss_q8 p <=? down in
  if negb ready then bump ra_blocked_loss
  else if ceil_mcs <=? tx_mcs p then bump ra_blocked_max
  else
    now ← now_j;
    if now <? next_step_allowed p then bump ra_blocked_gap
    else
      peer_upd k (fun p => p <| tx_mcs ::= fun m => u8 (m + 1) |> <| acks_since_step := 0 |>);;
      now ← now_j;
      gap ← gets g_step_gap_j;
      peer_upd k (fun p => p <| next_step_allowed := u32 (now + gap) |>);;
      bump ra_upshifts.

Definition ra_on_ack (k : nat) : M st unit :=
  now ← now_j;
  peer_upd k (fun p => p <| last_ack_jiff := now |> <| loss_q8 ::= loss_decay |>);;
  p ← peer_at k;
  ra ← gets (fun s => rate_adapt (g_ack_cfg s));
  if (ra =? 0) || (tx_mcs p =? HALOW_MCS_DEFAULT) then mret tt
  else
    bump ra_ack_calls;;
    when (negb (acks_since_step p =? 0xFFFF))
      (peer_upd k (fun p => p <| acks_since_step ::= fun n => u16 (n + 1) |>));;
    down ← gets g_ra_down_q8;
    if down <=? loss_q8 p then ra_downshift k else ra_climb k.

(** The grace period of a freshly created peer. *)
Definition ra_in_grace (k : nat) : M st bool :=
  p ← peer_at k;
  if created_jiff p =? 0 then mret false
  else now ← now_j; mret (u32 (now - created_jiff p) <? ms_j RA_GRACE_MS).

Definition ra_on_retrans (k : nat) : M st unit :=
  grace ← ra_in_grace k;
  if grace : bool then mret tt
  else peer_upd k (fun p => p <| loss_q8 ::= fun l =>
         let q := u32 (l + RA_RETRANS_STEP_Q8) in u16 (if 255 <? q then 255 else q) |>).

Definition ra_on_drop (k : nat) : M st unit :=
  grace ← ra_in_grace k;
  if grace : bool then mret tt
  else
    peer_upd k (fun p => p
      <| loss_q8 ::= fun l => u16 (Z.shiftr (u32 (l * (RA_EWMA_W - 1))) 3 + 256 / RA_EWMA_W) |>
      <| acks_since_step := 0 |>);;
    p ← peer_at k;
    ra ← gets (fun s => rate_adapt (g_ack_cfg s));
    if (ra =? 0) || (tx_mcs p =? HALOW_MCS_DEFAULT) then mret tt
    else
      down ← gets g_ra_down_q8;
      if down <=? loss_q8 p then ra_downshift k else mret tt.

Definition ra_check_stale (k : nat) : M st unit :=
  p ← peer_at k;
  ra ← gets (fun s => rate_adapt (g_ack_cfg s));
  if (ra =? 0) || (tx_mcs p =? HALOW_MCS_DEFAULT) then mret tt
  else
    stale ← peer_is_stale p;
    if negb stale then mret tt
    else
      init_mcs ← peer_init_mcs;
      peer_upd k (fun p => p <| tx_mcs := init_mcs |> <| loss_q8 := 0 |> <| acks_since_step := 0 |>);;
      now ← now_j;
      peer_upd k (fun p => p <| next_step_allowed := u32 (now + ms_j HALOW_ACK_RA_COOLDOWN_MS) |>
        <| failed_top := 0 |> <| last_collapse_jiff := 0 |>).

(** ** Round-trip estimate *)

Definition rtt_record (born_rtt lasttx_rtt retries_used : Z) : M st unit :=
  hits ← gets (fun s => g_ack_stats s ack_rtt_hits);
  when (1000000 <=? hits)
    (stat_set ack_rtt_sum_ms (fun v => v / 2);; stat_set ack_rtt_hits (fun v => v / 2));;
  bump ack_rtt_hits;;
  let born_rtt := if 10000 <? born_rtt then 10000 else born_rtt in
  stat_set ack_rtt_sum_ms (fun v => u32 (v + born_rtt));;
  let lasttx_rtt := if 1000 <? lasttx_rtt then 1000 else lasttx_rtt in
  stat_set ack_rtt_ewma_ms (fun v => if v =? 0 then lasttx_rtt else u32 (u32 (v * 3) + lasttx_rtt) / 4).
End Rate.
