(* ===== verification/AckConfig.v ===== *)
(** * Settings of the reliability layer: [src/halow_ack.c]

    Defaults, clamping, persistence and live application of
    [halow_ack_config_t]. *)

From S2P Require Import Prelude Monad ConfigDb AckWire AckPeer AckState AckRate.
From stdpp Require Import strings.

#[local] Open Scope Z_scope.

Definition ACK_CFG_VER : Z := 5.
Definition HALOW_ACK_DEFAULT_WINDOW : Z := 10.
Definition HALOW_ACK_DEFAULT_RA_LOSS_UP : Z := 5.
Definition HALOW_ACK_DEFAULT_RA_LOSS_DOWN : Z := 20.

Definition halow_ack_config_set_default : ack_config :=
  mkAckConfig 3 250 1 HALOW_ACK_DEFAULT_RA_LOSS_UP HALOW_ACK_DEFAULT_RA_LOSS_DOWN
    HALOW_ACK_DEFAULT_WINDOW 4 1 HALOW_ACK_AGG_PAYLOAD_MAX 5 2.

(** [config_clamp], in the order of its statements: retries, timeout and loss
    thresholds; window, identifiers and bundle size; hold time and repeats. *)
Definition clamp_losses (cfg : ack_config) : ack_config :=
  let cfg := cfg <| max_retries ::= fun v => if 8 <? v then 8 else v |>
                 <| timeout_ms ::= fun v => if v <? 5 then 5 else v |>
                 <| timeout_ms ::= fun v => if 300 <? v then 300 else v |>
                 <| ra_loss_up ::= fun v => if 100 <? v then HALOW_ACK_DEFAULT_RA_LOSS_UP else v |>
                 <| ra_loss_down ::= fun v => if 100 <? v then HALOW_ACK_DEFAULT_RA_LOSS_DOWN else v |> in
  if ra_loss_down cfg <=? ra_loss_up cfg then
    cfg <| ra_loss_up := HALOW_ACK_DEFAULT_RA_LOSS_UP |>
        <| ra_loss_down := HALOW_ACK_DEFAULT_RA_LOSS_DOWN |>
  else cfg.
Definition clamp_sizes (cfg : ack_config) : ack_config :=
  let cfg := if max_retries cfg =? 0 then cfg <| rate_adapt := 0 |> else cfg in
  cfg <| window ::= fun v => if v =? 0 then HALOW_ACK_DEFAULT_WINDOW else v |>
      <| window ::= fun v => if HALOW_ACK_SLOTS_MAX <? v then HALOW_ACK_SLOTS_MAX else v |>
      <| ack_fids ::= fun v => if v =? 0 then 1 else v |>
      <| ack_fids ::= fun v => if HALOW_ACK_ACK_FIDS_MAX <? v then HALOW_ACK_ACK_FIDS_MAX else v |>
      <| agg ::= fun v => if negb (v =? 0) then 1 else 0 |>
      <| agg_bytes ::= fun v => if (v =? 0) || (HALOW_ACK_AGG_PAYLOAD_MAX <? v)
                                then HALOW_ACK_AGG_PAYLOAD_MAX else v |>.
Definition clamp_hold (cfg : ack_config) : ack_config :=
  let cfg := cfg <| ack_hold_ms ::= fun v => if 100 <? v then 100 else v |> in
  cfg <| ack_hold_ms ::= fun v =>
           if (2 <? timeout_ms cfg) && (u16 (timeout_ms cfg / 2) <? v) then u16 (timeout_ms cfg / 2) else v |>
      <| bc_repeat ::= fun v => if v <? 1 then 1 else v |>
      <| bc_repeat ::= fun v => if HALOW_ACK_BC_REPEAT_MAX <? v then HALOW_ACK_BC_REPEAT_MAX else v |>.
Definition config_clamp (cfg : ack_config) : ack_config := clamp_hold (clamp_sizes (clamp_losses cfg)).

Section Persist.
Context {D : Type} `{Kvdb D}.

(** The same cast on a [uint16_t] field reaches its low byte only. *)
Definition get_low8 (key : string) (d : D) (v : Z) : Z := v - v mod 256 + u8 (configdb_get_i8 key (i8 v) d).2.

Definition halow_ack_config_save (cfg : ack_config) (d : D) : D :=
  let d := (configdb_set_i8 "cfg.hack.retry" (Some (i8 (max_retries cfg))) d).2 in
  let d := (configdb_set_i16 "cfg.hack.tmo" (Some (i16 (timeout_ms cfg))) d).2 in
  let d := (configdb_set_i8 "cfg.hack.ra" (Some (i8 (rate_adapt cfg))) d).2 in
  let d := (configdb_set_i8 "cfg.hack.rlup" (Some (i8 (ra_loss_up cfg))) d).2 in
  let d := (configdb_set_i8 "cfg.hack.rldn" (Some (i8 (ra_loss_down cfg))) d).2 in
  let d := (configdb_set_i8 "cfg.hack.window" (Some (i8 (window cfg))) d).2 in
  let d := (configdb_set_i8 "cfg.hack.fids" (Some (i8 (ack_fids cfg))) d).2 in
  let d := (configdb_set_i8 "cfg.hack.agg" (Some (i8 (agg cfg))) d).2 in
  let d := (configdb_set_i16 "cfg.hack.aggbytes" (Some (i16 (agg_bytes cfg))) d).2 in
  let d := (configdb_set_i8 "cfg.hack.ackhold" (Some (i8 (ack_hold_ms cfg))) d).2 in
  (configdb_set_i8 "cfg.hack.bcrep" (Some (i8 (bc_repeat cfg))) d).2.

Definition load_fields (cfg : ack_config) (d : D) : ack_config :=
  cfg <| max_retries ::= get_u8 "cfg.hack.retry" d |>
      <| timeout_ms ::= get_u16 "cfg.hack.tmo" d |>
      <| rate_adapt ::= get_u8 "cfg.hack.ra" d |>
      <| ra_loss_up ::= get_u8 "cfg.hack.rlup" d |>
      <| ra_loss_down ::= get_u8 "cfg.hack.rldn" d |>
      <| window ::= get_u8 "cfg.hack.window" d |>
      <| ack_fids ::= get_u8 "cfg.hack.fids" d |>
      <| agg ::= get_u8 "cfg.hack.agg" d |>
      <| agg_bytes ::= get_u16 "cfg.hack.aggbytes" d |>
      <| ack_hold_ms ::= get_low8 "cfg.hack.ackhold" d |>
      <| bc_repeat ::= get_u8 "cfg.hack.bcrep" d |>.

Definition halow_ack_config_load (d : D) : ack_config * D :=
  let cfg := halow_ack_config_set_default in
  let '(rc, ver) := configdb_get_i16 "cfg.hack.ver" 0 d in
  if negb (rc =? 0) || negb (ver =? ACK_CFG_VER) then
    let d := halow_ack_config_save cfg d in
    let d := (configdb_set_i16 "cfg.hack.ver" (Some ACK_CFG_VER) d).2 in
    (config_clamp cfg, d)
  else (config_clamp (load_fields cfg d), d).
End Persist.

Section Live.
Context {W : Type} `{AckEnv W} `{Kvdb W}.
#[local] Abbreviation st := (ack_state W).
Variable others : option nat -> st -> st.

Definition config_cache : M st unit :=
  modify (fun s => let c := g_ack_cfg s in s
    <| g_ack_hold_j := ms_j (ack_hold_ms c) |>
    <| g_stale_j := ms_j HALOW_ACK_RA_STALE_MS |>
    <| g_quiet_j := ms_j 1000 |>
    <| g_busy_j := ms_j 10000 |>
    <| g_step_gap_j := ms_j HALOW_ACK_RA_STEP_GAP_MS |>
    <| g_dflt_ttl_j := ms_j 5000 |>
    <| g_ra_up_q8 := u16 (u32 (ra_loss_up c * 256) / 100) |>
    <| g_ra_down_q8 := u16 (u32 (ra_loss_down c * 256) / 100) |>).

Definition halow_ack_config_get_live : M st ack_config :=
  ack_lock;; c ← gets g_ack_cfg; ack_unlock others None;; mret c.

Definition apply_to_peer (c : ack_config) (k : nat) : M st unit :=
  p ← peer_at k;
  when (in_use p) (
    when (max_retries c <? cur_retries p) (peer_upd k (fun p => p <| cur_retries := max_retries c |>));;
    (if rate_adapt c =? 0 then
       peer_upd k (fun p => p <| tx_mcs := HALOW_MCS_DEFAULT |> <| loss_q8 := 0 |>)
     else if tx_mcs p =? HALOW_MCS_DEFAULT then
       m ← peer_init_mcs;
       peer_upd k (fun p => p <| tx_mcs := m |> <| loss_q8 := 0 |>)
     else mret tt);;
    peer_upd k (fun p => p <| acks_since_step := 0 |> <| next_step_allowed := 0 |>)).

Definition halow_ack_config_apply (cfg : option ack_config) : M st unit :=
  match cfg with
  | None => mret tt
  | Some cfg =>
      let c := config_clamp cfg in
      dflt_mcs_refresh;;
      ack_lock;;
      modify (fun s => s <| g_ack_cfg := c |> <| g_window := window c |>
                         <| g_cwnd ::= fun w => if window c <? w then window c else w |>);;
      mfor (indices ACK_MAX_PEERS) (apply_to_peer c);;
      ack_unlock others None;;
      ack_lock;;
      config_cache;;
      ack_unlock others None;;
      modify (fun s => s <| world ::= halow_ack_config_save (g_ack_cfg s) |>)
  end.
End Live.

(** ** What clamping establishes *)

Record ack_cfg_ok (c : ack_config) : Prop := {
  ok_retries : 0 <= max_retries c <= 8;
  ok_timeout : 5 <= timeout_ms c <= 300;
  ok_ra : is_u8 (rate_adapt c);
  ok_ra_off : max_retries c = 0 -> rate_adapt c = 0;
  ok_up : 0 <= ra_loss_up c < ra_loss_down c;
  ok_down : ra_loss_down c <= 100;
  ok_window : 1 <= window c <= 16;
  ok_fids : 1 <= ack_fids c <= 16;
  ok_agg : 0 <= agg c <= 1;
  ok_bytes : 1 <= agg_bytes c <= 4000;
  ok_hold : 0 <= ack_hold_ms c <= timeout_ms c / 2 /\ ack_hold_ms c <= 100;
  ok_bc : 1 <= bc_repeat c <= 3;
}.

(** The fields have the range of their C types. *)
Definition ack_cfg_typed (c : ack_config) : Prop :=
  is_u8 (max_retries c) /\ is_u16 (timeout_ms c) /\ is_u8 (rate_adapt c) /\ is_u8 (ra_loss_up c) /\
  is_u8 (ra_loss_down c) /\ is_u8 (window c) /\ is_u8 (ack_fids c) /\ is_u8 (agg c) /\
  is_u16 (agg_bytes c) /\ is_u16 (ack_hold_ms c) /\ is_u8 (bc_repeat c).

Ltac cfg_unfold :=
  unfold HALOW_ACK_DEFAULT_WINDOW, HALOW_ACK_DEFAULT_RA_LOSS_UP, HALOW_ACK_DEFAULT_RA_LOSS_DOWN,
    HALOW_ACK_SLOTS_MAX, HALOW_ACK_ACK_FIDS_MAX, HALOW_ACK_AGG_PAYLOAD_MAX, HALOW_ACK_BC_REPEAT_MAX;
  rsimpl; cbv zeta; cbn [max_retries timeout_ms rate_adapt ra_loss_up ra_loss_down window ack_fids agg
    agg_bytes ack_hold_ms bc_repeat].
Ltac cfg_lia := repeat z_case; cbn [andb orb negb]; try word_lia.

Lemma clamp_losses_ok c : ack_cfg_typed c ->
  let c' := clamp_losses c in
  0 <= max_retries c' <= 8 /\ 5 <= timeout_ms c' <= 300 /\
  0 <= ra_loss_up c' < ra_loss_down c' /\ ra_loss_down c' <= 100 /\
  rate_adapt c' = rate_adapt c /\ window c' = window c /\ ack_fids c' = ack_fids c /\ agg c' = agg c /\
  agg_bytes c' = agg_bytes c /\ ack_hold_ms c' = ack_hold_ms c /\ bc_repeat c' = bc_repeat c.
Proof.
  unfold ack_cfg_typed. intros (H1 & H2 & _ & H4 & H5 & _). cbv zeta. unfold clamp_losses.
  set (c1 := c <| max_retries ::= _ |> <| timeout_ms ::= _ |> <| timeout_ms ::= _ |>
               <| ra_loss_up ::= _ |> <| ra_loss_down ::= _ |>).
  assert (0 <= max_retries c1 <= 8) by (subst c1; cfg_unfold; cfg_lia).
  assert (5 <= timeout_ms c1 <= 300) by (subst c1; cfg_unfold; cfg_lia).
  assert (0 <= ra_loss_up c1 <= 100) by (subst c1; cfg_unfold; cfg_lia).
  assert (0 <= ra_loss_down c1 <= 100) by (subst c1; cfg_unfold; cfg_lia).
  destruct (Z.leb_spec (ra_loss_down c1) (ra_loss_up c1)); cfg_unfold; split_and!; try lia; done.
Qed.

Lemma clamp_sizes_ok c : ack_cfg_typed c ->
  let c' := clamp_sizes c in
  is_u8 (rate_adapt c') /\ (max_retries c = 0 -> rate_adapt c' = 0) /\
  1 <= window c' <= 16 /\ 1 <= ack_fids c' <= 16 /\ 0 <= agg c' <= 1 /\ 1 <= agg_bytes c' <= 4000 /\
  max_retries c' = max_retries c /\ timeout_ms c' = timeout_ms c /\ ra_loss_up c' = ra_loss_up c /\
  ra_loss_down c' = ra_loss_down c /\ ack_hold_ms c' = ack_hold_ms c /\ bc_repeat c' = bc_repeat c.
Proof.
  unfold ack_cfg_typed. intros (H1 & _ & H3 & _ & _ & H6 & H7 & _ & H9 & _). cbv zeta. unfold clamp_sizes.
  set (c1 := if max_retries c =? 0 then _ else _).
  assert (E : c1 = c <| rate_adapt := rate_adapt c1 |>).
  { subst c1. destruct (_ =? 0); by destruct c. }
  assert (Hra : is_u8 (rate_adapt c1) /\ (max_retries c = 0 -> rate_adapt c1 = 0)).
  { subst c1. destruct (Z.eqb_spec (max_retries c) 0); cfg_unfold; [|done]. split; word_lia. }
  clearbody c1. rewrite E in *. clear E. revert Hra. cfg_unfold. intros [Hr0 Hr1].
  split_and!; try done; cfg_lia.
Qed.

Lemma clamp_hold_ok c : 5 <= timeout_ms c <= 300 -> is_u16 (ack_hold_ms c) -> is_u8 (bc_repeat c) ->
  let c' := clamp_hold c in
  0 <= ack_hold_ms c' <= timeout_ms c' / 2 /\ ack_hold_ms c' <= 100 /\ 1 <= bc_repeat c' <= 3 /\
  c' = c <| ack_hold_ms := ack_hold_ms c' |> <| bc_repeat := bc_repeat c' |>.
Proof.
  intros Ht Hh Hb. cbv zeta. unfold clamp_hold.
  set (h1 := if 100 <? ack_hold_ms c then 100 else ack_hold_ms c).
  assert (0 <= h1 <= 100) by (subst h1; cfg_lia).
  split_and!; try (by destruct c); cfg_unfold; fold h1; clearbody h1;
    rewrite ?(proj2 (Z.ltb_lt 2 (timeout_ms c))) by lia; cbn [andb];
    rewrite ?(u16_small (timeout_ms c / 2)) by word_lia; repeat z_case; Z.to_euclidean_division_equations; lia.
Qed.

Lemma config_clamp_ok c : ack_cfg_typed c -> ack_cfg_ok (config_clamp c).
Proof.
  intros Ht. unfold config_clamp. pose proof (clamp_losses_ok _ Ht) as L. cbv zeta in L.
  revert L. generalize (clamp_losses c). intros c1 L.
  destruct Ht as (T1 & T2 & T3 & T4 & T5 & T6 & T7 & T8 & T9 & T10 & T11).
  destruct L as (L1 & L2 & L3 & L4 & L5 & L6 & L7 & L8 & L9 & L10 & L11).
  assert (Ht1 : ack_cfg_typed c1).
  { unfold ack_cfg_typed. rewrite L5, L6, L7, L8, L9, L10, L11. split_and!; try done; word_lia. }
  pose proof (clamp_sizes_ok _ Ht1) as S. cbv zeta in S.
  revert S. generalize (clamp_sizes c1). intros c2 S.
  destruct S as (S1 & S2 & S3 & S4 & S5 & S6 & S7 & S8 & S9 & S10 & S11 & S12).
  assert (Hh : is_u16 (ack_hold_ms c2)) by (by rewrite S11, L10).
  assert (Hb : is_u8 (bc_repeat c2)) by (by rewrite S12, L11).
  assert (Ht2 : 5 <= timeout_ms c2 <= 300) by lia.
  pose proof (clamp_hold_ok c2 Ht2 Hh Hb) as K. cbv zeta in K. revert K. generalize (clamp_hold c2).
  intros c3 (K1 & K2 & K3 & K4). rewrite K4 in K1 |- *. clear K4. revert K1. rsimpl. intros K1.
  constructor; rsimpl; rewrite ?S7, ?S8, ?S9, ?S10; try done; try lia. by rewrite <-S8.
Qed.

Lemma ack_config_ext c c' :
  max_retries c = max_retries c' -> timeout_ms c = timeout_ms c' -> rate_adapt c = rate_adapt c' ->
  ra_loss_up c = ra_loss_up c' -> ra_loss_down c = ra_loss_down c' -> window c = window c' ->
  ack_fids c = ack_fids c' -> agg c = agg c' -> agg_bytes c = agg_bytes c' ->
  ack_hold_ms c = ack_hold_ms c' -> bc_repeat c = bc_repeat c' -> c = c'.
Proof. destruct c, c'. cbn. congruence. Qed.

Lemma clamp_losses_id c : ack_cfg_ok c -> clamp_losses c = c.
Proof.
  intros [H1 H2 H3 H4 H5 H6 _ _ _ _ _ _]. unfold clamp_losses. cbv zeta.
  match goal with |- (if ra_loss_down ?x <=? _ then _ else _) = _ => assert (E : x = c) end.
  { apply ack_config_ext; cfg_unfold; repeat z_case; lia. }
  rewrite E. by rewrite (proj2 (Z.leb_gt (ra_loss_down c) (ra_loss_up c))) by lia.
Qed.

Lemma clamp_sizes_id c : ack_cfg_ok c -> clamp_sizes c = c.
Proof.
  intros [H1 H2 H3 H4 H5 H6 H7 H8 H9 H10 H11 H12]. unfold clamp_sizes. cbv zeta.
  assert (E : (if max_retries c =? 0 then c <| rate_adapt := 0 |> else c) = c).
  { destruct (Z.eqb_spec (max_retries c) 0); [|done]. apply ack_config_ext; cfg_unfold; auto.
    symmetry. auto. }
  rewrite E. apply ack_config_ext; cfg_unfold; repeat (z_case; cbn [andb orb negb]); lia.
Qed.

Lemma clamp_hold_id c : ack_cfg_ok c -> clamp_hold c = c.
Proof.
  intros [H1 H2 H3 H4 H5 H6 H7 H8 H9 H10 H11 H12]. unfold clamp_hold. cbv zeta.
  apply ack_config_ext; cfg_unfold; try done; try (repeat z_case; lia).
  rewrite (proj2 (Z.ltb_lt 2 (timeout_ms c))), u16_small by word_lia. cbn [andb].
  repeat z_case; lia.
Qed.

Lemma config_clamp_id c : ack_cfg_ok c -> config_clamp c = c.
Proof. intros H. unfold config_clamp. by rewrite clamp_losses_id, clamp_sizes_id, clamp_hold_id. Qed.

Lemma ack_cfg_ok_typed c : ack_cfg_ok c -> ack_cfg_typed c.
Proof. intros []. unfold ack_cfg_typed. split_and!; try done; word_lia. Qed.

(** ** Persistence *)

Section SaveLoad.
Context {D : Type} `{KvdbLaws D}.
(** The flash accepts every write. *)
Hypothesis writes_succeed : forall key bytes (d : D), (fdb_kv_set_blob key bytes d).1 = 0.

Definition saved_keys (c : ack_config) : list (string * Z) :=
  [("cfg.hack.retry", i8 (max_retries c)); ("cfg.hack.tmo", i16 (timeout_ms c));
   ("cfg.hack.ra", i8 (rate_adapt c)); ("cfg.hack.rlup", i8 (ra_loss_up c));
   ("cfg.hack.rldn", i8 (ra_loss_down c)); ("cfg.hack.window", i8 (window c));
   ("cfg.hack.fids", i8 (ack_fids c)); ("cfg.hack.agg", i8 (agg c));
   ("cfg.hack.aggbytes", i16 (agg_bytes c)); ("cfg.hack.ackhold", i8 (ack_hold_ms c));
   ("cfg.hack.bcrep", i8 (bc_repeat c))]%string.

Lemma save_write_all c (d : D) : halow_ack_config_save c d = write_all (saved_keys c) d.
Proof. reflexivity. Qed.

Lemma saved_keys_NoDup c : NoDup (saved_keys c).*1.
Proof. refine (bool_decide_eq_true_1 _ _). vm_compute. reflexivity. Qed.

Lemma saved_keys_i32 c : Forall (fun kv => is_i32 kv.2) (saved_keys c).
Proof.
  assert (H8 : forall x, is_i32 (i8 x)) by (intros x; pose proof (i8_cast_range x); unfold is_i32; lia).
  assert (H16 : forall x, is_i32 (i16 x)) by (intros x; pose proof (i16_cast_range x); unfold is_i32; lia).
  unfold saved_keys. repeat (apply Forall_cons; split; [solve [apply H8 | apply H16]|]). by apply Forall_nil.
Qed.

Lemma get_low8_stored key v cur (d : D) :
  is_u8 v -> is_u8 cur -> stored_i32 key d = Some (i8 v) -> get_low8 key d cur = v.
Proof.
  intros Hv Hc Hs. unfold get_low8. rewrite (get_i8_stored _ _ _ _ Hs). cbn [snd].
  rewrite clamp_i8_small by apply i8_cast_range. rewrite u8_i8 by done. word_lia.
Qed.

Lemma get_low8_range key (d : D) v : is_u8 v -> is_u16 (get_low8 key d v).
Proof.
  intros Hv. unfold get_low8. generalize (configdb_get_i8 key (i8 v) d).2. intros x.
  pose proof (u8_range x). word_lia.
Qed.

Lemma load_fields_typed c (d : D) : is_u8 (ack_hold_ms c) -> ack_cfg_typed (load_fields c d).
Proof.
  intros Hh. unfold ack_cfg_typed, load_fields.
  refine (conj _ (conj _ (conj _ (conj _ (conj _ (conj _ (conj _ (conj _ (conj _ (conj _ _))))))))));
    rsimpl; lazymatch goal with
    | |- is_u8 _ => simple apply get_u8_range
    | |- is_u16 (get_low8 _ _ _) => simple apply get_low8_range; exact Hh
    | |- _ => simple apply get_u16_range end.
Qed.

(** The fields read back from any store that holds the saved keys. *)
Lemma load_fields_saved c c0 (d : D) : ack_cfg_ok c -> is_u8 (ack_hold_ms c0) ->
  (forall k v, (k, v) ∈ saved_keys c -> stored_i32 k d = Some v) -> load_fields c0 d = c.
Proof.
  intros Hok Hh Hst. pose proof (ack_cfg_ok_typed _ Hok) as (T1 & T2 & T3 & T4 & T5 & T6 & T7 & T8 & T9 & T10 & T11).
  assert (is_u8 (ack_hold_ms c)) by (destruct Hok; word_lia).
  assert (Hin : forall n k v, saved_keys c !! n = Some (k, v) -> stored_i32 k d = Some v).
  { intros n k v Hn. eapply Hst, list_elem_of_lookup_2, Hn. }
  apply ack_config_ext; unfold load_fields; rsimpl.
  - by apply get_u8_stored, (Hin 0%nat).
  - by apply get_u16_stored, (Hin 1%nat).
  - by apply get_u8_stored, (Hin 2%nat).
  - by apply get_u8_stored, (Hin 3%nat).
  - by apply get_u8_stored, (Hin 4%nat).
  - by apply get_u8_stored, (Hin 5%nat).
  - by apply get_u8_stored, (Hin 6%nat).
  - by apply get_u8_stored, (Hin 7%nat).
  - by apply get_u16_stored, (Hin 8%nat).
  - by apply get_low8_stored, (Hin 9%nat).
  - by apply get_u8_stored, (Hin 10%nat).
Qed.

Lemma default_ok : ack_cfg_ok halow_ack_config_set_default.
Proof. constructor; by_eval || done. Qed.

Lemma load_current c (d : D) : ack_cfg_ok c -> stored_i32 "cfg.hack.ver" d = Some ACK_CFG_VER ->
  (forall k v, (k, v) ∈ saved_keys c -> stored_i32 k d = Some v) -> halow_ack_config_load d = (c, d).
Proof.
  intros Hok Hver Hst. unfold halow_ack_config_load. rewrite (get_i16_stored _ _ _ _ Hver).
  change (clamp_i16 ACK_CFG_VER) with ACK_CFG_VER. cbn [negb orb Z.eqb].
  rewrite (load_fields_saved c) by (done || by_eval). cbn. by rewrite config_clamp_id.
Qed.

Lemma ver_not_saved c : "cfg.hack.ver"%string ∉ (saved_keys c).*1.
Proof. refine (bool_decide_eq_true_1 _ _). vm_compute. reflexivity. Qed.

(** The first load of a flash of another generation seeds it. *)
Lemma load_seeds (d : D) c d' : halow_ack_config_load d = (c, d') ->
  ack_cfg_ok c /\ stored_i32 "cfg.hack.ver" d' = Some ACK_CFG_VER /\ halow_ack_config_load d' = (c, d').
Proof using All.
  unfold halow_ack_config_load at 1.
  destruct (configdb_get_i16 "cfg.hack.ver" 0 d) as [rc ver] eqn:Hg.
  destruct (negb (rc =? 0) || negb (ver =? ACK_CFG_VER)) eqn:Hold.
  - rewrite config_clamp_id by apply default_ok. intros [= <- <-]. split; [apply default_ok|].
    rewrite save_write_all. destruct (write_all_stored writes_succeed _ d
      (saved_keys_NoDup halow_ack_config_set_default) (saved_keys_i32 _)) as [Hst _].
    revert Hst. generalize (write_all (saved_keys halow_ack_config_set_default) d). intros d1 Hst.
    unfold configdb_set_i16.
    assert (Hv : is_i32 ACK_CFG_VER) by by_eval.
    destruct (set_succeeds writes_succeed "cfg.hack.ver" ACK_CFG_VER d1 Hv) as (Hver & Ho & _).
    split; [done|]. apply load_current; [apply default_ok|done|]. intros k v Hin.
    assert (Hk : k ∈ (saved_keys halow_ack_config_set_default).*1)
      by (apply list_elem_of_fmap; by exists (k, v)).
    rewrite Ho by (intros E; apply (ver_not_saved halow_ack_config_set_default); by rewrite <-E).
    by apply Hst.
  - apply orb_false_iff in Hold as [Hr Hv]. apply negb_false_iff, Z.eqb_eq in Hr. apply negb_false_iff, Z.eqb_eq in Hv.
    subst rc ver. intros [= <- <-]. split.
    { apply config_clamp_ok, load_fields_typed. by_eval. }
    split.
    + revert Hg. unfold configdb_get_i16, clamped_get. rewrite get_i32_stored.
      destruct (stored_i32 _ d) as [v|]; [|done]. intros [= Hv]. f_equal. revert Hv.
      unfold clamp_i16, ACK_CFG_VER. repeat z_case; word_lia.
    + unfold halow_ack_config_load. by rewrite Hg.
Qed.
End SaveLoad.

(** Whatever the flash holds and whether or not it accepts writes. *)
Lemma load_in_range {D} `{Kvdb D} (d : D) : ack_cfg_ok (halow_ack_config_load d).1.
Proof.
  unfold halow_ack_config_load. destruct (configdb_get_i16 _ _ _) as [rc ver].
  destruct (_ || _); [by rewrite config_clamp_id; [apply default_ok|apply default_ok]|].
  apply config_clamp_ok, load_fields_typed. by_eval.
Qed.

(** ** Applying settings *)

Section Apply.
Context {W : Type} `{AckEnv W} `{KvdbLaws W}.
#[local] Abbreviation st := (ack_state W).
Definition version (w : W) : option Z := stored_i32 "cfg.hack.ver" w.

(** While the mutex is free no other task applies settings; nor does reading
    the clock change the store. *)
Record settings_left (others : option nat -> st -> st) : Prop := {
  left_cfg mine s : g_ack_cfg (others mine s) = g_ack_cfg s;
  left_window mine s : g_window (others mine s) = g_window s;
  left_version mine s : version (world (others mine s)) = version (world s);
  left_clock (w : W) : version (os_jiffies w).2 = version w;
}.
Context (others : option nat -> st -> st) (Hl : settings_left others).

(** The settings [c] are in force, and the store is of generation [v]. *)
Definition in_force (c : ack_config) (v : option Z) (s : st) : Prop :=
  g_ack_cfg s = c /\ g_window s = window c /\ version (world s) = v.

Lemma wp_mcs_refresh s (Q : unit -> st -> Prop) :
  (forall s', g_peers s' = g_peers s -> g_ack_cfg s' = g_ack_cfg s -> g_window s' = g_window s ->
     version (world s') = version (world s) -> Q tt s') -> wp dflt_mcs_refresh Q s.
Proof using Hl.
  intros HQ. unfold dflt_mcs_refresh, now_j. apply wp_bind, wp_bind. unfold wp at 1, ext.
  pose proof (left_clock _ Hl (world s)) as Hc. destruct (os_jiffies (world s)) as [j w]. cbn [snd] in Hc.
  apply wp_ret, wp_bind, wp_gets. destruct (_ && _); [apply wp_ret|apply wp_modify]; by apply HQ.
Qed.

Definition apply_inv (c : ack_config) (v : option Z) (s : st) : Prop :=
  in_force c v s /\ length (g_peers s) = ACK_MAX_PEERS.

Lemma wp_peer_upd_len i f c v s (Q : unit -> st -> Prop) : apply_inv c v s -> (i < ACK_MAX_PEERS)%nat ->
  (forall s', apply_inv c v s' -> Q tt s') -> wp (peer_upd i f) Q s.
Proof.
  intros [Hf Hn] Hi HQ. unfold peer_upd, peer_at. destruct (lookup_lt_is_Some_2 (g_peers s) i) as [p Hp]; [lia|].
  apply wp_bind, wp_bind, wp_gets, (wp_lift _ p); [exact Hp|]. apply wp_modify, HQ. split; [exact Hf|]. rsimpl.
  by rewrite length_insert.
Qed.

Lemma wp_apply_to_peer cfg c v k s : apply_inv c v s -> (k < ACK_MAX_PEERS)%nat ->
  wp (apply_to_peer cfg k) (fun _ => apply_inv c v) s.
Proof using Hl.
  intros HI Hk. unfold apply_to_peer, peer_at at 1. destruct (lookup_lt_is_Some_2 (g_peers s) k) as [p Hp]; [destruct HI; lia|].
  apply wp_bind, wp_bind, wp_gets, (wp_lift _ p); [exact Hp|]. apply wp_when; intros _; [|exact HI].
  assert (Hrest : forall s1, apply_inv c v s1 -> wp ((if rate_adapt cfg =? 0 then
       peer_upd k (fun p => p <| tx_mcs := HALOW_MCS_DEFAULT |> <| loss_q8 := 0 |>)
     else if tx_mcs p =? HALOW_MCS_DEFAULT then
       m ← peer_init_mcs; peer_upd k (fun p => p <| tx_mcs := m |> <| loss_q8 := 0 |>)
     else mret tt);; peer_upd k (fun p => p <| acks_since_step := 0 |> <| next_step_allowed := 0 |>)) (fun _ => apply_inv c v) s1).
  { intros s1 Hi1. apply wp_bind. assert (Hend : forall s2, apply_inv c v s2 ->
      wp (peer_upd k (fun p => p <| acks_since_step := 0 |> <| next_step_allowed := 0 |>)) (fun _ => apply_inv c v) s2).
    { intros s2 H2'. by apply (wp_peer_upd_len _ _ c v). }
    destruct (_ =? 0); [by apply (wp_peer_upd_len _ _ c v)|]. destruct (_ =? _); [|by apply wp_ret, Hend].
    apply wp_bind. assert (Hm : forall m s2, apply_inv c v s2 ->
      wp (peer_upd k (fun p => p <| tx_mcs := m |> <| loss_q8 := 0 |>)) (fun _ s3 => wp (peer_upd k
        (fun p => p <| acks_since_step := 0 |> <| next_step_allowed := 0 |>)) (fun _ => apply_inv c v) s3) s2).
    { intros m s2 H2'. by apply (wp_peer_upd_len _ _ c v). }
    unfold peer_init_mcs. apply wp_bind, wp_gets. destruct (_ =? 0); [by apply wp_ret, Hm|].
    apply wp_bind, wp_mcs_refresh. intros s2 E1 E2 E3 E4. apply wp_gets, Hm.
    destruct Hi1 as [(F1 & F2 & F3) F4]. split; [|by rewrite E1]. split; [by rewrite E2|]. split; [by rewrite E3|by rewrite E4]. }
  apply wp_bind, wp_when; intros _; [|by apply Hrest]. by apply (wp_peer_upd_len _ _ c v).
Qed.

(** The store before the settings are saved is of the same generation. *)
Lemma config_apply_spec new s : length (g_peers s) = ACK_MAX_PEERS ->
  wp (halow_ack_config_apply others (Some new)) (fun _ s' => let c := config_clamp new in
    g_ack_cfg s' = c /\ g_window s' = window c /\
    exists w, version w = version (world s) /\ world s' = halow_ack_config_save c w) s.
Proof using Hl.
  intros Hn. unfold halow_ack_config_apply. cbv zeta. set (c := config_clamp new). set (v := version (world s)).
  apply wp_bind, wp_mcs_refresh. intros s1 E1 _ _ E4. apply wp_bind, wp_modify, wp_bind, wp_modify, wp_bind.
  apply (wp_mfor _ _ (apply_inv c v)).
  { split; [|rsimpl; by rewrite E1]. split; [done|]. split; [done|]. exact E4. }
  { intros k s2 Hk%elem_of_seq HI. apply wp_apply_to_peer; [exact HI|lia]. }
  intros s2 [Hf _]. assert (Hun : forall s3 (Q : unit -> st -> Prop), in_force c v s3 -> (forall s4, in_force c v s4 -> Q tt s4) ->
    wp (ack_unlock others None) Q s3).
  { intros s3 Q (F1 & F2 & F3) HQ. unfold ack_unlock. apply wp_bind, wp_modify, wp_modify, HQ.
    split; [by rewrite (left_cfg _ Hl)|]. split; [by rewrite (left_window _ Hl)|by rewrite (left_version _ Hl)]. }
  apply wp_bind, Hun; [done|]. intros s3 H3. apply wp_bind, wp_modify, wp_bind. unfold config_cache. apply wp_modify.
  apply wp_bind, Hun; [exact H3|]. intros s4 (F1 & F2 & F3). apply wp_modify. rsimpl. rewrite F1. split; [done|]. split; [done|].
  by exists (world s4).
Qed.
End Apply.

(** C11: Whatever the flash holds and whether or not it can be written,
    loading the reliability settings yields settings within their documented
    ranges (retries, timeout, loss thresholds, window, bundle size, hold
    time).  Applying settings of any value returns with the clamped settings,
    which are in range, in force, if no other task applies settings at the
    same time.  As long as writes to the flash succeed, loading twice gives
    the same settings without a further write, and the settings in force
    after an application are exactly those the next start loads, again
    without a write. *)
Theorem ack_config_persistent {W} `{AckEnv W} `{KvdbLaws W} others (new : ack_config) (s : ack_state W) :
  settings_left others -> ack_cfg_typed new -> length (g_peers s) = ACK_MAX_PEERS ->
  (forall d : W, ack_cfg_ok (halow_ack_config_load d).1) /\
  exists s', halow_ack_config_apply others (Some new) s = Some (tt, s') /\
    g_ack_cfg s' = config_clamp new /\ ack_cfg_ok (g_ack_cfg s') /\ g_window s' = window (g_ack_cfg s') /\
    ((forall key bytes (d : W), (fdb_kv_set_blob key bytes d).1 = 0) ->
     forall d, halow_ack_config_load (halow_ack_config_load d).2 = halow_ack_config_load d /\
       (world s = (halow_ack_config_load d).2 ->
        halow_ack_config_load (world s') = (g_ack_cfg s', world s') /\
        halow_ack_config_save (g_ack_cfg s') (world s') = world s')).
Proof.
  intros Hl Hn Hp. split; [intros d; apply load_in_range|].
  destruct (wp_elim _ _ _ (config_apply_spec others Hl new s Hp)) as ([] & s' & E & Ec & Ew & w & Ev & Eq).
  pose proof (config_clamp_ok _ Hn) as Hc. exists s'. split; [exact E|]. rewrite Ec.
  split; [done|]. split; [exact Hc|]. split; [exact Ew|]. intros Hw d.
  destruct (halow_ack_config_load d) as [c d'] eqn:Hld. destruct (load_seeds Hw _ _ _ Hld) as (_ & Hver & Hagain).
  split; [exact Hagain|]. cbn [snd]. intros Es. rewrite Eq, save_write_all.
  destruct (write_all_stored Hw _ w (saved_keys_NoDup (config_clamp new)) (saved_keys_i32 _)) as [Hin Hout]. split.
  - apply load_current; [exact Hc| |exact Hin]. rewrite Hout by apply ver_not_saved. change (version w = Some ACK_CFG_VER).
    rewrite Ev. unfold version. by rewrite Es.
  - rewrite save_write_all. apply (write_all_again Hw); [apply saved_keys_i32|exact Hin].
Qed.

(** A node whose clock stands still; the settings module's own task is alone. *)
#[local] Instance shelf_env : AckEnv (gmap string (list Z)) := {
  os_jiffies w := (5, w);
  os_msecs_to_jiffies ms := ms;
  time_s _ := 0;
  os_malloc _ w := (true, w);
  halow_tx_p _ _ _ _ w := (0, w);
  halow_get_tx_vacancy _ := 0;
  halow_config_mcs _ := 2;
  statistics_radio_register_tx_package _ w := w;
  halow_tx_vacancy_watchdog w := w;
}.
Definition shelf_old : gmap string (list Z) := <["cfg.hack.ver"%string := le32 3]> ∅.
Definition shelf_state : ack_state (gmap string (list Z)) :=
  mkAck (halow_ack_config_load shelf_old).1 (fun _ => 0) [] (replicate ACK_BUF_N None) 10 4
    (replicate ACK_MAX_PEERS peer_zero) 0 0 1 0 0 5 60000 1000 1000 1000 1000 12 51 2 0 0 (halow_ack_config_load shelf_old).2.
Definition wild : ack_config := mkAckConfig 200 2 7 90 40 0 40 9 65000 9999 0.

Lemma ack_config_persistent_witness :
  (forall d : gmap string (list Z), ack_cfg_ok (halow_ack_config_load d).1) /\
  exists s', halow_ack_config_apply (fun _ s => s) (Some wild) shelf_state = Some (tt, s') /\
    g_ack_cfg s' = config_clamp wild /\ ack_cfg_ok (g_ack_cfg s') /\ g_window s' = window (g_ack_cfg s') /\
    ((forall key bytes (d : gmap string (list Z)), (fdb_kv_set_blob key bytes d).1 = 0) ->
     forall d, halow_ack_config_load (halow_ack_config_load d).2 = halow_ack_config_load d /\
       (world shelf_state = (halow_ack_config_load d).2 ->
        halow_ack_config_load (world s') = (g_ack_cfg s', world s') /\
        halow_ack_config_save (g_ack_cfg s') (world s') = world s')).
Proof.
  apply (ack_config_persistent (fun _ s => s) wild shelf_state); [by split| |reflexivity].
  unfold ack_cfg_typed, wild. cbn. by_eval.
Defined.
