(* ===== verification/AckTx.v ===== *)
(** * Transmit path of the reliability layer: [src/halow_ack.c]

    Bundle staging and flushing, tracked and untracked transmission, and the
    sending of ACKs.  A peer argument [p] of the code is its index in
    [g_peers], a buffer argument its index in [g_bufs]. *)

From S2P Require Import Prelude Monad AckWire AckPeer AckState AckRate.

Section AckTx.
Context {W : Type} `{AckEnv W}.
#[local] Abbreviation st := (ack_state W).
Variable others : option nat -> st -> st.

(** ** Sending ACKs *)

Definition ack_mcs_for_peer (dest_mac : list Z) : M st Z :=
  ack_lock;;
  found ← gets (peer_find dest_mac);
  ack_mcs ← match found with
            | Some k =>
                p ← peer_at k;
                c ← (if tx_mcs p =? HALOW_MCS_DEFAULT then gets dflt_mcs else mret (tx_mcs p));
                mret (if HALOW_ACK_ACK_MCS_MAX <? c then HALOW_ACK_ACK_MCS_MAX else c)
            | None => mret HALOW_ACK_ACK_MCS_MAX
            end;
  ack_unlock others None;;
  mret ack_mcs.

Definition send_env_ack (evm : Z) (dest_mac : list Z) (base bm ack_mcs : Z) : M st unit :=
  r ← ext (fun w => halow_tx_p (env_ack_frame evm base bm) dest_mac ack_mcs 7 w);
  if r =? 0 then bump acks_sent;; bump env_tx_acks else bump acks_tx_fail.

Definition send_fid_ack (evm : Z) (dest_mac : list Z) (fids : list Z) (ack_mcs : Z) : M st unit :=
  n ← gets (fun s => ack_fids (g_ack_cfg s));
  let nfids := if HALOW_ACK_ACK_FIDS_MAX <? n then HALOW_ACK_ACK_FIDS_MAX else n in
  let nfids := if nfids =? 0 then 1 else nfids in
  fs ← lift (rd_n fids 0 nfids);
  r ← ext (fun w => halow_tx_p (fid_ack_frame evm fs) dest_mac ack_mcs 7 w);
  if r =? 0 then bump acks_sent else bump acks_tx_fail.

Definition send_ack (evm : Z) (dest_mac : list Z) (fids : list Z) : M st unit :=
  ack_mcs ← ack_mcs_for_peer dest_mac;
  stat_set ack_mcs_last (fun _ => ack_mcs);;
  ack_lock;;
  found ← gets (peer_find dest_mac);
  env ← match found with
        | Some k => p ← peer_at k; mret (env_ack_capture_locked p)
        | None => mret None
        end;
  ack_unlock others None;;
  match env with
  | Some (base, bm) => send_env_ack evm dest_mac base bm ack_mcs
  | None => send_fid_ack evm dest_mac fids ack_mcs
  end.

(** ** Bundle staging and flush *)

(** Slot of the staged bundle: [g_bufs[p->agg_idx - 1]]. *)
Definition agg_slot (p : ack_peer) : nat := Z.to_nat (agg_idx p - 1).
Definition agg_clear (p : ack_peer) : ack_peer :=
  p <| agg_idx := 0 |> <| agg_len := 0 |> <| agg_nsub := 0 |> <| agg_first_jiff := 0 |>.

Definition agg_reset (k : nat) : M st unit :=
  p ← peer_at k;
  when (negb (agg_idx p =? 0))
    (o ← buf_slot (agg_slot p);
     match o with Some _ => buf_release (agg_slot p) | None => mret tt end);;
  peer_upd k agg_clear.

Definition peer_note_tx (k : nat) (wire_bytes : Z) : M st unit :=
  t ← gets (fun s => time_s (world s));
  peer_upd k (fun p => p <| tx ::= fun n => u32 (n + 1) |>
                         <| tx_bytes ::= fun n => u32 (n + wire_bytes) |> <| last_tx_s := i32 t |>).

(** [p->tx_seq++], skipping [0xFFFF]. *)
Definition next_tx_seq (k : nat) : M st Z :=
  p ← peer_at k;
  let seq := tx_seq p in
  if seq =? 0xFFFF then
    let seq := u16 (seq + 1) in
    peer_upd k (fun p => p <| tx_seq := u16 (seq + 1) |>);; mret seq
  else peer_upd k (fun p => p <| tx_seq := u16 (seq + 1) |>);; mret seq.

Definition nonzero_fid (f : Z) : Z := let f := u16 (Z.land f 0xFFFF) in if f =? 0 then 0xFFFF else f.

Definition agg_flush_locked (k : nat) : M st bool :=
  p ← peer_at k;
  if agg_idx p =? 0 then mret true
  else
    vac ← gets (fun s => halow_get_tx_vacancy (world s));
    full ← gets (fun s => eff_window s <=? g_inflight_n s);
    if vac <? ACK_TX_VACANCY_LOW then mret false
    else if full : bool then mret false
    else
      let i := agg_slot p in
      b ← buf_get i;
      let pmcs := tx_mcs p in
      let staged := agg_len p in
      let nsub := agg_nsub p in
      peer_upd k agg_clear;;
      txj ← now_j;
      born ← now_j;
      buf_upd i (fun b => b <| retries_used := 0 |> <| tx_jiff := txj |> <| born_jiff := born |> <| seq := 0xFFFF |>);;
      sq ← next_tx_seq k;
      d ← lift (wr_n (data b) 0 (bundle_header sq nsub));
      bytes ← lift (rd_n d 0 staged);
      buf_upd i (fun b => b <| seq := sq |> <| ofs := 0 |> <| len := staged |> <| data := d |>
                            <| fid := nonzero_fid (fnv1a bytes) |>);;
      peer_note_tx k staged;;
      bump env_tx_bundles;;
      buf_tx_send others i pmcs;;
      mret true.

(** ** Data transmit *)

Definition halow_ack_tx_ready : M st bool :=
  off ← gets (fun s => max_retries (g_ack_cfg s) =? 0);
  if off : bool then mret true
  else
    vac ← gets (fun s => halow_get_tx_vacancy (world s));
    if vac <? ACK_TX_VACANCY_LOW then mret false
    else
      ack_lock;;
      ok ← gets (fun s => (g_inflight_n s + 2 <=? eff_window s) &&
                          (2 <=? u32 (Z.of_nat ACK_BUF_N - g_used_n s)));
      ack_unlock others None;;
      mret ok.

Definition tx_plain_untracked (payload dest_mac : list Z) (mcs : Z) : M st Z :=
  r ← halow_tx payload dest_mac mcs;
  mret (if r <? 0 then HALOW_ACK_TX_THROTTLE else r).

(** The repeats of [tx_broadcast]: [n] copies left, [r] the last result. *)
Fixpoint bc_repeat_loop (n : nat) (payload dest_mac : list Z) (r : Z) : M st unit :=
  match n with
  | O => mret tt
  | S n =>
      if r <? 0 then mret tt
      else
        vac ← gets (fun s => halow_get_tx_vacancy (world s));
        if vac <? u32 (blen payload + 64) then mret tt
        else
          r ← halow_tx payload dest_mac HALOW_MCS_DEFAULT;
          when (0 <=? r) (bump tx_frames;; bump bc_repeats);;
          bc_repeat_loop n payload dest_mac r
  end.

Definition tx_broadcast (payload dest_mac : list Z) : M st Z :=
  rep ← gets (fun s => bc_repeat (g_ack_cfg s));
  let copies := if is_broadcast dest_mac && (1 <? rep) then rep else 1 in
  r ← halow_tx payload dest_mac HALOW_MCS_DEFAULT;
  bc_repeat_loop (Z.to_nat (copies - 1)) payload dest_mac r;;
  mret (if 0 <=? r then 0 else HALOW_ACK_TX_THROTTLE).

Definition bundle_full_for (p : ack_peer) (sb : ack_buf) (len eff_payload : Z) : bool :=
  let payload_now := u32 (agg_len p - ACK_AGG_RESERVE - 2 * agg_nsub p) in
  let wire_now := u32 (agg_len p + 2 + len) in
  (eff_payload <? u32 (payload_now + len)) || (ACK_WIRE_MAX <? wire_now) ||
  (cap sb <? wire_now) || (HALOW_ACK_AGG_MAX_SUB <? agg_nsub p + 1).

Definition staging_alloc_cap (eff_payload : Z) : Z :=
  let cap := u32 (ACK_AGG_RESERVE + eff_payload + 2 * HALOW_ACK_AGG_MAX_SUB) in
  if ACK_WIRE_MAX <? cap then ACK_WIRE_MAX else u16 cap.

(** Room for one more subframe of [len] bytes in the peer's staged bundle,
    after a flush and an allocation if needed; [None] is a throttle. *)
Definition staged_has_room (k : nat) (len eff_payload : Z) : M st bool :=
  p ← peer_at k;
  if agg_idx p =? 0 then mret true
  else sb ← buf_get (agg_slot p); mret (negb (bundle_full_for p sb len eff_payload)).

Definition staging_open (k : nat) (len : Z) (dest_mac : list Z) (eff_payload : Z) : M st bool :=
  p ← peer_at k;
  if negb (agg_idx p =? 0) then mret true
  else
    let cap := staging_alloc_cap eff_payload in
    let need := u16 (ACK_AGG_RESERVE + 2 + len) in
    let cap := if cap <? need then need else cap in
    o ← buf_alloc ACK_BUF_STAGING dest_mac cap;
    match o with
    | None => mret false
    | Some i =>
        now ← now_j;
        peer_upd k (fun p => p <| agg_idx := u8 (Z.of_nat i + 1) |> <| agg_len := ACK_AGG_RESERVE |>
                               <| agg_nsub := 0 |> <| agg_first_jiff := now |>);;
        mret true
    end.

(** The subframe is copied behind the staged ones. *)
Definition staging_append (k : nat) (payload : list Z) : M st unit :=
  p ← peer_at k;
  b ← buf_get (agg_slot p);
  d ← lift (wr_n (data b) (agg_len p) (le16 (blen payload) ++ payload));
  buf_upd (agg_slot p) (fun b => b <| data := d |>);;
  peer_upd k (fun p => p <| agg_len ::= fun n => u16 (n + 2 + blen payload) |>
                         <| agg_nsub ::= fun n => u8 (n + 1) |>).

Definition staging_must_go (k : nat) (eff_payload : Z) : M st bool :=
  p ← peer_at k;
  sb ← buf_get (agg_slot p);
  agg0 ← gets (fun s => agg (g_ack_cfg s) =? 0);
  let payload_sum := u32 (agg_len p - ACK_AGG_RESERVE - 2 * agg_nsub p) in
  mret (agg0 || (HALOW_ACK_AGG_MAX_SUB <=? agg_nsub p) || (cap sb <? agg_len p + 2) ||
        (eff_payload <=? payload_sum)).

Definition tx_bundle_locked (k : nat) (payload dest_mac : list Z) (eff_payload : Z) : M st Z :=
  let len := blen payload in
  if len =? 0 then
    bump s_dropped;;
    peer_upd k (fun p => p <| dropped ::= fun n => u32 (n + 1) |>);;
    ack_unlock others None;;
    mret 0
  else
    solo ← gets (fun s => agg (g_ack_cfg s) =? 0);
    full ← gets (fun s => (eff_window s <=? g_inflight_n s) || (u32 (Z.of_nat ACK_BUF_N - g_used_n s) <? 1));
    if solo && full then ack_unlock others None;; mret HALOW_ACK_TX_THROTTLE
    else
      room ← staged_has_room k len eff_payload;
      room ← (if room : bool then mret true
              else agg_flush_locked k;; staged_has_room k len eff_payload);
      if negb room then ack_unlock others None;; mret HALOW_ACK_TX_THROTTLE
      else
        opened ← staging_open k len dest_mac eff_payload;
        if negb opened then ack_unlock others None;; mret HALOW_ACK_TX_THROTTLE
        else
          staging_append k payload;;
          go ← staging_must_go k eff_payload;
          when go (agg_flush_locked k;; mret tt);;
          ack_unlock others None;;
          mret 0.

Definition tx_plain_locked (k : nat) (payload dest_mac : list Z) (pmcs : Z) : M st Z :=
  vac ← gets (fun s => halow_get_tx_vacancy (world s));
  if vac <? ACK_TX_VACANCY_LOW then ack_unlock others None;; mret HALOW_ACK_TX_THROTTLE
  else
    o ← buf_claim_inflight dest_mac (blen payload);
    match o with
    | None => ack_unlock others None;; mret HALOW_ACK_TX_THROTTLE
    | Some i =>
        now ← now_j;
        b ← buf_get i;
        d ← lift (wr_n (data b) 0 payload);
        buf_upd i (fun b => b <| tx_jiff := now |> <| ofs := 0 |> <| len := blen payload |> <| data := d |>
                              <| fid := nonzero_fid (fnv1a payload) |>);;
        peer_note_tx k (blen payload);;
        buf_tx_send others i pmcs;;
        mret 0
    end.

Definition ack_tx_uc (payload dest_mac : list Z) : M st Z :=
  let len := blen payload in
  off ← gets (fun s => max_retries (g_ack_cfg s) =? 0);
  if off || is_broadcast dest_mac || (ACK_WIRE_MAX <? len) then
    bump dbg_path_bc;; tx_broadcast payload dest_mac
  else
    ack_lock;;
    o ← peer_get dest_mac;
    match o with
    | None =>
        ack_unlock others None;;
        bump dbg_path_plain;;
        tx_plain_untracked payload dest_mac HALOW_MCS_DEFAULT
    | Some k =>
        p ← peer_at k;
        let pmcs := tx_mcs p in
        if cur_retries p =? 0 then
          ack_unlock others None;;
          bump dbg_path_plain;;
          tx_plain_untracked payload dest_mac pmcs
        else
          eff_payload ← gets (eff_agg_bytes pmcs);
          let wire_len := u32 (len + (HALOW_ENV_BUNDLE_HDR + 2)) in
          agg_on ← gets (fun s => negb (agg (g_ack_cfg s) =? 0));
          if (agg_on && (len <=? eff_payload)) || (wire_len <=? ACK_WIRE_MAX) then
            bump dbg_path_bundle;; tx_bundle_locked k payload dest_mac eff_payload
          else
            bump dbg_path_plainl;; tx_plain_locked k payload dest_mac pmcs
    end.

(** NULL arguments are [None]. *)
Definition halow_ack_tx (payload dest_mac : option (list Z)) : M st Z :=
  match payload, dest_mac with
  | Some payload, Some dest_mac =>
      modify (fun s => s <| dbg_last_dest := dest_mac |>);;
      modify (fun s => s <| world ::= statistics_radio_register_tx_package (blen payload) |>);;
      r ← ack_tx_uc payload dest_mac;
      when (r =? 0) (bump tx_frames);;
      mret r
  | _, _ => mret (-1)
  end.

Definition halow_ack_flush : M st unit :=
  ack_lock;;
  mfor (indices ACK_MAX_PEERS) (fun k =>
    p ← peer_at k;
    when (in_use p && negb (agg_idx p =? 0)) (agg_flush_locked k;; mret tt));;
  ack_unlock others None.
End AckTx.
