(* ===== verification/AckRx.v ===== *)
(** * Receive path of the reliability layer: [src/halow_ack.c]

    Bitmap and identifier-list ACKs, bundles, plain data, and the decision to
    acknowledge now or later. *)

From S2P Require Import Prelude Monad AckWire AckPeer AckState AckRate AckTx.

Section AckRx.
Context {W : Type} `{AckEnv W}.
#[local] Abbreviation st := (ack_state W).
Variable others : option nat -> st -> st.
(** [1u << n] for [n >= 32], see [AckPeer]. *)
Variable shl_oob : Z -> Z.

(** What an ACK of either kind does to the peer that sent it. *)
Definition note_ack_evm (k : nat) (ack_evm : Z) : M st unit :=
  retries ← gets (fun s => max_retries (g_ack_cfg s));
  peer_upd k (fun p => p <| cur_retries := retries |>
    <| evm_ewma ::= fun e => ewma_i8 e ack_evm 8 |> <| evm_ewma_slow ::= fun e => ewma_i8 e ack_evm 32 |>);;
  ra_on_ack k.

(** A frame in flight has been acknowledged. *)
Definition buf_acked (i : nat) : M st unit :=
  b ← buf_get i;
  n1 ← now_j;
  n2 ← now_j;
  rtt_record (u32 (n1 - born_jiff b)) (u32 (n2 - tx_jiff b)) (retries_used b);;
  when (retries_used b =? 0) cwnd_on_clean_clear;;
  buf_release i;;
  bump s_acked.

(** Whether the bitmap ACK [(base, bm)] of the peer covers the buffer. *)
Definition bitmap_covers (mac0 : list Z) (base bm : Z) (b : ack_buf) : bool :=
  bool_decide (state b = ACK_BUF_INFLIGHT) && mac_eq (dest_mac b) mac0 && negb (seq b =? 0xFFFF) &&
  (let diff := u16 (seq b - base) in (diff <? HALOW_ACK_SEQ_WINDOW) && Z.testbit bm diff).

Definition rx_env_ack_locked (k : nat) (payload : list Z) : M st unit :=
  let ack_evm := env_ack_evm payload in
  stat_set last_evm (fun _ => ack_evm);;
  bump acks_rx_frames;;
  bump env_rx_acks;;
  note_ack_evm k ack_evm;;
  let base := env_ack_base payload in
  let bm := env_ack_bitmap payload in
  p ← peer_at k;
  mfor (indices ACK_BUF_N) (fun i =>
    o ← buf_slot i;
    match o with
    | Some b =>
        when (bitmap_covers (mac p) base bm b)
          (buf_acked i;; peer_upd k (fun p => p <| acked ::= fun n => u32 (n + 1) |>))
    | None => mret tt
    end).

(** [true]: the frame is consumed. *)
Definition rx_env (payload src_mac : list Z) : M st bool :=
  let len := blen payload in
  let ver := halow_env_ver payload in
  let type := halow_env_type payload in
  let is_ack := (ver =? HALOW_ENV_VER) && (type =? HALOW_ENV_TYPE_ACK) && (len =? HALOW_ENV_ACK_LEN) in
  let is_bundle := (ver =? HALOW_ENV_VER) && (type =? HALOW_ENV_TYPE_BUNDLE) &&
                   (HALOW_ENV_BUNDLE_HDR + 2 <=? len) && env_bundle_walk_ok payload in
  if negb is_ack && negb is_bundle then bump rx_env_unk;; mret true
  else
    ack_lock;;
    found ← gets (peer_find src_mac);
    if is_ack then
      match found with Some k => rx_env_ack_locked k payload | None => mret tt end;;
      ack_unlock others None;;
      mret true
    else
      consumed ← match found with
        | Some k =>
            let seq := rd16 payload 3 in
            p ← peer_at k;
            let retrans := seq_already_delivered p seq in
            peer_upd k (fun p => peer_rx_seq shl_oob p seq);;
            bump env_rx_bundles;;
            when retrans (bump acks_rx_dup);;
            mret retrans
        | None => mret false
        end;
      ack_unlock others None;;
      mret consumed.

Definition rx_ack (payload src_mac : list Z) : M st unit :=
  let ack_evm := i8 (byte payload 2) in
  stat_set last_evm (fun _ => ack_evm);;
  bump acks_rx_frames;;
  ack_lock;;
  found ← gets (peer_find src_mac);
  match found with Some k => note_ack_evm k ack_evm | None => mret tt end;;
  mfor (fid_ack_fids payload) (fun ack_fid =>
    if ack_fid =? 0 then mret tt
    else
      o ← buf_match src_mac ack_fid;
      match o with
      | Some i =>
          buf_acked i;;
          match found with
          | Some k => peer_upd k (fun p => p <| acked ::= fun n => u32 (n + 1) |>)
          | None => mret tt
          end
      | None => bump acks_rx_dup
      end);;
  ack_unlock others None.

(** Acknowledge now ([Some fids]) or after the hold time ([None]). *)
Definition ack_decide_locked (k : nat) : M st (option (list Z)) :=
  cfg ← gets g_ack_cfg;
  if ack_hold_ms cfg =? 0 then
    peer_upd k (fun p => p <| rx_since_ack := 0 |> <| ack_due := false |>);;
    p ← peer_at k;
    fids ← lift (build_fids_locked (ack_fids cfg) p);
    mret (Some fids)
  else
    peer_upd k (fun p => p <| rx_since_ack ::= fun n => u16 (n + 1) |>);;
    p ← peer_at k;
    if ack_fids cfg <=? rx_since_ack p then
      peer_upd k (fun p => p <| rx_since_ack := 0 |> <| ack_due := false |>);;
      p ← peer_at k;
      fids ← lift (build_fids_locked (ack_fids cfg) p);
      mret (Some fids)
    else
      when (negb (ack_due p)) (
        now ← now_j;
        hold ← gets g_ack_hold_j;
        peer_upd k (fun p => p <| ack_due := true |> <| ack_due_jiff := u32 (now + hold) |>));;
      mret None.

(** The 16-entry [fids] array, zero beyond what was built. *)
Definition pad_fids (fids : list Z) : list Z := fids ++ replicate (16 - length fids) 0.

Definition rx_data (payload src_mac : list Z) (dst_mac : option (list Z)) (evm : Z) : M st bool :=
  let hash := fnv1a payload in
  let to_me := match dst_mac with Some d => negb (is_broadcast d) | None => false end in
  ack_lock;;
  found ← (if to_me then peer_get src_mac else gets (peer_find src_mac));
  '(deliver, ack_now) ← match found with
    | Some k =>
        peer_upd k (fun p => p <| last_rx_evm := evm |>);;
        if to_me then
          p ← peer_at k;
          let deliver := negb (dedup_seen p hash) in
          when deliver (p' ← lift (dedup_remember p hash); peer_upd k (fun _ => p'));;
          fids ← ack_decide_locked k;
          mret (deliver, fids)
        else mret (true, None)
    | None => when to_me (bump noack_hits);; mret (true, None)
    end;
  ack_unlock others None;;
  match ack_now with
  | Some fids => send_ack others evm src_mac (pad_fids fids)
  | None => mret tt
  end;;
  mret deliver.

(** [true]: deliver [payload] to the caller. *)
Definition halow_ack_on_rx (payload : option (list Z)) (src_mac : list Z) (dst_mac : option (list Z))
    (evm : Z) : M st bool :=
  match payload with
  | None => mret true
  | Some payload =>
      if is_env_frame payload then
        consumed ← rx_env payload src_mac;
        if consumed : bool then mret false else rx_data payload src_mac dst_mac evm
      else if is_ack_frame payload then rx_ack payload src_mac;; mret false
      else rx_data payload src_mac dst_mac evm
  end.

Definition halow_ack_env_malformed : M st unit := bump rx_env_unk.
End AckRx.
