(* ===== verification/AckTick.v ===== *)
(** * Periodic work, start-up and statistics of the reliability layer: [src/halow_ack.c] *)

From S2P Require Import Prelude Monad ConfigDb AckWire AckPeer AckState AckRate AckConfig AckTx.
From S2P Require Import AckRx.

Section AckTick.
Context {W : Type} `{AckEnv W} `{Kvdb W}.
#[local] Abbreviation st := (ack_state W).
Variable others : option nat -> st -> st.

(** [dropped] frames: the counters of the module and of the peer. *)
Definition note_drop (why : stat) (k : nat) : M st unit :=
  bump s_dropped;; bump why;;
  peer_upd k (fun p => p <| dropped ::= fun n => u32 (n + 1) |>).

Definition buf_drop_deadline (i : nat) : M st unit :=
  b ← buf_get i;
  found ← gets (peer_find (dest_mac b));
  buf_release i;;
  match found with
  | Some k => note_drop drop_deadline k;; ra_on_drop k
  | None => bump s_dropped;; bump drop_deadline
  end.

Definition buf_backoff_jiffies (b : ack_buf) (timeout_j : Z) (s : st) : Z :=
  if 0 <? retries_used b then
    let shift := if ACK_BACKOFF_SHIFT_MAX <? retries_used b then ACK_BACKOFF_SHIFT_MAX else retries_used b in
    u32 (Z.shiftl timeout_j shift)
  else
    let ewma := g_ack_stats s ack_rtt_ewma_ms in
    if ewma =? 0 then timeout_j
    else
      let floor_ms := u32 (ewma + Z.shiftr ewma 2 + 10) in
      let cap_ms := u32 (timeout_ms (g_ack_cfg s) * 4) in
      let cap_ms := if cap_ms <? u32 (ewma * 2) then u32 (ewma * 2) else cap_ms in
      let floor_ms := if cap_ms <? floor_ms then cap_ms else floor_ms in
      if floor_ms <=? timeout_ms (g_ack_cfg s) then timeout_j
      else
        let j := ms_j (W := W) floor_ms in
        if timeout_j <? j then j else timeout_j.

Definition buf_retransmit_or_drop (i : nat) (now : Z) : M st unit :=
  b ← buf_get i;
  found ← gets (peer_find (dest_mac b));
  match found with
  | None => buf_release i
  | Some k =>
      retries ← gets (fun s => max_retries (g_ack_cfg s));
      if retries <=? retries_used b then
        buf_release i;; note_drop drop_exhaust k;; ra_on_drop k
      else
        let first_retry := retries_used b =? 0 in
        buf_upd i (fun b => b <| retries_used ::= fun n => u8 (n + 1) |> <| tx_jiff := now |>);;
        bump s_retransmitted;;
        peer_upd k (fun p => p <| retransmitted ::= fun n => u32 (n + 1) |>);;
        when first_retry cwnd_on_retrans_timeout;;
        ra_on_retrans k;;
        p ← peer_at k;
        buf_tx_send others i (tx_mcs p)
  end.

(** The body of the scan of [tick_service_bufs]. *)
Definition service_buf (now timeout_j life_j : Z) (i : nat) : M st unit :=
  o ← buf_slot i;
  match o with
  | None => mret tt
  | Some b =>
      if negb (bool_decide (state b = ACK_BUF_INFLIGHT)) then mret tt
      else if life_j <=? u32 (now - born_jiff b) then buf_drop_deadline i
      else
        backoff ← gets (buf_backoff_jiffies b timeout_j);
        if u32 (now - tx_jiff b) <? backoff then mret tt
        else
          vac ← gets (fun s => halow_get_tx_vacancy (world s));
          if vac <? ACK_TX_VACANCY_LOW then mret tt
          else buf_retransmit_or_drop i now
  end.

Definition tick_service_bufs (now : Z) : M st unit :=
  tmo ← gets (fun s => timeout_ms (g_ack_cfg s));
  life ← gets slot_life_ms;
  let timeout_j := ms_j tmo in
  let life_j := ms_j life in
  let timeout_j := if timeout_j =? 0 then 1 else timeout_j in
  mfor (indices ACK_BUF_N) (service_buf now timeout_j life_j).

Definition flush_held_bundle (now : Z) (k : nat) : M st unit :=
  p ← peer_at k;
  if negb (in_use p) || (agg_idx p =? 0) then mret tt
  else
    sent ← agg_flush_locked others k;
    if sent : bool then mret tt
    else
      p ← peer_at k;
      when (ms_j ACK_AGG_MAX_HOLD_MS <=? u32 (now - agg_first_jiff p)) (
        stat_set s_dropped (fun n => u32 (n + agg_nsub p));;
        stat_set drop_throttle (fun n => u32 (n + agg_nsub p));;
        peer_upd k (fun p => p <| dropped ::= fun n => u32 (n + agg_nsub p) |>);;
        agg_reset k).
Definition tick_flush_held_bundles (now : Z) : M st unit :=
  mfor (indices ACK_MAX_PEERS) (flush_held_bundle now).

Definition flush_deferred_ack (now : Z) (k : nat) : M st unit :=
  p ← peer_at k;
  if negb (in_use p) || negb (ack_due p) then mret tt
  else if i32 (now - ack_due_jiff p) <? 0 then mret tt
  else
    n ← gets (fun s => ack_fids (g_ack_cfg s));
    fids ← lift (build_fids_locked n p);
    peer_upd k (fun p => p <| ack_due := false |> <| rx_since_ack := 0 |>);;
    ack_unlock others None;;
    send_ack others (last_rx_evm p) (mac p) (pad_fids fids);;
    ack_lock.
Definition tick_flush_deferred_acks (now : Z) : M st unit :=
  hold ← gets (fun s => ack_hold_ms (g_ack_cfg s));
  if hold =? 0 then mret tt else mfor (indices ACK_MAX_PEERS) (flush_deferred_ack now).

Definition halow_ack_tick : M st unit :=
  modify (fun s => s <| world ::= halow_tx_vacancy_watchdog |>);;
  off ← gets (fun s => max_retries (g_ack_cfg s) =? 0);
  if off : bool then mret tt
  else
    now ← now_j;
    dflt_mcs_refresh;;
    ack_lock;;
    tick_service_bufs now;;
    tick_flush_held_bundles now;;
    tick_flush_deferred_acks now;;
    mfor (indices ACK_MAX_PEERS) (fun k => p ← peer_at k; when (in_use p) (ra_check_stale k));;
    ack_unlock others None.

(** ** Start-up *)

Definition halow_ack_init : M st unit :=
  modify (fun s => s <| g_dflt_mcs_cache := 0xFF |>);;
  dflt_mcs_refresh;;
  mfor (indices ACK_BUF_N) (fun i =>
    o ← buf_slot i;
    match o with Some _ => buf_release i | None => mret tt end);;
  cfg ← ext halow_ack_config_load;
  modify (fun s => s
    <| g_ack_cfg := cfg |>
    <| g_bufs := replicate ACK_BUF_N None |>
    <| g_peers := replicate ACK_MAX_PEERS peer_zero |>
    <| g_ack_stats := fun _ => 0 |>
    <| dbg_last_dest := replicate 6 0 |>
    <| g_used_n := 0 |> <| g_inflight_n := 0 |> <| g_peers_n := 0 |> <| g_heap_bytes := 0 |>
    <| g_window := window cfg |>
    <| g_cwnd := if 4 <? window cfg then 4 else window cfg |>);;
  config_cache;;
  now ← now_j;
  modify (fun s => s <| g_last_data_tx_jiff := u32 (now - g_busy_j s) |>).

(** ** Status and statistics *)

Definition halow_ack_radio_quiet : M st bool :=
  used ← gets g_used_n;
  if negb (used =? 0) then mret false
  else now ← now_j; gets (fun s => g_quiet_j s <=? u32 (now - g_last_data_tx_jiff s)).

Definition halow_ack_link_busy : M st bool :=
  used ← gets g_used_n;
  if negb (used =? 0) then mret true
  else now ← now_j; gets (fun s => u32 (now - g_last_data_tx_jiff s) <? g_busy_j s).

(** The counters, and the three live values [stats_get] adds. *)
Record stats_out := mkStatsOut {
  counters : stat -> Z; outstanding : Z; peers : Z; heap_bytes : Z
}.
Definition halow_ack_stats_get : M st stats_out :=
  ack_lock;;
  r ← gets (fun s => mkStatsOut (g_ack_stats s) (g_inflight_n s) (g_peers_n s) (g_heap_bytes s));
  ack_unlock others None;;
  mret r.

Record peer_stats := mkPeerStats {
  ps_tx_mcs : Z; ps_cur_retries : Z; ps_tx_frames : Z; ps_acked : Z; ps_dropped : Z; ps_evm : Z;
  ps_loss_pct : Z; ps_tx_bytes : Z; ps_retransmitted : Z; ps_last_tx_s : Z; ps_acks_since_step : Z;
  ps_loss_q8 : Z; ps_gap_ms : Z
}.
(** [os_jiffies_to_msecs] *)
Variable os_jiffies_to_msecs : Z -> Z.

Definition halow_ack_peer_stats_by_mac (mac0 : option (list Z)) : M st (option peer_stats) :=
  match mac0 with
  | None => mret None
  | Some mac0 =>
      ack_lock;;
      found ← gets (peer_find mac0);
      r ← match found with
          | None => mret None
          | Some k =>
              p ← peer_at k;
              now ← now_j;
              let rem := i32 (next_step_allowed p - now) in
              mret (Some (mkPeerStats (tx_mcs p) (cur_retries p) (tx p) (acked p) (dropped p) (evm_ewma p)
                (u8 (u32 (loss_q8 p * 100) / 256)) (tx_bytes p) (retransmitted p) (last_tx_s p)
                (acks_since_step p) (loss_q8 p)
                (if rem <=? 0 then 0 else i32 (os_jiffies_to_msecs (u32 rem)))))
          end;
      ack_unlock others None;;
      mret r
  end.
End AckTick.
