(* ===== verification/AckInv.v ===== *)
(** * The invariant of the reliability layer

    The tables of [halow_ack.c] seen without timers and statistics, the
    invariant every operation keeps, the promises tasks make to each other
    while one of them transmits, and how the elementary table updates
    preserve them. *)

From S2P Require Import Prelude Monad AckWire AckPeer AckState AckConfig.

(** ** Sums over a table of optional entries *)

Definition oval {A} (f : A -> Z) (o : option A) : Z := match o with Some a => f a | None => 0 end.

Fixpoint tsum {A} (f : A -> Z) (l : list (option A)) : Z :=
  match l with
  | [] => 0
  | o :: l => oval f o + tsum f l
  end.

Lemma tsum_insert {A} (f : A -> Z) l i o o' : l !! i = Some o ->
  tsum f (<[i := o']> l) = tsum f l - oval f o + oval f o'.
Proof.
  revert i. induction l as [|x l IH]; intros [|i] Hi; [done|done| |]; cbn in *.
  - injection Hi as ->. lia.
  - rewrite IH by done. lia.
Qed.

Lemma tsum_nonneg {A} (f : A -> Z) l : (forall a, 0 <= f a) -> 0 <= tsum f l.
Proof. intros Hf. induction l as [|[a|] l IH]; cbn; [lia|specialize (Hf a); lia|lia]. Qed.

Lemma tsum_le {A} (f : A -> Z) K l : (forall a, f a <= K) -> 0 <= K ->
  tsum f l <= K * Z.of_nat (length l).
Proof.
  intros Hf HK. induction l as [|[a|] l IH]; cbn [tsum length oval]; [lia| |];
    [specialize (Hf a)|]; lia.
Qed.

(** With a free entry, one less than the size. *)
Lemma tsum_free {A} (f : A -> Z) l i : (forall a, f a <= 1) -> l !! i = Some None ->
  tsum f l <= Z.of_nat (length l) - 1.
Proof.
  intros Hf. revert i. induction l as [|x l IH]; intros [|i] Hi; [done|done| |]; cbn [tsum length oval] in *.
  - injection Hi as ->. pose proof (tsum_le f 1 l Hf). cbn. lia.
  - specialize (IH _ Hi). destruct x as [a|]; cbn; [specialize (Hf a)|]; lia.
Qed.

Lemma tsum_pos {A} (f : A -> Z) l i a : (forall a, 0 <= f a) -> l !! i = Some (Some a) -> f a <= tsum f l.
Proof.
  intros Hf. revert i. induction l as [|x l IH]; intros [|i] Hi; [done|done| |]; cbn [tsum oval] in *.
  - injection Hi as ->. pose proof (tsum_nonneg f l Hf). cbn. lia.
  - specialize (IH _ Hi). destruct x as [b|]; cbn; [specialize (Hf b)|]; lia.
Qed.

(** ** The tables without timers and statistics *)

Record pv := mkPv { pv_use : bool; pv_mac : list Z; pv_idx : Z; pv_len : Z; pv_nsub : Z }.
Definition pview (p : ack_peer) : pv := mkPv (in_use p) (mac p) (agg_idx p) (agg_len p) (agg_nsub p).
Definition bview (b : ack_buf) : ack_buf := b <| born_jiff := 0 |> <| tx_jiff := 0 |>.

Record view := mkView {
  v_bufs : list (option ack_buf);
  v_peers : list pv;
  v_used : Z; v_infl : Z; v_npeers : Z; v_heap : Z;
  v_cfg : ack_config; v_window : Z; v_cwnd : Z;
}.
#[export] Instance eta_view : Eta view := fun r =>
  mkView (v_bufs r) (v_peers r) (v_used r) (v_infl r) (v_npeers r) (v_heap r) (v_cfg r) (v_window r) (v_cwnd r).

Definition view_of {W} (s : ack_state W) : view :=
  mkView (fmap (M:=list) (fmap (M:=option) bview) (g_bufs s)) (fmap (M:=list) pview (g_peers s)) (g_used_n s) (g_inflight_n s) (g_peers_n s)
    (g_heap_bytes s) (g_ack_cfg s) (g_window s) (g_cwnd s).

(** ** What is on the air, and what waits in a bundle *)

Definition mac_ok (m : list Z) : Prop := length m = 6%nat /\ is_bytes m.

Section Inv.
(** [submitted dest payload]: the application submitted [payload] for [dest]. *)
Variable submitted : list Z -> list Z -> Prop.

(** The frames the module hands to the radio. *)
Inductive wire (frame dest : list Z) : Prop :=
  | wire_bundle seq subs : frame = bundle_frame seq subs -> 0 <= seq < 0xFFFF ->
      (length subs <= 8)%nat -> Forall (submitted dest) subs -> wire frame dest
  | wire_plain : submitted dest frame -> wire frame dest
  | wire_env_ack evm base bm : frame = env_ack_frame evm base bm -> wire frame dest
  | wire_fid_ack evm fids : frame = fid_ack_frame evm fids -> wire frame dest.

(** The buffer holds the subframes [subs] behind six bytes for the header. *)
Definition staged (b : ack_buf) (alen nsub : Z) (subs : list (list Z)) : Prop :=
  state b = ACK_BUF_STAGING /\ alen = 6 + blen (bundle_body subs) /\ alen <= cap b /\
  nsub = Z.of_nat (length subs) /\ (length subs <= 8)%nat /\ Forall (submitted (dest_mac b)) subs /\
  take (length (bundle_body subs)) (drop 6 (data b)) = bundle_body subs.

Definition frame_bytes (b : ack_buf) : list Z := take (Z.to_nat (len b)) (drop (Z.to_nat (ofs b)) (data b)).

Record buf_ok (i : nat) (b : ack_buf) : Prop := {
  bo_idx : idx b = i;
  bo_cap : 0 <= cap b < 65536;
  bo_data : length (data b) = Z.to_nat (cap b);
  bo_mac : mac_ok (dest_mac b);
  bo_retries : 0 <= retries_used b <= 8;
  bo_frame : state b <> ACK_BUF_STAGING ->
    0 <= ofs b /\ 0 <= len b /\ ofs b + len b <= cap b /\ wire (frame_bytes b) (dest_mac b);
}.

Definition live (b : ack_buf) : Z := if decide (state b = ACK_BUF_STAGING) then 0 else 1.
Definition one {A} (_ : A) : Z := 1.
Definition node_size (b : ack_buf) : Z := buf_alloc_sz (cap b).
Definition used_peer (p : pv) : Z := if pv_use p then 1 else 0.

(** A bundle being staged: peer and buffer point to each other. *)
Definition agg_ok (bufs : list (option ack_buf)) (p : pv) : Prop :=
  pv_idx p <> 0 ->
  pv_use p = true /\ 1 <= pv_idx p <= 16 /\
  exists b subs, bufs !! Z.to_nat (pv_idx p - 1) = Some (Some b) /\ dest_mac b = pv_mac p /\
    staged b (pv_len p) (pv_nsub p) subs.

Record tables_ok (v : view) : Prop := {
  t_bufs : length (v_bufs v) = ACK_BUF_N;
  t_peers : length (v_peers v) = ACK_MAX_PEERS;
  t_buf : forall i b, v_bufs v !! i = Some (Some b) -> buf_ok i b;
  t_used : v_used v = tsum one (v_bufs v);
  t_infl : v_infl v = tsum live (v_bufs v);
  t_heap : v_heap v = u32 (tsum node_size (v_bufs v));
  t_npeers : v_npeers v = tsum used_peer (fmap (M:=list) Some (v_peers v));
  t_pmac : forall k p, v_peers v !! k = Some p -> pv_use p = true -> mac_ok (pv_mac p);
  t_uniq : forall k k' p p', v_peers v !! k = Some p -> v_peers v !! k' = Some p' ->
    pv_use p = true -> pv_use p' = true -> pv_mac p = pv_mac p' -> k = k';
  t_agg : forall k p, v_peers v !! k = Some p -> agg_ok (v_bufs v) p;
  (** every frame belongs to a peer, and a bundle to the peer that points to it *)
  t_home : forall i b, v_bufs v !! i = Some (Some b) ->
    exists k p, v_peers v !! k = Some p /\ pv_use p = true /\ pv_mac p = dest_mac b /\
      (state b = ACK_BUF_STAGING -> pv_idx p = Z.of_nat i + 1);
  t_cfg : ack_cfg_ok (v_cfg v);
  t_window : v_window v = window (v_cfg v);
  t_cwnd : 0 <= v_cwnd v <= v_window v;
}.

(** ** Promises to a task that is transmitting *)

(** The frames [K] being transmitted stay as they are, and so do their peers. *)
Definition keep (K : nat -> Prop) (v v' : view) : Prop :=
  forall j b, K j -> v_bufs v !! j = Some (Some b) -> state b = ACK_BUF_SENDING ->
    v_bufs v' !! j = Some (Some b) /\
    forall k p, v_peers v !! k = Some p -> pv_use p = true -> pv_mac p = dest_mac b ->
      exists p', v_peers v' !! k = Some p' /\ pv_use p' = true /\ pv_mac p' = dest_mac b.

Lemma keep_refl K v : keep K v v.
Proof. intros j b _ Hj _. split; [done|]. intros k p Hk Hu Hm. by exists p. Qed.

Lemma keep_trans K v1 v2 v3 : keep K v1 v2 -> keep K v2 v3 -> keep K v1 v3.
Proof.
  intros H12 H23 j b Hj Hb Hs. destruct (H12 j b Hj Hb Hs) as [Hb2 Hp2].
  destruct (H23 j b Hj Hb2 Hs) as [Hb3 Hp3]. split; [done|].
  intros k p Hk Hu Hm. destruct (Hp2 k p Hk Hu Hm) as (p2 & Hk2 & Hu2 & Hm2). eauto.
Qed.

Lemma keep_weaken (K K' : nat -> Prop) v v' : (forall j, K j -> K' j) -> keep K' v v' -> keep K v v'.
Proof. intros HK H j b Hj. apply H. auto. Qed.

(** Updates of other buffers keep them. *)
Lemma keep_bufs K v v' : v_peers v' = v_peers v ->
  (forall j b, v_bufs v !! j = Some (Some b) -> state b = ACK_BUF_SENDING -> K j ->
     v_bufs v' !! j = Some (Some b)) -> keep K v v'.
Proof. intros Hp Hb j b Hj Hjb Hs. split; [eauto|]. rewrite Hp. eauto. Qed.

(** ** Elementary updates *)

Lemma home_of v i b : tables_ok v -> v_bufs v !! i = Some (Some b) ->
  exists k p, v_peers v !! k = Some p /\ pv_use p = true /\ pv_mac p = dest_mac b.
Proof. intros Hv Hb. destruct (t_home _ Hv _ _ Hb) as (k & p & ? & ? & ? & _). eauto. Qed.

(** Slot [i] and the peer [k] it belongs to change together. *)
Record slot_upd (v v' : view) (i k : nat) (o o' : option ack_buf) (p p' : pv) : Prop := {
  su_old : v_bufs v !! i = Some o;
  su_peer : v_peers v !! k = Some p;
  su_bufs : v_bufs v' = <[i := o']> (v_bufs v);
  su_peers : v_peers v' = <[k := p']> (v_peers v);
  su_use : pv_use p = true;
  su_id : pv_use p' = true /\ pv_mac p' = pv_mac p;
  su_used : v_used v' = v_used v - oval one o + oval one o';
  su_infl : v_infl v' = v_infl v - oval live o + oval live o';
  su_heap : v_heap v' = u32 (v_heap v - oval node_size o + oval node_size o');
  su_rest : v_npeers v' = v_npeers v /\ v_cfg v' = v_cfg v /\ v_window v' = v_window v /\
            v_cwnd v' = v_cwnd v;
  su_old_mac : forall b, o = Some b -> dest_mac b = pv_mac p;
  su_new : forall b, o' = Some b -> buf_ok i b /\ dest_mac b = pv_mac p /\
             (state b = ACK_BUF_STAGING -> pv_idx p' = Z.of_nat i + 1);
  su_link : pv_idx p' = pv_idx p \/ pv_idx p = 0 \/ pv_idx p = Z.of_nat i + 1;
  su_agg : agg_ok (v_bufs v') p';
}.

Lemma slot_upd_keep K v v' i k o o' p p' : slot_upd v v' i k o o' p p' ->
  (forall b, o = Some b -> state b = ACK_BUF_SENDING -> ~ K i) -> keep K v v'.
Proof.
  intros U HK j b Hj Hb Hs. destruct U as [Hi Hk Eb Ep Hu [Hu' Hm] _ _ _ _ _ _ _ _].
  split.
  - rewrite Eb. destruct (decide (i = j)) as [->|Hij]; [|by rewrite list_lookup_insert_ne].
    rewrite Hi in Hb. injection Hb as ->. by destruct (HK b eq_refl Hs).
  - intros k' q Hk' Huq Hmq. rewrite Ep. destruct (decide (k = k')) as [<-|Hkk].
    + rewrite Hk in Hk'. injection Hk' as ->. exists p'. rewrite list_lookup_insert_eq
        by (eapply lookup_lt_Some, Hk). by rewrite Hm.
    + rewrite list_lookup_insert_ne by done. eauto.
Qed.

(** Another peer never points to slot [i]. *)
Lemma other_agg v i k k' o p q : tables_ok v ->
  v_bufs v !! i = Some o -> v_peers v !! k = Some p -> pv_use p = true ->
  (forall b, o = Some b -> dest_mac b = pv_mac p) ->
  v_peers v !! k' = Some q -> k' <> k -> pv_idx q <> 0 -> Z.to_nat (pv_idx q - 1) <> i.
Proof.
  intros Hv Hi Hk Hu Hm Hk' Hne Hq Heq.
  destruct (t_agg _ Hv _ _ Hk' Hq) as (Huq & Hr & b & subs & Hb & Hbm & _).
  rewrite Heq, Hi in Hb. injection Hb as ->. apply Hne.
  apply (t_uniq _ Hv k' k q p); try done. by rewrite <-Hbm, (Hm b).
Qed.

Lemma slot_upd_ok v v' i k o o' p p' : tables_ok v -> slot_upd v v' i k o o' p p' -> tables_ok v'.
Proof.
  intros Hv [Hi Hk Eb Ep Hu [Hu' Hm] Eu El Eh (En & Ec & Ew & Ecw) Hom Hnew Hlink Hagg].
  pose proof (lookup_lt_Some _ _ _ Hi) as Hil. pose proof (lookup_lt_Some _ _ _ Hk) as Hkl.
  constructor.
  - rewrite Eb, length_insert. apply Hv.
  - rewrite Ep, length_insert. apply Hv.
  - intros j b. rewrite Eb. destruct (decide (i = j)) as [<-|Hij].
    + rewrite list_lookup_insert_eq by done. intros [= ->]. by apply Hnew.
    + rewrite list_lookup_insert_ne by done. apply (t_buf _ Hv).
  - rewrite Eu, Eb, (tsum_insert _ _ _ _ _ Hi), (t_used _ Hv). done.
  - rewrite El, Eb, (tsum_insert _ _ _ _ _ Hi), (t_infl _ Hv). done.
  - rewrite Eh, Eb, (tsum_insert _ _ _ _ _ Hi), (t_heap _ Hv).
    generalize (tsum node_size (v_bufs v)) (oval node_size o) (oval node_size o'). intros x y z. word_lia.
  - rewrite En, Ep, (t_npeers _ Hv), list_fmap_insert, (tsum_insert _ _ _ (Some p)).
    + unfold oval, used_peer. rewrite Hu, Hu'. lia.
    + by rewrite list_lookup_fmap, Hk.
  - intros k' q. rewrite Ep. destruct (decide (k = k')) as [<-|Hkk].
    + rewrite list_lookup_insert_eq by done. intros [= <-] _. rewrite Hm. by apply (t_pmac _ Hv k).
    + rewrite list_lookup_insert_ne by done. apply (t_pmac _ Hv).
  - intros k1 k2 q1 q2. rewrite Ep. destruct (decide (k = k1)) as [<-|H1]; destruct (decide (k = k2)) as [<-|H2].
    + done.
    + rewrite list_lookup_insert_eq, list_lookup_insert_ne by done. intros [= <-] H2q _ Hu2 E.
      apply (t_uniq _ Hv _ _ p q2); congruence.
    + rewrite list_lookup_insert_eq, list_lookup_insert_ne by done. intros H1q [= <-] Hu1 _ E.
      apply (t_uniq _ Hv _ _ q1 p); congruence.
    + rewrite !list_lookup_insert_ne by done. apply (t_uniq _ Hv).
  - intros k' q. rewrite Ep. destruct (decide (k = k')) as [<-|Hkk].
    + rewrite list_lookup_insert_eq by done. by intros [= <-].
    + rewrite list_lookup_insert_ne by done. intros Hq Hnz.
      pose proof (other_agg v i k k' o p q Hv Hi Hk Hu Hom Hq (not_eq_sym Hkk) Hnz) as Hne.
      destruct (t_agg _ Hv _ _ Hq Hnz) as (? & ? & b & subs & Hb & ? & ?).
      split; [done|]. split; [done|]. exists b, subs. rewrite Eb, list_lookup_insert_ne by done. done.
  - intros j b. rewrite Eb, Ep. destruct (decide (i = j)) as [<-|Hij].
    + rewrite list_lookup_insert_eq by done. intros [= ->]. destruct (Hnew b eq_refl) as (_ & Hbm & Hs).
      exists k, p'. rewrite list_lookup_insert_eq by done. split; [done|]. split; [done|].
      split; [by rewrite Hm, Hbm|exact Hs].
    + rewrite list_lookup_insert_ne by done. intros Hb.
      destruct (t_home _ Hv _ _ Hb) as (k' & q & Hq & Huq & Hmq & Hsq).
      destruct (decide (k = k')) as [<-|Hkk].
      * rewrite Hk in Hq. injection Hq as <-. exists k, p'. rewrite list_lookup_insert_eq by done.
        split; [done|]. split; [done|]. split; [by rewrite Hm|]. intros Hs. specialize (Hsq Hs).
        destruct Hlink as [->|[Hz|Hz]]; lia.
      * exists k', q. rewrite list_lookup_insert_ne by done. done.
  - rewrite Ec. apply Hv.
  - rewrite Ew, Ec. apply Hv.
  - rewrite Ew, Ecw. apply Hv.
Qed.

(** An entry of the peer table is taken over: it was free, or none of its
    frames are left. *)
Lemma new_peer_ok v k q m : tables_ok v -> v_peers v !! k = Some q ->
  (pv_use q = false \/ forall i b, v_bufs v !! i = Some (Some b) -> dest_mac b <> pv_mac q) ->
  mac_ok m -> (forall k' p, v_peers v !! k' = Some p -> pv_use p = true -> pv_mac p <> m) ->
  forall v', v_bufs v' = v_bufs v -> v_peers v' = <[k := mkPv true m 0 0 0]> (v_peers v) ->
  v_used v' = v_used v -> v_infl v' = v_infl v -> v_heap v' = v_heap v -> v_cfg v' = v_cfg v ->
  v_window v' = v_window v -> v_cwnd v' = v_cwnd v -> v_npeers v' = v_npeers v - used_peer q + 1 ->
  tables_ok v' /\ forall K, keep K v v'.
Proof.
  intros Hv Hk Hfree Hm Hnew v' Eb Ep Eu El Eh Ec Ew Ecw En.
  pose proof (lookup_lt_Some _ _ _ Hk) as Hkl.
  assert (Hnb : forall i b k' p, v_bufs v !! i = Some (Some b) -> v_peers v !! k' = Some p ->
    pv_use p = true -> pv_mac p = dest_mac b -> k' <> k).
  { intros i b k' p Hb Hp Hu Hmb ->. rewrite Hk in Hp. injection Hp as <-.
    destruct Hfree as [Hf|Hf]; [congruence|]. by apply (Hf i b Hb). }
  split; [constructor|].
  - rewrite Eb. apply Hv.
  - rewrite Ep, length_insert. apply Hv.
  - rewrite Eb. apply (t_buf _ Hv).
  - rewrite Eu, Eb. apply Hv.
  - rewrite El, Eb. apply Hv.
  - rewrite Eh, Eb. apply Hv.
  - rewrite En, Ep, (t_npeers _ Hv), list_fmap_insert, (tsum_insert _ _ _ (Some q)); [done|].
    by rewrite list_lookup_fmap, Hk.
  - intros k' p. rewrite Ep. destruct (decide (k = k')) as [<-|Hkk].
    + rewrite list_lookup_insert_eq by done. by intros [= <-].
    + rewrite list_lookup_insert_ne by done. apply (t_pmac _ Hv).
  - intros k1 k2 q1 q2. rewrite Ep. destruct (decide (k = k1)) as [<-|H1]; destruct (decide (k = k2)) as [<-|H2].
    + done.
    + rewrite list_lookup_insert_eq, list_lookup_insert_ne by done. intros [= <-] H2q _ Hu2 E.
      by destruct (Hnew _ _ H2q Hu2).
    + rewrite list_lookup_insert_eq, list_lookup_insert_ne by done. intros H1q [= <-] Hu1 _ E.
      by destruct (Hnew _ _ H1q Hu1).
    + rewrite !list_lookup_insert_ne by done. apply (t_uniq _ Hv).
  - intros k' p. rewrite Ep, Eb. destruct (decide (k = k')) as [<-|Hkk].
    + rewrite list_lookup_insert_eq by done. by intros [= <-].
    + rewrite list_lookup_insert_ne by done. apply (t_agg _ Hv).
  - intros i b. rewrite Eb, Ep. intros Hb. destruct (t_home _ Hv _ _ Hb) as (k' & p & Hp & Hu & Hmp & Hs).
    exists k', p. rewrite list_lookup_insert_ne by (intros E; by apply (Hnb i b k' p)). done.
  - rewrite Ec. apply Hv.
  - rewrite Ew, Ec. apply Hv.
  - rewrite Ew, Ecw. apply Hv.
  - intros K j b _ Hb _. rewrite Eb, Ep. split; [done|]. intros k' p Hp Hu Hmp.
    exists p. rewrite list_lookup_insert_ne by (intros E; by apply (Hnb j b k' p)). done.
Qed.

(** The window settings may change. *)
Lemma tables_window v c cw : tables_ok v -> ack_cfg_ok c -> 0 <= cw <= window c ->
  tables_ok (v <| v_cfg := c |> <| v_window := window c |> <| v_cwnd := cw |>).
Proof. intros [] Hc Hw. constructor; rsimpl; done. Qed.

Lemma tables_cwnd v cw : tables_ok v -> 0 <= cw <= v_window v -> tables_ok (v <| v_cwnd := cw |>).
Proof. intros [] Hw. constructor; rsimpl; done. Qed.

Lemma tables_empty c : ack_cfg_ok c ->
  tables_ok (mkView (replicate ACK_BUF_N None) (replicate ACK_MAX_PEERS (pview peer_zero)) 0 0 0 0 c
    (window c) (if 4 <? window c then 4 else window c)).
Proof.
  intros Hc. assert (Hn : forall i b, replicate ACK_BUF_N (@None ack_buf) !! i = Some (Some b) -> False).
  { intros i b Hb. apply lookup_replicate in Hb. naive_solver. }
  assert (Hp : forall k p, replicate ACK_MAX_PEERS (pview peer_zero) !! k = Some p -> p = pview peer_zero).
  { intros k p Hp. by apply lookup_replicate in Hp as [-> _]. }
  constructor; cbn [v_bufs v_peers v_used v_infl v_npeers v_heap v_cfg v_window v_cwnd]; try done.
  - intros i b Hb. by destruct (Hn i b).
  - intros k p Hk. by rewrite (Hp _ _ Hk).
  - intros k k' p p' Hk. by rewrite (Hp _ _ Hk).
  - intros k p Hk. by rewrite (Hp _ _ Hk).
  - intros i b Hb. by destruct (Hn i b).
  - pose proof (ok_window _ Hc). z_case; lia.
Qed.
End Inv.
