(* ===== verification/AckQuiet.v ===== *)
(** * Steps of the reliability layer that leave its tables alone

    The state-level invariant, the relation [At] a running task maintains to
    the state it started from, and the statements that change timers,
    statistics and rate control only: they are [Quiet], by composition. *)

From S2P Require Import Prelude Monad ConfigDb AckWire AckPeer AckState AckRate AckConfig AckInv.

(** What holds of the world outside, whatever the module calls in it. *)
Class WorldOk {W} `{AckEnv W} (submitted : list Z -> list Z -> Prop) (P : W -> Prop) := {
  jiffies_ok w : P w -> P (os_jiffies w).2;
  malloc_ok n w : P w -> P (os_malloc n w).2;
  tx_ok frame dest mcs tid w : P w -> wire submitted frame dest -> P (halow_tx_p frame dest mcs tid w).2;
  register_ok n w : P w -> P (statistics_radio_register_tx_package n w);
  watchdog_ok w : P w -> P (halow_tx_vacancy_watchdog w);
}.

Section Quiet.
Context {W : Type} `{AckEnv W} (submitted : list Z -> list Z -> Prop) (P : W -> Prop) `{!WorldOk submitted P}.
#[local] Abbreviation st := (ack_state W).
Implicit Types s : st.

Record peer_soft (p : ack_peer) : Prop := {
  ps_dedup : length (dedup p) = 16%nat;
  ps_dedup_idx : 0 <= dedup_idx p < 16;
  ps_loss : 0 <= loss_q8 p <= 255;
  ps_seq : 0 <= tx_seq p < 65536;
}.
Definition soft (s : st) : Prop := P (world s) /\ Forall peer_soft (g_peers s).
Definition Inv (s : st) : Prop := tables_ok submitted (view_of s) /\ soft s.

(** [At K s0 d s]: the task that started in [s0] is in [s], holds the mutex
    [d] times more, and has kept the frames in [K]. *)
Definition At (K : nat -> Prop) (s0 : st) (d : Z) (s : st) : Prop :=
  Inv s /\ keep K (view_of s0) (view_of s) /\ ack_held s = ack_held s0 + d.

Definition quiet (s s' : st) : Prop :=
  view_of s' = view_of s /\ ack_held s' = ack_held s /\ (soft s -> soft s').

Lemma quiet_refl s : quiet s s.
Proof. by split_and!. Qed.
Lemma quiet_trans s1 s2 s3 : quiet s1 s2 -> quiet s2 s3 -> quiet s1 s3.
Proof.
  intros (V1 & H1 & S1) (V2 & H2 & S2). split_and!; [congruence|congruence|auto].
Qed.

Lemma At_quiet K s0 d s s' : At K s0 d s -> quiet s s' -> At K s0 d s'.
Proof. unfold At, Inv. intros ((Ht & Hs) & Hk & Hh) (V & E & S). rewrite V, E. auto. Qed.

Lemma At_refl K s : Inv s -> At K s 0 s.
Proof. intros Hi. split; [done|]. split; [apply keep_refl|lia]. Qed.

(** The dimensions of the tables. *)
Definition dims (s : st) : Prop := length (g_bufs s) = ACK_BUF_N /\ length (g_peers s) = ACK_MAX_PEERS.

Lemma dims_view s : dims s <-> length (v_bufs (view_of s)) = ACK_BUF_N /\ length (v_peers (view_of s)) = ACK_MAX_PEERS.
Proof. unfold dims, view_of. cbn. by rewrite !length_fmap. Qed.
Lemma Inv_dims s : Inv s -> dims s.
Proof. intros [Ht _]. apply dims_view. split; apply Ht. Qed.
Lemma quiet_dims s s' : quiet s s' -> dims s -> dims s'.
Proof. rewrite !dims_view. by intros [-> _]. Qed.

(** ** Views of single entries *)

Lemma view_peer s k p : g_peers s !! k = Some p -> v_peers (view_of s) !! k = Some (pview p).
Proof. intros Hk. cbn. by rewrite list_lookup_fmap, Hk. Qed.
Lemma view_peer_inv s k q : v_peers (view_of s) !! k = Some q ->
  exists p, g_peers s !! k = Some p /\ q = pview p.
Proof. cbn. rewrite list_lookup_fmap_Some. naive_solver. Qed.
Lemma view_buf s i o : g_bufs s !! i = Some o -> v_bufs (view_of s) !! i = Some (bview <$> o).
Proof. intros Hi. cbn. by rewrite list_lookup_fmap, Hi. Qed.
Lemma view_buf_inv s i b' : v_bufs (view_of s) !! i = Some (Some b') ->
  exists b, g_bufs s !! i = Some (Some b) /\ b' = bview b.
Proof.
  cbn. rewrite list_lookup_fmap_Some. intros (o & E & Hi). destruct o as [b|]; [|done].
  injection E as ->. eauto.
Qed.

(** ** Quiet statements *)

Class Quiet {A} (m : M st A) := quiet_wp : forall s, dims s -> wp m (fun _ s' => quiet s s') s.

#[export] Instance Quiet_ret {A} (a : A) : Quiet (mret a).
Proof. intros s _. apply wp_ret, quiet_refl. Qed.
#[export] Instance Quiet_gets {A} (f : st -> A) : Quiet (gets f).
Proof. intros s _. apply wp_gets, quiet_refl. Qed.
#[export] Instance Quiet_bind {A B} (m : M st A) (k : A -> M st B) :
  Quiet m -> (forall a, Quiet (k a)) -> Quiet (m ≫= k).
Proof.
  intros Hm Hk s Hd. apply wp_bind. eapply wp_mono; [by apply Hm|]. cbv beta. intros a s1 Q1.
  eapply wp_mono; [by apply Hk, (quiet_dims s)|]. cbv beta. intros b s2 Q2. by eapply quiet_trans.
Qed.
#[export] Instance Quiet_when c (m : M st unit) : Quiet m -> Quiet (when c m).
Proof. intros Hm. destruct c; [exact Hm|apply _]. Qed.
#[export] Instance Quiet_if {A} (c : bool) (m1 m2 : M st A) : Quiet m1 -> Quiet m2 -> Quiet (if c then m1 else m2).
Proof. by destruct c. Qed.

Lemma quiet_mono {A} (m : M st A) (R : A -> st -> Prop) s :
  Quiet m -> dims s -> (forall a s', quiet s s' -> R a s') -> wp m R s.
Proof. intros Hm Hd HR. eapply wp_mono; [by apply Hm|]. cbv beta. eauto. Qed.

Lemma Quiet_modify (f : st -> st) : (forall s, quiet s (f s)) -> Quiet (modify f).
Proof. intros Hf s _. apply wp_modify, Hf. Qed.

(** A call into the environment. *)
Lemma Quiet_ext {A} (f : W -> A * W) : (forall w, P w -> P (f w).2) -> Quiet (ext f).
Proof.
  intros Hf s _. unfold wp, ext. specialize (Hf (world s)). destruct (f (world s)) as [a w].
  split; [done|]. split; [done|]. intros [Hw Hp]. split; [by apply Hf|done].
Qed.
#[export] Instance Quiet_now_j : Quiet now_j.
Proof. unfold now_j. apply Quiet_bind; [apply Quiet_ext, jiffies_ok|apply _]. Qed.
#[export] Instance Quiet_stat_set k f : Quiet (stat_set k f).
Proof. apply Quiet_modify. intros s. by split_and!. Qed.
#[export] Instance Quiet_bump k : Quiet (bump k).
Proof. apply Quiet_stat_set. Qed.
#[export] Instance Quiet_dflt_mcs_refresh : Quiet dflt_mcs_refresh.
Proof.
  unfold dflt_mcs_refresh. apply Quiet_bind; [apply _|]. intros now. apply Quiet_bind; [apply _|]. intros fresh.
  apply Quiet_if; [apply _|]. apply Quiet_modify. intros s. by split_and!.
Qed.
#[export] Instance Quiet_peer_init_mcs : Quiet peer_init_mcs.
Proof. unfold peer_init_mcs. apply _. Qed.
#[export] Instance Quiet_peer_is_stale p : Quiet (peer_is_stale p).
Proof. unfold peer_is_stale. apply _. Qed.

Lemma Quiet_peer_at k : (k < 16)%nat -> Quiet (peer_at k).
Proof.
  intros Hk s [_ Hp]. unfold peer_at. apply wp_bind, wp_gets.
  destruct (lookup_lt_is_Some_2 (g_peers s) k) as [p Hkp]; [by rewrite Hp|].
  eapply wp_lift; [done|]. apply quiet_refl.
Qed.

Lemma quiet_peer s k f p : g_peers s !! k = Some p -> pview (f p) = pview p ->
  (peer_soft p -> peer_soft (f p)) -> quiet s (s <| g_peers ::= fun l => <[k := f p]> l |>).
Proof.
  intros Hk Hv Hs. split; [|split; [done|]].
  - unfold view_of. rsimpl. f_equal. rewrite list_fmap_insert, Hv. apply list_insert_id.
    by rewrite list_lookup_fmap, Hk.
  - intros [Hw Hp]. split; [done|]. rsimpl. apply Forall_insert; [done|].
    apply Hs. by eapply Forall_lookup_1.
Qed.

Lemma Quiet_peer_upd k f : (k < 16)%nat -> (forall p, pview (f p) = pview p) ->
  (forall p, peer_soft p -> peer_soft (f p)) -> Quiet (peer_upd k f).
Proof.
  intros Hk Hv Hs s [_ Hp]. unfold peer_upd, peer_at.
  destruct (lookup_lt_is_Some_2 (g_peers s) k) as [p Hkp]; [by rewrite Hp|].
  apply wp_bind, wp_bind, wp_gets. eapply wp_lift; [done|]. apply wp_modify. by apply quiet_peer; auto.
Qed.

Lemma quiet_buf s i f b : g_bufs s !! i = Some (Some b) -> bview (f b) = bview b ->
  quiet s (s <| g_bufs ::= fun l => <[i := Some (f b)]> l |>).
Proof.
  intros Hi Hv. split; [|by split]. unfold view_of. rsimpl. f_equal. rewrite list_fmap_insert.
  change (fmap bview (Some (f b))) with (Some (bview (f b))). rewrite Hv.
  apply list_insert_id. by rewrite list_lookup_fmap, Hi.
Qed.

Lemma Quiet_mfor {A} (l : list A) (body : A -> M st unit) :
  (forall a, a ∈ l -> Quiet (body a)) -> Quiet (mfor l body).
Proof.
  intros Hb s Hd. apply (wp_mfor _ _ (fun s' => quiet s s')); [apply quiet_refl| |done].
  intros a s' Ha Hq. eapply wp_mono; [apply (Hb a Ha), (quiet_dims s s' Hq Hd)|].
  cbv beta. intros _ s'' Hq'. by eapply quiet_trans.
Qed.
End Quiet.

Lemma in_indices i n : i ∈ indices n <-> (i < n)%nat.
Proof. unfold indices. rewrite list_elem_of_In, in_seq. lia. Qed.

Create HintDb quiet.

(** Decomposes a statement into its quiet parts. *)
Ltac peer_soft_auto :=
  let Hd := fresh in let Hi := fresh in let Hl := fresh in let Hq := fresh in
  intros ? [Hd Hi Hl Hq]; constructor; rsimpl; first [assumption | word_lia | solve [auto with quiet]].
Ltac quiet_step :=
  lazymatch goal with
  | |- Quiet _ (_ ≫= _) => apply Quiet_bind; [|intros ?]
  | |- Quiet _ (when _ _) => apply Quiet_when
  | |- Quiet _ (mret _) => apply Quiet_ret
  | |- Quiet _ (gets _) => apply Quiet_gets
  | |- Quiet _ (match ?x with _ => _ end) => destruct x
  | |- Quiet _ (peer_upd _ _) =>
      apply Quiet_peer_upd; [assumption|intros ?; reflexivity|try solve [peer_soft_auto]]
  | |- Quiet _ (peer_at _) => apply Quiet_peer_at; assumption
  | |- Quiet _ (mfor _ _) => apply Quiet_mfor; intros ? ?
  | |- Quiet _ _ => first [solve [auto with quiet nocore] | solve [typeclasses eauto]]
  end.
Ltac quiet_auto := cbv zeta; repeat (quiet_step; cbv zeta).

Section QuietOps.
Context {W : Type} `{AckEnv W} (submitted : list Z -> list Z -> Prop) (P : W -> Prop) `{!WorldOk submitted P}.
#[local] Abbreviation st := (ack_state W).
#[local] Abbreviation Quiet := (Quiet P).

Lemma buf_upd_quiet i f (s : st) o : g_bufs s !! i = Some (Some o) -> bview (f o) = bview o ->
  wp (buf_upd i f) (fun _ s' => quiet P s s') s.
Proof.
  intros Hi Hv. unfold buf_upd, buf_get. apply wp_bind, wp_bind, wp_gets. eapply wp_lift; [by rewrite Hi|].
  apply wp_modify. by apply quiet_buf.
Qed.

Lemma Quiet_ra_kick_inflight p : Quiet (ra_kick_inflight p).
Proof.
  unfold ra_kick_inflight. do 2 (apply Quiet_bind; [apply _|intros ?]).
  apply Quiet_mfor. intros i Hi%in_indices s [Hb Hp].
  unfold buf_slot. destruct (lookup_lt_is_Some_2 (g_bufs s) i) as [o Ho]; [by rewrite Hb|].
  apply wp_bind, wp_bind, wp_gets. eapply wp_lift; [done|]. destruct o as [b|].
  - apply wp_when; intros _; [|apply quiet_refl]. by eapply buf_upd_quiet.
  - apply wp_ret, quiet_refl.
Qed.

Section Peer.
Context (k : nat) (Hk : (k < 16)%nat).

Lemma Quiet_ra_note_collapse : Quiet (ra_note_collapse k).
Proof. unfold ra_note_collapse. quiet_auto; apply Quiet_ra_kick_inflight. Qed.
Lemma Quiet_ra_probe_capped c : Quiet (ra_probe_capped k c).
Proof. unfold ra_probe_capped. quiet_auto. Qed.
Lemma Quiet_ra_downshift : Quiet (ra_downshift k).
Proof. unfold ra_downshift. quiet_auto; apply Quiet_ra_note_collapse. Qed.
Lemma Quiet_ra_climb : Quiet (ra_climb k).
Proof. unfold ra_climb. quiet_auto. apply Quiet_ra_probe_capped. Qed.

Lemma loss_decay_range l : 0 <= l <= 255 -> 0 <= loss_decay l <= 255.
Proof. intros Hl. unfold loss_decay, RA_EWMA_W. rewrite Z.shiftr_div_pow2 by lia. word_lia. Qed.
#[local] Hint Resolve loss_decay_range : quiet.

Lemma Quiet_ra_on_ack : Quiet (ra_on_ack k).
Proof.
  unfold ra_on_ack. quiet_auto; try apply Quiet_ra_downshift; try apply Quiet_ra_climb.
Qed.
Lemma Quiet_ra_in_grace : Quiet (ra_in_grace k).
Proof. unfold ra_in_grace. quiet_auto. Qed.
Lemma Quiet_ra_on_retrans : Quiet (ra_on_retrans k).
Proof.
  unfold ra_on_retrans. quiet_auto; [apply Quiet_ra_in_grace|].
  intros p [Hd Hi Hl Hq]. constructor; rsimpl; [done|done| |done].
  unfold RA_RETRANS_STEP_Q8. cbv zeta. z_case; word_lia.
Qed.
Lemma Quiet_ra_on_drop : Quiet (ra_on_drop k).
Proof.
  unfold ra_on_drop. quiet_auto; [apply Quiet_ra_in_grace| |apply Quiet_ra_downshift].
  intros p [Hd Hi Hl Hq]. constructor; rsimpl; [done|done| |done].
  unfold RA_EWMA_W. change (256 / 8) with 32. rewrite Z.shiftr_div_pow2 by lia. word_lia.
Qed.
Lemma Quiet_ra_check_stale : Quiet (ra_check_stale k).
Proof. unfold ra_check_stale. quiet_auto. Qed.
End Peer.

Lemma Quiet_rtt_record a b c : Quiet (rtt_record a b c).
Proof. unfold rtt_record. quiet_auto. Qed.
End QuietOps.
