(* ===== verification/AckSafe.v ===== *)
(** * The reliability layer keeps its invariant, whatever the other tasks do

    For every operation of [halow_ack.c]: started in a state that satisfies
    the invariant, with other tasks doing anything that satisfies it too
    while the mutex is free, it runs without a fault and ends in such a
    state, with the mutex as it was. *)

From S2P Require Import Prelude Monad ConfigDb AckWire AckPeer AckState AckRate AckConfig AckTx.
From S2P Require Import AckRx AckTick AckInv AckQuiet.

Section Safe.
Context {W : Type} `{AckEnv W} (submitted : list Z -> list Z -> Prop) (P : W -> Prop) `{!WorldOk submitted P}.
#[local] Abbreviation st := (ack_state W).
#[local] Abbreviation Quiet := (Quiet P).
#[local] Abbreviation Inv := (Inv submitted P).
#[local] Abbreviation At := (At submitted P).
#[local] Abbreviation soft := (soft P).
#[local] Abbreviation tables_ok := (tables_ok submitted).
Implicit Types s : st.

(** The other tasks keep the invariant, the frames in [K] and the frame this
    task is transmitting. *)
Definition with_mine (K : nat -> Prop) (mine : option nat) (j : nat) : Prop := K j \/ mine = Some j.
Definition others_ok (K : nat -> Prop) (others : option nat -> st -> st) : Prop :=
  forall mine s, Inv s -> At (with_mine K mine) s 0 (others mine s).

Lemma At_trans K s0 d1 s1 d2 s2 : At K s0 d1 s1 -> At K s1 d2 s2 -> At K s0 (d1 + d2) s2.
Proof.
  intros (_ & K1 & H1) (I2 & K2 & H2). split; [done|]. split; [by eapply keep_trans|lia].
Qed.
Lemma At_weaken (K K' : nat -> Prop) s0 d s : (forall j, K j -> K' j) -> At K' s0 d s -> At K s0 d s.
Proof. intros HK (I & Hk & Hh). split; [done|]. split; [by eapply keep_weaken|done]. Qed.

(** A frame that was not being sent at the start may be sent meanwhile. *)
Lemma At_own K s0 d s i :
  (forall b, K i -> v_bufs (view_of s0) !! i = Some (Some b) -> state b <> ACK_BUF_SENDING) ->
  At (fun j => K j /\ j <> i) s0 d s -> At K s0 d s.
Proof.
  intros Hs (I & Hk & Hh). split; [done|]. split; [|done].
  intros j b' Hj Hb Hsb. destruct (decide (j = i)) as [->|Hne]; [by destruct (Hs b' Hj Hb)|by apply (Hk j b')].
Qed.

Lemma not_sending_before K s0 d s i o : At K s0 d s -> v_bufs (view_of s) !! i = Some o ->
  (forall b, o = Some b -> state b <> ACK_BUF_SENDING) ->
  forall b, K i -> v_bufs (view_of s0) !! i = Some (Some b) -> state b <> ACK_BUF_SENDING.
Proof.
  intros (_ & Hk & _) Hi Ho b HK Hb Hs. destruct (Hk i b HK Hb Hs) as [Hb' _].
  rewrite Hi in Hb'. injection Hb' as ->. by apply (Ho b).
Qed.

(** A quiet statement under [At]. *)
Lemma wp_quiet {A} (m : M st A) K s0 d s (R : A -> st -> Prop) : Quiet m -> At K s0 d s ->
  (forall a s', At K s0 d s' -> quiet P s s' -> R a s') -> wp m R s.
Proof.
  intros Hm HA HR. eapply wp_mono; [apply Hm, (Inv_dims submitted P), HA|].
  cbv beta. intros a s' Hq. apply HR; [by eapply At_quiet|done].
Qed.

Lemma At_lock K s0 d s : At K s0 d s -> At K s0 (d + 1) (s <| ack_held ::= fun n => n + 1 |>).
Proof. intros (I & Hk & Hh). split; [done|]. split; [done|]. rsimpl. lia. Qed.
Lemma At_unlock K s0 d s : At K s0 d s -> At K s0 (d - 1) (s <| ack_held ::= fun n => n - 1 |>).
Proof. intros (I & Hk & Hh). split; [done|]. split; [done|]. rsimpl. lia. Qed.

Lemma wp_lock K s0 d s (R : unit -> st -> Prop) : At K s0 d s ->
  (forall s', At K s0 (d + 1) s' -> view_of s' = view_of s -> R tt s') -> wp ack_lock R s.
Proof. intros HA HR. apply wp_modify, HR; [by apply At_lock|done]. Qed.

Lemma wp_others others K mine s0 d s (R : unit -> st -> Prop) : others_ok K others -> At K s0 d s ->
  (forall s', At K s0 d s' -> keep (with_mine K mine) (view_of s) (view_of s') -> R tt s') ->
  wp (modify (others mine)) R s.
Proof.
  intros Ho HA HR. apply wp_modify. pose proof (Ho mine s (proj1 HA)) as H1. apply HR; [|apply H1].
  replace d with (d + 0) by lia. eapply At_trans; [exact HA|]. eapply At_weaken; [|exact H1].
  intros j Hj. by left.
Qed.

Lemma wp_unlock others K mine s0 d s (R : unit -> st -> Prop) : others_ok K others -> At K s0 d s ->
  (forall s', At K s0 (d - 1) s' -> keep (with_mine K mine) (view_of s) (view_of s') -> R tt s') ->
  wp (ack_unlock others mine) R s.
Proof.
  intros Ho HA HR. unfold ack_unlock. apply wp_bind, wp_modify. eapply wp_others; [done|by apply At_unlock|].
  intros s' HA' Hk. by apply HR.
Qed.

(** ** The table accessors *)

Lemma wp_peer_at k p s (R : ack_peer -> st -> Prop) : g_peers s !! k = Some p -> R p s -> wp (peer_at k) R s.
Proof. intros Hk HR. unfold peer_at. apply wp_bind, wp_gets. by eapply wp_lift. Qed.
Lemma wp_buf_slot i o s (R : option ack_buf -> st -> Prop) : g_bufs s !! i = Some o -> R o s -> wp (buf_slot i) R s.
Proof. intros Hi HR. unfold buf_slot. apply wp_bind, wp_gets. by eapply wp_lift. Qed.
Lemma wp_buf_get i b s (R : ack_buf -> st -> Prop) : g_bufs s !! i = Some (Some b) -> R b s -> wp (buf_get i) R s.
Proof. intros Hi HR. unfold buf_get. apply wp_bind, wp_gets. eapply wp_lift; [by rewrite Hi|done]. Qed.
Lemma wp_peer_upd k f p s (R : unit -> st -> Prop) : g_peers s !! k = Some p ->
  R tt (s <| g_peers ::= fun l => <[k := f p]> l |>) -> wp (peer_upd k f) R s.
Proof. intros Hk HR. unfold peer_upd. apply wp_bind. eapply wp_peer_at; [done|]. by apply wp_modify. Qed.
Lemma wp_buf_upd i f b s (R : unit -> st -> Prop) : g_bufs s !! i = Some (Some b) ->
  R tt (s <| g_bufs ::= fun l => <[i := Some (f b)]> l |>) -> wp (buf_upd i f) R s.
Proof. intros Hi HR. unfold buf_upd. apply wp_bind. eapply wp_buf_get; [done|]. by apply wp_modify. Qed.

Lemma view_peers_upd s k p : view_of (s <| g_peers ::= fun l => <[k := p]> l |>) =
  view_of s <| v_peers ::= fun l => <[k := pview p]> l |>.
Proof. unfold view_of, set. cbn. by rewrite list_fmap_insert. Qed.
Lemma view_bufs_upd s i o : view_of (s <| g_bufs ::= fun l => <[i := o]> l |>) =
  view_of s <| v_bufs ::= fun l => <[i := bview <$> o]> l |>.
Proof. unfold view_of, set. cbn. by rewrite list_fmap_insert. Qed.

(** ** Peers *)

(** The pointer [k] still denotes the peer [m]. *)
Definition peer_is (k : nat) (m : list Z) (s : st) : Prop :=
  exists p, g_peers s !! k = Some p /\ in_use p = true /\ mac p = m.

Lemma peer_is_view k m s s' : view_of s' = view_of s -> peer_is k m s -> peer_is k m s'.
Proof.
  intros V (p & Hk & Hu & Hm). apply view_peer in Hk. rewrite <-V in Hk.
  apply view_peer_inv in Hk as (p' & Hk' & E). exists p'. unfold pview in E.
  injection E as E1 E2 _ _ _. split; [done|]. split; congruence.
Qed.
Lemma peer_is_lt k m s : Inv s -> peer_is k m s -> (k < 16)%nat.
Proof.
  intros HI (p & Hk & _). apply lookup_lt_Some in Hk. destruct (Inv_dims _ _ _ HI) as [_ Hl].
  rewrite Hl in Hk. done.
Qed.

Lemma mac_eq_ok a b : mac_ok a -> mac_ok b -> mac_eq a b = true <-> a = b.
Proof.
  intros [La Ba] [Lb Bb]. apply mac_eq_spec; [congruence| |]; (eapply Forall_impl; [eassumption|]);
    unfold is_u8; cbn; lia.
Qed.

Lemma peer_find_spec m s : Inv s -> mac_ok m ->
  match peer_find m s with
  | Some k => peer_is k m s
  | None => forall k p, g_peers s !! k = Some p -> in_use p = true -> mac p <> m
  end.
Proof.
  intros [Ht _] Hm. unfold peer_find. destruct (list_find _ (g_peers s)) as [[k p]|] eqn:Hf; cbn.
  - apply list_find_Some in Hf as (Hk & [Hu E]%andb_true_iff & _). exists p. split; [done|]. split; [done|].
    apply mac_eq_ok; [|done|done]. by apply (t_pmac _ _ Ht k (pview p)); [apply view_peer|].
  - apply list_find_None in Hf. intros k p Hk Hu E. rewrite Forall_lookup in Hf. apply (Hf k p Hk).
    rewrite Hu. cbn. apply mac_eq_ok; [|done|done].
    by apply (t_pmac _ _ Ht k (pview p)); [apply view_peer|].
Qed.

(** ** Releasing a frame that is not being staged *)

Lemma infl_range v i b : tables_ok v -> v_bufs v !! i = Some (Some b) -> state b <> ACK_BUF_STAGING ->
  1 <= v_infl v <= 16.
Proof.
  intros Hv Hi Hs. rewrite (t_infl _ _ Hv). split.
  - replace 1 with (live b) by (unfold live; by case_decide).
    apply (tsum_pos live _ i); [intros a; unfold live; case_decide; lia|done].
  - pose proof (tsum_le live 1 (v_bufs v)) as Hle. rewrite (t_bufs _ _ Hv) in Hle. unfold ACK_BUF_N in Hle.
    assert (forall a, live a <= 1) by (intros a; unfold live; case_decide; lia). apply Hle; [done|lia].
Qed.

Lemma used_range v i b : tables_ok v -> v_bufs v !! i = Some (Some b) -> 1 <= v_used v <= 16.
Proof.
  intros Hv Hi. rewrite (t_used _ _ Hv). split.
  - apply (tsum_pos one _ i b); [done|done].
  - pose proof (tsum_le (@one ack_buf) 1 (v_bufs v)) as Hle. rewrite (t_bufs _ _ Hv) in Hle.
    apply Hle; [unfold one; lia|lia].
Qed.

(** The table entry after [buf_release], for any kind of frame. *)
Lemma buf_release_view i b s (R : unit -> st -> Prop) : g_bufs s !! i = Some (Some b) -> idx b = i ->
  (forall s', ack_held s' = ack_held s -> (soft s -> soft s') -> g_peers s' = g_peers s ->
     g_bufs s' = <[i := None]> (g_bufs s) ->
     view_of s' = view_of s <| v_bufs ::= fun l => <[i := None]> l |>
       <| v_infl := if decide (state b = ACK_BUF_STAGING) then g_inflight_n s else u8 (g_inflight_n s - 1) |>
       <| v_heap ::= fun n => u32 (n - node_size b) |> <| v_used ::= fun n => u8 (n - 1) |> -> R tt s') ->
  wp (buf_release i) R s.
Proof.
  intros Hi Hx HR. unfold buf_release. apply wp_bind. eapply wp_buf_get; [done|]. apply wp_bind.
  apply wp_when; intros Hst; apply wp_modify; [apply wp_modify|]; apply HR; try done; rewrite ?Hx; try done;
    unfold view_of, set; cbn; rewrite list_fmap_insert; case_decide; try done;
    apply (f_equal negb) in Hst; rewrite negb_involutive in Hst; cbn in Hst;
    [apply bool_decide_eq_false in Hst|apply bool_decide_eq_true in Hst]; done.
Qed.

Lemma buf_release_At K s0 d i b s (R : unit -> st -> Prop) : At K s0 d s ->
  g_bufs s !! i = Some (Some b) -> state b = ACK_BUF_INFLIGHT ->
  (forall s', At K s0 d s' -> g_peers s' = g_peers s -> g_bufs s' = <[i := None]> (g_bufs s) -> R tt s') ->
  wp (buf_release i) R s.
Proof.
  intros HA Hi Hs HR. pose proof HA as ((Ht & Hsoft) & Hk & Hh).
  pose proof (view_buf _ _ _ Hi) as Hv. cbn [fmap option_fmap option_map] in Hv.
  pose proof (bo_idx _ _ _ (t_buf _ _ Ht _ _ Hv)) as Hx.
  eapply buf_release_view; [done|exact Hx|]. intros s' Eh Es Ep Eb Ev. apply HR; [|done|done].
  assert (Hst : state (bview b) <> ACK_BUF_STAGING) by (change (state (bview b)) with (state b); congruence).
  pose proof (infl_range _ _ _ Ht Hv Hst) as Hinf. pose proof (used_range _ _ _ Ht Hv) as Huse.
  destruct (home_of _ _ _ _ Ht Hv) as (k & p & Hp & Hu & Hm).
  rewrite decide_False in Ev by congruence. change (g_inflight_n s) with (v_infl (view_of s)) in Ev.
  assert (Hup : slot_upd submitted (view_of s) (view_of s') i k (Some (bview b)) None p p).
  { rewrite Ev. constructor; rsimpl; try done.
    - by rewrite list_insert_id.
    - cbn [oval one]. rewrite u8_small by word_lia. unfold one. lia.
    - cbn [oval]. unfold live. rewrite decide_False by done. rewrite u8_small by word_lia. lia.
    - cbn [oval]. change (node_size (bview b)) with (node_size b). f_equal. lia.
    - by intros b' [= <-].
    - by left.
    - intros Hnz. destruct (t_agg _ _ Ht _ _ Hp Hnz) as (A1 & A2 & b' & subs & A3 & A4 & A5).
      split; [done|]. split; [done|]. exists b', subs. rewrite list_lookup_insert_ne; [done|].
      intros E. rewrite <-E, Hv in A3. injection A3 as <-. by destruct A5 as [A5 _]. }
  split; [|split].
  - split; [by eapply slot_upd_ok|auto].
  - eapply keep_trans; [exact Hk|]. eapply slot_upd_keep; [exact Hup|]. intros b' [= <-] E.
    change (state (bview b)) with (state b) in E. congruence.
  - lia.
Qed.

(** ** Transmitting a frame *)

Lemma others_ok_weaken (K K' : nat -> Prop) others : (forall j, K' j -> K j) ->
  others_ok K others -> others_ok K' others.
Proof.
  intros HK Ho mine s HI. eapply At_weaken; [|by apply Ho]. unfold with_mine. naive_solver.
Qed.

Lemma Quiet_halow_tx frame dest mcs : wire submitted frame dest -> Quiet (halow_tx frame dest mcs).
Proof. intros Hw. unfold halow_tx. apply Quiet_ext. intros w Hp. by eapply tx_ok. Qed.

(** The frame and the peer after a step that keeps the frame being sent. *)
Lemma mine_kept (K : nat -> Prop) i b k s s' : K i -> keep K (view_of s) (view_of s') ->
  g_bufs s !! i = Some (Some b) -> state b = ACK_BUF_SENDING -> peer_is k (dest_mac b) s ->
  exists b', g_bufs s' !! i = Some (Some b') /\ bview b' = bview b /\ peer_is k (dest_mac b) s'.
Proof.
  intros HK Hk Hi Hs (p & Hp & Hu & Hm). apply view_buf in Hi.
  destruct (Hk i (bview b) HK Hi Hs) as [Hb Hpp].
  apply view_buf_inv in Hb as (b' & Hb' & E). exists b'. split; [done|]. split; [done|].
  destruct (Hpp k (pview p)) as (q & Hq & Huq & Hmq); [by apply view_peer|done|done|].
  apply view_peer_inv in Hq as (p' & Hp' & ->). by exists p'.
Qed.

Lemma live_sent b : state b <> ACK_BUF_STAGING -> live b = 1.
Proof. intros Hs. unfold live. by case_decide. Qed.

(** A frame that is not being staged changes its state or retry count. *)
Lemma inplace_At K s0 d s i b b' : At K s0 d s -> g_bufs s !! i = Some (Some b) ->
  state b <> ACK_BUF_STAGING -> state b' <> ACK_BUF_STAGING -> (state b = ACK_BUF_SENDING -> ~ K i) ->
  idx b' = idx b -> cap b' = cap b -> data b' = data b -> dest_mac b' = dest_mac b -> ofs b' = ofs b ->
  len b' = len b -> 0 <= retries_used b' <= 8 ->
  At K s0 d (s <| g_bufs ::= fun l => <[i := Some b']> l |>).
Proof.
  intros ((Ht & Hsoft) & Hk & Hh) Hi Hs Hs' HK E1 E2 E3 E4 E5 E6 Hr.
  pose proof (view_buf _ _ _ Hi) as Hv. cbn [fmap option_fmap option_map] in Hv.
  pose proof (t_buf _ _ Ht _ _ Hv) as Hbo. destruct (home_of _ _ _ _ Ht Hv) as (k & p & Hp & Hu & Hm).
  set (s' := s <| g_bufs ::= fun l => <[i := Some b']> l |>).
  assert (Hup : slot_upd submitted (view_of s) (view_of s') i k (Some (bview b)) (Some (bview b')) p p).
  { unfold s'. rewrite view_bufs_upd. constructor; rsimpl; try done.
    - by rewrite list_insert_id.
    - cbn [oval]. unfold one. lia.
    - cbn [oval]. rewrite !live_sent by done. lia.
    - cbn [oval]. unfold node_size. change (cap (bview b')) with (cap b'). rewrite E2.
      change (cap (bview b)) with (cap b). rewrite (t_heap _ _ Ht). word_lia.
    - by intros b0 [= <-].
    - intros b0 [= <-]. split; [|split; [|by intros Hx; destruct (Hs' Hx)]].
      + destruct Hbo as [B1 B2 B3 B4 B5 B6]. unfold bview, frame_bytes in *.
        constructor; unfold frame_bytes; rsimpl; rewrite ?E1, ?E2, ?E3, ?E4, ?E5, ?E6; try done.
        intros _. by apply B6.
      + rewrite Hm. exact E4.
    - by left.
    - intros Hnz. destruct (t_agg _ _ Ht _ _ Hp Hnz) as (A1 & A2 & b0 & subs & A3 & A4 & A5).
      split; [done|]. split; [done|]. exists b0, subs. rewrite list_lookup_insert_ne; [done|].
      intros E. rewrite <-E, Hv in A3. injection A3 as <-. by destruct A5 as [A5 _]. }
  split; [|split].
  - split; [by eapply slot_upd_ok|]. destruct Hsoft. by split.
  - eapply keep_trans; [exact Hk|]. eapply slot_upd_keep; [exact Hup|]. intros b0 [= <-]. exact HK.
  - exact Hh.
Qed.

Lemma buf_tx_air_At K others i b k pmcs s0 d s (R : unit -> st -> Prop) : others_ok K others ->
  At (fun j => K j /\ j <> i) s0 d s -> g_bufs s !! i = Some (Some b) ->
  state b = ACK_BUF_SENDING -> peer_is k (dest_mac b) s ->
  (forall s', At (fun j => K j /\ j <> i) s0 d s' -> peer_is k (dest_mac b) s' -> R tt s') ->
  wp (buf_tx_air others i pmcs) R s.
Proof.
  intros Ho HA Hi Hs Hp HR. set (K' := fun j => K j /\ j <> i) in *.
  assert (Ho' : others_ok K' others) by (eapply others_ok_weaken; [|exact Ho]; by intros j [? _]).
  assert (Hmine : with_mine K' (Some i) i) by (by right).
  unfold buf_tx_air. apply wp_bind. eapply wp_unlock; [exact Ho'|exact HA|]. intros s1 HA1 Hk1.
  destruct (mine_kept _ _ _ _ _ _ Hmine Hk1 Hi Hs Hp) as (b1 & Hi1 & E1 & Hp1). clear HA Hk1.
  assert (Hd : dest_mac b1 = dest_mac b) by exact (f_equal dest_mac E1).
  assert (Hs1 : state b1 = ACK_BUF_SENDING) by (transitivity (state b); [exact (f_equal state E1)|done]).
  apply wp_bind. eapply wp_buf_get; [done|].
  pose proof (view_buf _ _ _ Hi1) as Hv. cbn [fmap option_fmap option_map] in Hv.
  destruct (t_buf _ _ (proj1 (proj1 HA1)) _ _ Hv) as [B1 B2 B3 B4 B5 B6].
  destruct B6 as (F1 & F2 & F3 & F4); [change (state b1 <> ACK_BUF_STAGING); congruence|].
  change (ofs (bview b1)) with (ofs b1) in *. change (len (bview b1)) with (len b1) in *.
  change (cap (bview b1)) with (cap b1) in *. change (data (bview b1)) with (data b1) in *.
  apply wp_bind. eapply wp_lift; [apply rd_n_in_bounds; lia|].
  apply wp_bind. apply (wp_quiet _ K' s0 (d - 1)); [|exact HA1|]; [by apply Quiet_halow_tx|].
  intros r s2 HA2 Q2. apply wp_bind. apply (wp_quiet _ K' s0 (d - 1)); [apply _|exact HA2|].
  intros now s3 HA3 Q3.
  assert (V3 : view_of s3 = view_of s1) by (destruct Q2, Q3; congruence). clear HA2 Q2 Q3.
  apply wp_bind. apply (wp_quiet _ K' s0 (d - 1)); [by apply Quiet_modify; intros s'; split_and!|exact HA3|].
  intros _ s4 HA4 [V4 _]. rewrite V3 in V4. clear HA3 V3 s3.
  assert (Hp4 : peer_is k (dest_mac b1) s4) by (rewrite Hd; by apply (peer_is_view _ _ s1)).
  assert (exists b4, g_bufs s4 !! i = Some (Some b4) /\ bview b4 = bview b1) as (b4 & Hi4 & E4).
  { rewrite <-V4 in Hv. apply view_buf_inv in Hv as (b4 & Hi4 & E4). by exists b4. }
  assert (Hd4 : dest_mac b4 = dest_mac b1) by exact (f_equal dest_mac E4).
  assert (Hs4 : state b4 = ACK_BUF_SENDING) by (transitivity (state b1); [exact (f_equal state E4)|done]).
  rewrite <-Hd4 in Hp4. apply wp_bind. eapply wp_others; [exact Ho'|exact HA4|]. intros s5 HA5 Hk5.
  destruct (mine_kept _ _ _ _ _ _ Hmine Hk5 Hi4 Hs4 Hp4) as (b5 & Hi5 & E5 & Hp5).
  apply wp_bind. eapply wp_lock; [exact HA5|]. intros s6 HA6 V6. replace (d - 1 + 1) with d in HA6 by lia.
  apply view_buf in Hi5. rewrite <-V6 in Hi5. apply view_buf_inv in Hi5 as (b6 & Hi6 & E6).
  apply (peer_is_view _ _ _ _ V6) in Hp5. rewrite E5 in E6.
  assert (Hd6 : dest_mac b6 = dest_mac b4) by (symmetry; exact (f_equal dest_mac E6)).
  assert (Hs6 : state b6 = ACK_BUF_SENDING) by (transitivity (state b4); [symmetry; exact (f_equal state E6)|done]).
  rewrite <-Hd6 in Hp5. apply wp_bind. eapply wp_buf_get; [done|]. rewrite Hs6. cbn [bool_decide when].
  eapply wp_buf_upd; [done|].
  pose proof (view_buf _ _ _ Hi6) as Hv6. destruct (t_buf _ _ (proj1 (proj1 HA6)) _ _ Hv6) as [_ _ _ _ Hr6 _].
  apply HR; [|by rewrite <-Hd, <-Hd4, <-Hd6].
  eapply inplace_At; [exact HA6|exact Hi6|congruence|done|intros _ [_ E]; by apply E|try done..].
Qed.

(** A frame in flight is sent again. *)
Lemma buf_tx_send_At K others i b k pmcs s0 d s (R : unit -> st -> Prop) : others_ok K others ->
  At K s0 d s -> g_bufs s !! i = Some (Some b) -> state b = ACK_BUF_INFLIGHT -> peer_is k (dest_mac b) s ->
  (forall s', At K s0 d s' -> peer_is k (dest_mac b) s' -> R tt s') ->
  wp (buf_tx_send others i pmcs) R s.
Proof.
  intros Ho HA Hi Hs Hp HR. unfold buf_tx_send, buf_tx_mark.
  pose proof (view_buf _ _ _ Hi) as Hv. destruct (t_buf _ _ (proj1 (proj1 HA)) _ _ Hv) as [_ _ _ _ Hr _].
  apply wp_bind, wp_bind. eapply wp_buf_get; [done|]. rewrite Hs. cbn [bool_decide when].
  apply wp_bind, wp_ret. eapply wp_buf_upd; [done|].
  assert (Hsent : forall b, K i -> v_bufs (view_of s0) !! i = Some (Some b) -> state b <> ACK_BUF_SENDING).
  { eapply not_sending_before; [exact HA|exact Hv|]. intros b' [= <-].
    change (state (bview b)) with (state b). congruence. }
  apply (buf_tx_air_At K others i (b <| state := ACK_BUF_SENDING |>) k pmcs s0 d); [done| |
    by apply list_lookup_insert_eq, (lookup_lt_Some _ _ _ Hi)|done|done|].
  - apply (inplace_At _ _ _ _ _ b); try done; try congruence.
    eapply At_weaken; [|exact HA]. by intros j [? _].
  - intros s' HA' Hp'. apply HR; [|exact Hp']. by eapply At_own.
Qed.

(** ** Finding and creating peers *)

Lemma evict_loop_spec bufs ps i0 oldest victim r : evict_loop bufs ps i0 oldest victim = Some r ->
  victim = Some r \/ exists j p, ps !! j = Some p /\ r = (i0 + j)%nat /\
    (in_use p = false \/ buf_for_peer bufs (mac p) = false).
Proof.
  revert i0 oldest victim. induction ps as [|c ps IH]; intros i0 oldest victim; cbn; [by left|].
  destruct (in_use c) eqn:Hu; cbn; [|intros [= <-]; right; exists 0%nat, c; rewrite Nat.add_0_r; by auto].
  assert (Hrec : forall o v, evict_loop bufs ps (S i0) o v = Some r -> v = Some r \/
    exists j p, (c :: ps) !! j = Some p /\ r = (i0 + j)%nat /\
      (in_use p = false \/ buf_for_peer bufs (mac p) = false)).
  { intros o v Hl. destruct (IH _ _ _ Hl) as [->|(j & p & Hj & -> & Hp)]; [by left|].
    right. exists (S j), p. split; [done|]. split; [lia|done]. }
  destruct (buf_for_peer bufs (mac c)) eqn:Hb; [by apply Hrec|].
  destruct (last_seen c <? oldest); [|by apply Hrec].
  intros Hl. destruct (Hrec _ _ Hl) as [[= <-]|Hx]; [|by right].
  right. exists 0%nat, c. rewrite Nat.add_0_r. auto.
Qed.

Lemma no_buf_for_peer s k p : Inv s -> g_peers s !! k = Some p -> in_use p = true ->
  buf_for_peer (g_bufs s) (mac p) = false ->
  forall i b, v_bufs (view_of s) !! i = Some (Some b) -> dest_mac b <> mac p.
Proof.
  intros [Ht _] Hk Hu Hf i b Hb E. apply view_buf_inv in Hb as (b' & Hb' & ->).
  assert (buf_for_peer (g_bufs s) (mac p) = true); [|congruence].
  unfold buf_for_peer. apply existsb_exists. exists (Some b'). split.
  - apply list_elem_of_In. by eapply list_elem_of_lookup_2.
  - apply view_buf in Hb'. apply mac_eq_ok; [apply (t_buf _ _ Ht i _ Hb')| |exact E].
    by apply (t_pmac _ _ Ht k (pview p)); [apply view_peer|].
Qed.

Lemma npeers_range v : tables_ok v -> 0 <= v_npeers v <= 16.
Proof.
  intros Hv. rewrite (t_npeers _ _ Hv).
  assert (Hu : forall p, 0 <= used_peer p <= 1) by (intros p; unfold used_peer; case_match; lia).
  pose proof (tsum_nonneg used_peer (fmap (M:=list) Some (v_peers v)) (fun p => proj1 (Hu p))).
  pose proof (tsum_le used_peer 1 (fmap (M:=list) Some (v_peers v)) (fun p => proj2 (Hu p))) as Hle.
  rewrite length_fmap, (t_peers _ _ Hv) in Hle. unfold ACK_MAX_PEERS in Hle. lia.
Qed.

(** The new entry of [peer_create]. *)
Lemma create_At K s0 d s s' k q m : At K s0 d s -> mac_ok m -> g_peers s !! k = Some q ->
  (in_use q = false \/ buf_for_peer (g_bufs s) (mac q) = false) ->
  (forall k' p', g_peers s !! k' = Some p' -> in_use p' = true -> mac p' <> m) ->
  view_of s' = view_of s <| v_npeers := v_npeers (view_of s) - used_peer (pview q) + 1 |>
                         <| v_peers ::= fun l => <[k := mkPv true m 0 0 0]> l |> ->
  ack_held s' = ack_held s -> soft s' -> At K s0 d s'.
Proof.
  intros (HI & Hkeep & Hh) Hm Hk Hfree Hnew Ev Eh Hs'. pose proof HI as [Ht _].
  destruct (new_peer_ok submitted (view_of s) k (pview q) m Ht (view_peer _ _ _ Hk)) with (v' := view_of s')
    as [Ht' Hk']; rewrite ?Ev; rsimpl; try done.
  - destruct (in_use q) eqn:Hu; [right|by left]. destruct Hfree as [?|Hf]; [done|].
    by eapply no_buf_for_peer.
  - intros k' p' Hp' Hu'. apply view_peer_inv in Hp' as (p0 & Hp0 & ->). by apply (Hnew k' p0).
  - split; [by split|]. split; [|by rewrite Eh]. eapply keep_trans; [exact Hkeep|]. apply Hk'.
Qed.

Lemma peer_zero_soft : peer_soft peer_zero.
Proof. constructor; cbn; [done|lia..]. Qed.

Lemma peer_create_At K s0 d s m mcs (R : option nat -> st -> Prop) : At K s0 d s -> mac_ok m ->
  (forall k' p', g_peers s !! k' = Some p' -> in_use p' = true -> mac p' <> m) ->
  (forall r s', At K s0 d s' -> match r with Some k => peer_is k m s' | None => True end -> R r s') ->
  wp (peer_create m mcs) R s.
Proof.
  intros HA Hm Hnew HR. unfold peer_create. apply wp_bind, wp_gets.
  destruct (peer_evict_pick s) as [k|] eqn:Hv; [|by apply wp_ret, HR].
  apply evict_loop_spec in Hv as [?|(j & q & Hq & -> & Hfree)]; [done|]. cbn [Nat.add].
  apply wp_bind. eapply wp_peer_at; [done|].
  pose proof (npeers_range _ (proj1 (proj1 HA))) as Hn. cbn [v_npeers view_of] in Hn.
  set (n' := g_peers_n s - used_peer (pview q) + 1).
  assert (Hwhen : forall R', R' tt (s <| g_peers_n := n' |>) ->
    wp (when (negb (in_use q)) (modify (fun s => s <| g_peers_n ::= fun n => u8 (n + 1) |>))) R' s).
  { intros R' HR'. apply wp_when; intros Hu.
    - apply wp_modify. apply negb_true_iff in Hu.
      replace (s <| g_peers_n ::= fun n => u8 (n + 1) |>) with (s <| g_peers_n := n' |>); [done|].
      unfold n', used_peer. cbn [pview pv_use]. rewrite Hu. unfold set. cbn. f_equal. rewrite u8_small by word_lia. lia.
    - apply negb_false_iff in Hu. replace s with (s <| g_peers_n := n' |>); [done|].
      unfold n', used_peer. cbn [pview pv_use]. rewrite Hu. replace (g_peers_n s - 1 + 1) with (g_peers_n s) by lia.
      by destruct s. }
  apply wp_bind, Hwhen. set (s1 := s <| g_peers_n := n' |>).
  assert (Hd : dims s1) by apply (Inv_dims submitted P s), HA.
  apply wp_bind, wp_gets, wp_bind. eapply (quiet_mono P); [apply _|done|]. intros t1 s2 Q2.
  apply wp_bind. eapply (quiet_mono P); [apply _|by eapply quiet_dims|]. intros t2 s3 Q3.
  assert (Q : quiet P s1 s3) by (by eapply quiet_trans). clear Q2 Q3 s2. destruct Q as (V & E & S).
  pose proof (view_peer _ _ _ Hq) as Hqv. change (v_peers (view_of s)) with (v_peers (view_of s1)) in Hqv.
  rewrite <-V in Hqv. apply view_peer_inv in Hqv as (q3 & Hq3 & _).
  apply wp_bind. eapply wp_peer_upd; [done|]. apply wp_ret.
  match goal with |- R _ ?s4 => set (s' := s4) end.
  assert (Hp : g_peers s' !! j = Some (peer_zero <| in_use := true |> <| mac := m |>
    <| cur_retries := max_retries (g_ack_cfg s1) |> <| tx_mcs := mcs |> <| created_jiff := t1 |> <| last_seen := t2 |>)).
  { subst s'. rsimpl. by apply list_lookup_insert_eq, (lookup_lt_Some _ _ _ Hq3). }
  apply HR; [|by eexists]. eapply create_At; [exact HA|done|done|done|done| |exact E|].
  - subst s'. rewrite view_peers_upd, V. done.
  - destruct HA as ([_ Hsoft] & _). destruct (S Hsoft) as [Sw Sp]. split; [done|]. subst s'. rsimpl.
    apply Forall_insert; [done|]. destruct peer_zero_soft. by constructor.
Qed.

(** [peer_get] finds the peer, or makes an entry for it. *)
Lemma peer_get_At K s0 d s m (R : option nat -> st -> Prop) : At K s0 d s -> mac_ok m ->
  (forall r s', At K s0 d s' -> match r with Some k => peer_is k m s' | None => True end -> R r s') ->
  wp (peer_get m) R s.
Proof.
  intros HA Hm HR. unfold peer_get. apply wp_bind, wp_gets.
  pose proof (peer_find_spec m s (proj1 HA) Hm) as Hf.
  apply wp_bind. eapply wp_quiet; [apply _|exact HA|]. intros mcs s1 HA1 Q1.
  destruct (peer_find m s) as [k|].
  - pose proof (peer_is_lt _ _ _ (proj1 HA) Hf) as Hlt. apply (peer_is_view k m s s1 (proj1 Q1)) in Hf.
    destruct Hf as (p & Hk & Hu & Em). apply wp_bind. eapply wp_peer_at; [done|].
    assert (Hp1 : peer_is k m s1) by (by exists p).
    apply wp_bind, wp_gets, wp_bind. eapply wp_quiet; [|exact HA1|].
    { apply Quiet_if; [apply _|apply _]. }
    intros stale s2 HA2 Q2. apply wp_bind. eapply wp_quiet; [|exact HA2|].
    { apply Quiet_when, Quiet_peer_upd; [done|done|]. intros q []. by constructor. }
    intros _ s3 HA3 Q3. apply wp_bind. eapply wp_quiet; [apply _|exact HA3|]. intros now s4 HA4 Q4.
    apply wp_bind. eapply wp_quiet; [|exact HA4|].
    { apply Quiet_peer_upd; [done|done|]. intros q []. by constructor. }
    intros _ s5 HA5 Q5. apply wp_ret, HR; [exact HA5|].
    apply (peer_is_view _ _ s1); [|done]. destruct Q2, Q3, Q4, Q5. congruence.
  - apply (peer_create_At K s0 d); [done|done| |done].
    intros k' p' Hk' Hu' E. apply view_peer in Hk'. rewrite (proj1 Q1) in Hk'.
    apply view_peer_inv in Hk' as (p0 & Hp0 & Ep). injection Ep as Eu Em _ _ _. apply (Hf k' p0); congruence.
Qed.
End Safe.
