(* ===== verification/AckSafeTx.v ===== *)
(** * The transmit path keeps the invariant *)

From S2P Require Import Prelude Monad ConfigDb AckWire AckPeer AckState AckRate AckConfig AckTx.
From S2P Require Import AckInv AckQuiet AckSafe.

Section SafeTx.
Context {W : Type} `{AckEnv W} (submitted : list Z -> list Z -> Prop) (P : W -> Prop) `{!WorldOk submitted P}.
#[local] Abbreviation st := (ack_state W).
#[local] Abbreviation Quiet := (Quiet P).
#[local] Abbreviation Inv := (Inv submitted P).
#[local] Abbreviation At := (At submitted P).
#[local] Abbreviation soft := (soft P).
#[local] Abbreviation tables_ok := (tables_ok submitted).
#[local] Abbreviation others_ok := (others_ok submitted P).
Implicit Types s : st.

Context (K : nat -> Prop) (others : option nat -> st -> st) (Ho : others_ok K others).

(** ** Allocation *)

Lemma buf_alloc_view st0 m n s (R : option nat -> st -> Prop) : Inv s ->
  (forall s', quiet P s s' -> R None s') ->
  (forall i born s', g_bufs s !! i = Some None -> ack_held s' = ack_held s -> (soft s -> soft s') ->
     g_bufs s' !! i = Some (Some (fresh_buf st0 i n m born)) ->
     view_of s' = view_of s <| v_bufs ::= fun l => <[i := Some (fresh_buf st0 i n m 0)]> l |>
       <| v_used ::= fun x => x + 1 |> <| v_infl ::= fun x => x + live (fresh_buf st0 i n m 0) |>
       <| v_heap ::= fun x => u32 (x + buf_alloc_sz n) |> -> R (Some i) s') ->
  st0 <> ACK_BUF_SENDING -> wp (buf_alloc st0 m n) R s.
Proof.
  intros HI HN HS Hst. unfold buf_alloc. apply wp_bind, wp_gets.
  destruct (list_find (fun o => o = None) (g_bufs s)) as [[i o]|] eqn:Hf; [|by apply wp_ret, HN, quiet_refl].
  apply list_find_Some in Hf as (Hi & -> & _).
  pose proof (view_buf _ _ _ Hi) as Hv. pose proof HI as [Ht _].
  pose proof (tsum_free (@one ack_buf) _ i ltac:(unfold one; lia) Hv) as Hused.
  pose proof (tsum_free live _ i ltac:(intros a; unfold live; case_decide; lia) Hv) as Hlive.
  rewrite (t_bufs _ _ Ht), <-(t_used _ _ Ht) in Hused. rewrite (t_bufs _ _ Ht), <-(t_infl _ _ Ht) in Hlive.
  pose proof (tsum_nonneg (@one ack_buf) (v_bufs (view_of s)) ltac:(unfold one; lia)) as Hu0.
  pose proof (tsum_nonneg live (v_bufs (view_of s)) ltac:(intros a; unfold live; case_decide; lia)) as Hl0.
  rewrite <-(t_used _ _ Ht) in Hu0. rewrite <-(t_infl _ _ Ht) in Hl0.
  unfold ACK_BUF_N in Hused, Hlive. cbn [view_of v_used v_infl] in Hused, Hlive, Hu0, Hl0.
  apply wp_bind. eapply (quiet_mono P); [apply Quiet_ext, malloc_ok|by eapply Inv_dims|]. intros ok s1 Q1.
  destruct ok; cbn [negb].
  2: { apply wp_bind. eapply (quiet_mono P); [apply _|by eapply quiet_dims, Inv_dims|].
       intros _ s2 Q2. apply wp_ret, HN. by eapply quiet_trans. }
  apply wp_bind. eapply (quiet_mono P); [apply _|by eapply quiet_dims, Inv_dims|]. intros born s2 Q2.
  assert (Q : quiet P s s2) by (by eapply quiet_trans). clear Q1 Q2 s1. destruct Q as (V & E & S).
  assert (Hi2 : g_bufs s2 !! i = Some None).
  { rewrite <-V in Hv. cbn in Hv. rewrite list_lookup_fmap_Some in Hv. destruct Hv as ([b|] & E' & Hi2); done. }
  assert (V1 : g_used_n s2 = g_used_n s) by exact (f_equal v_used V).
  assert (V2 : g_inflight_n s2 = g_inflight_n s) by exact (f_equal v_infl V).
  apply wp_bind, wp_modify. apply wp_bind.
  set (s3 := s2 <| g_bufs ::= _ |> <| g_used_n ::= _ |> <| g_heap_bytes ::= _ |>).
  assert (H3 : view_of s3 = view_of s <| v_bufs ::= fun l => <[i := Some (fresh_buf st0 i n m 0)]> l |>
       <| v_used ::= fun x => x + 1 |> <| v_heap ::= fun x => u32 (x + buf_alloc_sz n) |>).
  { rewrite <-V. subst s3. unfold view_of, set. cbn. rewrite list_fmap_insert, V1. f_equal.
    rewrite u8_small by word_lia. done. }
  assert (Hb3 : g_bufs s3 !! i = Some (Some (fresh_buf st0 i n m born))).
  { subst s3. rsimpl. by apply list_lookup_insert_eq, (lookup_lt_Some _ _ _ Hi2). }
  apply wp_when; intros Hinf.
  - apply bool_decide_eq_true in Hinf. apply wp_modify, wp_ret. apply (HS i born); try done.
    transitivity (view_of s3 <| v_infl ::= fun x => x + 1 |>).
    + unfold view_of, set. cbn. f_equal. subst s3. rsimpl. rewrite V2, u8_small by word_lia. done.
    + rewrite H3. unfold view_of, set. cbn. f_equal. unfold live.
      case_decide as Hd; cbn in Hd; [congruence|done].
  - apply bool_decide_eq_false in Hinf. apply wp_ret. apply (HS i born); try done.
    rewrite H3. unfold view_of, set. cbn. f_equal. unfold live.
    case_decide as Hd; cbn in Hd; [lia|by destruct st0].
Qed.

(** ** Staged bundles *)

(** A peer with a bundle points to its buffer. *)
Lemma agg_buf s k p : Inv s -> g_peers s !! k = Some p -> agg_idx p <> 0 ->
  in_use p = true /\ 1 <= agg_idx p <= 16 /\
  exists b subs, g_bufs s !! agg_slot p = Some (Some b) /\ dest_mac b = mac p /\
    buf_ok submitted (agg_slot p) (bview b) /\ staged submitted (bview b) (agg_len p) (agg_nsub p) subs.
Proof.
  intros [Ht _] Hk Hnz. pose proof (view_peer _ _ _ Hk) as Hv.
  destruct (t_agg _ _ Ht _ _ Hv Hnz) as (Hu & Hr & b' & subs & Hb & Hm & Hs). split; [done|]. split; [done|].
  pose proof (t_buf _ _ Ht _ _ Hb) as Hbo. apply view_buf_inv in Hb as (b & Hb & ->).
  exists b, subs. done.
Qed.

Lemma header_length sq nsub : length (bundle_header sq nsub) = 6%nat.
Proof. done. Qed.

(** The frame the flush assembles. *)
Lemma flush_frame b alen nsub subs sq : staged submitted b alen nsub subs -> length (data b) = Z.to_nat (cap b) ->
  exists d, wr_n (data b) 0 (bundle_header sq nsub) = Some d /\ length d = length (data b) /\
    rd_n d 0 alen = Some (bundle_frame sq subs) /\
    take (Z.to_nat alen) (drop 0 d) = bundle_frame sq subs.
Proof.
  intros (_ & Ha & Hc & Hn & _ & _ & Hd) Hl. pose proof (blen_nonneg (bundle_body subs)) as Hb.
  assert (Hf : bundle_frame sq subs = bundle_header sq nsub ++ bundle_body subs) by (unfold bundle_frame; by rewrite Hn).
  rewrite Hf. pose proof (header_length sq nsub) as Hh. revert Hh. generalize (bundle_header sq nsub). intros h Hh.
  unfold blen in *. eexists. split; [apply wr_n_in_bounds; lia|].
  set (d := take _ _ ++ _ ++ _).
  assert (Hlen : length d = length (data b)).
  { subst d. rewrite !length_app, length_take, length_drop. lia. }
  assert (Ht : take (Z.to_nat alen) (drop 0 d) = h ++ bundle_body subs).
  { subst d. change (take (Z.to_nat 0) (data b)) with (@nil Z). cbn [app drop]. rewrite Hh.
    replace (Z.to_nat alen) with (length h + length (bundle_body subs))%nat by lia.
    rewrite drop_0, take_app_add. f_equal. exact Hd. }
  split; [exact Hlen|]. split; [|exact Ht]. rewrite rd_n_in_bounds by lia. exact (f_equal Some Ht).
Qed.

Lemma Quiet_next_tx_seq k s (R : Z -> st -> Prop) : (k < 16)%nat -> dims s -> soft s ->
  (forall sq s', quiet P s s' -> 0 <= sq < 0xFFFF -> R sq s') -> wp (next_tx_seq k) R s.
Proof.
  intros Hk [_ Hd] [_ Hs] HR. unfold next_tx_seq.
  destruct (lookup_lt_is_Some_2 (g_peers s) k) as [p Hp]; [by rewrite Hd|].
  pose proof (Forall_lookup_1 _ _ _ _ Hs Hp) as [D1 D2 D3 D4].
  apply wp_bind. eapply wp_peer_at; [done|]. cbv zeta.
  destruct (Z.eqb_spec (tx_seq p) 0xFFFF) as [E|E]; apply wp_bind; (eapply wp_peer_upd; [done|]); apply wp_ret, HR.
  - apply quiet_peer; [done|done|]. intros []. constructor; rsimpl; try done. word_lia.
  - word_lia.
  - apply quiet_peer; [done|done|]. intros []. constructor; rsimpl; try done. word_lia.
  - lia.
Qed.

Lemma Quiet_peer_note_tx k n : (k < 16)%nat -> Quiet (peer_note_tx k n).
Proof. intros Hk. unfold peer_note_tx. quiet_auto. Qed.

(** The flush turns the bundle of peer [k] into a frame being sent. *)
Lemma flush_upd s s' i k p b b' subs sq : Inv s -> g_peers s !! k = Some p -> i = agg_slot p ->
  g_bufs s !! i = Some (Some b) -> dest_mac b = mac p -> in_use p = true -> agg_idx p = Z.of_nat i + 1 ->
  buf_ok submitted i (bview b) -> staged submitted (bview b) (agg_len p) (agg_nsub p) subs -> 0 <= sq < 0xFFFF ->
  state b' = ACK_BUF_SENDING -> idx b' = i -> cap b' = cap b -> dest_mac b' = dest_mac b ->
  length (data b') = length (data b) -> retries_used b' = 0 -> ofs b' = 0 -> len b' = agg_len p ->
  frame_bytes b' = bundle_frame sq subs ->
  view_of s' = view_of s <| v_bufs ::= fun l => <[i := Some (bview b')]> l |>
    <| v_peers ::= fun l => <[k := pview (agg_clear p)]> l |> <| v_infl ::= fun n => n + 1 |> ->
  slot_upd submitted (view_of s) (view_of s') i k (Some (bview b)) (Some (bview b')) (pview p) (pview (agg_clear p)).
Proof.
  intros HI Hk -> Hi Hm Hu Hx Hbo Hst Hsq Es Ei Ec Ed El Er Eo Elen Ef Ev. rewrite Ev.
  destruct Hst as (S1 & S2 & S3 & S4 & S5 & S6 & S7).
  pose proof (t_heap _ _ (proj1 HI)) as Hheap.
  constructor; rsimpl; try done.
  - by apply view_buf in Hi.
  - by apply view_peer.
  - cbn [oval]. unfold one. lia.
  - cbn [oval]. rewrite (live_sent (bview b')) by (change (state b' <> ACK_BUF_STAGING); congruence).
    unfold live. rewrite decide_True by done. lia.
  - cbn [oval]. unfold node_size. change (cap (bview b')) with (cap b'). change (cap (bview b)) with (cap b).
    rewrite Ec, Hheap. word_lia.
  - intros b0 [= <-]. done.
  - intros b0 [= <-]. split; [|split; [|]].
    + destruct Hbo as [B1 B2 B3 B4 B5 B6]. unfold bview in *. revert B2 B3 B4 S3. rsimpl. intros B2 B3 B4 S3.
      pose proof (blen_nonneg (bundle_body subs)) as Hnn.
      constructor; rsimpl; rewrite ?Ec, ?El, ?Ed, ?Er, ?Eo, ?Elen; try done; try lia.
      intros _. split; [lia|]. split; [lia|]. split; [lia|].
      unfold frame_bytes. rsimpl. change (take (Z.to_nat (len b')) (drop (Z.to_nat (ofs b')) (data b'))) with (frame_bytes b').
      rewrite Ef. by eapply wire_bundle.
    + change (dest_mac (bview b')) with (dest_mac b'). by rewrite Ed, Hm.
    + change (state (bview b')) with (state b'). congruence.
  - right. right. exact Hx.
Qed.

(** Midway through an update of slot [i] and peer [k]: they hold [b] and [p]
    now, everything else is as in [s]. *)
Record midway (s : st) (i k : nat) (b : ack_buf) (p : pv) (s' : st) : Prop := {
  mw_view : view_of s' = view_of s <| v_bufs ::= fun l => <[i := Some b]> l |>
                                   <| v_peers ::= fun l => <[k := p]> l |>;
  mw_held : ack_held s' = ack_held s;
  mw_soft : soft s -> soft s';
  mw_i : (i < length (g_bufs s))%nat;
  mw_k : (k < length (g_peers s))%nat;
}.

Lemma midway_start s i k b p : g_bufs s !! i = Some (Some b) -> g_peers s !! k = Some p ->
  midway s i k (bview b) (pview p) s.
Proof.
  intros Hi Hk. constructor; try done; [|by eapply lookup_lt_Some..].
  unfold set, view_of. cbn. f_equal.
  - symmetry. apply list_insert_id. by rewrite list_lookup_fmap, Hi.
  - symmetry. apply list_insert_id. by rewrite list_lookup_fmap, Hk.
Qed.

Lemma midway_quiet s i k b p s1 s2 : midway s i k b p s1 -> quiet P s1 s2 -> midway s i k b p s2.
Proof. intros [] (V & E & S). constructor; [congruence|congruence|auto|done|done]. Qed.

Lemma midway_buf s i k b p s' : midway s i k b p s' -> exists b', g_bufs s' !! i = Some (Some b') /\ bview b' = b.
Proof.
  intros [V _ _ Hi _].
  assert (Hv : v_bufs (view_of s') !! i = Some (Some b)).
  { rewrite V. rsimpl. apply list_lookup_insert_eq. cbn. by rewrite length_fmap. }
  apply view_buf_inv in Hv as (b' & ? & ->). eauto.
Qed.
Lemma midway_peer s i k b p s' : midway s i k b p s' -> exists p', g_peers s' !! k = Some p' /\ pview p' = p.
Proof.
  intros [V _ _ _ Hk].
  assert (Hv : v_peers (view_of s') !! k = Some p).
  { rewrite V. rsimpl. apply list_lookup_insert_eq. cbn. by rewrite length_fmap. }
  apply view_peer_inv in Hv as (p' & ? & ->). eauto.
Qed.

Lemma midway_dims s i k b p s' : midway s i k b p s' -> dims s -> dims s'.
Proof. rewrite !dims_view. intros [-> _ _ _ _]. rsimpl. by rewrite !length_insert. Qed.

Lemma midway_buf_upd s i k b p s' b' : midway s i k b p s' ->
  midway s i k (bview b') p (s' <| g_bufs ::= fun l => <[i := Some b']> l |>).
Proof.
  intros [V E S Hi Hk]. constructor; [|done| |done|done].
  - rewrite view_bufs_upd, V. unfold set. cbn. by rewrite list_insert_insert_eq.
  - intros Hs. destruct (S Hs). by split.
Qed.
Lemma midway_peer_upd s i k b p s' p' p0 : midway s i k b p s' -> g_peers s' !! k = Some p0 ->
  (peer_soft p0 -> peer_soft p') -> midway s i k b (pview p') (s' <| g_peers ::= fun l => <[k := p']> l |>).
Proof.
  intros [V E S Hi Hk] Hp0 Hp. constructor; [|done| |done|done].
  - rewrite view_peers_upd, V. unfold set. cbn. by rewrite list_insert_insert_eq.
  - intros Hs. destruct (S Hs) as [Hw Hps]. split; [done|]. rsimpl. apply Forall_insert; [done|].
    apply Hp. by eapply Forall_lookup_1.
Qed.

(** A quiet statement midway. *)
Lemma wp_midway {A} (m : M st A) s i k b p s' (R : A -> st -> Prop) : Quiet m -> dims s ->
  midway s i k b p s' -> (forall a s'', midway s i k b p s'' -> R a s'') -> wp m R s'.
Proof.
  intros Hm Hd Hw HR. eapply quiet_mono; [exact Hm|by eapply midway_dims|]. intros a s'' Q.
  by eapply HR, midway_quiet.
Qed.
Lemma wp_midway_buf s i k b p s' f (R : unit -> st -> Prop) : midway s i k b p s' ->
  (forall b' s'', bview b' = b -> midway s i k (bview (f b')) p s'' -> R tt s'') -> wp (buf_upd i f) R s'.
Proof.
  intros Hw HR. destruct (midway_buf _ _ _ _ _ _ Hw) as (b' & Hb & E). eapply wp_buf_upd; [done|].
  eapply HR; [exact E|]. by eapply midway_buf_upd.
Qed.
Lemma wp_midway_peer s i k b p s' f (R : unit -> st -> Prop) : midway s i k b p s' ->
  (forall p, peer_soft p -> peer_soft (f p)) ->
  (forall p' s'', pview p' = p -> midway s i k b (pview (f p')) s'' -> R tt s'') -> wp (peer_upd k f) R s'.
Proof.
  intros Hw Hf HR. destruct (midway_peer _ _ _ _ _ _ Hw) as (p' & Hp & E). eapply wp_peer_upd; [done|].
  eapply HR; [exact E|]. eapply midway_peer_upd; eauto.
Qed.

Lemma mark_staging s' i b (R : unit -> st -> Prop) :
  g_bufs s' !! i = Some (Some b) -> state b = ACK_BUF_STAGING -> 0 <= g_inflight_n s' < 255 ->
  R tt (s' <| g_inflight_n ::= fun n => n + 1 |>
           <| g_bufs ::= fun l => <[i := Some (b <| state := ACK_BUF_SENDING |>)]> l |>) ->
  wp (buf_tx_mark i) R s'.
Proof.
  intros Hi Hs Hn HR. unfold buf_tx_mark. apply wp_bind. eapply wp_buf_get; [done|]. rewrite Hs.
  cbn [bool_decide when]. apply wp_bind, wp_modify. eapply wp_buf_upd; [exact Hi|].
  replace (s' <| g_inflight_n ::= fun n => u8 (n + 1) |>) with (s' <| g_inflight_n ::= fun n => n + 1 |>); [done|].
  unfold set. cbn. f_equal. by rewrite u8_small by word_lia.
Qed.

Lemma pview_clear p p' : pview p' = pview p -> pview (agg_clear p') = pview (agg_clear p).
Proof. unfold pview. intros [= E1 E2 _ _ _]. unfold agg_clear. cbn. unfold set. cbn. by rewrite E1, E2. Qed.

(** The marked frame is sent: the table update [flush_upd], then the air. *)
Lemma flushed_send k m pmcs s0 d s p b subs b6 s6 sq (R : unit -> st -> Prop) : At K s0 d s ->
  g_peers s !! k = Some p -> in_use p = true -> mac p = m -> agg_idx p <> 0 ->
  g_bufs s !! agg_slot p = Some (Some b) -> staged submitted (bview b) (agg_len p) (agg_nsub p) subs ->
  g_inflight_n s < 16 ->
  midway s (agg_slot p) k (bview b6) (pview (agg_clear p)) s6 ->
  g_bufs s6 !! agg_slot p = Some (Some b6) ->
  0 <= sq < 0xFFFF -> state b6 = ACK_BUF_STAGING -> idx b6 = idx b -> cap b6 = cap b -> dest_mac b6 = dest_mac b ->
  length (data b6) = length (data b) -> retries_used b6 = 0 -> ofs b6 = 0 -> len b6 = agg_len p ->
  frame_bytes b6 = bundle_frame sq subs ->
  (forall s', At K s0 d s' -> peer_is k m s' -> R tt s') ->
  wp (buf_tx_send others (agg_slot p) pmcs) R s6.
Proof using All.
  intros HA Hk Hu Hm Hnz Hi Hst Hroom Hmid Hi6 Hsq E1 E2 E3 E4 E5 E6 E7 E8 E9 HR.
  pose proof HA as (HI & Hkeep & Hh). destruct (agg_buf _ _ _ HI Hk Hnz) as (_ & Hr & b0 & subs0 & Hi0 & Hbm & Hbo & _).
  rewrite Hi in Hi0. injection Hi0 as <-. set (i := agg_slot p) in *.
  pose proof (tsum_nonneg live (v_bufs (view_of s)) ltac:(intros a; unfold live; case_decide; lia)) as Hl0.
  rewrite <-(t_infl _ _ (proj1 HI)) in Hl0. cbn [view_of v_infl] in Hl0.
  assert (V6 : g_inflight_n s6 = g_inflight_n s) by exact (f_equal v_infl (mw_view _ _ _ _ _ _ Hmid)).
  unfold buf_tx_send. apply wp_bind. eapply mark_staging; [done|done|lia|].
  set (b7 := b6 <| state := ACK_BUF_SENDING |>). set (s7 := s6 <| g_inflight_n ::= _ |> <| g_bufs ::= _ |>).
  assert (Hup : slot_upd submitted (view_of s) (view_of s7) i k (Some (bview b)) (Some (bview b7)) (pview p)
    (pview (agg_clear p))).
  { apply (flush_upd s s7 i k p b b7 subs sq); try done.
    - unfold i, agg_slot. lia.
    - change (idx b7) with (idx b6). rewrite E2. apply Hbo.
    - subst s7. rewrite view_bufs_upd. change (view_of (s6 <| g_inflight_n ::= fun n => n + 1 |>))
        with (view_of s6 <| v_infl ::= fun n => n + 1 |>). rewrite (mw_view _ _ _ _ _ _ Hmid).
      unfold set. cbn. by rewrite list_insert_insert_eq. }
  assert (Hsent : forall b, K i -> v_bufs (view_of s0) !! i = Some (Some b) -> state b <> ACK_BUF_SENDING).
  { eapply not_sending_before; [exact HA|by apply view_buf in Hi|]. intros b' [= <-]. destruct Hst as [Hst _]. congruence. }
  apply (buf_tx_air_At submitted P K others i b7 k pmcs s0 d).
  - exact Ho.
  - split; [|split].
    + split; [eapply slot_upd_ok; [apply HI|exact Hup]|]. destruct (mw_soft _ _ _ _ _ _ Hmid (proj2 HI)). by split.
    + eapply keep_trans; [eapply keep_weaken; [|exact Hkeep]; by intros j [? _]|].
      eapply slot_upd_keep; [exact Hup|]. by intros b' _ _ [_ E].
    + subst s7. rsimpl. by rewrite (mw_held _ _ _ _ _ _ Hmid).
  - subst s7. rsimpl. by apply list_lookup_insert_eq, (lookup_lt_Some _ _ _ Hi6).
  - done.
  - change (dest_mac b7) with (dest_mac b6). rewrite E4, Hbm.
    destruct (midway_peer _ _ _ _ _ _ Hmid) as (p6 & Hp6 & Ep). exists p6. split; [done|].
    injection Ep as Eu Em _ _ _. split; congruence.
  - intros s' HA' Hp'. apply HR; [by eapply At_own|]. change (dest_mac b7) with (dest_mac b6) in Hp'.
    by rewrite E4, Hbm, Hm in Hp'.
Qed.

Lemma agg_flush_locked_At k m s0 d s (R : bool -> st -> Prop) : At K s0 d s -> peer_is k m s ->
  (forall r s', At K s0 d s' -> peer_is k m s' -> (r = false -> s' = s) -> R r s') ->
  wp (agg_flush_locked others k) R s.
Proof using All.
  intros HA Hpis HR. pose proof Hpis as (p & Hk & Hu & Hm). pose proof HA as (HI & _).
  pose proof (peer_is_lt _ _ _ _ _ HI Hpis) as Hlt. pose proof (Inv_dims _ _ _ HI) as Hd.
  unfold agg_flush_locked. apply wp_bind. eapply wp_peer_at; [done|].
  destruct (Z.eqb_spec (agg_idx p) 0) as [Hz|Hnz]; [by apply wp_ret, HR|].
  apply wp_bind, wp_gets, wp_bind, wp_gets.
  destruct (_ <? ACK_TX_VACANCY_LOW); [by apply wp_ret, HR|].
  destruct (Z.leb_spec (eff_window s) (g_inflight_n s)) as [_|Hroom]; [by apply wp_ret, HR|].
  assert (Hroom' : g_inflight_n s < 16).
  { destruct HI as [Ht _]. pose proof (t_cwnd _ _ Ht) as Hc. pose proof (t_window _ _ Ht) as Hw.
    pose proof (ok_window _ (t_cfg _ _ Ht)) as Hw'. cbn [view_of v_cwnd v_window v_cfg] in *.
    revert Hroom. unfold eff_window. z_case; lia. }
  destruct (agg_buf _ _ _ HI Hk Hnz) as (_ & Hr & b & subs & Hi & Hbm & Hbo & Hst). cbv zeta.
  apply wp_bind. eapply wp_buf_get; [done|].
  pose proof (midway_start _ _ _ _ _ Hi Hk) as M0.
  apply wp_bind. eapply wp_midway_peer; [exact M0|intros ? []; by constructor|]. intros p1 s1 Ep1 M1.
  rewrite (pview_clear _ _ Ep1) in M1. clear M0 p1 Ep1.
  apply wp_bind. eapply wp_midway; [apply _|exact Hd|exact M1|]. clear M1. intros txj s2 M2.
  apply wp_bind. eapply wp_midway; [apply _|exact Hd|exact M2|]. clear M2. intros born s3 M3.
  apply wp_bind. eapply wp_midway_buf; [exact M3|]. clear M3. intros b3 s4 E3 M4.
  apply wp_bind. apply Quiet_next_tx_seq; [done|by eapply midway_dims|apply (mw_soft _ _ _ _ _ _ M4), HI|].
  intros sq s5 Q5 Hsq. pose proof (midway_quiet _ _ _ _ _ _ _ M4 Q5) as M5. clear M4 Q5.
  destruct (flush_frame (bview b) (agg_len p) (agg_nsub p) subs sq Hst (bo_data _ _ _ Hbo)) as (dd & Hw & Hl & Hrd & Htk).
  change (data (bview b)) with (data b) in *.
  apply wp_bind. eapply wp_lift; [exact Hw|]. apply wp_bind. eapply wp_lift; [exact Hrd|].
  apply wp_bind. eapply wp_midway_buf; [exact M5|]. clear M5. intros b5 s6 E5 M6.
  apply wp_bind. eapply wp_midway; [by apply Quiet_peer_note_tx|exact Hd|exact M6|]. clear M6. intros _ s7 M7.
  apply wp_bind. eapply wp_midway; [apply _|exact Hd|exact M7|]. clear M7. intros _ s8 M8.
  destruct (midway_buf _ _ _ _ _ _ M8) as (b6 & Hi6 & E6). rewrite <-E6 in M8.
  assert (X : forall {A} (f : ack_buf -> A), (forall x, f (bview x) = f x) -> forall x y, bview x = bview y -> f x = f y).
  { intros A f Hf x y E. by rewrite <-Hf, E, Hf. }
  assert (Hs3 : state b3 = ACK_BUF_STAGING).
  { rewrite (X _ state (fun _ => eq_refl) _ _ E3). apply Hst. }
  apply wp_bind. eapply (flushed_send k m _ s0 d s p b subs b6 s8 sq); try done.
  - rewrite (X _ state (fun _ => eq_refl) _ _ E6). transitivity (state b5); [done|].
    rewrite (X _ state (fun _ => eq_refl) _ _ E5). exact Hs3.
  - rewrite (X _ idx (fun _ => eq_refl) _ _ E6). transitivity (idx b5); [done|].
    rewrite (X _ idx (fun _ => eq_refl) _ _ E5). exact (X _ idx (fun _ => eq_refl) _ _ E3).
  - rewrite (X _ cap (fun _ => eq_refl) _ _ E6). transitivity (cap b5); [done|].
    rewrite (X _ cap (fun _ => eq_refl) _ _ E5). exact (X _ cap (fun _ => eq_refl) _ _ E3).
  - rewrite (X _ dest_mac (fun _ => eq_refl) _ _ E6). transitivity (dest_mac b5); [done|].
    rewrite (X _ dest_mac (fun _ => eq_refl) _ _ E5). exact (X _ dest_mac (fun _ => eq_refl) _ _ E3).
  - rewrite (X _ data (fun _ => eq_refl) _ _ E6). exact Hl.
  - rewrite (X _ retries_used (fun _ => eq_refl) _ _ E6). transitivity (retries_used b5); [done|].
    rewrite (X _ retries_used (fun _ => eq_refl) _ _ E5). done.
  - rewrite (X _ ofs (fun _ => eq_refl) _ _ E6). done.
  - rewrite (X _ len (fun _ => eq_refl) _ _ E6). done.
  - rewrite (X _ frame_bytes (fun _ => eq_refl) _ _ E6). exact Htk.
  - intros s' HA' Hp'. apply wp_ret, HR; done.
Qed.

(** ** Growing a bundle *)

(** The bundle of peer [k] can take [n] more bytes. *)
Definition room (k : nat) (n : Z) (s : st) : Prop :=
  exists p b, g_peers s !! k = Some p /\ agg_idx p <> 0 /\ g_bufs s !! agg_slot p = Some (Some b) /\
    agg_len p + 2 + n <= cap b /\ agg_nsub p + 1 <= 8.
Definition no_bundle (k : nat) (s : st) : Prop := exists p, g_peers s !! k = Some p /\ agg_idx p = 0.

Lemma staged_has_room_spec k m n eff s (R : bool -> st -> Prop) : Inv s -> peer_is k m s -> 0 <= n < 65536 ->
  (forall r, (r = true -> no_bundle k s \/ room k n s) -> R r s) -> wp (staged_has_room k n eff) R s.
Proof.
  intros HI (p & Hk & _) Hn HR. unfold staged_has_room. apply wp_bind. eapply wp_peer_at; [done|].
  destruct (Z.eqb_spec (agg_idx p) 0) as [Hz|Hnz].
  { apply wp_ret, HR. intros _. left. by exists p. }
  destruct (agg_buf _ _ _ HI Hk Hnz) as (_ & _ & b & subs & Hi & _ & Hbo & Hst).
  apply wp_bind. eapply wp_buf_get; [done|]. apply wp_ret, HR. intros Hf. right. exists p, b.
  split; [done|]. split; [done|]. split; [done|].
  destruct Hst as (_ & S2 & S3 & S4 & _). pose proof (bo_cap _ _ _ Hbo) as Hc.
  change (cap (bview b)) with (cap b) in *. pose proof (blen_nonneg (bundle_body subs)).
  apply negb_true_iff in Hf. unfold bundle_full_for in Hf. rewrite !orb_false_iff in Hf.
  destruct Hf as [[[_ _] Hcap] Hns]. apply Z.ltb_ge in Hcap, Hns. unfold HALOW_ACK_AGG_MAX_SUB in Hns.
  rewrite u32_small in Hcap by word_lia. lia.
Qed.

Lemma staging_alloc_cap_range eff : 0 <= eff < 65536 -> 0 <= staging_alloc_cap eff <= 4022.
Proof.
  intros He. unfold staging_alloc_cap, ACK_WIRE_MAX, ACK_AGG_RESERVE, HALOW_ACK_AGG_PAYLOAD_MAX, HALOW_ACK_AGG_MAX_SUB.
  cbv zeta. z_case; word_lia.
Qed.

(** The tables after a fresh staging buffer was hung on peer [k]. *)
Lemma open_upd s s' i k p n : Inv s -> g_bufs s !! i = Some None -> g_peers s !! k = Some p ->
  in_use p = true -> agg_idx p = 0 -> 6 <= n < 65536 ->
  view_of s' = view_of s <| v_bufs ::= fun l => <[i := Some (fresh_buf ACK_BUF_STAGING i n (mac p) 0)]> l |>
    <| v_used ::= fun x => x + 1 |> <| v_heap ::= fun x => u32 (x + buf_alloc_sz n) |>
    <| v_peers ::= fun l => <[k := mkPv true (mac p) (Z.of_nat i + 1) 6 0]> l |> ->
  slot_upd submitted (view_of s) (view_of s') i k None (Some (fresh_buf ACK_BUF_STAGING i n (mac p) 0)) (pview p)
    (mkPv true (mac p) (Z.of_nat i + 1) 6 0).
Proof.
  intros [Ht _] Hi Hk Hu Hz Hn ->. pose proof (lookup_lt_Some _ _ _ Hi) as Hil.
  pose proof (t_bufs _ _ Ht) as Hlen. apply view_buf in Hi as Hvi.
  pose proof (lookup_lt_Some _ _ _ Hvi) as Hvl.
  constructor; rsimpl; try done.
  - by apply view_peer.
  - cbn [oval]. unfold one. lia.
  - cbn [oval]. unfold live. rewrite decide_True by done. lia.
  - cbn [oval]. unfold node_size. cbn [fresh_buf cap]. f_equal. lia.
  - intros b [= <-]. split; [|split; done]. constructor; cbn [fresh_buf idx cap data dest_mac retries_used state];
      rewrite ?length_replicate; try done; try lia.
    by apply (t_pmac _ _ Ht k (pview p)); [apply view_peer|].
  - right. left. exact Hz.
  - intros _. pose proof Hvl as Hi16. rewrite Hlen in Hi16. unfold ACK_BUF_N in Hi16. split; [done|]. cbn [pv_idx]. split; [lia|].
    eexists _, []. replace (Z.to_nat (Z.of_nat i + 1 - 1)) with i by lia.
    rewrite list_lookup_insert_eq by done. split; [done|]. split; [done|].
    split; [done|]. cbn. unfold blen. cbn. split; [lia|]. split; [lia|]. split; [lia|]. split; [lia|].
    split; [constructor|done].
Qed.

Lemma staging_open_At k m n eff s0 d s (R : bool -> st -> Prop) : At K s0 d s -> peer_is k m s ->
  no_bundle k s \/ room k n s -> 0 <= n <= 4014 -> 0 <= eff < 65536 ->
  (forall r s', At K s0 d s' -> peer_is k m s' -> (r = true -> room k n s') -> R r s') ->
  wp (staging_open k n m eff) R s.
Proof using All.
  intros HA Hpis Hroom Hn He HR. pose proof HA as (HI & Hkeep & Hh). pose proof Hpis as (p & Hk & Hu & Hm).
  unfold staging_open. apply wp_bind. eapply wp_peer_at; [done|].
  destruct (Z.eqb_spec (agg_idx p) 0) as [Hz|Hnz]; cbn [negb].
  2: { apply wp_ret, HR; [done|done|]. intros _. destruct Hroom as [(p' & Hk' & Hz)|Hroom]; [|done].
       rewrite Hk in Hk'. by injection Hk' as <-. }
  cbv zeta. pose proof (staging_alloc_cap_range eff He) as Hc.
  set (need := u16 (ACK_AGG_RESERVE + 2 + n)).
  assert (Hneed : need = 8 + n) by (unfold need, ACK_AGG_RESERVE; rewrite u16_small; word_lia).
  set (c := if staging_alloc_cap eff <? need then need else staging_alloc_cap eff).
  assert (Hcc : 8 + n <= c < 65536) by (unfold c; z_case; lia).
  apply wp_bind, buf_alloc_view; [done| | |done].
  { intros s1 Q1. apply wp_ret, HR; [by eapply At_quiet|by eapply peer_is_view, Hpis; apply Q1|done]. }
  intros i born s1 Hi E1 S1 Hb1 V1.
  pose proof (lookup_lt_Some _ _ _ Hi) as Hil. destruct (Inv_dims _ _ _ HI) as [Hd1 Hd2].
  assert (Hdims1 : dims s1).
  { apply dims_view. rewrite V1. rsimpl. rewrite length_insert. by apply dims_view. }
  apply wp_bind. eapply (quiet_mono P); [apply _|exact Hdims1|]. intros now s2 (V2 & E2 & S2).
  pose proof (view_peer _ _ _ Hk) as Hvp.
  assert (Hvp2 : v_peers (view_of s2) !! k = Some (pview p)) by (by rewrite V2, V1).
  apply view_peer_inv in Hvp2 as (p2 & Hk2 & Ep2).
  apply wp_bind. eapply wp_peer_upd; [done|]. apply wp_ret.
  match goal with |- R _ ?x => set (s3 := x) end.
  injection Ep2 as Eu Em _ _ _. unfold ACK_BUF_N in Hd1.
  assert (Hup : slot_upd submitted (view_of s) (view_of s3) i k None
    (Some (fresh_buf ACK_BUF_STAGING i c (mac p) 0)) (pview p) (mkPv true (mac p) (Z.of_nat i + 1) 6 0)).
  { apply open_upd; try done; [lia|]. subst s3. rewrite view_peers_upd, V2, V1, Hm.
    unfold set, pview. cbn. rewrite <-Eu, <-Em, Hu, Hm, u8_small by word_lia. f_equal. unfold live. case_decide; [lia|done]. }
  apply HR.
  - split; [|split].
    + split; [eapply slot_upd_ok; [apply HI|exact Hup]|]. destruct (S2 (S1 (proj2 HI))) as [Sw Sp]. split; [done|].
      subst s3. rsimpl. apply Forall_insert; [done|]. destruct (Forall_lookup_1 _ _ _ _ Sp Hk2). by constructor.
    + eapply keep_trans; [exact Hkeep|]. by eapply slot_upd_keep; [exact Hup|].
    + subst s3. rsimpl. by rewrite E2, E1.
  - eexists. subst s3. rsimpl. split; [by apply list_lookup_insert_eq, (lookup_lt_Some _ _ _ Hk2)|].
    rsimpl. split; congruence.
  - intros _. rewrite <-V2 in V1. apply view_buf in Hb1. rewrite <-V2 in Hb1.
    apply view_buf_inv in Hb1 as (b2 & Hb2 & Eb). eexists _, b2. subst s3. rsimpl.
    split; [by apply list_lookup_insert_eq, (lookup_lt_Some _ _ _ Hk2)|]. rsimpl.
    rewrite u8_small by word_lia. split; [lia|]. unfold agg_slot. rsimpl. rewrite ?u8_small by word_lia.
    replace (Z.to_nat (Z.of_nat i + 1 - 1)) with i by lia. split; [done|].
    assert (Hcap : cap b2 = c) by (symmetry; exact (f_equal cap Eb)). rewrite Hcap. unfold ACK_AGG_RESERVE. lia.
Qed.

Lemma body_snoc subs x : bundle_body (subs ++ [x]) = bundle_body subs ++ le16 (blen x) ++ x.
Proof. unfold bundle_body. rewrite map_app, concat_app. cbn. by rewrite app_nil_r. Qed.

(** The staged data after one more subframe. *)
Lemma append_staged b alen nsub subs x : staged submitted b alen nsub subs -> submitted (dest_mac b) x ->
  length (data b) = Z.to_nat (cap b) -> alen + 2 + blen x <= cap b -> nsub + 1 <= 8 ->
  exists d, wr_n (data b) alen (le16 (blen x) ++ x) = Some d /\ length d = length (data b) /\
    forall b', data b' = d -> cap b' = cap b -> state b' = state b -> dest_mac b' = dest_mac b ->
      staged submitted b' (alen + 2 + blen x) (nsub + 1) (subs ++ [x]).
Proof.
  intros (S1 & S2 & S3 & S4 & S5 & S6 & S7) Hx Hl Hr Hn. pose proof (body_snoc subs x) as Hsn.
  assert (Hle : length (le16 (blen x) ++ x) = (2 + length x)%nat) by (rewrite length_app, le16_length; done).
  revert Hsn Hle. generalize (le16 (blen x) ++ x). intros y Hsn Hle. unfold blen in *.
  eexists. split; [apply wr_n_in_bounds; lia|]. split.
  { rewrite !length_app, length_take, length_drop. lia. }
  intros b' Ed Ec Es Em. unfold staged, blen. rewrite Es, Ec, Em, Ed, Hsn, !length_app, Hle.
  split; [done|]. split; [lia|]. split; [lia|]. split; [cbn; lia|].
  split; [cbn; lia|]. split; [apply Forall_app; split; [done|by apply Forall_cons]|].
  replace (Z.to_nat alen) with (6 + length (bundle_body subs))%nat by lia.
  rewrite drop_app_le by (rewrite length_take; lia).
  rewrite <-take_drop_commute, S7, take_app_add. f_equal. rewrite <-Hle. apply take_app_length.
Qed.

Lemma staging_append_At k m x s0 d s (R : unit -> st -> Prop) : At K s0 d s -> peer_is k m s ->
  room k (blen x) s -> submitted m x ->
  (forall s', At K s0 d s' -> peer_is k m s' -> (exists p, g_peers s' !! k = Some p /\ agg_idx p <> 0) -> R tt s') ->
  wp (staging_append k x) R s.
Proof using All.
  intros HA Hpis (p & b & Hk & Hnz & Hi & Hr & Hns) Hx HR. pose proof HA as (HI & Hkeep & Hh).
  destruct (agg_buf _ _ _ HI Hk Hnz) as (Hu & Hrange & b0 & subs & Hi0 & Hbm & Hbo & Hst).
  rewrite Hi in Hi0. injection Hi0 as <-. destruct Hpis as (p0 & Hk0 & _ & Hm). rewrite Hk in Hk0. injection Hk0 as <-.
  assert (Hxb : submitted (dest_mac (bview b)) x) by (change (dest_mac (bview b)) with (dest_mac b); congruence).
  destruct (append_staged _ _ _ _ x Hst Hxb (bo_data _ _ _ Hbo) Hr Hns) as (dd & Hw & Hl & Hst').
  change (data (bview b)) with (data b) in Hw, Hl.
  unfold staging_append. apply wp_bind. eapply wp_peer_at; [done|]. apply wp_bind. eapply wp_buf_get; [done|].
  apply wp_bind. eapply wp_lift; [exact Hw|]. pose proof (midway_start _ _ _ _ _ Hi Hk) as M0.
  apply wp_bind. eapply wp_midway_buf; [exact M0|]. clear M0. intros b1 s1 E1 M1.
  destruct (midway_peer _ _ _ _ _ _ M1) as (p1 & Hk1 & Ep1).
  eapply wp_peer_upd; [exact Hk1|]. set (p2 := p1 <| agg_len ::= _ |> <| agg_nsub ::= _ |>).
  pose proof (midway_peer_upd _ _ _ _ _ _ p2 _ M1 Hk1 ltac:(intros []; by constructor)) as M2. clear M1.
  set (s2 := s1 <| g_peers ::= _ |>) in *. set (b2 := b1 <| data := dd |>) in *.
  unfold pview in Ep1. injection Ep1 as P1 P2 P3 P4 P5. pose proof (bo_cap _ _ _ Hbo) as Hcap.
  change (cap (bview b)) with (cap b) in *. destruct Hst as (S1 & S2 & S3 & S4 & S5 & S6 & S7).
  pose proof (blen_nonneg (bundle_body subs)) as Hb0. pose proof (blen_nonneg x) as Hx0.
  assert (Ep2 : pview p2 = mkPv true (mac p) (agg_idx p) (agg_len p + 2 + blen x) (agg_nsub p + 1)).
  { unfold pview. subst p2. rsimpl. rewrite P1, P2, P3, P4, P5, Hu, u16_small, u8_small by word_lia. done. }
  assert (F : forall {A} (f : ack_buf -> A), (forall y, f (bview y) = f y) -> f b1 = f b).
  { intros A f Hf. by rewrite <-Hf, E1, Hf. }
  rewrite Ep2 in M2.
  assert (Hup : slot_upd submitted (view_of s) (view_of s2) (agg_slot p) k (Some (bview b)) (Some (bview b2)) (pview p)
    (mkPv true (mac p) (agg_idx p) (agg_len p + 2 + blen x) (agg_nsub p + 1))).
  { rewrite (mw_view _ _ _ _ _ _ M2). constructor; rsimpl; try done.
    - by apply view_buf in Hi.
    - by apply view_peer.
    - cbn [oval]. unfold one. lia.
    - cbn [oval]. unfold live. change (state (bview b2)) with (state b1). change (state (bview b)) with (state b).
      rewrite (F _ state) by done. lia.
    - cbn [oval]. unfold node_size. change (cap (bview b2)) with (cap b1). change (cap (bview b)) with (cap b).
      rewrite (F _ cap) by done. rewrite (t_heap _ _ (proj1 HI)). word_lia.
    - by intros b' [= <-].
    - intros b' [= <-]. split; [|split].
      + destruct Hbo as [B1 B2 B3 B4 B5 B6]. unfold bview in *.
        constructor; subst b2; rsimpl; rewrite ?(F _ idx), ?(F _ cap), ?(F _ dest_mac), ?(F _ retries_used), ?(F _ state), ?Hl by done;
          done.
      + change (dest_mac (bview b2)) with (dest_mac b1). by rewrite (F _ dest_mac).
      + intros _. cbn [pv_idx]. unfold agg_slot. lia.
    - by left.
    - intros _. split; [done|]. cbn [pv_idx pv_mac pv_len pv_nsub]. split; [done|]. exists (bview b2), (subs ++ [x]).
      fold (agg_slot p). rewrite list_lookup_insert_eq by (apply view_buf, lookup_lt_Some in Hi; exact Hi).
      split; [done|]. split; [change (dest_mac (bview b2)) with (dest_mac b1); by rewrite (F _ dest_mac)|].
      apply Hst'; [done|exact (F _ cap (fun _ => eq_refl))|exact (F _ state (fun _ => eq_refl))|exact (F _ dest_mac (fun _ => eq_refl))]. }
  apply HR.
  - split; [|split].
    + split; [eapply slot_upd_ok; [apply HI|exact Hup]|]. apply (mw_soft _ _ _ _ _ _ M2), HI.
    + eapply keep_trans; [exact Hkeep|]. eapply slot_upd_keep; [exact Hup|]. intros b' [= <-] E. congruence.
    + rewrite (mw_held _ _ _ _ _ _ M2). exact Hh.
  - exists p2. subst s2. rsimpl. split; [by apply list_lookup_insert_eq, (lookup_lt_Some _ _ _ Hk1)|].
    subst p2. rsimpl. split; congruence.
  - exists p2. subst s2. rsimpl. split; [by apply list_lookup_insert_eq, (lookup_lt_Some _ _ _ Hk1)|].
    subst p2. rsimpl. congruence.
Qed.

(** ** The bundle path *)

Lemma staging_must_go_At k m eff s0 d s (R : bool -> st -> Prop) : At K s0 d s -> peer_is k m s ->
  (exists p, g_peers s !! k = Some p /\ agg_idx p <> 0) -> (forall r, R r s) -> wp (staging_must_go k eff) R s.
Proof.
  intros HA Hpis (p & Hk & Hnz) HR. destruct (agg_buf _ _ _ (proj1 HA) Hk Hnz) as (_ & _ & b & subs & Hi & _).
  unfold staging_must_go. apply wp_bind. eapply wp_peer_at; [done|]. apply wp_bind. eapply wp_buf_get; [done|].
  apply wp_bind, wp_gets, wp_ret, HR.
Qed.

Lemma tx_bundle_locked_At k m x eff s0 d s (R : Z -> st -> Prop) : At K s0 d s -> peer_is k m s ->
  submitted m x -> blen x <= 4014 -> 0 <= eff < 65536 ->
  (forall r s', At K s0 (d - 1) s' -> R r s') ->
  wp (tx_bundle_locked others k x m eff) R s.
Proof using All.
  intros HA Hpis Hx Hlen He HR. pose proof (blen_nonneg x) as Hx0.
  pose proof (peer_is_lt _ _ _ _ _ (proj1 HA) Hpis) as Hlt.
  assert (Hout : forall r s', At K s0 d s' -> wp (ack_unlock others None;; mret r) R s').
  { intros r s' HA'. apply wp_bind. eapply wp_unlock; [exact Ho|exact HA'|]. intros s'' HA'' _.
    by apply wp_ret, HR. }
  unfold tx_bundle_locked. cbv zeta. destruct (blen x =? 0).
  { apply wp_bind. eapply wp_quiet; [apply _|exact HA|]. intros _ s1 HA1 _.
    apply wp_bind. eapply wp_quiet; [apply Quiet_peer_upd; [done|done|intros ? []; by constructor]|exact HA1|].
    intros _ s2 HA2 _. by apply Hout. }
  apply wp_bind, wp_gets, wp_bind, wp_gets. destruct (_ && _); [by apply Hout|].
  apply wp_bind, (staged_has_room_spec k m); [apply HA|done|lia|]. intros r Hr.
  apply wp_bind.
  assert (Hroom : forall R' : bool -> st -> Prop,
    (forall r s', At K s0 d s' -> peer_is k m s' -> (r = true -> no_bundle k s' \/ room k (blen x) s') -> R' r s') ->
    wp (if r then mret true else agg_flush_locked others k;; staged_has_room k (blen x) eff) R' s).
  { intros R' HR'. destruct r; [by apply wp_ret, HR'; auto|].
    apply wp_bind, (agg_flush_locked_At k m s0 d); [done|done|]. intros _ s1 HA1 Hp1 _.
    apply (staged_has_room_spec k m); [apply HA1|done|lia|]. intros r Hr1. by apply HR'. }
  apply Hroom. clear Hroom r Hr. intros r s1 HA1 Hp1 Hr1. destruct r; cbn [negb]; [|by apply Hout].
  apply wp_bind, (staging_open_At k m (blen x) eff s0 d); [done|done|by apply Hr1|lia|done|].
  intros r s2 HA2 Hp2 Hr2. destruct r; cbn [negb]; [|by apply Hout].
  apply wp_bind, (staging_append_At k m x s0 d); [done|done|by apply Hr2|done|]. intros s3 HA3 Hp3 Hb3.
  apply wp_bind, (staging_must_go_At k m eff s0 d); [done|done|done|]. intros go.
  apply wp_bind, wp_when; intros _; [|by apply Hout].
  apply wp_bind, (agg_flush_locked_At k m s0 d); [done|done|]. intros _ s4 HA4 _ _. apply wp_ret. by apply Hout.
Qed.

(** ** The plain tracked path *)

(** A filled frame is marked and sent; slot [i] was free in [s]. *)
Lemma plain_send k m pmcs s0 d s s1 i p b6 s6 x (R : unit -> st -> Prop) : At K s0 d s ->
  g_peers s !! k = Some p -> in_use p = true -> mac p = m -> g_bufs s !! i = Some None -> blen x < 65536 ->
  submitted m x ->
  view_of s1 = view_of s <| v_bufs ::= fun l => <[i := Some (fresh_buf ACK_BUF_INFLIGHT i (blen x) m 0)]> l |>
       <| v_used ::= fun x => x + 1 |> <| v_infl ::= fun x => x + 1 |>
       <| v_heap ::= fun h => u32 (h + buf_alloc_sz (blen x)) |> ->
  ack_held s1 = ack_held s -> (soft s -> soft s1) ->
  midway s1 i k (bview b6) (pview p) s6 -> g_bufs s6 !! i = Some (Some b6) ->
  state b6 = ACK_BUF_INFLIGHT -> idx b6 = i -> cap b6 = blen x -> dest_mac b6 = m -> retries_used b6 = 0 ->
  ofs b6 = 0 -> len b6 = blen x -> data b6 = x ->
  (forall s', At K s0 d s' -> R tt s') -> wp (buf_tx_send others i pmcs) R s6.
Proof using All.
  intros HA Hk Hu Hm Hi Hlen Hx V1 E1 S1 Hmid Hi6 F1 F2 F3 F4 F5 F6 F7 F8 HR.
  pose proof HA as (HI & Hkeep & Hh). pose proof (blen_nonneg x) as Hx0.
  unfold buf_tx_send, buf_tx_mark. apply wp_bind, wp_bind. eapply wp_buf_get; [done|]. rewrite F1.
  cbn [bool_decide when]. apply wp_bind, wp_ret. eapply wp_buf_upd; [done|].
  set (b7 := b6 <| state := ACK_BUF_SENDING |>). set (s7 := s6 <| g_bufs ::= _ |>).
  assert (Hup : slot_upd submitted (view_of s) (view_of s7) i k None (Some (bview b7)) (pview p) (pview p)).
  { assert (V7 : view_of s7 = view_of s1 <| v_bufs ::= fun l => <[i := Some (bview b7)]> l |>
                                         <| v_peers ::= fun l => <[k := pview p]> l |>)
      by apply (mw_view _ _ _ _ _ _ (midway_buf_upd _ _ _ _ _ _ b7 Hmid)).
    rewrite V7, V1. constructor; rsimpl; try done.
    - by apply view_buf in Hi.
    - by apply view_peer.
    - by rewrite list_insert_insert_eq.
    - cbn [oval]. unfold one. lia.
    - cbn [oval]. rewrite live_sent by done. lia.
    - cbn [oval]. unfold node_size. change (cap (bview b7)) with (cap b6). rewrite F3. f_equal. lia.
    - intros b' [= <-]. split; [|split; [|done]].
      + unfold bview. constructor; subst b7; rsimpl; rewrite ?F2, ?F3, ?F4, ?F5, ?F6, ?F7, ?F8; try done; try lia.
        * unfold blen. lia.
        * rewrite <-Hm. apply (t_pmac _ _ (proj1 HI) k (pview p)); [by apply view_peer|done].
        * intros _. split; [lia|]. split; [lia|]. split; [lia|]. apply wire_plain. unfold frame_bytes. rsimpl.
          rewrite F6, F7, F8. unfold blen. cbn [Z.to_nat drop]. rewrite Nat2Z.id, firstn_all. exact Hx.
      + change (dest_mac (bview b7)) with (dest_mac b6). cbn [pview pv_mac]. congruence.
    - by left.
    - intros Hnz. destruct (t_agg _ _ (proj1 HI) _ _ (view_peer _ _ _ Hk) Hnz) as (A1 & A2 & b0 & subs & A3 & A4 & A5).
      split; [done|]. split; [done|]. exists b0, subs. rewrite list_insert_insert_eq, list_lookup_insert_ne; [done|].
      intros E. rewrite <-E in A3. apply view_buf in Hi. rewrite Hi in A3. done. }
  assert (Hsent : forall b, K i -> v_bufs (view_of s0) !! i = Some (Some b) -> state b <> ACK_BUF_SENDING).
  { eapply not_sending_before; [exact HA|by apply view_buf in Hi|done]. }
  apply (buf_tx_air_At submitted P K others i b7 k pmcs s0 d).
  - exact Ho.
  - split; [|split].
    + split; [eapply slot_upd_ok; [apply HI|exact Hup]|].
      destruct (mw_soft _ _ _ _ _ _ Hmid (S1 (proj2 HI))). by split.
    + eapply keep_trans; [eapply keep_weaken; [|exact Hkeep]; by intros j [? _]|].
      by eapply slot_upd_keep; [exact Hup|].
    + subst s7. rsimpl. by rewrite (mw_held _ _ _ _ _ _ Hmid), E1.
  - subst s7. rsimpl. by apply list_lookup_insert_eq, (lookup_lt_Some _ _ _ Hi6).
  - done.
  - change (dest_mac b7) with (dest_mac b6). rewrite F4.
    destruct (midway_peer _ _ _ _ _ _ Hmid) as (p6 & Hp6 & Ep). exists p6. split; [done|].
    injection Ep as Eu Em _ _ _. split; congruence.
  - intros s' HA' _. apply HR. by eapply At_own.
Qed.

(** On success the mutex is still held: [d], not [d - 1]. *)
Lemma tx_plain_locked_At k m x pmcs s0 d s (R : Z -> st -> Prop) : At K s0 d s -> peer_is k m s ->
  submitted m x -> blen x < 65536 ->
  (forall r s', At K s0 (if r =? 0 then d else d - 1) s' -> R r s') ->
  wp (tx_plain_locked others k x m pmcs) R s.
Proof using All.
  intros HA Hpis Hx Hlen HR. pose proof (blen_nonneg x) as Hx0. pose proof HA as (HI & _).
  pose proof (peer_is_lt _ _ _ _ _ HI Hpis) as Hlt.
  assert (Hout : forall s', At K s0 d s' -> wp (ack_unlock others None;; mret HALOW_ACK_TX_THROTTLE) R s').
  { intros s' HA'. apply wp_bind. eapply wp_unlock; [exact Ho|exact HA'|]. intros s'' HA'' _.
    by apply wp_ret, HR. }
  unfold tx_plain_locked. apply wp_bind, wp_gets. destruct (_ <? _); [by apply Hout|].
  unfold buf_claim_inflight. apply wp_bind, wp_bind, wp_gets. destruct (_ <=? _); [by apply wp_ret, Hout|].
  apply buf_alloc_view; [done| | |done].
  { intros s1 Q1. apply Hout. by eapply At_quiet. }
  intros i born s1 Hi E1 S1 Hb1 V1. destruct Hpis as (p & Hk & Hu & Hm).
  assert (V1' : view_of s1 = view_of s <| v_bufs ::= fun l => <[i := Some (fresh_buf ACK_BUF_INFLIGHT i (blen x) m 0)]> l |>
       <| v_used ::= fun x => x + 1 |> <| v_infl ::= fun x => x + 1 |>
       <| v_heap ::= fun h => u32 (h + buf_alloc_sz (blen x)) |>).
  { rewrite V1. unfold set. cbn. f_equal. }
  assert (Hd1 : dims s1).
  { apply dims_view. rewrite V1. rsimpl. rewrite length_insert. by apply dims_view, (Inv_dims _ _ _ HI). }
  assert (exists p1, g_peers s1 !! k = Some p1 /\ pview p1 = pview p) as (p1 & Hk1 & Ep1).
  { assert (Hv : v_peers (view_of s1) !! k = Some (pview p)) by (rewrite V1; by apply view_peer).
    apply view_peer_inv in Hv as (p1 & ? & ->). by exists p1. }
  pose proof (midway_start _ _ _ _ _ Hb1 Hk1) as M1. rewrite Ep1 in M1.
  apply wp_bind. eapply wp_midway; [apply _|exact Hd1|exact M1|]. clear M1. intros now s2 M2.
  destruct (midway_buf _ _ _ _ _ _ M2) as (b2 & Hi2 & E2).
  assert (F : forall {A} (f : ack_buf -> A), (forall y, f (bview y) = f y) -> f b2 = f (fresh_buf ACK_BUF_INFLIGHT i (blen x) m born)).
  { intros A f Hf. by rewrite <-Hf, E2, Hf. }
  assert (Hlb : length (data b2) = length x).
  { rewrite (F _ data) by done. cbn. rewrite length_replicate. unfold blen. lia. }
  apply wp_bind. eapply wp_buf_get; [done|].
  apply wp_bind. eapply wp_lift; [apply wr_n_in_bounds; lia|].
  replace (take (Z.to_nat 0) (data b2) ++ x ++ drop (Z.to_nat 0 + length x) (data b2)) with x.
  2: { cbn [Z.to_nat take app Nat.add]. rewrite drop_ge by lia. by rewrite app_nil_r. }
  apply wp_bind. eapply wp_midway_buf; [exact M2|]. clear M2. intros b3 s3 E3 M3.
  apply wp_bind. eapply wp_midway; [by apply Quiet_peer_note_tx|exact Hd1|exact M3|]. clear M3. intros _ s4 M4.
  destruct (midway_buf _ _ _ _ _ _ M4) as (b4 & Hi4 & E4). rewrite <-E4 in M4.
  assert (G : forall {A} (f : ack_buf -> A), (forall y, f (bview y) = f y) -> f b3 = f (fresh_buf ACK_BUF_INFLIGHT i (blen x) m born)).
  { intros A f Hf. by rewrite <-Hf, E3, Hf. }
  set (b3' := b3 <| tx_jiff := _ |> <| ofs := _ |> <| len := _ |> <| data := _ |> <| fid := _ |>) in *.
  assert (G' : forall {A} (f : ack_buf -> A), (forall y, f (bview y) = f y) -> f b4 = f b3').
  { intros A f Hf. by rewrite <-Hf, E4, Hf. }
  apply wp_bind, (plain_send k m pmcs s0 d s s1 i p b4 s4 x); try done.
  - rewrite (G' _ state) by done. exact (G _ state (fun _ => eq_refl)).
  - rewrite (G' _ idx) by done. exact (G _ idx (fun _ => eq_refl)).
  - rewrite (G' _ cap) by done. exact (G _ cap (fun _ => eq_refl)).
  - rewrite (G' _ dest_mac) by done. exact (G _ dest_mac (fun _ => eq_refl)).
  - rewrite (G' _ retries_used) by done. exact (G _ retries_used (fun _ => eq_refl)).
  - by rewrite (G' _ ofs).
  - by rewrite (G' _ len).
  - by rewrite (G' _ data).
  - intros s' HA'. by apply wp_ret, HR.
Qed.

(** ** Untracked transmission *)

Lemma Quiet_bc_repeat_loop n x m r : wire submitted x m -> Quiet (bc_repeat_loop n x m r).
Proof.
  intros Hw. revert r. induction n as [|n IH]; intros r; cbn [bc_repeat_loop]; quiet_auto.
  by apply (Quiet_halow_tx submitted).
Qed.

Lemma Quiet_tx_broadcast x m : submitted m x -> Quiet (tx_broadcast x m).
Proof.
  intros Hx. assert (Hw : wire submitted x m) by (by apply wire_plain). unfold tx_broadcast.
  apply Quiet_bind; [apply _|]. intros rep. cbv zeta. apply Quiet_bind; [by apply (Quiet_halow_tx submitted)|].
  intros r. apply Quiet_bind; [by apply Quiet_bc_repeat_loop|]. intros _. apply _.
Qed.

Lemma Quiet_tx_plain_untracked x m mcs : submitted m x -> Quiet (tx_plain_untracked x m mcs).
Proof.
  intros Hx. unfold tx_plain_untracked. apply Quiet_bind; [|intros ?; apply _].
  by apply (Quiet_halow_tx submitted), wire_plain.
Qed.

(** ** The entry points *)

Lemma eff_agg_bytes_range mcs s : Inv s -> 0 <= eff_agg_bytes mcs s <= 4000.
Proof.
  intros [Ht _]. pose proof (ok_bytes _ (t_cfg _ _ Ht)) as Hb. cbn [view_of v_cfg] in Hb.
  unfold eff_agg_bytes. cbv zeta.
  assert (Hm : forall x, 500 <= max_payload_mcs x).
  { intros x. unfold max_payload_mcs. repeat case_match; lia. }
  specialize (Hm (if mcs =? HALOW_MCS_DEFAULT then dflt_mcs s else mcs)).
  destruct (Z.ltb_spec (max_payload_mcs (if mcs =? HALOW_MCS_DEFAULT then dflt_mcs s else mcs)) (agg_bytes (g_ack_cfg s))); lia.
Qed.

(** A frame of 4015 to 4022 bytes takes the plain path. *)
Definition plain_sized (x : list Z) : bool := (4014 <? blen x) && (blen x <=? ACK_WIRE_MAX).

Lemma ack_tx_uc_At m x s0 d s (R : Z -> st -> Prop) : At K s0 d s -> mac_ok m -> submitted m x ->
  (forall r e s', At K s0 (d + e) s' -> (plain_sized x = false -> e = 0) -> 0 <= e <= 1 -> R r s') ->
  wp (ack_tx_uc others x m) R s.
Proof using All.
  intros HA Hm Hx HR. pose proof (blen_nonneg x) as Hx0.
  assert (HR0 : forall r s', At K s0 d s' -> R r s').
  { intros r s' HA'. apply (HR r 0); [by replace (d + 0) with d by lia|done|lia]. }
  unfold ack_tx_uc. cbv zeta. apply wp_bind, wp_gets.
  destruct (Z.ltb_spec ACK_WIRE_MAX (blen x)) as [Hbig|Hsmall]; [rewrite orb_true_r|rewrite orb_false_r; destruct (_ || _)].
  1,2: apply wp_bind; (eapply wp_quiet; [apply _|exact HA|]); intros _ s1 HA1 _;
    (eapply wp_quiet; [by apply Quiet_tx_broadcast|exact HA1|]); intros r s2 HA2 _; by apply HR0.
  change ACK_WIRE_MAX with 4022 in *.
  apply wp_bind. eapply wp_lock; [exact HA|]. intros s1 HA1 _.
  apply wp_bind, (peer_get_At submitted P K s0 (d + 1)); [done|done|]. intros [k|] s2 HA2 Hp2.
  2: { apply wp_bind. eapply wp_unlock; [exact Ho|exact HA2|]. intros s3 HA3 _.
    apply wp_bind. eapply wp_quiet; [apply _|exact HA3|]. intros _ s4 HA4 _.
    eapply wp_quiet; [by apply Quiet_tx_plain_untracked|exact HA4|]. intros r s5 HA5 _. apply HR0.
    by replace d with (d + 1 - 1) by lia. }
  pose proof Hp2 as (p & Hk & _ & _). apply wp_bind. eapply wp_peer_at; [done|].
  destruct (cur_retries p =? 0).
  { apply wp_bind. eapply wp_unlock; [exact Ho|exact HA2|]. intros s3 HA3 _.
    apply wp_bind. eapply wp_quiet; [apply _|exact HA3|]. intros _ s4 HA4 _.
    eapply wp_quiet; [by apply Quiet_tx_plain_untracked|exact HA4|]. intros r s5 HA5 _. apply HR0.
    by replace d with (d + 1 - 1) by lia. }
  apply wp_bind, wp_gets. pose proof (eff_agg_bytes_range (tx_mcs p) s2 (proj1 HA2)) as He.
  apply wp_bind, wp_gets. set (eff := eff_agg_bytes (tx_mcs p) s2) in *.
  rewrite u32_small by (unfold HALOW_ENV_BUNDLE_HDR; word_lia). unfold HALOW_ENV_BUNDLE_HDR.
  set (c1 := _ && _). destruct (c1 || (blen x + (6 + 2) <=? 4022)) eqn:Hpath.
  - assert (Hlen : blen x <= 4014).
    { apply orb_true_iff in Hpath as [Hp|Hp]; [|apply Z.leb_le in Hp; lia].
      apply andb_true_iff in Hp as [_ Hp]. apply Z.leb_le in Hp. lia. }
    apply wp_bind. eapply wp_quiet; [apply _|exact HA2|]. intros _ s3 HA3 [V3 _].
    apply (peer_is_view _ _ _ _ V3) in Hp2.
    apply (tx_bundle_locked_At k m x eff s0 (d + 1)); [done|done|done|done|lia|]. intros r s4 HA4.
    apply HR0. by replace d with (d + 1 - 1) by lia.
  - apply orb_false_iff in Hpath as [_ Hp]. apply Z.leb_gt in Hp.
    apply wp_bind. eapply wp_quiet; [apply _|exact HA2|]. intros _ s3 HA3 [V3 _].
    apply (peer_is_view _ _ _ _ V3) in Hp2.
    apply (tx_plain_locked_At k m x (tx_mcs p) s0 (d + 1)); [done|done|done|lia|]. intros r s4 HA4.
    assert (Hps : plain_sized x = true).
    { unfold plain_sized. change ACK_WIRE_MAX with 4022. rewrite (proj2 (Z.ltb_lt _ _)), (proj2 (Z.leb_le _ _)) by lia. done. }
    destruct (r =? 0); [by apply (HR r 1); [|congruence|lia]|].
    apply HR0. by replace d with (d + 1 - 1) by lia.
Qed.

Lemma halow_ack_tx_At m x s0 d s (R : Z -> st -> Prop) : At K s0 d s -> mac_ok m -> submitted m x ->
  (forall r e s', At K s0 (d + e) s' -> (plain_sized x = false -> e = 0) -> 0 <= e <= 1 -> R r s') ->
  wp (halow_ack_tx others (Some x) (Some m)) R s.
Proof using All.
  intros HA Hm Hx HR. unfold halow_ack_tx.
  apply wp_bind. eapply wp_quiet; [by apply Quiet_modify; intros s'; split_and!|exact HA|]. intros _ s1 HA1 _.
  apply wp_bind. eapply wp_quiet; [|exact HA1|].
  { apply Quiet_modify. intros s'. split; [done|]. split; [done|]. intros [Hw Hp]. split; [|done].
    rsimpl. by apply (register_ok (submitted := submitted)). }
  intros _ s2 HA2 _. apply wp_bind, (ack_tx_uc_At m x s0 d); [done|done|done|]. intros r e s3 HA3 He He1.
  apply wp_bind. eapply wp_quiet; [apply _|exact HA3|]. intros _ s4 HA4 _. by apply wp_ret, (HR r e).
Qed.

Lemma halow_ack_flush_At s0 d s (R : unit -> st -> Prop) : At K s0 d s ->
  (forall s', At K s0 d s' -> R tt s') -> wp (halow_ack_flush others) R s.
Proof using All.
  intros HA HR. unfold halow_ack_flush. apply wp_bind. eapply wp_lock; [exact HA|]. intros s1 HA1 _.
  apply wp_bind, (wp_mfor _ _ (At K s0 (d + 1))); [done| |].
  - intros k s2 Hk%in_indices HA2. destruct (Inv_dims _ _ _ (proj1 HA2)) as [_ Hl].
    destruct (lookup_lt_is_Some_2 (g_peers s2) k) as [p Hp]; [by rewrite Hl|].
    apply wp_bind. eapply wp_peer_at; [done|]. apply wp_when; intros Hc; [|done].
    apply andb_true_iff in Hc as [Hu _]. apply wp_bind, (agg_flush_locked_At k (mac p) s0 (d + 1)); [done| |].
    + by exists p.
    + intros _ s3 HA3 _ _. by apply wp_ret.
  - intros s2 HA2. eapply wp_unlock; [exact Ho|exact HA2|]. intros s3 HA3 _. apply HR.
    by replace d with (d + 1 - 1) by lia.
Qed.

Lemma halow_ack_tx_ready_At s0 d s (R : bool -> st -> Prop) : At K s0 d s ->
  (forall r s', At K s0 d s' -> R r s') -> wp (halow_ack_tx_ready others) R s.
Proof using All.
  intros HA HR. unfold halow_ack_tx_ready. apply wp_bind, wp_gets. destruct (_ =? 0); [by apply wp_ret, HR|].
  apply wp_bind, wp_gets. destruct (_ <? _); [by apply wp_ret, HR|].
  apply wp_bind. eapply wp_lock; [exact HA|]. intros s1 HA1 _. apply wp_bind, wp_gets, wp_bind.
  eapply wp_unlock; [exact Ho|exact HA1|]. intros s2 HA2 _. apply wp_ret, HR. by replace d with (d + 1 - 1) by lia.
Qed.
End SafeTx.
