(* ===== verification/AckSafeRx.v ===== *)
(** * The receive path, the periodic tick and reconfiguration keep the invariant *)

From S2P Require Import Prelude Monad ConfigDb AckWire AckPeer AckState AckRate AckConfig AckTx.
From S2P Require Import AckRx AckTick AckInv AckQuiet AckSafe AckSafeTx.

Section SafeRx.
Context {W : Type} `{AckEnv W} `{Kvdb W} (submitted : list Z -> list Z -> Prop) (P : W -> Prop) `{!WorldOk submitted P}.
#[local] Abbreviation st := (ack_state W).
#[local] Abbreviation Quiet := (Quiet P).
#[local] Abbreviation Inv := (Inv submitted P).
#[local] Abbreviation At := (At submitted P).
#[local] Abbreviation soft := (soft P).
#[local] Abbreviation tables_ok := (tables_ok submitted).
#[local] Abbreviation others_ok := (others_ok submitted P).
Implicit Types s : st.

Context (K : nat -> Prop) (others : option nat -> st -> st) (Ho : others_ok K others).
(** ** Sending ACKs *)

Lemma peer_find_lt m s k : peer_find m s = Some k -> exists p, g_peers s !! k = Some p.
Proof.
  unfold peer_find. destruct (list_find _ _) as [[k' p]|] eqn:Hf; [|done]. cbn. intros [= <-].
  apply list_find_Some in Hf as (Hk & _). by exists p.
Qed.


Lemma ack_mcs_for_peer_At m s0 d s (R : Z -> st -> Prop) : At K s0 d s ->
  (forall r s', At K s0 d s' -> R r s') -> wp (ack_mcs_for_peer others m) R s.
Proof using All.
  intros HA HR. unfold ack_mcs_for_peer. apply wp_bind. eapply wp_lock; [exact HA|]. intros s1 HA1 _.
  apply wp_bind, wp_gets.
  assert (Hout : forall r s', At K s0 (d + 1) s' -> wp (ack_unlock others None;; mret r) R s').
  { intros r s' HA'. apply wp_bind. eapply wp_unlock; [exact Ho|exact HA'|]. intros s2 HA2 _.
    apply wp_ret, HR. by replace d with (d + 1 - 1) by lia. }
  destruct (peer_find m s1) as [k|] eqn:Hf; apply wp_bind.
  - destruct (peer_find_lt _ _ _ Hf) as (p & Hk). apply wp_bind. eapply wp_peer_at; [done|].
    apply wp_bind. destruct (_ =? _); [apply wp_gets|apply wp_ret]; apply wp_ret; by apply Hout.
  - apply wp_ret. by apply Hout.
Qed.

Lemma Quiet_send_env_ack evm m base bm mcs : Quiet (send_env_ack evm m base bm mcs).
Proof.
  unfold send_env_ack. apply Quiet_bind; [|intros r; apply _]. apply Quiet_ext. intros w Hw.
  eapply (tx_ok (submitted := submitted)); [done|]. by eapply wire_env_ack.
Qed.

Lemma send_fid_ack_At evm m fids mcs s0 d s (R : unit -> st -> Prop) : At K s0 d s -> length fids = 16%nat ->
  (forall s', At K s0 d s' -> R tt s') -> wp (send_fid_ack evm m fids mcs) R s.
Proof.
  intros HA Hl HR. unfold send_fid_ack. apply wp_bind, wp_gets. cbv zeta.
  pose proof (ok_fids _ (t_cfg _ _ (proj1 (proj1 HA)))) as Hf. cbn [view_of v_cfg] in Hf.
  unfold HALOW_ACK_ACK_FIDS_MAX. set (n := if (if 16 <? ack_fids (g_ack_cfg s) then 16 else _) =? 0 then 1 else _).
  assert (Hn : 1 <= n <= 16) by (subst n; repeat z_case; lia). clearbody n.
  apply wp_bind. eapply wp_lift; [apply rd_n_in_bounds; lia|].
  apply wp_bind. eapply wp_quiet; [|exact HA|].
  { apply Quiet_ext. intros w Hw. eapply (tx_ok (submitted := submitted)); [done|]. by eapply wire_fid_ack. }
  intros r s1 HA1 _. eapply wp_quiet; [apply _|exact HA1|]. intros [] s2 HA2 _. by apply HR.
Qed.

Lemma send_ack_At evm m fids s0 d s (R : unit -> st -> Prop) : At K s0 d s -> length fids = 16%nat ->
  (forall s', At K s0 d s' -> R tt s') -> wp (send_ack others evm m fids) R s.
Proof using All.
  intros HA Hl HR. unfold send_ack. apply wp_bind, (ack_mcs_for_peer_At m s0 d); [done|]. intros mcs s1 HA1.
  apply wp_bind. eapply wp_quiet; [apply _|exact HA1|]. intros _ s2 HA2 _.
  apply wp_bind. eapply wp_lock; [exact HA2|]. intros s3 HA3 _. apply wp_bind, wp_gets.
  assert (Hout : forall env s', At K s0 (d + 1) s' -> wp (ack_unlock others None;;
     match env with Some (base, bm) => send_env_ack evm m base bm mcs | None => send_fid_ack evm m fids mcs end) R s').
  { intros env s' HA'. apply wp_bind. eapply wp_unlock; [exact Ho|exact HA'|]. intros s4 HA4 _.
    replace (d + 1 - 1) with d in HA4 by lia. destruct env as [[base bm]|].
    - eapply wp_quiet; [apply Quiet_send_env_ack|exact HA4|]. intros [] s5 HA5 _. by apply HR.
    - by apply (send_fid_ack_At evm m fids mcs s0 d). }
  destruct (peer_find m s3) as [k|] eqn:Hf; apply wp_bind.
  - destruct (peer_find_lt _ _ _ Hf) as (p & Hk). apply wp_bind. eapply wp_peer_at; [done|]. apply wp_ret. by apply Hout.
  - apply wp_ret. by apply (Hout None).
Qed.

(** ** Acknowledged frames leave *)

Lemma wp_slot i s0 d s : At K s0 d s -> (i < 16)%nat -> exists o, g_bufs s !! i = Some o.
Proof.
  intros HA Hi. destruct (Inv_dims _ _ _ (proj1 HA)) as [Hl _].
  destruct (lookup_lt_is_Some_2 (g_bufs s) i) as [o Hoo]; [by rewrite Hl|]. by exists o.
Qed.

Lemma cwnd_At s0 d s n : At K s0 d s -> 0 <= n <= g_window s -> At K s0 d (s <| g_cwnd := n |>).
Proof.
  intros ((Ht & Hs) & Hk & Hh) Hn. split; [|split; [exact Hk|exact Hh]]. split; [|exact Hs].
  exact (tables_cwnd _ _ _ Ht Hn).
Qed.

Lemma cwnd_range s : Inv s -> 0 <= g_cwnd s <= g_window s /\ 1 <= g_window s <= 16 /\ 1 <= window (g_ack_cfg s) <= 16 /\
  g_window s = window (g_ack_cfg s).
Proof.
  intros [Ht _]. pose proof (t_cwnd _ _ Ht) as H1. pose proof (t_window _ _ Ht) as H2.
  pose proof (ok_window _ (t_cfg _ _ Ht)) as H3. cbn [view_of v_cwnd v_window v_cfg] in *. lia.
Qed.

Lemma set_cwnd_id s f : s <| g_cwnd ::= f |> = s <| g_cwnd := f (g_cwnd s) |>.
Proof. done. Qed.

Lemma cwnd_on_clean_clear_At s0 d s (R : unit -> st -> Prop) : At K s0 d s ->
  (forall s', At K s0 d s' -> g_bufs s' = g_bufs s -> g_peers s' = g_peers s -> R tt s') -> wp cwnd_on_clean_clear R s.
Proof.
  intros HA HR. pose proof (cwnd_range _ (proj1 HA)) as Hc. apply wp_modify, HR; [|done..].
  rewrite set_cwnd_id. apply cwnd_At; [done|]. z_case; word_lia.
Qed.

Lemma cwnd_on_retrans_timeout_At s0 d s (R : unit -> st -> Prop) : At K s0 d s ->
  (forall s', At K s0 d s' -> g_bufs s' = g_bufs s -> g_peers s' = g_peers s -> R tt s') -> wp cwnd_on_retrans_timeout R s.
Proof.
  intros HA HR. pose proof (cwnd_range _ (proj1 HA)) as Hc. apply wp_modify. cbv zeta. apply HR; [|done..].
  rewrite set_cwnd_id. apply cwnd_At; [done|]. repeat z_case; word_lia.
Qed.

Lemma buf_acked_At i b s0 d s (R : unit -> st -> Prop) : At K s0 d s -> g_bufs s !! i = Some (Some b) ->
  state b = ACK_BUF_INFLIGHT -> (forall s', At K s0 d s' -> R tt s') -> wp (buf_acked i) R s.
Proof.
  intros HA Hi Hs HR. unfold buf_acked. apply wp_bind. eapply wp_buf_get; [done|].
  assert (Hkeep : forall s', quiet P s s' -> exists b', g_bufs s' !! i = Some (Some b') /\ state b' = ACK_BUF_INFLIGHT).
  { intros s' (V & _). apply view_buf in Hi. rewrite <-V in Hi. apply view_buf_inv in Hi as (b' & Hi' & E).
    exists b'. split; [done|]. transitivity (state b); [symmetry; exact (f_equal state E)|done]. }
  apply wp_bind. eapply wp_quiet; [apply _|exact HA|]. intros n1 s1 HA1 Q1.
  apply wp_bind. eapply wp_quiet; [apply _|exact HA1|]. intros n2 s2 HA2 Q2.
  apply wp_bind. eapply wp_quiet; [apply Quiet_rtt_record|exact HA2|]. intros _ s3 HA3 Q3.
  destruct (Hkeep s3) as (b3 & Hi3 & Hs3); [by eapply quiet_trans; [exact Q1|eapply quiet_trans]|].
  assert (Hend : forall s', At K s0 d s' -> g_bufs s' = g_bufs s3 -> wp (buf_release i;; bump s_acked) R s').
  { intros s' HA' E. apply wp_bind, (buf_release_At submitted P K s0 d i b3); [done|by rewrite E|done|].
    intros s4 HA4 _ _. eapply wp_quiet; [apply _|exact HA4|]. intros [] s5 HA5 _. by apply HR. }
  apply wp_bind, wp_when; intros _; [|by apply Hend].
  apply (cwnd_on_clean_clear_At s0 d); [done|]. intros s4 HA4 E4 _. by apply Hend.
Qed.

Lemma Quiet_note_ack_evm k e : (k < 16)%nat -> Quiet (note_ack_evm k e).
Proof. intros Hk. unfold note_ack_evm. quiet_auto. by apply (Quiet_ra_on_ack submitted). Qed.

Lemma Quiet_count_acked k : (k < 16)%nat -> Quiet (peer_upd k (fun p => p <| acked ::= fun n => u32 (n + 1) |>)).
Proof. intros Hk. quiet_auto. Qed.

Lemma rx_env_ack_locked_At k x s0 d s (R : unit -> st -> Prop) : At K s0 d s -> (k < 16)%nat ->
  (forall s', At K s0 d s' -> R tt s') -> wp (rx_env_ack_locked k x) R s.
Proof.
  intros HA Hk HR. unfold rx_env_ack_locked. cbv zeta.
  do 3 (apply wp_bind; eapply wp_quiet; [apply _|eassumption|]; clear HA; intros _ ? HA _).
  apply wp_bind. eapply wp_quiet; [by apply Quiet_note_ack_evm|exact HA|]. clear HA. intros _ s1 HA1 _.
  apply wp_bind. eapply wp_quiet; [by apply Quiet_peer_at|exact HA1|]. intros p s2 HA2 _.
  apply (wp_mfor _ _ (At K s0 d)); [done| |done].
  intros i s3 Hi%in_indices HA3. destruct (wp_slot _ _ _ _ HA3 Hi) as (o & Hoo).
  apply wp_bind. eapply wp_buf_slot; [done|]. destruct o as [b|]; [|by apply wp_ret].
  apply wp_when; intros Hc; [|done]. unfold bitmap_covers in Hc. rewrite !andb_true_iff in Hc.
  destruct Hc as [[[Hs _] _] _]. apply bool_decide_eq_true in Hs.
  apply wp_bind, (buf_acked_At i b s0 d); [done|done|done|]. intros s4 HA4.
  eapply wp_quiet; [by apply Quiet_count_acked|exact HA4|]. by intros [] s5 HA5 _.
Qed.

(** ** Incoming frames *)

Context (shl_oob : Z -> Z).

Lemma Quiet_peer_rx_seq k x : (k < 16)%nat -> Quiet (peer_upd k (fun p => peer_rx_seq shl_oob p x)).
Proof.
  intros Hk. apply Quiet_peer_upd; [done| |].
  - intros p. unfold peer_rx_seq. cbv zeta. repeat case_match; done.
  - intros p []. unfold peer_rx_seq. cbv zeta. repeat case_match; by constructor.
Qed.

Lemma rx_env_At x m s0 d s (R : bool -> st -> Prop) : At K s0 d s ->
  (forall r s', At K s0 d s' -> R r s') -> wp (rx_env others shl_oob x m) R s.
Proof using All.
  intros HA HR. unfold rx_env. cbv zeta.
  assert (Hout : forall r s', At K s0 (d + 1) s' -> wp (ack_unlock others None;; mret r) R s').
  { intros r s' HA'. apply wp_bind. eapply wp_unlock; [exact Ho|exact HA'|]. intros s2 HA2 _.
    apply wp_ret, HR. by replace d with (d + 1 - 1) by lia. }
  destruct (_ && _).
  { apply wp_bind. eapply wp_quiet; [apply _|exact HA|]. intros _ s1 HA1 _. by apply wp_ret, HR. }
  apply wp_bind. eapply wp_lock; [exact HA|]. intros s1 HA1 _. apply wp_bind, wp_gets.
  assert (Hk : forall k, peer_find m s1 = Some k -> (k < 16)%nat).
  { intros k Hf. destruct (peer_find_lt _ _ _ Hf) as (p & Hp). apply lookup_lt_Some in Hp.
    by rewrite (proj2 (Inv_dims _ _ _ (proj1 HA1))) in Hp. }
  destruct (_ && _).
  - apply wp_bind. destruct (peer_find m s1) as [k|].
    + apply (rx_env_ack_locked_At k x s0 (d + 1)); [done|by apply Hk|]. intros s2 HA2. by apply Hout.
    + apply wp_ret. by apply Hout.
  - apply wp_bind. destruct (peer_find m s1) as [k|]; [|apply wp_ret; by apply Hout].
    specialize (Hk k eq_refl). apply wp_bind. eapply wp_quiet; [by apply Quiet_peer_at|exact HA1|]. intros p s2 HA2 _.
    apply wp_bind. eapply wp_quiet; [by apply Quiet_peer_rx_seq|exact HA2|]. intros _ s3 HA3 _.
    apply wp_bind. eapply wp_quiet; [apply _|exact HA3|]. intros _ s4 HA4 _.
    apply wp_bind. eapply wp_quiet; [apply _|exact HA4|]. intros _ s5 HA5 _. apply wp_ret. by apply Hout.
Qed.

Lemma buf_match_spec m f s i s' : buf_match m f s = Some (Some i, s') ->
  s' = s /\ exists b, g_bufs s !! i = Some (Some b) /\ state b = ACK_BUF_INFLIGHT.
Proof.
  unfold buf_match, gets, mbind, M_bind, mret, M_ret. cbv beta.
  destruct (list_find _ (g_bufs s)) as [[j o]|] eqn:Hf; cbn; [|done]. intros [= -> <-]. split; [done|].
  apply list_find_Some in Hf as (Hj & Ho' & _). destruct o as [b|]; [|done]. exists b. split; [done|].
  rewrite !andb_true_iff in Ho'. by destruct Ho' as [[Hs%bool_decide_eq_true _] _].
Qed.

Lemma wp_buf_match m f s (R : option nat -> st -> Prop) :
  R None s -> (forall i b, g_bufs s !! i = Some (Some b) -> state b = ACK_BUF_INFLIGHT -> R (Some i) s) ->
  wp (buf_match m f) R s.
Proof.
  intros HN HS. unfold wp. destruct (buf_match m f s) as [[[i|] s']|] eqn:E.
  - destruct (buf_match_spec _ _ _ _ _ E) as (-> & b & Hi & Hs). by eapply HS.
  - unfold buf_match, gets, mbind, M_bind, mret, M_ret in E. injection E as _ <-. exact HN.
  - done.
Qed.

Lemma rx_ack_At x m s0 d s (R : unit -> st -> Prop) : At K s0 d s ->
  (forall s', At K s0 d s' -> R tt s') -> wp (rx_ack others x m) R s.
Proof using All.
  intros HA HR. unfold rx_ack. cbv zeta.
  do 2 (apply wp_bind; eapply wp_quiet; [apply _|eassumption|]; clear HA; intros _ ? HA _).
  apply wp_bind. eapply wp_lock; [exact HA|]. intros s1 HA1 _. apply wp_bind, wp_gets.
  assert (Hk : forall k, peer_find m s1 = Some k -> (k < 16)%nat).
  { intros k Hf. destruct (peer_find_lt _ _ _ Hf) as (p & Hp). apply lookup_lt_Some in Hp.
    by rewrite (proj2 (Inv_dims _ _ _ (proj1 HA1))) in Hp. }
  destruct (peer_find m s1) as [k|]; [specialize (Hk k eq_refl)|]; apply wp_bind;
    [eapply wp_quiet; [by apply Quiet_note_ack_evm|exact HA1|]; intros _ s2 HA2 _|apply wp_ret; rename s1 into s2, HA1 into HA2];
    (apply wp_bind, (wp_mfor _ _ (At K s0 (d + 1))); [done| |intros s3 HA3; eapply wp_unlock; [exact Ho|exact HA3|];
       intros s4 HA4 _; apply HR; by replace d with (d + 1 - 1) by lia]);
    intros f s3 _ HA3; (destruct (f =? 0); [by apply wp_ret|]); apply wp_bind, wp_buf_match;
    try (eapply wp_quiet; [apply _|exact HA3|]; by intros [] s4 HA4 _);
    intros i b Hi Hs; apply wp_bind, (buf_acked_At i b s0 (d + 1)); try done; intros s4 HA4.
  - eapply wp_quiet; [by apply Quiet_count_acked|exact HA4|]. by intros [] s5 HA5 _.
Qed.

(** ** Plain data *)

Lemma build_fids_some n p : peer_soft p -> 1 <= n <= 16 -> exists fids, build_fids_locked n p = Some fids /\ (length fids <= 16)%nat.
Proof.
  intros [Hd Hi _ _] Hn. unfold build_fids_locked, HALOW_ACK_ACK_FIDS_MAX. cbv zeta.
  set (want := if 16 <? n then 16 else n). assert (Hw : 0 <= want <= 16) by (subst want; z_case; lia). clearbody want.
  destruct (mapM _ (seqZ 0 want)) as [l|] eqn:E.
  - exists l. split; [done|]. apply length_mapM in E. rewrite length_seqZ in E. lia.
  - exfalso. apply mapM_None in E. apply Exists_exists in E as (i & _ & E).
    rewrite bind_None in E. destruct E as [E|(h & _ & E)]; [|done]. unfold ACK_DEDUP_WIN, HALOW_ACK_ACK_FIDS_MAX in E.
    pose proof (Z.mod_pos_bound (dedup_idx p + 16 - 1 - i) 16 ltac:(lia)) as Hm.
    unfold rd in E. destruct (decide _) as [_|Hx]; [|lia].
    apply lookup_ge_None in E. lia.
Qed.

Lemma pad_fids_length fids : (length fids <= 16)%nat -> length (pad_fids fids) = 16%nat.
Proof. intros Hl. unfold pad_fids. rewrite length_app, length_replicate. lia. Qed.

Lemma soft_peer s k p : Inv s -> g_peers s !! k = Some p -> peer_soft p.
Proof. intros [_ [_ Hs]] Hk. by eapply Forall_lookup_1. Qed.

(** A quiet update of a peer whose index is in range. *)
Lemma wp_soft_upd k f s0 d s (R : unit -> st -> Prop) : At K s0 d s -> (k < 16)%nat ->
  (forall p, pview (f p) = pview p) -> (forall p, peer_soft p -> peer_soft (f p)) ->
  (forall s', At K s0 d s' -> R tt s') -> wp (peer_upd k f) R s.
Proof.
  intros HA Hk Hv Hs HR. eapply wp_quiet; [by apply Quiet_peer_upd|exact HA|]. intros [] s' HA' _. by apply HR.
Qed.

Lemma wp_peer_read k s0 d s (R : ack_peer -> st -> Prop) : At K s0 d s -> (k < 16)%nat ->
  (forall p, g_peers s !! k = Some p -> peer_soft p -> R p s) -> wp (peer_at k) R s.
Proof.
  intros HA Hk HR. destruct (lookup_lt_is_Some_2 (g_peers s) k) as [p Hp].
  { by rewrite (proj2 (Inv_dims _ _ _ (proj1 HA))). }
  eapply wp_peer_at; [done|]. apply HR; [done|]. eapply soft_peer; [apply HA|done].
Qed.

(** The shared tail of [ack_decide_locked]: reset the hold and build the list. *)
Lemma ack_now_At k cfg s0 d s (R : option (list Z) -> st -> Prop) : At K s0 d s -> (k < 16)%nat ->
  1 <= ack_fids cfg <= 16 ->
  (forall fids s', At K s0 d s' -> (length fids <= 16)%nat -> R (Some fids) s') ->
  wp (peer_upd k (fun p => p <| rx_since_ack := 0 |> <| ack_due := false |>);;
      p ← peer_at k; fids ← lift (build_fids_locked (ack_fids cfg) p); mret (Some fids)) R s.
Proof.
  intros HA Hk Hc HR. apply wp_bind, (wp_soft_upd k _ s0 d); [done|done|done|intros ? []; by constructor|].
  intros s1 HA1. apply wp_bind, (wp_peer_read k s0 d); [done|done|]. intros p _ Hp.
  destruct (build_fids_some _ _ Hp Hc) as (fids & Hf & Hl). apply wp_bind. eapply wp_lift; [exact Hf|].
  by apply wp_ret, HR.
Qed.

Lemma ack_decide_locked_At k s0 d s (R : option (list Z) -> st -> Prop) : At K s0 d s -> (k < 16)%nat ->
  (forall r s', At K s0 d s' -> match r with Some fids => (length fids <= 16)%nat | None => True end -> R r s') ->
  wp (ack_decide_locked k) R s.
Proof.
  intros HA Hk HR. unfold ack_decide_locked. apply wp_bind, wp_gets.
  pose proof (ok_fids _ (t_cfg _ _ (proj1 (proj1 HA)))) as Hf. cbn [view_of v_cfg] in Hf.
  set (cfg := g_ack_cfg s) in *. clearbody cfg. destruct (_ =? 0).
  { apply (ack_now_At k cfg s0 d); [done|done|done|]. intros fids s' HA' Hl. by apply (HR (Some fids)). }
  apply wp_bind, (wp_soft_upd k _ s0 d); [done|done|done|intros ? []; by constructor|].
  intros s1 HA1. apply wp_bind, (wp_peer_read k s0 d); [done|done|]. intros p _ _.
  destruct (_ <=? _).
  { apply (ack_now_At k cfg s0 d); [done|done|done|]. intros fids s' HA' Hl. by apply (HR (Some fids)). }
  apply wp_bind. eapply wp_quiet; [|exact HA1|].
  { apply Quiet_when. quiet_auto. }
  intros [] s2 HA2 _. apply wp_ret. by apply (HR None).
Qed.

Lemma dedup_remember_some p h : peer_soft p -> exists p', dedup_remember p h = Some p' /\ pview p' = pview p /\ peer_soft p'.
Proof.
  intros [Hd Hi Hl Hq]. unfold dedup_remember.
  destruct (wr (dedup p) (dedup_idx p) h) as [dd|] eqn:E; unfold wr in E; case_decide; try done; [|lia].
  injection E as <-. cbn. eexists. split; [done|]. split; [done|]. constructor; rsimpl; try done.
  - by rewrite length_insert.
  - unfold ACK_DEDUP_WIN, HALOW_ACK_ACK_FIDS_MAX. word_lia.
Qed.

Lemma rx_data_At x m dst evm s0 d s (R : bool -> st -> Prop) : At K s0 d s -> mac_ok m ->
  (forall r s', At K s0 d s' -> R r s') -> wp (rx_data others x m dst evm) R s.
Proof using All.
  intros HA Hm HR. unfold rx_data. cbv zeta.
  set (to_me := match dst with Some _ => _ | None => _ end). clearbody to_me.
  apply wp_bind. eapply wp_lock; [exact HA|]. intros s1 HA1 _.
  assert (Hfound : forall R' : option nat -> st -> Prop,
    (forall r s', At K s0 (d + 1) s' -> (forall k, r = Some k -> (k < 16)%nat) -> R' r s') ->
    wp (if to_me then peer_get m else gets (peer_find m)) R' s1).
  { intros R' HR'. destruct to_me.
    - apply (peer_get_At submitted P K s0 (d + 1)); [done|done|]. intros r s' HA' Hr. apply HR'; [done|].
      intros k ->. eapply peer_is_lt; [apply HA'|exact Hr].
    - apply wp_gets, HR'; [done|]. intros k Hk. destruct (peer_find_lt _ _ _ Hk) as (p & Hp).
      apply lookup_lt_Some in Hp. by rewrite (proj2 (Inv_dims _ _ _ (proj1 HA1))) in Hp. }
  apply wp_bind, Hfound. clear Hfound. intros found s2 HA2 Hk.
  assert (Hout : forall deliver ack_now s', At K s0 (d + 1) s' ->
    match ack_now with Some fids => (length fids <= 16)%nat | None => True end ->
    wp (ack_unlock others None;;
        match ack_now with Some fids => send_ack others evm m (pad_fids fids) | None => mret tt end;;
        mret deliver) R s').
  { intros deliver ack_now s' HA' Hl. apply wp_bind. eapply wp_unlock; [exact Ho|exact HA'|]. intros s3 HA3 _.
    replace (d + 1 - 1) with d in HA3 by lia. apply wp_bind. destruct ack_now as [fids|].
    - apply (send_ack_At evm m (pad_fids fids) s0 d); [done|by apply pad_fids_length|]. intros s4 HA4. by apply wp_ret, HR.
    - by apply wp_ret, wp_ret, HR. }
  apply wp_bind. destruct found as [k|].
  - specialize (Hk k eq_refl). apply wp_bind, (wp_soft_upd k _ s0 (d + 1)); [done|done|done|intros ? []; by constructor|].
    intros s3 HA3. destruct to_me; [|apply wp_ret; by apply (Hout true None)].
    apply wp_bind, (wp_peer_read k s0 (d + 1)); [done|done|]. intros p Hp Hsp.
    destruct (dedup_remember_some p (fnv1a x) Hsp) as (p' & Hp' & Hv & Hs').
    assert (Hdec : forall s', At K s0 (d + 1) s' -> wp (fids ← ack_decide_locked k; mret (negb (dedup_seen p (fnv1a x)), fids))
      (fun a s'' => wp (let '(deliver, ack_now) := a in ack_unlock others None;;
        match ack_now with Some fids => send_ack others evm m (pad_fids fids) | None => mret tt end;;
        mret deliver) R s'') s').
    { intros s' HA'. apply wp_bind, (ack_decide_locked_At k s0 (d + 1)); [done|done|]. intros r s4 HA4 Hr.
      apply wp_ret. by apply Hout. }
    apply wp_bind, wp_when; intros _; [|by apply Hdec].
    apply wp_bind. eapply wp_lift; [exact Hp'|]. eapply wp_peer_upd; [exact Hp|]. apply Hdec.
    eapply At_quiet; [exact HA3|]. by apply (quiet_peer P s3 k (fun _ => p') p).
  - apply wp_bind. eapply wp_quiet; [apply _|exact HA2|]. intros _ s3 HA3 _. apply wp_ret. by apply (Hout true None).
Qed.

Lemma halow_ack_on_rx_At x m dst evm s0 d s (R : bool -> st -> Prop) : At K s0 d s -> mac_ok m ->
  (forall r s', At K s0 d s' -> R r s') -> wp (halow_ack_on_rx others shl_oob x m dst evm) R s.
Proof using All.
  intros HA Hm HR. unfold halow_ack_on_rx. destruct x as [x|]; [|by apply wp_ret, HR].
  destruct (is_env_frame x).
  - apply wp_bind, (rx_env_At x m s0 d); [done|]. intros r s1 HA1. destruct r; [by apply wp_ret, HR|].
    by apply (rx_data_At x m dst evm s0 d).
  - destruct (is_ack_frame x); [|by apply (rx_data_At x m dst evm s0 d)].
    apply wp_bind, (rx_ack_At x m s0 d); [done|]. intros s1 HA1. by apply wp_ret, HR.
Qed.
End SafeRx.
