(* ===== verification/AckSafeTick.v ===== *)
(** * The tick, reconfiguration and start-up keep the invariant; all operations together *)

From S2P Require Import Prelude Monad ConfigDb AckWire AckPeer AckState AckRate AckConfig AckTx.
From S2P Require Import AckRx AckTick AckInv AckQuiet AckSafe AckSafeTx AckSafeRx.

(** The settings store keeps the world's invariant. *)
Class StoreOk {W} `{Kvdb W} (P : W -> Prop) := {
  save_ok c w : P w -> P (halow_ack_config_save c w);
  load_ok w : P w -> P (halow_ack_config_load w).2;
}.

Section SafeTick.
Context {W : Type} `{AckEnv W} `{Kvdb W} (submitted : list Z -> list Z -> Prop) (P : W -> Prop)
  `{!WorldOk submitted P} `{!StoreOk P}.
#[local] Abbreviation st := (ack_state W).
#[local] Abbreviation Quiet := (Quiet P).
#[local] Abbreviation Inv := (Inv submitted P).
#[local] Abbreviation At := (At submitted P).
#[local] Abbreviation soft := (soft P).
#[local] Abbreviation tables_ok := (tables_ok submitted).
#[local] Abbreviation others_ok := (others_ok submitted P).
Implicit Types s : st.

Context (K : nat -> Prop) (others : option nat -> st -> st) (Ho : others_ok K others).

(** ** Dropping and retransmitting *)

Lemma Quiet_note_drop why k : (k < 16)%nat -> Quiet (note_drop why k).
Proof. intros Hk. unfold note_drop. quiet_auto. Qed.

Lemma found_lt m s0 d s k : At K s0 d s -> peer_find m s = Some k -> (k < 16)%nat.
Proof.
  intros HA Hf. destruct (peer_find_lt _ _ _ Hf) as (p & Hp). apply lookup_lt_Some in Hp.
  by rewrite (proj2 (Inv_dims _ _ _ (proj1 HA))) in Hp.
Qed.

Lemma buf_drop_deadline_At i b s0 d s (R : unit -> st -> Prop) : At K s0 d s -> g_bufs s !! i = Some (Some b) ->
  state b = ACK_BUF_INFLIGHT -> (forall s', At K s0 d s' -> R tt s') -> wp (buf_drop_deadline i) R s.
Proof.
  intros HA Hi Hs HR. unfold buf_drop_deadline. apply wp_bind. eapply wp_buf_get; [done|]. apply wp_bind, wp_gets.
  assert (Hk : forall k, peer_find (dest_mac b) s = Some k -> (k < 16)%nat) by (intros k; by eapply found_lt).
  apply wp_bind, (buf_release_At submitted P K s0 d i b); [done|done|done|]. intros s1 HA1 _ _.
  destruct (peer_find (dest_mac b) s) as [k|].
  - specialize (Hk k eq_refl). eapply wp_quiet; [|exact HA1|intros [] s2 HA2 _; by apply HR].
    apply Quiet_bind; [by apply Quiet_note_drop|]. intros _. by apply (Quiet_ra_on_drop submitted).
  - eapply wp_quiet; [apply _|exact HA1|intros [] s2 HA2 _; by apply HR].
Qed.

(** The peer a frame belongs to is found. *)
Lemma frame_peer i b s : Inv s -> g_bufs s !! i = Some (Some b) ->
  exists k, peer_find (dest_mac b) s = Some k /\ peer_is k (dest_mac b) s.
Proof.
  intros HI Hi. pose proof HI as [Ht _]. apply view_buf in Hi.
  pose proof (bo_mac _ _ _ (t_buf _ _ Ht _ _ Hi)) as Hm. change (dest_mac (bview b)) with (dest_mac b) in Hm.
  destruct (home_of _ _ _ _ Ht Hi) as (k & q & Hq & Hu & Em). apply view_peer_inv in Hq as (p & Hp & ->).
  pose proof (peer_find_spec submitted P _ _ HI Hm) as Hf. destruct (peer_find (dest_mac b) s) as [k'|]; [by exists k'|].
  by destruct (Hf k p Hp Hu).
Qed.

(** Slot [i] holds a frame in flight to [m]. *)
Definition flying (i : nat) (m : list Z) (s : st) : Prop :=
  exists b, g_bufs s !! i = Some (Some b) /\ state b = ACK_BUF_INFLIGHT /\ dest_mac b = m.

Lemma flying_quiet i m s s' : quiet P s s' -> flying i m s -> flying i m s'.
Proof.
  intros (V & _) (b & Hb & E1 & E2). apply view_buf in Hb. rewrite <-V in Hb.
  apply view_buf_inv in Hb as (b' & Hb' & E). exists b'. split; [done|].
  split; [transitivity (state b); [symmetry; exact (f_equal state E)|done]|].
  transitivity (dest_mac b); [symmetry; exact (f_equal dest_mac E)|done].
Qed.

(** The tail of the retransmission: loss is noted, the frame goes out again. *)
Lemma resend_At i k m s0 d s (R : unit -> st -> Prop) : At K s0 d s -> flying i m s -> peer_is k m s ->
  (k < 16)%nat -> (forall s', At K s0 d s' -> R tt s') ->
  wp (ra_on_retrans k;; p ← peer_at k; buf_tx_send others i (tx_mcs p)) R s.
Proof using All.
  intros HA Hf Hp Hk HR. apply wp_bind. eapply wp_quiet; [by apply (Quiet_ra_on_retrans submitted)|exact HA|].
  intros _ s1 HA1 Q1. apply (flying_quiet _ _ _ _ Q1) in Hf as (b & Hi & Hs & Hd).
  apply (peer_is_view _ _ _ _ (proj1 Q1)) in Hp. pose proof Hp as (p & Hkp & _).
  apply wp_bind. eapply wp_peer_at; [done|].
  apply (buf_tx_send_At submitted P K others i b k (tx_mcs p) s0 d); [exact Ho|exact HA1|exact Hi|exact Hs|by rewrite Hd|].
  intros s2 HA2 _. by apply HR.
Qed.

Lemma buf_retransmit_or_drop_At i b now s0 d s (R : unit -> st -> Prop) : At K s0 d s ->
  g_bufs s !! i = Some (Some b) -> state b = ACK_BUF_INFLIGHT -> (forall s', At K s0 d s' -> R tt s') ->
  wp (buf_retransmit_or_drop others i now) R s.
Proof using All.
  intros HA Hi Hs HR. unfold buf_retransmit_or_drop. apply wp_bind. eapply wp_buf_get; [done|].
  apply wp_bind, wp_gets. destruct (frame_peer _ _ _ (proj1 HA) Hi) as (k & -> & Hpk).
  pose proof (peer_is_lt _ _ _ _ _ (proj1 HA) Hpk) as Hk. apply wp_bind, wp_gets.
  pose proof (ok_retries _ (t_cfg _ _ (proj1 (proj1 HA)))) as Hmax. cbn [view_of v_cfg] in Hmax.
  destruct (Z.leb_spec (max_retries (g_ack_cfg s)) (retries_used b)) as [_|Hless].
  - apply wp_bind, (buf_release_At submitted P K s0 d i b); [done|done|done|]. intros s1 HA1 _ _.
    eapply wp_quiet; [|exact HA1|intros [] s2 HA2 _; by apply HR].
    apply Quiet_bind; [by apply Quiet_note_drop|]. intros _. by apply (Quiet_ra_on_drop submitted).
  - pose proof (view_buf _ _ _ Hi) as Hv. destruct (t_buf _ _ (proj1 (proj1 HA)) _ _ Hv) as [_ _ _ _ Hr _].
    change (retries_used (bview b)) with (retries_used b) in Hr.
    apply wp_bind. eapply wp_buf_upd; [done|]. set (b1 := b <| retries_used ::= _ |> <| tx_jiff := now |>).
    set (s1 := s <| g_bufs ::= _ |>).
    assert (HA1 : At K s0 d s1).
    { apply (inplace_At _ _ _ _ _ _ _ b); try done; try (subst b1; rsimpl; congruence).
      subst b1. rsimpl. rewrite u8_small by word_lia. lia. }
    assert (Hf : flying i (dest_mac b) s1).
    { exists b1. subst s1. rsimpl. split; [by apply list_lookup_insert_eq, (lookup_lt_Some _ _ _ Hi)|done]. }
    apply wp_bind. eapply wp_quiet; [apply _|exact HA1|]. intros _ s2 HA2 Q2.
    apply wp_bind. eapply wp_quiet; [quiet_auto|exact HA2|]. intros _ s3 HA3 Q3.
    apply (flying_quiet _ _ _ _ Q2), (flying_quiet _ _ _ _ Q3) in Hf.
    assert (Hp3 : peer_is k (dest_mac b) s3).
    { apply (peer_is_view _ _ _ _ (proj1 Q3)), (peer_is_view _ _ _ _ (proj1 Q2)). done. }
    apply wp_bind, wp_when; intros _; [|by apply (resend_At i k (dest_mac b) s0 d)].
    apply (cwnd_on_retrans_timeout_At submitted P K s0 d); [done|]. intros s4 HA4 Eb Ep.
    apply (resend_At i k (dest_mac b) s0 d); [done| | |done|done].
    + unfold flying. by rewrite Eb.
    + unfold peer_is. by rewrite Ep.
Qed.

Lemma service_buf_At now tj lj i s0 d s (R : unit -> st -> Prop) : At K s0 d s -> (i < 16)%nat ->
  (forall s', At K s0 d s' -> R tt s') -> wp (service_buf others now tj lj i) R s.
Proof using All.
  intros HA Hi HR. destruct (wp_slot submitted P _ _ _ _ _ HA Hi) as (o & Hoo). unfold service_buf.
  apply wp_bind. eapply wp_buf_slot; [done|]. destruct o as [b|]; [|by apply wp_ret, HR].
  case_bool_decide as Hs; cbn [negb]; [|by apply wp_ret, HR].
  destruct (_ <=? _); [by apply (buf_drop_deadline_At i b s0 d)|]. apply wp_bind, wp_gets.
  destruct (_ <? _); [by apply wp_ret, HR|]. apply wp_bind, wp_gets. destruct (_ <? _); [by apply wp_ret, HR|].
  by apply (buf_retransmit_or_drop_At i b now s0 d).
Qed.

Lemma tick_service_bufs_At now s0 d s (R : unit -> st -> Prop) : At K s0 d s ->
  (forall s', At K s0 d s' -> R tt s') -> wp (tick_service_bufs others now) R s.
Proof using All.
  intros HA HR. unfold tick_service_bufs. apply wp_bind, wp_gets, wp_bind, wp_gets. cbv zeta.
  apply (wp_mfor _ _ (At K s0 d)); [done| |done]. intros i s1 Hi%in_indices HA1.
  by apply (service_buf_At now _ _ i s0 d).
Qed.

(** ** Dropping a bundle that cannot leave *)

Lemma agg_reset_At k p s0 d s (R : unit -> st -> Prop) : At K s0 d s -> g_peers s !! k = Some p ->
  agg_idx p <> 0 -> (forall s', At K s0 d s' -> R tt s') -> wp (agg_reset k) R s.
Proof.
  intros HA Hk Hnz HR. pose proof HA as (HI & Hkeep & Hh). unfold agg_reset.
  apply wp_bind. eapply wp_peer_at; [done|]. rewrite (proj2 (Z.eqb_neq _ _) Hnz). cbn [negb when].
  destruct (agg_buf _ _ _ _ _ HI Hk Hnz) as (Hu & Hr & b & subs & Hi & Hbm & Hbo & Hst).
  pose proof (bo_idx _ _ _ Hbo) as Hx. pose proof Hst as (Hs & _).
  pose proof (view_buf _ _ _ Hi) as Hvi. cbn [fmap option_fmap option_map] in Hvi.
  pose proof (used_range submitted _ _ _ (proj1 HI) Hvi) as Huse.
  apply wp_bind, wp_bind. eapply wp_buf_slot; [exact Hi|]. eapply buf_release_view; [exact Hi|exact Hx|].
  intros s1 E1 S1 Ep Eb Ev. assert (Hk1 : g_peers s1 !! k = Some p) by (by rewrite Ep).
  eapply wp_peer_upd; [exact Hk1|]. set (s2 := s1 <| g_peers ::= _ |>).
  change (state (bview b)) with (state b) in Hs.
  assert (Hup : slot_upd submitted (view_of s) (view_of s2) (agg_slot p) k (Some (bview b)) None (pview p) (pview (agg_clear p))).
  { subst s2. rewrite decide_True in Ev by exact Hs. rewrite view_peers_upd, Ev. constructor; rsimpl; try done.
    - by apply view_peer.
    - cbn [oval]. rewrite u8_small by word_lia. unfold one. lia.
    - cbn [oval]. unfold live. rewrite decide_True by exact Hs. change (g_inflight_n s) with (v_infl (view_of s)). lia.
    - cbn [oval]. change (node_size (bview b)) with (node_size b). f_equal. lia.
    - by intros b' [= <-].
    - right. right. unfold pview, agg_slot. cbn [pv_idx]. lia. }
  apply HR. split; [|split].
  - split; [eapply slot_upd_ok; [apply HI|exact Hup]|]. destruct (S1 (proj2 HI)) as [Sw Sp]. split; [done|].
    subst s2. rsimpl. apply Forall_insert; [done|]. destruct (Forall_lookup_1 _ _ _ _ Sp Hk1). by constructor.
  - eapply keep_trans; [exact Hkeep|]. eapply slot_upd_keep; [exact Hup|]. intros b' [= <-] E.
    change (state (bview b)) with (state b) in E. congruence.
  - subst s2. rsimpl. by rewrite E1.
Qed.

Lemma flush_held_bundle_At now k s0 d s (R : unit -> st -> Prop) : At K s0 d s -> (k < 16)%nat ->
  (forall s', At K s0 d s' -> R tt s') -> wp (flush_held_bundle others now k) R s.
Proof using All.
  intros HA Hlt HR. unfold flush_held_bundle. apply wp_bind, (wp_peer_read submitted P K k s0 d); [done|done|].
  intros p Hk _. destruct (in_use p) eqn:Hu; cbn [negb orb]; [|by apply wp_ret, HR].
  destruct (Z.eqb_spec (agg_idx p) 0) as [Hz|Hnz]; [by apply wp_ret, HR|].
  apply wp_bind, (agg_flush_locked_At submitted P K others Ho k (mac p) s0 d); [done|by exists p|].
  intros [|] s1 HA1 _ Hsame; [by apply wp_ret, HR|]. specialize (Hsame eq_refl). subst s1.
  apply wp_bind. eapply wp_peer_at; [exact Hk|]. apply wp_when; intros _; [|by apply HR].
  apply wp_bind. eapply wp_quiet; [apply _|exact HA|]. intros _ s1 HA1' Q1.
  apply wp_bind. eapply wp_quiet; [apply _|exact HA1'|]. intros _ s2 HA2 Q2.
  apply wp_bind. eapply wp_quiet; [quiet_auto|exact HA2|]. intros _ s3 HA3 Q3.
  assert (V : view_of s3 = view_of s) by (destruct Q1, Q2, Q3; congruence).
  pose proof (view_peer _ _ _ Hk) as Hv. rewrite <-V in Hv. apply view_peer_inv in Hv as (p3 & Hk3 & E).
  eapply (agg_reset_At k p3 s0 d); [exact HA3|exact Hk3| |exact HR].
  injection E as _ _ E _ _. congruence.
Qed.

(** ** Deferred ACKs *)

Lemma flush_deferred_ack_At now k s0 d s (R : unit -> st -> Prop) : At K s0 d s -> (k < 16)%nat ->
  (forall s', At K s0 d s' -> R tt s') -> wp (flush_deferred_ack others now k) R s.
Proof using All.
  intros HA Hlt HR. unfold flush_deferred_ack. apply wp_bind, (wp_peer_read submitted P K k s0 d); [done|done|].
  intros p Hk Hsp. destruct (_ || _); [by apply wp_ret, HR|]. destruct (_ <? _); [by apply wp_ret, HR|].
  apply wp_bind, wp_gets. pose proof (ok_fids _ (t_cfg _ _ (proj1 (proj1 HA)))) as Hf. cbn [view_of v_cfg] in Hf.
  destruct (build_fids_some _ _ Hsp Hf) as (fids & Hfids & Hl). apply wp_bind. eapply wp_lift; [exact Hfids|].
  apply wp_bind, (wp_soft_upd submitted P K k _ s0 d); [done|done|done|intros ? []; by constructor|].
  intros s1 HA1. apply wp_bind. eapply wp_unlock; [exact Ho|exact HA1|]. intros s2 HA2 _.
  apply wp_bind, (send_ack_At submitted P K others Ho _ _ _ s0 (d - 1)); [done|by apply pad_fids_length|].
  intros s3 HA3. eapply wp_lock; [exact HA3|]. intros s4 HA4 _. apply HR. by replace d with (d - 1 + 1) by lia.
Qed.

Lemma halow_ack_tick_At s0 d s (R : unit -> st -> Prop) : At K s0 d s ->
  (forall s', At K s0 d s' -> R tt s') -> wp (halow_ack_tick others) R s.
Proof using All.
  intros HA HR. unfold halow_ack_tick. apply wp_bind. eapply wp_quiet; [|exact HA|].
  { apply Quiet_modify. intros s'. split; [done|]. split; [done|]. intros [Hw Hp]. split; [|done].
    rsimpl. by apply (watchdog_ok (submitted := submitted)). }
  intros _ s1 HA1 _. apply wp_bind, wp_gets. destruct (_ =? 0); [by apply wp_ret, HR|].
  apply wp_bind. eapply wp_quiet; [apply _|exact HA1|]. intros now s2 HA2 _.
  apply wp_bind. eapply wp_quiet; [apply _|exact HA2|]. intros _ s3 HA3 _.
  apply wp_bind. eapply wp_lock; [exact HA3|]. intros s4 HA4 _.
  apply wp_bind, (tick_service_bufs_At now s0 (d + 1)); [done|]. intros s5 HA5.
  apply wp_bind, (wp_mfor _ _ (At K s0 (d + 1))); [done| |].
  { intros k s6 Hk%in_indices HA6. by apply (flush_held_bundle_At now k s0 (d + 1)). }
  intros s6 HA6. apply wp_bind. unfold tick_flush_deferred_acks.
  assert (Hdef : forall R' : unit -> st -> Prop, (forall s', At K s0 (d + 1) s' -> R' tt s') ->
    wp (hold ← gets (fun s => ack_hold_ms (g_ack_cfg s));
        if hold =? 0 then mret tt else mfor (indices ACK_MAX_PEERS) (flush_deferred_ack others now)) R' s6).
  { intros R' HR'. apply wp_bind, wp_gets. destruct (_ =? 0); [by apply wp_ret, HR'|].
    apply (wp_mfor _ _ (At K s0 (d + 1))); [done| |done]. intros k s7 Hk%in_indices HA7.
    by apply (flush_deferred_ack_At now k s0 (d + 1)). }
  apply Hdef. intros s7 HA7. apply wp_bind, (wp_mfor _ _ (At K s0 (d + 1))); [done| |].
  - intros k s8 Hk%in_indices HA8. eapply wp_quiet; [|exact HA8|by intros [] s9 HA9 _].
    apply Quiet_bind; [by apply Quiet_peer_at|]. intros p. apply Quiet_when. by apply (Quiet_ra_check_stale submitted).
  - intros s8 HA8. eapply wp_unlock; [exact Ho|exact HA8|]. intros s9 HA9 _. apply HR.
    by replace d with (d + 1 - 1) by lia.
Qed.

(** ** Reconfiguration, start-up, status *)

Lemma Quiet_config_cache : Quiet config_cache.
Proof. apply Quiet_modify. intros s. by split_and!. Qed.

Lemma Quiet_apply_to_peer c k : (k < 16)%nat -> Quiet (apply_to_peer c k).
Proof. intros Hk. unfold apply_to_peer. quiet_auto. Qed.

Lemma Quiet_world (f : st -> W -> W) : (forall s w, P w -> P (f s w)) -> Quiet (modify (fun s => s <| world ::= f s |>)).
Proof.
  intros Hf. apply Quiet_modify. intros s. split; [done|]. split; [done|]. intros [Hw Hp]. split; [|done].
  rsimpl. by apply Hf.
Qed.

Lemma cfg_At c s0 d s : At K s0 d s -> ack_cfg_ok c ->
  At K s0 d (s <| g_ack_cfg := c |> <| g_window := window c |>
               <| g_cwnd ::= fun w => if window c <? w then window c else w |>).
Proof.
  intros HA Hok. pose proof (cwnd_range submitted P _ (proj1 HA)) as Hcw. destruct HA as ((Htab & Hs) & Hk & Hh).
  pose proof (ok_window _ Hok) as Hw. set (cw := if window c <? g_cwnd s then window c else g_cwnd s).
  assert (Hc : 0 <= cw <= window c) by (subst cw; z_case; lia).
  pose proof (tables_window submitted (view_of s) c cw Htab Hok Hc) as Htab'.
  split; [split; [exact Htab'|exact Hs]|split; [exact Hk|exact Hh]].
Qed.

Lemma halow_ack_config_apply_At c s0 d s (R : unit -> st -> Prop) : At K s0 d s ->
  (forall c', c = Some c' -> ack_cfg_typed c') -> (forall s', At K s0 d s' -> R tt s') ->
  wp (halow_ack_config_apply others c) R s.
Proof using All.
  intros HA Ht HR. unfold halow_ack_config_apply. destruct c as [c|]; [|by apply wp_ret, HR]. cbv zeta.
  pose proof (config_clamp_ok c (Ht c eq_refl)) as Hok. set (c' := config_clamp c) in *. clearbody c'. clear Ht c.
  apply wp_bind. eapply wp_quiet; [apply _|exact HA|]. intros _ s1 HA1 _.
  apply wp_bind. eapply wp_lock; [exact HA1|]. intros s2 HA2 _. apply wp_bind, wp_modify.
  pose proof (cfg_At _ _ _ _ HA2 Hok) as HA3.
  apply wp_bind. eapply wp_quiet; [|exact HA3|].
  { apply Quiet_mfor. intros k Hk%in_indices. by apply Quiet_apply_to_peer. }
  intros _ s4 HA4 _. apply wp_bind. eapply wp_unlock; [exact Ho|exact HA4|]. intros s5 HA5 _.
  apply wp_bind. eapply wp_lock; [exact HA5|]. intros s6 HA6 _.
  apply wp_bind. eapply wp_quiet; [apply Quiet_config_cache|exact HA6|]. intros _ s7 HA7 _.
  apply wp_bind. eapply wp_unlock; [exact Ho|exact HA7|]. intros s8 HA8 _.
  replace (d + 1 - 1 + 1 - 1) with d in HA8 by lia.
  eapply wp_quiet; [|exact HA8|intros [] s9 HA9 _; by apply HR].
  apply (Quiet_world (fun s' => halow_ack_config_save (g_ack_cfg s'))). intros s' w. apply save_ok.
Qed.

Lemma halow_ack_cwnd_set_At v s0 d s (R : unit -> st -> Prop) : At K s0 d s -> 0 <= v ->
  (forall s', At K s0 d s' -> R tt s') -> wp (halow_ack_cwnd_set v) R s.
Proof.
  intros HA Hv HR. pose proof (cwnd_range submitted P _ (proj1 HA)) as Hc. apply wp_modify, HR.
  apply cwnd_At; [done|]. z_case; lia.
Qed.

Lemma locked_read_At {A} (f : st -> A) s0 d s (R : A -> st -> Prop) : At K s0 d s ->
  (forall r s', At K s0 d s' -> R r s') -> wp (ack_lock;; r ← gets f; ack_unlock others None;; mret r) R s.
Proof using All.
  intros HA HR. apply wp_bind. eapply wp_lock; [exact HA|]. intros s1 HA1 _. apply wp_bind, wp_gets, wp_bind.
  eapply wp_unlock; [exact Ho|exact HA1|]. intros s2 HA2 _. apply wp_ret, HR. by replace d with (d + 1 - 1) by lia.
Qed.

Lemma peer_stats_At j2m m s0 d s (R : option peer_stats -> st -> Prop) : At K s0 d s ->
  (forall r s', At K s0 d s' -> R r s') -> wp (halow_ack_peer_stats_by_mac others j2m m) R s.
Proof using All.
  intros HA HR. unfold halow_ack_peer_stats_by_mac. destruct m as [m|]; [|by apply wp_ret, HR].
  assert (Hout : forall r s', At K s0 (d + 1) s' -> wp (ack_unlock others None;; mret r) R s').
  { intros r s' HA'. apply wp_bind. eapply wp_unlock; [exact Ho|exact HA'|]. intros s2 HA2 _.
    apply wp_ret, HR. by replace d with (d + 1 - 1) by lia. }
  apply wp_bind. eapply wp_lock; [exact HA|]. intros s1 HA1 _. apply wp_bind, wp_gets, wp_bind.
  destruct (peer_find m s1) as [k|] eqn:Hf; [|apply wp_ret; by apply Hout].
  destruct (peer_find_lt _ _ _ Hf) as (p & Hk). apply wp_bind. eapply wp_peer_at; [done|].
  apply wp_bind. eapply wp_quiet; [apply _|exact HA1|]. intros now s2 HA2 _. apply wp_ret. by apply Hout.
Qed.

(** What start-up needs of the memory it finds: tables of the right size,
    nodes that know their slot, and a sane world. *)
Record boot_ok (s : st) : Prop := {
  bt_bufs : length (g_bufs s) = ACK_BUF_N;
  bt_peers : length (g_peers s) = ACK_MAX_PEERS;
  bt_idx : forall i b, g_bufs s !! i = Some (Some b) -> idx b = i;
  bt_world : P (world s);
}.

Lemma boot_release i b s (R : unit -> st -> Prop) : boot_ok s -> g_bufs s !! i = Some (Some b) ->
  (forall s', boot_ok s' -> ack_held s' = ack_held s -> R tt s') -> wp (buf_release i) R s.
Proof.
  intros [B1 B2 B3 B4] Hi HR. pose proof (B3 _ _ Hi) as Hx. unfold buf_release.
  apply wp_bind. eapply wp_buf_get; [done|]. apply wp_bind.
  apply wp_when; intros _; apply wp_modify; [apply wp_modify|]; (apply HR; [|done]); constructor; rsimpl;
    rewrite ?length_insert; try done; intros j b' Hj; rewrite Hx in Hj;
    (destruct (decide (i = j)) as [<-|Hne];
      [by rewrite list_lookup_insert_eq in Hj by (by eapply lookup_lt_Some)
      |rewrite list_lookup_insert_ne in Hj by done; by apply B3]).
Qed.

Lemma halow_ack_init_ok s (R : unit -> st -> Prop) : boot_ok s ->
  (forall s', Inv s' -> ack_held s' = ack_held s -> g_used_n s' = 0 -> R tt s') ->
  wp halow_ack_init R s.
Proof.
  intros HB HR. unfold halow_ack_init. apply wp_bind, wp_modify.
  set (s1 := s <| g_dflt_mcs_cache := 0xFF |>). assert (HB1 : boot_ok s1) by (by destruct HB; constructor).
  apply wp_bind. apply (wp_mono _ (fun _ s' => boot_ok s' /\ ack_held s' = ack_held s)).
  { unfold dflt_mcs_refresh. apply wp_bind. unfold now_j. apply wp_bind. unfold wp at 1, ext.
    pose proof (jiffies_ok (submitted := submitted) (world s1) (bt_world _ HB1)) as Hj.
    destruct (os_jiffies (world s1)) as [j w] eqn:Ej. cbn [snd] in Hj. apply wp_ret, wp_bind, wp_gets.
    destruct (_ && _); [apply wp_ret|apply wp_modify]; (split; [|done]); destruct HB1; by constructor. }
  intros _ s2 [HB2 E2]. apply wp_bind, (wp_mfor _ _ (fun s' => boot_ok s' /\ ack_held s' = ack_held s)); [done| |].
  { intros i s3 Hi%in_indices [HB3 E3]. destruct (lookup_lt_is_Some_2 (g_bufs s3) i) as [o Hoo]; [by rewrite (bt_bufs _ HB3)|].
    apply wp_bind. eapply wp_buf_slot; [done|]. destruct o as [b|]; [|by apply wp_ret].
    apply (boot_release i b); [done|done|]. intros s4 HB4 E4. split; [done|congruence]. }
  clear s2 HB2 E2. intros s2 [HB2 E2]. apply wp_bind. unfold wp at 1, ext.
  pose proof (load_in_range (world s2)) as Hok. pose proof (load_ok (world s2) (bt_world _ HB2)) as Hw.
  destruct (halow_ack_config_load (world s2)) as [cfg w]. cbn [fst snd] in Hok, Hw.
  apply wp_bind, wp_modify. set (s3 := s2 <| world := w |> <| g_ack_cfg := _ |> <| g_bufs := _ |> <| g_peers := _ |>
    <| g_ack_stats := _ |> <| dbg_last_dest := _ |> <| g_used_n := _ |> <| g_inflight_n := _ |> <| g_peers_n := _ |>
    <| g_heap_bytes := _ |> <| g_window := _ |> <| g_cwnd := _ |>).
  assert (HI3 : Inv s3).
  { split.
    - replace (view_of s3) with (mkView (replicate ACK_BUF_N None) (replicate ACK_MAX_PEERS (pview peer_zero)) 0 0 0 0 cfg
        (window cfg) (if 4 <? window cfg then 4 else window cfg)) by reflexivity. by apply tables_empty.
    - split; [exact Hw|]. subst s3. rsimpl. apply Forall_forall. intros p Hp.
      apply elem_of_replicate in Hp as [-> _]. apply peer_zero_soft. }
  assert (HA3 : At (fun _ => False) s3 0 s3) by (by apply At_refl).
  apply wp_bind. eapply wp_quiet; [apply Quiet_config_cache|exact HA3|]. intros _ s4 HA4 Q4.
  apply wp_bind. eapply wp_quiet; [apply _|exact HA4|]. intros now s5 HA5 Q5.
  eapply wp_quiet; [by apply Quiet_modify; intros s'; split_and!|exact HA5|]. intros [] s6 HA6 Q6.
  apply HR; [apply HA6| |].
  - destruct HA6 as (_ & _ & E6). rewrite E6, <-E2. change (ack_held s3) with (ack_held s2). lia.
  - assert (V : view_of s6 = view_of s3) by (destruct Q4, Q5, Q6; congruence).
    exact (f_equal v_used V).
Qed.
End SafeTick.
