(* ===== verification/AckGovern.v ===== *)
(** * Rate control and deadlines of the reliability layer: properties

    The governor of the per-peer rate over any sequence of ACK, retransmit
    and drop evidence, and the time bounds of a frame in flight.  Events are
    handled at an instant: the clock does not advance within one handler. *)

From S2P Require Import Prelude Monad AckWire AckPeer AckState AckRate.

Section Govern.
Context {W : Type} `{AckEnv W}.
#[local] Abbreviation st := (ack_state W).
Implicit Types (s : st) (p : ack_peer).

(** What the rate controller leaves alone. *)
Definition ra_frame s s' : Prop :=
  world s' = world s /\ g_ack_cfg s' = g_ack_cfg s /\ g_step_gap_j s' = g_step_gap_j s /\
  g_ra_up_q8 s' = g_ra_up_q8 s /\ g_ra_down_q8 s' = g_ra_down_q8 s /\
  g_dflt_mcs_cache s' = g_dflt_mcs_cache s /\ length (g_bufs s') = length (g_bufs s).

(** [s] is [s0] except that peer [k] has become [p]. *)
Definition became s0 k p s : Prop :=
  ra_frame s0 s /\ (k < length (g_peers s0))%nat /\ g_peers s = <[k := p]> (g_peers s0).

Lemma became_start s k p : g_peers s !! k = Some p -> became s k p s.
Proof. intros Hk. split; [by split_and!|]. split; [by eapply lookup_lt_Some|by rewrite list_insert_id]. Qed.
Lemma became_peer s0 k p s : became s0 k p s -> g_peers s !! k = Some p.
Proof. intros (_ & Hk & ->). by apply list_lookup_insert_eq. Qed.

Section Instant.
Variable t : Z.
(** The clock reads [t] and does not move. *)
Definition at_instant s : Prop := os_jiffies (world s) = (t, world s) /\ is_u32 t.

Context (s0 : st) (Ht : at_instant s0).

Lemma wp_now k p s (Q : Z -> st -> Prop) : became s0 k p s -> Q t s -> wp now_j Q s.
Proof.
  intros ((Hw & _) & _) HQ. destruct Ht as [Hj Hu]. unfold now_j, ext. apply wp_bind.
  unfold wp at 1. rewrite Hw, Hj. apply wp_ret. rewrite u32_small by done.
  rewrite <-Hw. replace (s <| world := world s |>) with s by (by destruct s). done.
Qed.
Lemma wp_at k p s (Q : ack_peer -> st -> Prop) : became s0 k p s -> Q p s -> wp (peer_at k) Q s.
Proof.
  intros Hb HQ. unfold peer_at. apply wp_bind, wp_gets. apply became_peer in Hb.
  by apply (wp_lift _ p).
Qed.
Lemma wp_upd k p s f (Q : unit -> st -> Prop) : became s0 k p s ->
  (forall s', became s0 k (f p) s' -> Q tt s') -> wp (peer_upd k f) Q s.
Proof.
  intros Hb HQ. unfold peer_upd. apply wp_bind. eapply wp_at; [exact Hb|]. apply wp_modify, HQ.
  destruct Hb as (Hf & Hk & E). split; [exact Hf|]. split; [done|]. rsimpl. by rewrite E, list_insert_insert_eq.
Qed.
Lemma wp_count k p s c (Q : unit -> st -> Prop) : became s0 k p s ->
  (forall s', became s0 k p s' -> Q tt s') -> wp (bump c) Q s.
Proof. intros Hb HQ. apply wp_modify, HQ. exact Hb. Qed.
Lemma wp_kick k p s q (Q : unit -> st -> Prop) : became s0 k p s -> length (g_bufs s0) = ACK_BUF_N ->
  (forall s', became s0 k p s' -> Q tt s') -> wp (ra_kick_inflight q) Q s.
Proof.
  intros Hb Hn HQ. unfold ra_kick_inflight. apply wp_bind. eapply wp_now; [exact Hb|].
  apply wp_bind, wp_gets. apply (wp_mfor _ _ (became s0 k p)); [done| |done].
  intros i s' Hi Hb'. assert (Hil : (i < length (g_bufs s'))%nat).
  { destruct Hb' as ((_ & _ & _ & _ & _ & _ & ->) & _). rewrite Hn. apply elem_of_seq in Hi. lia. }
  destruct (lookup_lt_is_Some_2 _ _ Hil) as [o Ho]. apply wp_bind. unfold buf_slot. apply wp_bind, wp_gets.
  apply (wp_lift _ o); [done|]. destruct o as [b|]; [|by apply wp_ret].
  apply wp_when; intros _; [|exact Hb']. unfold buf_upd, buf_get. apply wp_bind, wp_bind, wp_gets.
  rewrite Ho. apply (wp_lift _ b); [done|]. apply wp_modify.
  destruct Hb' as ((? & ? & ? & ? & ? & ? & Hl) & ?). split; [|done]. unfold ra_frame. rsimpl.
  rewrite length_insert. by split_and!.
Qed.

(** ** One piece of evidence *)

Record peer_typed p : Prop := {
  pt_mcs : is_u8 (tx_mcs p);
  pt_loss : 0 <= loss_q8 p <= 255;
  pt_top : is_u8 (failed_top p);
}.

Definition no_step p p' : Prop := tx_mcs p' = tx_mcs p /\ next_step_allowed p' = next_step_allowed p.
(** A step at time [t] was allowed and starts a new gap. *)
Definition step_taken p p' : Prop :=
  next_step_allowed p <= t /\ next_step_allowed p' = u32 (t + g_step_gap_j s0).
(** The collapse memory allows the rate [m]. *)
Definition probe_open p (m : Z) : Prop :=
  failed_top p = 0 \/ last_collapse_jiff p = 0 \/
  ms_j RA_PROBE_COOLDOWN_MS <= u32 (t - last_collapse_jiff p) \/ m < failed_top p.
Definition climbed p p' : Prop :=
  tx_mcs p' = tx_mcs p + 1 /\ tx_mcs p' <= RA_MAX_MCS /\ step_taken p p' /\
  loss_q8 p' < g_ra_down_q8 s0 /\ (tx_mcs p' = RA_MAX_MCS -> loss_q8 p' <= g_ra_up_q8 s0) /\
  probe_open p (tx_mcs p').
Definition fell p p' : Prop :=
  tx_mcs p' = tx_mcs p - 1 /\ dflt_mcs s0 <= tx_mcs p' /\ step_taken p p' /\
  g_ra_down_q8 s0 <= loss_q8 p' /\ tx_mcs p <= failed_top p' /\ last_collapse_jiff p' = t.

(** The controller reads of the peer only these. *)
Definition same_rate p q : Prop :=
  tx_mcs q = tx_mcs p /\ next_step_allowed q = next_step_allowed p /\ failed_top q = failed_top p /\
  last_collapse_jiff q = last_collapse_jiff p.

Lemma dflt_mcs_became k p s : became s0 k p s -> dflt_mcs s = dflt_mcs s0.
Proof. intros ((_ & _ & _ & _ & _ & E & _) & _). unfold dflt_mcs. by rewrite E. Qed.
Lemma dflt_mcs_nonneg : is_u8 (g_dflt_mcs_cache s0) -> 0 <= dflt_mcs s0.
Proof. unfold dflt_mcs. destruct (negb _); word_lia. Qed.

Lemma wp_collapse k p s (Q : unit -> st -> Prop) : became s0 k p s -> peer_typed p -> tx_mcs p < 255 ->
  length (g_bufs s0) = ACK_BUF_N ->
  (forall p' s', became s0 k p' s' -> peer_typed p' -> loss_q8 p' = loss_q8 p -> tx_mcs p' = tx_mcs p ->
     next_step_allowed p' = next_step_allowed p -> tx_mcs p + 1 <= failed_top p' -> last_collapse_jiff p' = t ->
     Q tt s') -> wp (ra_note_collapse k) Q s.
Proof.
  intros Hb [T1 T2 T3] Hlt Hn HQ. unfold ra_note_collapse. apply wp_bind. eapply wp_now; [exact Hb|].
  apply wp_bind. eapply wp_at; [exact Hb|]. cbv zeta. rewrite u8_small by word_lia.
  assert (Hend : forall q s', became s0 k q s' -> peer_typed q -> loss_q8 q = loss_q8 p -> tx_mcs q = tx_mcs p ->
    next_step_allowed q = next_step_allowed p -> tx_mcs p + 1 <= failed_top q ->
    wp (peer_upd k (fun p => p <| last_collapse_jiff := t |>);; p ← peer_at k; ra_kick_inflight p) Q s').
  { intros q s' Hb' [Q1 Q2 Q3] E1 E2 E3 E4. apply wp_bind. eapply wp_upd; [exact Hb'|]. intros s2 Hb2.
    apply wp_bind. eapply wp_at; [exact Hb2|]. eapply wp_kick; [exact Hb2|done|]. intros s3 Hb3.
    by eapply (HQ _ _ Hb3). }
  apply wp_bind, wp_when; intros Hc.
  - eapply wp_upd; [exact Hb|]. intros s' Hb'. apply (Hend _ _ Hb'); [|done..|rsimpl; lia].
    constructor; rsimpl; [done|done|word_lia].
  - apply (Hend p); [done|done|done|done|done|]. apply orb_false_iff in Hc as [_ Hc%Z.ltb_ge]. exact Hc.
Qed.

Lemma wp_downshift k p0 p s (Q : unit -> st -> Prop) : became s0 k p s -> peer_typed p -> tx_mcs p <> 255 ->
  same_rate p0 p -> is_u8 (g_dflt_mcs_cache s0) -> length (g_bufs s0) = ACK_BUF_N -> g_ra_down_q8 s0 <= loss_q8 p ->
  (forall p' s', became s0 k p' s' -> peer_typed p' -> no_step p0 p' \/ fell p0 p' -> Q tt s') ->
  wp (ra_downshift k) Q s.
Proof.
  intros Hb [T1 T2 T3] Hne (R1 & R2 & R3 & R4) Hd Hn Hl HQ. unfold ra_downshift. apply wp_bind, wp_gets.
  unfold ra_floor. rewrite (dflt_mcs_became _ _ _ Hb). apply wp_bind. eapply wp_at; [exact Hb|].
  pose proof (dflt_mcs_nonneg Hd) as Hf.
  destruct (dflt_mcs s0 <? tx_mcs p) eqn:E1; cbn [negb].
  2: { apply wp_ret. apply (HQ p); [done|by constructor|]. by left. }
  apply wp_bind. eapply wp_now; [exact Hb|]. destruct (t <? next_step_allowed p) eqn:E2.
  { apply wp_ret. apply (HQ p); [done|by constructor|]. by left. }
  apply Z.ltb_lt in E1. apply Z.ltb_ge in E2.
  apply wp_bind. eapply wp_upd; [exact Hb|]. intros s1 Hb1. apply wp_bind. eapply wp_now; [exact Hb1|].
  apply wp_bind, wp_gets. replace (g_step_gap_j s1) with (g_step_gap_j s0) by (by destruct Hb1 as ((_ & _ & -> & _) & _)).
  apply wp_bind. eapply wp_upd; [exact Hb1|]. intros s2 Hb2. apply wp_bind. eapply wp_count; [exact Hb2|].
  clear s2 Hb2. intros s2 Hb2.
  assert (E3 : u8 (tx_mcs p - 1) = tx_mcs p - 1) by word_lia.
  eapply wp_collapse; [exact Hb2| | |done|].
  - constructor; rsimpl; [rewrite E3; word_lia|done|done].
  - rsimpl. word_lia.
  - rsimpl. rewrite E3. intros p' s' Hb' HT F1 F2 F3 F4 F5. apply (HQ p'); [done|done|]. right.
    unfold fell, step_taken. rewrite F1, F2, F3, F5, <-R1, <-R2. repeat split; first [done|lia].
Qed.

Lemma wp_probe_capped k p s (Q : Z -> st -> Prop) : became s0 k p s -> is_u8 (failed_top p) ->
  (forall c s', became s0 k p s' -> c <= RA_MAX_MCS -> (forall m, m <= c -> probe_open p m) -> Q c s') ->
  wp (ra_probe_capped k RA_MAX_MCS) Q s.
Proof.
  intros Hb Hu HQ. unfold ra_probe_capped. apply wp_bind. eapply wp_at; [exact Hb|].
  assert (Hno : (forall m, probe_open p m) -> Q RA_MAX_MCS s) by (intros Ho; by apply HQ).
  destruct (_ || _) eqn:E.
  { apply wp_ret, Hno. intros m. apply orb_true_iff in E as [E%Z.eqb_eq|E%Z.eqb_eq]; [by left|by right; left]. }
  apply orb_false_iff in E as [E%Z.eqb_neq _]. apply wp_bind. eapply wp_now; [exact Hb|].
  destruct (_ <=? _) eqn:E2.
  { apply wp_ret, Hno. intros m. right. right. left. by apply Z.leb_le. }
  cbv zeta. rewrite u8_small by word_lia.
  assert (Ho : forall c m, c <= failed_top p - 1 -> m <= c -> probe_open p m) by (intros; right; right; right; lia).
  destruct (_ <? RA_MAX_MCS) eqn:E3.
  - apply wp_bind. eapply wp_count; [exact Hb|]. intros s' Hb'. apply wp_ret, HQ; [done| |eauto using Z.le_refl].
    apply Z.ltb_lt in E3. lia.
  - apply wp_ret, HQ; [done|done|]. intros m Hm. apply Z.ltb_ge in E3. by apply (Ho RA_MAX_MCS).
Qed.

Lemma wp_climb k p0 p s (Q : unit -> st -> Prop) : became s0 k p s -> peer_typed p -> same_rate p0 p ->
  loss_q8 p < g_ra_down_q8 s0 -> tx_mcs p <> 255 ->
  (forall p' s', became s0 k p' s' -> peer_typed p' -> no_step p0 p' \/ climbed p0 p' -> Q tt s') ->
  wp (ra_climb k) Q s.
Proof.
  intros Hb [T1 T2 T3] (R1 & R2 & R3 & R4) Hl Hne HQ. unfold ra_climb. apply wp_bind.
  eapply wp_probe_capped; [exact Hb|done|]. clear s Hb. intros c s Hb Hc Hopen.
  apply wp_bind. eapply wp_at; [exact Hb|]. apply wp_bind, wp_gets, wp_bind, wp_gets.
  replace (g_ra_up_q8 s) with (g_ra_up_q8 s0) by (by destruct Hb as ((_ & _ & _ & -> & _) & _)).
  replace (g_ra_down_q8 s) with (g_ra_down_q8 s0) by (by destruct Hb as ((_ & _ & _ & _ & -> & _) & _)).
  cbv zeta. rewrite (u8_small (tx_mcs p + 1)) by word_lia.
  assert (Hsame : forall s' x, became s0 k p s' -> wp (bump x) Q s').
  { intros s' x Hb'. eapply wp_count; [exact Hb'|]. intros s2 Hb2. apply (HQ p); [done|done|]. by left. }
  destruct (negb _) eqn:Er; [by apply Hsame|]. apply negb_false_iff in Er.
  destruct (c <=? tx_mcs p) eqn:Ec; [by apply Hsame|]. apply Z.leb_gt in Ec.
  apply wp_bind. eapply wp_now; [exact Hb|]. destruct (t <? _) eqn:Et; [by apply Hsame|]. apply Z.ltb_ge in Et.
  apply wp_bind. eapply wp_upd; [exact Hb|]. intros s1 Hb1. apply wp_bind. eapply wp_now; [exact Hb1|].
  apply wp_bind, wp_gets. replace (g_step_gap_j s1) with (g_step_gap_j s0) by (by destruct Hb1 as ((_ & _ & -> & _) & _)).
  apply wp_bind. eapply wp_upd; [exact Hb1|]. intros s2 Hb2. eapply wp_count; [exact Hb2|].
  clear s2 Hb2. intros s2 Hb2. unfold RA_MAX_MCS in *.
  assert (Em : u8 (tx_mcs p + 1) = tx_mcs p + 1) by word_lia.
  eapply (HQ _ _ Hb2).
  - constructor; rsimpl; [word_lia|done|done].
  - right. unfold climbed, step_taken. rsimpl. rewrite Em, <-R1, <-R2.
    split; [done|]. split; [unfold RA_MAX_MCS; lia|]. split; [split; [lia|done]|]. split; [done|]. split.
    + intros E7. unfold RA_MAX_MCS in E7. replace (c <=? tx_mcs p + 1) with true in Er by (symmetry; apply Z.leb_le; lia).
      by apply Z.leb_le.
    + specialize (Hopen (tx_mcs p + 1)). unfold probe_open in *. rewrite <-R3, <-R4. apply Hopen. lia.
Qed.

(** ** The three kinds of evidence *)

Definition ra_step p p' : Prop := peer_typed p' /\ (no_step p p' \/ climbed p p' \/ fell p p').
Definition ra_ready k : Prop := is_u8 (g_dflt_mcs_cache s0) /\ length (g_bufs s0) = ACK_BUF_N /\
  forall p, g_peers s0 !! k = Some p -> peer_typed p.

Lemma ra_cfg_became k p s : became s0 k p s -> rate_adapt (g_ack_cfg s) = rate_adapt (g_ack_cfg s0) /\
  g_ra_down_q8 s = g_ra_down_q8 s0.
Proof. intros ((_ & -> & _ & _ & -> & _) & _). done. Qed.

Lemma wp_ra_on_ack k p (Q : unit -> st -> Prop) : ra_ready k -> g_peers s0 !! k = Some p ->
  (forall p' s', became s0 k p' s' -> ra_step p p' -> Q tt s') -> wp (ra_on_ack k) Q s0.
Proof.
  intros (Hd & Hn & HT) Hk HQ. pose proof (HT _ Hk) as [T1 T2 T3].
  unfold ra_on_ack. apply wp_bind. pose proof (became_start s0 k p Hk) as Hb. eapply wp_now; [exact Hb|].
  apply wp_bind. eapply wp_upd; [exact Hb|]. clear Hb. intros s1 Hb.
  assert (Hl : 0 <= loss_decay (loss_q8 p) <= 255).
  { unfold loss_decay, RA_EWMA_W. rewrite shiftr_div by lia. word_lia. }
  apply wp_bind. eapply wp_at; [exact Hb|]. apply wp_bind, wp_gets. destruct (ra_cfg_became _ _ _ Hb) as [-> _].
  destruct (_ || _) eqn:Eoff.
  { apply wp_ret. apply (HQ _ _ Hb). split; [by constructor; rsimpl|]. by left. }
  apply orb_false_iff in Eoff as [_ Emcs%Z.eqb_neq]. rsimpl.
  apply wp_bind. eapply wp_count; [exact Hb|]. clear s1 Hb. intros s1 Hb.
  assert (Hend : forall q s', became s0 k q s' -> peer_typed q -> same_rate p q ->
    wp (down ← gets g_ra_down_q8; if down <=? loss_q8 q then ra_downshift k else ra_climb k) Q s').
  { intros q s' Hb' HTq Hsame. apply wp_bind, wp_gets. destruct (ra_cfg_became _ _ _ Hb') as [_ ->].
    assert (Hq : tx_mcs q <> 255) by (destruct Hsame as [-> _]; exact Emcs).
    destruct (g_ra_down_q8 s0 <=? loss_q8 q) eqn:El.
    - apply Z.leb_le in El. eapply wp_downshift; [exact Hb'|done..|].
      intros p' s2 Hb2 HT2 Hs2. apply (HQ _ _ Hb2). split; [done|]. tauto.
    - apply Z.leb_gt in El. eapply wp_climb; [exact Hb'|done..|].
      intros p' s2 Hb2 HT2 Hs2. apply (HQ _ _ Hb2). split; [done|]. tauto. }
  apply wp_bind, wp_when; intros _.
  - eapply wp_upd; [exact Hb|]. intros s2 Hb2. by (apply (Hend _ _ Hb2); [constructor|]; rsimpl).
  - by (apply (Hend _ _ Hb); [constructor|]; rsimpl).
Qed.

Lemma wp_grace k p (Q : bool -> st -> Prop) : g_peers s0 !! k = Some p ->
  (forall g, Q g s0) -> wp (ra_in_grace k) Q s0.
Proof.
  intros Hk HQ. pose proof (became_start s0 k p Hk) as Hb. unfold ra_in_grace.
  apply wp_bind. eapply wp_at; [exact Hb|]. destruct (_ =? 0); [apply wp_ret, HQ|].
  apply wp_bind. eapply wp_now; [exact Hb|]. apply wp_ret, HQ.
Qed.

Lemma ra_step_refl p : peer_typed p -> ra_step p p.
Proof. intros HT. split; [done|]. by left. Qed.

Lemma wp_ra_on_retrans k p (Q : unit -> st -> Prop) : ra_ready k -> g_peers s0 !! k = Some p ->
  (forall p' s', became s0 k p' s' -> ra_step p p' -> Q tt s') -> wp (ra_on_retrans k) Q s0.
Proof.
  intros (_ & _ & HT) Hk HQ. pose proof (HT _ Hk) as [T1 T2 T3]. pose proof (became_start s0 k p Hk) as Hb.
  unfold ra_on_retrans. apply wp_bind. eapply wp_grace; [exact Hk|]. intros [].
  - apply wp_ret, (HQ _ _ Hb), ra_step_refl, HT, Hk.
  - eapply wp_upd; [exact Hb|]. intros s' Hb'. apply (HQ _ _ Hb'). split; [|by left].
    constructor; rsimpl; [done| |done]. cbv zeta. unfold RA_RETRANS_STEP_Q8. destruct (255 <? _) eqn:E; word_lia.
Qed.

Lemma wp_ra_on_drop k p (Q : unit -> st -> Prop) : ra_ready k -> g_peers s0 !! k = Some p ->
  (forall p' s', became s0 k p' s' -> ra_step p p' -> Q tt s') -> wp (ra_on_drop k) Q s0.
Proof.
  intros (Hd & Hn & HT) Hk HQ. pose proof (HT _ Hk) as [T1 T2 T3]. pose proof (became_start s0 k p Hk) as Hb.
  unfold ra_on_drop. apply wp_bind. eapply wp_grace; [exact Hk|]. intros [].
  { apply wp_ret, (HQ _ _ Hb), ra_step_refl, HT, Hk. }
  apply wp_bind. eapply wp_upd; [exact Hb|]. clear Hb. intros s1 Hb. set (q := p <| loss_q8 ::= _ |> <| acks_since_step := 0 |>) in Hb.
  assert (HTq : peer_typed q).
  { subst q. constructor; rsimpl; [done| |done]. unfold RA_EWMA_W. rewrite shiftr_div by lia. word_lia. }
  apply wp_bind. eapply wp_at; [exact Hb|]. apply wp_bind, wp_gets.
  destruct (_ || _) eqn:Eoff; [apply wp_ret, (HQ _ _ Hb); split; [done|by left]|].
  apply orb_false_iff in Eoff as [_ Emcs%Z.eqb_neq].
  apply wp_bind, wp_gets. destruct (ra_cfg_became _ _ _ Hb) as [_ ->].
  destruct (_ <=? _) eqn:El; [|apply wp_ret, (HQ _ _ Hb); split; [done|by left]].
  apply Z.leb_le in El. eapply (wp_downshift k p); [exact Hb|done|done|done|done|done|done|].
  intros p' s' Hb' HT' Hs. apply (HQ _ _ Hb'). split; [done|]. tauto.
Qed.
End Instant.

(** ** A sequence of evidence *)

Inductive feedback := OnAck | OnRetrans | OnDrop.
Definition ra_feedback (f : feedback) (k : nat) : M st unit :=
  match f with OnAck => ra_on_ack k | OnRetrans => ra_on_retrans k | OnDrop => ra_on_drop k end.

Lemma wp_feedback f t s k p (Q : unit -> st -> Prop) : at_instant t s -> ra_ready s k -> g_peers s !! k = Some p ->
  (forall p' s', became s k p' s' -> ra_step t s p p' -> Q tt s') -> wp (ra_feedback f k) Q s.
Proof.
  intros Ht Hr Hk HQ.
  destruct f; [eapply (wp_ra_on_ack t)|eapply (wp_ra_on_retrans t)|eapply (wp_ra_on_drop t)]; try exact Hk; done.
Qed.

(** Setting the clock. *)
Variable at_time : Z -> W -> W.

(** What happened to peer [k]: the time, and the peer before and after. *)
Record ra_event := RaEvent { ev_time : Z; ev_before : ack_peer; ev_after : ack_peer }.

Fixpoint ra_run (k : nat) (evs : list (Z * feedback)) : M st (list ra_event) :=
  match evs with
  | [] => mret []
  | (t, f) :: evs =>
      modify (fun s => s <| world ::= at_time t |>);;
      p ← peer_at k;
      ra_feedback f k;;
      p' ← peer_at k;
      tr ← ra_run k evs;
      mret (RaEvent t p p' :: tr)
  end.

Definition moved (e : ra_event) : Prop := tx_mcs (ev_after e) <> tx_mcs (ev_before e).

(** Two events that both moved the rate are a step gap apart. *)
Definition paced (gap : Z) : list ra_event -> Prop :=
  ForallOrdPairs (fun e e' => moved e -> moved e' -> ev_time e + gap <= ev_time e').

(** The state parts the statements below refer to do not change. *)
Definition ra_const s s' : Prop :=
  g_step_gap_j s' = g_step_gap_j s /\ g_ra_up_q8 s' = g_ra_up_q8 s /\ g_ra_down_q8 s' = g_ra_down_q8 s /\
  g_dflt_mcs_cache s' = g_dflt_mcs_cache s /\ length (g_bufs s') = length (g_bufs s).

Lemma ra_const_became s k p s' : became s k p s' -> ra_const s s'.
Proof. by intros ((_ & _ & E1 & E2 & E3 & E4 & E5) & _). Qed.
Lemma ra_const_trans s1 s2 s3 : ra_const s1 s2 -> ra_const s2 s3 -> ra_const s1 s3.
Proof. unfold ra_const. intros (? & ? & ? & ? & ?) (? & ? & ? & ? & ?). repeat split; congruence. Qed.

Definition ra_outcome t s p p' : Prop := no_step p p' \/ climbed t s p p' \/ fell t s p p'.
Lemma ra_outcome_const t s s' p p' : ra_const s s' -> ra_outcome t s' p p' -> ra_outcome t s p p'.
Proof.
  unfold ra_outcome, climbed, fell, step_taken, dflt_mcs. by intros (-> & -> & -> & -> & _).
Qed.

(** Before the counter wraps. *)
Definition unwrapped (gap t : Z) : Prop := t + gap < 2 ^ 32.

Lemma ra_outcome_next t s p p' : ra_outcome t s p p' -> 0 <= t -> 0 <= g_step_gap_j s ->
  unwrapped (g_step_gap_j s) t ->
  (tx_mcs p' <> tx_mcs p -> next_step_allowed p <= t /\ next_step_allowed p' = t + g_step_gap_j s) /\
  next_step_allowed p <= next_step_allowed p'.
Proof.
  intros Ho Ht Hg Hu. unfold unwrapped in Hu.
  assert (Hs : step_taken t s p p' -> next_step_allowed p <= t /\ next_step_allowed p' = t + g_step_gap_j s).
  { intros [? ->]. split; [done|]. by rewrite u32_small by word_lia. }
  destruct Ho as [[Em En]|[(_ & _ & Hst & _)|(_ & _ & Hst & _)]].
  - split; [done|lia].
  - destruct (Hs Hst). split; [done|lia].
  - destruct (Hs Hst). split; [done|lia].
Qed.

Context (Hclk : forall t w, os_jiffies (at_time t w) = (t, at_time t w)).

Lemma ra_ready_after t s k p p' s' : became s k p' s' -> ra_step t s p p' -> ra_ready s k -> ra_ready s' k.
Proof.
  intros Hb [HT _] (Hd & Hn & _). destruct (ra_const_became _ _ _ _ Hb) as (_ & _ & _ & E1 & E2).
  split; [by rewrite E1|]. split; [by rewrite E2|]. intros q Hq. rewrite (became_peer _ _ _ _ Hb) in Hq. by injection Hq as <-.
Qed.

Lemma ra_run_spec k evs : forall s p (Q : list ra_event -> st -> Prop), ra_ready s k -> g_peers s !! k = Some p ->
  0 <= g_step_gap_j s -> Forall (fun e => is_u32 e.1) evs ->
  (forall tr s', map ev_time tr = map fst evs ->
     Forall (fun e => ra_outcome (ev_time e) s (ev_before e) (ev_after e)) tr ->
     (Forall (fun e => unwrapped (g_step_gap_j s) e.1) evs -> paced (g_step_gap_j s) tr /\
        Forall (fun e => moved e -> next_step_allowed p <= ev_time e) tr) -> Q tr s') ->
  wp (ra_run k evs) Q s.
Proof using Hclk.
  induction evs as [|[t f] evs IH]; intros s p Q Hr Hk Hg Hev HQ; cbn [ra_run].
  { apply wp_ret, HQ; [constructor..|]. intros _. split; constructor. }
  apply Forall_cons in Hev as [Ht Hev]. cbn [fst] in Ht.
  apply wp_bind, wp_modify. set (s1 := s <| world ::= at_time t |>).
  assert (Hk1 : g_peers s1 !! k = Some p) by exact Hk. assert (Hr1 : ra_ready s1 k) by exact Hr.
  assert (Ht1 : at_instant t s1) by (split; [apply Hclk|done]).
  apply wp_bind. unfold peer_at at 1. apply wp_bind, wp_gets, (wp_lift _ p); [exact Hk1|].
  apply wp_bind. apply (wp_feedback f t s1 k p); [done..|]. intros p' s2 Hb Hst.
  pose proof (became_peer _ _ _ _ Hb) as Hk2.
  pose proof (ra_const_became _ _ _ _ Hb) as Hc. assert (Hc' : ra_const s s2) by exact Hc.
  apply wp_bind. unfold peer_at. apply wp_bind, wp_gets, (wp_lift _ p'); [exact Hk2|].
  destruct Hst as [HT Ho]. assert (Ho' : ra_outcome t s p p') by exact Ho.
  assert (Egap : g_step_gap_j s2 = g_step_gap_j s) by apply Hc'.
  apply wp_bind. eapply IH; [by eapply ra_ready_after|exact Hk2|lia|done|].
  intros tr s' Etr Hout Hrest. apply wp_ret, HQ.
  - cbn. by rewrite Etr.
  - constructor; [exact Ho'|]. eapply Forall_impl; [exact Hout|]. intros e. by apply ra_outcome_const.
  - intros [Hu Hus]%Forall_cons. cbn [fst] in Hu. rewrite Egap in Hrest. destruct (Hrest Hus) as [Hpace Hnext].
    destruct (ra_outcome_next _ _ _ _ Ho' ltac:(word_lia) Hg Hu) as [Hmv Hnx]. split.
    + constructor; [|exact Hpace]. eapply Forall_impl; [exact Hnext|].
      intros e He Hm Hm'. cbn in Hm. specialize (He Hm'). destruct (Hmv Hm). cbn. lia.
    + constructor; [cbn; intros Hm; by apply Hmv|]. eapply Forall_impl; [exact Hnext|].
      intros e He Hm. specialize (He Hm). lia.
Qed.
End Govern.

(** ** The governor *)

(** C8: over any sequence of ACKs, retransmissions and drops of a peer, at any
    times, the rate controller runs without a fault and every piece of
    evidence leaves the rate alone, or raises it by exactly one step (never
    above MCS7, only with the loss below the down threshold, for the last step
    below the strict one, and never back to a rate that the running collapse
    episode abandoned), or lowers it by exactly one step (never below the
    configured MCS, only with the loss at the down threshold).  As long as no
    event is within a step gap of the wrap of the 32-bit jiffy counter, any
    two such steps, up or down, are at least the step gap apart; across the
    wrap they need not be ([ra_gap_lost_at_wrap]). *)
Theorem ra_rate_governed {W} `{AckEnv W} (at_time : Z -> W -> W) (s : ack_state W) k p evs :
  (forall t w, os_jiffies (at_time t w) = (t, at_time t w)) ->
  ra_ready s k -> g_peers s !! k = Some p -> 0 <= g_step_gap_j s ->
  Forall (fun e => is_u32 e.1) evs ->
  exists tr s', ra_run at_time k evs s = Some (tr, s') /\ map ev_time tr = map fst evs /\
    Forall (fun e => let '(RaEvent t p p') := e in no_step p p' \/ climbed t s p p' \/ fell t s p p') tr /\
    (Forall (fun e => unwrapped (g_step_gap_j s) e.1) evs -> paced (g_step_gap_j s) tr).
Proof.
  intros Hclk Hr Hk Hg Hev.
  apply (wp_elim (ra_run at_time k evs) (fun tr s' => map ev_time tr = map fst evs /\
    Forall (fun e => let '(RaEvent t p p') := e in no_step p p' \/ climbed t s p p' \/ fell t s p p') tr /\
    (Forall (fun e => unwrapped (g_step_gap_j s) e.1) evs -> paced (g_step_gap_j s) tr))).
  eapply ra_run_spec; [exact Hclk|exact Hr|exact Hk|exact Hg|exact Hev|].
  intros tr s' Et Ho Hp. split; [exact Et|]. split; [|intros Hu; by apply Hp]. eapply Forall_impl; [exact Ho|]. by intros [].
Qed.

(** A world that is a clock standing still. *)
Definition still : Type := Z.
#[local] Instance still_env : AckEnv still := {
  os_jiffies w := (w, w);
  os_msecs_to_jiffies ms := ms;
  time_s w := 0;
  os_malloc _ w := (true, w);
  halow_tx_p _ _ _ _ w := (0, w);
  halow_get_tx_vacancy _ := 40000;
  halow_config_mcs _ := 2;
  statistics_radio_register_tx_package _ w := w;
  halow_tx_vacancy_watchdog w := w;
}.
Definition ra_demo : ack_state still :=
  mkAck (mkAckConfig 3 250 1 5 20 10 4 1 4000 5 2) (fun _ => 0) [] (replicate ACK_BUF_N None) 10 4
    [peer_zero <| tx_mcs := 2 |> <| in_use := true |>] 0 0 1 0 0 5 60000 1000 1000 1000 1000 12 51 2 0 0 0.
(** Three clean ACKs, four retransmissions in a row and more, then ACKs. *)
Definition ra_demo_evs : list (Z * feedback) :=
  [(5000, OnAck); (5100, OnAck); (6200, OnAck); (7500, OnRetrans); (7510, OnRetrans); (7520, OnRetrans);
   (7530, OnRetrans); (7540, OnRetrans); (7550, OnRetrans); (7560, OnRetrans); (7570, OnDrop); (7600, OnDrop);
   (8700, OnDrop); (9000, OnAck)].

Lemma ra_rate_governed_witness :
  (exists tr s', ra_run (fun t _ => t) 0 ra_demo_evs ra_demo = Some (tr, s') /\ map ev_time tr = map fst ra_demo_evs /\
    Forall (fun e => let '(RaEvent t p p') := e in no_step p p' \/ climbed t ra_demo p p' \/ fell t ra_demo p p') tr /\
    (Forall (fun e => unwrapped 1000 e.1) ra_demo_evs -> paced 1000 tr)) /\
  match ra_run (fun t _ => t) 0 ra_demo_evs ra_demo with
  | Some (tr, _) => map (fun e => tx_mcs (ev_after e)) tr = [3; 3; 4; 4; 4; 4; 4; 4; 4; 4; 3; 3; 2; 2]
  | None => False
  end.
Proof.
  split; [|vm_compute; reflexivity].
  apply (ra_rate_governed (fun t _ => t) ra_demo 0 (peer_zero <| tx_mcs := 2 |> <| in_use := true |>)).
  - done.
  - split; [by_eval|]. split; [done|]. intros p [= <-]. constructor; rsimpl; [by_eval|cbn; lia|by_eval].
  - reflexivity.
  - cbn. lia.
  - unfold ra_demo_evs. repeat (apply Forall_cons; split; [by_eval|]). by apply Forall_nil.
Defined.

(** Two steps down within 100 jiffies: the first ends a gap at [2 ^ 32], which
    is stored as 0. *)
Lemma ra_gap_lost_at_wrap :
  match ra_run (fun t _ => t) 0 [(2 ^ 32 - 1000, OnAck); (2 ^ 32 - 900, OnAck)]
          (ra_demo <| g_peers := [peer_zero <| tx_mcs := 5 |> <| in_use := true |> <| loss_q8 := 255 |>] |>) with
  | Some (tr, _) => map (fun e => (tx_mcs (ev_before e), tx_mcs (ev_after e))) tr = [(5, 4); (4, 3)]
  | None => False
  end.
Proof. vm_compute. reflexivity. Qed.
