(* ===== verification/AckRelease.v ===== *)
(** * What a bitmap ACK releases: properties

    The frames a received ACK frees at the sender, against the set of bundles
    the receiver that sent it has seen. *)

From S2P Require Import Prelude Monad ConfigDb AckWire AckPeer AckState AckRate AckConfig AckTx.
From S2P Require Import AckRx AckInv AckQuiet AckSafe AckSafeTx AckSafeRx.

Section Release.
Context {W : Type} `{AckEnv W}.
#[local] Abbreviation st := (ack_state W).
Implicit Types s : st.

#[local] Instance any_world : WorldOk (fun _ _ => True) (fun _ : W => True).
Proof. by split. Qed.
#[local] Abbreviation any := (fun _ : W => True).
#[local] Abbreviation Quiet := (Quiet any).

(** Frames and peers without timers and statistics. *)
Definition frames s : list (option ack_buf) := v_bufs (view_of s).
Definition roster s : list pv := v_peers (view_of s).
Definition indexed s : Prop := forall i b, g_bufs s !! i = Some (Some b) -> idx b = i.

Lemma frames_at s i : frames s !! i = fmap bview <$> g_bufs s !! i.
Proof. cbn. by rewrite list_lookup_fmap. Qed.
Lemma indexed_frames s s' : frames s' = frames s -> indexed s -> indexed s'.
Proof.
  intros E Hx i b Hb. apply view_buf in Hb. change (frames s' !! i = Some (bview <$> Some b)) in Hb. rewrite E in Hb.
  apply view_buf_inv in Hb as (b' & Hb' & Eb). rewrite <-(Hx _ _ Hb'). exact (f_equal idx Eb).
Qed.

Lemma wp_still {A} (m : M st A) s (Q : A -> st -> Prop) : Quiet m -> dims s ->
  (forall a s', frames s' = frames s -> roster s' = roster s -> dims s' -> Q a s') -> wp m Q s.
Proof.
  intros Hm Hd HQ. eapply quiet_mono; [exact Hm|exact Hd|]. intros a s' Hq. pose proof (quiet_dims _ _ _ Hq Hd).
  destruct Hq as (V & _). apply HQ; unfold frames, roster; by rewrite ?V.
Qed.

Lemma buf_acked_frames i s (Q : unit -> st -> Prop) b : dims s -> indexed s -> g_bufs s !! i = Some (Some b) ->
  (forall s', frames s' = <[i := None]> (frames s) -> roster s' = roster s -> dims s' -> Q tt s') ->
  wp (buf_acked i) Q s.
Proof.
  intros Hd Hx Hi HQ. unfold buf_acked.
  assert (Hget : forall s', frames s' = frames s -> exists b', g_bufs s' !! i = Some (Some b') /\ idx b' = i).
  { intros s' E. assert (Hf : frames s' !! i = Some (Some (bview b))) by (rewrite E, frames_at, Hi; done).
    apply view_buf_inv in Hf as (b' & Hb' & _). exists b'. split; [done|]. by apply (indexed_frames _ _ E Hx). }
  apply wp_bind. unfold buf_get. apply wp_bind, wp_gets, (wp_lift _ b); [by rewrite Hi|].
  apply wp_bind, wp_still; [apply _|done|]. intros n1 s1 F1 R1 D1.
  apply wp_bind, wp_still; [apply _|done|]. intros n2 s2 F2 R2 D2.
  apply wp_bind, wp_still; [apply Quiet_rtt_record|done|]. intros _ s3 F3 R3 D3.
  assert (Hend : forall s', frames s' = frames s -> roster s' = roster s -> dims s' ->
    wp (buf_release i;; bump s_acked) Q s').
  { intros s' F' R' D'. destruct (Hget s' F') as (b' & Hb' & Ex). apply wp_bind. unfold buf_release, buf_get.
    apply wp_bind, wp_bind, wp_gets, (wp_lift _ b'); [by rewrite Hb'|].
    assert (Hfin : forall s4, g_bufs s4 = g_bufs s' -> g_peers s4 = g_peers s' ->
      wp (modify (fun s => s <| g_heap_bytes ::= fun n => u32 (n - buf_alloc_sz (cap b')) |>
        <| g_bufs ::= fun l => <[idx b' := None]> l |> <| g_used_n ::= fun n => u8 (n - 1) |>))
        (fun _ => wp (bump s_acked) Q) s4).
    { intros s4 E4 P4. apply wp_modify, wp_modify, HQ.
      - unfold frames, view_of. rsimpl. rewrite E4, Ex, list_fmap_insert. exact (f_equal _ F').
      - unfold roster, view_of. rsimpl. rewrite P4. exact R'.
      - unfold dims. rsimpl. rewrite length_insert, E4, P4. exact D'. }
    apply wp_bind, wp_when; intros _; [apply wp_modify|]; by apply Hfin. }
  assert (F : frames s3 = frames s) by congruence. assert (R : roster s3 = roster s) by congruence.
  apply wp_bind, wp_when; intros _; [|by apply Hend].
  apply wp_modify. apply Hend; done.
Qed.

(** ** The whole ACK *)

Definition release (m : list Z) (base bm : Z) (o : option ack_buf) : option ack_buf :=
  match o with
  | Some b => if bitmap_covers m base bm b then None else Some b
  | None => None
  end.

Lemma release_step {A} (f : A -> A) l i o o' : l !! i = Some o -> f o = o' ->
  <[i := o']> (map f (take i l) ++ drop i l) = map f (take (S i) l) ++ drop (S i) l.
Proof.
  intros Hi <-. pose proof (lookup_lt_Some _ _ _ Hi) as Hl.
  rewrite (take_S_r _ _ _ Hi), map_app, <-app_assoc. cbn [map app].
  rewrite insert_app_r_alt by (rewrite length_map, length_take; lia).
  rewrite length_map, length_take. replace (i - i `min` length l)%nat with 0%nat by lia.
  by rewrite (drop_S _ _ _ Hi).
Qed.

Lemma release_loop k m base bm F R s (Q : unit -> st -> Prop) : (k < 16)%nat -> dims s -> indexed s ->
  frames s = F -> roster s = R ->
  (forall s', frames s' = map (release m base bm) F -> roster s' = R -> Q tt s') ->
  wp (mfor (indices ACK_BUF_N) (fun i =>
    o ← buf_slot i;
    match o with
    | Some b => when (bitmap_covers m base bm b)
                  (buf_acked i;; peer_upd k (fun p => p <| acked ::= fun n => u32 (n + 1) |>))
    | None => mret tt
    end)) Q s.
Proof.
  intros Hk Hd Hx HF HR HQ.
  assert (HlF : length F = ACK_BUF_N).
  { rewrite <-HF. unfold frames. cbn. rewrite length_fmap. apply Hd. }
  apply (wp_mfor_seq _ _ _ (fun i s' => frames s' = map (release m base bm) (take i F) ++ drop i F /\
    roster s' = R /\ dims s' /\ indexed s')).
  - by rewrite drop_0, HF.
  - intros i s' [_ Hi] (F' & R' & D' & X'). assert (Hlt : (i < length (g_bufs s'))%nat) by (rewrite (proj1 D'); lia).
    destruct (lookup_lt_is_Some_2 _ _ Hlt) as [o Ho].
    assert (Hfo : F !! i = Some (bview <$> o)).
    { pose proof (frames_at s' i) as E. rewrite F', Ho in E. rewrite lookup_app_r in E
        by (rewrite length_map, length_take; lia).
      rewrite length_map, length_take, lookup_drop in E.
      by replace (i + (i - i `min` length F))%nat with i in E by lia. }
    apply wp_bind. unfold buf_slot. apply wp_bind, wp_gets, (wp_lift _ o); [done|].
    assert (Hsame : forall s2, frames s2 = frames s' -> release m base bm (bview <$> o) = bview <$> o ->
      frames s2 = map (release m base bm) (take (S i) F) ++ drop (S i) F).
    { intros s2 -> E. rewrite <-(release_step _ _ _ _ _ Hfo eq_refl), E, F'. symmetry. apply list_insert_id.
      rewrite lookup_app_r by (rewrite length_map, length_take; lia).
      rewrite length_map, length_take, lookup_drop. by replace (i + (i - i `min` length F))%nat with i by lia. }
    destruct o as [b|]; [|apply wp_ret; split; [by apply Hsame|done]].
    apply wp_when; intros Hc.
    + apply wp_bind, (buf_acked_frames _ _ _ b); [done..|]. intros s2 F2 R2 D2.
      apply wp_still; [by apply Quiet_count_acked|done|]. intros _ s3 F3 R3 D3.
      rewrite F3, F2, F', R3, R2. split; [|split; [done|split; [done|]]].
      * apply (release_step _ _ _ _ _ Hfo). cbn [release fmap option_fmap option_map].
        change (bitmap_covers m base bm (bview b)) with (bitmap_covers m base bm b). by rewrite Hc.
      * intros j c Hj. pose proof (view_buf _ _ _ Hj) as Hv. change (frames s3 !! j = Some (bview <$> Some c)) in Hv.
        rewrite F3, F2 in Hv. destruct (decide (i = j)) as [<-|Hne].
        { rewrite list_lookup_insert_eq in Hv; [done|]. unfold frames. cbn. by rewrite length_fmap. }
        rewrite list_lookup_insert_ne in Hv by done. apply view_buf_inv in Hv as (c' & Hc' & E).
        rewrite <-(X' _ _ Hc'). exact (f_equal idx E).
    + split; [|done]. apply Hsame; [done|]. cbn [release fmap option_fmap option_map].
      change (bitmap_covers m base bm (bview b)) with (bitmap_covers m base bm b). by rewrite Hc.
  - intros s' (F' & R' & _). apply HQ; [|done]. rewrite F', take_ge, drop_ge by (rewrite HlF; done).
    apply app_nil_r.
Qed.

Lemma rx_env_ack_frames k p evm base bm s (Q : unit -> st -> Prop) : dims s -> indexed s -> g_peers s !! k = Some p ->
  -128 <= evm < 128 -> is_u16 base -> is_u64 bm ->
  (forall s', frames s' = map (release (mac p) base bm) (frames s) -> roster s' = roster s -> Q tt s') ->
  wp (rx_env_ack_locked k (env_ack_frame evm base bm)) Q s.
Proof.
  intros Hd Hx Hk He Hb Hbm HQ. assert (Hk16 : (k < 16)%nat).
  { apply lookup_lt_Some in Hk. destruct Hd as [_ Hp]. rewrite Hp in Hk. exact Hk. }
  unfold rx_env_ack_locked. cbv zeta. rewrite (env_ack_bitmap_frame evm base bm Hbm).
  destruct (env_ack_fields evm base bm He Hb) as (-> & -> & _).
  apply wp_bind, wp_still; [apply _|done|]. intros _ s1 F1 R1 D1.
  apply wp_bind, wp_still; [apply _|done|]. intros _ s2 F2 R2 D2.
  apply wp_bind, wp_still; [apply _|done|]. intros _ s3 F3 R3 D3.
  apply wp_bind, wp_still; [by apply (Quiet_note_ack_evm (fun _ _ => True))|done|]. intros _ s4 F4 R4 D4.
  assert (R : roster s4 = roster s) by congruence. assert (F : frames s4 = frames s) by congruence.
  apply view_peer in Hk. change (roster s !! k = Some (pview p)) in Hk. rewrite <-R in Hk.
  apply view_peer_inv in Hk as (p4 & Hk4 & E4).
  apply wp_bind. unfold peer_at. apply wp_bind, wp_gets, (wp_lift _ p4); [done|].
  replace (mac p4) with (mac p) by exact (f_equal pv_mac E4).
  apply (release_loop k (mac p) base bm (frames s4) (roster s4)); [done|done|by eapply indexed_frames|done|done|].
  intros s' F' R'. apply HQ; congruence.
Qed.
End Release.

(** The bitmap fits its 64 bits. *)
Lemma ack_bitmap_u64 w : is_u64 (ack_bitmap w).
Proof.
  unfold ack_bitmap. assert (Hl : forall l bm, Forall (fun i => 0 <= i < 64) l -> is_u64 bm ->
    is_u64 (fold_left (fun bm i => if Z.testbit w (HALOW_ACK_SEQ_WINDOW - 1 - i) then Z.lor bm (Z.shiftl 1 i) else bm) l bm)).
  { induction l as [|i l IH]; intros bm Hf Hb; cbn [fold_left]; [done|]. apply Forall_cons in Hf as [Hi Hf].
    apply IH; [done|]. destruct (Z.testbit _ _); [|done]. apply lor_u64; [done|]. rewrite Z.shiftl_1_l.
    split; [apply Z.pow_nonneg; lia|apply Z.pow_lt_mono_r; lia]. }
  apply Hl; [|by_eval]. apply Forall_forall. intros i Hi%elem_of_seqZ. lia.
Qed.

Lemma capture_inv p base bm : env_ack_capture_locked p = Some (base, bm) ->
  base = u16 (rx_seq_last p - (HALOW_ACK_SEQ_WINDOW - 1)) /\ is_u64 bm.
Proof.
  unfold env_ack_capture_locked. destruct (negb _); [discriminate|]. intros E%(inj Some)%pair_eq.
  destruct E as [<- <-]. split; [done|apply ack_bitmap_u64].
Qed.

(** The frame is one the ACK [(base, bm)] of peer [m] can speak about. *)
Definition bundle_in_flight (m : list Z) (b : ack_buf) : Prop :=
  state b = ACK_BUF_INFLIGHT /\ mac_eq (dest_mac b) m = true /\ seq b <> 0xFFFF.

Lemma covers_in_flight m base bm b : bundle_in_flight m b -> bitmap_covers m base bm b = ack_covers base bm (seq b).
Proof.
  intros (E1 & E2 & E3). unfold bitmap_covers, ack_covers. rewrite E1, E2.
  rewrite (proj2 (Z.eqb_neq _ _)) by done. by rewrite bool_decide_eq_true_2.
Qed.
Lemma covers_inv m base bm b : bitmap_covers m base bm b = true -> bundle_in_flight m b /\ ack_covers base bm (seq b) = true.
Proof.
  unfold bitmap_covers. intros Hc. apply andb_true_iff in Hc as [Hc Hcov]. apply andb_true_iff in Hc as [Hc Hs].
  apply andb_true_iff in Hc as [Hst Hm]. split; [|exact Hcov].
  split; [by apply bool_decide_eq_true_1 in Hst|]. split; [done|]. by apply negb_true_iff, Z.eqb_neq in Hs.
Qed.


(** Six bundles in flight to [mac 2;0;0;0;0;1], one to another peer; the
    receiver got five of the six, around the wrap of the sequence numbers. *)
Definition flying (i : nat) (m : list Z) (sq : Z) : option ack_buf :=
  Some (mkBuf ACK_BUF_INFLIGHT 0 0 i 8 8 77 sq m 900 900 [0xA5; 0x5A; 0x10; 0; 0; 1; 0; 0]).
Definition peer_a : list Z := [2; 0; 0; 0; 0; 1].
Definition release_peer : ack_peer := peer_zero <| in_use := true |> <| mac := peer_a |> <| tx_mcs := 255 |>.
Definition release_demo : ack_state Z :=
  mkAck (mkAckConfig 3 250 1 5 20 10 4 1 4000 5 2) (fun _ => 0) []
    (flying 0 peer_a 65530 :: flying 1 peer_a 65531 :: flying 2 peer_a 65532 :: flying 3 peer_a 0 ::
     flying 4 peer_a 1 :: flying 5 [2; 0; 0; 0; 0; 9] 65530 :: flying 6 peer_a 65533 :: replicate 9 None) 16 16
    (release_peer :: replicate 15 peer_zero)
    7 7 1 252 0 5 60000 1000 1000 1000 1000 12 51 2 0 0 0.
#[local] Instance release_env : AckEnv Z := {
  os_jiffies w := (1000 + w, w + 1);
  os_msecs_to_jiffies ms := ms;
  time_s w := 0;
  os_malloc _ w := (true, w);
  halow_tx_p _ _ _ _ w := (0, w);
  halow_get_tx_vacancy _ := 40000;
  halow_config_mcs _ := 2;
  statistics_radio_register_tx_package _ w := w;
  halow_tx_vacancy_watchdog w := w;
}.
Definition released_at (s : ack_state Z) : list bool :=
  map (fun o => match o with Some _ => false | None => true end) (take 7 (g_bufs s)).

