(* ===== verification/AckOps.v ===== *)
(** * The reliability layer under every interleaving

    All operations of [halow_ack.c] as one type, the tasks that interfere
    while the mutex is free, and the theorems about every interleaving of
    them from start-up on. *)

From S2P Require Import Prelude Monad ConfigDb AckWire AckPeer AckState AckRate AckConfig AckTx.
From S2P Require Import AckRx AckTick AckInv AckQuiet AckSafe AckSafeTx AckSafeRx AckSafeTick.

(** ** Operations and interference *)

Inductive ack_op :=
  | OpTx (payload dest : list Z)
  | OpFlush
  | OpTxReady
  | OpRx (payload : option (list Z)) (src : list Z) (dst : option (list Z)) (evm : Z)
  | OpMalformed
  | OpTick
  | OpConfigApply (cfg : option ack_config)
  | OpConfigGetLive
  | OpCwndSet (v : Z)
  | OpStatsGet
  | OpPeerStats (mac : option (list Z))
  | OpRadioQuiet
  | OpLinkBusy.

Section Ops.
Context {W : Type} `{AckEnv W} `{Kvdb W}.
#[local] Abbreviation st := (ack_state W).
(** [1u << n] for [n >= 32], and [os_jiffies_to_msecs]. *)
Context (shl_oob os_jiffies_to_msecs : Z -> Z).

Definition run_op (others : option nat -> st -> st) (op : ack_op) : M st unit :=
  match op with
  | OpTx x m => halow_ack_tx others (Some x) (Some m);; mret tt
  | OpFlush => halow_ack_flush others
  | OpTxReady => halow_ack_tx_ready others;; mret tt
  | OpRx x src dst evm => halow_ack_on_rx others shl_oob x src dst evm;; mret tt
  | OpMalformed => halow_ack_env_malformed
  | OpTick => halow_ack_tick others
  | OpConfigApply c => halow_ack_config_apply others c
  | OpConfigGetLive => halow_ack_config_get_live others;; mret tt
  | OpCwndSet v => halow_ack_cwnd_set v
  | OpStatsGet => halow_ack_stats_get others;; mret tt
  | OpPeerStats m => halow_ack_peer_stats_by_mac others os_jiffies_to_msecs m;; mret tt
  | OpRadioQuiet => halow_ack_radio_quiet;; mret tt
  | OpLinkBusy => halow_ack_link_busy;; mret tt
  end.

(** The operations [choose n s] that other tasks complete while the mutex is
    free in state [s]; while they run, others run up to depth [n].  Every
    operation that reads or writes the tables takes the mutex, so between two
    of these points no other task can touch them.  Four do not take it:
    [halow_ack_env_malformed] counts up one statistic, [halow_ack_radio_quiet]
    and [halow_ack_link_busy] read two words each and write nothing, and
    [halow_ack_cwnd_set] has no caller.  They too run at these points only. *)
Variable choose : nat -> st -> list ack_op.
Definition run (m : M st unit) (s : st) : st := match m s with Some (_, s') => s' | None => s end.
Fixpoint interference (n : nat) (mine : option nat) (s : st) : st :=
  match n with
  | O => s
  | S n => fold_left (fun s op => run (run_op (interference n) op) s) (choose n s) s
  end.

(** ** Every operation keeps the invariant *)

Context (submitted : list Z -> list Z -> Prop) (P : W -> Prop) `{!WorldOk submitted P} `{!StoreOk P}.

(** The caller's side: addresses are six bytes, what is sent was submitted
    and is not of a size that takes the plain tracked path (4015 to 4022
    bytes; the frame switch, the only caller, submits frames of its decoder,
    of at most 2048 bytes, see [PkgProps]), settings have their C types. *)
Definition op_ok (op : ack_op) : Prop :=
  match op with
  | OpTx x m => mac_ok m /\ submitted m x /\ plain_sized x = false
  | OpRx _ src _ _ => mac_ok src
  | OpConfigApply (Some c) => ack_cfg_typed c
  | OpCwndSet v => 0 <= v
  | _ => True
  end.

Lemma run_op_At K others op s0 d s (R : unit -> st -> Prop) : others_ok submitted P K others ->
  At submitted P K s0 d s -> op_ok op -> (forall s', At submitted P K s0 d s' -> R tt s') ->
  wp (run_op others op) R s.
Proof using All.
  intros Ho HA Hop HR.
  assert (Hret : forall {A} (a : A) s', At submitted P K s0 d s' -> wp (mret tt) R s') by (intros; by apply wp_ret, HR).
  destruct op; cbn [run_op op_ok] in *.
  - destruct Hop as (Hm & Hx & Hp). apply wp_bind, (halow_ack_tx_At submitted P K others Ho dest payload s0 d); [done..|].
    intros r e s' HA' He _. rewrite (He Hp) in HA'. apply (Hret _ r). by replace d with (d + 0) by lia.
  - by apply (halow_ack_flush_At submitted P K others Ho s0 d).
  - apply wp_bind, (halow_ack_tx_ready_At submitted P K others Ho s0 d); [done|]. by apply Hret.
  - apply wp_bind, (halow_ack_on_rx_At submitted P K others Ho shl_oob payload src dst evm s0 d); [done..|]. by apply Hret.
  - eapply wp_quiet; [apply _|exact HA|]. intros [] s' HA' _. by apply HR.
  - by apply (halow_ack_tick_At submitted P K others Ho s0 d).
  - apply (halow_ack_config_apply_At submitted P K others Ho cfg s0 d); [done| |done]. by intros c ->.
  - apply wp_bind, (locked_read_At submitted P K others Ho g_ack_cfg s0 d); [done|]. by apply Hret.
  - by apply (halow_ack_cwnd_set_At submitted P K v s0 d).
  - apply wp_bind, (locked_read_At submitted P K others Ho _ s0 d); [done|]. by apply Hret.
  - apply wp_bind, (peer_stats_At submitted P K others Ho _ mac s0 d); [done|]. by apply Hret.
  - apply wp_bind. eapply wp_quiet; [|exact HA|]. { unfold halow_ack_radio_quiet. quiet_auto. }
    intros r s' HA' _. by apply (Hret _ r).
  - apply wp_bind. eapply wp_quiet; [|exact HA|]. { unfold halow_ack_link_busy. quiet_auto. }
    intros r s' HA' _. by apply (Hret _ r).
Qed.

Lemma run_At K others op s : others_ok submitted P K others -> Inv submitted P s -> op_ok op ->
  At submitted P K s 0 (run (run_op others op) s).
Proof using All.
  intros Ho HI Hop. pose proof (At_refl submitted P K s HI) as HA.
  pose proof (run_op_At K others op s 0 s (fun _ s' => At submitted P K s 0 s') Ho HA Hop (fun _ h => h)) as Hw.
  unfold run. unfold wp in Hw. by destruct (run_op others op s) as [[[] s']|].
Qed.

Hypothesis Hchoose : forall n s, Forall op_ok (choose n s).

(** Interference of any depth keeps every promise. *)
Lemma interference_ok n : forall K, others_ok submitted P K (interference n).
Proof using All.
  induction n as [|n IH]; intros K mine s HI; cbn [interference]; [by apply At_refl|].
  assert (Hfold : forall ops s', Forall op_ok ops -> At submitted P (with_mine K mine) s 0 s' ->
    At submitted P (with_mine K mine) s 0 (fold_left (fun s op => run (run_op (interference n) op) s) ops s')).
  { induction ops as [|op ops IHo]; intros s' Hops HA'; [done|]. apply Forall_cons in Hops as [Hop Hops].
    cbn [fold_left]. apply IHo; [done|]. replace 0 with (0 + 0) by lia. eapply At_trans; [exact HA'|].
    apply run_At; [apply IH|apply HA'|done]. }
  apply Hfold; [apply Hchoose|by apply At_refl].
Qed.

(** Start-up, then any operations of this task. *)
Lemma history_ok n ops s : boot_ok P s -> Forall op_ok ops ->
  wp (halow_ack_init;; mfor ops (run_op (interference n)))
    (fun _ s' => Inv submitted P s' /\ ack_held s' = ack_held s) s.
Proof using All.
  intros HB Hops. apply wp_bind, (halow_ack_init_ok submitted P); [done|]. intros s1 HI1 E1 _.
  assert (HA : At submitted P (fun _ => False) s1 0 s1) by (by apply At_refl).
  apply (wp_mono _ (fun _ s' => At submitted P (fun _ => False) s1 0 s')).
  2: { intros _ s' (HI' & _ & E'). split; [done|]. lia. }
  apply (wp_mfor _ _ (At submitted P (fun _ => False) s1 0)); [done| |done].
  intros op s' Hin HA'. rewrite Forall_forall in Hops.
  apply (run_op_At (fun _ => False) _ op s1 0); [apply interference_ok|done|by apply Hops|done].
Qed.
End Ops.

(** ** The world with a record of the air *)

(** Every frame handed to the radio, with its destination. *)
Definition logged (B : Type) : Type := B * list (list Z * list Z).

#[export] Instance logged_env B `{AckEnv B} : AckEnv (logged B) := {
  os_jiffies w := let '(j, b) := os_jiffies w.1 in (j, (b, w.2));
  os_msecs_to_jiffies := os_msecs_to_jiffies;
  time_s w := time_s w.1;
  os_malloc n w := let '(ok, b) := os_malloc n w.1 in (ok, (b, w.2));
  halow_tx_p frame dest mcs tid w :=
    let '(r, b) := halow_tx_p frame dest mcs tid w.1 in (r, (b, w.2 ++ [(frame, dest)]));
  halow_get_tx_vacancy w := halow_get_tx_vacancy w.1;
  halow_config_mcs w := halow_config_mcs w.1;
  statistics_radio_register_tx_package n w := (statistics_radio_register_tx_package n w.1, w.2);
  halow_tx_vacancy_watchdog w := (halow_tx_vacancy_watchdog w.1, w.2);
}.
#[export] Instance logged_kvdb B `{Kvdb B} : Kvdb (logged B) := {
  fdb_kv_set_blob key v w := let '(r, b) := fdb_kv_set_blob key v w.1 in (r, (b, w.2));
  fdb_kv_get_blob key n w := fdb_kv_get_blob key n w.1;
}.

Definition air_ok {B} (submitted : list Z -> list Z -> Prop) (w : logged B) : Prop :=
  Forall (fun fd => wire submitted fd.1 fd.2) w.2.

#[export] Instance logged_ok B `{AckEnv B} submitted : WorldOk submitted (air_ok (B := B) submitted).
Proof.
  split; unfold air_ok; cbn; intros.
  - by destruct (os_jiffies w.1).
  - by destruct (os_malloc n w.1).
  - destruct (halow_tx_p frame dest mcs tid w.1). cbn. apply Forall_app. split; [done|]. by apply Forall_cons.
  - done.
  - done.
Qed.

Lemma set_i32_air {B} `{Kvdb B} submitted key v (w : logged B) :
  air_ok submitted w -> air_ok submitted (configdb_set_i32 key v w).2.
Proof.
  intros Hw. unfold configdb_set_i32. destruct v as [v|]; [|done].
  destruct (configdb_get_i32 key (Some 0) w) as [res cur]. destruct (_ && _); [done|].
  cbn. destruct (fdb_kv_set_blob key (le32 v) w.1) as [r b]. by destruct (negb (r =? 0)).
Qed.
Lemma save_air {B} `{Kvdb B} submitted c (w : logged B) :
  air_ok submitted w -> air_ok submitted (halow_ack_config_save c w).
Proof.
  intros Hw. unfold halow_ack_config_save, configdb_set_i8, configdb_set_i16. cbv zeta.
  do 11 (apply set_i32_air). exact Hw.
Qed.
#[export] Instance logged_store B `{Kvdb B} submitted : StoreOk (air_ok (B := B) submitted).
Proof.
  split; [intros; by apply save_air|]. intros w Hw. unfold halow_ack_config_load.
  destruct (configdb_get_i16 _ _ w) as [rc ver]. destruct (_ || _); [|done]. cbv zeta. cbn [snd].
  unfold configdb_set_i16. apply set_i32_air, save_air, Hw.
Qed.
