(* ===== verification/AckProps.v ===== *)
(** * The reliability layer under every interleaving: properties

    What holds after start-up whatever the application submits, whatever
    arrives from the radio and however the tasks interleave at the points
    where the mutex is free; and the one path on which the mutex leaks. *)

From S2P Require Import Prelude Monad ConfigDb AckWire AckPeer AckState AckRate AckConfig AckTx.
From S2P Require Import AckRx AckTick AckInv AckQuiet AckSafe AckSafeTx AckSafeRx AckSafeTick AckOps.
From stdpp Require Import strings.
#[local] Open Scope Z_scope.

(** ** A concrete world for the witnesses *)

(** A clock that advances at every reading, a store, and a radio that accepts
    every frame. *)
Definition bench : Type := Z * gmap string (list Z).
#[export] Instance bench_env : AckEnv bench := {
  os_jiffies w := (w.1, (w.1 + 1, w.2));
  os_msecs_to_jiffies ms := ms;
  time_s w := w.1 / 1000;
  os_malloc _ w := (true, w);
  halow_tx_p _ _ _ _ w := (0, w);
  halow_get_tx_vacancy _ := 40000;
  halow_config_mcs _ := 2;
  statistics_radio_register_tx_package _ w := w;
  halow_tx_vacancy_watchdog w := w;
}.
#[export] Instance bench_kvdb : Kvdb bench := {
  fdb_kv_set_blob key v w := (0, (w.1, <[key := v]> w.2));
  fdb_kv_get_blob key n w := fdb_kv_get_blob key n w.2;
}.

Definition power_on {W} (w : W) : ack_state W :=
  mkAck (mkAckConfig 0 0 0 0 0 0 0 0 0 0 0) (fun _ => 0) [] (replicate ACK_BUF_N None) 0 0
    (replicate ACK_MAX_PEERS peer_zero) 0 0 0 0 0 0 0 0 0 0 0 0 0 0 0 0 w.

Lemma power_on_ok {W} (P : W -> Prop) w : P w -> boot_ok P (power_on w).
Proof.
  intros Hw. constructor; [done|done| |done]. intros i b Hb. apply lookup_replicate in Hb. naive_solver.
Qed.

Definition mac1 : list Z := [2; 0; 0; 0; 0; 1].
Definition mac2 : list Z := [2; 0; 0; 0; 0; 2].
Definition bench_sent (m x : list Z) : Prop := (m = mac1 \/ m = mac2) /\ plain_sized x = false.
Definition bench_ops : list ack_op :=
  [OpTx [1; 2; 3] mac1; OpTx [4; 5] mac1; OpTx [6] mac2; OpFlush; OpTick;
   OpRx (Some [0xE1; 9; 9]) mac1 (Some mac2) 0; OpStatsGet].
(** Whenever the mutex is free, a receive task hands in a frame and the tick
    task runs. *)
Definition bench_choose {W} (n : nat) (s : ack_state W) : list ack_op :=
  if g_used_n s =? 0 then [] else [OpRx (Some [1; 2; 3; 4]) mac2 (Some mac1) 3; OpTick].

Lemma bench_mac1 : mac_ok mac1.
Proof. split; [done|by_eval]. Qed.
Lemma bench_mac2 : mac_ok mac2.
Proof. split; [done|by_eval]. Qed.
Lemma bench_ops_ok : Forall (op_ok bench_sent) bench_ops.
Proof.
  unfold bench_ops. rewrite !Forall_cons. cbn [op_ok]. unfold bench_sent.
  repeat match goal with |- _ /\ _ => split end;
    first [done|apply bench_mac1|apply bench_mac2|apply Forall_nil; done|by left|by right].
Qed.
Lemma bench_choose_ok {W} n (s : ack_state W) : Forall (op_ok bench_sent) (bench_choose n s).
Proof.
  unfold bench_choose. destruct (_ =? _); [by apply Forall_nil|]. rewrite !Forall_cons. cbn [op_ok].
  repeat match goal with |- _ /\ _ => split end; first [done|apply bench_mac2|by apply Forall_nil].
Qed.
Lemma bench_boot : boot_ok (air_ok bench_sent) (power_on ((1000, ∅), []) : ack_state (logged bench)).
Proof. apply power_on_ok, Forall_nil. done. Qed.

(** ** Properties *)

Section Histories.
Context {B : Type} `{!AckEnv B} `{!Kvdb B}.

(** Start-up and then [ops], while other tasks complete what [choose] picks
    whenever the mutex is free (while they run, others run, [n] deep). *)
Definition history (shl_oob os_jiffies_to_msecs : Z -> Z) (choose : nat -> ack_state (logged B) -> list ack_op)
    (n : nat) (ops : list ack_op) : M (ack_state (logged B)) unit :=
  halow_ack_init;;
  mfor ops (run_op shl_oob os_jiffies_to_msecs (interference shl_oob os_jiffies_to_msecs choose n)).
End Histories.

(** C1: every history of the reliability layer runs without a fault and leaves
    its tables consistent.  From start-up on, for every sequence of submitted
    and received frames, ticks, flushes and settings changes, and for every
    choice of operations that the other tasks complete whenever the mutex is
    free (also while a frame is being transmitted), no access leaves a buffer
    or follows a freed one; all counters agree with the tables (buffers used
    and in flight, peers, heap bytes); every staged bundle is well formed and
    owned by exactly one peer; no frame has been retried more than 8 times;
    the congestion window stays within the window; and the mutex is held as
    often as before.  Payloads of 4015 to 4022 bytes are excluded, see
    [tx_plain_success_leaks_mutex]. *)
Theorem ack_interleavings_safe {B} `{!AckEnv B} `{!Kvdb B} (submitted : list Z -> list Z -> Prop)
    shl_oob j2ms choose n ops (s : ack_state (logged B)) :
  (forall n s, Forall (op_ok submitted) (choose n s)) -> Forall (op_ok submitted) ops ->
  boot_ok (air_ok submitted) s ->
  exists s', history shl_oob j2ms choose n ops s = Some (tt, s') /\
    tables_ok submitted (view_of s') /\ ack_held s' = ack_held s.
Proof.
  intros Hc Hops Hs.
  pose proof (history_ok shl_oob j2ms choose submitted (air_ok submitted) Hc n ops s Hs Hops) as Hw.
  apply wp_elim in Hw as ([] & s' & E & [Ht _] & Hh). eauto.
Qed.

Lemma ack_interleavings_safe_witness :
  exists s', history (fun _ => 0) id bench_choose 2 bench_ops (power_on ((1000, ∅), [])) = Some (tt, s') /\
    tables_ok bench_sent (view_of s') /\ ack_held s' = 0.
Proof.
  apply (ack_interleavings_safe (B := bench) bench_sent); [apply bench_choose_ok|apply bench_ops_ok|apply bench_boot].
Defined.

(** C2: whatever the history and the interleaving, everything this module puts
    on the air for a destination is an application payload submitted for that
    destination, byte for byte; or a bundle of at most 8 of them, intact and
    in submission framing; or an acknowledgement. *)
Theorem ack_air_integrity {B} `{!AckEnv B} `{!Kvdb B} (submitted : list Z -> list Z -> Prop)
    shl_oob j2ms choose n ops (s : ack_state (logged B)) :
  (forall n s, Forall (op_ok submitted) (choose n s)) -> Forall (op_ok submitted) ops ->
  boot_ok (air_ok submitted) s ->
  exists s', history shl_oob j2ms choose n ops s = Some (tt, s') /\
    Forall (fun '(frame, dest) => wire submitted frame dest) (world s').2.
Proof.
  intros Hc Hops Hs.
  pose proof (history_ok shl_oob j2ms choose submitted (air_ok submitted) Hc n ops s Hs Hops) as Hw.
  apply wp_elim in Hw as ([] & s' & E & (_ & Ha & _) & _). exists s'. split; [exact E|].
  eapply Forall_impl; [exact Ha|]. by intros [].
Qed.

Lemma ack_air_integrity_witness :
  (exists s', history (fun _ => 0) id bench_choose 2 bench_ops (power_on ((1000, ∅), [])) = Some (tt, s') /\
    Forall (fun '(frame, dest) => wire bench_sent frame dest) (world s').2) /\
  match history (fun _ => 0) id bench_choose 2 bench_ops (power_on ((1000, (∅ : gmap string (list Z))), [])) with
  | Some (_, s') => length (world s').2
  | None => 0%nat
  end = 25%nat.
Proof.
  split.
  - apply (ack_air_integrity (B := bench) bench_sent); [apply bench_choose_ok|apply bench_ops_ok|apply bench_boot].
  - vm_compute. reflexivity.
Defined.

(** The plain path of the tracked unicast, entered with the mutex just taken. *)
Definition plain_tx {B} `{!AckEnv B} (others : option nat -> ack_state (logged B) -> ack_state (logged B))
    k x m pmcs : M (ack_state (logged B)) Z :=
  ack_lock;; tx_plain_locked others k x m pmcs.

(** The plain tracked path gives the mutex back only when it fails.  After
    any history, once the mutex is taken for a payload on the plain path,
    [tx_plain_locked] returns with the mutex released when it throttles but
    still held when the frame was sent: the next task that takes it blocks. *)
Theorem tx_plain_success_leaks_mutex {B} `{!AckEnv B} `{!Kvdb B} (submitted : list Z -> list Z -> Prop)
    shl_oob j2ms choose n ops (s0 s : ack_state (logged B)) k m x pmcs :
  (forall n s, Forall (op_ok submitted) (choose n s)) -> Forall (op_ok submitted) ops ->
  boot_ok (air_ok submitted) s0 -> history shl_oob j2ms choose n ops s0 = Some (tt, s) ->
  peer_is k m s -> submitted m x -> blen x < 65536 ->
  exists r s', plain_tx (interference shl_oob j2ms choose n) k x m pmcs s = Some (r, s') /\
    ack_held s' = ack_held s + (if r =? 0 then 1 else 0).
Proof.
  intros Hc Hops Hs Hrun Hk Hx Hlen.
  pose proof (wp_eq _ _ _ _ _ (history_ok shl_oob j2ms choose submitted (air_ok submitted) Hc n ops s0 Hs Hops) Hrun)
    as [HI _].
  pose proof (interference_ok shl_oob j2ms choose submitted (air_ok submitted) Hc n (fun _ => False)) as Ho.
  apply (wp_elim (plain_tx _ k x m pmcs) (fun r s' => ack_held s' = ack_held s + (if r =? 0 then 1 else 0))).
  apply wp_bind, wp_modify.
  apply (tx_plain_locked_At submitted _ _ _ Ho k m x pmcs s 1); [|exact Hk|exact Hx|exact Hlen|].
  - split; [exact HI|]. split; [apply keep_refl|reflexivity].
  - intros r s' (_ & _ & E). rewrite E. destruct (r =? 0); lia.
Qed.

Definition leak_payload : list Z := replicate 4015 7.
Definition leak_prior : list ack_op := [OpTx [1; 2; 3] mac1; OpFlush].
Definition leak_boot : ack_state (logged bench) := power_on ((1000, ∅), []).
Definition leak_before : ack_state (logged bench) :=
  run (history (fun _ => 0) id (fun _ _ => []) 0 leak_prior) leak_boot.
Lemma leak_before_peer : peer_is 0 mac1 leak_before.
Proof.
  unfold peer_is. assert (E : (fun p => (in_use p, mac p)) <$> g_peers leak_before !! 0%nat = Some (true, mac1))
    by (vm_compute; reflexivity).
  revert E. generalize (g_peers leak_before !! 0%nat). intros [p|] E; [|discriminate]. injection E as E1 E2. eauto.
Qed.
Lemma run_runs {W} (m : M (ack_state W) unit) s :
  match m s with Some _ => true | None => false end = true -> m s = Some (tt, run m s).
Proof. unfold run. by destruct (m s) as [[[] s']|]. Qed.
Lemma leak_runs :
  match history (fun _ => 0) id (fun _ _ => []) 0 leak_prior leak_boot with Some _ => true | None => false end = true.
Proof. vm_compute. reflexivity. Qed.
Lemma leak_before_run :
  history (fun _ => 0) id (fun _ _ => []) 0 leak_prior leak_boot = Some (tt, leak_before).
Proof.
  unfold leak_before. generalize leak_boot (history (B := bench) (fun _ => 0) id (fun _ _ => []) 0 leak_prior) leak_runs.
  exact (fun s m => run_runs m s).
Qed.

(** The hypotheses hold after one ordinary transmission, and sending 4015
    bytes to the same peer through [halow_ack_tx] returns 0 with the mutex
    held once more. *)
Lemma tx_plain_success_leaks_mutex_witness :
  (exists r s', plain_tx (interference (fun _ => 0) id (fun _ _ => []) 0) 0 leak_payload mac1 2 leak_before = Some (r, s') /\
    ack_held s' = ack_held leak_before + (if r =? 0 then 1 else 0)) /\
  match halow_ack_tx (interference (fun _ => 0) id (fun _ _ => []) 0) (Some leak_payload) (Some mac1) leak_before with
  | Some (r, s') => (r, ack_held s') = (0, 1)
  | None => False
  end.
Proof.
  split.
  - apply (tx_plain_success_leaks_mutex (fun _ _ => True) (fun _ => 0) id (fun _ _ => []) 0 leak_prior leak_boot).
    + intros. by apply Forall_nil.
    + unfold leak_prior. rewrite !Forall_cons. cbn [op_ok].
      repeat match goal with |- _ /\ _ => split end; first [done|apply bench_mac1|by apply Forall_nil].
    + by apply power_on_ok, Forall_nil.
    + apply leak_before_run.
    + apply leak_before_peer.
    + done.
    + reflexivity.
  - vm_compute. reflexivity.
Defined.

(** ** Two behaviours the configuration and the protocol run into *)

(** With a window of one frame, the TCP side is never told to go on: the
    readiness test asks for two free places in a window of one. *)
Theorem window_one_never_ready {W} `{AckEnv W} submitted (P : W -> Prop) `{!WorldOk submitted P} others
    (s : ack_state W) :
  others_ok submitted P (fun _ => False) others -> Inv submitted P s ->
  window (g_ack_cfg s) = 1 -> max_retries (g_ack_cfg s) <> 0 ->
  exists s', halow_ack_tx_ready others s = Some (false, s').
Proof.
  intros Ho HI Hw Hr. unfold halow_ack_tx_ready, gets, ack_lock, modify, mbind, M_bind, mret, M_ret.
  rewrite (proj2 (Z.eqb_neq _ _) Hr). destruct (_ <? ACK_TX_VACANCY_LOW); [by eexists|].
  pose proof (t_window _ _ (proj1 HI)) as E. change (g_window s = window (g_ack_cfg s)) in E.
  pose proof (t_cwnd _ _ (proj1 HI)) as Hc. change (0 <= g_cwnd s <= g_window s) in Hc.
  pose proof (t_infl _ _ (proj1 HI)) as Hi. change (g_inflight_n s = tsum live (v_bufs (view_of s))) in Hi.
  pose proof (tsum_nonneg live (v_bufs (view_of s)) ltac:(intros b; unfold live; case_decide; lia)).
  unfold eff_window. rsimpl. rewrite E, Hw in *.
  replace (g_inflight_n s + 2 <=? _) with false; [by eexists|]. symmetry. apply Z.leb_gt.
  destruct (g_cwnd s <? 1); lia.
Qed.

(** A bundle that was already delivered is consumed without a sound: nothing
    is sent, so a sender whose ACK was lost hears of it only with the ACK of
    a later bundle. *)
Theorem duplicate_bundle_not_acked {W} `{AckEnv W} others shl_oob subs sq src dst evm (s : ack_state W) k p :
  (forall m s, others m s = s) -> is_u16 sq -> subs_ok subs -> (0 < length subs)%nat -> Z.of_nat (length subs) < 256 ->
  peer_find src s = Some k -> g_peers s !! k = Some p -> seq_already_delivered p sq = true ->
  exists s', halow_ack_on_rx others shl_oob (Some (bundle_frame sq subs)) src dst evm s = Some (false, s') /\
    world s' = world s.
Proof.
  intros Ho Hsq Hok Hne Hn Hf Hk Hd.
  destruct (bundle_frame_spec sq subs Hsq Hok Hne Hn) as (E1 & _ & E3 & _ & E5 & _).
  assert (Hv : halow_env_ver (bundle_frame sq subs) = HALOW_ENV_VER) by reflexivity.
  assert (Ht : halow_env_type (bundle_frame sq subs) = HALOW_ENV_TYPE_BUNDLE) by reflexivity.
  assert (Hl : HALOW_ENV_BUNDLE_HDR + 2 <=? blen (bundle_frame sq subs) = true).
  { apply Z.leb_le. destruct subs as [|x subs]; [cbn in Hne; lia|]. unfold bundle_frame. rewrite body_cons, !blen_app.
    pose proof (blen_nonneg x). pose proof (blen_nonneg (bundle_body subs)).
    change (blen (bundle_header sq (Z.of_nat (length (x :: subs))))) with 6. change (blen (le16 (blen x))) with 2.
    unfold HALOW_ENV_BUNDLE_HDR. lia. }
  destruct (wp_elim (halow_ack_on_rx others shl_oob (Some (bundle_frame sq subs)) src dst evm)
    (fun r s' => r = false /\ world s' = world s) s) as (r & s' & E & -> & Hw); [|by exists s'].
  unfold halow_ack_on_rx. rewrite E1. apply wp_bind. unfold rx_env. rewrite E5, E3, Hv, Ht, Hl.
  change (HALOW_ENV_VER =? HALOW_ENV_VER) with true. change (HALOW_ENV_TYPE_BUNDLE =? HALOW_ENV_TYPE_ACK) with false.
  cbn [andb negb]. cbv zeta. change (HALOW_ENV_TYPE_BUNDLE =? HALOW_ENV_TYPE_BUNDLE) with true. cbn [andb negb].
  apply wp_bind, wp_modify, wp_bind, wp_gets. set (s1 := s <| ack_held ::= _ |>).
  assert (Hf1 : peer_find src s1 = Some k) by exact Hf. assert (Hk1 : g_peers s1 !! k = Some p) by exact Hk.
  rewrite Hf1. apply wp_bind, wp_bind. unfold peer_at at 1. apply wp_bind, wp_gets, (wp_lift _ p); [done|]. cbv zeta.
  rewrite Hd. apply wp_bind. unfold peer_upd, peer_at.
  apply wp_bind, wp_bind, wp_gets, (wp_lift _ p); [done|]. apply wp_modify, wp_bind, wp_modify, wp_bind, wp_modify, wp_ret.
  apply wp_bind. unfold ack_unlock. apply wp_bind, wp_modify, wp_modify, wp_ret, wp_ret. by rewrite Ho.
Qed.
