(* ===== verification/AckDeadline.v ===== *)
(** * Deadlines of the reliability layer: properties

    No frame outlives its slot: the periodic service leaves no frame in
    flight past its lifetime, and the lifetime is bounded. *)

From S2P Require Import Prelude Monad ConfigDb AckWire AckPeer AckState AckRate AckConfig AckTx.
From S2P Require Import AckRx AckTick AckInv AckQuiet AckSafe AckSafeTx AckSafeRx AckSafeTick AckOps AckProps.

Section Deadline.
Context {W : Type} `{AckEnv W} `{Kvdb W}.
#[local] Abbreviation st := (ack_state W).
Implicit Types s : st.

(** The time of the service and the lifetime, in jiffies. *)
Context (now life_j : Z).

(** The age is positive: a frame born after [now], while the service had
    released the mutex, has an age that wraps to [2 ^ 31] or more. *)
Definition expired (b : ack_buf) : Prop := life_j <= u32 (now - born_jiff b) < 2 ^ 31.
(** Slot [j] holds a frame in flight past its lifetime. *)
Definition overdue s (j : nat) : Prop :=
  exists b, g_bufs s !! j = Some (Some b) /\ state b = ACK_BUF_INFLIGHT /\ expired b.
Definition no_new s s' : Prop := forall j, overdue s' j -> overdue s j.

Lemma no_new_refl s : no_new s s.
Proof. by intros j. Qed.
Lemma no_new_trans s1 s2 s3 : no_new s1 s2 -> no_new s2 s3 -> no_new s1 s3.
Proof. intros H1 H2 j Hj. auto. Qed.
Lemma no_new_bufs s s' : g_bufs s' = g_bufs s -> no_new s s'.
Proof. intros E j. unfold overdue. by rewrite E. Qed.

(** ** Statements that put no expired frame in flight *)

Class Lets {A} (m : M st A) := lets : forall s a s', m s = Some (a, s') -> no_new s s'.

#[export] Instance Lets_ret {A} (a : A) : Lets (mret a).
Proof. intros s a' s' [= _ <-]. apply no_new_refl. Qed.
#[export] Instance Lets_gets {A} (f : st -> A) : Lets (gets f).
Proof. intros s a' s' [= _ <-]. apply no_new_refl. Qed.
#[export] Instance Lets_lift {A} (o : option A) : Lets (lift o).
Proof. intros s a' s' E. unfold lift in E. destruct o; [|done]. injection E as _ <-. apply no_new_refl. Qed.
#[export] Instance Lets_bind {A B} (m : M st A) (k : A -> M st B) :
  Lets m -> (forall a, Lets (k a)) -> Lets (m ≫= k).
Proof.
  intros Hm Hk s b s' E. unfold mbind, M_bind in E. destruct (m s) as [[a s1]|] eqn:E1; [|done].
  eapply no_new_trans; [by eapply Hm|by eapply Hk].
Qed.
#[export] Instance Lets_when c (m : M st unit) : Lets m -> Lets (when c m).
Proof. intros Hm. destruct c; [exact Hm|apply _]. Qed.
Lemma Lets_modify (f : st -> st) : (forall s, g_bufs (f s) = g_bufs s) -> Lets (modify f).
Proof. intros Hf s a s' [= _ <-]. by apply no_new_bufs. Qed.
Lemma Lets_mfor {A} (l : list A) (body : A -> M st unit) : (forall a, Lets (body a)) -> Lets (mfor l body).
Proof. intros Hb. induction l; cbn [mfor]; apply _. Qed.

#[export] Instance Lets_ext {A} (f : W -> A * W) : Lets (ext f).
Proof. intros s a s' E. unfold ext in E. destruct (f (world s)). injection E as _ <-. by apply no_new_bufs. Qed.
#[export] Instance Lets_now_j : Lets now_j.
Proof. unfold now_j. apply _. Qed.
#[export] Instance Lets_bump k : Lets (bump k).
Proof. by apply Lets_modify. Qed.
#[export] Instance Lets_peer_at k : Lets (peer_at k).
Proof. unfold peer_at. apply _. Qed.
#[export] Instance Lets_peer_upd k f : Lets (peer_upd k f).
Proof. unfold peer_upd. apply Lets_bind; [apply _|]. intros p. by apply Lets_modify. Qed.

(** A frame may be removed, or changed without becoming overdue. *)
Lemma no_new_insert s s' i o : g_bufs s' = <[i := o]> (g_bufs s) ->
  (forall b, o = Some b -> state b = ACK_BUF_INFLIGHT -> expired b -> overdue s i) -> no_new s s'.
Proof.
  intros E Ho j (b & Hj & Hs & Hx). rewrite E in Hj.
  apply list_lookup_insert_Some in Hj as [(-> & -> & _)|[_ Hj]]; [by apply (Ho b)|by exists b].
Qed.

#[export] Instance Lets_buf_release i : Lets (buf_release i).
Proof.
  unfold buf_release, buf_get. apply Lets_bind; [apply _|]. intros b.
  apply Lets_bind; [apply Lets_when; by apply Lets_modify|]. intros _ s a s' [= _ <-].
  by eapply (no_new_insert _ _ (idx b) None).
Qed.

Lemma Lets_buf_upd i f : (forall b, state (f b) = state b /\ born_jiff (f b) = born_jiff b) -> Lets (buf_upd i f).
Proof.
  intros Hf s a s' E. unfold buf_upd, buf_get, gets, lift, modify, mbind, M_bind in E.
  destruct (g_bufs s !! i) as [[b|]|] eqn:Hi; cbn in E; try discriminate.
  injection E as _ <-. eapply (no_new_insert _ _ i (Some (f b))); [done|]. intros b' [= <-] Hs Hx.
  destruct (Hf b) as [E1 E2]. exists b. unfold expired in *. by rewrite <-E1, <-E2.
Qed.

Ltac lets_step :=
  lazymatch goal with
  | |- Lets (_ ≫= _) => apply Lets_bind; [|intros ?]
  | |- Lets (when _ _) => apply Lets_when
  | |- Lets (mfor _ _) => apply Lets_mfor; intros ?
  | |- Lets (match ?x with _ => _ end) => destruct x
  | |- Lets (modify _) => apply Lets_modify; intros ?; reflexivity
  | |- Lets (buf_upd _ _) => apply Lets_buf_upd; intros ?; split; reflexivity
  | |- Lets _ => apply _
  end.
Ltac lets_auto := cbv zeta; repeat (lets_step; cbv zeta).

#[export] Instance Lets_note_collapse k : Lets (ra_note_collapse k).
Proof. unfold ra_note_collapse, ra_kick_inflight, buf_slot. lets_auto. Qed.
#[export] Instance Lets_downshift k : Lets (ra_downshift k).
Proof. unfold ra_downshift. lets_auto. Qed.
#[export] Instance Lets_in_grace k : Lets (ra_in_grace k).
Proof. unfold ra_in_grace. lets_auto. Qed.
#[export] Instance Lets_on_drop k : Lets (ra_on_drop k).
Proof. unfold ra_on_drop. lets_auto. Qed.
#[export] Instance Lets_on_retrans k : Lets (ra_on_retrans k).
Proof. unfold ra_on_retrans. lets_auto. Qed.
#[export] Instance Lets_note_drop c k : Lets (note_drop c k).
Proof. unfold note_drop. lets_auto. Qed.
#[export] Instance Lets_cwnd : Lets cwnd_on_retrans_timeout.
Proof. unfold cwnd_on_retrans_timeout. lets_auto. Qed.

(** ** Sending one frame *)

(** Other tasks put no expired frame in flight, and the frame this task is
    sending stays. *)
Definition calm (others : option nat -> st -> st) : Prop :=
  (forall mine s, no_new s (others mine s)) /\
  (forall i s b, g_bufs s !! i = Some (Some b) -> state b = ACK_BUF_SENDING ->
     exists b', g_bufs (others (Some i) s) !! i = Some (Some b') /\ state b' = ACK_BUF_SENDING /\
       born_jiff b' = born_jiff b).
Context (others : option nat -> st -> st) (Hcalm : calm others).

Lemma bind_inv {A B} (m : M st A) (k : A -> M st B) s b s' : (m ≫= k) s = Some (b, s') ->
  exists a s1, m s = Some (a, s1) /\ k a s1 = Some (b, s').
Proof. unfold mbind, M_bind. destruct (m s) as [[a s1]|]; [eauto|done]. Qed.

(** Slot [i] holds a frame on the air that has not expired. *)
Definition sending s i : Prop :=
  exists b, g_bufs s !! i = Some (Some b) /\ state b = ACK_BUF_SENDING /\ ~ expired b.

Lemma sending_others s i : sending s i -> no_new s (others (Some i) s) /\ sending (others (Some i) s) i.
Proof using Hcalm.
  intros (b & Hi & Hs & Hx). destruct Hcalm as [Hn Hk]. split; [apply Hn|].
  destruct (Hk i s b Hi Hs) as (b' & Hi' & Hs' & Eb). exists b'. unfold expired in *. by rewrite Eb.
Qed.

Lemma buf_tx_air_lets i pmcs s a s' : sending s i -> buf_tx_air others i pmcs s = Some (a, s') -> no_new s s'.
Proof using Hcalm.
  intros Hsend E. unfold buf_tx_air in E.
  apply bind_inv in E as (? & s1 & E1 & E). unfold ack_unlock in E1. apply bind_inv in E1 as (? & s0 & E0 & E1).
  injection E0 as _ <-. injection E1 as _ <-. set (s0 := s <| ack_held ::= _ |>) in *.
  destruct (sending_others s0 i Hsend) as [N1 S1]. set (s1 := others (Some i) s0) in *. clearbody s1.
  assert (N : no_new s s1) by exact N1. clear N1 s0.
  apply bind_inv in E as (b & s2 & E2 & E).
  assert (s2 = s1) as ->. { unfold buf_get in E2. apply bind_inv in E2 as (? & ? & [= <- <-] & E2). unfold lift in E2.
    destruct (mjoin _); [by injection E2 as _ <-|done]. }
  apply bind_inv in E as (bytes & s2 & E3 & E).
  assert (s2 = s1) as ->. { unfold lift in E3. destruct (rd_n _ _ _); [by injection E3 as _ <-|done]. }
  apply bind_inv in E as (? & s2 & E4 & E). apply bind_inv in E as (now' & s3 & E5 & E).
  assert (B3 : g_bufs s3 = g_bufs s1).
  { unfold halow_tx, ext in E4. destruct (halow_tx_p _ _ _ _ _). injection E4 as _ <-.
    unfold now_j in E5. apply bind_inv in E5 as (? & ? & E5 & E6). unfold ext in E5. destruct (os_jiffies _).
    injection E5 as _ <-. by injection E6 as _ <-. }
  apply bind_inv in E as (? & s4 & [= _ <-] & E). apply bind_inv in E as (? & s5 & [= _ <-] & E).
  apply bind_inv in E as (? & s6 & [= _ <-] & E).
  set (s4 := s3 <| g_last_data_tx_jiff := _ |>) in *.
  assert (S4 : sending s4 i) by (unfold sending in *; subst s4; rsimpl; by rewrite B3).
  destruct (sending_others s4 i S4) as [N4 (b5 & H5 & Hs5 & Hx5)]. set (s5 := others (Some i) s4) in *. clearbody s5.
  assert (N' : no_new s s5). { eapply no_new_trans; [exact N|]. eapply no_new_trans; [|exact N4]. by apply no_new_bufs. }
  eapply no_new_trans; [exact N'|]. clear -E H5 Hs5 Hx5.
  apply bind_inv in E as (b & s7 & E7 & E). unfold buf_get in E7. apply bind_inv in E7 as (? & ? & [= <- <-] & E7).
  rsimpl. rewrite H5 in E7. injection E7 as <- <-. rewrite bool_decide_eq_true_2 in E by done. cbn [when] in E.
  unfold buf_upd, buf_get, gets, lift, modify, mbind, M_bind in E. rsimpl. rewrite H5 in E. cbn in E. injection E as _ <-.
  eapply (no_new_insert _ _ i); [done|]. by intros b' [= <-] _.
Qed.

(** ** Statements that leave the frames alone *)

Definition same_bufs {A} (m : M st A) : Prop := forall s a s', m s = Some (a, s') -> g_bufs s' = g_bufs s.

Lemma same_bind {A B} (m : M st A) (k : A -> M st B) : same_bufs m -> (forall a, same_bufs (k a)) -> same_bufs (m ≫= k).
Proof.
  intros Hm Hk s b s' E. apply bind_inv in E as (a & s1 & E1 & E). rewrite (Hk _ _ _ _ E). by eapply Hm.
Qed.
Lemma same_ret {A} (a : A) : same_bufs (mret a).
Proof. by intros s ? s' [= _ <-]. Qed.
Lemma same_gets {A} (f : st -> A) : same_bufs (gets f).
Proof. by intros s ? s' [= _ <-]. Qed.
Lemma same_modify (f : st -> st) : (forall s, g_bufs (f s) = g_bufs s) -> same_bufs (modify f).
Proof. intros Hf s ? s' [= _ <-]. apply Hf. Qed.
Lemma same_when c m : same_bufs m -> same_bufs (when c m).
Proof. intros Hm. destruct c; [exact Hm|apply same_ret]. Qed.
Lemma same_now : same_bufs now_j.
Proof.
  apply same_bind; [|intros; apply same_ret]. intros s a s' E. unfold ext in E. destruct (os_jiffies _).
  by injection E as _ <-.
Qed.
Lemma same_peer_at k : same_bufs (peer_at k).
Proof.
  apply same_bind; [apply same_gets|]. intros o s a s' E. unfold lift in E. destruct o; [by injection E as _ <-|done].
Qed.
Lemma same_peer_upd k f : same_bufs (peer_upd k f).
Proof. apply same_bind; [apply same_peer_at|]. intros p. by apply same_modify. Qed.

Ltac same_step :=
  lazymatch goal with
  | |- same_bufs (_ ≫= _) => apply same_bind; [|intros ?]
  | |- same_bufs (mret _) => apply same_ret
  | |- same_bufs (gets _) => apply same_gets
  | |- same_bufs (when _ _) => apply same_when
  | |- same_bufs now_j => apply same_now
  | |- same_bufs (peer_at _) => apply same_peer_at
  | |- same_bufs (peer_upd _ _) => apply same_peer_upd
  | |- same_bufs (modify _) => apply same_modify; intros ?; reflexivity
  | |- same_bufs (match ?x with _ => _ end) => destruct x
  end.
Ltac same_auto := cbv zeta; repeat (same_step; cbv zeta).

(** What a retransmission does before it sends. *)
Definition before_resend (i k : nat) (first_retry : bool) (now : Z) : M st Z :=
  buf_upd i (fun b => b <| retries_used ::= fun n => u8 (n + 1) |> <| tx_jiff := now |>);;
  bump s_retransmitted;;
  peer_upd k (fun p => p <| retransmitted ::= fun n => u32 (n + 1) |>);;
  when first_retry cwnd_on_retrans_timeout;;
  ra_on_retrans k;;
  p ← peer_at k;
  mret (tx_mcs p).

(** Slot [i] holds a frame in flight that has not expired. *)
Definition in_time s i : Prop :=
  exists b, g_bufs s !! i = Some (Some b) /\ state b = ACK_BUF_INFLIGHT /\ ~ expired b.

Lemma resend_rest_same k c : same_bufs (bump s_retransmitted;;
  peer_upd k (fun p => p <| retransmitted ::= fun n => u32 (n + 1) |>);;
  when c cwnd_on_retrans_timeout;; ra_on_retrans k;; p ← peer_at k; mret (tx_mcs p)).
Proof. unfold bump, stat_set, cwnd_on_retrans_timeout, ra_on_retrans, ra_in_grace. same_auto. Qed.

Lemma before_resend_spec i k c t s m s' : in_time s i -> before_resend i k c t s = Some (m, s') ->
  no_new s s' /\ in_time s' i.
Proof.
  intros (b & Hi & Hs & Hx) E. unfold before_resend in E. apply bind_inv in E as (? & s1 & E1 & E).
  unfold buf_upd, buf_get, gets, lift, modify, mbind, M_bind in E1. rewrite Hi in E1. cbn in E1. injection E1 as _ <-.
  apply (resend_rest_same k c) in E. rsimpl. split.
  - eapply (no_new_insert _ _ i); [exact E|]. intros b' [= <-] Hs' Hx'. by exists b.
  - eexists. rewrite E, list_lookup_insert_eq by (by eapply lookup_lt_Some). split; [done|]. by split.
Qed.

Lemma buf_tx_send_lets i pmcs s a s' : in_time s i -> buf_tx_send others i pmcs s = Some (a, s') -> no_new s s'.
Proof using Hcalm.
  intros (b & Hi & Hs & Hx) E. unfold buf_tx_send in E. apply bind_inv in E as (? & s1 & E1 & E).
  unfold buf_tx_mark, buf_upd, buf_get, gets, lift, modify, mbind, M_bind in E1. rewrite Hi in E1. cbn in E1.
  rewrite Hs, bool_decide_eq_false_2 in E1 by done. cbn in E1. rewrite Hi in E1. cbn in E1. injection E1 as _ <-.
  eapply no_new_trans; [|eapply buf_tx_air_lets; [|exact E]].
  - eapply (no_new_insert _ _ i); [done|]. by intros b' [= <-] ?.
  - eexists. rsimpl. rewrite list_lookup_insert_eq by (by eapply lookup_lt_Some). split; [done|]. by split.
Qed.

Lemma resend_lets i t s a s' : in_time s i -> buf_retransmit_or_drop others i t s = Some (a, s') -> no_new s s'.
Proof using Hcalm.
  intros Hy E. pose proof Hy as (b & Hi & Hs & Hx). unfold buf_retransmit_or_drop in E.
  apply bind_inv in E as (b' & s1 & E1 & E). unfold buf_get, gets, lift, mbind, M_bind in E1. rewrite Hi in E1.
  injection E1 as <- <-. apply bind_inv in E as (found & s1 & [= <- <-] & E).
  destruct (peer_find _ s) as [k|]; [|by apply (lets (m := buf_release i)) in E].
  apply bind_inv in E as (r & s1 & [= <- <-] & E). destruct (_ <=? _).
  - revert E. apply (lets (m := buf_release i;; note_drop drop_exhaust k;; ra_on_drop k)).
  - cbv zeta in E.
    assert (E' : (before_resend i k (retries_used b =? 0) t ≫= fun m => buf_tx_send others i m) s = Some (a, s')).
    { rewrite <-E. unfold before_resend, mbind, M_bind.
      repeat (match goal with |- context [match match ?m with Some _ => _ | None => _ end with Some _ => _ | None => _ end] =>
        destruct m as [[]|]; cbn end; try done). }
    apply bind_inv in E' as (m & s1 & E1 & E2). destruct (before_resend_spec _ _ _ _ _ _ _ Hy E1) as [N1 Y1].
    eapply no_new_trans; [exact N1|]. by eapply buf_tx_send_lets.
Qed.

(** ** The scan *)

Lemma service_buf_spec tmo_j i s a s' : (forall b, g_bufs s !! i = Some (Some b) -> idx b = i) ->
  service_buf others now tmo_j life_j i s = Some (a, s') -> no_new s s' /\ ~ overdue s' i.
Proof using Hcalm.
  intros Hx E. unfold service_buf in E. apply bind_inv in E as (o & s1 & E1 & E).
  unfold buf_slot, gets, lift, mbind, M_bind in E1. destruct (g_bufs s !! i) as [o'|] eqn:Hi; [|done].
  injection E1 as <- <-.
  assert (Hstay : forall b, o' = Some b -> state b <> ACK_BUF_INFLIGHT \/ ~ expired b -> ~ overdue s i).
  { intros b -> Hb (c & Hc & Hs & He). rewrite Hi in Hc. injection Hc as <-. by destruct Hb. }
  assert (Hend : no_new s s' -> ~ overdue s i -> no_new s s' /\ ~ overdue s' i) by (intros Hn Ho; split; [done|]; intros Hc; by apply Ho, Hn).
  destruct o' as [b|].
  2: { injection E as _ <-. split; [apply no_new_refl|]. intros (c & Hc & _). by rewrite Hi in Hc. }
  destruct (bool_decide_reflect (state b = ACK_BUF_INFLIGHT)) as [Hs|Hs]; cbn [negb] in E.
  2: { injection E as _ <-. apply Hend; [apply no_new_refl|]. eauto. }
  destruct (Z.leb_spec life_j (u32 (now - born_jiff b))) as [He|He].
  - unfold buf_drop_deadline in E. apply bind_inv in E as (b1 & s1 & E1 & E).
    unfold buf_get, gets, lift, mbind, M_bind in E1. rewrite Hi in E1. injection E1 as <- <-.
    apply bind_inv in E as (found & s1 & [= <- <-] & E). apply bind_inv in E as (? & s1 & E1 & E).
    pose proof (lets (m := buf_release i) _ _ _ E1) as N1.
    assert (Hnone : ~ overdue s1 i).
    { unfold buf_release, buf_get, gets, lift, modify, when, mbind, M_bind in E1. rewrite Hi in E1. cbn in E1.
      rewrite bool_decide_eq_false_2 in E1 by congruence. cbn in E1. injection E1 as <- <-.
      intros (c & Hc & _). rsimpl. rewrite (Hx b) in Hc by done.
      rewrite list_lookup_insert_eq in Hc by (by eapply lookup_lt_Some). done. }
    assert (N2 : no_new s1 s').
    { destruct (peer_find _ s); revert E; apply lets; apply _. }
    split; [by eapply no_new_trans|]. intros Hc. by apply Hnone, N2.
  - assert (Hno : ~ overdue s i) by (apply (Hstay b); [done|right; unfold expired; lia]).
    apply bind_inv in E as (bo & s1 & [= <- <-] & E). destruct (_ <? _); [injection E as _ <-; apply Hend; [apply no_new_refl|done]|].
    apply bind_inv in E as (vac & s1 & [= <- <-] & E). destruct (_ <? _); [injection E as _ <-; apply Hend; [apply no_new_refl|done]|].
    apply Hend; [|done]. eapply resend_lets; [|exact E]. exists b. unfold expired. split; [done|]. split; [done|lia].
Qed.
End Deadline.

(** ** The lifetime of a frame *)

Lemma slot_life_loop_le n i tmo life : life <= ACK_SLOT_LIFE_MAX_MS \/ (0 < n)%nat ->
  slot_life_loop n i tmo life <= ACK_SLOT_LIFE_MAX_MS.
Proof.
  revert i life. induction n as [|n IH]; intros i life Hl; cbn [slot_life_loop]; [lia|]. cbv zeta.
  destruct (Z.leb_spec ACK_SLOT_LIFE_MAX_MS (u32 (life + u32 (Z.shiftl tmo (if i <? 3 then i else 3))))); [lia|].
  apply IH. lia.
Qed.

Lemma slot_life_loop_ge n i tmo life : 0 <= i -> 0 <= tmo <= 300 -> 0 <= life <= ACK_SLOT_LIFE_MAX_MS ->
  life <= slot_life_loop n i tmo life.
Proof.
  intros Hi Ht. revert i Hi life. induction n as [|n IH]; intros i Hi life Hl; cbn [slot_life_loop]; [lia|]. cbv zeta.
  set (sh := Z.shiftl tmo _). assert (Hsh : 0 <= sh <= 2400).
  { subst sh. rewrite Z.shiftl_mul_pow2 by (destruct (i <? 3); lia).
    assert (1 <= 2 ^ (if i <? 3 then i else 3) <= 2 ^ 3).
    { split; [apply (Z.pow_le_mono_r 2 0)|apply Z.pow_le_mono_r]; destruct (Z.ltb_spec i 3); lia. }
    change (2 ^ 3) with 8 in *. nia. }
  unfold ACK_SLOT_LIFE_MAX_MS in *. rewrite !u32_small by word_lia.
  destruct (Z.leb_spec 6000 (life + sh)); [lia|]. specialize (IH (i + 1) ltac:(lia) (life + sh)). lia.
Qed.

Lemma slot_life_bounds {W} (s : ack_state W) : ack_cfg_ok (g_ack_cfg s) ->
  (1 <= max_retries (g_ack_cfg s) \/ 0 <= g_ack_stats s ack_rtt_ewma_ms <= 1000 -> slot_life_ms s <= ACK_SLOT_LIFE_MAX_MS) /\
  (0 <= g_ack_stats s ack_rtt_ewma_ms <= 1000 -> 150 + 4 * timeout_ms (g_ack_cfg s) <= slot_life_ms s).
Proof.
  intros Hc. pose proof (ok_timeout _ Hc) as Ht. unfold slot_life_ms. cbv zeta.
  assert (Hcap : 0 <= g_ack_stats s ack_rtt_ewma_ms <= 1000 ->
    let rtt2 := u32 (g_ack_stats s ack_rtt_ewma_ms * 2) in let four := u32 (timeout_ms (g_ack_cfg s) * 4) in
    timeout_ms (g_ack_cfg s) * 4 <= (if four <? rtt2 then rtt2 else four) <= 2000).
  { intros He. cbv zeta. rewrite !u32_small by word_lia. destruct (Z.ltb_spec (timeout_ms (g_ack_cfg s) * 4) (g_ack_stats s ack_rtt_ewma_ms * 2)); lia. }
  cbv zeta in Hcap. revert Hcap. generalize (if u32 (timeout_ms (g_ack_cfg s) * 4) <? u32 (g_ack_stats s ack_rtt_ewma_ms * 2)
    then u32 (g_ack_stats s ack_rtt_ewma_ms * 2) else u32 (timeout_ms (g_ack_cfg s) * 4)). intros cap Hcap. split.
  - intros Hor. apply slot_life_loop_le. destruct Hor as [Hr|He]; [right; lia|left].
    specialize (Hcap He). unfold ACK_SLOT_LIFE_MAX_MS. rewrite u32_small by word_lia. lia.
  - intros He. specialize (Hcap He). rewrite u32_small by word_lia.
    pose proof (slot_life_loop_ge (Z.to_nat (max_retries (g_ack_cfg s))) 0 (timeout_ms (g_ack_cfg s)) (150 + cap)) as Hge.
    unfold ACK_SLOT_LIFE_MAX_MS in Hge. lia.
Qed.

(** C7: no frame stays in flight past its deadline.  Whatever the state the
    layer is in, one run of the periodic service returns, keeps the
    invariant, and afterwards no slot holds a frame in flight whose age at
    the service time has reached the slot lifetime: it was retransmitted in
    time and acknowledged, or it has been dropped.  The other tasks may do
    anything that keeps the invariant while the mutex is free, sending frames
    included, but put no frame in flight that is that old already (a frame
    born after the service time is not; that the scan drops some of those,
    too, is [tick_drops_newborn]), and they leave the frame this task is
    sending in its slot.  With retries enabled, or a round-trip estimate of
    at most one second, the lifetime is at most 6 s; with such an estimate it
    leaves room for four timeouts. *)
Theorem tick_leaves_no_overdue {W} `{AckEnv W} `{Kvdb W} submitted (P : W -> Prop) `{!WorldOk submitted P}
    `{!StoreOk P} K others (s : ack_state W) now :
  others_ok submitted P K others -> calm now (ms_j (W := W) (slot_life_ms s)) others ->
  Inv submitted P s ->
  (1 <= max_retries (g_ack_cfg s) \/ 0 <= g_ack_stats s ack_rtt_ewma_ms <= 1000 -> slot_life_ms s <= ACK_SLOT_LIFE_MAX_MS) /\
  (0 <= g_ack_stats s ack_rtt_ewma_ms <= 1000 -> 150 + 4 * timeout_ms (g_ack_cfg s) <= slot_life_ms s) /\
  exists s', tick_service_bufs others now s = Some (tt, s') /\ Inv submitted P s' /\
    forall j, ~ overdue now (ms_j (W := W) (slot_life_ms s)) s' j.
Proof.
  intros Ho Hcalm HI. destruct (slot_life_bounds s (t_cfg _ _ (proj1 HI))) as [L1 L2].
  split; [exact L1|]. split; [exact L2|].
  set (life_j := ms_j (slot_life_ms s)) in *.
  destruct (wp_elim (tick_service_bufs others now) (fun _ s' => At submitted P K s 0 s' /\
    forall j, (j < ACK_BUF_N)%nat -> ~ overdue now life_j s' j) s) as ([] & s' & E & HA & Hno).
  - unfold tick_service_bufs. apply wp_bind, wp_gets, wp_bind, wp_gets. cbv zeta. fold life_j.
    apply (wp_mfor_seq _ _ _ (fun i s' => At submitted P K s 0 s' /\ forall j, (j < i)%nat -> ~ overdue now life_j s' j)).
    + split; [by apply At_refl|]. lia.
    + intros i s1 [_ Hi] [HA1 Hno1]. set (tj := if _ =? 0 then 1 else _).
      pose proof (service_buf_At submitted P K others Ho now tj life_j i s 0 s1 (fun _ s' => At submitted P K s 0 s') HA1 Hi (fun _ h => h)) as Hw.
      apply wp_elim in Hw as ([] & s2 & E2 & HA2). unfold wp. rewrite E2. split; [exact HA2|].
      destruct (service_buf_spec now life_j others Hcalm tj i s1 tt s2) as [Hn Hi2]; [|exact E2|].
      { intros b Hb. apply view_buf in Hb. pose proof (t_buf _ _ (proj1 (proj1 HA1)) _ _ Hb) as Hbo. exact (bo_idx _ _ _ Hbo). }
      intros j Hj. destruct (decide (j = i)) as [->|Hne]; [exact Hi2|]. intros Hov. apply (Hno1 j); [lia|]. by apply Hn.
    + intros s1 HA1. exact HA1.
  - exists s'. split; [exact E|]. split; [apply HA|]. intros j Hov. apply (Hno j); [|exact Hov].
    destruct Hov as (b & Hb & _). apply lookup_lt_Some in Hb. destruct (Inv_dims _ _ _ (proj1 HA)) as [<- _]. exact Hb.
Qed.

(** One bundle was put in flight; the service runs 7 s and then 100 ms later,
    while the application keeps narrowing the congestion window. *)
Definition narrowing : option nat -> ack_state (logged bench) -> ack_state (logged bench) :=
  fun _ s => run (halow_ack_cwnd_set 1) s.
Lemma narrowing_ok submitted K : others_ok submitted (air_ok submitted) K narrowing.
Proof.
  intros mine s HI. assert (Hn : others_ok submitted (air_ok (B := bench) submitted) (with_mine K mine) (fun _ s => s)).
  { intros m s' HI'. by apply At_refl. }
  exact (run_At (fun _ => 0) id (fun _ _ => []) submitted (air_ok (B := bench) submitted) (with_mine K mine) _ (OpCwndSet 1) s Hn HI ltac:(done)).
Qed.
Lemma narrowing_calm now life_j : calm now life_j narrowing.
Proof.
  assert (E : forall mine s, g_bufs (narrowing mine s) = g_bufs s).
  { intros mine s. unfold narrowing, run, halow_ack_cwnd_set, mbind, M_bind, gets, modify. cbn. repeat case_match; reflexivity. }
  split; [intros mine s; by apply no_new_bufs|]. intros i s b Hi Hs. exists b. by rewrite E.
Qed.
Lemma leak_before_inv : Inv (fun _ _ => True) (air_ok (fun _ _ => True)) leak_before.
Proof.
  assert (Hops : Forall (op_ok (fun _ _ => True)) leak_prior).
  { unfold leak_prior. rewrite !Forall_cons. cbn [op_ok].
    repeat match goal with |- _ /\ _ => split end; first [done|apply bench_mac1|by apply Forall_nil]. }
  assert (Hb : boot_ok (air_ok (fun _ _ => True)) leak_boot) by (by apply power_on_ok, Forall_nil).
  pose proof (history_ok (fun _ => 0) id (fun _ _ => []) (fun _ _ => True) (air_ok (fun _ _ => True))
    (fun _ _ => Forall_nil_2 _) 0 leak_prior leak_boot Hb Hops) as Hw.
  exact (proj1 (wp_eq _ _ _ _ _ Hw leak_before_run)).
Qed.

Lemma tick_leaves_no_overdue_witness :
  ((1 <= max_retries (g_ack_cfg leak_before) \/ 0 <= g_ack_stats leak_before ack_rtt_ewma_ms <= 1000 ->
     slot_life_ms leak_before <= ACK_SLOT_LIFE_MAX_MS) /\
   (0 <= g_ack_stats leak_before ack_rtt_ewma_ms <= 1000 ->
     150 + 4 * timeout_ms (g_ack_cfg leak_before) <= slot_life_ms leak_before) /\
   exists s', tick_service_bufs narrowing 8000 leak_before = Some (tt, s') /\
     Inv (fun _ _ => True) (air_ok (fun _ _ => True)) s' /\
     forall j, ~ overdue 8000 (ms_j (W := logged bench) (slot_life_ms leak_before)) s' j) /\
  (g_inflight_n leak_before, g_inflight_n (run (tick_service_bufs narrowing 8000) leak_before),
   g_inflight_n (run (tick_service_bufs narrowing 1100) leak_before)) = (1, 0, 1).
Proof.
  split; [|vm_compute; reflexivity].
  apply (tick_leaves_no_overdue (fun _ _ => True) (air_ok (fun _ _ => True)) (fun _ => False) narrowing leak_before 8000).
  - apply narrowing_ok.
  - apply narrowing_calm.
  - apply leak_before_inv.
Defined.

(** ** A frame sent while the service runs *)

(** While the frame in flight is retransmitted, at the service time 1500, the
    application sends three bytes to another node. *)
Definition late_choose (n : nat) (s : ack_state (logged bench)) : list ack_op :=
  if g_inflight_n s =? 1 then [OpTx [5; 6; 7] mac2; OpFlush] else [].
Definition late_state : ack_state (logged bench) := leak_before <| world := ((1501, ∅), []) |>.

(** The scan reaches the new frame, whose age wraps, and drops it as overdue
    a few jiffies after it went on the air; a loss of it is not repaired, and
    the rate controller takes it for evidence. *)
Lemma tick_drops_newborn :
  let s' := run (tick_service_bufs (interference (fun _ => 0) id late_choose 1) 1500) late_state in
  map snd (world s').2 = [mac2; mac1] /\ (g_ack_stats s' drop_deadline, g_inflight_n s') = (1, 1) /\
  g_inflight_n late_state = 1.
Proof. vm_compute. done. Qed.
