(* ===== verification/PkgHandler.v ===== *)
(** * Frame switch between TCP and the radio: [src/halow_pkg_handler.c]

    Frames from the TCP stream get their link registered, their MTU clamped
    and a destination; frames from the radio are taken apart, registered and
    written to the TCP client.  The reliability layer, the link table, the
    parser and the stream codec are the ones of the other files. *)

From S2P Require Import Prelude Monad StreamParser LinkParser LinkDb ConfigDb AckWire AckPeer AckState.
From S2P Require Import AckRate AckConfig AckTx AckRx.

Definition RNS_LINK_MTU_FIXED : Z := 500.

(** What the handler calls outside itself and the modules above. *)
Class PkgEnv (W : Type) := {
  (** [halow_get_mtu(halow_cfg_mcs_get_cached())] *)
  halow_get_mtu_cached : W -> Z * W;
  (** whether the link table's [malloc] succeeds *)
  link_malloc_ok : W -> bool;
  (** [statistics_radio_register_rx_package] *)
  statistics_radio_register_rx_package : Z -> W -> W;
  (** [tcp_server_send_owned] *)
  tcp_server_send_owned : list Z -> W -> Z * W;
}.

(** The counters [g_dbg_rns_*], and [g_tx_dbg.rf_tcp_dropped]. *)
Record pkg_counters := mkCounters {
  g_dbg_rns_rx_calls : Z;
  g_dbg_rns_rx_parse_fail : Z;
  g_dbg_rns_rx_valid : Z;
  g_dbg_rns_rx_reg_ok : Z;
  g_dbg_rns_rx_reg_fail : Z;
  g_dbg_rns_tx_parse_fail : Z;
  rf_tcp_dropped : Z;
}.
#[export] Instance eta_counters : Eta pkg_counters := fun r =>
  mkCounters (g_dbg_rns_rx_calls r) (g_dbg_rns_rx_parse_fail r) (g_dbg_rns_rx_valid r) (g_dbg_rns_rx_reg_ok r)
    (g_dbg_rns_rx_reg_fail r) (g_dbg_rns_tx_parse_fail r) (rf_tcp_dropped r).

Record pkg_state (W : Type) := mkPkg {
  ack : ack_state W;
  g_link_db : link_db;
  counts : pkg_counters;
}.
Arguments mkPkg {_}. Arguments ack {_}. Arguments g_link_db {_}. Arguments counts {_}.
#[export] Instance eta_pkg W : Eta (pkg_state W) := fun r => mkPkg (ack r) (g_link_db r) (counts r).

Section Pkg.
Context {W : Type} `{AckEnv W} `{PkgEnv W}.
#[local] Abbreviation st := (pkg_state W).
(** Interference with the reliability layer, see [AckState]. *)
Variable others : option nat -> ack_state W -> ack_state W.
(** What other tasks (the sweep) do to the link table while it is unlocked. *)
Variable db_others : link_db -> link_db.
(** See [AckPeer] and [LinkParser]. *)
Variable shl_oob : Z -> Z.
Variable sha256 : list Z -> list Z.
(** The uninitialised [packet_info] on the stack. *)
Variable stack_info : packet_info.

Definition on_ack {A} (m : M (ack_state W) A) : M st A := fun s =>
  match m (ack s) with Some (a, k) => Some (a, s <| ack := k |>) | None => None end.
Definition sys {A} (f : W -> A * W) : M st A := on_ack (ext f).
Definition count (f : pkg_counters -> pkg_counters) : M st unit := modify (fun s => s <| counts ::= f |>).

(** [rns_link_db_package_register] on the table of the node. *)
Definition package_register (info : packet_info) (direction : rns_packet_direction) (mac : option (list Z))
    (mtu : Z) (update_mtu unicast_to_me : bool) : M st rns_ret :=
  w ← gets (fun s => world (ack s));
  db ← gets g_link_db;
  r ← lift (rns_link_db_package_register (link_malloc_ok w) db (Some info) direction mac mtu update_mtu
              unicast_to_me (i32 (time_s w)));
  modify (fun s => s <| g_link_db := db_others r.2 |>);;
  mret r.1.

(** ** RF to TCP *)

Definition link_mtu_limit : M st Z :=
  hw ← sys halow_get_mtu_cached;
  mret (if RNS_LINK_MTU_FIXED <? hw then RNS_LINK_MTU_FIXED else hw).

Definition link_effective_mtu (advertised : Z) : M st Z :=
  lim ← link_mtu_limit;
  mret (if (advertised =? 0) || (lim <? advertised) then lim else advertised).

Definition peer_mac_known (mac : list Z) : bool := existsb (fun b => negb (b =? RNS_LINK_MAC_UNKNOWN_BYTE)) mac.

(** The registration block of [deliver_rns_frame]. *)
Definition register_rx (pkg : list Z) (info : packet_info) (src_mac : list Z) (unicast_to_me : bool) : M st unit :=
  let is_linkrequest := bool_decide (packet_type info = RNS_PACKET_TYPE_LINKREQUEST) in
  rx_mtu ← (if is_linkrequest then
              m ← lift (rns_link_utils_get_mtu (Some pkg) (blen pkg) (Some info));
              link_effective_mtu m.2
            else mret 0);
  count (fun c => c <| g_dbg_rns_rx_valid ::= fun n => u32 (n + 1) |>);;
  rr ← package_register info RNS_PACKET_DIRECTION_RX (Some src_mac) rx_mtu is_linkrequest unicast_to_me;
  if decide (rr = RNS_RET_OK) then count (fun c => c <| g_dbg_rns_rx_reg_ok ::= fun n => u32 (n + 1) |>)
  else count (fun c => c <| g_dbg_rns_rx_reg_fail ::= fun n => u32 (n + 1) |>).

(** The last block of [deliver_rns_frame]: the SLIP frame in one buffer. *)
Definition send_to_tcp (pkg : list Z) : M st unit :=
  let esc := rns_stream_escape_size pkg in
  let frame_len := u32 (esc + 2) in
  ok ← sys (os_malloc frame_len);
  if negb ok then mret tt
  else
    frame ← lift (wr (replicate (Z.to_nat frame_len) 0) 0 0x7E);
    frame ← lift (wr_n frame 1 (rns_stream_escape_write pkg));
    frame ← lift (wr frame (frame_len - 1) 0x7E);
    r ← sys (tcp_server_send_owned frame);
    when (negb (r =? 0)) (count (fun c => c <| rf_tcp_dropped ::= fun n => u32 (n + 1) |>)).

Definition deliver_rns_frame (pkg src_mac : list Z) (unicast_to_me : bool) : M st unit :=
  res ← lift (rns_link_parser_parse sha256 (Some pkg) (Some stack_info));
  if negb (bool_decide (res.1 = RNS_RET_OK)) then
    count (fun c => c <| g_dbg_rns_rx_parse_fail ::= fun n => u32 (n + 1) |>)
  else
    info ← lift res.2;
    sys (fun w => (tt, statistics_radio_register_rx_package (blen pkg) w));;
    when (valid info) (register_rx pkg info src_mac unicast_to_me);;
    send_to_tcp pkg.

Fixpoint bundle_split_deliver (pkg : list Z) (nsub : nat) (o : Z) (src_mac : list Z) (unicast_to_me : bool) : M st unit :=
  match nsub with
  | O => mret tt
  | S nsub =>
      let slen := rd16 pkg o in
      sub ← lift (rd_n pkg (o + 2) slen);
      deliver_rns_frame sub src_mac unicast_to_me;;
      bundle_split_deliver pkg nsub (o + 2 + slen) src_mac unicast_to_me
  end.

Definition halow_pkg_handler_rf_to_tcp (pkg src_mac : list Z) (dst_mac : option (list Z)) (evm : Z) : M st unit :=
  deliver ← on_ack (halow_ack_on_rx others shl_oob (Some pkg) src_mac dst_mac evm);
  if negb deliver then mret tt
  else
    count (fun c => c <| g_dbg_rns_rx_calls ::= fun n => u32 (n + 1) |>);;
    let unicast_to_me := match dst_mac with Some d => negb (is_broadcast d) | None => false end in
    if is_env_bundle pkg then
      nsub ← lift (rd pkg 5);
      if negb (bundle_walk_valid pkg HALOW_ENV_BUNDLE_HDR nsub) then on_ack halow_ack_env_malformed
      else bundle_split_deliver pkg (Z.to_nat nsub) HALOW_ENV_BUNDLE_HDR src_mac unicast_to_me
    else deliver_rns_frame pkg src_mac unicast_to_me.

(** ** TCP to RF *)

(** The packet after the clamp. *)
Definition tx_linkrequest_mtu_clamp (pkg : list Z) (info : packet_info) : M st (list Z) :=
  mtu_limit ← link_mtu_limit;
  r ← lift (rns_link_utils_clamp_mtu (Some pkg) (blen pkg) (Some info) mtu_limit);
  let '(_, pkg', original_mtu) := r in
  pkg' ← lift pkg';
  stored_mtu ← link_effective_mtu original_mtu;
  package_register info RNS_PACKET_DIRECTION_TX None stored_mtu true false;;
  mret pkg'.

Definition mac_broadcast : list Z := replicate 6 0xFF.

(** The destination of a packet: the learned MAC of its link, else all. *)
Definition choose_dest (info : packet_info) : M st (list Z) :=
  if negb (valid info) then mret mac_broadcast
  else
    db ← gets g_link_db;
    snap ← lift (rns_link_db_link_snapshot_by_id db (link_id info));
    mret (match snap with
          | Some l => if peer_mac_known (remote_mac l) then remote_mac l else mac_broadcast
          | None => mac_broadcast
          end).

(** The result, and the packet (rewritten in place) that the caller offers
    again after a throttle. *)
Definition halow_pkg_handler_tcp_to_rf (pkg : list Z) : M st (Z * list Z) :=
  res ← lift (rns_link_parser_parse sha256 (Some pkg) (Some stack_info));
  if negb (bool_decide (res.1 = RNS_RET_OK)) then
    count (fun c => c <| g_dbg_rns_tx_parse_fail ::= fun n => u32 (n + 1) |>);;
    mret (0, pkg)
  else
    info ← lift res.2;
    pkg ← (if valid info && bool_decide (packet_type info = RNS_PACKET_TYPE_LINKREQUEST) then
             tx_linkrequest_mtu_clamp pkg info
           else
             when (valid info) (package_register info RNS_PACKET_DIRECTION_TX None 0 false false;; mret tt);;
             mret pkg);
    dest ← choose_dest info;
    r ← on_ack (halow_ack_tx others (Some pkg) (Some dest));
    mret (r, pkg).
End Pkg.
