(* ===== verification/PkgProps.v ===== *)
(** * Frame switch between TCP and the radio: properties *)

From S2P Require Import Prelude Monad StreamParser LinkParser LinkDb ConfigDb AckWire AckPeer AckState.
From S2P Require Import AckRate AckConfig AckTx AckRx AckTick AckInv AckQuiet AckSafe AckSafeTx.
From S2P Require Import AckSafeRx AckSafeTick AckOps AckProps PkgHandler.

(** ** The link table's part of the invariant *)

(** Well formed, and every learned address is six bytes. *)
Definition db_ok (db : link_db) : Prop :=
  wf db /\ forall key l, contents db !! key = Some l -> mac_ok (remote_mac l).

Lemma touch_mac pkg dir mac mtu um uc now l : mac_ok (remote_mac l) -> (forall m, mac = Some m -> mac_ok m) ->
  mac_ok (remote_mac (touch_link pkg dir mac mtu um uc now l)).
Proof.
  intros Hl Hm. unfold touch_link. destruct mac as [m|]; repeat case_match; rsimpl; auto.
Qed.

Lemma register_db_ok ok db info dir mac mtu um uc now : db_ok db -> (forall m, mac = Some m -> mac_ok m) ->
  exists rc db', rns_link_db_package_register ok db (Some info) dir mac mtu um uc now = Some (rc, db') /\ db_ok db' /\
    register_spec ok (contents db) info dir mac mtu um uc now = (rc, contents db').
Proof.
  intros [Hwf Hmac] Hm. destruct (register_refines ok db info dir mac mtu um uc now Hwf) as (rc & db' & E & Hwf' & Hs).
  exists rc, db'. split; [done|]. split; [|done]. split; [done|]. intros key l Hl.
  unfold register_spec in Hs. cbv zeta in Hs.
  assert (Hb : mac_ok (remote_mac (new_link info dir now))) by (split; [done|by_eval]).
  revert Hs. destruct (context info =? _); [intros [= _ E']; rewrite <-E' in Hl; apply lookup_delete_Some in Hl as [_ Hl]; eauto|].
  destruct (contents db !! link_id info) as [l0|] eqn:E0.
  - intros [= _ E']. rewrite <-E' in Hl. apply lookup_insert_Some in Hl as [[_ <-]|[_ Hl]]; [|eauto]. apply touch_mac; eauto.
  - destruct (_ <=? _); [intros [= _ E']; rewrite <-E' in Hl; eauto|].
    destruct (negb ok); intros [= _ E']; rewrite <-E' in Hl; [eauto|].
    apply lookup_insert_Some in Hl as [[_ <-]|[_ Hl]]; [|eauto]. by apply touch_mac.
Qed.

Lemma g_link_db_init_ok : db_ok g_link_db_init.
Proof.
  split; [apply wf_init|]. intros key l Hl. exfalso. revert Hl.
  replace (contents g_link_db_init) with (∅ : gmap (list Z) link) by reflexivity. by rewrite lookup_empty.
Qed.

(** ** Parsed packets *)

Section Parsed.
Context (sha256 : list Z -> list Z) (Hsha : forall m, length (sha256 m) = 32%nat) (o : packet_info).

(** The parser never faults; what it accepts has room for its header. *)
Lemma parse_cases p : exists r info, rns_link_parser_parse sha256 (Some p) (Some o) = Some (r, Some info) /\
  (r = RNS_RET_OK -> 19 <= blen p /\ exists hdr, 19 <= hdr <= blen p /\ payload_len info = u16 (blen p - hdr)).
Proof using Hsha.
  rewrite parse_spec by done. destruct (Z.ltb_spec (Z.of_nat (length p)) 19) as [Hl|Hl]; [eexists _, _; by split|].
  destruct (rd_in_bounds p 0) as (flags & -> & _); [lia|]. destruct (rd_in_bounds p 1) as (h & -> & _); [lia|].
  cbn [mbind option_bind]. destruct (Z.ltb_spec (Z.of_nat (length p)) (hdr_size flags)) as [Hh|Hh];
    eexists _, _; (split; [done|]); [done|]. intros _. split; [exact Hl|]. exists (hdr_size flags). split; [|done].
  unfold blen. destruct (hdr_consts flags) as [[E _]|[E _]]; lia.
Qed.

Definition accepts (p : list Z) : bool :=
  match rns_link_parser_parse sha256 (Some p) (Some o) with
  | Some (r, _) => bool_decide (r = RNS_RET_OK)
  | None => false
  end.
End Parsed.

(** The clamp on a parsed packet, every branch. *)
Lemma clamp_parsed p info limit hdr : is_bytes p -> blen p < 65536 -> 19 <= hdr <= blen p ->
  payload_len info = u16 (blen p - hdr) -> 0 <= limit < 2 ^ 21 ->
  exists r q m, rns_link_utils_clamp_mtu (Some p) (blen p) (Some info) limit = Some (r, Some q, m) /\
    length q = length p /\ is_bytes q /\
    (r <> RNS_RET_OK -> q = p) /\
    (r = RNS_RET_OK -> limit < m /\ link_request_get_mtu q (blen p) info = Some limit /\
       forall i, (Z.of_nat i < hdr + 64 \/ hdr + 67 <= Z.of_nat i) -> q !! i = p !! i).
Proof.
  intros Hp Hl Hh Hpl Hlim. rewrite u16_small in Hpl by word_lia.
  destruct (decide (packet_type info = RNS_PACKET_TYPE_LINKREQUEST)) as [Ht|Ht].
  2: { unfold rns_link_utils_clamp_mtu. rewrite decide_True by done. by exists RNS_RET_INVALID_PACKET_TYPE, p, 0. }
  destruct (decide (payload_len info < 67)) as [Hs|Hs].
  { unfold rns_link_utils_clamp_mtu. rewrite decide_False by naive_solver.
    rewrite (proj2 (Z.ltb_lt _ _)) by done. by exists RNS_RET_PACKET_TOO_SHORT, p, 0. }
  unfold blen in *.
  destruct (clamp_spec p info Hp ltac:(word_lia) ltac:(lia) limit Ht Hlim) as (m & mode & _ & Hm & _ & Hle & Hgt).
  destruct (Z.le_gt_cases m limit) as [Hc|Hc].
  - exists RNS_RET_NOT_MODIFIED, p, m. split; [by apply Hle|]. done.
  - destruct (Hgt Hc) as (q & E & Hlq & Hbq & Hg & _ & Hsame). exists RNS_RET_OK, q, m.
    split; [done|]. split; [done|]. split; [done|]. split; [done|]. intros _. split; [done|]. split; [done|].
    intros i Hi. apply Hsame. lia.
Qed.

Lemma get_mtu_parsed p info hdr : is_bytes p -> blen p < 65536 -> 19 <= hdr <= blen p ->
  payload_len info = u16 (blen p - hdr) ->
  exists r m, rns_link_utils_get_mtu (Some p) (blen p) (Some info) = Some (r, m).
Proof.
  intros Hp Hl Hh Hpl. rewrite u16_small in Hpl by word_lia. unfold rns_link_utils_get_mtu.
  case_decide as Ht; [eauto|]. destruct (Z.ltb_spec (payload_len info) 67); [eauto|].
  destruct (decide (packet_type info = RNS_PACKET_TYPE_LINKREQUEST)) as [Ht'|]; [|done]. unfold blen in *.
  destruct (clamp_spec p info Hp ltac:(word_lia) ltac:(lia) 0 Ht' ltac:(lia)) as (m & mode & -> & _). cbn. eauto.
Qed.

(** What the surroundings of the switch promise. *)
Class PkgOk {W} `{PkgEnv W} (P : W -> Prop) := {
  mtu_ok w : P w -> 0 <= (halow_get_mtu_cached w).1 < 2 ^ 21 /\ P (halow_get_mtu_cached w).2;
  rx_register_ok n w : P w -> P (statistics_radio_register_rx_package n w);
  tcp_send_ok f w : P w -> P (tcp_server_send_owned f w).2;
}.

Section Pkg.
Context {W : Type} `{AckEnv W} `{Kvdb W} `{PkgEnv W} (submitted : list Z -> list Z -> Prop) (P : W -> Prop)
  `{!WorldOk submitted P} `{!StoreOk P} `{!PkgOk P}.
#[local] Abbreviation st := (pkg_state W).
#[local] Abbreviation At := (At submitted P).
Context (K : nat -> Prop) (others : option nat -> ack_state W -> ack_state W) (Ho : others_ok submitted P K others).
Context (db_others : link_db -> link_db) (Hdb : forall db, db_ok db -> db_ok (db_others db)).
Context (sha256 : list Z -> list Z) (Hsha : forall m, length (sha256 m) = 32%nat) (stack_info : packet_info).
Context (shl_oob : Z -> Z).

(** [good s0 s]: from [s0] the switch has come to [s]. *)
Definition good (s0 s : st) : Prop := At K (ack s0) 0 (ack s) /\ db_ok (g_link_db s).

Lemma wp_on_ack {A} (m : M (ack_state W) A) (Q : A -> st -> Prop) s :
  wp m (fun a k => Q a (s <| ack := k |>)) (ack s) -> wp (on_ack m) Q s.
Proof. unfold wp, on_ack. by destruct (m (ack s)) as [[a k]|]. Qed.

Lemma wp_sys {A} (f : W -> A * W) s0 s (Q : A -> st -> Prop) : (forall w, P w -> P (f w).2) -> good s0 s ->
  (forall s', good s0 s' -> g_link_db s' = g_link_db s -> Q (f (world (ack s))).1 s') -> wp (sys f) Q s.
Proof.
  intros Hf [HA HD] HQ. apply wp_on_ack. unfold wp, ext. destruct (f (world (ack s))) as [a w] eqn:E. cbn [fst] in HQ.
  apply HQ; [|done]. split; [|exact HD]. eapply At_quiet; [exact HA|]. split; [done|]. split; [done|].
  intros [Hw Hp]. split; [|exact Hp]. specialize (Hf _ Hw). by rewrite E in Hf.
Qed.

Lemma wp_counter f s0 s (Q : unit -> st -> Prop) : good s0 s -> (forall s', good s0 s' -> g_link_db s' = g_link_db s ->
  ack s' = ack s -> Q tt s') -> wp (count f) Q s.
Proof. intros Hg HQ. apply wp_modify, HQ; [|done..]. exact Hg. Qed.

Lemma wp_register info dir mac mtu um uc s0 s (Q : rns_ret -> st -> Prop) : good s0 s ->
  (forall m, mac = Some m -> mac_ok m) ->
  (forall rc db s', good s0 s' -> ack s' = ack s -> g_link_db s' = db_others db -> 
     register_spec (link_malloc_ok (world (ack s))) (contents (g_link_db s)) info dir mac mtu um uc
       (i32 (time_s (world (ack s)))) = (rc, contents db) -> Q rc s') ->
  wp (package_register db_others info dir mac mtu um uc) Q s.
Proof using Hdb.
  intros [HA HD] Hm HQ. unfold package_register. apply wp_bind, wp_gets, wp_bind, wp_gets, wp_bind.
  destruct (register_db_ok (link_malloc_ok (world (ack s))) (g_link_db s) info dir mac mtu um uc
    (i32 (time_s (world (ack s)))) HD Hm) as (rc & db & E & HD' & Hs).
  eapply wp_lift; [exact E|]. apply wp_bind, wp_modify, wp_ret. apply (HQ rc db); [|done|done|exact Hs].
  split; [exact HA|]. by apply Hdb.
Qed.

(** The world after one reading of the radio's limit. *)
Definition read_mtu (k : ack_state W) : ack_state W := k <| world := (halow_get_mtu_cached (world k)).2 |>.

Lemma wp_mtu_exact s0 s (Q : Z -> st -> Prop) : good s0 s ->
  (forall s', good s0 s' -> g_link_db s' = g_link_db s -> ack s' = read_mtu (ack s) ->
     Q (Z.min RNS_LINK_MTU_FIXED (halow_get_mtu_cached (world (ack s))).1) s') -> wp link_mtu_limit Q s.
Proof using PkgOk0.
  intros [HA HD] HQ. unfold link_mtu_limit, sys. apply wp_bind, wp_on_ack. unfold wp at 1, ext.
  assert (Hg' : good s0 (s <| ack := read_mtu (ack s) |>)).
  { split; [|exact HD]. eapply At_quiet; [exact HA|]. split; [done|]. split; [done|].
    intros [Hw Hp]. split; [|exact Hp]. exact (proj2 (mtu_ok _ Hw)). }
  specialize (HQ _ Hg' eq_refl eq_refl). unfold read_mtu in HQ.
  destruct (halow_get_mtu_cached (world (ack s))) as [hw w]. cbn [fst snd] in HQ. apply wp_ret.
  replace (if _ <? _ then _ else _) with (Z.min RNS_LINK_MTU_FIXED hw) by (destruct (Z.ltb_spec RNS_LINK_MTU_FIXED hw); lia).
  exact HQ.
Qed.
Lemma wp_effective_exact a s0 s (Q : Z -> st -> Prop) : good s0 s ->
  (forall v s', good s0 s' -> g_link_db s' = g_link_db s -> ack s' = read_mtu (ack s) -> Q v s') ->
  wp (link_effective_mtu a) Q s.
Proof using PkgOk0.
  intros Hg HQ. unfold link_effective_mtu. apply wp_bind, (wp_mtu_exact s0); [done|]. intros s' Hg' E Ea. by apply wp_ret, HQ.
Qed.
Lemma wp_effective_mtu a s0 s (Q : Z -> st -> Prop) : good s0 s ->
  (forall v s', good s0 s' -> g_link_db s' = g_link_db s -> Q v s') -> wp (link_effective_mtu a) Q s.
Proof using PkgOk0. intros Hg HQ. apply (wp_effective_exact _ s0); [done|]. auto. Qed.

(** ** RF to TCP *)

Lemma good_register_rx p info hdr src uc s0 s (Q : unit -> st -> Prop) : good s0 s -> is_bytes p -> blen p < 65536 ->
  19 <= hdr <= blen p -> payload_len info = u16 (blen p - hdr) -> mac_ok src ->
  (forall s', good s0 s' -> Q tt s') -> wp (register_rx db_others p info src uc) Q s.
Proof using Hdb PkgOk0.
  intros Hg Hp Hl Hh Hpl Hm HQ. unfold register_rx. cbv zeta. apply wp_bind.
  assert (Hend : forall mtu s', good s0 s' -> wp (count (fun c => c <| g_dbg_rns_rx_valid ::= fun n => u32 (n + 1) |>);;
    rr ← package_register db_others info RNS_PACKET_DIRECTION_RX (Some src) mtu
           (bool_decide (packet_type info = RNS_PACKET_TYPE_LINKREQUEST)) uc;
    if decide (rr = RNS_RET_OK) then count (fun c => c <| g_dbg_rns_rx_reg_ok ::= fun n => u32 (n + 1) |>)
    else count (fun c => c <| g_dbg_rns_rx_reg_fail ::= fun n => u32 (n + 1) |>)) Q s').
  { intros mtu s' Hg'. apply wp_bind, (wp_counter _ s0); [done|]. intros s1 Hg1 _ _.
    apply wp_bind, (wp_register _ _ _ _ _ _ s0); [done|by intros ? [= <-]|]. intros rc db s2 Hg2 _ _ _.
    destruct (decide _); (apply (wp_counter _ s0); [done|]); intros s3 Hg3 _ _; by apply HQ. }
  destruct (bool_decide _); [|by apply wp_ret, Hend].
  destruct (get_mtu_parsed p info hdr Hp Hl Hh Hpl) as (r & m & E). apply wp_bind. eapply wp_lift; [exact E|].
  apply (wp_effective_mtu _ s0); [done|]. intros v s' Hg' _. by apply Hend.
Qed.

(** The frame written to the client is the SLIP encoding. *)
Lemma slip_buffer p : blen p < 65536 ->
  let n := u32 (rns_stream_escape_size p + 2) in
  exists b1 b2, wr (replicate (Z.to_nat n) 0) 0 0x7E = Some b1 /\
    wr_n b1 1 (rns_stream_escape_write p) = Some b2 /\ wr b2 (n - 1) 0x7E = Some (encode p).
Proof.
  intros Hl n. unfold blen in Hl. set (e := rns_stream_escape_write p).
  assert (Hn : n = Z.of_nat (length e) + 2).
  { subst n e. pose proof (escape_size_bound p ltac:(lia)). rewrite escape_size_length in * by lia. apply u32_small. word_lia. }
  clearbody n. subst n. replace (Z.to_nat (Z.of_nat (length e) + 2)) with (S (length e + 1)) by lia.
  rewrite wr_in_bounds by (rewrite length_replicate; lia). cbn [replicate]. change (Z.to_nat 0) with 0%nat.
  change (<[0%nat:=126]> (0 :: replicate (length e + 1) 0)) with (126 :: replicate (length e + 1) 0).
  eexists _, _. split; [reflexivity|]. split.
  { apply wr_n_in_bounds; [lia|]. cbn [length]. rewrite length_replicate. lia. }
  change (Z.to_nat 1) with 1%nat. cbn [take plus drop].
  rewrite drop_replicate. replace (length e + 1 - length e)%nat with 1%nat by lia. cbn [replicate].
  rewrite take_0, wr_in_bounds by (rewrite !length_app; cbn; lia). f_equal. unfold encode.
  replace (Z.to_nat (Z.of_nat (length e) + 2 - 1)) with (length (126%Z :: e) + 0)%nat by (cbn; lia).
  change ([126] ++ e ++ [0]) with ((126 :: e) ++ [0]). rewrite insert_app_r. reflexivity.
Qed.

Lemma good_send_to_tcp p s0 s (Q : unit -> st -> Prop) : good s0 s -> blen p < 65536 ->
  (forall s', good s0 s' -> Q tt s') -> wp (send_to_tcp p) Q s.
Proof using PkgOk0 WorldOk0.
  intros Hg Hl HQ. unfold send_to_tcp. cbv zeta. apply wp_bind, (wp_sys _ s0); [|done|].
  { intros w Hw. by apply (malloc_ok (submitted := submitted)). }
  intros s1 Hg1 _. destruct (negb _); [by apply wp_ret, HQ|].
  destruct (slip_buffer p Hl) as (b1 & b2 & E1 & E2 & E3). apply wp_bind. eapply wp_lift; [exact E1|].
  apply wp_bind. eapply wp_lift; [exact E2|]. apply wp_bind. eapply wp_lift; [exact E3|].
  apply wp_bind, (wp_sys _ s0); [intros w Hw; by apply tcp_send_ok|done|]. intros s2 Hg2 _.
  apply wp_when; intros _; [|by apply HQ]. apply (wp_counter _ s0); [done|]. intros s3 Hg3 _ _. by apply HQ.
Qed.

Lemma good_deliver p src uc s0 s (Q : unit -> st -> Prop) : good s0 s -> is_bytes p -> blen p < 65536 -> mac_ok src ->
  (forall s', good s0 s' -> Q tt s') -> wp (deliver_rns_frame db_others sha256 stack_info p src uc) Q s.
Proof using Hdb PkgOk0 Hsha WorldOk0.
  intros Hg Hp Hl Hm HQ. unfold deliver_rns_frame.
  destruct (parse_cases sha256 Hsha stack_info p) as (r & info & E & Hok). apply wp_bind. eapply wp_lift; [exact E|]. cbn [fst snd].
  destruct (bool_decide_reflect (r = RNS_RET_OK)) as [Hr|Hr]; cbn [negb].
  2: { apply (wp_counter _ s0); [done|]. intros s' Hg' _ _. by apply HQ. }
  destruct (Hok Hr) as (_ & hdr & Hh & Hpl). apply wp_bind. eapply wp_lift; [done|].
  apply wp_bind, (wp_sys _ s0); [intros w Hw; by apply rx_register_ok|done|]. intros s1 Hg1 _.
  apply wp_bind, wp_when; intros _; [|by apply (good_send_to_tcp p s0)].
  apply (good_register_rx p info hdr src uc s0); [done..|]. intros s2 Hg2. by apply (good_send_to_tcp p s0).
Qed.

Lemma good_bundle src uc nsub : forall p o subs s0 s (Q : unit -> st -> Prop), good s0 s -> is_bytes p -> blen p < 65536 ->
  mac_ok src -> bundle_split p nsub o = Some subs -> (forall s', good s0 s' -> Q tt s') ->
  wp (bundle_split_deliver db_others sha256 stack_info p nsub o src uc) Q s.
Proof using Hdb PkgOk0 Hsha WorldOk0.
  induction nsub as [|nsub IH]; intros p o subs s0 s Q Hg Hp Hl Hm E HQ; cbn [bundle_split_deliver bundle_split] in *.
  { by apply wp_ret, HQ. }
  destruct (rd_n p (o + 2) (rd16 p o)) as [sub|] eqn:Es; [|done]. cbn [mbind option_bind] in E.
  destruct (bundle_split p nsub (o + 2 + rd16 p o)) as [rest|] eqn:Er; [|done].
  apply wp_bind. eapply wp_lift; [done|].
  assert (Hsub : is_bytes sub /\ blen sub <= blen p).
  { unfold rd_n in Es. case_decide; [|done]. injection Es as <-. split; [by apply Forall_take, Forall_drop|].
    unfold blen. rewrite length_take, length_drop. lia. }
  apply wp_bind, (good_deliver sub src uc s0); [done|apply Hsub|lia|done|]. intros s1 Hg1. by eapply IH.
Qed.

Lemma good_rf_to_tcp p src dst evm s0 s (Q : unit -> st -> Prop) : good s0 s -> is_bytes p -> blen p < 65536 -> mac_ok src ->
  (forall s', good s0 s' -> Q tt s') ->
  wp (halow_pkg_handler_rf_to_tcp others db_others shl_oob sha256 stack_info p src dst evm) Q s.
Proof using Hdb PkgOk0 Hsha WorldOk0 StoreOk0 Ho.
  intros [HA HD] Hp Hl Hm HQ. unfold halow_pkg_handler_rf_to_tcp. apply wp_bind, wp_on_ack.
  apply (halow_ack_on_rx_At submitted P K others Ho shl_oob (Some p) src dst evm (ack s0) 0); [done..|]. intros r k HA'.
  assert (Hg : good s0 (s <| ack := k |>)) by done. destruct r; [|by apply wp_ret, HQ].
  apply wp_bind, (wp_counter _ s0); [done|]. intros s1 Hg1 _ _. destruct (is_env_bundle p) eqn:Eb; [|by apply (good_deliver p src _ s0)].
  assert (Hl8 : 8 <= blen p).
  { unfold is_env_bundle in Eb. rewrite !andb_true_iff in Eb. destruct Eb as [[[[Eb _] _] _] _]. by apply Z.leb_le in Eb. }
  destruct (rd_in_bounds p 5) as (n & En & Hn); [unfold blen in Hl8; lia|]. apply wp_bind. eapply wp_lift; [exact En|].
  destruct (bundle_walk_valid p HALOW_ENV_BUNDLE_HDR n) eqn:Ew; cbn [negb].
  - assert (E5 : byte p 5 = n) by (unfold byte; by rewrite En).
    rewrite <-E5 in Ew. assert (H6 : HALOW_ENV_BUNDLE_HDR <= blen p) by (unfold HALOW_ENV_BUNDLE_HDR; lia).
    destruct (bundle_split_ok p Hp H6 Ew) as (subs & _ & _ & _ & Hs).
    rewrite <-E5. by apply (good_bundle src _ _ p _ subs s0).
  - apply wp_on_ack. destruct Hg1 as [HA1 HD1]. unfold halow_ack_env_malformed.
    eapply (wp_quiet submitted P); [apply _|exact HA1|]. intros [] k' HA2 _. by apply HQ.
Qed.

(** ** TCP to RF *)

(** Where a packet goes, given the link table. *)
Definition route (m : gmap (list Z) link) (info : packet_info) : list Z :=
  if valid info then
    match m !! link_id info with
    | Some l => if peer_mac_known (remote_mac l) then remote_mac l else mac_broadcast
    | None => mac_broadcast
    end
  else mac_broadcast.

Lemma wp_choose_dest info s (Q : list Z -> st -> Prop) : db_ok (g_link_db s) ->
  (mac_ok (route (contents (g_link_db s)) info) -> Q (route (contents (g_link_db s)) info) s) ->
  wp (choose_dest info) Q s.
Proof.
  intros [Hwf Hm] HQ. unfold choose_dest, route in *. assert (Hbc : mac_ok mac_broadcast) by (split; [done|by_eval]).
  destruct (valid info); cbn [negb]; [|by apply wp_ret, HQ].
  apply wp_bind, wp_gets. destruct (snapshot_by_id_spec (g_link_db s) (link_id info) Hwf) as (o & E & He).
  apply wp_bind. eapply wp_lift; [exact E|]. apply wp_ret. rewrite <-He in HQ.
  destruct o as [l|]; cbn [fmap option_fmap option_map] in *; [|by apply HQ].
  change (remote_mac (erase l)) with (remote_mac l) in HQ.
  destruct (peer_mac_known (remote_mac l)); [|by apply HQ]. apply HQ.
  exact (Hm (link_id info) (erase l) (eq_sym He)).
Qed.

(** The outcome of [halow_pkg_handler_tcp_to_rf] for a packet the parser
    accepts: [db1] is the link table when the destination is chosen. *)
Record switched (pkg : list Z) (info : packet_info) (s : st) (r : Z) (pkg' : list Z) (db1 : link_db) (s' : st) : Prop := {
  sw_clamp : if valid info && bool_decide (packet_type info = RNS_PACKET_TYPE_LINKREQUEST)
    then exists rc m, rns_link_utils_clamp_mtu (Some pkg) (blen pkg) (Some info)
           (Z.min RNS_LINK_MTU_FIXED (halow_get_mtu_cached (world (ack s))).1) = Some (rc, Some pkg', m)
    else pkg' = pkg;
  sw_register : if valid info
    then exists ok mtu now rc db, register_spec ok (contents (g_link_db s)) info RNS_PACKET_DIRECTION_TX None mtu
           (bool_decide (packet_type info = RNS_PACKET_TYPE_LINKREQUEST)) false now = (rc, contents db) /\
         db1 = db_others db
    else db1 = g_link_db s;
  sw_table : g_link_db s' = db1;
  (** the one submission, from the state of the layer that was there before,
      the radio's limit having been read twice for a link request *)
  sw_sent : halow_ack_tx others (Some pkg') (Some (route (contents db1) info))
    (if valid info && bool_decide (packet_type info = RNS_PACKET_TYPE_LINKREQUEST) then read_mtu (read_mtu (ack s)) else ack s) =
    Some (r, ack s');
}.

Context (Hsub : forall m x, mac_ok m -> is_bytes x -> blen x <= RNS_STREAM_MAX_FRAME_SIZE -> submitted m x).

Lemma wp_send_chosen info p db1 s0 s1 (Q : Z * list Z -> st -> Prop) : good s0 s1 -> is_bytes p ->
  blen p <= RNS_STREAM_MAX_FRAME_SIZE -> g_link_db s1 = db1 ->
  (forall r s', good s0 s' -> g_link_db s' = db1 ->
     halow_ack_tx others (Some p) (Some (route (contents db1) info)) (ack s1) = Some (r, ack s') -> Q (r, p) s') ->
  wp (dest ← choose_dest info; r ← on_ack (halow_ack_tx others (Some p) (Some dest)); mret (r, p)) Q s1.
Proof using Ho Hsub WorldOk0.
  intros [HA HD] Hb Hl E HQ. apply wp_bind, wp_choose_dest; [exact HD|]. rewrite E. intros Hm.
  apply wp_bind, wp_on_ack.
  assert (Hw : wp (halow_ack_tx others (Some p) (Some (route (contents db1) info)))
    (fun r k' => At K (ack s0) 0 k') (ack s1)).
  { eapply (halow_ack_tx_At submitted P K others Ho _ p (ack s0) 0); [exact HA|exact Hm|by apply Hsub|].
    intros r e k' HA' He _. rewrite He in HA'; [exact HA'|]. unfold plain_sized.
    rewrite (proj2 (Z.ltb_ge 4014 (blen p))); [done|]. unfold RNS_STREAM_MAX_FRAME_SIZE in Hl. lia. }
  apply wp_elim in Hw as (r & k' & Ek & HA'). unfold wp at 1. rewrite Ek. apply wp_ret, HQ.
  - split; [exact HA'|exact HD].
  - exact E.
  - exact Ek.
Qed.

Lemma wp_clamp_register pkg info hdr s (Q : list Z -> st -> Prop) s0 : good s0 s -> is_bytes pkg -> blen pkg < 65536 ->
  19 <= hdr <= blen pkg -> payload_len info = u16 (blen pkg - hdr) -> packet_type info = RNS_PACKET_TYPE_LINKREQUEST ->
  (forall pkg' rc m mtu ok now ret db s', good s0 s' -> length pkg' = length pkg -> is_bytes pkg' ->
     rns_link_utils_clamp_mtu (Some pkg) (blen pkg) (Some info)
       (Z.min RNS_LINK_MTU_FIXED (halow_get_mtu_cached (world (ack s))).1) = Some (rc, Some pkg', m) ->
     g_link_db s' = db_others db -> ack s' = read_mtu (read_mtu (ack s)) ->
     register_spec ok (contents (g_link_db s)) info RNS_PACKET_DIRECTION_TX None mtu true false now = (ret, contents db) ->
     Q pkg' s') -> wp (tx_linkrequest_mtu_clamp db_others pkg info) Q s.
Proof using Hdb PkgOk0.
  intros Hg Hb Hl Hh Hpl Ht HQ. unfold tx_linkrequest_mtu_clamp. pose proof Hg as [HA _].
  pose proof (proj1 (mtu_ok (world (ack s)) (proj1 (proj2 (proj1 HA))))) as Hhw.
  apply wp_bind, (wp_mtu_exact s0); [done|]. intros s1 Hg1 E1 A1.
  set (lim := Z.min RNS_LINK_MTU_FIXED _) in *. assert (Hlim : 0 <= lim < 2 ^ 21) by (unfold lim, RNS_LINK_MTU_FIXED; lia).
  destruct (clamp_parsed pkg info lim hdr Hb Hl Hh Hpl Hlim) as (rc & q & m & Ec & Hlq & Hbq & _).
  apply wp_bind. eapply wp_lift; [exact Ec|]. apply wp_bind. eapply wp_lift; [done|].
  apply wp_bind, (wp_effective_exact _ s0); [done|]. intros v s2 Hg2 E2 A2.
  apply wp_bind, (wp_register _ _ _ _ _ _ s0); [done|done|]. intros ret db s3 Hg3 A3 E3 Hs. apply wp_ret.
  rewrite E2, E1 in Hs. eapply HQ; [done..| |exact Hs]. by rewrite A3, A2, A1.
Qed.

(** Every packet of the TCP side: handed on, or refused by the parser. *)
Lemma tcp_to_rf_spec pkg s0 s (Q : Z * list Z -> st -> Prop) : good s0 s -> is_bytes pkg ->
  blen pkg <= RNS_STREAM_MAX_FRAME_SIZE ->
  (forall r pkg' s', good s0 s' -> length pkg' = length pkg -> is_bytes pkg' ->
     (accepts sha256 stack_info pkg = false /\ r = 0 /\ pkg' = pkg /\ ack s' = ack s /\ g_link_db s' = g_link_db s \/
      exists info db1, rns_link_parser_parse sha256 (Some pkg) (Some stack_info) = Some (RNS_RET_OK, Some info) /\
        switched pkg info s r pkg' db1 s') -> Q (r, pkg') s') ->
  wp (halow_pkg_handler_tcp_to_rf others db_others sha256 stack_info pkg) Q s.
Proof using All.
  intros Hg Hb Hl HQ. unfold halow_pkg_handler_tcp_to_rf.
  destruct (parse_cases sha256 Hsha stack_info pkg) as (rc & info & E & Hok). apply wp_bind. eapply wp_lift; [exact E|]. cbn [fst snd].
  destruct (bool_decide_reflect (rc = RNS_RET_OK)) as [Hr|Hr]; cbn [negb].
  2: { apply wp_bind, (wp_counter _ s0); [done|]. intros s1 Hg1 Edb Eack. apply wp_ret, HQ; [done..|]. left.
    split; [|done]. unfold accepts. rewrite E. by rewrite bool_decide_eq_false_2. }
  subst rc. destruct (Hok eq_refl) as (_ & hdr & Hh & Hpl). apply wp_bind. eapply wp_lift; [done|]. apply wp_bind.
  assert (Hmid : forall p s1 db1, good s0 s1 -> g_link_db s1 = db1 -> length p = length pkg -> is_bytes p ->
    (forall r s', g_link_db s' = db1 -> halow_ack_tx others (Some p) (Some (route (contents db1) info)) (ack s1) = Some (r, ack s') ->
       switched pkg info s r p db1 s') ->
    wp (dest ← choose_dest info; r ← on_ack (halow_ack_tx others (Some p) (Some dest)); mret (r, p)) Q s1).
  { intros p s1 db1 Hg1 Edb Hlp Hbp Hsw. apply (wp_send_chosen info p db1 s0); [done|done| |done|].
    { unfold blen in *. by rewrite Hlp. }
    intros r s' Hg' Edb' Hk. apply HQ; [done..|]. right. exists info, db1. split; [done|]. by apply Hsw. }
  destruct (valid info) eqn:Ev; cbn [andb].
  - destruct (bool_decide_reflect (packet_type info = RNS_PACKET_TYPE_LINKREQUEST)) as [Ht|Ht].
    + apply (wp_clamp_register pkg info hdr s _ s0); [done|done| |done|done|done|].
      { unfold RNS_STREAM_MAX_FRAME_SIZE in Hl. lia. }
      intros p rc m mtu ok now ret db s1 Hg1 Hlp Hbp Ec Edb Ea Hs. apply (Hmid p s1 (db_others db)); [done..|].
      intros r s' Edb' Hk. rewrite Ea in Hk. constructor; rewrite ?Ev, ?bool_decide_eq_true_2 by done; cbn [andb]; [|..|done|done];
        [by exists rc, m|]. by exists ok, mtu, now, ret, db.
    + apply wp_bind. cbn [when]. apply wp_bind, (wp_register _ _ _ _ _ _ s0); [done|done|]. intros ret db s1 Hg1 Ea Edb Hs.
      apply wp_ret, wp_ret. apply (Hmid pkg s1 (db_others db)); [done..|].
      intros r s' Edb' Hk. rewrite Ea in Hk. constructor; rewrite ?Ev, ?bool_decide_eq_false_2 by done; cbn [andb]; [done|..|done|done].
      by eexists _, _, _, ret, db.
  - apply wp_bind, wp_ret, wp_ret. apply (Hmid pkg s (g_link_db s)); [done..|].
    intros r s' Edb' Hk. constructor; rewrite ?Ev; cbn [andb]; done.
Qed.
End Pkg.

(** ** What the TCP client is sent *)

(** The record of the TCP side: [sent], the frames the ring accepted, and
    [lost], a count of the refusals, of memory by the allocator and of a frame
    by the ring.  Either may refuse at any time. *)
Record tcp_log {W} `{AckEnv W} `{PkgEnv W} (sent : W -> list (list Z)) (lost : W -> Z) : Prop := {
  log_malloc n w : sent (os_malloc n w).2 = sent w /\
    lost (os_malloc n w).2 = lost w + (if (os_malloc n w).1 then 0 else 1);
  log_send f w : if (tcp_server_send_owned f w).1 =? 0
    then sent (tcp_server_send_owned f w).2 = sent w ++ [f] /\ lost (tcp_server_send_owned f w).2 = lost w
    else sent (tcp_server_send_owned f w).2 = sent w /\ lost (tcp_server_send_owned f w).2 = lost w + 1;
  log_register n w : sent (statistics_radio_register_rx_package n w) = sent w /\
    lost (statistics_radio_register_rx_package n w) = lost w;
  log_mtu w : sent (halow_get_mtu_cached w).2 = sent w /\ lost (halow_get_mtu_cached w).2 = lost w;
}.

(** Equal length leaves no room for an omission. *)
Lemma sublist_same_length {A} (l1 l2 : list A) : l1 `sublist_of` l2 -> length l1 = length l2 -> l1 = l2.
Proof.
  induction 1 as [|x l1 l2 Hs IH|x l1 l2 Hs IH]; cbn; intros E; [done|f_equal; apply IH; lia|].
  apply sublist_length in Hs. lia.
Qed.

Section Client.
Context {W : Type} `{AckEnv W} `{Kvdb W} `{PkgEnv W} (P : W -> Prop) `{!PkgOk P}.
#[local] Abbreviation st := (pkg_state W).
Context (sent : W -> list (list Z)) (lost : W -> Z) (Hup : tcp_log sent lost).
Context (db_others : link_db -> link_db) (Hdb : forall db, db_ok db -> db_ok (db_others db)).
Context (sha256 : list Z -> list Z) (Hsha : forall m, length (sha256 m) = 32%nat) (stack_info : packet_info).

(** The frames the client has been sent in state [s], and the refusals. *)
Definition client (s : st) : list (list Z) := sent (world (ack s)).
Definition refusals (s : st) : Z := lost (world (ack s)).
Definition delivered (subs : list (list Z)) : list (list Z) := filter (accepts sha256 stack_info) subs.

(** Of the packets [D] the client is sent [taken], in their order; each of
    the others was refused once. *)
Definition sends (D taken : list (list Z)) (s s' : st) : Prop :=
  client s' = client s ++ (encode <$> taken) /\ taken `sublist_of` D /\
  Z.of_nat (length D) = Z.of_nat (length taken) + (refusals s' - refusals s).
(** Neither a frame nor a refusal. *)
Definition silent (s s' : st) : Prop := client s' = client s /\ refusals s' = refusals s.

Lemma sends_silent s s' : silent s s' -> sends [] [] s s'.
Proof. intros [E1 E2]. split; [by rewrite E1, app_nil_r|]. split; [constructor|]. cbn. lia. Qed.
Lemma sends_app D1 D2 t1 t2 s1 s2 s3 : sends D1 t1 s1 s2 -> sends D2 t2 s2 s3 -> sends (D1 ++ D2) (t1 ++ t2) s1 s3.
Proof.
  intros (E1 & S1 & N1) (E2 & S2 & N2). split; [by rewrite E2, E1, <-app_assoc, fmap_app|].
  split; [by apply sublist_app|]. rewrite !length_app. lia.
Qed.
Lemma silent_refl s : silent s s.
Proof. done. Qed.
Lemma silent_trans s1 s2 s3 : silent s1 s2 -> silent s2 s3 -> silent s1 s3.
Proof. intros [E1 F1] [E2 F2]. split; congruence. Qed.
Lemma silent_sends D t s1 s2 s3 : silent s1 s2 -> sends D t s2 s3 -> sends D t s1 s3.
Proof. intros Hs Hd. by apply (sends_app [] D [] t s1 s2 s3 (sends_silent _ _ Hs)). Qed.

Lemma client_sys {A} (f : W -> A * W) s (Q : A -> st -> Prop) :
  (forall s', client s' = sent (f (world (ack s))).2 -> refusals s' = lost (f (world (ack s))).2 ->
     g_link_db s' = g_link_db s -> Q (f (world (ack s))).1 s') ->
  wp (sys f) Q s.
Proof.
  intros HQ. apply wp_on_ack. unfold wp, ext. destruct (f (world (ack s))) as [a w] eqn:E. by apply HQ.
Qed.

Lemma client_mtu s a (Q : Z -> st -> Prop) :
  (forall v s', silent s s' -> g_link_db s' = g_link_db s -> Q v s') -> wp (link_effective_mtu a) Q s.
Proof using Hup.
  intros HQ. unfold link_effective_mtu, link_mtu_limit. apply wp_bind, wp_bind, client_sys. intros s' Ec El Ed.
  destruct (log_mtu _ _ Hup (world (ack s))) as [F1 F2]. apply wp_ret, wp_ret, HQ; [|done]. unfold silent, client, refusals in *. split; congruence.
Qed.

Lemma client_register_rx p info hdr src uc s (Q : unit -> st -> Prop) : db_ok (g_link_db s) -> is_bytes p ->
  blen p < 65536 -> 19 <= hdr <= blen p -> payload_len info = u16 (blen p - hdr) -> mac_ok src ->
  (forall s', silent s s' -> db_ok (g_link_db s') -> Q tt s') -> wp (register_rx db_others p info src uc) Q s.
Proof using Hup Hdb.
  intros Hd Hp Hl Hh Hpl Hm HQ. unfold register_rx. cbv zeta. apply wp_bind.
  assert (Hend : forall mtu s', silent s s' -> g_link_db s' = g_link_db s ->
    wp (count (fun c => c <| g_dbg_rns_rx_valid ::= fun n => u32 (n + 1) |>);;
    rr ← package_register db_others info RNS_PACKET_DIRECTION_RX (Some src) mtu
           (bool_decide (packet_type info = RNS_PACKET_TYPE_LINKREQUEST)) uc;
    if decide (rr = RNS_RET_OK) then count (fun c => c <| g_dbg_rns_rx_reg_ok ::= fun n => u32 (n + 1) |>)
    else count (fun c => c <| g_dbg_rns_rx_reg_fail ::= fun n => u32 (n + 1) |>)) Q s').
  { intros mtu s' Ec Ed. apply wp_bind, wp_modify, wp_bind. unfold package_register.
    apply wp_bind, wp_gets, wp_bind, wp_gets, wp_bind. rsimpl. rewrite Ed.
    destruct (register_db_ok (link_malloc_ok (world (ack s'))) (g_link_db s) info RNS_PACKET_DIRECTION_RX (Some src) mtu
      (bool_decide (packet_type info = RNS_PACKET_TYPE_LINKREQUEST)) uc (i32 (time_s (world (ack s')))) Hd)
      as (rc & db & E & Hd' & _); [by intros ? [= <-]|].
    eapply wp_lift; [exact E|]. apply wp_bind, wp_modify, wp_ret.
    destruct (decide _); (apply wp_modify, HQ; [exact Ec|by apply Hdb]). }
  destruct (bool_decide _); [|by apply wp_ret, Hend].
  destruct (get_mtu_parsed p info hdr Hp Hl Hh Hpl) as (r & m & E). apply wp_bind. eapply wp_lift; [exact E|].
  apply client_mtu. intros v s' Ec Ed. by apply Hend.
Qed.

(** The frame is sent, or refused once. *)
Lemma client_send p s (Q : unit -> st -> Prop) : blen p < 65536 ->
  (forall t s', sends [p] t s s' -> g_link_db s' = g_link_db s -> Q tt s') -> wp (send_to_tcp p) Q s.
Proof using Hup.
  intros Hl HQ. unfold send_to_tcp. cbv zeta. apply wp_bind, client_sys. intros s2 Ec2 El2 Ed2.
  set (n := u32 (rns_stream_escape_size p + 2)) in *. pose proof (log_malloc _ _ Hup n (world (ack s))) as [F1 F2].
  unfold client, refusals in *. destruct ((os_malloc n (world (ack s))).1); cbn [negb].
  2: { apply wp_ret, (HQ []); [|done]. unfold sends, client, refusals. split; [by rewrite Ec2, F1, app_nil_r|].
    split; [by constructor; constructor|]. cbn. lia. }
  destruct (slip_buffer p Hl) as (b1 & b2 & E1 & E2 & E3). apply wp_bind. eapply wp_lift; [exact E1|].
  apply wp_bind. eapply wp_lift; [exact E2|]. apply wp_bind. eapply wp_lift; [exact E3|].
  apply wp_bind, client_sys. intros s3 Ec3 El3 Ed3. unfold client, refusals in *.
  pose proof (log_send _ _ Hup (encode p) (world (ack s2))) as F3.
  assert (Ed : g_link_db s3 = g_link_db s) by congruence.
  destruct (Z.eqb_spec (tcp_server_send_owned (encode p) (world (ack s2))).1 0) as [E0|E0]; cbn [negb when]; destruct F3 as [F3 F4].
  - apply wp_ret, (HQ [p]); [|exact Ed]. unfold sends, client, refusals. split; [rewrite Ec3, F3, Ec2, F1; done|].
    split; [done|]. cbn. lia.
  - apply wp_modify, (HQ []); [|exact Ed]. unfold sends, client, refusals. rsimpl. split; [by rewrite Ec3, F3, Ec2, F1, app_nil_r|].
    split; [by constructor; constructor|]. cbn. lia.
Qed.

Lemma client_deliver p src uc s (Q : unit -> st -> Prop) : db_ok (g_link_db s) -> is_bytes p -> blen p < 65536 ->
  mac_ok src -> (forall t s', sends (delivered [p]) t s s' -> db_ok (g_link_db s') -> Q tt s') ->
  wp (deliver_rns_frame db_others sha256 stack_info p src uc) Q s.
Proof using Hup Hdb Hsha.
  intros Hd Hp Hl Hm HQ. unfold deliver_rns_frame. unfold delivered in HQ.
  destruct (parse_cases sha256 Hsha stack_info p) as (r & info & E & Hok). apply wp_bind. eapply wp_lift; [exact E|]. cbn [fst snd].
  assert (Ea : accepts sha256 stack_info p = bool_decide (r = RNS_RET_OK)) by (unfold accepts; by rewrite E).
  destruct (bool_decide_reflect (r = RNS_RET_OK)) as [Hr|Hr]; cbn [negb].
  2: { apply wp_modify, (HQ []); [|done]. rewrite filter_cons_False by (rewrite Ea; intros []). rewrite filter_nil. by apply sends_silent. }
  rewrite filter_cons_True, filter_nil in HQ by (by rewrite Ea).
  destruct (Hok Hr) as (_ & hdr & Hh & Hpl). apply wp_bind. eapply wp_lift; [done|].
  apply wp_bind, client_sys. intros s1 Ec1 El1 Ed1. cbn [snd fst] in Ec1, El1.
  destruct (log_register _ _ Hup (blen p) (world (ack s))) as [F1 F2].
  assert (Hs1 : silent s s1) by (unfold silent, client, refusals in *; split; congruence).
  assert (Hend : forall s', silent s s' -> db_ok (g_link_db s') -> wp (send_to_tcp p) Q s').
  { intros s' Hs' Hd'. apply client_send; [done|]. intros t s2 Hs2 Ed2. apply (HQ t); [by eapply silent_sends|by rewrite Ed2]. }
  apply wp_bind, wp_when; intros _; [|by apply Hend; [|rewrite Ed1]].
  apply (client_register_rx p info hdr src uc); [by rewrite Ed1|done..|]. intros s2 Ec2 Ed2. apply Hend; [|done].
  by eapply silent_trans.
Qed.

Lemma client_bundle src uc nsub : forall p o subs s (Q : unit -> st -> Prop), db_ok (g_link_db s) -> is_bytes p ->
  blen p < 65536 -> mac_ok src -> bundle_split p nsub o = Some subs ->
  (forall t s', sends (delivered subs) t s s' -> Q tt s') ->
  wp (bundle_split_deliver db_others sha256 stack_info p nsub o src uc) Q s.
Proof using Hup Hdb Hsha.
  induction nsub as [|nsub IH]; intros p o subs s Q Hd Hp Hl Hm E HQ; cbn [bundle_split_deliver bundle_split] in *.
  { injection E as <-. apply wp_ret, (HQ []), sends_silent. done. }
  destruct (rd_n p (o + 2) (rd16 p o)) as [sub|] eqn:Es; [|done]. cbn [mbind option_bind] in E.
  destruct (bundle_split p nsub (o + 2 + rd16 p o)) as [rest|] eqn:Er; [|done]. injection E as <-.
  apply wp_bind. eapply wp_lift; [done|].
  assert (Hsub : is_bytes sub /\ blen sub <= blen p).
  { unfold rd_n in Es. case_decide; [|done]. injection Es as <-. split; [by apply Forall_take, Forall_drop|].
    unfold blen. rewrite length_take, length_drop. lia. }
  apply wp_bind, (client_deliver sub src uc); [done|apply Hsub|lia|done|]. intros t1 s1 Ht1 Ed1.
  eapply IH; [done..|]. intros t2 s2 Ht2. apply (HQ (t1 ++ t2)).
  unfold delivered in *. change (sub :: rest) with ([sub] ++ rest). rewrite filter_app. by eapply sends_app.
Qed.
End Client.

(** ** Properties *)

(** What can happen to the switch: a frame from the radio, a frame from the
    TCP stream, an operation of the reliability layer, a sweep of the table. *)
Inductive pkg_event :=
  | FromRadio (pkg src : list Z) (dst : option (list Z)) (evm : Z)
  | FromTcp (frame : list Z)
  | AckOp (op : ack_op)
  | Sweep (now : Z).

Section Events.
Context {W : Type} `{AckEnv W} `{Kvdb W} `{PkgEnv W}.
Context (others : option nat -> ack_state W -> ack_state W) (db_others : link_db -> link_db).
Context (shl_oob j2ms : Z -> Z) (sha256 : list Z -> list Z) (stack_info : packet_info).

Definition pkg_event_run (e : pkg_event) : M (pkg_state W) unit :=
  match e with
  | FromRadio pkg src dst evm => halow_pkg_handler_rf_to_tcp others db_others shl_oob sha256 stack_info pkg src dst evm
  | FromTcp frame => halow_pkg_handler_tcp_to_rf others db_others sha256 stack_info frame;; mret tt
  | AckOp op => on_ack (run_op shl_oob j2ms others op)
  | Sweep now => db ← gets g_link_db; r ← lift (rns_link_db_sweep_expired db now); modify (fun s => s <| g_link_db := r.1 |>)
  end.
Definition pkg_event_ok (submitted : list Z -> list Z -> Prop) (e : pkg_event) : Prop :=
  match e with
  | FromRadio pkg src _ _ => is_bytes pkg /\ blen pkg < 65536 /\ mac_ok src
  | FromTcp frame => is_bytes frame /\ blen frame <= RNS_STREAM_MAX_FRAME_SIZE
  | AckOp op => op_ok submitted op
  | Sweep _ => True
  end.
End Events.

Lemma sweep_db_ok db now : db_ok db -> exists db' n, rns_link_db_sweep_expired db now = Some (db', n) /\ db_ok db'.
Proof.
  intros [Hwf Hm]. destruct (sweep_refines db now Hwf) as (db' & E & Hwf' & Hc). eexists _, _. split; [exact E|].
  split; [exact Hwf'|]. intros key l Hl. cbn in Hl. rewrite Hc in Hl. apply map_lookup_filter_Some in Hl as [Hl _]. eauto.
Qed.

(** C5: whatever arrives from the radio, and whatever frames of at most 2048
    bytes the TCP stream delivers, in any order with timer runs, sweeps and
    all other operations of the reliability layer, the frame switch never
    accesses memory outside a buffer and always returns; the link table and
    the reliability layer stay consistent, learned addresses stay six bytes,
    and the mutex is held as often as before (the path that leaks it needs a
    longer frame). *)
Theorem switch_never_faults {W} `{AckEnv W} `{Kvdb W} `{PkgEnv W} submitted (P : W -> Prop) `{!WorldOk submitted P}
    `{!StoreOk P} `{!PkgOk P} K others db_others shl_oob j2ms sha256 stack_info evs (s : pkg_state W) :
  others_ok submitted P K others -> (forall db, db_ok db -> db_ok (db_others db)) ->
  (forall m, length (sha256 m) = 32%nat) ->
  (forall m x, mac_ok m -> is_bytes x -> blen x <= RNS_STREAM_MAX_FRAME_SIZE -> submitted m x) ->
  Forall (pkg_event_ok submitted) evs -> Inv submitted P (ack s) -> db_ok (g_link_db s) ->
  exists s', mfor evs (pkg_event_run others db_others shl_oob j2ms sha256 stack_info) s = Some (tt, s') /\
    Inv submitted P (ack s') /\ db_ok (g_link_db s') /\ ack_held (ack s') = ack_held (ack s).
Proof.
  intros Ho Hdb Hsha Hsub Hevs HI HD.
  set (g := good submitted P K s). assert (Hg : g s) by (split; [by apply At_refl|exact HD]).
  destruct (wp_elim (mfor evs (pkg_event_run others db_others shl_oob j2ms sha256 stack_info)) (fun _ s' => g s') s)
    as ([] & s' & E & (HA & HD')).
  - apply (wp_mfor _ _ g); [exact Hg| |done]. intros e s1 He Hg1. rewrite Forall_forall in Hevs. specialize (Hevs e He).
    destruct e as [pkg src dst evm|frame|op|now]; cbn [pkg_event_run pkg_event_ok] in *.
    + destruct Hevs as (Hb & Hl & Hm).
      by apply (good_rf_to_tcp submitted P K others Ho db_others Hdb sha256 Hsha stack_info shl_oob pkg src dst evm s).
    + destruct Hevs as (Hb & Hl). apply wp_bind.
      apply (tcp_to_rf_spec submitted P K others Ho db_others Hdb sha256 Hsha stack_info shl_oob Hsub frame s); [done..|].
      intros r pkg' s2 Hg2 _ _ _. by apply wp_ret.
    + destruct Hg1 as [HA1 HD1]. apply wp_on_ack.
      apply (run_op_At shl_oob j2ms (fun _ _ => []) submitted P K others op (ack s) 0); [done..|]. intros k HA2. by split.
    + destruct Hg1 as [HA1 HD1]. apply wp_bind, wp_gets, wp_bind.
      destruct (sweep_db_ok _ now HD1) as (db' & n & Es & HD2). eapply wp_lift; [exact Es|]. apply wp_modify. by split.
  - exists s'. split; [exact E|]. split; [apply HA|]. split; [exact HD'|]. destruct HA as (_ & _ & ->). lia.
Qed.

(** C3: a bundle from the radio reaches the TCP client packet by packet.
    For every bundle of packets, [halow_ack_on_rx] decides; if it consumes
    the frame (a bundle already delivered) the client is sent nothing; if not,
    the packets of the bundle that the parser accepts are sent to the client
    as SLIP frames, once each and in order, except those for which there is no
    memory or that the ring of the TCP server refuses: exactly as many are
    missing as there were refusals, so without one the client gets them all.
    Decoding what was sent with the stream decoder, whose frames have at most
    2048 bytes, yields these packets byte for byte. *)
Theorem bundle_reaches_client {W} `{AckEnv W} `{Kvdb W} `{PkgEnv W} submitted (P : W -> Prop) `{!WorldOk submitted P}
    `{!StoreOk P} `{!PkgOk P} K others db_others shl_oob sha256 stack_info (sent : W -> list (list Z)) (lost : W -> Z)
    seq subs src dst evm (s : pkg_state W) :
  others_ok submitted P K others -> (forall db, db_ok db -> db_ok (db_others db)) ->
  (forall m, length (sha256 m) = 32%nat) -> tcp_log sent lost ->
  Inv submitted P (ack s) -> db_ok (g_link_db s) -> mac_ok src -> is_u16 seq -> (0 < length subs)%nat ->
  Z.of_nat (length subs) < 256 -> subs_ok subs ->
  is_bytes (bundle_frame seq subs) -> blen (bundle_frame seq subs) < 65536 ->
  exists r k s' taken, halow_ack_on_rx others shl_oob (Some (bundle_frame seq subs)) src dst evm (ack s) = Some (r, k) /\
    halow_pkg_handler_rf_to_tcp others db_others shl_oob sha256 stack_info (bundle_frame seq subs) src dst evm s = Some (tt, s') /\
    let due := if r then delivered sha256 stack_info subs else [] in
    client sent s' = sent (world k) ++ (encode <$> taken) /\ taken `sublist_of` due /\
    Z.of_nat (length due) = Z.of_nat (length taken) + (lost (world (ack s')) - lost (world k)) /\
    (lost (world (ack s')) = lost (world k) -> taken = due) /\
    (Forall (fun x => blen x <= RNS_STREAM_MAX_FRAME_SIZE) taken -> forall d, idle d -> exists d', idle d' /\
      acc_feed d (concat (encode <$> taken)) [] = (d', taken)).
Proof.
  intros Ho Hdb Hsha Hup HI HD Hm Hseq Hne Hn Hok Hb Hl.
  destruct (bundle_frame_spec seq subs Hseq Hok Hne Hn) as (_ & Eb & _ & E5 & Ew & Es).
  assert (Hw : wp (halow_ack_on_rx others shl_oob (Some (bundle_frame seq subs)) src dst evm)
    (fun _ k => At submitted P K (ack s) 0 k) (ack s)).
  { apply (halow_ack_on_rx_At submitted P K others Ho shl_oob _ src dst evm (ack s) 0); [by apply At_refl|done|done]. }
  apply wp_elim in Hw as (r & k & Er & _).
  destruct (wp_elim (halow_pkg_handler_rf_to_tcp others db_others shl_oob sha256 stack_info (bundle_frame seq subs) src dst evm)
    (fun _ s' => exists t, sends sent lost (if r then delivered sha256 stack_info subs else []) t (s <| ack := k |>) s') s)
    as ([] & s' & E & t & Hc & Hs & Hct).
  - unfold halow_pkg_handler_rf_to_tcp. apply wp_bind, wp_on_ack. unfold wp at 1. rewrite Er.
    destruct r; cbn [negb]; [|apply wp_ret; exists []; by apply sends_silent].
    apply wp_bind, wp_modify. rewrite Eb.
    assert (Erd : rd (bundle_frame seq subs) 5 = Some (Z.of_nat (length subs))) by reflexivity.
    apply wp_bind. eapply wp_lift; [exact Erd|].
    replace (bundle_walk_valid (bundle_frame seq subs) HALOW_ENV_BUNDLE_HDR (Z.of_nat (length subs))) with true
      by (rewrite <-E5; symmetry; exact Ew). cbn [negb]. rewrite Nat2Z.id.
    apply (client_bundle sent lost Hup db_others Hdb sha256 Hsha stack_info src _ _ (bundle_frame seq subs) _ subs); [done..|].
    intros t s' Ht. exists t. exact Ht.
  - exists r, k, s', t. split; [exact Er|]. split; [exact E|]. cbv zeta. split; [exact Hc|]. split; [exact Hs|].
    unfold refusals in Hct. rsimpl. split; [exact Hct|]. split.
    { intros El. apply sublist_same_length; [exact Hs|]. lia. }
    intros Hlen d Hd. destruct (acc_feed_encode_all t d []) as (d' & Hd' & E'); [|done|by exists d'].
    apply Forall_forall. intros x Hx. rewrite Forall_forall in Hlen. split; [|by apply Hlen]. intros ->.
    assert (Hin : [] ∈ (if r then delivered sha256 stack_info subs else [])).
    { by eapply elem_of_sublist. }
    destruct r; [|by apply elem_of_nil in Hin]. apply list_elem_of_filter in Hin as [Ha _]. unfold accepts in Ha.
    destruct (parse_cases sha256 Hsha stack_info []) as (rc & info & Ep & Hrc). rewrite Ep in Ha.
    apply bool_decide_unpack in Ha. destruct (Hrc Ha) as [H19 _]. unfold blen in H19. cbn in H19. lia.
Qed.

(** C6: a frame from the TCP side is handed to the reliability layer once, for
    the right destination.  A frame the parser refuses is dropped and changes
    nothing but a counter.  Any other frame takes the layer from the state it
    was in (the radio's limit having been read for a link request) to the
    final one by a single [halow_ack_tx], whose result is returned: to the
    MAC address learned for its link, if the link table has one after the
    packet was registered, otherwise to everybody; unchanged, except that a
    link request is passed through the MTU clamp with the smaller of 500 and
    the radio's limit; and what the caller keeps to offer again after a
    throttle is the frame that was handed on. *)
Theorem tcp_frame_switched {W} `{AckEnv W} `{Kvdb W} `{PkgEnv W} submitted (P : W -> Prop) `{!WorldOk submitted P}
    `{!StoreOk P} `{!PkgOk P} K others db_others sha256 stack_info pkg (s : pkg_state W) :
  others_ok submitted P K others -> (forall db, db_ok db -> db_ok (db_others db)) ->
  (forall m, length (sha256 m) = 32%nat) ->
  (forall m x, mac_ok m -> is_bytes x -> blen x <= RNS_STREAM_MAX_FRAME_SIZE -> submitted m x) ->
  Inv submitted P (ack s) -> db_ok (g_link_db s) -> is_bytes pkg -> blen pkg <= RNS_STREAM_MAX_FRAME_SIZE ->
  exists r pkg' s', halow_pkg_handler_tcp_to_rf others db_others sha256 stack_info pkg s = Some ((r, pkg'), s') /\
    length pkg' = length pkg /\ is_bytes pkg' /\
    (accepts sha256 stack_info pkg = false /\ r = 0 /\ pkg' = pkg /\ ack s' = ack s /\ g_link_db s' = g_link_db s \/
     exists info db1, rns_link_parser_parse sha256 (Some pkg) (Some stack_info) = Some (RNS_RET_OK, Some info) /\
       switched others db_others pkg info s r pkg' db1 s').
Proof.
  intros Ho Hdb Hsha Hsub HI HD Hb Hl.
  destruct (wp_elim (halow_pkg_handler_tcp_to_rf others db_others sha256 stack_info pkg) (fun rp s' =>
    length rp.2 = length pkg /\ is_bytes rp.2 /\
    (accepts sha256 stack_info pkg = false /\ rp.1 = 0 /\ rp.2 = pkg /\ ack s' = ack s /\ g_link_db s' = g_link_db s \/
     exists info db1, rns_link_parser_parse sha256 (Some pkg) (Some stack_info) = Some (RNS_RET_OK, Some info) /\
       switched others db_others pkg info s rp.1 rp.2 db1 s')) s) as ([r pkg'] & s' & E & Hq).
  - apply (tcp_to_rf_spec submitted P K others Ho db_others Hdb sha256 Hsha stack_info (fun _ => 0) Hsub pkg s); [|done..|].
    + split; [by apply At_refl|exact HD].
    + intros r pkg' s' _ Hlq Hbq Hcase. done.
  - by exists r, pkg', s'.
Qed.

(** ** A concrete switch for the witnesses *)

(** The world is what the TCP client was sent. *)
Definition desk : Type := list (list Z).
#[export] Instance desk_env : AckEnv desk := {
  os_jiffies w := (1000, w);
  os_msecs_to_jiffies ms := ms;
  time_s _ := 77;
  os_malloc _ w := (true, w);
  halow_tx_p _ _ _ _ w := (0, w);
  halow_get_tx_vacancy _ := 40000;
  halow_config_mcs _ := 2;
  statistics_radio_register_tx_package _ w := w;
  halow_tx_vacancy_watchdog w := w;
}.
#[export] Instance desk_kvdb : Kvdb desk := {
  fdb_kv_set_blob _ _ w := (0, w);
  fdb_kv_get_blob _ _ _ := [];
}.
#[export] Instance desk_pkg : PkgEnv desk := {
  halow_get_mtu_cached w := (1500, w);
  link_malloc_ok _ := true;
  statistics_radio_register_rx_package _ w := w;
  tcp_server_send_owned f w := (0, w ++ [f]);
}.
Definition anyw : desk -> Prop := fun _ => True.
Definition anys : list Z -> list Z -> Prop := fun _ _ => True.
#[export] Instance desk_world : WorldOk anys anyw.
Proof. by split. Qed.
#[export] Instance desk_store : StoreOk anyw.
Proof. by split. Qed.
#[export] Instance desk_pkg_ok : PkgOk anyw.
Proof. split; [|done..]. intros w _. cbn. by split. Qed.
Definition desk_log (w : desk) : list (list Z) := w.
Definition untouched (db : link_db) : link_db := db.
(** This client never refuses. *)
Lemma desk_tcp_log : tcp_log desk_log (fun _ => 0).
Proof. by split. Qed.

(** A ring with room for one frame, and its count of refusals. *)
Definition narrow : Type := desk * Z.
#[export] Instance narrow_env : AckEnv narrow := {
  os_jiffies w := (1000, w);
  os_msecs_to_jiffies ms := ms;
  time_s _ := 77;
  os_malloc _ w := (true, w);
  halow_tx_p _ _ _ _ w := (0, w);
  halow_get_tx_vacancy _ := 40000;
  halow_config_mcs _ := 2;
  statistics_radio_register_tx_package _ w := w;
  halow_tx_vacancy_watchdog w := w;
}.
#[export] Instance narrow_pkg : PkgEnv narrow := {
  halow_get_mtu_cached w := (1500, w);
  link_malloc_ok _ := true;
  statistics_radio_register_rx_package _ w := w;
  tcp_server_send_owned f w := match w.1 with [] => (0, ([f], w.2)) | _ => (-1, (w.1, w.2 + 1)) end;
}.
Lemma narrow_tcp_log : tcp_log (W := narrow) fst snd.
Proof. split; [..|intros; by split|intros; by split]; [intros; cbn; split; [done|lia]|]. by intros f [[|x l] n]. Qed.
Definition narrow_start : pkg_state narrow :=
  mkPkg (power_on ([], 0)) g_link_db_init (mkCounters 0 0 0 0 0 0 0).

Definition alone : option nat -> ack_state desk -> ack_state desk := fun _ s => s.
Lemma alone_ok K : others_ok anys anyw K alone.
Proof. intros mine s HI. by apply At_refl. Qed.
Definition desk_boot : ack_state desk := power_on [].
Definition desk_ack : ack_state desk := run halow_ack_init desk_boot.
Definition desk_start : pkg_state desk := mkPkg desk_ack g_link_db_init (mkCounters 0 0 0 0 0 0 0).
Lemma desk_ack_inv : Inv anys anyw (ack desk_start).
Proof.
  pose proof (halow_ack_init_ok anys anyw desk_boot (fun _ s' => Inv anys anyw s')) as Hw.
  apply wp_elim in Hw as ([] & s' & E & HI); [|by apply power_on_ok|done].
  unfold desk_start, desk_ack, run. cbn [ack]. rewrite E. exact HI.
Qed.
Lemma desk_db : db_ok (g_link_db desk_start).
Proof. apply g_link_db_init_ok. Qed.

(** Two data packets of a link, a link request of 86 bytes, and four bytes
    that are no packet. *)
Definition data_packet (b : Z) : list Z := 0x0C :: 1 :: replicate 16 9 ++ [0; b; b].
Definition link_request : list Z := 0x02 :: replicate 82 9 ++ [0x3F; 0xFF; 0xFF].
Definition desk_subs : list (list Z) := [data_packet 0x7E; [1; 2; 3; 4]; data_packet 0x7D].

Lemma bundle_reaches_client_witness :
  (exists r k s' taken, halow_ack_on_rx alone (fun _ => 0) (Some (bundle_frame 7 desk_subs)) mac1 (Some mac2) (-20) (ack desk_start) = Some (r, k) /\
    halow_pkg_handler_rf_to_tcp alone untouched (fun _ => 0) sum_digest zero_info (bundle_frame 7 desk_subs) mac1 (Some mac2) (-20) desk_start
      = Some (tt, s') /\
    let due := if r then delivered sum_digest zero_info desk_subs else [] in
    client desk_log s' = desk_log (world k) ++ (encode <$> taken) /\ taken `sublist_of` due /\
    Z.of_nat (length due) = Z.of_nat (length taken) + (0 - 0) /\ (0 = 0 -> taken = due) /\
    (Forall (fun x => blen x <= RNS_STREAM_MAX_FRAME_SIZE) taken -> forall d, idle d -> exists d', idle d' /\
      acc_feed d (concat (encode <$> taken)) [] = (d', taken))) /\
  match halow_pkg_handler_rf_to_tcp alone untouched (fun _ => 0) sum_digest zero_info (bundle_frame 7 desk_subs) mac1 (Some mac2) (-20) desk_start with
  | Some (_, s') => client desk_log s' = [encode (data_packet 0x7E); encode (data_packet 0x7D)]
  | None => False
  end.
Proof.
  split; [|vm_compute; reflexivity].
  apply (bundle_reaches_client anys anyw (fun _ => False) alone untouched (fun _ => 0) sum_digest zero_info desk_log (fun _ => 0) 7 desk_subs mac1 (Some mac2) (-20) desk_start).
  - apply alone_ok.
  - done.
  - apply sum_digest_length.
  - apply desk_tcp_log.
  - apply desk_ack_inv.
  - apply desk_db.
  - apply bench_mac1.
  - by_eval.
  - cbn. lia.
  - cbn. lia.
  - repeat constructor.
  - by_eval.
  - vm_compute. reflexivity.
Defined.

(** With room for one frame the second packet is refused. *)
Example narrow_ring_drops :
  match bundle_split_deliver untouched sum_digest zero_info (bundle_frame 7 desk_subs) 3 HALOW_ENV_BUNDLE_HDR mac1 false narrow_start with
  | Some (_, s') => (world (ack s'), rf_tcp_dropped (counts s')) = (([encode (data_packet 0x7E)], 1), 1)
  | None => False
  end.
Proof. vm_compute. reflexivity. Qed.

Lemma tcp_frame_switched_witness :
  (exists r pkg' s', halow_pkg_handler_tcp_to_rf alone untouched sum_digest zero_info link_request desk_start = Some ((r, pkg'), s') /\
    length pkg' = length link_request /\ is_bytes pkg' /\
    (accepts sum_digest zero_info link_request = false /\ r = 0 /\ pkg' = link_request /\ ack s' = ack desk_start /\
       g_link_db s' = g_link_db desk_start \/
     exists info db1, rns_link_parser_parse sum_digest (Some link_request) (Some zero_info) = Some (RNS_RET_OK, Some info) /\
       switched alone untouched link_request info desk_start r pkg' db1 s')) /\
  match halow_pkg_handler_tcp_to_rf alone untouched sum_digest zero_info link_request desk_start with
  | Some ((r, p), s') => (r, drop 83 p, links_count (g_link_db s')) = (0, [0x20; 0x01; 0xF4], 1)
  | None => False
  end.
Proof.
  split; [|vm_compute; reflexivity].
  apply (tcp_frame_switched anys anyw (fun _ => False) alone untouched sum_digest zero_info link_request desk_start).
  - apply alone_ok.
  - done.
  - apply sum_digest_length.
  - done.
  - apply desk_ack_inv.
  - apply desk_db.
  - by_eval.
  - vm_compute. discriminate.
Defined.

Definition desk_events : list pkg_event :=
  [FromTcp link_request; FromRadio (bundle_frame 7 desk_subs) mac1 (Some mac2) (-20); AckOp OpTick; Sweep 100;
   FromRadio [0xA5; 0x5A; 0x10; 1; 0; 3; 200; 1] mac1 (Some mac2) 0; FromTcp (data_packet 1); FromTcp [1; 2]].
Lemma switch_never_faults_witness :
  exists s', mfor desk_events (pkg_event_run alone untouched (fun _ => 0) (fun j => j) sum_digest zero_info) desk_start = Some (tt, s') /\
    Inv anys anyw (ack s') /\ db_ok (g_link_db s') /\ ack_held (ack s') = 0.
Proof.
  apply (switch_never_faults anys anyw (fun _ => False) alone untouched (fun _ => 0) (fun j => j) sum_digest zero_info desk_events desk_start).
  - apply alone_ok.
  - done.
  - apply sum_digest_length.
  - done.
  - unfold desk_events. rewrite !Forall_cons. cbn [pkg_event_ok op_ok].
    repeat match goal with |- _ /\ _ => split end;
      first [done|apply bench_mac1|by_eval|vm_compute; reflexivity|vm_compute; discriminate|by apply Forall_nil].
  - apply desk_ack_inv.
  - apply desk_db.
Defined.
