(* ===== verification/Dhcpd.v ===== *)
(** * DHCP server core: [src/dhcpd_core.c], [inc/dhcpd_core.h]

    Packet parsing, the lease table and its decisions, reply building.
    Addresses are [uint32_t] values in the byte order the core itself uses
    (most significant octet first on the wire, [put32]/[get32]). *)

From S2P Require Import Prelude.

(** ** Wire constants *)

Definition DHCP_OP_REQUEST : Z := 1.
Definition DHCP_OP_REPLY : Z := 2.
Definition DHCP_MAGIC : list Z := [0x63; 0x82; 0x53; 0x63].
Definition OPT_END : Z := 255.
Definition OPT_SUBNET : Z := 1.
Definition OPT_ROUTER : Z := 3.
Definition OPT_DNS : Z := 6.
Definition OPT_LEASE : Z := 51.
Definition OPT_MSGTYPE : Z := 53.
Definition OPT_SERVERID : Z := 54.
Definition OPT_REQ_IP : Z := 50.
Definition DHCP_FIXED : Z := 240.
Definition DHCPD_LEASES : nat := 4.
Definition DHCPD_PKT_MAX : Z := 548.

Definition DHCPD_DISCOVER : Z := 1.
Definition DHCPD_OFFER : Z := 2.
Definition DHCPD_REQUEST : Z := 3.
Definition DHCPD_DECLINE : Z := 4.
Definition DHCPD_ACK : Z := 5.
Definition DHCPD_NAK : Z := 7.
Definition DHCPD_RELEASE : Z := 8.

(** The four bytes [put32] stores, and the value [get32] reads. *)
Definition put32 (v : Z) : list Z :=
  [u8 (Z.shiftr v 24); u8 (Z.shiftr v 16); u8 (Z.shiftr v 8); u8 v].

Definition get32 (p : list Z) : option Z :=
  match p with
  | [a; b; c; d] =>
      Some (Z.lor (Z.lor (Z.lor (u32 (Z.shiftl a 24)) (Z.shiftl b 16)) (Z.shiftl c 8)) d)
  | _ => None
  end.

(** ** Data *)

Record dhcpd_req := mk_req {
  q_msgtype : Z;
  q_xid : Z;
  q_mac : list Z;
  q_req_ip : Z;
}.
#[export] Instance eta_req : Eta dhcpd_req :=
  fun q => mk_req (q_msgtype q) (q_xid q) (q_mac q) (q_req_ip q).

Record dhcpd_lease := mk_lease {
  used : Z;
  mac : list Z;
  ip : Z;
  expires_ms : Z;
}.
#[export] Instance eta_lease : Eta dhcpd_lease :=
  fun l => mk_lease (used l) (mac l) (ip l) (expires_ms l).

Record dhcpd_state := mk_dhcpd {
  server_ip : Z;
  netmask : Z;
  pool_base : Z;
  pool_size : Z;
  lease_ms : Z;
  leases : list dhcpd_lease;
}.
#[export] Instance eta_dhcpd : Eta dhcpd_state :=
  fun s => mk_dhcpd (server_ip s) (netmask s) (pool_base s) (pool_size s) (lease_ms s) (leases s).

(** [memset(l, 0, sizeof *l)] *)
Definition lease0 : dhcpd_lease := mk_lease 0 (replicate 6 0) 0 0.

Definition dhcpd_state_init (server mask base size : Z) : dhcpd_state :=
  mk_dhcpd server mask base size (12 * 60 * 60 * 1000) (replicate DHCPD_LEASES lease0).

(** ** Parsing

    The outer [option] is [None] when the code would read outside [pkt] (or
    the loop's fuel ran out); the inner one is the function's -1. *)

Record opt_scan := mk_scan { have_type : bool; msgtype : Z; req_ip : Z }.

(** The option loop, [i] being the 16-bit index of the code. *)
Fixpoint opt_loop (fuel : nat) (pkt : list Z) (len i : Z) (s : opt_scan)
    : option (option opt_scan) :=
  match fuel with
  | O => None
  | S fuel =>
      if i <? len then
        opt ← rd pkt i;
        if opt =? OPT_END then Some (Some s)
        else if opt =? 0 then opt_loop fuel pkt len (u16 (i + 1)) s
        else if len <=? u16 (i + 1) then Some None
        else
          olen ← rd pkt (i + 1);
          if len <? u16 (i + 2 + olen) then Some None
          else if (opt =? OPT_MSGTYPE) && (olen =? 1) && negb (have_type s) then
            t ← rd pkt (i + 2);
            opt_loop fuel pkt len (u16 (i + 2 + olen)) (mk_scan true t (req_ip s))
          else if (opt =? OPT_REQ_IP) && (olen =? 4) then
            b ← rd_n pkt (i + 2) 4;
            a ← get32 b;
            opt_loop fuel pkt len (u16 (i + 2 + olen)) (mk_scan (have_type s) (msgtype s) a)
          else opt_loop fuel pkt len (u16 (i + 2 + olen)) s
      else Some (Some s)
  end.

Definition answered_type (t : Z) : bool :=
  (t =? DHCPD_DISCOVER) || (t =? DHCPD_REQUEST) || (t =? DHCPD_DECLINE) || (t =? DHCPD_RELEASE).

Definition dhcpd_parse (pkt : list Z) (len : Z) : option (option dhcpd_req) :=
  if len <? DHCP_FIXED then Some None else
  op ← rd pkt 0;
  if negb (op =? DHCP_OP_REQUEST) then Some None else
  htype ← rd pkt 1;
  hlen ← rd pkt 2;
  if negb (htype =? 1) || negb (hlen =? 6) then Some None else
  magic ← rd_n pkt 236 4;
  if negb (bool_decide (magic = DHCP_MAGIC)) then Some None else
  xb ← rd_n pkt 4 4;
  xid ← get32 xb;
  m ← rd_n pkt 28 6;
  r ← opt_loop (S (Z.to_nat len)) pkt len DHCP_FIXED (mk_scan false 0 0);
  match r with
  | None => Some None
  | Some s =>
      if answered_type (msgtype s)
      then Some (Some (mk_req (msgtype s) xid m (req_ip s)))
      else Some None
  end.

(** ** Leases *)

Definition is_used (l : dhcpd_lease) : bool := negb (used l =? 0).

(** The first index among [l] that satisfies [P], as the [for] loops find it. *)
Fixpoint first_slot (P : nat -> dhcpd_lease -> bool) (k : nat) (l : list dhcpd_lease) : option nat :=
  match l with
  | [] => None
  | c :: l => if P k c then Some k else first_slot P (S k) l
  end.

Definition lease_by_mac (st : dhcpd_state) (m : list Z) : option nat :=
  first_slot (fun _ l => is_used l && bool_decide (mac l = m)) 0 (leases st).

(** The slots the pool uses: [k < pool_size && k < DHCPD_LEASES]. *)
Definition pool (st : dhcpd_state) : list dhcpd_lease :=
  take (Z.to_nat (pool_size st)) (leases st).

Definition lease_free_pick (st : dhcpd_state) (now_ms : Z) : option nat :=
  match first_slot (fun _ l => negb (is_used l)) 0 (pool st) with
  | Some k => Some k
  | None => first_slot (fun _ l => expires_ms l <=? now_ms) 0 (pool st)
  end.

Definition pool_ip (st : dhcpd_state) (slot : Z) : Z := u32 (pool_base st + slot).

(** ** Decisions

    Result: the new state and [(reply_type, offer_ip)]; the function's return
    value is [reply_type]. *)

Definition upd_slot (st : dhcpd_state) (k : nat) (f : dhcpd_lease -> dhcpd_lease) : dhcpd_state :=
  st <| leases ::= alter f k |>.

Definition fresh_lease (m : list Z) (a e : Z) : dhcpd_lease := mk_lease 1 m a e.

Definition drop_lease (st : dhcpd_state) (m : list Z) : dhcpd_state :=
  match lease_by_mac st m with
  | Some k => upd_slot st k (fun l => l <| used := 0 |>)
  | None => st
  end.

Definition decide_discover (st : dhcpd_state) (q : dhcpd_req) (now_ms : Z)
    : dhcpd_state * (Z * Z) :=
  let offer k st := (st, (DHCPD_OFFER, from_option ip 0 (leases st !! k))) in
  let alloc :=
    match lease_free_pick st now_ms with
    | None => (st, (0, 0))
    | Some k =>
        offer k (upd_slot st k (fun _ =>
          fresh_lease (q_mac q) (pool_ip st (u8 (Z.of_nat k))) (u64 (now_ms + lease_ms st))))
    end in
  match lease_by_mac st (q_mac q) with
  | None => alloc
  | Some k =>
      if from_option expires_ms 0 (leases st !! k) <=? now_ms then alloc else offer k st
  end.

(** The slot whose own address is the requested one, when it may be taken. *)
Definition slot_for (st : dhcpd_state) (a now_ms : Z) : option nat :=
  first_slot (fun k c => (pool_ip st (Z.of_nat k) =? a) && (negb (is_used c) || (expires_ms c <=? now_ms)))
    0 (pool st).

Definition decide_request (st : dhcpd_state) (q : dhcpd_req) (now_ms : Z)
    : dhcpd_state * (Z * Z) :=
  match lease_by_mac st (q_mac q) with
  | Some k =>
      let lip := from_option ip 0 (leases st !! k) in
      let a := if negb (q_req_ip q =? 0) then q_req_ip q else lip in
      if negb (a =? lip) then (st, (DHCPD_NAK, 0))
      else (upd_slot st k (fun l => l <| expires_ms := u64 (now_ms + lease_ms st) |>), (DHCPD_ACK, lip))
  | None =>
      if negb (q_req_ip q =? 0) && (pool_base st <=? q_req_ip q) && (q_req_ip q <? pool_ip st (pool_size st)) &&
         (Z.land (q_req_ip q) (netmask st) =? Z.land (server_ip st) (netmask st))
      then
        match slot_for st (q_req_ip q) now_ms with
        | Some k =>
            (upd_slot st k (fun _ => fresh_lease (q_mac q) (q_req_ip q) (u64 (now_ms + lease_ms st))),
             (DHCPD_ACK, q_req_ip q))
        | None => (st, (DHCPD_NAK, 0))
        end
      else (st, (DHCPD_NAK, 0))
  end.

Definition dhcpd_decide (st : dhcpd_state) (q : dhcpd_req) (now_ms : Z) : dhcpd_state * (Z * Z) :=
  let t := q_msgtype q in
  if t =? DHCPD_RELEASE then (drop_lease st (q_mac q), (0, 0))
  else if t =? DHCPD_DECLINE then (drop_lease st (q_mac q), (0, 0))
  else if t =? DHCPD_DISCOVER then decide_discover st q now_ms
  else if t =? DHCPD_REQUEST then decide_request st q now_ms
  else (st, (0, 0)).

(** ** Replies

    A buffer write outside [buf] is [None]. *)

Definition opt4 (buf : list Z) (p code v : Z) : option (list Z * Z) :=
  buf ← wr buf p code;
  buf ← wr buf (p + 1) 4;
  buf ← wr_n buf (p + 2) (put32 v);
  Some (buf, p + 6).

Definition dhcpd_build (buf : list Z) (reply_type xid : Z) (m : list Z)
    (yiaddr server mask lease_s : Z) : option (list Z * Z) :=
  let buflen := Z.of_nat (length buf) in
  if buflen <? DHCP_FIXED + 40 then Some (buf, 0) else
  let buf := replicate (length buf) 0 in
  buf ← wr buf 0 DHCP_OP_REPLY;
  buf ← wr buf 1 1;
  buf ← wr buf 2 6;
  buf ← wr buf 3 0;
  buf ← wr_n buf 4 (put32 xid);
  buf ← wr_n buf 16 (put32 yiaddr);
  buf ← wr_n buf 20 (put32 server);
  buf ← wr_n buf 28 m;
  buf ← wr_n buf 236 DHCP_MAGIC;
  buf ← wr_n buf 240 [OPT_MSGTYPE; 1; u8 reply_type];
  '(buf, p) ← opt4 buf 243 OPT_SERVERID server;
  '(buf, p) ← (if reply_type =? DHCPD_ACK then
      '(buf, p) ← opt4 buf p OPT_LEASE lease_s;
      '(buf, p) ← opt4 buf p OPT_SUBNET mask;
      '(buf, p) ← opt4 buf p OPT_ROUTER server;
      opt4 buf p OPT_DNS server
    else Some (buf, p));
  buf ← wr buf p OPT_END;
  Some (buf, u16 (p + 1)).

(** ** What a message is

    The options area as a grammar, after RFC 2132: pads, an optional END, and
    code-length-value triples.  [None] is an area that is cut short. *)

Inductive Options : list Z -> option (list (Z * list Z)) -> Prop :=
  | opts_nil : Options [] (Some [])
  | opts_end l : Options (OPT_END :: l) (Some [])
  | opts_pad l r : Options l r -> Options (0 :: l) r
  | opts_no_len c : c <> OPT_END -> c <> 0 -> Options [c] None
  | opts_short c n l : c <> OPT_END -> c <> 0 -> Z.of_nat (length l) < n -> Options (c :: n :: l) None
  | opts_cons c n l r : c <> OPT_END -> c <> 0 -> n <= Z.of_nat (length l) ->
      Options (drop (Z.to_nat n) l) r ->
      Options (c :: n :: l) (cons (c, take (Z.to_nat n) l) <$> r).

(** The first message-type option decides; the last requested address counts. *)
Definition as_type (o : Z * list Z) : option Z :=
  match o with (c, [t]) => if c =? OPT_MSGTYPE then Some t else None | _ => None end.
Definition as_req_ip (o : Z * list Z) : option Z :=
  let '(c, v) := o in
  if (c =? OPT_REQ_IP) && (Z.of_nat (length v) =? 4) then get32 v else None.
Definition options_type (os : list (Z * list Z)) : Z := default 0 (head (omap as_type os)).
Definition options_req_ip (os : list (Z * list Z)) : Z := default 0 (last (omap as_req_ip os)).

(** A BOOTREQUEST over Ethernet with the DHCP cookie. *)
Definition bootrequest (m : list Z) : Prop :=
  DHCP_FIXED <= Z.of_nat (length m) /\ m !! 0%nat = Some DHCP_OP_REQUEST /\
  m !! 1%nat = Some 1 /\ m !! 2%nat = Some 6 /\ take 4 (drop 236 m) = DHCP_MAGIC.

#[export] Instance bootrequest_dec m : Decision (bootrequest m).
Proof. unfold bootrequest. apply _. Defined.

Definition Message (m : list Z) (r : option dhcpd_req) : Prop :=
  if decide (bootrequest m) then
    exists os xid, Options (drop 240 m) os /\ get32 (take 4 (drop 4 m)) = Some xid /\
      r = (os ← os;
           if answered_type (options_type os)
           then Some (mk_req (options_type os) xid (take 6 (drop 28 m)) (options_req_ip os))
           else None)
  else r = None.

(** ** Proofs: parsing *)

Definition scan1 (s : opt_scan) (o : Z * list Z) : opt_scan :=
  match as_type o, as_req_ip o with
  | Some t, _ => if have_type s then s else mk_scan true t (req_ip s)
  | None, Some a => mk_scan (have_type s) (msgtype s) a
  | None, None => s
  end.

Lemma get32_4 (l : list Z) : length l = 4%nat -> exists v, get32 l = Some v.
Proof. destruct l as [|? [|? [|? [|? [|? ?]]]]]; try done. eexists. reflexivity. Qed.

Lemma scan_options os s :
  foldl scan1 s os =
  mk_scan (have_type s || bool_decide (omap as_type os <> []))
    (if have_type s then msgtype s else default (msgtype s) (head (omap as_type os)))
    (default (req_ip s) (last (omap as_req_ip os))).
Proof.
  revert s. induction os as [|o os IH]; intros [h t a]; cbn [foldl].
  - cbn. rewrite orb_false_r. by destruct h.
  - rewrite IH. unfold scan1. cbn [omap list_omap have_type msgtype req_ip].
    assert (Hex : as_type o = None \/ as_req_ip o = None).
    { destruct o as [c [|x [|y l]]]; cbn; [by left| |by left].
      destruct (Z.eqb_spec c OPT_MSGTYPE) as [->|]; [by right|by left]. }
    destruct (as_type o) as [t'|] eqn:Et, (as_req_ip o) as [a'|] eqn:Ea; try naive_solver.
    + destruct h; cbn; f_equal; by rewrite ?orb_true_r.
    + cbn. f_equal. by destruct (omap as_req_ip os) as [|? ?] using rev_ind; rewrite ?last_snoc, ?app_comm_cons, ?last_snoc.
Qed.

Lemma rd_cons_drop (pkt : list Z) len i c l :
  0 <= i -> drop (Z.to_nat i) (take (Z.to_nat len) pkt) = c :: l ->
  i < len /\ rd pkt i = Some c /\ drop (Z.to_nat (i + 1)) (take (Z.to_nat len) pkt) = l.
Proof.
  intros Hi H.
  assert (Hl : take (Z.to_nat len) pkt !! Z.to_nat i = Some c).
  { by rewrite <-(Nat.add_0_r (Z.to_nat i)), <-lookup_drop, H. }
  pose proof (lookup_lt_Some _ _ _ Hl) as Hlt. rewrite length_take in Hlt.
  rewrite lookup_take_lt in Hl by lia.
  split; [lia|]. split; [by apply rd_Some|].
  replace (Z.to_nat (i + 1)) with (Z.to_nat i + 1)%nat by lia.
  by rewrite <-drop_drop, H.
Qed.

Lemma rd_n_drop (pkt : list Z) len i l n :
  0 <= i -> 0 < n <= Z.of_nat (length l) -> drop (Z.to_nat i) (take (Z.to_nat len) pkt) = l ->
  rd_n pkt i n = Some (take (Z.to_nat n) l).
Proof.
  intros Hi Hn <-. rewrite length_drop, length_take in Hn.
  rewrite rd_n_in_bounds by lia. f_equal. rewrite skipn_firstn_comm, take_take. f_equal. lia.
Qed.

(** The index never wraps: an option that is kept ends at most at [len], and
    the sum that is tested is below 2^16 up to messages of 65280 bytes. *)
Lemma opt_loop_spec fuel pkt len i s :
  is_bytes pkt -> 0 <= i <= len -> len <= 65280 -> len <= Z.of_nat (length pkt) ->
  len - i < Z.of_nat fuel ->
  exists r, Options (drop (Z.to_nat i) (take (Z.to_nat len) pkt)) r /\
    opt_loop fuel pkt len i s = Some (foldl scan1 s <$> r).
Proof.
  intros Hb. revert i s. induction fuel as [|fuel IH]; intros i s Hi Hlen Hpkt Hf; [lia|].
  cbn [opt_loop].
  assert (Hll : length (drop (Z.to_nat i) (take (Z.to_nat len) pkt)) = Z.to_nat (len - i)).
  { rewrite length_drop, length_take. lia. }
  destruct (drop (Z.to_nat i) (take (Z.to_nat len) pkt)) as [|c l] eqn:Hd; cbn [length] in Hll.
  { replace (i <? len) with false by (symmetry; apply Z.ltb_ge; lia).
    exists (Some []). split; [constructor|done]. }
  destruct (rd_cons_drop pkt len i c l) as (Hlt & Hc & Hd1); [lia|done|].
  rewrite (proj2 (Z.ltb_lt i len) Hlt), Hc. cbn [mbind option_bind].
  destruct (Z.eqb_spec c OPT_END) as [->|Hend]; [exists (Some []); split; [constructor|done]|].
  rewrite (u16_small (i + 1)) by word_lia.
  destruct (Z.eqb_spec c 0) as [->|H0].
  { destruct (IH (i + 1) s) as (r & Hr & E); [lia..|]. rewrite Hd1 in Hr.
    exists r. split; [by constructor|done]. }
  destruct (Z.leb_spec len (i + 1)) as [Hle|Hgt].
  { destruct l; cbn in Hll; [|lia]. exists None. split; [by constructor|done]. }
  destruct l as [|n l]; cbn in Hll; [lia|].
  destruct (rd_cons_drop pkt len (i + 1) n l) as (_ & Hn & Hd2); [lia|done|].
  rewrite Hn. cbn [mbind option_bind].
  assert (Hn8 : 0 <= n < 256).
  { change (is_u8 n). apply rd_Some in Hn as [_ Hn]. by eapply is_bytes_lookup. }
  rewrite (u16_small (i + 2 + n)) by word_lia.
  destruct (Z.ltb_spec len (i + 2 + n)) as [Hs|Hk].
  { exists None. split; [|done]. constructor; [done..|]. lia. }
  replace (i + 1 + 1) with (i + 2) in Hd2 by lia.
  assert (Hnl : n <= Z.of_nat (length l)) by lia.
  assert (Hgo : forall s', exists r, Options (drop (Z.to_nat n) l) r /\
      opt_loop fuel pkt len (i + 2 + n) s' = Some (foldl scan1 s' <$> r)).
  { intros s'. destruct (IH (i + 2 + n) s') as (r & Hr & E); [lia..|]. exists r. split; [|done].
    rewrite <-Hd2, drop_drop. by replace (Z.to_nat (i + 2) + Z.to_nat n)%nat with (Z.to_nat (i + 2 + n)) by lia. }
  assert (Hgoal : forall s', scan1 s (c, take (Z.to_nat n) l) = s' ->
      exists r, Options (c :: n :: l) r /\
        opt_loop fuel pkt len (i + 2 + n) s' = Some (foldl scan1 s <$> r)).
  { intros s' Hs'. destruct (Hgo s') as (r & Hr & E). eexists. split; [by apply opts_cons|].
    rewrite E. destruct r; cbn; [by rewrite Hs'|done]. }
  assert (Hlen_v : length (take (Z.to_nat n) l) = Z.to_nat n).
  { rewrite length_take. lia. }
  clear IH Hgo.
  destruct ((c =? OPT_MSGTYPE) && (n =? 1)) eqn:E1; [|destruct ((c =? OPT_REQ_IP) && (n =? 4)) eqn:E2].
  - apply andb_true_iff in E1 as [->%Z.eqb_eq ->%Z.eqb_eq].
    destruct l as [|t l]; cbn in Hnl; [lia|].
    destruct (rd_cons_drop pkt len (i + 2) t l) as (_ & Ht & _); [lia|done|].
    destruct (have_type s) eqn:Hh; cbn [negb andb]; rewrite ?Ht; cbn [mbind option_bind];
      apply Hgoal; unfold scan1; cbn; by rewrite Hh.
  - cbn [negb andb]. apply andb_true_iff in E2 as [->%Z.eqb_eq ->%Z.eqb_eq].
    rewrite (rd_n_drop pkt len (i + 2) l 4) by (done || lia). cbn [mbind option_bind].
    destruct (get32_4 (take (Z.to_nat 4) l)) as (a & Ha); [rewrite Hlen_v; done|].
    rewrite Ha. cbn [mbind option_bind]. apply Hgoal. unfold scan1.
    replace (as_type (OPT_REQ_IP, take (Z.to_nat 4) l)) with (@None Z) by (by destruct (take (Z.to_nat 4) l) as [|? [|? ?]]).
    unfold as_req_ip. by rewrite Hlen_v, Ha.
  - cbn [negb andb]. apply Hgoal. unfold scan1.
    replace (as_type (c, take (Z.to_nat n) l)) with (@None Z).
    + unfold as_req_ip. rewrite Hlen_v, Z2Nat.id by lia. by rewrite E2.
    + cbn. destruct (take (Z.to_nat n) l) as [|x [|y ?]]; [done| |done].
      destruct (Z.eqb_spec c OPT_MSGTYPE); [|done]. cbn in Hlen_v. destruct (Z.eqb_spec n 1); [done|lia].
Qed.

Lemma options_functional l r r' : Options l r -> Options l r' -> r = r'.
Proof.
  intros H. revert r'. induction H; intros r' H'; inversion H'; subst;
    try done; try lia; try (cbn in *; lia); eauto.
  f_equal. eauto.
Qed.

Lemma message_functional m r r' : Message m r -> Message m r' -> r = r'.
Proof.
  unfold Message. case_decide; [|congruence].
  intros (os & xid & Ho & Hx & ->) (os' & xid' & Ho' & Hx' & ->).
  rewrite (options_functional _ _ _ Ho Ho'). simplify_eq. done.
Qed.

Lemma scan_result os :
  foldl scan1 (mk_scan false 0 0) os =
  mk_scan (bool_decide (omap as_type os <> [])) (options_type os) (options_req_ip os).
Proof. by rewrite scan_options. Qed.

Lemma lookup_take_rd (pkt : list Z) len i :
  0 <= i < len -> len <= Z.of_nat (length pkt) ->
  exists x, rd pkt i = Some x /\ take (Z.to_nat len) pkt !! Z.to_nat i = Some x.
Proof.
  intros Hi Hlen. destruct (rd_in_bounds pkt i) as (x & Hr & Hl); [lia|].
  exists x. split; [done|]. by rewrite lookup_take_lt by lia.
Qed.

Lemma rd_n_take (pkt : list Z) len i n :
  0 <= i -> 0 <= n -> i + n <= len -> len <= Z.of_nat (length pkt) ->
  rd_n pkt i n = Some (take (Z.to_nat n) (drop (Z.to_nat i) (take (Z.to_nat len) pkt))).
Proof.
  intros. rewrite rd_n_in_bounds by lia. f_equal. rewrite skipn_firstn_comm, take_take. f_equal. lia.
Qed.

(** The header checks of [dhcpd_parse] decide [bootrequest]. *)
Lemma parse_header pkt len :
  0 <= len <= Z.of_nat (length pkt) ->
  dhcpd_parse pkt len =
  if decide (bootrequest (take (Z.to_nat len) pkt)) then
    xb ← rd_n pkt 4 4; xid ← get32 xb; m ← rd_n pkt 28 6;
    r ← opt_loop (S (Z.to_nat len)) pkt len DHCP_FIXED (mk_scan false 0 0);
    match r with
    | None => Some None
    | Some s => if answered_type (msgtype s)
                then Some (Some (mk_req (msgtype s) xid m (req_ip s))) else Some None
    end
  else Some None.
Proof.
  intros Hlen. unfold dhcpd_parse.
  destruct (Z.ltb_spec len DHCP_FIXED) as [Hs|Hk].
  { rewrite decide_False; [done|]. intros (H & _). rewrite length_take in H. unfold DHCP_FIXED in *. lia. }
  unfold DHCP_FIXED in Hk.
  destruct (lookup_take_rd pkt len 0) as (op & -> & H0); [lia..|]. cbn [mbind option_bind].
  destruct (lookup_take_rd pkt len 1) as (ht & -> & H1); [lia..|].
  destruct (lookup_take_rd pkt len 2) as (hl & -> & H2); [lia..|]. cbn [mbind option_bind].
  rewrite (rd_n_take pkt len 236 4) by lia. cbn [mbind option_bind].
  case_decide as Hd.
  - destruct Hd as (_ & E0 & E1 & E2 & E3). change (Z.to_nat 0) with 0%nat in H0. change (Z.to_nat 1) with 1%nat in H1.
    change (Z.to_nat 2) with 2%nat in H2. change (Z.to_nat 4) with 4%nat. change (Z.to_nat 236) with 236%nat.
    rewrite E3. rewrite bool_decide_eq_true_2 by done.
    replace op with DHCP_OP_REQUEST by congruence. replace ht with 1 by congruence. replace hl with 6 by congruence.
    done.
  - repeat case_match; try done. exfalso. apply Hd. bools_to_props.
    subst. unfold bootrequest. rewrite length_take.
    unfold DHCP_FIXED. repeat split; [lia|done..|]. by eapply bool_decide_eq_true_1.
Qed.

Lemma parse_total (pkt : list Z) (len : Z) :
  is_bytes pkt -> 0 <= len <= 65280 -> len <= Z.of_nat (length pkt) ->
  exists r, dhcpd_parse pkt len = Some r /\ Message (take (Z.to_nat len) pkt) r.
Proof.
  intros Hb Hlen Hpkt.
  rewrite parse_header by lia. unfold Message. case_decide as Hd; [|eauto].
  destruct Hd as (Hf & _). rewrite length_take in Hf. unfold DHCP_FIXED in *.
  rewrite (rd_n_take pkt len 4 4) by lia. cbn [mbind option_bind].
  destruct (get32_4 (take (Z.to_nat 4) (drop (Z.to_nat 4) (take (Z.to_nat len) pkt)))) as (xid & Hx).
  { rewrite length_take, length_drop, length_take. lia. }
  rewrite Hx, (rd_n_take pkt len 28 6) by lia. cbn [mbind option_bind].
  destruct (opt_loop_spec (S (Z.to_nat len)) pkt len 240 (mk_scan false 0 0)) as (r & Hr & ->); [done|lia..|].
  cbn [mbind option_bind]. destruct r as [os|]; cbn [fmap option_fmap option_map].
  - rewrite scan_result. cbn [msgtype req_ip].
    destruct (answered_type (options_type os)) eqn:Ha; eexists; (split; [done|]);
      exists (Some os), xid; cbn [mbind option_bind]; by rewrite Ha.
  - eexists. split; [done|]. by exists None, xid.
Qed.

Lemma message_mac m q : Message m (Some q) -> length (q_mac q) = 6%nat.
Proof.
  unfold Message. case_decide as Hb; [|done]. intros (os & xid & _ & _ & E).
  destruct os as [os|]; cbn [mbind option_bind] in E; [|done]. case_match; [|done].
  injection E as ->. cbn [q_mac]. destruct Hb as (Hl & _). unfold DHCP_FIXED in Hl.
  rewrite length_take, length_drop. lia.
Qed.

(** C14: for every message of up to 65280 bytes (the server accepts at most
    548), [dhcpd_parse] terminates, reads nothing outside the message, and
    returns the request that the message denotes, or rejects it: the result
    is the unique one the grammar of the options allows. *)
Theorem dhcpd_parse_message (pkt : list Z) (len : Z) :
  is_bytes pkt -> 0 <= len <= 65280 -> len <= Z.of_nat (length pkt) ->
  exists r, dhcpd_parse pkt len = Some r /\
    Message (take (Z.to_nat len) pkt) r /\
    (forall r', Message (take (Z.to_nat len) pkt) r' -> r' = r).
Proof.
  intros Hb Hlen Hpkt. destruct (parse_total pkt len Hb Hlen Hpkt) as (r & E & Hm).
  exists r. split; [done|]. split; [done|]. intros r' Hr'. by eapply message_functional.
Qed.

(** ** Proofs: the lease table *)

Lemma first_slot_Some P k l j :
  first_slot P k l = Some j -> exists i c, j = (k + i)%nat /\ l !! i = Some c /\ P j c = true.
Proof.
  revert k. induction l as [|c l IH]; intros k; cbn [first_slot]; [done|].
  destruct (P k c) eqn:E.
  - intros [= <-]. exists 0%nat, c. by rewrite Nat.add_0_r.
  - intros (i & c' & -> & Hi & HP)%IH. exists (S i), c'. by rewrite <-Nat.add_succ_comm.
Qed.

Lemma first_slot_None P k l i c :
  first_slot P k l = None -> l !! i = Some c -> P (k + i)%nat c = false.
Proof.
  revert k i. induction l as [|c' l IH]; intros k i; cbn [first_slot]; [done|].
  destruct (P k c') eqn:E; [done|]. intros HN. destruct i as [|i]; cbn.
  - intros [= ->]. by rewrite Nat.add_0_r.
  - intros Hi. rewrite <-Nat.add_succ_comm. eauto.
Qed.

Lemma lookup_pool st k l : pool st !! k = Some l -> leases st !! k = Some l.
Proof. unfold pool. intros [H _]%lookup_take_Some. done. Qed.

Definition lease_of (st : dhcpd_state) (m : list Z) (k : nat) (l : dhcpd_lease) : Prop :=
  leases st !! k = Some l /\ is_used l = true /\ mac l = m.

Lemma lease_by_mac_Some st m k :
  lease_by_mac st m = Some k -> exists l, lease_of st m k l.
Proof.
  intros (i & c & -> & Hi & [? ?%bool_decide_eq_true_1]%andb_true_iff)%first_slot_Some.
  exists c. done.
Qed.

Lemma lease_by_mac_None st m k l :
  lease_by_mac st m = None -> ~ lease_of st m k l.
Proof.
  intros HN (Hk & Hu & Hm). pose proof (first_slot_None _ _ _ _ _ HN Hk) as H. cbn in H.
  rewrite Hu in H. cbn in H. by apply bool_decide_eq_false_1 in H.
Qed.

(** A slot that a new client may take. *)
Definition available (now_ms : Z) (l : dhcpd_lease) : Prop := is_used l = false \/ expires_ms l <= now_ms.

Lemma free_pick_available st now k :
  lease_free_pick st now = Some k -> exists l, leases st !! k = Some l /\ available now l.
Proof.
  unfold lease_free_pick. destruct (first_slot _ 0 (pool st)) as [j|] eqn:E.
  - intros [= <-]. apply first_slot_Some in E as (i & c & -> & Hi & HP). exists c.
    split; [by apply lookup_pool|]. left. by apply negb_true_iff.
  - intros (i & c & -> & Hi & HP)%first_slot_Some. exists c.
    split; [by apply lookup_pool|]. right. by apply Z.leb_le.
Qed.

(** What a decision can do, abstractly: nothing, free a lease of the client,
    refuse, repeat an offer, grant a slot nobody holds, or renew. *)
Inductive decision (st : dhcpd_state) (q : dhcpd_req) (now : Z) : dhcpd_state * (Z * Z) -> Prop :=
  | d_silent : decision st q now (st, (0, 0))
  | d_release k l :
      q_msgtype q = DHCPD_RELEASE \/ q_msgtype q = DHCPD_DECLINE -> lease_of st (q_mac q) k l ->
      decision st q now (upd_slot st k (fun l => l <| used := 0 |>), (0, 0))
  | d_nak : decision st q now (st, (DHCPD_NAK, 0))
  | d_offer_again k l :
      lease_by_mac st (q_mac q) = Some k -> lease_of st (q_mac q) k l -> now < expires_ms l ->
      decision st q now (st, (DHCPD_OFFER, ip l))
  | d_grant k l rt :
      rt = DHCPD_OFFER \/ rt = DHCPD_ACK -> leases st !! k = Some l -> available now l ->
      (forall j lj, lease_by_mac st (q_mac q) = Some j -> leases st !! j = Some lj -> expires_ms lj <= now) ->
      decision st q now
        (upd_slot st k (fun _ => fresh_lease (q_mac q) (pool_ip st (Z.of_nat k)) (u64 (now + lease_ms st))),
         (rt, pool_ip st (Z.of_nat k)))
  | d_renew k l :
      lease_by_mac st (q_mac q) = Some k -> lease_of st (q_mac q) k l ->
      decision st q now (upd_slot st k (fun l => l <| expires_ms := u64 (now + lease_ms st) |>), (DHCPD_ACK, ip l)).

Lemma drop_lease_decision st q now :
  q_msgtype q = DHCPD_RELEASE \/ q_msgtype q = DHCPD_DECLINE ->
  decision st q now (drop_lease st (q_mac q), (0, 0)).
Proof.
  intros Ht. unfold drop_lease. destruct (lease_by_mac st (q_mac q)) as [k|] eqn:E; [|constructor].
  destruct (lease_by_mac_Some _ _ _ E) as [l Hl]. by econstructor.
Qed.

Lemma lookup_upd_slot st k f j :
  leases (upd_slot st k f) !! j = (if decide (j = k) then f <$> leases st !! j else leases st !! j).
Proof.
  unfold upd_slot. rsimpl. rewrite list_lookup_alter. case_decide; subst; repeat case_decide; naive_solver.
Qed.

Definition dhcpd_ok (st : dhcpd_state) : Prop :=
  length (leases st) = DHCPD_LEASES /\
  forall k l, leases st !! k = Some l -> is_used l = true -> ip l = pool_ip st (Z.of_nat k).

Lemma dhcpd_ok_lt st k l : dhcpd_ok st -> leases st !! k = Some l -> (k < 4)%nat.
Proof. intros [H _] Hk%lookup_lt_Some. by rewrite H in Hk. Qed.

Lemma decide_discover_decision st q now :
  dhcpd_ok st -> decision st q now (decide_discover st q now).
Proof.
  intros Hok. unfold decide_discover.
  assert (Halloc : (forall j lj, lease_by_mac st (q_mac q) = Some j -> leases st !! j = Some lj -> expires_ms lj <= now) ->
    decision st q now
      match lease_free_pick st now with
      | None => (st, (0, 0))
      | Some k =>
          let st' := upd_slot st k (fun _ =>
            fresh_lease (q_mac q) (pool_ip st (u8 (Z.of_nat k))) (u64 (now + lease_ms st))) in
          (st', (DHCPD_OFFER, from_option ip 0 (leases st' !! k)))
      end).
  { intros Hexp. destruct (lease_free_pick st now) as [k|] eqn:E; [|constructor].
    destruct (free_pick_available _ _ _ E) as (l & Hl & Ha). pose proof (dhcpd_ok_lt _ _ _ Hok Hl).
    rewrite u8_small by word_lia. cbv zeta. rewrite lookup_upd_slot, decide_True, Hl by done. cbn [fmap option_fmap option_map from_option fresh_lease ip].
    eapply d_grant; eauto. }
  destruct (lease_by_mac st (q_mac q)) as [k|] eqn:E; [|by apply Halloc].
  destruct (lease_by_mac_Some _ _ _ E) as [l Hl]. rewrite (proj1 Hl). cbn [from_option].
  destruct (Z.leb_spec (expires_ms l) now).
  - apply Halloc. intros j lj [= <-] Hj. destruct Hl as [Hl _]. by simplify_eq.
  - by eapply d_offer_again.
Qed.

Lemma decide_request_decision st q now :
  dhcpd_ok st -> decision st q now (decide_request st q now).
Proof.
  intros Hok. unfold decide_request.
  destruct (lease_by_mac st (q_mac q)) as [k|] eqn:E.
  - destruct (lease_by_mac_Some _ _ _ E) as [l Hl]. rewrite (proj1 Hl). cbn [from_option]. cbv zeta.
    case_match; [constructor|]. by eapply d_renew.
  - case_match; [|constructor].
    destruct (slot_for st (q_req_ip q) now) as [k|] eqn:Ek; [|constructor].
    apply first_slot_Some in Ek as (i & c & -> & Hi & [<-%Z.eqb_eq Hav]%andb_true_iff).
    eapply d_grant; [by right|by apply lookup_pool| |by rewrite E].
    apply orb_true_iff in Hav as [?%negb_true_iff|?%Z.leb_le]; [by left|by right].
Qed.

Lemma decide_decision st q now : dhcpd_ok st -> decision st q now (dhcpd_decide st q now).
Proof.
  intros Hok. unfold dhcpd_decide.
  destruct (Z.eqb_spec (q_msgtype q) DHCPD_RELEASE); [apply drop_lease_decision; auto|].
  destruct (Z.eqb_spec (q_msgtype q) DHCPD_DECLINE); [apply drop_lease_decision; auto|].
  case_match; [by apply decide_discover_decision|]. case_match; [by apply decide_request_decision|].
  constructor.
Qed.

Lemma decision_config st q now st' r :
  decision st q now (st', r) ->
  pool_base st' = pool_base st /\ lease_ms st' = lease_ms st /\ length (leases st') = length (leases st).
Proof. inversion 1; subst; unfold upd_slot; rsimpl; by rewrite ?length_alter. Qed.

Lemma pool_ip_config st st' k : pool_base st' = pool_base st -> pool_ip st' k = pool_ip st k.
Proof. unfold pool_ip. by intros ->. Qed.

(** Slot [k] stays the slot of the address [pool_base + k]. *)
Lemma decide_ok st q now : dhcpd_ok st -> dhcpd_ok (dhcpd_decide st q now).1.
Proof.
  intros Hok. pose proof (decide_decision st q now Hok) as Hd.
  destruct (dhcpd_decide st q now) as [st' r]. cbn [fst].
  destruct (decision_config _ _ _ _ _ Hd) as (Hb & _ & Hlen).
  destruct Hok as [Hl Hip]. split; [by rewrite Hlen|]. intros k l Hk Hu.
  rewrite (pool_ip_config _ _ _ Hb). revert Hk.
  inversion Hd; subst; rewrite ?lookup_upd_slot; eauto; case_decide; subst; eauto.
  - destruct (leases st !! k0) as [l1|]; [|done]. cbn. intros [= <-]. unfold is_used in Hu. by rsimpl.
  - destruct (leases st !! k0) as [l1|]; [|done]. cbn. by intros [= <-].
  - destruct (leases st !! k0) as [l1|] eqn:E; [|done]. cbn. intros [= <-]. unfold is_used in *. rsimpl. eauto.
Qed.

(** The client with hardware address [m] holds the address [a] in slot [k],
    at least until [e]. *)
Definition holds (st : dhcpd_state) (m : list Z) (k : nat) (a e : Z) : Prop :=
  exists l, lease_of st m k l /\ ip l = a /\ e <= expires_ms l.

Definition gives_up (q : dhcpd_req) : Prop :=
  q_msgtype q = DHCPD_RELEASE \/ q_msgtype q = DHCPD_DECLINE.
#[export] Instance gives_up_dec q : Decision (gives_up q).
Proof. unfold gives_up. apply _. Defined.

Lemma decision_holds st q now st' r m k a e :
  decision st q now (st', r) -> holds st m k a e -> now < e -> e <= now + lease_ms st ->
  0 <= now + lease_ms st < 2 ^ 64 -> ~ (q_mac q = m /\ gives_up q) -> holds st' m k a e.
Proof.
  intros Hd (l & (Hk & Hu & Hm) & Ha & He) Hnow Hle Hw Hng.
  inversion Hd as [|j lj Ht (Hj & _ & Hjm)| | |j lj rt Hrt Hj Hav Hexp|j lj Hby Hj]; subst;
    try (by exists l); unfold holds, lease_of; setoid_rewrite lookup_upd_slot;
    (destruct (decide (k = j)) as [->|]; [rewrite Hk|by exists l]).
  - exfalso. apply Hng. by simplify_eq.
  - exfalso. simplify_eq. destruct Hav; [congruence|lia].
  - eexists. cbn [fmap option_fmap option_map]. unfold is_used in *. repeat split; rsimpl; try done.
    rewrite u64_small; [lia|done].
Qed.

Lemma decision_reply st q now st' rt a :
  decision st q now (st', (rt, a)) -> rt = DHCPD_OFFER \/ rt = DHCPD_ACK ->
  exists k l, lease_of st' (q_mac q) k l /\ ip l = a.
Proof.
  intros Hd Hrt.
  inversion Hd as [| | |j lj Hby Hj|j lj ? _ Hj|j lj Hby (Hj & Hu & Hm)]; subst;
    try (by destruct Hrt; discriminate); [by eauto| |].
  - exists j, (fresh_lease (q_mac q) (pool_ip st (Z.of_nat j)) (u64 (now + lease_ms st))).
    unfold lease_of. by rewrite lookup_upd_slot, decide_True, Hj.
  - exists j. unfold lease_of. setoid_rewrite lookup_upd_slot. rewrite decide_True, Hj by done.
    eexists. cbn [fmap option_fmap option_map]. unfold is_used in *. repeat split; by rsimpl.
Qed.

(** One address, one slot, one client. *)
Lemma address_owner st m m' k k' l l' :
  dhcpd_ok st -> lease_of st m k l -> lease_of st m' k' l' -> ip l = ip l' -> m = m'.
Proof.
  intros Hok (Hk & Hu & Hm) (Hk' & Hu' & Hm') E.
  pose proof (dhcpd_ok_lt _ _ _ Hok Hk). pose proof (dhcpd_ok_lt _ _ _ Hok Hk').
  destruct Hok as [_ Hip]. rewrite (Hip k l), (Hip k' l') in E by done. unfold pool_ip in E.
  assert (k = k') as -> by word_lia. congruence.
Qed.

(** ** A server's history: the requests it handled, with their times. *)
Fixpoint run (st : dhcpd_state) (es : list (dhcpd_req * Z)) : dhcpd_state * list (dhcpd_req * (Z * Z)) :=
  match es with
  | [] => (st, [])
  | (q, now) :: es =>
      let '(st, r) := dhcpd_decide st q now in
      let '(st, rs) := run st es in (st, (q, r) :: rs)
  end.

(** The events of [es] fall in the lease's time and its owner keeps it. *)
Definition keeps (m : list Z) (t e : Z) (es : list (dhcpd_req * Z)) : Prop :=
  Forall (fun ev => t <= ev.2 < e /\ ~ (q_mac ev.1 = m /\ gives_up ev.1)) es.

Lemma run_ok st es : dhcpd_ok st -> dhcpd_ok (run st es).1.
Proof.
  revert st. induction es as [|[q now] es IH]; intros st Hok; cbn [run]; [done|].
  pose proof (decide_ok st q now Hok) as Hok'. destruct (dhcpd_decide st q now) as [st1 r].
  specialize (IH st1 Hok'). by destruct (run st1 es).
Qed.

Lemma run_config st es : dhcpd_ok st -> lease_ms (run st es).1 = lease_ms st /\ pool_base (run st es).1 = pool_base st.
Proof.
  revert st. induction es as [|[q now] es IH]; intros st Hok; cbn [run]; [done|].
  pose proof (decide_ok st q now Hok) as Hok'. pose proof (decide_decision st q now Hok) as Hd.
  destruct (dhcpd_decide st q now) as [st1 r]. destruct (decision_config _ _ _ _ _ Hd) as (Hb & Hl & _).
  destruct (IH st1 Hok'). destruct (run st1 es). cbn [fst] in *. by rewrite <-Hb, <-Hl.
Qed.

Lemma state_init_ok server mask base size : dhcpd_ok (dhcpd_state_init server mask base size).
Proof.
  split; [done|]. intros k l. cbn [dhcpd_state_init leases].
  intros [-> _]%lookup_replicate_1. done.
Qed.

(** While a client holds a lease and keeps it, it goes on holding it, and
    every reply that names the address goes to that client. *)
Lemma run_holds st es m k a t e :
  dhcpd_ok st -> holds st m k a e -> 0 <= t -> e <= t + lease_ms st -> e + lease_ms st <= 2 ^ 64 ->
  keeps m t e es ->
  holds (run st es).1 m k a e /\
  Forall (fun o => (o.2.1 = DHCPD_OFFER \/ o.2.1 = DHCPD_ACK) -> o.2.2 = a -> q_mac o.1 = m) (run st es).2.
Proof.
  intros Hok Hh Ht He Hw Hes. revert st Hok Hh He Hw.
  induction Hes as [|[q now] es [Hnow Hng] _ IH]; intros st Hok Hh He Hw; cbn [run]; [by split|].
  cbn [fst snd] in *.
  pose proof (decide_ok st q now Hok) as Hok'. pose proof (decide_decision st q now Hok) as Hd.
  destruct (dhcpd_decide st q now) as [st1 [rt a']]. cbn [fst] in Hok'.
  destruct (decision_config _ _ _ _ _ Hd) as (Hb & Hl & _).
  assert (Hh1 : holds st1 m k a e) by (eapply decision_holds; eauto; lia).
  destruct (IH st1 Hok' Hh1) as (Hh2 & Hf); [by rewrite Hl..|].
  destruct (run st1 es) as [st2 rs]. cbn [fst snd] in *. split; [done|]. constructor; [|done].
  cbn [fst snd]. intros Hrt ->. destruct (decision_reply _ _ _ _ _ _ Hd Hrt) as (j & l & Hj & E).
  destruct Hh1 as (l' & Hl' & E' & _). eapply address_owner; eauto. congruence.
Qed.

(** C13: exclusive leases.  Whatever the server handled before, once it has
    acknowledged an address to a client, then for the twelve hours of the
    lease, and unless that client releases or declines it, no other client is
    offered or acknowledged the same address, whatever the clients send and in
    whatever order. *)
Theorem lease_exclusive server mask base size es0 q t st a es q' rt :
  let st0 := (run (dhcpd_state_init server mask base size) es0).1 in
  let twelve_h := 12 * 60 * 60 * 1000 in
  dhcpd_decide st0 q t = (st, (DHCPD_ACK, a)) ->
  0 <= t -> t + 2 * twelve_h <= 2 ^ 64 ->
  keeps (q_mac q) t (t + twelve_h) es ->
  (q', (rt, a)) ∈ (run st es).2 -> rt = DHCPD_OFFER \/ rt = DHCPD_ACK ->
  q_mac q' = q_mac q.
Proof.
  cbv zeta. intros Hdec Ht Hw Hes Hin Hrt.
  pose proof (state_init_ok server mask base size) as Hi.
  pose proof (run_ok _ es0 Hi) as Hok0. destruct (run_config _ es0 Hi) as [Hlm _].
  set (st0 := (run _ es0).1) in *. clearbody st0. change (lease_ms st0 = 12 * 60 * 60 * 1000) in Hlm.
  pose proof (decide_ok st0 q t Hok0) as Hok. pose proof (decide_decision st0 q t Hok0) as Hd.
  rewrite Hdec in Hok, Hd. cbn [fst] in Hok.
  destruct (decision_config _ _ _ _ _ Hd) as (_ & Hlm' & _).
  assert (exists k, holds st (q_mac q) k a (t + 12 * 60 * 60 * 1000)) as (k & Hk).
  { inversion Hd as [| | | |k l ? _ Hk|k l Hby (Hk & Hu & Hm)]; subst; exists k; unfold holds, lease_of;
      setoid_rewrite lookup_upd_slot; rewrite decide_True, Hk by done; cbn [fmap option_fmap option_map];
      eexists; unfold is_used in *; (repeat split); rsimpl; cbn [fresh_lease used mac ip expires_ms]; try done;
      rewrite u64_small by word_lia; lia. }
  destruct (run_holds _ es _ _ _ _ _ Hok Hk Ht) as (_ & Hf); [lia|lia|done|].
  rewrite Forall_forall in Hf. by apply (Hf _ Hin).
Qed.

(** ** A client's exchange *)

(** [m] has no slot but [k]. *)
Definition only_slot (st : dhcpd_state) (m : list Z) (k : nat) : Prop :=
  forall j l, lease_of st m j l -> j = k.

Lemma lease_by_mac_only st m k l : only_slot st m k -> lease_of st m k l -> lease_by_mac st m = Some k.
Proof.
  intros Ho Hl. destruct (lease_by_mac st m) as [j|] eqn:E.
  - destruct (lease_by_mac_Some _ _ _ E) as [lj Hj]. by rewrite (Ho j lj).
  - by destruct (lease_by_mac_None _ _ _ _ E Hl).
Qed.

Lemma decision_only st q now st' r m k a e :
  decision st q now (st', r) -> holds st m k a e -> now < e -> only_slot st m k -> only_slot st' m k.
Proof.
  intros Hd (l & Hl & _ & He) Hnow Ho j lj (Hj & Hu & Hm). revert Hj.
  inversion Hd as [|i li _ Hi| | |i li rt _ Hi Hav Hexp|i li Hby Hi]; subst; rewrite ?lookup_upd_slot;
    try (intros Hj; by eapply Ho); (destruct (decide (j = i)) as [->|]; [|intros Hj; by eapply Ho]).
  - destruct Hi as (Hi & Hui & Hmi). rewrite Hi. cbn. intros [= <-]. apply (Ho i li). repeat split; [done..|]. by rsimpl.
  - rewrite Hi. cbn. intros [= <-]. cbn in Hl, Ho.
    pose proof (lease_by_mac_only _ _ _ _ Ho Hl) as Hby. destruct Hl as (Hk & _).
    specialize (Hexp k l Hby Hk). lia.
  - destruct Hi as (Hi & Hui & Hmi). rewrite Hi. cbn. intros [= <-]. apply (Ho i li). repeat split; [done..|]. by rsimpl.
Qed.

Lemma run_only st es m k a t e :
  dhcpd_ok st -> holds st m k a e -> 0 <= t -> e <= t + lease_ms st -> e + lease_ms st <= 2 ^ 64 ->
  only_slot st m k -> keeps m t e es -> only_slot (run st es).1 m k.
Proof.
  intros Hok Hh Ht He Hw Ho Hes. revert st Hok Hh He Hw Ho.
  induction Hes as [|[q now] es [Hnow Hng] _ IH]; intros st Hok Hh He Hw Ho; cbn [run]; [done|].
  cbn [fst snd] in *.
  pose proof (decide_ok st q now Hok) as Hok'. pose proof (decide_decision st q now Hok) as Hd.
  destruct (dhcpd_decide st q now) as [st1 r]. cbn [fst] in Hok'.
  destruct (decision_config _ _ _ _ _ Hd) as (Hb & Hl & _).
  assert (Hh1 : holds st1 m k a e) by (eapply decision_holds; eauto; lia).
  assert (Ho1 : only_slot st1 m k) by (eapply decision_only; eauto; lia).
  specialize (IH st1 Hok' Hh1 ltac:(by rewrite Hl) ltac:(by rewrite Hl) Ho1). by destruct (run st1 es).
Qed.

(** A new client's DISCOVER: it holds the address it is offered, and nothing else. *)
Lemma discover_new st0 q t k :
  dhcpd_ok st0 -> q_msgtype q = DHCPD_DISCOVER -> lease_by_mac st0 (q_mac q) = None ->
  lease_free_pick st0 t = Some k -> 0 <= t + lease_ms st0 < 2 ^ 64 ->
  exists st, dhcpd_decide st0 q t = (st, (DHCPD_OFFER, pool_ip st0 (Z.of_nat k))) /\
    holds st (q_mac q) k (pool_ip st0 (Z.of_nat k)) (t + lease_ms st0) /\
    only_slot st (q_mac q) k /\ lease_ms st = lease_ms st0 /\ dhcpd_ok st.
Proof.
  intros Hok0 Hq Hno Ek Hw.
  destruct (free_pick_available _ _ _ Ek) as (l & Hl & _). pose proof (dhcpd_ok_lt _ _ _ Hok0 Hl) as Hk4.
  set (g := fresh_lease (q_mac q) (pool_ip st0 (Z.of_nat k)) (u64 (t + lease_ms st0))).
  assert (E : dhcpd_decide st0 q t = (upd_slot st0 k (fun _ => g), (DHCPD_OFFER, pool_ip st0 (Z.of_nat k)))).
  { unfold dhcpd_decide. rewrite Hq. cbn [Z.eqb DHCPD_DISCOVER DHCPD_RELEASE DHCPD_DECLINE Pos.eqb].
    unfold decide_discover. rewrite Hno, Ek, u8_small by word_lia. fold g.
    by rewrite lookup_upd_slot, decide_True, Hl. }
  pose proof (decide_ok st0 q t Hok0) as Hok. rewrite E in *. cbn [fst] in Hok.
  eexists. split; [done|]. split; [|split; [|split]].
  - exists g. unfold lease_of. rewrite lookup_upd_slot, decide_True, Hl by done. split; [done|].
    split; [done|]. unfold g. cbn [fresh_lease expires_ms]. rewrite u64_small by done. lia.
  - intros j lj (Hj & Hu & Hm). rewrite lookup_upd_slot in Hj. case_decide; [done|].
    by destruct (lease_by_mac_None _ _ j lj Hno).
  - done.
  - done.
Qed.

(** C15: the four-message exchange completes.  A client that no slot of the
    table is marked for (one never served, or one that gave its lease up, or
    whose slot has been given to another) and that asks when a slot is
    available is offered an address; whatever the other clients (or the
    client's own repetitions) do in the meantime, its request for the offered
    address within the lease time is acknowledged.  A client whose lease has
    run out while its slot is still marked for it is not covered, and indeed
    refused: [expired_client_naked]. *)
Theorem dora_completes server mask base size es0 m t xid xid' r r' es t' :
  let st0 := (run (dhcpd_state_init server mask base size) es0).1 in
  let twelve_h := 12 * 60 * 60 * 1000 in
  lease_by_mac st0 m = None -> lease_free_pick st0 t <> None ->
  0 <= t -> t + 2 * twelve_h <= 2 ^ 64 -> keeps m t (t + twelve_h) es -> t <= t' < t + twelve_h ->
  exists st a, dhcpd_decide st0 (mk_req DHCPD_DISCOVER xid m r) t = (st, (DHCPD_OFFER, a)) /\
    (r' = a \/ r' = 0 ->
     (dhcpd_decide (run st es).1 (mk_req DHCPD_REQUEST xid' m r') t').2 = (DHCPD_ACK, a)).
Proof.
  cbv zeta. intros Hno Hfree Ht Hw Hes Ht'.
  pose proof (state_init_ok server mask base size) as Hi.
  pose proof (run_ok _ es0 Hi) as Hok0. destruct (run_config _ es0 Hi) as [Hlm _].
  set (st0 := (run _ es0).1) in *. clearbody st0. change (lease_ms st0 = 12 * 60 * 60 * 1000) in Hlm.
  destruct (lease_free_pick st0 t) as [k|] eqn:Ek; [|done].
  destruct (discover_new st0 (mk_req DHCPD_DISCOVER xid m r) t k) as (st & E & Hh & Ho & Hlm' & Hok);
    [done..|word_lia|].
  eexists _, _. split; [exact E|]. intros Hr'. cbn [q_mac] in *. rewrite Hlm in Hh, Hlm'.
  destruct (run_holds _ es _ _ _ _ _ Hok Hh Ht) as ((l' & Hl' & Ha & _) & _); [lia|lia|done|].
  pose proof (run_only _ es _ _ _ _ _ Hok Hh Ht ltac:(lia) ltac:(lia) Ho Hes) as Ho'.
  unfold dhcpd_decide. cbn [q_msgtype]. cbn [Z.eqb DHCPD_DISCOVER DHCPD_RELEASE DHCPD_DECLINE DHCPD_REQUEST Pos.eqb].
  unfold decide_request. cbn [q_mac q_req_ip]. rewrite (lease_by_mac_only _ _ _ _ Ho' Hl').
  rewrite (proj1 Hl'). cbn [from_option]. cbv zeta. rewrite Ha.
  destruct Hr' as [->| ->]; [|by rewrite Z.eqb_refl].
  destruct (negb (_ =? 0)); by rewrite Z.eqb_refl.
Qed.

(** ** Proofs: replies *)

Definition reply_options (reply_type server mask lease_s : Z) : list (Z * list Z) :=
  [(OPT_MSGTYPE, [u8 reply_type]); (OPT_SERVERID, put32 server)] ++
  (if reply_type =? DHCPD_ACK then
     [(OPT_LEASE, put32 lease_s); (OPT_SUBNET, put32 mask); (OPT_ROUTER, put32 server); (OPT_DNS, put32 server)]
   else []).

Definition encode_options (os : list (Z * list Z)) : list Z :=
  concat (map (fun o => o.1 :: Z.of_nat (length o.2) :: o.2) os).

Definition reply_bytes (reply_type xid : Z) (m : list Z) (yiaddr server mask lease_s : Z) : list Z :=
  [DHCP_OP_REPLY; 1; 6; 0] ++ put32 xid ++ replicate 8 0 ++ put32 yiaddr ++ put32 server ++
  replicate 4 0 ++ m ++ replicate 202 0 ++ DHCP_MAGIC ++
  encode_options (reply_options reply_type server mask lease_s) ++ [OPT_END].

Lemma build_280 reply_type xid m yiaddr server mask lease_s :
  length m = 6%nat ->
  dhcpd_build (replicate 280 0) reply_type xid m yiaddr server mask lease_s =
  Some (reply_bytes reply_type xid m yiaddr server mask lease_s ++
        replicate (if reply_type =? DHCPD_ACK then 6 else 30) 0,
        if reply_type =? DHCPD_ACK then 274 else 250).
Proof.
  intros Hm. destruct m as [|m0 [|m1 [|m2 [|m3 [|m4 [|m5 [|]]]]]]]; try done. clear Hm.
  unfold dhcpd_build, reply_bytes, reply_options, opt4, put32.
  generalize (u8 reply_type). generalize (reply_type =? DHCPD_ACK).
  repeat match goal with |- context [u8 ?x] => generalize (u8 x) end.
  intros. destruct b; vm_compute; reflexivity.
Qed.

(** The writes stay in the first 280 bytes, so a larger buffer only adds zeros. *)
Ltac write_app :=
  first
    [ rewrite wr_app by (cbn [length put32 DHCP_MAGIC] in *; lia)
    | rewrite wr_n_app by (cbn [length put32 DHCP_MAGIC] in *; lia) ];
  match goal with
  | |- context [wr ?l ?i ?v] =>
      let E := fresh "E" in destruct (wr l i v) as [?|] eqn:E; [|done]; apply wr_length in E
  | |- context [wr_n ?l ?i ?v] =>
      let E := fresh "E" in destruct (wr_n l i v) as [?|] eqn:E; [|done]; apply wr_n_length in E
  end; cbn [fmap option_fmap option_map mbind option_bind].

Lemma opt4_app (l r : list Z) p c v :
  0 <= p -> p + 6 <= Z.of_nat (length l) ->
  opt4 (l ++ r) p c v = (fun '(l', p') => (l' ++ r, p')) <$> opt4 l p c v.
Proof. intros Hp Hl. unfold opt4. do 3 write_app. done. Qed.

Lemma opt4_length (l : list Z) p c v l' p' :
  opt4 l p c v = Some (l', p') -> length l' = length l /\ p' = p + 6.
Proof.
  unfold opt4. intros (b1 & E1 & H)%bind_Some. apply bind_Some in H as (b2 & E2 & H).
  apply bind_Some in H as (b3 & E3 & [= <- <-]).
  by rewrite (wr_n_length _ _ _ _ E3), (wr_length _ _ _ _ E2), (wr_length _ _ _ _ E1).
Qed.

Ltac opt4_app :=
  rewrite opt4_app by (cbn [length] in *; lia);
  match goal with
  | |- context [opt4 ?l ?i ?c ?v] =>
      let E := fresh "E" in destruct (opt4 l i c v) as [[? ?]|] eqn:E; [|done];
      apply opt4_length in E as [? ->]
  end; cbn [fmap option_fmap option_map mbind option_bind].

Lemma build_app k (buf : list Z) reply_type xid m yiaddr server mask lease_s :
  length m = 6%nat -> length buf = (280 + k)%nat ->
  dhcpd_build buf reply_type xid m yiaddr server mask lease_s =
  (fun '(b, n) => (b ++ replicate k 0, n)) <$>
    dhcpd_build (replicate 280 0) reply_type xid m yiaddr server mask lease_s.
Proof.
  intros Hm Hb. unfold dhcpd_build. rewrite Hb, replicate_add.
  assert (H280 : length (replicate 280 0) = 280%nat) by apply length_replicate.
  rewrite H280. set (z := replicate 280 0) in *. clearbody z.
  replace (Z.of_nat (280 + k) <? DHCP_FIXED + 40) with false by (unfold DHCP_FIXED; symmetry; apply Z.ltb_ge; lia).
  change (Z.of_nat 280 <? DHCP_FIXED + 40) with false. cbv iota.
  do 10 write_app. opt4_app. destruct (reply_type =? DHCPD_ACK).
  - do 4 opt4_app. write_app. done.
  - cbn [mbind option_bind]. write_app. done.
Qed.

Lemma options_encode os :
  Forall (fun o => o.1 <> OPT_END /\ o.1 <> 0) os ->
  Options (encode_options os ++ [OPT_END]) (Some os).
Proof.
  induction 1 as [|[c v] os [Hc H0] _ IH]; [constructor|].
  unfold encode_options. cbn [map concat fst snd app]. rewrite <-app_assoc.
  replace (Some ((c, v) :: os)) with
    (cons (c, take (Z.to_nat (Z.of_nat (length v))) (v ++ concat (map (fun o => o.1 :: Z.of_nat (length o.2) :: o.2) os) ++ [OPT_END])) <$> Some os).
  2:{ rewrite Nat2Z.id, take_app_length. done. }
  apply opts_cons; [done..|rewrite !length_app; lia|].
  rewrite Nat2Z.id, drop_app_length. exact IH.
Qed.

Lemma get32_bytes a b c d :
  is_u8 a -> is_u8 b -> is_u8 c -> is_u8 d ->
  get32 [a; b; c; d] = Some (((a * 256 + b) * 256 + c) * 256 + d).
Proof.
  intros Ha Hb Hc Hd. unfold get32. f_equal.
  assert (Hs : forall x n, 0 <= n -> Z.shiftl x n = x * 2 ^ n) by (intros; by apply Z.shiftl_mul_pow2).
  rewrite (u32_small (Z.shiftl a 24)) by (rewrite Hs by lia; unfold is_u8, is_u32 in *; lia).
  rewrite (Z.lor_comm (Z.shiftl a 24)), (lor_shiftl_add (Z.shiftl b 16)) by (rewrite ?Hs by lia; unfold is_u8 in *; lia).
  replace (Z.shiftl b 16 + a * 2 ^ 24) with (Z.shiftl (a * 256 + b) 16) by (rewrite !Hs by lia; lia).
  rewrite (Z.lor_comm (Z.shiftl (a * 256 + b) 16)), (lor_shiftl_add (Z.shiftl c 8)) by (rewrite ?Hs by lia; unfold is_u8 in *; lia).
  replace (Z.shiftl c 8 + (a * 256 + b) * 2 ^ 16) with (Z.shiftl ((a * 256 + b) * 256 + c) 8) by (rewrite !Hs by lia; lia).
  rewrite Z.lor_comm, lor_shiftl_add by (rewrite ?Hs by lia; unfold is_u8 in *; lia). lia.
Qed.

Lemma get32_put32 v : get32 (put32 v) = Some (u32 v).
Proof.
  unfold put32. rewrite get32_bytes by auto with words. f_equal.
  rewrite !shiftr_div by lia. word_lia.
Qed.

(** What the server sends is a message that says what it decided.  For
    any reply buffer of at least 280 bytes the reply is the fixed BOOTREPLY
    header with the transaction id, the offered address and the client's
    hardware address, followed by an options area which reads, by the same
    grammar the server applies to requests, as the reply type, the server id
    and (for an ACK) lease time, mask, router and DNS; it has 274 bytes for an
    ACK, else 250, and the rest of the buffer is zeroed.  A shorter buffer is
    refused with length 0. *)
Theorem dhcpd_build_readable (buf : list Z) reply_type xid m yiaddr server mask lease_s :
  length m = 6%nat ->
  exists buf' n, dhcpd_build buf reply_type xid m yiaddr server mask lease_s = Some (buf', n) /\
    length buf' = length buf /\
    if decide (280 <= Z.of_nat (length buf)) then
      let r := take (Z.to_nat n) buf' in
      n = (if reply_type =? DHCPD_ACK then 274 else 250) /\
      take 4 r = [DHCP_OP_REPLY; 1; 6; 0] /\
      get32 (take 4 (drop 4 r)) = Some (u32 xid) /\ get32 (take 4 (drop 16 r)) = Some (u32 yiaddr) /\
      get32 (take 4 (drop 20 r)) = Some (u32 server) /\ take 6 (drop 28 r) = m /\
      take 4 (drop 236 r) = DHCP_MAGIC /\
      Options (drop 240 r) (Some (reply_options reply_type server mask lease_s)) /\
      Forall (eq 0) (drop (Z.to_nat n) buf')
    else buf' = buf /\ n = 0.
Proof.
  intros Hm. case_decide as Hl.
  2:{ exists buf, 0. unfold dhcpd_build, DHCP_FIXED.
      by rewrite (proj2 (Z.ltb_lt (Z.of_nat (length buf)) (240 + 40))) by lia. }
  rewrite (build_app (length buf - 280)), build_280 by (done || lia). cbn [fmap option_fmap option_map].
  eexists _, _. split; [done|].
  set (os := reply_options reply_type server mask lease_s).
  set (n := if reply_type =? DHCPD_ACK then 274 else 250).
  set (pad := if reply_type =? DHCPD_ACK then 6%nat else 30%nat).
  set (r := reply_bytes reply_type xid m yiaddr server mask lease_s).
  assert (Hr : length r = Z.to_nat n /\ (length r + pad = 280)%nat).
  { unfold r, reply_bytes, reply_options, n, pad. rewrite !length_app, Hm.
    destruct (reply_type =? DHCPD_ACK); done. }
  destruct Hr as [Hr Hp]. rewrite <-app_assoc.
  split; [rewrite !length_app, !length_replicate; lia|].
  cbv zeta. rewrite <-Hr, take_app_length, drop_app_length.
  destruct m as [|m0 [|m1 [|m2 [|m3 [|m4 [|m5 [|]]]]]]]; try done.
  repeat split; try (exact (get32_put32 _)).
  - refine (options_encode os _). unfold os, reply_options. destruct (reply_type =? DHCPD_ACK); repeat constructor; done.
  - by apply Forall_app; split; apply Forall_replicate.
Qed.

Lemma dhcpd_build_readable_witness :
  let buf := replicate 548 7 in let m := [2; 0; 0; 0; 0; 1] in
  length m = 6%nat /\
  exists buf' n, dhcpd_build buf DHCPD_ACK 9 m 0x0A0000C8 0x0A000001 0xFFFFFF00 43200 = Some (buf', n) /\
    length buf' = length buf /\
    if decide (280 <= Z.of_nat (length buf)) then
      let r := take (Z.to_nat n) buf' in
      n = (if DHCPD_ACK =? DHCPD_ACK then 274 else 250) /\
      take 4 r = [DHCP_OP_REPLY; 1; 6; 0] /\
      get32 (take 4 (drop 4 r)) = Some (u32 9) /\ get32 (take 4 (drop 16 r)) = Some (u32 0x0A0000C8) /\
      get32 (take 4 (drop 20 r)) = Some (u32 0x0A000001) /\ take 6 (drop 28 r) = m /\
      take 4 (drop 236 r) = DHCP_MAGIC /\
      Options (drop 240 r) (Some (reply_options DHCPD_ACK 0x0A000001 0xFFFFFF00 43200)) /\
      Forall (eq 0) (drop (Z.to_nat n) buf')
    else buf' = buf /\ n = 0.
Proof.
  cbv zeta. split; [reflexivity|].
  exact (dhcpd_build_readable (replicate 548 7) DHCPD_ACK 9 [2; 0; 0; 0; 0; 1] 0x0A0000C8 0x0A000001 0xFFFFFF00 43200 eq_refl).
Defined.

(** ** Witnesses and evaluated exchanges *)

(** A DISCOVER with a parameter list, a requested address and padding. *)
Definition ex_discover : list Z :=
  [1; 1; 6; 0; 0x39; 0x03; 0xF3; 0x26] ++ replicate 20 0 ++ [2; 0; 0; 0; 0; 7] ++ replicate 202 0 ++
  DHCP_MAGIC ++ [53; 1; 1; 0; 55; 3; 1; 3; 6; 50; 4; 10; 0; 0; 9; 255; 77].

Lemma dhcpd_parse_message_witness :
  exists r, dhcpd_parse ex_discover 257 = Some r /\
    Message (take (Z.to_nat 257) ex_discover) r /\
    (forall r', Message (take (Z.to_nat 257) ex_discover) r' -> r' = r).
Proof. apply (dhcpd_parse_message ex_discover 257); [by_eval|lia|vm_compute; discriminate]. Defined.

Example ex_discover_parsed :
  dhcpd_parse ex_discover 257 =
  Some (Some (mk_req DHCPD_DISCOVER 0x3903F326 [2; 0; 0; 0; 0; 7] 0x0A000009)).
Proof. vm_compute. reflexivity. Qed.

Definition ex_m1 : list Z := [2; 0; 0; 0; 0; 1].
Definition ex_m2 : list Z := [2; 0; 0; 0; 0; 2].
Definition ex_req (t : Z) (m : list Z) (a : Z) : dhcpd_req := mk_req t 1 m a.
(** 10.0.0.1/24, offering 10.0.0.200 to 10.0.0.203. *)
Definition ex_server : dhcpd_state := dhcpd_state_init 0x0A000001 0xFFFFFF00 0x0A0000C8 4.

Lemma lease_exclusive_witness :
  let es := [(ex_req DHCPD_REQUEST ex_m2 0x0A0000C8, 20); (ex_req DHCPD_DISCOVER ex_m2 0, 25)] in
  (dhcpd_decide (run ex_server [(ex_req DHCPD_DISCOVER ex_m1 0, 5)]).1
     (ex_req DHCPD_REQUEST ex_m1 0x0A0000C8) 10).2 = (DHCPD_ACK, 0x0A0000C8) /\
  (forall q' rt, (q', (rt, 0x0A0000C8)) ∈
     (run (dhcpd_decide (run ex_server [(ex_req DHCPD_DISCOVER ex_m1 0, 5)]).1
       (ex_req DHCPD_REQUEST ex_m1 0x0A0000C8) 10).1 es).2 ->
     rt = DHCPD_OFFER \/ rt = DHCPD_ACK -> q_mac q' = ex_m1).
Proof.
  cbv zeta. split; [vm_compute; reflexivity|]. intros q' rt Hin Hrt.
  apply (lease_exclusive 0x0A000001 0xFFFFFF00 0x0A0000C8 4 [(ex_req DHCPD_DISCOVER ex_m1 0, 5)]
    (ex_req DHCPD_REQUEST ex_m1 0x0A0000C8) 10 _ 0x0A0000C8
    [(ex_req DHCPD_REQUEST ex_m2 0x0A0000C8, 20); (ex_req DHCPD_DISCOVER ex_m2 0, 25)] q' rt) in Hin; [done| | | | |done].
  - vm_compute. reflexivity.
  - lia.
  - vm_compute. discriminate.
  - repeat constructor; cbn; try lia; intros [H _]; discriminate H.
Defined.

Lemma dora_completes_witness :
  exists st a, dhcpd_decide ex_server (ex_req DHCPD_DISCOVER ex_m1 0) 5 = (st, (DHCPD_OFFER, a)) /\
    (a = a \/ a = 0 ->
     (dhcpd_decide (run st [(ex_req DHCPD_DISCOVER ex_m2 0, 7)]).1 (ex_req DHCPD_REQUEST ex_m1 a) 10).2 = (DHCPD_ACK, a)).
Proof.
  destruct (dora_completes 0x0A000001 0xFFFFFF00 0x0A0000C8 4 [] ex_m1 5 1 1 0 0x0A0000C8
    [(ex_req DHCPD_DISCOVER ex_m2 0, 7)] 10) as (st & a & E & Ha).
  - vm_compute. reflexivity.
  - vm_compute. discriminate.
  - lia.
  - vm_compute. discriminate.
  - repeat constructor; cbn; try lia; intros [H _]; discriminate H.
  - lia.
  - exists st, a. split; [exact E|]. intros _.
    assert (a = 0x0A0000C8) as ->.
    { apply (f_equal (fun p => p.2.2)) in E. vm_compute in E. by rewrite E. }
    apply Ha. by left.
Defined.

(** A client whose lease ran out gets another slot at its next DISCOVER while
    its old slot stays marked: its request for the address just offered is
    compared with the old one and refused. *)
Example expired_client_naked :
  let h13 := 13 * 60 * 60 * 1000 in
  let st := (run ex_server [(ex_req DHCPD_DISCOVER ex_m1 0, 5); (ex_req DHCPD_REQUEST ex_m1 0x0A0000C8, 10)]).1 in
  (run st [(ex_req DHCPD_DISCOVER ex_m1 0, h13); (ex_req DHCPD_REQUEST ex_m1 0x0A0000C9, h13 + 10)]).2 =
  [(ex_req DHCPD_DISCOVER ex_m1 0, (DHCPD_OFFER, 0x0A0000C9));
   (ex_req DHCPD_REQUEST ex_m1 0x0A0000C9, (DHCPD_NAK, 0))].
Proof. vm_compute. reflexivity. Qed.

(** An address a client declined as already in use is the next one offered. *)
Example declined_offered_again :
  (run ex_server [(ex_req DHCPD_DISCOVER ex_m1 0, 5); (ex_req DHCPD_DECLINE ex_m1 0, 10);
                  (ex_req DHCPD_DISCOVER ex_m2 0, 15)]).2 !! 2%nat =
  Some (ex_req DHCPD_DISCOVER ex_m2 0, (DHCPD_OFFER, 0x0A0000C8)).
Proof. vm_compute. reflexivity. Qed.
