(* ===== verification/Chload.v ===== *)
(** * Channel-load meter: [src/halow_chload.c]

    A ring of ten 100 ms windows of transmit and receive airtime; the
    displayed load is the busier direction's share of the last second. *)

From S2P Require Import Prelude.

Definition CHLOAD_WINDOWS : nat := 10.
Definition CHLOAD_SYM_US : Z := 36.
Definition CHLOAD_SIFS_US : Z := 64.

(** Data bits per S1G symbol at 1 MHz, MCS 0 to 7; index 8 is MCS10. *)
Definition chload_ndbps : list Z := [12; 24; 36; 48; 72; 96; 108; 120; 6].

Record chload_win := mk_win { tx_us : Z; rx_us : Z }.

Record chload_state := mk_chload {
  chload_ring : list chload_win;
  chload_idx : Z;
  chload_tx_open_us : Z;
  chload_rx_open_us : Z;
}.
#[export] Instance eta_chload : Eta chload_state :=
  fun s => mk_chload (chload_ring s) (chload_idx s) (chload_tx_open_us s) (chload_rx_open_us s).

(** [None]: an index outside the table (shown never to happen). *)
Definition chload_rx_frame_us (len mcs : Z) : option Z :=
  let idx := if mcs =? 10 then 8 else mcs in
  let idx := if 8 <? idx then 0 else idx in
  ndbps ← rd chload_ndbps idx;
  let bits := u32 (len * 8) + 14 in
  let syms := u32 (bits + ndbps - 1) / ndbps in
  let syms := if syms =? 0 then 1 else syms in
  Some (u32 (syms * CHLOAD_SYM_US + CHLOAD_SIFS_US)).

Definition halow_chload_reset : chload_state :=
  mk_chload (replicate CHLOAD_WINDOWS (mk_win 0 0)) 0 0 0.

(** An addition that sticks at the maximum instead of wrapping. *)
Definition saturating_add (open us : Z) : Z :=
  let s := u32 (open + us) in if s <? us then 0xFFFFFFFF else s.

Definition halow_chload_note_tx_us (us : Z) (s : chload_state) : chload_state :=
  s <| chload_tx_open_us ::= fun o => saturating_add o us |>.

Definition halow_chload_note_rx (len mcs : Z) (s : chload_state) : option chload_state :=
  us ← chload_rx_frame_us len mcs;
  Some (s <| chload_rx_open_us ::= fun o => saturating_add o us |>).

(** The [cycle_us] argument of the code is ignored. *)
Definition halow_chload_cycle (s : chload_state) : option chload_state :=
  r ← wr (chload_ring s) (chload_idx s) (mk_win (chload_tx_open_us s) (chload_rx_open_us s));
  Some (s <| chload_ring := r |> <| chload_idx ::= fun i => u8 (u32 (i + 1) mod 10) |>
          <| chload_tx_open_us := 0 |> <| chload_rx_open_us := 0 |>).

Definition win_us : Z := 100000 * 10.

Definition sum_of (f : chload_win -> Z) (ws : list chload_win) : Z := foldl (fun a w => u64 (a + f w)) 0 ws.

Definition halow_chload_percent (s : chload_state) : Z :=
  let tx := sum_of tx_us (chload_ring s) in
  let rx := sum_of rx_us (chload_ring s) in
  let big := if rx <? tx then tx else rx in
  if big =? 0 then 0
  else if win_us <=? big then 100
  else u8 ((big * 100 + win_us / 2) / win_us).

(** ** The meter over a history *)

Inductive chload_event :=
  | NoteTx (us : Z)
  | NoteRx (len mcs : Z)
  | Cycle.

Definition chload_step (s : chload_state) (e : chload_event) : option chload_state :=
  match e with
  | NoteTx us => Some (halow_chload_note_tx_us us s)
  | NoteRx len mcs => halow_chload_note_rx len mcs s
  | Cycle => halow_chload_cycle s
  end.

Definition chload_run (s : chload_state) (es : list chload_event) : option chload_state :=
  foldl (fun o e => s ← o; chload_step s e) (Some s) es.

(** Abstractly: the windows closed so far, the newest first, and the open one. *)
Record meter := mk_meter { closed : list chload_win; open_tx : Z; open_rx : Z }.

Definition frame_us (len mcs : Z) : Z := default 0 (chload_rx_frame_us len mcs).
Definition sat32 (x : Z) : Z := Z.min x (2 ^ 32 - 1).

Definition meter_step (m : meter) (e : chload_event) : meter :=
  match e with
  | NoteTx us => mk_meter (closed m) (sat32 (open_tx m + us)) (open_rx m)
  | NoteRx len mcs => mk_meter (closed m) (open_tx m) (sat32 (open_rx m + frame_us len mcs))
  | Cycle => mk_meter (mk_win (open_tx m) (open_rx m) :: closed m) 0 0
  end.

Definition total (l : list Z) : Z := foldr Z.add 0 l.

(** The busier direction's share of the last ten windows in percent, rounded half up, at most 100. *)
Definition meter_percent (m : meter) : Z :=
  let last10 := take 10 (closed m) in
  Z.min 100 ((Z.max (total (map tx_us last10)) (total (map rx_us last10)) * 100 + 500000) / 1000000).

Definition event_ok (e : chload_event) : Prop :=
  match e with
  | NoteTx us => is_u32 us
  | NoteRx len mcs => is_u16 len /\ is_u8 mcs
  | Cycle => True
  end.

(** ** Proofs *)

Lemma saturating_add_spec o us : is_u32 o -> is_u32 us -> saturating_add o us = sat32 (o + us).
Proof. intros. unfold saturating_add, sat32. cbv zeta. z_case; word_lia. Qed.

Lemma sat32_u32 x : 0 <= x -> is_u32 (sat32 x).
Proof. intros. unfold sat32, is_u32. lia. Qed.

Lemma chload_rx_frame_total len mcs : is_u16 len -> is_u8 mcs ->
  exists us, chload_rx_frame_us len mcs = Some us /\ 100 <= us < 2 ^ 32.
Proof.
  intros Hl Hm. unfold chload_rx_frame_us. cbv zeta.
  set (idx := if 8 <? _ then 0 else _).
  assert (Hidx : 0 <= idx < 9) by (unfold idx; repeat z_case; word_lia).
  destruct (rd_in_bounds chload_ndbps idx) as (nd & -> & Hnd); [done|]. cbn [mbind option_bind].
  assert (6 <= nd <= 120).
  { apply list_elem_of_lookup_2 in Hnd. unfold chload_ndbps in Hnd.
    repeat (apply elem_of_cons in Hnd as [->|Hnd]; [lia|]). by apply elem_of_nil in Hnd. }
  eexists. split; [done|]. unfold CHLOAD_SYM_US, CHLOAD_SIFS_US.
  set (q := u32 (u32 (len * 8) + 14 + nd - 1) / nd).
  assert (0 <= q < 100000).
  { unfold q. assert (0 <= u32 (u32 (len * 8) + 14 + nd - 1) < 600000) by word_lia.
    split; [apply Z.div_pos; lia|apply Z.div_lt_upper_bound; lia]. }
  clearbody q. z_case; word_lia.
Qed.

(** The ring read from its oldest window. *)
Definition oldest_first (s : chload_state) : list chload_win :=
  drop (Z.to_nat (chload_idx s)) (chload_ring s) ++ take (Z.to_nat (chload_idx s)) (chload_ring s).

Definition padded (m : meter) : list chload_win := take 10 (closed m ++ replicate 10 (mk_win 0 0)).

Record meter_rel (s : chload_state) (m : meter) : Prop := {
  rel_length : length (chload_ring s) = 10%nat;
  rel_idx : 0 <= chload_idx s < 10;
  rel_ring : oldest_first s = reverse (padded m);
  rel_tx : chload_tx_open_us s = open_tx m /\ is_u32 (open_tx m);
  rel_rx : chload_rx_open_us s = open_rx m /\ is_u32 (open_rx m);
  rel_closed : Forall (fun w => is_u32 (tx_us w) /\ is_u32 (rx_us w)) (closed m);
}.

(** Overwriting the oldest entry of a ring and stepping on. *)
Lemma rotate_write {A} (r : list A) i x : length r = 10%nat -> (i < 10)%nat ->
  let r' := <[i := x]> r in let i' := (S i mod 10)%nat in
  drop i' r' ++ take i' r' = tail (drop i r ++ take i r) ++ [x].
Proof.
  intros Hl Hi. do 10 (destruct r as [|? r]; [done|]). destruct r; [|done].
  do 10 (destruct i as [|i]; [done|]). lia.
Qed.

Lemma padded_cons w l : reverse (take 10 ((w :: l) ++ replicate 10 (mk_win 0 0))) =
  tail (reverse (take 10 (l ++ replicate 10 (mk_win 0 0)))) ++ [w].
Proof.
  cbn [app take]. rewrite reverse_cons. f_equal.
  assert (Hl : (10 <= length (l ++ replicate 10 (mk_win 0 0)))%nat) by (rewrite length_app, length_replicate; lia).
  revert Hl. generalize (l ++ replicate 10 (mk_win 0 0)). intros k Hk.
  do 10 (destruct k as [|? k]; [cbn in Hk; lia|]). done.
Qed.

Lemma meter_rel_step s m e : meter_rel s m -> event_ok e ->
  exists s', chload_step s e = Some s' /\ meter_rel s' (meter_step m e).
Proof.
  intros [Hl Hi Hr [Ht Ht'] [Hx Hx'] Hc] He. destruct e as [us|len mcs|]; cbn [chload_step meter_step event_ok] in *.
  - eexists. split; [done|]. unfold halow_chload_note_tx_us. constructor; unfold oldest_first; rsimpl; try done.
    cbn [open_tx]. rewrite Ht, saturating_add_spec by done. split; [done|]. apply sat32_u32. word_lia.
  - destruct He as [Hlen Hmcs]. destruct (chload_rx_frame_total len mcs Hlen Hmcs) as (us & E & Hus).
    unfold halow_chload_note_rx, frame_us. rewrite E. cbn [mbind option_bind default from_option].
    eexists. split; [done|]. constructor; unfold oldest_first; rsimpl; try done.
    cbn [open_rx]. unfold default, id. rewrite Hx, saturating_add_spec by (unfold is_u32; (done || lia)).
    split; [done|]. apply sat32_u32. word_lia.
  - unfold halow_chload_cycle. rewrite wr_in_bounds by lia. cbn [mbind option_bind]. eexists. split; [done|].
    assert (Hi' : u8 (u32 (chload_idx s + 1) mod 10) = Z.of_nat (S (Z.to_nat (chload_idx s)) mod 10)).
    { rewrite Nat2Z.inj_mod. replace (Z.of_nat (S (Z.to_nat (chload_idx s)))) with (chload_idx s + 1) by lia. word_lia. }
    pose proof (Nat.mod_upper_bound (S (Z.to_nat (chload_idx s))) 10 ltac:(lia)).
    constructor; rsimpl; cbn [open_tx open_rx closed]; try (split; [done|unfold is_u32; lia]).
    + by rewrite length_insert.
    + lia.
    + unfold oldest_first, padded. rsimpl. cbn [closed]. rewrite Hi', Nat2Z.id, rotate_write by lia.
      unfold oldest_first, padded in Hr. by rewrite Hr, padded_cons, Ht, Hx.
    + constructor; [|done]. by split.
Qed.

Lemma total_perm l l' : l ≡ₚ l' -> total l = total l'.
Proof. induction 1; unfold total in *; cbn; lia. Qed.

Lemma sum_of_total (f : chload_win -> Z) ws acc : (length ws <= 10)%nat -> 0 <= acc -> acc + total (map f ws) < 2 ^ 64 ->
  Forall (fun w => 0 <= f w) ws -> foldl (fun a w => u64 (a + f w)) acc ws = acc + total (map f ws).
Proof.
  revert acc. induction ws as [|w ws IH]; intros acc Hl Ha Hb Hf; cbn [foldl map total foldr length] in *; [lia|].
  apply Forall_cons in Hf as [Hw Hf]. fold (total (map f ws)) in *.
  assert (0 <= total (map f ws)).
  { clear -Hf. induction Hf; unfold total in *; cbn; lia. }
  rewrite u64_small by (unfold is_u64; lia). rewrite IH by (done || lia). lia.
Qed.

Lemma total_bound (f : chload_win -> Z) ws : Forall (fun w => is_u32 (f w)) ws ->
  0 <= total (map f ws) <= Z.of_nat (length ws) * 2 ^ 32.
Proof. induction 1; unfold total, is_u32 in *; cbn [map foldr length] in *; lia. Qed.

Lemma total_padded f m : f (mk_win 0 0) = 0 ->
  total (map f (padded m)) = total (map f (take 10 (closed m))).
Proof.
  intros H0. unfold padded. rewrite take_app, map_app, take_replicate.
  assert (Ht : forall l k, total (l ++ replicate k 0) = total l).
  { intros l k. induction l as [|x l IH]; unfold total in *; cbn; [induction k; cbn in *; lia|lia]. }
  assert (Hr : forall k, map f (replicate k (mk_win 0 0)) = replicate k 0); [|by rewrite Hr, Ht].
  intros k. induction k as [|k IH]; cbn [replicate map]; [done|]. by rewrite H0, IH.
Qed.

Lemma sum_of_ring f s m : meter_rel s m -> f (mk_win 0 0) = 0 ->
  (forall w, is_u32 (tx_us w) /\ is_u32 (rx_us w) -> is_u32 (f w)) ->
  sum_of f (chload_ring s) = total (map f (take 10 (closed m))).
Proof.
  intros [Hl Hi Hr _ _ Hc] H0 Hf.
  assert (Hp : chload_ring s ≡ₚ padded m).
  { rewrite <-(reverse_Permutation (padded m)), <-Hr. unfold oldest_first.
    rewrite Permutation_app_comm. by rewrite take_drop. }
  assert (Hu : Forall (fun w => is_u32 (f w)) (chload_ring s)).
  { rewrite Hp. unfold padded. apply Forall_take, Forall_app. split.
    - eapply Forall_impl; [exact Hc|]. exact Hf.
    - apply Forall_replicate. rewrite H0. unfold is_u32. lia. }
  pose proof (total_bound f _ Hu) as Hb. rewrite Hl in Hb.
  unfold sum_of. rewrite sum_of_total; [|lia|lia|lia|].
  - rewrite Z.add_0_l, (total_perm _ (map f (padded m))) by (by rewrite Hp). by apply total_padded.
  - eapply Forall_impl; [exact Hu|]. unfold is_u32. lia.
Qed.

Lemma meter_rel_run es : forall s m, meter_rel s m -> Forall event_ok es ->
  exists s', chload_run s es = Some s' /\ meter_rel s' (foldl meter_step m es).
Proof.
  unfold chload_run. induction es as [|e es IH]; intros s m Hr Hes; cbn [foldl]; [eauto|].
  apply Forall_cons in Hes as [He Hes]. destruct (meter_rel_step s m e Hr He) as (s1 & E & Hr1).
  cbn [mbind option_bind]. rewrite E. eauto.
Qed.

Lemma percent_refines s m : meter_rel s m -> halow_chload_percent s = meter_percent m.
Proof.
  intros Hr. unfold halow_chload_percent, meter_percent. cbv zeta.
  rewrite !(sum_of_ring _ s m) by (done || tauto).
  pose proof (rel_closed _ _ Hr) as Hc.
  assert (H10 : Forall (fun w => is_u32 (tx_us w) /\ is_u32 (rx_us w)) (take 10 (closed m))) by by apply Forall_take.
  pose proof (total_bound tx_us _ (Forall_impl _ _ _ H10 (fun w H => proj1 H))).
  pose proof (total_bound rx_us _ (Forall_impl _ _ _ H10 (fun w H => proj2 H))).
  set (a := total (map tx_us _)) in *. set (b := total (map rx_us _)) in *. clearbody a b.
  replace (if b <? a then a else b) with (Z.max a b) by (z_case; lia).
  set (c := Z.max a b). assert (0 <= c) by lia. clearbody c.
  change (win_us / 2) with 500000. change win_us with 1000000.
  destruct (Z.eqb_spec c 0) as [->|]; [done|]. destruct (Z.leb_spec 1000000 c).
  - symmetry. apply Z.min_l. apply Z.div_le_lower_bound; lia.
  - rewrite u8_small by (unfold is_u8; split; [apply Z.div_pos; lia|apply Z.div_lt_upper_bound; lia]).
    rewrite Z.min_r; [f_equal; lia|]. apply Z.lt_succ_r, Z.div_lt_upper_bound; lia.
Qed.

(** The displayed channel load is what it claims to be: for every history
    of noted transmissions, received frames and closed windows, nothing
    faults, and the percentage is the busier direction's airtime over the
    last ten closed windows, rounded half up and capped at 100, whatever
    overflows were saturated on the way. *)
Theorem chload_percent_exact (es : list chload_event) :
  Forall event_ok es ->
  exists s, chload_run halow_chload_reset es = Some s /\
    halow_chload_percent s = meter_percent (foldl meter_step (mk_meter [] 0 0) es) /\
    0 <= halow_chload_percent s <= 100.
Proof.
  intros Hes.
  assert (H0 : meter_rel halow_chload_reset (mk_meter [] 0 0)) by (by constructor).
  destruct (meter_rel_run es _ _ H0 Hes) as (s & E & Hr). exists s. split; [done|].
  rewrite (percent_refines _ _ Hr). split; [done|]. unfold meter_percent. cbv zeta.
  pose proof (rel_closed _ _ Hr) as Hc. set (m := foldl meter_step _ es) in *.
  assert (H10 : Forall (fun w => is_u32 (tx_us w)) (take 10 (closed m))).
  { apply Forall_take. eapply Forall_impl; [exact Hc|]. by intros w []. }
  pose proof (total_bound tx_us _ H10). split; [|lia].
  apply Z.min_glb; [lia|]. apply Z.div_pos; lia.
Qed.

(** Twelve windows of 60 ms transmission against 20 received frames each. *)
Definition ex_second : list chload_event :=
  concat (replicate 12 (NoteTx 60000 :: replicate 20 (NoteRx 100 2) ++ [Cycle])).

Lemma chload_percent_exact_witness :
  exists s, chload_run halow_chload_reset ex_second = Some s /\
    halow_chload_percent s = meter_percent (foldl meter_step (mk_meter [] 0 0) ex_second) /\
    0 <= halow_chload_percent s <= 100.
Proof.
  apply (chload_percent_exact ex_second). unfold ex_second.
  repeat (constructor; [vm_compute; first [done | split; split; congruence]|]). constructor.
Defined.

Example ex_second_load : halow_chload_percent <$> chload_run halow_chload_reset ex_second = Some 60.
Proof. vm_compute. reflexivity. Qed.
