(* ===== verification/Lbt.v ===== *)
(** * Listen-before-talk measurements: [src/halow_lbt.c]

    Background-noise sampling with its long ring ([Lwrb]), the
    noise floor cut from it, and the accounting of transmit airtime that
    feeds the channel-load meter ([Chload]).  Single-precision arithmetic is
    the IEEE one of [SpecFloat].  Clock readings and noise samples are
    arguments, in the order the code takes them; the context mutex is
    recursive, as [halow_lbt_ed_busy_pct_get] requires. *)

From S2P Require Import Prelude Monad ConfigDb Lwrb Chload.
From stdpp Require Import strings sorting.
From Stdlib Require Import SpecFloat.

#[local] Open Scope Z_scope.

Definition f32_of_Z (z : Z) : spec_float := binary_normalize 24 128 z 0 false.
Definition f32_add : spec_float -> spec_float -> spec_float := SFadd 24 128.
Definition f32_div : spec_float -> spec_float -> spec_float := SFdiv 24 128.

Definition AIRTIME_BUF : Z := 10.
Definition AIRTIME_UPDATE_PERIOD_MS : Z := 100.
Definition ACTIVE_WINDOW_MS : Z := 100.
Definition SLEEP_ACTIVE_MS : Z := 1.
Definition SLEEP_IDLE_MS : Z := 10.
Definition INT32_MAX : Z := 2147483647.

(** ** State *)

Record lbt_config := mk_lbt_config {
  lbt_enabled : Z;
  noise_short_window_samples : Z;
  noise_long_window_samples : Z;
  noise_long_low_percent : Z;
  noise_relative_offset_dbm : Z;
  noise_absolute_busy_dbm : Z;
  tx_skip_check_time_us : Z;
  tx_max_continuous_time_ms : Z;
  backoff_random_min_us : Z;
  backoff_random_max_us : Z;
  util_enabled : Z;
  util_max_percent : Z;
  util_refill_window_ms : Z;
  util_bucket_capacity_ms : Z;
}.
#[export] Instance eta_lbt_config : Eta lbt_config := fun c =>
  mk_lbt_config (lbt_enabled c) (noise_short_window_samples c) (noise_long_window_samples c)
    (noise_long_low_percent c) (noise_relative_offset_dbm c) (noise_absolute_busy_dbm c)
    (tx_skip_check_time_us c) (tx_max_continuous_time_ms c) (backoff_random_min_us c)
    (backoff_random_max_us c) (util_enabled c) (util_max_percent c) (util_refill_window_ms c)
    (util_bucket_capacity_ms c).

Record lbt_ctx := mk_ctx {
  cfg : lbt_config;
  short_sum : Z;
  short_i : Z;
  noise_short : Z;
  noise_floor : Z;
  noise_floor_ts_ms : Z;
  short_n : Z;
  long_n : Z;
  floor_pct : Z;
  short_samples : list Z;
  tmp_sort : list Z;
  time_last_cycle_update_us : Z;
  airtime_time_last_tx_started : Z;
  airtime_pending_us : Z;            (* airtime_time_tx_from_last_cycle_update_us *)
  airtime_tx_active : bool;
  last_activity_us : Z;
  airtime_rb : list spec_float;
  airtime_rb_idx : Z;
  long_rb : lwrb;
}.
#[export] Instance eta_lbt_ctx : Eta lbt_ctx := fun c =>
  mk_ctx (cfg c) (short_sum c) (short_i c) (noise_short c) (noise_floor c) (noise_floor_ts_ms c)
    (short_n c) (long_n c) (floor_pct c) (short_samples c) (tmp_sort c) (time_last_cycle_update_us c)
    (airtime_time_last_tx_started c) (airtime_pending_us c) (airtime_tx_active c) (last_activity_us c)
    (airtime_rb c) (airtime_rb_idx c) (long_rb c).

Record lbt := mk_lbt {
  mutex_hdl : bool;                  (* g_lbt_ctx_mutex.hdl != NULL *)
  g_lbt_ctx : option lbt_ctx;
  g_lbt_tx_done_ms : Z;
  airtime_cycle_timestamp : Z;       (* static of the task *)
  chload : chload_state;
}.
#[export] Instance eta_lbt : Eta lbt := fun s =>
  mk_lbt (mutex_hdl s) (g_lbt_ctx s) (g_lbt_tx_done_ms s) (airtime_cycle_timestamp s) (chload s).

(** ** Noise samples *)

(** The mean of the samples of one measurement, rounded half away from zero;
    -128 without samples. *)
Definition halow_lbt_noise_dbm_now (vs : list Z) : Z :=
  let cnt := Z.of_nat (length vs) in
  let acc := foldl (fun a v => a + i8 v) 0 vs in
  if cnt =? 0 then -128
  else
    let avg := if 0 <=? acc then acc + cnt / 2 else acc - cnt / 2 in
    let avg := Z.quot avg cnt in
    let avg := if 127 <? avg then 127 else avg in
    let avg := if avg <? -128 then -128 else avg in
    i8 avg.

(** The seed mixed from noise readings. *)
Definition seed_step (s : Z * Z) (v : Z) : Z * Z :=
  let '(seed, cnt) := s in
  let seed := Z.lxor seed (u32 (i8 v)) in
  let seed := Z.lor (u32 (Z.shiftl seed 5)) (Z.shiftr seed 27) in
  (u32 (seed + u32 (cnt * 0x9E3779B1)), cnt + 1).
Definition halow_lbt_rand_seed (vs : list Z) : Z :=
  let seed := (foldl seed_step (0xA5A5A5A5, 0) (take 1000 vs)).1 in
  if seed =? 0 then 1 else seed.

Definition long_ring_valid (c : lbt_ctx) : Z :=
  let free_b := lwrb_get_free (long_rb c) in
  if long_n c <? free_b then 0 else long_n c - free_b.

(** [qsort] with [cmp_i8]. *)
Definition sort_i8 (l : list Z) : list Z := merge_sort Z.le l.

(** The 1-based rank of the percentile, as an index. *)
Definition rank_index (n pct : Z) : Z :=
  let pct := if 100 <? pct then 100 else pct in
  let k := u32 (n * pct + 99) / 100 in
  let k := if k =? 0 then 1 else k in
  if n <=? k - 1 then n - 1 else k - 1.

(** The result and the context, whose scratch array is sorted in place. *)
Definition noise_pxx_from_rb (c : lbt_ctx) : option (Z * lbt_ctx) :=
  let n := long_ring_valid c in
  if n =? 0 then Some (noise_short c, c)
  else
    p ← lwrb_peek (long_rb c) n;
    t ← wr_n (tmp_sort c) 0 p;
    head ← rd_n t 0 n;
    t ← wr_n t 0 (sort_i8 head);
    r ← rd t (rank_index n (floor_pct c));
    Some (r, c <| tmp_sort := t |>).

Definition halow_lbt_background_short_dbm_get (s : lbt) : Z :=
  if negb (mutex_hdl s) then 0
  else match g_lbt_ctx s with Some c => noise_short c | None => 0 end.

Definition halow_lbt_background_long_dbm_get (now : Z) : M lbt Z := fun s =>
  if negb (mutex_hdl s) then Some (0, s)
  else match g_lbt_ctx s with
  | None => Some (0, s)
  | Some c =>
      if 100 <=? u64 (now - noise_floor_ts_ms c) then
        '(f, c) ← noise_pxx_from_rb c;
        Some (f, s <| g_lbt_ctx := Some (c <| noise_floor := f |> <| noise_floor_ts_ms := u32 now |>) |>)
      else Some (noise_floor c, s)
  end.

(** The fraction of the long ring that reads as busy, in percent. *)
Definition halow_lbt_ed_busy_pct_get (now : Z) : M lbt Z := fun s =>
  if negb (mutex_hdl s) then Some (0, s)
  else match g_lbt_ctx s with
  | None => Some (0, s)
  | Some c =>
      let n := long_ring_valid c in
      if n =? 0 then Some (0, s)
      else
        '(floor, s) ← halow_lbt_background_long_dbm_get now s;
        c ← g_lbt_ctx s;
        let rel_thr := floor + noise_relative_offset_dbm (cfg c) in
        let abs_thr := noise_absolute_busy_dbm (cfg c) in
        p ← lwrb_peek (long_rb c) n;
        t ← wr_n (tmp_sort c) 0 p;
        vs ← rd_n t 0 n;
        let busy := Z.of_nat (length (filter (fun v => abs_thr <= v \/ rel_thr < v) vs)) in
        Some (u8 (u32 (busy * 100) / n), s <| g_lbt_ctx := Some (c <| tmp_sort := t |>) |>)
  end.

(** ** Airtime *)

Definition on_ctx (f : lbt_ctx -> lbt_ctx) (s : lbt) : lbt := s <| g_lbt_ctx ::= fmap f |>.

Definition halow_lbt_tx_done_notify (now_ms : Z) (s : lbt) : lbt := s <| g_lbt_tx_done_ms := u32 now_ms |>.

(** [lock_ok]: the mutex was obtained within its 10 ms; [t1], [t2]: the two
    clock readings. *)
Definition halow_lbt_set_tx_as_active (lock_ok : bool) (t1 t2 : Z) (s : lbt) : lbt :=
  if negb (mutex_hdl s) || negb lock_ok then s
  else on_ctx (fun c =>
    let c := if negb (airtime_tx_active c)
             then c <| airtime_tx_active := true |> <| airtime_time_last_tx_started := t1 |> else c in
    c <| last_activity_us := t2 |>) s.

Definition halow_lbt_set_tx_as_deactive (lock_ok : bool) (now_us : Z) (s : lbt) : lbt :=
  if negb (mutex_hdl s) || negb lock_ok then s
  else on_ctx (fun c =>
    if airtime_tx_active c then
      let start_us := airtime_time_last_tx_started c in
      let start_us := if start_us =? 0 then time_last_cycle_update_us c else start_us in
      let dt := now_us - start_us in
      let c := if 0 <? dt then
                 let acc := airtime_pending_us c + dt in
                 let acc := if INT32_MAX <? acc then INT32_MAX else acc in
                 c <| airtime_pending_us := i32 acc |>
               else c in
      c <| airtime_time_last_tx_started := 0 |> <| airtime_tx_active := false |>
    else c) s.

(** The transmit time since the last cycle: all of it while the transmitter is
    active, up to the last completion when the activity is stale. *)
Definition cycle_airtime (stale : bool) (done_ms now_us : Z) (c : lbt_ctx) : Z * lbt_ctx :=
  let airtime_us := airtime_pending_us c in
  let start_us := airtime_time_last_tx_started c in
  if airtime_tx_active c && negb stale then
    (i32 (airtime_us + (now_us - start_us)), c <| airtime_time_last_tx_started := now_us |>)
  else if airtime_tx_active c then
    let end_us := done_ms * 1000 in
    let end_us := if end_us <? start_us then start_us else end_us in
    let acc := airtime_us + (end_us - start_us) in
    let acc := if INT32_MAX <? acc then INT32_MAX else acc in
    (i32 acc, c <| airtime_time_last_tx_started := 0 |> <| airtime_tx_active := false |>)
  else (airtime_us, c <| airtime_time_last_tx_started := 0 |>).

(** The window just closed: its airtime, its length, and the context after it. *)
Definition airtime_window (done_ms current_ms now_us : Z) (c : lbt_ctx) : option (Z * Z * lbt_ctx) :=
  let cycle_us := now_us - time_last_cycle_update_us c in
  let cycle_us := if cycle_us <=? 0 then 1 else cycle_us in
  let stale := airtime_tx_active c && negb (done_ms =? 0) &&
               (2 * AIRTIME_UPDATE_PERIOD_MS <? u32 (u32 current_ms - done_ms)) in
  let '(airtime_us, c) := cycle_airtime stale done_ms now_us c in
  let airtime_us := if cycle_us <? airtime_us then i32 cycle_us else airtime_us in
  rb ← wr (airtime_rb c) (airtime_rb_idx c) (f32_div (f32_of_Z airtime_us) (f32_of_Z cycle_us));
  Some (airtime_us, cycle_us,
    c <| airtime_rb := rb |>
      <| airtime_rb_idx ::= fun i => if AIRTIME_BUF <=? i + 1 then 0 else i8 (i + 1) |>
      <| airtime_pending_us := 0 |> <| time_last_cycle_update_us := now_us |>).

(** One noise sample: the short average goes to the long ring. *)
Definition lbt_sample (noise_dbm : Z) (c : lbt_ctx) : option lbt_ctx :=
  ss ← wr (short_samples c) (short_i c) noise_dbm;
  let c := c <| short_samples := ss |> <| short_i ::= Z.add 1 |> <| short_sum ::= fun x => i32 (x + noise_dbm) |> in
  if short_n c <=? short_i c then
    let short_avg := i8 (Z.quot (short_sum c) (short_n c)) in
    let rb := if lwrb_get_free (long_rb c) =? 0 then lwrb_read1 (long_rb c) else long_rb c in
    rb ← lwrb_write1 rb short_avg;
    Some (c <| noise_short := short_avg |> <| long_rb := rb |> <| short_i := 0 |> <| short_sum := 0 |>)
  else Some c.

(** One iteration of [halow_lbt_task]; the lock-free heartbeat does not change
    between the two places that read it.  Result: the airtime charged, when a
    window was closed, and the milliseconds to sleep. *)
Definition halow_lbt_task_body (noise_dbm current_ms now_us later_us : Z) : M lbt (option Z * Z) :=
  o ← gets g_lbt_ctx;
  match o with
  | None => mret (None, 1)
  | Some c =>
      c ← lift (lbt_sample noise_dbm c);
      ts ← gets airtime_cycle_timestamp;
      '(charged, c) ←
        (if AIRTIME_UPDATE_PERIOD_MS <=? current_ms - ts then
           modify (fun s => s <| airtime_cycle_timestamp := current_ms |>);;
           done_ms ← gets g_lbt_tx_done_ms;
           '(airtime_us, cycle_us, c) ← lift (airtime_window done_ms current_ms now_us c);
           l ← gets chload;
           l ← lift (halow_chload_cycle (halow_chload_note_tx_us (u32 airtime_us) l));
           modify (fun s => s <| chload := l |>);;
           mret (Some airtime_us, c)
         else mret (None, c));
      modify (fun s => s <| g_lbt_ctx := Some c |>);;
      mret (charged, if later_us - last_activity_us c <? ACTIVE_WINDOW_MS * 1000 then SLEEP_ACTIVE_MS else SLEEP_IDLE_MS)
  end.

Definition halow_lbt_airtime_get (s : lbt) : spec_float :=
  if negb (mutex_hdl s) then f32_of_Z 0
  else match g_lbt_ctx s with
  | None => f32_of_Z 0
  | Some c => f32_div (foldl f32_add (f32_of_Z 0) (airtime_rb c)) (f32_of_Z AIRTIME_BUF)
  end.

Definition halow_lbt_ch_util_get (s : lbt) : spec_float :=
  if negb (mutex_hdl s) then f32_of_Z 0
  else f32_div (f32_of_Z (halow_chload_percent (chload s))) (f32_of_Z 100).

(** ** Set-up *)

(** The three buffers [os_malloc] returned, with whatever they contained. *)
Definition halow_lbt_ctx_alloc (c : lbt_config) (bufs : option (list Z * list Z * list Z)) : option lbt_ctx :=
  '(shorts, longs, tmp) ← bufs;
  let nz v := if v =? 0 then 1 else v in
  let pct := noise_long_low_percent c in
  Some (mk_ctx c 0 0 0 0 0 (nz (noise_short_window_samples c)) (nz (noise_long_window_samples c))
    (if 100 <? pct then 100 else pct) shorts tmp 0 0 0 false 0 (replicate 10 (f32_of_Z 0)) 0 (lwrb_init longs)).

(** [task_ok]: [os_task_init] returned 0. *)
Definition halow_lbt_config_apply (c : lbt_config) (bufs : option (list Z * list Z * list Z)) (task_ok : bool)
    (s : lbt) : lbt :=
  match halow_lbt_ctx_alloc c bufs with
  | Some ctx => if task_ok then s <| g_lbt_ctx := Some ctx |> else s <| g_lbt_ctx := None |>
  | None => s <| g_lbt_ctx := None |>
  end.

Definition halow_lbt_config_set_default : lbt_config :=
  mk_lbt_config 1 256 256 20 10 (-75) 2000 100 3000 10000 1 50 1000 200.

Section Persist.
Context {D : Type} `{Kvdb D}.

(** The flash part of [halow_lbt_config_save], after the apply. *)
Definition halow_lbt_config_save (c : lbt_config) (d : D) : D :=
  let d := (configdb_set_i8 "cfg.hlbt.en" (Some (i8 (lbt_enabled c))) d).2 in
  let d := (configdb_set_i16 "cfg.hlbt.nsws" (Some (i16 (noise_short_window_samples c))) d).2 in
  let d := (configdb_set_i16 "cfg.hlbt.nlws" (Some (i16 (noise_long_window_samples c))) d).2 in
  let d := (configdb_set_i8 "cfg.hlbt.nllp" (Some (i8 (noise_long_low_percent c))) d).2 in
  let d := (configdb_set_i8 "cfg.hlbt.nro" (Some (noise_relative_offset_dbm c)) d).2 in
  let d := (configdb_set_i8 "cfg.hlbt.nab" (Some (noise_absolute_busy_dbm c)) d).2 in
  let d := (configdb_set_i16 "cfg.hlbt.tx_skp" (Some (i16 (tx_skip_check_time_us c))) d).2 in
  let d := (configdb_set_i16 "cfg.hlbt.tx_max" (Some (i16 (tx_max_continuous_time_ms c))) d).2 in
  let d := (configdb_set_i16 "cfg.hlbt.bo_min" (Some (i16 (backoff_random_min_us c))) d).2 in
  let d := (configdb_set_i16 "cfg.hlbt.bo_max" (Some (i16 (backoff_random_max_us c))) d).2 in
  let d := (configdb_set_i8 "cfg.hlbt.u_en" (Some (i8 (util_enabled c))) d).2 in
  let d := (configdb_set_i8 "cfg.hlbt.u_max" (Some (i8 (util_max_percent c))) d).2 in
  let d := (configdb_set_i32 "cfg.hlbt.u_ref" (Some (i32 (util_refill_window_ms c))) d).2 in
  (configdb_set_i16 "cfg.hlbt.u_bkt" (Some (i16 (util_bucket_capacity_ms c))) d).2.

Definition get_u32 (key : string) (d : D) (v : Z) : Z :=
  u32 (default v (configdb_get_i32 key (Some (i32 v)) d).2).

Definition halow_lbt_config_load (d : D) : lbt_config :=
  halow_lbt_config_set_default
    <| lbt_enabled ::= get_u8 "cfg.hlbt.en" d |>
    <| noise_short_window_samples ::= get_u16 "cfg.hlbt.nsws" d |>
    <| noise_long_window_samples ::= get_u16 "cfg.hlbt.nlws" d |>
    <| noise_long_low_percent ::= get_u8 "cfg.hlbt.nllp" d |>
    <| noise_relative_offset_dbm ::= fun v => (configdb_get_i8 "cfg.hlbt.nro" v d).2 |>
    <| noise_absolute_busy_dbm ::= fun v => (configdb_get_i8 "cfg.hlbt.nab" v d).2 |>
    <| tx_skip_check_time_us ::= get_u16 "cfg.hlbt.tx_skp" d |>
    <| tx_max_continuous_time_ms ::= get_u16 "cfg.hlbt.tx_max" d |>
    <| backoff_random_min_us ::= get_u16 "cfg.hlbt.bo_min" d |>
    <| backoff_random_max_us ::= get_u16 "cfg.hlbt.bo_max" d |>
    <| util_enabled ::= get_u8 "cfg.hlbt.u_en" d |>
    <| util_max_percent ::= get_u8 "cfg.hlbt.u_max" d |>
    <| util_refill_window_ms ::= get_u32 "cfg.hlbt.u_ref" d |>
    <| util_bucket_capacity_ms ::= get_u16 "cfg.hlbt.u_bkt" d |>
    <| util_max_percent := 100 |> <| util_enabled := 0 |>.

(** [halow_lbt_init]: the loaded settings are applied and stored. *)
Definition halow_lbt_init (bufs : option (list Z * list Z * list Z)) (task_ok : bool) (s : lbt) (d : D) : lbt * D :=
  let c := halow_lbt_config_load d in
  (halow_lbt_config_apply c bufs task_ok (s <| mutex_hdl := true |>), halow_lbt_config_save c d).
End Persist.

(** ** Proofs: the noise floor *)

Record ctx_ok (c : lbt_ctx) : Prop := {
  ok_ring : ring_ok (long_rb c);
  ok_long : rb_size (long_rb c) = long_n c /\ 1 <= long_n c < 2 ^ 16;
  ok_tmp : Z.of_nat (length (tmp_sort c)) = long_n c;
  ok_pct : 0 <= floor_pct c <= 100;
  ok_short : Z.of_nat (length (short_samples c)) = short_n c /\ 1 <= short_n c < 2 ^ 16;
  ok_short_i : 0 <= short_i c < short_n c;
}.

(** The nearest-rank percentile: the smallest of [l] such that [pct] percent
    of [l] are not greater. *)
Definition nearest_rank (pct : Z) (l : list Z) (r : Z) : Prop :=
  r ∈ l /\
  Z.of_nat (length l) * pct <= 100 * Z.of_nat (length (filter (fun x => x <= r) l)) /\
  (forall x, x ∈ l -> x < r -> 100 * Z.of_nat (length (filter (fun y => y <= x) l)) < Z.of_nat (length l) * pct).

Lemma ring_valid_spec c : ctx_ok c -> long_ring_valid c = Z.of_nat (length (rb_list (long_rb c))) + 1.
Proof.
  intros [Hr [Hs Hl] _ _ _ _]. unfold long_ring_valid. rewrite get_free_full, rb_list_length by done.
  pose proof (rb_list_length _ Hr). z_case; lia.
Qed.

Lemma sorted_lookup (l : list Z) i j x y :
  StronglySorted Z.le l -> l !! i = Some x -> l !! j = Some y -> (i <= j)%nat -> x <= y.
Proof.
  intros Hs. revert i j. induction Hs as [|a l Hs IH Ha]; intros i j; [done|].
  destruct i as [|i], j as [|j]; cbn; intros; simplify_eq; try lia; [|eapply IH; eauto; lia].
  rewrite Forall_forall in Ha. apply Ha. by eapply list_elem_of_lookup_2.
Qed.

Lemma filter_none {A} (P : A -> Prop) `{!forall x, Decision (P x)} l : Forall (fun x => ~ P x) l -> filter P l = [].
Proof. induction 1 as [|x l Hx _ IH]; [done|]. by rewrite filter_cons_False. Qed.

Lemma filter_every {A} (P : A -> Prop) `{!forall x, Decision (P x)} l : Forall P l -> filter P l = l.
Proof. induction 1 as [|x l Hx _ IH]; [done|]. by rewrite filter_cons_True, IH. Qed.

Lemma count_at_least (ys : list Z) (k : nat) (r : Z) : StronglySorted Z.le ys -> ys !! k = Some r ->
  (S k <= length (filter (fun x => (x <= r)%Z) ys))%nat.
Proof.
  intros Hs Hk. pose proof (lookup_lt_Some _ _ _ Hk). rewrite <-(take_drop (S k) ys), filter_app, length_app.
  rewrite filter_every; [rewrite length_take; lia|].
  apply Forall_lookup_2. intros i x [Hi Hlt]%lookup_take_Some. eapply sorted_lookup; eauto. lia.
Qed.

Lemma count_at_most (ys : list Z) (k : nat) (r x : Z) : StronglySorted Z.le ys -> ys !! k = Some r -> x < r ->
  (length (filter (fun y => (y <= x)%Z) ys) <= k)%nat.
Proof.
  intros Hs Hk Hx. rewrite <-(take_drop k ys), filter_app, length_app.
  rewrite (filter_none _ (drop k ys)).
  - pose proof (length_filter (fun y => y <= x) (take k ys)) as Hf. rewrite length_take in Hf. cbn. lia.
  - apply Forall_lookup_2. intros i y Hi. rewrite lookup_drop in Hi.
    assert (r <= y) by (eapply sorted_lookup; eauto; lia). lia.
Qed.

Lemma rank_index_range n pct : 1 <= n <= 2 ^ 16 -> 0 <= pct <= 100 ->
  0 <= rank_index n pct < n /\ n * pct <= 100 * (rank_index n pct + 1) /\
  (rank_index n pct = 0 \/ 100 * rank_index n pct < n * pct).
Proof.
  intros Hn Hp. unfold rank_index. cbv zeta. rewrite (proj2 (Z.ltb_ge 100 pct)) by lia.
  rewrite u32_small by (unfold is_u32; nia).
  assert (0 <= n * pct <= 100 * n) by nia. set (m := n * pct) in *. clearbody m.
  repeat z_case; Z.to_euclidean_division_equations; lia.
Qed.

Lemma nearest_rank_sorted l pct r : (1 <= length l)%nat -> Z.of_nat (length l) <= 2 ^ 16 -> 0 <= pct <= 100 ->
  sort_i8 l !! Z.to_nat (rank_index (Z.of_nat (length l)) pct) = Some r -> nearest_rank pct l r.
Proof.
  intros Hl Hl16 Hp Hr. destruct (rank_index_range (Z.of_nat (length l)) pct) as (Hi & Hge & Hlt); [lia|done|].
  pose proof (StronglySorted_merge_sort Z.le l) as Hs. pose proof (merge_sort_Permutation Z.le l) as Hperm.
  unfold sort_i8 in *. split; [|split].
  - rewrite <-Hperm. by eapply list_elem_of_lookup_2.
  - rewrite <-Hperm at 2. pose proof (count_at_least _ _ _ Hs Hr). lia.
  - intros x Hx Hxr. rewrite <-Hperm at 1. pose proof (count_at_most _ _ _ _ Hs Hr Hxr).
    destruct Hlt as [H0|Hlt]; [|lia].
    rewrite <-Hperm in Hx. apply list_elem_of_lookup_1 in Hx as [j Hj].
    rewrite H0 in Hr. pose proof (sorted_lookup _ _ _ _ _ Hs Hr Hj ltac:(lia)). lia.
Qed.

Lemma wr_n_0 {A} (l v : list A) : (length v <= length l)%nat -> wr_n l 0 v = Some (v ++ drop (length v) l).
Proof. intros H. by rewrite wr_n_in_bounds by lia. Qed.

Lemma rd_n_0 {A} (l : list A) n : 0 <= n <= Z.of_nat (length l) -> rd_n l 0 n = Some (take (Z.to_nat n) l).
Proof. intros H. by rewrite rd_n_in_bounds by lia. Qed.

Lemma noise_pxx_spec c : ctx_ok c ->
  let xs := rb_list (long_rb c) in
  exists stale r tmp, tmp_sort c !! length xs = Some stale /\
    noise_pxx_from_rb c = Some (r, c <| tmp_sort := tmp |>) /\ length tmp = length (tmp_sort c) /\
    nearest_rank (floor_pct c) (xs ++ [stale]) r.
Proof.
  intros Hok. cbv zeta. pose proof (ring_valid_spec c Hok) as Hv. destruct Hok as [Hr [Hs Hl] Ht Hp _ _].
  pose proof (rb_list_length _ Hr) as Hlen. pose proof (get_free_full (long_rb c)) as Hff.
  assert (0 <= lwrb_get_free (long_rb c)) by (unfold lwrb_get_free, ring_ok in *; z_case; lia).
  set (xs := rb_list (long_rb c)) in *.
  destruct (lookup_lt_is_Some_2 (tmp_sort c) (length xs)) as [stale Hst]; [lia|].
  unfold noise_pxx_from_rb. rewrite Hv. rewrite (proj2 (Z.eqb_neq _ 0)) by lia.
  rewrite peek_spec by (done || lia). fold xs. cbn [mbind option_bind].
  rewrite wr_n_0 by lia. cbn [mbind option_bind].
  rewrite (drop_S _ _ _ Hst). set (rest := drop (S (length xs)) (tmp_sort c)).
  replace (xs ++ stale :: rest) with ((xs ++ [stale]) ++ rest) by by rewrite <-app_assoc.
  assert (Hy : length (xs ++ [stale]) = Z.to_nat (Z.of_nat (length xs) + 1)) by (rewrite length_app; cbn; lia).
  assert (Hsort : length (sort_i8 (xs ++ [stale])) = length (xs ++ [stale])).
  { apply Permutation_length, merge_sort_Permutation. }
  rewrite rd_n_0 by (rewrite length_app; lia). cbn [mbind option_bind].
  rewrite <-Hy, take_app_length.
  rewrite wr_n_0 by (rewrite length_app, Hsort; lia). cbn [mbind option_bind].
  rewrite Hsort, drop_app_length.
  destruct (rank_index_range (Z.of_nat (length xs) + 1) (floor_pct c)) as (Hi & _); [lia|done|].
  destruct (lookup_lt_is_Some_2 (sort_i8 (xs ++ [stale])) (Z.to_nat (rank_index (Z.of_nat (length xs) + 1) (floor_pct c))))
    as [r Hrr]; [lia|].
  exists stale, r, (sort_i8 (xs ++ [stale]) ++ rest). split; [done|]. split; [|split].
  - replace (rd _ _) with (Some r); [done|]. symmetry. apply rd_Some. split; [lia|]. by apply lookup_app_l_Some.
  - rewrite length_app, Hsort, Hy. unfold rest. rewrite length_drop. lia.
  - apply nearest_rank_sorted; [lia|lia|done|]. replace (Z.of_nat (length (xs ++ [stale]))) with (Z.of_nat (length xs) + 1) by lia. done.
Qed.

(** ** The noise floor over a history of samples *)

Definition sum (l : list Z) : Z := foldr Z.add 0 l.
Definition is_i8 (v : Z) : Prop := -128 <= v < 128.

(** The averages of consecutive blocks of [n] samples, [cur] being the block begun. *)
Fixpoint averages (n : Z) (cur vs : list Z) : list Z :=
  match vs with
  | [] => []
  | v :: vs =>
      let cur := cur ++ [v] in
      if n <=? Z.of_nat (length cur) then Z.quot (sum cur) n :: averages n [] vs
      else averages n cur vs
  end.
Fixpoint block (n : Z) (cur vs : list Z) : list Z :=
  match vs with
  | [] => cur
  | v :: vs => if n <=? Z.of_nat (length (cur ++ [v])) then block n [] vs else block n (cur ++ [v]) vs
  end.

Inductive noise_event := Sample (v : Z) | Floor.
Definition noise_step (c : lbt_ctx) (e : noise_event) : option lbt_ctx :=
  match e with
  | Sample v => lbt_sample v c
  | Floor => snd <$> noise_pxx_from_rb c
  end.
Definition noise_run (c : lbt_ctx) (es : list noise_event) : option lbt_ctx :=
  foldl (fun o e => c ← o; noise_step c e) (Some c) es.
Definition samples (es : list noise_event) : list Z :=
  omap (fun e => match e with Sample v => Some v | Floor => None end) es.

(** The context after the averages [xs] and the samples [cur] of a block. *)
Record tracks_noise (c : lbt_ctx) (xs cur : list Z) : Prop := {
  tn_ok : ctx_ok c;
  tn_ring : rb_list (long_rb c) = lastn (Z.to_nat (long_n c - 1)) xs;
  tn_i : short_i c = Z.of_nat (length cur);
  tn_sum : short_sum c = sum cur;
  tn_i8 : Forall is_i8 cur;
}.

Lemma sum_bound l : Forall is_i8 l -> - 128 * Z.of_nat (length l) <= sum l <= 127 * Z.of_nat (length l).
Proof. induction 1; unfold sum, is_i8 in *; cbn [foldr length] in *; lia. Qed.

Lemma sum_snoc l v : sum (l ++ [v]) = sum l + v.
Proof. induction l; unfold sum in *; cbn in *; lia. Qed.

Lemma quot_i8 l n : Forall is_i8 l -> Z.of_nat (length l) = n -> 1 <= n -> is_i8 (Z.quot (sum l) n).
Proof. intros Hl <- Hn. pose proof (sum_bound l Hl). unfold is_i8. Z.to_euclidean_division_equations. nia. Qed.

Lemma lbt_sample_tracks c xs cur v : tracks_noise c xs cur -> is_i8 v ->
  exists c', lbt_sample v c = Some c' /\
    (if short_n c <=? Z.of_nat (length (cur ++ [v]))
     then tracks_noise c' (xs ++ [Z.quot (sum (cur ++ [v])) (short_n c)]) []
     else tracks_noise c' xs (cur ++ [v])) /\
    short_n c' = short_n c /\ long_n c' = long_n c /\ floor_pct c' = floor_pct c /\ tmp_sort c' = tmp_sort c.
Proof.
  intros [[Hr [Hs Hl] Ht Hp [Hsh Hsn] Hsi] Hring Hi Hsum Hc] Hv.
  assert (Hcv : Forall is_i8 (cur ++ [v])) by (apply Forall_app; split; [done|by constructor]).
  pose proof (sum_bound _ Hcv) as Hb. rewrite length_app in *. cbn [length] in *.
  unfold lbt_sample. rewrite wr_in_bounds by lia. cbn [mbind option_bind]. rsimpl.
  rewrite Hi, Hsum. rewrite sum_snoc in Hb. replace (i32 (sum cur + v)) with (sum (cur ++ [v])) by (rewrite sum_snoc; word_lia).
  replace (1 + Z.of_nat (length cur)) with (Z.of_nat (length cur + 1)) by lia.
  destruct (Z.leb_spec (short_n c) (Z.of_nat (length cur + 1))) as [Hfull|Hmore].
  - pose proof (quot_i8 (cur ++ [v]) (short_n c) Hcv) as Hq. rewrite length_app in Hq. cbn [length] in Hq.
    specialize (Hq ltac:(lia) ltac:(lia)).
    replace (i8 (Z.quot (sum (cur ++ [v])) (short_n c))) with (Z.quot (sum (cur ++ [v])) (short_n c)) by (unfold is_i8 in Hq; word_lia).
    set (q := Z.quot _ _) in *. clearbody q.
    destruct (ring_push (long_rb c) q Hr) as (b' & -> & Hb' & Hs' & Hl'). cbn [mbind option_bind].
    eexists. split; [done|]. rsimpl. split; [|done]. constructor; rsimpl; try done.
    + constructor; rsimpl; rewrite ?length_insert; try done; [by rewrite Hs'|lia].
    + rewrite Hl', Hs, Hring. apply lastn_snoc.
  - eexists. split; [done|]. rsimpl. split; [|done]. constructor; rsimpl; try done.
    + constructor; rsimpl; rewrite ?length_insert; try done. lia.
    + rewrite length_app. cbn [length]. lia.
    + rewrite Hsum, sum_snoc. word_lia.
Qed.

Lemma noise_run_tracks es : forall c xs cur, tracks_noise c xs cur -> Forall is_i8 (samples es) ->
  exists c', noise_run c es = Some c' /\
    tracks_noise c' (xs ++ averages (short_n c) cur (samples es)) (block (short_n c) cur (samples es)) /\
    long_n c' = long_n c /\ floor_pct c' = floor_pct c /\
    (Forall (fun e => e <> Floor) es -> tmp_sort c' = tmp_sort c).
Proof.
  unfold noise_run. induction es as [|e es IH]; intros c xs cur Ht Hes; cbn [foldl samples omap list_omap averages block].
  { exists c. by rewrite app_nil_r. }
  cbn [mbind option_bind]. destruct e as [v|]; cbn [noise_step] in *.
  - cbn in Hes. apply Forall_cons in Hes as [Hv Hes].
    destruct (lbt_sample_tracks c xs cur v Ht Hv) as (c1 & -> & Hc1 & Hn & Hl & Hp & Htmp).
    cbn [averages block]. fold (samples es). cbv zeta.
    destruct (short_n c <=? Z.of_nat (length (cur ++ [v]))).
    + destruct (IH c1 _ _ Hc1 Hes) as (c' & E & Ht' & Hl' & Hp' & Htmp'). exists c'.
      rewrite Hn, <-app_assoc in Ht'. split; [done|]. split; [done|]. rewrite Hl', Hp'. split; [done|]. split; [done|].
      intros [_ Hf]%Forall_cons. by rewrite Htmp'.
    + destruct (IH c1 _ _ Hc1 Hes) as (c' & E & Ht' & Hl' & Hp' & Htmp'). exists c'.
      rewrite Hn in Ht'. split; [done|]. split; [done|]. rewrite Hl', Hp'. split; [done|]. split; [done|].
      intros [_ Hf]%Forall_cons. by rewrite Htmp'.
  - pose proof (tn_ok _ _ _ Ht) as Hok.
    destruct (noise_pxx_spec c Hok) as (stale & r & tmp & _ & -> & Hlen & _). cbn [fmap option_fmap option_map snd].
    assert (Ht1 : tracks_noise (c <| tmp_sort := tmp |>) xs cur).
    { destruct Ht as [[] ]. constructor; rsimpl; try done. constructor; rsimpl; try done. by rewrite Hlen. }
    destruct (IH _ _ _ Ht1 Hes) as (c' & E & Ht' & Hl' & Hp' & _). exists c'. split; [done|].
    split; [done|]. split; [done|]. split; [done|]. intros [Hf _]%Forall_cons. done.
Qed.

Definition lbt_config_typed (c : lbt_config) : Prop :=
  is_u8 (lbt_enabled c) /\ is_u16 (noise_short_window_samples c) /\ is_u16 (noise_long_window_samples c) /\
  is_u8 (noise_long_low_percent c) /\ is_i8 (noise_relative_offset_dbm c) /\ is_i8 (noise_absolute_busy_dbm c) /\
  is_u16 (tx_skip_check_time_us c) /\ is_u16 (tx_max_continuous_time_ms c) /\ is_u16 (backoff_random_min_us c) /\
  is_u16 (backoff_random_max_us c) /\ is_u8 (util_enabled c) /\ is_u8 (util_max_percent c) /\
  is_u32 (util_refill_window_ms c) /\ is_u16 (util_bucket_capacity_ms c).

Definition window_len (v : Z) : Z := if v =? 0 then 1 else v.

Lemma alloc_tracks c shorts longs tmp :
  lbt_config_typed c -> Z.of_nat (length shorts) = window_len (noise_short_window_samples c) ->
  Z.of_nat (length longs) = window_len (noise_long_window_samples c) -> length tmp = length longs ->
  exists ctx, halow_lbt_ctx_alloc c (Some (shorts, longs, tmp)) = Some ctx /\ tracks_noise ctx [] [] /\
    short_n ctx = window_len (noise_short_window_samples c) /\ long_n ctx = window_len (noise_long_window_samples c) /\
    floor_pct ctx = Z.min 100 (noise_long_low_percent c) /\ tmp_sort ctx = tmp.
Proof.
  intros (_ & Hs & Hl & Hp & _) Hsh Hlo Htmp. eexists. split; [reflexivity|].
  fold (window_len (noise_short_window_samples c)). fold (window_len (noise_long_window_samples c)).
  assert (Hw : forall v, is_u16 v -> 1 <= window_len v < 2 ^ 16) by (intros v Hv; unfold window_len; z_case; word_lia).
  pose proof (Hw _ Hs). pose proof (Hw _ Hl).
  split; [|cbn [short_n long_n floor_pct tmp_sort]; repeat split; z_case; lia].
  constructor; cbn [long_rb short_i short_sum]; try done.
  constructor; cbn [long_rb long_n tmp_sort floor_pct short_samples short_n short_i lwrb_init]; unfold ring_ok, rb_size;
    cbn [rb_r rb_w rb_buff lwrb_init]; repeat match goal with |- context [if ?v =? 0 then 1 else ?v] => fold (window_len v) end;
    try lia.
  z_case; word_lia.
Qed.

(** C17: the noise floor.  Whatever is sampled and whenever the floor was read
    before, no buffer access leaves its array and the floor read now is the
    nearest-rank percentile of the last [long - 1] short averages together
    with one more byte that is no measurement: [long_ring_valid] adds one to
    the ring's fill, so the scratch array's next byte takes part, which is
    uninitialised memory until the floor is first read.  In particular a floor
    read before the first short average is that byte, not the short average. *)
Theorem noise_floor_percentile (c : lbt_config) (shorts longs tmp : list Z) (es : list noise_event) :
  lbt_config_typed c -> Z.of_nat (length shorts) = window_len (noise_short_window_samples c) ->
  Z.of_nat (length longs) = window_len (noise_long_window_samples c) -> length tmp = length longs ->
  Forall is_i8 (samples es) ->
  exists ctx0 ctx ctx' floor extra,
    halow_lbt_ctx_alloc c (Some (shorts, longs, tmp)) = Some ctx0 /\
    noise_run ctx0 es = Some ctx /\ noise_pxx_from_rb ctx = Some (floor, ctx') /\
    let averages := lastn (length longs - 1) (averages (window_len (noise_short_window_samples c)) [] (samples es)) in
    nearest_rank (Z.min 100 (noise_long_low_percent c)) (averages ++ [extra]) floor /\
    tmp_sort ctx !! length averages = Some extra /\
    (Forall (fun e => e <> Floor) es -> tmp !! length averages = Some extra /\ (averages = [] -> floor = extra)).
Proof.
  intros Hc Hs Hl Ht Hes. destruct (alloc_tracks c shorts longs tmp Hc Hs Hl Ht) as (ctx0 & E0 & Ht0 & Hn & Hln & Hp & Htmp).
  destruct (noise_run_tracks es ctx0 [] [] Ht0 Hes) as (ctx & E & Htr & Hln' & Hp' & Htmp').
  destruct (noise_pxx_spec ctx (tn_ok _ _ _ Htr)) as (extra & r & tmp' & Hex & Er & _ & Hnr).
  rewrite (tn_ring _ _ _ Htr), Hln', Hln, Hn in Hex, Hnr. rewrite Hp', Hp in Hnr. cbn [app] in Hex, Hnr.
  replace (Z.to_nat (window_len (noise_long_window_samples c) - 1)) with (length longs - 1)%nat in Hex, Hnr by lia.
  exists ctx0, ctx, (ctx <| tmp_sort := tmp' |>), r, extra. split; [done|]. split; [done|]. split; [done|].
  cbv zeta. split; [done|]. split; [done|]. intros Hf. rewrite (Htmp' Hf), Htmp in Hex. split; [done|].
  intros Ha. rewrite Ha in Hnr. destruct Hnr as (Hin & _). by apply list_elem_of_singleton in Hin.
Qed.

(** ** Airtime over a history of transmissions *)

Inductive tx_event :=
  | Activate (t1 t2 : Z)
  | Deactivate (t : Z)
  | Done (ms : Z)
  | Task (noise_dbm current_ms now_us later_us : Z).

(** The state after an event, and the airtime charged by it. *)
Definition tx_step (s : lbt) (e : tx_event) : option (option Z * lbt) :=
  match e with
  | Activate t1 t2 => Some (None, halow_lbt_set_tx_as_active true t1 t2 s)
  | Deactivate t => Some (None, halow_lbt_set_tx_as_deactive true t s)
  | Done ms => Some (None, halow_lbt_tx_done_notify ms s)
  | Task v ms now later => '(r, s) ← halow_lbt_task_body v ms now later s; Some (r.1, s)
  end.

Fixpoint tx_run (s : lbt) (es : list tx_event) : option (list Z * lbt) :=
  match es with
  | [] => Some ([], s)
  | e :: es =>
      '(o, s) ← tx_step s e;
      '(l, s) ← tx_run s es;
      Some (match o with Some a => a :: l | None => l end, s)
  end.

(** When the transmitter was really active: since when, and for how long before. *)
Definition truth_step (tr : option Z * Z) (e : tx_event) : option Z * Z :=
  match e, tr with
  | Activate t _, (None, n) => (Some t, n)
  | Deactivate t, (Some s, n) => (None, n + (t - s))
  | _, _ => tr
  end.
Definition active_until (tr : option Z * Z) (T : Z) : Z :=
  match tr with (Some s, n) => n + (T - s) | (None, n) => n end.

Definition event_time (T : Z) (e : tx_event) : Z :=
  match e with Activate t _ => t | Deactivate t => t | Done _ => T | Task _ _ now _ => now end.

Definition tx_active (s : lbt) : bool := match g_lbt_ctx s with Some c => airtime_tx_active c | None => false end.

(** Time does not run backwards, the task closes a window at least every 35
    minutes, noise samples are bytes, and no run of the task finds the
    completion heartbeat of an active transmitter stale. *)
Fixpoint regular (T base : Z) (s : lbt) (es : list tx_event) : Prop :=
  match es with
  | [] => True
  | e :: es =>
      let T' := event_time T e in
      T <= T' /\ T' - base < 2 ^ 31 /\
      match e with
      | Task v ms _ _ => is_i8 v /\
          (tx_active s = false \/ g_lbt_tx_done_ms s = 0 \/ u32 (u32 ms - g_lbt_tx_done_ms s) <= 2 * AIRTIME_UPDATE_PERIOD_MS)
      | _ => True
      end /\
      match tx_step s e with
      | Some (Some _, s) => regular T' T' s es
      | Some (None, s) => regular T' base s es
      | None => True
      end
  end.

Fixpoint last_time (T : Z) (es : list tx_event) : Z :=
  match es with [] => T | e :: es => last_time (event_time T e) es end.

(** Transmission time not yet charged at [T]. *)
Definition uncharged (c : lbt_ctx) (T : Z) : Z :=
  airtime_pending_us c + (if airtime_tx_active c then T - airtime_time_last_tx_started c else 0).

Record accounts (c : lbt_ctx) (T base : Z) (tr : option Z * Z) (charged : Z) : Prop := {
  ac_active : airtime_tx_active c = bool_decide (tr.1 <> None);
  ac_start : airtime_tx_active c = true -> 0 < airtime_time_last_tx_started c <= T;
  ac_sum : charged + uncharged c T = active_until tr T;
  ac_pending : 0 <= airtime_pending_us c;
  ac_base : uncharged c T <= T - base;
  ac_cycle : time_last_cycle_update_us c <= base <= T;
  ac_rb : length (airtime_rb c) = 10%nat /\ 0 <= airtime_rb_idx c < 10;
}.

Lemma accounts_later c T T' base tr n : accounts c T base tr n -> T <= T' -> accounts c T' base tr n.
Proof.
  intros [H1 H2 H3 H4 H5 H6 H7] HT. unfold uncharged, active_until in *.
  constructor; unfold uncharged, active_until; try done; try lia.
  - intros Ha. specialize (H2 Ha). lia.
  - destruct tr as [[s|] k], (airtime_tx_active c); cbn in *; try done; lia.
  - destruct (airtime_tx_active c); lia.
Qed.

Lemma accounts_activate c T base tr n t2 : accounts c T base tr n -> 0 < T ->
  accounts ((if negb (airtime_tx_active c)
             then c <| airtime_tx_active := true |> <| airtime_time_last_tx_started := T |> else c)
            <| last_activity_us := t2 |>) T base (truth_step tr (Activate T t2)) n.
Proof.
  intros [H1 H2 H3 H4 H5 H6 H7] HT. unfold uncharged, active_until in *.
  destruct tr as [[s|] k]; cbn in H1; rewrite H1 in *; cbn [negb truth_step fst] in *;
    constructor; unfold uncharged, active_until; rsimpl; cbn [fst]; rewrite ?H1; try done; try lia.
Qed.

Lemma accounts_deactivate c T base tr n : accounts c T base tr n -> T - base < 2 ^ 31 ->
  airtime_tx_active c = true ->
  let start := airtime_time_last_tx_started c in
  let c1 := if 0 <? T - start
            then c <| airtime_pending_us := i32 (if INT32_MAX <? airtime_pending_us c + (T - start) then INT32_MAX
                                                 else airtime_pending_us c + (T - start)) |> else c in
  start <> 0 /\
  accounts (c1 <| airtime_time_last_tx_started := 0 |> <| airtime_tx_active := false |>) T base
    (truth_step tr (Deactivate T)) n.
Proof.
  intros [H1 H2 H3 H4 H5 H6 H7] Hb Ha. cbv zeta. specialize (H2 Ha). split; [lia|].
  unfold uncharged, active_until, INT32_MAX in *. rewrite Ha in *.
  destruct tr as [[s|] k]; [|done]. cbn [truth_step fst] in *.
  rewrite (proj2 (Z.ltb_ge 2147483647 _)) by lia.
  replace (i32 (airtime_pending_us c + (T - airtime_time_last_tx_started c)))
    with (airtime_pending_us c + (T - airtime_time_last_tx_started c)) by word_lia.
  destruct (Z.ltb_spec 0 (T - airtime_time_last_tx_started c));
    constructor; unfold uncharged; rsimpl; cbn [fst active_until]; try done; lia.
Qed.

Lemma cycle_airtime_fresh c T base tr n done : accounts c T base tr n -> T - base < 2 ^ 31 ->
  exists c', cycle_airtime false done T c = (uncharged c T, c') /\ 0 <= uncharged c T < 2 ^ 31 /\
    c' = c <| airtime_time_last_tx_started := airtime_time_last_tx_started c' |> /\
    (airtime_tx_active c = true -> airtime_time_last_tx_started c' = T).
Proof.
  intros [H1 H2 H3 H4 H5 H6 H7] Hb. unfold cycle_airtime, uncharged in *. cbv zeta.
  destruct (airtime_tx_active c) eqn:Ha; cbn [andb negb].
  - specialize (H2 eq_refl). eexists. split; [f_equal; word_lia|]. split; [lia|]. rsimpl. by destruct c.
  - eexists. split; [f_equal; lia|]. split; [lia|]. rsimpl. by destruct c.
Qed.

Lemma accounts_window c T base tr n done ms :
  accounts c T base tr n -> 0 < T -> T - base < 2 ^ 31 ->
  (airtime_tx_active c = false \/ done = 0 \/ u32 (u32 ms - done) <= 2 * AIRTIME_UPDATE_PERIOD_MS) ->
  exists cyc c', airtime_window done ms T c = Some (uncharged c T, cyc, c') /\
    accounts c' T T tr (n + uncharged c T) /\
    0 <= uncharged c T < 2 ^ 31 /\
    (forall xs cur, tracks_noise c xs cur -> tracks_noise c' xs cur).
Proof.
  intros Hac HT Hb Hf.
  assert (Hns : airtime_tx_active c && negb (done =? 0) &&
    (2 * AIRTIME_UPDATE_PERIOD_MS <? u32 (u32 ms - done)) = false).
  { destruct Hf as [->|[->|Hf]]; [done|by rewrite andb_false_r|]. rewrite (proj2 (Z.ltb_ge _ _)) by done. by rewrite andb_false_r. }
  destruct (cycle_airtime_fresh _ _ _ _ _ done Hac Hb) as (c1 & E & Hu & Hc1 & Hs1).
  destruct Hac as [H1 H2 H3 H4 H5 H6 [H7 H8]].
  unfold airtime_window. cbv zeta. rewrite Hns, E.
  set (cyc := if T - time_last_cycle_update_us c <=? 0 then 1 else T - time_last_cycle_update_us c).
  rewrite (proj2 (Z.ltb_ge cyc _)) by (unfold cyc; z_case; lia). clearbody cyc. clear E.
  set (start := airtime_time_last_tx_started c1) in *. clearbody start. subst c1. rsimpl.
  rewrite wr_in_bounds by lia. cbn [mbind option_bind]. eexists _, _. split; [reflexivity|].
  split; [|split; [done|]].
  - constructor; unfold uncharged; rsimpl; try done; try lia.
    + intros Ha. rewrite Hs1 by done. lia.
    + unfold uncharged in H3. rewrite <-H3. destruct (airtime_tx_active c) eqn:Ha; [rewrite Hs1 by done|]; lia.
    + destruct (airtime_tx_active c) eqn:Ha; [rewrite Hs1 by done|]; lia.
    + rewrite length_insert. split; [done|]. unfold AIRTIME_BUF. z_case; word_lia.
  - intros xs cur [[O1 O2 O3 O4 O5 O6] T1 T2 T3 T4]. by constructor; rsimpl.
Qed.

Record lbt_inv (s : lbt) (T base : Z) (tr : option Z * Z) (charges : list Z) : Prop := {
  li_hdl : mutex_hdl s = true;
  li_time : 0 < T;
  li_ctx : exists c xs cur, g_lbt_ctx s = Some c /\ accounts c T base tr (sum charges) /\ tracks_noise c xs cur;
  li_meter : exists m, meter_rel (chload s) m /\ map tx_us (closed m) = reverse charges /\
    map rx_us (closed m) = replicate (length charges) 0 /\ open_tx m = 0 /\ open_rx m = 0;
  li_charges : Forall (fun a => 0 <= a < 2 ^ 31) charges;
}.

(** The channel-load meter takes one charge and closes its window. *)
Lemma meter_charge l m a charges : meter_rel l m -> 0 <= a < 2 ^ 31 ->
  map tx_us (closed m) = reverse charges -> map rx_us (closed m) = replicate (length charges) 0 ->
  open_tx m = 0 -> open_rx m = 0 ->
  exists l' m', halow_chload_cycle (halow_chload_note_tx_us (u32 a) l) = Some l' /\ meter_rel l' m' /\
    map tx_us (closed m') = reverse (charges ++ [a]) /\
    map rx_us (closed m') = replicate (length (charges ++ [a])) 0 /\ open_tx m' = 0 /\ open_rx m' = 0.
Proof.
  intros Hr Ha Ht Hx H0 H0'.
  destruct (meter_rel_step l m (NoteTx (u32 a)) Hr) as (l1 & [= <-] & Hr1); [exact (u32_range a)|].
  destruct (meter_rel_step _ _ Cycle Hr1 I) as (l2 & E2 & Hr2).
  exists l2, (meter_step (meter_step m (NoteTx (u32 a))) Cycle). split; [exact E2|]. split; [done|].
  cbn [meter_step closed map tx_us rx_us open_tx open_rx]. rewrite H0, H0', Ht, Hx, reverse_snoc, length_app, Nat.add_1_r.
  split; [|done]. f_equal. unfold sat32. word_lia.
Qed.

Lemma lbt_sample_accounts v c c' T base tr n :
  lbt_sample v c = Some c' -> accounts c T base tr n -> accounts c' T base tr n.
Proof.
  unfold lbt_sample. intros E. apply bind_Some in E as (ss & _ & E). cbv zeta in E.
  intros [A1 A2 A3 A4 A5 A6 A7]. unfold uncharged in *.
  revert E. match goal with |- (if ?b then _ else _) = _ -> _ => destruct b end; intros E; [apply bind_Some in E as (rb & _ & E)|]; apply (inj Some) in E; rewrite <-E; clear E;
    constructor; unfold uncharged; rsimpl; assumption.
Qed.

Lemma task_body_spec s T base tr charges v ms now later :
  lbt_inv s T base tr charges -> T <= now -> now - base < 2 ^ 31 -> is_i8 v ->
  (tx_active s = false \/ g_lbt_tx_done_ms s = 0 \/ u32 (u32 ms - g_lbt_tx_done_ms s) <= 2 * AIRTIME_UPDATE_PERIOD_MS) ->
  exists o z s', halow_lbt_task_body v ms now later s = Some ((o, z), s') /\
    match o with
    | Some a => lbt_inv s' now now tr (charges ++ [a])
    | None => lbt_inv s' now base tr charges
    end.
Proof.
  intros [Hh HT (c & xs & cur & Hc & Hac & Htr) (m & Hr & Htx & Hrx & H0 & H0') Hch] Hle Hb Hv Hf.
  destruct (lbt_sample_tracks c xs cur v Htr Hv) as (c1 & E1 & Ht1 & _).
  assert (Ht1' : exists xs cur, tracks_noise c1 xs cur) by (case_match; eauto). clear Ht1. destruct Ht1' as (xs1 & cur1 & Ht1).
  assert (Hac1 : accounts c1 now base tr (sum charges)).
  { apply (accounts_later _ T); [|done]. by eapply lbt_sample_accounts. }
  unfold halow_lbt_task_body, mbind, M_bind, gets. rewrite Hc. unfold lift. rewrite E1. cbn [fst snd].
  destruct (AIRTIME_UPDATE_PERIOD_MS <=? ms - airtime_cycle_timestamp s).
  - assert (Hf1 : airtime_tx_active c1 = false \/ g_lbt_tx_done_ms s = 0 \/ u32 (u32 ms - g_lbt_tx_done_ms s) <= 2 * AIRTIME_UPDATE_PERIOD_MS).
    { unfold tx_active in Hf. rewrite Hc in Hf. by rewrite (ac_active _ _ _ _ _ Hac1), <-(ac_active _ _ _ _ _ Hac). }
    destruct (accounts_window c1 now base tr _ (g_lbt_tx_done_ms s) ms Hac1) as (cyc & c2 & E2 & Hac2 & Hu & Hk); [lia|done|done|].
    unfold modify. rsimpl. rewrite E2.
    destruct (meter_charge _ _ _ _ Hr Hu Htx Hrx H0 H0') as (l' & m' & E3 & Hm').
    rsimpl. rewrite E3. eexists (Some _), _, _. split; [reflexivity|]. constructor; rsimpl; try done; [lia| |by exists m'|].
    + exists c2, xs1, cur1. split; [done|]. split; [|by apply Hk]. by rewrite sum_snoc.
    + apply Forall_app. split; [done|]. by constructor.
  - unfold modify. eexists None, _, _. split; [reflexivity|]. constructor; rsimpl; try done; [lia| |by exists m].
    exists c1, xs1, cur1. done.
Qed.

Lemma tx_step_spec s T base tr charges e es :
  lbt_inv s T base tr charges -> regular T base s (e :: es) ->
  exists o s', tx_step s e = Some (o, s') /\
    let T' := event_time T e in
    let base' := match o with Some _ => T' | None => base end in
    lbt_inv s' T' base' (truth_step tr e) (charges ++ option_list o) /\ regular T' base' s' es.
Proof.
  intros Hi (HT & Hb & He & Hreg). pose proof Hi as [Hh HT0 (c & xs & cur & Hc & Hac & Htr) Hm Hch].
  destruct e as [t1 t2|t|d|v ms now later]; cbn [tx_step event_time] in *.
  - eexists None, _. split; [done|]. cbv zeta. cbn [option_list]. rewrite app_nil_r. split; [|done].
    unfold halow_lbt_set_tx_as_active, on_ctx. rewrite Hh. cbn [negb orb].
    constructor; rsimpl; try done; [lia|]. rewrite Hc. cbn [fmap option_fmap option_map]. eexists _, xs, cur.
    split; [reflexivity|]. split; [apply accounts_activate; [by apply (accounts_later _ T)|lia]|].
    destruct Htr as [[O1 O2 O3 O4 O5 O6] K1 K2 K3 K4].
    destruct (negb (airtime_tx_active c)); constructor; rsimpl; try done; constructor; rsimpl; done.
  - eexists None, _. split; [done|]. cbv zeta. cbn [option_list]. rewrite app_nil_r. split; [|done].
    unfold halow_lbt_set_tx_as_deactive, on_ctx. rewrite Hh. cbn [negb orb].
    constructor; rsimpl; try done; [lia|]. rewrite Hc. cbn [fmap option_fmap option_map]. eexists _, xs, cur.
    split; [reflexivity|]. apply (accounts_later _ T t) in Hac; [|done].
    destruct (airtime_tx_active c) eqn:Ha.
    + destruct (accounts_deactivate c t base tr (sum charges) Hac) as (Hst & Hac'); [lia|done|].
      rewrite (proj2 (Z.eqb_neq _ 0) Hst). cbv zeta. split; [exact Hac'|].
      destruct Htr as [[O1 O2 O3 O4 O5 O6] K1 K2 K3 K4].
      case_match; constructor; rsimpl; try done; constructor; rsimpl; done.
    + split; [|done]. pose proof (ac_active _ _ _ _ _ Hac) as Hact. rewrite Ha in Hact.
      destruct tr as [[t0|] k]; done.
  - eexists None, _. split; [done|]. cbv zeta. cbn [option_list]. rewrite app_nil_r. split; [|done].
    unfold halow_lbt_tx_done_notify. constructor; rsimpl; try done. by exists c, xs, cur.
  - destruct He as [Hv Hf].
    destruct (task_body_spec s T base tr charges v ms now later Hi HT Hb Hv Hf) as (o & z & s' & E & Ho).
    rewrite E in *. cbn [mbind option_bind fst] in *. exists o, s'. split; [done|]. cbv zeta.
    destruct o as [a|]; cbn [option_list]; [|rewrite app_nil_r]; destruct tr as [[|] ?]; done.
Qed.

Lemma tx_run_spec es : forall s T base tr charges,
  lbt_inv s T base tr charges -> regular T base s es ->
  exists l s' base', tx_run s es = Some (l, s') /\
    lbt_inv s' (last_time T es) base' (foldl truth_step tr es) (charges ++ l).
Proof.
  induction es as [|e es IH]; intros s T base tr charges Hi Hreg; cbn [tx_run last_time foldl].
  { exists [], s, base. by rewrite app_nil_r. }
  destruct (tx_step_spec s T base tr charges e es Hi Hreg) as (o & s1 & E & Hi1 & Hreg1).
  rewrite E. cbn [mbind option_bind]. cbv zeta in *.
  destruct (IH _ _ _ _ _ Hi1 Hreg1) as (l & s2 & base2 & E2 & Hi2). rewrite E2. cbn [mbind option_bind].
  eexists _, s2, base2. split; [done|]. rewrite <-app_assoc in Hi2. by destruct o.
Qed.

Definition lbt_reset : lbt := mk_lbt true None 0 0 halow_chload_reset.

(** C16: airtime is charged exactly once while the transmitter's heartbeat
    lives.  From set-up on, for every order of transmissions starting and
    ending, completion heartbeats and runs of the sampling task in which the
    mutex is obtained in time, windows are closed at least every 35 minutes,
    and the task finds the last completion no older than 200 ms whenever the
    transmitter is active (past that the code ends the charge at the last
    completion, which [ex_stale_undercharged] shows): nothing faults, what was
    charged so far plus what is still uncharged is exactly the time the
    transmitter has been active, and the displayed channel load of a node that received nothing is
    the last ten charges in percent of a second. *)
Theorem airtime_exact (c : lbt_config) (shorts longs tmp : list Z) (T0 : Z) (es : list tx_event) :
  lbt_config_typed c -> Z.of_nat (length shorts) = window_len (noise_short_window_samples c) ->
  Z.of_nat (length longs) = window_len (noise_long_window_samples c) -> length tmp = length longs ->
  let s0 := halow_lbt_config_apply c (Some (shorts, longs, tmp)) true lbt_reset in
  let T := last_time T0 es in
  0 < T0 -> regular T0 T0 s0 es ->
  exists charges s ctx, tx_run s0 es = Some (charges, s) /\ g_lbt_ctx s = Some ctx /\
    Forall (fun a => 0 <= a) charges /\ 0 <= uncharged ctx T /\
    sum charges + uncharged ctx T = active_until (foldl truth_step (None, 0) es) T /\
    halow_chload_percent (chload s) = Z.min 100 ((sum (lastn 10 charges) * 100 + 500000) / 1000000).
Proof.
  cbv zeta. intros Hc Hs Hl Ht HT0 Hreg.
  destruct (alloc_tracks c shorts longs tmp Hc Hs Hl Ht) as (ctx0 & E0 & Ht0 & _).
  unfold halow_lbt_config_apply in *. rewrite E0 in *.
  assert (Hac : accounts ctx0 T0 T0 (None, 0) 0).
  { unfold halow_lbt_ctx_alloc in E0. cbn [mbind option_bind] in E0. apply (inj Some) in E0. rewrite <-E0.
    constructor; unfold uncharged; cbn [airtime_tx_active airtime_time_last_tx_started airtime_pending_us
      time_last_cycle_update_us airtime_rb airtime_rb_idx fst active_until sum foldr length replicate]; try done; lia. }
  assert (Hi : lbt_inv (lbt_reset <| g_lbt_ctx := Some ctx0 |>) T0 T0 (None, 0) []).
  { constructor; rsimpl; try done; [by exists ctx0, [], []|]. by exists (mk_meter [] 0 0). }
  destruct (tx_run_spec es _ _ _ _ _ Hi Hreg) as (charges & s & base & E & Hi').
  destruct Hi' as [_ _ (ctx & xs & cur & Hctx & Hac' & _) (m & Hr & Htx & Hrx & _) Hch]. cbn [app] in *.
  exists charges, s, ctx. split; [done|]. split; [done|]. split; [|split; [|split]].
  - eapply Forall_impl; [exact Hch|]. cbv beta. lia.
  - destruct Hac' as [A1 A2 _ A4 _ _ _]. unfold uncharged. destruct (airtime_tx_active ctx); [specialize (A2 eq_refl)|]; lia.
  - exact (ac_sum _ _ _ _ _ Hac').
  - rewrite (percent_refines _ _ Hr). unfold meter_percent. cbv zeta.
    rewrite <-!firstn_map, Htx, Hrx, take_replicate.
    assert (H0 : forall k, Chload.total (replicate k 0) = 0) by (intros k; unfold Chload.total; induction k; cbn in *; lia).
    rewrite H0. rewrite take_reverse. fold (lastn 10 charges).
    rewrite (total_perm _ (lastn 10 charges)) by apply reverse_Permutation. fold (sum (lastn 10 charges)).
    rewrite Z.max_l; [done|]. assert (Hnn : Forall (fun a => 0 <= a) (lastn 10 charges)).
    { unfold lastn. apply Forall_drop. eapply Forall_impl; [exact Hch|]. cbv beta. lia. }
    clear -Hnn. induction Hnn; unfold Chload.total in *; cbn [foldr]; lia.
Qed.

(** ** Witnesses *)

Definition ex_cfg : lbt_config :=
  halow_lbt_config_set_default <| noise_short_window_samples := 2 |> <| noise_long_window_samples := 4 |>.

Lemma ex_cfg_typed : lbt_config_typed ex_cfg.
Proof. vm_compute. repeat split; discriminate. Qed.

Lemma noise_floor_percentile_witness :
  let es := [Sample (-90); Sample (-92); Floor; Sample (-80); Sample (-84); Sample (-100)] in
  exists ctx0 ctx ctx' floor extra,
    halow_lbt_ctx_alloc ex_cfg (Some ([0; 0], [0; 0; 0; 0], [17; 17; 17; 17])) = Some ctx0 /\
    noise_run ctx0 es = Some ctx /\ noise_pxx_from_rb ctx = Some (floor, ctx') /\
    let averages := lastn 3 (averages 2 [] (samples es)) in
    nearest_rank 20 (averages ++ [extra]) floor /\ tmp_sort ctx !! length averages = Some extra /\
    (Forall (fun e => e <> Floor) es -> [17; 17; 17; 17] !! length averages = Some extra /\ (averages = [] -> floor = extra)).
Proof.
  apply (noise_floor_percentile ex_cfg [0; 0] [0; 0; 0; 0] [17; 17; 17; 17]
    [Sample (-90); Sample (-92); Floor; Sample (-80); Sample (-84); Sample (-100)]);
    [exact ex_cfg_typed|reflexivity|reflexivity|reflexivity|].
  repeat (constructor; [unfold is_i8; lia|]). constructor.
Defined.

(** Before the first short average the reported floor is a byte of heap. *)
Example floor_of_empty_ring :
  fst <$> (ctx ← halow_lbt_ctx_alloc ex_cfg (Some ([0; 0], [0; 0; 0; 0], [17; 18; 19; 20])); noise_pxx_from_rb ctx) = Some 17.
Proof. vm_compute. reflexivity. Qed.

(** Two transmissions, the second still running when the last window closes. *)
Definition ex_tx : list tx_event :=
  [Activate 1000 1001; Done 30; Deactivate 31000; Task (-90) 120 120000 120001;
   Activate 150000 150001; Task (-91) 230 230000 230001; Done 231].

Lemma airtime_exact_witness :
  exists charges s ctx,
    tx_run (halow_lbt_config_apply ex_cfg (Some ([0; 0], [0; 0; 0; 0], [1; 1; 1; 1])) true lbt_reset) ex_tx
      = Some (charges, s) /\ g_lbt_ctx s = Some ctx /\
    Forall (fun a => 0 <= a) charges /\ 0 <= uncharged ctx 230000 /\
    sum charges + uncharged ctx 230000 = active_until (foldl truth_step (None, 0) ex_tx) 230000 /\
    halow_chload_percent (chload s) = Z.min 100 ((sum (lastn 10 charges) * 100 + 500000) / 1000000).
Proof.
  apply (airtime_exact ex_cfg [0; 0] [0; 0; 0; 0] [1; 1; 1; 1] 500 ex_tx);
    [exact ex_cfg_typed|reflexivity|reflexivity|reflexivity|lia|].
  vm_compute. repeat split; try discriminate; try (by left); try (right; right; discriminate).
Defined.

(** A transmission of 400 ms without a completion after 30 ms: the window at
    300 ms charges up to the heartbeat, and the end is not charged at all. *)
Example ex_stale_undercharged :
  fst <$> tx_run (halow_lbt_config_apply ex_cfg (Some ([0; 0], [0; 0; 0; 0], [1; 1; 1; 1])) true lbt_reset)
    [Activate 1000 1001; Done 30; Task (-90) 300 300000 300001; Deactivate 401000; Task (-90) 410 410000 410001] = Some [29000; 0].
Proof. vm_compute. reflexivity. Qed.

Example ex_tx_charges :
  fst <$> tx_run (halow_lbt_config_apply ex_cfg (Some ([0; 0], [0; 0; 0; 0], [1; 1; 1; 1])) true lbt_reset) ex_tx
  = Some [30000; 80000].
Proof. vm_compute. reflexivity. Qed.
