(* ===== verification/GainPilot.v ===== *)
(** * Receive-gain pilot: [src/halow_gain_pilot.c]

    A state machine that moves the receive gain between 5 and 4 once per
    two-second window, from the share of received energy that is debris
    (frames no classifier accepted).  The LMAC's gain register is a parameter
    ([GainReg]); [halow_ack_link_busy] is an input of each tick. *)

From S2P Require Import Prelude.

Definition GP_WINDOW_S : Z := 2.
Definition GP_DEBRIS_THRESH : Z := 15.
Definition GP_PROD_KEEP_PCT : Z := 70.
Definition GP_PROBE_EVERY_S : Z := 45.
Definition GP_PROBE_MAX_PROD : Z := 2.
Definition GP_STABLE4_EXIT_PCT : Z := 30.
Definition GP_STABLE4_EXIT_WIN : Z := 10.
Definition GP_DEBRIS_EMERGENCY_WIN : Z := 2.

Inductive gp_state := GP_MANUAL | GP_G5 | GP_TRIAL4 | GP_STABLE4 | GP_PROBE5.
#[export] Instance gp_state_dec : EqDecision gp_state.
Proof. solve_decision. Defined.

(** [rx_gain_cfg_bits] and [lmac_rx_gain_cfg] of the LMAC. *)
Class GainReg (L : Type) := {
  rx_gain_cfg_bits : L -> Z;
  lmac_rx_gain_cfg : Z -> L -> L;
}.

Section GainPilot.
Context {L : Type} `{GainReg L}.

Record pilot := mk_pilot {
  g_gp_state : gp_state;
  g_gp_enabled : bool;
  g_gp_debris_x : Z;
  g_gp_prod_x : Z;
  g_gp_prod_base_x : Z;
  gp_window_cnt : Z;
  gp_stable4_s : Z;
  gp_debris_strikes : Z;
  gp_starve_windows : Z;
  last_rx_good : Z;                  (* statics of the tick *)
  last_cls : Z;
  hot_windows : Z;
  ah_lmac : L;
}.
#[export] Instance eta_pilot : Eta pilot := fun s =>
  mk_pilot (g_gp_state s) (g_gp_enabled s) (g_gp_debris_x s) (g_gp_prod_x s) (g_gp_prod_base_x s)
    (gp_window_cnt s) (gp_stable4_s s) (gp_debris_strikes s) (gp_starve_windows s) (last_rx_good s)
    (last_cls s) (hot_windows s) (ah_lmac s).

Definition gain_of (l : L) : Z := u8 (Z.shiftr (Z.land (rx_gain_cfg_bits l) 0x7FF) 4).
Definition gp_cur_gain (s : pilot) : Z := gain_of (ah_lmac s).

Definition gp_set_gain (g : Z) (s : pilot) : pilot :=
  if negb (gp_cur_gain s =? g) then s <| ah_lmac ::= lmac_rx_gain_cfg g |> else s.

Definition halow_gain_pilot_set (enable : bool) (s : pilot) : pilot :=
  let s := s <| g_gp_enabled := enable |> in
  if negb enable then s <| g_gp_state := GP_MANUAL |>
  else if decide (g_gp_state s = GP_MANUAL) then s <| g_gp_state := GP_G5 |> <| gp_debris_strikes := 0 |>
  else s.

(** What one call of the tick reads: the automatic-gain flag, the receive
    counters, and the two answers of [halow_ack_link_busy]. *)
Record tick_in := mk_tick { agc_on : bool; rx_good : Z; cls : Z; busy1 : bool; busy2 : bool }.

(** [case GP_G5] *)
Definition tick_g5 (debris prod : Z) (s : pilot) : pilot :=
  let s := if negb (gp_cur_gain s =? 5) then gp_set_gain 5 s else s in
  if GP_DEBRIS_THRESH <? debris then
    let s := s <| gp_debris_strikes ::= fun n => u8 (n + 1) |> in
    if 2 <=? gp_debris_strikes s
    then gp_set_gain 4 (s <| gp_debris_strikes := 0 |> <| g_gp_state := GP_TRIAL4 |>)
    else s
  else
    let s := s <| gp_debris_strikes := 0 |> in
    if g_gp_prod_base_x s <? prod then s <| g_gp_prod_base_x := prod |> else s.

(** [case GP_TRIAL4] *)
Definition tick_trial4 (may_switch : bool) (prod : Z) (s : pilot) : pilot :=
  if (0 <? g_gp_prod_base_x s) && (i32 (prod * 100) <? i32 (g_gp_prod_base_x s * GP_PROD_KEEP_PCT)) then
    if may_switch then gp_set_gain 5 (s <| g_gp_state := GP_G5 |>) else s
  else s <| g_gp_state := GP_STABLE4 |> <| gp_stable4_s := 0 |> <| gp_starve_windows := 0 |>.

(** The starvation exit of [case GP_STABLE4]: [true] when it was taken. *)
Definition stable4_starve (may_switch : bool) (prod : Z) (s : pilot) : bool * pilot :=
  if (0 <? g_gp_prod_base_x s) && (i32 (prod * 100) <? i32 (g_gp_prod_base_x s * GP_STABLE4_EXIT_PCT)) then
    let s := s <| gp_starve_windows ::= fun n => u8 (n + 1) |> in
    if (GP_STABLE4_EXIT_WIN <=? gp_starve_windows s) && may_switch
    then (true, gp_set_gain 5 (s <| gp_starve_windows := 0 |> <| g_gp_state := GP_G5 |>))
    else (false, s)
  else (false, s <| gp_starve_windows := 0 |>).

(** [case GP_STABLE4] *)
Definition tick_stable4 (may_switch busy2 : bool) (prod : Z) (s : pilot) : pilot :=
  let s := s <| gp_stable4_s ::= fun n => u32 (n + GP_WINDOW_S) |> in
  let s := if g_gp_prod_base_x s <? prod then s <| g_gp_prod_base_x := prod |> else s in
  let '(exited, s) := stable4_starve may_switch prod s in
  if exited then s
  else if (GP_PROBE_EVERY_S <=? gp_stable4_s s) && (prod <? GP_PROBE_MAX_PROD) && negb busy2
  then gp_set_gain 5 (s <| g_gp_state := GP_PROBE5 |> <| g_gp_prod_base_x := 0 |>)
  else s.

(** [case GP_PROBE5] *)
Definition tick_probe5 (may_switch : bool) (debris prod : Z) (s : pilot) : pilot :=
  let s := if g_gp_prod_base_x s <? prod then s <| g_gp_prod_base_x := prod |> else s in
  if negb may_switch then s
  else if GP_DEBRIS_THRESH <? debris
  then gp_set_gain 4 (s <| g_gp_state := GP_STABLE4 |> <| gp_stable4_s := 0 |>)
  else s <| g_gp_state := GP_G5 |>.

(** Debris and productive frames per second of the window. *)
Definition window_debris (i : tick_in) (s : pilot) : Z :=
  Z.quot (i32 (i32 (u32 (rx_good i - last_rx_good s)) - i32 (u32 (cls i - last_cls s)))) GP_WINDOW_S.
Definition window_prod (i : tick_in) (s : pilot) : Z := Z.quot (i32 (u32 (cls i - last_cls s))) GP_WINDOW_S.

(** The measured window: counters remembered, hot windows counted. *)
Definition note_window (i : tick_in) (s : pilot) : pilot :=
  let debris := window_debris i s in
  s <| g_gp_debris_x := debris |> <| g_gp_prod_x := window_prod i s |>
    <| last_rx_good := rx_good i |> <| last_cls := cls i |>
    <| hot_windows ::= fun n => if GP_DEBRIS_THRESH <? debris then u8 (n + 1) else 0 |>.

Definition tick_switch (i : tick_in) (s : pilot) : pilot :=
  let debris := g_gp_debris_x s in
  let prod := g_gp_prod_x s in
  let may_switch := negb (busy1 i) || (GP_DEBRIS_EMERGENCY_WIN <=? hot_windows s) in
  match g_gp_state s with
  | GP_G5 => tick_g5 debris prod s
  | GP_TRIAL4 => tick_trial4 may_switch prod s
  | GP_STABLE4 => tick_stable4 may_switch (busy2 i) prod s
  | GP_PROBE5 => tick_probe5 may_switch debris prod s
  | GP_MANUAL => s <| g_gp_state := GP_G5 |>
  end.

Definition halow_gain_pilot_tick (i : tick_in) (s : pilot) : pilot :=
  if negb (g_gp_enabled s) then s
  else if agc_on i then s
  else
    let s := s <| gp_window_cnt ::= fun n => u32 (n + 1) |> in
    if gp_window_cnt s <? GP_WINDOW_S then s
    else tick_switch i (note_window i (s <| gp_window_cnt := 0 |>)).

(** ** Properties *)

Hypothesis gain_reads_back : forall g l, g = 4 \/ g = 5 ->
  Z.shiftr (Z.land (rx_gain_cfg_bits (lmac_rx_gain_cfg g l)) 0x7FF) 4 = g.

Inductive pilot_event := Tick (i : tick_in) | SetPilot (enable : bool).
Definition pilot_step (s : pilot) (e : pilot_event) : pilot :=
  match e with Tick i => halow_gain_pilot_tick i s | SetPilot b => halow_gain_pilot_set b s end.

(** A tick measures a window: it is not returned from early. *)
Definition measures (i : tick_in) (s : pilot) : bool :=
  g_gp_enabled s && negb (agc_on i) && (GP_WINDOW_S <=? u32 (gp_window_cnt s + 1)).
Definition hot (i : tick_in) (s : pilot) : bool := GP_DEBRIS_THRESH <? window_debris i s.

(** Was the last measured window hot? *)
Definition hot_step (h : bool) (s : pilot) (e : pilot_event) : bool :=
  match e with Tick i => if measures i s then hot i s else h | SetPilot _ => h end.

Record pilot_inv (h : bool) (s : pilot) : Prop := {
  pi_hot : 0 <= hot_windows s < 256 /\ (hot_windows s <> 0 -> h = true);
  pi_strikes : 0 <= gp_debris_strikes s < 2 /\ (gp_debris_strikes s <> 0 -> h = true);
  pi_four : g_gp_state s = GP_TRIAL4 \/ g_gp_state s = GP_STABLE4 -> gp_cur_gain s = 4 /\ gp_debris_strikes s = 0;
  pi_five : g_gp_state s = GP_PROBE5 -> gp_cur_gain s = 5 /\ gp_debris_strikes s = 0;
  pi_enabled : g_gp_enabled s = true <-> g_gp_state s <> GP_MANUAL;
}.

Definition pilot_boot (l : L) : pilot := mk_pilot GP_G5 true 0 0 0 0 0 0 0 0 0 0 l.

(** Setting the gain: the register reads it back, nothing else changes. *)
Lemma set_gain_spec g s : g = 4 \/ g = 5 ->
  exists l, gp_set_gain g s = s <| ah_lmac := l |> /\ gain_of l = g.
Proof using gain_reads_back.
  intros Hg. unfold gp_set_gain, gp_cur_gain. destruct (Z.eqb_spec (gain_of (ah_lmac s)) g); cbn [negb].
  - exists (ah_lmac s). split; [by destruct s|done].
  - exists (lmac_rx_gain_cfg g (ah_lmac s)). split; [done|]. unfold gain_of. rewrite gain_reads_back by done.
    apply u8_small. word_lia.
Qed.

(** What the switch keeps, and when it may move the gain. *)
Record switched (i : tick_in) (s s' : pilot) : Prop := {
  sw_enabled : g_gp_enabled s' = g_gp_enabled s;
  sw_hot : hot_windows s' = hot_windows s;
  sw_window : gp_window_cnt s' = gp_window_cnt s;
  sw_manual : g_gp_state s' <> GP_MANUAL;
  sw_strikes : 0 <= gp_debris_strikes s' < 2;
  sw_hot_strikes : gp_debris_strikes s' <> 0 -> GP_DEBRIS_THRESH < g_gp_debris_x s;
  sw_four : g_gp_state s' = GP_TRIAL4 \/ g_gp_state s' = GP_STABLE4 -> gp_cur_gain s' = 4 /\ gp_debris_strikes s' = 0;
  sw_five : g_gp_state s' = GP_PROBE5 -> gp_cur_gain s' = 5 /\ gp_debris_strikes s' = 0;
  sw_busy : busy1 i = true -> busy2 i = true -> gp_cur_gain s' <> gp_cur_gain s ->
    (g_gp_state s = GP_G5 /\ gp_cur_gain s <> 5) \/
    (GP_DEBRIS_THRESH < g_gp_debris_x s /\ gp_debris_strikes s = 1) \/
    2 <= hot_windows s;
  sw_escape : g_gp_state s = GP_G5 -> GP_DEBRIS_THRESH < g_gp_debris_x s ->
    gp_cur_gain s' = 4 \/ (g_gp_state s' = GP_G5 /\ gp_debris_strikes s' = 1 /\ gp_debris_strikes s = 0);
}.

Ltac pilot_solve :=
  constructor; unfold gp_cur_gain in *; rsimpl; intros; rsimpl;
  try done; try lia; try (intuition (congruence || lia)).

Lemma tick_g5_switched i s : g_gp_state s = GP_G5 -> 0 <= gp_debris_strikes s < 2 ->
  switched i s (tick_g5 (g_gp_debris_x s) (g_gp_prod_x s) s).
Proof using gain_reads_back.
  intros Hst Hs. unfold tick_g5. cbv zeta.
  assert (exists l, (if negb (gp_cur_gain s =? 5) then gp_set_gain 5 s else s) = s <| ah_lmac := l |> /\
    gain_of l = 5) as (l & -> & H5).
  { destruct (Z.eqb_spec (gp_cur_gain s) 5) as [Hg|]; cbn [negb].
    - exists (ah_lmac s). split; [by destruct s|done].
    - apply set_gain_spec. lia. }
  destruct (Z.ltb_spec GP_DEBRIS_THRESH (g_gp_debris_x s)); rsimpl.
  - assert (u8 (gp_debris_strikes s + 1) = gp_debris_strikes s + 1) as E by (apply u8_small; word_lia).
    rewrite E. destruct (Z.leb_spec 2 (gp_debris_strikes s + 1)).
    + match goal with |- context [gp_set_gain 4 ?x] => destruct (set_gain_spec 4 x) as (l' & -> & H4); [lia|] end.
      pilot_solve.
    + pilot_solve.
  - destruct (g_gp_prod_base_x s <? g_gp_prod_x s); pilot_solve.
Qed.

Lemma tick_trial4_switched i s : g_gp_state s = GP_TRIAL4 -> gp_cur_gain s = 4 -> gp_debris_strikes s = 0 ->
  switched i s (tick_trial4 (negb (busy1 i) || (GP_DEBRIS_EMERGENCY_WIN <=? hot_windows s)) (g_gp_prod_x s) s).
Proof using gain_reads_back.
  intros Hst Hg Hs. unfold tick_trial4. case_match; [case_match eqn:Hmay|]; [|pilot_solve|pilot_solve].
  match goal with |- context [gp_set_gain 5 ?x] => destruct (set_gain_spec 5 x) as (l & -> & H5); [lia|] end.
  apply orb_true_iff in Hmay as [Hb%negb_true_iff|Hb%Z.leb_le]; unfold GP_DEBRIS_EMERGENCY_WIN in *; pilot_solve.
Qed.

Lemma tick_stable4_switched i s : g_gp_state s = GP_STABLE4 -> gp_cur_gain s = 4 -> gp_debris_strikes s = 0 ->
  switched i s (tick_stable4 (negb (busy1 i) || (GP_DEBRIS_EMERGENCY_WIN <=? hot_windows s)) (busy2 i) (g_gp_prod_x s) s).
Proof using gain_reads_back.
  intros Hst Hg Hs. unfold tick_stable4. cbv zeta. rsimpl.
  set (base := if g_gp_prod_base_x s <? g_gp_prod_x s then _ else _).
  assert (exists b t, base = s <| gp_stable4_s := t |> <| g_gp_prod_base_x := b |>) as (b & t & ->).
  { unfold base. exists (if g_gp_prod_base_x s <? g_gp_prod_x s then g_gp_prod_x s else g_gp_prod_base_x s), (u32 (gp_stable4_s s + GP_WINDOW_S)).
    case_match; by destruct s. }
  set (may := negb (busy1 i) || _). unfold stable4_starve. rsimpl.
  assert (Hprobe : forall w, switched i s
    (if (GP_PROBE_EVERY_S <=? t) && (g_gp_prod_x s <? GP_PROBE_MAX_PROD) && negb (busy2 i)
     then gp_set_gain 5 (s <| gp_stable4_s := t |> <| g_gp_prod_base_x := b |> <| gp_starve_windows := w |>
            <| g_gp_state := GP_PROBE5 |> <| g_gp_prod_base_x := 0 |>)
     else s <| gp_stable4_s := t |> <| g_gp_prod_base_x := b |> <| gp_starve_windows := w |>)).
  { intros w. case_match eqn:Hp; [|pilot_solve]. apply andb_true_iff in Hp as [_ Hb%negb_true_iff].
    match goal with |- context [gp_set_gain 5 ?x] => destruct (set_gain_spec 5 x) as (l & -> & H5); [lia|] end.
    pilot_solve. }
  destruct ((0 <? b) && _); [|rsimpl; apply Hprobe].
  destruct ((GP_STABLE4_EXIT_WIN <=? _) && may) eqn:Hmay; [|rsimpl; exact (Hprobe (u8 (gp_starve_windows s + 1)))].
  match goal with |- context [gp_set_gain 5 ?x] => destruct (set_gain_spec 5 x) as (l & -> & H5); [lia|] end.
  apply andb_true_iff in Hmay as [_ Hmay]. unfold may in Hmay.
  apply orb_true_iff in Hmay as [Hb%negb_true_iff|Hb%Z.leb_le]; unfold GP_DEBRIS_EMERGENCY_WIN in *; pilot_solve.
Qed.

Lemma tick_probe5_switched i s : g_gp_state s = GP_PROBE5 -> gp_cur_gain s = 5 -> gp_debris_strikes s = 0 ->
  switched i s (tick_probe5 (negb (busy1 i) || (GP_DEBRIS_EMERGENCY_WIN <=? hot_windows s)) (g_gp_debris_x s) (g_gp_prod_x s) s).
Proof using gain_reads_back.
  intros Hst Hg Hs. unfold tick_probe5. cbv zeta.
  set (base := if g_gp_prod_base_x s <? g_gp_prod_x s then _ else _).
  assert (exists b, base = s <| g_gp_prod_base_x := b |>) as (b & ->).
  { unfold base. exists (if g_gp_prod_base_x s <? g_gp_prod_x s then g_gp_prod_x s else g_gp_prod_base_x s).
    case_match; by destruct s. }
  case_match eqn:Hmay; [pilot_solve|]. apply negb_false_iff, orb_true_iff in Hmay.
  case_match; [|pilot_solve].
  match goal with |- context [gp_set_gain 4 ?x] => destruct (set_gain_spec 4 x) as (l & -> & H4); [lia|] end.
  destruct Hmay as [Hb%negb_true_iff|Hb%Z.leb_le]; unfold GP_DEBRIS_EMERGENCY_WIN in *; pilot_solve.
Qed.

Lemma tick_switch_spec i h s : pilot_inv h s -> g_gp_enabled s = true ->
  let s1 := note_window i (s <| gp_window_cnt := 0 |>) in
  switched i s1 (tick_switch i s1).
Proof using gain_reads_back.
  intros [Hhot Hstr H4 H5 Hen] He. cbv zeta. set (s1 := note_window i _).
  assert (E : g_gp_state s1 = g_gp_state s /\ gp_debris_strikes s1 = gp_debris_strikes s /\ gp_cur_gain s1 = gp_cur_gain s).
  { unfold s1, note_window, gp_cur_gain. rsimpl. done. }
  destruct E as (E1 & E2 & E3). unfold tick_switch. cbv zeta.
  destruct (g_gp_state s1) eqn:Est; rewrite <-E1 in *.
  - by apply Hen in He.
  - apply tick_g5_switched; [done|lia].
  - destruct H4; [by left|]. apply tick_trial4_switched; congruence.
  - destruct H4; [by right|]. apply tick_stable4_switched; congruence.
  - destruct H5; [done|]. apply tick_probe5_switched; congruence.
Qed.

(** What one tick does to the invariant and the gain. *)
Lemma tick_spec i h s : pilot_inv h s ->
  let s' := halow_gain_pilot_tick i s in
  if measures i s then
    switched i (note_window i (s <| gp_window_cnt := 0 |>)) s' /\ pilot_inv (hot i s) s' /\
    hot_windows (note_window i (s <| gp_window_cnt := 0 |>)) = (if hot i s then u8 (hot_windows s + 1) else 0)
  else pilot_inv h s' /\ ah_lmac s' = ah_lmac s /\ g_gp_state s' = g_gp_state s /\
       gp_debris_strikes s' = gp_debris_strikes s /\ g_gp_enabled s' = g_gp_enabled s.
Proof using gain_reads_back.
  intros Hi. cbv zeta. unfold measures, halow_gain_pilot_tick.
  destruct (g_gp_enabled s) eqn:He; cbn [andb negb]; [|done].
  destruct (agc_on i); cbn [andb negb]; [done|]. rsimpl. rewrite (Z.leb_antisym (u32 (gp_window_cnt s + 1))).
  destruct (u32 (gp_window_cnt s + 1) <? GP_WINDOW_S) eqn:Hw; cbn [negb].
  { destruct Hi as [K1 K2 K3 K4 K5]. split; [|by rsimpl].
    constructor; unfold gp_cur_gain in *; rsimpl; try done. }
  pose proof (tick_switch_spec i h s Hi He) as Hsw. cbv zeta in Hsw.
  set (s1 := note_window i _) in *.
  assert (Hh : hot_windows s1 = (if hot i s then u8 (hot_windows s + 1) else 0)).
  { unfold s1, note_window, hot, window_debris. by rsimpl. }
  assert (Hd : g_gp_debris_x s1 = window_debris i s) by (unfold s1, note_window, window_debris; by rsimpl).
  assert (He1 : g_gp_enabled s1 = true) by (unfold s1, note_window; by rsimpl).
  clearbody s1. split; [done|]. split; [|done]. destruct Hsw as [W1 W2 W3 W4 W5 W6 W7 W8 _ _].
  constructor; try done.
  - rewrite W2, Hh. destruct (hot i s); [|split; [lia|done]]. split; [word_lia|done].
  - split; [done|]. intros Hs. apply W6 in Hs. unfold hot. rewrite <-Hd. by apply Z.ltb_lt.
  - by rewrite W1, He1.
Qed.

Lemma set_spec h b s : pilot_inv h s -> pilot_inv h (halow_gain_pilot_set b s).
Proof.
  intros [K1 K2 K3 K4 K5]. unfold halow_gain_pilot_set. destruct b; cbn [negb]; cbv zeta.
  - rsimpl. case_decide as Hm; constructor; unfold gp_cur_gain in *; rsimpl; try done; try tauto;
      try (intuition discriminate).
  - constructor; unfold gp_cur_gain in *; rsimpl; try done; try (intuition discriminate).
Qed.

Fixpoint pilot_run (h : bool) (s : pilot) (es : list pilot_event) : bool * pilot :=
  match es with
  | [] => (h, s)
  | e :: es => pilot_run (hot_step h s e) (pilot_step s e) es
  end.

Lemma pilot_run_inv es : forall h s, pilot_inv h s -> pilot_inv (pilot_run h s es).1 (pilot_run h s es).2.
Proof using gain_reads_back.
  induction es as [|e es IH]; intros h s Hi; cbn [pilot_run]; [done|]. apply IH.
  destruct e as [i|b]; cbn [hot_step pilot_step]; [|by apply set_spec].
  pose proof (tick_spec i h s Hi) as Ht. cbv zeta in Ht. destruct (measures i s); tauto.
Qed.

Lemma boot_inv l : pilot_inv false (pilot_boot l).
Proof. constructor; cbn; try done; try (intuition discriminate). Qed.

(** Two hot windows in succession set gain 4. *)
Lemma escapes h s i j k : pilot_inv h s -> g_gp_state s = GP_G5 ->
  measures i s = true -> hot i s = true -> agc_on j = false -> agc_on k = false ->
  hot k (halow_gain_pilot_tick j (halow_gain_pilot_tick i s)) = true ->
  gp_cur_gain (halow_gain_pilot_tick i s) = 4 \/
  gp_cur_gain (halow_gain_pilot_tick k (halow_gain_pilot_tick j (halow_gain_pilot_tick i s))) = 4.
Proof using gain_reads_back.
  intros Hi Hst Hm Hh Hj Hk Hh2.
  pose proof (tick_spec i h s Hi) as Ht. cbv zeta in Ht. rewrite Hm in Ht. destruct Ht as (Hsw & Hi1 & _).
  assert (Hd : GP_DEBRIS_THRESH < g_gp_debris_x (note_window i (s <| gp_window_cnt := 0 |>))).
  { unfold note_window, window_debris. rsimpl. by apply Z.ltb_lt. }
  destruct (sw_escape _ _ _ Hsw) as [H4|(Hst1 & Hs1 & _)]; [unfold note_window; by rsimpl|done|by left|].
  pose proof (sw_window _ _ _ Hsw) as Hw. unfold note_window in Hw. rsimpl.
  pose proof (sw_enabled _ _ _ Hsw) as Hen. unfold note_window in Hen. rsimpl.
  unfold measures in Hm. apply andb_true_iff in Hm as [Hm _]. apply andb_true_iff in Hm as [He _].
  rewrite He in Hen. set (s1 := halow_gain_pilot_tick i s) in *. clearbody s1.
  assert (E2 : halow_gain_pilot_tick j s1 = s1 <| gp_window_cnt := 1 |>).
  { unfold halow_gain_pilot_tick. rewrite Hen, Hj. cbn [negb]. rsimpl. rewrite Hw. destruct s1; cbn in *. by subst. }
  rewrite E2 in *. clear E2 Hj. set (s2 := s1 <| gp_window_cnt := 1 |>) in *.
  assert (Hi2 : pilot_inv true s2).
  { rewrite Hh in Hi1. destruct Hi1 as [K1 K2 K3 K4 K5]. unfold s2. constructor; unfold gp_cur_gain in *; by rsimpl. }
  pose proof (tick_spec k true s2 Hi2) as Ht. cbv zeta in Ht.
  assert (Hm2 : measures k s2 = true) by (unfold measures, s2; rsimpl; by rewrite Hen, Hk).
  rewrite Hm2 in Ht. destruct Ht as (Hsw2 & _ & _).
  assert (Hd2 : GP_DEBRIS_THRESH < g_gp_debris_x (note_window k (s2 <| gp_window_cnt := 0 |>))).
  { unfold note_window, window_debris. rsimpl. by apply Z.ltb_lt. }
  right. destruct (sw_escape _ _ _ Hsw2) as [H4|(_ & _ & Hs0)]; [unfold note_window, s2; by rsimpl|done|done|].
  unfold note_window, s2 in Hs0. rsimpl. lia.
Qed.

(** C30: the discipline of gain switches.  After start-up with any gain in the
    register, and after any sequence of ticks and of switching the pilot off
    and on: (1) while the link is busy a tick moves the gain only if both the
    window it measured and the one measured before were hot, or if the pilot
    is in its first state with another gain than 5 set, as after start-up with
    such a gain or after switching it on again; (2) yet a swamped gain is
    left: in the first state, two hot windows measured in succession, with the
    radio's own gain control off, have set gain 4, busy or not.  Hot is what
    the code compares with, debris above [GP_DEBRIS_THRESH]; the file's
    comment on the emergency speaks of four times that. *)
Theorem gain_switch_discipline (l : L) (es : list pilot_event) :
  let '(h, s) := pilot_run false (pilot_boot l) es in
  (forall i, busy1 i = true -> busy2 i = true ->
     gp_cur_gain (halow_gain_pilot_tick i s) <> gp_cur_gain s ->
     (measures i s = true /\ hot i s = true /\ h = true) \/
     (g_gp_state s = GP_G5 /\ gp_cur_gain s <> 5)) /\
  (forall i j k, g_gp_state s = GP_G5 ->
     measures i s = true -> hot i s = true -> agc_on j = false -> agc_on k = false ->
     let s1 := halow_gain_pilot_tick i s in
     let s2 := halow_gain_pilot_tick j s1 in
     hot k s2 = true ->
     gp_cur_gain s1 = 4 \/ gp_cur_gain (halow_gain_pilot_tick k s2) = 4).
Proof using gain_reads_back.
  pose proof (pilot_run_inv es false (pilot_boot l) (boot_inv l)) as Hi.
  destruct (pilot_run false (pilot_boot l) es) as [h s]. cbn [fst snd] in Hi. split.
  - intros i Hb1 Hb2 Hg. pose proof (tick_spec i h s Hi) as Ht. cbv zeta in Ht.
    destruct (measures i s) eqn:Hm; [|by destruct Ht as (_ & E & _); unfold gp_cur_gain in Hg; rewrite E in Hg].
    destruct Ht as (Hsw & _ & Hh). destruct Hi as [[Hr Hhot] [Hsr Hstr] _ _ _].
    pose proof (sw_busy _ _ _ Hsw Hb1 Hb2) as Hsb. unfold gp_cur_gain in *.
    rewrite Hh in Hsb. unfold note_window in Hsb. rsimpl. fold (hot i s) in *.
    destruct (Hsb Hg) as [Hfresh|[[Hd Hs]|H2]]; [by right| |].
    + left. split; [done|]. split; [by apply Z.ltb_lt|]. apply Hstr. lia.
    + left. split; [done|]. destruct (hot i s); [|lia]. split; [done|]. apply Hhot. intros H0. rewrite H0 in H2. by vm_compute in H2.
  - cbv zeta. intros. by eapply escapes.
Qed.
End GainPilot.

(** ** Witness: a register that stores the gain in its bits 4 to 10 *)

#[export] Instance shifted_gain : GainReg Z := { rx_gain_cfg_bits := fun l => l; lmac_rx_gain_cfg := fun g _ => Z.shiftl g 4 }.

Definition ex_in (good c : Z) : tick_in := mk_tick false good c true true.
(** 100 frames per window, 40 of them debris, then none. *)
Definition ex_history : list pilot_event :=
  [Tick (ex_in 0 0); Tick (ex_in 100 100); Tick (ex_in 150 130); Tick (ex_in 300 200)].

Lemma gain_switch_discipline_witness :
  let '(h, s) := pilot_run false (pilot_boot (Z.shiftl 5 4)) ex_history in
  g_gp_state s = GP_G5 /\
  (forall i, busy1 i = true -> busy2 i = true ->
     gp_cur_gain (halow_gain_pilot_tick i s) <> gp_cur_gain s ->
     (measures i s = true /\ hot i s = true /\ h = true) \/ (g_gp_state s = GP_G5 /\ gp_cur_gain s <> 5)) /\
  (forall i j k, g_gp_state s = GP_G5 ->
     measures i s = true -> hot i s = true -> agc_on j = false -> agc_on k = false ->
     hot k (halow_gain_pilot_tick j (halow_gain_pilot_tick i s)) = true ->
     gp_cur_gain (halow_gain_pilot_tick i s) = 4 \/
     gp_cur_gain (halow_gain_pilot_tick k (halow_gain_pilot_tick j (halow_gain_pilot_tick i s))) = 4).
Proof.
  pose proof (gain_switch_discipline (L := Z) ltac:(intros g l0 [-> | ->]; reflexivity) (Z.shiftl 5 4) ex_history) as Hg.
  assert (E : g_gp_state (pilot_run false (pilot_boot (Z.shiftl 5 4)) ex_history).2 = GP_G5) by (vm_compute; reflexivity).
  revert Hg E. destruct (pilot_run false (pilot_boot (Z.shiftl 5 4)) ex_history) as [h s].
  intros Hg E. split; [exact E|exact Hg].
Defined.

(** After the hot window of the history, the next hot one sets gain 4. *)
Example ex_escape :
  let '(_, s) := pilot_run false (pilot_boot (Z.shiftl 5 4)) (ex_history ++ [Tick (ex_in 300 200); Tick (ex_in 450 260)]) in
  (g_gp_state s, gp_cur_gain s) = (GP_TRIAL4, 4).
Proof. vm_compute. reflexivity. Qed.
