(* ===== verification/Net.v ===== *)
(** * Address configuration and the DHCP service: [src/net_ip.c], [src/net_dhcpd.c]

    The network interface and its DHCP client are lwIP's, the class [Netif];
    the settings come from [ConfigDb], the lease decisions from [Dhcpd].
    Addresses are [ip4_addr_t] values: a [uint32_t] whose bytes in memory are
    the dotted octets, on a little-endian machine. *)

From S2P Require Import Prelude ConfigDb Dhcpd.
From stdpp Require Import strings.

#[local] Open Scope Z_scope.

(** [PP_HTONL] of a little-endian machine. *)
Definition lwip_htonl (n : Z) : Z :=
  Z.lor (Z.lor (Z.lor (Z.shiftl (Z.land n 0xFF) 24) (Z.shiftl (Z.land n 0xFF00) 8))
    (Z.shiftr (Z.land n 0xFF0000) 8)) (Z.shiftr (Z.land n 0xFF000000) 24).
Definition LWIP_MAKEU32 (a b c d : Z) : Z := a * 2 ^ 24 + b * 2 ^ 16 + c * 2 ^ 8 + d.

Definition NET_IP_MODE_DHCP : Z := 0.
Definition NET_IP_MODE_STATIC : Z := 1.

Record net_ip_config := mk_net_ip { mode : Z; addr : Z; mask : Z; gw : Z }.
#[export] Instance eta_net_ip : Eta net_ip_config := fun c => mk_net_ip (mode c) (addr c) (mask c) (gw c).

Definition net_ip_config_is_valid (c : net_ip_config) : bool :=
  if negb (mode c =? NET_IP_MODE_DHCP) && negb (mode c =? NET_IP_MODE_STATIC) then false
  else if mode c =? NET_IP_MODE_STATIC then
    let m := lwip_htonl (mask c) in
    if m =? 0 then false
    else
      let inv := u32 (Z.lnot m) in
      Z.land inv (u32 (inv + 1)) =? 0
  else true.

Definition net_ip_config_set_default : net_ip_config :=
  mk_net_ip NET_IP_MODE_DHCP (lwip_htonl (LWIP_MAKEU32 192 168 42 42)) (lwip_htonl (LWIP_MAKEU32 255 255 255 0))
    (lwip_htonl (LWIP_MAKEU32 0 0 0 0)).

(** lwIP's view of one interface. *)
Class Netif (N : Type) := {
  netif_ip4_addr : N -> Z;
  netif_ip4_netmask : N -> Z;
  netif_ip4_gw : N -> Z;
  dhcp_stop : N -> N;
  dhcp_start : N -> N;
  netif_set_addr : Z -> Z -> Z -> N -> N;
}.

(** Work handed to the tcpip thread. *)
Inductive net_callback :=
  | net_ip_apply_cb (c : net_ip_config)
  | net_dhcpd_start_cb
  | net_dhcpd_stop_cb.

Section Net.
Context {N : Type} `{Netif N} {D : Type} `{Kvdb D}.

Record net := mk_net {
  g_nif : option N;
  db : D;
  mailbox : list net_callback;
  g_dhcpd_pcb : bool;
  g_dhcpd_running : bool;
  g_dhcpd_state : dhcpd_state;
  g_dhcpd_req : list Z;
  g_dhcpd_rep : list Z;
}.
#[export] Instance eta_net : Eta net := fun s =>
  mk_net (g_nif s) (db s) (mailbox s) (g_dhcpd_pcb s) (g_dhcpd_running s) (g_dhcpd_state s) (g_dhcpd_req s)
    (g_dhcpd_rep s).

(** ** [net_ip.c] *)

Definition net_ip_config_fill_runtime_addrs (c : net_ip_config) (s : net) : net_ip_config :=
  match g_nif s with
  | None => c
  | Some n => c <| addr := netif_ip4_addr n |> <| mask := netif_ip4_netmask n |> <| gw := netif_ip4_gw n |>
  end.

Definition get_i32_or (key : string) (v : Z) (d : D) : Z := default v (configdb_get_i32 key (Some v) d).2.

Definition net_ip_config_load (d : D) : net_ip_config :=
  let md := get_i32_or "cfg.net_ip.mode" NET_IP_MODE_DHCP d in
  let c := net_ip_config_set_default <| mode := md |> in
  if md =? NET_IP_MODE_STATIC then
    c <| addr ::= fun v => u32 (get_i32_or "cfg.net_ip.ip" (i32 v) d) |>
      <| mask ::= fun v => u32 (get_i32_or "cfg.net_ip.mask" (i32 v) d) |>
      <| gw ::= fun v => u32 (get_i32_or "cfg.net_ip.gw" (i32 v) d) |>
  else c.

Definition net_ip_config_save (c : net_ip_config) (d : D) : D :=
  if negb (net_ip_config_is_valid c) then d
  else
    let d := (configdb_set_i32 "cfg.net_ip.mode" (Some (i32 (mode c))) d).2 in
    if mode c =? NET_IP_MODE_STATIC then
      let d := (configdb_set_i32 "cfg.net_ip.ip" (Some (i32 (addr c))) d).2 in
      let d := (configdb_set_i32 "cfg.net_ip.mask" (Some (i32 (mask c))) d).2 in
      (configdb_set_i32 "cfg.net_ip.gw" (Some (i32 (gw c))) d).2
    else d.

(** [post_ok]: [tcpip_try_callback] found room in the mailbox. *)
Definition post (post_ok : bool) (cb : net_callback) (s : net) : net :=
  if post_ok then s <| mailbox ::= fun q => q ++ [cb] |> else s.

Definition net_ip_config_apply (malloc_ok post_ok : bool) (c : net_ip_config) (s : net) : net :=
  match g_nif s with
  | None => s
  | Some _ =>
      if negb (net_ip_config_is_valid c) then s
      else if negb malloc_ok then s
      else post post_ok (net_ip_apply_cb c) s
  end.

Definition run_apply_cb (c : net_ip_config) (s : net) : net :=
  match g_nif s with
  | None => s
  | Some n =>
      let n := dhcp_stop n in
      s <| g_nif := Some (if mode c =? NET_IP_MODE_DHCP then dhcp_start n
                          else netif_set_addr (addr c) (mask c) (gw c) n) |>
  end.

(** ** [net_dhcpd.c] *)

Definition DHCPD_POOL_SIZE : Z := 4.
Definition DHCPD_POOL_TAIL : Z := 200.
Definition DHCPD_LEASE_MS : Z := 12 * 60 * 60 * 1000.

Definition net_dhcpd_enabled_cfg (s : net) : bool := negb (get_i32_or "cfg.net.dhs" 0 (db s) =? 0).

Definition net_dhcpd_set_enabled (en : Z) (s : net) : net :=
  s <| db ::= fun d => (configdb_set_i32 "cfg.net.dhs" (Some en) d).2 |>.

Definition net_dhcpd_fill_state (s : net) : bool * net :=
  let c := net_ip_config_fill_runtime_addrs (mk_net_ip 0 0 0 0) s in
  if (addr c =? 0) || (mask c =? 0) then (false, s)
  else
    let stored := net_ip_config_load (db s) in
    if negb (mode stored =? NET_IP_MODE_STATIC) then (false, s)
    else if negb (net_dhcpd_enabled_cfg s) then (false, s)
    else
      (true, s <| g_dhcpd_state :=
        mk_dhcpd (addr c) (mask c) (Z.lor (Z.land (addr c) (mask c)) (lwip_htonl DHCPD_POOL_TAIL))
          DHCPD_POOL_SIZE DHCPD_LEASE_MS (replicate DHCPD_LEASES lease0) |>).

Definition run_stop_cb (s : net) : net := s <| g_dhcpd_pcb := false |> <| g_dhcpd_running := false |>.

(** [new_ok], [bind_ok]: [udp_new] and [udp_bind] succeeded. *)
Definition run_start_cb (new_ok bind_ok : bool) (s : net) : net :=
  let '(ok, s) := net_dhcpd_fill_state s in
  if negb ok then run_stop_cb s
  else if g_dhcpd_pcb s then s
  else if negb new_ok then s
  else if negb bind_ok then s
  else s <| g_dhcpd_pcb := true |> <| g_dhcpd_running := true |>.

Definition net_dhcpd_on_netcfg (post_ok : bool) (s : net) : net :=
  post post_ok (if net_dhcpd_enabled_cfg s then net_dhcpd_start_cb else net_dhcpd_stop_cb) s.

(** The tcpip thread takes the next callback. *)
Definition tcpip_step (new_ok bind_ok : bool) (s : net) : net :=
  match mailbox s with
  | [] => s
  | cb :: q =>
      let s := s <| mailbox := q |> in
      match cb with
      | net_ip_apply_cb c => run_apply_cb c s
      | net_dhcpd_start_cb => run_start_cb new_ok bind_ok s
      | net_dhcpd_stop_cb => run_stop_cb s
      end
  end.

(** A datagram on port 67.  Result: the reply that was sent, if any; [None] is
    an access outside a buffer.  [out_ok]: a pbuf could be allocated and filled. *)
Definition net_dhcpd_recv (payload : list Z) (now_ms : Z) (out_ok : bool) (s : net)
    : option (option (list Z) * net) :=
  let tot_len := Z.of_nat (length payload) in
  if (tot_len =? 0) || (DHCPD_PKT_MAX <? tot_len) then Some (None, s)
  else
    req ← wr_n (g_dhcpd_req s) 0 payload;
    let s := s <| g_dhcpd_req := req |> in
    r ← dhcpd_parse req (u16 tot_len);
    match r with
    | None => Some (None, s)
    | Some q =>
        let '(st, (reply_type, offer_ip)) := dhcpd_decide (g_dhcpd_state s) q (u64 now_ms) in
        let s := s <| g_dhcpd_state := st |> in
        if reply_type =? 0 then Some (None, s)
        else
          '(rep, n) ← dhcpd_build (g_dhcpd_rep s) reply_type (q_xid q) (q_mac q) offer_ip (server_ip st) (netmask st)
                         (DHCPD_LEASE_MS / 1000);
          let s := s <| g_dhcpd_rep := rep |> in
          if n =? 0 then Some (None, s)
          else
            bytes ← rd_n rep 0 n;
            Some (if out_ok then Some bytes else None, s)
    end.

Definition net_ip_init (malloc_ok post1 post2 : bool) (nif : option N) (s : net) : Z * net :=
  let s := s <| g_nif := nif |> in
  match nif with
  | None => (-1, s)
  | Some _ =>
      let c := net_ip_config_load (db s) in
      let c := if negb (net_ip_config_is_valid c) then net_ip_config_set_default else c in
      let s := s <| db ::= net_ip_config_save c |> in
      (0, net_dhcpd_on_netcfg post2 (net_ip_config_apply malloc_ok post1 c s))
  end.
End Net.

(** ** Addresses *)

(** The address whose dotted form is [a.b.c.d]. *)
Definition dotted (a b c d : Z) : Z := a + 2 ^ 8 * b + 2 ^ 16 * c + 2 ^ 24 * d.

Lemma put32_dotted a b c d : is_u8 a -> is_u8 b -> is_u8 c -> is_u8 d -> put32 (dotted a b c d) = [d; c; b; a].
Proof.
  intros Ha Hb Hc Hd. unfold put32, dotted. rewrite !shiftr_div by lia. repeat f_equal; change (2 ^ 24) with 16777216; word_lia.
Qed.

Lemma pool_base_dotted a b c d : is_u8 a -> is_u8 b -> is_u8 c -> is_u8 d ->
  Z.lor (Z.land (dotted a b c d) (dotted 255 255 255 0)) (lwip_htonl DHCPD_POOL_TAIL) = dotted a b c 200.
Proof.
  intros Ha Hb Hc Hd. change (dotted 255 255 255 0) with (2 ^ 24 - 1). rewrite land_low by lia.
  change (lwip_htonl DHCPD_POOL_TAIL) with (Z.shiftl 200 24).
  replace (dotted a b c d mod 2 ^ 24) with (a + 2 ^ 8 * b + 2 ^ 16 * c).
  - rewrite lor_shiftl_add; [unfold dotted; lia|lia|]. unfold is_u8 in *. change (2 ^ 24) with 16777216. lia.
  - unfold dotted, is_u8 in *. apply (Z.mod_unique_pos _ _ d); change (2 ^ 24) with 16777216; lia.
Qed.

(** ** The service over a history of datagrams *)

Section Service.
Context {N : Type} `{Netif N} {D : Type} `{Kvdb D}.
#[local] Abbreviation net := (@net N D).

Fixpoint recv_all (s : net) (es : list (list Z * Z * bool)) : option (list (list Z) * net) :=
  match es with
  | [] => Some ([], s)
  | (payload, now, ok) :: es =>
      '(o, s) ← net_dhcpd_recv payload now ok s;
      '(rs, s) ← recv_all s es;
      Some (option_list o ++ rs, s)
  end.

(** The server's state: buffers, table, and the addresses it was started with. *)
Record serving (server base : Z) (s : net) : Prop := {
  sv_req : length (g_dhcpd_req s) = 548%nat /\ is_bytes (g_dhcpd_req s);
  sv_rep : length (g_dhcpd_rep s) = 548%nat;
  sv_ok : dhcpd_ok (g_dhcpd_state s);
  sv_server : server_ip (g_dhcpd_state s) = server;
  sv_base : pool_base (g_dhcpd_state s) = base;
}.

(** A reply names the server, and an address of the pool or none. *)
Definition reply_ok (server base : Z) (r : list Z) : Prop :=
  (length r = 250%nat \/ length r = 274%nat) /\ take 4 (drop 20 r) = put32 server /\
  (take 4 (drop 16 r) = [0; 0; 0; 0] \/
   exists k, 0 <= k < 4 /\ take 4 (drop 16 r) = put32 (u32 (base + k))).

Lemma decision_offers st q now st' rt a : dhcpd_ok st -> decision st q now (st', (rt, a)) ->
  server_ip st' = server_ip st /\ pool_base st' = pool_base st /\
  (rt = 0 \/ (rt <> 0 /\ (a = 0 \/ exists k, 0 <= k < 4 /\ a = u32 (pool_base st + k)))).
Proof.
  intros Hok Hd. assert (Hp : forall k l, leases st !! k = Some l -> exists k', 0 <= k' < 4 /\ pool_ip st (Z.of_nat k) = u32 (pool_base st + k')).
  { intros k l Hk. pose proof (dhcpd_ok_lt _ _ _ Hok Hk). exists (Z.of_nat k). split; [lia|done]. }
  inversion Hd as [|k l| |k l Hby (Hk & Hu & _)|k l rt' Hrt Hk|k l Hby (Hk & Hu & _)]; subst; unfold upd_slot; rsimpl.
  - auto.
  - auto.
  - do 2 (split; [done|]). right. split; [done|]. by left.
  - do 2 (split; [done|]). right. split; [done|]. right. rewrite (proj2 Hok k l) by done. eauto.
  - do 2 (split; [done|]). right. split; [by destruct Hrt as [-> | ->]|]. right. eauto.
  - do 2 (split; [done|]). right. split; [done|]. right. rewrite (proj2 Hok k l) by done. eauto.
Qed.

Lemma is_bytes_app (l l' : list Z) : is_bytes (l ++ l') <-> is_bytes l /\ is_bytes l'.
Proof. apply Forall_app. Qed.

Lemma recv_spec server base s payload now out_ok : serving server base s -> is_bytes payload ->
  exists o s', net_dhcpd_recv payload now out_ok s = Some (o, s') /\ serving server base s' /\
    (forall r, o = Some r -> reply_ok server base r).
Proof.
  intros [[Hrq Hrqb] Hrp Hok Hsv Hbs] Hb. unfold net_dhcpd_recv. cbv zeta.
  destruct (_ || _) eqn:Hlen; [by exists None, s|]. apply orb_false_iff in Hlen as [Hl0%Z.eqb_neq Hl1%Z.ltb_ge].
  unfold DHCPD_PKT_MAX in Hl1. rewrite wr_n_in_bounds by lia. cbn [mbind option_bind].
  set (req := take (Z.to_nat 0) _ ++ _). assert (Hreq : length req = 548%nat /\ is_bytes req).
  { unfold req. change (Z.to_nat 0) with 0%nat. rewrite take_0. cbn [app plus]. split.
    - rewrite length_app, length_drop. lia.
    - apply is_bytes_app. split; [done|]. by apply Forall_drop. }
  clearbody req. rewrite u16_small by word_lia. rsimpl.
  destruct (parse_total req (Z.of_nat (length payload))) as (r & -> & Hm); [tauto|lia|lia|]. cbn [mbind option_bind].
  destruct r as [q|]; [|eexists _, _; split; [reflexivity|]; split; [by constructor; rsimpl|done]].
  pose proof (message_mac _ _ Hm) as Hmac.
  pose proof (decide_decision (g_dhcpd_state s) q (u64 now) Hok) as Hd. pose proof (decide_ok (g_dhcpd_state s) q (u64 now) Hok) as Hok'.
  destruct (dhcpd_decide (g_dhcpd_state s) q (u64 now)) as [st [rt a]]. cbn [fst] in Hok'.
  destruct (decision_offers _ _ _ _ _ _ Hok Hd) as (Es & Eb & Ha).
  destruct (Z.eqb_spec rt 0) as [->|Hrt]; [eexists _, _; split; [reflexivity|]; split; [|done]; constructor; rsimpl; congruence|].
  destruct Ha as [->|[_ Ha]]; [done|]. rsimpl.
  rewrite (build_app 268 (g_dhcpd_rep s)), build_280 by done. cbn [fmap option_fmap option_map mbind option_bind].
  set (rb := reply_bytes rt (q_xid q) (q_mac q) a (server_ip st) (netmask st) (DHCPD_LEASE_MS / 1000)).
  set (n := if rt =? DHCPD_ACK then 274 else 250).
  assert (Hrb : length rb = Z.to_nat n /\ (n = 250 \/ n = 274)).
  { unfold rb, reply_bytes, reply_options, n. rewrite !length_app, Hmac. destruct (rt =? DHCPD_ACK); split; try done; tauto. }
  destruct Hrb as [Hrb Hn]. rewrite (proj2 (Z.eqb_neq n 0)) by lia.
  rewrite rd_n_in_bounds by (rewrite ?length_app, ?length_replicate; lia). change (Z.to_nat 0) with 0%nat. rewrite drop_0.
  rewrite <-Hrb, <-app_assoc, take_app_length. cbn [mbind option_bind].
  eexists _, _. split; [reflexivity|]. split.
  - constructor; rsimpl; try done; try congruence. rewrite !length_app, !length_replicate, Hrb. unfold n. destruct (rt =? DHCPD_ACK); done.
  - intros r Hr. destruct out_ok; [|done]. injection Hr as <-. split; [lia|].
    clear -Hmac Ha Es Eb Hsv Hbs. unfold rb, reply_bytes. destruct (q_mac q) as [|m0 [|m1 [|m2 [|m3 [|m4 [|m5 [|]]]]]]]; try done.
    rewrite Es, Hsv. split; [done|]. destruct Ha as [->|(k & Hk & ->)]; [by left|]. right. exists k.
    split; [done|]. by rewrite Hbs.
Qed.

Lemma recv_all_spec server base es : forall s, serving server base s -> Forall (fun e => is_bytes e.1.1) es ->
  exists rs s', recv_all s es = Some (rs, s') /\ serving server base s' /\ Forall (reply_ok server base) rs.
Proof.
  induction es as [|[[payload now] ok] es IH]; intros s Hs Hes; cbn [recv_all].
  { exists [], s. split; [done|]. split; [done|]. constructor. }
  apply Forall_cons in Hes as [Hb Hes]. destruct (recv_spec server base s payload now ok Hs Hb) as (o & s1 & -> & Hs1 & Ho).
  cbn [mbind option_bind]. destruct (IH s1 Hs1 Hes) as (rs & s2 & -> & Hs2 & Hrs). cbn [mbind option_bind].
  eexists _, s2. split; [done|]. split; [done|]. apply Forall_app. split; [|done]. destruct o; [|constructor].
  constructor; [by apply Ho|constructor].
Qed.
End Service.

Lemma fill_state_serving {N D} `{Netif N, Kvdb D} (s s' : @net N D) :
  length (g_dhcpd_req s) = 548%nat -> is_bytes (g_dhcpd_req s) -> length (g_dhcpd_rep s) = 548%nat ->
  net_dhcpd_fill_state s = (true, s') ->
  exists n, g_nif s = Some n /\
    serving (netif_ip4_addr n)
      (Z.lor (Z.land (netif_ip4_addr n) (netif_ip4_netmask n)) (lwip_htonl DHCPD_POOL_TAIL)) s'.
Proof.
  intros Hq Hqb Hr Hf. unfold net_dhcpd_fill_state, net_ip_config_fill_runtime_addrs in Hf. cbv zeta in Hf.
  destruct (g_nif s) as [n|]; [|by cbn in Hf]. exists n. split; [done|]. rsimpl.
  do 3 (match type of Hf with context [if ?b then _ else _] => destruct b end; [by inversion Hf|]).
  assert (Hs : s' = snd (true, s')) by done. rewrite <-Hf in Hs. cbn [snd] in Hs. subst s'.
  constructor; rsimpl; try done. apply (state_init_ok _ _ _ DHCPD_POOL_SIZE).
Qed.

(** C31: What the DHCP service puts on the wire.  On an interface that holds
    [a.b.c.d/24], whatever datagrams arrive, no access leaves a buffer, and
    each reply carries the server address and the offered address with their
    octets in reverse: [d.c.b.a] and [200.c.b.(a+k)]. *)
Theorem dhcp_wire_addresses_reversed {N D} `{Netif N, Kvdb D} (s : @net N D) n a b c d new_ok bind_ok es :
  is_u8 a -> is_u8 b -> is_u8 c -> is_u8 d -> a + 3 < 256 ->
  g_nif s = Some n -> netif_ip4_addr n = dotted a b c d -> netif_ip4_netmask n = dotted 255 255 255 0 ->
  length (g_dhcpd_req s) = 548%nat -> is_bytes (g_dhcpd_req s) -> length (g_dhcpd_rep s) = 548%nat ->
  g_dhcpd_running (run_start_cb new_ok bind_ok s) = true ->
  Forall (fun e => is_bytes e.1.1) es ->
  exists rs s', recv_all (run_start_cb new_ok bind_ok s) es = Some (rs, s') /\
    Forall (fun r => take 4 (drop 20 r) = [d; c; b; a] /\
      (take 4 (drop 16 r) = [0; 0; 0; 0] \/ exists k, 0 <= k < 4 /\ take 4 (drop 16 r) = [200; c; b; a + k])) rs.
Proof.
  intros Ha Hb Hc Hd Ha3 Hn Hip Hm Hq Hqb Hr Hrun Hes.
  assert (Hs : serving (dotted a b c d) (dotted a b c 200) (run_start_cb new_ok bind_ok s)).
  { unfold run_start_cb in *. destruct (net_dhcpd_fill_state s) as [[|] s1] eqn:Hf; cbn [negb] in *; [|done].
    destruct (fill_state_serving s s1 Hq Hqb Hr Hf) as (n' & Hn' & Hs). rewrite Hn in Hn'. injection Hn' as <-.
    rewrite Hip, Hm, pool_base_dotted in Hs by done. destruct Hs.
    repeat match goal with |- context [if ?b then _ else _] => destruct b end; by constructor; rsimpl. }
  destruct (recv_all_spec _ _ es _ Hs Hes) as (rs & s' & E & _ & Hrs). exists rs, s'. split; [done|].
  eapply Forall_impl; [exact Hrs|]. intros r (_ & Hsrv & Hy). rewrite put32_dotted in Hsrv by done. split; [done|].
  destruct Hy as [Hy|(k & Hk & Hy)]; [by left|]. right. exists k. split; [done|]. rewrite Hy.
  replace (u32 (dotted a b c 200 + k)) with (dotted (a + k) b c 200).
  - apply put32_dotted; unfold is_u8 in *; lia.
  - rewrite u32_small; [unfold dotted; lia|]. unfold dotted, is_u8 in *. change (2 ^ 24) with 16777216. word_lia.
Qed.

(** ** Witness: an interface with fixed addresses, a settings store in a map *)

Definition fixed_netif : Type := Z * Z * Z.
#[export] Instance netif_fixed : Netif fixed_netif := {
  netif_ip4_addr n := n.1.1; netif_ip4_netmask n := n.1.2; netif_ip4_gw n := n.2;
  dhcp_stop n := n; dhcp_start n := n; netif_set_addr a m g _ := (a, m, g) }.

Definition example_net : @net fixed_netif (gmap string (list Z)) :=
  mk_net (Some (dotted 192 168 42 42, dotted 255 255 255 0, 0))
    (net_ip_config_save (mk_net_ip NET_IP_MODE_STATIC (dotted 192 168 42 42) (dotted 255 255 255 0) 0)
      (<[ "cfg.net.dhs"%string := le32 1 ]> ∅)) [] false false (dhcpd_state_init 0 0 0 4) (replicate 548 0) (replicate 548 0).

Definition discover_dgram : list Z :=
  [1; 1; 6; 0] ++ replicate 24 0 ++ [2; 4; 6; 8; 10; 12] ++ replicate 202 0 ++ DHCP_MAGIC ++ [OPT_MSGTYPE; 1; DHCPD_DISCOVER; OPT_END].

Lemma dhcp_wire_addresses_reversed_witness :
  exists rs s', recv_all (run_start_cb true true example_net) [(discover_dgram, 1000, true)] = Some (rs, s') /\
    Forall (fun r => take 4 (drop 20 r) = [42; 42; 168; 192] /\
      (take 4 (drop 16 r) = [0; 0; 0; 0] \/ exists k, 0 <= k < 4 /\ take 4 (drop 16 r) = [200; 42; 168; 192 + k])) rs.
Proof.
  apply (dhcp_wire_addresses_reversed example_net (dotted 192 168 42 42, dotted 255 255 255 0, 0) 192 168 42 42 true true);
    try (unfold is_u8; lia); try reflexivity; try (vm_compute; reflexivity).
  - apply Forall_replicate. unfold is_u8; lia.
  - constructor; [|constructor]. vm_compute. repeat constructor; done.
Defined.
