(* ===== verification/TcpServer.v ===== *)
(** * TCP server: [src/tcp_server.c], and the decoder glue of [src/main.c]

    One client at a time: its bytes are fed to the stream decoder
    ([StreamParser]) and held back when the radio path is saturated; frames
    from the radio wait in a ring of buffer descriptors ([Lwrb]) until they are
    written to it.  lwIP and the layers behind the decoder are the class
    [TcpEnv]; [os_malloc]'s heap is a finite map, so that using or freeing a
    buffer that is not allocated is a fault ([None]). *)

From S2P Require Import Prelude ConfigDb Lwrb StreamParser.
From stdpp Require Import strings.

#[local] Open Scope Z_scope.

Definition ERR_OK : Z := 0.
Definition ERR_WOULDBLOCK : Z := -7.
Definition TCP_SERVER_RF_TO_TCP_BUFF_COUNT : Z := 32.
Definition TCP_SERVER_SEND_STALL_LIMIT_MS : Z := 10000.
Definition TCP_SERVER_TX_THROTTLE_MS : Z := 5.

(** [rns_tcp_rx_handler] is [halow_pkg_handler_tcp_to_rf]; it may rewrite the
    frame.  A netbuf is the list of its data chunks. *)
Class TcpEnv (W : Type) := {
  rns_tcp_rx_handler : list Z -> W -> Z * list Z * W;
  ack_tx_ready : W -> bool * W;
  ack_flush : W -> W;
  netconn_recv : W -> Z * option (list (list Z)) * W;
  (** error, bytes written *)
  netconn_write_partly : list Z -> W -> Z * Z * W;
}.

Record tcp_server_config := mk_tcp_config { enabled : bool; port : Z; whitelist_ip : Z; whitelist_mask : Z }.

(** [struct rb_tx_package], 8 bytes: pointer and length. *)
Definition rb_tx_package (data len : Z) : list Z := le32 data ++ le32 len.
Definition pkg_data (b : list Z) : Z := u32 (of_le32 (take 4 b)).
Definition pkg_len (b : list Z) : Z := u32 (of_le32 (drop 4 b)).

Section TcpServer.
Context {W : Type} `{TcpEnv W}.
(** [os_malloc] of a length on a heap: the address, 0 when it fails.  The
    first argument makes the choice free at each call. *)
Variable os_malloc : Z -> gmap Z (list Z) -> Z -> Z.

Record tcp_server := mk_tcp_server {
  g_cfg : tcp_server_config;
  g_tx_rb : lwrb;
  heap : gmap Z (list Z);
  tcp_rns_decoder : decoder;
  rf_tcp_dropped : Z;
  tcps_held : Z;
  tcps_beat : Z;
  tcps_recv_ok : Z;
  tcps_last_err : Z;
  tx_throttle_ms : Z;                (* locals of the client loop *)
  held_nb : option (list (list Z));
  held_chunk : Z;
  held_ofs : Z;
  world : W;
}.
#[export] Instance eta_tcp_server : Eta tcp_server := fun s =>
  mk_tcp_server (g_cfg s) (g_tx_rb s) (heap s) (tcp_rns_decoder s) (rf_tcp_dropped s) (tcps_held s) (tcps_beat s)
    (tcps_recv_ok s) (tcps_last_err s) (tx_throttle_ms s) (held_nb s) (held_chunk s) (held_ofs s) (world s).

(** ** Settings *)

Definition tcp_server_ip_allowed (addr : Z) (s : tcp_server) : bool :=
  let wl_mask := whitelist_mask (g_cfg s) in
  if wl_mask =? 0 then true else Z.land addr wl_mask =? Z.land (whitelist_ip (g_cfg s)) wl_mask.

Definition tcp_server_config_load {D} `{Kvdb D} (d : D) : tcp_server_config :=
  let '(r1, en) := configdb_get_i8 "cfg.tcps.enabled" 0 d in
  let '(r2, p) := configdb_get_i16 "cfg.tcps.port" 0 d in
  let '(r3, ip) := configdb_get_i32 "cfg.tcps.wlst_ip" (Some 0) d in
  let '(r4, m) := configdb_get_i32 "cfg.tcps.wlst_mask" (Some 0) d in
  mk_tcp_config (if r1 =? 0 then negb (en =? 0) else true) (if r2 =? 0 then u16 p else 4242)
    (if r3 =? 0 then u32 (default 0 ip) else 0) (if r4 =? 0 then u32 (default 0 m) else 0).

Definition tcp_server_config_apply (c : tcp_server_config) (s : tcp_server) : tcp_server := s <| g_cfg := c |>.

Definition tcp_server_config_save {D} `{Kvdb D} (c : tcp_server_config) (d : D) (s : tcp_server) : D * tcp_server :=
  let d := (configdb_set_i8 "cfg.tcps.enabled" (Some (if enabled c then 1 else 0)) d).2 in
  let d := (configdb_set_i16 "cfg.tcps.port" (Some (i16 (port c))) d).2 in
  let d := (configdb_set_i32 "cfg.tcps.wlst_ip" (Some (i32 (whitelist_ip c))) d).2 in
  let d := (configdb_set_i32 "cfg.tcps.wlst_mask" (Some (i32 (whitelist_mask c))) d).2 in
  (d, s <| g_cfg := c |>).

Definition tcp_server_init {D} `{Kvdb D} (d : D) (s : tcp_server) : D * tcp_server :=
  let s := s <| g_tx_rb := lwrb_init (replicate (Z.to_nat (TCP_SERVER_RF_TO_TCP_BUFF_COUNT * 8)) 0) |> in
  let c := tcp_server_config_load d in
  tcp_server_config_save c d (tcp_server_config_apply c s).

(** ** Frames for the client *)

Definition os_free (p : Z) (s : tcp_server) : option tcp_server :=
  match heap s !! p with
  | Some _ => Some (s <| heap ::= delete p |>)
  | None => None
  end.

Definition tcp_server_push_owned_locked (os_buf len : Z) (s : tcp_server) : option (Z * tcp_server) :=
  if lwrb_get_free (g_tx_rb s) <? 8 then s ← os_free os_buf s; Some (-1, s)
  else
    '(writen, rb) ← lwrb_write (g_tx_rb s) (rb_tx_package os_buf len);
    let s := s <| g_tx_rb := rb |> in
    if negb (writen =? 8) then s ← os_free os_buf s; Some (-4, s) else Some (0, s).

(** [locked]: [os_mutex_lock(_, 0)] got the mutex. *)
Definition tcp_server_send_owned (locked : bool) (os_buf len : Z) (s : tcp_server) : option (Z * tcp_server) :=
  if os_buf =? 0 then Some (-2, s)
  else if negb locked then s ← os_free os_buf s; Some (-3, s)
  else tcp_server_push_owned_locked os_buf len s.

(** [a] selects the allocator's answer. *)
Definition tcp_server_send (locked : bool) (a : Z) (data : list Z) (s : tcp_server) : option (Z * tcp_server) :=
  let buf := os_malloc a (heap s) (Z.of_nat (length data)) in
  if buf =? 0 then Some (-2, s)
  else tcp_server_send_owned locked buf (Z.of_nat (length data)) (s <| heap ::= <[buf := data]> |>).

(** A reader's [lwrb_read] of one package under the mutex. *)
Definition tx_pop (s : tcp_server) : option (option (Z * Z) * tcp_server) :=
  '(b, rb) ← lwrb_read (g_tx_rb s) 8;
  let s := s <| g_tx_rb := rb |> in
  Some (if decide (length b = 8%nat) then Some (pkg_data b, pkg_len b) else None, s).

Fixpoint queue_drain (fuel : nat) (s : tcp_server) : option tcp_server :=
  match fuel with
  | O => None
  | S fuel =>
      '(o, s) ← tx_pop s;
      match o with
      | None => Some s
      | Some (data, _) =>
          s ← (if negb (data =? 0) then os_free data s else Some s);
          queue_drain fuel s
      end
  end.
Definition tcp_server_tx_queue_clear (s : tcp_server) : option tcp_server :=
  s ← queue_drain (S (Z.to_nat (rb_size (g_tx_rb s)))) s;
  Some (s <| g_tx_rb ::= lwrb_reset |>).

(** The write loop of one package: the bytes written.  [fuel] covers every
    byte and every run of [ERR_WOULDBLOCK]. *)
Fixpoint write_loop (fuel : nat) (buf : list Z) (offset wb_cnt : Z) (w : W) : option (Z * W) :=
  match fuel with
  | O => None
  | S fuel =>
      if negb (offset <? Z.of_nat (length buf)) then Some (offset, w)
      else
        let '(err, written, w) := netconn_write_partly (drop (Z.to_nat offset) buf) w in
        let '(offset, wb_cnt) := if 0 <? written then (offset + written, 0) else (offset, wb_cnt) in
        if err =? ERR_OK then write_loop fuel buf offset wb_cnt w
        else if err =? ERR_WOULDBLOCK then
          if TCP_SERVER_SEND_STALL_LIMIT_MS <? wb_cnt + 1 then Some (offset, w)
          else write_loop fuel buf offset (wb_cnt + 1) w
        else Some (offset, w)
  end.
Definition write_fuel (buf : list Z) : nat := S (S (length buf) * S (Z.to_nat (TCP_SERVER_SEND_STALL_LIMIT_MS + 1))).

(** A producer's call: the allocator's choice, the frame, and whether the
    producer got the mutex. *)
Definition tcp_send_event : Type := Z * list Z * bool.
Fixpoint producers (es : list tcp_send_event) (s : tcp_server) : option (list (list Z * Z) * tcp_server) :=
  match es with
  | [] => Some ([], s)
  | (a, data, locked) :: es =>
      '(r, s) ← tcp_server_send locked a data s;
      '(rs, s) ← producers es s;
      Some ((data, r) :: rs, s)
  end.

(** The burst: at most [n] packages; [inter] is what the producers do while
    the mutex is free. *)
Fixpoint burst (n : nat) (inter : list (list tcp_send_event)) (s : tcp_server)
    : option (list (list Z * Z) * tcp_server) :=
  match n with
  | O => Some ([], s)
  | S n =>
      '(o, s) ← tx_pop s;
      '(rs, s) ← producers (hd [] inter) s;
      match o with
      | None => Some (rs, s)
      | Some (data, len) =>
          buf ← heap s !! data;
          b ← rd_n buf 0 len;
          '(offset, w) ← write_loop (write_fuel b) b 0 0 (world s);
          s ← os_free data (s <| world := w |>);
          if offset <? len then Some (rs, s <| rf_tcp_dropped ::= fun n => u32 (n + 1) |>)
          else
            '(rs', s) ← burst n (tl inter) s;
            Some (rs ++ rs', s)
      end
  end.

(** ** Bytes from the client *)

(** [tcp_to_halow_send]: the result and [*consumed]. *)
Definition tcp_to_halow_send (data : list Z) (len : Z) (d : decoder) (w : W) : option (Z * Z * decoder * W) :=
  if len =? 0 then Some (-200, 0, d, w)
  else
    data ← rd_n data 0 (u16 len);
    rns_stream_decoder_process (Some rns_tcp_rx_handler) d data w.

(** [tcp_server_feed_netbuf] on the chunks from number [ci] on: the result,
    and the cursor [(chunk, ofs)]. *)
Fixpoint feed_netbuf (ci : Z) (nb : list (list Z)) (chunk ofs : Z) (d : decoder) (w : W)
    : option (Z * Z * Z * decoder * W) :=
  match nb with
  | [] => Some (0, chunk, ofs, d, w)
  | data :: nb =>
      let dlen := Z.of_nat (length data) in
      if (chunk <? ci) || ((ci =? chunk) && (ofs <? dlen)) then
        let n := u16 (dlen - ofs) in
        bytes ← rd_n data ofs n;
        '(r, consumed, d, w) ← tcp_to_halow_send bytes n d w;
        if r =? HALOW_ACK_TX_THROTTLE then
          let adv := if dlen - ofs <? consumed then dlen - ofs else consumed in
          let ofs := u16 (ofs + adv) in
          if dlen <=? ofs then Some (r, u16 (ci + 1), 0, d, w) else Some (r, chunk, ofs, d, w)
        else feed_netbuf (u16 (ci + 1)) nb (u16 (ci + 1)) 0 d w
      else feed_netbuf (u16 (ci + 1)) nb chunk ofs d w
  end.
Definition tcp_server_feed_netbuf (nb : list (list Z)) (chunk ofs : Z) (s : tcp_server)
    : option (Z * Z * Z * tcp_server) :=
  '(r, chunk, ofs, d, w) ← feed_netbuf 0 nb chunk ofs (tcp_rns_decoder s) (world s);
  Some (r, chunk, ofs, s <| tcp_rns_decoder := d |> <| world := w |>).

Definition rns_tcp_session_reset (s : tcp_server) : tcp_server := s <| tcp_rns_decoder ::= rns_stream_decoder_reset |>.
Definition rns_tcp_retry_held (s : tcp_server) : tcp_server :=
  let '(_, d, w) := rns_stream_decoder_retry_held (Some rns_tcp_rx_handler) (tcp_rns_decoder s) (world s) in
  s <| tcp_rns_decoder := d |> <| world := w |>.

(** ** The client loop *)

Definition note_feed (r : Z) (s : tcp_server) : tcp_server :=
  if r <? 0 then s <| tx_throttle_ms := TCP_SERVER_TX_THROTTLE_MS |> else s.

(** The part of one iteration after the burst: [false] leaves the loop. *)
Definition client_rx (s : tcp_server) : option (bool * tcp_server) :=
  if 0 <? tx_throttle_ms s then Some (true, s <| tx_throttle_ms ::= fun n => n - 1 |>)
  else
    let s := s <| tcps_held := match held_nb s with Some _ => 1 | None => 0 end |> in
    match held_nb s with
    | Some nb =>
        '(r, chunk, ofs, s) ← tcp_server_feed_netbuf nb (held_chunk s) (held_ofs s) s;
        if r =? HALOW_ACK_TX_THROTTLE then Some (true, s <| held_chunk := chunk |> <| held_ofs := ofs |>)
        else Some (true, note_feed r s <| held_nb := None |>)
    | None =>
        let '(ready, w) := ack_tx_ready (world s) in
        let s := s <| world := w |> in
        if negb ready then Some (true, rns_tcp_retry_held s)
        else
          let s := s <| tcps_beat ::= fun n => u32 (n + 1) |> in
          let '(err, nb, w) := netconn_recv (world s) in
          let s := s <| world := w |> in
          if err =? ERR_WOULDBLOCK then Some (true, s <| world ::= ack_flush |>)
          else
            match (if err =? ERR_OK then nb else None) with
            | None => Some (false, s <| tcps_last_err := err |>)
            | Some nb =>
                let s := s <| tcps_recv_ok ::= fun n => u32 (n + 1) |> in
                '(r, chunk, ofs, s) ← tcp_server_feed_netbuf nb 0 0 s;
                if r =? HALOW_ACK_TX_THROTTLE
                then Some (true, s <| held_nb := Some nb |> <| held_chunk := chunk |> <| held_ofs := ofs |>)
                else Some (true, note_feed r s)
            end
    end.

Definition client_iter (inter : list (list tcp_send_event)) (s : tcp_server)
    : option (list (list Z * Z) * bool * tcp_server) :=
  if negb (enabled (g_cfg s)) then Some ([], false, s)
  else
    '(rs, s) ← burst 4 inter s;
    '(go, s) ← client_rx s;
    Some (rs, go, s).

(** [tcp_server_task] accepts a client: [false] is a client turned away. *)
Definition accept_client (addr : Z) (s : tcp_server) : option (bool * tcp_server) :=
  if negb (tcp_server_ip_allowed addr s) then Some (false, s)
  else
    s ← tcp_server_tx_queue_clear s;
    Some (true, rns_tcp_session_reset s <| tx_throttle_ms := 0 |> <| held_nb := None |> <| held_chunk := 0 |> <| held_ofs := 0 |>).

(** After the loop: the held netbuf is released, the queue emptied. *)
Definition close_client (s : tcp_server) : option tcp_server := tcp_server_tx_queue_clear (s <| held_nb := None |>).

(** ** One session

    Producers at any time, and iterations of the client loop with what the
    producers do while the loop has released the mutex. *)
Inductive session_event :=
  | Producers (es : list tcp_send_event)
  | Iterate (inter : list (list tcp_send_event)).

Definition session_step (e : session_event) (s : tcp_server) : option (list (list Z * Z) * tcp_server) :=
  match e with
  | Producers es => producers es s
  | Iterate inter => '(rs, _, s) ← client_iter inter s; Some (rs, s)
  end.
Fixpoint session (es : list session_event) (s : tcp_server) : option (list (list Z * Z) * tcp_server) :=
  match es with
  | [] => Some ([], s)
  | e :: es =>
      '(rs, s) ← session_step e s;
      '(rs', s) ← session es s;
      Some (rs ++ rs', s)
  end.
End TcpServer.
Arguments tcp_server W : clear implicits.

(** ** What the layers around promise

    [accepted], [received] and [wire] observe the world: the frames the radio
    path took, the bytes lwIP handed out, the bytes it sent.  A refused frame
    may come back rewritten in place, to a [same] one. *)
Record tcp_world {W} `{TcpEnv W} (same : list Z -> list Z -> Prop) (accepted : W -> list (list Z))
    (received wire : W -> list Z) : Prop := {
  tw_same : PreOrder same;
  tw_same_length a b : same a b -> length a = length b;
  tw_handler fr w r fr' w' : rns_tcp_rx_handler fr w = (r, fr', w') ->
    received w' = received w /\ wire w' = wire w /\
    (if r =? HALOW_ACK_TX_THROTTLE then accepted w' = accepted w /\ same fr fr' else accepted w' = accepted w ++ [fr]);
  tw_ready w : accepted (ack_tx_ready w).2 = accepted w /\ received (ack_tx_ready w).2 = received w /\
    wire (ack_tx_ready w).2 = wire w;
  tw_flush w : accepted (ack_flush w) = accepted w /\ received (ack_flush w) = received w /\ wire (ack_flush w) = wire w;
  (** a netbuf has no empty chunk, and lengths that fit 16 bits *)
  tw_recv w err nb w' : netconn_recv w = (err, nb, w') ->
    accepted w' = accepted w /\ wire w' = wire w /\
    received w' = received w ++ (if err =? ERR_OK then concat (default [] nb) else []) /\
    (forall l, nb = Some l -> Forall (fun c => c <> [] /\ Z.of_nat (length c) < 2 ^ 16) l /\ Z.of_nat (length l) < 2 ^ 16 - 1);
  (** [ERR_OK] is progress *)
  tw_write buf w err n w' : buf <> [] -> netconn_write_partly buf w = (err, n, w') ->
    0 <= n <= Z.of_nat (length buf) /\ (err = ERR_OK -> 0 < n) /\
    accepted w' = accepted w /\ received w' = received w /\ wire w' = wire w ++ take (Z.to_nat n) buf;
}.

Section Feed.
Context {W : Type} `{TcpEnv W} {same : list Z -> list Z -> Prop} {accepted : W -> list (list Z)} {received wire : W -> list Z}.
Hypothesis world_ok : tcp_world same accepted received wire.
#[local] Abbreviation cb := (Some (@rns_tcp_rx_handler W _)).

Definition unmoved (w w' : W) : Prop := received w' = received w /\ wire w' = wire w.

(** The decoder as if its held frame had been taken, and the frames taken then. *)
Definition vdec (d : decoder) : decoder := if held d then start_frame (d <| held := false |>) else d.
Definition vlog (d : decoder) (w : W) : list (list Z) := accepted w ++ if held d then [frame d] else [].
Definition dec_ok (d : decoder) : Prop := held d = true -> frame d <> [].

(** [d'], [w'] are [d], [w] after the bytes [taken]. *)
Definition progress (taken : list Z) (d : decoder) (w : W) (d' : decoder) (w' : W) : Prop :=
  dec_ok d' /\ exists new new', Forall2 same new new' /\
    (forall fs, acc_feed (vdec d) taken fs = (vdec d', fs ++ new)) /\
    (exists old, Forall2 same (vlog d w) old /\ vlog d' w' = old ++ new').
Definition moved (taken : list Z) (d : decoder) (w : W) (d' : decoder) (w' : W) : Prop :=
  unmoved w w' /\ progress taken d w d' w'.

Lemma same_refl a : same a a.
Proof using world_ok. apply (tw_same _ _ _ _ world_ok). Qed.
Lemma Forall2_same_refl l : Forall2 same l l.
Proof using world_ok. apply Forall2_same_length_lookup_2; [done|]. intros i x y Hx Hy. simplify_eq. apply same_refl. Qed.
Lemma Forall2_same_trans l1 l2 l3 : Forall2 same l1 l2 -> Forall2 same l2 l3 -> Forall2 same l1 l3.
Proof using world_ok. pose proof (tw_same _ _ _ _ world_ok). intros. by transitivity l2. Qed.

Lemma progress_trans t1 t2 d w d1 w1 d2 w2 : progress t1 d w d1 w1 -> progress t2 d1 w1 d2 w2 -> progress (t1 ++ t2) d w d2 w2.
Proof using world_ok.
  intros (_ & n1 & n1' & Hn1 & A1 & o1 & Ho1 & L1) (Hk & n2 & n2' & Hn2 & A2 & o2 & Ho2 & L2).
  split; [done|]. rewrite L1 in Ho2. apply Forall2_app_inv_l in Ho2 as (oa & ob & Hoa & Hob & ->).
  exists (n1 ++ n2), (ob ++ n2'). split; [apply Forall2_app; [|done]; by eapply Forall2_same_trans|]. split.
  - intros fs. rewrite acc_feed_app, A1, A2. by rewrite app_assoc.
  - exists oa. split; [by eapply Forall2_same_trans|]. by rewrite L2, app_assoc.
Qed.
Lemma moved_trans t1 t2 d w d1 w1 d2 w2 : moved t1 d w d1 w1 -> moved t2 d1 w1 d2 w2 -> moved (t1 ++ t2) d w d2 w2.
Proof using world_ok.
  intros [[U1 U2] P1] [[U3 U4] P2]. split; [split; congruence|]. by eapply progress_trans.
Qed.

(** A step of the world that accepts nothing. *)
Lemma progress_nil d w w' : dec_ok d -> accepted w' = accepted w -> progress [] d w d w'.
Proof using world_ok.
  intros Hd Ha. split; [done|]. exists [], []. split; [constructor|]. split.
  - intros fs. unfold acc_feed. cbn. by rewrite app_nil_r.
  - exists (vlog d w). split; [apply Forall2_same_refl|]. unfold vlog. by rewrite app_nil_r, Ha.
Qed.
Lemma moved_nil d w : dec_ok d -> moved [] d w d w.
Proof using world_ok.
  intros Hd. split; [done|]. by apply progress_nil.
Qed.

(** One byte of the decoder. *)
Lemma byte_moved b d w : held d = false ->
  match generic_byte cb b d w with
  | inl (d', w') => held d' = false /\ moved [b] d w d' w'
  | inr (r, d', w') => r = HALOW_ACK_TX_THROTTLE /\ held d' = true /\ moved [b] d w d' w'
  end.
Proof using world_ok.
  intros Hh.
  assert (Hplain : forall d', held d' = false -> (forall fs, generic_byte (Some accept_cb) b d fs = inl (d', fs)) ->
    held d' = false /\ moved [b] d w d' w).
  { intros d' Hh' Hb. split; [done|]. split; [done|]. split; [intros ?; congruence|]. exists [], []. split; [constructor|]. split.
    - intros fs. unfold vdec. rewrite Hh, Hh', acc_feed_cons, Hb, app_nil_r. done.
    - exists (vlog d w). split; [apply Forall2_same_refl|]. unfold vlog. by rewrite Hh, Hh', !app_nil_r. }
  unfold generic_byte in *. destruct (b =? RNS_STREAM_FLAG) eqn:Hflag.
  - destruct (bool_decide _ && _) eqn:Hc; [|apply Hplain; [by destruct d|done]].
    apply andb_true_iff in Hc as [Hst%bool_decide_eq_true Hl%Z.ltb_lt].
    assert (Hacc : forall fs, acc_feed d [b] fs = (start_frame d, fs ++ [frame d])).
    { intros fs. apply Z.eqb_eq in Hflag as ->. rewrite acc_feed_flag, bool_decide_true by done. by rewrite (proj2 (Z.ltb_lt _ _)). }
    unfold rns_stream_emit_frame. rewrite (proj2 (Z.eqb_neq _ 0)) by lia.
    destruct (rns_tcp_rx_handler (frame d) w) as [[r fr'] w'] eqn:Ecb.
    destruct (tw_handler _ _ _ _ world_ok _ _ _ _ _ Ecb) as (R & X & A). apply frame_len_pos in Hl.
    destruct (Z.eqb_spec r HALOW_ACK_TX_THROTTLE) as [->|Hr].
    + destruct A as [A S]. split; [done|]. rsimpl. split; [done|]. split; [done|]. split; [intros _; rsimpl; intros ->; apply (tw_same_length _ _ _ _ world_ok) in S; destruct (frame d); done|].
      exists [frame d], [fr']. split; [by constructor|]. split.
      * intros fs. unfold vdec. rewrite Hh. rsimpl. rewrite Hacc. destruct d. cbn in Hh. by subst.
      * exists (vlog d w). split; [apply Forall2_same_refl|]. unfold vlog. rewrite Hh. rsimpl. by rewrite A, app_nil_r.
    + split; [by destruct d|]. split; [done|]. split; [by destruct d; cbn in *; subst|]. exists [frame d], [frame d].
      split; [apply Forall2_same_refl|]. split.
      * intros fs. unfold vdec. rewrite Hh, Hacc. destruct d. cbn in Hh. by subst.
      * exists (vlog d w). split; [apply Forall2_same_refl|]. unfold vlog. rewrite Hh. unfold start_frame. rsimpl. rewrite Hh.
        by rewrite A, !app_nil_r.
  - destruct (state d); repeat case_match; apply Hplain; unfold resync; rsimpl; done.
Qed.

Lemma feed_moved src : forall d w, held d = false ->
  match feed cb d src w with (r, rest, d', w') => exists taken, src = taken ++ rest /\ moved taken d w d' w' /\
    ((r = 0 /\ rest = [] /\ held d' = false) \/ (r = HALOW_ACK_TX_THROTTLE /\ held d' = true)) end.
Proof using world_ok.
  induction src as [|b src IH]; intros d w Hh; cbn [feed].
  { exists []. split; [done|]. split; [apply moved_nil; intros ?; congruence|by left]. }
  pose proof (byte_moved b d w Hh) as Hb. destruct (generic_byte cb b d w) as [[d1 w1]|[[r d1] w1]].
  - destruct Hb as [Hh1 Hm]. specialize (IH d1 w1 Hh1). destruct (feed cb d1 src w1) as [[[r rest] d'] w'].
    destruct IH as (t & -> & Hm' & Hr). exists (b :: t). split; [done|]. split; [|done]. apply (moved_trans [b] t _ _ _ _ _ _ Hm Hm').
  - destruct Hb as (-> & Hh1 & Hm). exists [b]. split; [done|]. split; [done|]. by right.
Qed.

(** The retry of a held frame. *)
Lemma emit_held_moved d w : held d = true -> dec_ok d ->
  match rns_stream_emit_frame cb d w with (r, d1, w1) =>
    if r =? HALOW_ACK_TX_THROTTLE then held d1 = true /\ moved [] d w d1 w1
    else held (start_frame (d1 <| held := false |>)) = false /\ moved [] d w (start_frame (d1 <| held := false |>)) w1 end.
Proof using world_ok.
  intros Hh Hok. unfold rns_stream_emit_frame. specialize (Hok Hh). rewrite (proj2 (Z.eqb_neq _ 0)).
  2: { pose proof (proj1 (frame_len_pos d) Hok). lia. }
  destruct (rns_tcp_rx_handler (frame d) w) as [[r fr'] w'] eqn:Ecb.
  destruct (tw_handler _ _ _ _ world_ok _ _ _ _ _ Ecb) as (R & X & A). destruct (Z.eqb_spec r HALOW_ACK_TX_THROTTLE) as [->|Hr].
  - destruct A as [A S]. rsimpl. split; [done|]. split; [done|]. split; [intros _; rsimpl; intros ->; apply (tw_same_length _ _ _ _ world_ok) in S; destruct (frame d); done|].
    exists [], []. split; [constructor|]. split.
    + intros fs. unfold acc_feed, vdec. cbn. rewrite Hh. rsimpl. rewrite Hh, app_nil_r. by destruct d.
    + exists (accepted w ++ [fr']). unfold vlog. rsimpl. rewrite Hh, A, app_nil_r. split; [|done].
      apply Forall2_app; [apply Forall2_same_refl|by constructor].
  - split; [by destruct d|]. split; [done|]. split; [by destruct d|]. exists [], []. split; [constructor|]. split.
    + intros fs. unfold acc_feed, vdec. cbn. rewrite Hh, app_nil_r. unfold start_frame. rsimpl. by destruct d.
    + exists (vlog d w). split; [apply Forall2_same_refl|]. unfold vlog, start_frame. rsimpl. by rewrite Hh, A, app_nil_r.
Qed.

(** A call of the decoder takes a prefix, all of it unless it throttles. *)
Lemma process_moved d data w : dec_ok d ->
  exists r c d' w', rns_stream_decoder_process cb d data w = Some (r, c, d', w') /\
    0 <= c <= Z.of_nat (length data) /\ moved (take (Z.to_nat c) data) d w d' w' /\
    ((r = 0 /\ (data <> [] -> c = Z.of_nat (length data)) /\ (data <> [] -> held d' = false)) \/ (r = HALOW_ACK_TX_THROTTLE /\ held d' = true)).
Proof using world_ok.
  intros Hok. unfold rns_stream_decoder_process. case_decide as Hd.
  { eexists _, _, _, _. split; [done|]. split; [lia|]. subst. split; [by apply moved_nil|by left]. }
  assert (Hgo : forall d0 w0, moved [] d w d0 w0 -> held d0 = false -> exists r c d' w',
    ('(r, rest, d, w) ← process_loop cb (length data) d0 data w0;
     Some (r, Z.of_nat (length data) - Z.of_nat (length rest), d, w)) = Some (r, c, d', w') /\
    0 <= c <= Z.of_nat (length data) /\ moved (take (Z.to_nat c) data) d w d' w' /\
    ((r = 0 /\ (data <> [] -> c = Z.of_nat (length data)) /\ (data <> [] -> held d' = false)) \/ (r = HALOW_ACK_TX_THROTTLE /\ held d' = true))).
  { intros d0 w0 Hm Hh. rewrite process_loop_feed by done. cbn [mbind option_bind]. pose proof (feed_moved data d0 w0 Hh) as Hf.
    destruct (feed cb d0 data w0) as [[[r rest] d'] w']. destruct Hf as (t & Et & Hm' & Hr). eexists _, _, _, _. split; [done|].
    rewrite Et, length_app. split; [lia|]. split.
    - replace (Z.to_nat _) with (length t) by lia. rewrite take_app_length. apply (moved_trans [] t _ _ _ _ _ _ Hm Hm').
    - destruct Hr as [(-> & -> & Hh')|Hr]; [left|by right]. cbn. split; [done|]. split; [lia|done]. }
  destruct (held d) eqn:Hh; [|by apply Hgo; [apply moved_nil|]].
  pose proof (emit_held_moved d w Hh Hok) as He. destruct (rns_stream_emit_frame cb d w) as [[r d1] w1].
  destruct (Z.eqb_spec r HALOW_ACK_TX_THROTTLE) as [->|Hr].
  - cbn. eexists _, _, _, _. split; [done|]. split; [lia|]. split; [apply He|]. right. by split; [|apply He].
  - cbn [Z.eqb]. change (0 =? HALOW_ACK_TX_THROTTLE) with false. cbv iota beta. destruct He as [Hh' Hm]. by apply Hgo.
Qed.
(** ** The cursor in a netbuf *)

Definition netbuf_ok (nb : list (list Z)) : Prop :=
  Forall (fun c => c <> [] /\ Z.of_nat (length c) < 2 ^ 16) nb /\ Z.of_nat (length nb) < 2 ^ 16 - 1.
Definition ofs_ok (nb : list (list Z)) (ofs : Z) : Prop :=
  0 <= ofs /\ match nb with [] => ofs = 0 | c :: _ => ofs < Z.of_nat (length c) end.
(** The bytes behind the cursor. *)
Definition behind (nb : list (list Z)) (chunk ofs : Z) : list Z :=
  drop (Z.to_nat ofs) (concat (drop (Z.to_nat chunk) nb)).
Definition cursor_ok (nb : list (list Z)) (chunk ofs : Z) : Prop :=
  0 <= chunk <= Z.of_nat (length nb) /\ ofs_ok (drop (Z.to_nat chunk) nb) ofs.

Lemma feed_from nb : forall ci ofs d w, Forall (fun c => c <> [] /\ Z.of_nat (length c) < 2 ^ 16) nb -> ofs_ok nb ofs ->
  0 <= ci -> ci + Z.of_nat (length nb) < 2 ^ 16 -> dec_ok d ->
  exists r k ofs' d' w' taken, feed_netbuf ci nb ci ofs d w = Some (r, ci + k, ofs', d', w') /\ moved taken d w d' w' /\
    cursor_ok nb k ofs' /\ drop (Z.to_nat ofs) (concat nb) = taken ++ behind nb k ofs' /\
    ((r = 0 /\ behind nb k ofs' = []) \/ r = HALOW_ACK_TX_THROTTLE).
Proof using world_ok.
  induction nb as [|data nb IH]; intros ci ofs d w Hnb [Ho1 Ho2] Hci Hlen Hd; cbn [feed_netbuf].
  { subst ofs. exists 0, 0, 0, d, w, []. rewrite Z.add_0_r. split; [done|]. split; [by apply moved_nil|].
    split; [split; [cbn; lia|split; [lia|done]]|]. split; [done|]. by left. }
  apply Forall_cons in Hnb as [[Hne Hl] Hnb]. cbn [length] in Hlen.
  rewrite Z.ltb_irrefl, Z.eqb_refl, (proj2 (Z.ltb_lt _ _) Ho2). cbn [orb andb].
  rewrite (u16_small (_ - ofs)) by word_lia. rewrite rd_n_in_bounds by lia.
  rewrite take_ge by (rewrite length_drop; lia). cbn [mbind option_bind].
  set (bytes := drop (Z.to_nat ofs) data). assert (Hb : Z.of_nat (length bytes) = Z.of_nat (length data) - ofs) by (unfold bytes; rewrite length_drop; lia).
  assert (Hsplit : drop (Z.to_nat ofs) (concat (data :: nb)) = bytes ++ concat nb) by (cbn [concat]; apply drop_app_le; lia).
  unfold tcp_to_halow_send. rewrite (proj2 (Z.eqb_neq _ 0)) by lia. rewrite (u16_small (_ - ofs)) by word_lia.
  rewrite rd_n_in_bounds by lia. change (Z.to_nat 0) with 0%nat. rewrite drop_0, take_ge by lia. cbn [mbind option_bind].
  destruct (process_moved d bytes w Hd) as (r & c & d1 & w1 & -> & Hc & Hm & Hr). cbn [mbind option_bind].
  assert (Hbn : bytes <> []) by (intros E; rewrite E in Hb; cbn in Hb; lia).
  destruct Hr as [(-> & Hall & Hh)|(-> & Hh)].
  - change (0 =? HALOW_ACK_TX_THROTTLE) with false. cbv iota. rewrite u16_small by word_lia.
    rewrite Hall, Nat2Z.id, firstn_all in Hm by done.
    destruct (IH (ci + 1) 0 d1 w1) as (r & k & ofs' & d2 & w2 & t & -> & Hm2 & [Hk Hok] & E & Hr); [done| |lia|lia| |].
    { split; [lia|]. destruct nb as [|c0 nb]; [done|]. apply Forall_cons in Hnb as [[Hc0 _] _]. destruct c0; [done|cbn; lia]. }
    { intros E. specialize (Hh Hbn). congruence. }
    exists r, (1 + k), ofs', d2, w2, (bytes ++ t). split; [by replace (ci + (1 + k)) with (ci + 1 + k) by lia|]. split; [by eapply moved_trans|].
    assert (Hdrop : drop (Z.to_nat (1 + k)) (data :: nb) = drop (Z.to_nat k) nb) by (by replace (Z.to_nat (1 + k)) with (S (Z.to_nat k)) by lia).
    split; [split; [cbn [length]; lia|by rewrite Hdrop]|]. unfold behind in *. rewrite Hdrop. split; [|done].
    rewrite Hsplit, <-app_assoc. f_equal. exact E.
  - rewrite Z.eqb_refl. destruct (Z.ltb_spec (Z.of_nat (length data) - ofs) c); [lia|].
    rewrite (u16_small (ofs + c)) by word_lia. destruct (Z.leb_spec (Z.of_nat (length data)) (ofs + c)).
    + rewrite u16_small by word_lia. exists HALOW_ACK_TX_THROTTLE, 1, 0, d1, w1, bytes. split; [done|].
      rewrite take_ge in Hm by lia. split; [done|]. unfold cursor_ok, behind. change (drop (Z.to_nat 1) (data :: nb)) with nb.
      change (Z.to_nat 0) with 0%nat. rewrite drop_0. split; [split; [cbn [length]; lia|]|split; [done|by right]].
      split; [lia|]. destruct nb as [|c0 nb]; [done|]. apply Forall_cons in Hnb as [[Hc0 _] _]. destruct c0; [done|cbn; lia].
    + exists HALOW_ACK_TX_THROTTLE, 0, (ofs + c), d1, w1, (take (Z.to_nat c) bytes). rewrite Z.add_0_r. split; [done|]. split; [done|].
      unfold cursor_ok, behind. change (Z.to_nat 0) with 0%nat. rewrite drop_0. split; [split; [cbn [length]; lia|split; lia]|split; [|by right]].
      rewrite Hsplit. cbn [concat]. rewrite (drop_app_le data) by lia. rewrite app_assoc. f_equal.
      rewrite Z2Nat.inj_add, <-drop_drop by lia. fold bytes. by rewrite take_drop.
Qed.

Lemma feed_skip pre nb : forall ci chunk ofs d w, chunk = ci + Z.of_nat (length pre) -> 0 <= ci -> chunk < 2 ^ 16 ->
  feed_netbuf ci (pre ++ nb) chunk ofs d w = feed_netbuf chunk nb chunk ofs d w.
Proof using.
  induction pre as [|c pre IH]; intros ci chunk ofs d w Hc Hci Hlt; cbn [length] in Hc; cbn [app feed_netbuf].
  { by replace ci with chunk by lia. }
  rewrite (proj2 (Z.ltb_ge _ _)), (proj2 (Z.eqb_neq _ _)) by lia. cbn [orb andb]. rewrite u16_small by word_lia.
  apply IH; lia.
Qed.

(** Feeding a netbuf from its cursor: the bytes taken and those left behind
    are the bytes that were there. *)
Lemma feed_netbuf_moved nb chunk ofs s : netbuf_ok nb -> cursor_ok nb chunk ofs -> dec_ok (tcp_rns_decoder s) ->
  exists r chunk' ofs' d' w' taken, tcp_server_feed_netbuf nb chunk ofs s =
      Some (r, chunk', ofs', s <| tcp_rns_decoder := d' |> <| world := w' |>) /\
    moved taken (tcp_rns_decoder s) (world s) d' w' /\ cursor_ok nb chunk' ofs' /\
    behind nb chunk ofs = taken ++ behind nb chunk' ofs' /\
    ((r = 0 /\ behind nb chunk' ofs' = []) \/ r = HALOW_ACK_TX_THROTTLE).
Proof using world_ok.
  intros [Hnb Hlen] [Hch Ho] Hd. unfold tcp_server_feed_netbuf.
  assert (Hl : Z.of_nat (length (take (Z.to_nat chunk) nb)) = chunk) by (rewrite length_take; lia).
  pose proof (feed_skip (take (Z.to_nat chunk) nb) (drop (Z.to_nat chunk) nb) 0 chunk ofs (tcp_rns_decoder s) (world s)) as Hs.
  rewrite take_drop in Hs. rewrite Hs by lia. clear Hs.
  destruct (feed_from (drop (Z.to_nat chunk) nb) chunk ofs (tcp_rns_decoder s) (world s)) as (r & k & ofs' & d' & w' & t & -> & Hm & [Hk Hok] & E & Hr);
    [by apply Forall_drop|done|lia|rewrite length_drop; lia|done|]. cbn [mbind option_bind].
  rewrite length_drop in Hk. unfold behind in *. rewrite drop_drop in *.
  replace (Z.to_nat chunk + Z.to_nat k)%nat with (Z.to_nat (chunk + k)) in * by lia.
  eexists _, _, _, _, _, t. split; [done|]. split; [done|]. split; [split; [lia|done]|]. done.
Qed.

End Feed.

(** ** The queue of packages *)

Lemma pkg_decode p n : is_u32 p -> is_u32 n ->
  length (rb_tx_package p n) = 8%nat /\ pkg_data (rb_tx_package p n) = p /\ pkg_len (rb_tx_package p n) = n.
Proof.
  intros Hp Hn. unfold rb_tx_package, pkg_data, pkg_len. rewrite length_app, !le32_length. split; [done|].
  rewrite (take_app_length' (le32 p)), (drop_app_length' (le32 p)) by (by rewrite le32_length).
  by rewrite !of_le32_u32.
Qed.

Section Queue.
Context {W : Type} `{TcpEnv W} {same : list Z -> list Z -> Prop} {accepted : W -> list (list Z)} {received wire : W -> list Z}.
Hypothesis world_ok : tcp_world same accepted received wire.
Context {os_malloc : Z -> gmap Z (list Z) -> Z -> Z}.
(** The allocator returns null or a fresh address. *)
Hypothesis malloc_fresh : forall a h n, os_malloc a h n <> 0 -> is_u32 (os_malloc a h n) /\ h !! os_malloc a h n = None.
#[local] Abbreviation st := (tcp_server W).

Definition package (x : Z * list Z) : list Z := rb_tx_package x.1 (Z.of_nat (length x.2)).
Definition package_ok (x : Z * list Z) : Prop := is_u32 x.1 /\ x.1 <> 0 /\ Z.of_nat (length x.2) < 2 ^ 32.

(** The ring holds the packages [q]; the client has [own] in hand; nothing
    else is allocated. *)
Record tx_inv (own q : list (Z * list Z)) (s : st) : Prop := {
  tx_ring : ring_ok (g_tx_rb s);
  tx_size : rb_size (g_tx_rb s) = 256;
  tx_list : rb_list (g_tx_rb s) = concat (package <$> q);
  tx_heap : heap s = list_to_map (own ++ q);
  tx_nodup : NoDup (own ++ q).*1;
  tx_ok : Forall package_ok (own ++ q);
}.

(** Operations of the transmit side change the ring, the heap, the drop
    counter and what was sent, nothing else. *)
Record tx_only (s s' : st) : Prop := {
  to_cfg : g_cfg s' = g_cfg s;
  to_dec : tcp_rns_decoder s' = tcp_rns_decoder s;
  to_thr : tx_throttle_ms s' = tx_throttle_ms s;
  to_nb : held_nb s' = held_nb s;
  to_chunk : held_chunk s' = held_chunk s;
  to_ofs : held_ofs s' = held_ofs s;
  to_accepted : accepted (world s') = accepted (world s);
  to_received : received (world s') = received (world s);
}.
#[local] Instance tx_only_preorder : PreOrder tx_only.
Proof. split; [by constructor|]. intros s1 s2 s3 [] []. constructor; congruence. Qed.

Lemma packages_length q : Forall package_ok q -> length (concat (package <$> q)) = (8 * length q)%nat.
Proof using.
  induction 1 as [|[p b] q [Hp [_ Hb]] _ IH]; [done|]. cbn [fmap list_fmap concat length]. rewrite length_app, IH.
  unfold package. cbn [fst snd] in *. destruct (pkg_decode p (Z.of_nat (length b))) as [-> _]; [done|split; lia|lia].
Qed.

Lemma tx_room own q s : tx_inv own q s -> lwrb_get_free (g_tx_rb s) = 255 - 8 * Z.of_nat (length q).
Proof using.
  intros [Hr Hs Hl _ _ Hok]. rewrite get_free_full, <-rb_list_length, Hl, packages_length, Hs by
    (done || by apply Forall_app in Hok as [_ Hok]). lia.
Qed.

(** What a send promises on the abstract queue of frames. *)
Definition queue_send (mem locked : bool) (data : list Z) (q : list (list Z)) : Z * list (list Z) :=
  if negb mem then (-2, q) else if negb locked then (-3, q)
  else if 31 <=? Z.of_nat (length q) then (-1, q) else (0, q ++ [data]).

Lemma free_top own p b (s : st) : heap s = list_to_map ((p, b) :: own) -> NoDup ((p, b) :: own).*1 ->
  exists s', os_free p s = Some s' /\ s' = s <| heap := list_to_map own |>.
Proof using.
  intros Hh Hnd. unfold os_free. rewrite Hh. cbn [list_to_map foldr fst snd]. rewrite lookup_insert_eq. eexists. split; [done|].
  assert (E : s <| heap ::= delete p |> = s <| heap := delete p (heap s) |>) by done. rewrite E, Hh. cbn [list_to_map foldr fst snd].
  f_equal. rewrite delete_insert_id; [done|]. apply not_elem_of_list_to_map_1. cbn in Hnd. by apply NoDup_cons in Hnd as [? _].
Qed.

Lemma send_spec own q s locked a data : tx_inv own q s -> Z.of_nat (length data) < 2 ^ 32 ->
  let mem := negb (os_malloc a (heap s) (Z.of_nat (length data)) =? 0) in
  exists q' s', tcp_server_send os_malloc locked a data s = Some ((queue_send mem locked data q.*2).1, s') /\
    tx_inv own q' s' /\ q'.*2 = (queue_send mem locked data q.*2).2 /\ tx_only s s' /\ world s' = world s /\
    rf_tcp_dropped s' = rf_tcp_dropped s.
Proof using malloc_fresh.
  intros Hi Hlen. cbv zeta. unfold tcp_server_send, queue_send. cbv zeta.
  destruct (Z.eqb_spec (os_malloc a (heap s) (Z.of_nat (length data))) 0) as [Hz|Hz]; cbn [negb].
  { by exists q, s. }
  destruct (malloc_fresh a (heap s) (Z.of_nat (length data)) Hz) as [Hu Hf]. set (p := os_malloc _ _ _) in *. clearbody p.
  unfold tcp_server_send_owned. rewrite (proj2 (Z.eqb_neq _ _) Hz).
  pose proof (tx_room _ _ _ Hi) as Hroom. destruct Hi as [Hr Hs Hl Hh Hnd Hok].
  assert (Hfree : exists s', os_free p (s <| heap ::= <[p := data]> |>) = Some s' /\ s' = s <| heap := heap s |>).
  { unfold os_free. rsimpl. rewrite lookup_insert_eq. eexists. split; [done|]. rewrite Hh in *.
    assert (E : delete p (<[p:=data]> (list_to_map (own ++ q) : gmap Z (list Z))) = list_to_map (own ++ q)) by (by apply delete_insert_id).
    destruct s. cbn in *. unfold set. cbn. by rewrite Hh, E. }
  assert (Hsame : tx_inv own q (s <| heap := heap s |>)) by (constructor; rsimpl; done).
  destruct locked; cbn [negb].
  2: { destruct Hfree as (s' & -> & ->). cbn [mbind option_bind]. exists q, (s <| heap := heap s |>). split; [done|].
       split; [done|]. split; [done|]. split; [constructor; by rsimpl|by rsimpl]. }
  unfold tcp_server_push_owned_locked. rsimpl. rewrite Hroom, length_fmap.
  destruct (Z.ltb_spec (255 - 8 * Z.of_nat (length q)) 8) as [Hfull|Hfits].
  { rewrite (proj2 (Z.leb_le _ _)) by lia. destruct Hfree as (s' & -> & ->). cbn [mbind option_bind].
    exists q, (s <| heap := heap s |>). split; [done|]. split; [done|]. split; [done|]. split; [constructor; by rsimpl|by rsimpl]. }
  rewrite (proj2 (Z.leb_gt _ _)) by lia.
  destruct (pkg_decode p (Z.of_nat (length data))) as [H8 _]; [done|split; lia|].
  destruct (write_spec (g_tx_rb s) (rb_tx_package p (Z.of_nat (length data)))) as (rb & -> & Hrb & Hsz & Hlist); [done|rewrite Hroom, H8; lia|].
  cbn [mbind option_bind]. rewrite H8. cbn [Z.of_nat Pos.of_succ_nat Pos.succ Z.eqb Pos.eqb negb].
  exists (q ++ [(p, data)]). eexists. split; [done|]. split.
  - constructor; rsimpl; try done.
    + congruence.
    + rewrite Hlist, Hl, fmap_app, concat_app. cbn [fmap list_fmap concat]. by rewrite app_nil_r.
    + rewrite Hh, app_assoc, list_to_map_snoc; [done|]. apply not_elem_of_list_to_map. by rewrite <-Hh.
    + rewrite app_assoc, fmap_app. apply NoDup_app. split; [done|]. split; [|apply NoDup_singleton].
      intros x Hx Hxp. apply list_elem_of_singleton in Hxp as ->. cbn in *. revert Hx. apply not_elem_of_list_to_map. by rewrite <-Hh.
    + rewrite app_assoc. apply Forall_app. split; [done|]. by repeat constructor; try apply Hu.
  - rewrite fmap_app. split; [done|]. split; [constructor; by rsimpl|by rsimpl].
Qed.

Lemma pop_spec q (s : st) : tx_inv [] q s ->
  exists s', tx_pop s = Some (match q with [] => None | (p, b) :: _ => Some (p, Z.of_nat (length b)) end, s') /\
    tx_inv (take 1 q) (tail q) s' /\ tx_only s s' /\ world s' = world s /\ rf_tcp_dropped s' = rf_tcp_dropped s.
Proof using.
  intros [Hr Hs Hl Hh Hnd Hok]. cbn [app] in *. unfold tx_pop.
  destruct (read_spec (g_tx_rb s) 8 Hr) as (rb & -> & Hr' & Hs' & Hl'); [done|]. cbn [mbind option_bind]. rewrite Hl in *.
  change (Z.to_nat 8) with 8%nat in *. destruct q as [|[p b] q].
  - cbn in *. eexists. split; [done|]. split; [constructor; rsimpl; try done; congruence|]. split; [constructor; by rsimpl|by rsimpl].
  - pose proof (proj1 (proj1 (Forall_cons _ _ _) Hok)) as (Hp & _ & Hb). cbn [fst snd] in *.
    destruct (pkg_decode p (Z.of_nat (length b))) as (H8 & Hd & Hn); [done|split; lia|].
    cbn [fmap list_fmap concat] in *. change (package (p, b)) with (rb_tx_package p (Z.of_nat (length b))) in *.
    rewrite (take_app_length' (rb_tx_package _ _)) by done. rewrite drop_app_length' in Hl' by done.
    rewrite decide_True by done. rewrite Hd, Hn.
    eexists. split; [done|]. split; [|split; [constructor; by rsimpl|by rsimpl]].
    constructor; rsimpl; try done; try congruence.
Qed.

Lemma write_loop_spec (buf : list Z) fuel : forall offset wb w, 0 <= offset <= Z.of_nat (length buf) -> 0 <= wb <= 10000 ->
  (Z.of_nat (length buf) - offset) * 10002 + (10001 - wb) < Z.of_nat fuel ->
  exists offset' w', write_loop fuel buf offset wb w = Some (offset', w') /\ offset <= offset' <= Z.of_nat (length buf) /\
    accepted w' = accepted w /\ received w' = received w /\
    wire w' = wire w ++ take (Z.to_nat (offset' - offset)) (drop (Z.to_nat offset) buf).
Proof using world_ok.
  induction fuel as [|fuel IH]; intros offset wb w Ho Hwb Hf; [lia|]. cbn [write_loop].
  destruct (Z.ltb_spec offset (Z.of_nat (length buf))) as [Hlt|Hge]; cbn [negb].
  2: { exists offset, w. rewrite Z.sub_diag. cbn [Z.to_nat]. rewrite take_0, app_nil_r. split; [done|]. split; [lia|done]. }
  destruct (netconn_write_partly (drop (Z.to_nat offset) buf) w) as [[err n] w1] eqn:Ew.
  assert (Hne : drop (Z.to_nat offset) buf <> []) by (intros E%(f_equal length); rewrite length_drop in E; cbn in E; lia).
  destruct (tw_write _ _ _ _ world_ok _ _ _ _ _ Hne Ew) as (Hn & Hok & Ha & Hr & Hw). rewrite length_drop in Hn.
  assert (Hwire : wire w1 = wire w ++ take (Z.to_nat (offset + n - offset)) (drop (Z.to_nat offset) buf)) by (by replace (offset + n - offset) with n by lia).
  assert (Hstop : exists offset' w', Some (offset + n, w1) = Some (offset', w') /\ offset <= offset' <= Z.of_nat (length buf) /\
    accepted w' = accepted w /\ received w' = received w /\
    wire w' = wire w ++ take (Z.to_nat (offset' - offset)) (drop (Z.to_nat offset) buf)).
  { exists (offset + n), w1. split; [done|]. split; [lia|done]. }
  assert (Hgo : forall wb', 0 <= wb' <= 10000 -> (Z.of_nat (length buf) - (offset + n)) * 10002 + (10001 - wb') < Z.of_nat fuel ->
    exists offset' w', write_loop fuel buf (offset + n) wb' w1 = Some (offset', w') /\ offset <= offset' <= Z.of_nat (length buf) /\
    accepted w' = accepted w /\ received w' = received w /\
    wire w' = wire w ++ take (Z.to_nat (offset' - offset)) (drop (Z.to_nat offset) buf)).
  { intros wb' Hwb' Hf'. destruct (IH (offset + n) wb' w1) as (o' & w' & -> & Ho' & Ha' & Hr' & Hw'); [lia|done|done|].
    exists o', w'. split; [done|]. split; [lia|]. split; [congruence|]. split; [congruence|]. rewrite Hw', Hwire, <-app_assoc. f_equal.
    replace (Z.to_nat (o' - offset)) with (Z.to_nat n + Z.to_nat (o' - (offset + n)))%nat by lia.
    rewrite (Z2Nat.inj_add offset n), <-drop_drop by lia. replace (offset + n - offset) with n by lia. by rewrite take_take_drop. }
  assert (E : (if 0 <? n then (offset + n, 0) else (offset, wb)) = (offset + n, if 0 <? n then 0 else wb)).
  { destruct (Z.ltb_spec 0 n); [done|]. by replace (offset + n) with offset by lia. }
  rewrite E. clear E. destruct (Z.eqb_spec err ERR_OK) as [->|Herr].
  { specialize (Hok eq_refl). rewrite (proj2 (Z.ltb_lt 0 n)) by lia. apply Hgo; lia. }
  destruct (err =? ERR_WOULDBLOCK); [|done]. unfold TCP_SERVER_SEND_STALL_LIMIT_MS.
  destruct (Z.ltb_spec 0 n); destruct (Z.ltb_spec 10000 ((if 0 <? n then 0 else wb) + 1)); try done; z_case; try lia; try done; apply Hgo; lia.
Qed.

Lemma write_fuel_enough buf : Z.of_nat (length buf) * 10002 + 10001 < Z.of_nat (write_fuel buf).
Proof using.
  unfold write_fuel, TCP_SERVER_SEND_STALL_LIMIT_MS. replace (S (Z.to_nat (10000 + 1))) with (Z.to_nat 10002) by done.
  rewrite Nat2Z.inj_succ, Nat2Z.inj_mul, Z2Nat.id by lia. lia.
Qed.

Definition taken (rs : list (list Z * Z)) : list (list Z) := (filter (fun r => r.2 = 0) rs).*1.
Definition event_ok (e : tcp_send_event) : Prop := Z.of_nat (length e.1.2) < 2 ^ 32.

Lemma producers_spec own es : forall q (s : st), tx_inv own q s -> Forall event_ok es ->
  exists rs q' s', producers os_malloc es s = Some (rs, s') /\ tx_inv own q' s' /\ tx_only s s' /\ world s' = world s /\
    rf_tcp_dropped s' = rf_tcp_dropped s /\ q'.*2 = q.*2 ++ taken rs.
Proof using malloc_fresh.
  induction es as [|[[a data] locked] es IH]; intros q s Hi Hes; cbn [producers].
  { exists [], q, s. split; [done|]. split; [done|]. split; [done|]. split; [done|]. split; [done|]. by rewrite app_nil_r. }
  apply Forall_cons in Hes as [He Hes].
  destruct (send_spec own q s locked a data Hi He) as (q1 & s1 & -> & Hi1 & Hq1 & Ho1 & Hw1 & Hd1). cbn [mbind option_bind].
  destruct (IH q1 s1 Hi1 Hes) as (rs & q2 & s2 & -> & Hi2 & Ho2 & Hw2 & Hd2 & Hq2). cbn [mbind option_bind].
  eexists _, q2, s2. split; [done|]. split; [done|]. split; [by transitivity s1|]. split; [congruence|]. split; [congruence|].
  rewrite Hq2, Hq1. unfold taken, queue_send. cbn [filter list_filter].
  destruct (os_malloc a (heap s) (Z.of_nat (length data)) =? 0), locked; cbn [negb]; try (rewrite decide_False by done; done).
  destruct (31 <=? _); cbn [fst snd]; [by rewrite decide_False|]. rewrite decide_True by done. cbn. by rewrite <-app_assoc.
Qed.

(** Frames popped, with how many bytes of each lwIP took. *)
Definition sent (l : list (list Z * Z)) : list Z := concat ((fun x => take (Z.to_nat x.2) x.1) <$> l).
Definition partial (l : list (list Z * Z)) : list (list Z * Z) := filter (fun x => x.2 < Z.of_nat (length x.1)) l.
Definition pop_ok (x : list Z * Z) : Prop := 0 <= x.2 <= Z.of_nat (length x.1).

(** A run of the transmit side from [q] to [q']: first in, first out. *)
Record tx_run (q q' : list (Z * list Z)) (rs : list (list Z * Z)) (popped : list (list Z * Z)) (s s' : st) : Prop := {
  tr_inv : tx_inv [] q' s';
  tr_only : tx_only s s';
  tr_fifo : q.*2 ++ taken rs = popped.*1 ++ q'.*2;
  tr_wire : wire (world s') = wire (world s) ++ sent popped;
  tr_ok : Forall pop_ok popped;
  tr_drop : rf_tcp_dropped s' = u32 (rf_tcp_dropped s + Z.of_nat (length (partial popped)));
}.

Lemma taken_app rs rs' : taken (rs ++ rs') = taken rs ++ taken rs'.
Proof using. unfold taken. by rewrite filter_app, fmap_app. Qed.

Lemma tx_run_trans q1 q2 q3 rs rs' p p' s1 s2 s3 :
  tx_run q1 q2 rs p s1 s2 -> tx_run q2 q3 rs' p' s2 s3 -> tx_run q1 q3 (rs ++ rs') (p ++ p') s1 s3.
Proof using.
  intros [I1 O1 F1 X1 K1 D1] [I2 O2 F2 X2 K2 D2]. constructor.
  - done.
  - by transitivity s2.
  - by rewrite taken_app, app_assoc, F1, fmap_app, <-!app_assoc, F2.
  - rewrite X2, X1. unfold sent. by rewrite fmap_app, concat_app, app_assoc.
  - by apply Forall_app.
  - rewrite D2, D1. unfold partial. rewrite filter_app, length_app. word_lia.
Qed.

Lemma burst_spec n : forall q inter (s : st), tx_inv [] q s -> Forall (Forall event_ok) inter -> is_u32 (rf_tcp_dropped s) ->
  exists rs s' q' popped, burst os_malloc n inter s = Some (rs, s') /\ tx_run q q' rs popped s s' /\ is_u32 (rf_tcp_dropped s').
Proof using world_ok malloc_fresh.
  induction n as [|n IH]; intros q inter s Hi Hes Hd; cbn [burst].
  { exists [], s, q, []. split; [done|]. split; [|done]. constructor; try done.
    - by rewrite app_nil_r.
    - by rewrite app_nil_r.
    - cbn. rewrite Z.add_0_r. by rewrite u32_small. }
  destruct (pop_spec q s Hi) as (s1 & -> & Hi1 & Ho1 & Hw1 & Hd1). cbn [mbind option_bind].
  assert (He : Forall event_ok (hd [] inter)) by (destruct Hes; [constructor|done]).
  destruct (producers_spec _ (hd [] inter) _ s1 Hi1 He) as (rs & q2 & s2 & -> & Hi2 & Ho2 & Hw2 & Hd2 & Hq2). cbn [mbind option_bind].
  destruct q as [|[p b] q]; cbn [take tail] in *.
  { exists rs, s2, q2, []. split; [done|]. split; [|rewrite Hd2, Hd1; done]. constructor; try done.
    - by transitivity s1.
    - by rewrite Hw2, Hw1, app_nil_r.
    - rewrite Hd2, Hd1. cbn. rewrite Z.add_0_r. by rewrite u32_small. }
  pose proof Hi2 as Hi2'. destruct Hi2 as [R2 S2 L2 H2 N2 K2]. cbn [app] in *.
  rewrite H2. cbn [list_to_map foldr fst snd]. rewrite lookup_insert_eq. cbn [mbind option_bind].
  rewrite rd_n_in_bounds by lia. rewrite drop_0, Nat2Z.id, firstn_all. cbn [mbind option_bind].
  destruct (write_loop_spec b (write_fuel b) 0 0 (world s2)) as (off & w & -> & Hoff & Ha & Hr & Hx); [lia|lia|pose proof (write_fuel_enough b); lia|].
  cbn [mbind option_bind]. rewrite Z.sub_0_r, drop_0 in Hx.
  destruct (free_top q2 p b (s2 <| world := w |>)) as (s3 & -> & E3); [by rsimpl|done|]. cbn [mbind option_bind].
  assert (Hi3 : tx_inv [] q2 s3).
  { subst s3. constructor; rsimpl; try done. - cbn in N2. by apply NoDup_cons in N2 as [_ ?]. - by apply Forall_cons in K2 as [_ ?]. }
  assert (Ho3 : tx_only s s3).
  { transitivity s1; [done|]. transitivity s2; [done|]. subst s3. constructor; by rsimpl. }
  assert (Hx3 : wire (world s3) = wire (world s) ++ sent [(b, off)]).
  { subst s3. rsimpl. rewrite Hx, Hw2, Hw1. unfold sent. cbn. by rewrite app_nil_r. }
  assert (Hd3 : rf_tcp_dropped s3 = rf_tcp_dropped s) by (subst s3; rsimpl; congruence).
  destruct (Z.ltb_spec off (Z.of_nat (length b))) as [Hlt|Hge].
  - eexists rs, _, q2, [(b, off)]. split; [reflexivity|]. split; [|rsimpl; apply u32_range]. constructor; rsimpl; try done.
    + destruct Hi3. constructor; by rsimpl.
    + destruct Ho3. constructor; by rsimpl.
    + cbn. by rewrite Hq2.
    + apply Forall_cons_2; [exact Hoff|constructor].
    + rewrite Hd3. unfold partial. cbn [filter list_filter]. rewrite decide_True by done. done.
  - destruct (IH q2 (tl inter) s3 Hi3) as (rs' & s4 & q4 & pop & -> & Hrun & Hd4); [destruct Hes; [constructor|done]|by rewrite Hd3|].
    cbn [mbind option_bind]. eexists _, s4, q4, ((b, off) :: pop). split; [done|]. split; [|done].
    apply (tx_run_trans ((p, b) :: q) q2 q4 rs rs' [(b, off)] pop s s3 s4); [|done]. constructor; try done.
    + cbn. by rewrite Hq2.
    + apply Forall_cons_2; [exact Hoff|constructor].
    + rewrite Hd3. unfold partial. cbn [filter list_filter]. rewrite decide_False by (cbn; lia). cbn. rewrite Z.add_0_r. by rewrite u32_small.
Qed.

(** Emptying the queue frees every buffer once. *)
Lemma drain_spec fuel : forall q (s : st), tx_inv [] q s -> (length q < fuel)%nat ->
  exists s', queue_drain fuel s = Some s' /\ tx_inv [] [] s' /\ tx_only s s' /\ world s' = world s /\
    rf_tcp_dropped s' = rf_tcp_dropped s.
Proof using.
  induction fuel as [|fuel IH]; intros q s Hi Hf; [lia|]. cbn [queue_drain].
  destruct (pop_spec q s Hi) as (s1 & -> & Hi1 & Ho1 & Hw1 & Hd1). cbn [mbind option_bind].
  destruct q as [|[p b] q]; cbn [take tail] in *; [by exists s1|].
  pose proof Hi1 as [R1 S1 L1 H1 N1 K1]. cbn [app] in *. pose proof (proj1 (proj1 (Forall_cons _ _ _) K1)) as (_ & Hp & _).
  cbn [fst] in Hp. rewrite (proj2 (Z.eqb_neq _ _) Hp). cbn [negb].
  destruct (free_top q p b s1) as (s2 & -> & E2); [done|done|]. cbn [mbind option_bind].
  destruct (IH q s2) as (s3 & -> & Hi3 & Ho3 & Hw3 & Hd3).
  - subst s2. constructor; rsimpl; try done. + cbn in N1. by apply NoDup_cons in N1 as [_ ?]. + by apply Forall_cons in K1 as [_ ?].
  - cbn [length] in Hf. lia.
  - exists s3. split; [done|]. split; [done|]. split; [|subst s2; rsimpl; split; congruence].
    transitivity s1; [done|]. transitivity s2; [|done]. subst s2. constructor; by rsimpl.
Qed.

Lemma queue_bound own q (s : st) : tx_inv own q s -> (length q <= 31)%nat.
Proof using. intros Hi. pose proof (tx_room _ _ _ Hi). destruct Hi as [[Hr Hw] Hs _ _ _ _]. unfold lwrb_get_free in *. revert H0. z_case; lia. Qed.

Lemma clear_spec q (s : st) : tx_inv [] q s ->
  exists s', tcp_server_tx_queue_clear s = Some s' /\ tx_inv [] [] s' /\ tx_only s s' /\ world s' = world s /\
    rf_tcp_dropped s' = rf_tcp_dropped s.
Proof using.
  intros Hi. unfold tcp_server_tx_queue_clear. pose proof (queue_bound _ _ _ Hi). rewrite (tx_size _ _ _ Hi).
  destruct (drain_spec (S (Z.to_nat 256)) q s Hi) as (s1 & -> & [R1 S1 L1 H1 N1 K1] & Ho1 & Hw1 & Hd1); [lia|]. cbn [mbind option_bind].
  destruct (reset_spec (g_tx_rb s1) R1) as (R2 & S2 & L2).
  eexists. split; [done|]. split; [|split; [transitivity s1; [done|constructor; by rsimpl]|by rsimpl]].
  constructor; rsimpl; try done; congruence.
Qed.

(** ** The receive side of the client loop *)

(** Bytes of the held netbuf that the decoder has not taken. *)
Definition left_over (s : st) : list Z :=
  match held_nb s with Some nb => behind nb (held_chunk s) (held_ofs s) | None => [] end.
Record rx_ok (s : st) : Prop := {
  rx_dec : dec_ok (tcp_rns_decoder s);
  rx_thr : tx_throttle_ms s = 0;
  rx_nb nb : held_nb s = Some nb -> netbuf_ok nb /\ cursor_ok nb (held_chunk s) (held_ofs s);
}.
(** From [s] to [s'] the decoder took [t], lwIP handed out [new]. *)
Record rx_step (t new : list Z) (s s' : st) : Prop := {
  rs_ok : rx_ok s';
  rs_progress : progress (same := same) (accepted := accepted) t (tcp_rns_decoder s) (world s) (tcp_rns_decoder s') (world s');
  rs_received : received (world s') = received (world s) ++ new;
  rs_left : left_over s ++ new = t ++ left_over s';
}.
(** What the receive side leaves alone. *)
Record rx_only (s s' : st) : Prop := {
  ro_cfg : g_cfg s' = g_cfg s;
  ro_rb : g_tx_rb s' = g_tx_rb s;
  ro_heap : heap s' = heap s;
  ro_drop : rf_tcp_dropped s' = rf_tcp_dropped s;
  ro_wire : wire (world s') = wire (world s);
}.

Lemma rx_step_trans t1 t2 n1 n2 s1 s2 s3 : rx_step t1 n1 s1 s2 -> rx_step t2 n2 s2 s3 -> rx_step (t1 ++ t2) (n1 ++ n2) s1 s3.
Proof using world_ok.
  intros [K1 P1 R1 L1] [K2 P2 R2 L2]. constructor.
  - done.
  - by eapply progress_trans.
  - by rewrite R2, R1, app_assoc.
  - by rewrite app_assoc, L1, <-!app_assoc, L2.
Qed.

Lemma cursor_start nb : netbuf_ok nb -> cursor_ok nb 0 0.
Proof using.
  intros [Hnb _]. split; [lia|]. change (Z.to_nat 0) with 0%nat. rewrite drop_0. split; [lia|].
  destruct nb as [|c nb]; [done|]. apply Forall_cons in Hnb as [[Hc _] _]. destruct c; [done|cbn; lia].
Qed.

Lemma retry_held_step (s : st) : rx_ok s -> rx_step [] [] s (rns_tcp_retry_held s) /\ rx_only s (rns_tcp_retry_held s).
Proof using world_ok.
  intros [Hd Ht Hn]. unfold rns_tcp_retry_held, rns_stream_decoder_retry_held.
  destruct (held (tcp_rns_decoder s)) eqn:Hh; cbn [negb].
  - pose proof (emit_held_moved world_ok _ (world s) Hh Hd) as He.
    destruct (rns_stream_emit_frame _ _ _) as [[r d1] w1]. destruct (r =? HALOW_ACK_TX_THROTTLE).
    + destruct He as [_ [[U1 U2] P]]. split; constructor; unfold left_over; rsimpl; try done; try (by rewrite app_nil_r).
      all: try (constructor; rsimpl; [apply P|done|done]).
    + destruct He as [_ [[U1 U2] P]]. split; constructor; unfold left_over; rsimpl; try done; try (by rewrite app_nil_r).
      all: try (constructor; rsimpl; [apply P|done|done]).
  - split; constructor; unfold left_over; rsimpl; try done; try (by rewrite app_nil_r).
    all: first [by apply (progress_nil world_ok)|constructor; by rsimpl].
Qed.

Ltac rx_close :=
  match goal with
  | |- rx_ok _ => constructor; rsimpl; first [done | intros; congruence]
  | W : tcp_world _ _ _ _ |- progress [] _ _ _ _ => apply (progress_nil W); first [done | congruence]
  | |- _ = _ ++ [] => rewrite app_nil_r; congruence
  | E : held_nb _ = _ |- context [left_over] => unfold left_over; rsimpl; by rewrite E
  | |- _ => idtac
  end.

Lemma client_rx_spec (s : st) : rx_ok s ->
  exists go s' t new, client_rx s = Some (go, s') /\ rx_step t new s s' /\ rx_only s s'.
Proof using world_ok.
  intros [Hd Ht Hn]. unfold client_rx. rewrite Ht. cbn [Z.ltb Z.compare]. rsimpl.
  destruct (held_nb s) as [nb|] eqn:Hnb.
  - destruct (Hn nb eq_refl) as [Hok Hcur].
    destruct (feed_netbuf_moved world_ok nb (held_chunk s) (held_ofs s) (s <| tcps_held := 1 |>) Hok Hcur) as
      (r & c & o & d & w & t & -> & [[U1 U2] P] & Hcur' & Hb & Hr); [done|]. cbn [mbind option_bind]. rsimpl.
    destruct Hr as [[-> Hnil]| ->].
    + cbn. eexists _, _, t, []. split; [done|]. unfold note_feed. cbn [Z.ltb Z.compare]. split; constructor; rsimpl; try done.
      * constructor; rsimpl; [apply P|done|done].
      * by rewrite app_nil_r.
      * unfold left_over. rsimpl. rewrite Hnb, Hb, Hnil. by rewrite !app_nil_r.
    + cbn. eexists _, _, t, []. split; [done|]. split; constructor; rsimpl; try done.
      * constructor; rsimpl; [apply P|done|]. intros nb' E. rewrite Hnb in E. injection E as <-. done.
      * by rewrite app_nil_r.
      * unfold left_over. rsimpl. by rewrite Hnb, Hb, app_nil_r.
  - destruct (tw_ready _ _ _ _ world_ok (world s)) as (A1 & R1 & X1). destruct (ack_tx_ready (world s)) as [ready w1]. cbn [snd] in *.
    destruct ready; cbn [negb].
    2: { set (s1 := s <| tcps_held := 0 |> <| world := w1 |>). destruct (retry_held_step s1) as [Hs Ho].
      { constructor; unfold s1; rsimpl; first [done | intros; congruence]. }
      eexists _, _, [], []. split; [done|]. split.
      - apply (rx_step_trans [] [] [] [] s s1); [|done]. constructor; unfold s1; rsimpl; try done.
        all: rx_close.
      - destruct Ho. unfold s1 in *. rsimpl. constructor; congruence. }
    rsimpl. destruct (netconn_recv w1) as [[err nb] w2] eqn:Erecv.
    destruct (tw_recv _ _ _ _ world_ok _ _ _ _ Erecv) as (A2 & X2 & R2 & Hnb2). rsimpl.
    destruct (Z.eqb_spec err ERR_WOULDBLOCK) as [->|Hwb].
    { destruct (tw_flush _ _ _ _ world_ok w2) as (A3 & R3 & X3). change (ERR_WOULDBLOCK =? ERR_OK) with false in R2. cbv iota in R2.
      eexists _, _, [], []. split; [done|]. split; constructor; rsimpl; try done; try congruence.
      all: rx_close. }
    destruct (if err =? ERR_OK then nb else None) as [nb'|] eqn:Enb.
    2: { eexists _, _, [], []. split; [done|]. split; constructor; rsimpl; try done; try congruence.
      all: rx_close. rewrite R2, R1. destruct (err =? ERR_OK); [subst nb|]; done. }
    destruct (err =? ERR_OK); [|done]. subst nb. destruct (Hnb2 nb' eq_refl) as [Hchunks Hcount].
    assert (Hok : netbuf_ok nb') by (split; done). change (concat (default [] (Some nb'))) with (concat nb') in R2.
    match goal with |- context [tcp_server_feed_netbuf nb' 0 0 ?x] => set (s1 := x) end.
    destruct (feed_netbuf_moved world_ok nb' 0 0 s1 Hok (cursor_start _ Hok)) as (r & c & o & d & w & t & -> & [[U1 U2] P] & Hcur' & Hb & Hr);
      [unfold s1; by rsimpl|]. cbn [mbind option_bind]. unfold s1 in *. rsimpl.
    assert (P' : progress (same := same) (accepted := accepted) t (tcp_rns_decoder s) (world s) d w).
    { apply (progress_trans world_ok [] t _ _ (tcp_rns_decoder s) w2); [|done]. apply (progress_nil world_ok); [done|congruence]. }
    assert (Hall : concat nb' = t ++ behind nb' c o).
    { rewrite <-Hb. unfold behind. change (Z.to_nat 0) with 0%nat. by rewrite !drop_0. }
    destruct Hr as [[-> Hnil]| ->].
    + cbn. eexists _, _, t, (concat nb'). split; [done|]. unfold note_feed. cbn [Z.ltb Z.compare]. split; constructor; rsimpl; try done; try congruence.
      * constructor; rsimpl; [apply P|done|congruence].
      * unfold left_over. rsimpl. rewrite Hnb, Hall, Hnil. by rewrite !app_nil_r.
    + cbn. eexists _, _, t, (concat nb'). split; [done|]. split; constructor; rsimpl; try done; try congruence.
      * constructor; rsimpl; [apply P|done|]. intros nb1 [= <-]. done.
      * unfold left_over. rsimpl. by rewrite Hnb.
Qed.

(** ** A whole session *)

Definition session_event_ok (e : session_event) : Prop :=
  match e with Producers es => Forall event_ok es | Iterate inter => Forall (Forall event_ok) inter end.

(** From [s] to [s'] both sides of the connection made their progress. *)
Definition session_run (q q' : list (Z * list Z)) (rs popped : list (list Z * Z)) (t new : list Z) (s s' : st) : Prop :=
  tx_inv [] q' s' /\ q.*2 ++ taken rs = popped.*1 ++ q'.*2 /\ wire (world s') = wire (world s) ++ sent popped /\
  Forall pop_ok popped /\ rf_tcp_dropped s' = u32 (rf_tcp_dropped s + Z.of_nat (length (partial popped))) /\
  rx_step t new s s'.

Lemma tx_only_rx_step (s s' : st) : rx_ok s -> tx_only s s' -> rx_step [] [] s s'.
Proof using world_ok.
  intros [Hd Ht Hn] [C D T B K O A R]. constructor.
  - constructor; [by rewrite D|congruence|]. intros nb. rewrite B, K, O. apply Hn.
  - rewrite D. by apply (progress_nil world_ok).
  - by rewrite app_nil_r.
  - unfold left_over. by rewrite B, K, O, app_nil_r.
Qed.

Lemma session_step_spec e q (s : st) : tx_inv [] q s -> rx_ok s -> is_u32 (rf_tcp_dropped s) -> session_event_ok e ->
  exists rs s' q' popped t new, session_step os_malloc e s = Some (rs, s') /\ session_run q q' rs popped t new s s'.
Proof using world_ok malloc_fresh.
  intros Hi Hx Hd He. destruct e as [es|inter]; cbn [session_step session_event_ok] in *.
  - destruct (producers_spec [] es q s Hi He) as (rs & q' & s' & -> & Hi' & Ho & Hw & Hd' & Hq).
    exists rs, s', q', [], [], []. split; [done|]. split; [done|]. split; [by rewrite Hq|]. split; [by rewrite Hw, app_nil_r|].
    split; [constructor|]. split; [cbn; rewrite Z.add_0_r, u32_small by done; done|]. by apply tx_only_rx_step.
  - unfold client_iter. destruct (negb (enabled (g_cfg s))).
    { cbn. exists [], s, q, [], [], []. split; [done|]. split; [done|]. split; [by rewrite app_nil_r|]. split; [by rewrite app_nil_r|].
      split; [constructor|]. split; [cbn; rewrite Z.add_0_r, u32_small by done; done|]. by apply tx_only_rx_step. }
    destruct (burst_spec 4 q inter s Hi He Hd) as (rs & s1 & q1 & popped & -> & [I1 O1 F1 X1 K1 D1] & Hd1). cbn [mbind option_bind].
    pose proof (tx_only_rx_step _ _ Hx O1) as Hs1.
    destruct (client_rx_spec s1 (rs_ok _ _ _ _ Hs1)) as (go & s2 & t & new & -> & Hs2 & [C B H2 D W2]). cbn [mbind option_bind].
    eexists rs, s2, q1, popped, t, new. split; [done|]. split; [destruct I1; constructor; congruence|].
    split; [done|]. split; [by rewrite W2|]. split; [done|]. split; [congruence|]. apply (rx_step_trans [] t [] new s s1 s2 Hs1 Hs2).
Qed.

Lemma session_spec es : forall q (s : st), tx_inv [] q s -> rx_ok s -> is_u32 (rf_tcp_dropped s) -> Forall session_event_ok es ->
  exists rs s' q' popped t new, session os_malloc es s = Some (rs, s') /\ session_run q q' rs popped t new s s'.
Proof using world_ok malloc_fresh.
  induction es as [|e es IH]; intros q s Hi Hx Hd He; cbn [session].
  { exists [], s, q, [], [], []. split; [done|]. split; [done|]. split; [by rewrite app_nil_r|]. split; [by rewrite app_nil_r|].
    split; [constructor|]. split; [cbn; rewrite Z.add_0_r, u32_small by done; done|]. by apply tx_only_rx_step. }
  apply Forall_cons in He as [He Hes].
  destruct (session_step_spec e q s Hi Hx Hd He) as (rs & s1 & q1 & p1 & t1 & n1 & -> & I1 & F1 & X1 & K1 & D1 & R1). cbn [mbind option_bind].
  destruct (IH q1 s1 I1 (rs_ok _ _ _ _ R1)) as (rs2 & s2 & q2 & p2 & t2 & n2 & -> & I2 & F2 & X2 & K2 & D2 & R2); [rewrite D1; apply u32_range|done|].
  cbn [mbind option_bind]. exists (rs ++ rs2), s2, q2, (p1 ++ p2), (t1 ++ t2), (n1 ++ n2). split; [done|]. split; [done|].
  split; [by rewrite taken_app, app_assoc, F1, fmap_app, <-!app_assoc, F2|].
  split; [rewrite X2, X1; unfold sent; by rewrite fmap_app, concat_app, app_assoc|]. split; [by apply Forall_app|].
  split; [rewrite D2, D1; unfold partial; rewrite filter_app, length_app; word_lia|]. by eapply rx_step_trans.
Qed.
End Queue.

(** ** Properties *)

Lemma accept_fresh {W} `{TcpEnv W} addr q (s0 s : tcp_server W) : tx_inv [] q s0 -> accept_client addr s0 = Some (true, s) ->
  tx_inv [] [] s /\ tcp_rns_decoder s = rns_stream_decoder_init /\ held_nb s = None /\ tx_throttle_ms s = 0 /\
  world s = world s0 /\ rf_tcp_dropped s = rf_tcp_dropped s0.
Proof.
  intros Hi Ha. unfold accept_client in Ha. destruct (negb _); [done|].
  destruct (clear_spec (accepted := fun _ => []) (received := fun _ => []) q s0 Hi) as (s1 & E & [] & Ho & Hw & Hd).
  rewrite E in Ha. cbn [mbind option_bind] in Ha. apply (inj Some) in Ha. apply (f_equal snd) in Ha. cbn [snd] in Ha. subst s.
  unfold rns_tcp_session_reset. split; [constructor; by rsimpl|]. rsimpl. split; [|done]. by destruct (tcp_rns_decoder s1).
Qed.

Section Session.
Context {W : Type} `{TcpEnv W} (same : list Z -> list Z -> Prop) (accepted : W -> list (list Z)) (received wire : W -> list Z).
Hypothesis world_ok : tcp_world same accepted received wire.
Context (os_malloc : Z -> gmap Z (list Z) -> Z -> Z).
Hypothesis malloc_fresh : forall a h n, os_malloc a h n <> 0 -> is_u32 (os_malloc a h n) /\ h !! os_malloc a h n = None.

(** C18: no byte from the client is lost, repeated or reordered.  From the
    moment a client is accepted, whatever the radio path refuses, however lwIP
    cuts the stream into netbufs and chunks, and whatever is sent meanwhile,
    the loop runs without a fault; the bytes lwIP handed out are those the
    decoder took followed by those still held; and the frames the radio path
    accepted, with one frame held for a retry, are the frames of the bytes
    taken.  A stream of whole frames that is taken in full is accepted frame by
    frame, but for the held one. *)
Theorem tcp_stream_exactly_once q addr s0 s es : tx_inv [] q s0 -> accept_client addr s0 = Some (true, s) ->
  is_u32 (rf_tcp_dropped s0) -> accepted (world s0) = [] -> Forall session_event_ok es ->
  exists rs s' bytes, session os_malloc es s = Some (rs, s') /\
    received (world s') = received (world s0) ++ bytes ++ left_over s' /\
    let forwarded := accepted (world s') ++ (if held (tcp_rns_decoder s') then [frame (tcp_rns_decoder s')] else []) in
    Forall2 same (acc_feed rns_stream_decoder_init bytes []).2 forwarded /\
    (forall ps, Forall valid_payload ps -> bytes = concat (encode <$> ps) -> Forall2 same ps forwarded).
Proof using world_ok malloc_fresh.
  intros Hi Ha Hd Hacc Hes. destruct (accept_fresh addr q s0 s Hi Ha) as (Hi' & Hdec & Hnb & Ht & Hw & Hdr).
  assert (Hx : rx_ok s). { constructor; [intros E; rewrite Hdec in E; done|done|intros nb E; congruence]. }
  destruct (session_spec world_ok malloc_fresh es [] s Hi' Hx) as (rs & s' & q' & p & t & new & Hs & _ & _ & _ & _ & _ & [K P R L]);
    [by rewrite Hdr|done|]. unfold left_over in L at 1. rewrite Hnb in L. cbn [app] in L.
  destruct P as (_ & n1 & n2 & Hn & A & old & Ho & V). rewrite Hdec in A, Ho. unfold vlog in Ho at 1. rewrite Hw, Hacc in Ho.
  apply Forall2_nil_inv_l in Ho as ->. cbn [app] in V. specialize (A []). cbn [app] in A.
  change (vdec rns_stream_decoder_init) with rns_stream_decoder_init in A.
  exists rs, s', t. split; [done|]. split; [by rewrite R, Hw, L|]. cbv zeta. unfold vlog in V. rewrite V, A. cbn [snd]. split; [done|].
  intros ps Hps ->. destruct (acc_feed_encode_all ps rns_stream_decoder_init [] Hps) as (d & _ & E); [done|].
  rewrite A in E. apply (f_equal snd) in E. cbn [snd app] in E. by subst n1.
Qed.

(** C19: frames for the client are queued without a leak.  Over any session the
    frames that [tcp_server_send] took leave the queue first in, first out;
    what lwIP sent is a prefix of each, and exactly the frames cut short are
    counted as dropped.  At any time the allocated buffers are those of the
    queue, a further send is answered as the bound of 31 frames says, and
    closing the connection frees them all, each once. *)
Theorem tcp_queue_fifo s es : tx_inv [] [] s -> rx_ok s -> is_u32 (rf_tcp_dropped s) -> Forall session_event_ok es ->
  exists rs s' q popped, session os_malloc es s = Some (rs, s') /\
    taken rs = popped.*1 ++ q.*2 /\ wire (world s') = wire (world s) ++ sent popped /\ Forall pop_ok popped /\
    rf_tcp_dropped s' = u32 (rf_tcp_dropped s + Z.of_nat (length (partial popped))) /\
    heap s' = list_to_map q /\ NoDup q.*1 /\ (length q <= 31)%nat /\
    (forall locked a data, Z.of_nat (length data) < 2 ^ 32 ->
       fst <$> tcp_server_send os_malloc locked a data s' =
         Some (queue_send (negb (os_malloc a (heap s') (Z.of_nat (length data)) =? 0)) locked data q.*2).1) /\
    (heap <$> close_client s' = Some ∅).
Proof using world_ok malloc_fresh.
  intros Hi Hx Hd Hes. destruct (session_spec world_ok malloc_fresh es [] s Hi Hx Hd Hes) as (rs & s' & q & p & t & new & Hs & I & F & X & K & D & _).
  exists rs, s', q, p. split; [done|]. split; [done|]. split; [done|]. split; [done|]. split; [done|].
  split; [apply (tx_heap _ _ _ I)|]. split; [apply (tx_nodup _ _ _ I)|]. split; [by eapply queue_bound|]. split.
  - intros locked a data Hl. destruct (send_spec (accepted := accepted) (received := received) malloc_fresh [] q s' locked a data I Hl) as (q2 & s2 & -> & _). done.
  - unfold close_client. destruct (clear_spec (accepted := accepted) (received := received) q (s' <| held_nb := None |>)) as (s2 & -> & [_ _ _ Hh _ _] & _).
    { destruct I. constructor; by rsimpl. }
    cbn. by rewrite Hh.
Qed.

(** A frame refused at the very end of the stream stays in the decoder: once
    the reliability layer is ready again and the client has nothing to send,
    the loop only polls the connection and never offers the frame again. *)
Lemma held_frame_stranded (quiet : W -> Prop) n : forall s,
  (forall w, quiet w -> (ack_tx_ready w).1 = true /\ quiet (ack_tx_ready w).2) ->
  (forall w, quiet w -> (netconn_recv w).1.1 = ERR_WOULDBLOCK /\ quiet (netconn_recv w).2) ->
  (forall w, quiet w -> quiet (ack_flush w)) ->
  tx_inv [] [] s -> rx_ok s -> held_nb s = None -> enabled (g_cfg s) = true -> quiet (world s) ->
  exists s', session os_malloc (replicate n (Iterate [])) s = Some ([], s') /\ quiet (world s') /\
    tcp_rns_decoder s' = tcp_rns_decoder s /\ accepted (world s') = accepted (world s).
Proof using world_ok.
  induction n as [|n IH]; intros s Hr Hv Hf Hi Hx Hnb Hen Hq; [by exists s|].
  cbn [replicate session session_step]. unfold client_iter. rewrite Hen. cbn [negb].
  destruct (pop_spec (accepted := accepted) (received := received) [] s Hi) as (s1 & E1 & Hi1 & Ho1 & Hw1 & _). cbn [burst]. rewrite E1. cbn [mbind option_bind producers hd].
  destruct Hx as [Hd Ht Hn]. unfold client_rx. rewrite (to_thr _ _ Ho1), Ht. cbn [Z.ltb Z.compare]. rsimpl.
  rewrite (to_nb _ _ Ho1), Hnb. rewrite Hw1.
  destruct (Hr _ Hq) as [Hr1 Hq1]. pose proof (tw_ready _ _ _ _ world_ok (world s)) as (A1 & _).
  destruct (ack_tx_ready (world s)) as [ready w1]. cbn [fst snd] in *. subst ready. cbn [negb]. rsimpl.
  destruct (Hv _ Hq1) as [Hv1 Hq2]. destruct (netconn_recv w1) as [[err nb] w2] eqn:Er. cbn [fst snd] in *. subst err.
  destruct (tw_recv _ _ _ _ world_ok _ _ _ _ Er) as (A2 & _). rewrite Z.eqb_refl. cbn [mbind option_bind].
  pose proof (tw_flush _ _ _ _ world_ok w2) as (A3 & _). rsimpl.
  match goal with |- context [session os_malloc _ ?x] => set (s2 := x) end.
  assert (E2 : tcp_rns_decoder s2 = tcp_rns_decoder s /\ held_nb s2 = None /\ tx_throttle_ms s2 = 0 /\ g_cfg s2 = g_cfg s /\
    world s2 = ack_flush w2 /\ tx_inv [] [] s2).
  { unfold s2. rsimpl. destruct Ho1. split; [congruence|]. split; [congruence|]. split; [congruence|]. split; [congruence|].
    split; [done|]. destruct Hi1. constructor; by rsimpl. }
  clearbody s2. destruct E2 as (D2 & N2 & T2 & C2 & W2 & I2).
  destruct (IH s2) as (s3 & -> & Hq3 & D3 & A4); try done.
  - constructor; [by rewrite D2|done|intros nb' E; congruence].
  - by rewrite C2.
  - rewrite W2. by apply Hf.
  - exists s3. split; [done|]. split; [done|]. split; [congruence|]. rewrite A4, W2. congruence.
Qed.
End Session.

(** ** A concrete world: a script of netbufs, a schedule of refusals *)

Record demo_world := mk_demo { script : list (list (list Z)); refusals : list bool; taken_log : list (list Z); got : list Z; put : list Z }.
#[export] Instance eta_demo : Eta demo_world := fun w => mk_demo (script w) (refusals w) (taken_log w) (got w) (put w).

#[export] Instance netbuf_ok_dec nb : Decision (netbuf_ok nb).
Proof. unfold netbuf_ok. apply _. Defined.

#[export] Instance demo_tcp : TcpEnv demo_world := {|
  rns_tcp_rx_handler fr w :=
    match refusals w with
    | true :: l => (HALOW_ACK_TX_THROTTLE, fr, w <| refusals := l |>)
    | _ => (0, fr, w <| refusals ::= tail |> <| taken_log ::= fun l => l ++ [fr] |>)
    end;
  ack_tx_ready w := (true, w);
  ack_flush w := w;
  netconn_recv w :=
    match script w with
    | nb :: l => if decide (netbuf_ok nb) then (ERR_OK, Some nb, w <| script := l |> <| got ::= fun g => g ++ concat nb |>)
                 else (ERR_WOULDBLOCK, None, w)
    | [] => (ERR_WOULDBLOCK, None, w)
    end;
  netconn_write_partly buf w := (ERR_OK, Z.of_nat (length buf), w <| put ::= fun p => p ++ buf |>);
|}.
Definition demo_malloc (a : Z) (h : gmap Z (list Z)) (n : Z) : Z :=
  let p := u32 a in if h !! p is Some _ then 0 else p.

Lemma demo_malloc_fresh a h n : demo_malloc a h n <> 0 -> is_u32 (demo_malloc a h n) /\ h !! demo_malloc a h n = None.
Proof. unfold demo_malloc. destruct (h !! u32 a) eqn:E; [done|]. intros _. split; [apply u32_range|done]. Qed.

Lemma demo_world_ok : tcp_world eq taken_log got put.
Proof.
  constructor.
  - split; [done|]. intros ? ? ? -> ->. done.
  - by intros a b ->.
  - intros fr w r fr' w'. cbn. destruct (refusals w) as [|[|] l]; intros [= <- <- <-]; by rsimpl.
  - done.
  - done.
  - intros w err nb w'. cbn. destruct (script w) as [|c l]; [|destruct (decide (netbuf_ok c)) as [Hc|]]; intros [= <- <- <-]; rsimpl; cbn.
    + by rewrite app_nil_r.
    + split; [done|]. split; [done|]. split; [done|]. intros ? [= <-]. exact Hc.
    + by rewrite app_nil_r.
  - intros buf w err n w' Hne. cbn. intros [= <- <- <-]. rsimpl. split; [lia|]. split; [destruct buf; [done|cbn; lia]|].
    split; [done|]. split; [done|]. by rewrite Nat2Z.id, firstn_all.
Qed.

(** Two frames, the first refused twice, in three chunks of two netbufs. *)
Definition demo_frames : list (list Z) := [[1; 2; 126; 3]; [4; 5]].
Definition demo_start (nbs : list (list (list Z))) : tcp_server demo_world :=
  mk_tcp_server (mk_tcp_config true 4242 0 0) (lwrb_init (replicate 256 0)) ∅ rns_stream_decoder_init 0 0 0 0 0 0 None 0 0
    (mk_demo nbs [true; true] [] [] []).
Definition demo_session : list session_event :=
  [Producers [(16, [7; 8; 9], true); (16, [1], true); (32, [10], false); (48, [11; 12], true)]; Iterate []] ++ replicate 8 (Iterate []).
Definition demo_netbufs : list (list (list Z)) :=
  let b := concat (encode <$> demo_frames) in [[take 3 b; take 7 (drop 3 b)]; [drop 10 b]].

Lemma demo_start_tx nbs : tx_inv [] [] (demo_start nbs).
Proof.
  destruct (init_spec (replicate 256 0)) as (Hr & Hs & Hl); [done|].
  constructor; [exact Hr|exact Hs|exact Hl|done|constructor|constructor].
Qed.
Lemma demo_start_rx nbs : rx_ok (demo_start nbs).
Proof. by constructor. Qed.
Lemma demo_session_ok : Forall session_event_ok demo_session.
Proof. repeat constructor. Qed.

Example demo_session_runs :
  match session demo_malloc demo_session (demo_start demo_netbufs) with
  | Some (rs, s) => rs = [([7; 8; 9], 0); ([1], -2); ([10], -3); ([11; 12], 0)] /\ taken_log (world s) = demo_frames /\
      put (world s) = [7; 8; 9; 11; 12] /\ heap s = ∅
  | None => False
  end.
Proof. vm_compute. done. Qed.

Lemma tcp_stream_exactly_once_witness :
  exists rs s' bytes, session demo_malloc demo_session (demo_start demo_netbufs) = Some (rs, s') /\
    got (world s') = bytes ++ left_over s' /\
    Forall2 eq (acc_feed rns_stream_decoder_init bytes []).2
      (taken_log (world s') ++ (if held (tcp_rns_decoder s') then [frame (tcp_rns_decoder s')] else [])).
Proof.
  destruct (tcp_stream_exactly_once eq taken_log got put demo_world_ok demo_malloc demo_malloc_fresh [] 0
    (demo_start demo_netbufs) (demo_start demo_netbufs) demo_session) as (rs & s' & bytes & Hs & Hg & Hf & _).
  - apply demo_start_tx.
  - vm_compute. reflexivity.
  - vm_compute. split; [discriminate|reflexivity].
  - reflexivity.
  - apply demo_session_ok.
  - exists rs, s', bytes. split; [exact Hs|]. split; [exact Hg|exact Hf].
Defined.

Lemma tcp_queue_fifo_witness :
  exists rs s' (q : list (Z * list Z)) (popped : list (list Z * Z)), session demo_malloc demo_session (demo_start []) = Some (rs, s') /\
    taken rs = popped.*1 ++ q.*2 /\ heap s' = list_to_map q.
Proof.
  destruct (tcp_queue_fifo eq taken_log got put demo_world_ok demo_malloc demo_malloc_fresh (demo_start []) demo_session)
    as (rs & s' & q & popped & Hs & Ht & _ & _ & _ & Hh & _).
  - apply demo_start_tx.
  - apply demo_start_rx.
  - vm_compute. split; [discriminate|reflexivity].
  - apply demo_session_ok.
  - exists rs, s', q, popped. split; [exact Hs|]. split; [exact Ht|exact Hh].
Defined.
