(* ===== verification/Flash.v ===== *)
(** * Flash: [ports/fal_norflash_port.c], [sdk/hal/spi_nor.c], the FAL
    partition layer and [ports/littlefs_port.c]

    The bus driver and the chip behind it are the class [SpiNorBus]; the laws
    [NorChip] are those of a NOR flash: programming clears bits within one
    256-byte page, erasing sets the 4096 bytes of a sector to [0xFF]. *)

From S2P Require Import Prelude.
From stdpp Require Import strings.

#[local] Open Scope Z_scope.

(** ** Cells

    The contents of a chip is a list of bytes; an operation is a function of
    a cell's address and value. *)

Definition on (f : Z -> Z -> Z) (m : list Z) : list Z := imap (fun i x => f (Z.of_nat i) x) m.
Definition put (a : Z) (b : list Z) (i x : Z) : Z := default x (rd b (i - a)).
Definition clear_bits (a : Z) (b : list Z) (i x : Z) : Z := match rd b (i - a) with Some y => Z.land x y | None => x end.
Definition blank (a n : Z) (i x : Z) : Z := if decide (a <= i < a + n) then 255 else x.
Definition slice (m : list Z) (a n : Z) : list Z := take (Z.to_nat n) (drop (Z.to_nat a) m).

Class SpiNorBus (F : Type) := {
  bus_open : F -> Z;
  bus_read_jedec_id : F -> list Z;
  bus_read : Z -> Z -> F -> list Z;
  bus_program : Z -> list Z -> F -> F;
  bus_sector_erase : Z -> F -> F;
}.

Class NorChip (F : Type) `{SpiNorBus F} (mem : F -> list Z) := {
  chip_bytes f : is_bytes (mem f);
  chip_read a n f : 0 <= a -> 0 <= n -> a + n <= Z.of_nat (length (mem f)) -> bus_read a n f = slice (mem f) a n;
  chip_program a b f : 0 <= a -> is_bytes b -> a mod 256 + Z.of_nat (length b) <= 256 -> a + Z.of_nat (length b) <= Z.of_nat (length (mem f)) ->
    mem (bus_program a b f) = on (clear_bits a b) (mem f);
  chip_erase a f : 0 <= a -> a mod 4096 = 0 -> a + 4096 <= Z.of_nat (length (mem f)) ->
    mem (bus_sector_erase a f) = on (blank a 4096) (mem f);
}.

Definition FLASH_START_ADDR : Z := 0.
Definition ALIGN_UP (x a : Z) : Z := u32 (u32 (x + a - 1) / a * a).
Definition ALIGN_DOWN (x a : Z) : Z := x / a * a.

Section Port.
Context {F : Type} `{SpiNorBus F}.

(** [flash0] and the geometry [init] gives to [nor_flash0]. *)
Record spi_nor_flash := mk_flash {
  size : Z; sector_size : Z; page_size : Z; block_size : Z;
  dev_len : Z; dev_blk_size : Z;
  chip : F;
}.
#[export] Instance eta_flash : Eta spi_nor_flash := fun f =>
  mk_flash (size f) (sector_size f) (page_size f) (block_size f) (dev_len f) (dev_blk_size f) (chip f).

(** ** [spi_nor.c] *)

Definition spi_nor_read (addr len : Z) (fl : spi_nor_flash) : list Z := bus_read addr len (chip fl).
Definition spi_nor_sector_erase (addr : Z) (fl : spi_nor_flash) : spi_nor_flash := fl <| chip ::= bus_sector_erase addr |>.
Definition spi_nor_program (addr : Z) (buf : list Z) (fl : spi_nor_flash) : spi_nor_flash := fl <| chip ::= bus_program addr buf |>.

(** The loop over whole pages; [None]: out of fuel. *)
Fixpoint write_pages (fuel : nat) (addr : Z) (buf : list Z) (fl : spi_nor_flash) : option spi_nor_flash :=
  match fuel with
  | O => None
  | S fuel =>
      let page := page_size fl in
      if page <? Z.of_nat (length buf) then
        write_pages fuel (u32 (addr + page)) (drop (Z.to_nat page) buf) (spi_nor_program addr (take (Z.to_nat page) buf) fl)
      else Some (spi_nor_program addr buf fl)
  end.
Definition spi_nor_write (addr : Z) (buf : list Z) (fl : spi_nor_flash) : option spi_nor_flash :=
  if page_size fl =? 0 then None
  else
    let remain_size := page_size fl - addr mod page_size fl in
    let fuel := S (length buf) in
    if negb (remain_size =? 0) && (remain_size <? Z.of_nat (length buf)) then
      write_pages fuel (u32 (addr + remain_size)) (drop (Z.to_nat remain_size) buf)
        (spi_nor_program addr (take (Z.to_nat remain_size) buf) fl)
    else write_pages fuel addr buf fl.

(** ** [fal_norflash_port.c] *)

Definition the_sector_size (fl : spi_nor_flash) : Z := if sector_size fl =? 0 then 4096 else sector_size fl.
Definition the_page_size (fl : spi_nor_flash) : Z := if page_size fl =? 0 then 256 else page_size fl.

Definition spi_nor_size_from_jedec (jedec_id : Z) : Z :=
  let cap := Z.land jedec_id 0xFF in
  if (cap <? 0x10) || (0x1F <? cap) then 0 else Z.shiftl 1 cap.

Definition init (fl : spi_nor_flash) : option (Z * spi_nor_flash) :=
  if negb (bus_open (chip fl) =? 0) then Some (-1, fl)
  else
    let jedec := bus_read_jedec_id (chip fl) in
    j0 ← rd jedec 0; j1 ← rd jedec 1; j2 ← rd jedec 2;
    let jedec_id := Z.lor (Z.lor (Z.shiftl j0 16) (Z.shiftl j1 8)) j2 in
    let sz := spi_nor_size_from_jedec jedec_id in
    if sz =? 0 then Some (-1, fl)
    else
      let fl := fl <| size := sz |> <| sector_size := 0x1000 |> <| page_size := 256 |> <| block_size := 0x10000 |> in
      Some (0, fl <| dev_len := size fl |> <| dev_blk_size := sector_size fl |>).

(** The result and the bytes read. *)
Definition read (offset n : Z) (fl : spi_nor_flash) : Z * list Z :=
  let addr := u32 (offset + FLASH_START_ADDR) in
  if n =? 0 then (0, [])
  else if size fl <? u32 (addr + n) then (-1, [])
  else (n, spi_nor_read addr n fl).

Definition need_erase (p : list Z) : bool := existsb (fun b => negb (b =? 0xFF)) p.

Fixpoint page_loop (fuel : nat) (addr : Z) (buf : list Z) (fl : spi_nor_flash) : option spi_nor_flash :=
  match buf, fuel with
  | [], _ => Some fl
  | _, O => None
  | _, S fuel =>
      let page := the_page_size fl in
      let off := addr mod page in
      let chunk := page - off in
      let chunk := if Z.of_nat (length buf) <? chunk then Z.of_nat (length buf) else chunk in
      fl ← spi_nor_write addr (take (Z.to_nat chunk) buf) fl;
      page_loop fuel (u32 (addr + chunk)) (drop (Z.to_nat chunk) buf) fl
  end.
Definition program_pages (addr : Z) (buf : list Z) (fl : spi_nor_flash) : option spi_nor_flash :=
  page_loop (length buf) addr buf fl.

Definition write_one_sector (sector_addr addr : Z) (buf : list Z) (fl : spi_nor_flash) : option (Z * spi_nor_flash) :=
  let n := Z.of_nat (length buf) in
  let sect := the_sector_size fl in
  let off := u32 (addr - sector_addr) in
  if negb (sect =? 4096) then Some (-2, fl)
  else if sect <? u32 (off + n) then Some (-1, fl)
  else
    let sect_buf := spi_nor_read sector_addr sect fl in
    old ← rd_n sect_buf off n;
    if negb (need_erase old) then fl ← program_pages addr buf fl; Some (n, fl)
    else
      sect_buf ← wr_n sect_buf off buf;
      fl ← program_pages sector_addr sect_buf (spi_nor_sector_erase sector_addr fl);
      Some (n, fl).

Fixpoint write_loop (fuel : nat) (cur end_ : Z) (buf : list Z) (fl : spi_nor_flash) : option (option Z * spi_nor_flash) :=
  if cur <? end_ then
    match fuel with
    | O => None
    | S fuel =>
        let sect := the_sector_size fl in
        let sector_addr := ALIGN_DOWN cur sect in
        let next := u32 (sector_addr + sect) in
        let chunk := if end_ <? next then u32 (end_ - cur) else u32 (next - cur) in
        part ← rd_n buf 0 chunk;
        '(rc, fl) ← write_one_sector sector_addr cur part fl;
        if rc <? 0 then Some (Some rc, fl)
        else write_loop fuel (u32 (cur + chunk)) end_ (drop (Z.to_nat chunk) buf) fl
    end
  else Some (None, fl).

Definition write (offset : Z) (buf : list Z) (fl : spi_nor_flash) : option (Z * spi_nor_flash) :=
  let n := Z.of_nat (length buf) in
  let addr := u32 (offset + FLASH_START_ADDR) in
  let end_ := u32 (addr + n) in
  if n =? 0 then Some (0, fl)
  else if (size fl <? end_) || (addr <? FLASH_START_ADDR) then Some (-1, fl)
  else
    '(rc, fl) ← write_loop (length buf) addr end_ buf fl;
    Some (default n rc, fl).

Fixpoint erase_loop (fuel : nat) (cur end_up : Z) (fl : spi_nor_flash) : option spi_nor_flash :=
  if cur <? end_up then
    match fuel with
    | O => None
    | S fuel => erase_loop fuel (u32 (cur + the_sector_size fl)) end_up (spi_nor_sector_erase cur fl)
    end
  else Some fl.

Definition erase (offset n : Z) (fl : spi_nor_flash) : option (Z * spi_nor_flash) :=
  let addr := u32 (offset + FLASH_START_ADDR) in
  let end_ := u32 (addr + n) in
  let sect := the_sector_size fl in
  if n =? 0 then Some (0, fl)
  else if (size fl <? end_) || (addr <? FLASH_START_ADDR) then Some (-1, fl)
  else
    let cur := ALIGN_DOWN addr sect in
    let end_up := ALIGN_UP end_ sect in
    fl ← erase_loop (S (Z.to_nat ((end_up - cur) / sect))) cur end_up fl;
    Some (n, fl).
End Port.
Arguments spi_nor_flash F : clear implicits.

(** ** [fal_cfg.h] and [fal_partition.c] *)

Record fal_partition := mk_part { part_name : string; part_offset : Z; part_len : Z }.
Definition fal_part_table : list fal_partition :=
  [mk_part "firmware" 0 (800 * 1024); mk_part "kvdb" (848 * 1024) (48 * 1024); mk_part "littlefs" (896 * 1024) (128 * 1024)].
Definition FAL_PART_NAME_FIRMWARE : string := "firmware".
Definition FAL_PART_NAME_KVDB : string := "kvdb".
Definition FAL_PART_NAME_LITTLEFS : string := "littlefs".
Definition fal_partition_find (name : string) : option fal_partition :=
  List.find (fun p => String.eqb name (part_name p)) fal_part_table.

Section Fal.
Context {F : Type} `{SpiNorBus F}.

Definition fal_partition_read (p : fal_partition) (addr n : Z) (fl : spi_nor_flash F) : Z * list Z :=
  if part_len p <? u32 (addr + n) then (-1, []) else read (u32 (part_offset p + addr)) n fl.
Definition fal_partition_write (p : fal_partition) (addr : Z) (buf : list Z) (fl : spi_nor_flash F) : option (Z * spi_nor_flash F) :=
  if part_len p <? u32 (addr + Z.of_nat (length buf)) then Some (-1, fl) else write (u32 (part_offset p + addr)) buf fl.
Definition fal_partition_erase (p : fal_partition) (addr n : Z) (fl : spi_nor_flash F) : option (Z * spi_nor_flash F) :=
  if part_len p <? u32 (addr + n) then Some (-1, fl) else erase (u32 (part_offset p + addr)) n fl.

(** ** [littlefs_port.c]: the block device on a partition *)

Definition LFS_ERR_IO : Z := -5.
Definition LFS_ERR_INVAL : Z := -22.
Definition LFS_PROG_SIZE : Z := 256.
Definition LFS_BLOCK_SIZE : Z := 4096.
Definition block_count (p : fal_partition) : Z := part_len p / LFS_BLOCK_SIZE.

Definition lfs_phys_addr (p : fal_partition) (block off : Z) : Z := u32 (part_offset p + u32 (u32 (block * LFS_BLOCK_SIZE) + off)).

Definition lfs_bd_read (g_part : option fal_partition) (block off n : Z) (fl : spi_nor_flash F) : Z * list Z :=
  match g_part with
  | None => (LFS_ERR_INVAL, [])
  | Some p =>
      if LFS_BLOCK_SIZE <? u32 (off + n) then (LFS_ERR_INVAL, [])
      else if negb (bus_open (chip fl) =? 0) then (LFS_ERR_IO, [])
      else (0, spi_nor_read (lfs_phys_addr p block off) n fl)
  end.
Definition lfs_bd_prog (g_part : option fal_partition) (block off : Z) (buf : list Z) (fl : spi_nor_flash F) : option (Z * spi_nor_flash F) :=
  let n := Z.of_nat (length buf) in
  match g_part with
  | None => Some (LFS_ERR_INVAL, fl)
  | Some p =>
      if negb (off mod LFS_PROG_SIZE =? 0) || negb (n mod LFS_PROG_SIZE =? 0) || (LFS_BLOCK_SIZE <? u32 (off + n)) then Some (LFS_ERR_INVAL, fl)
      else if negb (bus_open (chip fl) =? 0) then Some (LFS_ERR_IO, fl)
      else fl ← spi_nor_write (lfs_phys_addr p block off) buf fl; Some (0, fl)
  end.
Definition lfs_bd_erase (g_part : option fal_partition) (block : Z) (fl : spi_nor_flash F) : Z * spi_nor_flash F :=
  match g_part with
  | None => (LFS_ERR_INVAL, fl)
  | Some p =>
      if negb (bus_open (chip fl) =? 0) then (LFS_ERR_IO, fl)
      else (0, spi_nor_sector_erase (lfs_phys_addr p block 0) fl)
  end.
End Fal.

(** ** Cells: composition *)

Lemma on_lookup f m i : on f m !! i = f (Z.of_nat i) <$> m !! i.
Proof. unfold on. by rewrite list_lookup_imap. Qed.
Lemma on_length f m : length (on f m) = length m.
Proof. apply length_imap. Qed.
Lemma on_ext f g m : (forall i x, m !! i = Some x -> f (Z.of_nat i) x = g (Z.of_nat i) x) -> on f m = on g m.
Proof. intros E. apply list_eq. intros i. rewrite !on_lookup. destruct (m !! i) eqn:Hi; [|done]. cbn. by rewrite (E _ _ Hi). Qed.
Lemma on_on f g m : on f (on g m) = on (fun i x => f i (g i x)) m.
Proof. apply list_eq. intros i. rewrite !on_lookup. by destruct (m !! i). Qed.
Lemma on_id f m : (forall i x, m !! i = Some x -> f (Z.of_nat i) x = x) -> on f m = m.
Proof. intros E. apply list_eq. intros i. rewrite on_lookup. destruct (m !! i) eqn:Hi; [|done]. cbn. by rewrite (E _ _ Hi). Qed.

Lemma rd_app {A} (b1 b2 : list A) i :
  rd (b1 ++ b2) i = match rd b1 i with Some x => Some x | None => rd b2 (i - Z.of_nat (length b1)) end.
Proof.
  unfold rd. case_decide; [|rewrite decide_False by lia; done].
  destruct (b1 !! Z.to_nat i) eqn:E; [by rewrite (lookup_app_l_Some _ _ _ _ E)|].
  apply lookup_ge_None in E. rewrite lookup_app_r by done. rewrite decide_True by lia. f_equal. lia.
Qed.
Lemma rd_range {A} (b : list A) i x : rd b i = Some x -> 0 <= i < Z.of_nat (length b).
Proof. unfold rd. case_decide; [|done]. intros E%lookup_lt_Some. lia. Qed.
Lemma rd_range_none {A} (b : list A) i : rd b i = None -> i < 0 \/ Z.of_nat (length b) <= i.
Proof. unfold rd. case_decide; [|lia]. intros E%lookup_ge_None. lia. Qed.

Lemma clear_bits_app a b1 b2 m :
  on (clear_bits (a + Z.of_nat (length b1)) b2) (on (clear_bits a b1) m) = on (clear_bits a (b1 ++ b2)) m.
Proof.
  rewrite on_on. apply on_ext. intros i x _. unfold clear_bits. rewrite rd_app.
  replace (Z.of_nat i - (a + Z.of_nat (length b1))) with (Z.of_nat i - a - Z.of_nat (length b1)) by lia.
  destruct (rd b1 _) eqn:E; [|done]. apply rd_range in E. destruct (rd b2 _) eqn:E2; [|done]. apply rd_range in E2. lia.
Qed.
Lemma put_app a b1 b2 m : on (put (a + Z.of_nat (length b1)) b2) (on (put a b1) m) = on (put a (b1 ++ b2)) m.
Proof.
  rewrite on_on. apply on_ext. intros i x _. unfold put. rewrite rd_app.
  replace (Z.of_nat i - (a + Z.of_nat (length b1))) with (Z.of_nat i - a - Z.of_nat (length b1)) by lia.
  destruct (rd b1 _) eqn:E; [|done]. apply rd_range in E. destruct (rd b2 _) eqn:E2; [|done]. apply rd_range in E2. lia.
Qed.
Lemma blank_app a n1 n2 m : 0 <= n1 -> 0 <= n2 -> on (blank (a + n1) n2) (on (blank a n1) m) = on (blank a (n1 + n2)) m.
Proof. intros. rewrite on_on. apply on_ext. intros i x _. unfold blank. repeat case_decide; first [done | lia]. Qed.

Lemma land_255 x : is_u8 x -> Z.land 255 x = x.
Proof. intros Hx. rewrite Z.land_comm, land_0xFF. apply Z.mod_small. exact Hx. Qed.

Lemma slice_rd m a n i : 0 <= a -> 0 <= i < n -> rd (slice m a n) i = rd m (a + i).
Proof.
  intros Ha Hi. unfold rd, slice. rewrite !decide_True by lia. rewrite lookup_take_lt by lia. rewrite lookup_drop. f_equal. lia.
Qed.
Lemma slice_length m a n : 0 <= a -> 0 <= n -> a + n <= Z.of_nat (length m) -> Z.of_nat (length (slice m a n)) = n.
Proof. intros. unfold slice. rewrite length_take, length_drop. lia. Qed.
Lemma slice_slice m a n b k : 0 <= a -> 0 <= b -> 0 <= k -> b + k <= n -> slice (slice m a n) b k = slice m (a + b) k.
Proof.
  intros. unfold slice. rewrite skipn_firstn_comm, take_take, drop_drop. f_equal; [lia|]. f_equal. lia.
Qed.

Lemma slice_add m a n k : 0 <= a -> 0 <= n -> 0 <= k -> slice m a (n + k) = slice m a n ++ slice m (a + n) k.
Proof.
  intros. unfold slice. rewrite !Z2Nat.inj_add, <-drop_drop by lia. generalize (drop (Z.to_nat a) m). intros l.
  rewrite <-(take_drop (Z.to_nat n) (take (Z.to_nat n + _) l)), take_take, Nat.min_l by lia. f_equal.
  rewrite skipn_firstn_comm. f_equal. lia.
Qed.

(** Erasing what is blank changes nothing; programming blank cells stores. *)
Lemma clear_bits_blank a b m : is_bytes b -> (forall i x, m !! i = Some x -> a <= Z.of_nat i < a + Z.of_nat (length b) -> x = 255) ->
  on (clear_bits a b) m = on (put a b) m.
Proof.
  intros Hb Hm. apply on_ext. intros i x Hi. unfold clear_bits, put. destruct (rd b _) as [y|] eqn:E; [|done]. cbn.
  pose proof (rd_range _ _ _ E). rewrite (Hm _ _ Hi) by lia. apply land_255. unfold rd in E. case_decide; [|done].
  by eapply is_bytes_lookup.
Qed.

Section NorProofs.
Context {F : Type} {bus : SpiNorBus F} {mem : F -> list Z} {nor : NorChip F mem}.
#[local] Abbreviation flash := (spi_nor_flash F).

Record flash_ok (fl : flash) : Prop := {
  ok_page : page_size fl = 256;
  ok_sector : sector_size fl = 4096;
  ok_size : size fl = Z.of_nat (length (mem (chip fl)));
  ok_whole : size fl mod 4096 = 0;
  ok_limit : size fl < 2 ^ 31;
}.
(** [fl'] is [fl] after the cell function [f]. *)
Definition becomes (fl : flash) (f : Z -> Z -> Z) (fl' : flash) : Prop :=
  exists c, fl' = fl <| chip := c |> /\ mem c = on f (mem (chip fl)).

Lemma becomes_ok fl f fl' : flash_ok fl -> becomes fl f fl' -> flash_ok fl'.
Proof using.
  intros [] (c & -> & Hc). constructor; rsimpl; try done. by rewrite Hc, on_length.
Qed.
Lemma becomes_mem fl f fl' : becomes fl f fl' -> mem (chip fl') = on f (mem (chip fl)).
Proof using. intros (c & -> & Hc). by rsimpl. Qed.
Lemma becomes_size fl f fl' : becomes fl f fl' -> size fl' = size fl.
Proof using. intros (c & -> & Hc). by rsimpl. Qed.
Lemma becomes_trans fl1 f fl2 g fl3 h : becomes fl1 f fl2 -> becomes fl2 g fl3 ->
  on h (mem (chip fl1)) = on g (on f (mem (chip fl1))) -> becomes fl1 h fl3.
Proof using.
  intros (c1 & -> & E1) (c2 & -> & E2) E. exists c2. split; [done|]. rsimpl. by rewrite E2, E1, E.
Qed.
Lemma becomes_refl fl f : on f (mem (chip fl)) = mem (chip fl) -> becomes fl f fl.
Proof using. intros E. exists (chip fl). split; [by destruct fl|done]. Qed.

Lemma program_becomes addr buf fl : flash_ok fl -> 0 <= addr -> is_bytes buf -> addr mod 256 + Z.of_nat (length buf) <= 256 ->
  addr + Z.of_nat (length buf) <= size fl -> becomes fl (clear_bits addr buf) (spi_nor_program addr buf fl).
Proof using nor.
  intros Hok Ha Hb Hp Hr. exists (bus_program addr buf (chip fl)). split; [done|].
  apply chip_program; try done. by rewrite <-(ok_size _ Hok).
Qed.

Lemma write_pages_becomes fuel : forall addr buf fl, flash_ok fl -> 0 <= addr -> is_bytes buf -> (length buf < fuel)%nat ->
  (addr mod 256 = 0 \/ addr mod 256 + Z.of_nat (length buf) <= 256) -> addr + Z.of_nat (length buf) <= size fl ->
  exists fl', write_pages fuel addr buf fl = Some fl' /\ becomes fl (clear_bits addr buf) fl'.
Proof using nor.
  induction fuel as [|fuel IH]; intros addr buf fl Hok Ha Hb Hf Hal Hr; [lia|]. cbn [write_pages].
  rewrite (ok_page _ Hok). pose proof (ok_limit _ Hok). z_case.
  - rewrite <-(take_drop (Z.to_nat 256) buf) in Hb. apply Forall_app in Hb as [Hb1 Hb2].
    set (b1 := take _ buf) in *. set (b2 := drop _ buf) in *.
    assert (Hl1 : Z.of_nat (length b1) = 256) by (unfold b1; rewrite length_take; lia).
    assert (Hl2 : Z.of_nat (length b2) = Z.of_nat (length buf) - 256) by (unfold b2; rewrite length_drop; lia).
    pose proof (program_becomes addr b1 fl Hok Ha Hb1 ltac:(lia) ltac:(lia)) as Hp.
    rewrite u32_small by word_lia.
    destruct (IH (addr + 256) b2 (spi_nor_program addr b1 fl)) as (fl' & -> & Hfl').
    { by eapply becomes_ok. } { lia. } { done. } { lia. } { left. Z.to_euclidean_division_equations; lia. } { rewrite (becomes_size _ _ _ Hp). lia. }
    exists fl'. split; [done|]. eapply becomes_trans; [done..|]. rewrite <-Hl1, clear_bits_app. unfold b1, b2. by rewrite take_drop.
  - eexists. split; [done|]. apply program_becomes; try done. destruct Hal; lia.
Qed.

Lemma spi_nor_write_becomes addr buf fl : flash_ok fl -> 0 <= addr -> is_bytes buf -> addr + Z.of_nat (length buf) <= size fl ->
  exists fl', spi_nor_write addr buf fl = Some fl' /\ becomes fl (clear_bits addr buf) fl'.
Proof using nor.
  intros Hok Ha Hb Hr. unfold spi_nor_write. rewrite (ok_page _ Hok). pose proof (ok_limit _ Hok). cbn [Z.eqb]. cbv zeta.
  set (rem := 256 - addr mod 256). assert (Hrem : 0 < rem <= 256) by (unfold rem; Z.to_euclidean_division_equations; lia).
  rewrite (proj2 (Z.eqb_neq rem 0)) by lia. cbn [negb andb]. z_case.
  - rewrite <-(take_drop (Z.to_nat rem) buf) in Hb. apply Forall_app in Hb as [Hb1 Hb2].
    set (b1 := take _ buf) in *. set (b2 := drop _ buf) in *.
    assert (Hl1 : Z.of_nat (length b1) = rem) by (unfold b1; rewrite length_take; lia).
    assert (Hl2 : Z.of_nat (length b2) = Z.of_nat (length buf) - rem) by (unfold b2; rewrite length_drop; lia).
    pose proof (program_becomes addr b1 fl Hok Ha Hb1 ltac:(lia) ltac:(lia)) as Hp.
    rewrite u32_small by word_lia.
    destruct (write_pages_becomes (S (length buf)) (addr + rem) b2 (spi_nor_program addr b1 fl)) as (fl' & -> & Hfl').
    { by eapply becomes_ok. } { lia. } { done. } { lia. } { left. unfold rem. Z.to_euclidean_division_equations; lia. } { rewrite (becomes_size _ _ _ Hp). lia. }
    exists fl'. split; [done|]. eapply becomes_trans; [done..|]. rewrite <-Hl1, clear_bits_app. unfold b1, b2. by rewrite take_drop.
  - apply write_pages_becomes; try done; [lia|]. right. lia.
Qed.

Lemma page_loop_becomes fuel : forall addr buf fl, flash_ok fl -> 0 <= addr -> is_bytes buf -> (length buf <= fuel)%nat ->
  addr + Z.of_nat (length buf) <= size fl ->
  exists fl', page_loop fuel addr buf fl = Some fl' /\ becomes fl (clear_bits addr buf) fl'.
Proof using nor.
  induction fuel as [|fuel IH]; intros addr buf fl Hok Ha Hb Hf Hr.
  { destruct buf; [|cbn in Hf; lia]. exists fl. split; [done|]. apply becomes_refl, on_id. intros i x _. unfold clear_bits, rd. by case_decide. }
  destruct (decide (buf = [])) as [->|Hne].
  { exists fl. split; [done|]. apply becomes_refl, on_id. intros i x _. unfold clear_bits, rd. by case_decide. }
  assert (Hpos : 0 < Z.of_nat (length buf)) by (destruct buf; [done|cbn; lia]).
  assert (Estep : page_loop (S fuel) addr buf fl =
    (let page := the_page_size fl in let off := addr mod page in let chunk := page - off in
     let chunk := if Z.of_nat (length buf) <? chunk then Z.of_nat (length buf) else chunk in
     fl ← spi_nor_write addr (take (Z.to_nat chunk) buf) fl;
     page_loop fuel (u32 (addr + chunk)) (drop (Z.to_nat chunk) buf) fl)) by (by destruct buf).
  rewrite Estep. clear Estep. unfold the_page_size. rewrite (ok_page _ Hok). cbn [Z.eqb]. cbv zeta. pose proof (ok_limit _ Hok).
  set (chunk := if _ <? _ then _ else _).
  assert (Hc : 0 < chunk <= Z.of_nat (length buf)).
  { unfold chunk. destruct (Z.ltb_spec (Z.of_nat (length buf)) (256 - addr mod 256)); Z.to_euclidean_division_equations; lia. }
  clearbody chunk. rewrite <-(take_drop (Z.to_nat chunk) buf) in Hb. apply Forall_app in Hb as [Hb1 Hb2].
  set (b1 := take _ buf) in *. set (b2 := drop _ buf) in *.
  assert (Hl1 : Z.of_nat (length b1) = chunk) by (unfold b1; rewrite length_take; lia).
  assert (Hl2 : Z.of_nat (length b2) = Z.of_nat (length buf) - chunk) by (unfold b2; rewrite length_drop; lia).
  destruct (spi_nor_write_becomes addr b1 fl Hok Ha Hb1 ltac:(lia)) as (fl1 & -> & Hp). cbn [mbind option_bind].
  rewrite u32_small by word_lia.
  destruct (IH (addr + chunk) b2 fl1) as (fl' & -> & Hfl').
  { by eapply becomes_ok. } { lia. } { done. } { lia. } { rewrite (becomes_size _ _ _ Hp). lia. }
  exists fl'. split; [done|]. eapply becomes_trans; [done..|]. rewrite <-Hl1, clear_bits_app. unfold b1, b2. by rewrite take_drop.
Qed.
Lemma program_pages_becomes addr buf fl : flash_ok fl -> 0 <= addr -> is_bytes buf -> addr + Z.of_nat (length buf) <= size fl ->
  exists fl', program_pages addr buf fl = Some fl' /\ becomes fl (clear_bits addr buf) fl'.
Proof using nor. intros. by apply page_loop_becomes. Qed.

Lemma spi_nor_read_slice addr n fl : flash_ok fl -> 0 <= addr -> 0 <= n -> addr + n <= size fl ->
  spi_nor_read addr n fl = slice (mem (chip fl)) addr n.
Proof using nor. intros Hok ? ? Hr. apply chip_read; [done..|]. by rewrite <-(ok_size _ Hok). Qed.

Lemma need_erase_false p : need_erase p = false -> Forall (fun x => x = 255) p.
Proof using.
  unfold need_erase. induction p as [|x p IH]; [constructor|]. cbn [existsb]. intros [Hx Hp]%orb_false_iff.
  apply negb_false_iff, Z.eqb_eq in Hx. constructor; [done|]. by apply IH.
Qed.

Lemma write_one_sector_becomes sector_addr addr buf fl : flash_ok fl -> is_bytes buf -> 0 <= sector_addr -> sector_addr mod 4096 = 0 ->
  sector_addr <= addr -> addr + Z.of_nat (length buf) <= sector_addr + 4096 -> sector_addr + 4096 <= size fl ->
  exists fl', write_one_sector sector_addr addr buf fl = Some (Z.of_nat (length buf), fl') /\ becomes fl (put addr buf) fl'.
Proof using nor.
  intros Hok Hb Hs Hal Ha He Hr. unfold write_one_sector, the_sector_size. rewrite (ok_sector _ Hok). cbn [Z.eqb Pos.eqb negb].
  cbv zeta. pose proof (ok_limit _ Hok) as Hlim. rewrite (u32_small (addr - sector_addr)) by word_lia.
  rewrite (u32_small (_ - _ + _)) by word_lia. rewrite (proj2 (Z.ltb_ge _ _)) by lia.
  rewrite spi_nor_read_slice by (done || lia).
  set (old := slice (mem (chip fl)) sector_addr 4096).
  assert (Hlen : Z.of_nat (length old) = 4096) by (apply slice_length; [lia..|]; rewrite <-(ok_size _ Hok); lia).
  rewrite rd_n_in_bounds by lia. cbn [mbind option_bind]. fold (slice old (addr - sector_addr) (Z.of_nat (length buf))).
  unfold old at 1. rewrite slice_slice by lia. replace (sector_addr + (addr - sector_addr)) with addr by lia.
  destruct (need_erase _) eqn:Hne; cbn [negb].
  - rewrite wr_n_in_bounds by lia. cbn [mbind option_bind].
    remember (Z.to_nat (addr - sector_addr)) as o eqn:Eo. set (new := take o old ++ buf ++ drop (o + length buf) old).
    assert (Hnew : Z.of_nat (length new) = 4096) by (unfold new; rewrite !length_app, length_take, length_drop; lia).
    assert (Hbytes : is_bytes new).
    { unfold new. pose proof (chip_bytes (chip fl)) as Hm. apply Forall_app. split; [by apply Forall_take, Forall_take, Forall_drop|].
      apply Forall_app. split; [done|]. by apply Forall_drop, Forall_take, Forall_drop. }
    assert (He1 : becomes fl (blank sector_addr 4096) (spi_nor_sector_erase sector_addr fl)).
    { exists (bus_sector_erase sector_addr (chip fl)). split; [done|]. apply chip_erase; [done..|]. rewrite <-(ok_size _ Hok). lia. }
    destruct (program_pages_becomes sector_addr new (spi_nor_sector_erase sector_addr fl)) as (fl' & -> & Hp);
      [by eapply becomes_ok|done..|rewrite (becomes_size _ _ _ He1); lia|]. cbn [mbind option_bind].
    exists fl'. split; [done|]. eapply becomes_trans; [done..|]. rewrite on_on. apply on_ext. intros i x Hi.
    unfold blank, clear_bits, put, new. rewrite rd_app.
    destruct (rd (take o old) (Z.of_nat i - sector_addr)) as [y|] eqn:E1.
    { pose proof (rd_range _ _ _ E1) as R. rewrite length_take in R. rewrite decide_True by lia.
      replace (rd buf (Z.of_nat i - addr)) with (@None Z) by (symmetry; unfold rd; rewrite decide_False by lia; done). cbn.
      assert (Ey : rd old (Z.of_nat i - sector_addr) = Some y).
      { unfold rd in E1 |- *. rewrite decide_True in E1 by lia. rewrite decide_True by lia. rewrite lookup_take_lt in E1 by lia. done. }
      unfold old in Ey. rewrite slice_rd in Ey by lia. unfold rd in Ey. rewrite decide_True in Ey by lia.
      replace (Z.to_nat (sector_addr + (Z.of_nat i - sector_addr))) with i in Ey by lia. rewrite Ey in Hi. injection Hi as ->.
      symmetry. apply land_255. eapply is_bytes_lookup; [apply chip_bytes|done]. }
    apply rd_range_none in E1. rewrite length_take in E1. rewrite length_take, rd_app.
    replace (Z.of_nat i - sector_addr - Z.of_nat (o `min` length old)) with (Z.of_nat i - addr) by lia.
    destruct (rd buf (Z.of_nat i - addr)) as [y|] eqn:E2.
    { pose proof (rd_range _ _ _ E2) as R. rewrite decide_True by lia. cbn. symmetry. apply land_255.
      unfold rd in E2. rewrite decide_True in E2 by lia. exact (is_bytes_lookup _ _ _ Hb E2). }
    apply rd_range_none in E2. cbn. destruct (rd (drop _ old) _) as [y|] eqn:E3.
    { pose proof (rd_range _ _ _ E3) as R. rewrite length_drop in R. rewrite decide_True by lia.
      assert (Ey : rd old (Z.of_nat i - sector_addr) = Some y).
      { unfold rd in E3 |- *. rewrite decide_True in E3 by lia. rewrite decide_True by lia. rewrite lookup_drop in E3. rewrite <-E3. f_equal. lia. }
      unfold old in Ey. rewrite slice_rd in Ey by lia. unfold rd in Ey. rewrite decide_True in Ey by lia.
      replace (Z.to_nat (sector_addr + (Z.of_nat i - sector_addr))) with i in Ey by lia. rewrite Ey in Hi. injection Hi as ->.
      symmetry. apply land_255. eapply is_bytes_lookup; [apply chip_bytes|done]. }
    apply rd_range_none in E3. rewrite length_drop in E3. rewrite decide_False by lia. done.
  - destruct (program_pages_becomes addr buf fl Hok) as (fl' & -> & Hp); [lia|done|lia|]. cbn [mbind option_bind].
    exists fl'. split; [done|]. destruct Hp as (c & -> & Ec). exists c. split; [done|]. rewrite Ec. apply clear_bits_blank; [done|].
    intros i x Hi Hin. apply need_erase_false in Hne. rewrite Forall_lookup in Hne. apply (Hne (i - Z.to_nat addr)%nat). unfold slice.
    rewrite lookup_take_lt by lia. rewrite lookup_drop. rewrite <-Hi. f_equal. lia.
Qed.

Lemma write_loop_becomes fuel : forall cur buf fl, flash_ok fl -> is_bytes buf -> 0 <= cur -> cur + Z.of_nat (length buf) <= size fl ->
  (length buf <= fuel)%nat ->
  exists fl', write_loop fuel cur (cur + Z.of_nat (length buf)) buf fl = Some (None, fl') /\ becomes fl (put cur buf) fl'.
Proof using nor.
  induction fuel as [|fuel IH]; intros cur buf fl Hok Hb Hc Hr Hf; cbn [write_loop].
  { destruct buf; [|cbn in Hf; lia]. rewrite (proj2 (Z.ltb_ge _ _)) by (cbn; lia). exists fl. split; [done|].
    apply becomes_refl, on_id. intros i x _. unfold put, rd. by case_decide. }
  z_case.
  2: { destruct buf; [|cbn in *; lia]. exists fl. split; [done|]. apply becomes_refl, on_id. intros i x _. unfold put, rd. by case_decide. }
  pose proof (ok_limit _ Hok) as Hlim. pose proof (ok_whole _ Hok) as Hwh. 
  assert (Hsz : the_sector_size fl = 4096) by (unfold the_sector_size; by rewrite (ok_sector _ Hok)). rewrite !Hsz.
  cbv zeta. unfold ALIGN_DOWN. set (sec := cur / 4096 * 4096).
  assert (Hsec : sec mod 4096 = 0 /\ sec <= cur < sec + 4096 /\ 0 <= sec /\ sec + 4096 <= size fl).
  { unfold sec. split; [apply Z.mod_mul; lia|]. Z.to_euclidean_division_equations; lia. }
  clearbody sec. rewrite (u32_small (sec + 4096)) by word_lia. set (chunk := if _ <? sec + 4096 then _ else _).
  assert (Hk : 0 < chunk <= Z.of_nat (length buf) /\ cur + chunk <= sec + 4096).
  { unfold chunk. destruct (Z.ltb_spec (cur + Z.of_nat (length buf)) (sec + 4096)); rewrite u32_small by word_lia; lia. }
  clearbody chunk. rewrite rd_n_in_bounds by lia. change (Z.to_nat 0) with 0%nat. rewrite drop_0. cbn [mbind option_bind].
  rewrite <-(take_drop (Z.to_nat chunk) buf) in Hb. apply Forall_app in Hb as [Hb1 Hb2].
  set (b1 := take _ buf) in *. set (b2 := drop _ buf) in *.
  assert (Hl1 : Z.of_nat (length b1) = chunk) by (unfold b1; rewrite length_take; lia).
  assert (Hl2 : Z.of_nat (length b2) = Z.of_nat (length buf) - chunk) by (unfold b2; rewrite length_drop; lia).
  destruct (write_one_sector_becomes sec cur b1 fl) as (fl1 & -> & H1); try done; try lia. cbn [mbind option_bind].
  rewrite (proj2 (Z.ltb_ge _ 0)) by lia. rewrite (u32_small (cur + chunk)) by word_lia.
  replace (cur + Z.of_nat (length buf)) with (cur + chunk + Z.of_nat (length b2)) by lia.
  destruct (IH (cur + chunk) b2 fl1) as (fl' & -> & H2); [by eapply becomes_ok|done|lia|rewrite (becomes_size _ _ _ H1); lia|lia|].
  exists fl'. split; [done|]. eapply becomes_trans; [done..|]. rewrite <-Hl1, put_app. unfold b1, b2. by rewrite take_drop.
Qed.

Lemma write_becomes offset buf fl : flash_ok fl -> is_bytes buf -> 0 <= offset -> offset + Z.of_nat (length buf) <= size fl ->
  exists fl', write offset buf fl = Some (Z.of_nat (length buf), fl') /\ becomes fl (put offset buf) fl'.
Proof using nor.
  intros Hok Hb Ho Hr. pose proof (ok_limit _ Hok) as Hlim. unfold write, FLASH_START_ADDR. rewrite Z.add_0_r.
  rewrite (u32_small offset) by word_lia. rewrite (u32_small (offset + _)) by word_lia.
  destruct (Z.eqb_spec (Z.of_nat (length buf)) 0) as [Hz|Hz].
  { exists fl. rewrite Hz. split; [done|]. destruct buf; [|done]. apply becomes_refl, on_id. intros i x _. unfold put, rd. by case_decide. }
  rewrite (proj2 (Z.ltb_ge (size fl) _)), (proj2 (Z.ltb_ge offset 0)) by lia. cbn [orb].
  destruct (write_loop_becomes (length buf) offset buf fl) as (fl' & -> & Hw); try done. by exists fl'.
Qed.

Lemma erase_loop_becomes fuel : forall k cur fl, flash_ok fl -> 0 <= k -> 0 <= cur -> cur mod 4096 = 0 -> cur + 4096 * k <= size fl -> (Z.to_nat k <= fuel)%nat ->
  exists fl', erase_loop fuel cur (cur + 4096 * k) fl = Some fl' /\ becomes fl (blank cur (4096 * k)) fl'.
Proof using nor.
  assert (Hnil : forall cur (fl : flash), becomes fl (blank cur (4096 * 0)) fl).
  { intros cur fl. apply becomes_refl, on_id. intros i x _. unfold blank. case_decide; [lia|done]. }
  induction fuel as [|fuel IH]; intros k cur fl Hok Hk Hc Hal Hr Hf; cbn [erase_loop].
  { assert (k = 0) as -> by lia. rewrite (proj2 (Z.ltb_ge _ _)) by lia. exists fl. split; [done|]. apply Hnil. }
  z_case. 2: { assert (k = 0) as -> by lia. exists fl. split; [done|]. apply Hnil. }
  pose proof (ok_limit _ Hok) as Hlim. unfold the_sector_size. rewrite (ok_sector _ Hok). cbn [Z.eqb Pos.eqb]. rewrite u32_small by word_lia.
  assert (H1 : becomes fl (blank cur 4096) (spi_nor_sector_erase cur fl)).
  { exists (bus_sector_erase cur (chip fl)). split; [done|]. apply chip_erase; [done..|]. rewrite <-(ok_size _ Hok). lia. }
  replace (cur + 4096 * k) with (cur + 4096 + 4096 * (k - 1)) by lia.
  destruct (IH (k - 1) (cur + 4096) (spi_nor_sector_erase cur fl)) as (fl' & -> & H2).
  { by eapply becomes_ok. } { lia. } { lia. } { Z.to_euclidean_division_equations; lia. } { rewrite (becomes_size _ _ _ H1). lia. } { lia. }
  exists fl'. split; [done|]. eapply becomes_trans; [done..|]. rewrite blank_app by lia. f_equal. f_equal. lia.
Qed.

Lemma erase_becomes offset n fl : flash_ok fl -> 0 <= offset -> 0 < n -> offset mod 4096 = 0 -> n mod 4096 = 0 -> offset + n <= size fl ->
  exists fl', erase offset n fl = Some (n, fl') /\ becomes fl (blank offset n) fl'.
Proof using nor.
  intros Hok Ho Hn Ha1 Ha2 Hr. pose proof (ok_limit _ Hok) as Hlim. unfold erase, FLASH_START_ADDR, ALIGN_DOWN, ALIGN_UP, the_sector_size.
  rewrite (ok_sector _ Hok). cbn [Z.eqb Pos.eqb]. rewrite Z.add_0_r, (u32_small offset), (u32_small (offset + n)) by word_lia.
  rewrite (proj2 (Z.eqb_neq n 0)), (proj2 (Z.ltb_ge (size fl) _)), (proj2 (Z.ltb_ge offset 0)) by lia. cbn [orb].
  rewrite (u32_small (offset + n + 4096 - 1)) by word_lia. pose proof (Z.div_mod offset 4096) as Eo. pose proof (Z.div_mod n 4096) as En.
  replace (offset / 4096 * 4096) with offset by lia.
  replace (u32 ((offset + n + 4096 - 1) / 4096 * 4096)) with (offset + 4096 * (n / 4096)) by (rewrite u32_small; [|split]; Z.to_euclidean_division_equations; lia).
  replace ((offset + 4096 * (n / 4096) - offset) / 4096) with (n / 4096) by (Z.to_euclidean_division_equations; lia).
  destruct (erase_loop_becomes (S (Z.to_nat (n / 4096))) (n / 4096) offset fl) as (fl' & -> & He); try done; try lia.
  cbn [mbind option_bind]. exists fl'. split; [done|]. replace (4096 * (n / 4096)) with n in He by lia. done.
Qed.

(** ** Partitions *)

(** The chip holds the whole partition table. *)
Definition table_fits (fl : flash) : Prop := 1024 * 1024 <= size fl.

Lemma table_bounds p fl : p ∈ fal_part_table -> flash_ok fl -> table_fits fl ->
  0 <= part_offset p /\ 0 < part_len p /\ part_offset p mod 4096 = 0 /\ part_len p mod 4096 = 0 /\
  part_offset p + part_len p <= size fl /\ size fl < 2 ^ 31.
Proof using.
  intros Hp Hok Hfit. pose proof (ok_limit _ Hok). unfold table_fits in Hfit. unfold fal_part_table in Hp.
  rewrite !elem_of_cons in Hp. destruct Hp as [->|[->|[->|Hp]]]; [cbn; split_and!; lia || done..|by apply not_elem_of_nil in Hp].
Qed.
Lemma table_disjoint p q : p ∈ fal_part_table -> q ∈ fal_part_table -> p <> q ->
  part_offset p + part_len p <= part_offset q \/ part_offset q + part_len q <= part_offset p.
Proof using.
  intros Hp Hq. unfold fal_part_table in *.
  rewrite !elem_of_cons, !elem_of_nil in *.
  destruct Hp as [->|[->|[->|[]]]]; destruct Hq as [->|[->|[->|[]]]]; cbn; done || lia.
Qed.

Lemma fal_write_becomes p addr buf fl : p ∈ fal_part_table -> flash_ok fl -> table_fits fl -> is_bytes buf ->
  0 <= addr -> addr + Z.of_nat (length buf) <= part_len p ->
  exists fl', fal_partition_write p addr buf fl = Some (Z.of_nat (length buf), fl') /\ becomes fl (put (part_offset p + addr) buf) fl'.
Proof using nor.
  intros Hp Hok Hfit Hb Ha Hr. destruct (table_bounds p fl Hp Hok Hfit) as (? & ? & _ & _ & ? & ?).
  unfold fal_partition_write. rewrite (u32_small (addr + _)), (u32_small (_ + addr)) by word_lia.
  rewrite (proj2 (Z.ltb_ge _ _)) by lia. apply write_becomes; try done; lia.
Qed.
Lemma fal_erase_becomes p fl : p ∈ fal_part_table -> flash_ok fl -> table_fits fl ->
  exists fl', fal_partition_erase p 0 (part_len p) fl = Some (part_len p, fl') /\ becomes fl (blank (part_offset p) (part_len p)) fl'.
Proof using nor.
  intros Hp Hok Hfit. destruct (table_bounds p fl Hp Hok Hfit) as (? & ? & ? & ? & ? & ?).
  unfold fal_partition_erase. rewrite Z.add_0_l, Z.add_0_r, !u32_small by word_lia.
  rewrite (proj2 (Z.ltb_ge _ _)) by lia. apply erase_becomes; try done; lia.
Qed.
Lemma fal_read_slice p addr n fl : p ∈ fal_part_table -> flash_ok fl -> table_fits fl -> 0 <= addr -> 0 < n -> addr + n <= part_len p ->
  fal_partition_read p addr n fl = (n, slice (mem (chip fl)) (part_offset p + addr) n).
Proof using nor.
  intros Hp Hok Hfit Ha Hn Hr. destruct (table_bounds p fl Hp Hok Hfit) as (? & ? & _ & _ & ? & ?).
  unfold fal_partition_read. rewrite (u32_small (addr + _)), (u32_small (_ + addr)) by word_lia.
  rewrite (proj2 (Z.ltb_ge _ _)) by lia. unfold read, FLASH_START_ADDR. rewrite Z.add_0_r, (u32_small (_ + addr)) by word_lia.
  rewrite (proj2 (Z.eqb_neq n 0)) by lia. rewrite (u32_small (_ + n)) by word_lia. rewrite (proj2 (Z.ltb_ge _ _)) by lia.
  f_equal. apply spi_nor_read_slice; try done; lia.
Qed.

Lemma slice_put m a b : 0 <= a -> a + Z.of_nat (length b) <= Z.of_nat (length m) -> slice (on (put a b) m) a (Z.of_nat (length b)) = b.
Proof using.
  intros Ha Hl. unfold slice. rewrite Nat2Z.id. apply list_eq. intros i. destruct (decide (i < length b)%nat) as [Hi|Hi].
  - rewrite lookup_take_lt, lookup_drop, on_lookup by done. destruct (lookup_lt_is_Some_2 m (Z.to_nat a + i)) as [x ->]; [lia|].
    cbn. unfold put, rd. rewrite decide_True by lia. replace (Z.to_nat _) with i by lia.
    destruct (lookup_lt_is_Some_2 b i Hi) as [y ->]. done.
  - rewrite (proj2 (lookup_ge_None b i)) by lia. apply lookup_ge_None. rewrite length_take. lia.
Qed.
Lemma slice_on f m a n : (forall i x, a <= i < a + n -> f i x = x) -> 0 <= a -> slice (on f m) a n = slice m a n.
Proof using.
  intros Hf Ha. unfold slice. apply list_eq. intros i. destruct (decide (i < Z.to_nat n)%nat) as [Hi|Hi].
  - rewrite !lookup_take_lt, !lookup_drop, on_lookup by done. destruct (m !! _) eqn:E; [|done]. cbn. rewrite Hf by lia. done.
  - rewrite !lookup_take_ge by lia. done.
Qed.
(** ** The littlefs block device *)

(** What littlefs asks of it. *)
Inductive bd_op :=
  | BdRead (block off n : Z)
  | BdProg (block off : Z) (buf : list Z)
  | BdErase (block : Z).
Definition bd_op_ok (count : Z) (o : bd_op) : Prop :=
  match o with
  | BdRead b off n => 0 <= b < count /\ is_u32 off /\ is_u32 n /\ off + n < 2 ^ 32
  | BdProg b off buf => 0 <= b < count /\ is_u32 off /\ off + Z.of_nat (length buf) < 2 ^ 32 /\ is_bytes buf
  | BdErase b => 0 <= b < count
  end.
Definition bd_step (p : fal_partition) (o : bd_op) (fl : flash) : option (Z * list Z * flash) :=
  match o with
  | BdRead b off n => let '(r, d) := lfs_bd_read (Some p) b off n fl in Some (r, d, fl)
  | BdProg b off buf => '(r, fl) ← lfs_bd_prog (Some p) b off buf fl; Some (r, [], fl)
  | BdErase b => let '(r, fl) := lfs_bd_erase (Some p) b fl in Some (r, [], fl)
  end.
Fixpoint bd_run (p : fal_partition) (os : list bd_op) (fl : flash) : option (list (Z * list Z) * flash) :=
  match os with
  | [] => Some ([], fl)
  | o :: os =>
      '(r, d, fl) ← bd_step p o fl;
      '(rs, fl) ← bd_run p os fl;
      Some ((r, d) :: rs, fl)
  end.

(** The specification: a disk is a list of blocks. *)
Definition disk_step (o : bd_op) (d : list (list Z)) : Z * list Z * list (list Z) :=
  match o with
  | BdRead b off n =>
      if LFS_BLOCK_SIZE <? off + n then (LFS_ERR_INVAL, [], d)
      else (0, slice (default [] (d !! Z.to_nat b)) off n, d)
  | BdProg b off buf =>
      let n := Z.of_nat (length buf) in
      if negb (off mod LFS_PROG_SIZE =? 0) || negb (n mod LFS_PROG_SIZE =? 0) || (LFS_BLOCK_SIZE <? off + n) then (LFS_ERR_INVAL, [], d)
      else (0, [], alter (on (clear_bits off buf)) (Z.to_nat b) d)
  | BdErase b => (0, [], alter (fun _ => replicate 4096 255) (Z.to_nat b) d)
  end.
Fixpoint disk_run (os : list bd_op) (d : list (list Z)) : list (Z * list Z) * list (list Z) :=
  match os with
  | [] => ([], d)
  | o :: os =>
      let '(r, x, d) := disk_step o d in
      let '(rs, d) := disk_run os d in
      ((r, x) :: rs, d)
  end.

(** The disk a partition holds. *)
Definition disk (p : fal_partition) (m : list Z) : list (list Z) :=
  (fun b => slice m (part_offset p + 4096 * Z.of_nat b) 4096) <$> seq 0 (Z.to_nat (block_count p)).

Lemma disk_lookup p m b : 0 <= b < block_count p -> disk p m !! Z.to_nat b = Some (slice m (part_offset p + 4096 * b) 4096).
Proof using.
  intros Hb. unfold disk. rewrite list_lookup_fmap, lookup_seq_lt by lia. cbn. do 3 f_equal. lia.
Qed.

(** A cell function that stays within one block alters that block. *)
Lemma disk_on p m f b g : 0 <= part_offset p -> 0 <= b < block_count p ->
  (forall i x, ~ part_offset p + 4096 * b <= i < part_offset p + 4096 * b + 4096 -> f i x = x) ->
  slice (on f m) (part_offset p + 4096 * b) 4096 = g (slice m (part_offset p + 4096 * b) 4096) ->
  disk p (on f m) = alter g (Z.to_nat b) (disk p m).
Proof using.
  intros Hp Hb Hf Hg. apply list_eq. intros j. destruct (decide (j = Z.to_nat b)) as [->|Hj].
  - rewrite list_lookup_alter_eq, !disk_lookup by done. cbn. by rewrite Hg.
  - rewrite list_lookup_alter_ne by done. unfold disk. rewrite !list_lookup_fmap. destruct (decide (j < Z.to_nat (block_count p))%nat) as [Hlt|Hge].
    + rewrite !lookup_seq_lt by done. cbn. f_equal. apply slice_on; [|lia]. intros i x Hi. apply Hf. lia.
    + rewrite lookup_ge_None_2; [done|]. rewrite length_seq. lia.
Qed.

Lemma slice_clear_bits m a n off b : 0 <= a -> 0 <= off ->
  off + Z.of_nat (length b) <= n -> slice (on (clear_bits (a + off) b) m) a n = on (clear_bits off b) (slice m a n).
Proof using.
  intros Ha Ho Hl. unfold slice. apply list_eq. intros i. rewrite on_lookup. destruct (decide (i < Z.to_nat n)%nat) as [Hi|Hi].
  - rewrite !lookup_take_lt, !lookup_drop, on_lookup by done. destruct (m !! _); [|done]. cbn. f_equal. unfold clear_bits.
    replace (Z.of_nat (Z.to_nat a + i) - (a + off)) with (Z.of_nat i - off) by lia. done.
  - rewrite !lookup_take_ge by lia. done.
Qed.
Lemma slice_blank m a n : 0 <= a -> 0 <= n -> a + n <= Z.of_nat (length m) -> slice (on (blank a n) m) a n = replicate (Z.to_nat n) 255.
Proof using.
  intros Ha Hn Hl. unfold slice. apply list_eq. intros i. destruct (decide (i < Z.to_nat n)%nat) as [Hi|Hi].
  - rewrite lookup_take_lt, lookup_drop, on_lookup by done. destruct (lookup_lt_is_Some_2 m (Z.to_nat a + i)) as [x ->]; [lia|].
    rewrite lookup_replicate_2 by done. cbn. unfold blank. by rewrite decide_True by lia.
  - rewrite lookup_take_ge by lia. symmetry. apply lookup_ge_None. rewrite length_replicate. lia.
Qed.

Definition same_outside (p : fal_partition) (m m' : list Z) : Prop :=
  forall i, ~ part_offset p <= Z.of_nat i < part_offset p + part_len p -> m' !! i = m !! i.

Lemma becomes_outside p fl f fl' : becomes fl f fl' -> (forall i x, ~ part_offset p <= i < part_offset p + part_len p -> f i x = x) ->
  same_outside p (mem (chip fl)) (mem (chip fl')).
Proof using.
  intros Hb Hf i Hi. rewrite (becomes_mem _ _ _ Hb), on_lookup. destruct (_ !! i); [|done]. cbn. by rewrite Hf.
Qed.

Lemma bd_step_spec p o fl : bus_open (chip fl) = 0 -> p ∈ fal_part_table -> flash_ok fl -> table_fits fl -> bd_op_ok (block_count p) o ->
  exists fl', bd_step p o fl = Some ((disk_step o (disk p (mem (chip fl)))).1, fl') /\ flash_ok fl' /\ table_fits fl' /\
    disk p (mem (chip fl')) = (disk_step o (disk p (mem (chip fl)))).2 /\ same_outside p (mem (chip fl)) (mem (chip fl')).
Proof using nor.
  intros Hopen Hp Hok Hfit Ho. destruct (table_bounds p fl Hp Hok Hfit) as (H1 & H2 & H3 & H4 & H5 & H6).
  pose proof (ok_size _ Hok) as Hsize. unfold table_fits in *.
  assert (Hblk : forall b, 0 <= b < block_count p -> part_offset p + 4096 * b + 4096 <= part_offset p + part_len p).
  { intros b Hb. unfold block_count, LFS_BLOCK_SIZE in Hb. Z.to_euclidean_division_equations; lia. }
  assert (Haddr : forall b off, 0 <= b < block_count p -> 0 <= off <= 4096 -> lfs_phys_addr p b off = part_offset p + 4096 * b + off).
  { intros b off Hb Hoff. specialize (Hblk b Hb). unfold lfs_phys_addr, LFS_BLOCK_SIZE. rewrite (u32_small (b * 4096)) by word_lia.
    rewrite (u32_small (_ + off)) by word_lia. rewrite u32_small by word_lia. lia. }
  destruct o as [b off n|b off buf|b]; cbn [bd_step disk_step bd_op_ok] in *.
  - destruct Ho as (Hb & [Ho1 _] & [Hn1 _] & Hon). unfold lfs_bd_read. rewrite (u32_small (off + n)) by word_lia. rewrite Hopen. unfold LFS_BLOCK_SIZE.
    z_case; cbn [negb Z.eqb fst snd]; exists fl; [by split_and!|]. split; [|by split_and!]. rewrite disk_lookup by done. cbn [default from_option id].
    specialize (Hblk b Hb). rewrite slice_slice, Haddr by lia. rewrite spi_nor_read_slice; [done|done|lia..].
  - destruct Ho as (Hb & [Ho1 _] & Hon & Hbytes). unfold lfs_bd_prog. rewrite (u32_small (off + _)) by word_lia. rewrite Hopen. unfold LFS_BLOCK_SIZE.
    destruct (_ || (4096 <? _)) eqn:E; cbn [negb Z.eqb mbind option_bind fst snd]; [exists fl; by split_and!|].
    apply orb_false_iff in E as [_ E%Z.ltb_ge]. specialize (Hblk b Hb). rewrite Haddr by lia.
    destruct (spi_nor_write_becomes (part_offset p + 4096 * b + off) buf fl) as (fl' & -> & Hbec); try done; try lia.
    cbn [mbind option_bind]. exists fl'. split; [done|]. split; [by eapply becomes_ok|]. split; [unfold table_fits; by rewrite (becomes_size _ _ _ Hbec)|].
    assert (Hout : forall i x, ~ part_offset p + 4096 * b <= i < part_offset p + 4096 * b + 4096 -> clear_bits (part_offset p + 4096 * b + off) buf i x = x).
    { intros i x Hi. unfold clear_bits. destruct (rd buf _) eqn:Er; [|done]. apply rd_range in Er. lia. }
    split.
    + rewrite (becomes_mem _ _ _ Hbec). apply disk_on; try done. by apply slice_clear_bits; lia.
    + eapply becomes_outside; [done|]. intros i x Hi. apply Hout. lia.
  - specialize (Hblk b Ho). unfold lfs_bd_erase. rewrite Hopen, Haddr, Z.add_0_r by lia. cbn [negb Z.eqb fst snd].
    set (a := part_offset p + 4096 * b) in *.
    assert (Hbec : becomes fl (blank a 4096) (spi_nor_sector_erase a fl)).
    { exists (bus_sector_erase a (chip fl)). split; [done|]. apply chip_erase; [unfold a; lia|unfold a; Z.to_euclidean_division_equations; lia|]. rewrite <-Hsize. lia. }
    exists (spi_nor_sector_erase a fl). split; [done|]. split; [by eapply becomes_ok|]. split; [unfold table_fits; by rewrite (becomes_size _ _ _ Hbec)|].
    assert (Hout : forall i x, ~ a <= i < a + 4096 -> blank a 4096 i x = x) by (intros i x Hi; unfold blank; by rewrite decide_False).
    split.
    + rewrite (becomes_mem _ _ _ Hbec). apply disk_on; try done. apply slice_blank; unfold a in *; lia.
    + eapply becomes_outside; [done|]. intros i x Hi. apply Hout. unfold a. lia.
Qed.

(** Whether or not the bus opens, an operation stays in the partition, and
    what it reads are bytes. *)
Lemma bd_step_confined p o fl : p ∈ fal_part_table -> flash_ok fl -> table_fits fl -> bd_op_ok (block_count p) o ->
  exists r d fl', bd_step p o fl = Some (r, d, fl') /\ is_bytes d /\ flash_ok fl' /\ table_fits fl' /\ same_outside p (mem (chip fl)) (mem (chip fl')).
Proof using nor.
  intros Hp Hok Hfit Ho. destruct (decide (bus_open (chip fl) = 0)) as [Hopen|Hopen].
  - destruct (bd_step_spec p o fl Hopen Hp Hok Hfit Ho) as (fl' & -> & Hok' & Hfit' & _ & Hs).
    destruct (disk_step o _) as [[r d] dsk] eqn:E. eexists _, _, fl'. split; [done|]. split; [|done]. cbn.
    replace d with (disk_step o (disk p (mem (chip fl)))).1.2 by (by rewrite E). clear E. destruct o as [b off n|b off buf|b]; cbn [disk_step bd_op_ok] in *.
    + destruct (_ <? _); [constructor|]. destruct Ho as (Hb & _). rewrite disk_lookup by exact Hb. cbn [fst snd default from_option id].
      apply Forall_take, Forall_drop, Forall_take, Forall_drop, chip_bytes.
    + destruct (_ || _); constructor.
    + constructor.
  - assert (Hsame : forall r : Z, exists r' d fl', Some (r, [] : list Z, fl) = Some (r', d, fl') /\ is_bytes d /\ flash_ok fl' /\ table_fits fl' /\
      same_outside p (mem (chip fl)) (mem (chip fl'))).
    { intros r. exists r, [], fl. split; [done|]. split; [by constructor|]. split; [done|]. split; [done|]. by intros i _. }
    destruct o as [b off n|b off buf|b]; cbn [bd_step]; unfold lfs_bd_read, lfs_bd_prog, lfs_bd_erase; rewrite (proj2 (Z.eqb_neq (bus_open (chip fl)) 0)) by done; cbn [negb].
    + destruct (_ <? _); apply Hsame.
    + destruct (_ || _); apply Hsame.
    + apply Hsame.
Qed.

Hypothesis bus_opens : forall c, bus_open c = 0.

Lemma bd_run_spec p os : forall fl, p ∈ fal_part_table -> flash_ok fl -> table_fits fl -> Forall (bd_op_ok (block_count p)) os ->
  exists fl', bd_run p os fl = Some ((disk_run os (disk p (mem (chip fl)))).1, fl') /\ flash_ok fl' /\
    disk p (mem (chip fl')) = (disk_run os (disk p (mem (chip fl)))).2 /\ same_outside p (mem (chip fl)) (mem (chip fl')).
Proof using nor bus_opens.
  induction os as [|o os IH]; intros fl Hp Hok Hfit Hos; cbn [bd_run disk_run]; [by exists fl|].
  apply Forall_cons in Hos as [Ho Hos]. destruct (bd_step_spec p o fl (bus_opens _) Hp Hok Hfit Ho) as (fl1 & -> & Hok1 & Hfit1 & Hd1 & Hs1).
  destruct (disk_step o _) as [[r x] d1]. cbn [fst snd mbind option_bind] in *.
  destruct (IH fl1 Hp Hok1 Hfit1 Hos) as (fl2 & -> & Hok2 & Hd2 & Hs2). rewrite Hd1 in *. destruct (disk_run os d1) as [rs d2]. cbn [fst snd mbind option_bind] in *.
  exists fl2. split; [done|]. split; [done|]. split; [done|]. intros i Hi. by rewrite Hs2, Hs1.
Qed.
End NorProofs.

(** ** A concrete chip: a list of cells *)

#[export] Instance list_bus : SpiNorBus (list Z) := {|
  bus_open _ := 0;
  bus_read_jedec_id _ := [0xEF; 0x40; 0x14];
  bus_read a n m := slice (u8 <$> m) a n;
  bus_program a b m := on (clear_bits a b) (u8 <$> m);
  bus_sector_erase a m := on (blank a 4096) (u8 <$> m);
|}.
Lemma u8_on f m : (forall i x, is_u8 x -> is_u8 (f i x)) -> u8 <$> on f (u8 <$> m) = on f (u8 <$> m).
Proof.
  intros Hf. apply list_eq. intros i. rewrite list_lookup_fmap, on_lookup, list_lookup_fmap. destruct (m !! i); [|done]. cbn.
  f_equal. apply u8_small, Hf, u8_range.
Qed.
#[export] Instance list_chip : NorChip (list Z) (fmap u8).
Proof.
  constructor.
  - intros f. apply Forall_fmap, Forall_true. intros x. apply u8_range.
  - done.
  - intros a b f _ _ _ _. apply u8_on. intros i x Hx. unfold clear_bits. destruct (rd b _); [|done].
    unfold is_u8 in *. rewrite <-(Z.mod_small x (2 ^ 8)) by done. rewrite <-Z.land_ones by lia.
    rewrite (Z.land_comm x), <-Z.land_assoc, Z.land_comm, Z.land_ones by lia. apply Z.mod_pos_bound. lia.
  - intros a f _ _ _. apply u8_on. intros i x Hx. unfold blank. case_decide; [done|]. exact Hx.
Qed.

(** ** Properties *)

(** The check of the bounds is computed in 32 bits: a write whose end wraps to
    an offset inside the partition passes it, and stores its first bytes below
    the partition. *)
Lemma fal_write_wraps {F} `{NorChip F mem} p addr buf (fl : spi_nor_flash F) :
  p ∈ fal_part_table -> flash_ok (mem := mem) fl -> table_fits fl -> is_bytes buf ->
  2 ^ 32 - part_offset p <= addr < 2 ^ 32 -> 2 ^ 32 <= addr + Z.of_nat (length buf) <= 2 ^ 32 + part_len p ->
  exists fl', fal_partition_write p addr buf fl = Some (Z.of_nat (length buf), fl') /\
    becomes (mem := mem) fl (put (part_offset p - (2 ^ 32 - addr)) buf) fl'.
Proof.
  intros Hp Hok Hfit Hb Ha He. destruct (table_bounds p fl Hp Hok Hfit) as (? & ? & _ & _ & ? & ?).
  unfold fal_partition_write.
  replace (u32 (addr + Z.of_nat (length buf))) with (addr + Z.of_nat (length buf) - 2 ^ 32) by word_lia.
  replace (u32 (part_offset p + addr)) with (part_offset p - (2 ^ 32 - addr)) by word_lia.
  rewrite (proj2 (Z.ltb_ge _ _)) by lia. apply write_becomes; try done; lia.
Qed.

(** C20: writing to a partition stores exactly the data, whatever the cells
    held.  The port splits the write at sectors and pages, and erases and
    rewrites a sector only when a cell in the way is not blank; afterwards the
    data is read back, and every other byte of the chip, in the same sector
    too, is what it was, so no write of one partition is seen in another.  A
    write whose end, computed in 32 bits, lies outside the partition is
    refused and changes nothing; of an end beyond [2 ^ 32] the check sees the
    low 32 bits only, see [fal_write_wraps]. *)
Theorem partition_write_exact {F} `{NorChip F mem} p addr buf (fl : spi_nor_flash F) :
  p ∈ fal_part_table -> flash_ok (mem := mem) fl -> table_fits fl -> is_bytes buf -> 0 <= addr ->
  (part_len p < u32 (addr + Z.of_nat (length buf)) -> fal_partition_write p addr buf fl = Some (-1, fl)) /\
  (addr + Z.of_nat (length buf) <= part_len p ->
   exists fl', fal_partition_write p addr buf fl = Some (Z.of_nat (length buf), fl') /\ flash_ok (mem := mem) fl' /\
    (buf <> [] -> fal_partition_read p addr (Z.of_nat (length buf)) fl' = (Z.of_nat (length buf), buf)) /\
    (forall i, ~ part_offset p + addr <= Z.of_nat i < part_offset p + addr + Z.of_nat (length buf) ->
       mem (chip fl') !! i = mem (chip fl) !! i) /\
    (forall q a n, q ∈ fal_part_table -> q <> p -> 0 <= a -> 0 < n -> a + n <= part_len q ->
       fal_partition_read q a n fl' = fal_partition_read q a n fl)).
Proof.
  intros Hp Hok Hfit Hb Ha. destruct (table_bounds p fl Hp Hok Hfit) as (H1 & H2 & _ & _ & H5 & H6). split.
  { intros Hr. unfold fal_partition_write. by rewrite (proj2 (Z.ltb_lt _ _)). }
  intros Hin.
  destruct (fal_write_becomes p addr buf fl) as (fl' & Hw & Hbec); try done.
  assert (Hok' : flash_ok (mem := mem) fl') by (by eapply becomes_ok).
  assert (Hfit' : table_fits fl') by (unfold table_fits; by rewrite (becomes_size _ _ _ Hbec)).
  assert (Hout : forall i x, ~ part_offset p + addr <= i < part_offset p + addr + Z.of_nat (length buf) -> put (part_offset p + addr) buf i x = x).
  { intros i x Hi. unfold put. destruct (rd buf _) eqn:E; [|done]. apply rd_range in E. lia. }
  exists fl'. split; [done|]. split; [done|]. split; [|split].
  - intros Hne. assert (0 < Z.of_nat (length buf)) by (destruct buf; [done|cbn; lia]).
    rewrite (fal_read_slice (mem := mem)) by (done || lia). f_equal. rewrite (becomes_mem _ _ _ Hbec). apply slice_put; [lia|]. rewrite <-(ok_size _ Hok). lia.
  - intros i Hi. rewrite (becomes_mem _ _ _ Hbec), on_lookup. destruct (_ !! i); [|done]. cbn. by rewrite Hout.
  - intros q a n Hq Hne Ha' Hn Hr. destruct (table_bounds q fl Hq Hok Hfit) as (Q1 & _). rewrite !(fal_read_slice (mem := mem)) by (done || lia). f_equal.
    rewrite (becomes_mem _ _ _ Hbec). apply slice_on; [|lia]. intros i x Hi. apply Hout. destruct (table_disjoint q p Hq Hp Hne); lia.
Qed.

(** C21: the littlefs port is a disk of 4096-byte blocks.  Any sequence of the
    reads, programs and erases littlefs asks for gives the results of the disk
    of the specification, misaligned and over-long requests being refused
    without an effect, and no byte outside the file system's partition, so
    neither the firmware nor the settings, changes. *)
Theorem lfs_block_device_refines {F} `{NorChip F mem} p os (fl : spi_nor_flash F) : (forall c : F, bus_open c = 0) ->
  p ∈ fal_part_table -> flash_ok (mem := mem) fl -> table_fits fl -> Forall (bd_op_ok (block_count p)) os ->
  exists rs fl', bd_run p os fl = Some (rs, fl') /\
    disk_run os (disk p (mem (chip fl))) = (rs, disk p (mem (chip fl'))) /\
    same_outside p (mem (chip fl)) (mem (chip fl')).
Proof.
  intros Hopen Hp Hok Hfit Hos. destruct (bd_run_spec Hopen p os fl Hp Hok Hfit Hos) as (fl' & Hr & _ & Hd & Ho).
  eexists _, fl'. split; [done|]. split; [|done]. rewrite Hd. by destruct (disk_run _ _).
Qed.

(** ** Start-up and witnesses *)

(** [init] learns the geometry from the JEDEC id. *)
Lemma init_ok {F} `{NorChip F mem} (fl : spi_nor_flash F) j0 j1 cap : bus_open (chip fl) = 0 ->
  bus_read_jedec_id (chip fl) = [j0; j1; cap] -> 0 <= j0 < 256 -> 0 <= j1 < 256 -> 16 <= cap <= 30 ->
  Z.of_nat (length (mem (chip fl))) = 2 ^ cap ->
  exists fl', init fl = Some (0, fl') /\ flash_ok (mem := mem) fl' /\ chip fl' = chip fl.
Proof.
  intros Ho Hj Hj0 Hj1 Hc Hl. unfold init. rewrite Ho, Hj. cbn [Z.eqb negb]. unfold rd. rewrite !decide_True by lia.
  change (Z.to_nat 0) with 0%nat. change (Z.to_nat 1) with 1%nat. change (Z.to_nat 2) with 2%nat. cbn [lookup list_lookup mbind option_bind].
  assert (E : spi_nor_size_from_jedec (Z.lor (Z.lor (Z.shiftl j0 16) (Z.shiftl j1 8)) cap) = 2 ^ cap).
  { unfold spi_nor_size_from_jedec. rewrite Z.land_lor_distr_l, Z.land_lor_distr_l.
    assert (Hz : forall x n, 8 <= n -> Z.land (Z.shiftl x n) 255 = 0).
    { intros x n Hn. rewrite land_0xFF, Z.shiftl_mul_pow2 by lia. replace n with (n - 8 + 8) by lia. rewrite Z.pow_add_r, Z.mul_assoc by lia. apply Z.mod_mul. lia. }
    rewrite !Hz by lia. rewrite !Z.lor_0_l, land_0xFF, Z.mod_small by lia. rewrite (proj2 (Z.ltb_ge _ _)), (proj2 (Z.ltb_ge _ _)) by lia.
    cbn [orb]. rewrite Z.shiftl_mul_pow2 by lia. lia. }
  rewrite E. rewrite (proj2 (Z.eqb_neq _ 0)) by lia. eexists. split; [done|]. rsimpl. split; [|done].
  constructor; rsimpl; try done.
  - replace cap with (cap - 12 + 12) by lia. rewrite Z.pow_add_r by lia. change (2 ^ 12) with 4096. apply Z.mod_mul. lia.
  - apply Z.pow_lt_mono_r; lia.
Qed.

Definition demo_flash : spi_nor_flash (list Z) := mk_flash (1024 * 1024) 4096 256 65536 (1024 * 1024) 4096 (replicate (Z.to_nat (1024 * 1024)) 0).
Lemma demo_flash_ok : flash_ok (mem := fmap u8) demo_flash.
Proof.
  constructor; [done|done| |done|done]. unfold demo_flash. cbn [size chip]. rewrite length_fmap, length_replicate. lia.
Qed.

Lemma partition_write_exact_witness :
  exists fl', fal_partition_write (mk_part "kvdb" (848 * 1024) (48 * 1024)) 4094 [1; 2; 3; 4] demo_flash = Some (4, fl') /\
    fal_partition_read (mk_part "kvdb" (848 * 1024) (48 * 1024)) 4094 4 fl' = (4, [1; 2; 3; 4]).
Proof.
  destruct (partition_write_exact (mem := fmap u8) (mk_part "kvdb" (848 * 1024) (48 * 1024)) 4094 [1; 2; 3; 4] demo_flash) as (_ & (fl' & Hw & _ & Hr & _)).
  - right. left.
  - apply demo_flash_ok.
  - vm_compute. discriminate.
  - unfold is_bytes, is_u8. repeat constructor; lia.
  - lia.
  - cbn. lia.
  - exists fl'. split; [exact Hw|]. apply Hr. discriminate.
Defined.

Lemma lfs_block_device_refines_witness :
  exists rs fl', bd_run (mk_part "littlefs" (896 * 1024) (128 * 1024)) [BdErase 31; BdProg 31 256 (replicate 256 7); BdRead 31 255 2; BdProg 0 1 [1]] demo_flash
    = Some (rs, fl').
Proof.
  destruct (lfs_block_device_refines (mem := fmap u8) (mk_part "littlefs" (896 * 1024) (128 * 1024))
    [BdErase 31; BdProg 31 256 (replicate 256 7); BdRead 31 255 2; BdProg 0 1 [1]] demo_flash) as (rs & fl' & Hr & _).
  - reflexivity.
  - right. right. left.
  - apply demo_flash_ok.
  - vm_compute. discriminate.
  - constructor; [cbn; split; [discriminate|reflexivity]|]. constructor.
    { cbn. split; [split; [discriminate|reflexivity]|]. split; [split; [discriminate|reflexivity]|]. split; [reflexivity|]. unfold is_bytes, is_u8. repeat (constructor; [lia|]). constructor. }
    constructor; [cbn; split; [split; [discriminate|reflexivity]|split; [split; [discriminate|reflexivity]|split; [split; [discriminate|reflexivity]|reflexivity]]]|].
    constructor; [cbn; split; [split; [discriminate|reflexivity]|split; [split; [discriminate|reflexivity]|split; [reflexivity|]]]|constructor].
    unfold is_bytes, is_u8. repeat constructor; lia.
  - exists rs, fl'. exact Hr.
Defined.
