(* ===== verification/Littlefs.v ===== *)
(** * littlefs on its partition: [ports/littlefs_port.c]

    The library is third-party: a call of it is a program that asks the block
    device for one operation at a time, with its memory (the class
    [Littlefs]); the law [LittlefsLaws] is the bound it promises.  What the
    port does with it, mounting and formatting, is below, and every call runs
    against the block device of [Flash]. *)

From S2P Require Import Prelude Flash.
From stdpp Require Import strings.

#[local] Open Scope Z_scope.

(** ** Calls of the library

    A call returns, or asks for an operation and continues with its code and
    the bytes read. *)
Inductive lfs_prog (A : Type) :=
  | LfsRet (a : A)
  | LfsIo (o : bd_op) (k : Z * list Z -> lfs_prog A).
Arguments LfsRet {A} a.
Arguments LfsIo {A} o k.

(** Paths are strings without their terminator. *)
Inductive lfs_request :=
  | LfsMount
  | LfsUnmount
  | LfsFormat
  | LfsMkdir (path : list Z)
  | LfsFileOpen (path : list Z)
  | LfsFileWrite (data : list Z)
  | LfsFileClose.
Definition lfs_request_ok (q : lfs_request) : Prop :=
  match q with
  | LfsMkdir b | LfsFileOpen b | LfsFileWrite b => is_bytes b
  | LfsMount | LfsUnmount | LfsFormat | LfsFileClose => True
  end.

(** [L]: [lfs_t] and [lfs_file_t] with their buffers; the first argument is
    [block_count] of [struct lfs_config]. *)
Class Littlefs (L : Type) := lfs_call : Z -> lfs_request -> L -> lfs_prog (Z * L).

(** Every operation is on one of the blocks, with 32-bit offsets whose sum
    with the size does not wrap. *)
Fixpoint prog_ok {A} (count : Z) (m : lfs_prog A) : Prop :=
  match m with
  | LfsRet _ => True
  | LfsIo o k => bd_op_ok count o /\ forall r d, is_bytes d -> prog_ok count (k (r, d))
  end.
(** littlefs asserts it before every operation ([lfs_bd_read],
    [lfs_bd_flush], [lfs_bd_erase] of lfs.c). *)
Class LittlefsLaws (L : Type) `{Littlefs L} : Prop :=
  lfs_call_ok count q l : 0 < count -> lfs_request_ok q -> prog_ok count (lfs_call count q l).

Definition LFS_PATH_WWW : list Z := [47; 119; 119; 119].

Section Port.
Context {F L : Type} `{SpiNorBus F} `{Littlefs L}.

(** The static variables of the port. *)
Record lfs_port := mk_lfs_port { g_part : option fal_partition; g_lfs_block_count : Z; g_lfs : L }.
#[export] Instance eta_lfs_port : Eta lfs_port := fun v => mk_lfs_port (g_part v) (g_lfs_block_count v) (g_lfs v).

(** The callbacks of [g_lfs_cfg]. *)
Definition lfs_bd (part : option fal_partition) (o : bd_op) (fl : spi_nor_flash F) : option (Z * list Z * spi_nor_flash F) :=
  match o with
  | BdRead b off n => let '(r, d) := lfs_bd_read part b off n fl in Some (r, d, fl)
  | BdProg b off buf => '(r, fl) ← lfs_bd_prog part b off buf fl; Some (r, [], fl)
  | BdErase b => let '(r, fl) := lfs_bd_erase part b fl in Some (r, [], fl)
  end.
Fixpoint lfs_run {A} (part : option fal_partition) (m : lfs_prog A) (fl : spi_nor_flash F) : option (A * spi_nor_flash F) :=
  match m with
  | LfsRet a => Some (a, fl)
  | LfsIo o k => '(r, d, fl) ← lfs_bd part o fl; lfs_run part (k (r, d)) fl
  end.
Definition lfs_do (q : lfs_request) (v : lfs_port) (fl : spi_nor_flash F) : option (Z * lfs_port * spi_nor_flash F) :=
  '(r, l, fl) ← lfs_run (g_part v) (lfs_call (g_lfs_block_count v) q (g_lfs v)) fl;
  Some (r, v <| g_lfs := l |>, fl).

Definition lfs_cfg_setup (p : fal_partition) (v : lfs_port) : lfs_port := v <| g_lfs_block_count := block_count p |>.

Definition littlefs_init (v : lfs_port) (fl : spi_nor_flash F) : option (Z * lfs_port * spi_nor_flash F) :=
  let v := v <| g_part := fal_partition_find FAL_PART_NAME_LITTLEFS |> in
  match g_part v with
  | None => Some (-1, v, fl)
  | Some p =>
      if part_len p <? LFS_BLOCK_SIZE then Some (-1, v, fl)
      else
        '(err, v, fl) ← lfs_do LfsMount (lfs_cfg_setup p v) fl;
        if err =? 0 then Some (0, v, fl)
        else
          '(err, v, fl) ← lfs_do LfsFormat v fl;
          if negb (err =? 0) then Some (-1, v, fl)
          else
            '(_, v, fl) ← lfs_do (LfsMkdir LFS_PATH_WWW) v fl;
            '(err, v, fl) ← lfs_do LfsMount v fl;
            Some (if negb (err =? 0) then -1 else 0, v, fl)
  end.

Definition littlefs_reformat (v : lfs_port) (fl : spi_nor_flash F) : option (Z * lfs_port * spi_nor_flash F) :=
  match g_part v with
  | None => Some (-1, v, fl)
  | Some _ =>
      '(_, v, fl) ← lfs_do LfsUnmount v fl;
      '(err, v, fl) ← lfs_do LfsFormat v fl;
      if negb (err =? 0) then Some (-2, v, fl)
      else
        '(err, v, fl) ← lfs_do LfsMount v fl;
        Some (if negb (err =? 0) then -3 else 0, v, fl)
  end.
End Port.
Arguments lfs_port L : clear implicits.

(** ** Confinement *)

Definition LFS : fal_partition := mk_part "littlefs" (896 * 1024) (128 * 1024).
Lemma LFS_in : LFS ∈ fal_part_table.
Proof. right. right. left. Qed.
Lemma find_LFS : fal_partition_find FAL_PART_NAME_LITTLEFS = Some LFS.
Proof. done. Qed.

Section PortProofs.
Context {F L : Type} {bus : SpiNorBus F} {mem : F -> list Z} {nor : NorChip F mem} {lfs : Littlefs L} {laws : LittlefsLaws L}.

(** The port once [littlefs_init] has found its partition. *)
Definition port_ok (v : lfs_port L) : Prop := g_part v = Some LFS /\ g_lfs_block_count v = block_count LFS.

(** A flash that is fine and differs from [m] in the partition only. *)
Record lfs_confined (m : list Z) (fl : spi_nor_flash F) : Prop := {
  lc_ok : flash_ok (mem := mem) fl;
  lc_fits : table_fits fl;
  lc_outside : same_outside LFS m (mem (chip fl));
}.
Lemma lfs_confined_refl fl : flash_ok (mem := mem) fl -> table_fits fl -> lfs_confined (mem (chip fl)) fl.
Proof using. intros Hok Hfit. constructor; [done|done|]. by intros i _. Qed.

Lemma lfs_run_confined {A} m (prog : lfs_prog A) : forall fl, prog_ok (block_count LFS) prog -> lfs_confined m fl ->
  exists a fl', lfs_run (Some LFS) prog fl = Some (a, fl') /\ lfs_confined m fl'.
Proof using nor.
  induction prog as [a|o k IH]; intros fl Hp [Hok Hfit Hout]; cbn [lfs_run]; [by exists a, fl|]. destruct Hp as [Ho Hk].
  destruct (bd_step_confined LFS o fl LFS_in Hok Hfit Ho) as (r & d & fl1 & E & Hd & Hok1 & Hfit1 & Hs).
  change (lfs_bd (Some LFS) o fl) with (bd_step LFS o fl). rewrite E. cbn [mbind option_bind]. apply IH; [by apply Hk|].
  constructor; [done|done|]. intros i Hi. by rewrite Hs, Hout.
Qed.

Lemma lfs_do_confined m q v fl : lfs_request_ok q -> port_ok v -> lfs_confined m fl ->
  exists r v' fl', lfs_do q v fl = Some (r, v', fl') /\ port_ok v' /\ lfs_confined m fl'.
Proof using nor laws.
  intros Hq [Hp Hc] Hl. unfold lfs_do. rewrite Hp, Hc.
  destruct (lfs_run_confined m (lfs_call (block_count LFS) q (g_lfs v)) fl) as ([r l] & fl' & -> & Hl'); [by apply lfs_call_ok|done|].
  cbn [mbind option_bind]. eexists _, _, fl'. split; [done|]. by split.
Qed.

(** Formatting, from the tool or the web page, changes the file system's
    partition only. *)
Lemma littlefs_reformat_confined m v fl : port_ok v -> lfs_confined m fl ->
  exists r v' fl', littlefs_reformat v fl = Some (r, v', fl') /\ port_ok v' /\ lfs_confined m fl'.
Proof using nor laws.
  intros Hv Hl. unfold littlefs_reformat. rewrite (proj1 Hv).
  destruct (lfs_do_confined m LfsUnmount v fl) as (r1 & v1 & fl1 & -> & Hv1 & Hl1); [done..|]. cbn [mbind option_bind].
  destruct (lfs_do_confined m LfsFormat v1 fl1) as (r2 & v2 & fl2 & -> & Hv2 & Hl2); [done..|]. cbn [mbind option_bind].
  destruct (negb _); [by eexists _, _, _|].
  destruct (lfs_do_confined m LfsMount v2 fl2) as (r3 & v3 & fl3 & -> & Hv3 & Hl3); [done..|]. by eexists _, _, _.
Qed.

(** Start-up finds the partition; a file system that mounts is left alone. *)
Lemma littlefs_init_mounted m v fl : lfs_confined m fl ->
  exists err v1 fl1, lfs_do LfsMount (lfs_cfg_setup LFS (v <| g_part := Some LFS |>)) fl = Some (err, v1, fl1) /\ port_ok v1 /\ lfs_confined m fl1 /\
    (err = 0 -> littlefs_init v fl = Some (0, v1, fl1)).
Proof using nor laws.
  intros Hl. destruct (lfs_do_confined m LfsMount (lfs_cfg_setup LFS (v <| g_part := Some LFS |>)) fl) as (err & v1 & fl1 & E & Hv1 & Hl1); [done|done|done|].
  exists err, v1, fl1. split; [done|]. split; [done|]. split; [done|]. intros ->. unfold littlefs_init. rewrite find_LFS. rsimpl.
  change (part_len LFS <? LFS_BLOCK_SIZE) with false. cbv iota. rewrite E. done.
Qed.
End PortProofs.

(** ** A library of two blocks

    Formatting writes a superblock, mounting reads it, a write goes to the
    second block, in pages of [0xFF] behind the data; its memory is unused. *)
Definition demo_page (data : list Z) : list Z := take 256 (data ++ replicate 256 255).
#[export] Instance demo_littlefs : Littlefs unit := fun count q l =>
  match q with
  | LfsFormat => LfsIo (BdErase 0) (fun r => LfsIo (BdProg 0 0 (demo_page [108; 102; 115])) (fun r' => LfsRet (if (r.1 =? 0) && (r'.1 =? 0) then 0 else -5, l)))
  | LfsMount => LfsIo (BdRead 0 0 3) (fun r => LfsRet (if bool_decide (r.2 = [108; 102; 115]) then 0 else -84, l))
  | LfsFileWrite data =>
      if 1 <? count then LfsIo (BdErase 1) (fun _ => LfsIo (BdProg 1 0 (demo_page data)) (fun _ => LfsRet (Z.of_nat (length data), l))) else LfsRet (-28, l)
  | LfsUnmount | LfsMkdir _ | LfsFileOpen _ | LfsFileClose => LfsRet (0, l)
  end.
Lemma demo_page_ok data : is_bytes data -> is_bytes (demo_page data) /\ length (demo_page data) = 256%nat.
Proof.
  intros Hd. split; [|unfold demo_page; rewrite length_take, length_app, length_replicate; lia].
  apply Forall_take, Forall_app. split; [done|]. apply Forall_replicate. unfold is_u8. lia.
Qed.
#[export] Instance demo_littlefs_laws : LittlefsLaws unit.
Proof.
  assert (Hprog : forall count b data, 0 <= b < count -> is_bytes data -> bd_op_ok count (BdProg b 0 (demo_page data))).
  { intros count b data Hb Hd. destruct (demo_page_ok data Hd) as [Hbytes Hlen]. cbn [bd_op_ok]. rewrite Hlen. unfold is_u32. split; [lia|]. split; [lia|]. split; [lia|done]. }
  intros count q l Hc Hq. destruct q as [| | |path|path|data|]; cbn [lfs_call demo_littlefs prog_ok]; try done.
  - split; [cbn; lia|]. intros r d _. split; [|by intros]. apply Hprog; [lia|]. unfold is_bytes, is_u8. repeat (constructor; [lia|]). constructor.
  - destruct (Z.ltb_spec 1 count); [|done]. split; [cbn; lia|]. intros r d _. split; [|by intros]. by apply Hprog; [lia|].
Qed.
