(* ===== verification/OtaCodec.v ===== *)
(** * Codecs of the firmware update: the CRC-32 of [ota/ota.c] and
    [ota/ota_lfs.c], the base64 decoder of [config_page/config_api_ota.c] *)

From S2P Require Import Prelude.

#[local] Open Scope Z_scope.

(** ** CRC-32 *)

Definition CRC_POLY : Z := 0xEDB88320.

(** One pass of the inner loop of [crc32_fw] and [crc32_feed]. *)
Definition crc_bit (c : Z) : Z := if Z.land c 1 =? 0 then Z.shiftr c 1 else Z.lxor CRC_POLY (Z.shiftr c 1).
Definition crc_byte (c b : Z) : Z := Nat.iter 8 crc_bit (Z.lxor c b).
Definition crc32_feed (c : Z) (p : list Z) : Z := fold_left crc_byte p c.
Definition crc32_fw (crc : Z) (p : list Z) : Z := Z.lxor (crc32_feed (Z.lxor crc 0xFFFFFFFF) p) 0xFFFFFFFF.

(** The check value of this CRC, of "123456789". *)
Example crc32_check : crc32_fw 0 [49; 50; 51; 52; 53; 54; 55; 56; 57] = 0xCBF43926.
Proof. reflexivity. Qed.

(** ** Base64 *)

Definition b64_inv (c : Z) : Z :=
  if (65 <=? c) && (c <=? 90) then c - 65
  else if (97 <=? c) && (c <=? 122) then c - 97 + 26
  else if (48 <=? c) && (c <=? 57) then c - 48 + 52
  else if c =? 43 then 62
  else if c =? 47 then 63
  else if c =? 61 then -2
  else -1.

(** The text is a NUL-terminated string without its terminator; the result is
    the return code, the buffer and [*out_len] (unset on an error). *)
Fixpoint b64_loop (inp : list Z) (out : list Z) (out_max len : Z) : option (Z * list Z * Z) :=
  match inp with
  | [] => Some (0, out, len)
  | c0 :: c1 :: c2 :: c3 :: rest =>
      let v0 := b64_inv c0 in let v1 := b64_inv c1 in
      let v2 := b64_inv c2 in let v3 := b64_inv c3 in
      if (v0 <? 0) || (v1 <? 0) then Some (-1, out, len)
      else if (v2 =? -1) || (v3 =? -1) then Some (-1, out, len)
      else if (v2 =? -2) && negb (v3 =? -2) then Some (-1, out, len)
      else if out_max <? u32 (len + 1) then Some (-1, out, len)
      else
        out ← wr out len (u8 (Z.lor (Z.shiftl v0 2) (Z.shiftr v1 4)));
        let len := u32 (len + 1) in
        if v2 =? -2 then b64_loop rest out out_max len
        else if out_max <? u32 (len + 1) then Some (-1, out, len)
        else
          out ← wr out len (u8 (Z.lor (Z.shiftl v1 4) (Z.shiftr v2 2)));
          let len := u32 (len + 1) in
          if v3 =? -2 then b64_loop rest out out_max len
          else if out_max <? u32 (len + 1) then Some (-1, out, len)
          else
            out ← wr out len (u8 (Z.lor (Z.shiftl v2 6) v3));
            b64_loop rest out out_max (u32 (len + 1))
  | _ => Some (-1, out, len)
  end.
Definition b64_decode (inp out : list Z) (out_max : Z) : option (Z * list Z * Z) := b64_loop inp out out_max 0.

(** The buffer [web_api_ota_file_chunk_post] and [web_api_ota_fw_chunk_post]
    allocate for a text. *)
Definition tmp_cap (b64_len : Z) : Z := b64_len / 4 * 3 + 3.

(** ** The CRC is linear *)

Lemma crc_bit_odd c : crc_bit c = Z.lxor (if Z.odd c then CRC_POLY else 0) (Z.shiftr c 1).
Proof.
  unfold crc_bit. change 1 with (Z.ones 1) at 1. rewrite Z.land_ones by lia. change (2 ^ 1) with 2. rewrite Zmod_odd.
  by destruct (Z.odd c).
Qed.
Lemma odd_lxor a b : Z.odd (Z.lxor a b) = xorb (Z.odd a) (Z.odd b).
Proof. rewrite <-!Z.bit0_odd. apply Z.lxor_spec. Qed.

Lemma crc_bit_lxor a b : crc_bit (Z.lxor a b) = Z.lxor (crc_bit a) (crc_bit b).
Proof.
  rewrite !crc_bit_odd, odd_lxor, Z.shiftr_lxor. apply Z.bits_inj. intros n. rewrite !Z.lxor_spec.
  destruct (Z.odd a), (Z.odd b); cbn [xorb]; rewrite ?Z.testbit_0_l; destruct (Z.testbit CRC_POLY n), (Z.testbit (Z.shiftr a 1) n), (Z.testbit (Z.shiftr b 1) n); done.
Qed.
Lemma crc_bits_lxor n a b : Nat.iter n crc_bit (Z.lxor a b) = Z.lxor (Nat.iter n crc_bit a) (Nat.iter n crc_bit b).
Proof. induction n as [|n IH]; [done|]. change (Nat.iter (S n) crc_bit) with (fun x => crc_bit (Nat.iter n crc_bit x)). cbv beta. by rewrite IH, crc_bit_lxor. Qed.

(** Zeros below are shifted out. *)
Lemma crc_bits_shiftl n z : Nat.iter n crc_bit (Z.shiftl z (Z.of_nat n)) = z.
Proof.
  induction n as [|n IH]; [apply Z.shiftl_0_r|]. rewrite Nat.iter_succ_r.
  assert (E : crc_bit (Z.shiftl z (Z.of_nat (S n))) = Z.shiftl z (Z.of_nat n)); [|by rewrite E].
  rewrite crc_bit_odd. replace (Z.of_nat (S n)) with (Z.of_nat n + 1) by lia. rewrite <-Z.shiftl_shiftl by lia.
  rewrite Z.shiftr_shiftl_l by lia. change (1 - 1) with 0. rewrite Z.shiftl_0_r.
  rewrite (Z.shiftl_mul_pow2 _ 1), Z.odd_mul by lia. change (Z.odd (2 ^ 1)) with false. rewrite andb_false_r. apply Z.lxor_0_l.
Qed.

(** The bytes as one number, the first byte lowest. *)
Fixpoint le_num (x : list Z) : Z := match x with [] => 0 | b :: x => Z.lxor b (Z.shiftl (le_num x) 8) end.

Lemma crc32_feed_num x : forall c, crc32_feed c x = Nat.iter (8 * length x) crc_bit (Z.lxor c (le_num x)).
Proof.
  induction x as [|b x IH]; intros c; [by rewrite Z.lxor_0_r|]. cbn [crc32_feed fold_left length le_num].
  change (fold_left crc_byte x (crc_byte c b)) with (crc32_feed (crc_byte c b) x). rewrite IH.
  replace (8 * S (length x))%nat with (8 * length x + 8)%nat by lia. rewrite Nat.iter_add. f_equal.
  rewrite <-(crc_bits_shiftl 8 (le_num x)) at 1. change (Z.of_nat 8) with 8. unfold crc_byte. rewrite <-crc_bits_lxor. f_equal.
  by rewrite Z.lxor_assoc.
Qed.
Lemma crc32_feed_app c x y : crc32_feed c (x ++ y) = crc32_feed (crc32_feed c x) y.
Proof. apply fold_left_app. Qed.

(** ** On 32 bits it is a permutation *)

Lemma u32_lxor a b : is_u32 a -> is_u32 b -> is_u32 (Z.lxor a b).
Proof.
  unfold is_u32. intros Ha Hb. rewrite <-(Z.mod_small a (2 ^ 32)), <-(Z.mod_small b (2 ^ 32)) by done.
  rewrite <-!Z.land_ones by lia.
  assert (E : Z.lxor (Z.land a (Z.ones 32)) (Z.land b (Z.ones 32)) = Z.land (Z.lxor a b) (Z.ones 32)).
  { apply Z.bits_inj. intros n. rewrite Z.lxor_spec, !Z.land_spec, Z.lxor_spec.
    by destruct (Z.testbit a n), (Z.testbit b n), (Z.testbit (Z.ones 32) n). }
  rewrite E, Z.land_ones by lia. apply Z.mod_pos_bound. lia.
Qed.
Lemma u32_shiftr1 a : is_u32 a -> is_u32 (Z.shiftr a 1) /\ Z.shiftr a 1 < 2 ^ 31.
Proof. unfold is_u32. intros Ha. rewrite Z.shiftr_div_pow2 by lia. Z.to_euclidean_division_equations; lia. Qed.
Lemma u32_crc_bit a : is_u32 a -> is_u32 (crc_bit a).
Proof.
  intros Ha. rewrite crc_bit_odd. apply u32_lxor; [destruct (Z.odd a); split; done|]. by apply u32_shiftr1.
Qed.
Lemma u32_crc_bits n a : is_u32 a -> is_u32 (Nat.iter n crc_bit a).
Proof. intros Ha. induction n as [|n IH]; [done|]. by apply u32_crc_bit. Qed.

Lemma crc_bit_0 a : is_u32 a -> crc_bit a = 0 -> a = 0.
Proof.
  intros Ha. rewrite crc_bit_odd. pose proof (proj2 (u32_shiftr1 a Ha)) as Hs. intros E%Z.lxor_eq.
  destruct (Z.odd a) eqn:Ho; [unfold CRC_POLY in E; lia|]. rewrite Z.shiftr_div_pow2 in E by lia. change (2 ^ 1) with 2 in E.
  pose proof (Z.div_mod a 2). rewrite Zmod_odd, Ho in *. lia.
Qed.
Lemma crc_bits_inj n a b : is_u32 a -> is_u32 b -> Nat.iter n crc_bit a = Nat.iter n crc_bit b -> a = b.
Proof.
  intros Ha Hb E. apply Z.lxor_eq. assert (H0 : Nat.iter n crc_bit (Z.lxor a b) = 0) by (rewrite crc_bits_lxor, E; apply Z.lxor_nilpotent).
  pose proof (u32_lxor a b Ha Hb) as Hd. clear E. induction n as [|n IH]; [done|]. apply IH.
  apply crc_bit_0; [by apply u32_crc_bits|done].
Qed.

Lemma le_num_bound x : is_bytes x -> 0 <= le_num x < 2 ^ (8 * Z.of_nat (length x)).
Proof.
  induction 1 as [|b x Hb Hx IH]; [done|]. cbn [le_num length]. rewrite <-Z.add_nocarry_lxor by (by apply land_shiftl_small).
  rewrite Z.shiftl_mul_pow2 by lia. replace (8 * Z.of_nat (S (length x))) with (8 + 8 * Z.of_nat (length x)) by lia.
  rewrite Z.pow_add_r by lia. unfold is_u8 in Hb. nia.
Qed.
Lemma le_num_inj x : forall y, is_bytes x -> is_bytes y -> length x = length y -> le_num x = le_num y -> x = y.
Proof.
  induction x as [|b x IH]; intros [|b' y] Hx Hy Hl E; try done. cbn [le_num] in E. apply Forall_cons in Hx as [Hb Hx].
  apply Forall_cons in Hy as [Hb' Hy]. rewrite <-!Z.add_nocarry_lxor, !Z.shiftl_mul_pow2 in E by (lia || by apply land_shiftl_small).
  unfold is_u8 in *. assert (b = b' /\ le_num x = le_num y) as [-> En] by lia. f_equal. apply IH; [done..| |done]. by injection Hl.
Qed.
Lemma u32_feed c x : is_u32 c -> is_bytes x -> is_u32 (crc32_feed c x).
Proof.
  revert c. induction x as [|b x IH]; intros c Hc Hx; [done|]. apply Forall_cons in Hx as [Hb Hx]. apply IH; [|done].
  apply u32_crc_bits, u32_lxor; [done|]. unfold is_u8, is_u32 in *. lia.
Qed.
Lemma feed_inj_start x : forall c c', is_u32 c -> is_u32 c' -> is_bytes x -> crc32_feed c x = crc32_feed c' x -> c = c'.
Proof.
  induction x as [|b x IH]; intros c c' Hc Hc' Hx E; [done|]. apply Forall_cons in Hx as [Hb Hx].
  assert (Hu : is_u32 b) by (unfold is_u8, is_u32 in *; lia).
  apply IH in E; [|by apply u32_crc_bits, u32_lxor..|done]. apply crc_bits_inj in E; [|by apply u32_lxor..].
  apply (f_equal (fun z => Z.lxor z b)) in E. by rewrite !Z.lxor_assoc, Z.lxor_nilpotent, !Z.lxor_0_r in E.
Qed.
Lemma feed_inj_burst x y c : is_u32 c -> is_bytes x -> is_bytes y -> length x = length y -> (length x <= 4)%nat ->
  crc32_feed c x = crc32_feed c y -> x = y.
Proof.
  intros Hc Hx Hy Hl H4 E. rewrite !crc32_feed_num, Hl in E.
  assert (Hu : forall z, is_bytes z -> (length z <= 4)%nat -> is_u32 (le_num z)).
  { intros z Hz Hlz. pose proof (le_num_bound z Hz) as B. pose proof (Z.pow_le_mono_r 2 (8 * Z.of_nat (length z)) 32). unfold is_u32. lia. }
  apply crc_bits_inj in E; [|apply u32_lxor; [done|apply Hu; [done|lia]]..].
  apply le_num_inj; try done. apply (f_equal (Z.lxor c)) in E. by rewrite <-!Z.lxor_assoc, Z.lxor_nilpotent, !Z.lxor_0_l in E.
Qed.

Lemma crc32_fw_app c x y : crc32_fw (crc32_fw c x) y = crc32_fw c (x ++ y).
Proof. unfold crc32_fw. rewrite crc32_feed_app. by rewrite Z.lxor_assoc, Z.lxor_nilpotent, Z.lxor_0_r. Qed.
Lemma crc32_fw_u32 x : is_bytes x -> is_u32 (crc32_fw 0 x).
Proof. intros Hx. apply u32_lxor; [apply u32_feed; [done|done]|done]. Qed.

(** ** Base64: the encoding of RFC 4648 *)

Definition b64_char (v : Z) : Z :=
  if v <? 26 then v + 65 else if v <? 52 then v - 26 + 97 else if v <? 62 then v - 52 + 48 else if v =? 62 then 43 else 47.
Fixpoint b64_encode (x : list Z) : list Z :=
  match x with
  | [] => []
  | [a] => [b64_char (a / 4); b64_char (a mod 4 * 16); 61; 61]
  | [a; b] => [b64_char (a / 4); b64_char (a mod 4 * 16 + b / 16); b64_char (b mod 16 * 4); 61]
  | a :: b :: c :: x =>
      b64_char (a / 4) :: b64_char (a mod 4 * 16 + b / 16) :: b64_char (b mod 16 * 4 + c / 64) :: b64_char (c mod 64) :: b64_encode x
  end.

Lemma b64_inv_char v : 0 <= v < 64 -> b64_inv (b64_char v) = v.
Proof.
  intros Hv. assert (H : Forall (fun v => b64_inv (b64_char v) = v) (Z.of_nat <$> seq 0 64)) by (repeat (constructor; [reflexivity|]); constructor).
  rewrite Forall_forall in H. apply H. apply list_elem_of_fmap. exists (Z.to_nat v). split; [lia|]. apply elem_of_seq. lia.
Qed.
Lemma b64_inv_range c : -2 <= b64_inv c < 64.
Proof.
  unfold b64_inv. repeat match goal with |- context [if ?b then _ else _] => destruct b eqn:? end; bools_to_props; lia.
Qed.

(** The groups put together. *)
Lemma dec0 v0 v1 : 0 <= v0 -> 0 <= v1 < 64 -> u8 (Z.lor (Z.shiftl v0 2) (Z.shiftr v1 4)) = (v0 * 4 + v1 / 16) mod 256.
Proof.
  intros H0 H1. rewrite Z.lor_comm, shiftr_div, lor_shiftl_add by (try Z.to_euclidean_division_equations; lia).
  unfold u8. f_equal. change (2 ^ 2) with 4. change (2 ^ 4) with 16. lia.
Qed.
Lemma dec1 v1 v2 : 0 <= v1 -> 0 <= v2 < 64 -> u8 (Z.lor (Z.shiftl v1 4) (Z.shiftr v2 2)) = (v1 * 16 + v2 / 4) mod 256.
Proof.
  intros H0 H1. rewrite Z.lor_comm, shiftr_div, lor_shiftl_add by (try Z.to_euclidean_division_equations; lia).
  unfold u8. f_equal. change (2 ^ 2) with 4. change (2 ^ 4) with 16. lia.
Qed.
Lemma dec2 v2 v3 : 0 <= v2 -> 0 <= v3 < 64 -> u8 (Z.lor (Z.shiftl v2 6) v3) = (v2 * 64 + v3) mod 256.
Proof.
  intros H0 H1. rewrite Z.lor_comm, lor_shiftl_add by lia. unfold u8. f_equal. change (2 ^ 6) with 64. lia.
Qed.

(** One byte stored. *)
Lemma wr_at (pre : list Z) x post len v : len = Z.of_nat (length pre) -> wr (pre ++ x :: post) len v = Some ((pre ++ [v]) ++ post).
Proof.
  intros ->. rewrite wr_in_bounds by (rewrite length_app; cbn; lia). rewrite Nat2Z.id, insert_app_r_alt, Nat.sub_diag by lia.
  cbn. by rewrite <-app_assoc.
Qed.

Lemma b64_loop_encode n : forall x pre post, (length x <= n)%nat -> is_bytes x -> (length x <= length post)%nat ->
  Z.of_nat (length pre + length post) < 2 ^ 32 ->
  b64_loop (b64_encode x) (pre ++ post) (Z.of_nat (length pre + length post)) (Z.of_nat (length pre)) =
    Some (0, pre ++ x ++ drop (length x) post, Z.of_nat (length pre + length x)).
Proof.
  induction n as [|n IH]; intros x pre post Hn Hx Hpost Hmax.
  { destruct x; [|cbn in Hn; lia]. cbn. rewrite drop_0. by rewrite Nat.add_0_r. }
  assert (Hstore : forall (pre post : list Z) v, (0 < length post)%nat -> Z.of_nat (length pre + length post) < 2 ^ 32 ->
    (Z.of_nat (length pre + length post) <? u32 (Z.of_nat (length pre) + 1)) = false /\
    wr (pre ++ post) (Z.of_nat (length pre)) v = Some ((pre ++ [v]) ++ drop 1 post) /\
    u32 (Z.of_nat (length pre) + 1) = Z.of_nat (length (pre ++ [v])) /\
    (length (pre ++ [v]) + length (drop 1 post) = length pre + length post)%nat).
  { clear. intros pre [|x post] v Hp Hm; [cbn in Hp; lia|]. cbn [length drop] in *. rewrite u32_small by word_lia. rewrite length_app. cbn [length]. rewrite drop_0.
    split; [apply Z.ltb_ge; lia|]. split; [by apply wr_at|]. split; lia. }
  destruct x as [|a x]; [cbn; rewrite drop_0; by rewrite Nat.add_0_r|]. apply Forall_cons in Hx as [Ha Hx]. unfold is_u8 in Ha. cbn [length] in *.
  assert (Da : 0 <= a / 4 < 64) by (Z.to_euclidean_division_equations; lia).
  destruct x as [|b x].
  { cbn [b64_encode b64_loop]. rewrite !b64_inv_char by (Z.to_euclidean_division_equations; lia). change (b64_inv 61) with (-2). cbv zeta.
    rewrite !(proj2 (Z.ltb_ge _ 0)) by (Z.to_euclidean_division_equations; lia). cbn [orb andb Z.eqb Pos.eqb negb].
    rewrite dec0 by (Z.to_euclidean_division_equations; lia).
    destruct (Hstore pre post ((a / 4 * 4 + a mod 4 * 16 / 16) mod 256)) as (-> & -> & -> & _); [lia..|]. cbn [mbind option_bind].
    replace ((a / 4 * 4 + a mod 4 * 16 / 16) mod 256) with a by (Z.to_euclidean_division_equations; lia).
    rewrite length_app, <-app_assoc. done. }
  apply Forall_cons in Hx as [Hb Hx]. unfold is_u8 in Hb. cbn [length] in *.
  assert (D1 : 0 <= a mod 4 * 16 + b / 16 < 64) by (Z.to_euclidean_division_equations; lia).
  assert (E0 : (a / 4 * 4 + (a mod 4 * 16 + b / 16) / 16) mod 256 = a) by (Z.to_euclidean_division_equations; lia).
  destruct x as [|c x].
  { cbn [b64_encode b64_loop]. rewrite !b64_inv_char by (done || Z.to_euclidean_division_equations; lia). change (b64_inv 61) with (-2). cbv zeta.
    rewrite !(proj2 (Z.ltb_ge _ 0)) by lia. rewrite !(proj2 (Z.eqb_neq (b mod 16 * 4) _)) by (Z.to_euclidean_division_equations; lia).
    cbn [orb andb Z.eqb Pos.eqb negb]. rewrite dec0, E0 by lia.
    destruct (Hstore pre post a) as (-> & -> & -> & Hl); [lia..|]. cbn [mbind option_bind]. rewrite <-Hl.
    rewrite dec1 by (Z.to_euclidean_division_equations; lia).
    replace (((a mod 4 * 16 + b / 16) * 16 + b mod 16 * 4 / 4) mod 256) with b by (Z.to_euclidean_division_equations; lia).
    destruct (Hstore (pre ++ [a]) (drop 1 post) b) as (-> & -> & -> & _); [rewrite length_drop; lia|lia|]. cbn [mbind option_bind].
    rewrite !length_app, drop_drop, <-!app_assoc. cbn. do 2 f_equal. lia. }
  apply Forall_cons in Hx as [Hc Hx]. unfold is_u8 in Hc. cbn [length] in *.
  assert (D2 : 0 <= b mod 16 * 4 + c / 64 < 64) by (Z.to_euclidean_division_equations; lia).
  cbn [b64_encode b64_loop]. rewrite !b64_inv_char by (done || Z.to_euclidean_division_equations; lia). cbv zeta.
  rewrite !(proj2 (Z.ltb_ge _ 0)) by lia. rewrite !(proj2 (Z.eqb_neq (b mod 16 * 4 + c / 64) _)) by lia.
  rewrite !(proj2 (Z.eqb_neq (c mod 64) _)) by (Z.to_euclidean_division_equations; lia). cbn [orb andb negb].
  rewrite dec0, E0 by lia.
  destruct (Hstore pre post a) as (-> & -> & -> & Hl); [lia..|]. cbn [mbind option_bind]. rewrite <-Hl.
  rewrite dec1 by lia.
  replace (((a mod 4 * 16 + b / 16) * 16 + (b mod 16 * 4 + c / 64) / 4) mod 256) with b by (Z.to_euclidean_division_equations; lia).
  destruct (Hstore (pre ++ [a]) (drop 1 post) b) as (-> & -> & -> & Hl2); [rewrite length_drop; lia|lia|]. cbn [mbind option_bind]. rewrite <-Hl2.
  rewrite dec2 by (Z.to_euclidean_division_equations; lia).
  replace (((b mod 16 * 4 + c / 64) * 64 + c mod 64) mod 256) with c by (Z.to_euclidean_division_equations; lia).
  destruct (Hstore ((pre ++ [a]) ++ [b]) (drop 1 (drop 1 post)) c) as (-> & -> & -> & Hl3); [rewrite !length_drop; lia|lia|]. cbn [mbind option_bind]. rewrite <-Hl3.
  rewrite IH; [|lia|done|rewrite !length_drop; lia|lia]. rewrite !drop_drop, !length_app, <-!app_assoc. cbn. do 3 f_equal; lia || done.
Qed.

Lemma b64_encode_length n : forall x, (length x <= n)%nat -> Z.of_nat (length (b64_encode x)) = 4 * ((Z.of_nat (length x) + 2) / 3).
Proof.
  induction n as [|n IH]; intros x Hn; [by destruct x; [|cbn in Hn; lia]|].
  destruct x as [|a [|b [|c x]]]; [done..|]. cbn [b64_encode length] in *. rewrite !Nat2Z.inj_succ, IH by lia.
  Z.to_euclidean_division_equations; lia.
Qed.

(** Any text: the result is 0 or -1, and no byte is stored outside. *)
Lemma b64_loop_safe n : forall inp (out : list Z) len, (length inp <= n)%nat -> Z.of_nat (length out) < 2 ^ 31 -> 0 <= len <= Z.of_nat (length out) ->
  exists r out' len', b64_loop inp out (Z.of_nat (length out)) len = Some (r, out', len') /\ (r = 0 \/ r = -1) /\
    length out' = length out /\ len <= len' <= Z.of_nat (length out').
Proof.
  induction n as [|n IH]; intros inp out len Hn Hmax Hlen.
  { destruct inp; [|cbn in Hn; lia]. cbn. eexists _, _, _. split; [done|]. split_and!; [by left|done|lia..]. }
  assert (Hstop : exists r out' len', Some (-1, out, len) = Some (r, out', len') /\ (r = 0 \/ r = -1) /\ length out' = length out /\ len <= len' <= Z.of_nat (length out')).
  { eexists _, _, _. split; [done|]. split_and!; [by right|done|lia..]. }
  destruct inp as [|c0 [|c1 [|c2 [|c3 rest]]]]; try done.
  { eexists _, _, _. split; [done|]. split_and!; [by left|done|lia..]. }
  cbn [b64_loop length] in *. cbv zeta.
  do 3 match goal with |- context [if ?b then Some (-1, _, _) else _] => destruct b; [done|] end.
  assert (Hgo : forall (out1 : list Z) len1, length out1 = length out -> len <= len1 <= Z.of_nat (length out1) ->
    exists r out' len', b64_loop rest out1 (Z.of_nat (length out)) len1 = Some (r, out', len') /\ (r = 0 \/ r = -1) /\ length out' = length out /\ len <= len' <= Z.of_nat (length out')).
  { intros out1 len1 Hl Hb. rewrite <-Hl. destruct (IH rest out1 len1) as (r & o & l & E & Hr & Hlo & Hll); [lia..|].
    exists r, o, l. split; [done|]. split; [done|]. split; [congruence|lia]. }
  assert (Hput : forall (out1 : list Z) len1 v K, length out1 = length out -> len <= len1 <= Z.of_nat (length out1) ->
    (forall out2, length out2 = length out -> len1 + 1 <= Z.of_nat (length out2) ->
       exists r out' len', K out2 (len1 + 1) = Some (r, out', len') /\ (r = 0 \/ r = -1) /\ length out' = length out /\ len <= len' <= Z.of_nat (length out')) ->
    exists r out' len', (if Z.of_nat (length out) <? u32 (len1 + 1) then Some (-1, out1, len1) else out2 ← wr out1 len1 v; K out2 (u32 (len1 + 1))) = Some (r, out', len') /\
      (r = 0 \/ r = -1) /\ length out' = length out /\ len <= len' <= Z.of_nat (length out')).
  { intros out1 len1 v K Hl Hb HK. rewrite u32_small by word_lia.
    destruct (Z.ltb_spec (Z.of_nat (length out)) (len1 + 1)).
    - eexists _, _, _. split; [done|]. split_and!; [by right|done|lia..].
    - rewrite wr_in_bounds by lia. cbn [mbind option_bind]. apply HK; rewrite length_insert; [done|lia]. }
  apply (Hput out len _ (fun out2 len2 => if b64_inv c2 =? -2 then b64_loop rest out2 _ len2 else _)); [done|lia|]. intros out2 Hl2 Hb2.
  rewrite ?(u32_small (len + 1)) by word_lia.
  destruct (b64_inv c2 =? -2); [apply Hgo; [done|lia]|].
  apply (Hput out2 (len + 1) _ (fun out3 len3 => if b64_inv c3 =? -2 then b64_loop rest out3 _ len3 else _)); [done|lia|]. intros out3 Hl3 Hb3.
  rewrite ?(u32_small (len + 1 + 1)) by word_lia.
  destruct (b64_inv c3 =? -2); [apply Hgo; [done|lia]|].
  apply (Hput out3 (len + 1 + 1) _ (fun out4 len4 => b64_loop rest out4 _ len4)); [done|lia|]. intros out4 Hl4 Hb4. apply Hgo; [done|lia].
Qed.

Lemma b64_loop_bytes n : forall inp out m len r out' len', (length inp <= n)%nat -> is_bytes out ->
  b64_loop inp out m len = Some (r, out', len') -> is_bytes out'.
Proof.
  assert (Hwr : forall (l l' : list Z) i v, is_bytes l -> wr l i (u8 v) = Some l' -> is_bytes l').
  { intros l l' i v Hl. unfold wr. case_decide; [|done]. intros [= <-]. apply Forall_insert; [done|]. apply u8_range. }
  induction n as [|n IH]; intros inp out m len r out' len' Hn Ho E; [by destruct inp; [injection E as _ <- _|cbn in Hn; lia]|].
  destruct inp as [|c0 [|c1 [|c2 [|c3 rest]]]]; try (by injection E as _ <- _). cbn [b64_loop length] in *. cbv zeta in E.
  repeat first
    [ match type of E with (if ?b then _ else _) = _ => destruct b end
    | match type of E with (wr ?l ?i (u8 ?v) ≫= _) = _ => let E1 := fresh "W" in destruct (wr l i (u8 v)) eqn:E1; [|done]; cbn [mbind option_bind] in E; apply Hwr in E1; [|done] end
    | by injection E as _ <- _ ].
  all: by eapply IH in E; [|lia|].
Qed.

(** ** Properties *)

Lemma crc32_fw_pieces pieces : forall c, fold_left crc32_fw pieces c = crc32_fw c (concat pieces).
Proof.
  induction pieces as [|p l IH]; intros c; [unfold crc32_fw; cbn; by rewrite Z.lxor_assoc, Z.lxor_nilpotent, Z.lxor_0_r|].
  cbn [fold_left concat]. by rewrite IH, crc32_fw_app.
Qed.

(** C24: what the CRC of an update catches.  The CRC of an image read or
    received in pieces is the CRC of the whole, however it is cut (also when
    the two sides cut it differently), and two images of the same length that
    differ within any four consecutive bytes, so in any burst of up to 25 bits
    and any single corrupted word, have different CRCs, however they are cut. *)
Theorem crc32_detects_bursts pre x y post : is_bytes (pre ++ x ++ post) -> is_bytes y -> length x = length y -> (length x <= 4)%nat -> x <> y ->
  (forall pieces c, fold_left crc32_fw pieces c = crc32_fw c (concat pieces)) /\
  (forall pieces pieces', concat pieces = pre ++ x ++ post -> concat pieces' = pre ++ y ++ post ->
     fold_left crc32_fw pieces 0 <> fold_left crc32_fw pieces' 0).
Proof.
  intros Hb Hy Hl H4 Hne. split; [apply crc32_fw_pieces|]. intros pieces pieces' Hp Hp'.
  rewrite !crc32_fw_pieces, Hp, Hp'. clear Hp Hp'. apply Forall_app in Hb as [Hpre Hb]. apply Forall_app in Hb as [Hx Hpost].
  unfold crc32_fw. intros E. apply (f_equal (fun z => Z.lxor z 0xFFFFFFFF)) in E. rewrite !Z.lxor_assoc, !Z.lxor_nilpotent, !Z.lxor_0_r in E.
  rewrite !crc32_feed_app in E. change (Z.lxor 0 4294967295) with 4294967295 in E.
  assert (Hc : is_u32 (crc32_feed 4294967295 pre)) by (by apply u32_feed).
  apply feed_inj_start in E; [|by apply u32_feed..|done]. by apply feed_inj_burst in E.
Qed.

(** Base64 text is decoded within its buffer, and as it was encoded.  With
    the buffer that the request handlers allocate, any text whatever gives 0 or
    -1 without a store outside; the encoding of any bytes gives these bytes. *)
Theorem b64_decode_spec text buf x : Z.of_nat (length buf) = tmp_cap (Z.of_nat (length text)) -> Z.of_nat (length buf) < 2 ^ 31 -> is_bytes x ->
  (exists r out n, b64_decode text buf (tmp_cap (Z.of_nat (length text))) = Some (r, out, n) /\ (r = 0 \/ r = -1) /\
     length out = length buf /\ 0 <= n <= Z.of_nat (length buf)) /\
  (text = b64_encode x ->
     b64_decode text buf (tmp_cap (Z.of_nat (length text))) = Some (0, x ++ drop (length x) buf, Z.of_nat (length x))).
Proof.
  intros Hbuf Hmax Hx. rewrite <-Hbuf. split.
  - destruct (b64_loop_safe (length text) text buf 0) as (r & out & n & E & Hr & Hl & Hn); [lia..|]. exists r, out, n.
    split; [exact E|]. split; [done|]. split; [done|]. lia.
  - intros ->. pose proof (b64_encode_length (length x) x (le_n _)) as He. unfold tmp_cap in Hbuf.
    pose proof (b64_loop_encode (length x) x [] buf (le_n _) Hx) as E. cbn [app length] in E. rewrite !Nat.add_0_l in E. apply E; [|lia].
    Z.to_euclidean_division_equations; lia.
Qed.

Lemma crc32_detects_bursts_witness :
  (forall pieces c, fold_left crc32_fw pieces c = crc32_fw c (concat pieces)) /\
  (forall pieces pieces', concat pieces = [1; 2; 3; 4; 5] -> concat pieces' = [1; 2; 3; 7; 5] ->
     fold_left crc32_fw pieces 0 <> fold_left crc32_fw pieces' 0).
Proof.
  apply (crc32_detects_bursts [1; 2; 3] [4] [7] [5]).
  - unfold is_bytes, is_u8. repeat constructor; lia.
  - unfold is_bytes, is_u8. repeat constructor; lia.
  - reflexivity.
  - cbn. lia.
  - discriminate.
Defined.

Lemma b64_decode_spec_witness : b64_decode [84; 87; 69; 61] (replicate 6 0) 6 = Some (0, [77; 97; 0; 0; 0; 0], 2).
Proof.
  apply (b64_decode_spec [84; 87; 69; 61] (replicate 6 0) [77; 97]).
  - reflexivity.
  - reflexivity.
  - unfold is_bytes, is_u8. repeat constructor; lia.
  - reflexivity.
Defined.
