(* ===== verification/Ota.v ===== *)
(** * Firmware and file update: [ota/ota.c], [ota/ota_lfs.c] and the update
    requests of [config_page/config_api_ota.c]

    Firmware goes straight to its flash partition ([Flash]), from the web page
    in base64 chunks or in Ethernet frames of the vendor's tool; files go to
    littlefs, the class [LfsFile], which [Littlefs] on the same flash
    implements.  JSON requests come with their fields already looked up; time
    is passed in. *)

From S2P Require Import Prelude ConfigDb Flash Littlefs OtaCodec.
From stdpp Require Import strings.

#[local] Open Scope Z_scope.

Definition OTA_FW_SESSION_TIMEOUT_MS : Z := 10 * 60 * 1000.
Definition OTA_TMP_BIN_MAX : Z := 2048.
Definition ETH_P_OTA : Z := 0x4847.
Definition ETH_P_OTA_REBOOT : Z := 1.
Definition ETH_P_OTA_SCAN : Z := 2.
Definition ETH_P_OTA_SCAN_REPORT : Z := 3.
Definition ETH_P_OTA_FW_DATA : Z := 4.
Definition ETH_P_OTA_FW_DATA_RESP : Z := 5.
Definition ETH_P_OTA_FW_CUSTOM_GET_IP : Z := 0xF0.
Definition ETH_P_OTA_FW_CUSTOM_GET_IP_RESP : Z := 0xF1.
Definition ETH_P_OTA_FW_FORMAT_LITTLEFS : Z := 0xF2.
Definition ETH_P_OTA_FW_FORMAT_LITTLEFS_RESP : Z := 0xF3.

(** ** Firmware *)

Section Firmware.
Context {F L : Type} `{SpiNorBus F} `{Littlefs L}.

Record ota := mk_ota {
  g_ota_part : option fal_partition;
  g_ota_erased : bool;
  g_ota_total : Z;
  fw_active : bool;          (* s_fw_ota *)
  fw_total : Z;
  fw_expect_crc32 : Z;
  s_fw_ota_begin_ms : Z;
  flash : spi_nor_flash F;
  fs_port : lfs_port L;      (* of littlefs_port.c *)
}.
#[export] Instance eta_ota : Eta ota := fun s =>
  mk_ota (g_ota_part s) (g_ota_erased s) (g_ota_total s) (fw_active s) (fw_total s) (fw_expect_crc32 s) (s_fw_ota_begin_ms s) (flash s) (fs_port s).

Definition ota_fw_active (now_ms : Z) (s : ota) : bool * ota :=
  if negb (fw_active s) then (false, s)
  else if OTA_FW_SESSION_TIMEOUT_MS <? now_ms - s_fw_ota_begin_ms s then (false, s <| fw_active := false |>)
  else (true, s).

Definition ota_fal_part_get (s : ota) : option fal_partition * ota :=
  match g_ota_part s with
  | Some p => (Some p, s)
  | None => let p := fal_partition_find FAL_PART_NAME_FIRMWARE in (p, s <| g_ota_part := p |>)
  end.

Definition ota_fal_erase_if_needed (p : fal_partition) (total off : Z) (s : ota) : option (Z * ota) :=
  let s := if off =? 0 then s <| g_ota_erased := false |> <| g_ota_total := total |> else s in
  if g_ota_erased s then Some (if negb (g_ota_total s =? total) then -11 else 0, s)
  else if negb (off =? 0) then Some (-12, s)
  else if total =? 0 then Some (-13, s)
  else if u32 (part_len p) <? total then Some (-14, s)
  else
    '(er, fl) ← fal_partition_erase p 0 (part_len p) (flash s);
    let s := s <| flash := fl |> in
    if er <? 0 then Some (-15, s) else Some (0, s <| g_ota_erased := true |>).

(** [_libota_write_fw_ah]; [data] has the 16-bit length [len]. *)
Definition libota_write_fw_ah (tot_len off : Z) (data : list Z) (s : ota) : option (Z * ota) :=
  let len := Z.of_nat (length data) in
  if len =? 0 then Some (-2, s)
  else
    let '(p, s) := ota_fal_part_get s in
    match p with
    | None => Some (-3, s)
    | Some p =>
        if tot_len =? 0 then Some (-4, s)
        else if tot_len <? off then Some (-5, s)
        else if tot_len <? u32 (off + len) then Some (-6, s)
        else if u32 (part_len p) <? u32 (off + len) then Some (-7, s)
        else
          '(er, s) ← ota_fal_erase_if_needed p tot_len off s;
          if negb (er =? 0) then Some (er, s)
          else
            '(wr, fl) ← fal_partition_write p off data (flash s);
            let s := s <| flash := fl |> in
            if wr <? 0 then Some (-8, s)
            else if negb (u32 wr =? len) then Some (-9, s)
            else Some (0, s)
    end.

Definition ota_fw_begin (now_ms total_size expect_crc32 : Z) (s : ota) : Z * ota :=
  if total_size =? 0 then (-1, s)
  else
    let '(p, s) := ota_fal_part_get s in
    match p with
    | None => (-2, s)
    | Some p =>
        if u32 (part_len p) <? total_size then (-3, s)
        else (0, s <| g_ota_erased := false |> <| g_ota_total := 0 |> <| fw_active := true |> <| fw_total := total_size |>
                   <| fw_expect_crc32 := expect_crc32 |> <| s_fw_ota_begin_ms := now_ms |>)
    end.

Definition ota_fw_write_chunk (now_ms off : Z) (data : list Z) (s : ota) : option (Z * ota) :=
  if negb (fw_active s) then Some (-1, s)
  else if bool_decide (data = []) then Some (-2, s)
  else
    '(r, s) ← libota_write_fw_ah (fw_total s) off data s;
    Some (r, if r =? 0 then s <| s_fw_ota_begin_ms := now_ms |> else s).

(** The loop of [ota_fw_end]: the CRC, or [None] in the sum when a read
    fails. *)
Fixpoint crc_loop (fuel : nat) (p : fal_partition) (left offset crc : Z) (fl : spi_nor_flash F) : option (option Z) :=
  if left =? 0 then Some (Some crc)
  else
    match fuel with
    | O => None
    | S fuel =>
        let n := if 1024 <? left then 1024 else left in
        let '(r, buf) := fal_partition_read p offset n fl in
        if r <? 0 then Some None
        else crc_loop fuel p (u32 (left - n)) (u32 (offset + n)) (crc32_fw crc buf) fl
    end.
Definition ota_fw_end (s : ota) : option (Z * ota) :=
  if negb (fw_active s) then Some (-1, s)
  else
    let s := s <| fw_active := false |> in
    let '(p, s) := ota_fal_part_get s in
    match p with
    | None => Some (-2, s)
    | Some p =>
        crc ← crc_loop (S (Z.to_nat (fw_total s / 1024))) p (fw_total s) 0 0 (flash s);
        match crc with
        | None => Some (-3, s)
        | Some crc => Some (if negb (crc =? fw_expect_crc32 s) then -4 else 0, s)
        end
    end.

(** ** Ethernet commands

    The network interface: its MAC, addresses, whether a buffer can be
    allocated, and [linkoutput]'s answer, when it is set. *)
Record nif := mk_nif { own_mac : list Z; nif_ip : Z; nif_gw : Z; nif_mask : Z; pbuf_ok : bool; linkoutput : option Z }.
Inductive ota_effect := Sent (frame : list Z) | Reboot.

Definition sizeof_eth_ota_hdr : Z := 16.
Definition sizeof_eth_ota_fw_data : Z := 36.
Definition offset_fw_data : Z := 34.

Definition be16_at (d : list Z) (i : Z) : option Z :=
  a ← rd d i; b ← rd d (i + 1); Some (Z.lor (Z.shiftl a 8) b).
Definition be32_at (d : list Z) (i : Z) : option Z :=
  a ← be16_at d i; b ← be16_at d (i + 2); Some (Z.lor (Z.shiftl a 16) b).
Definition be16 (x : Z) : list Z := [u8 (Z.shiftr x 8); u8 x].
Definition eth_ota_hdr (dest src : list Z) (stype status : Z) : list Z := dest ++ src ++ be16 ETH_P_OTA ++ [stype; status].

(** The tail every command shares: allocate, copy, [linkoutput]. *)
Definition nif_send (n : nif) (frame : list Z) : Z * list ota_effect :=
  if negb (pbuf_ok n) then (-1, [])
  else match linkoutput n with None => (-1, []) | Some e => (if e =? 0 then 0 else -1, [Sent frame]) end.

Definition ota_cmd_scan (n : option nif) (data : list Z) : option (Z * list ota_effect) :=
  match n with
  | None => Some (-1, [])
  | Some n =>
      if Z.of_nat (length data) <? sizeof_eth_ota_hdr then Some (-1, [])
      else
        src ← rd_n data 6 6;
        let answer_report := replicate 16 0 ++ [0; 0xff; 0; 0xff] ++ replicate 12 0 in
        Some (nif_send n (eth_ota_hdr src (own_mac n) ETH_P_OTA_SCAN_REPORT 0 ++ answer_report))
  end.

Definition ota_cmd_firmware_data (n : option nif) (data : list Z) (s : ota) : option (Z * list ota_effect * ota) :=
  let len := Z.of_nat (length data) in
  match n with
  | None => Some (-1, [], s)
  | Some n =>
      if len <? sizeof_eth_ota_fw_data then Some (-1, [], s)
      else
        proto ← be16_at data 12;
        if negb (proto =? ETH_P_OTA) then Some (-1, [], s)
        else
          fw_len ← be16_at data 28;
          fw_off ← be32_at data 20;
          fw_total_ ← be32_at data 24;
          if (fw_len =? 0) || (1400 <? fw_len) then Some (-1, [], s)
          else if len <? sizeof_eth_ota_fw_data + fw_len then Some (-1, [], s)
          else if fw_total_ <? fw_off then Some (-1, [], s)
          else if fw_total_ <? u32 (fw_off + fw_len) then Some (-1, [], s)
          else
            let s := if fw_off =? 0 then s <| fw_active := true |> <| fw_total := fw_total_ |> else s in
            payload ← rd_n data offset_fw_data fw_len;
            '(r, s) ← libota_write_fw_ah fw_total_ fw_off payload s;
            if negb (r =? 0) then Some (-1, [], s <| fw_active := false |>)
            else
              let s := if fw_total_ <=? u32 (fw_off + fw_len) then s <| fw_active := false |> else s in
              src ← rd_n data 6 6;
              version ← rd_n data 16 4; off_ ← rd_n data 20 4; tot ← rd_n data 24 4; len_ ← rd_n data 28 2;
              checksum ← rd_n data 30 2; chipid ← rd_n data 32 2;
              let '(res, eff) := nif_send n (eth_ota_hdr src (own_mac n) ETH_P_OTA_FW_DATA_RESP 0 ++ version ++ off_ ++ tot ++ len_ ++ checksum ++ chipid ++ [0; 0]) in
              Some (res, eff, s)
  end.

Definition ota_cmd_reboot : Z * list ota_effect := (0, [Reboot]).

(** [version] is the build's version string, at most 31 characters of it. *)
Definition ota_cmd_get_ip (version : list Z) (n : option nif) (data : list Z) : option (Z * list ota_effect) :=
  match n with
  | None => Some (-1, [])
  | Some n =>
      if Z.of_nat (length data) <? sizeof_eth_ota_hdr then Some (-1, [])
      else
        src ← rd_n data 6 6;
        let v := take 31 version in
        Some (nif_send n (eth_ota_hdr src (own_mac n) ETH_P_OTA_FW_CUSTOM_GET_IP_RESP 0 ++ le32 (nif_ip n) ++ le32 (nif_gw n) ++ le32 (nif_mask n) ++
          v ++ replicate (32 - length v) 0))
  end.

Definition ota_format_littefs (s : ota) : option (Z * ota) :=
  '(r, port, fl) ← littlefs_reformat (fs_port s) (flash s); Some (r, s <| fs_port := port |> <| flash := fl |>).

Definition ota_cmd_format_littlefs (n : option nif) (data : list Z) (s : ota) : option (Z * list ota_effect * ota) :=
  match n with
  | None => Some (-1, [], s)
  | Some n =>
      if Z.of_nat (length data) <? sizeof_eth_ota_hdr then Some (-1, [], s)
      else
        '(rc, s) ← ota_format_littefs s;
        src ← rd_n data 6 6;
        let '(res, eff) := nif_send n (eth_ota_hdr src (own_mac n) ETH_P_OTA_FW_FORMAT_LITTLEFS_RESP (if rc =? 0 then 0 else 1)) in
        Some (if negb (rc =? 0) then -1 else res, eff, s)
  end.

Definition ota_process_package (version : list Z) (n : option nif) (data : list Z) (s : ota) : option (Z * list ota_effect * ota) :=
  if Z.of_nat (length data) <? sizeof_eth_ota_hdr then Some (-1, [], s)
  else
    proto ← be16_at data 12;
    if negb (proto =? ETH_P_OTA) then Some (-1, [], s)
    else
      stype ← rd data 14;
      if stype =? ETH_P_OTA_SCAN then '(_, eff) ← ota_cmd_scan n data; Some (-1, eff, s)
      else if stype =? ETH_P_OTA_FW_DATA then '(_, eff, s) ← ota_cmd_firmware_data n data s; Some (-1, eff, s)
      else if stype =? ETH_P_OTA_REBOOT then let '(_, eff) := ota_cmd_reboot in Some (-1, eff, s)
      else if stype =? ETH_P_OTA_FW_CUSTOM_GET_IP then '(_, eff) ← ota_cmd_get_ip version n data; Some (-1, eff, s)
      else if stype =? ETH_P_OTA_FW_FORMAT_LITTLEFS then '(_, eff, s) ← ota_cmd_format_littlefs n data s; Some (-1, eff, s)
      else Some (-1, [], s).

(** [true]: the frame is passed on to lwIP. *)
Definition wrap_lwip_netif_hook_inputdata (version : list Z) (n : option nif) (data : list Z) (s : ota) : option (bool * list ota_effect * ota) :=
  '(r, eff, s) ← ota_process_package version n data s; Some (negb (r =? 0), eff, s).

Definition ota_reset_to_default (s : ota) : option (Z * ota) :=
  match fal_partition_find FAL_PART_NAME_KVDB with
  | None => Some (-1, s)
  | Some p =>
      '(er, fl) ← fal_partition_erase p 0 (part_len p) (flash s);
      Some (if er <? 0 then -2 else 0, s <| flash := fl |>)
  end.

(** ** Requests of the web page

    [None] for a field that is missing or of the wrong type. *)
Definition web_api_ota_fw_begin_post (now_ms : Z) (size crc : option Z) (s : ota) : Z * ota :=
  match size, crc with
  | Some size, Some crc => let '(r, s) := ota_fw_begin now_ms size crc s in (if r =? 0 then 0 else -1, s)
  | _, _ => (-1, s)
  end.
(** [tmp]: the buffer [os_malloc] returned, if it did. *)
Definition web_api_ota_fw_chunk_post (now_ms : Z) (off : option Z) (b64 : option (list Z)) (tmp : option (list Z)) (s : ota) : option (Z * ota) :=
  match off, b64 with
  | Some off, Some b64 =>
      let cap := tmp_cap (Z.of_nat (length b64)) in
      if (cap =? 0) || (OTA_TMP_BIN_MAX <? cap) then Some (-3, s)
      else
        match tmp with
        | None => Some (-4, s)
        | Some tmp =>
            '(r, tmp, n) ← b64_decode b64 tmp cap;
            if negb (r =? 0) then Some (-5, s)
            else
              data ← rd_n tmp 0 (u16 n);
              '(r, s) ← ota_fw_write_chunk now_ms off data s;
              Some (if negb (r =? 0) then -6 else 0, s)
        end
  | _, _ => Some (-2, s)
  end.
Definition web_api_ota_fw_end_post (s : ota) : option (Z * ota) :=
  '(r, s) ← ota_fw_end s; Some (if negb (r =? 0) then -1 else 0, s).
End Firmware.
Arguments ota F L : clear implicits.

(** ** Files *)

(** littlefs: results are negative on errors; a path is a string without its
    terminator. *)
Class LfsFile (L : Type) := {
  lfs_mkdir : list Z -> L -> Z * L;
  lfs_file_open : list Z -> L -> Z * L;
  lfs_file_write : list Z -> L -> Z * L;
  lfs_file_close : L -> Z * L;
}.
Definition WOTA_PATH_MAX : Z := 128.

Section Files.
Context {L : Type} `{LfsFile L}.

Record wota := mk_wota { wota_active : bool; wota_size : Z; wota_expect_crc32 : Z; wota_written : Z; wota_crc_running : Z; fs : L }.
#[export] Instance eta_wota : Eta wota := fun s =>
  mk_wota (wota_active s) (wota_size s) (wota_expect_crc32 s) (wota_written s) (wota_crc_running s) (fs s).

Definition ota_wota_active (s : wota) : bool := wota_active s.
Definition ota_wota_session_abort (s : wota) : wota := s <| wota_active := false |>.

(** The directories in front of every slash but a leading one; [pre] is the
    path walked so far. *)
Fixpoint make_dirs (pre rest : list Z) (s : wota) : wota :=
  match rest with
  | [] => s
  | c :: rest =>
      let s := if c =? 47 then s <| fs := (lfs_mkdir pre (fs s)).2 |> else s in
      make_dirs (pre ++ [c]) rest s
  end.
Definition ensure_parent_dirs (path : list Z) (s : wota) : Z * wota :=
  if WOTA_PATH_MAX <=? Z.of_nat (length path) then (-1, s)
  else match path with [] => (0, s) | c :: rest => (0, make_dirs [c] rest s) end.

Definition ota_lfs_file_begin (path : list Z) (total_size expect_crc32 : Z) (s : wota) : Z * wota :=
  if bool_decide (path = []) then (-1, s)
  else if total_size =? 0 then (-2, s)
  else if WOTA_PATH_MAX <=? Z.of_nat (length path) then (-3, s)
  else
    let s := if wota_active s then s <| fs := (lfs_file_close (fs s)).2 |> <| wota_active := false |> else s in
    let '(r, s) := ensure_parent_dirs path s in
    if r <? 0 then (-4, s)
    else
      let '(r, l) := lfs_file_open path (fs s) in
      let s := s <| fs := l |> in
      if r <? 0 then (-5, s)
      else (0, s <| wota_active := true |> <| wota_size := total_size |> <| wota_expect_crc32 := expect_crc32 |>
                 <| wota_written := 0 |> <| wota_crc_running := 0xFFFFFFFF |>).

Definition ota_wota_file_write (data : list Z) (s : wota) : Z * wota :=
  let len := Z.of_nat (length data) in
  if negb (wota_active s) then (-1, s)
  else if len =? 0 then (-2, s)
  else if wota_size s <? u32 (wota_written s + len) then (-3, s)
  else
    let '(r, l) := lfs_file_write data (fs s) in
    let s := s <| fs := l |> in
    if negb (r =? len) then (-4, s)
    else (0, s <| wota_crc_running ::= fun c => crc32_feed c data |> <| wota_written ::= fun n => u32 (n + len) |>).

Definition ota_wota_file_end (s : wota) : Z * wota :=
  if negb (wota_active s) then (-1, s)
  else
    let s := s <| fs := (lfs_file_close (fs s)).2 |> <| wota_active := false |> in
    if negb (wota_written s =? wota_size s) then (-2, s)
    else
      let final_crc := Z.lxor (wota_crc_running s) 0xFFFFFFFF in
      if negb (final_crc =? wota_expect_crc32 s) then (-3, s) else (0, s).

Definition web_api_ota_file_begin_post (path : option (list Z)) (size crc : option Z) (s : wota) : Z * wota :=
  match path, size, crc with
  | Some path, Some size, Some crc =>
      let '(r, s) := ota_lfs_file_begin path size crc s in (if r =? 0 then 0 else -1, s)
  | _, _, _ => (-1, s)
  end.
Definition web_api_ota_file_chunk_post (b64 : option (list Z)) (tmp : option (list Z)) (s : wota) : option (Z * wota) :=
  match b64 with
  | None => Some (-2, s)
  | Some b64 =>
      let cap := tmp_cap (Z.of_nat (length b64)) in
      if (cap =? 0) || (OTA_TMP_BIN_MAX <? cap) then Some (-3, s)
      else
        match tmp with
        | None => Some (-4, s)
        | Some tmp =>
            '(r, tmp, n) ← b64_decode b64 tmp cap;
            if negb (r =? 0) then Some (-5, s)
            else
              data ← rd_n tmp 0 n;
              let '(r, s) := ota_wota_file_write data s in
              Some (if negb (r =? 0) then -6 else 0, s)
        end
  end.
Definition web_api_ota_file_end_post (s : wota) : Z * wota :=
  let '(r, s) := ota_wota_file_end s in (if negb (r =? 0) then -1 else 0, s).
(** [format]: [ota_format_littefs] seen from the file side. *)
Definition web_api_ota_wipe_lfs_post (format : L -> Z * L) (s : wota) : Z * wota :=
  let s := ota_wota_session_abort s in
  let '(r, l) := format (fs s) in
  (if negb (r =? 0) then -1 else 0, s <| fs := l |>).
End Files.
Arguments wota L : clear implicits.

(** ** Both updates on one flash

    A call of littlefs from [ota_lfs.c] runs on the port's volume; [None]: an
    access has left the chip. *)
Section Updater.
Context {F L : Type} `{SpiNorBus F} `{Littlefs L}.

Definition volume : Type := option (lfs_port L * spi_nor_flash F).
Definition volume_do (q : lfs_request) (v : volume) : Z * volume :=
  match v with
  | Some (port, fl) =>
      match lfs_do q port fl with
      | Some (r, port, fl) => (r, Some (port, fl))
      | None => (-1, None)
      end
  | None => (-1, None)
  end.
#[export] Instance volume_files : LfsFile volume := {|
  lfs_mkdir path := volume_do (LfsMkdir path);
  lfs_file_open path := volume_do (LfsFileOpen path);
  lfs_file_write data := volume_do (LfsFileWrite data);
  lfs_file_close := volume_do LfsFileClose;
|}.
Definition volume_format (v : volume) : Z * volume :=
  match v with
  | Some (port, fl) =>
      match littlefs_reformat port fl with
      | Some (r, port, fl) => (r, Some (port, fl))
      | None => (-1, None)
      end
  | None => (-1, None)
  end.

(** The firmware session and the file session; the port and the flash are
    those of [fw], lent to the file session for a request. *)
Record updater := mk_updater { fw : ota F L; file : wota volume }.
#[export] Instance eta_updater : Eta updater := fun u => mk_updater (fw u) (file u).
Definition on_firmware (f : ota F L -> option (ota F L)) (u : updater) : option updater :=
  s ← f (fw u); Some (u <| fw := s |>).
Definition on_files (f : wota volume -> option (wota volume)) (u : updater) : option updater :=
  w ← f (file u <| fs := Some (fs_port (fw u), flash (fw u)) |>);
  '(port, fl) ← fs w;
  Some (mk_updater (fw u <| fs_port := port |> <| flash := fl |>) w).

(** ** Every request and frame *)

Inductive ota_event :=
  | Frame (n : option nif) (data : list Z)
  | FwBegin (now : Z) (size crc : option Z)
  | FwChunk (now : Z) (off : option Z) (b64 tmp : option (list Z))
  | FwEnd
  | FwActive (now : Z)
  | FileBegin (path : option (list Z)) (size crc : option Z)
  | FileChunk (b64 tmp : option (list Z))
  | FileEnd
  | WipeLfs.
(** The buffer for [b64_decode] has the length asked for. *)
Definition tmp_ok (b64 tmp : option (list Z)) : Prop :=
  forall text buf, b64 = Some text -> tmp = Some buf -> is_bytes buf /\ Z.of_nat (length buf) = tmp_cap (Z.of_nat (length text)).
Definition ota_event_ok (e : ota_event) : Prop :=
  match e with
  | Frame _ data => is_bytes data
  | FwBegin _ size _ => forall z, size = Some z -> is_u32 z
  | FwChunk _ off b64 tmp => (forall z, off = Some z -> is_u32 z) /\ tmp_ok b64 tmp
  | FileBegin path size crc => forall p, path = Some p -> is_bytes p
  | FileChunk b64 tmp => tmp_ok b64 tmp
  | FwEnd | FwActive _ | FileEnd | WipeLfs => True
  end.
(** [version]: of the build, which the tool can ask for. *)
Definition ota_step (version : list Z) (e : ota_event) (u : updater) : option updater :=
  match e with
  | Frame n data => on_firmware (fun s => '(_, _, s) ← wrap_lwip_netif_hook_inputdata version n data s; Some s) u
  | FwBegin now size crc => on_firmware (fun s => Some (web_api_ota_fw_begin_post now size crc s).2) u
  | FwChunk now off b64 tmp => on_firmware (fun s => '(_, s) ← web_api_ota_fw_chunk_post now off b64 tmp s; Some s) u
  | FwEnd => on_firmware (fun s => '(_, s) ← web_api_ota_fw_end_post s; Some s) u
  | FwActive now => on_firmware (fun s => Some (ota_fw_active now s).2) u
  | FileBegin path size crc => on_files (fun w => Some (web_api_ota_file_begin_post path size crc w).2) u
  | FileChunk b64 tmp => on_files (fun w => '(_, w) ← web_api_ota_file_chunk_post b64 tmp w; Some w) u
  | FileEnd => on_files (fun w => Some (web_api_ota_file_end_post w).2) u
  | WipeLfs => on_files (fun w => Some (web_api_ota_wipe_lfs_post volume_format w).2) u
  end.
Fixpoint ota_run (version : list Z) (es : list ota_event) (u : updater) : option updater :=
  match es with
  | [] => Some u
  | e :: es => u ← ota_step version e u; ota_run version es u
  end.
End Updater.
Arguments volume F L : clear implicits.
Arguments updater F L : clear implicits.

(** ** The firmware partition *)

Definition FW : fal_partition := mk_part "firmware" 0 (800 * 1024).
Lemma FW_in : FW ∈ fal_part_table.
Proof. by left. Qed.
Lemma find_FW : fal_partition_find FAL_PART_NAME_FIRMWARE = Some FW.
Proof. done. Qed.

Section FirmwareProofs.
Context {F L : Type} {bus : SpiNorBus F} {mem : F -> list Z} {nor : NorChip F mem} {lfs : Littlefs L} {laws : LittlefsLaws L}.
#[local] Abbreviation st := (ota F L).
Definition cells (s : st) : list Z := mem (chip (flash s)).

Record ota_inv (s : st) : Prop := {
  oi_flash : flash_ok (mem := mem) (flash s);
  oi_fits : table_fits (flash s);
  oi_part : g_ota_part s = None \/ g_ota_part s = Some FW;
  oi_total : g_ota_erased s = true -> 0 < g_ota_total s <= part_len FW;
  oi_port : port_ok (fs_port s);
}.
(** An active session fits the partition; between the first check of a frame
    and its write this is suspended. *)
Definition session_ok (s : st) : Prop := fw_active s = true -> 0 < fw_total s <= part_len FW.

Lemma part_get s : ota_inv s -> exists s', ota_fal_part_get s = (Some FW, s') /\ s' = s <| g_ota_part := Some FW |>.
Proof using.
  intros [_ _ Hp _ _]. unfold ota_fal_part_get. destruct (g_ota_part s) as [p|] eqn:E.
  - destruct Hp as [|[= ->]]; [done|]. exists s. split; [done|]. destruct s. cbn in *. by subst.
  - rewrite find_FW. by eexists.
Qed.

(** When a write of the image is accepted: the first chunk always, a later one
    only in the session that erased the partition. *)
Definition write_accepted (tot off len : Z) (s : st) : Prop :=
  0 < len /\ 0 < tot /\ off + len <= tot /\ tot <= part_len FW /\ (off = 0 \/ g_ota_erased s = true /\ g_ota_total s = tot).
#[local] Instance write_accepted_dec tot off len s : Decision (write_accepted tot off len s).
Proof. unfold write_accepted. apply _. Defined.

Lemma FW_len : part_len FW = 819200.
Proof using. done. Qed.
Lemma FW_offset : part_offset FW = 0.
Proof using. done. Qed.

(** What [_libota_write_fw_ah] leaves alone. *)
Record write_frame (s s' : st) : Prop := {
  wf_active : fw_active s' = fw_active s;
  wf_total : fw_total s' = fw_total s;
  wf_crc : fw_expect_crc32 s' = fw_expect_crc32 s;
  wf_begin : s_fw_ota_begin_ms s' = s_fw_ota_begin_ms s;
}.

Lemma erase_if_needed_refused tot off len s : ota_inv s -> is_u32 tot -> 0 <= off -> 0 < len -> off <= tot -> 0 < tot -> len < 2 ^ 16 ->
  u32 (off + len) <= tot -> ~ write_accepted tot off len s ->
  exists r s', ota_fal_erase_if_needed FW tot off s = Some (r, s') /\ r <> 0 /\ ota_inv s' /\ cells s' = cells s /\ write_frame s s'.
Proof using.
  intros Hi Ht Ho Hl Hot Htot Hlen Hsum Hna. unfold ota_fal_erase_if_needed. destruct (Z.eqb_spec off 0) as [->|Hne]; rsimpl; cbn [negb].
  - rewrite (proj2 (Z.eqb_neq tot 0)) by lia. rewrite u32_small by done. z_case.
    + eexists _, _. split; [done|]. split; [done|]. destruct Hi. split; [by constructor; rsimpl|]. split; [done|by constructor; rsimpl].
    + exfalso. apply Hna. unfold write_accepted. unfold is_u32 in Ht. rewrite FW_len in *. rewrite u32_small in Hsum by word_lia. split_and!; first [lia | by left].
  - destruct (g_ota_erased s) eqn:He.
    + destruct (Z.eqb_spec (g_ota_total s) tot) as [E|E]; cbn [negb].
      * exfalso. apply Hna. pose proof (oi_total _ Hi He) as B. unfold write_accepted. rewrite FW_len in *. rewrite u32_small in Hsum by word_lia.
        split_and!; first [lia | by right].
      * eexists _, s. split; [done|]. split; [done|]. split; [done|]. split; [done|]. by constructor.
    + eexists _, s. split; [done|]. split; [done|]. split; [done|]. split; [done|]. by constructor.
Qed.

Lemma erase_if_needed_accepted tot off len s : ota_inv s -> 0 <= off -> write_accepted tot off len s ->
  exists s', ota_fal_erase_if_needed FW tot off s = Some (0, s') /\ ota_inv s' /\ g_ota_erased s' = true /\ g_ota_total s' = tot /\
    cells s' = on (if off =? 0 then blank 0 (part_len FW) else fun _ x => x) (cells s) /\ write_frame s s'.
Proof using nor.
  intros Hi Ho (Hl & Ht & Hot & Hp & Hs). pose proof FW_len as HF. unfold ota_fal_erase_if_needed. destruct (Z.eqb_spec off 0) as [->|Hne]; rsimpl; cbn [negb].
  - rewrite (proj2 (Z.eqb_neq tot 0)) by lia. rewrite u32_small by done. rewrite (proj2 (Z.ltb_ge _ _)) by lia.
    destruct (fal_erase_becomes FW (flash s)) as (fl & -> & Hb); [apply FW_in|apply Hi..|]. cbn [mbind option_bind].
    rewrite (proj2 (Z.ltb_ge (part_len FW) 0)) by lia. eexists. split; [done|]. destruct Hi. split.
    + constructor; rsimpl; try done; [by eapply becomes_ok|unfold table_fits; by rewrite (becomes_size _ _ _ Hb)].
    + split; [by rsimpl|]. split; [by rsimpl|]. split; [|by constructor; rsimpl]. unfold cells. rsimpl. by rewrite (becomes_mem _ _ _ Hb), FW_offset.
  - destruct Hs as [|[He Ht']]; [done|]. rewrite He, Ht', Z.eqb_refl. cbn [negb]. exists s. split; [done|]. split; [done|].
    split; [done|]. split; [done|]. split; [symmetry; by apply on_id|by constructor].
Qed.

Lemma libota_write_spec tot off data s : ota_inv s -> is_u32 tot -> is_u32 off -> is_bytes data -> Z.of_nat (length data) < 2 ^ 16 ->
  exists r s', libota_write_fw_ah tot off data s = Some (r, s') /\ ota_inv s' /\ write_frame s s' /\
    if decide (write_accepted tot off (Z.of_nat (length data)) s)
    then r = 0 /\ g_ota_erased s' = true /\ g_ota_total s' = tot /\
      cells s' = on (put off data) (on (if off =? 0 then blank 0 (part_len FW) else fun _ x => x) (cells s))
    else r <> 0 /\ cells s' = cells s.
Proof using nor.
  intros Hi Ht Ho Hb Hl. unfold libota_write_fw_ah. set (len := Z.of_nat (length data)) in *. pose proof FW_len as HF.
  assert (Hstop : forall r (s1 : st), ota_inv s1 -> cells s1 = cells s -> write_frame s s1 -> r <> 0 -> ~ write_accepted tot off len s ->
    exists r' s', Some (r, s1) = Some (r', s') /\ ota_inv s' /\ write_frame s s' /\
    if decide (write_accepted tot off len s)
    then r' = 0 /\ g_ota_erased s' = true /\ g_ota_total s' = tot /\
      cells s' = on (put off data) (on (if off =? 0 then blank 0 (part_len FW) else fun _ x => x) (cells s))
    else r' <> 0 /\ cells s' = cells s).
  { intros r s1 Hi1 Hc Hf Hr Hna. exists r, s1. split; [done|]. split; [done|]. split; [done|]. by rewrite decide_False. }
  destruct (Z.eqb_spec len 0). { apply Hstop; try done. intros (? & _). lia. }
  destruct (part_get s Hi) as (s1 & -> & Es1). assert (Hi1 : ota_inv s1) by (subst s1; destruct Hi; constructor; rsimpl; try done; by right).
  assert (Hf1 : write_frame s s1) by (subst s1; by constructor; rsimpl).
  assert (Hc1 : cells s1 = cells s) by (by subst s1).
  assert (Hacc1 : write_accepted tot off len s1 <-> write_accepted tot off len s) by (by subst s1; unfold write_accepted; rsimpl).
  clear Es1. destruct (Z.eqb_spec tot 0). { apply Hstop; try done. intros (_ & ? & _). lia. }
  destruct (Z.ltb_spec tot off). { apply Hstop; try done. intros (? & ? & ? & _). lia. }
  unfold is_u32 in Ht, Ho.
  destruct (Z.ltb_spec tot (u32 (off + len))). { apply Hstop; try done. intros (? & ? & ? & ? & _). rewrite u32_small in * by word_lia. lia. }
  rewrite (u32_small (part_len FW)) by done.
  destruct (Z.ltb_spec (part_len FW) (u32 (off + len))). { apply Hstop; try done. intros (? & ? & ? & ? & _). rewrite !u32_small in * by word_lia. lia. }
  destruct (decide (write_accepted tot off len s)) as [Ha|Hna].
  - destruct (erase_if_needed_accepted tot off len s1 Hi1) as (s2 & -> & Hi2 & He & Hg & Hc2 & Hf2); [lia|by apply Hacc1|]. cbn [mbind option_bind Z.eqb negb].
    destruct Ha as (_ & _ & Hot & Hp & _).
    destruct (fal_write_becomes FW off data (flash s2)) as (fl & -> & Hbec); [apply FW_in|apply Hi2..|done|lia|lia|]. cbn [mbind option_bind].
    fold len. rewrite (proj2 (Z.ltb_ge len 0)), u32_small, Z.eqb_refl by word_lia. cbn [negb].
    eexists 0, _. split; [done|]. split; [|split].
    + destruct Hi2. constructor; rsimpl; try done; [by eapply becomes_ok|unfold table_fits; by rewrite (becomes_size _ _ _ Hbec)].
    + destruct Hf1, Hf2. constructor; rsimpl; congruence.
    + split; [done|]. rsimpl. split; [done|]. split; [done|]. unfold cells in *. rsimpl. rewrite (becomes_mem _ _ _ Hbec), Hc2, Hc1, FW_offset, Z.add_0_l. done.
  - destruct (erase_if_needed_refused tot off len s1) as (r & s2 & -> & Hr & Hi2 & Hc2 & Hf2); try done; try lia.
    { by rewrite Hacc1. } cbn [mbind option_bind]. rewrite (proj2 (Z.eqb_neq r 0)) by done. cbn [negb].
    exists r, s2. split; [done|]. split; [done|]. split; [destruct Hf1, Hf2; constructor; congruence|]. split; [done|congruence].
Qed.

(** Cells outside the firmware partition and that of the file system. *)
Definition settings_kept (s s' : st) : Prop :=
  forall i, ~ 0 <= Z.of_nat i < part_len FW -> ~ part_offset LFS <= Z.of_nat i < part_offset LFS + part_len LFS -> cells s' !! i = cells s !! i.
#[local] Instance settings_kept_preorder : PreOrder settings_kept.
Proof. split; [by intros s i|]. intros s1 s2 s3 K1 K2 i H1 H2. by rewrite (K2 i H1 H2), (K1 i H1 H2). Qed.

Lemma libota_write_safe tot off data s : ota_inv s -> is_u32 tot -> is_u32 off -> is_bytes data -> Z.of_nat (length data) < 2 ^ 16 ->
  exists r s', libota_write_fw_ah tot off data s = Some (r, s') /\ ota_inv s' /\ write_frame s s' /\ settings_kept s s' /\
    (r = 0 -> 0 < tot <= part_len FW).
Proof using nor.
  intros Hi Ht Ho Hb Hl. destruct (libota_write_spec tot off data s Hi Ht Ho Hb Hl) as (r & s' & -> & Hi' & Hf & Hr).
  exists r, s'. split; [done|]. split; [done|]. split; [done|]. destruct (decide (write_accepted _ _ _ s)) as [(? & ? & ? & ? & _)|_].
  - destruct Hr as (_ & _ & _ & Hc). split; [|lia]. intros i Hin _. rewrite Hc, !on_lookup. destruct (cells s !! i); [|done]. cbn. f_equal.
    unfold put. destruct (rd data _) eqn:E; [apply rd_range in E; unfold is_u32 in *; lia|]. cbn. destruct (off =? 0); [|done].
    pose proof FW_len. unfold blank. by rewrite decide_False by lia.
  - destruct Hr as [Hr Hc]. split; [|done]. intros i _ _. by rewrite Hc.
Qed.

Lemma fw_begin_safe now total crc s : ota_inv s -> session_ok s -> is_u32 total ->
  exists r s', ota_fw_begin now total crc s = (r, s') /\ ota_inv s' /\ session_ok s' /\ cells s' = cells s /\
    (r = 0 <-> 0 < total <= part_len FW) /\
    (r = 0 -> fw_active s' = true /\ fw_total s' = total /\ fw_expect_crc32 s' = crc).
Proof using.
  intros Hi Hs Ht. unfold ota_fw_begin, is_u32 in *. destruct (Z.eqb_spec total 0).
  { exists (-1), s. split; [done|]. split; [done|]. split; [done|]. split; [done|]. split; [lia|done]. }
  destruct (part_get s Hi) as (s1 & -> & ->). rewrite u32_small by done. destruct (Z.ltb_spec (part_len FW) total).
  - eexists _, _. split; [done|]. destruct Hi. split; [constructor; rsimpl; try done; by right|]. split; [done|]. split; [done|]. split; [lia|done].
  - eexists _, _. split; [done|]. destruct Hi. split; [constructor; rsimpl; try done; by right|]. unfold session_ok. rsimpl. split; [lia|]. split; [done|]. split; [lia|done].
Qed.

Lemma fw_write_chunk_safe now off data s : ota_inv s -> session_ok s -> is_u32 off -> is_bytes data -> Z.of_nat (length data) < 2 ^ 16 ->
  exists r s', ota_fw_write_chunk now off data s = Some (r, s') /\ ota_inv s' /\ session_ok s' /\ settings_kept s s'.
Proof using nor.
  intros Hi Hs Ho Hb Hl. unfold ota_fw_write_chunk. destruct (fw_active s) eqn:Ha; cbn [negb]; [|by exists (-1), s].
  case_bool_decide; [by exists (-2), s|]. specialize (Hs Ha). pose proof FW_len.
  destruct (libota_write_safe (fw_total s) off data s Hi) as (r & s1 & -> & Hi1 & Hf & Hk & _); try done; [split; lia|].
  cbn [mbind option_bind]. eexists _, _. split; [done|]. destruct Hf as [F1 F2 _ _].
  assert (Hs1 : session_ok s1) by (intros _; by rewrite F2). destruct (r =? 0); [|done]. split; [destruct Hi1; by constructor; rsimpl|].
  split; [|done]. exact Hs1.
Qed.

Lemma crc_loop_spec fuel : forall left offset done_ fl, flash_ok (mem := mem) fl -> table_fits fl -> 0 <= left -> 0 <= offset ->
  offset + left <= part_len FW -> left <= 1024 * Z.of_nat fuel -> done_ = slice (mem (chip fl)) 0 offset ->
  crc_loop fuel FW left offset (crc32_fw 0 done_) fl = Some (Some (crc32_fw 0 (slice (mem (chip fl)) 0 (offset + left)))).
Proof using nor.
  induction fuel as [|fuel IH]; intros left offset done_ fl Hok Hfit Hl Ho Hr Hf ->; cbn [crc_loop].
  { replace left with 0 by lia. by rewrite Z.add_0_r. }
  pose proof FW_len. destruct (Z.eqb_spec left 0) as [->|Hne]; [by rewrite Z.add_0_r|].
  set (n := if 1024 <? left then 1024 else left). assert (Hn : 0 < n <= left /\ (n = 1024 \/ n = left)) by (unfold n; destruct (Z.ltb_spec 1024 left); lia).
  clearbody n. rewrite (fal_read_slice (mem := mem)) by (apply FW_in || done || lia). rewrite (proj2 (Z.ltb_ge n 0)) by lia.
  rewrite FW_offset, Z.add_0_l, crc32_fw_app, !u32_small by word_lia.
  replace (offset + left) with (offset + n + (left - n)) by lia. apply IH; try done; try lia.
  unfold slice. change (Z.to_nat 0) with 0%nat. rewrite !drop_0, Z2Nat.inj_add by lia. rewrite take_take_drop. done.
Qed.

(** The end of a session: the CRC of what the flash holds decides. *)
Lemma fw_end_exact s : ota_inv s -> session_ok s -> fw_active s = true ->
  exists s', ota_fw_end s = Some (if crc32_fw 0 (slice (cells s) 0 (fw_total s)) =? fw_expect_crc32 s then 0 else -4, s') /\
    ota_inv s' /\ cells s' = cells s /\ fw_active s' = false.
Proof using nor.
  intros Hi Hs Ha. unfold ota_fw_end. rewrite Ha. cbn [negb]. specialize (Hs Ha). pose proof FW_len.
  assert (Hi1 : ota_inv (s <| fw_active := false |>)) by (destruct Hi; constructor; rsimpl; done).
  destruct (part_get _ Hi1) as (s2 & -> & ->). rsimpl.
  pose proof (crc_loop_spec (S (Z.to_nat (fw_total s / 1024))) (fw_total s) 0 [] (flash s)) as E. change (crc32_fw 0 []) with 0 in E.
  rewrite E by (first [lia | done | apply (oi_flash _ Hi) | apply (oi_fits _ Hi) | Z.to_euclidean_division_equations; lia]). clear E.
  cbn [mbind option_bind]. rewrite Z.add_0_l. unfold cells. destruct (_ =? _); cbn [negb]; (eexists; split; [done|]); rsimpl.
  all: split; [destruct Hi1; constructor; rsimpl; try done; by right|done].
Qed.
Lemma fw_end_safe s : ota_inv s -> session_ok s -> exists r s', ota_fw_end s = Some (r, s') /\ ota_inv s' /\ session_ok s' /\ cells s' = cells s.
Proof using nor.
  intros Hi Hs. destruct (fw_active s) eqn:Ha.
  - destruct (fw_end_exact s Hi Hs Ha) as (s' & -> & ? & ? & Ha'). eexists _, _. split; [done|]. split; [done|]. split; [|done].
    unfold session_ok. by rewrite Ha'.
  - unfold ota_fw_end. rewrite Ha. by exists (-1), s.
Qed.

(** ** Frames *)

Lemma rd_byte d i : is_bytes d -> 0 <= i < Z.of_nat (length d) -> exists x, rd d i = Some x /\ is_u8 x.
Proof using.
  intros Hd Hi. unfold rd. rewrite decide_True by lia. destruct (lookup_lt_is_Some_2 d (Z.to_nat i)) as [x Ex]; [lia|].
  exists x. split; [done|]. by eapply is_bytes_lookup.
Qed.
Lemma be16_at_in d i : is_bytes d -> 0 <= i -> i + 2 <= Z.of_nat (length d) -> exists v, be16_at d i = Some v /\ is_u16 v.
Proof using.
  intros Hd Hi Hl. unfold be16_at. destruct (rd_byte d i Hd) as (a & -> & Ha); [lia|]. destruct (rd_byte d (i + 1) Hd) as (b & -> & Hb); [lia|].
  cbn [mbind option_bind]. eexists. split; [done|].
  unfold is_u8, is_u16 in *. rewrite Z.lor_comm, lor_shiftl_add by lia. change (2 ^ 8) with 256 in *. lia.
Qed.
Lemma be32_at_in d i : is_bytes d -> 0 <= i -> i + 4 <= Z.of_nat (length d) -> exists v, be32_at d i = Some v /\ is_u32 v.
Proof using.
  intros Hd Hi Hl. unfold be32_at. destruct (be16_at_in d i Hd) as (a & -> & Ha); [lia..|]. destruct (be16_at_in d (i + 2) Hd) as (b & -> & Hb); [lia..|].
  cbn [mbind option_bind]. eexists. split; [done|]. unfold is_u16, is_u32 in *. rewrite Z.lor_comm, lor_shiftl_add by lia. change (2 ^ 16) with 65536 in *. lia.
Qed.
Lemma is_bytes_sub d i n b : is_bytes d -> rd_n d i n = Some b -> is_bytes b /\ Z.of_nat (length b) = n.
Proof using.
  unfold rd_n. intros Hd. case_decide; [|done]. intros [= <-]. split; [by apply Forall_take, Forall_drop|]. rewrite length_take, length_drop. lia.
Qed.

Lemma firmware_data_safe n data s : ota_inv s -> session_ok s -> is_bytes data ->
  exists r eff s', ota_cmd_firmware_data n data s = Some (r, eff, s') /\ ota_inv s' /\ session_ok s' /\ settings_kept s s' /\
    s_fw_ota_begin_ms s' = s_fw_ota_begin_ms s.
Proof using nor.
  intros Hi Hs Hd. unfold ota_cmd_firmware_data. set (len := Z.of_nat (length data)). unfold sizeof_eth_ota_fw_data, offset_fw_data.
  assert (Hstop : forall (r : Z) (eff : list ota_effect), exists r' eff' s', Some (r, eff, s) = Some (r', eff', s') /\ ota_inv s' /\ session_ok s' /\ settings_kept s s' /\
    s_fw_ota_begin_ms s' = s_fw_ota_begin_ms s) by (intros r eff; by exists r, eff, s).
  destruct n as [n|]; [|done]. destruct (Z.ltb_spec len 36); [done|].
  destruct (be16_at_in data 12 Hd) as (proto & -> & _); [lia..|]. cbn [mbind option_bind]. destruct (negb _); [done|].
  destruct (be16_at_in data 28 Hd) as (fl & -> & Hfl); [lia..|]. destruct (be32_at_in data 20 Hd) as (off & -> & Hoff); [lia..|].
  destruct (be32_at_in data 24 Hd) as (tot & -> & Htot); [lia..|]. cbn [mbind option_bind].
  destruct (Z.eqb_spec fl 0); cbn [orb]; [done|]. destruct (Z.ltb_spec 1400 fl); [done|]. destruct (Z.ltb_spec len (36 + fl)); [done|].
  destruct (tot <? off); [done|]. destruct (tot <? u32 (off + fl)); [done|]. unfold is_u16 in Hfl.
  set (s1 := if off =? 0 then _ else s).
  destruct (rd_n data 34 fl) as [payload|] eqn:Ep; [|rewrite rd_n_in_bounds in Ep by lia; done]. cbn [mbind option_bind].
  destruct (is_bytes_sub _ _ _ _ Hd Ep) as [Hpb Hpl].
  assert (Hi1 : ota_inv s1) by (unfold s1; destruct Hi, (off =? 0); constructor; rsimpl; done).
  assert (Hs1 : (0 < tot <= part_len FW -> session_ok s1) /\ cells s1 = cells s /\ s_fw_ota_begin_ms s1 = s_fw_ota_begin_ms s) by (unfold s1, session_ok; destruct (off =? 0); by rsimpl).
  clearbody s1. destruct Hs1 as (Hs1 & Hc1 & Hm1).
  destruct (libota_write_safe tot off payload s1 Hi1 Htot Hoff Hpb) as (r & s2 & -> & Hi2 & [F1 F2 _ F4] & Hk & Hr); [lia|]. cbn [mbind option_bind].
  assert (Hk' : settings_kept s s2) by (intros i ? ?; rewrite (Hk i), Hc1; done).
  assert (Hoffi : forall s3, s3 = s2 <| fw_active := false |> -> ota_inv s3 /\ session_ok s3 /\ settings_kept s s3 /\ s_fw_ota_begin_ms s3 = s_fw_ota_begin_ms s).
  { intros s3 ->. split; [destruct Hi2; constructor; by rsimpl|]. split; [unfold session_ok; by rsimpl|]. split; [exact Hk'|rsimpl; congruence]. }
  destruct (Z.eqb_spec r 0) as [->|Hne]; cbn [negb]; [|eexists _, _, _; split; [done|]; by apply Hoffi].
  rewrite !rd_n_in_bounds by lia. cbn [mbind option_bind]. destruct (nif_send _ _) as [res eff]. eexists _, _, _. split; [done|].
  destruct (_ <=? _); [by apply Hoffi|]. split; [done|]. split; [|split; [done|congruence]].
  unfold session_ok in *. rewrite F1, F2. apply Hs1. by apply Hr.
Qed.

(** ** Requests and frames of the firmware update *)

Lemma frame_safe version n data s : ota_inv s -> session_ok s -> is_bytes data ->
  exists b eff s', wrap_lwip_netif_hook_inputdata version n data s = Some (b, eff, s') /\ ota_inv s' /\ session_ok s' /\ settings_kept s s'.
Proof using nor laws.
  intros Hi Hs Hd. unfold wrap_lwip_netif_hook_inputdata, ota_process_package. set (len := Z.of_nat (length data)). unfold sizeof_eth_ota_hdr.
  destruct (Z.ltb_spec len 16); [cbn; by eexists _, _, s|].
  destruct (be16_at_in data 12 Hd) as (proto & -> & _); [lia..|]. cbn [mbind option_bind]. destruct (negb _); [cbn; by eexists _, _, s|].
  destruct (rd_byte data 14 Hd) as (ty & -> & _); [lia|]. cbn [mbind option_bind].
  destruct (ty =? ETH_P_OTA_SCAN).
  { unfold ota_cmd_scan, sizeof_eth_ota_hdr. fold len. rewrite (proj2 (Z.ltb_ge len 16)) by lia. rewrite rd_n_in_bounds by lia.
    destruct n as [n|]; cbn [mbind option_bind]; [destruct (nif_send n _)|]; cbn; by eexists _, _, s. }
  destruct (ty =? ETH_P_OTA_FW_DATA).
  { destruct (firmware_data_safe n data s Hi Hs Hd) as (r & eff & s' & -> & ? & ? & ? & _). cbn. by eexists _, _, s'. }
  destruct (ty =? ETH_P_OTA_REBOOT); [cbn; by eexists _, _, s|].
  destruct (ty =? ETH_P_OTA_FW_CUSTOM_GET_IP).
  { unfold ota_cmd_get_ip, sizeof_eth_ota_hdr. fold len. rewrite (proj2 (Z.ltb_ge len 16)) by lia. rewrite rd_n_in_bounds by lia.
    destruct n as [n|]; cbn [mbind option_bind]; [destruct (nif_send n _)|]; cbn; by eexists _, _, s. }
  destruct (ty =? ETH_P_OTA_FW_FORMAT_LITTLEFS); [|cbn; by eexists _, _, s].
  unfold ota_cmd_format_littlefs, ota_format_littefs, sizeof_eth_ota_hdr. fold len. rewrite (proj2 (Z.ltb_ge len 16)) by lia.
  destruct n as [n|]; [|cbn; by eexists _, _, s].
  destruct (littlefs_reformat_confined (cells s) (fs_port s) (flash s)) as (rc & port & fl & -> & Hp & [R1 R2 R3]); [apply Hi|apply lfs_confined_refl; apply Hi|].
  cbn [mbind option_bind]. rewrite rd_n_in_bounds by lia. cbn [mbind option_bind].
  destruct (nif_send _ _). cbn. eexists _, _, _. split; [done|]. split; [destruct Hi; constructor; by rsimpl|]. split; [exact Hs|].
  intros i _ Hout. unfold cells. rsimpl. by apply R3.
Qed.

Lemma chunk_post_safe now off b64 tmp s : ota_inv s -> session_ok s -> (forall z, off = Some z -> is_u32 z) -> tmp_ok b64 tmp ->
  exists r s', web_api_ota_fw_chunk_post now off b64 tmp s = Some (r, s') /\ ota_inv s' /\ session_ok s' /\ settings_kept s s'.
Proof using nor.
  intros Hi Hs Ho Hb. unfold web_api_ota_fw_chunk_post. destruct off as [off|]; [|by eexists _, s]. destruct b64 as [text|]; [|by eexists _, s].
  unfold OTA_TMP_BIN_MAX. destruct (_ =? 0); cbn [orb]; [by eexists _, s|]. destruct (Z.ltb_spec 2048 (tmp_cap (Z.of_nat (length text)))); [by eexists _, s|].
  destruct tmp as [buf|]; [|by eexists _, s]. destruct (Hb text buf eq_refl eq_refl) as [Hbuf Hlen].
  destruct (b64_loop_safe (length text) text buf 0) as (r & out & n & E & Hr & Hl & Hn); [lia..|].
  unfold b64_decode. rewrite <-Hlen, E. cbn [mbind option_bind]. destruct (negb _); [by eexists _, s|].
  pose proof (b64_loop_bytes _ _ _ _ _ _ _ _ (le_n _) Hbuf E) as Hout. rewrite u16_small by word_lia. rewrite rd_n_in_bounds by lia. cbn [mbind option_bind].
  destruct (fw_write_chunk_safe now off (take (Z.to_nat n) (drop (Z.to_nat 0) out)) s Hi Hs) as (r' & s' & -> & H').
  { by apply Ho. } { by apply Forall_take, Forall_drop. } { rewrite length_take, length_drop. lia. }
  cbn. by eexists _, s'.
Qed.

(** ** Requests of the file update

    A file session keeps the volume within the file system's partition of
    [m]. *)
Definition files_ok (m : list Z) (w : wota (volume F L)) : Prop :=
  exists port fl, fs w = Some (port, fl) /\ port_ok port /\ lfs_confined (mem := mem) m fl.
Definition volume_ok (m : list Z) (v : volume F L) : Prop :=
  exists port fl, v = Some (port, fl) /\ port_ok port /\ lfs_confined (mem := mem) m fl.

Lemma volume_do_ok m q v : lfs_request_ok q -> volume_ok m v -> volume_ok m (volume_do q v).2.
Proof using nor laws.
  intros Hq (port & fl & -> & Hp & Hl). cbn [volume_do].
  destruct (lfs_do_confined m q port fl Hq Hp Hl) as (r & port' & fl' & -> & ?). by exists port', fl'.
Qed.
Lemma volume_format_ok m v : volume_ok m v -> volume_ok m (volume_format v).2.
Proof using nor laws.
  intros (port & fl & -> & Hp & Hl). cbn [volume_format].
  destruct (littlefs_reformat_confined m port fl Hp Hl) as (r & port' & fl' & -> & ?). by exists port', fl'.
Qed.

Lemma make_dirs_ok m rest : forall pre w, is_bytes pre -> is_bytes rest -> volume_ok m (fs w) -> volume_ok m (fs (make_dirs pre rest w)).
Proof using nor laws.
  induction rest as [|c rest IH]; intros pre w Hpre Hrest Hw; cbn [make_dirs]; [done|]. apply Forall_cons in Hrest as [Hc Hrest].
  apply IH; [by apply Forall_app; split; [|constructor]|done|]. destruct (c =? 47); rsimpl; [by apply volume_do_ok|done].
Qed.
Lemma file_begin_ok m path size crc w : is_bytes path -> volume_ok m (fs w) -> volume_ok m (fs (ota_lfs_file_begin path size crc w).2).
Proof using nor laws.
  intros Hp Hw. unfold ota_lfs_file_begin. case_bool_decide; [done|]. destruct (size =? 0); [done|]. destruct (_ <=? _) eqn:El; [done|].
  set (w1 := if wota_active w then _ else w). assert (Hw1 : volume_ok m (fs w1)) by (unfold w1; destruct (wota_active w); rsimpl; [by apply volume_do_ok|done]).
  clearbody w1. unfold ensure_parent_dirs. rewrite El.
  assert (Hdirs : exists w2, (match path with [] => (0, w1) | c :: rest => (0, make_dirs [c] rest w1) end) = (0, w2) /\ volume_ok m (fs w2)).
  { destruct path as [|c rest]; [by exists w1|]. apply Forall_cons in Hp as [Hc Hrest]. eexists. split; [done|]. apply make_dirs_ok; [by constructor|done|done]. }
  destruct Hdirs as (w2 & -> & Hw2). cbn [Z.ltb Z.compare]. pose proof (volume_do_ok m (LfsFileOpen path) (fs w2) Hp Hw2) as Ho. cbn [lfs_file_open volume_files].
  destruct (volume_do _ _) as [r v]. destruct (r <? 0); by rsimpl.
Qed.
Lemma file_write_ok m data w : is_bytes data -> volume_ok m (fs w) -> volume_ok m (fs (ota_wota_file_write data w).2).
Proof using nor laws.
  intros Hd Hw. unfold ota_wota_file_write. destruct (negb _); [done|]. destruct (_ =? 0); [done|]. destruct (_ <? _); [done|].
  pose proof (volume_do_ok m (LfsFileWrite data) (fs w) Hd Hw) as Ho. cbn [lfs_file_write volume_files]. destruct (volume_do _ _) as [r v].
  destruct (negb _); by rsimpl.
Qed.
Lemma file_end_ok m w : volume_ok m (fs w) -> volume_ok m (fs (ota_wota_file_end w).2).
Proof using nor laws.
  intros Hw. unfold ota_wota_file_end. destruct (negb _); [done|]. pose proof (volume_do_ok m LfsFileClose (fs w) I Hw). repeat case_match; by rsimpl.
Qed.
Lemma file_chunk_ok m b64 tmp w : tmp_ok b64 tmp -> volume_ok m (fs w) ->
  exists r w', web_api_ota_file_chunk_post b64 tmp w = Some (r, w') /\ volume_ok m (fs w').
Proof using nor laws.
  intros Hb Hw. unfold web_api_ota_file_chunk_post. destruct b64 as [text|]; [|by eexists _, w]. unfold OTA_TMP_BIN_MAX.
  destruct (_ =? 0); cbn [orb]; [by eexists _, w|]. destruct (Z.ltb_spec 2048 (tmp_cap (Z.of_nat (length text)))); [by eexists _, w|].
  destruct tmp as [buf|]; [|by eexists _, w]. destruct (Hb text buf eq_refl eq_refl) as [Hbuf Hlen].
  destruct (b64_loop_safe (length text) text buf 0) as (r & out & n & E & Hr & Hl & Hn); [lia..|].
  unfold b64_decode. rewrite <-Hlen, E. cbn [mbind option_bind]. destruct (negb _); [by eexists _, w|].
  pose proof (b64_loop_bytes _ _ _ _ _ _ _ _ (le_n _) Hbuf E) as Hout. rewrite rd_n_in_bounds by lia. cbn [mbind option_bind].
  pose proof (file_write_ok m (take (Z.to_nat n) (drop (Z.to_nat 0) out)) w) as Hok. destruct (ota_wota_file_write _ w) as [r' w']. eexists _, w'. split; [done|].
  apply Hok; [by apply Forall_take, Forall_drop|done].
Qed.

(** ** Every sequence of requests and frames *)

Definition updater_inv (u : updater F L) : Prop := ota_inv (fw u) /\ session_ok (fw u).

Lemma on_firmware_safe f u : updater_inv u ->
  (exists s', f (fw u) = Some s' /\ ota_inv s' /\ session_ok s' /\ settings_kept (fw u) s') ->
  exists u', on_firmware f u = Some u' /\ updater_inv u' /\ settings_kept (fw u) (fw u').
Proof using. intros Hu (s' & E & Hi & Hs & Hk). unfold on_firmware. rewrite E. cbn. by eexists. Qed.
Lemma on_files_safe f u : updater_inv u ->
  (forall w, volume_ok (cells (fw u)) (fs w) -> exists w', f w = Some w' /\ volume_ok (cells (fw u)) (fs w')) ->
  exists u', on_files f u = Some u' /\ updater_inv u' /\ settings_kept (fw u) (fw u').
Proof using.
  intros [Hi Hs] Hf. unfold on_files. destruct (Hf (file u <| fs := Some (fs_port (fw u), flash (fw u)) |>)) as (w & -> & port & fl & E & Hp & [H1 H2 H3]).
  { eexists _, _. rsimpl. split; [done|]. split; [apply Hi|]. apply lfs_confined_refl; apply Hi. }
  cbn [mbind option_bind]. rewrite E. cbn [mbind option_bind]. eexists. split; [done|]. split.
  - split; [destruct Hi; constructor; by rsimpl|exact Hs].
  - intros i _ Hout. unfold cells. rsimpl. by apply H3.
Qed.

Lemma ota_step_safe version e u : updater_inv u -> ota_event_ok e ->
  exists u', ota_step version e u = Some u' /\ updater_inv u' /\ settings_kept (fw u) (fw u').
Proof using nor laws.
  intros Hu He. pose proof Hu as [Hi Hs].
  destruct e as [n data|now size crc|now off b64 tmp| |now|path size crc|b64 tmp| |]; cbn [ota_step];
    first [apply on_firmware_safe; [done|] | apply on_files_safe; [done|]; intros w Hw].
  - destruct (frame_safe version n data _ Hi Hs He) as (? & ? & s' & -> & ?). cbn. by exists s'.
  - eexists. split; [done|]. unfold web_api_ota_fw_begin_post. destruct size as [size|]; [|done]. destruct crc as [crc|]; [|done].
    destruct (fw_begin_safe now size crc _ Hi Hs (He _ eq_refl)) as (r & s' & -> & Hi' & Hs' & Hc & _).
    split; [done|]. split; [done|]. intros i _ _. cbn. by rewrite Hc.
  - destruct (chunk_post_safe now off b64 tmp _ Hi Hs (proj1 He) (proj2 He)) as (r & s' & -> & ?). cbn. by exists s'.
  - unfold web_api_ota_fw_end_post. destruct (fw_end_safe _ Hi Hs) as (r & s' & -> & Hi' & Hs' & Hc). cbn. exists s'. split; [done|].
    split; [done|]. split; [done|]. intros i _ _. by rewrite Hc.
  - eexists. split; [done|]. unfold ota_fw_active. destruct (negb _); [done|]. destruct (_ <? _); [|done]. cbn. split; [destruct Hi; constructor; by rsimpl|].
    split; [|done]. unfold session_ok. by rsimpl.
  - eexists. split; [done|]. unfold web_api_ota_file_begin_post. destruct path as [path|]; [|done]. destruct size as [size|]; [|done]. destruct crc as [crc|]; [|done].
    pose proof (file_begin_ok _ path size crc w (He _ eq_refl) Hw). by destruct (ota_lfs_file_begin _ _ _ _).
  - destruct (file_chunk_ok _ b64 tmp w He Hw) as (r & w' & -> & ?). by exists w'.
  - eexists. split; [done|]. unfold web_api_ota_file_end_post. pose proof (file_end_ok _ w Hw). by destruct (ota_wota_file_end w).
  - eexists. split; [done|]. unfold web_api_ota_wipe_lfs_post. pose proof (volume_format_ok _ (fs (ota_wota_session_abort w)) Hw) as Ho.
    destruct (volume_format _). by rsimpl.
Qed.

Lemma ota_run_safe version es : forall u, updater_inv u -> Forall ota_event_ok es ->
  exists u', ota_run version es u = Some u' /\ updater_inv u' /\ settings_kept (fw u) (fw u').
Proof using nor laws.
  induction es as [|e es IH]; intros u Hu He; cbn [ota_run]; [by exists u|]. apply Forall_cons in He as [He Hes].
  destruct (ota_step_safe version e u Hu He) as (u1 & -> & Hu1 & Hk1). cbn [mbind option_bind].
  destruct (IH u1 Hu1 Hes) as (u2 & -> & Hu2 & Hk2). exists u2. split; [done|]. split; [done|]. by etransitivity.
Qed.

(** ** Uploading an image *)

(** The chunks in order, from offset [off]. *)
Fixpoint upload (now off : Z) (pieces : list (list Z)) (s : st) : option (list Z * st) :=
  match pieces with
  | [] => Some ([], s)
  | p :: pieces =>
      '(r, s) ← ota_fw_write_chunk now off p s;
      '(rs, s) ← upload now (off + Z.of_nat (length p)) pieces s;
      Some (r :: rs, s)
  end.

Lemma upload_spec now tot pieces : forall off s, ota_inv s -> fw_active s = true -> fw_total s = tot -> 0 < tot <= part_len FW -> 0 <= off ->
  off + Z.of_nat (length (concat pieces)) <= tot -> Forall (fun p => p <> [] /\ is_bytes p /\ Z.of_nat (length p) < 2 ^ 16) pieces ->
  (off = 0 \/ g_ota_erased s = true /\ g_ota_total s = tot) ->
  exists s', upload now off pieces s = Some (replicate (length pieces) 0, s') /\ ota_inv s' /\ fw_active s' = true /\ fw_total s' = tot /\
    fw_expect_crc32 s' = fw_expect_crc32 s /\
    slice (cells s') off (Z.of_nat (length (concat pieces))) = concat pieces /\ (0 < off -> slice (cells s') 0 off = slice (cells s) 0 off).
Proof using nor.
  induction pieces as [|p pieces IH]; intros off s Hi Ha Hst Ht Ho Hfit Hp Hsess; cbn [upload].
  { exists s. split; [done|]. split_and!; try done. }
  apply Forall_cons in Hp as [(Hne & Hb & Hl) Hp]. cbn [concat] in *. rewrite length_app in Hfit. pose proof FW_len.
  assert (Hpos : 0 < Z.of_nat (length p)) by (destruct p; [done|cbn; lia]).
  unfold ota_fw_write_chunk. rewrite Ha, bool_decide_false by done. cbn [negb].
  destruct (libota_write_spec (fw_total s) off p s Hi) as (r & s1 & -> & Hi1 & [F1 F2 F3 F4] & Hr); [split; lia|split; lia|done|done|]. cbn [mbind option_bind].
  rewrite decide_True in Hr by (unfold write_accepted; rewrite Hst; split_and!; first [lia | done]). destruct Hr as (-> & He & Hg & Hc). cbn [Z.eqb].
  destruct (IH (off + Z.of_nat (length p)) (s1 <| s_fw_ota_begin_ms := now |>)) as (s2 & -> & Hi2 & Ha2 & Ht2 & Hcr2 & Hsl & Hpre); rsimpl; try done; try lia; try congruence.
  { destruct Hi1. constructor; by rsimpl. } { right. split; [done|congruence]. }
  cbn [mbind option_bind]. exists s2. split; [done|]. split; [done|]. split; [done|]. split; [done|]. split; [rewrite Hcr2; by rsimpl|].
  unfold cells in *. rsimpl. specialize (Hpre ltac:(lia)).
  pose proof (ok_size _ (oi_flash _ Hi)) as Hmem.
  pose proof (oi_fits _ Hi) as Hfits. unfold table_fits in Hfits.
  assert (Hsp : slice (mem (chip (flash s2))) off (Z.of_nat (length p)) = p).
  { transitivity (slice (slice (mem (chip (flash s2))) 0 (off + Z.of_nat (length p))) off (Z.of_nat (length p))); [by rewrite slice_slice by lia|].
    rewrite Hpre, slice_slice, Z.add_0_l, Hc by lia. apply slice_put; [lia|]. rewrite on_length. lia. }
  split.
  - by rewrite length_app, Nat2Z.inj_add, slice_add, Hsp, Hsl by lia.
  - intros Hoff. transitivity (slice (slice (mem (chip (flash s2))) 0 (off + Z.of_nat (length p))) 0 off); [by rewrite slice_slice by lia|].
    rewrite Hpre, slice_slice, Z.add_0_l, Hc by lia. rewrite (proj2 (Z.eqb_neq off 0)) by lia. rewrite !slice_on; try done; try lia.
    intros i x Hin. unfold put. destruct (rd p _) eqn:E; [apply rd_range in E; lia|done].
Qed.

(** The frames of the Ethernet tool never renew the time of the session that
    guards against a reboot. *)
Lemma eth_session_guard_lapses n data s now : ota_inv s -> session_ok s -> is_bytes data -> OTA_FW_SESSION_TIMEOUT_MS < now - s_fw_ota_begin_ms s ->
  exists r eff s', ota_cmd_firmware_data n data s = Some (r, eff, s') /\ (ota_fw_active now s').1 = false.
Proof using nor.
  intros Hi Hs Hd Hn. destruct (firmware_data_safe n data s Hi Hs Hd) as (r & eff & s' & -> & _ & _ & _ & E). exists r, eff, s'. split; [done|].
  unfold ota_fw_active. destruct (negb _); [done|]. by rewrite E, (proj2 (Z.ltb_lt _ _)).
Qed.
End FirmwareProofs.

(** ** The file session *)

(** [content]: the bytes of the open file. *)
Class LfsLaws (L : Type) `{LfsFile L} (content : L -> list Z) := {
  open_empty path l : 0 <= (lfs_file_open path l).1 -> content (lfs_file_open path l).2 = [];
  write_appends data l : (lfs_file_write data l).1 = Z.of_nat (length data) -> content (lfs_file_write data l).2 = content l ++ data;
}.

Section FilesProofs.
Context {L : Type} `{LfsLaws L content}.

Fixpoint wota_writes (datas : list (list Z)) (s : wota L) : list (list Z * Z) * wota L :=
  match datas with
  | [] => ([], s)
  | d :: datas =>
      let '(r, s) := ota_wota_file_write d s in
      let '(rs, s) := wota_writes datas s in
      ((d, r) :: rs, s)
  end.
Definition written (rs : list (list Z * Z)) : list Z := concat (filter (fun x => x.2 = 0) rs).*1.

Lemma wota_writes_spec size crc datas : forall s old, wota_active s = true -> wota_size s = size -> wota_expect_crc32 s = crc -> is_u32 size -> size + 2048 < 2 ^ 32 ->
  wota_written s = Z.of_nat (length old) -> Z.of_nat (length old) <= size -> wota_crc_running s = crc32_feed 0xFFFFFFFF old ->
  Forall (fun d => Z.of_nat (length d) <= 2048) datas ->
  exists rs s', wota_writes datas s = (rs, s') /\ rs.*1 = datas /\ wota_active s' = true /\ wota_size s' = size /\ wota_expect_crc32 s' = crc /\
    wota_written s' = Z.of_nat (length (old ++ written rs)) /\ Z.of_nat (length (old ++ written rs)) <= size /\
    wota_crc_running s' = crc32_feed 0xFFFFFFFF (old ++ written rs) /\
    (content (fs s) = old -> Forall (fun x => x.2 <> -4) rs -> content (fs s') = old ++ written rs).
Proof.
  induction datas as [|d datas IH]; intros s old Ha Hs Hc Hu Hw Hn Hle Hcrc Hd; cbn [wota_writes].
  { exists [], s. rewrite app_nil_r. by split_and!. }
  apply Forall_cons in Hd as [Hd Hds]. unfold ota_wota_file_write. rewrite Ha. cbn [negb].
  assert (Hskip : forall r s1, r <> 0 -> wota_active s1 = true -> wota_size s1 = size -> wota_expect_crc32 s1 = crc -> wota_written s1 = Z.of_nat (length old) ->
    wota_crc_running s1 = crc32_feed 0xFFFFFFFF old -> (r <> -4 -> fs s1 = fs s) ->
    exists rs s', (let '(r, s) := (r, s1) in let '(rs, s) := wota_writes datas s in ((d, r) :: rs, s)) = (rs, s') /\ rs.*1 = d :: datas /\ wota_active s' = true /\ wota_size s' = size /\ wota_expect_crc32 s' = crc /\
    wota_written s' = Z.of_nat (length (old ++ written rs)) /\ Z.of_nat (length (old ++ written rs)) <= size /\
    wota_crc_running s' = crc32_feed 0xFFFFFFFF (old ++ written rs) /\
    (content (fs s) = old -> Forall (fun x => x.2 <> -4) rs -> content (fs s') = old ++ written rs)).
  { intros r s1 Hr H1 H2 H3 H4 H5 H6. destruct (IH s1 old) as (rs & s' & E & E1 & E2 & E3 & E4 & E5 & E6 & E7 & E8); try done.
    exists ((d, r) :: rs), s'. rewrite E. split; [done|]. split; [cbn; by rewrite E1|]. unfold written in *. rewrite filter_cons_False by done.
    split_and!; try done. intros Ho Hf. apply Forall_cons in Hf as [Hf1 Hf]. apply E8; [by rewrite H6|done]. }
  destruct (Z.of_nat (length d) =? 0); [by apply Hskip|]. unfold is_u32 in Hu. rewrite Hn, u32_small, Hs by word_lia.
  destruct (Z.ltb_spec size (Z.of_nat (length old) + Z.of_nat (length d))); [by apply Hskip|].
  pose proof (write_appends d (fs s)) as Hlaw. destruct (lfs_file_write d (fs s)) as [r l]. cbn [fst snd] in *.
  destruct (Z.eqb_spec r (Z.of_nat (length d))) as [->|Hr]; cbn [negb]; [|by apply Hskip].
  destruct (IH (s <| fs := l |> <| wota_crc_running ::= fun c => crc32_feed c d |> <| wota_written ::= fun n => u32 (n + Z.of_nat (length d)) |>) (old ++ d))
    as (rs & s' & E & E1 & E2 & E3 & E4 & E5 & E6 & E7 & E8); rsimpl; try done; try lia.
  { rewrite Hn, u32_small, length_app by word_lia. lia. } { rewrite length_app. lia. } { by rewrite Hcrc, crc32_feed_app. }
  exists ((d, 0) :: rs), s'. rewrite E. split; [done|]. split; [cbn; by rewrite E1|]. unfold written in *. rewrite filter_cons_True by done.
  cbn [fmap list_fmap concat fst]. rewrite app_assoc. split_and!; try done. intros Ho Hf. apply Forall_cons in Hf as [_ Hf].
  apply E8; [|done]. rewrite <-Ho. by apply Hlaw.
Qed.
End FilesProofs.

(** ** Properties *)

(** C23: whatever arrives, an update touches nothing but its partitions.
    After any sequence of Ethernet frames (any bytes) and of requests of the
    web page, for the firmware (any sizes, offsets and texts, also such that
    the 32-bit checks wrap around), for files (any paths and texts) and to
    wipe the file system, nothing has faulted, and every byte of the flash
    outside the firmware partition and the file system's, so all settings, is
    what it was.  littlefs itself is any library that asks the port for
    blocks within the size it was given. *)
Theorem ota_flash_confined {F L} `{NorChip F mem} `{LittlefsLaws L} version es (u : updater F L) :
  updater_inv (mem := mem) u -> Forall ota_event_ok es ->
  exists u', ota_run version es u = Some u' /\
    (forall i, ~ 0 <= Z.of_nat i < part_len FW -> ~ part_offset LFS <= Z.of_nat i < part_offset LFS + part_len LFS ->
       mem (chip (flash (fw u'))) !! i = mem (chip (flash (fw u))) !! i) /\
    (fw_active (fw u') = true -> 0 < fw_total (fw u') <= part_len FW).
Proof.
  intros Hu He. destruct (ota_run_safe version es u Hu He) as (u' & E & [_ Hs'] & Hk). by exists u'.
Qed.

(** C22: an update is what was sent, and its end says so.  After any history,
    ending a session answers 0 exactly if the CRC of the bytes in flash is the
    announced one; and an image uploaded in order in any pieces is accepted
    piece by piece, is then the beginning of the partition whatever was there,
    and is confirmed exactly if its CRC is the announced one. *)
Theorem ota_image_verified {F L} `{NorChip F mem} `{LittlefsLaws L} version es (u : updater F L) now pieces crc :
  updater_inv (mem := mem) u -> Forall ota_event_ok es ->
  let image := concat pieces in
  0 < Z.of_nat (length image) <= part_len FW -> Forall (fun p => p <> [] /\ is_bytes p /\ Z.of_nat (length p) < 2 ^ 16) pieces ->
  exists u1, ota_run version es u = Some u1 /\ let s1 := fw u1 in
    (fw_active s1 = true ->
       fst <$> ota_fw_end s1 = Some (if crc32_fw 0 (slice (mem (chip (flash s1))) 0 (fw_total s1)) =? fw_expect_crc32 s1 then 0 else -4)) /\
    exists s2 s3, ota_fw_begin now (Z.of_nat (length image)) crc s1 = (0, s2) /\
      upload now 0 pieces s2 = Some (replicate (length pieces) 0, s3) /\
      slice (mem (chip (flash s3))) 0 (Z.of_nat (length image)) = image /\
      fst <$> ota_fw_end s3 = Some (if crc32_fw 0 image =? crc then 0 else -4).
Proof.
  intros Hu He image Himg Hp. destruct (ota_run_safe version es u Hu He) as (u1 & E & [Hi1 Hs1] & _).
  exists u1. split; [done|]. cbv zeta. set (s1 := fw u1) in *. clearbody s1. pose proof FW_len. split.
  { intros Ha. destruct (fw_end_exact s1 Hi1 Hs1 Ha) as (s' & -> & _). done. }
  destruct (fw_begin_safe now (Z.of_nat (length image)) crc s1 Hi1 Hs1) as (r & s2 & Eb & Hi2 & Hs2 & _ & Hr0 & Hb); [split; lia|].
  assert (r = 0) as -> by (apply Hr0; lia). destruct (Hb eq_refl) as (Ha2 & Ht2 & Hc2).
  destruct (upload_spec now (Z.of_nat (length image)) pieces 0 s2 Hi2 Ha2 Ht2) as (s3 & Eu & Hi3 & Ha3 & Ht3 & Hc3 & Hsl & _); [lia|lia|unfold image; lia|done|by left|].
  exists s2, s3. split; [done|]. split; [done|]. split; [exact Hsl|].
  assert (Hs3 : session_ok s3) by (intros _; rewrite Ht3; lia).
  destruct (fw_end_exact s3 Hi3 Hs3 Ha3) as (s' & -> & _). unfold cells. rewrite Ht3, Hc3, Hc2. unfold cells in Hsl. fold image in Hsl. by rewrite Hsl.
Qed.

(** A file update is confirmed only for what was announced.  After a begin
    that succeeded, whatever chunks are refused or fail, the end answers 0
    exactly if the accepted bytes have the announced size and CRC, never more
    bytes than announced are accepted, and when littlefs failed no write the
    file holds exactly the accepted bytes. *)
Theorem wota_file_verified {L} `{LfsLaws L content} path size crc datas (s0 s1 : wota L) :
  ota_lfs_file_begin path size crc s0 = (0, s1) -> is_u32 size -> size + 2048 < 2 ^ 32 -> Forall (fun d => Z.of_nat (length d) <= 2048) datas ->
  exists rs s2, wota_writes datas s1 = (rs, s2) /\ rs.*1 = datas /\
    let accepted := written rs in
    Z.of_nat (length accepted) <= size /\
    (ota_wota_file_end s2).1 = (if Z.of_nat (length accepted) =? size then if crc32_fw 0 accepted =? crc then 0 else -3 else -2) /\
    (Forall (fun x => x.2 <> -4) rs -> content (fs s2) = accepted).
Proof.
  intros Hb Hu Hw Hd. unfold ota_lfs_file_begin in Hb. destruct (bool_decide _); [done|]. destruct (size =? 0); [done|]. destruct (_ <=? _); [done|].
  destruct (ensure_parent_dirs _ _) as [r s]. destruct (r <? 0); [done|]. pose proof (open_empty path (fs s)) as Hopen.
  destruct (lfs_file_open path (fs s)) as [r' l]. destruct (Z.ltb_spec r' 0); [done|]. injection Hb as Hs1.
  destruct (wota_writes_spec size crc datas s1 []) as (rs & s2 & E & E1 & E2 & E3 & E4 & E5 & E6 & E7 & E8); subst s1; rsimpl; try done.
  { unfold is_u32 in Hu. cbn. lia. }
  exists rs, s2. split; [done|]. split; [done|]. cbn [app] in *. split; [done|]. split.
  - unfold ota_wota_file_end. rewrite E2. cbn [negb]. rsimpl. rewrite E3, E4, E5, E7. destruct (_ =? size); cbn [negb]; [|done].
    change (Z.lxor (crc32_feed 4294967295 (written rs)) 4294967295) with (crc32_fw 0 (written rs)). by destruct (_ =? crc).
  - apply E8. by apply Hopen.
Qed.

(** ** Witnesses and examples *)

Definition boot_ota : ota (list Z) unit := mk_ota None false 0 false 0 0 0 demo_flash (mk_lfs_port (Some LFS) (block_count LFS) tt).
Definition boot_updater : updater (list Z) unit := mk_updater boot_ota (mk_wota false 0 0 0 0 None).
Lemma boot_updater_inv : updater_inv (mem := fmap u8) boot_updater.
Proof.
  split; [|intros Ha; discriminate Ha]. constructor; cbn; [apply demo_flash_ok| |by left|done|done]. vm_compute. discriminate.
Qed.

(** A frame of the vendor's tool: four bytes of an image of eight. *)
Definition demo_fw_frame (off : Z) (payload : list Z) : list Z :=
  eth_ota_hdr [2; 0; 0; 0; 0; 1] [2; 0; 0; 0; 0; 2] ETH_P_OTA_FW_DATA 0 ++ replicate 4 0 ++ [0; 0; 0; off] ++ [0; 0; 0; 8] ++ [0; 4] ++ [0; 0] ++ [0; 0] ++ payload ++ [0; 0].
Definition demo_nif : nif := mk_nif [2; 0; 0; 0; 0; 1] 0 0 0 true (Some 0).
Definition demo_ota_events : list ota_event :=
  [Frame (Some demo_nif) (demo_fw_frame 0 [1; 2; 3; 4]); FwActive 700000; FwBegin 0 (Some 4294967295) (Some 0); FwBegin 0 (Some 3) (Some 0);
   FwChunk 1 (Some 4294967295) (Some [84; 87; 69; 61]) (Some (replicate 6 0)); FwChunk 2 (Some 0) (Some [84; 87; 69; 61]) (Some (replicate 6 0)); FwEnd;
   WipeLfs; FileBegin (Some [47; 119; 47; 97]) (Some 2) (Some 0); FileChunk (Some [84; 87; 69; 61]) (Some (replicate 6 0)); FileEnd].

Lemma demo_ota_events_ok : Forall ota_event_ok demo_ota_events.
Proof.
  assert (Hsmall : forall l, forallb (fun x => (0 <=? x) && (x <? 256)) l = true -> is_bytes l).
  { intros l Hl. apply Forall_forall. intros x Hx. rewrite forallb_forall in Hl. apply list_elem_of_In in Hx. specialize (Hl x Hx). bools_to_props. split; lia. }
  assert (Hu32 : forall x z, (0 <=? x) && (x <? 2 ^ 32) = true -> Some x = Some z -> is_u32 z) by (intros x z Hx [= <-]; bools_to_props; split; lia).
  assert (Htmp : forall text buf, forallb (fun x => (0 <=? x) && (x <? 256)) buf = true -> Z.of_nat (length buf) = tmp_cap (Z.of_nat (length text)) ->
    tmp_ok (Some text) (Some buf)) by (intros text buf Hb Hl ? ? [= <-] [= <-]; split; [by apply Hsmall|done]).
  assert (Hpath : forall l p, forallb (fun x => (0 <=? x) && (x <? 256)) l = true -> Some l = Some p -> is_bytes p) by (intros l p Hl [= <-]; by apply Hsmall).
  unfold demo_ota_events. rewrite !Forall_cons.
  split; [by apply Hsmall|]. split; [done|]. split; [intros z; by apply Hu32|]. split; [intros z; by apply Hu32|].
  split; [split; [intros z; by apply Hu32|by apply Htmp]|]. split; [split; [intros z; by apply Hu32|by apply Htmp]|]. split; [done|].
  split; [done|]. split; [intros p; by apply Hpath|]. split; [by apply Htmp|]. split; [done|constructor].
Qed.

Lemma ota_flash_confined_witness :
  exists u', ota_run [] demo_ota_events boot_updater = Some u' /\ (fw_active (fw u') = true -> 0 < fw_total (fw u') <= part_len FW).
Proof.
  destruct (ota_flash_confined (mem := fmap u8) [] demo_ota_events boot_updater) as (u' & E & _ & Hs).
  - apply boot_updater_inv.
  - apply demo_ota_events_ok.
  - exists u'. split; [exact E|exact Hs].
Defined.

Lemma ota_image_verified_witness :
  exists u1 s2 s3, ota_run [] demo_ota_events boot_updater = Some u1 /\
    ota_fw_begin 5 9 0xCBF43926 (fw u1) = (0, s2) /\ upload 5 0 [[49; 50; 51]; [52; 53; 54; 55]; [56; 57]] s2 = Some ([0; 0; 0], s3) /\
    fst <$> ota_fw_end s3 = Some 0.
Proof.
  destruct (ota_image_verified (mem := fmap u8) [] demo_ota_events boot_updater 5 [[49; 50; 51]; [52; 53; 54; 55]; [56; 57]] 0xCBF43926)
    as (u1 & E & _ & s2 & s3 & Hb & Hu & _ & He).
  - apply boot_updater_inv.
  - apply demo_ota_events_ok.
  - cbn. lia.
  - unfold is_bytes, is_u8. repeat (constructor; [split; [discriminate|split; [repeat (constructor; [lia|]); constructor|reflexivity]]|]). constructor.
  - exists u1, s2, s3. split; [exact E|]. split; [exact Hb|]. split; [exact Hu|exact He].
Defined.

(** A file system that is one file; writes of more than 100 bytes fail. *)
#[export] Instance demo_lfs : LfsFile (list Z) := {|
  lfs_mkdir _ l := (0, l);
  lfs_file_open _ _ := (0, []);
  lfs_file_write d l := if Z.of_nat (length d) <=? 100 then (Z.of_nat (length d), l ++ d) else (-28, l);
  lfs_file_close l := (0, l);
|}.
#[export] Instance demo_lfs_laws : LfsLaws (list Z) id.
Proof.
  constructor; [done|]. intros d l. cbn. destruct (_ <=? 100); [done|]. cbn. intros E. lia.
Qed.
Definition demo_wota : wota (list Z) := mk_wota false 0 0 0 0 [].

Lemma wota_file_verified_witness :
  exists s1 rs s2, ota_lfs_file_begin [47; 119; 47; 97] 9 0xCBF43926 demo_wota = (0, s1) /\
    wota_writes [[49; 50; 51; 52; 53]; replicate 7 0; [54; 55; 56; 57]] s1 = (rs, s2) /\
    (ota_wota_file_end s2).1 = (if Z.of_nat (length (written rs)) =? 9 then if crc32_fw 0 (written rs) =? 0xCBF43926 then 0 else -3 else -2).
Proof.
  destruct (wota_file_verified (content := id) [47; 119; 47; 97] 9 0xCBF43926 [[49; 50; 51; 52; 53]; replicate 7 0; [54; 55; 56; 57]]
    demo_wota (ota_lfs_file_begin [47; 119; 47; 97] 9 0xCBF43926 demo_wota).2) as (rs & s2 & E & _ & _ & He & _).
  - reflexivity.
  - split; [discriminate|reflexivity].
  - reflexivity.
  - repeat (constructor; [vm_compute; discriminate|]). constructor.
  - eexists _, rs, s2. split; [reflexivity|]. split; [exact E|exact He].
Defined.

(** The scan report repeats the header in front of itself: the version is at
    byte 32 of the frame, not at byte 16 where [eth_ota_scan_report] has it. *)
Example scan_report_header_twice :
  match ota_cmd_scan (Some demo_nif) (demo_fw_frame 0 []) with
  | Some (0, [Sent frame]) => length frame = 48%nat /\ take 4 (drop 16 frame) = [0; 0; 0; 0] /\ take 4 (drop 32 frame) = [0; 255; 0; 255]
  | _ => False
  end.
Proof. vm_compute. done. Qed.
