(* ===== verification/UartSlip.v ===== *)
(** * SLIP over the UART: [src/uart_slip.c] and [driver/uart/hguart.c]

    The receive interrupt stores bytes in a ring, a task hands them to lwIP's
    SLIP interface (the class [SlipNetif]); settings are applied in the tcpip
    thread.  Of the UART the model keeps whether it is open and whether the
    receive interrupt is enabled. *)

From S2P Require Import Prelude ConfigDb Lwrb Net.
From stdpp Require Import strings relations.

#[local] Open Scope Z_scope.

Definition UART_SLIP_RB_SIZE : Z := 2048.
Definition UART_SLIP_CONFIG_BAUD_DEF : Z := 2000000.

Record uart_slip_config := mk_slip_cfg { enabled : bool; baud : Z; slip_ip : Z; slip_mask : Z; slip_gw : Z }.

(** lwIP's view of the SLIP interface. *)
Class SlipNetif (N : Type) := {
  sn_zero : N;
  sn_add : Z -> Z -> Z -> N -> bool * N;
  sn_set_addr : Z -> Z -> Z -> N -> N;
  sn_set_up : N -> N;
  sn_set_down : N -> N;
  sn_set_link_up : N -> N;
  sn_set_link_down : N -> N;
  sn_remove : N -> N;
  slipif_rxbyte_input : Z -> N -> N;
}.

(** ** The UART driver *)

Record hguart := mk_uart { opened : bool; rx_data_avail_en : bool }.

(** [sem_ok]: the two semaphores could be made. *)
Definition hguart_open (sem_ok : bool) (u : hguart) : Z * hguart :=
  if opened u then (0, u) else if negb sem_ok then (-1, u) else (0, mk_uart true (rx_data_avail_en u)).
Definition hguart_close (u : hguart) : hguart := if negb (opened u) then u else mk_uart false false.
Definition hguart_request_irq (u : hguart) : hguart := mk_uart (opened u) true.
(** The driver has no [release_irq] operation. *)
Definition uart_release_irq (u : hguart) : hguart := u.

Section Slip.
Context {N : Type} `{SlipNetif N} {D : Type} `{Kvdb D}.

Record slip := mk_slip {
  g_uart_slip_config : uart_slip_config;
  slip_rb : list Z;
  slip_rb_head : Z;
  slip_rb_tail : Z;
  slip_rb_overflow : Z;
  slip_started : bool;
  slip_task_created : bool;
  slip_netif_added : bool;
  slip_netif : N;
  g_slip_uart : hguart;
  slip_mailbox : list uart_slip_config;      (* callbacks posted to the tcpip thread *)
  slip_db : D;
}.
#[export] Instance eta_slip : Eta slip := fun s =>
  mk_slip (g_uart_slip_config s) (slip_rb s) (slip_rb_head s) (slip_rb_tail s) (slip_rb_overflow s) (slip_started s)
    (slip_task_created s) (slip_netif_added s) (slip_netif s) (g_slip_uart s) (slip_mailbox s) (slip_db s).

(** ** Settings *)

Definition uart_slip_config_is_valid (c : uart_slip_config) : bool :=
  if baud c =? 0 then false
  else
    let m := lwip_htonl (slip_mask c) in
    if m =? 0 then false
    else
      let inv := u32 (Z.lnot m) in
      Z.land inv (u32 (inv + 1)) =? 0.

Definition uart_slip_config_set_default : uart_slip_config :=
  mk_slip_cfg true UART_SLIP_CONFIG_BAUD_DEF (lwip_htonl (LWIP_MAKEU32 192 168 7 2)) (lwip_htonl (LWIP_MAKEU32 255 255 255 255))
    (lwip_htonl (LWIP_MAKEU32 192 168 7 1)).

Definition uart_slip_config_load (d : D) : uart_slip_config :=
  let c := uart_slip_config_set_default in
  let enable := get_i32_or "cfg.slip.enable" (if enabled c then 1 else 0) d in
  let b := get_i32_or "cfg.slip.baud" (i32 (baud c)) d in
  mk_slip_cfg (negb (enable =? 0)) (u32 b) (u32 (get_i32_or "cfg.slip.ip" (i32 (slip_ip c)) d))
    (u32 (get_i32_or "cfg.slip.mask" (i32 (slip_mask c)) d)) (u32 (get_i32_or "cfg.slip.gw" (i32 (slip_gw c)) d)).

Definition uart_slip_config_save (c : uart_slip_config) (d : D) : D :=
  if negb (uart_slip_config_is_valid c) then d
  else
    let d := (configdb_set_i32 "cfg.slip.enable" (Some (if enabled c then 1 else 0)) d).2 in
    let d := (configdb_set_i32 "cfg.slip.baud" (Some (i32 (baud c))) d).2 in
    let d := (configdb_set_i32 "cfg.slip.ip" (Some (i32 (slip_ip c))) d).2 in
    let d := (configdb_set_i32 "cfg.slip.mask" (Some (i32 (slip_mask c))) d).2 in
    (configdb_set_i32 "cfg.slip.gw" (Some (i32 (slip_gw c))) d).2.

(** ** The receive ring *)

Definition slip_rb_next (v : Z) : Z := let v := u32 (v + 1) in if UART_SLIP_RB_SIZE <=? v then 0 else v.
Definition slip_rb_reset (s : slip) : slip := s <| slip_rb_head := 0 |> <| slip_rb_tail := 0 |> <| slip_rb_overflow := 0 |>.
Definition slip_rb_is_empty (s : slip) : bool := slip_rb_head s =? slip_rb_tail s.

Definition slip_rb_put (byte : Z) (s : slip) : option (bool * slip) :=
  let head := slip_rb_head s in
  let next := slip_rb_next head in
  if next =? slip_rb_tail s then Some (false, s <| slip_rb_overflow ::= fun n => u32 (n + 1) |>)
  else
    rb ← wr (slip_rb s) head byte;
    Some (true, s <| slip_rb := rb |> <| slip_rb_head := next |>).

Definition slip_rb_get (s : slip) : option (option Z * slip) :=
  let tail := slip_rb_tail s in
  if tail =? slip_rb_head s then Some (None, s)
  else
    byte ← rd (slip_rb s) tail;
    Some (Some byte, s <| slip_rb_tail := slip_rb_next tail |>).

(** [ready]: the bytes [UART_IOCTL_CMD_DATA_RDY] and [uart_getc] give. *)
Fixpoint put_all (bytes : list Z) (s : slip) : option slip :=
  match bytes with
  | [] => Some s
  | b :: bytes => '(_, s) ← slip_rb_put b s; put_all bytes s
  end.
Definition uart_slip_irq (param1 : Z) (ready : list Z) (s : slip) : option slip := put_all (u8 param1 :: ready) s.

(** ** Start, stop, apply *)

Definition uart_slip_uart_stop (s : slip) : slip := s <| g_slip_uart ::= fun u => hguart_close (uart_release_irq u) |>.
Definition uart_slip_uart_start (sem_ok : bool) (s : slip) : Z * slip :=
  let '(rc, u) := hguart_open sem_ok (hguart_close (uart_release_irq (g_slip_uart s))) in
  (rc, s <| g_slip_uart := u |>).
Definition sio_open (s : slip) : slip := s <| g_slip_uart ::= fun u => hguart_request_irq (uart_release_irq u) |>.

Definition uart_slip_config_apply_cb (sem_ok : bool) (c : uart_slip_config) (s : slip) : slip :=
  if negb (slip_netif_added s) then s
  else
    let s := slip_rb_reset (uart_slip_uart_stop (s <| slip_started := false |>)) in
    let s := s <| g_uart_slip_config := c |> in
    let s := s <| slip_netif ::= sn_set_addr (slip_ip c) (slip_mask c) (slip_gw c) |> in
    if enabled c then
      let '(rc, s) := uart_slip_uart_start sem_ok s in
      if rc =? 0 then s <| slip_netif ::= fun n => sn_set_link_up (sn_set_up n) |> <| slip_started := true |>
      else s <| slip_netif ::= fun n => sn_set_down (sn_set_link_down n) |>
    else s <| slip_netif ::= fun n => sn_set_down (sn_set_link_down n) |>.

Definition uart_slip_config_apply (malloc_ok post_ok : bool) (c : uart_slip_config) (s : slip) : slip :=
  if negb (uart_slip_config_is_valid c) then s
  else if negb malloc_ok then s
  else if post_ok then s <| slip_mailbox ::= fun q => q ++ [c] |> else s.

Definition uart_slip_deinit (s : slip) : slip :=
  let s := uart_slip_uart_stop s <| slip_started := false |> in
  let s := if slip_netif_added s then s <| slip_netif ::= fun n => sn_remove (sn_set_down (sn_set_link_down n)) |> <| slip_netif_added := false |> else s in
  slip_rb_reset (s <| slip_netif := sn_zero |>).

(** [netif_add] runs [slipif_init], which calls [sio_open]. *)
Definition uart_slip_init_common (sem_ok : bool) (c : uart_slip_config) (s : slip) : slip :=
  let s := if slip_started s || slip_netif_added s then uart_slip_deinit s else s in
  let s := slip_rb_reset (s <| g_uart_slip_config := c |>) in
  let '(rc, s) := if enabled c then uart_slip_uart_start sem_ok s else (0, s) in
  if negb (rc =? 0) then s
  else
    let '(ok, n) := sn_add (slip_ip c) (slip_mask c) (slip_gw c) sn_zero in
    let s := s <| slip_netif := n |> in
    if negb ok then uart_slip_uart_stop s
    else
      let s := sio_open s <| slip_netif_added := true |> in
      let s := if enabled c then s <| slip_netif ::= fun n => sn_set_link_up (sn_set_up n) |> <| slip_started := true |>
               else s <| slip_netif ::= fun n => sn_set_down (sn_set_link_down n) |> <| slip_started := false |> in
      s <| slip_task_created := true |>.

Definition uart_slip_early_init (sem_ok : bool) (s : slip) : slip :=
  let c := uart_slip_config_set_default in
  if negb (uart_slip_config_is_valid c) then s else uart_slip_init_common sem_ok c s.

Definition uart_slip_init (sem_ok : bool) (s : slip) : slip :=
  let c := uart_slip_config_load (slip_db s) in
  let c := if negb (uart_slip_config_is_valid c) then uart_slip_config_set_default else c in
  let s := s <| g_uart_slip_config := c |> <| slip_db ::= uart_slip_config_save c |> in
  uart_slip_init_common sem_ok c s.

(** The tcpip thread takes the next callback. *)
Definition slip_tcpip_step (sem_ok : bool) (s : slip) : slip :=
  match slip_mailbox s with
  | [] => s
  | c :: q => uart_slip_config_apply_cb sem_ok c (s <| slip_mailbox := q |>)
  end.

(** ** Interrupt, task and settings, interleaved

    The interrupt stores byte by byte ([uart_slip_irq] is a sequence of
    [slip_rb_put]).  Its bytes, and the tcpip thread's callback, can come
    between any two accesses of the task: the load of the tail, the comparison
    with the head, the load of the byte, the store of the new tail, the call of
    lwIP.  The tcpip thread has the higher priority ([TCPIP_THREAD_PRIO]) and
    closes the UART before it resets the ring, so its callback is one step.
    [accepted], [delivered] and [refused] are what happened since the ring was
    last emptied; [torn]: this was in the middle of the task's
    [slip_rb_get]. *)

Inductive slip_pc := At_start | Read_tail (tail : Z) | Got_tail (tail : Z) | Got_byte (tail byte : Z) | To_lwip (byte : Z).

#[export] Instance slip_pc_eq_dec : EqDecision slip_pc.
Proof. solve_decision. Defined.

Record machine := mk_machine { sl : slip; pc : slip_pc; accepted : list Z; delivered : list Z; refused : Z; torn : bool }.

Inductive slip_step : machine -> machine -> Prop :=
  | step_put b s s' ok pc acc del ref tn :
      slip_rb_put b s = Some (ok, s') ->
      slip_step (mk_machine s pc acc del ref tn)
        (mk_machine s' pc (if ok then acc ++ [b] else acc) del (if ok then ref else ref + 1) tn)
  | step_read_tail s acc del ref tn :
      slip_started s = true ->
      slip_step (mk_machine s At_start acc del ref tn) (mk_machine s (Read_tail (slip_rb_tail s)) acc del ref tn)
  | step_empty s t acc del ref tn :
      t = slip_rb_head s ->
      slip_step (mk_machine s (Read_tail t) acc del ref tn) (mk_machine s At_start acc del ref tn)
  | step_compare s t acc del ref tn :
      t <> slip_rb_head s ->
      slip_step (mk_machine s (Read_tail t) acc del ref tn) (mk_machine s (Got_tail t) acc del ref tn)
  | step_load s t b acc del ref tn :
      rd (slip_rb s) t = Some b ->
      slip_step (mk_machine s (Got_tail t) acc del ref tn) (mk_machine s (Got_byte t b) acc del ref tn)
  | step_commit s t b acc del ref tn :
      slip_step (mk_machine s (Got_byte t b) acc del ref tn)
        (mk_machine (s <| slip_rb_tail := slip_rb_next t |>) (To_lwip b) acc del ref tn)
  | step_input s b acc del ref tn :
      slip_step (mk_machine s (To_lwip b) acc del ref tn)
        (mk_machine (s <| slip_netif ::= slipif_rxbyte_input b |>) At_start acc (del ++ [b]) ref tn)
  | step_post malloc_ok post_ok c s p acc del ref tn :
      slip_step (mk_machine s p acc del ref tn) (mk_machine (uart_slip_config_apply malloc_ok post_ok c s) p acc del ref tn)
  | step_apply sem_ok s p acc del ref tn :
      slip_step (mk_machine s p acc del ref tn)
        (if slip_netif_added s && negb (bool_decide (slip_mailbox s = []))
         then mk_machine (slip_tcpip_step sem_ok s) p [] [] 0 (negb (bool_decide (p = At_start)))
         else mk_machine (slip_tcpip_step sem_ok s) p acc del ref tn).
End Slip.

Arguments slip N D : clear implicits.
Arguments machine N D : clear implicits.

(** ** Proofs: the ring *)

Section Ring.
Context {N : Type} `{SlipNetif N} {D : Type} `{Kvdb D}.
#[local] Abbreviation slip := (slip N D).
#[local] Abbreviation machine := (machine N D).

(** It is a ring of [Lwrb]. *)
Definition as_ring (s : slip) : lwrb := mk_lwrb (slip_rb s) (slip_rb_head s) (slip_rb_tail s).
Definition slip_ok (s : slip) : Prop := ring_ok (as_ring s) /\ length (slip_rb s) = 2048%nat.
Definition queued (s : slip) : list Z := rb_list (as_ring s).

Lemma queued_length s : slip_ok s -> Z.of_nat (length (queued s)) = 2047 - lwrb_get_free (as_ring s) /\ 0 <= lwrb_get_free (as_ring s).
Proof using.
  intros [Hr Hl]. unfold queued. rewrite rb_list_length by done. rewrite get_free_full. unfold rb_size, as_ring at 2 4. cbn [rb_buff]. rewrite Hl.
  destruct Hr as [Hr Hw]. unfold lwrb_get_full, rb_size, as_ring in *. cbn [rb_buff rb_w rb_r] in *. rewrite Hl in *. z_case; lia.
Qed.

Lemma next_eq (v : Z) : 0 <= v < 2048 -> slip_rb_next v = if 2048 <=? v + 1 then 0 else v + 1.
Proof using. intros Hv. unfold slip_rb_next, UART_SLIP_RB_SIZE. by rewrite u32_small by word_lia. Qed.

Lemma put_spec b (s : slip) : slip_ok s ->
  exists ok s', slip_rb_put b s = Some (ok, s') /\ slip_ok s' /\ slip_rb_tail s' = slip_rb_tail s /\ slip_started s' = slip_started s /\
    slip_netif_added s' = slip_netif_added s /\ slip_mailbox s' = slip_mailbox s /\
    if ok then queued s' = queued s ++ [b] /\ slip_rb_overflow s' = slip_rb_overflow s
    else length (queued s) = 2047%nat /\ queued s' = queued s /\ slip_rb_overflow s' = u32 (slip_rb_overflow s + 1).
Proof using.
  intros Hs. pose proof (queued_length s Hs) as Hq. destruct Hs as [Hr Hl]. pose proof Hr as [Hr1 Hr2]. unfold as_ring, rb_size in Hr1, Hr2. cbn [rb_buff rb_w rb_r] in Hr1, Hr2. rewrite Hl in Hr1, Hr2.
  unfold slip_rb_put. rewrite next_eq by lia.
  assert (Hfull : ((if 2048 <=? slip_rb_head s + 1 then 0 else slip_rb_head s + 1) =? slip_rb_tail s) = (lwrb_get_free (as_ring s) =? 0)).
  { unfold lwrb_get_free, as_ring, rb_size. cbn [rb_buff rb_w rb_r]. rewrite Hl. repeat z_case; try done; lia. }
  rewrite Hfull. destruct (Z.eqb_spec (lwrb_get_free (as_ring s)) 0) as [Hz|Hz].
  - eexists false, _. split; [done|]. rsimpl. split; [by split|]. do 4 (split; [done|]). split; [lia|]. by rsimpl.
  - destruct (write1_spec (as_ring s) b Hr Hz) as (r' & Hw & Hok & Hsz & Hlist). unfold lwrb_write1 in Hw. rewrite (proj2 (Z.eqb_neq _ _) Hz) in Hw.
    cbv iota in Hw. change (wr (rb_buff (as_ring s)) (rb_w (as_ring s)) b) with (wr (slip_rb s) (slip_rb_head s) b) in Hw. destruct (wr (slip_rb s) (slip_rb_head s) b) as [d|] eqn:Ed; [|done]. cbn [mbind option_bind] in *.
    injection Hw as <-. eexists true, _. split; [done|]. pose proof (wr_length _ _ _ _ Ed) as Hd.
    assert (Ering : as_ring (s <| slip_rb := d |> <| slip_rb_head := if 2048 <=? slip_rb_head s + 1 then 0 else slip_rb_head s + 1 |>) =
      as_ring s <| rb_buff := d |> <| rb_w ::= fun w => if rb_size (as_ring s) <=? w + 1 then 0 else w + 1 |>).
    { unfold as_ring, rb_size. rsimpl. cbn [rb_buff rb_w rb_r]. by rewrite Hl. }
    unfold slip_ok, queued. rewrite Ering. rsimpl. split; [split; [done|congruence]|]. done.
Qed.

Lemma list_head (b : lwrb) v q : ring_ok b -> rb_list b = v :: q -> rd (rb_buff b) (rb_r b) = Some v.
Proof using.
  intros Hb E. destruct (ring_cut b Hb) as [(P & T & Eb & Er & _)|(Q & G & R & Eb & El & _ & Er & _ & HR)].
  - rewrite Eb, E, Er. unfold rd. rewrite decide_True by lia. rewrite Nat2Z.id, lookup_app_r, Nat.sub_diag by lia. done.
  - rewrite Eb, Er. unfold rd. rewrite decide_True by lia. rewrite Nat2Z.id, app_assoc, lookup_app_r by (rewrite length_app; lia).
    rewrite length_app, Nat.sub_diag. destruct R as [|r R]; [done|]. rewrite El in E. injection E as -> _. done.
Qed.

Lemma get_spec (s : slip) : slip_ok s ->
  slip_rb_get s = Some (match queued s with [] => (None, s) | b :: _ => (Some b, s <| slip_rb_tail := slip_rb_next (slip_rb_tail s) |>) end) /\
  (slip_rb_tail s = slip_rb_head s <-> queued s = []).
Proof using.
  intros Hs. pose proof (queued_length s Hs) as Hq. destruct Hs as [Hr Hl]. pose proof Hr as [Hr1 Hr2]. unfold as_ring, rb_size in Hr1, Hr2. cbn [rb_buff rb_w rb_r] in Hr1, Hr2. rewrite Hl in Hr1, Hr2.
  assert (Hemp : slip_rb_tail s = slip_rb_head s <-> queued s = []).
  { split; intros E.
    - assert (length (queued s) = 0%nat); [|by destruct (queued s)]. unfold lwrb_get_free, as_ring, rb_size in Hq. cbn [rb_buff rb_w rb_r] in Hq. rewrite Hl in Hq.
      rewrite E, (proj2 (Z.leb_le _ _)) in Hq by lia. lia.
    - rewrite E in Hq. cbn in Hq. unfold lwrb_get_free, as_ring, rb_size in Hq. cbn [rb_buff rb_w rb_r] in Hq. rewrite Hl in Hq. revert Hq. z_case; lia. }
  split; [|done]. unfold slip_rb_get. destruct (Z.eqb_spec (slip_rb_tail s) (slip_rb_head s)) as [E|E].
  - by rewrite (proj1 Hemp E).
  - destruct (queued s) as [|b q] eqn:Eq; [by destruct E; apply Hemp|]. pose proof (list_head _ _ _ Hr Eq) as Hh. unfold as_ring in Hh. cbn [rb_buff rb_r] in Hh.
    by rewrite Hh.
Qed.

(** Advancing the tail takes the oldest byte off. *)
Lemma advance_spec (s : slip) : slip_ok s -> queued s <> [] ->
  slip_ok (s <| slip_rb_tail := slip_rb_next (slip_rb_tail s) |>) /\ queued (s <| slip_rb_tail := slip_rb_next (slip_rb_tail s) |>) = tail (queued s).
Proof using.
  intros Hs Hne. pose proof (queued_length s Hs) as Hq. destruct Hs as [Hr Hl]. pose proof Hr as [Hr1 Hr2]. unfold as_ring, rb_size in Hr1, Hr2. cbn [rb_buff rb_w rb_r] in Hr1, Hr2. rewrite Hl in Hr1, Hr2.
  assert (Hf : lwrb_get_full (as_ring s) <> 0). { rewrite <-rb_list_length by done. fold (queued s). destruct (queued s); [done|cbn; lia]. }
  destruct (read1_spec (as_ring s) Hr Hf) as (Hok & Hsz & Hlist). unfold lwrb_read1 in *. rewrite (proj2 (Z.eqb_neq _ _) Hf) in *.
  assert (Ering : as_ring (s <| slip_rb_tail := slip_rb_next (slip_rb_tail s) |>) =
    as_ring s <| rb_r ::= fun r => if rb_size (as_ring s) <=? r + 1 then 0 else r + 1 |>).
  { rewrite next_eq by lia. unfold as_ring, rb_size. rsimpl. cbn [rb_buff rb_w rb_r]. by rewrite Hl. }
  unfold slip_ok, queued. rewrite Ering. by rsimpl.
Qed.

(** ** The interleaved machine *)

(** The tail the task has read is an index of the buffer; in a history that is
    not torn it is still the tail, and the byte in hand the oldest. *)
Definition tail_read (p : slip_pc) : option Z :=
  match p with At_start | To_lwip _ => None | Read_tail t | Got_tail t | Got_byte t _ => Some t end.
Definition in_hand (m : machine) : Prop :=
  match pc m with
  | At_start | To_lwip _ => True
  | Read_tail t => t = slip_rb_tail (sl m)
  | Got_tail t => t = slip_rb_tail (sl m) /\ queued (sl m) <> []
  | Got_byte t b => t = slip_rb_tail (sl m) /\ head (queued (sl m)) = Some b
  end.
Definition in_flight (p : slip_pc) : list Z := match p with To_lwip b => [b] | _ => [] end.
Record fifo_ok (m : machine) : Prop := {
  ff_hand : in_hand m;
  ff_fifo : accepted m = delivered m ++ in_flight (pc m) ++ queued (sl m);
}.
Record machine_ok (m : machine) : Prop := {
  mo_slip : slip_ok (sl m);
  mo_tail t : tail_read (pc m) = Some t -> 0 <= t < 2048;
  mo_over : slip_rb_overflow (sl m) = u32 (refused m) /\ 0 <= refused m;
  mo_fifo : torn m = false -> fifo_ok m;
}.

Lemma reset_queued (s : slip) : length (slip_rb s) = 2048%nat -> slip_ok (slip_rb_reset s) /\ queued (slip_rb_reset s) = [].
Proof using.
  intros Hl. unfold slip_ok, queued, as_ring, slip_rb_reset, ring_ok, rb_size, rb_list. rsimpl. cbn [rb_buff rb_w rb_r]. rewrite Hl.
  split; [split; [lia|done]|]. by rewrite take_0.
Qed.

Lemma apply_cb_resets sem_ok c (s : slip) : slip_ok s ->
  if slip_netif_added s then slip_ok (uart_slip_config_apply_cb sem_ok c s) /\ queued (uart_slip_config_apply_cb sem_ok c s) = [] /\
    slip_rb_overflow (uart_slip_config_apply_cb sem_ok c s) = 0
  else uart_slip_config_apply_cb sem_ok c s = s.
Proof using.
  intros [_ Hl]. unfold uart_slip_config_apply_cb, uart_slip_uart_start, uart_slip_uart_stop. destruct (slip_netif_added s); cbn [negb]; [|done].
  destruct (reset_queued s Hl) as [Hok Hq].
  assert (Hgo : forall s', slip_rb s' = slip_rb s -> slip_rb_head s' = 0 -> slip_rb_tail s' = 0 -> slip_rb_overflow s' = 0 ->
    slip_ok s' /\ queued s' = [] /\ slip_rb_overflow s' = 0).
  { intros s' E1 E2 E3 E4. unfold slip_ok, queued in *. assert (E : as_ring s' = as_ring (slip_rb_reset s)); [|by rewrite E, E1].
    unfold as_ring, slip_rb_reset. rsimpl. by rewrite E1, E2, E3. }
  destruct (enabled c); [destruct (hguart_open _ _) as [rc u]; destruct (rc =? 0)|]; apply Hgo; unfold slip_rb_reset; by rsimpl.
Qed.

Lemma tail_range (s : slip) : slip_ok s -> 0 <= slip_rb_tail s < 2048 /\ 0 <= slip_rb_head s < 2048.
Proof using. intros [[Hr Hw] Hl]. unfold as_ring, rb_size in *. cbn [rb_buff rb_w rb_r] in *. rewrite Hl in *. lia. Qed.
Lemma tail_rd (s : slip) t : slip_ok s -> 0 <= t < 2048 -> is_Some (rd (slip_rb s) t).
Proof using. intros [_ Hl] Ht. destruct (rd_in_bounds (slip_rb s) t) as (x & -> & _); [by rewrite Hl|done]. Qed.
Lemma next_range t : 0 <= t < 2048 -> 0 <= slip_rb_next t < 2048.
Proof using. intros Ht. rewrite next_eq by done. z_case; lia. Qed.

(** Nothing but the ring's fields matters to the ring. *)
Definition same_ring (s s' : slip) : Prop :=
  slip_rb s' = slip_rb s /\ slip_rb_head s' = slip_rb_head s /\ slip_rb_tail s' = slip_rb_tail s /\ slip_rb_overflow s' = slip_rb_overflow s.
Lemma same_ring_ok s s' p p' acc del del' ref tn : same_ring s s' -> tail_read p' = tail_read p -> (tn = false -> del' ++ in_flight p' = del ++ in_flight p) ->
  (in_hand (mk_machine s p acc del ref tn) -> in_hand (mk_machine s p' acc del' ref tn)) ->
  machine_ok (mk_machine s p acc del ref tn) -> machine_ok (mk_machine s' p' acc del' ref tn).
Proof using.
  intros (E1 & E2 & E3 & E4) Ep Ed Hh [H1 H2 H3 H4]. assert (Er : as_ring s' = as_ring s) by (unfold as_ring; by rewrite E1, E2, E3).
  constructor; cbn [sl pc accepted delivered refused torn] in *.
  - unfold slip_ok in *. by rewrite Er, E1.
  - by rewrite Ep.
  - by rewrite E4.
  - intros Ht. destruct (H4 Ht) as [F1 F2]. cbn [sl pc accepted delivered refused torn] in *. constructor; cbn [sl pc accepted delivered refused torn].
    + specialize (Hh F1). unfold in_hand in *. cbn [sl pc] in *. unfold queued. rewrite Er, E3. exact Hh.
    + unfold queued. rewrite Er, F2. rewrite !app_assoc. by rewrite Ed.
Qed.

Lemma put_ok b s ok s' p acc del ref tn : machine_ok (mk_machine s p acc del ref tn) -> slip_rb_put b s = Some (ok, s') ->
  machine_ok (mk_machine s' p (if ok then acc ++ [b] else acc) del (if ok then ref else ref + 1) tn).
Proof using.
  intros [Hs Ht [Ho Hr] Hf] Hput. cbn [sl pc accepted delivered refused torn] in *.
  destruct (put_spec b s Hs) as (ok' & s2 & E & Hs2 & Htl & _ & _ & _ & Hb). rewrite E in Hput. injection Hput as -> ->.
  assert (Hh' : forall acc' ref' q, queued s' = queued s ++ q -> tn = false -> in_hand (mk_machine s' p acc' del ref' tn)).
  { intros acc' ref' q Eq Hn. destruct (Hf Hn) as [Hh _]. unfold in_hand in *. cbn [sl pc] in *. destruct p as [|t|t|t c|c]; [done| | | |done].
    - by rewrite Htl.
    - destruct Hh as [-> Hne]. split; [done|]. rewrite Eq. by destruct (queued s).
    - destruct Hh as [-> Hd]. split; [done|]. rewrite Eq. by destruct (queued s). }
  destruct ok.
  - destruct Hb as [Hq Ho']. constructor; cbn [sl pc accepted delivered refused torn]; [done|done|by rewrite Ho'|]. intros Hn. constructor; [by eapply Hh'|].
    cbn [sl pc accepted delivered refused torn]. destruct (Hf Hn) as [_ F]. cbn [sl pc accepted delivered] in F. by rewrite F, Hq, !app_assoc.
  - destruct Hb as (_ & Hq & Ho'). constructor; cbn [sl pc accepted delivered refused torn]; [done|done| |].
    + rewrite Ho', Ho. split; [word_lia|lia].
    + intros Hn. constructor; [apply (Hh' _ _ []); [by rewrite app_nil_r|done]|]. cbn [sl pc accepted delivered]. rewrite Hq. apply (Hf Hn).
Qed.

Lemma commit_ok s t b acc del ref tn : machine_ok (mk_machine s (Got_byte t b) acc del ref tn) ->
  machine_ok (mk_machine (s <| slip_rb_tail := slip_rb_next t |>) (To_lwip b) acc del ref tn).
Proof using.
  intros [Hs Ht Ho Hf]. cbn [sl pc accepted delivered refused torn] in *. specialize (Ht t eq_refl). pose proof (next_range t Ht).
  constructor; cbn [sl pc accepted delivered refused torn]; rsimpl; try done.
  - destruct (tail_range s Hs), Hs as [_ Hl]. unfold slip_ok, ring_ok, as_ring, rb_size. rsimpl. cbn [rb_buff rb_w rb_r]. rewrite Hl. lia.
  - intros Hn. destruct (Hf Hn) as [[-> Hd] F]. cbn [sl pc accepted delivered in_flight app] in *. constructor; [done|].
    cbn [sl pc accepted delivered in_flight app]. assert (Hne : queued s <> []) by (by destruct (queued s)). destruct (advance_spec s Hs Hne) as [_ ->].
    rewrite F. destruct (queued s); [done|]. by injection Hd as ->.
Qed.

Lemma apply_ok sem_ok s p acc del ref tn : machine_ok (mk_machine s p acc del ref tn) ->
  machine_ok (if slip_netif_added s && negb (bool_decide (slip_mailbox s = []))
         then mk_machine (slip_tcpip_step sem_ok s) p [] [] 0 (negb (bool_decide (p = At_start)))
         else mk_machine (slip_tcpip_step sem_ok s) p acc del ref tn).
Proof using.
  intros Hm. pose proof Hm as [Hs Ht Ho Hf]. cbn [sl pc accepted delivered refused torn] in *.
  unfold slip_tcpip_step. destruct (slip_mailbox s) as [|c q] eqn:Em.
  { rewrite bool_decide_true by done. by rewrite andb_false_r. }
  rewrite (bool_decide_false (_ = [])) by done. rewrite andb_true_r.
  assert (Hs' : slip_ok (s <| slip_mailbox := q |>)) by (unfold slip_ok, as_ring in *; by rsimpl).
  pose proof (apply_cb_resets sem_ok c (s <| slip_mailbox := q |>) Hs') as Ha. rsimpl. destruct (slip_netif_added s).
  - destruct Ha as (A1 & A2 & A3). constructor; cbn [sl pc accepted delivered refused torn]; [done|done|by rewrite A3|].
    case_bool_decide; [|done]. subst p. intros _. constructor; [done|]. cbn. by rewrite A2.
  - rewrite Ha. by eapply same_ring_ok; [..|exact Hm].
Qed.

Lemma step_ok m m' : machine_ok m -> slip_step m m' -> machine_ok m'.
Proof using.
  intros Hm Hstep. destruct Hstep as [b s s' ok p acc del ref tn Hput|s acc del ref tn Hst|s t acc del ref tn Et|s t acc del ref tn Hne|s t b acc del ref tn Hrd
    |s t b acc del ref tn|s b acc del ref tn|mk pk c s p acc del ref tn|sem_ok s p acc del ref tn].
  - by eapply put_ok.
  - destruct Hm as [Hs Ht Ho Hf]. cbn [sl pc accepted delivered refused torn] in *. destruct (tail_range s Hs). constructor; cbn [sl pc accepted delivered refused torn]; try done.
    + intros t [= <-]. done.
    + intros Hn. destruct (Hf Hn) as [_ F]. by constructor.
  - destruct Hm as [Hs Ht Ho Hf]. constructor; try done. intros Hn. destruct (Hf Hn) as [_ F]. by constructor.
  - destruct Hm as [Hs Ht Ho Hf]. constructor; try done. intros Hn. destruct (Hf Hn) as [Hh F]. constructor; [|done].
    cbn in *. split; [done|]. intros E. apply Hne. rewrite Hh. by apply (get_spec s Hs).
  - destruct Hm as [Hs Ht Ho Hf]. constructor; try done. intros Hn. destruct (Hf Hn) as [[Ht' Hne] F]. constructor; [|done].
    cbn in *. split; [done|]. rewrite Ht' in Hrd. destruct (queued s) as [|c q] eqn:Eq; [done|]. pose proof (list_head _ _ _ (proj1 Hs) Eq) as Hd. unfold as_ring in Hd. cbn [rb_buff rb_r] in Hd.
    rewrite Hd in Hrd. by injection Hrd as ->.
  - by apply commit_ok.
  - eapply same_ring_ok; [..|exact Hm]; [by split_and!|done| |done]. intros _. by rewrite app_nil_r.
  - eapply same_ring_ok; [..|exact Hm]; [|done..]. unfold uart_slip_config_apply. repeat case_match; by split_and!.
  - by apply apply_ok.
Qed.

Lemma steps_ok m m' : machine_ok m -> rtc slip_step m m' -> machine_ok m'.
Proof using. intros Hm Hsteps. induction Hsteps as [|m1 m2 m3 Hstep _ IH]; [done|]. by apply IH, (step_ok m1). Qed.

(** From where it is the task finishes with the byte it has in hand, if any. *)
Lemma finish (m : machine) : machine_ok m -> torn m = false -> exists m', rtc slip_step m m' /\ pc m' = At_start /\ torn m' = false /\
  slip_started (sl m') = slip_started (sl m) /\ accepted m' = accepted m /\ (length (queued (sl m')) <= length (queued (sl m)))%nat /\
  ((exists t, pc m = Read_tail t) -> queued (sl m) <> [] -> (length (queued (sl m')) < length (queued (sl m)))%nat).
Proof using.
  destruct m as [s p acc del ref tn]. intros Hm Hn. cbn [torn] in Hn. subst tn.
  assert (Hbyte : forall t b, machine_ok (mk_machine s (Got_byte t b) acc del ref false) ->
    exists m', rtc slip_step (mk_machine s (Got_byte t b) acc del ref false) m' /\ pc m' = At_start /\ torn m' = false /\
      slip_started (sl m') = slip_started s /\ accepted m' = acc /\ (length (queued (sl m')) < length (queued s))%nat).
  { intros t b Hm'. eexists. split; [eapply rtc_l; [apply step_commit|]; eapply rtc_once, step_input|]. cbn [sl pc accepted torn]. rsimpl. split_and!; try done.
    destruct (ff_hand _ (mo_fifo _ Hm' eq_refl)) as [Et Hd]. cbn [sl] in Et, Hd. subst t. assert (Hne : queued s <> []) by (by destruct (queued s)).
    destruct (advance_spec s (mo_slip _ Hm') Hne) as [_ E]. unfold queued, as_ring in *. rsimpl. rewrite E. cbn [sl] in Hne. destruct (rb_list _); [done|cbn; lia]. }
  assert (Htail : forall t, machine_ok (mk_machine s (Got_tail t) acc del ref false) ->
    exists m', rtc slip_step (mk_machine s (Got_tail t) acc del ref false) m' /\ pc m' = At_start /\ torn m' = false /\
      slip_started (sl m') = slip_started s /\ accepted m' = acc /\ (length (queued (sl m')) < length (queued s))%nat).
  { intros t Hm'. destruct (rd (slip_rb s) t) as [b|] eqn:Hrd.
    - assert (Hstep : slip_step (mk_machine s (Got_tail t) acc del ref false) (mk_machine s (Got_byte t b) acc del ref false)) by (by apply step_load).
      destruct (Hbyte t b (step_ok _ _ Hm' Hstep)) as (m' & Hs & ?). exists m'. split; [by eapply rtc_l|done].
    - destruct (tail_rd s t (mo_slip _ Hm')) as [? E]; [by apply (mo_tail _ Hm')|]. by rewrite E in Hrd. }
  cbn [sl pc accepted]. destruct p as [|t|t|t b|b].
  - eexists. split; [apply rtc_refl|]. cbn [sl pc accepted torn]. split_and!; first [done | lia | by intros [? ?]].
  - destruct (decide (t = slip_rb_head s)) as [Et|Hne].
    + eexists. split; [eapply rtc_once; by apply step_empty|]. cbn [sl pc accepted torn]. split_and!; try done.
      intros _ Hq. destruct Hq. apply (get_spec s (mo_slip _ Hm)). by rewrite <-Et, (ff_hand _ (mo_fifo _ Hm eq_refl)).
    + assert (Hstep : slip_step (mk_machine s (Read_tail t) acc del ref false) (mk_machine s (Got_tail t) acc del ref false)) by (by apply step_compare).
      destruct (Htail t (step_ok _ _ Hm Hstep)) as (m' & Hs & ? & ? & ? & ? & Hlt). exists m'. split; [by eapply rtc_l|]. split_and!; try done; lia.
  - destruct (Htail t Hm) as (m' & Hs & ? & ? & ? & ? & Hlt). exists m'. split; [done|]. split_and!; first [done | lia | by intros [? ?]].
  - destruct (Hbyte t b Hm) as (m' & Hs & ? & ? & ? & ? & Hlt). exists m'. split; [done|]. split_and!; first [done | lia | by intros [? ?]].
  - eexists. split; [eapply rtc_once, step_input|]. cbn [sl pc accepted torn]. rsimpl. split_and!; first [done | lia | by intros [? ?]].
Qed.

(** The task alone empties the ring. *)
Lemma drain_start n : forall m, machine_ok m -> torn m = false -> slip_started (sl m) = true -> pc m = At_start -> (length (queued (sl m)) <= n)%nat ->
  exists m', rtc slip_step m m' /\ delivered m' = accepted m /\ pc m' = At_start.
Proof using.
  induction n as [|n IH]; intros m Hm Hn Hst Hp Hl.
  all: destruct (decide (queued (sl m) = [])) as [Hq|Hq].
  1,3: exists m; split; [apply rtc_refl|]; split; [|done]; pose proof (ff_fifo _ (mo_fifo _ Hm Hn)) as F; rewrite Hp, Hq in F; cbn in F; by rewrite F, app_nil_r.
  { destruct (queued (sl m)); [done|cbn in Hl; lia]. }
  destruct m as [s p acc del ref tn]. cbn [sl pc torn accepted] in *. subst p tn.
  assert (Hstep : slip_step (mk_machine s At_start acc del ref false) (mk_machine s (Read_tail (slip_rb_tail s)) acc del ref false)) by (by apply step_read_tail).
  destruct (finish _ (step_ok _ _ Hm Hstep) eq_refl) as (m2 & Hs2 & Hp2 & Hn2 & Hst2 & Ha2 & _ & Hlt). cbn [sl pc accepted] in *.
  pose proof (steps_ok _ _ (step_ok _ _ Hm Hstep) Hs2) as Hm2. specialize (Hlt (ex_intro _ _ eq_refl) Hq).
  destruct (IH m2 Hm2 Hn2) as (m3 & Hs3 & Hd3 & Hp3); [by rewrite Hst2|done|lia|].
  exists m3. split; [eapply rtc_l; [exact Hstep|]; by etransitivity|]. split; [by rewrite Hd3|done].
Qed.
Lemma drain m : machine_ok m -> torn m = false -> slip_started (sl m) = true -> exists m', rtc slip_step m m' /\ delivered m' = accepted m /\ pc m' = At_start.
Proof using.
  intros Hm Hn Hst. destruct (finish m Hm Hn) as (m1 & Hs1 & Hp1 & Hn1 & Hst1 & Ha1 & _).
  destruct (drain_start _ m1 (steps_ok _ _ Hm Hs1) Hn1 ltac:(by rewrite Hst1) Hp1 (le_n _)) as (m2 & Hs2 & Hd2 & Hp2).
  exists m2. split; [by etransitivity|]. split; [by rewrite Hd2|done].
Qed.

(** If the settings are applied between the task's load and its store of the
    new tail, the store undoes the reset: the ring then holds old bytes that
    nobody sent. *)
Lemma reset_during_get sem_ok c (s : slip) t : slip_ok s -> slip_netif_added s = true -> 0 <= t < 2047 ->
  Z.of_nat (length (queued (uart_slip_config_apply_cb sem_ok c s <| slip_rb_tail := slip_rb_next t |>))) = 2047 - t.
Proof using.
  intros Hs Ha Ht. pose proof (apply_cb_resets sem_ok c s Hs) as Hr. rewrite Ha in Hr. destruct Hr as ([Hok Hl] & _ & _).
  assert (Hh : slip_rb_head (uart_slip_config_apply_cb sem_ok c s) = 0).
  { unfold uart_slip_config_apply_cb, uart_slip_uart_start. rewrite Ha. cbn [negb].
    destruct (enabled c); [destruct (hguart_open _ _) as [rc u]; destruct (rc =? 0)|]; unfold slip_rb_reset; by rsimpl. }
  set (s1 := uart_slip_config_apply_cb sem_ok c s) in *. clearbody s1.
  unfold queued, as_ring, rb_list. rsimpl. cbn [rb_buff rb_w rb_r]. rewrite Hh, next_eq by lia.
  rewrite (proj2 (Z.leb_gt 2048 (t + 1))) by lia. rewrite (proj2 (Z.leb_gt (t + 1) 0)) by lia.
  change (Z.to_nat 0) with 0%nat. rewrite take_0, app_nil_r, length_drop, Hl. lia.
Qed.
End Ring.

(** ** The receive interrupt *)

Lemma apply_closes {N} `{SlipNetif N} {D} `{Kvdb D} c (t : slip N D) : opened (g_slip_uart t) = true -> slip_netif_added t = true ->
  rx_data_avail_en (g_slip_uart (uart_slip_config_apply_cb true c t)) = false /\
  slip_started (uart_slip_config_apply_cb true c t) = enabled c.
Proof.
  intros Ho Ha. unfold uart_slip_config_apply_cb. rewrite Ha. cbn [negb].
  unfold uart_slip_uart_start, uart_slip_uart_stop, slip_rb_reset, uart_release_irq, hguart_close, hguart_open. rsimpl. rewrite Ho.
  cbn [negb opened rx_data_avail_en]. destruct (enabled c); cbn [Z.eqb]; rsimpl; by rewrite ?Ho.
Qed.
Lemma apply_stays_closed {N} `{SlipNetif N} {D} `{Kvdb D} l : forall t : slip N D, rx_data_avail_en (g_slip_uart t) = false ->
  rx_data_avail_en (g_slip_uart (foldl (fun s x => uart_slip_config_apply_cb x.1 x.2 s) t l)) = false.
Proof.
  induction l as [|[ok x] l IH]; intros t Ht; [done|]. cbn [foldl]. apply IH. cbn [fst snd].
  unfold uart_slip_config_apply_cb. destruct (slip_netif_added t); cbn [negb]; [|done].
  unfold uart_slip_uart_start, uart_slip_uart_stop, slip_rb_reset, uart_release_irq, hguart_close, hguart_open. rsimpl.
  destruct (g_slip_uart t) as [o r] eqn:Eu. cbn [opened rx_data_avail_en] in *. subst r.
  destruct (enabled x), o, ok; repeat (cbn [negb opened rx_data_avail_en Z.eqb]; rsimpl); by rewrite ?Eu.
Qed.

Lemma start_spec {N} `{SlipNetif N} {D} `{Kvdb D} (t : slip N D) :
  exists u, uart_slip_uart_start true t = (0, t <| g_slip_uart := u |>) /\ opened u = true.
Proof.
  unfold uart_slip_uart_start, uart_release_irq, hguart_close, hguart_open.
  destruct (g_slip_uart t) as [o r]. destruct o; cbn [negb opened rx_data_avail_en]; eexists; by split.
Qed.
Lemma init_common_rx {N} `{SlipNetif N} {D} `{Kvdb D} c (s : slip N D) :
  g_uart_slip_config (uart_slip_init_common true c s) = c /\
  (enabled c = true -> slip_netif_added (uart_slip_init_common true c s) = true ->
   opened (g_slip_uart (uart_slip_init_common true c s)) = true /\ rx_data_avail_en (g_slip_uart (uart_slip_init_common true c s)) = true).
Proof.
  unfold uart_slip_init_common. set (s' := if slip_started s || _ then _ else _).
  assert (Hs' : slip_netif_added s' = false).
  { unfold s'. destruct (slip_started s), (slip_netif_added s) eqn:E; cbn [orb]; unfold uart_slip_deinit, uart_slip_uart_stop, slip_rb_reset; rsimpl; rewrite ?E; by rsimpl. }
  clearbody s'. set (t := slip_rb_reset _).
  assert (Ht : g_uart_slip_config t = c /\ slip_netif_added t = false) by (unfold t, slip_rb_reset; by rsimpl). clearbody t. destruct Ht as [Hc Ha].
  assert (Hgo : forall t1 : slip N D, g_uart_slip_config t1 = c -> slip_netif_added t1 = false -> (enabled c = true -> opened (g_slip_uart t1) = true) ->
    forall r, r = (let '(ok, n) := sn_add (slip_ip c) (slip_mask c) (slip_gw c) sn_zero in
      let s := t1 <| slip_netif := n |> in
      if negb ok then uart_slip_uart_stop s
      else
        let s := sio_open s <| slip_netif_added := true |> in
        let s := if enabled c then s <| slip_netif ::= fun n => sn_set_link_up (sn_set_up n) |> <| slip_started := true |>
                 else s <| slip_netif ::= fun n => sn_set_down (sn_set_link_down n) |> <| slip_started := false |> in
        s <| slip_task_created := true |>) ->
    g_uart_slip_config r = c /\ (enabled c = true -> slip_netif_added r = true -> opened (g_slip_uart r) = true /\ rx_data_avail_en (g_slip_uart r) = true)).
  { intros t1 E1 E2 E3 r ->. destruct (sn_add _ _ _ _) as [ok n]. destruct ok; cbn [negb].
    - unfold sio_open, uart_release_irq, hguart_request_irq. destruct (enabled c); rsimpl; (split; [done|]); intros He _; [|done].
      cbn [opened rx_data_avail_en]. split; [by apply E3|done].
    - unfold uart_slip_uart_stop. rsimpl. split; [done|]. intros _ E. congruence. }
  destruct (enabled c) eqn:Ec.
  - destruct (start_spec t) as (u & -> & Hu). cbn [Z.eqb negb]. apply (Hgo (t <| g_slip_uart := u |>)); [by rsimpl..|done].
  - cbn [Z.eqb negb]. by apply (Hgo t).
Qed.
Lemma init_spec_rx {N} `{SlipNetif N} {D} `{Kvdb D} (s : slip N D) :
  enabled (g_uart_slip_config (uart_slip_init true s)) = true -> slip_netif_added (uart_slip_init true s) = true ->
  opened (g_slip_uart (uart_slip_init true s)) = true /\ rx_data_avail_en (g_slip_uart (uart_slip_init true s)) = true.
Proof.
  unfold uart_slip_init. set (c := if negb _ then _ else _). set (t := s <| g_uart_slip_config := c |> <| slip_db ::= _ |>). clearbody t.
  destruct (init_common_rx c t) as [E Hr]. rewrite E. exact Hr.
Qed.

(** ** An instance

    lwIP's interface as the log of bytes it was given. *)

#[export] Instance log_netif : SlipNetif (list Z) := {
  sn_zero := []; sn_add _ _ _ n := (true, n); sn_set_addr _ _ _ n := n; sn_set_up n := n; sn_set_down n := n;
  sn_set_link_up n := n; sn_set_link_down n := n; sn_remove n := n; slipif_rxbyte_input b n := n ++ [b] }.

Definition fresh_slip : slip (list Z) (gmap.gmap string (list Z)) :=
  mk_slip uart_slip_config_set_default (replicate 2048 0) 0 0 0 false false false [] (mk_uart false false) [] ∅.
Definition booted_slip := uart_slip_early_init true fresh_slip.

(** Two bytes arrive; the second comes while the first is being taken out. *)
Lemma fresh_run : exists m, rtc slip_step (mk_machine (slip_rb_reset booted_slip) At_start [] [] 0 false) m /\
  accepted m = [65; 66] /\ delivered m = [65] /\ torn m = false /\ slip_netif (sl m) = [65] /\ slip_started (sl m) = true.
Proof.
  eexists. split.
  - eapply rtc_l; [eapply step_put with (b := 65) (ok := true); vm_compute; reflexivity|].
    eapply rtc_l; [apply step_read_tail; vm_compute; reflexivity|].
    eapply rtc_l; [apply step_compare; vm_compute; discriminate|].
    eapply rtc_l; [eapply step_put with (b := 66) (ok := true); vm_compute; reflexivity|].
    eapply rtc_l; [eapply step_load with (b := 65); vm_compute; reflexivity|].
    eapply rtc_l; [apply step_commit|]. eapply rtc_l; [apply step_input|apply rtc_refl].
  - by vm_compute.
Qed.

(** ** Properties *)




