(* ===== verification/Http.v ===== *)
(** * The web server: [config_page/config_page.c], [config_page/config_api_dispatch.c]

    One connection at a time: the request is collected from lwIP's netbufs,
    its header parsed, and the request answered by a file of the flash file
    system or by a handler of the JSON interface.  lwIP's connection, littlefs
    and the handlers are the class [HttpEnv], cJSON the class [Json].  What
    crosses these interfaces is kept in a trace; reading past the end of a
    buffer is a fault ([None]). *)

From S2P Require Import Prelude Monad.
From stdpp Require Import strings pretty.

#[local] Open Scope Z_scope.

Definition HTTP_REQ_MAX_LEN : Z := 16384.
Definition HTTP_FILE_CHUNK : Z := 1024.
Definition WEB_API_RC_BAD_REQUEST : Z := -400.
Definition WEB_API_RC_NOT_FOUND : Z := -404.
Definition WEB_API_RC_METHOD_NOT_ALLOWED : Z := -405.

(** A string literal as its bytes; C strings are lists without a zero. *)
Definition str (s : string) : list Z := map (fun a => Z.of_N (Ascii.N_of_ascii a)) (String.list_ascii_of_string s).
Definition CRLF : list Z := [13; 10].
Definition cstr (l : list Z) : list Z := (fix go l := match l with [] => [] | c :: l => if c =? 0 then [] else c :: go l end) l.
(** [snprintf] into a buffer of [size] bytes; [%u] and [%d]. *)
Definition snprintf (size : Z) (text : list Z) : list Z := take (Z.to_nat (size - 1)) text.
Definition dec (v : Z) : list Z := str (pretty v).

(** ** The C library on buffers *)

(** The parts before and after the first [c]. *)
Fixpoint cut_at (c : Z) (l : list Z) : option (list Z * list Z) :=
  match l with
  | [] => None
  | x :: l => if x =? c then Some ([], l) else '(a, b) ← cut_at c l; Some (x :: a, b)
  end.

(** [strncmp(p, tok, strlen(tok)) == 0] *)
Fixpoint strncmp_eq (p tok : list Z) {struct tok} : option bool :=
  match tok with
  | [] => Some true
  | t :: tok => match p with [] => None | c :: p => if c =? t then strncmp_eq p tok else Some false end
  end.

(** lwIP's search in the first [n] bytes: the offset found. *)
Fixpoint lwip_strnstr (buffer tok : list Z) (n : Z) : option (option Z) :=
  match buffer with
  | [] => None
  | c :: rest =>
      if (c =? 0) || (n <? Z.of_nat (length tok)) then Some None
      else
        eq ← strncmp_eq buffer tok;
        if (eq : bool) then Some (Some 0) else r ← lwip_strnstr rest tok (n - 1); Some (option_map Z.succ r)
  end.

(** [strstr] on C strings: the part before the first occurrence. *)
Fixpoint strstr (s tok : list Z) : option (list Z) :=
  if bool_decide (tok `prefix_of` s) then Some []
  else match s with [] => None | c :: s => a ← strstr s tok; Some (c :: a) end.
Definition strchr (c : Z) (s : list Z) : bool := bool_decide (c ∈ s).
Definition strrchr_after (c : Z) (s : list Z) : option (list Z) := '(a, _) ← cut_at c (reverse s); Some (reverse a).

Definition isspace (c : Z) : bool := (c =? 32) || ((9 <=? c) && (c <=? 13)).
Definition isdigit (c : Z) : bool := (48 <=? c) && (c <=? 57).
Fixpoint skip_ws (l : list Z) : option (list Z) :=
  match l with [] => None | c :: r => if isspace c then skip_ws r else Some l end.
Fixpoint digits (acc : Z) (l : list Z) : option Z :=
  match l with [] => None | c :: r => if isdigit c then digits (acc * 10 + (c - 48)) r else Some acc end.
(** [atoi]; a value outside [int] is cut to the nearest [int]. *)
Definition sat_i32 (v : Z) : Z := if v <? - 2 ^ 31 then - 2 ^ 31 else if 2 ^ 31 <=? v then 2 ^ 31 - 1 else v.
Definition atoi (l : list Z) : option Z :=
  l ← skip_ws l;
  match l with
  | [] => None
  | c :: r =>
      if c =? 45 then v ← digits 0 r; Some (sat_i32 (- v))
      else if c =? 43 then v ← digits 0 r; Some (sat_i32 v)
      else v ← digits 0 l; Some (sat_i32 v)
  end.

(** ** Parsing the header *)

(** [method] and [uri] as C strings in buffers of the given size. *)
Definition http_get_method (header : list Z) (method_size : Z) : list Z :=
  match cut_at 32 header with
  | None => []
  | Some (m, _) => cstr (snprintf method_size m)
  end.

Definition http_get_uri (header : list Z) (uri_size : Z) : list Z :=
  match cut_at 32 header with
  | None => []
  | Some (_, r) => match cut_at 32 r with None => [] | Some (u, _) => cstr (snprintf uri_size u) end
  end.

(** [p] steps over blanks while it is before [end]. *)
Fixpoint skip_blanks (n : nat) (l : list Z) : list Z :=
  match n, l with
  | S n, c :: r => if (c =? 32) || (c =? 9) then skip_blanks n r else l
  | _, _ => l
  end.
(** [header]: the buffer, which goes on after the header. *)
Definition http_get_content_length (header : list Z) (header_len : Z) : option Z :=
  p ← lwip_strnstr header (str "Content-Length:") header_len;
  match p with
  | None => Some 0
  | Some p =>
      let p := p + 15 in
      atoi (skip_blanks (Z.to_nat (header_len - p)) (drop (Z.to_nat p) header))
  end.

(** ** Paths and types *)

Definition http_path_is_safe (p : list Z) : bool :=
  match strstr p (str "..") with
  | Some _ => false
  | None => negb (strchr 92 p) && negb (strchr 58 p) && negb (strchr 37 p)
  end.

Definition http_content_type (path : list Z) : list Z :=
  match strrchr_after 46 path with
  | None => str "application/octet-stream"
  | Some ext =>
      if bool_decide (ext = str "html") then str "text/html"
      else if bool_decide (ext = str "htm") then str "text/html"
      else if bool_decide (ext = str "css") then str "text/css"
      else if bool_decide (ext = str "js") then str "application/javascript"
      else if bool_decide (ext = str "json") then str "application/json"
      else if bool_decide (ext = str "png") then str "image/png"
      else if bool_decide (ext = str "jpg") then str "image/jpeg"
      else if bool_decide (ext = str "jpeg") then str "image/jpeg"
      else if bool_decide (ext = str "svg") then str "image/svg+xml"
      else if bool_decide (ext = str "ico") then str "image/x-icon"
      else if bool_decide (ext = str "txt") then str "text/plain"
      else str "application/octet-stream"
  end.

Fixpoint skip_slashes (uri : list Z) : list Z :=
  match uri with c :: r => if c =? 47 then skip_slashes r else uri | [] => [] end.

(** ** The environment *)

(** Values of cJSON. *)
Class Json (J : Type) := {
  cJSON_IsObject : J -> bool;
  cJSON_AddStringToObject : string -> list Z -> J -> J;
  cJSON_AddNumberToObject : string -> Z -> J -> J;
  cJSON_DeleteItemFromObject : string -> J -> J;
}.

(** [netconn_recv] gives the chunks of a netbuf, or fails; [os_malloc] the
    buffer with what is in it.  [api_call f]: the handler named [f]. *)
Class HttpEnv (J W : Type) := {
  netconn_recv : W -> option (list (list Z)) * W;
  netconn_write_partly : list Z -> W -> (Z * Z) * W;
  os_malloc : Z -> W -> option (list Z) * W;
  lfs_file_open : list Z -> W -> Z * W;
  lfs_file_read : Z -> W -> (Z * list Z) * W;
  lfs_file_close : W -> Z * W;
  cJSON_ParseWithLength : list Z -> W -> option J * W;
  cJSON_CreateObject : W -> option J * W;
  cJSON_PrintUnformatted : J -> W -> option (list Z) * W;
  api_call : string -> option J -> J -> W -> (Z * J) * W;
}.

Record web_api_route := mk_route { endpoint : string; get_cb : option string; post_cb : option string }.
(** [FW_BUILD_BETA] of the generated build_info_gen.h. *)
Class HttpBuild := { FW_BUILD_BETA : bool }.

Inductive event :=
  | E_recv (nb : list (list Z))
  | E_write (data : list Z) (err written : Z)
  | E_open (path : list Z) (rc : Z)
  | E_read (data : list Z)
  | E_close
  | E_call (f : string).

Section Http.
Context {J : Type} `{Json J} {W : Type} `{HttpEnv J W} {build : HttpBuild}.

(** [h_data], [h_nb]: the pointers [data] and [nb] of [http_handle_one] are
    not null; [live], [live_nb]: blocks and netbufs that are allocated. *)
Record http := mk_http { hw : W; trace : list event; live : Z; live_nb : Z; h_data : bool; h_nb : bool }.
#[export] Instance eta_http : Eta http := fun s => mk_http (hw s) (trace s) (live s) (live_nb s) (h_data s) (h_nb s).

Definition env {A} (f : W -> A * W) : M http A := fun s => let '(a, w) := f (hw s) in Some (a, s <| hw := w |>).
Definition emit (e : event) : M http unit := modify (fun s => s <| trace ::= fun t => t ++ [e] |>).

Definition malloc (n : Z) : M http (option (list Z)) :=
  r ← env (os_malloc n);
  match r with
  | None => mret None
  | Some b => modify (fun s => s <| live ::= Z.succ |>);; mret (Some b)
  end.
Definition os_free : M http unit := modify (fun s => s <| live ::= Z.pred |>).
Definition netbuf_delete : M http unit := modify (fun s => s <| live_nb ::= Z.pred |> <| h_nb := false |>).

(** A netbuf or nothing into [nb]. *)
Definition recv : M http (option (list (list Z))) :=
  r ← env netconn_recv;
  match r with
  | None => modify (fun s => s <| h_nb := false |>);; mret None
  | Some nb => modify (fun s => s <| live_nb ::= Z.succ |> <| h_nb := true |>);; emit (E_recv nb);; mret (Some nb)
  end.

(** ** Sending *)

Definition http_write_bytes (data : list Z) : M http Z :=
  '(err, written) ← env (netconn_write_partly data);
  emit (E_write data err written);;
  mret err.

Definition http_header (code : Z) (content_type : list Z) (body_len : Z) : list Z :=
  snprintf 192 (str "HTTP/1.1 " ++ dec code ++ CRLF ++ str "Content-Type: " ++ content_type ++ CRLF ++
    str "Cache-Control: no-cache" ++ CRLF ++ str "Connection: close" ++ CRLF ++ str "Content-Length: " ++ dec (u32 body_len) ++ CRLF ++ CRLF).

Definition http_send_raw (code : Z) (content_type body : list Z) : M http unit :=
  hdr ← malloc 192;
  match hdr with
  | None => mret tt
  | Some _ =>
      err ← http_write_bytes (http_header code content_type (Z.of_nat (length body)));
      (if err =? 0 then when (0 <? Z.of_nat (length body)) (_ ← http_write_bytes body; mret tt) else mret tt);;
      os_free
  end.

Definition http_send_text (code : Z) (text : string) : M http unit := http_send_raw code (str "text/plain") (str text ++ [10]).
Definition http_send_json (code : Z) (json : list Z) : M http unit := http_send_raw code (str "application/json") json.
(** A quotation mark is 34. *)
Definition http_json_err (code : Z) (msg : string) : list Z :=
  let q s := [34] ++ str s ++ [34] in
  [123] ++ q "ok" ++ str ":false," ++ q "rc" ++ str ":" ++ dec code ++ str "," ++ q "err" ++ str ":" ++ q msg ++ [125; 10].
Definition HTTP_JSON_ERR_OOM : list Z := http_json_err (-500) "oom".
Definition HTTP_JSON_ERR_EMPTY_BODY : list Z := http_json_err (-400) "empty body".
Definition HTTP_JSON_ERR_BAD_JSON : list Z := http_json_err (-400) "bad json".
Definition HTTP_JSON_ERR_API_OOM : list Z := [123] ++ [34] ++ str "error" ++ [34] ++ str ":" ++ [34] ++ str "oom" ++ [34] ++ [125; 10].

Definition http_send_json_cjson (code : Z) (root : J) : M http unit :=
  s ← env (cJSON_PrintUnformatted root);
  match s with
  | None => http_send_json 500 HTTP_JSON_ERR_OOM
  | Some s => http_send_json code s
  end.

(** ** Files *)

(** The loop that sends the file; one unit of fuel per chunk. *)
Fixpoint serve_loop (fuel : nat) : M http unit :=
  match fuel with
  | O => lift None
  | S fuel =>
      '(r, data) ← env (lfs_file_read HTTP_FILE_CHUNK);
      if r <=? 0 then mret tt
      else
        emit (E_read data);;
        err ← http_write_bytes data;
        if negb (err =? 0) then mret tt else serve_loop fuel
  end.

Definition open_file (path : list Z) : M http Z := rc ← env (lfs_file_open path); emit (E_open path rc);; mret rc.
Definition close_file : M http unit := _ ← env lfs_file_close; emit E_close.

Definition file_header (path : list Z) : list Z :=
  let gz := strstr path (str ".gz") in
  snprintf 256 (str "HTTP/1.1 200" ++ CRLF ++ str "Content-Type: " ++ http_content_type (default path gz) ++ CRLF ++
    match gz with Some _ => str "Content-Encoding: gzip" ++ CRLF | None => [] end ++ str "Cache-Control: no-cache" ++ CRLF ++ str "Connection: close" ++ CRLF ++ CRLF).

(** Header and contents of the opened file. *)
Definition send_file (fuel : nat) (path : list Z) : M http unit :=
  hdr ← malloc 256;
  match hdr with
  | None => mret tt
  | Some _ =>
      err ← http_write_bytes (file_header path);
      os_free;;
      if negb (err =? 0) then mret tt
      else
        chunk ← malloc HTTP_FILE_CHUNK;
        match chunk with
        | None => mret tt
        | Some _ => serve_loop fuel;; os_free
        end
  end.

Definition http_serve_file (fuel : nat) (uri : list Z) : M http unit :=
  if negb (http_path_is_safe uri) then http_send_text 400 "bad path"
  else
    let '(path, uri) :=
      if bool_decide (uri = str "/") then (snprintf 32 (str "www/index.html.gz"), uri)
      else let uri := skip_slashes uri in (snprintf 32 (str "www/" ++ uri ++ str ".gz"), uri) in
    rc ← open_file path;
    '(rc, path) ←
      (if rc <? 0 then
         let path := if bool_decide (uri = str "/") || bool_decide (uri = str "index.html") then snprintf 32 (str "www/index.html")
                     else snprintf 32 (str "www/" ++ skip_slashes uri) in
         rc ← open_file path; mret (rc, path)
       else mret (rc, path));
    if rc <? 0 then http_send_text 404 "not found"
    else send_file fuel path;; close_file.

(** ** The JSON interface *)

(** Part after "/api/", handlers for GET and POST. *)

Definition s_api_routes {build : HttpBuild} : list web_api_route := [
  mk_route "get_stat" (Some "web_api_stat_get") None;
  mk_route "get_all" (Some "web_api_all_get") None;
  mk_route "get_nearby_modems" (Some "web_api_nearby_modems_get") None;
  mk_route "get_reticulum_links" (Some "web_api_reticulum_links_get") None;
  mk_route "halow_cfg" (Some "web_api_halow_cfg_get") (Some "web_api_halow_cfg_post");
  mk_route "lbt_cfg" (Some "web_api_lbt_cfg_get") (Some "web_api_lbt_cfg_post");
  mk_route "cca_cfg" (Some "web_api_cca_cfg_get") (Some "web_api_cca_cfg_post");
  mk_route "net_cfg" (Some "web_api_net_cfg_get") (Some "web_api_net_cfg_post");
  mk_route "slip_cfg" (Some "web_api_slip_cfg_get") (Some "web_api_slip_cfg_post");
  mk_route "log_cfg" (Some "web_api_log_cfg_get") (Some "web_api_log_cfg_post");
  mk_route "tcp_server_cfg" (Some "web_api_tcp_server_cfg_get") (Some "web_api_tcp_server_cfg_post");
  mk_route "telemetry_cfg" (Some "web_api_telemetry_cfg_get") (Some "web_api_telemetry_cfg_post");
  mk_route "privacy_cfg" (Some "web_api_privacy_cfg_get") (Some "web_api_privacy_cfg_post");
  mk_route "ack_cfg" (Some "web_api_ack_cfg_get") (Some "web_api_ack_cfg_post");
  mk_route "telemetry_send" None (Some "web_api_telemetry_send_post");
  mk_route "ota_wipe_lfs" None (Some "web_api_ota_wipe_lfs_post");
  mk_route "ota_file_begin" None (Some "web_api_ota_file_begin_post");
  mk_route "ota_file_end" None (Some "web_api_ota_file_end_post");
  mk_route "ota_file_chunk" None (Some "web_api_ota_file_chunk_post");
  mk_route "ota_fw_begin" None (Some "web_api_ota_fw_begin_post");
  mk_route "ota_fw_end" None (Some "web_api_ota_fw_end_post");
  mk_route "ota_fw_chunk" None (Some "web_api_ota_fw_chunk_post");
  mk_route "reboot" None (Some "web_api_reboot_post");
  mk_route "reset_stat" None (Some "web_api_radio_stat_post")] ++
  (if FW_BUILD_BETA then [
    mk_route "cpu_dump" (Some "web_api_cpu_dump_get") None;
    mk_route "tx_dbg" (Some "web_api_tx_dbg_get") None;
    mk_route "rf_dbg" (Some "web_api_rf_dbg_get") (Some "web_api_rf_dbg_post")] else []) ++
  [mk_route "default_rst" None (Some "web_api_default_reset")
].

(** [strcspn(p, "?#")] characters. *)
Fixpoint cut_query (p : list Z) : list Z :=
  match p with [] => [] | c :: p => if (c =? 63) || (c =? 35) then [] else c :: cut_query p end.
Definition trim_slashes (l : list Z) : list Z := reverse (skip_slashes (reverse l)).

Definition api_uri_to_endpoint (uri : list Z) (tmp_sz : Z) : option (list Z) :=
  if negb (bool_decide (str "/api/" `prefix_of` uri)) then None
  else
    let p := cut_query (drop 5 uri) in
    let n := Z.of_nat (length p) in
    if n =? 0 then None
    else
      let n := if tmp_sz <=? n then tmp_sz - 1 else n in
      let tmp := trim_slashes (take (Z.to_nat n) p) in
      match tmp with [] => None | _ => Some tmp end.

Definition api_find_route (ep : list Z) : option web_api_route :=
  (fun r => r.2) <$> list_find (fun r => ep = str (endpoint r)) s_api_routes.

Definition api_set_err (msg : string) (out : J) : J :=
  cJSON_AddStringToObject "err" (str msg) (cJSON_DeleteItemFromObject "err" out).

Definition web_api_dispatch (method uri : list Z) (in_json : option J) (out : J) : M http (Z * J) :=
  if negb (cJSON_IsObject out) then mret (WEB_API_RC_BAD_REQUEST, out)
  else
    match api_uri_to_endpoint uri 64 with
    | None => mret (WEB_API_RC_BAD_REQUEST, api_set_err "bad uri" out)
    | Some ep =>
        match api_find_route ep with
        | None => mret (WEB_API_RC_NOT_FOUND, api_set_err "api not found" out)
        | Some r =>
            if negb (bool_decide (method = str "GET")) && negb (bool_decide (method = str "POST"))
            then mret (WEB_API_RC_METHOD_NOT_ALLOWED, api_set_err "method not allowed" out)
            else
              match (if bool_decide (method = str "GET") then get_cb r else post_cb r) with
              | None => mret (WEB_API_RC_METHOD_NOT_ALLOWED, api_set_err "method not allowed" out)
              | Some cb => emit (E_call cb);; env (api_call cb in_json out)
              end
        end
    end.

Definition http_map_api_rc_to_http (rc : Z) : Z :=
  if rc =? WEB_API_RC_NOT_FOUND then 404
  else if rc =? WEB_API_RC_METHOD_NOT_ALLOWED then 405
  else if rc =? WEB_API_RC_BAD_REQUEST then 400
  else if rc <? 0 then 500
  else 200.

Definition api_error_json (rc : Z) (out : J) : J :=
  cJSON_AddNumberToObject "rc" rc
    (cJSON_AddStringToObject "error"
      (if rc =? WEB_API_RC_NOT_FOUND then str "api not found"
       else if rc =? WEB_API_RC_METHOD_NOT_ALLOWED then str "method not allowed"
       else if rc =? WEB_API_RC_BAD_REQUEST then str "bad request"
       else str "internal error") out).

(** With the parsed request. *)
Definition api_answer (method uri : list Z) (req : option J) : M http unit :=
  out ← env cJSON_CreateObject;
  match out with
  | None => http_send_json 500 HTTP_JSON_ERR_OOM
  | Some out =>
      '(rc, out) ← web_api_dispatch method uri req out;
      let http_code := http_map_api_rc_to_http rc in
      if rc =? 0 then http_send_json_cjson http_code out
      else
        out ← env cJSON_CreateObject;
        match out with
        | None => http_send_json 500 HTTP_JSON_ERR_API_OOM
        | Some out => http_send_json_cjson http_code (api_error_json rc out)
        end
  end.

Definition http_handle_api (method uri body : list Z) : M http unit :=
  if bool_decide (method = str "POST") then
    if Z.of_nat (length body) <=? 0 then http_send_json 400 HTTP_JSON_ERR_EMPTY_BODY
    else
      req ← env (cJSON_ParseWithLength body);
      match req with
      | Some j => if cJSON_IsObject j then api_answer method uri (Some j) else http_send_json 400 HTTP_JSON_ERR_BAD_JSON
      | None => http_send_json 400 HTTP_JSON_ERR_BAD_JSON
      end
  else api_answer method uri None.

(** ** One request *)

Fixpoint chunks_len (len : Z) (chunks : list (list Z)) : Z :=
  match chunks with [] => len | c :: cs => chunks_len (u16 (len + Z.of_nat (length c))) cs end.

Fixpoint copy_chunks (data : list Z) (data_len : Z) (chunks : list (list Z)) : option (list Z * Z) :=
  match chunks with
  | [] => Some (data, data_len)
  | c :: cs => data ← wr_n data data_len c; copy_chunks data (u16 (data_len + Z.of_nat (length c))) cs
  end.

(** The chunks of a further netbuf, up to [total_need] bytes. *)
Fixpoint fill_chunks (data : list Z) (data_len total_need : Z) (chunks : list (list Z)) : option (list Z * Z) :=
  match chunks with
  | [] => Some (data, data_len)
  | c :: cs =>
      let remain := u16 (total_need - data_len) in
      let chunk_len := if remain <? Z.of_nat (length c) then remain else Z.of_nat (length c) in
      data ← wr_n data data_len (take (Z.to_nat chunk_len) c);
      let data_len := u16 (data_len + chunk_len) in
      if total_need <=? data_len then Some (data, data_len) else fill_chunks data data_len total_need cs
  end.

(** [while (data_len < total_need)]; one unit of fuel per netbuf. *)
Fixpoint recv_rest (fuel : nat) (data : list Z) (data_len total_need : Z) : M http (option (list Z * Z)) :=
  if total_need <=? data_len then mret (Some (data, data_len))
  else
    match fuel with
    | O => lift None
    | S fuel =>
        nb ← gets h_nb;
        when nb netbuf_delete;;
        r ← recv;
        match r with
        | None => http_send_text 400 "incomplete body";; mret None
        | Some chunks => '(data, data_len) ← lift (fill_chunks data data_len total_need chunks); recv_rest fuel data data_len total_need
        end
    end.

(** The bytes after the first netbuf, into a larger buffer. *)
Definition recv_body (data : list Z) (data_len total_need : Z) : M http (option (list Z * Z)) :=
  if total_need <=? data_len then mret (Some (data, data_len))
  else
    new_data ← malloc total_need;
    match new_data with
    | None => mret None
    | Some new_data =>
        new_data ← lift (wr_n new_data 0 (take (Z.to_nat data_len) data));
        os_free;;
        recv_rest (Z.to_nat total_need) new_data data_len total_need
    end.

(** The body, [content_len] bytes after the header. *)
Definition receive_body (data : list Z) (data_len header_len content_len total_need : Z) : M http (option (list Z)) :=
  r ← recv_body data data_len total_need;
  match r with
  | None => mret None
  | Some (data, data_len) =>
      let body_len := data_len - header_len in
      if 0 <? content_len then
        let body_len := if content_len <? body_len then content_len else body_len in
        if body_len <? content_len then http_send_text 400 "incomplete body";; mret None
        else
          body ← lift (rd_n data header_len body_len);
          mret (Some body)
      else mret (Some [])
  end.

(** [int32_t] addition: an overflow is undefined. *)
Definition add_i32 (a b : Z) : option Z := if bool_decide (- 2 ^ 31 <= a + b < 2 ^ 31) then Some (a + b) else None.

Record request := mk_request { method : list Z; uri : list Z; body : list Z }.

(** The first netbuf, in one buffer. *)
Definition recv_first : M http (option (list Z * Z)) :=
  nb ← recv;
  match nb with
  | None => mret None
  | Some chunks =>
      let first_len := chunks_len 0 chunks in
      if (first_len =? 0) || (HTTP_REQ_MAX_LEN <? first_len) then mret None
      else
        data ← malloc first_len;
        match data with
        | None => mret None
        | Some data =>
            modify (fun s => s <| h_data := true |>);;
            data ← lift (wr data (first_len - 1) 0);
            r ← lift (copy_chunks data 0 chunks);
            mret (Some r)
        end
  end.

(** [http_handle_one] up to the request it answers; [None]: it went to
    [exit]. *)
Definition http_receive : M http (option request) :=
  r ← recv_first;
  match r with
  | None => mret None
  | Some (data, data_len) =>
      hdr_end ← lift (lwip_strnstr data (CRLF ++ CRLF) data_len);
      match hdr_end with
      | None => http_send_text 400 "bad request";; mret None
      | Some hdr_end =>
          let header_len := hdr_end + 4 in
          let header := take (Z.to_nat header_len) data in
          let uri := http_get_uri header 32 in
          let method := http_get_method header 8 in
          if bool_decide (uri = []) || bool_decide (method = []) then http_send_text 400 "bad request";; mret None
          else
            content_len ← lift (http_get_content_length data header_len);
            let content_len := if content_len <? 0 then 0 else content_len in
            sum ← lift (add_i32 header_len content_len);
            let total_need := u16 sum in
            if (total_need =? 0) || (HTTP_REQ_MAX_LEN <? total_need) then http_send_text 400 "request too large";; mret None
            else
              b ← receive_body data data_len header_len content_len total_need;
              mret (option_map (mk_request method uri) b)
      end
  end.

Definition http_handle_one (fuel : nat) : M http unit :=
  modify (fun s => s <| h_data := false |> <| h_nb := false |>);;
  r ← http_receive;
  match r with
  | None => mret tt
  | Some r =>
      if bool_decide (str "/api/" `prefix_of` uri r) then http_handle_api (method r) (uri r) (body r)
      else http_serve_file fuel (uri r)
  end;;
  d ← gets h_data;
  when d os_free;;
  nb ← gets h_nb;
  when nb netbuf_delete.
End Http.

Arguments http W : clear implicits.

(** ** Strings *)

(** [tok] occurs in [l] for the first time after [pre]. *)
Definition first_at (tok l pre : list Z) : Prop :=
  exists post, l = pre ++ tok ++ post /\ forall q, (q < length pre)%nat -> ~ tok `prefix_of` drop q l.

Lemma strncmp_spec p tok : (length tok <= length p)%nat -> strncmp_eq p tok = Some (bool_decide (tok `prefix_of` p)).
Proof.
  revert p. induction tok as [|t tok IH]; intros p Hl; cbn [strncmp_eq].
  - by rewrite bool_decide_true by apply prefix_nil.
  - destruct p as [|c p]; cbn in Hl; [lia|]. destruct (Z.eqb_spec c t) as [->|Hne].
    + rewrite IH by lia. f_equal. apply bool_decide_ext. split; [apply prefix_cons|]. intros Hp. by apply prefix_cons_inv_2 in Hp.
    + rewrite bool_decide_false; [done|]. intros Hp. by apply prefix_cons_inv_1 in Hp.
Qed.

Lemma first_at_cons c l tok pre : ~ tok `prefix_of` c :: l -> first_at tok (c :: l) (c :: pre) <-> first_at tok l pre.
Proof.
  intros Hno. split; intros (post & E & Hq); exists post.
  - injection E as ->. split; [done|]. intros q Hlt. apply (Hq (S q)). cbn. lia.
  - subst l. split; [done|]. intros [|q] Hlt; cbn in *; [done|]. apply Hq. lia.
Qed.
Lemma first_at_head l tok : tok `prefix_of` l -> first_at tok l [].
Proof. intros [post ->]. exists post. split; [done|]. cbn. lia. Qed.
Lemma first_at_unique tok l pre pre' : first_at tok l pre -> first_at tok l pre' -> pre = pre'.
Proof.
  intros (post & E & H1) (post' & E' & H2).
  assert (Hd : forall p r, l = p ++ tok ++ r -> tok `prefix_of` drop (length p) l).
  { intros p r ->. rewrite drop_app_length. by exists r. }
  assert (length pre = length pre').
  { destruct (lt_eq_lt_dec (length pre) (length pre')) as [[Hl|Hl]|Hl]; [|done|]; exfalso; [by eapply H2, Hd|by eapply H1, Hd]. }
  rewrite E in E'. by apply app_inj_1 in E' as [-> _].
Qed.

(** lwIP's search never leaves the buffer and finds the first occurrence
    that lies in the first [n] bytes, not behind a zero. *)
Lemma strnstr_spec tok buf : forall n, (2 <= length tok)%nat -> buf <> [] -> n <= Z.of_nat (length buf) -> 0 <= n ->
  exists r, lwip_strnstr buf tok n = Some r /\
    match r with
    | Some p => exists pre, first_at tok buf pre /\ p = Z.of_nat (length pre) /\ p + Z.of_nat (length tok) <= n /\ 0 ∉ pre
    | None => forall pre, first_at tok buf pre -> Z.of_nat (length pre) + Z.of_nat (length tok) <= n -> 0 ∈ pre \/ 0 ∈ tok
    end.
Proof.
  induction buf as [|c buf IH]; intros n Ht Hb Hn Hn0; [done|]. cbn [lwip_strnstr]. cbn [length] in Hn.
  destruct (Z.eqb_spec c 0) as [->|Hc]; cbn [orb].
  { exists None. split; [done|]. intros pre (post & E & _) _. destruct pre as [|p pre]; [|injection E as <- _; left; left].
    destruct tok as [|t tok]; [cbn in Ht; lia|]. injection E as <- _. right. left. }
  destruct (Z.ltb_spec n (Z.of_nat (length tok))) as [Hs|Hs].
  { exists None. split; [done|]. intros pre _ Hl. lia. }
  rewrite strncmp_spec by (cbn; lia). cbn [mbind option_bind].
  destruct (bool_decide_reflect (tok `prefix_of` c :: buf)) as [Hp|Hp].
  { exists (Some 0). split; [done|]. exists []. split; [by apply first_at_head|]. cbn. split; [done|]. split; [lia|apply not_elem_of_nil]. }
  destruct (IH (n - 1)) as (r & -> & Hr); [done|intros ->; cbn in *; lia|lia|lia|]. cbn [mbind option_bind].
  exists (option_map Z.succ r). split; [done|]. destruct r as [p|]; cbn [option_map].
  - destruct Hr as (pre & Hf & -> & Hl & Hz). exists (c :: pre). rewrite first_at_cons by done. split; [done|]. cbn [length]. split; [lia|]. split; [lia|].
    rewrite not_elem_of_cons. done.
  - intros pre Hf Hl. destruct pre as [|p pre]; [destruct Hf as (post & E & _); exfalso; apply Hp; rewrite E; by exists post|].
    pose proof Hf as (post & E & _). injection E as <- _. rewrite first_at_cons in Hf by done. rewrite elem_of_cons. destruct (Hr pre Hf); [cbn in Hl; lia|tauto..].
Qed.

(** ** Numbers *)

(** [atoi] stops: something other than blanks, a sign and digits is there. *)
Definition drop_digits : list Z -> list Z := fix go l := match l with c :: r => if isdigit c then go r else l | [] => [] end.
Fixpoint drop_ws (l : list Z) : list Z := match l with c :: r => if isspace c then drop_ws r else l | [] => [] end.
Definition drop_sign (l : list Z) : list Z := match l with c :: r => if (c =? 45) || (c =? 43) then r else l | [] => [] end.
Definition atoi_stops (l : list Z) : bool := bool_decide (drop_digits (drop_sign (drop_ws l)) <> []).

Lemma skip_ws_spec l : skip_ws l = match drop_ws l with [] => None | l => Some l end.
Proof. induction l as [|c l IH]; [done|]. cbn. by destruct (isspace c). Qed.
Lemma digits_total acc l : digits acc l = None <-> drop_digits l = [].
Proof. revert acc. induction l as [|c l IH]; intros acc; [done|]. cbn. destruct (isdigit c); [apply IH|done]. Qed.
Lemma atoi_total l : is_Some (atoi l) <-> atoi_stops l = true.
Proof.
  unfold atoi, atoi_stops. rewrite skip_ws_spec, bool_decide_eq_true. destruct (drop_ws l) as [|c r]; cbn [mbind option_bind].
  { split; [by intros []|cbn; done]. }
  cbn [drop_sign]. destruct (c =? 45), (c =? 43); cbn [orb];
    (destruct (digits 0 _) as [v|] eqn:E; cbn [mbind option_bind];
     [split; [intros _ E'; apply (proj2 (digits_total 0 _)) in E'; congruence|done]|apply digits_total in E; rewrite E; split; [by intros []|done]]).
Qed.

(** The value of a digit string. *)
Definition digits_value (ds : list Z) : Z := foldl (fun acc d => acc * 10 + (d - 48)) 0 ds.
Lemma digits_app acc ds c l : Forall isdigit ds -> isdigit c = false -> digits acc (ds ++ c :: l) = Some (foldl (fun acc d => acc * 10 + (d - 48)) acc ds).
Proof.
  intros Hd Hc. revert acc. induction Hd as [|d ds Hd _ IH]; intros acc; cbn [digits app foldl].
  - by rewrite Hc.
  - rewrite (Is_true_eq_true _ Hd). apply IH.
Qed.
Lemma digit_not_special d : isdigit d = true -> isspace d = false /\ (d =? 45) = false /\ (d =? 43) = false.
Proof. unfold isdigit, isspace. intros Hd. bools_to_props. repeat (rewrite ?orb_false_iff, ?andb_false_iff, ?Z.eqb_neq, ?Z.leb_gt). lia. Qed.
Lemma digits_value_nonneg ds : Forall isdigit ds -> 0 <= digits_value ds.
Proof.
  unfold digits_value. assert (Hg : forall acc, 0 <= acc -> Forall isdigit ds -> 0 <= foldl (fun acc d => acc * 10 + (d - 48)) acc ds); [|intros; apply Hg; [lia|done]].
  intros acc Ha Hd. revert acc Ha. induction Hd as [|d ds Hd _ IH]; intros acc Ha; cbn; [done|]. apply IH.
  apply Is_true_eq_true in Hd. unfold isdigit in Hd. bools_to_props. lia.
Qed.
Lemma atoi_digits ds c l : ds <> [] -> Forall isdigit ds -> isdigit c = false -> digits_value ds < 2 ^ 31 -> atoi (ds ++ c :: l) = Some (digits_value ds).
Proof.
  intros Hne Hd Hc Hv. pose proof (digits_value_nonneg ds Hd) as Hnn. destruct ds as [|d ds]; [done|]. pose proof Hd as Hd'. apply Forall_cons in Hd' as [Hd1 _].
  apply Is_true_eq_true in Hd1. destruct (digit_not_special d Hd1) as (E1 & E2 & E3).
  unfold atoi. rewrite skip_ws_spec. cbn [app drop_ws]. rewrite E1. cbn [mbind option_bind]. rewrite E2, E3.
  change (d :: ds ++ c :: l) with ((d :: ds) ++ c :: l). rewrite digits_app by done. cbn [mbind option_bind]. fold (digits_value (d :: ds)).
  unfold sat_i32. rewrite (proj2 (Z.ltb_ge _ _)), (proj2 (Z.leb_gt _ _)) by lia. done.
Qed.

(** ** Chunks into buffers *)

Definition bytes_of (chunks : list (list Z)) : list Z := concat chunks.
(** lwIP: a netbuf is not empty, and its length is a [u16_t]. *)
Definition netbuf_ok (chunks : list (list Z)) : Prop := 0 < Z.of_nat (length (bytes_of chunks)) < 65536.

Lemma chunks_len_spec chunks : forall len, 0 <= len -> len + Z.of_nat (length (bytes_of chunks)) < 65536 ->
  chunks_len len chunks = len + Z.of_nat (length (bytes_of chunks)).
Proof.
  unfold bytes_of. induction chunks as [|c cs IH]; intros len H0 Hl; cbn [chunks_len concat] in *; [cbn; lia|].
  rewrite length_app in *. rewrite u16_small by word_lia. rewrite IH by lia. lia.
Qed.

Lemma wr_n_at (data v : list Z) i : 0 <= i -> i + Z.of_nat (length v) <= Z.of_nat (length data) ->
  exists data', wr_n data i v = Some data' /\ length data' = length data /\
    take (Z.to_nat i + length v) data' = take (Z.to_nat i) data ++ v.
Proof.
  intros Hi Hl. rewrite wr_n_in_bounds by done. eexists. split; [done|].
  rewrite !length_app, length_take, length_drop. split; [lia|].
  rewrite app_assoc, take_app_le by (rewrite length_app, length_take; lia). apply take_ge. rewrite length_app, length_take. lia.
Qed.

Lemma copy_chunks_spec chunks : forall data len, 0 <= len -> len + Z.of_nat (length (bytes_of chunks)) = Z.of_nat (length data) -> Z.of_nat (length data) < 65536 ->
  copy_chunks data len chunks = Some (take (Z.to_nat len) data ++ bytes_of chunks, Z.of_nat (length data)).
Proof.
  unfold bytes_of. induction chunks as [|c cs IH]; intros data len H0 Hl Hs; cbn [copy_chunks concat] in *.
  - rewrite app_nil_r. cbn in Hl. rewrite take_ge by lia. do 2 f_equal. lia.
  - rewrite length_app in Hl. destruct (wr_n_at data c len) as (d & -> & Hd & Ht); [lia|lia|]. cbn [mbind option_bind].
    rewrite u16_small by word_lia. rewrite IH by lia. rewrite Hd. replace (Z.to_nat (len + Z.of_nat (length c))) with (Z.to_nat len + length c)%nat by lia.
    by rewrite Ht, <-app_assoc.
Qed.

(** A buffer of [need] bytes holds the first of the bytes received. *)
Definition holds (need : Z) (received data : list Z) (len : Z) : Prop :=
  Z.of_nat (length data) = need /\ len = Z.of_nat (length received) `min` need /\ take (Z.to_nat len) data = take (Z.to_nat need) received.

Lemma holds_more need R data len v : holds need R data len -> len < need ->
  exists data', wr_n data len (take (Z.to_nat (need - len)) v) = Some data' /\
    holds need (R ++ v) data' (len + Z.of_nat (length v) `min` (need - len)).
Proof.
  intros (Hl & Hlen & Ht) Hlt. set (v' := take _ v). assert (Hv : Z.of_nat (length v') = Z.of_nat (length v) `min` (need - len)) by (unfold v'; rewrite length_take; lia).
  destruct (wr_n_at data v' len) as (d & -> & Hd & Hdt); [lia|lia|]. exists d. split; [done|]. rewrite <-Hv.
  split; [lia|]. split; [rewrite length_app; lia|].
  replace (Z.to_nat (len + Z.of_nat (length v'))) with (Z.to_nat len + length v')%nat by lia. rewrite Hdt, Ht.
  rewrite (take_ge R) by lia. rewrite take_app. rewrite (take_ge R) by lia. f_equal. unfold v'. f_equal. lia.
Qed.

Lemma fill_chunks_spec need chunks : forall R data len, 0 < need < 65536 -> holds need R data len -> len < need ->
  exists data' len', fill_chunks data len need chunks = Some (data', len') /\ holds need (R ++ bytes_of chunks) data' len'.
Proof.
  unfold bytes_of. induction chunks as [|c cs IH]; intros R data len Hn Hh Hlt; cbn [fill_chunks concat].
  - exists data, len. by rewrite app_nil_r.
  - assert (Hlen : 0 <= len) by (destruct Hh as (_ & -> & _); lia). rewrite (u16_small (need - len)) by word_lia.
    set (k := if _ <? _ then _ else _). assert (Hk : k = Z.of_nat (length c) `min` (need - len)) by (unfold k; destruct (Z.ltb_spec (need - len) (Z.of_nat (length c))); lia).
    clearbody k. destruct (holds_more need R data len c Hh Hlt) as (d & Hw & Hd).
    assert (E : take (Z.to_nat k) c = take (Z.to_nat (need - len)) c).
    { destruct (Z.le_gt_cases (Z.of_nat (length c)) (need - len)); [rewrite !take_ge by lia; done|f_equal; lia]. }
    rewrite E, Hw. cbn [mbind option_bind]. rewrite u16_small by word_lia. rewrite <-Hk in Hd.
    destruct (Z.leb_spec need (len + k)) as [Hfull|Hmore].
    + exists d, (len + k). split; [done|]. destruct Hd as (Hd1 & Hd2 & Hd3). rewrite length_app in Hd2. split; [done|].
      rewrite !length_app. split; [lia|]. rewrite Hd3, app_assoc. rewrite (take_app_le (R ++ c)) by (rewrite length_app; lia). done.
    + rewrite app_assoc. by apply IH.
Qed.

(** ** Paths *)

Definition occurs (tok l : list Z) : Prop := exists a b, l = a ++ tok ++ b.

Lemma strstr_None (s tok : list Z) : strstr s tok = None <-> ~ occurs tok s.
Proof.
  induction s as [|c s IH]; cbn [strstr].
  - destruct (bool_decide_reflect (tok `prefix_of` [])) as [[z Hz]|Hno].
    + split; [done|]. intros Hn. destruct Hn. by exists [], z.
    + split; [|done]. intros _ (a & b & E). apply Hno. destruct a; [by exists b|done].
  - destruct (bool_decide_reflect (tok `prefix_of` c :: s)) as [[z Hz]|Hno].
    + split; [done|]. intros Hn. destruct Hn. by exists [], z.
    + transitivity (strstr s tok = None); [destruct (strstr s tok); cbn; naive_solver|]. rewrite IH. split; intros Hn (a & b & E).
      * destruct a as [|a0 a]; [by apply Hno; exists b|]. injection E as <- E. apply Hn. by exists a, b.
      * apply Hn. exists (c :: a), b. by rewrite E.
Qed.

(** A path below the directory of web pages that never climbs: no [..]
    before a slash. *)
Definition confined (path : list Z) : Prop := str "www/" `prefix_of` path /\ ~ occurs (str "../") path /\ (length path <= 31)%nat.
Definition event_ok {build : HttpBuild} (e : event) : Prop :=
  match e with
  | E_open path _ => confined path
  | E_call f => exists r, r ∈ s_api_routes /\ (get_cb r = Some f \/ post_cb r = Some f)
  | _ => True
  end.

Lemma occurs_app_l tok a l : occurs tok l -> occurs tok (a ++ l).
Proof. intros (x & y & ->). exists (a ++ x), y. by rewrite app_assoc. Qed.
Lemma occurs_app_r tok l b : occurs tok l -> occurs tok (l ++ b).
Proof. intros (x & y & ->). exists x, (y ++ b). by rewrite <-!app_assoc. Qed.

(** Inside [a ++ l], a token whose first character is not in [a] is in [l]. *)
Lemma occurs_skip t tok a l : t ∉ a -> occurs (t :: tok) (a ++ l) -> occurs (t :: tok) l.
Proof.
  intros Ha (x & y & E). apply app_eq_inv in E as [(k & -> & Ek)|(k & -> & Ek)]; [|by exists k, y].
  destruct k as [|c k]; [exists [], y; by rewrite Ek|]. injection Ek as <- _. destruct Ha. apply elem_of_app. right. left.
Qed.
(** Inside [l ++ b], one whose last character is not in [b] is in [l]. *)
Lemma occurs_stop t tok l b : t ∉ b -> occurs (tok ++ [t]) (l ++ b) -> occurs (tok ++ [t]) l.
Proof.
  intros Hb (x & y & E). rewrite app_assoc in E. apply app_eq_inv in E as [(k & E1 & E2)|(k & E1 & E2)].
  - exists x, k. by rewrite E1, <-!app_assoc.
  - destruct k as [|c k _] using rev_ind; [exists x, []; by rewrite !app_nil_r in *|].
    rewrite !app_assoc in E1. apply app_inj_tail in E1 as [_ ->]. destruct Hb. rewrite E2. apply elem_of_app. left. apply elem_of_app. right. left.
Qed.

(** ** The environment's promises

    [pending w]: when known, the netbufs that the next calls of
    [netconn_recv] return, in a world where allocation succeeds; [file_rest]:
    what is left to read of the open file. *)

Class HttpLaws (J W : Type) `{HttpEnv J W} (pending : W -> option (list (list (list Z)))) (file_rest : W -> list Z) := {
  recv_netbuf_ok w nb : (netconn_recv w).1 = Some nb -> netbuf_ok nb;
  recv_pending w nb l : pending w = Some (nb :: l) -> (netconn_recv w).1 = Some nb /\ pending (netconn_recv w).2 = Some l;
  malloc_length n w b : (os_malloc n w).1 = Some b -> Z.of_nat (length b) = Z.max 0 n;
  malloc_pending n w l : pending w = Some l -> is_Some (os_malloc n w).1 /\ pending (os_malloc n w).2 = Some l;
  malloc_rest n w : file_rest (os_malloc n w).2 = file_rest w;
  write_rest d w : file_rest (netconn_write_partly d w).2 = file_rest w;
  (** [lfs_file_read] gives the next bytes, 0 only at the end, or fails *)
  read_rest n w : 0 < n -> let r := (lfs_file_read n w).1 in
    r.1 < 0 \/ r.1 = Z.of_nat (length r.2) /\ file_rest w = r.2 ++ file_rest (lfs_file_read n w).2 /\ (r.1 = 0 -> file_rest w = []);
}.

Section Receive.
Context {J : Type} `{Json J} {W : Type} `{HttpEnv J W} {build : HttpBuild}.
Context {pending : W -> option (list (list (list Z)))} {file_rest : W -> list Z} `{!HttpLaws J W pending file_rest}.
#[local] Abbreviation http := (http W).
Implicit Types s : http.

Definition b2z (b : bool) : Z := if b then 1 else 0.
(** What is allocated beyond the start [s0] is what the pointers hold. *)
Definition owns s0 s : Prop := live s = live s0 + b2z (h_data s) /\ live_nb s = live_nb s0 + b2z (h_nb s).
Definition is_write (e : event) : Prop := match e with E_write _ _ _ => True | _ => False end.

(** Neither the pointers nor the allocations change; [evs] happened. *)
Record quiet s s' (evs : list event) : Prop := {
  q_trace : trace s' = trace s ++ evs;
  q_live : live s' = live s;
  q_live_nb : live_nb s' = live_nb s;
  q_data : h_data s' = h_data s;
  q_nb : h_nb s' = h_nb s;
}.
Lemma http_quiet_refl s : quiet s s [].
Proof using. constructor; by rewrite ?app_nil_r. Qed.
Lemma http_quiet_trans s1 s2 s3 e1 e2 : quiet s1 s2 e1 -> quiet s2 s3 e2 -> quiet s1 s3 (e1 ++ e2).
Proof using. intros [T1 ? ? ? ?] [T2 ? ? ? ?]. constructor; [by rewrite T2, T1, app_assoc|congruence..]. Qed.
Lemma quiet_owns s0 s s' evs : owns s0 s -> quiet s s' evs -> owns s0 s'.
Proof using. intros [H1 H2] [_ E1 E2 E3 E4]. unfold owns. by rewrite E1, E2, E3, E4. Qed.
Lemma quiet_hw s w : quiet s (s <| hw := w |>) [].
Proof using. constructor; rsimpl; by rewrite ?app_nil_r. Qed.

Lemma wp_env {A} (f : W -> A * W) (Q : A -> http -> Prop) s : Q (f (hw s)).1 (s <| hw := (f (hw s)).2 |>) -> wp (env f) Q s.
Proof using. unfold wp, env. by destruct (f (hw s)). Qed.
Lemma wp_emit e (Q : unit -> http -> Prop) s : Q tt (s <| trace ::= fun t => t ++ [e] |>) -> wp (emit e) Q s.
Proof using. done. Qed.

Lemma http_write_spec data s : wp (http_write_bytes data) (fun err s' => exists written, quiet s s' [E_write data err written] /\
  (netconn_write_partly data (hw s)).1 = (err, written) /\ hw s' = (netconn_write_partly data (hw s)).2) s.
Proof using.
  unfold http_write_bytes. apply wp_bind, wp_env. destruct (netconn_write_partly data (hw s)).1 as [err written] eqn:E.
  apply wp_bind, wp_emit, wp_ret. exists written. rsimpl. split; [|by split]. constructor; by rsimpl.
Qed.

Lemma malloc_spec n s : wp (malloc n) (fun r s' =>
  r = (os_malloc n (hw s)).1 /\ hw s' = (os_malloc n (hw s)).2 /\ trace s' = trace s /\ live_nb s' = live_nb s /\ h_data s' = h_data s /\ h_nb s' = h_nb s /\
  match r with None => live s' = live s | Some b => live s' = live s + 1 /\ Z.of_nat (length b) = Z.max 0 n end) s.
Proof using Type*.
  unfold malloc. apply wp_bind, wp_env. destruct (os_malloc n (hw s)).1 as [b|] eqn:E.
  - apply wp_bind, wp_modify, wp_ret. rsimpl. repeat (split; [done|]). exact (malloc_length n (hw s) b E).
  - apply wp_ret. by rsimpl.
Qed.

Lemma send_raw_spec code ct body s : wp (http_send_raw code ct body) (fun _ s' => exists evs, quiet s s' evs /\ Forall is_write evs) s.
Proof using Type*.
  unfold http_send_raw. apply wp_bind. eapply wp_mono; [apply malloc_spec|]. intros [hdr|] s1 (_ & _ & T1 & N1 & D1 & B1 & L1); cbv beta.
  2: { apply wp_ret. exists []. split; [constructor; by rewrite ?app_nil_r|constructor]. }
  destruct L1 as [L1 _]. apply wp_bind. eapply wp_mono; [apply http_write_spec|]. intros err s2 (wr2 & Q2 & _). cbv beta.
  apply wp_bind. apply wp_mono with (fun _ s3 => exists evs, quiet s2 s3 evs /\ Forall is_write evs).
  - destruct (err =? 0); [|apply wp_ret; exists []; split; [apply http_quiet_refl|constructor]].
    apply wp_when; intros _; [|exists []; split; [apply http_quiet_refl|constructor]].
    apply wp_bind. eapply wp_mono; [apply http_write_spec|]. intros err3 s3 (wr3 & Q3 & _). apply wp_ret. eexists. split; [exact Q3|]. by repeat constructor.
  - intros _ s3 (evs & Q3 & Hw). apply wp_modify. pose proof (http_quiet_trans _ _ _ _ _ Q2 Q3) as [T L N D B].
    exists ([E_write (http_header code ct (Z.of_nat (length body))) err wr2] ++ evs). split; [|by constructor].
    constructor; rsimpl; [|lia|congruence..]. by rewrite T, T1.
Qed.

Lemma http_recv_spec s0 s : owns s0 s -> h_nb s = false -> wp recv (fun r s' =>
  owns s0 s' /\ h_data s' = h_data s /\
  match r with
  | None => trace s' = trace s /\ forall nb l, pending (hw s) <> Some (nb :: l)
  | Some nb => trace s' = trace s ++ [E_recv nb] /\ netbuf_ok nb /\ h_nb s' = true /\
      (forall nb' l, pending (hw s) = Some (nb' :: l) -> nb = nb' /\ pending (hw s') = Some l)
  end) s.
Proof using Type*.
  intros [H1 H2] Hnb. rewrite Hnb in H2. cbn in H2. unfold recv. apply wp_bind, wp_env.
  destruct (netconn_recv (hw s)).1 as [nb|] eqn:E.
  - apply wp_bind, wp_modify, wp_bind, wp_emit, wp_ret. unfold owns. rsimpl. cbn [b2z].
    split; [lia|]. split; [done|]. split; [done|]. split; [by eapply recv_netbuf_ok|]. split; [done|].
    intros nb' l Hp. destruct (recv_pending _ _ _ Hp) as [E' Hp']. split; [congruence|done].
  - apply wp_bind, wp_modify, wp_ret. unfold owns. rsimpl. cbn [b2z]. split; [lia|]. split; [done|]. split; [done|].
    intros nb l Hp. destruct (recv_pending _ _ _ Hp). congruence.
Qed.

(** ** Collecting the request *)

Definition all_bytes (nbs : list (list (list Z))) : list Z := concat (map bytes_of nbs).
(** What came and what was announced: one continues the other. *)
Definition agree (nbs lst : list (list (list Z))) : Prop := nbs `prefix_of` lst \/ lst `prefix_of` nbs.
Lemma agree_nil lst : agree [] lst.
Proof using. left. apply prefix_nil. Qed.
Lemma agree_cons nb nbs lst : agree nbs lst -> agree (nb :: nbs) (nb :: lst).
Proof using. intros [Hp|Hp]; [left|right]; by apply prefix_cons. Qed.
Lemma all_bytes_prefix nbs lst : nbs `prefix_of` lst -> all_bytes nbs `prefix_of` all_bytes lst.
Proof using. intros [k ->]. unfold all_bytes. rewrite map_app, concat_app. by eexists. Qed.

Lemma recv_rest_spec s0 need fuel : 0 < need < 65536 -> forall R data len s, owns s0 s -> holds need R data len -> need - len <= Z.of_nat fuel ->
  wp (recv_rest fuel data len need) (fun r s' => exists nbs evs, trace s' = trace s ++ map E_recv nbs ++ evs /\ owns s0 s' /\ h_data s' = h_data s /\
    match r with
    | Some (d, l) => evs = [] /\ l = need /\ holds need (R ++ all_bytes nbs) d l /\ forall lst, pending (hw s) = Some lst -> agree nbs lst
    | None => Forall is_write evs /\ forall l, pending (hw s) = Some l -> Z.of_nat (length R + length (all_bytes l)) < need
    end) s.
Proof using Type*.
  intros Hn. induction fuel as [|fuel IH]; intros R data len s Ho Hh Hf; cbn [recv_rest].
  { pose proof Hh as (_ & Hl & _). rewrite (proj2 (Z.leb_le _ _)) by lia. apply wp_ret. exists [], []. unfold all_bytes. cbn. rewrite !app_nil_r.
    repeat (split; [done|]). split; [lia|]. split; [done|]. intros; apply agree_nil. }
  destruct (Z.leb_spec need len) as [Hfull|Hlt].
  { pose proof Hh as (_ & Hl & _). apply wp_ret. exists [], []. unfold all_bytes. cbn. rewrite !app_nil_r. repeat (split; [done|]). split; [lia|]. split; [done|]. intros; apply agree_nil. }
  apply wp_bind, wp_gets, wp_bind.
  apply wp_mono with (fun _ s1 => owns s0 s1 /\ h_nb s1 = false /\ trace s1 = trace s /\ h_data s1 = h_data s /\ hw s1 = hw s).
  { destruct Ho as [H1 H2]. apply wp_when; intros E; [apply wp_modify; unfold owns; rsimpl; rewrite E in H2; cbn in *; split; [lia|done]|by split; [split|]]. }
  intros _ s1 (Ho1 & Hnb1 & Ht1 & Hd1 & Hw1). apply wp_bind. eapply wp_mono; [by apply (http_recv_spec s0)|].
  intros [nb|] s2 (Ho2 & Hd2 & Hr).
  - destruct Hr as (Ht2 & Hok & Hb2 & Hp2). destruct (fill_chunks_spec need nb R data len Hn Hh Hlt) as (d & l & Hfill & Hd).
    apply wp_bind. eapply wp_lift; [exact Hfill|]. cbv beta iota. assert (Hl : need - l <= Z.of_nat fuel).
    { destruct Hd as (_ & -> & _), Hh as (_ & -> & _), Hok. rewrite length_app. lia. }
    eapply wp_mono; [by eapply (IH (R ++ bytes_of nb))|]. cbv beta. intros r s3 (nbs & evs & Ht3 & Ho3 & Hd3 & Hr3).
    exists (nb :: nbs), evs. split; [cbn [map app]; by rewrite Ht3, Ht2, Ht1, <-app_assoc|]. split; [done|]. split; [congruence|].
    unfold all_bytes in *. cbn [map concat]. rewrite Hw1 in Hp2. destruct r as [[d' l']|].
    { destruct Hr3 as (-> & -> & Hh3 & Hp3). rewrite app_assoc. repeat (split; [done|]). intros [|nb' lst] Hpend.
      - right. apply prefix_nil.
      - destruct (Hp2 _ _ Hpend) as [<- Hpend']. by apply agree_cons, Hp3. }
    destruct Hr3 as [Hw Hp]. split; [done|].
    intros [|nb' lst] Hpend; [destruct Hh as (_ & -> & _); cbn; lia|]. destruct (Hp2 _ _ Hpend) as [<- Hp3]. specialize (Hp _ Hp3).
    cbn [map concat]. rewrite length_app in *. lia.
  - destruct Hr as [Ht2 Hp2]. apply wp_bind. eapply wp_mono; [apply send_raw_spec|]. intros _ s3 (evs & Q3 & Hw). apply wp_ret.
    exists [], evs. cbn [map app]. split; [rewrite (q_trace _ _ _ Q3); congruence|]. split; [by eapply quiet_owns|]. split; [rewrite (q_data _ _ _ Q3); congruence|].
    split; [done|]. intros [|nb l] Hpend; [destruct Hh as (_ & -> & _); cbn; lia|]. rewrite Hw1 in Hp2. by destruct (Hp2 nb l).
Qed.

Lemma recv_first_spec s0 s : owns s0 s -> h_data s = false -> h_nb s = false -> wp recv_first (fun r s' => owns s0 s' /\
  match r with
  | Some (d, l) => exists nb, (netconn_recv (hw s)).1 = Some nb /\ trace s' = trace s ++ [E_recv nb] /\ d = bytes_of nb /\ l = Z.of_nat (length d) /\
      0 < l <= HTTP_REQ_MAX_LEN /\ forall nb' lst, pending (hw s) = Some (nb' :: lst) -> nb = nb' /\ pending (hw s') = Some lst
  | None => exists nbs, trace s' = trace s ++ map E_recv nbs /\
      forall nb lst, pending (hw s) = Some (nb :: lst) -> HTTP_REQ_MAX_LEN < Z.of_nat (length (bytes_of nb))
  end) s.
Proof using Type*.
  intros Ho Hd Hb. unfold recv_first. apply wp_bind.
  apply wp_mono with (fun r s' => owns s0 s' /\ h_data s' = h_data s /\
    match r with
    | None => trace s' = trace s /\ forall nb l, pending (hw s) <> Some (nb :: l)
    | Some nb => (netconn_recv (hw s)).1 = Some nb /\ trace s' = trace s ++ [E_recv nb] /\ netbuf_ok nb /\
        (forall nb' l, pending (hw s) = Some (nb' :: l) -> nb = nb' /\ pending (hw s') = Some l)
    end).
  { pose proof (http_recv_spec s0 s Ho Hb) as Hr. unfold wp, recv, env, mbind, M_bind in *. destruct (netconn_recv (hw s)) as [[nb|] w] eqn:E; cbn in *; naive_solver. }
  intros [nb|] s1 (Ho1 & Hd1 & Hr); [destruct Hr as (Er & Ht1 & Hok & Hp1)|destruct Hr as [Ht1 Hp1]].
  2: { apply wp_ret. split; [done|]. exists []. rewrite app_nil_r. split; [done|]. intros nb lst E. by destruct (Hp1 nb lst). }
  assert (Hlen : chunks_len 0 nb = Z.of_nat (length (bytes_of nb))) by (rewrite chunks_len_spec; unfold netbuf_ok in Hok; lia).
  cbv zeta. rewrite Hlen. rewrite (proj2 (Z.eqb_neq _ 0)) by (unfold netbuf_ok in Hok; lia). cbn [orb].
  destruct (Z.ltb_spec HTTP_REQ_MAX_LEN (Z.of_nat (length (bytes_of nb)))) as [Hbig|Hsmall].
  { apply wp_ret. split; [done|]. exists [nb]. split; [done|]. intros nb' lst E. by destruct (Hp1 _ _ E) as [<- _]. }
  apply wp_bind. eapply wp_mono; [apply malloc_spec|]. intros r s2 (Er2 & Ew2 & Ht2 & Hnb2 & Hd2 & Hb2 & Hl2); cbv beta.
  assert (Hp2 : forall nb' lst, pending (hw s) = Some (nb' :: lst) -> nb = nb' /\ is_Some r /\ pending (hw s2) = Some lst).
  { intros nb' lst E. destruct (Hp1 _ _ E) as [-> E1]. destruct (malloc_pending (Z.of_nat (length (bytes_of nb'))) (hw s1) lst E1) as [Hs Hp]. by rewrite Er2, Ew2. }
  destruct Ho1 as [O1 O2]. destruct r as [b|].
  - destruct Hl2 as [Hl2 Hlb]. apply wp_bind, wp_modify, wp_bind.
    destruct (wr b (Z.of_nat (length (bytes_of nb)) - 1) 0) as [b'|] eqn:Eb'; [|unfold wr in Eb'; rewrite decide_True in Eb'; [done|unfold netbuf_ok in Hok; lia]].
    eapply wp_lift; [reflexivity|]. cbv beta. pose proof (wr_length _ _ _ _ Eb') as Hlb'. apply wp_bind.
    eapply wp_lift; [apply copy_chunks_spec; [lia|lia|unfold netbuf_ok in Hok; lia]|]. cbv beta. apply wp_ret. change (Z.to_nat 0) with 0%nat. rewrite take_0. cbn [app].
    rewrite Hd in Hd1. rewrite Hd1 in *. cbn [b2z] in *. split; [unfold owns; rsimpl; rewrite Hb2, Hl2, Hnb2; cbn [b2z]; lia|]. exists nb. rsimpl. rewrite Ht2.
    split; [done|]. split; [done|]. split; [done|]. split; [lia|]. split; [unfold netbuf_ok in Hok; lia|]. intros nb' lst E. naive_solver.
  - apply wp_ret. split; [unfold owns; rewrite Hl2, Hnb2, Hd2, Hb2; done|]. exists [nb]. rewrite Ht2. split; [done|].
    intros nb' lst E. destruct (Hp2 _ _ E) as (_ & [? ?] & _). done.
Qed.

Lemma recv_body_spec s0 s D need : owns s0 s -> 0 < need < 65536 ->
  wp (recv_body D (Z.of_nat (length D)) need) (fun r s' => owns s0 s' /\ exists nbs evs, trace s' = trace s ++ map E_recv nbs ++ evs /\
    match r with
    | Some (d, l) => evs = [] /\ d `prefix_of` D ++ all_bytes nbs /\ l = Z.of_nat (length d) /\ need <= l /\ forall lst, pending (hw s) = Some lst -> agree nbs lst
    | None => Forall is_write evs /\ forall l, pending (hw s) = Some l -> Z.of_nat (length D + length (all_bytes l)) < need
    end) s.
Proof using Type*.
  intros Ho Hn. unfold recv_body. destruct (Z.leb_spec need (Z.of_nat (length D))) as [Hfull|Hlt].
  { apply wp_ret. split; [done|]. exists [], []. unfold all_bytes. cbn. rewrite !app_nil_r. repeat (split; [done|]). intros; apply agree_nil. }
  apply wp_bind. eapply wp_mono; [apply malloc_spec|]. intros r s1 (Er1 & Ew1 & Ht1 & Hnb1 & Hd1 & Hb1 & Hl1); cbv beta. destruct Ho as [O1 O2].
  assert (Hp1 : forall l, pending (hw s) = Some l -> is_Some r /\ pending (hw s1) = Some l).
  { intros l E. destruct (malloc_pending need (hw s) l E) as [Hs Hp]. by rewrite Er1, Ew1. }
  destruct r as [b|].
  - destruct Hl1 as [Hl1 Hlb]. rewrite Nat2Z.id, take_ge by lia. destruct (wr_n_at b D 0) as (b' & Hw & Hlb' & Ht); [lia|lia|].
    apply wp_bind. eapply wp_lift; [exact Hw|]. cbv beta. apply wp_bind, wp_modify. set (s2 := s1 <| live ::= Z.pred |>).
    assert (Ho2 : owns s0 s2) by (unfold s2, owns; rsimpl; rewrite Hl1, Hnb1, Hd1, Hb1; lia).
    assert (Hh : holds need D b' (Z.of_nat (length D))).
    { split; [lia|]. split; [lia|]. change (Z.to_nat 0 + length D)%nat with (length D) in Ht. rewrite Nat2Z.id, Ht. change (Z.to_nat 0) with 0%nat. rewrite take_0, take_ge by lia. done. }
    eapply wp_mono; [apply (recv_rest_spec s0 need _ Hn D b' _ s2 Ho2 Hh); lia|]. cbv beta. intros r s3 (nbs & evs & Ht3 & Ho3 & _ & Hr).
    split; [done|]. exists nbs, evs. unfold s2 in *. rsimpl. rewrite <-Ht1. split; [done|]. destruct r as [[d l]|].
    + destruct Hr as (-> & -> & (Hd3 & _ & Ht3') & Hag). split; [done|]. rewrite take_ge in Ht3' by lia. rewrite Ht3'. split; [exists (drop (Z.to_nat need) (D ++ all_bytes nbs)); by rewrite take_drop|].
      rewrite <-Ht3'. split; [lia|]. split; [lia|]. intros lst E. apply Hag. by destruct (Hp1 _ E).
    + destruct Hr as [Hw' Hp]. split; [done|]. intros l E. apply Hp. by destruct (Hp1 _ E).
  - apply wp_ret. split; [unfold owns; rewrite Hl1, Hnb1, Hd1, Hb1; done|]. exists [], []. cbn. rewrite app_nil_r. split; [done|]. split; [done|].
    intros l E. destruct (Hp1 _ E) as [[? ?] _]. done.
Qed.

(** The length field's number ends inside the data received so far: what
    follows the first "Content-Length:" is not only blanks, line ends, a sign
    and digits. *)
Definition length_field_stops (D : list Z) : Prop :=
  forall h pre, first_at (CRLF ++ CRLF) D h -> first_at (str "Content-Length:") D pre -> (length pre + 11 <= length h)%nat ->
  atoi_stops (drop (length pre + 15) D) = true.

Lemma atoi_stops_blank c l : isspace c = true -> atoi_stops (c :: l) = atoi_stops l.
Proof using. intros E. unfold atoi_stops. cbn [drop_ws]. by rewrite E. Qed.
Lemma skip_blanks_stops n l : atoi_stops (skip_blanks n l) = atoi_stops l.
Proof using.
  revert l. induction n as [|n IH]; intros [|c l]; cbn [skip_blanks]; try done.
  destruct ((c =? 32) || (c =? 9)) eqn:E; [|done]. rewrite IH, atoi_stops_blank; [done|]. apply orb_true_iff in E as [E%Z.eqb_eq|E%Z.eqb_eq]; by subst.
Qed.

(** The length added to the header's is an [int32_t]. *)
Definition length_field_fits (D : list Z) : Prop :=
  forall h v, first_at (CRLF ++ CRLF) D h -> http_get_content_length D (Z.of_nat (length h) + 4) = Some v -> Z.of_nat (length h) + 4 + v < 2 ^ 31.
Definition length_field_ok (D : list Z) : Prop := length_field_stops D /\ length_field_fits D.

Lemma content_length_total D h : first_at (CRLF ++ CRLF) D h -> length_field_stops D ->
  is_Some (http_get_content_length D (Z.of_nat (length h) + 4)).
Proof using.
  intros Hh Hs. unfold http_get_content_length.
  assert (Hlen : (length h + 4 <= length D)%nat) by (destruct Hh as (post & -> & _); rewrite !length_app; cbn; lia).
  destruct (strnstr_spec (str "Content-Length:") D (Z.of_nat (length h) + 4)) as (r & -> & Hr); [cbn; lia|intros ->; cbn in Hlen; lia|lia|lia|]. cbn [mbind option_bind].
  destruct r as [p|]; [|done]. destruct Hr as (pre & Hf & -> & Hl & _). change (Z.of_nat (length (str "Content-Length:"))) with 15 in Hl.
  apply atoi_total. rewrite skip_blanks_stops. replace (Z.to_nat (Z.of_nat (length pre) + 15)) with (length pre + 15)%nat by lia. apply (Hs h); [done|done|lia].
Qed.

Lemma first_at_app tok l m pre : first_at tok l pre -> first_at tok (l ++ m) pre.
Proof using.
  intros (post & -> & Hq). exists (post ++ m). split; [by rewrite <-!app_assoc|]. intros q Hlt [z Hz]. apply (Hq q Hlt).
  exists (take (length (drop q (pre ++ tok ++ post)) - length tok) z).
  assert (E : drop q ((pre ++ tok ++ post) ++ m) = drop q (pre ++ tok ++ post) ++ m) by (apply drop_app_le; rewrite length_app; lia).
  rewrite E in Hz. apply (f_equal (take (length (drop q (pre ++ tok ++ post))))) in Hz. rewrite take_app_length in Hz. rewrite Hz at 1.
  rewrite take_app. f_equal. apply take_ge. rewrite length_drop, !length_app. lia.
Qed.

(** A request as it stands in the bytes received: [D], the first netbuf,
    [R], all of them. *)
Definition request_in (D R : list Z) (r : request) : Prop :=
  exists pre v, let header := pre ++ CRLF ++ CRLF in
    first_at (CRLF ++ CRLF) D pre /\ 0 ∉ pre /\
    uri r = http_get_uri header 32 /\ uri r <> [] /\ method r = http_get_method header 8 /\ method r <> [] /\
    http_get_content_length D (Z.of_nat (length header)) = Some v /\
    body r = take (Z.to_nat v) (drop (length header) R) /\ Z.of_nat (length (body r)) = Z.max 0 v.

(** A header and a length with which a request is accepted, if all its bytes
    come. *)
Definition acceptable (D pre : list Z) (v : Z) : Prop :=
  let header := pre ++ CRLF ++ CRLF in
  first_at (CRLF ++ CRLF) D pre /\ 0 ∉ pre /\ http_get_uri header 32 <> [] /\ http_get_method header 8 <> [] /\
  http_get_content_length D (Z.of_nat (length header)) = Some v /\ 0 <= v /\ Z.of_nat (length header) + v <= HTTP_REQ_MAX_LEN.

Lemma take_header D pre : first_at (CRLF ++ CRLF) D pre -> take (length pre + 4) D = pre ++ CRLF ++ CRLF.
Proof using.
  intros (post & -> & _). rewrite app_assoc. rewrite <-(app_assoc pre), app_assoc, take_app_le by (rewrite !length_app; cbn; lia).
  apply take_ge. rewrite !length_app. cbn. lia.
Qed.

Lemma send_bad code text s : wp (http_send_text code text;; mret (None : option request))
  (fun r s' => r = None /\ exists evs, quiet s s' evs /\ Forall is_write evs) s.
Proof using Type*.
  apply wp_bind. eapply wp_mono; [apply send_raw_spec|]. intros _ s1 (evs & Q & Hw). apply wp_ret. split; [done|]. by exists evs.
Qed.

(** What [http_receive] returns and leaves behind. *)
Definition received s0 s (o : option request) (s' : http) : Prop :=
  owns s0 s' /\ exists nbs evs, trace s' = trace s ++ map E_recv nbs ++ evs /\
    match o with
    | Some r => evs = [] /\ (exists nb nbs', nbs = nb :: nbs' /\ request_in (bytes_of nb) (all_bytes nbs) r) /\
        forall nb lst, pending (hw s) = Some (nb :: lst) -> agree nbs (nb :: lst)
    | None => Forall is_write evs /\ forall nb lst pre v, pending (hw s) = Some (nb :: lst) -> acceptable (bytes_of nb) pre v ->
        Z.of_nat (length (bytes_of nb)) <= HTTP_REQ_MAX_LEN -> Z.of_nat (length (all_bytes (nb :: lst))) < Z.of_nat (length (pre ++ CRLF ++ CRLF)) + v
    end.

Lemma rd_n_body (d R : list Z) i n : d `prefix_of` R -> 0 <= i -> 0 <= n -> i + n <= Z.of_nat (length d) ->
  rd_n d i n = Some (take (Z.to_nat n) (drop (Z.to_nat i) R)).
Proof using.
  intros [z ->] Hi Hn Hl. rewrite rd_n_in_bounds by done. rewrite drop_app_le by lia. rewrite take_app_le; [done|]. rewrite length_drop. lia.
Qed.

(** From the header on: the body is collected and handed over. *)
Lemma receive_body_spec s0 s1 D (pre : list Z) v : owns s0 s1 ->
  let hl := Z.of_nat (length pre) + 4 in
  0 < u16 (hl + Z.max 0 v) <= HTTP_REQ_MAX_LEN -> hl <= Z.of_nat (length D) ->
  wp (receive_body D (Z.of_nat (length D)) hl (Z.max 0 v) (u16 (hl + Z.max 0 v)))
    (fun o s' => owns s0 s' /\ exists nbs evs, trace s' = trace s1 ++ map E_recv nbs ++ evs /\
      match o with
      | Some b => evs = [] /\ b = take (Z.to_nat v) (drop (length pre + 4) (D ++ all_bytes nbs)) /\ Z.of_nat (length b) = Z.max 0 v /\
          forall lst, pending (hw s1) = Some lst -> agree nbs lst
      | None => Forall is_write evs /\ (hl + Z.max 0 v <= HTTP_REQ_MAX_LEN -> forall l, pending (hw s1) = Some l ->
          Z.of_nat (length D + length (all_bytes l)) < hl + Z.max 0 v)
      end) s1.
Proof using Type*.
  intros Ho hl Hn Hhl. assert (Hu : hl + Z.max 0 v <= HTTP_REQ_MAX_LEN -> u16 (hl + Z.max 0 v) = hl + Z.max 0 v).
  { unfold HTTP_REQ_MAX_LEN. intros. apply u16_small. word_lia. }
  unfold receive_body. apply wp_bind. eapply wp_mono; [apply (recv_body_spec s0 s1 D _ Ho); unfold HTTP_REQ_MAX_LEN in Hn; lia|].
  cbv beta. intros r s2 (Ho2 & nbs & evs & Ht2 & Hr). destruct r as [[d l]|].
  2: { apply wp_ret. split; [done|]. exists nbs, evs. split; [done|]. destruct Hr as [Hw Hp]. split; [done|]. intros Hle lst E. rewrite Hu in Hp by done. by apply Hp. }
  destruct Hr as (-> & Hpre & -> & Hge & Hag). cbv zeta. destruct (Z.ltb_spec 0 (Z.max 0 v)) as [Hv|Hv].
  - destruct (Z.ltb_spec (if Z.max 0 v <? Z.of_nat (length d) - hl then Z.max 0 v else Z.of_nat (length d) - hl) (Z.max 0 v)) as [Hshort|Hfull].
    + apply wp_bind. eapply wp_mono; [apply send_raw_spec|]. intros _ s3 (evs & Q & Hw). apply wp_ret. split; [by eapply quiet_owns|].
      exists nbs, evs. rewrite (q_trace _ _ _ Q), Ht2, app_nil_r, <-app_assoc. split; [done|]. split; [done|]. intros Hle. exfalso.
      rewrite Hu in Hge by done. destruct (Z.ltb_spec (Z.max 0 v) (Z.of_nat (length d) - hl)); lia.
    + assert (E : (if Z.max 0 v <? Z.of_nat (length d) - hl then Z.max 0 v else Z.of_nat (length d) - hl) = Z.max 0 v).
      { destruct (Z.ltb_spec (Z.max 0 v) (Z.of_nat (length d) - hl)); lia. }
      rewrite E. apply wp_bind. assert (Hlen : hl + Z.max 0 v <= Z.of_nat (length d)) by (destruct (Z.ltb_spec (Z.max 0 v) (Z.of_nat (length d) - hl)); lia).
      eapply wp_lift; [by apply (rd_n_body d (D ++ all_bytes nbs)); [|unfold hl; lia|lia|]|]. cbv beta. apply wp_ret. split; [done|]. exists nbs, []. split; [done|]. split; [done|].
      replace (Z.to_nat hl) with (length pre + 4)%nat by (unfold hl; lia). replace (Z.to_nat (Z.max 0 v)) with (Z.to_nat v) by lia. split; [done|].
      apply prefix_length in Hpre. rewrite length_take, length_drop. unfold hl in *. split; [lia|done].
  - apply wp_ret. split; [done|]. exists nbs, []. split; [done|]. split; [done|]. replace (Z.to_nat v) with 0%nat by lia. rewrite take_0. split; [done|]. cbn. split; [lia|done].
Qed.

Lemma http_receive_spec s0 s : owns s0 s -> h_data s = false -> h_nb s = false ->
  (forall nb, (netconn_recv (hw s)).1 = Some nb -> length_field_ok (bytes_of nb)) ->
  wp http_receive (received s0 s) s.
Proof using Type*.
  intros Ho Hd Hb Hsafe. unfold http_receive. apply wp_bind.
  eapply wp_mono; [by apply recv_first_spec|]. cbv beta. intros r s1 (Ho1 & Hr). destruct r as [[D l]|].
  2: { destruct Hr as (nbs & Ht & Hp). apply wp_ret. split; [done|]. exists nbs, []. rewrite app_nil_r. split; [done|]. split; [done|].
       intros nb lst pre v E _ Hl. specialize (Hp _ _ E). lia. }
  destruct Hr as (nb & Er & Ht1 & ED & -> & Hl & Hp1). subst D. set (D := bytes_of nb) in *. destruct (Hsafe nb Er) as [Hstop Hfits]. fold D in Hstop, Hfits.
  (* a failing branch answers and keeps the books *)
  assert (Hfail : forall code text, (forall nb' lst pre v, pending (hw s) = Some (nb' :: lst) -> acceptable (bytes_of nb') pre v -> False) ->
    wp (http_send_text code text;; mret None) (received s0 s) s1).
  { intros code text Hno. eapply wp_mono; [apply send_bad|]. intros o s2 (-> & evs & Q & Hw). split; [by eapply quiet_owns|].
    exists [nb], evs. rewrite (q_trace _ _ _ Q), Ht1, <-app_assoc. split; [done|]. split; [done|]. intros nb' lst pre v E Ha. by destruct (Hno _ _ _ _ E Ha). }
  assert (Hacc : forall nb' lst pre v, pending (hw s) = Some (nb' :: lst) -> acceptable (bytes_of nb') pre v -> acceptable D pre v).
  { intros nb' lst pre v E. by destruct (Hp1 _ _ E) as [<- _]. }
  assert (HD : D <> []) by (intros E; rewrite E in Hl; cbn in Hl; lia).
  destruct (strnstr_spec (CRLF ++ CRLF) D (Z.of_nat (length D))) as (o & Eo & Ho2); [cbn; lia|done|lia|lia|].
  apply wp_bind. eapply wp_lift; [exact Eo|]. cbv beta. destruct o as [p|].
  2: { apply Hfail. intros nb' lst pre v E Ha. destruct (Hacc _ _ _ _ E Ha) as (Hf & Hz & _). destruct (Ho2 _ Hf) as [Hin|Hin]; [|done|].
       - destruct Hf as (post & -> & _). rewrite !length_app. lia.
       - by repeat (apply elem_of_cons in Hin as [Hin|Hin]; [discriminate|]); apply elem_of_nil in Hin. }
  destruct Ho2 as (pre & Hf & -> & Hpl & Hz). change (Z.of_nat (length (CRLF ++ CRLF))) with 4 in Hpl.
  assert (Hpre : forall nb' lst pre' v, pending (hw s) = Some (nb' :: lst) -> acceptable (bytes_of nb') pre' v -> pre' = pre).
  { intros nb' lst pre' v E Ha. destruct (Hacc _ _ _ _ E Ha) as (Hf' & _). by eapply first_at_unique. }
  cbv zeta. replace (Z.to_nat (Z.of_nat (length pre) + 4)) with (length pre + 4)%nat by lia. rewrite (take_header D pre Hf). set (header := pre ++ CRLF ++ CRLF) in *.
  assert (Hhl : Z.of_nat (length header) = Z.of_nat (length pre) + 4) by (unfold header; rewrite length_app; cbn; lia).
  destruct (bool_decide _ || bool_decide _) eqn:Eb.
  { apply Hfail. intros nb' lst pre' v E Ha. pose proof (Hpre _ _ _ _ E Ha) as ->. destruct (Hacc _ _ _ _ E Ha) as (_ & _ & H3 & H4 & _).
    apply orb_true_iff in Eb as [Eb|Eb]; by apply bool_decide_eq_true in Eb. }
  apply orb_false_iff in Eb as [Eu Em]. apply bool_decide_eq_false in Eu, Em.
  destruct (content_length_total D pre Hf Hstop) as [v Ev]. specialize (Hfits pre v Hf Ev). rewrite <-Hhl. rewrite <-Hhl in Ev. apply wp_bind. eapply wp_lift; [exact Ev|]. cbv beta.
  assert (Hv : forall nb' lst pre' v', pending (hw s) = Some (nb' :: lst) -> acceptable (bytes_of nb') pre' v' -> v' = v /\ 0 <= v /\ Z.of_nat (length header) + v <= HTTP_REQ_MAX_LEN).
  { intros nb' lst pre' v' E Ha. pose proof (Hpre _ _ _ _ E Ha) as ->. destruct (Hacc _ _ _ _ E Ha) as (_ & _ & _ & _ & Ev' & H5 & H6). fold header in Ev', H6.
    rewrite Ev in Ev'. by injection Ev' as ->. }
  assert (Emax : (if v <? 0 then 0 else v) = Z.max 0 v) by (destruct (Z.ltb_spec v 0); lia). rewrite Emax.
  apply wp_bind. eapply wp_lift with (a := Z.of_nat (length header) + Z.max 0 v).
  { unfold add_i32. rewrite bool_decide_true; [done|]. unfold HTTP_REQ_MAX_LEN in Hl. word_lia. } cbv beta.
  destruct ((_ =? 0) || _) eqn:Eb.
  { apply Hfail. intros nb' lst pre' v' E Ha. destruct (Hv _ _ _ _ E Ha) as (_ & H5 & H6). unfold HTTP_REQ_MAX_LEN in *. rewrite u16_small in Eb by word_lia.
    apply orb_true_iff in Eb as [Eb|Eb]; [apply Z.eqb_eq in Eb|apply Z.ltb_lt in Eb]; lia. }
  apply orb_false_iff in Eb as [E1 E2]. apply Z.eqb_neq in E1. apply Z.ltb_ge in E2. pose proof (u16_range (Z.of_nat (length header) + Z.max 0 v)) as Hu.
  apply wp_bind. rewrite Hhl. eapply wp_mono; [apply (receive_body_spec s0 s1 D pre v Ho1); rewrite <-?Hhl; [unfold is_u16 in Hu; lia|lia]|].
  cbv beta. intros b s2 (Ho3 & nbs & evs & Ht2 & Hb2). apply wp_ret. split; [done|]. exists (nb :: nbs), evs. rewrite Ht2, Ht1. cbn [map].
  split; [by rewrite <-app_assoc|]. destruct b as [b|]; cbn [option_map].
  - destruct Hb2 as (-> & Eb & Hlb & Hag). split; [done|]. split; [|intros nb' lst E; destruct (Hp1 _ _ E) as [<- E']; by apply agree_cons, Hag].
    exists nb, nbs. split; [done|]. exists pre, v. fold header. cbn [uri method body].
    replace (length header) with (length pre + 4)%nat by lia. unfold all_bytes in *. cbn [map concat]. fold D.
    repeat (split; [done|]). split; [|by split]. rewrite <-Ev. f_equal. lia.
  - destruct Hb2 as [Hw Hp]. split; [done|]. intros nb' lst pre' v' E Ha Hl'. pose proof (Hpre _ _ _ _ E Ha) as ->. destruct (Hv _ _ _ _ E Ha) as (-> & H5 & H6).
    destruct (Hp1 _ _ E) as [<- Hp']. fold header. unfold all_bytes in *. cbn [map concat]. fold D. rewrite length_app. specialize (Hp ltac:(lia) _ Hp'). lia.
Qed.

(** ** Answering *)

Lemma skip_slashes_suffix (u : list Z) : exists a, u = a ++ skip_slashes u.
Proof using. induction u as [|c u [a IH]]; [by exists []|]. cbn [skip_slashes]. destruct (c =? 47); [exists (c :: a); by rewrite IH at 1|by exists []]. Qed.

Lemma confined_path (u suf : list Z) : http_path_is_safe u = true -> 47 ∉ suf -> confined (snprintf 32 (str "www/" ++ skip_slashes u ++ suf)).
Proof using.
  intros Hs Hsuf. split; [|split].
  - eexists. unfold snprintf. rewrite take_app_ge by (cbn; lia). reflexivity.
  - intros Ho. assert (Hw : occurs (str "../") ((str "www/" ++ skip_slashes u) ++ suf)).
    { rewrite <-app_assoc. rewrite <-(take_drop (Z.to_nat (32 - 1)) (str "www/" ++ _)). by apply occurs_app_r. }
    apply (occurs_stop 47 [46; 46]) in Hw; [|done]. apply (occurs_skip 46 [46; 47] (str "www/")) in Hw.
    2: { intros Hin. by repeat (apply elem_of_cons in Hin as [Hin|Hin]; [discriminate|]); apply elem_of_nil in Hin. }
    unfold http_path_is_safe in Hs. destruct (strstr u (str "..")) eqn:E; [done|]. apply strstr_None in E. apply E.
    destruct (skip_slashes_suffix u) as [a ->]. apply occurs_app_l. destruct Hw as (x & y & ->). exists x, ([47] ++ y). done.
  - unfold snprintf. rewrite length_take. lia.
Qed.
Lemma skip_slashes_idem (u : list Z) : skip_slashes (skip_slashes u) = skip_slashes u.
Proof using. induction u as [|c u IH]; [done|]. cbn [skip_slashes]. destruct (c =? 47) eqn:E; [done|]. cbn [skip_slashes]. by rewrite E. Qed.

(** [evs] are the only changes, and all are allowed. *)
Definition fine s s' : Prop := exists evs, quiet s s' evs /\ Forall event_ok evs.
Lemma fine_refl s : fine s s.
Proof using. exists []. split; [apply http_quiet_refl|constructor]. Qed.
Lemma fine_trans s1 s2 s3 : fine s1 s2 -> fine s2 s3 -> fine s1 s3.
Proof using. intros (e1 & Q1 & F1) (e2 & Q2 & F2). exists (e1 ++ e2). split; [by eapply http_quiet_trans|by apply Forall_app]. Qed.
Lemma fine_emit s e : event_ok e -> fine s (s <| trace ::= fun t => t ++ [e] |>).
Proof using. intros He. exists [e]. split; [constructor; by rsimpl|by repeat constructor]. Qed.
Lemma fine_hw s w : fine s (s <| hw := w |>).
Proof using. exists []. split; [apply quiet_hw|constructor]. Qed.
Lemma writes_ok evs : Forall is_write evs -> Forall event_ok evs.
Proof using. intros Hw. eapply Forall_impl; [exact Hw|]. by intros []. Qed.
Lemma send_fine code ct body s : wp (http_send_raw code ct body) (fun _ s' => fine s s') s.
Proof using Type*. eapply wp_mono; [apply send_raw_spec|]. intros _ s' (evs & Q & Hw). exists evs. split; [done|by apply writes_ok]. Qed.
Lemma malloc_fine n s : wp (malloc n) (fun r s' => file_rest (hw s') = file_rest (hw s) /\ match r with Some _ => fine s (s' <| live ::= Z.pred |>) | None => fine s s' end) s.
Proof using Type*.
  eapply wp_mono; [apply malloc_spec|]. intros r s' (Er & Ew & Ht & Hn & Hd & Hb & Hl). split; [rewrite Ew; apply malloc_rest|].
  destruct r; exists []; (split; [constructor; rsimpl; rewrite ?app_nil_r; first [done|lia]|constructor]).
Qed.
Lemma fine_free s s' : fine s s' -> fine (s <| live ::= Z.pred |>) (s' <| live ::= Z.pred |>).
Proof using. intros (evs & [T L N D B] & F). exists evs. split; [|done]. constructor; rsimpl; congruence. Qed.

Lemma serve_loop_fine fuel : forall s, (length (file_rest (hw s)) < fuel)%nat -> wp (serve_loop fuel) (fun _ s' => fine s s') s.
Proof using Type*.
  induction fuel as [|fuel IH]; intros s Hf; [lia|]. cbn [serve_loop]. apply wp_bind, wp_env.
  pose proof (read_rest HTTP_FILE_CHUNK (hw s) ltac:(done)) as Hr. cbv zeta in Hr. destruct (lfs_file_read HTTP_FILE_CHUNK (hw s)).1 as [r data]. cbn [fst snd] in Hr.
  set (s1 := s <| hw := _ |>). assert (H1 : fine s s1) by apply fine_hw. assert (E1 : hw s1 = (lfs_file_read HTTP_FILE_CHUNK (hw s)).2) by (unfold s1; by rsimpl). clearbody s1.
  destruct (Z.leb_spec r 0) as [H0'|H0']; [by apply wp_ret|]. destruct Hr as [Hr|(Hr & Hrest & _)]; [lia|].
  apply wp_bind, wp_emit. set (s2 := s1 <| trace ::= _ |>). assert (H2 : fine s s2) by (eapply fine_trans; [exact H1|by apply fine_emit]).
  assert (E2 : hw s2 = hw s1) by (unfold s2; by rsimpl). clearbody s2. apply wp_bind. eapply wp_mono; [apply http_write_spec|].
  intros err s3 (wn & Q3 & _ & E3). assert (H3 : fine s s3) by (eapply fine_trans; [exact H2|eexists; split; [exact Q3|by repeat constructor]]).
  destruct (negb (err =? 0)); [by apply wp_ret|]. eapply wp_mono; [apply IH|].
  - rewrite E3, write_rest, E2, E1. rewrite Hrest, length_app in Hf. lia.
  - cbv beta; intros _ s4 H4. by eapply fine_trans.
Qed.

Lemma send_file_fine fuel path s : (length (file_rest (hw s)) < fuel)%nat -> wp (send_file fuel path) (fun _ s' => fine s s') s.
Proof using Type*.
  intros Hf. unfold send_file. apply wp_bind. eapply wp_mono; [apply malloc_fine|]. intros [hdr|] s1 [R1 F1]; [|by apply wp_ret].
  apply wp_bind. eapply wp_mono; [apply http_write_spec|]. intros err s2 (wn & Q2 & _ & E2). apply wp_bind, wp_modify.
  assert (F2 : fine s (s2 <| live ::= Z.pred |>)).
  { eapply fine_trans; [exact F1|]. apply fine_free. eexists. split; [exact Q2|by repeat constructor]. }
  set (s2' := s2 <| live ::= Z.pred |>) in *. assert (E2' : hw s2' = hw s2) by (unfold s2'; by rsimpl). clearbody s2'.
  destruct (negb (err =? 0)); [by apply wp_ret|]. apply wp_bind. eapply wp_mono; [apply malloc_fine|]. intros [chunk|] s3 [R3 F3].
  - apply wp_bind. eapply wp_mono; [apply serve_loop_fine; rewrite R3, E2', E2, write_rest, R1; done|]. cbv beta. intros _ s4 F4. apply wp_modify.
    eapply fine_trans; [exact F2|]. eapply fine_trans; [exact F3|]. by apply fine_free.
  - apply wp_ret. by eapply fine_trans.
Qed.

Lemma serve_file_fine fuel u s : (forall path w, (length (file_rest (lfs_file_open path w).2) < fuel)%nat) ->
  wp (http_serve_file fuel u) (fun _ s' => fine s s') s.
Proof using Type*.
  intros Hf. unfold http_serve_file. destruct (http_path_is_safe u) eqn:Hs; cbn [negb]; [|apply send_fine].
  set (pu := if bool_decide (u = str "/") then _ else _).
  assert (Hp : confined pu.1 /\ (pu.2 = str "/" \/ exists v, pu.2 = skip_slashes v /\ http_path_is_safe v = true)).
  { unfold pu. destruct (bool_decide_reflect (u = str "/")) as [->|Hne]; cbn [fst snd]; [|split; [|right; by exists u]].
    - split; [|by left]. apply (confined_path (str "index.html") (str ".gz")); [done|].
      intros Hin. by repeat (apply elem_of_cons in Hin as [Hin|Hin]; [discriminate|]); apply elem_of_nil in Hin.
    - apply confined_path; [done|]. intros Hin. by repeat (apply elem_of_cons in Hin as [Hin|Hin]; [discriminate|]); apply elem_of_nil in Hin. }
  clearbody pu. destruct pu as [path u']. cbn [fst snd] in Hp. destruct Hp as [Hc Hu'].
  assert (Hopen : forall p s, confined p -> wp (open_file p) (fun _ s' => fine s s' /\ (length (file_rest (hw s')) < fuel)%nat) s).
  { intros p t Hc'. unfold open_file. apply wp_bind, wp_env, wp_bind, wp_emit, wp_ret. rsimpl. split; [|apply Hf].
    eapply fine_trans; [apply fine_hw|by apply fine_emit]. }
  apply wp_bind. eapply wp_mono; [by apply Hopen|]. intros rc s1 [F1 L1]. apply wp_bind.
  apply wp_mono with (fun _ s2 => fine s s2 /\ (length (file_rest (hw s2)) < fuel)%nat).
  - destruct (rc <? 0); [|by apply wp_ret]. apply wp_bind. eapply wp_mono; [apply Hopen|].
    + destruct (bool_decide_reflect (u' = str "/")) as [E|E]; cbn [orb].
      { apply (confined_path (str "index.html") []); [done|apply not_elem_of_nil]. }
      destruct (bool_decide_reflect (u' = str "index.html")) as [E'|E']; [apply (confined_path (str "index.html") []); [done|apply not_elem_of_nil]|].
      destruct Hu' as [->|(v & -> & Hv)]; [done|]. rewrite skip_slashes_idem. rewrite <-(app_nil_r (skip_slashes v)). apply confined_path; [done|apply not_elem_of_nil].
    + intros rc2 s2 [F2 L2]. apply wp_ret. split; [by eapply fine_trans|done].
  - intros [rc2 path2] s2 [F2 L2]. destruct (rc2 <? 0).
    + eapply wp_mono; [apply send_fine|]. cbv beta. intros _ s3 F3. by eapply fine_trans.
    + apply wp_bind. eapply wp_mono; [by apply send_file_fine|]. cbv beta. intros _ s3 F3. unfold close_file. apply wp_bind, wp_env, wp_emit.
      eapply fine_trans; [exact F2|]. eapply fine_trans; [exact F3|]. eapply fine_trans; [apply fine_hw|by apply fine_emit].
Qed.

Lemma dispatch_fine m u req out s : wp (web_api_dispatch m u req out) (fun _ s' => fine s s') s.
Proof using Type*.
  unfold web_api_dispatch. destruct (negb (cJSON_IsObject out)); [apply wp_ret, fine_refl|].
  destruct (api_uri_to_endpoint u 64) as [ep|]; [|apply wp_ret, fine_refl].
  destruct (api_find_route ep) as [r|] eqn:Er; [|apply wp_ret, fine_refl].
  assert (Hr : r ∈ s_api_routes).
  { unfold api_find_route in Er. destruct (list_find _ s_api_routes) as [[i r']|] eqn:E; [|done]. injection Er as <-. apply list_find_Some in E as (E & _). by eapply list_elem_of_lookup_2. }
  destruct (negb (bool_decide (m = str "GET")) && _); [apply wp_ret, fine_refl|].
  destruct (if bool_decide (m = str "GET") then get_cb r else post_cb r) as [cb|] eqn:Ec; [|apply wp_ret, fine_refl].
  apply wp_bind, wp_emit, wp_env. eapply fine_trans; [apply (fine_emit _ (E_call cb))|apply fine_hw].
  exists r. split; [done|]. destruct (bool_decide (m = str "GET")); naive_solver.
Qed.

Lemma send_json_fine code j s : wp (http_send_json_cjson code j) (fun _ s' => fine s s') s.
Proof using Type*.
  unfold http_send_json_cjson. apply wp_bind, wp_env.
  destruct (cJSON_PrintUnformatted j (hw s)).1 as [b|]; (eapply wp_mono; [apply send_fine|]; cbv beta; intros _ s' F; eapply fine_trans; [apply fine_hw|exact F]).
Qed.

Lemma answer_fine m u req s : wp (api_answer m u req) (fun _ s' => fine s s') s.
Proof using Type*.
  unfold api_answer. apply wp_bind, wp_env. set (s1 := s <| hw := _ |>). assert (F1 : fine s s1) by apply fine_hw.
  destruct (cJSON_CreateObject (hw s)).1 as [out|]; [|eapply wp_mono; [apply send_fine|]; cbv beta; intros _ s' F; by eapply fine_trans].
  apply wp_bind. eapply wp_mono; [apply dispatch_fine|]. cbv beta. intros [rc out'] s2 F2. assert (F : fine s s2) by by eapply fine_trans. clearbody s1.
  destruct (rc =? 0); [eapply wp_mono; [apply send_json_fine|]; cbv beta; intros _ s3 F3; by eapply fine_trans|].
  apply wp_bind, wp_env. assert (F3 : fine s (s2 <| hw := (cJSON_CreateObject (hw s2)).2 |>)) by (eapply fine_trans; [exact F|apply fine_hw]).
  destruct (cJSON_CreateObject (hw s2)).1 as [o|]; (eapply wp_mono; [first [apply send_fine|apply send_json_fine]|]; cbv beta; intros _ s4 F4; by eapply fine_trans).
Qed.

Lemma api_fine m u b s : wp (http_handle_api m u b) (fun _ s' => fine s s') s.
Proof using Type*.
  unfold http_handle_api. destruct (bool_decide (m = str "POST")); [|apply answer_fine].
  destruct (Z.of_nat (length b) <=? 0); [apply send_fine|]. apply wp_bind, wp_env.
  destruct (cJSON_ParseWithLength b (hw s)).1 as [j|]; [destruct (cJSON_IsObject j)|];
    (eapply wp_mono; [first [apply answer_fine|apply send_fine]|]; cbv beta; intros _ s' F; eapply fine_trans; [apply fine_hw|exact F]).
Qed.

(** The whole handler: the request it answered, if any. *)
Definition handled s0 (s' : http) : Prop :=
  live s' = live s0 /\ live_nb s' = live_nb s0 /\ exists nbs evs, trace s' = trace s0 ++ map E_recv nbs ++ evs /\ Forall event_ok evs.

Lemma handle_one_spec fuel s : (forall path w, (length (file_rest (lfs_file_open path w).2) < fuel)%nat) ->
  (forall nb, (netconn_recv (hw s)).1 = Some nb -> length_field_ok (bytes_of nb)) ->
  wp (http_handle_one fuel) (fun _ s' => handled s s') s.
Proof using Type*.
  intros Hf Hsafe. unfold http_handle_one. apply wp_bind, wp_modify. set (s0 := s <| h_data := false |> <| h_nb := false |>).
  assert (Hs0 : live s0 = live s /\ live_nb s0 = live_nb s /\ trace s0 = trace s /\ hw s0 = hw s /\ h_data s0 = false /\ h_nb s0 = false) by (unfold s0; by rsimpl).
  clearbody s0. destruct Hs0 as (E1 & E2 & E3 & E4 & E5 & E6). apply wp_bind. eapply wp_mono.
  { apply (http_receive_spec s0 s0); [unfold owns; rewrite E5, E6; cbn; lia|done|done|by rewrite E4]. }
  intros o s1 (Ho & nbs & evs & Ht & Hr). apply wp_bind.
  apply wp_mono with (fun _ s2 => owns s0 s2 /\ exists evs, trace s2 = trace s0 ++ map E_recv nbs ++ evs /\ Forall event_ok evs).
  - destruct o as [r|].
    + destruct Hr as [-> _]. rewrite app_nil_r in Ht.
      assert (Hend : forall s2, fine s1 s2 -> owns s0 s2 /\ exists evs, trace s2 = trace s0 ++ map E_recv nbs ++ evs /\ Forall event_ok evs).
      { intros s2 (evs & Q & F). split; [by eapply quiet_owns|]. exists evs. rewrite (q_trace _ _ _ Q), Ht, <-app_assoc. done. }
      destruct (bool_decide (str "/api/" `prefix_of` uri r)); (eapply wp_mono; [first [apply api_fine|by apply serve_file_fine]|]; cbv beta; intros _ s2 F; by apply Hend).
    + apply wp_ret. split; [done|]. exists evs. split; [done|]. apply writes_ok, Hr.
  - cbv beta. intros _ s2 ([O1 O2] & evs2 & Ht2 & F2). rewrite E3 in Ht2. rewrite E1 in O1. rewrite E2 in O2.
    apply wp_bind, wp_gets, wp_bind. apply wp_when; intros Ed; rewrite Ed in O1; cbn in O1; [unfold os_free; apply wp_modify|];
      apply wp_bind, wp_gets; (apply wp_when; intros En; rewrite ?En in *; cbn in O2; [apply wp_modify|]); unfold handled; rsimpl.
    all: try rewrite En in O2; cbn in O2; split; [lia|split; [lia|by exists nbs, evs2]].
Qed.
End Receive.

(** ** Requests as clients write them *)

(** [n] is the length announced by the header lines [pre]. *)
Inductive length_field (pre : list Z) : Z -> Prop :=
  | no_length_field : ~ occurs (str "Content-Length:") (pre ++ CRLF ++ CRLF) -> length_field pre 0
  | some_length_field x blanks ds y :
      pre = x ++ str "Content-Length:" ++ blanks ++ ds ++ y -> first_at (str "Content-Length:") pre x ->
      Forall (fun c => c = 32 \/ c = 9) blanks -> ds <> [] -> Forall isdigit ds -> (forall c r, y = c :: r -> isdigit c = false) ->
      digits_value ds < 2 ^ 31 -> length_field pre (digits_value ds).

Lemma skip_blanks_app n bl l : Forall (fun c => c = 32 \/ c = 9) bl -> (length bl <= n)%nat ->
  match l with c :: _ => c <> 32 /\ c <> 9 | [] => True end -> skip_blanks n (bl ++ l) = l.
Proof.
  intros Hb. revert n. induction Hb as [|b bl Hb Hbl IH]; intros n Hn Hl; cbn [app].
  - destruct n, l as [|c l]; cbn [skip_blanks]; try done. destruct Hl. rewrite !(proj2 (Z.eqb_neq _ _)) by done. done.
  - cbn in Hn. destruct n as [|n]; [lia|]. cbn [skip_blanks]. destruct Hb as [-> | ->]; cbn; (apply IH; [lia|done]).
Qed.

(** Digits and what follows them, also across the end of the header. *)
Lemma digits_end (ds y z : list Z) : (forall c r, y = c :: r -> isdigit c = false) -> exists c l, y ++ CRLF ++ z = c :: l /\ isdigit c = false.
Proof. intros Hy. destruct y as [|c r]; [by exists 13, (10 :: z)|]. exists c, (r ++ CRLF ++ z). split; [done|by eapply Hy]. Qed.

Lemma length_field_spec D pre n : first_at (CRLF ++ CRLF) D pre -> 0 ∉ pre -> length_field pre n ->
  length_field_stops D /\ http_get_content_length D (Z.of_nat (length pre) + 4) = Some n /\ 0 <= n.
Proof.
  intros Hf Hz Hn. pose proof Hf as (post & ED & _).
  destruct (strnstr_spec (str "Content-Length:") D (Z.of_nat (length pre) + 4)) as (o & Eo & Ho);
    [cbn; lia|rewrite ED; by destruct pre|rewrite ED, !length_app; cbn; lia|lia|].
  change (Z.of_nat (length (str "Content-Length:"))) with 15 in Ho.
  destruct Hn as [Hno|x bl ds y Ep Hx Hbl Hds Hdig Hy Hv].
  - assert (Hnone : forall pre', first_at (str "Content-Length:") D pre' -> (length pre' + 11 <= length pre)%nat -> False).
    { intros pre' (post' & E & _) Hl. apply Hno. rewrite <-(take_header D pre Hf), E. exists pre', (take (length pre + 4 - length pre' - 15) post').
      rewrite !take_app. rewrite (take_ge pre') by lia. rewrite (take_ge (str _)) by (cbn; lia). cbn [length str]. done. }
    split; [intros h pre' Hh Hp Hl; destruct (Hnone pre' Hp); by rewrite (first_at_unique _ _ _ _ Hf Hh)|].
    split; [|lia]. unfold http_get_content_length. rewrite Eo. cbn [mbind option_bind]. destruct o as [p|]; [|done].
    destruct Ho as (pre' & Hp & -> & Hl & _). destruct (Hnone pre' Hp). lia.
  - assert (HxD : first_at (str "Content-Length:") D x) by (rewrite ED; by apply first_at_app).
    assert (Erest : drop (length x + 15) D = bl ++ ds ++ y ++ CRLF ++ CRLF ++ post).
    { rewrite ED, Ep. rewrite <-!app_assoc, drop_app_ge by lia. replace (length x + 15 - length x)%nat with 15%nat by lia. done. }
    destruct (digits_end ds y (CRLF ++ post) Hy) as (c & l & Ecl & Hc).
    assert (Hlx : (length x + 15 <= length pre)%nat) by (rewrite Ep, !length_app; cbn; lia).
    assert (Hat : forall k, (length bl <= k)%nat -> atoi (skip_blanks k (drop (length x + 15) D)) = Some (digits_value ds)).
    { intros k Hk. rewrite Erest, skip_blanks_app, Ecl; [by apply atoi_digits|done|done|].
      destruct ds as [|d ds]; [done|]. cbn. apply Forall_cons in Hdig as [Hd _]. apply Is_true_eq_true in Hd. unfold isdigit in Hd. bools_to_props. lia. }
    split; [|split].
    + intros h pre' _ Hp _. rewrite (first_at_unique _ _ _ _ Hp HxD). rewrite <-(skip_blanks_stops (length bl)). apply atoi_total. rewrite Hat; [done|lia].
    + unfold http_get_content_length. rewrite Eo. cbn [mbind option_bind]. destruct o as [p|].
      * destruct Ho as (pre' & Hp & -> & Hl & _). rewrite (first_at_unique _ _ _ _ Hp HxD). replace (Z.to_nat (Z.of_nat (length x) + 15)) with (length x + 15)%nat by lia.
        apply Hat. rewrite Ep, !length_app. cbn. lia.
      * exfalso. destruct (Ho x HxD) as [Hin|Hin]; [lia| |].
        -- apply Hz. rewrite Ep. apply elem_of_app. by left.
        -- by repeat (apply elem_of_cons in Hin as [Hin|Hin]; [discriminate|]); apply elem_of_nil in Hin.
    + by apply digits_value_nonneg.
Qed.

Lemma cut_at_app c a b : c ∉ a -> cut_at c (a ++ c :: b) = Some (a, b).
Proof.
  induction a as [|x a IH]; intros Hc; cbn [cut_at app]; [by rewrite Z.eqb_refl|].
  rewrite not_elem_of_cons in Hc. destruct Hc as [Hx Hc]. rewrite (proj2 (Z.eqb_neq _ _)) by done. by rewrite IH.
Qed.
Lemma cstr_id l : 0 ∉ l -> cstr l = l.
Proof.
  unfold cstr. induction l as [|x l IH]; intros Hc; [done|]. rewrite not_elem_of_cons in Hc. destruct Hc as [Hx Hc].
  rewrite (proj2 (Z.eqb_neq _ _)) by done. f_equal. by apply IH.
Qed.
Lemma request_line m u r : 32 ∉ m -> 32 ∉ u -> 0 ∉ m ++ u -> (length m <= 7)%nat -> (length u <= 31)%nat ->
  http_get_method (m ++ 32 :: u ++ 32 :: r) 8 = m /\ http_get_uri (m ++ 32 :: u ++ 32 :: r) 32 = u.
Proof.
  intros Hm Hu Hz Hlm Hlu. rewrite elem_of_app in Hz. unfold http_get_method, http_get_uri, snprintf. rewrite !cut_at_app by done.
  rewrite !take_ge by lia. by rewrite !cstr_id by tauto.
Qed.

Section Properties.
Context {J : Type} `{Json J} {W : Type} `{HttpEnv J W} {build : HttpBuild}.
Context {pending : W -> option (list (list (list Z)))} {file_rest : W -> list Z} `{!HttpLaws J W pending file_rest}.

(** What the client is sent. *)
Definition sent (evs : list event) : list Z :=
  concat (map (fun e => match e with E_write d _ written => take (Z.to_nat written) d | _ => [] end) evs).
Lemma sent_app e1 e2 : sent (e1 ++ e2) = sent e1 ++ sent e2.
Proof using. unfold sent. by rewrite map_app, concat_app. Qed.

(** Nothing fails: writes take everything, memory is there, files are
    readable. *)
Record healthy : Prop := {
  h_write d (w : W) : (netconn_write_partly d w).1 = (0, Z.of_nat (length d));
  h_malloc n (w : W) : is_Some (os_malloc n w).1;
  h_read n (w : W) : 0 <= (lfs_file_read n w).1.1;
}.
(** [s'] continues [s] by sending [d]. *)
Definition sends (d : list Z) (s s' : http W) : Prop := exists evs, trace s' = trace s ++ evs /\ sent evs = d.
Lemma sends_trans d1 d2 s1 s2 s3 : sends d1 s1 s2 -> sends d2 s2 s3 -> sends (d1 ++ d2) s1 s3.
Proof using. intros (e1 & T1 & <-) (e2 & T2 & <-). exists (e1 ++ e2). by rewrite T2, T1, app_assoc, sent_app. Qed.
Lemma sends_same s s' : trace s' = trace s -> sends [] s s'.
Proof using. intros E. exists []. by rewrite app_nil_r. Qed.
Lemma sends_event e s s' : trace s' = trace s ++ [e] -> match e with E_write _ _ _ => False | _ => True end -> sends [] s s'.
Proof using. intros E He. exists [e]. split; [done|]. by destruct e. Qed.

Lemma write_sends d s : healthy -> wp (http_write_bytes d) (fun err s' => err = 0 /\ sends d s s' /\ hw s' = (netconn_write_partly d (hw s)).2) s.
Proof using.
  intros Hh. eapply wp_mono; [apply http_write_spec|]. intros err s' (wn & Q & Er & Ew). rewrite h_write in Er by done. injection Er as <- <-. split; [done|]. split; [|done].
  eexists. split; [apply (q_trace _ _ _ Q)|]. unfold sent. cbn. rewrite app_nil_r. apply take_ge. lia.
Qed.
Lemma malloc_sends n s : healthy -> wp (malloc n) (fun r s' => is_Some r /\ sends [] s s' /\ hw s' = (os_malloc n (hw s)).2) s.
Proof using Type*.
  intros Hh. eapply wp_mono; [apply malloc_spec|]. intros r s' (Er & Ew & Ht & _). split; [rewrite Er; by apply h_malloc|]. split; [by apply sends_same|done].
Qed.
Lemma sends_free (d : list Z) s s' : sends d s s' -> sends d s (s' <| live ::= Z.pred |>).
Proof using. intros (e & T & E). exists e. by rsimpl. Qed.

Lemma send_raw_sends code ct b s : healthy -> wp (http_send_raw code ct b) (fun _ s' => sends (http_header code ct (Z.of_nat (length b)) ++ b) s s') s.
Proof using Type*.
  intros Hh. unfold http_send_raw. apply wp_bind. eapply wp_mono; [by apply malloc_sends|]. cbv beta. intros r s1 ([buf ->] & S1 & _).
  apply wp_bind. eapply wp_mono; [by apply write_sends|]. cbv beta. intros err s2 (-> & S2 & _). cbn [Z.eqb].
  pose proof (sends_trans _ _ _ _ _ S1 S2) as S12. apply wp_bind.
  apply wp_mono with (fun _ s3 => sends (http_header code ct (Z.of_nat (length b)) ++ b) s s3).
  - apply wp_when; intros Hb.
    + apply wp_bind. eapply wp_mono; [by apply write_sends|]. cbv beta. intros e s3 (_ & S3 & _). apply wp_ret. exact (sends_trans _ _ _ _ _ S12 S3).
    + apply Z.ltb_ge in Hb. destruct b; [|cbn in Hb; lia]. by rewrite app_nil_r.
  - cbv beta. intros _ s3 S3. apply wp_modify. by apply sends_free.
Qed.

Lemma serve_loop_sends fuel : healthy -> forall s, (length (file_rest (hw s)) < fuel)%nat -> wp (serve_loop fuel) (fun _ s' => sends (file_rest (hw s)) s s') s.
Proof using Type*.
  intros Hh. induction fuel as [|fuel IH]; intros s Hf; [lia|]. cbn [serve_loop]. apply wp_bind, wp_env.
  pose proof (read_rest HTTP_FILE_CHUNK (hw s) ltac:(done)) as Hr. pose proof (h_read Hh HTTP_FILE_CHUNK (hw s)) as H0'. cbv zeta in Hr.
  destruct (lfs_file_read HTTP_FILE_CHUNK (hw s)) as [[r data] w'] eqn:Er. cbn [fst snd] in *. destruct Hr as [Hr|(-> & Hrest & Hend)]; [lia|].
  destruct (Z.leb_spec (Z.of_nat (length data)) 0) as [Hz|Hz].
  - apply wp_ret. rewrite Hend by lia. by apply sends_same.
  - apply wp_bind, wp_emit, wp_bind. eapply wp_mono; [by apply write_sends|]. cbv beta. intros err s2 (-> & S2 & E2). cbn [Z.eqb negb]. rsimpl.
    assert (E2' : file_rest (hw s2) = file_rest w') by (rewrite E2, write_rest; done).
    eapply wp_mono; [apply IH; rewrite E2'; rewrite Hrest, length_app in Hf; lia|]. cbv beta. intros _ s3 S3. rewrite E2' in S3. rewrite Hrest.
    eapply sends_trans; [|exact S3]. change data with ([] ++ data). eapply sends_trans; [|exact S2]. eapply sends_event with (e := E_read data); [by rsimpl|done].
Qed.

Lemma send_file_sends fuel path s : healthy -> (length (file_rest (hw s)) < fuel)%nat ->
  wp (send_file fuel path) (fun _ s' => sends (file_header path ++ file_rest (hw s)) s s') s.
Proof using Type*.
  intros Hh Hf. unfold send_file. apply wp_bind. eapply wp_mono; [by apply malloc_sends|]. cbv beta. intros r s1 ([buf ->] & S1 & E1).
  apply wp_bind. eapply wp_mono; [by apply write_sends|]. cbv beta. intros err s2 (-> & S2 & E2). apply wp_bind, wp_modify. cbn [Z.eqb negb].
  pose proof (sends_free _ _ _ (sends_trans _ _ _ _ _ S1 S2)) as S3. set (s3 := s2 <| live ::= _ |>) in *. assert (E3 : hw s3 = hw s2) by (unfold s3; by rsimpl). clearbody s3.
  apply wp_bind. eapply wp_mono; [by apply malloc_sends|]. cbv beta. intros r s4 ([buf' ->] & S4 & E4).
  assert (Erest : file_rest (hw s4) = file_rest (hw s)) by (rewrite E4, malloc_rest, E3, E2, write_rest, E1, malloc_rest; done).
  apply wp_bind. eapply wp_mono; [apply serve_loop_sends; [done|by rewrite Erest]|]. cbv beta. intros _ s5 S5. apply wp_modify. apply sends_free.
  rewrite Erest in S5. pose proof (sends_trans _ _ _ _ _ (sends_trans _ _ _ _ _ S3 S4) S5) as S. cbn [app] in S. by rewrite app_nil_r in S.
Qed.

Lemma complete_body (R1 R2 hd b extra : list Z) n : R1 `prefix_of` R2 \/ R2 `prefix_of` R1 -> R2 = hd ++ b ++ extra ->
  (length (take n (drop (length hd) R1)) = n)%nat -> n = length b -> take n (drop (length hd) R1) = b.
Proof using.
  intros Hp -> Hl ->. rewrite length_take, length_drop in Hl. destruct b as [|b0 b']; [done|]. set (b := b0 :: b') in *.
  assert (Hb : (0 < length b)%nat) by (cbn; lia). clearbody b. destruct Hp as [[z Ez]|[z ->]].
  - assert (E : take (length b) (drop (length hd) (R1 ++ z)) = b) by (rewrite <-Ez, drop_app_length; by rewrite take_app_length).
    rewrite drop_app_le, take_app_le in E by (rewrite ?length_drop; lia). done.
  - rewrite <-!app_assoc, drop_app_length. by rewrite take_app_length.
Qed.
End Properties.

(** ** An instance

    A script of netbufs, a list of files of at most 999 bytes, JSON as bytes;
    a handler answers with its own name. *)

#[export] Instance bytes_json : Json (list Z) := {
  cJSON_IsObject _ := true; cJSON_AddStringToObject k v j := j ++ str k ++ v; cJSON_AddNumberToObject k v j := j ++ str k ++ dec v;
  cJSON_DeleteItemFromObject _ j := j }.

#[export] Instance demo_build : HttpBuild := {| FW_BUILD_BETA := false |}.

Record demo := mk_demo { d_script : list (list (list Z)); d_files : list (list Z * list Z); d_rest : list Z }.

#[export] Instance netbuf_ok_dec nb : Decision (netbuf_ok nb).
Proof. unfold netbuf_ok. apply _. Defined.

#[export] Instance demo_env : HttpEnv (list Z) demo := {
  netconn_recv w := match d_script w with
    | [] => (None, w)
    | nb :: l => if decide (netbuf_ok nb) then (Some nb, mk_demo l (d_files w) (d_rest w)) else (None, w)
    end;
  netconn_write_partly d w := ((0, Z.of_nat (length d)), w);
  os_malloc n w := (Some (replicate (Z.to_nat n) 165), w);
  lfs_file_open p w := match list_find (fun f => f.1 = p) (d_files w) with
    | Some (_, f) => (0, mk_demo (d_script w) (d_files w) (take 999 f.2))
    | None => (-2, mk_demo (d_script w) (d_files w) [])
    end;
  lfs_file_read n w := let d := take (Z.to_nat n) (d_rest w) in
    ((Z.of_nat (length d), d), mk_demo (d_script w) (d_files w) (drop (Z.to_nat n) (d_rest w)));
  lfs_file_close w := (0, w);
  cJSON_ParseWithLength d w := (Some d, w);
  cJSON_CreateObject w := (Some [], w);
  cJSON_PrintUnformatted j w := (Some j, w);
  api_call f _ j w := ((0, j ++ str f), w) }.

Definition demo_pending (w : demo) : option (list (list (list Z))) :=
  if decide (Forall netbuf_ok (d_script w)) then Some (d_script w) else None.

#[export] Instance demo_laws : HttpLaws (list Z) demo demo_pending d_rest.
Proof.
  constructor.
  - intros w nb E. cbn in E. destruct (d_script w) as [|nb' l]; [done|]. destruct (decide (netbuf_ok nb')); [|done]. by injection E as <-.
  - intros w nb l E. unfold demo_pending in *. destruct (decide (Forall netbuf_ok (d_script w))) as [Hall|]; [|done]. injection E as E. cbn. rewrite E in *.
    apply Forall_cons in Hall as [Hnb Hl]. rewrite decide_True by done. cbn. by rewrite decide_True.
  - intros n w b E. injection E as <-. rewrite length_replicate. lia.
  - by intros n w l E.
  - done.
  - done.
  - intros n w Hn. cbn. right. split; [done|]. rewrite take_drop. split; [done|]. intros E. destruct (d_rest w); [done|]. cbn in E. destruct (Z.to_nat n) eqn:?; [lia|]. cbn in E. lia.
Qed.

Lemma first_at_check tok l pre post : l = pre ++ tok ++ post ->
  forallb (fun q => negb (bool_decide (tok `prefix_of` drop q l))) (seq 0 (length pre)) = true -> first_at tok l pre.
Proof.
  intros E Hall. exists post. split; [done|]. intros q Hq Hp. rewrite forallb_forall in Hall.
  specialize (Hall q ltac:(apply in_seq; lia)). by rewrite bool_decide_true in Hall.
Qed.

Definition demo_start (nbs : list (list (list Z))) : http demo :=
  mk_http (mk_demo nbs [(str "www/a.css", str "body{}")] []) [] 0 0 false false.

Lemma demo_open_bound path (w : demo) : (length (d_rest (lfs_file_open path w).2) < 1000)%nat.
Proof. cbn. destruct (list_find _ _) as [[i f]|]; cbn [snd d_rest]; [rewrite length_take|cbn]; lia. Qed.
(** A POST in three pieces. *)
Definition demo_post : list (list (list Z)) :=
  [[str "POST /api/net_cfg HTTP/1.1"; CRLF ++ str "Content-Length: 4" ++ CRLF ++ CRLF ++ str "{"]; [str "1"]; [str "2}"; str "GET"]].

Lemma demo_post_ok : length_field_ok (bytes_of (demo_post !!! 0%nat)).
Proof.
  assert (Hf : first_at (CRLF ++ CRLF) (bytes_of (demo_post !!! 0%nat)) (str "POST /api/net_cfg HTTP/1.1" ++ CRLF ++ str "Content-Length: 4"))
    by (apply (first_at_check _ _ _ (str "{")); by vm_compute).
  enough (Hs : length_field_stops (bytes_of (demo_post !!! 0%nat))).
  { split; [exact Hs|]. intros h v Hh Ev. rewrite (first_at_unique _ _ _ _ Hh Hf) in *. vm_compute in Ev. injection Ev as <-. by vm_compute. }
  apply (length_field_spec _ (str "POST /api/net_cfg HTTP/1.1" ++ CRLF ++ str "Content-Length: 4") 4).
  - apply (first_at_check _ _ _ (str "{")); by vm_compute.
  - by_eval.
  - apply (some_length_field _ (str "POST /api/net_cfg HTTP/1.1" ++ CRLF) (str " ") (str "4") []);
      first [vm_compute; reflexivity|apply (first_at_check _ _ _ (str " 4")); by vm_compute|done|by repeat constructor].
Qed.
Lemma demo_healthy : healthy (W := demo).
Proof. by constructor; [..|intros n w; cbn; lia]. Qed.

(** C34: a request is received as it was sent, within the server's limits.
    When allocations succeed and reception does not fail ([pending]), the
    header of a request arrives in the first netbuf (at most 16384 bytes,
    header and body together too), the method has up to 7 and the URI up to 31
    characters, then however the rest is cut into netbufs and whatever follows
    it, the server hands over exactly the method, the URI and the bytes of the
    body, as many as the length field says. *)
Theorem http_request_complete {J} `{Json J} {W} `{HttpEnv J W} {build : HttpBuild} {pending file_rest} `{!HttpLaws J W pending file_rest}
    (s : http W) nb nbs m u line pre b extra :
  h_data s = false -> h_nb s = false ->
  pending (hw s) = Some (nb :: nbs) ->
  all_bytes (nb :: nbs) = (pre ++ CRLF ++ CRLF) ++ b ++ extra ->
  first_at (CRLF ++ CRLF) (bytes_of nb) pre ->
  pre = m ++ 32 :: u ++ 32 :: line -> m <> [] -> u <> [] -> 32 ∉ m -> 32 ∉ u -> 0 ∉ pre -> (length m <= 7)%nat -> (length u <= 31)%nat ->
  length_field pre (Z.of_nat (length b)) ->
  Z.of_nat (length (bytes_of nb)) <= HTTP_REQ_MAX_LEN -> Z.of_nat (length pre + 4 + length b) <= HTTP_REQ_MAX_LEN ->
  exists s', http_receive s = Some (Some (mk_request m u b), s').
Proof.
  intros Hd Hb Hp Hall Hf Epre Hm Hu Hm32 Hu32 Hz Hlm Hlu Hlen Hnb Hmax.
  destruct (length_field_spec _ pre _ Hf Hz Hlen) as (Hstops & Hcl & Hn).
  destruct (recv_pending _ _ _ Hp) as [Hrecv _].
  assert (Hreq : http_get_method (pre ++ CRLF ++ CRLF) 8 = m /\ http_get_uri (pre ++ CRLF ++ CRLF) 32 = u).
  { rewrite Epre, <-!app_assoc. cbn [app]. rewrite <-app_assoc. cbn [app]. apply request_line; try done.
    rewrite Epre in Hz. rewrite !elem_of_app, !elem_of_cons, !elem_of_app in *. tauto. }
  destruct Hreq as [Emeth Euri]. assert (Hhl : Z.of_nat (length (pre ++ CRLF ++ CRLF)) = Z.of_nat (length pre) + 4) by (rewrite length_app; cbn; lia).
  assert (Hacc : acceptable (bytes_of nb) pre (Z.of_nat (length b))).
  { unfold acceptable. rewrite Hhl, Emeth, Euri. repeat (split; [done|]). lia. }
  assert (Ho : owns s s) by (unfold owns; rewrite Hd, Hb; cbn; lia).
  assert (Hw : wp http_receive (received (pending := pending) s s) s).
  { apply http_receive_spec; [done..|]. intros nb' E. rewrite Hrecv in E. injection E as <-. split; [done|].
    intros h v Hh Ev. rewrite (first_at_unique _ _ _ _ Hh Hf) in *. rewrite Hcl in Ev. injection Ev as <-. unfold HTTP_REQ_MAX_LEN in Hmax. word_lia. }
  apply wp_elim in Hw as (o & s' & E & (_ & nbs' & evs & _ & Hr)). exists s'. rewrite E. do 2 f_equal. destruct o as [[m' u' b']|].
  - destruct Hr as (_ & (nb1 & nbs1 & -> & pre' & v & Hf' & _ & Eu & _ & Em & _ & Ev & Eb & Elb) & Hag).
    specialize (Hag _ _ Hp). assert (nb1 = nb) as -> by (destruct Hag as [[z Ez]|[z Ez]]; by injection Ez).
    pose proof (first_at_unique _ _ _ _ Hf' Hf) as ->. cbn [uri method body] in *. rewrite Hhl, Hcl in Ev. injection Ev as <-.
    rewrite Emeth in Em. rewrite Euri in Eu. subst m' u'. do 2 f_equal. rewrite Nat2Z.id in Eb. rewrite Eb in *.
    apply (complete_body _ (all_bytes (nb :: nbs)) _ b extra); [|done|lia|done].
    destruct Hag as [Hag|Hag]; [left|right]; by apply all_bytes_prefix.
  - destruct Hr as [_ Hr]. specialize (Hr _ _ _ _ Hp Hacc Hnb). rewrite Hall, !length_app in Hr. cbn in Hr. lia.
Qed.

Lemma http_request_complete_witness :
  exists s', http_receive (demo_start demo_post) = Some (Some (mk_request (str "POST") (str "/api/net_cfg") (str "{12}")), s').
Proof.
  apply (http_request_complete (pending := demo_pending) (demo_start demo_post) (demo_post !!! 0%nat) (drop 1 demo_post) _ _ (str "HTTP/1.1" ++ CRLF ++ str "Content-Length: 4")
    (str "POST /api/net_cfg HTTP/1.1" ++ CRLF ++ str "Content-Length: 4") (str "{12}") (str "GET"));
    first [vm_compute; reflexivity|apply (first_at_check _ _ _ (str "{")); by vm_compute|by_eval|by apply Nat.leb_le; vm_compute|idtac].
  apply (some_length_field _ (str "POST /api/net_cfg HTTP/1.1" ++ CRLF) (str " ") (str "4") []);
    first [vm_compute; reflexivity|apply (first_at_check _ _ _ (str " 4")); by vm_compute|done|idtac].
  all: by repeat constructor.
Defined.



(** Files are served whole.  When nothing fails, a request for a page of
    up to 24 characters (or for "/") is answered with the header and the
    exact contents of its compressed version, if it can be opened, else of
    the page itself, else with 404. *)
Theorem http_file_served {J} `{Json J} {W} `{HttpEnv J W} {build : HttpBuild} {pending file_rest} `{!HttpLaws J W pending file_rest} fuel (s : http W) u name :
  healthy -> (forall path w, (length (file_rest (lfs_file_open path w).2) < fuel)%nat) ->
  u = str "/" ++ name /\ name <> [] \/ u = str "/" /\ name = str "index.html" ->
  http_path_is_safe u = true -> skip_slashes name = name -> (length name <= 24)%nat ->
  let gz := str "www/" ++ name ++ str ".gz" in
  let plain := str "www/" ++ name in
  let o1 := lfs_file_open gz (hw s) in
  let o2 := lfs_file_open plain o1.2 in
  exists s' evs, http_serve_file fuel u s = Some (tt, s') /\ trace s' = trace s ++ evs /\
    sent evs =
      if 0 <=? o1.1 then file_header gz ++ file_rest o1.2
      else if 0 <=? o2.1 then file_header plain ++ file_rest o2.2
      else http_header 404 (str "text/plain") 10 ++ str "not found" ++ [10].
Proof.
  intros Hh Hf Hu Hs Hsl Hl gz plain o1 o2.
  enough (Hw : wp (http_serve_file fuel u) (fun _ s' => sends (if 0 <=? o1.1 then file_header gz ++ file_rest o1.2
      else if 0 <=? o2.1 then file_header plain ++ file_rest o2.2
      else http_header 404 (str "text/plain") 10 ++ str "not found" ++ [10]) s s') s).
  { apply wp_elim in Hw as ([] & s' & E & evs & Ht & Hd). by exists s', evs. }
  assert (Elen : forall suf, (length suf <= 3)%nat -> snprintf 32 (str "www/" ++ name ++ suf) = str "www/" ++ name ++ suf).
  { intros suf Hsuf. unfold snprintf. apply take_ge. rewrite !length_app. cbn. lia. }
  unfold http_serve_file. rewrite Hs. cbn [negb].
  set (pu := if bool_decide (u = str "/") then _ else _).
  assert (Hpu : pu.1 = gz /\ (pu.2 = str "/" /\ name = str "index.html" \/ pu.2 = name /\ pu.2 <> str "/")).
  { unfold pu. destruct (bool_decide_reflect (u = str "/")) as [Eu|Eu]; cbn [fst snd].
    - destruct Hu as [[-> Hne]|[_ ->]]; [destruct name; [done|discriminate]|]. split; [|by left]. by apply (Elen (str ".gz")); cbn; lia.
    - destruct Hu as [[-> Hne]|[-> _]]; [|done]. change (skip_slashes (str "/" ++ name)) with (skip_slashes name). rewrite Hsl. split; [apply Elen; cbn; lia|]. right. split; [done|].
      intros ->. done. }
  clearbody pu. destruct pu as [p1 u']. cbn [fst snd] in Hpu. destruct Hpu as [-> Hu'].
  assert (Hopen : forall p t, wp (open_file p) (fun rc t' => rc = (lfs_file_open p (hw t)).1 /\ sends [] t t' /\ hw t' = (lfs_file_open p (hw t)).2) t).
  { intros p t. unfold open_file. apply wp_bind, wp_env, wp_bind, wp_emit, wp_ret. rsimpl. split; [done|]. split; [|done].
    eapply sends_event; [by rsimpl|done]. }
  apply wp_bind. eapply wp_mono; [apply Hopen|]. cbv beta. intros rc s1 (Erc & S1 & E1). fold o1 in Erc, E1. subst rc. apply wp_bind.
  apply wp_mono with (fun r s2 => sends [] s s2 /\ if 0 <=? o1.1 then r = (o1.1, gz) /\ hw s2 = o1.2 else r = (o2.1, plain) /\ hw s2 = o2.2).
  - destruct (Z.ltb_spec o1.1 0) as [Hneg|Hneg]; [rewrite (proj2 (Z.leb_gt _ _)) by done|rewrite (proj2 (Z.leb_le _ _)) by done; by apply wp_ret].
    apply wp_bind. assert (Ep : (if bool_decide (u' = str "/") || bool_decide (u' = str "index.html") then snprintf 32 (str "www/index.html")
      else snprintf 32 (str "www/" ++ skip_slashes u')) = plain).
    { destruct Hu' as [[-> ->]|[-> Hne]]; [done|]. rewrite bool_decide_false by done. cbn [orb].
      rewrite Hsl. destruct (bool_decide_reflect (name = str "index.html")) as [->|_]; [done|]. unfold plain.
      rewrite <-(app_nil_r name). apply Elen. cbn. lia. }
    rewrite Ep. eapply wp_mono; [apply Hopen|]. cbv beta. intros rc s2 (-> & S2 & E2). apply wp_ret. rewrite E1 in *. fold o2. fold o2 in E2.
    split; [exact (sends_trans _ _ _ _ _ S1 S2)|done].
  - cbv beta. intros [rc path] s2 (S2 & Hr).
    assert (Hgood : forall p t, 0 <= rc -> path = p -> hw s2 = t -> (length (file_rest t) < fuel)%nat -> wp (if rc <? 0 then http_send_text 404 "not found" else send_file fuel path;; close_file)
      (fun _ s' => sends (file_header p ++ file_rest t) s s') s2).
    { intros p t Hrc -> <- Hft. rewrite (proj2 (Z.ltb_ge _ _)) by done. apply wp_bind. eapply wp_mono; [by apply send_file_sends|]. cbv beta. intros _ s3 S3.
      unfold close_file. apply wp_bind, wp_env, wp_emit. rewrite <-(app_nil_r (file_header p ++ _)). eapply sends_trans; [exact (sends_trans _ _ _ _ _ S2 S3)|].
      eapply sends_event; [by rsimpl|done]. }
    destruct (Z.leb_spec 0 o1.1) as [H1|H1].
    + destruct Hr as [E Ehw]. injection E as -> ->. apply Hgood; [done|done|done|apply Hf].
    + destruct Hr as [E Ehw]. injection E as -> ->. destruct (Z.leb_spec 0 o2.1) as [H2|H2]; [apply Hgood; [done|done|done|apply Hf]|].
      rewrite (proj2 (Z.ltb_lt _ _)) by done. eapply wp_mono; [by apply send_raw_sends|]. cbv beta. intros _ s3 S3. exact (sends_trans _ _ _ _ _ S2 S3).
Qed.

Lemma http_file_served_witness : exists s' evs, http_serve_file 1000 (str "/a.css") (demo_start []) = Some (tt, s') /\
  trace s' = evs /\ sent evs = file_header (str "www/a.css") ++ str "body{}".
Proof.
  destruct (http_file_served (pending := demo_pending) (file_rest := d_rest) 1000 (demo_start []) (str "/a.css") (str "a.css")) as (s' & evs & E & Ht & Hs);
    [exact demo_healthy|exact demo_open_bound|by left|vm_compute; reflexivity|vm_compute; reflexivity|by apply Nat.leb_le; vm_compute|].
  exists s', evs. split; [exact E|]. split; [exact Ht|]. etransitivity; [exact Hs|]. vm_compute. reflexivity.
Defined.

(** Routing. *)
Lemma cut_query_app l q : Forall (fun c => c <> 63 /\ c <> 35) l -> (forall c r, q = c :: r -> c = 63 \/ c = 35) -> cut_query (l ++ q) = l.
Proof.
  intros Hl Hq. induction Hl as [|c l [Hc1 Hc2] Hl IH]; cbn [app cut_query].
  - destruct q as [|c q]; [done|]. cbn [cut_query]. destruct (Hq c q eq_refl) as [-> | ->]; done.
  - rewrite !(proj2 (Z.eqb_neq _ _)) by done. cbn [orb]. by rewrite IH.
Qed.
Lemma trim_slashes_app l sl : Forall (fun c => c = 47) sl -> last l <> Some 47 -> trim_slashes (l ++ sl) = l.
Proof.
  intros Hsl Hl. unfold trim_slashes. rewrite reverse_app. apply Forall_reverse in Hsl. induction Hsl as [|c sl' -> _ IH]; [|exact IH].
  cbn [app]. destruct l as [|c l _] using rev_ind; [done|]. rewrite last_snoc in Hl. rewrite reverse_snoc. cbn [skip_slashes].
  rewrite (proj2 (Z.eqb_neq _ _)) by congruence. by rewrite <-reverse_snoc, reverse_involutive.
Qed.
(** What the table's names have in common. *)
Definition route_ok {build : HttpBuild} (r : web_api_route) : bool :=
  let e := str (endpoint r) in
  forallb (fun c => negb (c =? 63) && negb (c =? 35)) e && bool_decide (last e <> Some 47) && bool_decide (e <> []) && bool_decide (length e <= 40)%nat &&
  match api_find_route e with Some r' => bool_decide (endpoint r' = endpoint r /\ get_cb r' = get_cb r /\ post_cb r' = post_cb r) | None => false end.
Lemma routes_ok {build : HttpBuild} : forallb route_ok s_api_routes = true.
Proof. destruct build as [[|]]; vm_compute; reflexivity. Qed.

Lemma route_found {build : HttpBuild} r sl q : r ∈ s_api_routes -> Forall (fun c => c = 47) sl -> (length sl <= 20)%nat -> (forall c t, q = c :: t -> c = 63 \/ c = 35) ->
  exists ep r', api_uri_to_endpoint (str "/api/" ++ str (endpoint r) ++ sl ++ q) 64 = Some ep /\ api_find_route ep = Some r' /\
    get_cb r' = get_cb r /\ post_cb r' = post_cb r.
Proof.
  intros Hr Hsl Hlen Hq. pose proof routes_ok as Hok. rewrite forallb_forall in Hok. apply list_elem_of_In in Hr. specialize (Hok r Hr).
  unfold route_ok in Hok. set (e := str (endpoint r)) in *. apply andb_true_iff in Hok as [Hok Hf]. apply andb_true_iff in Hok as [Hok Hl]. apply andb_true_iff in Hok as [Hok Hne].
  apply andb_true_iff in Hok as [Hc Hlast]. apply bool_decide_eq_true in Hl, Hne, Hlast.
  destruct (api_find_route e) as [r'|] eqn:Er; [|done]. apply bool_decide_eq_true in Hf as (_ & Hg & Hp). exists e, r'. split; [|done].
  unfold api_uri_to_endpoint. rewrite bool_decide_true by (by eexists). cbn [negb]. change (drop 5 (str "/api/" ++ ?x)) with x.
  rewrite app_assoc, cut_query_app; [|apply Forall_app; split|done].
  2: { apply Forall_forall. intros c Hin. rewrite forallb_forall in Hc. apply list_elem_of_In in Hin. specialize (Hc c Hin). bools_to_props. done. }
  2: { eapply Forall_impl; [exact Hsl|]. intros c ->. done. }
  assert (Hpos : (0 < length e)%nat) by (destruct e; [done|cbn; lia]).
  rewrite (proj2 (Z.eqb_neq _ _)) by (rewrite length_app; lia). rewrite (proj2 (Z.leb_gt _ _)) by (rewrite length_app; lia).
  rewrite Nat2Z.id, take_ge by lia. rewrite trim_slashes_app by done. by destruct e.
Qed.

(** Requests reach their handlers.  A GET or POST of an endpoint of the
    table, with any slashes and query behind it, calls exactly the handler
    the table names for the method, once, with the parsed body, and returns
    its answer; every other request calls no handler, changes nothing and is
    answered with -400, -404 or -405. *)
Theorem http_api_routed {J} `{Json J} {W} `{HttpEnv J W} {build : HttpBuild} m u req (out : J) (s : http W) : cJSON_IsObject out = true ->
  (forall r cb sl q, r ∈ s_api_routes -> m = str "GET" /\ get_cb r = Some cb \/ m = str "POST" /\ post_cb r = Some cb ->
     u = str "/api/" ++ str (endpoint r) ++ sl ++ q -> Forall (fun c => c = 47) sl -> (length sl <= 20)%nat ->
     (forall c t, q = c :: t -> c = 63 \/ c = 35) ->
     web_api_dispatch m u req out s =
       Some ((api_call cb req out (hw s)).1, s <| trace ::= (fun t => t ++ [E_call cb]) |> <| hw := (api_call cb req out (hw s)).2 |>)) /\
  exists rc out' s', web_api_dispatch m u req out s = Some ((rc, out'), s') /\
    ((exists cb, trace s' = trace s ++ [E_call cb]) \/ s' = s /\ (rc = -400 \/ rc = -404 \/ rc = -405)).
Proof.
  intros Hobj. split.
  - intros r cb sl q Hr Hm -> Hsl Hlen Hq. destruct (route_found r sl q Hr Hsl Hlen Hq) as (ep & r' & E1 & E2 & E3 & E4).
    unfold web_api_dispatch. rewrite Hobj, E1, E2. cbn [negb].
    assert (Ecb : (if bool_decide (m = str "GET") then get_cb r' else post_cb r') = Some cb /\ negb (bool_decide (m = str "GET")) && negb (bool_decide (m = str "POST")) = false).
    { destruct Hm as [[-> Hc]|[-> Hc]]; [by rewrite bool_decide_true, E3|]. rewrite bool_decide_false by (vm_compute; congruence). by rewrite bool_decide_true, E4. }
    destruct Ecb as [-> ->]. unfold mbind, M_bind, emit, modify, env. rsimpl. by destruct (api_call cb req out (hw s)).
  - unfold web_api_dispatch. rewrite Hobj. cbn [negb].
    destruct (api_uri_to_endpoint u 64) as [ep|]; [|do 3 eexists; split; [reflexivity|]; right; split; [done|by left]].
    destruct (api_find_route ep) as [r|]; [|do 3 eexists; split; [reflexivity|]; right; split; [done|right; by left]].
    destruct (negb (bool_decide (m = str "GET")) && _); [do 3 eexists; split; [reflexivity|]; right; split; [done|right; by right]|].
    destruct (if bool_decide (m = str "GET") then get_cb r else post_cb r) as [cb|]; [|do 3 eexists; split; [reflexivity|]; right; split; [done|right; by right]].
    destruct (api_call cb req out (hw s)) as [[rc out'] w] eqn:E. unfold mbind, M_bind, emit, modify, env. rsimpl. rewrite E.
    do 3 eexists. split; [reflexivity|]. left. exists cb. by rsimpl.
Qed.

Lemma http_api_routed_witness :
  web_api_dispatch (str "GET") (str "/api/halow_cfg/?x") None [] (demo_start []) =
    Some ((0, str "web_api_halow_cfg_get"), demo_start [] <| trace := [E_call "web_api_halow_cfg_get"] |>).
Proof.
  destruct (http_api_routed (str "GET") (str "/api/halow_cfg/?x") None [] (demo_start [])) as [Hr _]; [reflexivity|].
  etransitivity; [apply (Hr (mk_route "halow_cfg" (Some "web_api_halow_cfg_get") (Some "web_api_halow_cfg_post")) "web_api_halow_cfg_get" (str "/") (str "?x"))|reflexivity].
  - apply (list_elem_of_lookup_2 _ 4). reflexivity.
  - left. split; reflexivity.
  - vm_compute. reflexivity.
  - repeat constructor.
  - apply Nat.leb_le. vm_compute. reflexivity.
  - intros c t E. injection E as <- _. left. reflexivity.
Defined.

(** ** Examples *)

(** A blank length field: at the end of the data [atoi] runs out of the
    buffer; otherwise digits at the start of the body are the length. *)
Example blank_length_faults :
  http_receive (demo_start [[str "POST /api/reboot HTTP/1.1" ++ CRLF ++ str "Content-Length:" ++ CRLF ++ CRLF]]) = None.
Proof. vm_compute. reflexivity. Qed.
Example blank_length_takes_body :
  option_map fst (http_receive (demo_start [[str "POST /api/reboot HTTP/1.1" ++ CRLF ++ str "Content-Length:" ++ CRLF ++ CRLF ++ str "7 {}...and more"]])) =
  Some (Some (mk_request (str "POST") (str "/api/reboot") (str "7 {}..."))).
Proof. vm_compute. reflexivity. Qed.

(** The length is cut to the largest [int]; adding the header's overflows. *)
Example huge_length_overflows :
  http_receive (demo_start [[str "POST /api/reboot HTTP/1.1" ++ CRLF ++ str "Content-Length: 2147483647" ++ CRLF ++ CRLF]]) = None.
Proof. vm_compute. reflexivity. Qed.

(** The check for [..] comes before the name is cut to 31 characters: here the
    cut turns the added ".gz" into a second dot. *)
Example cut_name_climbs :
  option_map (fun r => trace r.2) (http_serve_file 1000 (str "/aaaaaaaaaaaaaaaaaaaaaaaa/.") (demo_start [])) =
  Some (E_open (str "www/aaaaaaaaaaaaaaaaaaaaaaaa/..") (-2) :: E_open (str "www/aaaaaaaaaaaaaaaaaaaaaaaa/.") (-2) ::
    [E_write (http_header 404 (str "text/plain") 10) 0 106; E_write (str "not found" ++ [10]) 0 10]).
Proof. vm_compute. reflexivity. Qed.
