(* ===== verification/Nearby.v ===== *)
(** * The table of nearby modems: [nearby_detect.c]

    Sixty slots, of which the first [modems_count] are in use; a new modem
    that finds the table full replaces the one not heard for longest.  Every
    operation runs with interrupts off, so operations do not interleave.
    The table refines a finite map from MAC addresses.  The counters are signed:
    what an overflow gives is undefined in C, here the parameter [int_oob]. *)

From S2P Require Import Prelude.

#[local] Open Scope Z_scope.

Definition NEARBY_MODEM_MAX_COUNT : Z := 60.

Record nearby_modem := mk_modem {
  mac : list Z; mcs : Z; last_rssi : Z; last_snr : Z; lastrx_timestamp_s : Z; rx_bytes : Z; rx_packets : Z; user : Z }.
#[export] Instance eta_modem : Eta nearby_modem := fun m =>
  mk_modem (mac m) (mcs m) (last_rssi m) (last_snr m) (lastrx_timestamp_s m) (rx_bytes m) (rx_packets m) (user m).

Record nearby_package := mk_pkg { p_mac : list Z; p_len : Z; p_mcs : Z; p_rssi : Z; p_snr : Z; p_timestamp_s : Z }.

Record nearby_db := mk_nearby { modems : list nearby_modem; modems_count : Z }.
#[export] Instance eta_nearby : Eta nearby_db := fun d => mk_nearby (modems d) (modems_count d).

Definition zero_modem : nearby_modem := mk_modem [0; 0; 0; 0; 0; 0] 0 0 0 0 0 0 0.
Definition nearby_start : nearby_db := mk_nearby (replicate 60 zero_modem) 0.

(** [for (i = from; i < modems_count; i++)]: the slots in use, in order. *)
Definition in_use (from : Z) (d : nearby_db) : list Z := seqZ from (modems_count d - from).

(** The index of the modem, where the code returns its address. *)
Fixpoint find_loop (idx : list Z) (m : list Z) (d : nearby_db) : option (option Z) :=
  match idx with
  | [] => Some None
  | i :: idx => e ← rd (modems d) i; if bool_decide (mac e = m) then Some (Some i) else find_loop idx m d
  end.
Definition nearby_modem_find_by_mac (m : list Z) (d : nearby_db) : option (option Z) := find_loop (in_use 0 d) m d.

Fixpoint oldest_loop (idx : list Z) (oldest : Z) (d : nearby_db) : option Z :=
  match idx with
  | [] => Some oldest
  | i :: idx =>
      e ← rd (modems d) i;
      o ← rd (modems d) oldest;
      oldest_loop idx (if lastrx_timestamp_s e <? lastrx_timestamp_s o then i else oldest) d
  end.
Definition nearby_modem_find_oldest_index (d : nearby_db) : option Z := oldest_loop (in_use 1 d) 0 d.

Section Overflow.
Variable int_oob : Z -> Z.

(** [int32_t] arithmetic, from the exact result. *)
Definition int_i32 (x : Z) : Z := if bool_decide (- 2 ^ 31 <= x < 2 ^ 31) then x else int_oob x.

(** What a package does to the entry of its sender, and a new entry. *)
Definition modem_update (p : nearby_package) (e : nearby_modem) : nearby_modem :=
  e <| mcs := p_mcs p |> <| last_rssi := p_rssi p |> <| last_snr := p_snr p |> <| lastrx_timestamp_s := i32 (p_timestamp_s p) |>
    <| rx_bytes ::= fun n => int_i32 (n + i32 (p_len p)) |> <| rx_packets ::= fun n => int_i32 (n + 1) |>.
Definition modem_new (p : nearby_package) : nearby_modem :=
  mk_modem (p_mac p) (p_mcs p) (p_rssi p) (p_snr p) (i32 (p_timestamp_s p)) (i32 (p_len p)) 1 0.

Definition nearby_modem_package_register (p : nearby_package) (d : nearby_db) : option nearby_db :=
  found ← nearby_modem_find_by_mac (p_mac p) d;
  match found with
  | Some i =>
      e ← rd (modems d) i;
      l ← wr (modems d) i (modem_update p e);
      Some (d <| modems := l |>)
  | None =>
      '(index, d) ←
        (if modems_count d <? NEARBY_MODEM_MAX_COUNT then Some (modems_count d, d <| modems_count ::= fun n => u8 (n + 1) |>)
         else i ← nearby_modem_find_oldest_index d; Some (i, d));
      l ← wr (modems d) index (modem_new p);
      Some (d <| modems := l |>)
  end.

Definition nearby_modem_get_by_index (index : Z) (d : nearby_db) : option nearby_modem :=
  if modems_count d <=? index then None else rd (modems d) index.
Definition nearby_modem_count_get (d : nearby_db) : Z := modems_count d.

Fixpoint best_loop (idx : list Z) (now age_s best : Z) (d : nearby_db) : option Z :=
  match idx with
  | [] => Some best
  | i :: idx =>
      m ← rd (modems d) i;
      best_loop idx now age_s
        (if int_i32 (now - lastrx_timestamp_s m) <=? i32 age_s then if best <? last_rssi m then last_rssi m else best else best) d
  end.
(** [now]: [time(NULL)] *)
Definition nearby_modem_best_recent_rssi (now age_s : Z) (d : nearby_db) : option Z := best_loop (in_use 0 d) (i32 now) age_s (-128) d.

(** ** The table as a map *)

Definition used (d : nearby_db) : list nearby_modem := take (Z.to_nat (modems_count d)) (modems d).
Definition as_map (d : nearby_db) : gmap (list Z) nearby_modem := list_to_map ((fun e => (mac e, e)) <$> used d).

Record nearby_ok (d : nearby_db) : Prop := {
  n_slots : length (modems d) = 60%nat;
  n_count : 0 <= modems_count d <= 60;
  n_nodup : NoDup (mac <$> used d);
}.

(** What the table promises. *)
Definition spec_register (p : nearby_package) (m m' : gmap (list Z) nearby_modem) : Prop :=
  match m !! p_mac p with
  | Some e => m' = <[p_mac p := modem_update p e]> m
  | None =>
      if bool_decide (size m < 60)%nat then m' = <[p_mac p := modem_new p]> m
      else exists old e, m !! old = Some e /\ (forall k f, m !! k = Some f -> lastrx_timestamp_s e <= lastrx_timestamp_s f) /\
             m' = <[p_mac p := modem_new p]> (delete old m)
  end.

(** ** Lemmas *)

Lemma used_length d : nearby_ok d -> length (used d) = Z.to_nat (modems_count d).
Proof. intros [H1 H2 _]. unfold used. rewrite length_take. lia. Qed.
Lemma used_rd d i : nearby_ok d -> 0 <= i < modems_count d -> rd (modems d) i = used d !! Z.to_nat i.
Proof. intros [H1 H2 _] Hi. unfold rd, used. rewrite decide_True by lia. rewrite lookup_take_lt by lia. done. Qed.
Lemma used_is_Some d i : nearby_ok d -> 0 <= i < modems_count d -> exists e, rd (modems d) i = Some e /\ used d !! Z.to_nat i = Some e.
Proof.
  intros Hok Hi. rewrite used_rd by done. destruct (used d !! Z.to_nat i) eqn:E; [by eexists|].
  apply lookup_ge_None in E. rewrite used_length in E by done. lia.
Qed.

Lemma as_map_lookup d k e : nearby_ok d -> as_map d !! k = Some e <-> e ∈ used d /\ mac e = k.
Proof.
  intros [_ _ Hnd]. unfold as_map. rewrite <-elem_of_list_to_map.
  - rewrite list_elem_of_fmap. split; [intros (e' & E & Hin); by injection E as -> ->|intros [Hin <-]; by exists e].
  - by rewrite <-list_fmap_compose.
Qed.
Lemma as_map_None d k : nearby_ok d -> as_map d !! k = None <-> forall e, e ∈ used d -> mac e <> k.
Proof.
  intros Hok. split.
  - intros E e Hin Hk. assert (as_map d !! k = Some e) by by apply as_map_lookup. congruence.
  - intros Hno. destruct (as_map d !! k) as [e|] eqn:E; [|done]. apply as_map_lookup in E as [Hin Hk]; [|done]. by destruct (Hno e).
Qed.
Lemma as_map_size d : nearby_ok d -> size (as_map d) = Z.to_nat (modems_count d).
Proof.
  intros Hok. rewrite <-(used_length d Hok). unfold as_map. pose proof (n_nodup _ Hok) as Hnd. induction (used d) as [|e l IH]; [done|].
  cbn [fmap list_fmap] in *. apply NoDup_cons in Hnd as [Hnot Hnd]. cbn. rewrite map_size_insert_None, IH; [done|done|].
  apply not_elem_of_list_to_map. by rewrite <-list_fmap_compose.
Qed.

(** Lists of entries as maps. *)
Definition entries (l : list nearby_modem) : gmap (list Z) nearby_modem := list_to_map ((fun e => (mac e, e)) <$> l).
Lemma entries_perm (l l' : list nearby_modem) : NoDup (mac <$> l) -> l ≡ₚ l' -> entries l = entries l'.
Proof.
  intros Hnd Hp. unfold entries. apply list_to_map_proper; [by rewrite <-list_fmap_compose|]. by rewrite Hp.
Qed.
Lemma entries_cons e l : entries (e :: l) = <[mac e := e]> (entries l).
Proof. done. Qed.
Lemma entries_None (l : list nearby_modem) k : k ∉ mac <$> l -> entries l !! k = None.
Proof. intros Hk. apply not_elem_of_list_to_map. by rewrite <-list_fmap_compose. Qed.

(** Entry [e] into slot [i], whoever was there, if nobody else has its MAC. *)
Lemma as_map_write d i e old : nearby_ok d -> 0 <= i < modems_count d -> used d !! Z.to_nat i = Some old ->
  (forall f, f ∈ used d -> mac f = mac e -> mac f = mac old) ->
  exists l, wr (modems d) i e = Some l /\ nearby_ok (d <| modems := l |>) /\
    as_map (d <| modems := l |>) = <[mac e := e]> (delete (mac old) (as_map d)).
Proof.
  intros Hok Hi Hold Hfresh. pose proof (used_length d Hok) as Hul. destruct Hok as [H1 H2 Hnd].
  eexists. split; [apply wr_in_bounds; lia|]. set (d' := d <| modems := _ |>).
  assert (Eu : used d' = <[Z.to_nat i := e]> (used d)) by (unfold d', used; rsimpl; apply take_insert_lt; lia).
  pose proof (take_drop_middle _ _ _ Hold) as Es. set (l1 := take (Z.to_nat i) (used d)) in *. set (l2 := drop (S (Z.to_nat i)) (used d)) in *.
  assert (Eu' : used d' = l1 ++ e :: l2).
  { rewrite Eu, <-Es. rewrite insert_app_r_alt by (unfold l1; rewrite length_take; lia).
    replace (Z.to_nat i - length l1)%nat with 0%nat by (unfold l1; rewrite length_take; lia). done. }
  assert (Hp : used d ≡ₚ old :: l1 ++ l2) by (rewrite <-Es; by rewrite Permutation_middle).
  assert (Hp' : used d' ≡ₚ e :: l1 ++ l2) by (rewrite Eu'; by rewrite Permutation_middle).
  pose proof Hnd as Hnd0. rewrite Hp in Hnd0. cbn in Hnd0. apply NoDup_cons in Hnd0 as [Hnot Hnd0].
  assert (Hnot' : mac e ∉ mac <$> l1 ++ l2).
  { intros Hin. apply list_elem_of_fmap in Hin as (f & Ef & Hf). apply Hnot. apply list_elem_of_fmap. exists f. split; [|done]. symmetry.
    apply Hfresh; [rewrite Hp; by right|done]. }
  assert (Hnd' : NoDup (mac <$> used d')) by (rewrite Hp'; cbn; by constructor).
  split; [constructor; [unfold d'; rsimpl; by rewrite length_insert|unfold d'; by rsimpl|done]|].
  change (as_map d') with (entries (used d')). change (as_map d) with (entries (used d)).
  rewrite (entries_perm _ _ Hnd' Hp'), (entries_perm _ _ Hnd Hp), !entries_cons. by rewrite delete_insert_id by by apply entries_None.
Qed.

(** A new slot. *)
Lemma as_map_append d e : nearby_ok d -> modems_count d < 60 -> (forall f, f ∈ used d -> mac f <> mac e) ->
  exists l, wr (modems d) (modems_count d) e = Some l /\
    let d' := d <| modems_count ::= (fun n => u8 (n + 1)) |> <| modems := l |> in
    nearby_ok d' /\ as_map d' = <[mac e := e]> (as_map d).
Proof.
  intros Hok Hc Hfresh. pose proof (used_length d Hok) as Hul. destruct Hok as [H1 H2 Hnd].
  eexists. split; [apply wr_in_bounds; lia|]. set (d' := d <| modems_count ::= _ |> <| modems := _ |>). cbv zeta.
  assert (Ec : modems_count d' = modems_count d + 1) by (unfold d'; rsimpl; apply u8_small; word_lia).
  assert (Eu : used d' = used d ++ [e]).
  { unfold used. rewrite Ec. replace (Z.to_nat (modems_count d + 1)) with (S (Z.to_nat (modems_count d))) by lia. unfold d'. rsimpl.
    rewrite (take_S_r _ _ e) by (apply list_lookup_insert_eq; lia). by rewrite take_insert_ge by lia. }
  assert (Hp : used d' ≡ₚ e :: used d) by (rewrite Eu; by rewrite Permutation_app_comm).
  assert (Hnot : mac e ∉ mac <$> used d).
  { intros Hin. apply list_elem_of_fmap in Hin as (f & Ef & Hf). by destruct (Hfresh f Hf). }
  assert (Hnd' : NoDup (mac <$> used d')) by (rewrite Hp; cbn; by constructor).
  split; [constructor; [unfold d'; rsimpl; by rewrite length_insert|lia|done]|].
  change (as_map d') with (entries (used d')). by rewrite (entries_perm _ _ Hnd' Hp).
Qed.

(** ** The loops *)

Lemma in_use_elem from d i : i ∈ in_use from d <-> from <= i < modems_count d.
Proof. unfold in_use. rewrite elem_of_seqZ. lia. Qed.

Lemma find_loop_spec idx m d : nearby_ok d -> (forall i, i ∈ idx -> 0 <= i < modems_count d) ->
  exists r, find_loop idx m d = Some r /\
    match r with
    | Some i => i ∈ idx /\ exists e, used d !! Z.to_nat i = Some e /\ mac e = m
    | None => forall i e, i ∈ idx -> used d !! Z.to_nat i = Some e -> mac e <> m
    end.
Proof.
  intros Hok. induction idx as [|i idx IH]; intros Hr; cbn [find_loop].
  - exists None. split; [done|]. intros i e Hi. by apply elem_of_nil in Hi.
  - destruct (used_is_Some d i Hok) as (e & E1 & E2); [apply Hr; by left|]. rewrite E1. cbn [mbind option_bind].
    destruct (bool_decide_reflect (mac e = m)) as [Em|Em].
    + exists (Some i). split; [done|]. split; [by left|by exists e].
    + destruct IH as (r & -> & Hres); [intros; apply Hr; by right|]. exists r. split; [done|]. destruct r as [j|].
      * destruct Hres as [Hj Hres]. split; [by right|done].
      * intros j f [->|Hj]%elem_of_cons Hf; [congruence|by eapply Hres].
Qed.

Lemma find_spec m d : nearby_ok d -> exists r, nearby_modem_find_by_mac m d = Some r /\
  match r with
  | Some i => 0 <= i < modems_count d /\ exists e, used d !! Z.to_nat i = Some e /\ mac e = m
  | None => forall e, e ∈ used d -> mac e <> m
  end.
Proof.
  intros Hok. destruct (find_loop_spec (in_use 0 d) m d Hok) as (r & Hr & Hres); [intros i; by rewrite in_use_elem|].
  exists r. split; [done|]. destruct r as [i|]; [rewrite in_use_elem in Hres; done|]. intros e He.
  apply list_elem_of_lookup in He as [j Hj]. pose proof (lookup_lt_Some _ _ _ Hj) as Hlt. rewrite used_length in Hlt by done.
  apply (Hres (Z.of_nat j)); [apply in_use_elem; lia|by rewrite Nat2Z.id].
Qed.

Lemma oldest_loop_spec d idx : nearby_ok d -> (forall i, i ∈ idx -> 0 <= i < modems_count d) -> forall o, 0 <= o < modems_count d ->
  exists r e, oldest_loop idx o d = Some r /\ 0 <= r < modems_count d /\ used d !! Z.to_nat r = Some e /\
    (forall i f, i = o \/ i ∈ idx -> used d !! Z.to_nat i = Some f -> lastrx_timestamp_s e <= lastrx_timestamp_s f).
Proof.
  intros Hok. induction idx as [|i idx IH]; intros Hr o Ho; cbn [oldest_loop].
  - destruct (used_is_Some d o Hok Ho) as (e & _ & E). exists o, e. split; [done|]. split; [done|]. split; [done|].
    intros i f [->|Hi] Hf; [rewrite E in Hf; by injection Hf as ->|by apply elem_of_nil in Hi].
  - destruct (used_is_Some d i Hok) as (e & E1 & E2); [apply Hr; by left|]. destruct (used_is_Some d o Hok Ho) as (eo & O1 & O2).
    rewrite E1, O1. cbn [mbind option_bind]. destruct (IH (fun j Hj => Hr j ltac:(by right)) (if lastrx_timestamp_s e <? lastrx_timestamp_s eo then i else o)) as (r & m & Er & Hrr & Hm & Hmin).
    { destruct (_ <? _); [apply Hr; by left|done]. }
    exists r, m. split; [done|]. split; [done|]. split; [done|].
    assert (Hboth : lastrx_timestamp_s m <= lastrx_timestamp_s e /\ lastrx_timestamp_s m <= lastrx_timestamp_s eo).
    { destruct (Z.ltb_spec (lastrx_timestamp_s e) (lastrx_timestamp_s eo)); [pose proof (Hmin i e (or_introl eq_refl) E2)|pose proof (Hmin o eo (or_introl eq_refl) O2)]; lia. }
    intros j f [->|[->|Hj]%elem_of_cons] Hf; [rewrite O2 in Hf; injection Hf as <-; lia|rewrite E2 in Hf; injection Hf as <-; lia|].
    apply (Hmin j f); [by right|done].
Qed.

Lemma register_spec p d : nearby_ok d -> exists d', nearby_modem_package_register p d = Some d' /\ nearby_ok d' /\ spec_register p (as_map d) (as_map d').
Proof.
  intros Hok. unfold nearby_modem_package_register, spec_register. destruct (find_spec (p_mac p) d Hok) as (r & -> & Hr). cbn [mbind option_bind].
  destruct r as [i|].
  - destruct Hr as (Hi & e & He & Em). destruct (used_is_Some d i Hok Hi) as (e' & E1 & E2). rewrite He in E2. injection E2 as <-. rewrite E1. cbn [mbind option_bind].
    assert (Eupd : mac (modem_update p e) = mac e) by (unfold modem_update; by rsimpl).
    destruct (as_map_write d i (modem_update p e) e Hok Hi He) as (l & -> & Hok' & Hm); [intros f _; by rewrite Eupd|]. cbn [mbind option_bind].
    eexists. split; [done|]. split; [done|]. assert (Hl : as_map d !! p_mac p = Some e) by (apply as_map_lookup; [done|]; split; [by eapply list_elem_of_lookup_2|done]).
    rewrite Hl, Hm, Eupd, Em. by rewrite insert_delete_eq.
  - rewrite (proj2 (as_map_None d (p_mac p) Hok) Hr). rewrite as_map_size by done. pose proof (n_count _ Hok) as Hc. unfold NEARBY_MODEM_MAX_COUNT.
    destruct (Z.ltb_spec (modems_count d) 60) as [Hlt|Hge]; cbn [mbind option_bind].
    + rewrite bool_decide_true by lia. destruct (as_map_append d (modem_new p) Hok Hlt Hr) as (l & Hw & Hok' & Hm). rsimpl. rewrite Hw. cbn [mbind option_bind].
      eexists. split; [done|]. by split.
    + rewrite bool_decide_false by lia. destruct (oldest_loop_spec d (in_use 1 d) Hok) with (o := 0) as (i & e & Eo & Hi & He & Hmin); [intros i; rewrite in_use_elem; lia|lia|].
      unfold nearby_modem_find_oldest_index. rewrite Eo. cbn [mbind option_bind].
      destruct (as_map_write d i (modem_new p) e Hok Hi He) as (l & -> & Hok' & Hm); [intros f Hf Ef; by destruct (Hr f Hf)|]. cbn [mbind option_bind].
      eexists. split; [done|]. split; [done|]. exists (mac e), e. split; [apply as_map_lookup; [done|]; split; [by eapply list_elem_of_lookup_2|done]|]. split; [|done].
      intros k f Hk. apply as_map_lookup in Hk as [Hf _]; [|done]. apply list_elem_of_lookup in Hf as [j Hj]. pose proof (lookup_lt_Some _ _ _ Hj) as Hlt. rewrite used_length in Hlt by done.
      apply (Hmin (Z.of_nat j) f); [|by rewrite Nat2Z.id]. rewrite in_use_elem. lia.
Qed.

(** The strongest signal among the modems heard lately. *)
Definition heard (now age_s : Z) (m : nearby_modem) : Prop := int_i32 (now - lastrx_timestamp_s m) <= i32 age_s.
Lemma best_loop_spec d now age_s idx : nearby_ok d -> (forall i, i ∈ idx -> 0 <= i < modems_count d) -> forall best,
  exists r, best_loop idx now age_s best d = Some r /\ best <= r /\
    (forall i m, i ∈ idx -> used d !! Z.to_nat i = Some m -> heard now age_s m -> last_rssi m <= r) /\
    (r = best \/ exists i m, i ∈ idx /\ used d !! Z.to_nat i = Some m /\ heard now age_s m /\ last_rssi m = r).
Proof.
  intros Hok. induction idx as [|i idx IH]; intros Hr best; cbn [best_loop].
  - exists best. split; [done|]. split; [done|]. split; [intros i m Hi; by apply elem_of_nil in Hi|by left].
  - destruct (used_is_Some d i Hok) as (e & E1 & E2); [apply Hr; by left|]. rewrite E1. cbn [mbind option_bind].
    set (b := if _ <=? _ then _ else _). destruct (IH (fun j Hj => Hr j ltac:(by right)) b) as (r & -> & Hge & Hall & Hex).
    assert (Hb : best <= b /\ (heard now age_s e -> last_rssi e <= b) /\ (b = best \/ heard now age_s e /\ b = last_rssi e)).
    { unfold b, heard. destruct (Z.leb_spec (int_i32 (now - lastrx_timestamp_s e)) (i32 age_s)), (Z.ltb_spec best (last_rssi e)); (split; [lia|split; [lia|]]); auto; by left. }
    clearbody b. destruct Hb as (Hb1 & Hb2 & Hb3). exists r. split; [done|]. split; [lia|]. split.
    + intros j m [->|Hj]%elem_of_cons Hm Hh; [rewrite E2 in Hm; injection Hm as <-; specialize (Hb2 Hh); lia|by eapply Hall].
    + destruct Hex as [->|(j & m & Hj & Hm)]; [|right; exists j, m; split; [by right|done]].
      destruct Hb3 as [->|[Hh ->]]; [by left|right; exists i, e; split; [by left|done]].
Qed.

Lemma start_nearby : nearby_ok nearby_start /\ as_map nearby_start = ∅.
Proof. split; [constructor; [done|cbn; lia|cbn; constructor]|done]. Qed.

(** ** Property *)

Fixpoint nearby_run (ps : list nearby_package) (d : nearby_db) : option nearby_db :=
  match ps with
  | [] => Some d
  | p :: ps => d ← nearby_modem_package_register p d; nearby_run ps d
  end.
Inductive spec_run : list nearby_package -> gmap (list Z) nearby_modem -> gmap (list Z) nearby_modem -> Prop :=
  | spec_nil m : spec_run [] m m
  | spec_cons p ps m m' m'' : spec_register p m m' -> spec_run ps m' m'' -> spec_run (p :: ps) m m''.

Lemma run_refines_map ps : forall d, nearby_ok d -> exists d', nearby_run ps d = Some d' /\ nearby_ok d' /\ spec_run ps (as_map d) (as_map d').
Proof.
  induction ps as [|p ps IH]; intros d Hok; cbn [nearby_run]; [exists d; split; [done|]; split; [done|apply spec_nil]|].
  destruct (register_spec p d Hok) as (d1 & -> & Hok1 & Hs). destruct (IH d1 Hok1) as (d' & Hd' & Hok' & Hr).
  exists d'. split; [done|]. split; [done|]. by eapply spec_cons.
Qed.

End Overflow.

(** C37: the table of nearby modems is a map of at most sixty.  Any history of
    packages leaves the array intact and in step with the map: a known sender
    is updated in place, a new one is added, and if the map is full it
    replaces a modem that no other was heard before; and the best recent
    signal is the strongest among the modems of the map heard within the
    given time, -128 if there is none.  This holds whatever value an
    overflow of a counter or of a difference of times gives. *)
Theorem nearby_table_refines (int_oob : Z -> Z) ps now age_s :
  exists d, nearby_run int_oob ps nearby_start = Some d /\ spec_run int_oob ps ∅ (as_map d) /\
    (size (as_map d) <= 60)%nat /\ nearby_modem_count_get d = Z.of_nat (size (as_map d)) /\
    exists r, nearby_modem_best_recent_rssi int_oob now age_s d = Some r /\
      (forall k m, as_map d !! k = Some m -> heard int_oob (i32 now) age_s m -> last_rssi m <= r) /\
      (r = -128 \/ exists k m, as_map d !! k = Some m /\ heard int_oob (i32 now) age_s m /\ last_rssi m = r).
Proof.
  destruct start_nearby as [Hok0 Em0]. destruct (run_refines_map int_oob ps nearby_start Hok0) as (d & Hd & Hok & Hr). rewrite Em0 in Hr.
  exists d. split; [done|]. split; [done|]. rewrite as_map_size by done. pose proof (n_count _ Hok). split; [lia|]. split; [unfold nearby_modem_count_get; lia|].
  destruct (best_loop_spec int_oob d (i32 now) age_s (in_use 0 d) Hok) with (best := -128) as (r & Hb & _ & Hall & Hex); [intros i; by rewrite in_use_elem|].
  exists r. split; [done|]. split.
  - intros k m Hk Hh. apply as_map_lookup in Hk as [Hin _]; [|done]. apply list_elem_of_lookup in Hin as [j Hj].
    pose proof (lookup_lt_Some _ _ _ Hj) as Hlt. rewrite used_length in Hlt by done.
    apply (Hall (Z.of_nat j) m); [rewrite in_use_elem; lia|by rewrite Nat2Z.id|done].
  - destruct Hex as [->|(i & m & Hi & Hm & Hh & <-)]; [by left|]. right. exists (mac m), m. split; [|done].
    apply as_map_lookup; [done|]. split; [by eapply list_elem_of_lookup_2|done].
Qed.

Example nearby_evicts_oldest :
  let p i t := mk_pkg [2; 0; 0; 0; 0; i] 10 0 (-40) 3 t in
  let ps := (fun i => p i (100 + i)) <$> seqZ 0 61 in
  option_map (fun d => (nearby_modem_count_get d, mac <$> rd (modems d) 0, mac <$> rd (modems d) 1)) (nearby_run (fun _ => 0) ps nearby_start) =
  Some (60, Some [2; 0; 0; 0; 0; 60], Some [2; 0; 0; 0; 0; 1]).
Proof. vm_compute. reflexivity. Qed.
