(* ===== verification/NetLog.v ===== *)
(** * Log messages over UDP: [net_log.c]

    Any task may log: it reserves room in a budget of heap bytes, allocates a
    message, queues its address in a ring and wakes the sending task, which
    takes messages out, sends them and gives their bytes back.  Each critical
    section of the code is one operation; the task's [lwrb_read], outside of
    one, is three; [net_step] interleaves senders and task.  lwIP's UDP is
    reduced to the messages handed to it and its answers; [malloc]'s heap is a
    finite map, so that using or freeing a message twice is a fault. *)

From S2P Require Import Prelude ConfigDb Lwrb Net.
From stdpp Require Import strings relations.

#[local] Open Scope Z_scope.

Definition NET_LOG_MAX_ALLOC : Z := 16384.
Definition NET_LOG_PTR_SLOTS : Z := 64.
Definition NET_LOG_CONFIG_IP_DEF : Z := lwip_htonl (LWIP_MAKEU32 192 168 7 1).
Definition NET_LOG_CONFIG_PORT_DEF : Z := 5000.

Record net_log_config := mk_netlog_cfg { enable : bool; ip : Z; port : Z }.

(** [sizeof(net_log_msg_t)] is 2, of a pointer 4. *)
Record net_log := mk_netlog {
  g_net_log_cfg : net_log_config;
  g_rb : lwrb;
  g_alloc_total : Z;
  g_sem : Z;
  g_task_ready : bool;
  heap : gmap Z (list Z);
}.
#[export] Instance eta_net_log : Eta net_log := fun s =>
  mk_netlog (g_net_log_cfg s) (g_rb s) (g_alloc_total s) (g_sem s) (g_task_ready s) (heap s).

(** ** Settings *)

Definition net_log_config_is_valid (c : net_log_config) : bool := negb (port c =? 0).
Definition net_log_config_set_default : net_log_config := mk_netlog_cfg true NET_LOG_CONFIG_IP_DEF NET_LOG_CONFIG_PORT_DEF.

Section Settings.
Context {D : Type} `{Kvdb D}.
Definition net_log_config_load (d : D) : net_log_config :=
  let en := get_i32_or "cfg.net_log.enable" 1 d in
  let ip := get_i32_or "cfg.net_log.ip" (i32 NET_LOG_CONFIG_IP_DEF) d in
  let port := get_i32_or "cfg.net_log.port" NET_LOG_CONFIG_PORT_DEF d in
  mk_netlog_cfg (negb (en =? 0)) (u32 ip) (u16 port).
Definition net_log_config_save (c : net_log_config) (d : D) : D :=
  if negb (net_log_config_is_valid c) then d
  else
    let d := (configdb_set_i32 "cfg.net_log.enable" (Some (if enable c then 1 else 0)) d).2 in
    let d := (configdb_set_i32 "cfg.net_log.ip" (Some (i32 (ip c))) d).2 in
    (configdb_set_i32 "cfg.net_log.port" (Some (port c)) d).2.
Definition net_log_config_apply (c : net_log_config) (s : net_log) : net_log :=
  if negb (net_log_config_is_valid c) then s else s <| g_net_log_cfg := c |>.
Definition net_log_init_early (s : net_log) : net_log := net_log_config_apply net_log_config_set_default s.
Definition net_log_init (d : D) (s : net_log) : D * net_log :=
  let s := s <| g_rb := lwrb_init (replicate (Z.to_nat (NET_LOG_PTR_SLOTS * 4 + 1)) 0) |> <| g_sem := 0 |> <| g_task_ready := true |> in
  let c := net_log_config_load d in
  let c := if negb (net_log_config_is_valid c) then net_log_config_set_default else c in
  (net_log_config_save c d, net_log_config_apply c s).
End Settings.

(** ** Sending *)

(** The bytes of a message: two for its length, and the text. *)
Definition alloc_sz (data : list Z) : Z := 2 + Z.of_nat (length data).

Definition net_log_wanted (data : list Z) (s : net_log) : bool :=
  negb (Z.of_nat (length data) =? 0) && enable (g_net_log_cfg s) && g_task_ready s.
(** First critical section: budget and slots. *)
Definition net_log_reserve (data : list Z) (s : net_log) : bool * net_log :=
  let ok := (u32 (g_alloc_total s + alloc_sz data) <=? NET_LOG_MAX_ALLOC) && (4 <=? lwrb_get_free (g_rb s)) in
  (ok, if ok then s <| g_alloc_total ::= fun t => u32 (t + alloc_sz data) |> else s).
Definition net_log_release (data : list Z) (s : net_log) : net_log := s <| g_alloc_total ::= fun t => u32 (t - alloc_sz data) |>.
(** Second critical section: the address into the ring. *)
Definition net_log_push (p : Z) (s : net_log) : option (bool * net_log) :=
  '(n, rb) ← lwrb_write (g_rb s) (le32 p);
  Some (n =? 4, s <| g_rb := rb |>).
Definition msg_free (p : Z) (s : net_log) : option net_log :=
  match heap s !! p with Some _ => Some (s <| heap ::= delete p |>) | None => None end.
Definition sema_up (s : net_log) : net_log := s <| g_sem ::= Z.succ |>.

(** Without interruption; [p]: the answer of [malloc]. *)
Definition net_log_send (p : Z) (data : list Z) (s : net_log) : option (bool * net_log) :=
  if negb (net_log_wanted data s) then Some (false, s)
  else
    let '(ok, s) := net_log_reserve data s in
    if negb ok then Some (false, s)
    else if p =? 0 then Some (false, net_log_release data s)
    else
      let s := s <| heap ::= <[p := data]> |> in
      '(ok, s) ← net_log_push p s;
      if negb ok then s ← msg_free p s; Some (false, net_log_release data s)
      else Some (true, sema_up s).

(** The task's [lwrb_read] of an address: the full length, the copy, the store
    of the index. *)
Definition net_log_pop_full (s : net_log) : Z := lwrb_get_full (g_rb s).
Definition net_log_pop_copy (full : Z) (s : net_log) : option (list Z * Z) := lwrb_read_copy (g_rb s) (Z.min full 4).
Definition net_log_pop_store (r : Z) (s : net_log) : net_log := s <| g_rb ::= fun rb => rb <| rb_r := r |> |>.

(** Results of lwIP: a connection, a buffer, [netbuf_ref], [netconn_sendto]. *)
Definition net_log_send_udp (conn buf : bool) (ref_err send_err : Z) : bool :=
  if negb conn then false
  else if negb buf then false
  else if negb (ref_err =? 0) then false
  else send_err =? 0.

(** ** Interleaving *)

(** A sender after its reservation, with its message, after freeing it again,
    after queueing it. *)
Inductive sender := Reserved (data : list Z) | Holding (p : Z) (data : list Z) | Freed (data : list Z) | Written.
(** The task: waiting for the semaphore, before [lwrb_read], in it with the
    full length, with the bytes and the new index, with a message, after
    handing it to UDP, after giving its bytes back. *)
Inductive task :=
  T_wait | T_loop | T_full (full : Z) | T_copied (b : list Z) (r : Z) | T_popped (p : Z) | T_sent (p : Z) | T_account (p : Z).

(** [sent]: the messages handed to UDP, with its answers. *)
Record machine := mk_netm { nl : net_log; senders : list sender; tsk : task; accepted : list (list Z); sent : list (list Z * bool) }.

Inductive net_step : machine -> machine -> Prop :=
  | step_reserve data s s' l t acc snt : is_u16 (Z.of_nat (length data)) ->
      net_log_wanted data s = true -> net_log_reserve data s = (true, s') ->
      net_step (mk_netm s l t acc snt) (mk_netm s' (Reserved data :: l) t acc snt)
  | step_no_memory data s l1 l2 t acc snt :
      net_step (mk_netm s (l1 ++ Reserved data :: l2) t acc snt) (mk_netm (net_log_release data s) (l1 ++ l2) t acc snt)
  | step_malloc p data s l1 l2 t acc snt : 0 < p < 2 ^ 32 -> heap s !! p = None ->
      net_step (mk_netm s (l1 ++ Reserved data :: l2) t acc snt) (mk_netm (s <| heap ::= <[p := data]> |>) (l1 ++ Holding p data :: l2) t acc snt)
  | step_push p data s s' l1 l2 t acc snt : net_log_push p s = Some (true, s') ->
      net_step (mk_netm s (l1 ++ Holding p data :: l2) t acc snt) (mk_netm s' (l1 ++ Written :: l2) t (acc ++ [data]) snt)
  | step_push_fails p data s s1 s' l1 l2 t acc snt : net_log_push p s = Some (false, s1) -> msg_free p s1 = Some s' ->
      net_step (mk_netm s (l1 ++ Holding p data :: l2) t acc snt) (mk_netm s' (l1 ++ Freed data :: l2) t acc snt)
  | step_release data s l1 l2 t acc snt :
      net_step (mk_netm s (l1 ++ Freed data :: l2) t acc snt) (mk_netm (net_log_release data s) (l1 ++ l2) t acc snt)
  | step_sema_up s l1 l2 t acc snt :
      net_step (mk_netm s (l1 ++ Written :: l2) t acc snt) (mk_netm (sema_up s) (l1 ++ l2) t acc snt)
  | step_wake s l acc snt : 0 < g_sem s ->
      net_step (mk_netm s l T_wait acc snt) (mk_netm (s <| g_sem ::= Z.pred |>) l T_loop acc snt)
  | step_full s l acc snt :
      net_step (mk_netm s l T_loop acc snt) (mk_netm s l (T_full (net_log_pop_full s)) acc snt)
  | step_empty s l acc snt :
      net_step (mk_netm s l (T_full 0) acc snt) (mk_netm s l T_wait acc snt)
  | step_copy full b r s l acc snt : full <> 0 -> net_log_pop_copy full s = Some (b, r) ->
      net_step (mk_netm s l (T_full full) acc snt) (mk_netm s l (T_copied b r) acc snt)
  | step_store b r s l acc snt :
      net_step (mk_netm s l (T_copied b r) acc snt)
        (mk_netm (net_log_pop_store r s) l (if decide (length b = 4%nat) then T_popped (u32 (of_le32 b)) else T_wait) acc snt)
  | step_send p data conn buf ref_err send_err s l acc snt : heap s !! p = Some data ->
      net_step (mk_netm s l (T_popped p) acc snt)
        (mk_netm s l (T_sent p) acc (snt ++ [(data, net_log_send_udp conn buf ref_err send_err)]))
  | step_account p data s l acc snt : heap s !! p = Some data ->
      net_step (mk_netm s l (T_sent p) acc snt) (mk_netm (net_log_release data s) l (T_account p) acc snt)
  | step_free p s s' l acc snt : msg_free p s = Some s' ->
      net_step (mk_netm s l (T_account p) acc snt) (mk_netm s' l T_loop acc snt)
  | step_configure c s l t acc snt :
      net_step (mk_netm s l t acc snt) (mk_netm (net_log_config_apply c s) l t acc snt).

(** ** Invariant *)

Definition cost (data : list Z) : nat := 2 + length data.
Definition sender_cost (x : sender) : nat := match x with Reserved d | Holding _ d | Freed d => cost d | Written => 0 end.
Definition sender_owns (x : sender) : list (Z * list Z) := match x with Holding p d => [(p, d)] | _ => [] end.
Definition owned (l : list sender) : list (Z * list Z) := concat (map sender_owns l).
Definition task_cost (t : task) (tm : list (Z * list Z)) : nat := match t with T_account _ => 0 | _ => sum_list_with (fun x => cost x.2) tm end.
Definition task_unsent (t : task) (tm : list (Z * list Z)) : list (list Z) := match t with T_popped _ => tm.*2 | _ => [] end.
Definition task_holds (rb : lwrb) (q : list (Z * list Z)) (t : task) (tm : list (Z * list Z)) : Prop :=
  match t with
  | T_wait | T_loop => tm = []
  | T_full full => tm = [] /\ (full = 0 \/ 4 <= full /\ q <> [])
  | T_copied b r => tm = [] /\ r = lwrb_read_r (rb_size rb) (rb_r rb) 4 /\ exists x q', q = x :: q' /\ b = le32 x.1
  | T_popped p | T_sent p | T_account p => exists d, tm = [(p, d)]
  end.
Definition at_rest (t : task) : Prop := t = T_wait \/ t = T_full 0.

(** [q]: the messages in the ring; [tm]: the one the task has. *)
Record net_inv (q tm : list (Z * list Z)) (m : machine) : Prop := {
  ni_ring : ring_ok (g_rb (nl m)) /\ rb_size (g_rb (nl m)) = 257;
  ni_queue : rb_list (g_rb (nl m)) = concat (le32 <$> q.*1);
  ni_task : task_holds (g_rb (nl m)) q (tsk m) tm;
  ni_heap : heap (nl m) = list_to_map (owned (senders m) ++ tm ++ q);
  ni_nodup : NoDup (owned (senders m) ++ tm ++ q).*1;
  ni_ptrs : Forall (fun x => is_u32 x.1) (owned (senders m) ++ tm ++ q);
  ni_total : g_alloc_total (nl m) = Z.of_nat (sum_list_with sender_cost (senders m) + task_cost (tsk m) tm + sum_list_with (fun x => cost x.2) q);
  ni_max : g_alloc_total (nl m) <= NET_LOG_MAX_ALLOC;
  ni_fifo : accepted m = (sent m).*1 ++ task_unsent (tsk m) tm ++ q.*2;
  ni_sem : 0 <= g_sem (nl m);
  ni_wake : at_rest (tsk m) -> q <> [] -> 0 < g_sem (nl m) \/ Written ∈ senders m;
}.

Lemma queue_bytes (q : list (Z * list Z)) : length (concat (le32 <$> q.*1)) = (4 * length q)%nat.
Proof. induction q as [|[p d] q IH]; [done|]. cbn [fmap list_fmap concat fst]. rewrite length_app, le32_length, IH. cbn [length]. lia. Qed.
Lemma ring_free q tm m : net_inv q tm m -> lwrb_get_free (g_rb (nl m)) = 256 - 4 * Z.of_nat (length q) /\ 4 * Z.of_nat (length q) <= 256.
Proof.
  intros Hi. destruct (ni_ring _ _ _ Hi) as [Hr Hs]. rewrite get_free_full, <-rb_list_length, (ni_queue _ _ _ Hi), queue_bytes, Hs by done.
  split; [lia|]. pose proof (rb_list_length _ Hr) as Hl. rewrite (ni_queue _ _ _ Hi), queue_bytes in Hl. destruct Hr as [H1 H2]. unfold lwrb_get_full in Hl. rewrite Hs in *. revert Hl. z_case; lia.
Qed.

(** The queue's operations on the abstract queue. *)
Lemma push_spec q tm m p : net_inv q tm m -> is_u32 p -> exists ok rb, net_log_push p (nl m) = Some (ok, nl m <| g_rb := rb |>) /\
  ring_ok rb /\ rb_size rb = 257 /\ rb_r rb = rb_r (g_rb (nl m)) /\ if ok then rb_list rb = concat (le32 <$> q.*1) ++ le32 p else rb = g_rb (nl m).
Proof.
  intros Hi Hp. destruct (ring_free _ _ _ Hi) as [Hf Hl]. destruct (ni_ring _ _ _ Hi) as [Hr Hs]. unfold net_log_push.
  destruct (Z.le_gt_cases 4 (lwrb_get_free (g_rb (nl m)))) as [Hfit|Hfull].
  - destruct (write_spec (g_rb (nl m)) (le32 p) Hr) as (rb & E & Hr' & Hs' & Hlist); [by rewrite le32_length|]. pose proof (write_keeps_r _ _ _ _ E) as Hrr. rewrite E. cbn [mbind option_bind]. rewrite le32_length.
    exists true, rb. split; [done|]. split; [done|]. split; [congruence|]. split; [done|]. by rewrite Hlist, (ni_queue _ _ _ Hi).
  - assert (H0 : lwrb_get_free (g_rb (nl m)) = 0) by lia. unfold lwrb_write. rewrite H0. cbn [Z.eqb]. rewrite orb_true_r. cbn [mbind option_bind].
    exists false, (g_rb (nl m)). by split.
Qed.
Lemma pop_full q tm m : net_inv q tm m -> net_log_pop_full (nl m) = 4 * Z.of_nat (length q).
Proof.
  intros Hi. destruct (ni_ring _ _ _ Hi) as [Hr _]. unfold net_log_pop_full. rewrite <-rb_list_length, (ni_queue _ _ _ Hi), queue_bytes by done. lia.
Qed.
(** The bytes copied are the first message's address, whatever the senders
    append; storing the index takes it out of the ring. *)
Lemma pop_message tm m p d q full : net_inv ((p, d) :: q) tm m -> 4 <= full ->
  net_log_pop_copy full (nl m) = Some (le32 p, lwrb_read_r (rb_size (g_rb (nl m))) (rb_r (g_rb (nl m))) 4) /\
  let rb := g_rb (nl m) <| rb_r := lwrb_read_r (rb_size (g_rb (nl m))) (rb_r (g_rb (nl m))) 4 |> in
  ring_ok rb /\ rb_size rb = 257 /\ rb_list rb = concat (le32 <$> q.*1) /\ is_u32 p.
Proof.
  intros Hi Hfull. destruct (ni_ring _ _ _ Hi) as [Hr Hs]. unfold net_log_pop_copy. rewrite Z.min_r by done.
  pose proof (pop_full _ _ _ Hi) as Hf. unfold net_log_pop_full in Hf. cbn [length] in Hf.
  destruct (read_spec (g_rb (nl m)) 4 Hr) as (rb & E & Hr' & Hs' & Hl); [lia|]. rewrite lwrb_read_halves in E.
  rewrite (proj2 (Z.eqb_neq (lwrb_get_full _) 0)) in E by lia. cbn [Z.eqb orb] in E. rewrite Z.min_r in E by lia.
  destruct (lwrb_read_copy (g_rb (nl m)) 4) as [[b r]|] eqn:Ec; [|done]. cbn [mbind option_bind] in E. injection E as Eb <-.
  assert (r = lwrb_read_r (rb_size (g_rb (nl m))) (rb_r (g_rb (nl m))) 4) as ->.
  { unfold lwrb_read_copy in Ec. destruct (rd_n _ (rb_r _) _); [|done]. cbn [mbind option_bind] in Ec. destruct (rd_n _ 0 _); [|done]. cbn [mbind option_bind] in Ec. congruence. }
  rewrite (ni_queue _ _ _ Hi) in *. change (Z.to_nat 4) with 4%nat in *. cbn [fmap list_fmap concat fst] in *.
  pose proof (le32_length p) as H4. rewrite (take_app_length' (le32 p)) in Eb by done. rewrite drop_app_length' in Hl by done. subst b.
  split; [done|]. split; [done|]. split; [congruence|]. split; [done|].
  pose proof (ni_ptrs _ _ _ Hi) as Hpt. rewrite !Forall_app in Hpt. destruct Hpt as (_ & _ & Hpt). by apply Forall_cons in Hpt as [? _].
Qed.

Lemma owned_app l1 l2 : owned (l1 ++ l2) = owned l1 ++ owned l2.
Proof. unfold owned. by rewrite map_app, concat_app. Qed.
Lemma cost_app (l1 l2 : list sender) : sum_list_with sender_cost (l1 ++ l2) = (sum_list_with sender_cost l1 + sum_list_with sender_cost l2)%nat.
Proof. induction l1 as [|x l1 IH]; [done|]. cbn. rewrite IH. lia. Qed.
Lemma u32_keep (a b : Z) : 0 <= b <= a -> a <= NET_LOG_MAX_ALLOC -> u32 (a - b) = a - b.
Proof. unfold NET_LOG_MAX_ALLOC. intros. apply u32_small. word_lia. Qed.

(** A heap that is a list of what is owned, in any order. *)
Definition heap_is (h : gmap Z (list Z)) (O : list (Z * list Z)) : Prop := h = list_to_map O /\ NoDup O.*1 /\ Forall (fun x => is_u32 x.1) O.
Lemma heap_perm h O O' : heap_is h O -> O ≡ₚ O' -> heap_is h O'.
Proof. intros (E & Hn & Hf) Hp. split; [rewrite E; by apply list_to_map_proper|]. by rewrite <-Hp. Qed.
Lemma heap_insert h O p d : heap_is h O -> h !! p = None -> is_u32 p -> heap_is (<[p := d]> h) ((p, d) :: O).
Proof.
  intros (-> & Hn & Hf) Hp Hu. split; [done|]. split; [|by constructor]. cbn. constructor; [|done]. by apply not_elem_of_list_to_map.
Qed.
Lemma heap_lookup h O p d : heap_is h ((p, d) :: O) -> h !! p = Some d.
Proof. intros (-> & _). cbn. by rewrite lookup_insert_eq. Qed.
Lemma heap_delete h O p d : heap_is h ((p, d) :: O) -> heap_is (delete p h) O.
Proof.
  intros (-> & Hn & Hf). cbn in *. apply NoDup_cons in Hn as [Hp Hn]. apply Forall_cons in Hf as [_ Hf]. split; [|done].
  rewrite delete_insert_id; [done|]. by apply not_elem_of_list_to_map.
Qed.
Lemma inv_heap q tm m : net_inv q tm m -> heap_is (heap (nl m)) (owned (senders m) ++ tm ++ q).
Proof. intros Hi. split; [apply (ni_heap _ _ _ Hi)|]. split; [apply (ni_nodup _ _ _ Hi)|apply (ni_ptrs _ _ _ Hi)]. Qed.

(** The rest of the invariant, when only senders and budget change. *)
Lemma inv_senders q tm s s' l l' t acc snt : net_inv q tm (mk_netm s l t acc snt) ->
  heap_is (heap s') (owned l' ++ tm ++ q) -> g_rb s' = g_rb s -> g_sem s <= g_sem s' ->
  g_alloc_total s' = g_alloc_total s + Z.of_nat (sum_list_with sender_cost l') - Z.of_nat (sum_list_with sender_cost l) ->
  g_alloc_total s' <= NET_LOG_MAX_ALLOC -> (Written ∈ l -> Written ∈ l' \/ g_sem s < g_sem s') ->
  net_inv q tm (mk_netm s' l' t acc snt).
Proof.
  intros [I1 I2 I3 I4 I5 I6 I7 I8 I9 I10 I11] (Hh & Hn & Hf) Hrb Hsem Htot Hmax Hw. cbn [nl senders tsk accepted sent] in *.
  constructor; cbn [nl senders tsk accepted sent]; rewrite ?Hrb; try done; [lia|lia|].
  intros Ht Hq. destruct (I11 Ht Hq) as [Hs|Hin]; [left; lia|]. destruct (Hw Hin) as [Hin'|Hlt]; [by right|left; lia].
Qed.

(** Rearranging who owns what. *)
Lemma owned_mid l1 x l2 (R : list (Z * list Z)) : owned (l1 ++ x :: l2) ++ R ≡ₚ sender_owns x ++ owned (l1 ++ l2) ++ R.
Proof.
  rewrite !owned_app. change (owned (x :: l2)) with (sender_owns x ++ owned l2). rewrite <-!app_assoc.
  rewrite (app_assoc (owned l1)), (Permutation_app_comm (owned l1)). by rewrite <-app_assoc.
Qed.
Lemma cost_mid l1 x l2 : sum_list_with sender_cost (l1 ++ x :: l2) = (sender_cost x + sum_list_with sender_cost (l1 ++ l2))%nat.
Proof. rewrite !cost_app. cbn. lia. Qed.
Lemma written_mid x l1 l2 : x <> Written -> Written ∈ l1 ++ x :: l2 -> Written ∈ l1 ++ l2.
Proof. intros Hx. rewrite !elem_of_app, elem_of_cons. intros [H|[H|H]]; [by left|congruence|by right]. Qed.
Lemma written_cons x l1 l2 : Written ∈ l1 ++ l2 -> Written ∈ l1 ++ x :: l2.
Proof. rewrite !elem_of_app, elem_of_cons. tauto. Qed.

Lemma release_spec data s k : 0 <= k -> g_alloc_total s = Z.of_nat (cost data) + k -> g_alloc_total s <= NET_LOG_MAX_ALLOC ->
  g_alloc_total (net_log_release data s) = k.
Proof.
  intros Hk Ht Hm. unfold net_log_release, alloc_sz. rsimpl. rewrite Ht in *. unfold cost in *. rewrite u32_small by (unfold NET_LOG_MAX_ALLOC in Hm; word_lia). lia.
Qed.

Lemma release_inv q tm data s l1 x l2 t acc snt : x = Reserved data \/ x = Freed data ->
  net_inv q tm (mk_netm s (l1 ++ x :: l2) t acc snt) -> net_inv q tm (mk_netm (net_log_release data s) (l1 ++ l2) t acc snt).
Proof.
  intros Hx Hi. pose proof (inv_heap _ _ _ Hi) as Hh. cbn [nl senders] in Hh. pose proof (ni_total _ _ _ Hi) as Ht. pose proof (ni_max _ _ _ Hi) as Hm. cbn [nl senders tsk] in *.
  assert (Hc : sender_cost x = cost data /\ sender_owns x = [] /\ x <> Written) by (destruct Hx as [-> | ->]; done). destruct Hc as (Hc & Ho & Hnw).
  rewrite cost_mid, Hc in Ht. assert (Hrel : g_alloc_total (net_log_release data s) = g_alloc_total s - Z.of_nat (cost data)). by (apply release_spec; [lia|lia|done]).
  eapply inv_senders; [exact Hi| | | |rewrite cost_mid, Hc, Hrel; lia|rewrite Hrel; lia|intros Hw; left; by eapply written_mid].
  - unfold net_log_release. rsimpl. eapply heap_perm; [exact Hh|]. rewrite owned_mid, Ho. done.
  - unfold net_log_release. by rsimpl.
  - unfold net_log_release. by rsimpl.
Qed.

Lemma reserve_inv q tm data s s' l t acc snt : is_u16 (Z.of_nat (length data)) ->
  net_log_reserve data s = (true, s') -> net_inv q tm (mk_netm s l t acc snt) -> net_inv q tm (mk_netm s' (Reserved data :: l) t acc snt).
Proof.
  intros Hlen Hres Hi. pose proof (inv_heap _ _ _ Hi) as Hh. pose proof (ni_total _ _ _ Hi) as Ht. pose proof (ni_max _ _ _ Hi) as Hm. cbn [nl senders] in *.
  unfold net_log_reserve in Hres. destruct (_ && _) eqn:Eok; [|done]. injection Hres as <-. apply andb_true_iff in Eok as [Ele _]. apply Z.leb_le in Ele.
  unfold alloc_sz, NET_LOG_MAX_ALLOC in *. rewrite u32_small in Ele by word_lia.
  eapply inv_senders; [exact Hi|rsimpl; exact Hh|by rsimpl|by rsimpl|rsimpl; rewrite u32_small by word_lia; cbn; unfold cost; lia|rsimpl; rewrite u32_small by word_lia; unfold NET_LOG_MAX_ALLOC; lia|].
  intros Hw. left. by right.
Qed.

Lemma malloc_inv q tm p data s l1 l2 t acc snt : 0 < p < 2 ^ 32 -> heap s !! p = None ->
  net_inv q tm (mk_netm s (l1 ++ Reserved data :: l2) t acc snt) ->
  net_inv q tm (mk_netm (s <| heap ::= <[p := data]> |>) (l1 ++ Holding p data :: l2) t acc snt).
Proof.
  intros Hp Hnone Hi. pose proof (inv_heap _ _ _ Hi) as Hh. cbn [nl senders] in Hh.
  eapply inv_senders; [exact Hi| |by rsimpl|by rsimpl|rsimpl; rewrite !cost_mid; cbn; lia|rsimpl; apply (ni_max _ _ _ Hi)|].
  - rsimpl. eapply heap_perm; [apply (heap_insert _ _ p data Hh Hnone); unfold is_u32; lia|]. rewrite !owned_mid. done.
  - intros Hw. left. by apply written_cons, (written_mid (Reserved data)).
Qed.

Lemma push_inv q tm p data s s' l1 l2 t acc snt : net_log_push p s = Some (true, s') ->
  net_inv q tm (mk_netm s (l1 ++ Holding p data :: l2) t acc snt) ->
  net_inv (q ++ [(p, data)]) tm (mk_netm s' (l1 ++ Written :: l2) t (acc ++ [data]) snt).
Proof.
  intros Hpush Hi. pose proof (inv_heap _ _ _ Hi) as Hh. cbn [nl senders] in Hh.
  assert (Hp : is_u32 p) by (destruct (heap_perm _ _ _ Hh (owned_mid _ _ _ _)) as (_ & _ & Hf); by apply Forall_cons in Hf as [? _]).
  destruct (push_spec _ _ _ p Hi Hp) as (ok & rb & E & Hr & Hs & Hrr & Hlist). cbn [nl] in E, Hrr. rewrite Hpush in E. injection E as <- ->.
  destruct Hi as [I1 I2 I3 I4 I5 I6 I7 I8 I9 I10 I11]. cbn [nl senders tsk accepted sent] in *.
  assert (Hh' : heap_is (heap s) (owned (l1 ++ Written :: l2) ++ tm ++ q ++ [(p, data)])).
  { eapply heap_perm; [exact Hh|]. rewrite !owned_mid. cbn [sender_owns app]. rewrite !app_assoc. apply Permutation_cons_append. }
  destruct Hh' as (H1 & H2 & H3). constructor; cbn [nl senders tsk accepted sent]; rsimpl; try done.
  - rewrite Hlist, !fmap_app, concat_app. cbn [fmap list_fmap concat fst]. by rewrite app_nil_r.
  - destruct t as [| |full|b r|x|x|x]; cbn [task_holds] in *; rewrite ?Hs, ?Hrr; try done.
    + destruct I3 as [-> [->|[Hge Hne]]]; (split; [done|]); [by left|right]. split; [done|]. by destruct q.
    + destruct I3 as (-> & -> & x & q' & -> & ->). split; [done|]. split; [by rewrite (proj2 I1)|]. by exists x, (q' ++ [(p, data)]).
  - rewrite I7, !cost_mid, !sum_list_with_app. cbn [sum_list_with sender_cost snd]. lia.
  - by rewrite I9, <-!app_assoc, fmap_app.
  - intros _ _. right. apply elem_of_app. right. left.
Qed.

Lemma push_fails_inv q tm p data s s1 s' l1 l2 t acc snt : net_log_push p s = Some (false, s1) -> msg_free p s1 = Some s' ->
  net_inv q tm (mk_netm s (l1 ++ Holding p data :: l2) t acc snt) -> net_inv q tm (mk_netm s' (l1 ++ Freed data :: l2) t acc snt).
Proof.
  intros Hpush Hfree Hi. pose proof (inv_heap _ _ _ Hi) as Hh. cbn [nl senders] in Hh. pose proof (heap_perm _ _ _ Hh (owned_mid _ _ _ _)) as Hh1. cbn [sender_owns app] in Hh1.
  assert (Hp : is_u32 p) by (destruct Hh1 as (_ & _ & Hf); by apply Forall_cons in Hf as [? _]).
  destruct (push_spec _ _ _ p Hi Hp) as (ok & rb & E & Hr & Hs & _ & Hlist). cbn [nl] in E, Hlist. rewrite Hpush in E. injection E as <- ->. cbv iota in Hlist. subst rb.
  unfold msg_free in Hfree. revert Hfree. rsimpl. rewrite (heap_lookup _ _ _ _ Hh1). intros [= <-].
  eapply inv_senders; [exact Hi| |by rsimpl|by rsimpl|rsimpl; rewrite !cost_mid; cbn; lia|rsimpl; apply (ni_max _ _ _ Hi)|].
  - rsimpl. eapply heap_perm; [exact (heap_delete _ _ _ _ Hh1)|]. rewrite owned_mid. done.
  - intros Hw. left. by apply written_cons, (written_mid (Holding p data)).
Qed.

Lemma sema_up_inv q tm s l1 l2 t acc snt : net_inv q tm (mk_netm s (l1 ++ Written :: l2) t acc snt) -> net_inv q tm (mk_netm (sema_up s) (l1 ++ l2) t acc snt).
Proof.
  intros Hi. pose proof (inv_heap _ _ _ Hi) as Hh. cbn [nl senders] in Hh. unfold sema_up.
  eapply inv_senders; [exact Hi| |by rsimpl|rsimpl; lia|rsimpl; rewrite cost_mid; cbn; lia|rsimpl; apply (ni_max _ _ _ Hi)|intros _; right; rsimpl; lia].
  rsimpl. eapply heap_perm; [exact Hh|]. rewrite owned_mid. done.
Qed.

Lemma task_inv q tm s l t acc snt m' : net_inv q tm (mk_netm s l t acc snt) -> 
  match t with
  | T_wait => 0 < g_sem s /\ m' = mk_netm (s <| g_sem ::= Z.pred |>) l T_loop acc snt
  | T_loop => m' = mk_netm s l (T_full (net_log_pop_full s)) acc snt
  | T_full full => full = 0 /\ m' = mk_netm s l T_wait acc snt \/
      full <> 0 /\ exists b r, net_log_pop_copy full s = Some (b, r) /\ m' = mk_netm s l (T_copied b r) acc snt
  | T_copied b r => m' = mk_netm (net_log_pop_store r s) l (if decide (length b = 4%nat) then T_popped (u32 (of_le32 b)) else T_wait) acc snt
  | T_popped p => exists data ok, heap s !! p = Some data /\ m' = mk_netm s l (T_sent p) acc (snt ++ [(data, ok)])
  | T_sent p => exists data, heap s !! p = Some data /\ m' = mk_netm (net_log_release data s) l (T_account p) acc snt
  | T_account p => exists s', msg_free p s = Some s' /\ m' = mk_netm s' l T_loop acc snt
  end -> exists q' tm', net_inv q' tm' m'.
Proof.
  intros Hi Hstep. pose proof (inv_heap _ _ _ Hi) as Hh. cbn [nl senders] in Hh. pose proof (ni_task _ _ _ Hi) as Htm. cbn [tsk nl] in Htm.
  assert (Hown : forall p d, tm = [(p, d)] -> heap s !! p = Some d /\ heap_is (delete p (heap s)) (owned l ++ q)).
  { intros p d ->. assert (Hp : owned l ++ [(p, d)] ++ q ≡ₚ (p, d) :: owned l ++ q) by (cbn; by rewrite Permutation_middle).
    pose proof (heap_perm _ _ _ Hh Hp) as Hh'. split; [by eapply heap_lookup|by eapply heap_delete]. }
  pose proof Hi as Hi0. destruct Hi as [I1 I2 I3 I4 I5 I6 I7 I8 I9 I10 I11]. cbn [nl senders tsk accepted sent] in *. destruct t as [| |full|b r|p|p|p]; cbn [task_holds] in Htm.
  - destruct Hstep as [Hs ->]. subst tm. exists q, []. constructor; cbn [nl senders tsk accepted sent]; rsimpl; try done; [lia|by intros [?|?]].
  - subst m' tm. pose proof (pop_full _ _ _ Hi0) as Hf. cbn [nl] in Hf. exists q, []. constructor; cbn [nl senders tsk accepted sent task_holds]; try done.
    + split; [done|]. rewrite Hf. destruct q; [by left|right]. cbn [length]. split; [lia|done].
    + intros [?|[= E]] Hq; [done|]. destruct q; [done|]. rewrite Hf in E. cbn [length] in E. lia.
  - destruct Htm as [-> Hcase]. destruct Hstep as [[-> ->]|(Hne & b & r & Hcopy & ->)].
    + exists q, []. constructor; cbn [nl senders tsk accepted sent task_holds]; try done. intros _. apply I11. by right.
    + destruct Hcase as [->|[Hge Hq]]; [done|]. destruct q as [|[p d] q]; [done|]. destruct (pop_message _ _ _ _ _ full Hi0 Hge) as [E _]. cbn [nl] in E. rewrite Hcopy in E. injection E as -> ->.
      exists ((p, d) :: q), []. constructor; cbn [nl senders tsk accepted sent task_holds]; try done; [|by intros [?|?]].
      split; [done|]. split; [done|]. by exists (p, d), q.
  - destruct Htm as (-> & -> & [p d] & q' & -> & ->). subst m'. destruct (pop_message _ _ _ _ _ 4 Hi0) as (_ & Hr & Hs & Hl & Hp); [done|]. cbn [nl fst] in *.
    rewrite decide_True by apply le32_length. rewrite of_le32_u32 by done. unfold net_log_pop_store. exists q', [(p, d)].
    constructor; cbn [nl senders tsk accepted sent task_holds]; rsimpl; try done; first [rewrite I7; cbn; lia|by exists d|by intros [?|?]].
  - destruct Hstep as (data & ok & Hd & ->). destruct Htm as (d & ->). destruct (Hown p d eq_refl) as [Hl _]. rewrite Hl in Hd. injection Hd as <-.
    exists q, [(p, d)]. constructor; cbn [nl senders tsk accepted sent task_holds]; try done; [|by intros [?|?]]. rewrite I9, fmap_app. cbn. by rewrite <-!app_assoc.
  - destruct Hstep as (data & Hd & ->). destruct Htm as (d & ->). destruct (Hown p d eq_refl) as [Hl _]. rewrite Hl in Hd. injection Hd as <-.
    cbn [task_cost sum_list_with snd] in I7. assert (Hrel : g_alloc_total (net_log_release d s) = g_alloc_total s - Z.of_nat (cost d)) by (apply release_spec; [lia|lia|done]).
    exists q, [(p, d)]. constructor; cbn [nl senders tsk accepted sent task_cost task_holds]; rewrite ?Hrel; unfold net_log_release; rsimpl; try done; first [lia | by exists d | by intros [?|?]].
  - destruct Hstep as (s' & Hfree & ->). destruct Htm as (d & ->). destruct (Hown p d eq_refl) as [Hl (D1 & D2 & D3)]. unfold msg_free in Hfree. rewrite Hl in Hfree. injection Hfree as <-.
    exists q, []. constructor; cbn [nl senders tsk accepted sent task_holds]; rsimpl; try done; by intros [?|?].
Qed.

Lemma net_step_inv q tm m m' : net_inv q tm m -> net_step m m' -> exists q' tm', net_inv q' tm' m'.
Proof.
  intros Hi Hstep. destruct Hstep.
  - exists q, tm. by eapply reserve_inv.
  - exists q, tm. eapply release_inv; [by left|done].
  - exists q, tm. by apply malloc_inv.
  - eexists _, tm. by eapply push_inv.
  - exists q, tm. by eapply push_fails_inv.
  - exists q, tm. eapply release_inv; [by right|done].
  - exists q, tm. by apply sema_up_inv.
  - by eapply (task_inv q tm s l T_wait).
  - by eapply (task_inv q tm s l T_loop).
  - eapply (task_inv q tm s l (T_full 0)); [done|]. by left.
  - eapply (task_inv q tm s l (T_full full)); [done|]. right. split; [done|]. by exists b, r.
  - by eapply (task_inv q tm s l (T_copied b r)).
  - eapply (task_inv q tm s l (T_popped p)); [done|]. by eexists data, _.
  - eapply (task_inv q tm s l (T_sent p)); [done|]. by exists data.
  - eapply (task_inv q tm s l (T_account p)); [done|]. by exists s'.
  - exists q, tm. unfold net_log_config_apply. destruct (negb _); [done|]. destruct Hi as [I1 I2 I3 I4 I5 I6 I7 I8 I9 I10 I11].
    cbn [nl senders tsk accepted sent] in *. constructor; cbn [nl senders tsk accepted sent]; rsimpl; done.
Qed.

(** ** Property *)

Definition heap_bytes (h : gmap Z (list Z)) : nat := map_fold (fun _ d n => (cost d + n)%nat) 0%nat h.
Lemma heap_bytes_list h O : heap_is h O -> heap_bytes h = sum_list_with (fun x => cost x.2) O.
Proof.
  intros (-> & Hn & _). induction O as [|[p d] O IH]; [done|]. cbn in Hn. apply NoDup_cons in Hn as [Hp Hn].
  unfold heap_bytes in *. cbn [list_to_map foldr fst snd]. rewrite map_fold_insert_L; [cbn [sum_list_with snd]; by rewrite <-IH|lia|]. by apply not_elem_of_list_to_map.
Qed.
Lemma owned_bytes l : (sum_list_with (fun x => cost x.2) (owned l) <= sum_list_with sender_cost l)%nat.
Proof.
  induction l as [|x l IH]; [done|]. change (owned (x :: l)) with (sender_owns x ++ owned l). rewrite sum_list_with_app. cbn [sum_list_with].
  destruct x; cbn [sender_owns sender_cost sum_list_with snd]; lia.
Qed.

Lemma start_inv {D} `{Kvdb D} (d : D) s0 : g_alloc_total s0 = 0 -> heap s0 = ∅ -> net_inv [] [] (mk_netm (net_log_init d s0).2 [] T_wait [] []).
Proof.
  intros Ht Hh. destruct (init_spec (replicate (Z.to_nat (NET_LOG_PTR_SLOTS * 4 + 1)) 0)) as (Hr & Hs & Hl); [done|].
  unfold net_log_init. set (c := if negb _ then _ else _). clearbody c. unfold net_log_config_apply. cbn [snd]. destruct (negb (net_log_config_is_valid c)); constructor; cbn [nl senders tsk accepted sent snd]; rsimpl;
    try done; try (by split); rewrite ?Ht; unfold NET_LOG_MAX_ALLOC; try done; first [apply NoDup_nil_2|apply Forall_nil_2].
Qed.

Lemma net_steps_inv m m' : rtc net_step m m' -> forall q tm, net_inv q tm m -> exists q' tm', net_inv q' tm' m'.
Proof.
  induction 1 as [m|m1 m2 m3 Hstep _ IH]; intros q tm Hi; [by exists q, tm|].
  destruct (net_step_inv _ _ _ _ Hi Hstep) as (q' & tm' & Hi'). by eapply IH.
Qed.

(** C38: log messages are accounted for, sent in order, and freed once.  Under
    every interleaving of senders and task, from start-up on: the budget is
    never exceeded and covers what is on the heap (except for the one message
    the task has just given back); the messages handed to UDP, whether it took
    them or not, are a prefix of those queued; neither the task nor a sender
    uses a message that is not allocated; and when the task sleeps and nobody
    is sending, nothing is left behind: all queued messages were handed to
    UDP, the budget is full again and the heap empty. *)
Theorem net_log_accounting {D} `{Kvdb D} (d : D) s0 m : g_alloc_total s0 = 0 -> heap s0 = ∅ ->
  rtc net_step (mk_netm (net_log_init d s0).2 [] T_wait [] []) m ->
  0 <= g_alloc_total (nl m) <= NET_LOG_MAX_ALLOC /\
  ((forall p, tsk m <> T_account p) -> Z.of_nat (heap_bytes (heap (nl m))) <= g_alloc_total (nl m)) /\
  (sent m).*1 `prefix_of` accepted m /\
  (forall p, tsk m = T_popped p \/ tsk m = T_sent p \/ tsk m = T_account p -> is_Some (heap (nl m) !! p)) /\
  (forall p b, Holding p b ∈ senders m -> heap (nl m) !! p = Some b /\ is_Some (net_log_push p (nl m))) /\
  (forall full, tsk m = T_full full -> full <> 0 -> is_Some (net_log_pop_copy full (nl m))) /\
  (senders m = [] -> tsk m = T_wait -> g_sem (nl m) = 0 -> g_alloc_total (nl m) = 0 /\ heap (nl m) = ∅ /\ (sent m).*1 = accepted m).
Proof.
  intros Ht Hh Hsteps. destruct (net_steps_inv _ _ Hsteps _ _ (start_inv d s0 Ht Hh)) as (q & tm & Hi). pose proof (inv_heap _ _ _ Hi) as Hheap.
  pose proof (ni_total _ _ _ Hi) as Htot. pose proof (ni_task _ _ _ Hi) as Htask. pose proof (ni_fifo _ _ _ Hi) as Hfifo.
  split; [split; [lia|apply (ni_max _ _ _ Hi)]|]. split; [|split; [|split; [|split; [|split]]]].
  - intros Hno. rewrite (heap_bytes_list _ _ Hheap), !sum_list_with_app. pose proof (owned_bytes (senders m)).
    assert (task_cost (tsk m) tm = sum_list_with (fun x => cost x.2) tm) by (destruct (tsk m) as [| | | | | |p]; [done..|by destruct (Hno p)]). lia.
  - rewrite Hfifo. by eexists.
  - intros p Hp. assert (Hp' : exists b, tm = [(p, b)]) by (destruct Hp as [E|[E|E]]; by rewrite E in Htask). destruct Hp' as [b ->].
    assert (Hperm : owned (senders m) ++ [(p, b)] ++ q ≡ₚ (p, b) :: owned (senders m) ++ q) by (cbn; by rewrite Permutation_middle).
    rewrite (heap_lookup _ _ _ _ (heap_perm _ _ _ Hheap Hperm)). done.
  - intros p b Hin. apply list_elem_of_split in Hin as (l1 & l2 & El). rewrite El in Hheap. pose proof (heap_perm _ _ _ Hheap (owned_mid _ _ _ _)) as Hh'.
    split; [exact (heap_lookup _ _ _ _ Hh')|]. destruct Hh' as (_ & _ & Hf). apply Forall_cons in Hf as [Hp _]. destruct (push_spec _ _ _ p Hi Hp) as (ok & rb & -> & _). done.
  - intros full Hf Hne. rewrite Hf in Htask. destruct Htask as [_ [->|[Hge Hq]]]; [done|]. destruct q as [|[p b] q]; [done|].
    by destruct (pop_message _ _ _ _ _ full Hi Hge) as [-> _].
  - intros Hs Hw Hsem. rewrite Hw in *. cbn in Htask. subst tm. rewrite Hs in *.
    assert (q = []) as ->.
    { destruct q as [|x q]; [done|]. destruct (ni_wake _ _ _ Hi) as [Hlt|Hin]; [by left|done|lia|]. rewrite Hs in Hin. by apply elem_of_nil in Hin. }
    split; [cbn in Htot; lia|]. split; [by destruct Hheap as (-> & _)|]. rewrite Hfifo. cbn. by rewrite app_nil_r.
Qed.

Definition off_log : net_log := mk_netlog (mk_netlog_cfg false 0 0) (lwrb_init [0]) 0 0 false ∅.
Lemma demo_log_run : exists m, rtc net_step (mk_netm (net_log_init (∅ : gmap string (list Z)) off_log).2 [] T_wait [] []) m /\
  accepted m = [[72; 105]] /\ sent m = [([72; 105], true)] /\ tsk m = T_sent 4096 /\ g_alloc_total (nl m) = 4.
Proof.
  eexists. split.
  - eapply rtc_l; [eapply step_reserve with (data := [72; 105]); [by_eval|vm_compute; reflexivity|vm_compute; reflexivity]|].
    eapply rtc_l; [eapply (step_malloc 4096 _ _ [] []); [lia|vm_compute; reflexivity]|]. cbn [app].
    eapply rtc_l; [eapply (step_push 4096 _ _ _ [] []); vm_compute; reflexivity|]. cbn [app].
    eapply rtc_l; [eapply (step_sema_up _ [] [])|]. cbn [app].
    eapply rtc_l; [eapply step_wake; vm_compute; reflexivity|].
    eapply rtc_l; [eapply step_full|]. eapply rtc_l; [eapply step_copy; [vm_compute; discriminate|vm_compute; reflexivity]|].
    eapply rtc_l; [eapply step_store|].
    eapply rtc_l; [eapply (step_send 4096 _ true true 0 0); vm_compute; reflexivity|apply rtc_refl].
  - by vm_compute.
Qed.

Lemma net_log_accounting_witness : exists m, tsk m = T_sent 4096 /\ is_Some (heap (nl m) !! 4096) /\ (sent m).*1 `prefix_of` accepted m.
Proof.
  destruct demo_log_run as (m & Hrun & _ & _ & Ht & _). exists m. split; [exact Ht|].
  destruct (net_log_accounting (∅ : gmap string (list Z)) off_log m) as (_ & _ & Hp & Hh & _ & _); [reflexivity|reflexivity|exact Hrun|].
  split; [apply Hh; right; left; exact Ht|exact Hp].
Defined.
