(* ===== verification/Utils.v ===== *)
(** * Conversions: [utils.c]

    Masks as prefix lengths, addresses in CIDR notation, and 16-byte values as
    hexadecimal digits.  lwIP's conversions of an address to and from text are
    parameters; [strtoul] is that of a 32-bit C library. *)

From S2P Require Import Prelude Net Http.
From stdpp Require Import strings pretty.

#[local] Open Scope Z_scope.

Definition mac_broadcast : list Z := [255; 255; 255; 255; 255; 255].

(** ** Masks *)

(** The loop [while p < 32 and the top bit is set]; the fuel is what is left
    to 32. *)
Fixpoint prefix_loop (fuel : nat) (p m : Z) : Z :=
  match fuel with
  | O => p
  | S fuel => if negb (Z.land m 0x80000000 =? 0) then prefix_loop fuel (p + 1) (u32 (Z.shiftl m 1)) else p
  end.
(** [mask]: in network order. *)
Definition utils_mask_to_prefix (mask : Z) : Z := prefix_loop 32 0 (lwip_htonl mask).

Definition prefix_mask (prefix : Z) : Z :=
  if prefix =? 0 then 0 else if prefix =? 32 then 0xFFFFFFFF else u32 (Z.shiftl 0xFFFFFFFF (32 - prefix)).

Fixpoint take_digits (l : list Z) : list Z :=
  match l with c :: r => if isdigit c then c :: take_digits r else [] | [] => [] end.
(** [strtoul(s, &endp, 10)] on a C string: value and rest; on no digits the
    rest is [s] itself. *)
Definition strtoul (s : list Z) : Z * list Z :=
  let t := drop_ws s in
  let '(neg, t) := match t with c :: r => if c =? 45 then (true, r) else if c =? 43 then (false, r) else (false, t) | [] => (false, t) end in
  let ds := take_digits t in
  match ds with
  | [] => (0, s)
  | _ => let v := digits_value ds in
         (if 2 ^ 32 <=? v then 2 ^ 32 - 1 else if neg : bool then u32 (- v) else v, drop (length ds) t)
  end.

Definition utils_cidr_to_mask (s : list Z) : option Z :=
  let prefix :=
    match cut_at 47 s with
    | None => Some 32
    | Some (_, r) => let '(p, endp) := strtoul r in
                     if bool_decide (endp = r) || negb (bool_decide (endp = [])) || (32 <? p) then None else Some p
    end in
  match prefix with None => None | Some p => Some (lwip_htonl (prefix_mask p)) end.

Section Cidr.
(** lwIP: the dotted text of an address, and the address of a text. *)
Variable ip4addr_ntoa : Z -> list Z.
Variable ip4addr_aton : list Z -> option Z.

Definition utils_ip_mask_to_cidr (dst_sz ip mask : Z) : list Z :=
  snprintf dst_sz (ip4addr_ntoa ip ++ [47] ++ dec (utils_mask_to_prefix mask)).

Definition utils_cidr_to_ip (s : list Z) : option Z :=
  match cut_at 47 s with
  | None => ip4addr_aton s
  | Some (buf, _) => if (Z.of_nat (length buf) =? 0) || (16 <=? Z.of_nat (length buf)) then None else ip4addr_aton buf
  end.
End Cidr.

(** ** Hexadecimal *)

Definition hex_digit (v : Z) : Z := if v <? 10 then 48 + v else 97 + (v - 10).
Definition bin16_to_hex32 (input : list Z) : list Z :=
  concat (map (fun b => [hex_digit (Z.land (Z.shiftr b 4) 15); hex_digit (Z.land b 15)]) input).

Definition hex_value (c : Z) : Z :=
  if (48 <=? c) && (c <=? 57) then c - 48
  else if (97 <=? c) && (c <=? 102) then c - 97 + 10
  else if (65 <=? c) && (c <=? 70) then c - 65 + 10
  else -1.

(** [i]: bytes still to come.  [inr]: -1, with the bytes stored before; the
    string's final zero is part of [input]. *)
Fixpoint hex_loop (i : nat) (input out : list Z) : option (list Z + list Z) :=
  match i with
  | O => Some (inl out)
  | S i =>
      c1 ← rd input 0;
      c2 ← rd input 1;
      let v1 := hex_value c1 in
      let v2 := hex_value c2 in
      if (v1 <? 0) || (v2 <? 0) then Some (inr out)
      else hex_loop i (drop 2 input) (out ++ [u8 (Z.lor (Z.shiftl v1 4) v2)])
  end.
Definition hex32_to_bin16 (input : list Z) : option (list Z + list Z) := hex_loop 16 input [].

(** ** Masks: the prefix length is the number of leading ones *)

Lemma prefix_loop_spec fuel p m : 0 <= m < 2 ^ 32 ->
  let q := prefix_loop fuel p m in
  p <= q <= p + Z.of_nat fuel /\
  (forall i, 0 <= i < q - p -> Z.testbit m (31 - i) = true) /\
  (q < p + Z.of_nat fuel -> q - p <= 31 -> Z.testbit m (31 - (q - p)) = false).
Proof.
  revert p m. induction fuel as [|fuel IH]; intros p m Hm; cbn [prefix_loop]; [cbv zeta; repeat split; intros; lia|].
  assert (Htop : negb (Z.land m 0x80000000 =? 0) = Z.testbit m 31).
  { replace 0x80000000 with (2 ^ 31) by done. destruct (Z.testbit m 31) eqn:E.
    - apply negb_true_iff, Z.eqb_neq. intros H0. apply (f_equal (fun z => Z.testbit z 31)) in H0.
      rewrite Z.land_spec, E, Z.bits_0, Z.pow2_bits_true in H0 by lia. done.
    - apply negb_false_iff, Z.eqb_eq. apply Z.bits_inj'. intros n Hn. rewrite Z.land_spec, Z.bits_0, Z.pow2_bits_eqb by lia.
      destruct (31 =? n) eqn:En; [apply Z.eqb_eq in En; subst n; by rewrite E|by rewrite andb_false_r]. }
  rewrite Htop. destruct (Z.testbit m 31) eqn:E31; cbv zeta.
  - assert (Hu : 0 <= u32 (Z.shiftl m 1) < 2 ^ 32) by (unfold u32; apply Z.mod_pos_bound; lia).
    destruct (IH (p + 1) _ Hu) as (Hq & Hones & Hz). set (q := prefix_loop fuel (p + 1) _) in *.
    assert (Hbit : forall i, 0 <= i <= 30 -> Z.testbit (u32 (Z.shiftl m 1)) (31 - i) = Z.testbit m (31 - (i + 1))).
    { intros i Hi. unfold u32. rewrite Z.mod_pow2_bits_low by lia. rewrite Z.shiftl_spec by lia. f_equal. lia. }
    split; [lia|]. split.
    + intros i Hi. destruct (Z.eq_dec i 0) as [->|Hi0]; [by replace (31 - 0) with 31 by lia|].
      destruct (Z.le_gt_cases i 31).
      * pose proof (Hones (i - 1) ltac:(lia)) as Ho. rewrite Hbit in Ho by lia. by replace (31 - i) with (31 - (i - 1 + 1)) by lia.
      * pose proof (Hones 31 ltac:(lia)) as Ho. replace (31 - 31) with 0 in Ho by lia. unfold u32 in Ho.
        rewrite Z.mod_pow2_bits_low, Z.shiftl_spec in Ho by lia. rewrite Z.testbit_neg_r in Ho by lia. done.
    + intros Hlt Hle. pose proof (Hz ltac:(lia) ltac:(lia)) as Hf. rewrite Hbit in Hf by lia. rewrite <- Hf. f_equal. lia.
  - split; [lia|]. split; [intros; lia|]. intros _ _. by replace (31 - (p - p)) with 31 by lia.
Qed.

Lemma utils_prefix_roundtrip p : 0 <= p <= 32 -> utils_mask_to_prefix (lwip_htonl (prefix_mask p)) = p.
Proof.
  intros Hp. assert (Hall : forallb (fun p => utils_mask_to_prefix (lwip_htonl (prefix_mask p)) =? p) (seqZ 0 33) = true) by (vm_compute; reflexivity).
  apply Z.eqb_eq. rewrite forallb_forall in Hall. apply Hall. apply list_elem_of_In, elem_of_seqZ. lia.
Qed.

Lemma strtoul_dec p : 0 <= p <= 32 -> strtoul (dec p) = (p, []) /\ dec p <> [].
Proof.
  intros Hp. assert (Hall : forallb (fun p => bool_decide (strtoul (dec p) = (p, []) /\ dec p <> [])) (seqZ 0 33) = true) by (vm_compute; reflexivity).
  rewrite forallb_forall in Hall. eapply bool_decide_eq_true, Hall, list_elem_of_In, elem_of_seqZ. lia.
Qed.

Lemma dec_prefix_length p : 0 <= p <= 32 -> (length (dec p) <= 2)%nat.
Proof.
  intros Hp. assert (Hall : forallb (fun p => Nat.leb (length (dec p)) 2) (seqZ 0 33) = true) by (vm_compute; reflexivity).
  apply Nat.leb_le. rewrite forallb_forall in Hall. apply Hall, list_elem_of_In, elem_of_seqZ. lia.
Qed.

Section CidrProps.
Variable ip4addr_ntoa : Z -> list Z.
Variable ip4addr_aton : list Z -> option Z.
(** The text of an address is four decimal numbers and three dots, and is
    read back as the address. *)
Hypothesis ntoa_text : forall ip, ip4addr_ntoa ip <> [] /\ (length (ip4addr_ntoa ip) <= 15)%nat /\ 47 ∉ ip4addr_ntoa ip.
Hypothesis ntoa_aton : forall ip, 0 <= ip < 2 ^ 32 -> ip4addr_aton (ip4addr_ntoa ip) = Some ip.

Lemma cidr_parts dst_sz ip p : 19 <= dst_sz -> 0 <= p <= 32 ->
  cut_at 47 (utils_ip_mask_to_cidr ip4addr_ntoa dst_sz ip (lwip_htonl (prefix_mask p))) = Some (ip4addr_ntoa ip, dec p).
Proof using ntoa_text.
  intros Hd Hp. destruct (ntoa_text ip) as (_ & Hl & Hn). pose proof (dec_prefix_length p Hp) as Hlp.
  unfold utils_ip_mask_to_cidr, snprintf. rewrite utils_prefix_roundtrip by done.
  rewrite take_ge by (rewrite !length_app; cbn [length]; lia). cbn [app].
  by apply cut_at_app.
Qed.

(** An address and a mask of leading ones come back from their CIDR text. *)
Lemma utils_cidr_roundtrip dst_sz ip p : 19 <= dst_sz -> 0 <= ip < 2 ^ 32 -> 0 <= p <= 32 ->
  let s := utils_ip_mask_to_cidr ip4addr_ntoa dst_sz ip (lwip_htonl (prefix_mask p)) in
  utils_cidr_to_ip ip4addr_aton s = Some ip /\ utils_cidr_to_mask s = Some (lwip_htonl (prefix_mask p)).
Proof using ntoa_text ntoa_aton.
  intros Hd Hip Hp s. subst s. unfold utils_cidr_to_ip, utils_cidr_to_mask. rewrite cidr_parts by done.
  destruct (ntoa_text ip) as (Hne & Hl & _). destruct (strtoul_dec p Hp) as [-> Hdp]. split.
  - destruct (ip4addr_ntoa ip) as [|x a] eqn:E; [done|]. rewrite <- E in *.
    replace (_ =? 0) with false by (symmetry; apply Z.eqb_neq; rewrite E; cbn [length]; lia).
    replace (16 <=? _) with false by (symmetry; apply Z.leb_gt; lia). cbn [orb]. by apply ntoa_aton.
  - rewrite (bool_decide_false ([] = dec p)) by congruence. rewrite (bool_decide_true ([] = [])) by done. cbn [orb negb].
    replace (32 <? p) with false by (symmetry; apply Z.ltb_ge; lia). done.
Qed.
End CidrProps.

(** ** Hexadecimal: what is written is read back *)

Lemma hex_byte b : 0 <= b < 256 ->
  let c1 := hex_digit (Z.land (Z.shiftr b 4) 15) in let c2 := hex_digit (Z.land b 15) in
  0 <= hex_value c1 /\ 0 <= hex_value c2 /\ u8 (Z.lor (Z.shiftl (hex_value c1) 4) (hex_value c2)) = b /\ c1 <> 0 /\ c2 <> 0.
Proof.
  intros Hb. cbv zeta.
  assert (Hall : forallb (fun b => let c1 := hex_digit (Z.land (Z.shiftr b 4) 15) in let c2 := hex_digit (Z.land b 15) in
    bool_decide (0 <= hex_value c1 /\ 0 <= hex_value c2 /\ u8 (Z.lor (Z.shiftl (hex_value c1) 4) (hex_value c2)) = b /\ c1 <> 0 /\ c2 <> 0)) (seqZ 0 256) = true)
    by (vm_compute; reflexivity).
  rewrite forallb_forall in Hall. eapply bool_decide_eq_true, Hall, list_elem_of_In, elem_of_seqZ. lia.
Qed.

Lemma hex_loop_spec bs out rest : Forall (fun b => 0 <= b < 256) bs ->
  hex_loop (length bs) (bin16_to_hex32 bs ++ rest) out = Some (inl (out ++ bs)).
Proof.
  intros Hbs. revert out. induction Hbs as [|b bs Hb _ IH]; intros out; [by rewrite app_nil_r|].
  destruct (hex_byte b Hb) as (H1 & H2 & Hv & _). cbn zeta in *.
  cbn [length hex_loop]. unfold bin16_to_hex32. cbn [map concat app]. fold (bin16_to_hex32 bs).
  unfold rd at 1 2. rewrite !decide_True by lia. change (Z.to_nat 0) with 0%nat. change (Z.to_nat 1) with 1%nat.
  cbn [lookup list_lookup drop mbind option_bind].
  set (c1 := hex_digit (Z.land (Z.shiftr b 4) 15)) in *. set (c2 := hex_digit (Z.land b 15)) in *.
  rewrite (proj2 (Z.ltb_ge (hex_value c1) 0)), (proj2 (Z.ltb_ge (hex_value c2) 0)) by lia. cbn [orb].
  rewrite Hv, IH, <- app_assoc. done.
Qed.

Lemma hex16_roundtrip bs : length bs = 16%nat -> Forall (fun b => 0 <= b < 256) bs ->
  hex32_to_bin16 (bin16_to_hex32 bs ++ [0]) = Some (inl bs).
Proof. intros Hl Hb. unfold hex32_to_bin16. rewrite <- Hl. by rewrite hex_loop_spec. Qed.
