(* ===== verification/Cca.v ===== *)
(** * Settings of the channel assessment: [halow_cca.c]

    Defaults, limits, loading, saving and handing over to the radio's
    firmware, whose [lmac_custom_cfg] holds the same seven fields. *)

From S2P Require Import Prelude ConfigDb.
From stdpp Require Import strings.

#[local] Open Scope Z_scope.

Definition HALOW_LBT_CCA_ENABLED_DEF : bool := true.
Definition HALOW_LBT_CCA_FORCE_TX_PCT_DEF : Z := 1.
Definition HALOW_LBT_DUTY_LIMIT_PCT_DEF : Z := 1000.
Definition HALOW_LBT_CW_MIN_DEF : Z := 63.
Definition HALOW_LBT_CW_MAX_DEF : Z := 1023.
Definition HALOW_LBT_CCA_THRESHOLD_DYNAMIC_DEF : Z := 0.
Definition HALOW_LBT_CCA_SENSITIVITY_DEF : Z := 5.

Record halow_cca_config := mk_cca {
  cca_enabled : Z;
  cca_force_tx_pct : Z;
  duty_limit_pct : Z;
  cw_min : Z;
  cw_max : Z;
  cca_threshold_dynamic : Z;
  cca_sensitivity : Z;
}.
#[export] Instance eta_halow_cca_config : Eta halow_cca_config := fun c =>
  mk_cca (cca_enabled c) (cca_force_tx_pct c) (duty_limit_pct c) (cw_min c) (cw_max c) (cca_threshold_dynamic c) (cca_sensitivity c).

Definition halow_cca_config_set_default : halow_cca_config :=
  mk_cca (if HALOW_LBT_CCA_ENABLED_DEF then 1 else 0) HALOW_LBT_CCA_FORCE_TX_PCT_DEF HALOW_LBT_DUTY_LIMIT_PCT_DEF
    HALOW_LBT_CW_MIN_DEF HALOW_LBT_CW_MAX_DEF HALOW_LBT_CCA_THRESHOLD_DYNAMIC_DEF HALOW_LBT_CCA_SENSITIVITY_DEF.

Definition halow_cca_config_sanitize (c : halow_cca_config) : halow_cca_config :=
  let c := c <| cca_force_tx_pct := if cca_force_tx_pct c =? 0 then 1 else cca_force_tx_pct c |> in
  let c := c <| cca_force_tx_pct := if 1000 <? cca_force_tx_pct c then 1000 else cca_force_tx_pct c |> in
  let c := c <| duty_limit_pct := if 1000 <? duty_limit_pct c then 1000 else duty_limit_pct c |> in
  let c := c <| cca_sensitivity := if 10 <? cca_sensitivity c then 10 else cca_sensitivity c |> in
  let c := c <| cw_min := if cw_min c =? 0 then 31 else cw_min c |> in
  let c := c <| cw_max := if cw_max c =? 0 then 1023 else cw_max c |> in
  let c := c <| cw_min := if 2047 <? cw_min c then 2047 else cw_min c |> in
  let c := c <| cw_max := if 2047 <? cw_max c then 2047 else cw_max c |> in
  c <| cw_max := if cw_max c <? cw_min c then cw_min c else cw_max c |>.

(** The radio's copy: [lmac_custom_cfg]. *)
Definition halow_cca_config_apply (c _lmac : halow_cca_config) : halow_cca_config := c.

Section Store.
Context {D : Type} `{Kvdb D}.

Definition halow_cca_config_load (d : D) : halow_cca_config :=
  let c := halow_cca_config_set_default in
  let c := c <| cca_enabled := get_u8 "cfg.hcca.en" d (cca_enabled c) |> in
  let c := c <| cca_force_tx_pct := get_u16 "cfg.hcca.ftpct" d (cca_force_tx_pct c) |> in
  let c := c <| duty_limit_pct := get_u16 "cfg.hcca.dlpct" d (duty_limit_pct c) |> in
  let c := c <| cw_min := get_u16 "cfg.hcca.cwmin" d (cw_min c) |> in
  let c := c <| cw_max := get_u16 "cfg.hcca.cwmax" d (cw_max c) |> in
  let c := c <| cca_threshold_dynamic := get_u8 "cfg.hcca.thdyn" d (cca_threshold_dynamic c) |> in
  let c := c <| cca_sensitivity := get_u8 "cfg.hcca.sens" d (cca_sensitivity c) |> in
  halow_cca_config_sanitize c.

(** The const pointer is cast away: the caller's settings are sanitized too. *)
Definition halow_cca_config_save (c : halow_cca_config) (d : D) : halow_cca_config * D :=
  let c := halow_cca_config_sanitize c in
  let d := (configdb_set_i8 "cfg.hcca.en" (Some (i8 (cca_enabled c))) d).2 in
  let d := (configdb_set_i16 "cfg.hcca.ftpct" (Some (i16 (cca_force_tx_pct c))) d).2 in
  let d := (configdb_set_i16 "cfg.hcca.dlpct" (Some (i16 (duty_limit_pct c))) d).2 in
  let d := (configdb_set_i16 "cfg.hcca.cwmin" (Some (i16 (cw_min c))) d).2 in
  let d := (configdb_set_i16 "cfg.hcca.cwmax" (Some (i16 (cw_max c))) d).2 in
  let d := (configdb_set_i8 "cfg.hcca.thdyn" (Some (i8 (cca_threshold_dynamic c))) d).2 in
  (c, (configdb_set_i8 "cfg.hcca.sens" (Some (i8 (cca_sensitivity c))) d).2).

(** The result: the radio's settings and the store. *)
Definition halow_cca_init (lmac : halow_cca_config) (d : D) : halow_cca_config * D :=
  let cfg := halow_cca_config_load d in
  let lmac := halow_cca_config_apply cfg lmac in
  (lmac, (halow_cca_config_save cfg d).2).
End Store.

(** ** Limits *)

Definition cca_typed (c : halow_cca_config) : Prop :=
  is_u8 (cca_enabled c) /\ is_u16 (cca_force_tx_pct c) /\ is_u16 (duty_limit_pct c) /\ is_u16 (cw_min c) /\
  is_u16 (cw_max c) /\ is_u8 (cca_threshold_dynamic c) /\ is_u8 (cca_sensitivity c).
Definition cca_in_range (c : halow_cca_config) : Prop :=
  1 <= cca_force_tx_pct c <= 1000 /\ 0 <= duty_limit_pct c <= 1000 /\ 0 <= cca_sensitivity c <= 10 /\
  1 <= cw_min c <= cw_max c /\ cw_max c <= 2047.

Lemma cca_sanitize_typed c : cca_typed c -> cca_typed (halow_cca_config_sanitize c).
Proof.
  destruct c as [en ft dl mn mx td se]. cbv [cca_enabled cca_force_tx_pct duty_limit_pct cw_min cw_max cca_threshold_dynamic cca_sensitivity eta eta_halow_cca_config set
    cca_typed cca_in_range halow_cca_config_sanitize].
  intros (H1 & H2 & H3 & H4 & H5 & H6 & H7).
  unfold is_u8, is_u16 in *. split_and!; try done; repeat z_case; lia.
Qed.
Lemma cca_sanitize_range c : cca_typed c -> cca_in_range (halow_cca_config_sanitize c).
Proof.
  destruct c as [en ft dl mn mx td se]. cbv [cca_enabled cca_force_tx_pct duty_limit_pct cw_min cw_max cca_threshold_dynamic cca_sensitivity eta eta_halow_cca_config set
    cca_typed cca_in_range halow_cca_config_sanitize].
  intros (H1 & H2 & H3 & H4 & H5 & H6 & H7).
  unfold is_u8, is_u16 in *. split_and!; repeat z_case; lia.
Qed.
Lemma cca_sanitize_id c : cca_in_range c -> halow_cca_config_sanitize c = c.
Proof.
  intros (H1 & H2 & H3 & H4 & H5). destruct c as [en ft dl mn mx td se]. cbv [cca_enabled cca_force_tx_pct duty_limit_pct cw_min cw_max cca_threshold_dynamic cca_sensitivity eta eta_halow_cca_config set halow_cca_config_sanitize] in *.
  f_equal; repeat z_case; lia.
Qed.

(** ** Saving and loading *)

(** The writes of a save. *)
Definition cca_writes (c : halow_cca_config) : list (string * Z) :=
  [("cfg.hcca.en", i8 (cca_enabled c)); ("cfg.hcca.ftpct", i16 (cca_force_tx_pct c)); ("cfg.hcca.dlpct", i16 (duty_limit_pct c));
   ("cfg.hcca.cwmin", i16 (cw_min c)); ("cfg.hcca.cwmax", i16 (cw_max c)); ("cfg.hcca.thdyn", i8 (cca_threshold_dynamic c));
   ("cfg.hcca.sens", i8 (cca_sensitivity c))].
Lemma cca_save_writes {D} `{Kvdb D} c (d : D) :
  halow_cca_config_save c d = (halow_cca_config_sanitize c, write_all (cca_writes (halow_cca_config_sanitize c)) d).
Proof. unfold halow_cca_config_save. generalize (halow_cca_config_sanitize c). reflexivity. Qed.
Lemma cca_writes_ok c : NoDup (cca_writes c).*1 /\ Forall (fun kv => is_i32 kv.2) (cca_writes c).
Proof.
  assert (H8 : forall x, is_i32 (i8 x)) by (intros x; pose proof (i8_cast_range x); unfold is_i32; lia).
  assert (H16 : forall x, is_i32 (i16 x)) by (intros x; pose proof (i16_cast_range x); unfold is_i32; lia).
  split; [apply (bool_decide_eq_true _); by vm_compute|].
  unfold cca_writes. repeat (apply Forall_cons; split; [cbn [snd]; auto|]). by apply Forall_nil.
Qed.

Lemma cca_load_eq {D} `{Kvdb D} (d : D) :
  halow_cca_config_load d =
  halow_cca_config_sanitize (mk_cca (get_u8 "cfg.hcca.en" d 1) (get_u16 "cfg.hcca.ftpct" d 1) (get_u16 "cfg.hcca.dlpct" d 1000)
    (get_u16 "cfg.hcca.cwmin" d 63) (get_u16 "cfg.hcca.cwmax" d 1023) (get_u8 "cfg.hcca.thdyn" d 0) (get_u8 "cfg.hcca.sens" d 5)).
Proof. reflexivity. Qed.

Section SaveLoad.
Context {D : Type} `{KvdbLaws D}.
Hypothesis writes_succeed : forall key bytes (d : D), (fdb_kv_set_blob key bytes d).1 = 0.

Lemma cca_load_typed (d : D) : cca_typed (halow_cca_config_load d) /\ cca_in_range (halow_cca_config_load d).
Proof using.
  rewrite cca_load_eq. match goal with |- cca_typed (_ ?c) /\ _ => assert (Hc : cca_typed c) end.
  { unfold cca_typed. cbn [cca_enabled cca_force_tx_pct duty_limit_pct cw_min cw_max cca_threshold_dynamic cca_sensitivity].
    split_and!; auto using get_u8_range, get_u16_range. }
  split; [by apply cca_sanitize_typed|by apply cca_sanitize_range].
Qed.

(** What is saved, within its limits, is what the next boot loads; and a boot
    leaves the store alone from then on. *)
Lemma cca_save_load c (d : D) : cca_typed c ->
  let d' := (halow_cca_config_save c d).2 in
  halow_cca_config_load d' = halow_cca_config_sanitize c /\
  (forall lmac, halow_cca_init lmac d' = (halow_cca_config_sanitize c, d')).
Proof using All.
  intros Hc d'. pose proof (cca_sanitize_typed c Hc) as Ht. pose proof (cca_sanitize_range c Hc) as Hr.
  set (s := halow_cca_config_sanitize c) in *. assert (Ed : d' = write_all (cca_writes s) d) by (subst d'; by rewrite cca_save_writes).
  destruct (cca_writes_ok s) as [Hnd Hv]. destruct (write_all_stored writes_succeed _ d Hnd Hv) as [Hst _]. rewrite <- Ed in Hst.
  assert (Hl : halow_cca_config_load d' = s).
  { destruct Ht as (T1 & T2 & T3 & T4 & T5 & T6 & T7). rewrite cca_load_eq.
    rewrite (get_u8_stored "cfg.hcca.en" (cca_enabled s)), (get_u16_stored "cfg.hcca.ftpct" (cca_force_tx_pct s)),
      (get_u16_stored "cfg.hcca.dlpct" (duty_limit_pct s)), (get_u16_stored "cfg.hcca.cwmin" (cw_min s)),
      (get_u16_stored "cfg.hcca.cwmax" (cw_max s)), (get_u8_stored "cfg.hcca.thdyn" (cca_threshold_dynamic s)),
      (get_u8_stored "cfg.hcca.sens" (cca_sensitivity s)) by first [done | apply Hst; unfold cca_writes; repeat constructor].
    replace (mk_cca _ _ _ _ _ _ _) with s by (by destruct s). by apply cca_sanitize_id. }
  split; [done|]. intros lmac. unfold halow_cca_init, halow_cca_config_apply. rewrite Hl, cca_save_writes. cbn [snd].
  rewrite (cca_sanitize_id s Hr). f_equal. by apply (write_all_again writes_succeed).
Qed.
End SaveLoad.
