(* ===== verification/Statistics.v ===== *)
(** * Traffic statistics: [statistics.c]

    Counters fed by the radio, the smoothed rates of the once-a-second task
    with its watch on the reliability layer's tick, and the texts of the web
    page.  The noise and load figures the task copies are those of [Lbt]. *)

From S2P Require Import Prelude Monad Net Chload Lbt Http.
From stdpp Require Import strings pretty.
From Stdlib Require Import SpecFloat.

#[local] Open Scope Z_scope.

(** [g_stat_radio]. *)
Record statistics_radio := mk_stat {
  rx_bytes : Z; tx_bytes : Z; rx_packets : Z; tx_packets : Z; rx_bitps : Z; tx_bitps : Z;
  bkgnd_noise_dbm : Z; bkgnd_noise_dbm_now : Z; airtime : spec_float; ch_util : spec_float }.
#[export] Instance eta_stat : Eta statistics_radio := fun s =>
  mk_stat (rx_bytes s) (tx_bytes s) (rx_packets s) (tx_packets s) (rx_bitps s) (tx_bitps s)
    (bkgnd_noise_dbm s) (bkgnd_noise_dbm_now s) (airtime s) (ch_util s).

(** The file's variables, the task's own two included. *)
Record stats := mk_stats {
  g_stat_radio : statistics_radio;
  s_rx_bytes_previous : Z; s_tx_bytes_previous : Z; s_rx_idle_s : Z; s_tx_idle_s : Z;
  last_tick_count : Z; stalled_secs : Z }.
#[export] Instance eta_stats : Eta stats := fun s =>
  mk_stats (g_stat_radio s) (s_rx_bytes_previous s) (s_tx_bytes_previous s) (s_rx_idle_s s) (s_tx_idle_s s)
    (last_tick_count s) (stalled_secs s).

Definition statistics_radio_register_rx_package (len : Z) (s : stats) : stats :=
  s <| g_stat_radio ::= fun r => r <| rx_packets ::= fun n => u64 (n + 1) |> <| rx_bytes ::= fun n => u64 (n + len) |> |>.
Definition statistics_radio_register_tx_package (len : Z) (s : stats) : stats :=
  s <| g_stat_radio ::= fun r => r <| tx_packets ::= fun n => u64 (n + 1) |> <| tx_bytes ::= fun n => u64 (n + len) |> |>.
Definition statistics_radio_get (s : stats) : statistics_radio := g_stat_radio s.
Definition statistics_radio_reset (s : stats) : stats :=
  s <| g_stat_radio ::= fun r => r <| rx_bytes := 0 |> <| tx_bytes := 0 |> <| rx_packets := 0 |> <| tx_packets := 0 |>
                                   <| rx_bitps := 0 |> <| tx_bitps := 0 |> |>
    <| s_rx_bytes_previous := 0 |> <| s_tx_bytes_previous := 0 |> <| s_rx_idle_s := 0 |> <| s_tx_idle_s := 0 |>.

(** One direction of the rate update: the rate and the idle seconds after it. *)
Definition rate_step (now previous bitps idle : Z) : Z * Z :=
  let delta := if previous <=? now then u32 (now - previous) else 0 in
  let bitps := u32 (u32 (bitps * 3) + u32 (delta * 8)) / 4 in
  if negb (delta =? 0) then (bitps, 0)
  else let idle := u8 (idle + 1) in (if 10 <=? idle then 0 else bitps, idle).
Definition statistics_radio_rate_tick (s : stats) : stats :=
  let rx_bytes_now := u32 (rx_bytes (g_stat_radio s)) in
  let tx_bytes_now := u32 (tx_bytes (g_stat_radio s)) in
  let '(rx, rx_idle) := rate_step rx_bytes_now (s_rx_bytes_previous s) (rx_bitps (g_stat_radio s)) (s_rx_idle_s s) in
  let '(tx, tx_idle) := rate_step tx_bytes_now (s_tx_bytes_previous s) (tx_bitps (g_stat_radio s)) (s_tx_idle_s s) in
  s <| g_stat_radio ::= fun r => r <| rx_bitps := rx |> <| tx_bitps := tx |> |>
    <| s_rx_idle_s := rx_idle |> <| s_tx_idle_s := tx_idle |>
    <| s_rx_bytes_previous := rx_bytes_now |> <| s_tx_bytes_previous := tx_bytes_now |>.

(** What the watch on the tick logs. *)
Inductive canary := Silent | Stalled (secs : Z) | Recovered (secs : Z).
Definition tick_canary (tc : Z) (s : stats) : canary * stats :=
  if tc =? last_tick_count s then
    let secs := u8 (stalled_secs s + 1) in
    (if 3 <=? secs then Stalled secs else Silent, s <| stalled_secs := secs |>)
  else
    (if 3 <=? stalled_secs s then Recovered (stalled_secs s) else Silent, s <| stalled_secs := 0 |> <| last_tick_count := tc |>).

(** One round of [statistics_task], up to the refresh of the radio settings
    ([Halow]) and the gain pilot's tick ([GainPilot]), which follow it. *)
Definition statistics_task_round (now tc : Z) : M (stats * lbt) canary :=
  modify (fun '(s, l) => (statistics_radio_rate_tick s, l));;
  msg ← (fun '(s, l) => let '(msg, s) := tick_canary tc s in Some (msg, (s, l)));
  long ← (fun '(s, l) => '(v, l) ← halow_lbt_background_long_dbm_get now l; Some (v, (s, l)));
  modify (fun '(s, l) =>
    (s <| g_stat_radio ::= fun r => r <| bkgnd_noise_dbm := long |> <| bkgnd_noise_dbm_now := halow_lbt_background_short_dbm_get l |>
                                      <| airtime := halow_lbt_airtime_get l |> <| ch_util := halow_lbt_ch_util_get l |> |>, l));;
  mret msg.

(** ** Texts *)

(** [task_info]: how many tasks [os_task_runtime] reported, and the idle
    task's ticks.  The text, and [cpu_loading_tick] after it. *)
Definition statistics_cpu_load_get (max_len jiff cpu_loading_tick count idle_time : Z) : option (list Z) * Z :=
  if max_len =? 0 then (None, cpu_loading_tick)
  else
    let diff_tick := u32 (jiff - cpu_loading_tick) in
    let text :=
      if diff_tick =? 0 then str "0%"
      else if count <? 2 then str "0%"
      else
        let idle_pct := u32 (idle_time * 100) / diff_tick in
        let idle_pct := if 100 <? idle_pct then 100 else idle_pct in
        dec (100 - idle_pct) ++ str "%" in
    (Some (snprintf max_len text), jiff).

Definition statistics_heap_usage_get (max_len total free : Z) : option (list Z) :=
  if max_len =? 0 then None
  else
    let free := if total <? free then total else free in
    Some (snprintf max_len
      (if total =? 0 then str "---"
       else
         let used := total - free in
         dec (used / 1024) ++ str "/" ++ dec (total / 1024) ++ str " KiB (" ++ dec (u32 (used * 100) / total) ++ str "%)")).

(** [snprintf(tmp + strlen(tmp), 32 - strlen(tmp), ...)]. *)
Definition append_tmp (tmp text : list Z) : list Z := tmp ++ snprintf (32 - Z.of_nat (length tmp)) text.
Definition uptime_text (tv_sec : Z) : list Z :=
  let time_s := u32 tv_sec in
  let time_m := u32 (tv_sec / 60) in
  let time_h := time_m / 60 in
  let time_d := time_h / 24 in
  let time_s := time_s mod 60 in
  let time_m := time_m mod 60 in
  let time_h := time_h mod 24 in
  let tmp := if negb (time_d =? 0) then snprintf 32 (dec time_d ++ str "d ") else [] in
  let tmp := if negb (time_h =? 0) || negb (time_d =? 0) then append_tmp tmp (dec time_h ++ str "h ") else tmp in
  let tmp := if negb (time_m =? 0) || negb (time_h =? 0) || negb (time_d =? 0) then append_tmp tmp (dec time_m ++ str "m ") else tmp in
  append_tmp tmp (dec time_s ++ str "s").
(** [strncpy]: what does not fit is cut, without a final zero. *)
Definition statistics_uptime_get (max_len tv_sec : Z) : list Z :=
  let t := uptime_text tv_sec in
  take (Z.to_nat max_len) (t ++ replicate (Z.to_nat max_len - length t) 0).

(** ** The smoothed rate *)

(** A direction's sequence of counters, a reading a second. *)
Fixpoint rate_run (counts : list Z) (previous bitps idle : Z) : Z * Z :=
  match counts with
  | [] => (bitps, idle)
  | c :: counts => let '(b, i) := rate_step c previous bitps idle in rate_run counts c b i
  end.

(** With no overflow the new rate lies between the old one and this second's
    own, rounded down. *)
Lemma rate_step_between now previous bitps idle :
  0 <= previous <= now -> now < 2 ^ 32 -> 0 <= bitps -> bitps * 3 + (now - previous) * 8 < 2 ^ 32 ->
  let x := (now - previous) * 8 in
  let '(b, i) := rate_step now previous bitps idle in
  (0 < x -> b = (bitps * 3 + x) / 4 /\ Z.min bitps x <= b <= Z.max bitps x /\ i = 0) /\
  (x = 0 -> 0 <= b <= bitps * 3 / 4 /\ i = u8 (idle + 1)).
Proof.
  intros Hp Hn Hb Hov x. subst x. unfold rate_step. rewrite (proj2 (Z.leb_le _ _)) by lia.
  rewrite (u32_small (now - previous)), (u32_small (bitps * 3)), (u32_small ((now - previous) * 8)), u32_small by (unfold is_u32; lia).
  destruct (Z.eqb_spec (now - previous) 0) as [E|E]; cbn [negb].
  - rewrite E. replace (bitps * 3 + 0 * 8) with (bitps * 3) by lia. split; [lia|]. intros _. destruct (10 <=? _); [|split; [|done]];
      [split; [|done]|]; (split; [|]); try lia; apply Z.div_pos; lia.
  - split; [|lia]. intros _. split; [done|]. split; [|done].
    pose proof (Z.div_mod (bitps * 3 + (now - previous) * 8) 4 ltac:(lia)). pose proof (Z.mod_pos_bound (bitps * 3 + (now - previous) * 8) 4 ltac:(lia)). lia.
Qed.

(** Ten silent seconds after traffic, and for as long as the silence lasts,
    the rate reads zero, although the count of idle seconds wraps. *)
Lemma rate_idle_zero n c bitps idle : 0 <= bitps < 2 ^ 30 -> 0 <= idle -> c < 2 ^ 32 -> 0 <= c -> (Z.of_nat n + idle < 256 -> bitps = 0 \/ 10 <= Z.of_nat n + idle) ->
  (n >= 1)%nat -> idle < 256 -> (10 <= idle -> bitps = 0) ->
  (rate_run (replicate n c) c bitps idle).1 = 0.
Proof.
  revert bitps idle. induction n as [|n IH]; intros bitps idle Hb Hi Hc Hc0 Hz Hn Hi2 H10; [lia|].
  assert (Hs : rate_step c c bitps idle = (if 10 <=? u8 (idle + 1) then 0 else bitps * 3 / 4, u8 (idle + 1))).
  { unfold rate_step. rewrite Z.leb_refl, Z.sub_diag. change (u32 0) with 0. cbn [Z.eqb negb Z.mul].
    rewrite (u32_small (bitps * 3)) by (unfold is_u32; lia). change (u32 0) with 0. rewrite Z.add_0_r, u32_small by (unfold is_u32; lia). done. }
  cbn [replicate rate_run]. rewrite Hs. destruct n as [|n].
  { cbn [replicate rate_run fst]. destruct (Z.leb_spec 10 (u8 (idle + 1))) as [|Hlt]; [done|].
    assert (bitps = 0) as ->; [|done]. destruct (Z.eq_dec idle 255) as [->|]; [apply H10; lia|].
    rewrite u8_small in Hlt by (unfold is_u8; lia). destruct Hz; lia. }
  apply IH; try done; try lia.
  - destruct (_ <=? _); [lia|]. split; [apply Z.div_pos; lia|]. apply Z.div_lt_upper_bound; lia.
  - apply u8_range.
  - intros Hlt. destruct (Z.leb_spec 10 (u8 (idle + 1))) as [|Hl]; [by left|].
    destruct (Z.eq_dec idle 255) as [->|]; [left; rewrite H10 by lia; done|]. rewrite u8_small in * by (unfold is_u8; lia).
    destruct Hz as [->|]; [lia|by left|right; lia].
  - apply u8_range.
  - intros H. by rewrite (proj2 (Z.leb_le _ _)).
Qed.

(** ** The uptime *)

Lemma uptime_parts tv_sec : 0 <= tv_sec < 2 ^ 32 ->
  let d := tv_sec / 60 / 60 / 24 in let h := (tv_sec / 60 / 60) mod 24 in let m := (tv_sec / 60) mod 60 in let s := tv_sec mod 60 in
  tv_sec = ((d * 24 + h) * 60 + m) * 60 + s /\ 0 <= h < 24 /\ 0 <= m < 60 /\ 0 <= s < 60 /\ 0 <= d < 49711.
Proof. intros H. cbv zeta. Z.to_euclidean_division_equations. lia. Qed.

(** A direction silent for ten seconds or more shows the rate zero. *)
Lemma rate_silence n c bitps : (10 <= n)%nat -> 0 <= c < 2 ^ 32 -> 0 <= bitps < 2 ^ 30 -> (rate_run (replicate n c) c bitps 0).1 = 0.
Proof. intros Hn Hc Hb. apply rate_idle_zero; try done; lia. Qed.

(** A number below [10 ^ k] has at most [k] decimal digits. *)
Lemma pretty_N_go_length k : forall x s, (x < 10 ^ N.of_nat k)%N ->
  (String.length (pretty_N_go x s) <= k + String.length s)%nat.
Proof.
  induction k as [|k IH]; intros x s Hx.
  - replace x with 0%N by (cbn in Hx; lia). rewrite pretty_N_go_0. lia.
  - destruct (decide (0 < x)%N) as [Hp|Hp]; [|replace x with 0%N by lia; rewrite pretty_N_go_0; lia].
    rewrite pretty_N_go_step by done.
    assert (Hd : (x / 10 < 10 ^ N.of_nat k)%N).
    { apply N.Div0.div_lt_upper_bound. by rewrite Nat2N.inj_succ, N.pow_succ_r' in Hx. }
    specialize (IH _ (String (pretty_N_char (x mod 10)) s) Hd). cbn [String.length] in IH. lia.
Qed.
Lemma dec_length k z : (0 < k)%nat -> 0 <= z < 10 ^ Z.of_nat k -> (length (dec z) <= k)%nat.
Proof.
  intros Hk Hz. unfold dec, str. rewrite length_map.
  assert (Hl : forall s, length (String.list_ascii_of_string s) = String.length s) by (induction s; cbn; congruence).
  rewrite Hl. destruct z as [|p|p]; [cbn; lia| |lia].
  change (pretty (Z.pos p)) with (pretty_N_go (N.pos p) ""). etrans; [apply (pretty_N_go_length k)|cbn; lia].
  apply N2Z.inj_lt. rewrite N2Z.inj_pow, nat_N_Z. apply Hz.
Qed.

Definition unit_text (show : bool) (v : Z) (u : string) : list Z := if show then dec v ++ str u else [].
(** The buffer of 32 bytes holds every uptime whole. *)
Lemma uptime_whole tv_sec : 0 <= tv_sec < 2 ^ 32 ->
  let d := tv_sec / 60 / 60 / 24 in let h := (tv_sec / 60 / 60) mod 24 in let m := (tv_sec / 60) mod 60 in
  let show_d := negb (d =? 0) in let show_h := negb (h =? 0) || show_d in let show_m := negb (m =? 0) || negb (h =? 0) || show_d in
  uptime_text tv_sec =
    unit_text show_d d "d " ++ unit_text show_h h "h " ++ unit_text show_m m "m " ++ unit_text true (tv_sec mod 60) "s" /\
  (length (uptime_text tv_sec) <= 18)%nat.
Proof.
  intros Ht. cbv zeta. destruct (uptime_parts tv_sec Ht) as (_ & Hh & Hm & Hs & Hd).
  pose proof (dec_length 5 (tv_sec / 60 / 60 / 24) ltac:(lia) ltac:(lia)) as Ld. pose proof (dec_length 2 ((tv_sec / 60 / 60) mod 24) ltac:(lia) ltac:(lia)) as Lh.
  pose proof (dec_length 2 ((tv_sec / 60) mod 60) ltac:(lia) ltac:(lia)) as Lm. pose proof (dec_length 2 (tv_sec mod 60) ltac:(lia) ltac:(lia)) as Ls.
  unfold uptime_text, append_tmp, snprintf, unit_text. rewrite (u32_small tv_sec) by (unfold is_u32; lia).
  rewrite (u32_small (tv_sec / 60)) by (unfold is_u32; Z.to_euclidean_division_equations; lia).
  revert Ld Lh Lm Ls. generalize (dec (tv_sec / 60 / 60 / 24)), (dec ((tv_sec / 60 / 60) mod 24)), (dec ((tv_sec / 60) mod 60)), (dec (tv_sec mod 60)).
  intros td th tm ts Ld Lh Lm Ls.
  assert (U : length (str "d ") = 2%nat /\ length (str "h ") = 2%nat /\ length (str "m ") = 2%nat /\ length (str "s") = 1%nat) by done.
  revert U. generalize (str "d "), (str "h "), (str "m "), (str "s"). intros ud uh um us (U1 & U2 & U3 & U4).
  destruct (negb (tv_sec / 60 / 60 / 24 =? 0)), (negb ((tv_sec / 60 / 60) mod 24 =? 0)), (negb ((tv_sec / 60) mod 60 =? 0)); cbn [orb app];
    repeat (rewrite take_ge by (rewrite ?length_app; cbn [length]; lia));
    rewrite <- ?app_assoc; rewrite ?length_app; (split; [done|cbn [length]; lia]).
Qed.
