(* ===== verification/Tftp.v ===== *)
(** * Files over TFTP: [tftp_server.c]

    The four callbacks lwIP's TFTP server runs, on one file at a time of the
    littlefs volume, which is a parameter. *)

From S2P Require Import Prelude Monad Lwrb Dhcpd Net ConfigDb Http.
From stdpp Require Import strings.

#[local] Open Scope Z_scope.

Definition LFS_O_RDONLY : Z := 1.
Definition LFS_O_WRONLY : Z := 2.
Definition LFS_O_CREAT : Z := 0x0100.
Definition LFS_O_TRUNC : Z := 0x0400.

(** littlefs, on the one file [g_tftp_file]; a read gives its result and what
    it stored. *)
Class Lfs (F : Type) := {
  lfs_file_open : list Z -> Z -> F -> Z * F;
  lfs_file_close : F -> F;
  lfs_file_read : Z -> F -> Z * list Z * F;
  lfs_file_write : list Z -> F -> Z * F;
}.

Record tftp (F : Type) := mk_tftp { g_tftp_open : bool; fs : F }.
Arguments mk_tftp {_}. Arguments g_tftp_open {_}. Arguments fs {_}.

(** [strncmp(s, p, strlen(p)) == 0] and [strstr(s, p) != NULL]. *)
Definition starts_with (p s : list Z) : bool := bool_decide (take (length p) s = p).
Fixpoint contains (p s : list Z) : bool := starts_with p s || match s with [] => false | _ :: s => contains p s end.

Section Callbacks.
Context {F : Type} `{Lfs F}.
#[local] Abbreviation st := (tftp F).

(** The result: whether a handle is returned.  [fname]: without its final
    zero. *)
Definition tftp_lfs_open (fname : option (list Z)) (write : bool) (s : st) : bool * st :=
  if g_tftp_open s then (false, s)
  else
    match fname with
    | None => (false, s)
    | Some fname =>
        if negb (starts_with (str "www/") fname) || contains (str "..") fname then (false, s)
        else
          let flags := if write then Z.lor (Z.lor LFS_O_WRONLY LFS_O_CREAT) LFS_O_TRUNC else LFS_O_RDONLY in
          let '(err, f) := lfs_file_open fname flags (fs s) in
          if negb (err =? 0) then (false, mk_tftp false f) else (true, mk_tftp true f)
    end.
(** [handle]: whether it is not NULL. *)
Definition tftp_lfs_close (handle : bool) (s : st) : st :=
  if negb handle || negb (g_tftp_open s) then s else mk_tftp false (lfs_file_close (fs s)).
Definition tftp_lfs_read (handle buf : bool) (bytes : Z) (s : st) : Z * list Z * st :=
  if negb handle || negb (g_tftp_open s) || negb buf || (bytes <=? 0) then (-1, [], s)
  else
    let '(rd, out, f) := lfs_file_read bytes (fs s) in
    ((if rd <? 0 then -1 else rd), out, mk_tftp (g_tftp_open s) f).
(** [p]: the payloads of the pbuf chain. *)
Fixpoint write_chain (p : list (list Z)) (f : F) : Z * F :=
  match p with
  | [] => (0, f)
  | q :: p =>
      let '(w, f) := lfs_file_write q f in
      if (w <? 0) || negb (u16 w =? Z.of_nat (length q)) then (-1, f) else write_chain p f
  end.
Definition tftp_lfs_write (handle : bool) (p : option (list (list Z))) (s : st) : Z * st :=
  match p with
  | None => (-1, s)
  | Some p =>
      if negb handle || negb (g_tftp_open s) then (-1, s)
      else let '(r, f) := write_chain p (fs s) in (r, mk_tftp (g_tftp_open s) f)
  end.

Inductive tftp_op := Open (fname : option (list Z)) (write : bool) | Close (handle : bool) | Read (handle buf : bool) (bytes : Z)
  | Write (handle : bool) (p : option (list (list Z))).
Definition tftp_do (o : tftp_op) (s : st) : st :=
  match o with
  | Open n w => (tftp_lfs_open n w s).2
  | Close h => tftp_lfs_close h s
  | Read h b n => (tftp_lfs_read h b n s).2
  | Write h p => (tftp_lfs_write h p s).2
  end.
End Callbacks.

(** ** What the volume is asked for *)

Inductive lfs_call := COpen (name : list Z) (flags : Z) (ok : bool) | CClose | CRead | CWrite (data : list Z).
(** A volume with the list of the calls made, the latest last. *)
#[export] Instance traced_lfs F `{Lfs F} : Lfs (F * list lfs_call) := {
  lfs_file_open n fl '(f, l) := let '(e, f) := lfs_file_open n fl f in (e, (f, l ++ [COpen n fl (e =? 0)]));
  lfs_file_close '(f, l) := (lfs_file_close f, l ++ [CClose]);
  lfs_file_read n '(f, l) := let '(r, f) := lfs_file_read n f in (r, (f, l ++ [CRead]));
  lfs_file_write d '(f, l) := let '(r, f) := lfs_file_write d f in (r, (f, l ++ [CWrite d]));
}.

(** The names stay below [www/], a file is read or written only while it is
    open, and is closed before the next is opened; the result is whether one is
    open at the end. *)
Fixpoint disciplined (opened : bool) (l : list lfs_call) : option bool :=
  match l with
  | [] => Some opened
  | COpen n fl ok :: l =>
      if negb opened && starts_with (str "www/") n && negb (contains (str "..") n) then disciplined ok l else None
  | CClose :: l => if opened then disciplined false l else None
  | _ :: l => if opened then disciplined true l else None
  end.
Lemma disciplined_app a b : forall o, disciplined o (a ++ b) = o' ← disciplined o a; disciplined o' b.
Proof. induction a as [|[n fl ok| | |d] a IH]; intros o; cbn [app disciplined]; [done|..]; destruct o; cbn [negb andb]; try done; try apply IH; destruct (_ && _); done || apply IH. Qed.

Section Discipline.
Context {F : Type} `{Lfs F}.
Definition traced (s : tftp (F * list lfs_call)) : Prop := disciplined false (fs s).2 = Some (g_tftp_open s).

Lemma write_chain_traced p : forall (f : F * list lfs_call) o, disciplined o f.2 = Some true -> disciplined o (write_chain p f).2.2 = Some true.
Proof.
  induction p as [|q p IH]; intros [f l] o Hf; cbn [write_chain lfs_file_write traced_lfs]; [done|].
  destruct (lfs_file_write q f) as [w f']. cbn [snd] in *.
  assert (Hl : disciplined o (l ++ [CWrite q]) = Some true) by (rewrite disciplined_app, Hf; done).
  destruct (_ || _); [done|]. by apply IH.
Qed.
(** Whatever lwIP asks for, in whatever order, even after errors, the volume
    sees a disciplined use of one file. *)
Lemma tftp_disciplined ops (s : tftp (F * list lfs_call)) : traced s -> traced (foldl (fun s o => tftp_do o s) s ops).
Proof.
  revert s. induction ops as [|o ops IH]; intros s Hs; cbn [foldl]; [done|]. apply IH. clear IH. destruct s as [op [f l]]. unfold traced in *. cbn [fs g_tftp_open snd] in Hs.
  destruct o as [n w|h|h b n|h p]; cbn [tftp_do].
  - unfold tftp_lfs_open. cbn [g_tftp_open fs]. destruct op; [done|]. destruct n as [n|]; [|done].
    destruct (negb (starts_with _ n) || contains _ n) eqn:E; [done|]. apply orb_false_iff in E as [E1 E2]. apply negb_false_iff in E1.
    cbn [lfs_file_open traced_lfs]. destruct (lfs_file_open n _ f) as [e f']. destruct (e =? 0) eqn:Ee; cbn [negb snd fs g_tftp_open];
      rewrite disciplined_app, Hs; cbn [mbind option_bind disciplined negb]; by rewrite E1, E2.
  - unfold tftp_lfs_close. cbn [g_tftp_open fs]. destruct h, op; try done. cbn [negb orb fs snd g_tftp_open lfs_file_close traced_lfs].
    by rewrite disciplined_app, Hs.
  - unfold tftp_lfs_read. cbn [g_tftp_open fs]. destruct (negb h || negb op || negb b || _) eqn:E; [done|]. rewrite !orb_false_iff in E.
    destruct E as [[[_ E] _] _]. apply negb_false_iff in E. subst op. cbn [lfs_file_read traced_lfs]. destruct (lfs_file_read n f) as [[r out] f'].
    cbn [snd fs g_tftp_open]. by rewrite disciplined_app, Hs.
  - unfold tftp_lfs_write. cbn [g_tftp_open fs]. destruct p as [p|]; [|done]. destruct h, op; try done. cbn [negb orb].
    pose proof (write_chain_traced p (f, l) false Hs) as Hw. destruct (write_chain p (f, l)) as [r [f' l']]. done.
Qed.
End Discipline.
