(* ===== verification/Telemetry.v ===== *)
(** * Reports to the MQTT server: [telemetry.c]

    Settings with their limits, the node's number, and the sending of one
    report: up to three attempts, each resolving the name, connecting and
    publishing, with lwIP's callbacks arriving from its own thread whenever it
    pleases, those of an earlier attempt too.  lwIP is the class [MqttEnv];
    the report's text is an argument. *)

From S2P Require Import Prelude Monad ConfigDb Lwrb Dhcpd Net Http.
From stdpp Require Import strings.

#[local] Open Scope Z_scope.

Definition MQTT_RETRIES : nat := 3.
Definition MQTT_DNS_TO_MS : Z := 5000.
Definition MQTT_CONN_TO_MS : Z := 8000.
Definition MQTT_PUB_TO_MS : Z := 8000.
Definition MQTT_RETRY_MS : Z := 500.

(** ** Settings *)

(** The two coordinates are the bits of a [float]; the texts are arrays of 32
    bytes. *)
Record telemetry_config := mk_tlm {
  enabled : Z; extended_enabled : Z; send_period_s : Z; domain : list Z; port : Z; latitude : Z; longitude : Z;
  directional : Z; direction : Z; username : list Z; password : list Z; topic : list Z; nodename : list Z; lxmf : list Z }.
#[export] Instance eta_tlm : Eta telemetry_config := fun c =>
  mk_tlm (enabled c) (extended_enabled c) (send_period_s c) (domain c) (port c) (latitude c) (longitude c)
    (directional c) (direction c) (username c) (password c) (topic c) (nodename c) (lxmf c).

(** [x < -lim || x > lim] on the bits of [x] and of [lim > 0]: no number is
    outside when [x] is not one. *)
Definition f32_outside (x lim : Z) : bool :=
  let m := Z.land x 0x7FFFFFFF in (lim <? m) && (m <=? 0x7F800000).
Definition F32_90 : Z := 0x42B40000.
Definition F32_180 : Z := 0x43340000.

(** [strncpy(dst, s, 31)] into 32 zeros. *)
Definition text32 (s : list Z) : list Z := take 31 s ++ replicate (32 - length (take 31 s)) 0.
Definition terminate (s : list Z) : list Z := take 31 s ++ [0].

(** [hostname]: of the default interface, if there is one. *)
Definition telemetry_config_set_default (hostname : option (list Z)) : telemetry_config :=
  mk_tlm 0 0 3600 (text32 (str "telemetry.rnode-halow.ru")) 1883 0 0 0 0 (text32 (str "rnode-halow")) (text32 (str "rnode-halow"))
    (text32 (str "rnode-halow/telemetry")) (text32 (default [] hostname)) (replicate 16 0).

Definition telemetry_config_sanitize (c : telemetry_config) : telemetry_config :=
  let bool_of v := if v =? 0 then 0 else 1 in
  let period := if send_period_s c <? 1 then 1 else send_period_s c in
  let period := if 86400 * 7 <? period then 86400 * 7 else period in
  let '(dir, dirl) := if direction c <? 0 then (0, 0) else (direction c, bool_of (directional c)) in
  let '(dir, dirl) := if 359 <? dir then (359, 0) else (dir, dirl) in
  mk_tlm (bool_of (enabled c)) (bool_of (extended_enabled c)) period (terminate (domain c))
    (if port c <? 1024 then 1883 else port c)
    (if f32_outside (latitude c) F32_90 then 0 else latitude c) (if f32_outside (longitude c) F32_180 then 0 else longitude c)
    dirl dir (terminate (username c)) (terminate (password c)) (terminate (topic c)) (terminate (nodename c)) (lxmf c).

Section Store.
Context {D : Type} `{Kvdb D}.
Variable tmp_ok : bool.
Definition get_bytes (key : string) (d : D) (v : list Z) : list Z := default v (configdb_get_blob (Some key) (Some v) d).2.
Definition get_float (key : string) (d : D) (v : Z) : Z := u32 (of_le32 (get_bytes key d (le32 v))).
(** A [bool] field read as a signed byte. *)
Definition get_bool := @get_u8 D _.

Definition telemetry_config_load (hostname : option (list Z)) (d : D) : telemetry_config :=
  let c := telemetry_config_set_default hostname in
  let c := mk_tlm (get_bool "cfg.tlm.en" d (enabled c)) (get_bool "cfg.tlm.exten" d (extended_enabled c))
    (u32 (get_i32_or "cfg.tlm.period" (i32 (send_period_s c)) d)) (get_bytes "cfg.tlm.ip" d (domain c)) (get_u16 "cfg.tlm.port" d (port c))
    (get_float "cfg.tlm.lat" d (latitude c)) (get_float "cfg.tlm.lon" d (longitude c)) (get_bool "cfg.tlm.diren" d (directional c))
    (configdb_get_i16 "cfg.tlm.dir" (direction c) d).2 (get_bytes "cfg.tlm.usr" d (username c)) (get_bytes "cfg.tlm.pwd" d (password c))
    (get_bytes "cfg.tlm.top" d (topic c)) (get_bytes "cfg.tlm.name" d (nodename c)) (get_bytes "cfg.tlm.lxmf" d (lxmf c)) in
  telemetry_config_sanitize c.

Definition set_bytes (key : string) (v : list Z) (d : D) : D := (configdb_set_blob tmp_ok (Some key) (Some v) d).2.
Definition telemetry_config_save (c : telemetry_config) (d : D) : telemetry_config * D :=
  let c := telemetry_config_sanitize c in
  let d := (configdb_set_i8 "cfg.tlm.en" (Some (i8 (enabled c))) d).2 in
  let d := (configdb_set_i8 "cfg.tlm.exten" (Some (i8 (extended_enabled c))) d).2 in
  let d := (configdb_set_i32 "cfg.tlm.period" (Some (i32 (send_period_s c))) d).2 in
  let d := (configdb_set_i8 "cfg.tlm.diren" (Some (i8 (directional c))) d).2 in
  let d := (configdb_set_i16 "cfg.tlm.port" (Some (i16 (port c))) d).2 in
  let d := (configdb_set_i16 "cfg.tlm.dir" (Some (direction c)) d).2 in
  let d := set_bytes "cfg.tlm.lat" (le32 (latitude c)) d in
  let d := set_bytes "cfg.tlm.lon" (le32 (longitude c)) d in
  let d := set_bytes "cfg.tlm.name" (nodename c) d in
  let d := set_bytes "cfg.tlm.ip" (domain c) d in
  let d := set_bytes "cfg.tlm.usr" (username c) d in
  let d := set_bytes "cfg.tlm.pwd" (password c) d in
  let d := set_bytes "cfg.tlm.top" (topic c) d in
  (c, set_bytes "cfg.tlm.lxmf" (lxmf c) d).

(** The delay of the first report, if there will be one, and the store. *)
Definition telemetry_init (hostname : option (list Z)) (d : D) : option Z * D :=
  let c := telemetry_config_load hostname d in
  let '(rc, seeded) := configdb_get_i16 "cfg.tlm.seeded" 0 d in
  let '(c, d) :=
    if negb (rc =? 0) || negb (seeded =? 1) then
      let '(c, d) := telemetry_config_save c d in (c, (configdb_set_i16 "cfg.tlm.seeded" (Some 1) d).2)
    else (c, d) in
  (if negb (enabled c =? 0) then Some 5000 else None, d).
(** The delay of the next report. *)
Definition telemetry_next (hostname : option (list Z)) (d : D) : option Z :=
  let c := telemetry_config_load hostname d in
  if negb (enabled c =? 0) then Some (u32 (send_period_s c * 1000)) else None.
End Store.

(** FNV-1a of the MAC; [id]: the variable that keeps it. *)
Definition fnv1a (bytes : list Z) : Z := foldl (fun h b => u32 (Z.lxor h b * 0x01000193)) 0x811C9DC5 bytes.
Definition telemetry_get_id (mac : list Z) (id : Z) : Z := if id =? 0 then fnv1a mac else id.

(** ** One report *)

Inductive callback := DnsCb (ipaddr : option Z) | ConnCb (status : Z) | PubCb (err : Z).
Definition ERR_OK : Z := 0.
Definition ERR_INPROGRESS : Z := -5.
Definition ERR_VAL : Z := -6.
Definition MQTT_CONNECT_ACCEPTED : Z := 0.
Definition MQTT_CONNECT_DISCONNECTED : Z := 256.

(** lwIP, cJSON and the scheduler.  [wait_arrival t] is what the task sees
    when it blocks for at most [t] ms: the callback that ends the wait and the
    time until it, or none.  [arrivals] are the callbacks that ran since the
    last time the task was looked at. *)
Class MqttEnv (W : Type) := {
  ipaddr_aton : list Z -> option Z;
  dns_gethostbyname : list Z -> W -> Z * Z * W;
  mqtt_client_new : W -> bool * W;
  mqtt_client_connect : Z -> Z -> W -> Z * W;
  mqtt_publish : list Z -> list Z -> W -> Z * W;
  mqtt_cleanup : W -> W;
  alloc_ok : W -> bool * W;
  wait_arrival : Z -> W -> option (Z * callback) * W;
  arrivals : W -> list callback * W;
}.

(** [g_telemetry_ctx], with what [telemetry_send] has allocated: the JSON
    tree, its text, the two semaphores ([sem] with its count) and the client.
    [now_ms] is the clock; [attempts] and [published] count, and
    [stray_signals] are the signals of a semaphore that is freed. *)
Record tele (W : Type) := mk_tele {
  cb_done : bool; cb_err : Z; cb_st : Z; ctx_ip : Z;
  h_tree : bool; h_text : bool; sem : option nat; h_dispatch : bool; h_client : bool;
  now_ms : Z; attempts : nat; published : nat; stray_signals : nat; world : W }.
Arguments mk_tele {_}. Arguments cb_done {_}. Arguments cb_err {_}. Arguments cb_st {_}. Arguments ctx_ip {_}. Arguments h_tree {_}.
Arguments h_text {_}. Arguments sem {_}. Arguments h_dispatch {_}. Arguments h_client {_}. Arguments now_ms {_}. Arguments attempts {_}.
Arguments published {_}. Arguments stray_signals {_}. Arguments world {_}.
#[export] Instance eta_tele W : Eta (tele W) := fun s =>
  mk_tele (cb_done s) (cb_err s) (cb_st s) (ctx_ip s) (h_tree s) (h_text s) (sem s) (h_dispatch s) (h_client s)
    (now_ms s) (attempts s) (published s) (stray_signals s) (world s).

Section Send.
Context {W : Type} `{MqttEnv W}.
#[local] Abbreviation st := (tele W).

Definition ext {A} (f : W -> A * W) : M st A := fun s => let '(a, w) := f (world s) in Some (a, s <| world := w |>).

(** [sys_sem_signal(&g_telemetry_ctx.sem)]. *)
Definition sem_signal (s : st) : st :=
  match sem s with Some n => s <| sem := Some (S n) |> | None => s <| stray_signals ::= S |> end.
(** [telemetry_dns_cb], [telemetry_conn_cb], [telemetry_pub_cb]. *)
Definition run_callback (c : callback) (s : st) : st :=
  sem_signal (match c with
    | DnsCb (Some ip) => s <| ctx_ip := ip |> <| cb_err := ERR_OK |>
    | DnsCb None => s <| cb_err := ERR_VAL |>
    | ConnCb status => s <| cb_st := status |>
    | PubCb err => s <| cb_err := err |>
    end <| cb_done := true |>).
(** Other threads run: the callbacks that come at this point. *)
Definition others_run : M st unit := cbs ← ext arrivals; modify (fun s => foldl (fun s c => run_callback c s) s cbs).

(** The passes of the loop; the fuel is the count of the semaphore and
    three. *)
Fixpoint wait_loop (fuel : nat) (start timeout_ms : Z) : M st bool :=
  match fuel with
  | O => fun _ => None
  | S fuel =>
      d ← gets cb_done;
      if d : bool then mret true
      else
        now ← gets now_ms;
        let dt := now - start in
        if timeout_ms <=? dt then mret false
        else
          n ← gets sem;
          match n with
          | None => fun _ => None
          | Some (S n) => modify (fun s => s <| sem := Some n |>);; wait_loop fuel start timeout_ms
          | Some O =>
              r ← ext (wait_arrival (timeout_ms - dt));
              (match r with
               | Some (t, c) =>
                   modify (fun s => run_callback c (s <| now_ms ::= fun n => n + Z.max 0 (Z.min t (timeout_ms - dt)) |>) <| sem := Some O |>)
               | None => modify (fun s => s <| now_ms ::= fun n => n + (timeout_ms - dt) |>)
               end);;
              wait_loop fuel start timeout_ms
          end
  end.
Definition telemetry_wait (timeout_ms : Z) : M st bool :=
  start ← gets now_ms;
  n ← gets sem;
  r ← wait_loop (default O n + 3) start timeout_ms;
  others_run;;
  mret r.

(** Allocation and release; releasing what is not held is a fault. *)
Definition release (held : st -> bool) (put : bool -> st -> st) : M st unit :=
  b ← gets held;
  if b : bool then modify (put false) else (fun _ => None).
Definition sem_free : M st unit :=
  n ← gets sem;
  match n with Some _ => modify (fun s => s <| sem := None |>) | None => fun _ => None end.
Definition free_dispatch : M st unit := release h_dispatch (fun b s => s <| h_dispatch := b |>).
Definition free_text : M st unit := release h_text (fun b s => s <| h_text := b |>).
Definition free_tree : M st unit := release h_tree (fun b s => s <| h_tree := b |>).

(** [tcpip_send_msg_wait_sem]: the function runs in lwIP's thread. *)
Definition dispatch {A} (f : M st A) : M st A := d ← gets h_dispatch; if d : bool then others_run;; r ← f; others_run;; mret r else (fun _ => None).
Definition tcpip_mqtt_connect_cb (ip port : Z) : M st unit := e ← ext (mqtt_client_connect ip port); modify (fun s => s <| cb_err := e |>).
Definition tcpip_mqtt_publish_cb (topic payload : list Z) : M st unit := e ← ext (mqtt_publish topic payload); modify (fun s => s <| cb_err := e |>).
Definition tcpip_mqtt_cleanup_cb : M st unit :=
  ext (fun w => (tt, mqtt_cleanup w));; release h_client (fun b s => s <| h_client := b |>).

(** An attempt up to [goto fail] ([false]) or the cleanup after success. *)
Definition resolve (c : telemetry_config) : M st (option Z) :=
  '(err, ip) ← (match ipaddr_aton (cstr (domain c)) with
                | Some ip => mret (ERR_OK, ip)
                | None => ext (fun w => dns_gethostbyname (cstr (domain c)) w)
                end);
  if err =? ERR_INPROGRESS then
    ok ← telemetry_wait MQTT_DNS_TO_MS;
    if negb ok then mret None
    else
      e ← gets cb_err;
      if negb (e =? ERR_OK) then mret None else (ip ← gets ctx_ip; mret (Some ip))
  else if negb (err =? ERR_OK) then mret None
  else mret (Some ip).
Definition connect (c : telemetry_config) (ip : Z) : M st bool :=
  modify (fun s => s <| cb_done := false |> <| ctx_ip := ip |>);;
  dispatch (ip ← gets ctx_ip; tcpip_mqtt_connect_cb ip (if port c =? 0 then 1883 else port c));;
  e ← gets cb_err;
  if negb (e =? ERR_OK) then mret false
  else
    ok ← telemetry_wait MQTT_CONN_TO_MS;
    if negb ok then mret false else (stt ← gets cb_st; mret (stt =? MQTT_CONNECT_ACCEPTED)).
Definition publish (c : telemetry_config) (json : list Z) : M st bool :=
  modify (fun s => s <| cb_done := false |>);;
  dispatch (tcpip_mqtt_publish_cb (cstr (topic c)) (take (Z.to_nat (u16 (Z.of_nat (length json)))) json));;
  e ← gets cb_err;
  if negb (e =? ERR_OK) then mret false
  else
    ok ← telemetry_wait MQTT_PUB_TO_MS;
    if negb ok then mret false else (e ← gets cb_err; mret (e =? ERR_OK)).
Definition attempt (c : telemetry_config) (json : list Z) : M st bool :=
  modify (fun s => s <| attempts ::= S |> <| cb_done := false |> <| cb_err := ERR_OK |> <| cb_st := MQTT_CONNECT_DISCONNECTED |>);;
  others_run;;
  ip ← resolve c;
  match ip with
  | None => mret false
  | Some ip =>
      ok ← ext mqtt_client_new;
      if negb ok then mret false
      else
        modify (fun s => s <| h_client := true |>);;
        ok ← connect c ip;
        if negb ok then mret false else publish c json
  end.
Fixpoint attempt_loop (tries : nat) (c : telemetry_config) (json : list Z) : M st unit :=
  match tries with
  | O => mret tt
  | S tries =>
      ok ← attempt c json;
      if ok : bool then modify (fun s => s <| published ::= S |>);; dispatch tcpip_mqtt_cleanup_cb
      else
        cl ← gets h_client;
        when cl (dispatch tcpip_mqtt_cleanup_cb);;
        when (negb (Nat.eqb tries 0)) (modify (fun s => s <| now_ms ::= fun n => n + MQTT_RETRY_MS |>);; others_run);;
        attempt_loop tries c json
  end.

(** [json]: the text of the report. *)
Definition telemetry_send (c : telemetry_config) (json : list Z) : M st unit :=
  if (enabled c =? 0) || bool_decide (cstr (domain c) = []) || bool_decide (cstr (topic c) = []) then mret tt
  else
    j ← ext alloc_ok;
    if negb j then mret tt
    else
      modify (fun s => s <| h_tree := true |>);;
      t ← ext alloc_ok;
      if negb t then free_tree
      else
        modify (fun s => s <| h_text := true |>);;
        s1 ← ext alloc_ok;
        if negb s1 then free_text;; free_tree
        else
          modify (fun s => s <| sem := Some O |>);;
          s2 ← ext alloc_ok;
          if negb s2 then sem_free;; free_text;; free_tree
          else
            modify (fun s => s <| h_dispatch := true |>);;
            attempt_loop MQTT_RETRIES c json;;
            free_dispatch;; sem_free;; free_text;; free_tree.
End Send.

(** ** Sending always ends, with everything released *)

Section SendProofs.
Context {W : Type} `{MqttEnv W}.
#[local] Abbreviation st := (tele W).

(** What a part of the sending leaves alone: all that is held, and the
    counts; and the clock advances by at most [n] ms. *)
Record steady (n : Z) (s s' : st) : Prop := {
  sd_tree : h_tree s' = h_tree s;
  sd_text : h_text s' = h_text s;
  sd_sem : is_Some (sem s) -> is_Some (sem s');
  sd_dispatch : h_dispatch s' = h_dispatch s;
  sd_client : h_client s' = h_client s;
  sd_attempts : attempts s' = attempts s;
  sd_published : published s' = published s;
  sd_stray : is_Some (sem s) -> stray_signals s' = stray_signals s;
  sd_clock : now_ms s <= now_ms s' <= now_ms s + n;
}.
Lemma steady_refl n s : 0 <= n -> steady n s s.
Proof. intros Hn. split; try done. lia. Qed.
Lemma steady_trans n m s1 s2 s3 : steady n s1 s2 -> steady m s2 s3 -> steady (n + m) s1 s3.
Proof.
  intros [] []. split; try congruence; eauto; [|lia]. intros Hs. rewrite sd_stray1, sd_stray0; auto.
Qed.
Lemma steady_mono n m s s' : steady n s s' -> n <= m -> steady m s s'.
Proof. intros [] Hm. split; try done. lia. Qed.

Lemma callback_steady c s : steady 0 s (run_callback c s).
Proof.
  unfold run_callback, sem_signal. destruct c as [[ip|]|?|?]; rsimpl; destruct (sem s) eqn:E; split; rsimpl; rewrite ?E; try done; try lia; by intros [].
Qed.
Lemma callbacks_steady cbs : forall s, steady 0 s (foldl (fun s c => run_callback c s) s cbs).
Proof.
  induction cbs as [|c cbs IH]; intros s; cbn [foldl]; [by apply steady_refl|]. eapply (steady_trans 0 0); [apply callback_steady|apply IH].
Qed.
Lemma others_steady s (Q : unit -> st -> Prop) : (forall s', steady 0 s s' -> Q tt s') -> wp others_run Q s.
Proof.
  intros HQ. unfold others_run. apply wp_bind. unfold wp at 1, ext. destruct (arrivals (world s)) as [cbs w]. apply wp_modify, HQ.
  eapply (steady_trans 0 0); [|apply callbacks_steady]. split; rsimpl; try done; lia.
Qed.
Lemma ext_steady {A} (f : W -> A * W) s (Q : A -> st -> Prop) : (forall s', steady 0 s s' -> cb_done s' = cb_done s -> sem s' = sem s -> now_ms s' = now_ms s -> Q (f (world s)).1 s') -> wp (ext f) Q s.
Proof.
  intros HQ. unfold wp, ext. destruct (f (world s)) as [a w] eqn:E. cbn [fst] in HQ. apply HQ; rsimpl; try done. split; rsimpl; try done; lia.
Qed.
Lemma callback_done c (s : st) : cb_done (run_callback c s) = true.
Proof. unfold run_callback, sem_signal. destruct c as [[ip|]|?|?]; rsimpl; destruct (sem s); by rsimpl. Qed.

(** The wait ends by its timeout, whatever arrives. *)
Lemma wait_loop_steady fuel : forall start t s n (Q : bool -> st -> Prop), sem s = Some n -> start <= now_ms s <= start + t ->
  (fuel >= n + 2)%nat \/ (fuel >= 1)%nat /\ (cb_done s = true \/ now_ms s = start + t) ->
  (forall r s', steady (start + t - now_ms s) s s' -> Q r s') -> wp (wait_loop fuel start t) Q s.
Proof.
  induction fuel as [|fuel IH]; intros start t s n Q Hs Hnow Hf HQ; [lia|]. cbn [wait_loop]. apply wp_bind, wp_gets.
  destruct (cb_done s) eqn:Ed; [apply wp_ret, HQ, steady_refl; lia|]. apply wp_bind, wp_gets.
  destruct (Z.leb_spec t (now_ms s - start)) as [Hle|Hgt]; [apply wp_ret, HQ, steady_refl; lia|].
  assert (Hf' : (fuel >= n + 1)%nat) by (destruct Hf as [?|[_ [?|?]]]; [lia|done|lia]).
  apply wp_bind, wp_gets. rewrite Hs. destruct n as [|n].
  - apply wp_bind, ext_steady. intros s1 H1 Hd1 Hs1 Hn1. apply wp_bind.
    destruct (wait_arrival _ (world s)) as [[[t' c]|] w]; cbn [fst]; apply wp_modify.
    + set (e := Z.max 0 (Z.min t' (t - (now_ms s - start)))) in *. set (s2 := s1 <| now_ms ::= fun n => n + e |>).
      assert (H2 : steady e s1 s2) by (subst s2; split; rsimpl; try done; lia).
      pose proof (callback_steady c s2) as H3. set (s3 := run_callback c s2) in *.
      assert (H4 : steady 0 s3 (s3 <| sem := Some O |>)) by (split; rsimpl; try done; lia).
      pose proof (steady_trans _ _ _ _ _ (steady_trans _ _ _ _ _ (steady_trans _ _ _ _ _ H1 H2) H3) H4) as H5.
      pose proof (sd_clock _ _ _ H3) as Hc3. assert (En : now_ms s2 = now_ms s + e) by (subst s2; rsimpl; lia).
      eapply (IH start t _ O); [by rsimpl|rsimpl; lia|right; split; [lia|left; rsimpl; apply callback_done]|].
      intros r s' Hs'. apply HQ. eapply steady_mono; [eapply steady_trans; [exact H5|exact Hs']|]. rsimpl. lia.
    + set (s2 := s1 <| now_ms ::= fun n => n + (t - (now_ms s - start)) |>).
      assert (H2 : steady (t - (now_ms s - start)) s1 s2) by (subst s2; split; rsimpl; try done; lia).
      assert (En : now_ms s2 = start + t) by (subst s2; rsimpl; lia).
      eapply (IH start t _ O); [subst s2; rsimpl; congruence|lia|right; split; [lia|by right]|].
      intros r s' Hs'. apply HQ. eapply steady_mono; [eapply steady_trans; [eapply steady_trans; [exact H1|exact H2]|exact Hs']|]. lia.
  - apply wp_bind, wp_modify.
    assert (H1 : steady 0 s (s <| sem := Some n |>)) by (split; rsimpl; try done; lia).
    eapply (IH start t _ n); [by rsimpl|by rsimpl|left; lia|].
    intros r s' Hs'. apply HQ. eapply steady_mono; [eapply steady_trans; [exact H1|exact Hs']|]. rsimpl. lia.
Qed.
Lemma wait_steady t s (Q : bool -> st -> Prop) : is_Some (sem s) -> 0 <= t -> (forall r s', steady t s s' -> Q r s') -> wp (telemetry_wait t) Q s.
Proof.
  intros [n Hn] Ht HQ. unfold telemetry_wait. apply wp_bind, wp_gets, wp_bind, wp_gets. rewrite Hn. cbn [default]. apply wp_bind.
  eapply wait_loop_steady; [done|lia|left; cbn; lia|]. intros r s1 H1. apply wp_bind, others_steady. intros s2 H2. apply wp_ret, HQ.
  eapply steady_mono; [by eapply steady_trans|lia].
Qed.

Lemma modify_steady (f : st -> st) s (Q : unit -> st -> Prop) : steady 0 s (f s) -> (forall s', steady 0 s s' -> Q tt s') -> wp (modify f) Q s.
Proof. intros Hf HQ. apply wp_modify. by apply HQ. Qed.
Lemma dispatch_steady (f : M st unit) s (Q : unit -> st -> Prop) : h_dispatch s = true ->
  (forall s1 (Q1 : unit -> st -> Prop), (forall s', steady 0 s1 s' -> Q1 tt s') -> wp f Q1 s1) ->
  (forall s', steady 0 s s' -> Q tt s') -> wp (dispatch f) Q s.
Proof.
  intros Hd Hf HQ. unfold dispatch. apply wp_bind, wp_gets. rewrite Hd. apply wp_bind, others_steady. intros s1 H1. apply wp_bind, Hf.
  intros s2 H2. apply wp_bind, others_steady. intros s3 H3. apply wp_ret, HQ.
  eapply (steady_trans 0 0); [exact H1|]. by eapply (steady_trans 0 0).
Qed.

(** What is held while a report is under way. *)
Definition equipped (s : st) : Prop := is_Some (sem s) /\ h_dispatch s = true /\ h_text s = true /\ h_tree s = true.
Lemma equipped_steady n s s' : equipped s -> steady n s s' -> equipped s'.
Proof. intros (H1 & H2 & H3 & H4) []. unfold equipped. rewrite sd_dispatch0, sd_text0, sd_tree0. auto. Qed.

Lemma resolve_steady c s (Q : option Z -> st -> Prop) : equipped s -> (forall r s', steady MQTT_DNS_TO_MS s s' -> Q r s') -> wp (resolve c) Q s.
Proof.
  intros He HQ. unfold resolve. apply wp_bind. set (R := fun (r : Z * Z) s' => steady 0 s s').
  eapply (wp_mono _ R).
  { destruct (ipaddr_aton _); [apply wp_ret, steady_refl; lia|]. by apply ext_steady. }
  intros [err ip] s1 H1. subst R. cbv beta in H1. pose proof (equipped_steady _ _ _ He H1) as He1.
  assert (H1' : steady MQTT_DNS_TO_MS s s1) by (eapply steady_mono; [done|unfold MQTT_DNS_TO_MS; lia]).
  destruct (err =? ERR_INPROGRESS); [|destruct (negb (err =? ERR_OK)); by apply wp_ret, HQ].
  apply wp_bind, wait_steady; [apply He1|unfold MQTT_DNS_TO_MS; lia|]. intros ok s2 H2. pose proof (steady_trans _ _ _ _ _ H1 H2) as H12.
  destruct ok; cbn [negb]; [|by apply wp_ret, HQ]. apply wp_bind, wp_gets. destruct (negb _); [by apply wp_ret, HQ|].
  apply wp_bind, wp_gets, wp_ret, HQ. done.
Qed.
Lemma set_done_steady (s : st) ip : steady 0 s (s <| cb_done := false |> <| ctx_ip := ip |>) /\ steady 0 s (s <| cb_done := false |>).
Proof. split; split; rsimpl; try done; lia. Qed.
Lemma ext_err_steady (f : W -> Z * W) s (Q : unit -> st -> Prop) : (forall s', steady 0 s s' -> Q tt s') ->
  wp (e ← ext f; modify (fun s => s <| cb_err := e |>)) Q s.
Proof.
  intros HQ. apply wp_bind, ext_steady. intros s1 H1 _ _ _. apply wp_modify, HQ. eapply (steady_trans 0 0); [exact H1|]. split; rsimpl; try done; lia.
Qed.
Lemma connect_steady c ip s (Q : bool -> st -> Prop) : equipped s -> (forall r s', steady MQTT_CONN_TO_MS s s' -> Q r s') -> wp (connect c ip) Q s.
Proof.
  intros He HQ. unfold connect. apply wp_bind, wp_modify. destruct (set_done_steady s ip) as [H0 _]. pose proof (equipped_steady _ _ _ He H0) as He0.
  apply wp_bind, dispatch_steady; [apply He0|intros s1 Q1 HQ1; apply wp_bind, wp_gets; by apply ext_err_steady|]. intros s1 H1'.
  pose proof (steady_trans 0 0 _ _ _ H0 H1') as H1. pose proof (equipped_steady _ _ _ He H1) as He1.
  apply wp_bind, wp_gets. destruct (negb _); [apply wp_ret, HQ; eapply steady_mono; [done|unfold MQTT_CONN_TO_MS; lia]|].
  apply wp_bind, wait_steady; [apply He1|unfold MQTT_CONN_TO_MS; lia|]. intros ok s2 H2. pose proof (steady_trans _ _ _ _ _ H1 H2) as H12.
  destruct ok; cbn [negb]; [|by apply wp_ret, HQ]. apply wp_bind, wp_gets. by apply wp_ret, HQ.
Qed.
Lemma publish_steady c json s (Q : bool -> st -> Prop) : equipped s -> (forall r s', steady MQTT_PUB_TO_MS s s' -> Q r s') -> wp (publish c json) Q s.
Proof.
  intros He HQ. unfold publish. apply wp_bind, wp_modify. destruct (set_done_steady s 0) as [_ H0]. pose proof (equipped_steady _ _ _ He H0) as He0.
  apply wp_bind, dispatch_steady; [apply He0|intros s1 Q1 HQ1; by apply ext_err_steady|]. intros s1 H1'.
  pose proof (steady_trans 0 0 _ _ _ H0 H1') as H1. pose proof (equipped_steady _ _ _ He H1) as He1.
  apply wp_bind, wp_gets. destruct (negb _); [apply wp_ret, HQ; eapply steady_mono; [done|unfold MQTT_PUB_TO_MS; lia]|].
  apply wp_bind, wait_steady; [apply He1|unfold MQTT_PUB_TO_MS; lia|]. intros ok s2 H2. pose proof (steady_trans _ _ _ _ _ H1 H2) as H12.
  destruct ok; cbn [negb]; [|by apply wp_ret, HQ]. apply wp_bind, wp_gets. by apply wp_ret, HQ.
Qed.

Definition ATTEMPT_MS : Z := MQTT_DNS_TO_MS + MQTT_CONN_TO_MS + MQTT_PUB_TO_MS.
(** After an attempt: everything but the client is as it was. *)
Record attempted (n : Z) (s s' : st) : Prop := {
  at_held : equipped s';
  at_published : published s' = published s;
  at_stray : stray_signals s' = stray_signals s;
  at_clock : now_ms s <= now_ms s' <= now_ms s + n;
}.
Lemma attempted_refl s : equipped s -> attempted 0 s s.
Proof. intros He. split; try done. lia. Qed.
Lemma attempted_steady n m s s1 s2 : attempted n s s1 -> steady m s1 s2 -> attempted (n + m) s s2.
Proof.
  intros [He Hp Hs Hc] H2. pose proof (equipped_steady _ _ _ He H2). destruct He as [He _]. destruct H2.
  split; [done|congruence|rewrite sd_stray0 by done; congruence|lia].
Qed.
Lemma attempted_mono n m s s' : attempted n s s' -> n <= m -> attempted m s s'.
Proof. intros [] Hm. split; try done. lia. Qed.

Lemma attempt_spec c json s (Q : bool -> st -> Prop) : equipped s ->
  (forall r s', attempted ATTEMPT_MS s s' -> attempts s' = S (attempts s) -> (r = true -> h_client s' = true) -> (h_client s = true -> h_client s' = true) -> Q r s') ->
  wp (attempt c json) Q s.
Proof.
  intros He HQ. unfold attempt. apply wp_bind, wp_modify.
  set (s0 := s <| attempts ::= S |> <| cb_done := false |> <| cb_err := ERR_OK |> <| cb_st := MQTT_CONNECT_DISCONNECTED |>).
  assert (He0 : attempted 0 s s0 /\ attempts s0 = S (attempts s) /\ h_client s0 = h_client s).
  { subst s0. destruct He as (H1 & H2 & H3 & H4). split_and!; [|by rsimpl..]. split; unfold equipped; rsimpl; try done; lia. }
  destruct He0 as (H0 & N0 & C0). clearbody s0.
  apply wp_bind, others_steady. intros s1 H1'. pose proof (attempted_steady _ _ _ _ _ H0 H1') as H1.
  assert (N1 : attempts s1 = S (attempts s)) by (rewrite (sd_attempts _ _ _ H1'); done).
  assert (C1 : h_client s1 = h_client s) by (rewrite (sd_client _ _ _ H1'); done).
  apply wp_bind, resolve_steady; [apply H1|]. intros ip s2 H2'. pose proof (attempted_steady _ _ _ _ _ H1 H2') as H2.
  assert (N2 : attempts s2 = S (attempts s)) by (rewrite (sd_attempts _ _ _ H2'); done).
  assert (C2 : h_client s2 = h_client s) by (rewrite (sd_client _ _ _ H2'); done).
  assert (B : 0 + 0 + MQTT_DNS_TO_MS <= ATTEMPT_MS) by (unfold ATTEMPT_MS, MQTT_DNS_TO_MS, MQTT_CONN_TO_MS, MQTT_PUB_TO_MS; lia).
  destruct ip as [ip|]; [|apply wp_ret, HQ; [by eapply attempted_mono|done|done|congruence]].
  apply wp_bind, ext_steady. intros s3 H3' _ _ _. pose proof (attempted_steady _ _ _ _ _ H2 H3') as H3.
  assert (N3 : attempts s3 = S (attempts s)) by (rewrite (sd_attempts _ _ _ H3'); done).
  assert (C3 : h_client s3 = h_client s) by (rewrite (sd_client _ _ _ H3'); done).
  destruct (negb _); [apply wp_ret, HQ; [eapply attempted_mono; [done|lia]|done|done|congruence]|].
  apply wp_bind, wp_modify. set (s4 := s3 <| h_client := true |>).
  assert (H4 : attempted (0 + 0 + MQTT_DNS_TO_MS + 0) s s4 /\ attempts s4 = S (attempts s) /\ h_client s4 = true).
  { subst s4. destruct H3 as [(E1 & E2 & E3 & E4) Hp Hs Hc]. split_and!; [|by rsimpl..]. split; unfold equipped; rsimpl; done. }
  destruct H4 as (H4 & N4 & C4). clearbody s4.
  apply wp_bind, connect_steady; [apply H4|]. intros ok s5 H5'. pose proof (attempted_steady _ _ _ _ _ H4 H5') as H5.
  assert (N5 : attempts s5 = S (attempts s)) by (rewrite (sd_attempts _ _ _ H5'); done).
  assert (C5 : h_client s5 = true) by (rewrite (sd_client _ _ _ H5'); done).
  destruct (negb ok); [apply wp_ret, HQ; [|done..]; eapply attempted_mono; [done|unfold ATTEMPT_MS, MQTT_PUB_TO_MS; lia]|].
  apply publish_steady; [apply H5|]. intros r s6 H6'. pose proof (attempted_steady _ _ _ _ _ H5 H6') as H6.
  apply HQ; [eapply attempted_mono; [done|unfold ATTEMPT_MS; lia]| |intros _; by rewrite (sd_client _ _ _ H6')..].
  by rewrite (sd_attempts _ _ _ H6').
Qed.

Lemma cleanup_spec s (Q : unit -> st -> Prop) : equipped s -> h_client s = true ->
  (forall s', attempted 0 s s' -> attempts s' = attempts s -> h_client s' = false -> Q tt s') -> wp (dispatch tcpip_mqtt_cleanup_cb) Q s.
Proof.
  intros He Hc HQ. unfold dispatch. apply wp_bind, wp_gets. rewrite (proj1 (proj2 He)). apply wp_bind, others_steady. intros s1 H1.
  apply wp_bind. unfold tcpip_mqtt_cleanup_cb, release. apply wp_bind, ext_steady. intros s2 H2 _ _ _. apply wp_bind, wp_gets.
  rewrite (sd_client _ _ _ H2), (sd_client _ _ _ H1), Hc. apply wp_modify. set (s3 := s2 <| h_client := false |>).
  pose proof (steady_trans _ _ _ _ _ H1 H2) as H12. pose proof (attempted_steady _ _ _ _ _ (attempted_refl s He) H12) as A2.
  assert (H3 : attempted (0 + (0 + 0)) s s3 /\ attempts s3 = attempts s /\ h_client s3 = false).
  { subst s3. pose proof (sd_attempts _ _ _ H12) as Hn. destruct A2 as [(E1 & E2 & E3 & E4) Hp Hs Hc']. split_and!; [|by rsimpl..]. split; unfold equipped; rsimpl; done. }
  destruct H3 as (A3 & N3 & C3). clearbody s3.
  apply wp_bind, others_steady. intros s4 H4. apply wp_ret, HQ.
  - by apply (attempted_steady _ _ _ _ _ A3 H4).
  - by rewrite (sd_attempts _ _ _ H4).
  - by rewrite (sd_client _ _ _ H4).
Qed.

(** The attempts: at most [tries], one of them at most a success, and no
    client left. *)
Lemma attempt_loop_spec tries c json : forall s (Q : unit -> st -> Prop), equipped s -> h_client s = false ->
  (forall s', equipped s' -> h_client s' = false -> stray_signals s' = stray_signals s ->
     (attempts s' <= attempts s + tries)%nat -> (published s <= published s' <= S (published s))%nat ->
     (published s' = published s -> attempts s' = attempts s + tries)%nat ->
     now_ms s <= now_ms s' <= now_ms s + Z.of_nat tries * (ATTEMPT_MS + MQTT_RETRY_MS) - MQTT_RETRY_MS \/ tries = O /\ s' = s -> Q tt s') ->
  wp (attempt_loop tries c json) Q s.
Proof.
  induction tries as [|tries IH]; intros s Q He Hc HQ; cbn [attempt_loop]; [apply wp_ret, HQ; try done; try lia; by right|].
  apply wp_bind, attempt_spec; [done|]. intros r s1 [He1 Hp1 Hs1 Hc1] Hn1 Hr _. destruct r.
  { apply wp_bind, wp_modify. set (s2 := s1 <| published ::= S |>).
    assert (He2 : equipped s2) by (subst s2; destruct He1 as (E1 & E2 & E3 & E4); unfold equipped; by rsimpl).
    apply cleanup_spec; [done|subst s2; rsimpl; by apply Hr|]. intros s3 [He3 Hp3 Hs3 Hc3] Hn3 Hcl3. subst s2. rsimpl.
    apply HQ; try done; try congruence; try lia.
    all: unfold ATTEMPT_MS, MQTT_DNS_TO_MS, MQTT_CONN_TO_MS, MQTT_PUB_TO_MS, MQTT_RETRY_MS in *; lia. }
  apply wp_bind, wp_gets, wp_bind.
  assert (Hnext : forall s2, attempted ATTEMPT_MS s s2 -> attempts s2 = S (attempts s) -> h_client s2 = false ->
    wp (when (negb (Nat.eqb tries 0)) (modify (fun s => s <| now_ms ::= fun n => n + MQTT_RETRY_MS |>);; others_run);; attempt_loop tries c json) Q s2).
  { intros s2 [He2 Hp2 Hs2 Hc2] Hn2 Hcl2. apply wp_bind, wp_when; intros Ht.
    - apply wp_bind, wp_modify, others_steady. intros s3 H3. apply negb_true_iff, Nat.eqb_neq in Ht.
      assert (He3 : equipped s3).
      { eapply equipped_steady; [|exact H3]. destruct He2 as (E1 & E2 & E3 & E4). unfold equipped. by rsimpl. }
      destruct H3 as [? ? ? ? Hcl3 Hn3 Hp3 Hs3 Hc3]. rsimpl. apply IH; [done|congruence|]. intros s4 He4 Hcl4 Hs4 Hn4 Hp4 Hall Hc4.
      rewrite Hs3 in Hs4 by apply He2. apply HQ; try done; try congruence; try lia.
      all: unfold MQTT_RETRY_MS in *; destruct Hc4 as [Hc4|[-> _]]; [lia|done].
    - apply negb_false_iff, Nat.eqb_eq in Ht. subst tries. cbn [attempt_loop]. apply wp_ret, HQ; try done; try congruence; try lia.
      all: unfold MQTT_RETRY_MS; lia. }
  destruct (h_client s1) eqn:Ecl; cbn [when].
  - apply cleanup_spec; [done|done|]. intros s2 [He2 Hp2 Hs2 Hc2] Hn2 Hcl2. apply Hnext; [|congruence|done]. split; try done; try congruence. lia.
  - apply wp_ret, Hnext; [|done|done]. by split.
Qed.
Lemma wp_alloc s (Q : bool -> st -> Prop) : (forall b w, Q b (s <| world := w |>)) -> wp (ext alloc_ok) Q s.
Proof. intros HQ. unfold wp, ext. destruct (alloc_ok (world s)) as [b w]. apply HQ. Qed.
Lemma wp_release (held : st -> bool) put s (Q : unit -> st -> Prop) : held s = true -> Q tt (put false s) -> wp (release held put) Q s.
Proof. intros Hh HQ. unfold release. apply wp_bind, wp_gets. by rewrite Hh. Qed.
Lemma wp_sem_free s (Q : unit -> st -> Prop) : is_Some (sem s) -> Q tt (s <| sem := None |>) -> wp sem_free Q s.
Proof. intros [n Hn] HQ. unfold sem_free. apply wp_bind, wp_gets. by rewrite Hn. Qed.
End SendProofs.

(** Nothing of a report is held. *)
Definition unequipped {W} (s : tele W) : Prop := h_tree s = false /\ h_text s = false /\ sem s = None /\ h_dispatch s = false /\ h_client s = false.

(** C39: sending a report always ends, within 64 seconds of waiting, whatever
    lwIP answers, whichever allocation fails, and whichever callbacks arrive
    at which moment, those of an earlier attempt included; it makes at most
    three attempts, stops after the first success, and releases the JSON
    tree, its text, both semaphores and every MQTT client it made, each
    exactly once, on every path. *)
Theorem telemetry_send_ends {W} `{MqttEnv W} (c : telemetry_config) (json : list Z) (s : tele W) :
  unequipped s ->
  exists s', telemetry_send c json s = Some (tt, s') /\ unequipped s' /\ stray_signals s' = stray_signals s /\
    (attempts s' <= attempts s + 3)%nat /\ (published s <= published s' <= S (published s))%nat /\
    now_ms s <= now_ms s' <= now_ms s + 64000.
Proof.
  intros (U1 & U2 & U3 & U4 & U5).
  set (Q := fun (_ : unit) (s' : tele W) => unequipped s' /\ stray_signals s' = stray_signals s /\ (attempts s' <= attempts s + 3)%nat /\
    (published s <= published s' <= S (published s))%nat /\ now_ms s <= now_ms s' <= now_ms s + 64000).
  assert (Hw : wp (telemetry_send c json) Q s); [|apply wp_elim in Hw as ([] & s' & E & HQ); by exists s'].
  unfold telemetry_send, free_tree, free_text, free_dispatch. destruct (_ || _ || _).
  { apply wp_ret. split_and!; try done; lia. }
  apply wp_bind, wp_alloc. intros [] w1; cbn [negb]; [|apply wp_ret; unfold Q, unequipped; rsimpl; split_and!; try done; lia].
  apply wp_bind, wp_modify, wp_bind, wp_alloc. intros [] w2; cbn [negb];
    [|apply wp_release; [by rsimpl|]; unfold Q, unequipped; rsimpl; split_and!; try done; lia].
  apply wp_bind, wp_modify, wp_bind, wp_alloc. intros [] w3; cbn [negb];
    [|apply wp_bind, wp_release; [by rsimpl|]; apply wp_release; [by rsimpl|]; unfold Q, unequipped; rsimpl; split_and!; try done; lia].
  apply wp_bind, wp_modify, wp_bind, wp_alloc. intros [] w4; cbn [negb];
    [|apply wp_bind, wp_sem_free; [by rsimpl|]; apply wp_bind, wp_release; [by rsimpl|]; apply wp_release; [by rsimpl|];
      unfold Q, unequipped; rsimpl; split_and!; try done; lia].
  apply wp_bind, wp_modify, wp_bind. set (s1 := _ <| h_dispatch := true |>).
  assert (E1 : equipped s1 /\ h_client s1 = false /\ stray_signals s1 = stray_signals s /\ attempts s1 = attempts s /\ published s1 = published s /\ now_ms s1 = now_ms s).
  { subst s1. unfold equipped. rsimpl. split_and!; try done; by eexists. }
  destruct E1 as (He1 & Hc1 & Hs1 & Hn1 & Hp1 & Ht1). clearbody s1.
  apply attempt_loop_spec; [done|done|]. intros s2 (E1 & E2 & E3 & E4) Hc2 Hs2 Hn2 Hp2 _ Ht2.
  apply wp_bind, wp_release; [done|]. apply wp_bind, wp_sem_free; [by rsimpl|]. apply wp_bind, wp_release; [by rsimpl|]. apply wp_release; [by rsimpl|].
  unfold Q, unequipped. rsimpl. rewrite Hs1 in Hs2. rewrite Hn1 in Hn2. rewrite Hp1 in Hp2. rewrite Ht1 in Ht2.
  split_and!; try done; try (unfold MQTT_RETRIES in Hn2; lia); (destruct Ht2 as [Ht2|[Ht2 _]]; [|discriminate Ht2]);
    unfold MQTT_RETRIES, ATTEMPT_MS, MQTT_DNS_TO_MS, MQTT_CONN_TO_MS, MQTT_PUB_TO_MS, MQTT_RETRY_MS in Ht2; lia.
Qed.

(** A server that answers as scripted: one entry a wait. *)
Definition script : Type := list (option (Z * callback)).
#[export] Instance script_env : MqttEnv script := {
  ipaddr_aton _ := None;
  dns_gethostbyname _ w := (ERR_INPROGRESS, 0, w);
  mqtt_client_new w := (true, w);
  mqtt_client_connect _ _ w := (ERR_OK, w);
  mqtt_publish _ _ w := (ERR_OK, w);
  mqtt_cleanup w := w;
  alloc_ok w := (true, w);
  wait_arrival _ w := match w with [] => (None, []) | a :: w => (a, w) end;
  arrivals w := ([], w);
}.
Definition tele_start (w : script) : tele script := mk_tele false 0 0 0 false false None false false 0 0 0 0 w.
Definition tlm_on : telemetry_config := telemetry_config_set_default None <| enabled := 1 |>.
Definition answers : script := [Some (100, DnsCb (Some 7)); Some (200, ConnCb MQTT_CONNECT_ACCEPTED); Some (100, PubCb ERR_OK)].

Lemma telemetry_send_ends_witness :
  unequipped (tele_start answers) /\
  exists s', telemetry_send tlm_on (str "{}") (tele_start answers) = Some (tt, s') /\ unequipped s' /\
    stray_signals s' = stray_signals (tele_start answers) /\ (attempts s' <= 0 + 3)%nat /\ (0 <= published s' <= 1)%nat /\ 0 <= now_ms s' <= 0 + 64000.
Proof.
  assert (U : unequipped (tele_start answers)) by (split_and!; reflexivity).
  split; [exact U|]. apply (telemetry_send_ends tlm_on (str "{}") (tele_start answers)). exact U.
Defined.
(** The report of this script goes out at the first attempt, in 400 ms. *)
Lemma answered_report_published :
  (fun r => let s := r.2 in (attempts s, published s, now_ms s)) <$> telemetry_send tlm_on (str "{}") (tele_start answers) = Some (1%nat, 1%nat, 400).
Proof. vm_compute. reflexivity. Qed.
(** The answer to the first attempt's query comes late, while the second
    waits for its connection: the second fails although it is then accepted,
    and that acceptance ends the third one's query. *)
Definition late_answers : script :=
  [None; Some (50, DnsCb (Some 7)); Some (60, DnsCb None); Some (70, ConnCb MQTT_CONNECT_ACCEPTED); Some (80, ConnCb MQTT_CONNECT_DISCONNECTED)].
Lemma late_answer_spoils_attempts :
  (fun r => let s := r.2 in (attempts s, published s)) <$> telemetry_send tlm_on (str "{}") (tele_start late_answers) = Some (3%nat, 0%nat).
Proof. vm_compute. reflexivity. Qed.
(** A query that outlives the report signals a semaphore that is gone. *)
Lemma late_answer_signals_freed :
  (fun r => stray_signals (run_callback (DnsCb None) r.2)) <$> telemetry_send tlm_on (str "{}") (tele_start [None; None; None]) = Some 1%nat.
Proof. vm_compute. reflexivity. Qed.

(** ** Settings: limits *)

Definition tlm_in_range (c : telemetry_config) : Prop :=
  (enabled c = 0 \/ enabled c = 1) /\ 1 <= send_period_s c <= 604800 /\ 0 <= direction c <= 359 /\ 1024 <= port c /\
  f32_outside (latitude c) F32_90 = false /\ f32_outside (longitude c) F32_180 = false /\
  Forall (fun s => length (cstr s) <= 31)%nat [domain c; username c; password c; topic c; nodename c].
Lemma cstr_terminated s : (length (cstr (terminate s)) <= 31)%nat.
Proof.
  unfold terminate. assert (Hg : forall a : list Z, Nat.le (length (cstr (a ++ [0]))) (length a)).
  { intros a. induction a as [|x a IH]; [cbn; lia|]. unfold cstr in *. cbn [app length]. destruct (x =? 0); cbn [length]; lia. }
  etransitivity; [apply Hg|]. rewrite length_take. lia.
Qed.
Lemma f32_reset x lim : 0 <= lim -> f32_outside (if f32_outside x lim then 0 else x) lim = false.
Proof. intros Hl. destruct (f32_outside x lim) eqn:E; [|done]. unfold f32_outside. cbn. by rewrite (proj2 (Z.ltb_ge _ _)). Qed.
Lemma telemetry_sanitize_in_range c : tlm_in_range (telemetry_config_sanitize c).
Proof.
  unfold telemetry_config_sanitize. destruct (direction c <? 0) eqn:E1; [|destruct (359 <? direction c) eqn:E2];
    [change (359 <? 0) with false| |]; cbv iota beta zeta; try rewrite E2;
    unfold tlm_in_range; cbn [enabled send_period_s direction port latitude longitude domain username password topic nodename];
    bools_to_props; split_and!; try lia;
    try (repeat (apply Forall_cons; split; [apply cstr_terminated|]); by apply Forall_nil);
    try (by apply f32_reset); repeat z_case; try lia; auto.
Qed.
(** The next report is due within a week. *)
Lemma telemetry_next_bound {D} `{Kvdb D} hostname (d : D) t : telemetry_next hostname d = Some t -> 1000 <= t <= 604800000.
Proof.
  unfold telemetry_next, telemetry_config_load. cbv zeta. match goal with |- context [telemetry_config_sanitize ?c] => generalize c end.
  intros c. pose proof (telemetry_sanitize_in_range c) as (_ & Hp & _). destruct (negb _); [|done]. intros [= <-]. rewrite u32_small by (unfold is_u32; lia). lia.
Qed.
