(* ===== verification/Node.v ===== *)
(** * The node: [main.c] and [mac_generator.c]

    The address the node sends under, the handler of received frames, which
    feeds the load meter, the table of nearby modems and the frame switch,
    the way of TCP bytes to the stream decoder, and the button held at boot. *)

From S2P Require Import Prelude Monad StreamParser LinkParser LinkDb ConfigDb Lwrb AckWire AckPeer AckState AckRate.
From S2P Require Import AckConfig AckTx AckRx AckTick AckInv AckQuiet AckSafe AckSafeTx AckSafeRx AckSafeTick AckOps AckProps PkgHandler PkgProps Chload Lbt Nearby.
From stdpp Require Import strings.

#[local] Open Scope Z_scope.

(** ** The node's address *)

Definition OS_MS_PERIOD_TICK : Z := 1000 / 1000.

Record mac_generator_config := mk_privacy { rotation_minutes : Z; broadcast_mac : Z }.
Record mac_gen := mk_macgen {
  g_cfg : mac_generator_config; g_wmac : list Z; g_efuse : list Z; g_rot_next_ms : Z; loaded : bool }.
#[export] Instance eta_mac_gen : Eta mac_gen := fun s =>
  mk_macgen (g_cfg s) (g_wmac s) (g_efuse s) (g_rot_next_ms s) (loaded s).

(** [s = s * 1103515245 + 12345 + g_efuse[i]], a byte of it a time. *)
Fixpoint random_bytes (s : Z) (efuse : list Z) : list Z :=
  match efuse with
  | [] => []
  | e :: efuse => let s := u32 (s * 1103515245 + 12345 + e) in u8 (Z.shiftr s 16) :: random_bytes s efuse
  end.
Definition gen_random_mac (jiffies : Z) (efuse : list Z) : list Z :=
  match random_bytes (u32 jiffies) efuse with
  | m0 :: mac => Z.lor (Z.land m0 0xFC) 2 :: mac
  | [] => []
  end.

Section Mac.
Context {D : Type} `{Kvdb D}.
(** Whether the settings' scratch [os_malloc] succeeds. *)
Variable tmp_ok : bool.

Definition load_or_create_wmac (jiffies : Z) (efuse mac : list Z) (d : D) : list Z * D :=
  let '(rc, b) := configdb_get_blob (Some "cfg.privacy.wmac") (Some mac) d in
  let mac := default mac b in
  if (rc =? 0) && existsb (fun x => negb (x =? 0)) mac then (mac, d)
  else
    let mac := gen_random_mac jiffies efuse in
    (mac, (configdb_set_blob tmp_ok (Some "cfg.privacy.wmac") (Some mac) d).2).

(** [efuse]: [sysctrl_efuse_mac_addr_calc]. *)
Definition get_mac (efuse : list Z) (s : mac_gen) : list Z * mac_gen :=
  let s := if negb (loaded s) then s <| g_efuse := efuse |> <| loaded := true |> else s in
  (g_efuse s, s).

Definition mac_generator_config_load (d : D) : mac_generator_config :=
  mk_privacy (get_u16 "cfg.privacy.rot" d 0) (get_u8 "cfg.privacy.bc" d 0).
Definition mac_generator_config_save (c : mac_generator_config) (d : D) : D :=
  let d := (configdb_set_i16 "cfg.privacy.rot" (Some (i16 (rotation_minutes c))) d).2 in
  (configdb_set_i8 "cfg.privacy.bc" (Some (i8 (broadcast_mac c))) d).2.
Definition mac_generator_config_apply (jiffies : Z) (c : mac_generator_config) (s : mac_gen) (d : D) : mac_gen * D :=
  let s := s <| g_cfg := c |> in
  let '(m, d) := load_or_create_wmac jiffies (g_efuse s) (g_wmac s) d in
  (s <| g_wmac := m |> <| g_rot_next_ms := 0 |>, d).
Definition mac_generator_init (efuse : list Z) (jiffies : Z) (s : mac_gen) (d : D) : mac_gen * D :=
  let '(m, s) := get_mac efuse s in
  let s := s <| g_efuse := m |> <| g_cfg := mac_generator_config_load d |> in
  let '(m, d) := load_or_create_wmac jiffies (g_efuse s) (g_wmac s) d in
  (s <| g_wmac := m |> <| g_rot_next_ms := 0 |>, d).
End Mac.

(** [j1], [j2]: the two readings of [os_jiffies]. *)
Definition mac_generator_get (j1 j2 : Z) (s : mac_gen) : list Z * mac_gen :=
  if negb (broadcast_mac (g_cfg s) =? 0) then (replicate 6 0xFF, s)
  else
    let s :=
      if negb (rotation_minutes (g_cfg s) =? 0) then
        let now := u32 (j1 * OS_MS_PERIOD_TICK) in
        if g_rot_next_ms s <=? now then
          s <| g_wmac := gen_random_mac j2 (g_efuse s) |>
            <| g_rot_next_ms := u32 (now + u32 (rotation_minutes (g_cfg s) * 60000)) |>
        else s
      else s in
    (g_wmac s, s).

(** ** Received frames *)

Definition RX_CAP_N : Z := 8.
Record node (W : Type) := mk_node {
  lbt_of : lbt;                      (* with the load meter *)
  nearby : nearby_db;
  privacy : mac_gen;
  rx_leds : Z;                       (* flashes of the receive LED *)
  g_rx_cls_internal : Z;
  g_rx_cls_notmine : Z;
  g_rx_cls_data : Z;
  g_rx_cap : list (list Z);
  g_rx_cap_wr : Z;
  pkg : pkg_state W;
}.
Arguments mk_node {_}. Arguments lbt_of {_}. Arguments nearby {_}. Arguments privacy {_}. Arguments rx_leds {_}. Arguments g_rx_cls_internal {_}.
Arguments g_rx_cls_notmine {_}. Arguments g_rx_cls_data {_}. Arguments g_rx_cap {_}. Arguments g_rx_cap_wr {_}. Arguments pkg {_}.
#[export] Instance eta_node W : Eta (node W) := fun s =>
  mk_node (lbt_of s) (nearby s) (privacy s) (rx_leds s) (g_rx_cls_internal s) (g_rx_cls_notmine s) (g_rx_cls_data s)
    (g_rx_cap s) (g_rx_cap_wr s) (pkg s).

(** The fields of [hgic_rx_info] and [ieee80211_hdr] the handler reads. *)
Record rx_info := mk_rxi { i_mcs : Z; i_evm : Z; i_signal : Z }.
Record rx_hdr := mk_hdr { addr2 : list Z; addr3 : list Z }.

Section Rx.
Context {W : Type} `{AckEnv W} `{PkgEnv W}.
#[local] Abbreviation st := (node W).
(** See [PkgHandler]; [int_oob]: see [Nearby]. *)
Variable others : option nat -> ack_state W -> ack_state W.
Variable db_others : link_db -> link_db.
Variables shl_oob int_oob : Z -> Z.
Variable sha256 : list Z -> list Z.
Variable stack_info : packet_info.

Definition rx_forensics_capture (hdr : rx_hdr) (data : list Z) : M st unit := fun s =>
  let idx := g_rx_cap_wr s mod RX_CAP_N in
  slot ← rd (g_rx_cap s) idx;
  slot ← wr_n slot 0 (addr2 hdr);
  slot ← wr_n slot 6 (take 10 data);
  cap ← wr (g_rx_cap s) idx slot;
  Some (tt, s <| g_rx_cap := cap |> <| g_rx_cap_wr ::= fun n => u32 (n + 1) |>).

Definition on_pkg {A} (m : M (pkg_state W) A) : M st A := fun s =>
  match m (pkg s) with Some (a, k) => Some (a, s <| pkg := k |>) | None => None end.

(** [time_s]: [time(NULL)]; [None]: no data. *)
Definition halow_rx_handler (time_s j1 j2 : Z) (info : rx_info) (hdr : rx_hdr) (data : option (list Z)) : M st unit :=
  match data with
  | None => mret tt
  | Some data =>
      if blen data <=? 0 then mret tt
      else
        let len := u16 (blen data) in
        let data := take (Z.to_nat len) data in
        l ← gets lbt_of;
        ch ← lift (halow_chload_note_rx len (i_mcs info) (chload l));
        modify (fun s => s <| lbt_of ::= fun l => l <| chload := ch |> |>);;
        l ← gets lbt_of;
        let modem_pkg_info := mk_pkg (addr2 hdr) len (i_mcs info) (i_signal info)
          (i8 (i_signal info - halow_lbt_background_short_dbm_get l)) (u32 time_s) in
        (if negb (halow_ack_is_internal_frame data) then
           d ← gets nearby;
           d ← lift (nearby_modem_package_register int_oob modem_pkg_info d);
           modify (fun s => s <| nearby := d |> <| rx_leds ::= fun n => n + 1 |>)
         else
           rx_forensics_capture hdr data;;
           modify (fun s => s <| g_rx_cls_internal ::= fun n => u32 (n + 1) |>));;
        my_mac ← gets (fun s => (mac_generator_get j1 j2 (privacy s)).1);
        modify (fun s => s <| privacy := (mac_generator_get j1 j2 (privacy s)).2 |>);;
        if negb (bool_decide (addr3 hdr = mac_broadcast)) && negb (bool_decide (addr3 hdr = my_mac)) then
          rx_forensics_capture hdr data;;
          modify (fun s => s <| g_rx_cls_notmine ::= fun n => u32 (n + 1) |>)
        else
          modify (fun s => s <| g_rx_cls_data ::= fun n => u32 (n + 1) |>);;
          on_pkg (halow_pkg_handler_rf_to_tcp others db_others shl_oob sha256 stack_info data (addr2 hdr)
                    (Some (addr3 hdr)) (i_evm info))
  end.
End Rx.

(** ** TCP bytes to the stream decoder *)

(** The result, [*consumed], the decoder and the rest of the firmware. *)
Definition tcp_to_halow_send {W} (on_frame : option (list Z -> W -> Z * list Z * W)) (data : option (list Z)) (d : decoder) (w : W)
  : option (Z * Z * decoder * W) :=
  match data with
  | None => Some (-100, 0, d, w)
  | Some data =>
      if blen data =? 0 then Some (-200, 0, d, w)
      else rns_stream_decoder_process on_frame d (take (Z.to_nat (u16 (blen data))) data) w
  end.

(** ** Boot *)

(** [None]: the signed counter overflows. *)
Definition boot_counter_update {D} `{Kvdb D} (d : D) : option (Z * D) :=
  let n := default 0 (configdb_get_i32 "pwr_on_cnt" (Some 0) d).2 in
  if n =? 2 ^ 31 - 1 then None
  else Some (n + 1, (configdb_set_i32 "pwr_on_cnt" (Some (n + 1)) d).2).

Inductive boot_mode := BootNormal | BootRecovery | BootFactoryReset.

(** What is seen of a boot: the steps of the main LED. *)
Record boot_button := mk_boot { t_ms : Z; led : bool; led_log : list bool }.
(** A pass of [while (button_get())]; [inl]: recovery mode. *)
Definition button_pass (s : boot_button) : boot_button + boot_button :=
  let t := t_ms s + 50 in
  let s :=
    if (3000 <=? t) && (t <? 10000)
    then mk_boot (t + 100) (negb (led s)) (led_log s ++ [negb (led s)])
    else mk_boot t (led s) (led_log s) in
  if 10000 <=? t_ms s then inl (mk_boot (t_ms s) (led s) (led_log s ++ [true])) else inr s.
(** The readings of the button, one a pass; [None]: more are needed. *)
Fixpoint button_loop (readings : list bool) (s : boot_button) : option (boot_mode * boot_button) :=
  match readings with
  | [] => None
  | false :: _ =>
      let s := mk_boot (t_ms s) (led s) (led_log s ++ [false]) in
      Some (if (3000 <=? t_ms s) && (t_ms s <? 10000) then BootFactoryReset else BootNormal, s)
  | true :: readings =>
      match button_pass s with
      | inl s => Some (BootRecovery, s)
      | inr s => button_loop readings s
      end
  end.
Definition boot_recovery_check (readings : list bool) : option (boot_mode * boot_button) :=
  match readings with
  | [] => None
  | false :: _ => Some (BootNormal, mk_boot 0 false [])
  | true :: readings => button_loop readings (mk_boot 0 false [])
  end.

(** ** The address: shape and rotation *)

Lemma random_bytes_ok efuse : forall s, length (random_bytes s efuse) = length efuse /\ is_bytes (random_bytes s efuse).
Proof.
  induction efuse as [|e efuse IH]; intros s; cbn [random_bytes]; [split; [done|constructor]|].
  destruct (IH (u32 (s * 1103515245 + 12345 + e))) as [Hl Hb]. split; [cbn; by rewrite Hl|].
  apply Forall_cons. split; [apply u8_range|done].
Qed.
Lemma first_byte_local b : is_u8 b -> is_u8 (Z.lor (Z.land b 0xFC) 2) /\ Z.land (Z.lor (Z.land b 0xFC) 2) 3 = 2.
Proof.
  intros Hb. assert (Hall : forallb (fun b => bool_decide (is_u8 (Z.lor (Z.land b 0xFC) 2) /\ Z.land (Z.lor (Z.land b 0xFC) 2) 3 = 2)) (seqZ 0 256) = true)
    by (vm_compute; reflexivity).
  rewrite forallb_forall in Hall. eapply bool_decide_eq_true, Hall, list_elem_of_In, elem_of_seqZ. unfold is_u8 in Hb. lia.
Qed.
(** A generated address is six bytes, unicast and locally administered. *)
Definition local_mac (m : list Z) : Prop := mac_ok m /\ exists b r, m = b :: r /\ Z.land b 3 = 2.
Lemma gen_random_mac_ok jiffies efuse : length efuse = 6%nat -> local_mac (gen_random_mac jiffies efuse).
Proof.
  intros Hl. unfold gen_random_mac. destruct (random_bytes_ok efuse (u32 jiffies)) as [Hl' Hb]. rewrite Hl in Hl'.
  destruct (random_bytes (u32 jiffies) efuse) as [|b r]; [done|]. apply Forall_cons in Hb as [Hb Hr].
  destruct (first_byte_local b Hb) as [H1 H2]. split; [split; [done|by apply Forall_cons]|]. by exists (Z.lor (Z.land b 0xFC) 2), r.
Qed.

Definition rotating (s : mac_gen) : Prop :=
  broadcast_mac (g_cfg s) = 0 /\ 0 < rotation_minutes (g_cfg s) < 2 ^ 16 /\ is_u32 (g_rot_next_ms s).
Lemma mac_get_kept j1 j2 s : rotating s -> u32 j1 < g_rot_next_ms s -> mac_generator_get j1 j2 s = (g_wmac s, s).
Proof.
  intros (Hb & Hr & _) Hn. unfold mac_generator_get. rewrite Hb, Z.eqb_refl. cbn [negb].
  replace (rotation_minutes (g_cfg s) =? 0) with false by (symmetry; apply Z.eqb_neq; lia). cbn [negb].
  change OS_MS_PERIOD_TICK with 1. rewrite Z.mul_1_r. by rewrite (proj2 (Z.leb_gt _ _)).
Qed.
Lemma mac_get_rotated j1 j2 s : rotating s -> g_rot_next_ms s <= u32 j1 ->
  let '(m, s') := mac_generator_get j1 j2 s in
  m = gen_random_mac j2 (g_efuse s) /\ g_wmac s' = m /\ g_cfg s' = g_cfg s /\ g_efuse s' = g_efuse s /\
  g_rot_next_ms s' = u32 (u32 j1 + rotation_minutes (g_cfg s) * 60000) /\ rotating s'.
Proof.
  intros (Hb & Hr & _) Hn. unfold mac_generator_get. rewrite Hb, Z.eqb_refl. cbn [negb].
  replace (rotation_minutes (g_cfg s) =? 0) with false by (symmetry; apply Z.eqb_neq; lia). cbn [negb].
  change OS_MS_PERIOD_TICK with 1. rewrite Z.mul_1_r, (proj2 (Z.leb_le _ _)) by done. unfold rotating. rsimpl.
  rewrite (u32_small (rotation_minutes (g_cfg s) * 60000)) by (unfold is_u32; lia). split_and!; auto; try done; try lia; apply u32_range.
Qed.
(** Within the period the address stays, unless the clock wraps. *)
Lemma mac_rotation_period j1 j2 s : rotating s -> g_rot_next_ms s <= u32 j1 -> u32 j1 + rotation_minutes (g_cfg s) * 60000 < 2 ^ 32 ->
  let '(m, s') := mac_generator_get j1 j2 s in
  forall k1 k2, u32 j1 <= u32 k1 < u32 j1 + rotation_minutes (g_cfg s) * 60000 -> mac_generator_get k1 k2 s' = (m, s').
Proof.
  intros Hr Hn Hw. pose proof (mac_get_rotated j1 j2 s Hr Hn) as H. destruct (mac_generator_get j1 j2 s) as [m s'].
  destruct H as (Hm & <- & Hc & He & Hnx & Hr'). intros k1 k2 Hk. apply mac_get_kept; [done|]. rewrite Hnx.
  destruct Hr as (_ & Hp & _). pose proof (u32_range j1) as Hu. rewrite (u32_small (_ + _)) by (unfold is_u32 in *; lia). lia.
Qed.
(** In the last period before the clock wraps, every request makes a new
    address. *)
Lemma mac_rotation_wrap j1 j2 s k1 k2 : rotating s -> g_rot_next_ms s <= u32 j1 -> 2 ^ 32 <= u32 j1 + rotation_minutes (g_cfg s) * 60000 ->
  u32 j1 <= u32 k1 ->
  (mac_generator_get k1 k2 (mac_generator_get j1 j2 s).2).1 = gen_random_mac k2 (g_efuse s).
Proof.
  intros Hr Hn Hw Hk. pose proof (mac_get_rotated j1 j2 s Hr Hn) as H. destruct (mac_generator_get j1 j2 s) as [m s'].
  destruct H as (Hm & _ & Hc & He & Hnx & Hr'). cbn [snd].
  pose proof (mac_get_rotated k1 k2 s' Hr') as H. destruct (mac_generator_get k1 k2 s') as [m' s'']. cbn [fst].
  destruct H as (-> & _); [|by rewrite He]. rewrite Hnx. destruct Hr as (_ & Hp & _). pose proof (u32_range j1) as Hu. unfold is_u32 in Hu.
  unfold u32 at 1. rewrite <- (Z_mod_plus_full _ (-1)). rewrite Z.mod_small by lia. lia.
Qed.

(** ** The button *)

Lemma button_loop_app l rest : forall s r, button_loop l s = Some r -> button_loop (l ++ rest) s = Some r.
Proof.
  induction l as [|b l IH]; intros s r; [done|]. cbn [button_loop app]. destruct b; [|done]. destruct (button_pass s); [done|apply IH].
Qed.
(** How long the button was held decides: [n] more readings of it pressed
    after the first; whatever follows is not read. *)
Lemma boot_button_modes n rest :
  (n < 60)%nat -> fst <$> boot_recovery_check (true :: replicate n true ++ false :: rest) = Some BootNormal.
Proof.
  intros Hn. assert (Hall : forallb (fun n => match button_loop (replicate n true ++ [false]) (mk_boot 0 false []) with Some (BootNormal, _) => true | _ => false end) (seq 0 60) = true)
    by (vm_compute; reflexivity).
  rewrite forallb_forall in Hall. specialize (Hall n ltac:(apply in_seq; lia)). cbn [boot_recovery_check].
  destruct (button_loop (replicate n true ++ [false]) _) as [[[] b]|] eqn:E; try done.
  apply (button_loop_app _ rest) in E. rewrite <- app_assoc in E. cbn [app] in E. by rewrite E.
Qed.
Lemma boot_button_reset n rest :
  (60 <= n < 106)%nat -> fst <$> boot_recovery_check (true :: replicate n true ++ false :: rest) = Some BootFactoryReset.
Proof.
  intros Hn. assert (Hall : forallb (fun n => match button_loop (replicate n true ++ [false]) (mk_boot 0 false []) with Some (BootFactoryReset, _) => true | _ => false end) (seq 60 46) = true)
    by (vm_compute; reflexivity).
  rewrite forallb_forall in Hall. specialize (Hall n ltac:(apply in_seq; lia)). cbn [boot_recovery_check].
  destruct (button_loop (replicate n true ++ [false]) _) as [[[] b]|] eqn:E; try done.
  apply (button_loop_app _ rest) in E. rewrite <- app_assoc in E. cbn [app] in E. by rewrite E.
Qed.
Lemma boot_button_recovery rest : fst <$> boot_recovery_check (true :: replicate 106 true ++ rest) = Some BootRecovery.
Proof. cbn [boot_recovery_check]. erewrite button_loop_app; [|vm_compute; reflexivity]. done. Qed.

(** ** Received frames: who gets them *)

Definition cap_ok (cap : list (list Z)) : Prop := length cap = 8%nat /\ Forall (fun slot => length slot = 16%nat) cap.

Section Handled.
Context {W : Type} `{AckEnv W} `{Kvdb W} `{PkgEnv W} (submitted : list Z -> list Z -> Prop) (P : W -> Prop).
Context `{!WorldOk submitted P} `{!StoreOk P} `{!PkgOk P} (K : nat -> Prop).
Context (others : option nat -> ack_state W -> ack_state W) (db_others : link_db -> link_db) (shl_oob int_oob : Z -> Z).
Context (sha256 : list Z -> list Z) (stack_info : packet_info).

Record node_ok (s : node W) : Prop := {
  no_nearby : nearby_ok (nearby s);
  no_cap : cap_ok (g_rx_cap s);
  no_cap_wr : is_u32 (g_rx_cap_wr s);
  no_ack : Inv submitted P (ack (pkg s));
  no_db : db_ok (g_link_db (pkg s));
}.

Lemma wp_capture hdr d s (Q : unit -> node W -> Prop) : cap_ok (g_rx_cap s) -> length (addr2 hdr) = 6%nat ->
  (forall cap, cap_ok cap -> Q tt (s <| g_rx_cap := cap |> <| g_rx_cap_wr ::= fun n => u32 (n + 1) |>)) ->
  wp (rx_forensics_capture hdr d) Q s.
Proof using Type.
  intros [Hl Hs] Ha HQ. unfold wp, rx_forensics_capture. set (idx := g_rx_cap_wr s mod RX_CAP_N).
  assert (Hi : 0 <= idx < 8) by (subst idx; apply Z.mod_pos_bound; done).
  destruct (rd_in_bounds (g_rx_cap s) idx) as (slot & -> & Hslot); [lia|]. cbn [mbind option_bind].
  assert (Hls : length slot = 16%nat) by (rewrite Forall_forall in Hs; eapply Hs, list_elem_of_lookup_2; eauto).
  destruct (wr_n slot 0 (addr2 hdr)) as [sl1|] eqn:E1; [|rewrite wr_n_in_bounds in E1 by (cbn; lia); done].
  pose proof (wr_n_length _ _ _ _ E1) as L1. cbn [mbind option_bind].
  destruct (wr_n sl1 6 (take 10 d)) as [sl2|] eqn:E2; [|rewrite wr_n_in_bounds in E2 by (rewrite ?length_take; lia); done].
  pose proof (wr_n_length _ _ _ _ E2) as L2. cbn [mbind option_bind].
  rewrite wr_in_bounds by lia. cbn [mbind option_bind]. apply HQ. split; [by rewrite length_insert|].
  apply Forall_insert; [done|congruence].
Qed.

(** What the handler leaves, for the frame [d] cut to its 16-bit length. *)
Definition frame_handled (time_s j1 j2 : Z) (info : rx_info) (hdr : rx_hdr) (d : list Z) (s s' : node W) : Prop :=
  let my := mac_generator_get j1 j2 (privacy s) in
  privacy s' = my.2 /\
  (exists us, chload_rx_frame_us (blen d) (i_mcs info) = Some us /\
     lbt_of s' = lbt_of s <| chload := chload (lbt_of s) <| chload_rx_open_us ::= fun o => saturating_add o us |> |>) /\
  (if halow_ack_is_internal_frame d
   then nearby s' = nearby s /\ rx_leds s' = rx_leds s /\ g_rx_cls_internal s' = u32 (g_rx_cls_internal s + 1)
   else spec_register int_oob (mk_pkg (addr2 hdr) (blen d) (i_mcs info) (i_signal info)
                         (i8 (i_signal info - halow_lbt_background_short_dbm_get (lbt_of s))) (u32 time_s))
          (as_map (nearby s)) (as_map (nearby s')) /\
        rx_leds s' = rx_leds s + 1 /\ g_rx_cls_internal s' = g_rx_cls_internal s) /\
  (if bool_decide (addr3 hdr = mac_broadcast \/ addr3 hdr = my.1)
   then halow_pkg_handler_rf_to_tcp others db_others shl_oob sha256 stack_info d (addr2 hdr) (Some (addr3 hdr)) (i_evm info) (pkg s)
          = Some (tt, pkg s') /\
        g_rx_cls_data s' = u32 (g_rx_cls_data s + 1) /\ g_rx_cls_notmine s' = g_rx_cls_notmine s
   else pkg s' = pkg s /\ g_rx_cls_data s' = g_rx_cls_data s /\ g_rx_cls_notmine s' = u32 (g_rx_cls_notmine s + 1)).
(** The first half: the meter, and the neighbours or the capture. *)
Record first_half (time_s : Z) (info : rx_info) (hdr : rx_hdr) (d : list Z) (s s1 : node W) : Prop := {
  fh_lbt : exists us, chload_rx_frame_us (blen d) (i_mcs info) = Some us /\
     lbt_of s1 = lbt_of s <| chload := chload (lbt_of s) <| chload_rx_open_us ::= fun o => saturating_add o us |> |>;
  fh_class : if halow_ack_is_internal_frame d
    then nearby s1 = nearby s /\ rx_leds s1 = rx_leds s /\ g_rx_cls_internal s1 = u32 (g_rx_cls_internal s + 1)
    else spec_register int_oob (mk_pkg (addr2 hdr) (blen d) (i_mcs info) (i_signal info)
                         (i8 (i_signal info - halow_lbt_background_short_dbm_get (lbt_of s))) (u32 time_s))
          (as_map (nearby s)) (as_map (nearby s1)) /\
        rx_leds s1 = rx_leds s + 1 /\ g_rx_cls_internal s1 = g_rx_cls_internal s;
  fh_privacy : privacy s1 = privacy s;
  fh_pkg : pkg s1 = pkg s;
  fh_data : g_rx_cls_data s1 = g_rx_cls_data s;
  fh_notmine : g_rx_cls_notmine s1 = g_rx_cls_notmine s;
  fh_ok : node_ok s1;
}.
Lemma wp_first_half {B} time_s info hdr d s (k : unit -> M (node W) B) (Q : B -> node W -> Prop) :
  node_ok s -> length (addr2 hdr) = 6%nat -> is_u16 (blen d) -> is_u8 (i_mcs info) ->
  (forall s1, first_half time_s info hdr d s s1 -> wp (k tt) Q s1) ->
  wp (l ← gets lbt_of;
      ch ← lift (halow_chload_note_rx (blen d) (i_mcs info) (chload l));
      modify (fun s => s <| lbt_of ::= fun l => l <| chload := ch |> |>);;
      l ← gets lbt_of;
      x ← (if negb (halow_ack_is_internal_frame d) then
             db ← gets nearby;
             db ← lift (nearby_modem_package_register int_oob (mk_pkg (addr2 hdr) (blen d) (i_mcs info) (i_signal info)
                     (i8 (i_signal info - halow_lbt_background_short_dbm_get l)) (u32 time_s)) db);
             modify (fun s => s <| nearby := db |> <| rx_leds ::= fun n => n + 1 |>)
           else
             rx_forensics_capture hdr d;;
             modify (fun s => s <| g_rx_cls_internal ::= fun n => u32 (n + 1) |>));
      k x) Q s.
Proof using Type.
  intros [Hnear Hcap Hwr Hack Hdb] Ha Hl Hm HQ. destruct (chload_rx_frame_total (blen d) (i_mcs info) Hl Hm) as (us & Eus & _).
  apply wp_bind, wp_gets, wp_bind. eapply wp_lift; [unfold halow_chload_note_rx; rewrite Eus; reflexivity|].
  apply wp_bind, wp_modify, wp_bind, wp_gets, wp_bind. rsimpl.
  destruct (halow_ack_is_internal_frame d) eqn:Ei; cbn [negb].
  - apply wp_bind, wp_capture; [by rsimpl|done|]. intros cap Hc. apply wp_modify, HQ. split; rsimpl; try done.
    + by exists us.
    + by rewrite Ei.
    + split; rsimpl; try done. apply u32_range.
  - apply wp_bind, wp_gets. rsimpl. apply wp_bind.
    destruct (register_spec int_oob (mk_pkg (addr2 hdr) (blen d) (i_mcs info) (i_signal info)
      (i8 (i_signal info - halow_lbt_background_short_dbm_get (lbt_of s))) (u32 time_s)) _ Hnear) as (db & Edb & Hok & Hs).
    eapply wp_lift; [exact Edb|]. apply wp_modify, HQ. split; rsimpl; try done.
    + by exists us.
    + by rewrite Ei.
Qed.
End Handled.

(** C36: a received frame reaches the reliability layer and the TCP client
    only when it is addressed to everybody or to the node's address of that
    moment; any other frame changes only the load meter, the table of nearby
    modems and the debug counters.  Every frame that carries data counts for
    the channel load; only frames that are not acknowledgements count as
    traffic of a neighbour.  The handler never faults, whatever the bytes, and
    keeps the invariants of every part it calls. *)
Theorem node_frame_handled {W} `{AckEnv W} `{Kvdb W} `{PkgEnv W} submitted (P : W -> Prop) `{!WorldOk submitted P}
    `{!StoreOk P} `{!PkgOk P} K others db_others shl_oob int_oob sha256 stack_info time_s j1 j2 info hdr data (s : node W) :
  others_ok submitted P K others -> (forall db, db_ok db -> db_ok (db_others db)) -> (forall m, length (sha256 m) = 32%nat) ->
  node_ok submitted P s -> mac_ok (addr2 hdr) -> is_u8 (i_mcs info) -> is_bytes (default [] data) ->
  exists s', halow_rx_handler others db_others shl_oob int_oob sha256 stack_info time_s j1 j2 info hdr data s = Some (tt, s') /\
    node_ok submitted P s' /\
    (default [] data = [] -> s' = s) /\
    (default [] data <> [] ->
     frame_handled others db_others shl_oob int_oob sha256 stack_info time_s j1 j2 info hdr
       (take (Z.to_nat (u16 (blen (default [] data)))) (default [] data)) s s').
Proof.
  intros Ho Hdb Hsha Hok Ha Hm Hb. destruct data as [data|]; [|by exists s]. change (default [] (Some data)) with data in *. unfold halow_rx_handler. cbv zeta.
  destruct (Z.leb_spec (blen data) 0) as [Hz|Hz].
  { exists s. split_and!; try done. intros Hne. unfold blen in Hz. destruct data; [done|cbn in Hz; lia]. }
  set (d := take (Z.to_nat (u16 (blen data))) data).
  assert (Hd : u16 (blen data) = blen d /\ is_u16 (blen d) /\ is_bytes d).
  { pose proof (u16_range (blen data)) as Hu. unfold is_u16 in Hu. assert (u16 (blen data) <= blen data) by (unfold u16; apply Z.mod_le; lia).
    split_and!; [unfold d, blen in *; rewrite length_take; lia|unfold is_u16, d, blen in *; rewrite length_take; lia|by apply Forall_take]. }
  destruct Hd as (-> & Hu & Hbd). destruct Ha as [Ha6 Hab].
  match goal with |- exists s', ?m s = _ /\ _ => assert (Hw : wp m (fun _ s' => node_ok submitted P s' /\
    frame_handled others db_others shl_oob int_oob sha256 stack_info time_s j1 j2 info hdr d s s') s) end;
    [|apply wp_elim in Hw as ([] & s' & E & Hok' & Hf); exists s'; split_and!; [exact E|done|intros ->; unfold blen in Hz; cbn in Hz; lia|done]].
  apply (wp_first_half submitted P); [done..|]. intros s1 [Hlbt Hcl Hpr Hpk Hda Hnm [Hn1 Hc1 Hw1 Ha1 Hd1]].
  apply wp_bind, wp_gets, wp_bind, wp_modify. rsimpl. rewrite Hpr. set (my := mac_generator_get j1 j2 (privacy s)).
  assert (Hmine : (if negb (bool_decide (addr3 hdr = mac_broadcast)) && negb (bool_decide (addr3 hdr = my.1)) then false else true) =
    bool_decide (addr3 hdr = mac_broadcast \/ addr3 hdr = my.1)).
  { do 2 case_bool_decide; symmetry; first [apply bool_decide_eq_true; tauto|apply bool_decide_eq_false; tauto]. }
  destruct (negb _ && negb _) eqn:Em.
  - apply wp_bind, wp_capture; [by rsimpl|done|]. intros cap Hc. apply wp_modify. split.
    + split; rsimpl; try done. apply u32_range.
    + unfold frame_handled. cbv zeta. fold my. rewrite <- Hmine. rsimpl. rewrite Hnm, Hda, Hpk. by split_and!.
  - apply wp_bind, wp_modify. rsimpl. unfold wp, on_pkg. rsimpl.
    assert (Hg : good submitted P K (pkg s1) (pkg s1)) by (split; [by apply At_refl|done]).
    pose proof (good_rf_to_tcp submitted P K others Ho db_others Hdb sha256 Hsha stack_info shl_oob d (addr2 hdr) (Some (addr3 hdr)) (i_evm info)
      (pkg s1) (pkg s1) (fun _ k => good submitted P K (pkg s1) k) Hg Hbd) as Hw. unfold is_u16 in Hu.
    specialize (Hw ltac:(lia) (conj Ha6 Hab) ltac:(done)). unfold wp in Hw.
    destruct (halow_pkg_handler_rf_to_tcp _ _ _ _ _ _ _ _ _ (pkg s1)) as [[[] k]|] eqn:Ek; [|done]. destruct Hw as [HA HD]. split.
    + split; rsimpl; try done. apply HA.
    + unfold frame_handled. cbv zeta. fold my. rewrite <- Hmine. rsimpl. rewrite <- Hpk, Ek, Hda, Hnm. by split_and!.
Qed.

Definition desk_node : node desk :=
  mk_node (mk_lbt false None 0 0 halow_chload_reset) nearby_start (mk_macgen (mk_privacy 1 0) [2; 0; 0; 0; 0; 1] (replicate 6 7) 0 true) 0 0 0 0
    (replicate 8 (replicate 16 0)) 0 desk_start.
Lemma desk_node_ok : node_ok anys anyw desk_node.
Proof.
  split; [apply start_nearby| |done|apply desk_ack_inv|apply desk_db].
  split; [done|]. by apply Forall_replicate.
Qed.

Lemma node_frame_handled_witness :
  exists s', halow_rx_handler alone untouched (fun _ => 0) (fun _ => 0) sum_digest zero_info 5 1000 1000 (mk_rxi 2 (-20) (-70)) (mk_hdr mac1 mac_broadcast)
      (Some (data_packet 0x7E)) desk_node = Some (tt, s') /\
    node_ok anys anyw s' /\
    (default [] (Some (data_packet 0x7E)) = [] -> s' = desk_node) /\
    (default [] (Some (data_packet 0x7E)) <> [] ->
     frame_handled alone untouched (fun _ => 0) (fun _ => 0) sum_digest zero_info 5 1000 1000 (mk_rxi 2 (-20) (-70)) (mk_hdr mac1 mac_broadcast)
       (take (Z.to_nat (u16 (blen (data_packet 0x7E)))) (data_packet 0x7E)) desk_node s').
Proof.
  apply (node_frame_handled anys anyw (fun _ => False) alone untouched (fun _ => 0) (fun _ => 0) sum_digest zero_info 5 1000 1000 (mk_rxi 2 (-20) (-70))
    (mk_hdr mac1 mac_broadcast) (Some (data_packet 0x7E)) desk_node).
  - apply alone_ok.
  - done.
  - apply sum_digest_length.
  - apply desk_node_ok.
  - apply bench_mac1.
  - by_eval.
  - by_eval.
Defined.
