(* ===== verification/ConfigApi.v ===== *)
(** * The settings endpoints: [config_page/config_api_calls.c]

    What the POST handlers make of a JSON body, settings group by settings
    group, on top of the modules that own the settings; and the choice of the
    links that are listed.  cJSON is seen through the items of an object. *)

From S2P Require Import Prelude Monad StreamParser LinkParser LinkDb ConfigDb Halow Lwrb AckWire AckPeer AckState AckConfig.
From S2P Require Import Dhcpd Chload Lbt Net TcpServer UartSlip Http NetLog Utils Cca Telemetry Node.
From stdpp Require Import strings sorting.
From Stdlib Require Import SpecFloat.

#[local] Open Scope Z_scope.

#[export] Instance eta_slip_cfg : Eta uart_slip_config := fun c => mk_slip_cfg (UartSlip.enabled c) (baud c) (slip_ip c) (slip_mask c) (slip_gw c).
#[export] Instance eta_netlog_cfg : Eta net_log_config := fun c => mk_netlog_cfg (NetLog.enable c) (NetLog.ip c) (NetLog.port c).
#[export] Instance eta_tcp_cfg : Eta tcp_server_config := fun c =>
  mk_tcp_config (TcpServer.enabled c) (TcpServer.port c) (TcpServer.whitelist_ip c) (TcpServer.whitelist_mask c).

(** ** JSON as the handlers see it *)

Inductive jval := JBool (b : bool) | JNumber (valueint : Z) (valuedouble : spec_float) | JString (valuestring : list Z) | JOther.
(** [cJSON_GetObjectItemCaseSensitive]: the first item of that name. *)
Definition json : Type := string -> option jval.

Definition json_get_bool (o : json) (k : string) : option bool := match o k with Some (JBool b) => Some b | _ => None end.
Definition json_get_int (o : json) (k : string) : option Z := match o k with Some (JNumber v _) => Some v | _ => None end.
Definition json_get_double (o : json) (k : string) : option spec_float := match o k with Some (JNumber _ d) => Some d | _ => None end.
(** [strncpy(out, s, out_sz - 1)] with the final zero; the text is [cstr] of it. *)
Definition json_get_string (o : json) (k : string) (out_sz : Z) : option (list Z) :=
  match o k with Some (JString s) => Some (take (Z.to_nat (out_sz - 1)) s) | _ => None end.
(** The item, if there, must be a text that is an address. *)
Definition json_get_addr (aton : list Z -> option Z) (o : json) (k : string) (v : Z) : option Z :=
  match o k with None => Some v | Some (JString s) => aton s | Some _ => None end.

(** A handler's answer: the code of the GET that ends it, or [api_err]. *)
Inductive answer := Answered | Refused (err : string).
Definition rc_of (a : answer) : Z := match a with Answered => 0 | Refused _ => WEB_API_RC_BAD_REQUEST end.
(** [in]: NULL and what is no object are both refused. *)
Definition bad_json : answer := Refused "bad json".

(** [double] arithmetic, and the conversion to an integer: [None] where the
    value does not fit in [lo .. hi], which C leaves undefined. *)
Definition f64_of_Z (z : Z) : spec_float := binary_normalize 53 1024 z 0 false.
Definition f64_to_int (lo hi : Z) (d : spec_float) : option Z :=
  match d with
  | S754_zero _ => Some 0
  | S754_finite s m e =>
      let v := if 0 <=? e then Z.pos m * 2 ^ e else Z.pos m / 2 ^ (- e) in
      let v := if s then - v else v in
      if (lo <=? v) && (v <=? hi) then Some v else None
  | _ => None
  end.
(** [d * 10.0 + 0.5] *)
Definition tenths (d : spec_float) : spec_float := SFadd 53 1024 (SFmul 53 1024 d (f64_of_Z 10)) (SFdiv 53 1024 (f64_of_Z 1) (f64_of_Z 2)).

(** A number within limits replaces a field. *)
Definition int_in (o : json) (k : string) (lo hi cur : Z) : Z :=
  match json_get_int o k with Some v => if (lo <=? v) && (v <=? hi) then v else cur | None => cur end.
Definition flag_in (o : json) (k : string) (cur : Z) : Z := match json_get_int o k with Some v => if v =? 0 then 0 else 1 | None => cur end.
Definition bool_in (o : json) (k : string) (cur : Z) : Z := match json_get_bool o k with Some b => if b : bool then 1 else 0 | None => cur end.

(** ** Radio: [/api/halow_cfg] *)

Definition atoi_c (s : list Z) : Z := default 0 (atoi (s ++ [0])).
Definition halow_update (o : json) (c : halow_config) : option (string + halow_config) :=
  let c := match o "bandwidth" with
           | Some (JString s) => let bw := atoi_c s in if (0 <? bw) && (bw <? 64) then c <| Halow.bandwidth := bw |> else c
           | _ => c
           end in
  let c := match o "mcs_index" with
           | Some (JString s) =>
               if bool_decide (take 3 s = str "MCS") then
                 let m := atoi_c (drop 3 s) in
                 if (0 <=? m) && ((m <=? 7) || (m =? 10)) then c <| Halow.mcs := m |> else c
               else c
           | _ => c
           end in
  let power :=
    match json_get_int o "power_dbm" with
    | None => inr c
    | Some i =>
        if (i <? 1) || (25 <? i) then inl "power_dbm must be in range 1..25 dBm"
        else if 20 <? i then inr (c <| Halow.rf_super_power := 1 |> <| Halow.rf_power := i - 5 |>)
        else inr (c <| Halow.rf_super_power := 0 |> <| Halow.rf_power := i |>)
    end in
  match power with
  | inl e => Some (inl e)
  | inr c =>
      match json_get_double o "central_freq" with
      | Some d => if SFltb (f64_of_Z 0) d then f ← f64_to_int 0 65535 (tenths d); Some (inr (c <| Halow.central_freq := f |>)) else Some (inr c)
      | None => Some (inr c)
      end
  end.

Section Handlers.
Context {D : Type} `{Kvdb D}.

(** The answer, what [halow_config_apply] programs, and the store; [junk]:
    the uninitialised settings on the stack, [ready]: the radio is up. *)
Definition web_api_halow_cfg_post (junk : halow_config) (ready : bool) (body : option json) (d : D)
  : option (answer * list modem_setting * D) :=
  match body with
  | None => Some (bad_json, [], d)
  | Some o =>
      r ← halow_update o (halow_config_load junk d);
      Some (match r with
            | inl e => (Refused e, [], d)
            | inr c => (Answered, halow_config_apply ready c, halow_config_save c d)
            end)
  end.

(** ** SLIP: [/api/slip_cfg] *)

Variable ip4addr_aton : list Z -> option Z.

Definition slip_update (o : json) (c : uart_slip_config) : string + uart_slip_config :=
  let c := match json_get_bool o "enable" with Some b => c <| UartSlip.enabled := b |> | None => c end in
  let baud_of := match json_get_int o "baud" with Some v => if v <? 1 then None else Some v | None => Some (baud c) end in
  match baud_of with
  | None => inl "bad baud"
  | Some v =>
      let c := c <| baud := v |> in
      match json_get_addr ip4addr_aton o "ip" (slip_ip c) with
      | None => inl "bad ip"
      | Some ip =>
          match json_get_addr ip4addr_aton o "mask" (slip_mask c) with
          | None => inl "bad mask"
          | Some m =>
              match json_get_addr ip4addr_aton o "gw" (slip_gw c) with
              | None => inl "bad gw"
              | Some g => inr (c <| slip_ip := ip |> <| slip_mask := m |> <| slip_gw := g |>)
              end
          end
      end
  end.
Definition web_api_slip_cfg_post {N} (malloc_ok post_ok : bool) (body : option json) (s : slip N D) : answer * slip N D :=
  match body with
  | None => (bad_json, s)
  | Some o =>
      match slip_update o (uart_slip_config_load (slip_db s)) with
      | inl e => (Refused e, s)
      | inr c => (Answered, uart_slip_config_apply malloc_ok post_ok c (s <| slip_db ::= uart_slip_config_save c |>))
      end
  end.

(** ** Log: [/api/log_cfg] *)

Definition log_update (o : json) (c : net_log_config) : string + net_log_config :=
  let c := match json_get_bool o "udp_enable" with
           | Some b => c <| NetLog.enable := b |>
           | None => match json_get_bool o "enable" with Some b => c <| NetLog.enable := b |> | None => c end
           end in
  let key := match o "host" with Some _ => "host" | None => "ip_address" end in
  match json_get_addr ip4addr_aton o key (NetLog.ip c) with
  | None => inl "bad host"
  | Some a =>
      let c := c <| NetLog.ip := a |> in
      match json_get_int o "port" with
      | Some v => if (v <? 1) || (65535 <? v) then inl "bad port" else inr (c <| NetLog.port := v |>)
      | None => inr c
      end
  end.
Definition web_api_log_cfg_post (body : option json) (d : D) (s : net_log) : answer * D * net_log :=
  match body with
  | None => (bad_json, d, s)
  | Some o =>
      match log_update o (net_log_config_load d) with
      | inl e => (Refused e, d, s)
      | inr c => (Answered, net_log_config_save c d, net_log_config_apply c s)
      end
  end.

(** ** Addresses and DHCP server: [/api/net_cfg] *)

Definition net_update (o : json) (d : D) : string + net_ip_config :=
  let dhcp := default false (json_get_bool o "dhcp") in
  let text k := default [] (json_get_string o k 16) in
  match o "dhcp" with
  | None => inr (net_ip_config_load d)
  | Some _ =>
      let c := net_ip_config_set_default <| Net.mode := if dhcp then NET_IP_MODE_DHCP else NET_IP_MODE_STATIC |> in
      if negb dhcp then
        match ip4addr_aton (text "ip_address") with
        | None => inl "bad ip_address"
        | Some ip =>
            match ip4addr_aton (text "netmask") with
            | None => inl "bad netmask"
            | Some m =>
                match ip4addr_aton (text "gw_address") with
                | None => inl "bad gw_address"
                | Some g => inr (c <| Net.addr := ip |> <| Net.mask := m |> <| Net.gw := g |>)
                end
            end
        end
      else inr c
  end.
(** [post1], [post2]: the mailbox has room for the address change and for the
    server's start or stop. *)
Definition web_api_net_cfg_post {N} `{Netif N} (malloc_ok post1 post2 : bool) (body : option json) (s : net (N := N) (D := D)) : answer * net (N := N) (D := D) :=
  match body with
  | None => (bad_json, s)
  | Some o =>
      match net_update o (db s) with
      | inl e => (Refused e, s)
      | inr c =>
          let s := net_ip_config_apply malloc_ok post1 c s in
          let s := s <| db ::= net_ip_config_save c |> in
          match o "dhcp_srv" with
          | None => (Answered, net_dhcpd_on_netcfg post2 s)
          | Some _ =>
              let srv := default false (json_get_bool o "dhcp_srv") in
              if srv && (Net.mode c =? NET_IP_MODE_DHCP) then (Refused "DHCP server requires static IP mode", s)
              else (Answered, net_dhcpd_on_netcfg post2 (net_dhcpd_set_enabled (if srv then 1 else 0) s))
          end
      end
  end.
(** ** TCP server: [/api/tcp_server_cfg] *)

Definition tcp_update (o : json) (c : tcp_server_config) : tcp_server_config :=
  let enable := default false (json_get_bool o "enable") in
  let port := default 0 (json_get_int o "port") in
  let c := match o "enable" with Some _ => c <| TcpServer.enabled := enable |> | None => c end in
  let c := if (1 <=? port) && (port <=? 65535) then c <| TcpServer.port := port |> else c in
  match json_get_string o "whitelist" 32 with
  | Some w =>
      if bool_decide (w = []) then c
      else
        match utils_cidr_to_ip ip4addr_aton w with
        | None => c
        | Some ip =>
            match utils_cidr_to_mask w with
            | None => c
            | Some m => c <| TcpServer.whitelist_ip := ip |> <| TcpServer.whitelist_mask := m |>
            end
        end
  | None => c
  end.
Definition web_api_tcp_server_cfg_post {W} (body : option json) (d : D) (s : tcp_server W) : answer * D * tcp_server W :=
  match body with
  | None => (bad_json, d, s)
  | Some o =>
      let c := tcp_update o (tcp_server_config_load d) in
      let '(d, s) := tcp_server_config_save c d (tcp_server_config_apply c s) in
      (Answered, d, s)
  end.

(** ** Listen before talk: [/api/lbt_cfg] *)

Definition lbt_update (o : json) (c : lbt_config) : lbt_config :=
  c <| lbt_enabled ::= bool_in o "en" |>
    <| noise_short_window_samples ::= int_in o "sw" 1 4096 |>
    <| noise_long_window_samples ::= int_in o "lw" 1 4096 |>
    <| noise_long_low_percent ::= int_in o "lp" 0 100 |>
    <| noise_relative_offset_dbm ::= int_in o "roff" (-128) 127 |>
    <| noise_absolute_busy_dbm ::= int_in o "abusy" (-128) 127 |>
    <| tx_skip_check_time_us ::= int_in o "txgr" 0 65535 |>
    <| tx_max_continuous_time_ms ::= int_in o "txmax" 0 65535 |>
    <| backoff_random_min_us ::= int_in o "bmin" 0 65535 |>
    <| backoff_random_max_us ::= int_in o "bmax" 0 65535 |>
    <| util_enabled ::= bool_in o "uen" |>
    <| util_max_percent ::= int_in o "umax" 0 100 |>
    <| util_refill_window_ms ::= int_in o "uwin" 1 (2 ^ 31 - 1) |>
    <| util_bucket_capacity_ms ::= int_in o "uburst" 0 65535 |>.
Definition web_api_lbt_cfg_post (bufs : option (list Z * list Z * list Z)) (task_ok : bool) (body : option json) (d : D) (s : lbt) : answer * D * lbt :=
  match body with
  | None => (bad_json, d, s)
  | Some o =>
      let c := lbt_update o (halow_lbt_config_load d) in
      (Answered, halow_lbt_config_save c d, halow_lbt_config_apply c bufs task_ok s)
  end.

(** ** Channel assessment: [/api/cca_cfg] *)

Definition tenths_in (o : json) (k : string) (lo hi cur : Z) : option Z :=
  match json_get_double o k with
  | Some d => t ← f64_to_int (- 2 ^ 31) (2 ^ 31 - 1) (tenths d); Some (if (lo <=? t) && (t <=? hi) then t else cur)
  | None => Some cur
  end.
Definition cca_update (o : json) (c : halow_cca_config) : option halow_cca_config :=
  let c := c <| cca_enabled ::= flag_in o "en" |> in
  f ← tenths_in o "ftpct" 1 1000 (cca_force_tx_pct c);
  l ← tenths_in o "dlpct" 0 1000 (duty_limit_pct c);
  Some (c <| cca_force_tx_pct := f |> <| duty_limit_pct := l |>
          <| cw_min ::= int_in o "cwmin" 1 2047 |> <| cw_max ::= int_in o "cwmax" 1 2047 |>
          <| cca_threshold_dynamic ::= flag_in o "thdyn" |> <| cca_sensitivity ::= int_in o "sens" 0 10 |>).
(** The answer, the radio's copy and the store: what is handed to the radio
    is not yet sanitized. *)
Definition web_api_cca_cfg_post (body : option json) (lmac : halow_cca_config) (d : D) : option (answer * halow_cca_config * D) :=
  match body with
  | None => Some (bad_json, lmac, d)
  | Some o =>
      c ← cca_update o (halow_cca_config_load d);
      Some (Answered, halow_cca_config_apply c lmac, (halow_cca_config_save c d).2)
  end.

(** ** Telemetry: [/api/telemetry_cfg] *)

(** [float_bits]: [(float)] of a double, as bits. *)
Definition telemetry_update (float_bits : spec_float -> Z) (o : json) (c : telemetry_config) : telemetry_config :=
  let text k cur := match json_get_string o k 32 with Some s => text32 s | None => cur end in
  let float k cur := match json_get_double o k with Some d => float_bits d | None => cur end in
  c <| Telemetry.enabled ::= bool_in o "en" |> <| extended_enabled ::= bool_in o "ext" |>
    <| send_period_s ::= int_in o "prd" 1 (2 ^ 31 - 1) |> <| Telemetry.port ::= int_in o "port" 0 65535 |>
    <| latitude ::= float "lat" |> <| longitude ::= float "lon" |>
    <| directional ::= bool_in o "dir_en" |> <| direction ::= int_in o "dir" (-32768) 32767 |>
    <| domain ::= text "host" |> <| username ::= text "usr" |> <| password ::= text "pwd" |> <| topic ::= text "top" |> <| nodename ::= text "name" |>
    <| lxmf ::= fun cur =>
         match json_get_string o "lxmf" 33 with
         | Some h =>
             if Z.of_nat (length h) =? 32 then
               match hex32_to_bin16 (h ++ [0]) with
               | Some (inl b) => b
               | Some (inr b) => b ++ drop (length b) cur
               | None => cur
               end
             else cur
         | None => cur
         end |>.
(** The answer, the store, and whether a report is scheduled. *)
Definition web_api_telemetry_cfg_post (float_bits : spec_float -> Z) (tmp_ok : bool) (hostname : option (list Z)) (body : option json) (d : D)
  : answer * D * bool :=
  match body with
  | None => (bad_json, d, false)
  | Some o =>
      let '(c, d) := telemetry_config_save tmp_ok (telemetry_update float_bits o (telemetry_config_load hostname d)) d in
      (Answered, d, negb (Telemetry.enabled c =? 0))
  end.

(** ** Privacy: [/api/privacy_cfg] *)

(** [in] is not checked to be an object; [cJSON_GetObjectItem] finds nothing
    in what is none. *)
Definition privacy_update (o : json) (c : mac_generator_config) : option mac_generator_config :=
  rot ← match json_get_double o "rotation" with
        | Some d =>
            r ← f64_to_int (- 2 ^ 31) (2 ^ 31 - 1) d;
            let r := if r <? 0 then 0 else r in
            Some (if 10080 <? r then 10080 else r)
        | None => Some (rotation_minutes c)
        end;
  Some (mk_privacy rot (match json_get_bool o "broadcast" with Some b => if b : bool then 1 else 0 | None => broadcast_mac c end)).
Definition web_api_privacy_cfg_post (tmp_ok : bool) (jiffies : Z) (body : option json) (s : mac_gen) (d : D) : option (Z * mac_gen * D) :=
  match body with
  | None => Some (WEB_API_RC_BAD_REQUEST, s, d)
  | Some o =>
      c ← privacy_update o (mac_generator_config_load d);
      let d := mac_generator_config_save c d in
      let '(s, d) := mac_generator_config_apply tmp_ok jiffies c s d in
      Some (0, s, d)
  end.
End Handlers.

(** ** Reliability layer: [/api/ack_cfg] *)

Definition ack_update (o : json) (c : ack_config) : ack_config :=
  c <| AckState.max_retries ::= int_in o "retries" 0 8 |> <| rate_adapt ::= flag_in o "rate_adapt" |> <| agg ::= flag_in o "agg" |>
    <| AckState.window ::= int_in o "window" 4 16 |> <| ack_fids ::= int_in o "fids" 1 32 |>
    <| bc_repeat ::= int_in o "bc_repeat" 1 HALOW_ACK_BC_REPEAT_MAX |> <| ack_hold_ms ::= int_in o "ack_hold_ms" 0 100 |>.
Definition web_api_ack_cfg_post {W} `{AckEnv W} `{Kvdb W} (others : option nat -> ack_state W -> ack_state W) (body : option json) : M (ack_state W) Z :=
  match body with
  | None => mret WEB_API_RC_BAD_REQUEST
  | Some o =>
      c ← halow_ack_config_get_live others;
      halow_ack_config_apply others (Some (ack_update o c));;
      mret 0
  end.

(** ** Which links are listed *)

Definition LINKS_API_MAX_ROWS : nat := 64.

(** [for (k = ntop; k > 0 && top[k - 1].t > t; k--) top[k] = top[k - 1]] on
    the array of stamps and indices; the result is [k]. *)
Fixpoint shift_up (k : nat) (t : Z) (top : list (Z * Z)) : option (nat * list (Z * Z)) :=
  match k with
  | O => Some (O, top)
  | S j => e ← top !! j;
           if t <? e.1 then (l ← wr top (Z.of_nat k) e; shift_up j t l) else Some (k, top)
  end.
(** [for (k = 1; k < 64 && top[k].t < t; k++) top[k - 1] = top[k]]. *)
Fixpoint shift_down (fuel k : nat) (t : Z) (top : list (Z * Z)) : option (nat * list (Z * Z)) :=
  match fuel with
  | O => Some (k, top)
  | S fuel => e ← top !! k;
              if e.1 <? t then (l ← wr top (Z.of_nat k - 1) e; shift_down fuel (S k) t l) else Some (k, top)
  end.
(** A link's turn in the first pass: the array and [ntop]. *)
Definition top_note (ti : Z * Z) (st : list (Z * Z) * nat) : option (list (Z * Z) * nat) :=
  let '(top, ntop) := st in
  if Nat.ltb ntop LINKS_API_MAX_ROWS then
    '(k, top) ← shift_up ntop ti.1 top;
    top ← wr top (Z.of_nat k) ti;
    Some (top, S ntop)
  else
    h ← top !! O;
    if h.1 <? ti.1 then
      '(k, top) ← shift_down (LINKS_API_MAX_ROWS - 1) 1 ti.1 top;
      top ← wr top (Z.of_nat k - 1) ti;
      Some (top, ntop)
    else Some (top, ntop).
Definition link_stamp (l : link) : Z := if lasttx_timestamp_s l <? lastrx_timestamp_s l then lastrx_timestamp_s l else lasttx_timestamp_s l.
Fixpoint top_pass (db : link_db) (idx : list Z) (st : list (Z * Z) * nat) : option (list (Z * Z) * nat) :=
  match idx with
  | [] => Some st
  | i :: idx =>
      match rns_link_db_link_snapshot_by_index db i with
      | None => top_pass db idx st
      | Some l => st ← top_note (link_stamp l, i) st; top_pass db idx st
      end
  end.
(** The indices of the second pass, newest first; [junk]: the array before. *)
Definition listed_links (db : link_db) (junk : list (Z * Z)) : option (list Z) :=
  '(top, ntop) ← top_pass db (seqZ 0 (rns_link_db_link_count_get db)) (junk, O);
  Some (reverse (take ntop top).*2).
(** The rows: links whose neighbour is known, in that order, from the table as
    it is by then. *)
Definition link_rows (db : link_db) (idx : list Z) : list link :=
  filter (fun l => existsb (fun b => negb (b =? RNS_LINK_MAC_UNKNOWN_BYTE)) (remote_mac l)) (omap (rns_link_db_link_snapshot_by_index db) idx).

(** *** The two loops move entries by one place *)

Lemma shift_up_spec t l y r : exists l1 l2 z, shift_up (length l) t (l ++ y :: r) = Some (length l1, l1 ++ z :: l2 ++ r) /\ l = l1 ++ l2 /\
  Forall (fun e => t < e.1) l2 /\ (forall e, last l1 = Some e -> e.1 <= t).
Proof.
  revert y r. induction l as [|e l IH] using rev_ind; intros y r.
  { exists [], [], y. split_and!; try done. }
  rewrite length_app. cbn [length]. rewrite Nat.add_1_r. cbn [shift_up].
  assert (El : (l ++ [e]) ++ y :: r = l ++ e :: y :: r) by by rewrite <- app_assoc. rewrite El.
  rewrite (list_lookup_middle l (y :: r) e (length l)) by done. cbn [mbind option_bind].
  destruct (Z.ltb_spec t e.1) as [Hlt|Hge].
  - rewrite wr_in_bounds by (rewrite length_app; cbn; lia). cbn [mbind option_bind].
    assert (Ew : <[Z.to_nat (Z.of_nat (S (length l))) := e]> (l ++ e :: y :: r) = l ++ e :: e :: r).
    { rewrite Nat2Z.id, insert_app_r_alt by lia. replace (S (length l) - length l)%nat with 1%nat by lia. done. }
    rewrite Ew. destruct (IH e (e :: r)) as (l1 & l2 & z & -> & -> & Hf & Hl). exists l1, (l2 ++ [e]), z. split_and!.
    + by rewrite <- app_assoc.
    + by rewrite <- app_assoc.
    + apply Forall_app. split; [done|]. by apply Forall_singleton.
    + done.
  - exists (l ++ [e]), [], y. split_and!; [|by rewrite app_nil_r|done|].
    + rewrite length_app. cbn [length app]. do 2 f_equal; [lia|done].
    + intros e' He. rewrite last_snoc in He. by injection He as <-.
Qed.
Lemma shift_down_spec t l : forall p y, exists l1 l2 z, shift_down (length l) (length p + 1) t (p ++ y :: l) = Some (length p + 1 + length l1, p ++ l1 ++ z :: l2)%nat /\ l = l1 ++ l2 /\
  Forall (fun e => e.1 < t) l1 /\ (forall e, head l2 = Some e -> t <= e.1).
Proof.
  induction l as [|e l IH]; intros p y.
  { exists [], [], y. cbn. rewrite Nat.add_0_r. split_and!; try done. }
  cbn [length shift_down].
  assert (E1 : (p ++ y :: e :: l) !! (length p + 1)%nat = Some e).
  { rewrite lookup_app_r by lia. by replace (length p + 1 - length p)%nat with 1%nat by lia. }
  rewrite E1. cbn [mbind option_bind]. destruct (Z.ltb_spec e.1 t) as [Hlt|Hge].
  - rewrite wr_in_bounds by (rewrite length_app; cbn; lia). cbn [mbind option_bind].
    replace (Z.to_nat (Z.of_nat (length p + 1) - 1)) with (length p + 0)%nat by lia. rewrite insert_app_r. cbn [insert list_insert].
    destruct (IH (p ++ [e]) e) as (l1 & l2 & z & E & -> & Hf & Hh). rewrite <- !app_assoc, (length_app p [e]) in E. cbn [length app] in E.
    replace (S (length p + 1)) with (length p + 1 + 1)%nat by lia. rewrite E. exists (e :: l1), l2, z. split_and!; try done; [|by apply Forall_cons].
    cbn [length app]. do 2 f_equal. lia.
  - exists [], (e :: l), y. split_and!; try done; [by rewrite Nat.add_0_r|]. intros e' [= <-]. done.
Qed.

(** What is kept: at most 64, oldest first; what was dropped is no newer. *)
Definition by_stamp (a b : Z * Z) : Prop := a.1 <= b.1.
Record top_ok (seen kept dropped : list (Z * Z)) (top : list (Z * Z)) (ntop : nat) : Prop := {
  tk_len : length top = LINKS_API_MAX_ROWS;
  tk_kept : take ntop top = kept;
  tk_n : length kept = ntop;
  tk_perm : seen ≡ₚ kept ++ dropped;
  tk_sorted : StronglySorted by_stamp kept;
  tk_newer : forall a b, a ∈ dropped -> b ∈ kept -> a.1 <= b.1;
  tk_full : dropped <> [] -> ntop = LINKS_API_MAX_ROWS;
}.
Lemma sorted_insert l1 x l2 : StronglySorted by_stamp (l1 ++ l2) -> Forall (fun e => x.1 <= e.1) l2 ->
  (forall e, last l1 = Some e -> e.1 <= x.1) -> StronglySorted by_stamp (l1 ++ x :: l2).
Proof.
  induction l1 as [|a l1 IH]; cbn [app]; intros Hs Hf Hl.
  - constructor; [done|]. eapply Forall_impl; [exact Hf|]. done.
  - inversion Hs as [|? ? Hs' Ha]; subst. constructor.
    + apply IH; [done|done|]. intros e He. apply Hl. destruct l1; [done|exact He].
    + apply Forall_app in Ha as [Ha1 Ha2]. apply Forall_app. split; [done|]. apply Forall_cons. split; [|done].
      unfold by_stamp. destruct l1 as [|b l1]; [by apply Hl|].
      destruct (last (b :: l1)) as [e|] eqn:E; [|by apply last_None in E].
      pose proof (Hl e ltac:(exact E)). rewrite Forall_forall in Ha1. pose proof (Ha1 e) as Hae. unfold by_stamp in Hae.
      specialize (Hae ltac:(by eapply last_Some_elem_of)). lia.
Qed.

Lemma sorted_head (h : Z * Z) l b : StronglySorted by_stamp (h :: l) -> b ∈ h :: l -> h.1 <= b.1.
Proof.
  intros Hs Hb. inversion Hs as [|? ? _ Hh]; subst. apply elem_of_cons in Hb as [->|Hb]; [lia|].
  rewrite Forall_forall in Hh. by apply (Hh b).
Qed.
Lemma top_note_ok ti seen kept dropped top ntop : top_ok seen kept dropped top ntop ->
  exists top' ntop' kept' dropped', top_note ti (top, ntop) = Some (top', ntop') /\ top_ok (ti :: seen) kept' dropped' top' ntop'.
Proof.
  intros [Hlen Hk Hn Hp Hs Hnew Hfull]. unfold top_note. destruct (Nat.ltb_spec ntop LINKS_API_MAX_ROWS) as [Hlt|Hge].
  - assert (Hd : dropped = []) by (destruct dropped; [done|]; specialize (Hfull ltac:(done)); lia). subst dropped. rewrite app_nil_r in Hp.
    assert (Etop : exists y r, top = kept ++ y :: r).
    { rewrite <- (take_drop ntop top), Hk. destruct (drop ntop top) as [|y r] eqn:E; [|by exists y, r].
      apply (f_equal length) in E. rewrite length_drop in E. cbn in E. lia. }
    destruct Etop as (y & r & ->). rewrite <- Hn.
    destruct (shift_up_spec ti.1 kept y r) as (l1 & l2 & z & -> & Ek & Hf & Hl). cbn [mbind option_bind].
    assert (Hlr : length (l1 ++ z :: l2 ++ r) = LINKS_API_MAX_ROWS).
    { rewrite <- Hlen, Ek, !length_app. cbn [length]. rewrite length_app. lia. }
    rewrite wr_in_bounds by (rewrite length_app; cbn [length]; lia). cbn [mbind option_bind].
    rewrite Nat2Z.id. replace (length l1) with (length l1 + 0)%nat by lia. rewrite insert_app_r. cbn [insert list_insert].
    exists (l1 ++ ti :: l2 ++ r), (S (length kept)), (l1 ++ ti :: l2), []. split; [done|].
    assert (Hsz : length (l1 ++ ti :: l2) = S (length kept)) by (rewrite Ek, !length_app; cbn [length]; lia).
    split.
    + rewrite <- Hlr, !length_app. done.
    + change (l1 ++ ti :: l2 ++ r) with (l1 ++ (ti :: l2) ++ r). rewrite app_assoc. rewrite take_app_le by lia. apply take_ge. lia.
    + done.
    + rewrite app_nil_r, Hp, Ek. by rewrite Permutation_middle.
    + apply sorted_insert; [by rewrite <- Ek| |done]. eapply Forall_impl; [exact Hf|]. cbn. intros; lia.
    + intros a b Ha. by apply not_elem_of_nil in Ha.
    + done.
  - assert (En : ntop = LINKS_API_MAX_ROWS).
    { assert (length kept <= LINKS_API_MAX_ROWS)%nat by (rewrite <- Hk, length_take; lia). lia. }
    assert (Etop : top = kept) by (rewrite <- Hk; symmetry; apply take_ge; lia). subst top.
    destruct kept as [|h l]; [by rewrite En in Hn|]. cbn [lookup list_lookup mbind option_bind].
    pose proof (fun b => sorted_head h l b Hs) as Hh. inversion Hs as [|? ? Hsl Hhl]; subst.
    destruct (Z.ltb_spec h.1 ti.1) as [Hlt|Hle].
    + destruct (shift_down_spec ti.1 l [] h) as (l1 & l2 & z & E & El & Hf & Hh2). cbn [length app] in E.
      replace (LINKS_API_MAX_ROWS - 1)%nat with (length l) by (unfold LINKS_API_MAX_ROWS in *; cbn in *; lia).
      replace (0 + 1)%nat with 1%nat in E by lia. rewrite E. cbn [mbind option_bind].
      rewrite wr_in_bounds by (rewrite length_app; cbn [length]; lia). cbn [mbind option_bind].
      replace (Z.to_nat (Z.of_nat (1 + length l1) - 1)) with (length l1 + 0)%nat by lia. rewrite insert_app_r. cbn [insert list_insert].
      assert (Hl2 : Forall (fun e => ti.1 <= e.1) l2).
      { destruct l2 as [|e l2]; [done|]. specialize (Hh2 e eq_refl). subst l.
        assert (Hse : StronglySorted by_stamp (e :: l2)).
        { clear -Hsl. induction l1 as [|a l1 IH]; [done|]. cbn [app] in Hsl. inversion Hsl; subst. by apply IH. }
        apply Forall_forall. intros b Hb. pose proof (sorted_head e l2 b Hse Hb). lia. }
      exists (l1 ++ ti :: l2), (length (h :: l)), (l1 ++ ti :: l2), (h :: dropped). split; [done|].
      assert (Hsz : length (l1 ++ ti :: l2) = length (h :: l)) by (rewrite El; cbn [length]; rewrite !length_app; cbn [length]; lia).
      split.
      * by rewrite Hsz.
      * apply take_ge. by rewrite Hsz.
      * done.
      * rewrite Hp, El, <- (Permutation_middle (l1 ++ ti :: l2) dropped h), <- (Permutation_middle l1 l2 ti). cbn [app]. apply perm_swap.
      * apply sorted_insert; [by rewrite <- El|done|]. intros e He. rewrite Forall_forall in Hf. specialize (Hf e ltac:(by eapply last_Some_elem_of)). cbn in Hf. lia.
      * intros a b Ha Hb.
        assert (Hhb : h.1 <= b.1).
        { apply elem_of_app in Hb as [Hb|Hb]; [|apply elem_of_cons in Hb as [->|Hb]; [lia|]]; apply Hh; subst l; set_solver. }
        apply elem_of_cons in Ha as [->|Ha]; [done|]. specialize (Hnew a h Ha ltac:(left)). lia.
      * done.
    + exists (h :: l), (length (h :: l)), (h :: l), (ti :: dropped). split; [done|]. split; try done.
      * rewrite Hp. by rewrite Permutation_middle.
      * intros a b Ha Hb. specialize (Hh b Hb). apply elem_of_cons in Ha as [->|Ha]; [lia|]. specialize (Hnew a h Ha ltac:(left)). lia.
Qed.

(** The links of the table with their stamps, by index. *)
Definition stamped (db : link_db) (i : Z) : option (Z * Z) := (fun l => (link_stamp l, i)) <$> rns_link_db_link_snapshot_by_index db i.
Lemma top_pass_ok db idx : forall seen kept dropped top ntop, top_ok seen kept dropped top ntop ->
  exists top' ntop' kept' dropped', top_pass db idx (top, ntop) = Some (top', ntop') /\
    top_ok (reverse (omap (stamped db) idx) ++ seen) kept' dropped' top' ntop'.
Proof.
  induction idx as [|i idx IH]; intros seen kept dropped top ntop Hok; cbn [top_pass omap list_omap]; [by exists top, ntop, kept, dropped|].
  unfold stamped at 1. destruct (rns_link_db_link_snapshot_by_index db i) as [l|]; cbn [fmap option_fmap option_map]; [|by eapply IH].
  destruct (top_note_ok (link_stamp l, i) _ _ _ _ _ Hok) as (top1 & n1 & k1 & d1 & E & Hok1). rewrite E. cbn [mbind option_bind].
  destruct (IH _ _ _ _ _ Hok1) as (top' & n' & k' & d' & E' & Hok'). exists top', n', k', d'. split; [done|].
  rewrite reverse_cons, <- app_assoc. exact Hok'.
Qed.
(** The list of links never overruns its array, and shows the 64 links of
    latest activity, or all of them, newest first. *)
Lemma links_newest db junk : length junk = LINKS_API_MAX_ROWS ->
  exists kept dropped, listed_links db junk = Some (reverse kept.*2) /\
    omap (stamped db) (seqZ 0 (rns_link_db_link_count_get db)) ≡ₚ kept ++ dropped /\
    StronglySorted by_stamp kept /\ (length kept <= LINKS_API_MAX_ROWS)%nat /\ (dropped <> [] -> length kept = LINKS_API_MAX_ROWS) /\
    (forall a b, a ∈ dropped -> b ∈ kept -> a.1 <= b.1).
Proof.
  intros Hj. assert (H0 : top_ok [] [] [] junk 0).
  { split; try done; [constructor|]. intros a b Ha. by apply not_elem_of_nil in Ha. }
  destruct (top_pass_ok db (seqZ 0 (rns_link_db_link_count_get db)) _ _ _ _ _ H0) as (top & n & kept & dropped & E & [Hl Hk Hn Hp Hs Hnew Hf]).
  exists kept, dropped. unfold listed_links. rewrite E. cbn [mbind option_bind]. rewrite Hk. rewrite app_nil_r, reverse_Permutation in Hp.
  split; [done|]. split; [done|]. split; [done|]. split; [rewrite <- Hk, length_take; lia|]. split; [|done]. intros Hd. rewrite Hn. by apply Hf.
Qed.

(** ** Settings of the radio's channel assessment *)

(** What a POST hands to the radio is not what it saves: the limits that tie
    the two windows together are applied by the save only. *)
Lemma cca_post_unsanitized :
  let o := fun k => if bool_decide (k = "cwmin") then Some (JNumber 2047 (f64_of_Z 2047)) else None in
  (fun '(_, lmac, d) => (cw_min lmac, cw_max lmac, cw_min (halow_cca_config_load d), cw_max (halow_cca_config_load d))) <$>
    web_api_cca_cfg_post (Some o) halow_cca_config_set_default (∅ : gmap string (list Z)) = Some (2047, 1023, 2047, 2047).
Proof. vm_compute. reflexivity. Qed.
(** A frequency that does not fit in sixteen bits is converted without a
    check. *)
Lemma halow_post_overflow :
  let o := fun k => if bool_decide (k = "central_freq") then Some (JNumber 8645 (f64_of_Z 8645)) else None in
  web_api_halow_cfg_post halow_config_set_default true (Some o) (∅ : gmap string (list Z)) = None.
Proof. vm_compute. reflexivity. Qed.

(** ** Addresses and DHCP server *)

Section NetPost.
Context {N : Type} `{Netif N} {D : Type} `{KvdbLaws D} (ip4addr_aton : list Z -> option Z).
#[local] Abbreviation state := (net (N := N) (D := D)).

(** The tcpip thread takes as many callbacks; [outs]: the answers of [udp_new]
    and [udp_bind] to each. *)
Definition tcpip_run (outs : list (bool * bool)) (s : state) : state := foldl (fun s out => tcpip_step out.1 out.2 s) s outs.
Definition is_apply_cb (cb : net_callback) : bool := match cb with net_ip_apply_cb _ => true | net_dhcpd_start_cb | net_dhcpd_stop_cb => false end.
(** The server is what it was. *)
Definition server_as_in (s t : state) : Prop :=
  g_dhcpd_running t = g_dhcpd_running s /\ g_dhcpd_pcb t = g_dhcpd_pcb s /\ g_dhcpd_state t = g_dhcpd_state s.
(** The server's socket is open exactly when it is said to run. *)
Definition socket_ok (s : state) : Prop := g_dhcpd_pcb s = g_dhcpd_running s.
(** A server that runs is wanted, on an interface with a static address. *)
Definition server_lawful (s : state) : Prop :=
  g_dhcpd_running s = true -> net_dhcpd_enabled_cfg s = true /\ Net.mode (net_ip_config_load (db s)) = NET_IP_MODE_STATIC.

Lemma fill_state_ok s s' : net_dhcpd_fill_state s = (true, s') ->
  net_dhcpd_enabled_cfg s = true /\ Net.mode (net_ip_config_load (db s)) = NET_IP_MODE_STATIC.
Proof using Type.
  unfold net_dhcpd_fill_state. cbv zeta. destruct (_ || _); [done|]. destruct (Z.eqb_spec (Net.mode (net_ip_config_load (db s))) NET_IP_MODE_STATIC); [|done].
  cbn [negb]. destruct (net_dhcpd_enabled_cfg s); [|done]. by intros _.
Qed.
Lemma fill_state_same s : let s' := (net_dhcpd_fill_state s).2 in
  db s' = db s /\ g_dhcpd_pcb s' = g_dhcpd_pcb s /\ g_dhcpd_running s' = g_dhcpd_running s /\ mailbox s' = mailbox s /\ g_nif s' = g_nif s.
Proof using Type. unfold net_dhcpd_fill_state. cbv zeta. repeat case_match; simplify_eq; cbn [snd]; by rsimpl. Qed.
Lemma start_cb_lawful new_ok bind_ok s : socket_ok s -> server_lawful (run_start_cb new_ok bind_ok s) /\ socket_ok (run_start_cb new_ok bind_ok s).
Proof using Type.
  unfold socket_ok, server_lawful, run_start_cb, net_dhcpd_enabled_cfg. intros Hs. pose proof (fill_state_same s) as (E1 & E2 & E3 & _).
  destruct (net_dhcpd_fill_state s) as [ok s1] eqn:E. cbn [snd] in *. destruct ok; cbn [negb].
  - apply fill_state_ok in E as [En Em]. unfold net_dhcpd_enabled_cfg in En. rewrite <- E1 in En, Em.
    destruct (g_dhcpd_pcb s1) eqn:Ep; [split; [done|congruence]|]. destruct new_ok; cbn [negb]; [|split; [done|congruence]].
    destruct bind_ok; cbn [negb]; rsimpl; [by split|split; [done|congruence]].
  - unfold run_stop_cb. rsimpl. by split.
Qed.
(** A change of address leaves the server alone. *)
Lemma apply_cb_same c (s : state) : let s' := run_apply_cb c s in
  db s' = db s /\ g_dhcpd_pcb s' = g_dhcpd_pcb s /\ g_dhcpd_running s' = g_dhcpd_running s /\ mailbox s' = mailbox s /\ g_dhcpd_state s' = g_dhcpd_state s.
Proof using Type. unfold run_apply_cb. destruct (g_nif s); by rsimpl. Qed.
Lemma tcpip_step_same new_ok bind_ok (s : state) cb q : mailbox s = cb :: q -> socket_ok s ->
  let s' := tcpip_step new_ok bind_ok s in mailbox s' = q /\ socket_ok s' /\ db s' = db s /\ (is_Some (g_nif s) -> is_Some (g_nif s')).
Proof using Type.
  intros Hm Hs. unfold tcpip_step. rewrite Hm. cbv zeta. assert (Hs1 : socket_ok (s <| mailbox := q |>)) by (unfold socket_ok in *; by rsimpl). destruct cb as [c| |].
  - pose proof (apply_cb_same c (s <| mailbox := q |>)) as (E1 & E2 & E3 & E4 & _). rsimpl. unfold socket_ok in *. split_and!; [done|congruence|done|].
    unfold run_apply_cb. rsimpl. intros [n ->]. by rsimpl.
  - pose proof (start_cb_lawful new_ok bind_ok _ Hs1) as [_ Hso]. split; [|split; [done|]].
    all: unfold run_start_cb; pose proof (fill_state_same (s <| mailbox := q |>)) as (E1 & E2 & E3 & E4 & E5); destruct (net_dhcpd_fill_state _) as [ok s1]; cbn [snd] in *; rsimpl.
    all: destruct ok; cbn [negb]; [destruct (g_dhcpd_pcb s1); [|destruct new_ok; cbn [negb]; [destruct bind_ok; cbn [negb]|]]|unfold run_stop_cb]; rsimpl; try done.
    all: split; [done|congruence].
  - unfold run_stop_cb, socket_ok. rsimpl. by split_and!.
Qed.
(** What comes before the last callback. *)
Lemma tcpip_run_last q cb : forall outs (s : state), mailbox s = q ++ [cb] -> length outs = length (mailbox s) -> socket_ok s ->
  exists a b s1, tcpip_run outs s = tcpip_step a b s1 /\ mailbox s1 = [cb] /\ socket_ok s1 /\ db s1 = db s /\ (is_Some (g_nif s) -> is_Some (g_nif s1)).
Proof using Type.
  induction q as [|x q IH]; intros outs s Hm Hl Hs; rewrite Hm in Hl; destruct outs as [|[a b] outs]; try done; cbn [tcpip_run foldl fst snd app length] in *.
  - destruct outs; [|done]. by exists a, b, s.
  - destruct (tcpip_step_same a b s x (q ++ [cb]) Hm Hs) as (Hm1 & Hs1 & Ed & Hn).
    destruct (IH outs (tcpip_step a b s)) as (a' & b' & s1 & E & Em & Es & Ed' & Hn'); [done|rewrite Hm1; by injection Hl|done|].
    exists a', b', s1. split; [exact E|]. split; [done|]. split; [done|]. split; [congruence|auto].
Qed.
Lemma tcpip_run_as_in outs : forall s : state, forallb is_apply_cb (mailbox s) = true -> server_as_in s (tcpip_run outs s) /\ db (tcpip_run outs s) = db s.
Proof using Type.
  induction outs as [|[a b] outs IH]; intros s Ha; cbn [tcpip_run foldl fst snd]; [by split|].
  unfold tcpip_step at 2 4. destruct (mailbox s) as [|cb q] eqn:Em; [apply IH; by rewrite Em|]. cbn [forallb] in Ha. apply andb_true_iff in Ha as [Hc Hq].
  destruct cb as [c| |]; try done. cbv zeta. pose proof (apply_cb_same c (s <| mailbox := q |>)) as (E1 & E2 & E3 & E4 & E5). rsimpl.
  destruct (IH (run_apply_cb c (s <| mailbox := q |>))) as [(F1 & F2 & F3) F4]; [by rewrite E4|]. unfold tcpip_run in *. split; [|congruence]. split_and!; congruence.
Qed.
(** After the server's turn the state is lawful, whatever came before. *)
Lemma onnetcfg_lawful outs (s : state) : let s' := net_dhcpd_on_netcfg true s in
  socket_ok s -> length outs = length (mailbox s') -> server_lawful (tcpip_run outs s').
Proof using Type.
  cbv zeta. unfold net_dhcpd_on_netcfg, post. set (cb := if net_dhcpd_enabled_cfg s then net_dhcpd_start_cb else net_dhcpd_stop_cb). intros Hs Hl.
  destruct (tcpip_run_last (mailbox s) cb outs (s <| mailbox ::= fun q => q ++ [cb] |>)) as (a & b & s1 & -> & Hm1 & Hs1 & _); [by rsimpl|done|unfold socket_ok in *; by rsimpl|].
  unfold tcpip_step. rewrite Hm1. cbv zeta. subst cb. destruct (net_dhcpd_enabled_cfg s).
  - apply start_cb_lawful. unfold socket_ok in *. by rsimpl.
  - unfold server_lawful, run_stop_cb. by rsimpl.
Qed.
(** What a POST leaves before the server is looked at. *)
Lemma net_apply_same malloc_ok post1 c (s : state) : let s' := net_ip_config_apply malloc_ok post1 c s in
  (mailbox s' = mailbox s \/ mailbox s' = mailbox s ++ [net_ip_apply_cb c]) /\
  (net_ip_config_is_valid c = true -> malloc_ok = true -> post1 = true -> is_Some (g_nif s) -> mailbox s' = mailbox s ++ [net_ip_apply_cb c]) /\
  db s' = db s /\ server_as_in s s' /\ g_nif s' = g_nif s.
Proof using Type.
  unfold net_ip_config_apply, post, server_as_in. destruct (g_nif s) as [n|] eqn:Hn; [|split_and!; first [done | by left | by right | by intros _ _ _ []]]. cbv zeta.
  destruct (net_ip_config_is_valid c); cbn [negb]; [|split_and!; first [done | by left | by right | by intros _ _ _ []]]. destruct malloc_ok; cbn [negb]; [|split_and!; first [done | by left | by right | by intros _ _ _ []]].
  destruct post1; rsimpl; split_and!; first [done | by left | by right | by intros _ _ _ []].
Qed.
End NetPost.


(** An interface that knows whether it is a DHCP client; the node serves
    addresses on it. *)
Inductive client_nif := Client (on : bool).
#[export] Instance netif_client : Netif client_nif := {
  netif_ip4_addr _ := dotted 192 168 42 42; netif_ip4_netmask _ := dotted 255 255 255 0; netif_ip4_gw _ := 0;
  dhcp_stop _ := Client false; dhcp_start _ := Client true; netif_set_addr _ _ _ _ := Client false }.
Definition serving : net (N := client_nif) (D := gmap string (list Z)) :=
  mk_net (Some (Client false))
    (net_ip_config_save (mk_net_ip NET_IP_MODE_STATIC (dotted 192 168 42 42) (dotted 255 255 255 0) 0) (<[ "cfg.net.dhs"%string := le32 1 ]> ∅))
    [] true true (dhcpd_state_init 0 0 0 4) [] [].
Definition client_and_server : json := fun k => if bool_decide (k = "dhcp" \/ k = "dhcp_srv") then Some (JBool true) else None.
